(* ===== verification/_CoqProject ===== *)
-Q . S2P
Prelude.v
Bitmap.v
Layout.v
Mem.v
BgList.v
BgListThms.v
Alloc.v
AllocSpec.v
InodeSpec.v
Demo.v
AllocThms.v
Mkfs.v
Mount.v
MkfsSpec.v
MountThms.v
Indirect.v
IndirectSpec.v
IndirectGet.v
IndirectCreate.v
IndirectThms.v
DirHash.v
DirHashThms.v
Arr.v
BpTree.v
BpTreeOps.v
BpPairs.v
BpTreeSpec.v
BpSearch.v
BpSplit.v
BpUp.v
BpRemove.v
BpTreeThms.v
Dir.v
DirOps.v
DirApi.v
DirPath.v
Files.v
BpIndex.v
DirEntry.v
DirFind.v
DirMake.v
DirRmfile.v
DirMap.v
BpIndexLaws.v
DirThms.v
Xattr.v
XattrSpec.v
XattrThms.v
File.v
FileIO.v
FileOps.v
FileRules.v
FileWrite.v
FileSync.v
FileMap.v
FileThms.v
BufferCache.v
BufferRules.v
BufferFind.v
BufferUse.v
BufferFlush.v
BufferShrink.v
BufferClient.v
BufferThms.v
Reactor.v
ReactorSpec.v
ReactorRun.v
ReactorThms.v
Aio.v
InodeCache.v
IctxRules.v
IctxClient.v
IctxThms.v
ControlPlane.v
Ipc.v
ControlPlaneSpec.v
ControlPlaneOps.v
ControlPlaneInv.v
ControlPlaneThms.v
IpcThms.v
