(* ===== verification/Prelude.v ===== *)
(** * NVFUSE: a verification library for the user-space NVMe file system

    NVFUSE (src/) is a file system in user space on NVMe devices.  Its library
    has an allocator of inodes and blocks over block groups, a formatter and a
    mount, the ext2-style block map of files, directories with hash-indexed
    B+trees, extended attributes, open files, buffer and inode caches, a
    reactor that drives the device through rings of requests, queues for
    asynchronous I/O, and a control plane that hands block groups
    ("containers"), buffers and locks to data-plane processes over message
    rings.  This library models its own core logic as executable definitions
    and proves the theorems below about them.

    ** Conventions

    A C integer is a [Z]; results stored in a fixed-width variable are wrapped
    explicitly ([u32], [s32], ...).  A function on shared state is a
    computation of the monad [M]: [None] is an abnormal end (failed assert,
    access outside an object, a loop without end), error codes are values.
    Total correctness is stated with [wp], partial correctness of invariants
    with [wlp] (ControlPlaneSpec).  Loops that are not structural have fuel;
    running out of it is [None], so that every theorem that an operation
    returns also says that the fuel was enough.  The fuel is the number of
    bitmap positions, groups, containers, log chunks, list entries or dirty
    buffers there are; a loop that waits for the device has as fuel the
    requests and events there are, each pass of it consuming one.

    ** Files

    A file has one Module per part; definitions come first, then rules, then
    the file of theorems.

    - Prelude: integers, the monad, sums and counts, automation.
    - Bitmap: the bit operations of src/nvfuse_dep.c with their bit-level laws.
    - Layout: the structures of src/include/nvfuse_core.h and the descriptor of
      a group (nvfuse_make_bg_descriptor).  Mem: byte memory for tables and
      messages.
    - BgList, BgListThms: the circular list of groups with its search pointers
      (nvfuse_add_bg, nvfuse_remove_bg, nvfuse_get_next_bg_id,
      nvfuse_move_curr_bg_id of src/nvfuse_core.c).
    - Alloc: the allocator of src/nvfuse_core.c and the front end in
      src/nvfuse_indirect.c; AllocSpec and InodeSpec: the invariant [inv]
      (descriptors, bitmaps and superblock counters agree), abstract
      allocation and release steps; AllocThms: the operations refine them;
      Demo: concrete file systems for examples.
    - Mkfs: nvfuse_format of src/nvfuse_mkfs.c on a device of clusters; Mount:
      mount, unmount and the address of metadata blocks; MkfsSpec, MountThms:
      a formatted device satisfies the allocator invariant, and the life cycle
      of the superblock state.
    - Indirect: the block map of src/nvfuse_indirect.c; IndirectSpec,
      IndirectGet, IndirectCreate, IndirectThms: the tree as a partial map
      from file blocks to device blocks, lookup and allocation as refinements
      of operations on it, truncation of direct files.
    - DirHash, DirHashThms: src/nvfuse_dirhash.c and nvfuse_dir_hash; the CRC
      by words equals the CRC by bytes and is injective on short names, the
      ciphers are permutations, the packing fills its buffer, all hashes are
      total.
    - Arr: C arrays with checked indices; BpTree, BpTreeOps: the B+tree of
      src/nvfuse_bp_tree.c against the interface [BlockMap] of its file;
      BpPairs: the array routines as list operations, and (BpAlloc) the block
      bitmap of the file; BpTreeSpec: the abstract search tree, its shape, the
      blocks that hold it, paths; BpSearch (with BpWorld): descent, nodes being
      changed; BpSplit (with BpInsert), BpUp (with BpGrow, BpLeafSplit):
      insertion without and with splits; BpRemove (with BpInsertNew): creation
      and removal; BpTreeThms: the tree refines a finite map.
    - Dir: the state that directories share (inodes with their locks, blocks of
      entries with their buffers, the index, the clock) over two interfaces,
      [Store] for inodes and block maps and [Index] for the B+tree, and the
      index of a directory; DirOps: lookup and the searches for entries;
      DirApi: creation, removal, links, renaming, reading of src/nvfuse_api.c;
      DirPath: path resolution and the entry points that take paths.  Taking a
      lock that is taken spins for ever, which is an abnormal end.
    - Files: [Store] from the allocator and the block map; BpIndex: [Index]
      from the B+tree; BpIndexLaws: its laws (BpFrame: what an operation on one
      tree leaves alone), and (DirDemo) an instance of the interfaces for
      examples.
    - DirEntry: (DirSpec) the laws of the two interfaces and the invariant
      [dir_inv] that ties entries, index and links of a directory to a map from
      hashed names to entries, (DirIndex, DirEntry) rules for the index and
      for blocks of entries; DirFind (with DirLookup): searches and lookup;
      DirMake (with DirCreate, DirFirst): creation; DirRmfile (with DirRemove,
      DirShrink): removal; DirMap: sequences of operations against a map;
      DirThms.
    - Xattr: the extended attributes of src/nvfuse_xattr.c, an array of packed
      entries in a block of the inode, byte by byte, and the four functions on
      paths; XattrSpec: the array as a list of names with values; XattrThms.
    - File: the file table and the data buffers of src/nvfuse_core.c on top of
      Dir, over the interface [DataStore] of the device; FileIO: opening,
      closing, reading, writing, synchronisation; FileOps: truncation,
      attributes, symbolic links, preallocation (src/nvfuse_api.c).
    - FileRules: (FileSpec) the laws of the device, [file_ok] (a file holds an
      array of bytes) and [cache_ok] (clean buffers agree with the device),
      (FileRules) rules; FileWrite (with FileRead), FileSync: one lemma per
      operation; FileMap: sequences of operations against arrays of bytes,
      (FileOpen) opening by name on top of the directory lemmas, (FileDemo)
      examples; FileThms.
    - BufferCache: src/nvfuse_buffer_cache.c, the buffers on their five lists
      and in the hash table, buffer heads, flushing; the block map of inodes
      and the device are parameters.  BufferRules: (CacheLists) lists without
      duplicates, (BufferSpec) the well-formedness [bc_wf] and the abstract
      content of a block, (BufferRules) rules; BufferFind (with BufferOps),
      BufferUse (with BufferGet), BufferFlush, BufferShrink (with BufferInit):
      one lemma per operation; BufferClient: sequences of operations of a
      client against a store of blocks; BufferThms.
    - InodeCache: the inode contexts of src/nvfuse_inode_cache.c and their use
      in src/nvfuse_core.c, on top of BufferCache; IctxRules (IctxSpec,
      IctxRules): the invariant and rules; IctxClient (with IctxOps): sequences
      of operations against a map of inodes; IctxThms.
    - Reactor: the reactor of src/nvfuse_reactor.c, tasks, rings, submission,
      completion and waiting, with the block device as a parameter, whose
      completions are an argument of the run; ReactorSpec: rings as queues, the
      invariant of tasks; ReactorRun: (waiting) waiting for requests,
      (ReactorKept) every call keeps the invariant, (ReactorCalls) synchronous
      calls and bulk writes; ReactorThms.
    - Aio: src/nvfuse_aio.c; the queues and their jobs on top of the reactor
      and of an interface to the file API, (AioSpec) rules, (AioFiles) the
      instance of the interface by File, (AioThms) theorems.
    - ControlPlane: src/nvfuse_control_plane.c against the interface [FileApi]
      of the file API; Ipc: the messages of src/nvfuse_ipc_ring.c and the
      dispatcher primary_poll_core of examples/control_plane_proc;
      ControlPlaneSpec, ControlPlaneOps: record view of the container table,
      its invariant, rules; ControlPlaneInv: every message keeps the
      invariant, and (ControlPlaneLog) the log files against the interface
      [FileStore]; ControlPlaneThms, IpcThms: the theorems.

    ** Theorems

    AllocThms: allocation, release, double free, exhaustion and round trips of
    blocks and inodes, and the inode hint that is not wrapped.  MountThms:
    format, first mount, remount, crash detection, descriptor signature.
    BgListThms: the group list.  IndirectThms: paths, lookup, allocation, the
    sparse write that aborts, truncation.  DirHashThms: hashes.  BpTreeThms:
    sequences of operations on an index against a map, lookup, insertion with
    all splits, update, removal, the full bitmap, the sort.
    DirThms: sequences of creations and lookups in a directory against a map,
    creation, lookup and removal with the directory invariant, and the names on
    which the lookup does not come back.  XattrThms: sequences of attribute
    operations against a list.  FileThms: sequences of operations on
    open files against arrays of bytes, reading, writing, truncation,
    durability, and the cases in which bytes are lost.
    BufferThms: any sequence of operations of a client of the buffer cache
    sees a store of blocks, whatever is replaced in between; the lists, table
    and counts stay well formed; flushing leaves every block on the device.
    IctxThms: the same for inodes on top of it.  ReactorThms: any schedule of
    two rings refines two queues, a synchronous request is done exactly once
    and its task returned, the bulk writes equal the writes in order, a request
    on a full ring is lost.  Aio: a batch is completed with each callback once,
    its blocks are moved by the submission, a queue deeper than the pool has no
    task for its last job.
    ControlPlaneThms: container allocation, its endless search, release,
    reservation locks, the table invariant in all reachable states, the two
    logs.  IpcThms: replies.

    ** Not modelled

    The standalone process model is the configured one: code that it compiles
    out (data-plane branches of the allocator) is not followed.  SPDK and DPDK
    (devices, pools, huge pages) are parameters or absent, and so are their
    wrappers in src/nvfuse_spdk.c and src/nvfuse_malloc.c.
    The copies within a B+tree node are taken as copies of the old contents,
    although rte_memcpy does not promise this for overlapping ranges; the
    removal theorem covers removals without a merge of leaves, since merges of
    inner nodes can lose keys (the hint key becomes a bound).  The range search
    of the tree and the set-up of its in-memory master are left out.
    nvfuse_lock and nvfuse_unlock are empty macros.  Direct I/O moves its data
    through the reactor; only its effect on offsets and sizes is modelled.  The
    file layer sees the buffer cache as a map from blocks to loaded buffers, in
    which clean ones may be evicted at any time; the buffer cache itself, with
    its replacement, is modelled and verified on its own, with the map from
    file blocks to device blocks as a parameter.  The lists of dirty buffer
    heads per inode exist only with NVFUSE_KEEP_DIRTY_BH_IN_ICTX, which the
    build does not define; with them go the red-black tree (src/rbtree.c) and
    most of src/include/list.h, generic containers of the Linux kernel.  The
    flush worker is not started by the program.  Shell commands, argument
    parsing, tests and samples are left out. *)
From stdpp Require Export base tactics numbers list gmap.
From Stdlib Require Export ZArith Lia.
#[global] Open Scope Z_scope.

(** ** Machine integers

    A w-bit C integer is a [Z]; every arithmetic result that the source stores
    in a fixed-width variable is wrapped explicitly. *)
Definition u8 (x : Z) : Z := x mod 2 ^ 8.
Definition u32 (x : Z) : Z := x mod 2 ^ 32.
Definition u64 (x : Z) : Z := x mod 2 ^ 64.
Definition s32 (x : Z) : Z := (x + 2 ^ 31) mod 2 ^ 32 - 2 ^ 31.
Definition s64 (x : Z) : Z := (x + 2 ^ 63) mod 2 ^ 64 - 2 ^ 63.

Definition is_u8 (x : Z) : Prop := 0 <= x < 2 ^ 8.
Definition is_u32 (x : Z) : Prop := 0 <= x < 2 ^ 32.
Definition is_s32 (x : Z) : Prop := - 2 ^ 31 <= x < 2 ^ 31.

(** ** Decision of arithmetic side conditions

    [zlia] is [lia] with the Euclidean equations of [/] and [mod] added. *)
Ltac zlia := Z.div_mod_to_equations; nia.
Ltac dmlia := Z.div_mod_to_equations; lia.

(** Case analysis on the boolean comparisons of [Z] the definitions branch on. *)
Ltac zbool_step :=
  match goal with
  | H : context [ (?a =? ?b) ] |- _ => destruct (Z.eqb_spec a b)
  | H : context [ (?a <? ?b) ] |- _ => destruct (Z.ltb_spec a b)
  | H : context [ (?a <=? ?b) ] |- _ => destruct (Z.leb_spec a b)
  | |- context [ (?a =? ?b) ] => destruct (Z.eqb_spec a b)
  | |- context [ (?a <? ?b) ] => destruct (Z.ltb_spec a b)
  | |- context [ (?a <=? ?b) ] => destruct (Z.leb_spec a b)
  end.
Ltac zbool := repeat (zbool_step; simpl in *; try lia; try congruence).

Create HintDb nvf.

Lemma u32_small x : 0 <= x < 2 ^ 32 -> u32 x = x.
Proof. apply Z.mod_small. Qed.

Lemma u8_small x : 0 <= x < 2 ^ 8 -> u8 x = x.
Proof. apply Z.mod_small. Qed.

Lemma u32_range x : 0 <= u32 x < 2 ^ 32.
Proof. apply Z.mod_pos_bound; lia. Qed.

Lemma u8_range x : 0 <= u8 x < 2 ^ 8.
Proof. apply Z.mod_pos_bound; lia. Qed.

Lemma u64_small x : 0 <= x < 2 ^ 64 -> u64 x = x.
Proof. apply Z.mod_small. Qed.

Lemma s32_small x : - 2 ^ 31 <= x < 2 ^ 31 -> s32 x = x.
Proof. intros. unfold s32. rewrite Z.mod_small; lia. Qed.

Lemma s64_small x : - 2 ^ 63 <= x < 2 ^ 63 -> s64 x = x.
Proof. intros. unfold s64. rewrite Z.mod_small; lia. Qed.

Lemma s32_range x : - 2 ^ 31 <= s32 x < 2 ^ 31.
Proof. unfold s32. pose proof (Z.mod_pos_bound (x + 2 ^ 31) (2 ^ 32)). lia. Qed.

#[export] Hint Resolve u32_range u8_range s32_range : nvf.

(** ** The state and abort monad

    A C function that works on shared state is a function from the state to
    an optional result: [None] is an abnormal end (a failed [assert], a call
    of [abort] or [rte_panic], an access outside an object), [Some (a, s')] a
    return with value [a] in state [s'].  Error codes are ordinary values. *)
Definition M (S A : Type) : Type := S -> option (A * S).

#[export] Instance M_ret {S} : MRet (M S) := fun A a s => Some (a, s).
#[export] Instance M_bind {S} : MBind (M S) := fun A B k m s =>
  match m s with Some (a, s') => k a s' | None => None end.

Definition mget {S} : M S S := fun s => Some (s, s).
Definition mput {S} (s : S) : M S unit := fun _ => Some (tt, s).
Definition mmodify {S} (f : S -> S) : M S unit := fun s => Some (tt, f s).
Definition mgets {S A} (f : S -> A) : M S A := fun s => Some (f s, s).
Definition mabort {S A} : M S A := fun _ => None.
Definition mlift {S A} (o : option A) : M S A := fun s =>
  match o with Some a => Some (a, s) | None => None end.
Definition massert {S} (b : bool) : M S unit := fun s =>
  if b then Some (tt, s) else None.

(** Total correctness: [wp m Q s] holds when [m] returns from [s], in a state
    and with a value that satisfy [Q]. *)
Definition wp {S A} (m : M S A) (Q : A -> S -> Prop) (s : S) : Prop :=
  match m s with Some (a, s') => Q a s' | None => False end.

Section wp_rules.
Context {S A B : Type}.

Lemma wp_ret (a : A) (Q : A -> S -> Prop) s : Q a s -> wp (mret a) Q s.
Proof. done. Qed.

Lemma wp_bind (m : M S A) (k : A -> M S B) Q s :
  wp m (fun a s' => wp (k a) Q s') s -> wp (m ≫= k) Q s.
Proof. unfold wp, mbind, M_bind. by destruct (m s) as [[??]|]. Qed.

Lemma wp_get (Q : S -> S -> Prop) s : Q s s -> wp mget Q s.
Proof. done. Qed.

Lemma wp_put (s' : S) (Q : unit -> S -> Prop) s : Q tt s' -> wp (mput s') Q s.
Proof. done. Qed.

Lemma wp_modify (f : S -> S) (Q : unit -> S -> Prop) s : Q tt (f s) -> wp (mmodify f) Q s.
Proof. done. Qed.

Lemma wp_gets (f : S -> A) (Q : A -> S -> Prop) s : Q (f s) s -> wp (mgets f) Q s.
Proof. done. Qed.

Lemma wp_lift (o : option A) a (Q : A -> S -> Prop) s : o = Some a -> Q a s -> wp (mlift o) Q s.
Proof. intros ->. done. Qed.

Lemma wp_assert b (Q : unit -> S -> Prop) s : b = true -> Q tt s -> wp (massert b) Q s.
Proof. intros ->. done. Qed.

Lemma wp_mono (m : M S A) (Q Q' : A -> S -> Prop) s :
  wp m Q s -> (forall a s', Q a s' -> Q' a s') -> wp m Q' s.
Proof. unfold wp. destruct (m s) as [[??]|]; eauto. Qed.

Lemma wp_elim (m : M S A) Q s :
  wp m Q s -> exists a s', m s = Some (a, s') /\ Q a s'.
Proof. unfold wp. destruct (m s) as [[a s']|]; [eauto | done]. Qed.

Lemma wp_run (m : M S A) (Q : A -> S -> Prop) s a s' :
  m s = Some (a, s') -> Q a s' -> wp m Q s.
Proof. unfold wp. intros ->. done. Qed.

(** A computation whose first part returns and whose rest ends abnormally. *)
Lemma bind_aborts (m : M S A) (k : A -> M S B) s :
  wp m (fun a s' => k a s' = None) s -> (m ≫= k) s = None.
Proof. unfold wp, mbind, M_bind. by destruct (m s) as [[a s']|]. Qed.

Lemma aborts_bind (m : M S A) (k : A -> M S B) s : m s = None -> (m ≫= k) s = None.
Proof. unfold mbind, M_bind. by intros ->. Qed.

End wp_rules.

(** One rule application of the weakest-precondition calculus. *)
Ltac wp_step :=
  lazymatch goal with
  | |- wp (mbind _ _) _ _ => apply wp_bind
  | |- wp (mret _) _ _ => apply wp_ret
  | |- wp mget _ _ => apply wp_get
  | |- wp (mput _) _ _ => apply wp_put
  | |- wp (mmodify _) _ _ => apply wp_modify
  | |- wp (mgets _) _ _ => apply wp_gets
  end.
Ltac wp_steps := repeat (wp_step; cbn beta).

(** ** Sums and counts over lists of indices *)
Definition Zsum {A} (f : A -> Z) (l : list A) : Z := foldr (fun x a => f x + a) 0 l.

Definition Zcount {A} (p : A -> bool) (l : list A) : Z :=
  Zsum (fun x => if p x then 1 else 0) l.

Section sums.
Context {A : Type}.
Implicit Types (f g : A -> Z) (l : list A).

Lemma Zsum_app f l1 l2 : Zsum f (l1 ++ l2) = Zsum f l1 + Zsum f l2.
Proof. induction l1; simpl in *; lia. Qed.

Lemma Zsum_ext f g l : (forall x, x ∈ l -> f x = g x) -> Zsum f l = Zsum g l.
Proof.
  induction l as [|x l IH]; simpl; intros H; [done|].
  rewrite (H x), IH; [done| |]; set_solver.
Qed.

Lemma Zsum_le f g l : (forall x, x ∈ l -> f x <= g x) -> Zsum f l <= Zsum g l.
Proof.
  induction l as [|x l IH]; simpl; intros H; [lia|].
  assert (f x <= g x) by (apply H; set_solver).
  assert (Zsum f l <= Zsum g l) by (apply IH; set_solver). lia.
Qed.

Lemma Zsum_const c l : Zsum (fun _ => c) l = c * Z.of_nat (length l).
Proof. induction l; simpl; lia. Qed.

(** Changing the summand at one index of a duplicate-free list. *)
Lemma Zsum_update f g l x :
  NoDup l -> x ∈ l -> (forall y, y <> x -> f y = g y) ->
  Zsum g l = Zsum f l - f x + g x.
Proof.
  intros Hnd Hx Heq. induction Hnd as [|y l Hy Hnd IH]; simpl; [set_solver|].
  apply elem_of_cons in Hx as [<-|Hx].
  - rewrite (Zsum_ext g f l); [lia|]. intros z Hz. symmetry. apply Heq. set_solver.
  - rewrite IH, (Heq y) by set_solver. lia.
Qed.

Lemma Zsum_nonneg f l : (forall x, x ∈ l -> 0 <= f x) -> 0 <= Zsum f l.
Proof.
  intros H. pose proof (Zsum_le (fun _ => 0) f l H). rewrite Zsum_const in *. lia.
Qed.

Lemma Zsum_elem_le f l x : (forall y, y ∈ l -> 0 <= f y) -> x ∈ l -> f x <= Zsum f l.
Proof.
  induction l as [|y l IH]; simpl; intros Hn Hx; [set_solver|].
  assert (0 <= f y) by (apply Hn; set_solver).
  assert (0 <= Zsum f l) by (apply Zsum_nonneg; set_solver).
  apply elem_of_cons in Hx as [->|Hx]; [lia|].
  assert (f x <= Zsum f l) by (apply IH; set_solver). lia.
Qed.

Lemma Zcount_ext (p q : A -> bool) l :
  (forall x, x ∈ l -> p x = q x) -> Zcount p l = Zcount q l.
Proof. intros H. apply Zsum_ext. intros x Hx. by rewrite H. Qed.

Lemma Zcount_bounds (p : A -> bool) l : 0 <= Zcount p l <= Z.of_nat (length l).
Proof.
  split; [apply Zsum_nonneg; intros x _; destruct (p x); lia|].
  unfold Zcount. etrans; [apply (Zsum_le _ (fun _ => 1)); intros x _; destruct (p x); lia|].
  rewrite Zsum_const. lia.
Qed.

Lemma Zcount_zero (p : A -> bool) l x : Zcount p l = 0 -> x ∈ l -> p x = false.
Proof.
  intros H Hx. destruct (p x) eqn:E; [|done].
  pose proof (Zsum_elem_le (fun x => if p x then 1 else 0) l x) as Hle.
  unfold Zcount in H. cbn beta in Hle. rewrite E in Hle. cut (1 <= 0); [lia|].
  rewrite <- H. apply Hle; [|done]. intros y _. destruct (p y); lia.
Qed.

Lemma Zcount_pos (p : A -> bool) l x : x ∈ l -> p x = true -> 1 <= Zcount p l.
Proof.
  intros Hx Hp. pose proof (Zcount_bounds p l).
  destruct (Z.eq_dec (Zcount p l) 0); [|lia].
  assert (p x = false) by (by eapply Zcount_zero). congruence.
Qed.

End sums.

(** Indices [lo, hi) of a table. *)
Definition range (lo hi : Z) : list Z := seqZ lo (hi - lo).

Lemma elem_of_range lo hi x : x ∈ range lo hi <-> lo <= x < hi.
Proof. unfold range. rewrite elem_of_seqZ. lia. Qed.

Lemma NoDup_range lo hi : NoDup (range lo hi).
Proof. apply NoDup_seqZ. Qed.

Lemma length_range lo hi : lo <= hi -> Z.of_nat (length (range lo hi)) = hi - lo.
Proof. intros. unfold range. rewrite length_seqZ. lia. Qed.

#[export] Hint Resolve NoDup_range : nvf.

Lemma bool_decide_cons `{EqDecision A} (x y : A) (l : list A) :
  bool_decide (x = y) || bool_decide (x ∈ l) = bool_decide (x ∈ y :: l).
Proof.
  rewrite <- bool_decide_or. apply bool_decide_ext. by rewrite elem_of_cons.
Qed.

(** Removing a set of counted elements from a predicate. *)
Lemma Zcount_remove `{EqDecision A} (p q : A -> bool) (r l : list A) :
  NoDup r -> NoDup l -> (forall x, x ∈ l -> x ∈ r /\ p x = true) ->
  (forall x, x ∈ r -> q x = p x && negb (bool_decide (x ∈ l))) ->
  Zcount q r = Zcount p r - Z.of_nat (length l).
Proof.
  intros Hr Hl. revert p. induction Hl as [|y l Hy Hl IH]; intros p Hin Hq.
  - simpl. rewrite (Zcount_ext q p r); [lia|]. intros x Hx. by rewrite Hq, andb_true_r.
  - set (p' := fun x => p x && negb (bool_decide (x = y))).
    destruct (Hin y) as [Hyr Hpy]; [apply elem_of_cons; by left|].
    assert (Zcount p' r = Zcount p r - 1) as Hp'.
    { unfold Zcount. rewrite (Zsum_update (fun x => if p x then 1 else 0) _ r y) by
        (try done; intros z Hz; unfold p'; by rewrite bool_decide_eq_false_2, andb_true_r).
      unfold p'. rewrite Hpy, bool_decide_eq_true_2 by done. simpl. lia. }
    rewrite (IH p'); [rewrite Hp'; simpl length; lia| |].
    + intros x Hx. destruct (Hin x) as [? Hpx]; [apply elem_of_cons; by right|]. split; [done|].
      unfold p'. rewrite Hpx, bool_decide_eq_false_2; [done|]. intros ->. done.
    + intros x Hx. rewrite Hq by done. unfold p'. rewrite <- andb_assoc. f_equal.
      rewrite <- negb_orb. f_equal. symmetry. apply bool_decide_cons.
Qed.

Lemma lookup_repeat {A} (x : A) n i : (i < n)%nat -> repeat x n !! i = Some x.
Proof. revert i. induction n as [|n IH]; intros [|i] H; simpl; try lia; [done|]. apply IH. lia. Qed.
