(* ===== verification/Bitmap.v ===== *)
(** * Bitmaps: the bit primitives of nvfuse_dep.c

    A bitmap block is a list of bytes (each a [Z] in [0, 256)).  The three
    primitives of the source address bit [nr] as bit [nr & 7] of byte
    [nr >> 3]; an index past the block is an access outside the object and
    yields [None]. *)
From S2P Require Import Prelude.

Module Bitmap.

(** src/nvfuse_dep.c: ext2fs_set_bit, the previous value of the bit (masked)
    and the updated block. *)
Definition ext2fs_set_bit (nr : Z) (addr : list Z) : option (Z * list Z) :=
  let i := Z.to_nat (Z.shiftr nr 3) in
  let mask := Z.shiftl 1 (Z.land nr 7) in
  b ← addr !! i;
  Some (Z.land mask b, <[i := u8 (Z.lor b mask)]> addr).

(** src/nvfuse_dep.c: ext2fs_clear_bit *)
Definition ext2fs_clear_bit (nr : Z) (addr : list Z) : option (Z * list Z) :=
  let i := Z.to_nat (Z.shiftr nr 3) in
  let mask := Z.shiftl 1 (Z.land nr 7) in
  b ← addr !! i;
  Some (Z.land mask b, <[i := u8 (Z.land b (Z.lnot mask))]> addr).

(** src/nvfuse_dep.c: ext2fs_test_bit *)
Definition ext2fs_test_bit (nr : Z) (addr : list Z) : option Z :=
  let mask := Z.shiftl 1 (Z.land nr 7) in
  b ← addr !! Z.to_nat (Z.shiftr nr 3);
  Some (Z.land mask b).

(** The set of bits a block denotes: the specification the primitives are
    proved against.  Bits outside the block read as clear. *)
Definition bit (addr : list Z) (nr : Z) : bool :=
  match addr !! Z.to_nat (nr / 8) with
  | Some b => Z.testbit b (nr mod 8)
  | None => false
  end.

(** A well-formed block of [n] bytes. *)
Definition wf_block (n : Z) (addr : list Z) : Prop :=
  Z.of_nat (length addr) = n /\ Forall is_u8 addr.

Lemma land7 nr : Z.land nr 7 = nr mod 8.
Proof. change 7 with (Z.ones 3). rewrite Z.land_ones by lia. done. Qed.

Lemma shiftr3 nr : Z.shiftr nr 3 = nr / 8.
Proof. rewrite Z.shiftr_div_pow2 by lia. done. Qed.

Lemma byte_index n addr nr :
  wf_block n addr -> 0 <= nr < 8 * n ->
  exists b, addr !! Z.to_nat (nr / 8) = Some b /\ is_u8 b.
Proof.
  intros [Hl Hb] Hnr.
  assert (Z.to_nat (nr / 8) < length addr)%nat as Hi by dmlia.
  apply lookup_lt_is_Some_2 in Hi as [b Hb']. exists b. split; [done|].
  by eapply Forall_lookup_1.
Qed.

Lemma mask_land m b : 0 <= m -> (Z.land (Z.shiftl 1 m) b =? 0) = negb (Z.testbit b m).
Proof.
  intros Hm. destruct (Z.testbit b m) eqn:E; simpl.
  - apply Z.eqb_neq. intros H0.
    assert (Z.testbit (Z.land (Z.shiftl 1 m) b) m = false) by (rewrite H0; apply Z.bits_0).
    rewrite Z.land_spec, Z.shiftl_spec, Z.sub_diag, E in H by lia. done.
  - apply Z.eqb_eq, Z.bits_inj'. intros i Hi. rewrite Z.land_spec, Z.bits_0.
    rewrite Z.shiftl_spec by lia.
    destruct (decide (i = m)) as [->|]; [by rewrite E, andb_false_r|].
    destruct (decide (i < m)); [by rewrite Z.testbit_neg_r by lia|].
    rewrite (Z.bits_above_log2 1 (i - m)); [done|lia|simpl; lia].
Qed.

Lemma byte_testbit_wrap x i : 0 <= i < 8 -> Z.testbit (u8 x) i = Z.testbit x i.
Proof. intros. unfold u8. rewrite Z.mod_pow2_bits_low; [done|lia]. Qed.

Lemma testbit_shiftl_1 m i : 0 <= m -> 0 <= i -> Z.testbit (Z.shiftl 1 m) i = bool_decide (i = m).
Proof.
  intros. rewrite Z.shiftl_spec by lia. case_bool_decide as E.
  - by rewrite E, Z.sub_diag.
  - destruct (decide (i < m)); [by rewrite Z.testbit_neg_r by lia|].
    apply Z.bits_above_log2; [lia|simpl; lia].
Qed.

(** The test primitive decides the bit. *)
Lemma test_bit_spec n addr nr :
  wf_block n addr -> 0 <= nr < 8 * n ->
  exists v, ext2fs_test_bit nr addr = Some v /\ (v =? 0) = negb (bit addr nr).
Proof.
  intros Hwf Hnr. destruct (byte_index _ _ _ Hwf Hnr) as (b & Hb & _).
  unfold ext2fs_test_bit, bit. rewrite shiftr3, land7, Hb. simpl.
  eexists. split; [done|]. apply mask_land, Z.mod_pos_bound. lia.
Qed.

(** Generic update of one bit: the shape shared by set and clear. *)
Lemma bit_update n addr nr b b' :
  wf_block n addr -> 0 <= nr < 8 * n ->
  addr !! Z.to_nat (nr / 8) = Some b ->
  (forall i, 0 <= i < 8 -> i <> nr mod 8 -> Z.testbit (u8 b') i = Z.testbit b i) ->
  let addr' := <[Z.to_nat (nr / 8) := u8 b']> addr in
  wf_block n addr' /\
  forall j, 0 <= j -> bit addr' j = if decide (j = nr) then Z.testbit (u8 b') (nr mod 8) else bit addr j.
Proof.
  intros [Hl Hf] Hnr Hb Hsame addr'. split.
  - split; [by unfold addr'; rewrite length_insert|].
    apply Forall_insert; [done|]. apply u8_range.
  - intros j Hj. unfold bit, addr'.
    assert (Z.to_nat (nr / 8) < length addr)%nat by (eapply lookup_lt_Some; eauto).
    destruct (decide (j / 8 = nr / 8)) as [E|E].
    + rewrite E, list_lookup_insert_eq by done. rewrite Hb. case_decide as E'; [by rewrite E'|].
      apply Hsame; [apply Z.mod_pos_bound; lia|]. dmlia.
    + rewrite list_lookup_insert_ne by dmlia. case_decide; [congruence|done].
Qed.

Lemma set_bit_spec n addr nr :
  wf_block n addr -> 0 <= nr < 8 * n ->
  exists v addr', ext2fs_set_bit nr addr = Some (v, addr') /\ wf_block n addr' /\
    (v =? 0) = negb (bit addr nr) /\
    forall j, 0 <= j -> bit addr' j = if decide (j = nr) then true else bit addr j.
Proof.
  intros Hwf Hnr. destruct (byte_index _ _ _ Hwf Hnr) as (b & Hb & Hu).
  pose proof (Z.mod_pos_bound nr 8).
  destruct (bit_update n addr nr b (Z.lor b (Z.shiftl 1 (nr mod 8)))) as [Hwf' Hbits]; try done.
  { intros i Hi Hne. rewrite byte_testbit_wrap, Z.lor_spec, testbit_shiftl_1 by lia.
    by rewrite bool_decide_eq_false_2, orb_false_r by done. }
  unfold ext2fs_set_bit. rewrite shiftr3, land7, Hb. simpl.
  do 2 eexists. split; [done|]. split; [done|]. split.
  - unfold bit. rewrite Hb. apply mask_land. lia.
  - intros j Hj. rewrite Hbits by done. case_decide; [|done].
    rewrite byte_testbit_wrap, Z.lor_spec, testbit_shiftl_1 by lia.
    by rewrite bool_decide_eq_true_2, orb_true_r.
Qed.

Lemma clear_bit_spec n addr nr :
  wf_block n addr -> 0 <= nr < 8 * n ->
  exists v addr', ext2fs_clear_bit nr addr = Some (v, addr') /\ wf_block n addr' /\
    (v =? 0) = negb (bit addr nr) /\
    forall j, 0 <= j -> bit addr' j = if decide (j = nr) then false else bit addr j.
Proof.
  intros Hwf Hnr. destruct (byte_index _ _ _ Hwf Hnr) as (b & Hb & Hu).
  pose proof (Z.mod_pos_bound nr 8).
  destruct (bit_update n addr nr b (Z.land b (Z.lnot (Z.shiftl 1 (nr mod 8))))) as [Hwf' Hbits]; try done.
  { intros i Hi Hne. rewrite byte_testbit_wrap, Z.land_spec, Z.lnot_spec, testbit_shiftl_1 by lia.
    by rewrite bool_decide_eq_false_2, andb_true_r by done. }
  unfold ext2fs_clear_bit. rewrite shiftr3, land7, Hb. simpl.
  do 2 eexists. split; [done|]. split; [done|]. split.
  - unfold bit. rewrite Hb. apply mask_land. lia.
  - intros j Hj. rewrite Hbits by done. case_decide; [|done].
    rewrite byte_testbit_wrap, Z.land_spec, Z.lnot_spec, testbit_shiftl_1 by lia.
    by rewrite bool_decide_eq_true_2, andb_false_r.
Qed.

End Bitmap.
