(* ===== verification/Layout.v ===== *)
(** * On-disk layout: constants, superblock, block-group descriptor, inode

    The structures of include/nvfuse_core.h with the source's field names,
    and [nvfuse_make_bg_descriptor] of nvfuse_mkfs.c, which fixes where the
    metadata of a block group lives. *)
From S2P Require Import Prelude.

Module Layout.

(** ** Constants of nvfuse_config.h and nvfuse_core.h *)
Definition CLUSTER_SIZE : Z := 4 * 1024.
Definition CLUSTER_SIZE_BITS : Z := 12.
Definition BITS_PER_CLUSTER_BITS : Z := 3.
Definition SECTOR_SIZE : Z := 512.
Definition SECTORS_PER_CLUSTER : Z := Z.shiftr CLUSTER_SIZE 9.
Definition INODE_ENTRY_SIZE : Z := CLUSTER_SIZE.
Definition INODE_ENTRY_NUM : Z := CLUSTER_SIZE / INODE_ENTRY_SIZE.

Definition NVFUSE_SB_SIGNATURE : Z := 0x756c6673.
Definition NVFUSE_BD_SIGNATURE : Z := 0x709d2233.
Definition NVFUSE_BD_MAGIC : Z := 0xBDBDBDBD.

Definition ROOT_INO : Z := 2.
Definition BLOCK_IO_INO : Z := 3.
Definition BD_INO : Z := 4.
Definition ITABLE_INO : Z := 5.
Definition DBITMAP_INO : Z := 6.
Definition IBITMAP_INO : Z := 7.
Definition NUM_RESV_INO : Z := 8.

Definition NVFUSE_BD_OFFSET : Z := 1.
Definition NVFUSE_IBITMAP_OFFSET : Z := 2.
Definition NVFUSE_IBITMAP_SIZE : Z := 1.
Definition NVFUSE_DBITMAP_OFFSET : Z := NVFUSE_IBITMAP_OFFSET + NVFUSE_IBITMAP_SIZE.
Definition NVFUSE_DBITMAP_SIZE : Z := 1.
Definition NVFUSE_INODE_PER_BG : Z := NVFUSE_IBITMAP_SIZE * CLUSTER_SIZE * 8 / 8.
Definition NVFUSE_DATA_PER_BG : Z := NVFUSE_IBITMAP_SIZE * CLUSTER_SIZE * 8.

Definition NVFUSE_TYPE_DIRECTORY : Z := 6.
Definition FNAME_SIZE : Z := 116.
Definition DIR_ENTRY_SIZE : Z := 128.
Definition DIR_ENTRY_NUM : Z := CLUSTER_SIZE / DIR_ENTRY_SIZE.
Definition DIR_EMPTY : Z := 0.
Definition DIR_USED : Z := Z.shiftl 1 1.
Definition DIR_DELETED : Z := Z.shiftl 1 2.

Definition FS_STATE_FORMATTED : Z := 0.
Definition FS_STATE_INITIALIZED : Z := 1.
Definition FS_STATE_UMOUNTED : Z := 2.
Definition FS_STATE_MOUNTED : Z := 3.
Definition FS_STATE_CRASHED : Z := 4.

Definition DIRECT_BLOCKS : Z := 11.
Definition INDIRECT_BLOCKS : Z := 11.
Definition DINDIRECT_BLOCKS : Z := 12.
Definition TINDIRECT_BLOCKS : Z := 13.
Definition PTRS_PER_BLOCK : Z := CLUSTER_SIZE / 4.
Definition PTRS_PER_BLOCK_BITS : Z := 10.

(** The process model is a compile-time constant of nvfuse_config.h. *)
Definition NVFUSE_PROCESS_STANDALONE : Z := 0.
Definition NVFUSE_PROCESS_DATAPLANE : Z := 1.
Definition NVFUSE_PROCESS_MODEL : Z := NVFUSE_PROCESS_STANDALONE.
Definition nvfuse_process_model_is_standalone : bool :=
  NVFUSE_PROCESS_MODEL =? NVFUSE_PROCESS_STANDALONE.
Definition nvfuse_process_model_is_dataplane : bool :=
  NVFUSE_PROCESS_MODEL =? NVFUSE_PROCESS_DATAPLANE.

(** ** struct nvfuse_bg_descriptor *)
Record nvfuse_bg_descriptor := mk_bd {
  bd_magic : Z; bd_owner : Z; bd_id : Z;
  bd_bg_start : Z; bd_bd_start : Z;
  bd_max_inodes : Z; bd_max_blocks : Z;
  bd_ibitmap_start : Z; bd_ibitmap_size : Z;
  bd_dbitmap_start : Z; bd_dbitmap_size : Z;
  bd_itable_start : Z; bd_itable_size : Z;
  bd_dtable_start : Z; bd_dtable_size : Z;
  bd_free_inodes : Z; bd_free_blocks : Z;
  bd_next_block : Z }.

(** A zeroed descriptor, as after [memset (bd_buf, 0, CLUSTER_SIZE)]. *)
Definition bd_zero : nvfuse_bg_descriptor :=
  mk_bd 0 0 0 0 0 0 0 0 0 0 0 0 0 0 0 0 0 0.

Definition set_bd_free_inodes (v : Z) (d : nvfuse_bg_descriptor) : nvfuse_bg_descriptor :=
  mk_bd (bd_magic d) (bd_owner d) (bd_id d) (bd_bg_start d) (bd_bd_start d)
    (bd_max_inodes d) (bd_max_blocks d) (bd_ibitmap_start d) (bd_ibitmap_size d)
    (bd_dbitmap_start d) (bd_dbitmap_size d) (bd_itable_start d) (bd_itable_size d)
    (bd_dtable_start d) (bd_dtable_size d) v (bd_free_blocks d) (bd_next_block d).
Definition set_bd_free_blocks (v : Z) (d : nvfuse_bg_descriptor) : nvfuse_bg_descriptor :=
  mk_bd (bd_magic d) (bd_owner d) (bd_id d) (bd_bg_start d) (bd_bd_start d)
    (bd_max_inodes d) (bd_max_blocks d) (bd_ibitmap_start d) (bd_ibitmap_size d)
    (bd_dbitmap_start d) (bd_dbitmap_size d) (bd_itable_start d) (bd_itable_size d)
    (bd_dtable_start d) (bd_dtable_size d) (bd_free_inodes d) v (bd_next_block d).
Definition set_bd_next_block (v : Z) (d : nvfuse_bg_descriptor) : nvfuse_bg_descriptor :=
  mk_bd (bd_magic d) (bd_owner d) (bd_id d) (bd_bg_start d) (bd_bd_start d)
    (bd_max_inodes d) (bd_max_blocks d) (bd_ibitmap_start d) (bd_ibitmap_size d)
    (bd_dbitmap_start d) (bd_dbitmap_size d) (bd_itable_start d) (bd_itable_size d)
    (bd_dtable_start d) (bd_dtable_size d) (bd_free_inodes d) (bd_free_blocks d) v.

(** src/nvfuse_mkfs.c: nvfuse_make_bg_descriptor.  The function fills the
    buffer [bd] in place: [bd_next_block] keeps the value it had. *)
Definition nvfuse_make_bg_descriptor (bd : nvfuse_bg_descriptor) (bg_id bg_start bg_size : Z)
  : nvfuse_bg_descriptor :=
  let max_inodes := NVFUSE_INODE_PER_BG in
  let max_blocks := NVFUSE_DATA_PER_BG in
  let itable_start := u32 (NVFUSE_DBITMAP_OFFSET + NVFUSE_DBITMAP_SIZE) in
  let itable_size := u32 (max_inodes * INODE_ENTRY_SIZE) / CLUSTER_SIZE in
  let dtable_start := u32 (itable_start + itable_size) in
  let dtable_size := u32 (bg_size - dtable_start) in
  let free_blocks := u32 (max_blocks - dtable_start) in
  {| bd_magic := NVFUSE_BD_MAGIC; bd_owner := 0; bd_id := bg_id;
     bd_bg_start := u32 (0 + bg_start);
     bd_bd_start := u32 (NVFUSE_BD_OFFSET + bg_start);
     bd_max_inodes := max_inodes; bd_max_blocks := max_blocks;
     bd_ibitmap_start := u32 (NVFUSE_IBITMAP_OFFSET + bg_start);
     bd_ibitmap_size := NVFUSE_DBITMAP_SIZE;
     bd_dbitmap_start := u32 (NVFUSE_DBITMAP_OFFSET + bg_start);
     bd_dbitmap_size := NVFUSE_DBITMAP_SIZE;
     bd_itable_start := u32 (itable_start + bg_start);
     bd_itable_size := itable_size;
     bd_dtable_start := u32 (dtable_start + bg_start);
     bd_dtable_size := dtable_size;
     bd_free_inodes := max_inodes; bd_free_blocks := free_blocks;
     bd_next_block := bd_next_block bd |}.

(** ** struct nvfuse_app_superblock and struct nvfuse_superblock

    The persistent part (nvfuse_superblock_common) and the in-memory hints of
    the allocator.  Handles, pools, lists and statistics of the in-memory part
    are not state of the functions modelled here. *)
Record nvfuse_app_superblock := mk_asb {
  asb_root_bg_id : Z; asb_free_inodes : Z; asb_free_blocks : Z;
  asb_no_of_used_blocks : Z; asb_core_id : Z }.

Record nvfuse_superblock := mk_sb {
  sb_signature : Z; sb_no_of_sectors : Z; sb_no_of_blocks : Z; sb_no_of_used_blocks : Z;
  sb_no_of_inodes_per_bg : Z; sb_no_of_blocks_per_bg : Z; sb_root_ino : Z;
  sb_free_inodes : Z; sb_free_blocks : Z; sb_bg_num : Z; sb_state : Z;
  sb_max_file_num : Z; sb_max_dir_num : Z; sb_max_inode_num : Z;
  asb : nvfuse_app_superblock;
  sb_last_allocated_ino : Z; sb_last_allocated_bgid : Z;
  sb_last_allocated_bgid_by_ino : Z }.

Definition asb_zero : nvfuse_app_superblock := mk_asb 0 0 0 0 0.
Definition sb_zero : nvfuse_superblock :=
  mk_sb 0 0 0 0 0 0 0 0 0 0 0 0 0 0 asb_zero 0 0 0.

(** ** struct nvfuse_dir_entry; a name is the list of its bytes up to the NUL. *)
Record nvfuse_dir_entry := mk_dentry { d_ino : Z; d_flag : Z; d_version : Z; d_filename : list Z }.
Definition dentry_zero : nvfuse_dir_entry := mk_dentry 0 0 0 [].

(** ** struct nvfuse_inode (the xattr area is left to the xattr component) *)
Record nvfuse_inode := mk_inode {
  i_ino : Z; i_type : Z; i_size : Z; i_bpino : Z; i_version : Z; i_deleted : Z;
  i_links_count : Z; i_ptr : Z; i_atime : Z; i_ctime : Z; i_mtime : Z; i_dtime : Z;
  i_gid : Z; i_uid : Z; i_mode : Z; i_blocks : list Z }.

Definition inode_zero : nvfuse_inode :=
  mk_inode 0 0 0 0 0 0 0 0 0 0 0 0 0 0 0 (repeat 0 14).

End Layout.
