(* ===== verification/Mem.v ===== *)
(** * Byte memory

    Tables and messages that the program reads and writes both as structures
    and as raw bytes (memcpy, strcpy, logs, unions) are lists of bytes.  The
    accessors give [None] outside the object.  Integers are little-endian. *)
From S2P Require Import Prelude.

Module Mem.

Definition in_obj (m : list Z) (off len : Z) : bool :=
  (0 <=? off) && (0 <=? len) && (off + len <=? Z.of_nat (length m)).

(** [len] bytes at offset [off]. *)
Definition rd (m : list Z) (off len : Z) : option (list Z) :=
  if in_obj m off len then Some (take (Z.to_nat len) (drop (Z.to_nat off) m)) else None.

(** Overwriting the bytes at offset [off]. *)
Definition wr (m : list Z) (off : Z) (bs : list Z) : option (list Z) :=
  if in_obj m off (Z.of_nat (length bs))
  then Some (take (Z.to_nat off) m ++ bs ++ drop (Z.to_nat off + length bs) m) else None.

Fixpoint le_bytes (n : nat) (v : Z) : list Z :=
  match n with O => [] | S n => v mod 256 :: le_bytes n (v / 256) end.
Fixpoint le_val (l : list Z) : Z :=
  match l with [] => 0 | b :: l => b + 256 * le_val l end.

Definition rd32 (m : list Z) (off : Z) : option Z := (fun l => s32 (le_val l)) <$> rd m off 4.
Definition wr32 (m : list Z) (off v : Z) : option (list Z) := wr m off (le_bytes 4 v).
Definition rd64 (m : list Z) (off : Z) : option Z := (fun l => s64 (le_val l)) <$> rd m off 8.
Definition wr64 (m : list Z) (off v : Z) : option (list Z) := wr m off (le_bytes 8 v).

(** The C string that starts at the head of a list: the bytes before the NUL. *)
Fixpoint cstr (l : list Z) : list Z :=
  match l with [] => [] | b :: l => if b =? 0 then [] else b :: cstr l end.

(** ** Laws *)

Lemma in_obj_true m off len : in_obj m off len = true <-> 0 <= off /\ 0 <= len /\ off + len <= Z.of_nat (length m).
Proof. unfold in_obj. rewrite !andb_true_iff, !Z.leb_le. tauto. Qed.

Lemma rd_Some m off len : 0 <= off -> 0 <= len -> off + len <= Z.of_nat (length m) ->
  rd m off len = Some (take (Z.to_nat len) (drop (Z.to_nat off) m)).
Proof. intros. unfold rd. by rewrite (proj2 (in_obj_true m off len)). Qed.

Lemma wr_Some m off bs : 0 <= off -> off + Z.of_nat (length bs) <= Z.of_nat (length m) ->
  exists m', wr m off bs = Some m'.
Proof. intros. unfold wr. rewrite (proj2 (in_obj_true _ _ _)) by lia. eauto. Qed.

Lemma wr_inv m off bs m' : wr m off bs = Some m' ->
  0 <= off /\ off + Z.of_nat (length bs) <= Z.of_nat (length m) /\
  m' = take (Z.to_nat off) m ++ bs ++ drop (Z.to_nat off + length bs) m.
Proof.
  unfold wr. destruct (in_obj _ _ _) eqn:E; [|done]. apply in_obj_true in E as (? & ? & ?). intros [= <-]. done.
Qed.

Lemma wr_length m off bs m' : wr m off bs = Some m' -> length m' = length m.
Proof. intros (H1 & H2 & ->)%wr_inv. rewrite !length_app, length_take, length_drop. lia. Qed.

Lemma rd_wr_eq m off bs m' len : wr m off bs = Some m' -> len = Z.of_nat (length bs) -> rd m' off len = Some bs.
Proof.
  intros Hw ->. pose proof (wr_length _ _ _ _ Hw) as Hlen. apply wr_inv in Hw as (H1 & H2 & ->).
  rewrite rd_Some by (rewrite ?Hlen; lia). f_equal. rewrite Nat2Z.id.
  rewrite drop_app_length' by (rewrite length_take; lia). by rewrite take_app_length.
Qed.

Lemma rd_wr_ne m off bs m' off' len : wr m off bs = Some m' ->
  off' + len <= off \/ off + Z.of_nat (length bs) <= off' -> rd m' off' len = rd m off' len.
Proof.
  intros Hw Hd. pose proof (wr_length _ _ _ _ Hw) as Hlen. apply wr_inv in Hw as (H1 & H2 & E).
  unfold rd, in_obj. rewrite Hlen. fold (in_obj m off' len). destruct (in_obj m off' len) eqn:Ein; [|done].
  apply in_obj_true in Ein as (H3 & H4 & H5). f_equal. apply list_eq. intros i.
  destruct (decide (i < Z.to_nat len)%nat) as [Hi|Hi].
  2:{ rewrite !lookup_ge_None_2; [done|rewrite length_take; lia..]. }
  rewrite !lookup_take_lt, !lookup_drop by done. rewrite E. destruct Hd as [Hd|Hd].
  - rewrite lookup_app_l by (rewrite length_take; lia). by rewrite lookup_take_lt by lia.
  - rewrite lookup_app_r by (rewrite length_take; lia). rewrite length_take.
    rewrite lookup_app_r by lia. rewrite lookup_drop. f_equal. lia.
Qed.

Lemma length_le_bytes n v : length (le_bytes n v) = n.
Proof. revert v. induction n; intros; simpl; auto. Qed.

Lemma le_val_bytes n : forall v, le_val (le_bytes n v) = v mod 2 ^ (8 * Z.of_nat n).
Proof.
  induction n as [|n IH]; intros v; cbn [le_bytes le_val]; [simpl; by rewrite Z.mod_1_r|].
  rewrite IH. replace (8 * Z.of_nat (S n)) with (8 + 8 * Z.of_nat n) by lia. rewrite Z.pow_add_r by lia.
  change (2 ^ 8) with 256. rewrite Z.rem_mul_r; lia.
Qed.

Lemma s32_le v : is_s32 v -> s32 (le_val (le_bytes 4 v)) = v.
Proof.
  intros Hv. rewrite le_val_bytes. change (2 ^ (8 * Z.of_nat 4)) with (2 ^ 32). unfold s32, is_s32 in *.
  rewrite Z.add_mod_idemp_l by lia. rewrite Z.mod_small; lia.
Qed.

Lemma s64_le v : - 2 ^ 63 <= v < 2 ^ 63 -> s64 (le_val (le_bytes 8 v)) = v.
Proof.
  intros Hv. rewrite le_val_bytes. change (2 ^ (8 * Z.of_nat 8)) with (2 ^ 64). unfold s64 in *.
  rewrite Z.add_mod_idemp_l by lia. rewrite Z.mod_small; lia.
Qed.

Lemma wr32_Some m off v : 0 <= off -> off + 4 <= Z.of_nat (length m) -> exists m', wr32 m off v = Some m'.
Proof. intros. apply wr_Some; [done|]. rewrite length_le_bytes. lia. Qed.

Lemma wr32_length m off v m' : wr32 m off v = Some m' -> length m' = length m.
Proof. apply wr_length. Qed.

Lemma rd32_wr32_eq m off v m' : wr32 m off v = Some m' -> is_s32 v -> rd32 m' off = Some v.
Proof.
  intros Hw Hv. unfold rd32. rewrite (rd_wr_eq _ _ _ _ 4 Hw) by (by rewrite length_le_bytes).
  simpl fmap. f_equal. by apply s32_le.
Qed.

Lemma rd32_wr32_ne m off v m' off' : wr32 m off v = Some m' -> off' + 4 <= off \/ off + 4 <= off' ->
  rd32 m' off' = rd32 m off'.
Proof. intros Hw Hd. unfold rd32. by rewrite (rd_wr_ne _ _ _ _ off' 4 Hw) by (rewrite length_le_bytes; lia). Qed.

Lemma rd32_Some m off : 0 <= off -> off + 4 <= Z.of_nat (length m) -> exists v, rd32 m off = Some v /\ is_s32 v.
Proof. intros. unfold rd32. rewrite rd_Some by lia. eexists. split; [done|]. apply s32_range. Qed.

Lemma rd64_wr64_eq m off v m' : wr64 m off v = Some m' -> - 2 ^ 63 <= v < 2 ^ 63 -> rd64 m' off = Some v.
Proof.
  intros Hw Hv. unfold rd64. rewrite (rd_wr_eq _ _ _ _ 8 Hw) by (by rewrite length_le_bytes).
  simpl fmap. f_equal. by apply s64_le.
Qed.

End Mem.
