(* ===== verification/BgList.v ===== *)
(** * The block-group list of a mounted file system

    nvfuse_core.c keeps the block groups a process may allocate from on the
    circular list [sb_bg_list], with one search pointer for inodes and one for
    data blocks.  A node is identified by its [bg_id] (a group is added once);
    a search pointer is the list head ([None]) or a node ([Some bg_id]). *)
From S2P Require Import Prelude Layout.

Module BgList.

Record t := mk {
  sb_bg_list : list Z;
  sb_bg_list_count : Z;
  sb_bg_search_ptr_for_inode : option Z;
  sb_bg_search_ptr_for_data : option Z }.

(** As [nvfuse_mount] sets it up: both pointers at the list head. *)
Definition init : t := mk [] 0 None None.

Definition get_ptr (is_inode : bool) (s : t) : option Z :=
  if is_inode then sb_bg_search_ptr_for_inode s else sb_bg_search_ptr_for_data s.
Definition set_ptr (is_inode : bool) (p : option Z) (s : t) : t :=
  if is_inode
  then mk (sb_bg_list s) (sb_bg_list_count s) p (sb_bg_search_ptr_for_data s)
  else mk (sb_bg_list s) (sb_bg_list_count s) (sb_bg_search_ptr_for_inode s) p.

(** [node->next]: [Some None] is the list head, [None] a node that is not on
    the list (its links are poisoned by [list_del]). *)
Definition succ (l : list Z) (id : Z) : option (option Z) :=
  '(i, _) ← list_find (.= id) l; Some (l !! S i).

(** [node->next] for a pointer that may be the head. *)
Definition ptr_next (l : list Z) (p : option Z) : option (option Z) :=
  match p with None => Some (head l) | Some id => succ l id end.

Section ops.
(** spdk_process_is_primary () *)
Variable primary : bool.

(** src/nvfuse_core.c: nvfuse_get_curr_bg_id *)
Definition nvfuse_get_curr_bg_id (is_inode : bool) (s : t) : option Z :=
  if negb primary then
    match get_ptr is_inode s with
    | None => None                                (* assert: not the list head *)
    | Some id => if id =? 0 then None else Some id
    end
  else Some 0.

(** src/nvfuse_core.c: nvfuse_get_next_bg_id *)
Definition nvfuse_get_next_bg_id (is_inode : bool) (s : t) : option (Z * t) :=
  if negb primary then
    let first_node := get_ptr is_inode s in
    nxt ← ptr_next (sb_bg_list s) first_node;
    (* list_is_last: continue from the head *)
    let first_node := match nxt with None => None | Some _ => first_node end in
    nxt ← ptr_next (sb_bg_list s) first_node;
    match nxt with
    | None => None                                (* container_of the head of an empty list *)
    | Some id => if id =? 0 then None else Some (id, set_ptr is_inode (Some id) s)
    end
  else Some (0, s).

(** src/nvfuse_core.c: nvfuse_move_curr_bg_id.  The walk skips the list head;
    [fuel] bounds the number of nodes visited. *)
Fixpoint move_walk (fuel : nat) (l : list Z) (node bg_id : Z) : option Z :=
  match fuel with
  | O => None
  | S f =>
      if node =? bg_id then (if bg_id =? 0 then None else Some node)
      else if bg_id =? 0 then None
      else
        nxt ← succ l node;
        match nxt with
        | Some n => move_walk f l n bg_id
        | None => n ← head l; move_walk f l n bg_id
        end
  end.

Definition nvfuse_move_curr_bg_id (bg_id : Z) (is_inode : bool) (s : t) : option t :=
  if negb primary then
    node ← get_ptr is_inode s;
    n ← move_walk (S (length (sb_bg_list s))) (sb_bg_list s) node bg_id;
    Some (set_ptr is_inode (Some n) s)
  else None.                                      (* assert (0) *)

End ops.

(** The list part of src/nvfuse_core.c: nvfuse_add_bg (append the node, count
    it, point both searches at the first node when it is the only one). *)
Definition add_node (bg_id : Z) (s : t) : t :=
  let l := sb_bg_list s ++ [bg_id] in
  let c := s32 (sb_bg_list_count s + 1) in
  if c =? 1 then mk l c (head l) (head l)
  else mk l c (sb_bg_search_ptr_for_inode s) (sb_bg_search_ptr_for_data s).

(** The pointer a search moves to when its node [id] is deleted: the next node,
    skipping the head ([while (next == &sb->sb_bg_list) next = next->next]). *)
Definition ptr_after_del (l : list Z) (id : Z) (p : option Z) : option Z :=
  if bool_decide (p = Some id) then
    match succ l id with
    | Some (Some n) => Some n
    | _ => head l
    end
  else p.

(** The list part of src/nvfuse_core.c: nvfuse_remove_bg.  [None] when no node
    holds [bg_id] (the [assert] after the loop). *)
Definition del_node (bg_id : Z) (s : t) : option t :=
  let l := sb_bg_list s in
  '(i, _) ← list_find (.= bg_id) l;
  Some (mk (delete i l) (s32 (sb_bg_list_count s - 1))
          (ptr_after_del l bg_id (sb_bg_search_ptr_for_inode s))
          (ptr_after_del l bg_id (sb_bg_search_ptr_for_data s))).

(** ** Invariant *)

(** Group 0 belongs to the control plane and never enters the list of a data
    plane; the pointers designate nodes of the list once it is not empty. *)
Definition ptr_ok (l : list Z) (p : option Z) : Prop :=
  match p with None => l = [] | Some id => id ∈ l end.
Definition inv (s : t) : Prop :=
  NoDup (sb_bg_list s) /\ 0 ∉ sb_bg_list s /\
  sb_bg_list_count s = Z.of_nat (length (sb_bg_list s)) /\
  ptr_ok (sb_bg_list s) (sb_bg_search_ptr_for_inode s) /\
  ptr_ok (sb_bg_list s) (sb_bg_search_ptr_for_data s).

End BgList.
