(* ===== verification/BgListThms.v ===== *)
(** * The block-group list: invariant and round-robin search

    The effect of each list operation on the sequence of groups and on the two
    search pointers, and the theorems on it. *)
From S2P Require Import Prelude Layout BgList.
Import BgList.

Module BgListThms.

Lemma succ_spec l i x : NoDup l -> l !! i = Some x -> succ l x = Some (l !! S i).
Proof.
  intros Hnd Hx. unfold succ.
  assert (list_find (.= x) l = Some (i, x)) as ->; [|done].
  apply list_find_Some. split; [done|]. split; [done|]. intros j y Hj Hlt ->.
  assert (j = i) by (by eapply NoDup_lookup). lia.
Qed.

(** The node after index [i], wrapping at the end. *)
Lemma next_index {A} (l : list A) i x : l !! i = Some x -> exists y, l !! (S i mod length l)%nat = Some y /\
  (l !! S i = Some y \/ (l !! S i = None /\ head l = Some y)).
Proof.
  intros Hi. apply lookup_lt_Some in Hi as Hlt. destruct (decide (S i < length l)%nat) as [H|H].
  - rewrite Nat.mod_small by done. apply lookup_lt_is_Some_2 in H as [y Hy]. exists y. auto.
  - replace (S i) with (length l) by lia. rewrite Nat.Div0.mod_same.
    destruct l as [|y l]; [simpl in Hlt; lia|]. exists y. split; [done|]. right. split; [|done].
    apply lookup_ge_None. lia.
Qed.

Section dataplane.
Context (is_inode : bool).

Lemma get_set_ptr p s : get_ptr is_inode (set_ptr is_inode p s) = p.
Proof. by destruct is_inode. Qed.
Lemma set_ptr_list p s : sb_bg_list (set_ptr is_inode p s) = sb_bg_list s.
Proof. by destruct is_inode. Qed.
Lemma set_ptr_twice p q s : set_ptr is_inode p (set_ptr is_inode q s) = set_ptr is_inode p s.
Proof. by destruct is_inode. Qed.

Lemma get_next_spec s i x :
  NoDup (sb_bg_list s) -> 0 ∉ sb_bg_list s -> get_ptr is_inode s = Some x -> sb_bg_list s !! i = Some x ->
  exists y, sb_bg_list s !! (S i mod length (sb_bg_list s))%nat = Some y /\
    nvfuse_get_next_bg_id false is_inode s = Some (y, set_ptr is_inode (Some y) s).
Proof.
  intros Hnd H0 Hp Hi. destruct (next_index _ _ _ Hi) as (y & Hy & Hcase). exists y. split; [done|].
  assert (y <> 0) as Hy0 by (intros ->; by apply list_elem_of_lookup_2 in Hy).
  unfold nvfuse_get_next_bg_id. cbn [negb]. rewrite Hp. cbn [ptr_next].
  rewrite (succ_spec _ i x) by done. destruct Hcase as [E|[E Hh]]; rewrite E; simpl.
  - rewrite (succ_spec _ i x), E by done. simpl. by rewrite (proj2 (Z.eqb_neq y 0)).
  - rewrite Hh. by rewrite (proj2 (Z.eqb_neq y 0)).
Qed.

(** [k] successive calls of nvfuse_get_next_bg_id. *)
Fixpoint next_n (k : nat) (s : t) : option (list Z * t) :=
  match k with
  | O => Some ([], s)
  | S k' => '(y, s1) ← nvfuse_get_next_bg_id false is_inode s;
            '(ys, s2) ← next_n k' s1; Some (y :: ys, s2)
  end.

Lemma next_n_spec k : forall s i x,
  NoDup (sb_bg_list s) -> 0 ∉ sb_bg_list s -> get_ptr is_inode s = Some x -> sb_bg_list s !! i = Some x ->
  exists ys z, next_n k s = Some (ys, set_ptr is_inode (Some z) s) /\ length ys = k /\
    sb_bg_list s !! ((i + k) mod length (sb_bg_list s))%nat = Some z /\
    forall j, (j < k)%nat -> ys !! j = sb_bg_list s !! ((i + S j) mod length (sb_bg_list s))%nat.
Proof.
  induction k as [|k IH]; intros s i x Hnd H0 Hp Hi.
  - exists [], x. rewrite Nat.add_0_r, Nat.mod_small by (by eapply lookup_lt_Some).
    split; [|split; [done|]; split; [done|]; intros j Hj; lia]. simpl. do 2 f_equal.
    destruct is_inode, s; simpl in *; by subst.
  - destruct (get_next_spec s i x Hnd H0 Hp Hi) as (y & Hy & E). simpl. rewrite E. simpl.
    set (n := length (sb_bg_list s)) in *.
    assert (n <> 0)%nat as Hn by (apply lookup_lt_Some in Hi; lia).
    destruct (IH (set_ptr is_inode (Some y) s) (S i mod n)%nat y) as (ys & z & E2 & Hl & Hz & Hall);
      rewrite ?set_ptr_list, ?get_set_ptr; try done.
    rewrite E2. simpl. rewrite set_ptr_twice. rewrite set_ptr_list in *. fold n in Hz, Hall.
    exists (y :: ys), z. split; [done|]. split; [simpl; lia|]. split.
    + rewrite <- Hz. f_equal. rewrite Nat.Div0.add_mod_idemp_l. f_equal. lia.
    + intros [|j] Hj; simpl.
      * rewrite <- Hy. do 2 f_equal. lia.
      * rewrite Hall by lia. f_equal. rewrite Nat.Div0.add_mod_idemp_l. f_equal. lia.
Qed.

End dataplane.

(** Rotations of a list of positions. *)
Lemma rotation_perm (l ys : list Z) i : NoDup l -> (i < length l)%nat -> length ys = length l ->
  (forall j, (j < length l)%nat -> ys !! j = l !! ((i + S j) mod length l)%nat) -> ys ≡ₚ l.
Proof.
  intros Hnd Hi Hlen Hall. set (n := length l) in *.
  assert (NoDup ys) as Hys.
  { apply NoDup_alt. intros j k x Hj Hk. apply lookup_lt_Some in Hj as Hj'. apply lookup_lt_Some in Hk as Hk'.
    rewrite Hall in Hj, Hk by lia.
    assert ((i + S j) mod n = (i + S k) mod n)%nat as E by (by eapply NoDup_lookup).
    pose proof (Nat.div_mod (i + S j) n). pose proof (Nat.div_mod (i + S k) n).
    assert ((i + S j) / n = (i + S k) / n)%nat by nia. nia. }
  apply submseteq_length_Permutation; [|lia]. apply NoDup_submseteq; [done|]. intros x Hx. apply list_elem_of_lookup in Hx as [j Hj].
  apply lookup_lt_Some in Hj as Hj'. rewrite Hall in Hj by lia. by eapply list_elem_of_lookup_2.
Qed.

(** C30: the group search of a data plane is a round robin: as many calls of
    nvfuse_get_next_bg_id as there are groups on the list all return, visit
    every group exactly once and bring the search pointer back to where it was. *)
Theorem get_next_round_robin is_inode s x :
  inv s -> get_ptr is_inode s = Some x ->
  exists ys, next_n is_inode (length (sb_bg_list s)) s = Some (ys, s) /\ ys ≡ₚ sb_bg_list s.
Proof.
  intros (Hnd & H0 & _ & Hp1 & Hp2) Hp.
  assert (x ∈ sb_bg_list s) as [i Hi]%list_elem_of_lookup by (by destruct is_inode; simpl in Hp; rewrite Hp in *).
  destruct (next_n_spec is_inode (length (sb_bg_list s)) s i x) as (ys & z & E & Hl & Hz & Hall); try done.
  apply lookup_lt_Some in Hi as Hlt. exists ys. split.
  - rewrite E. do 2 f_equal.
    assert ((i + length (sb_bg_list s)) mod length (sb_bg_list s) = i)%nat as Em.
    { rewrite <- (Nat.mul_1_l (length (sb_bg_list s))) at 1. rewrite Nat.Div0.mod_add. by apply Nat.mod_small. }
    rewrite Em, Hi in Hz. simplify_eq. destruct is_inode, s; simpl in *; by subst.
  - by apply (rotation_perm _ _ i).
Qed.

Definition three : t := add_node 9 (add_node 4 (add_node 7 init)).

Lemma three_inv : inv three.
Proof.
  split; [apply (bool_decide_unpack _); reflexivity|]. split; [apply (bool_decide_unpack _); reflexivity|].
  split; [reflexivity|]. split; apply (bool_decide_unpack (7 ∈ [7; 4; 9])); reflexivity.
Qed.

Lemma get_next_round_robin_witness : exists ys, next_n true 3 three = Some (ys, three) /\ ys ≡ₚ [7; 4; 9].
Proof. apply (get_next_round_robin true three 7); [exact three_inv|reflexivity]. Defined.

(** ** Adding and removing groups *)

(** nvfuse_add_bg keeps the list consistent: no group twice, the count is
    its length, and both search pointers designate a group on the list. *)
Theorem add_bg_inv s bg :
  inv s -> bg ∉ sb_bg_list s -> bg <> 0 -> sb_bg_list_count s < 2 ^ 31 - 1 -> inv (add_node bg s).
Proof.
  intros (Hnd & H0 & Hc & Hp1 & Hp2) Hbg Hz Hmax. unfold add_node.
  rewrite s32_small by lia. set (l := sb_bg_list s ++ [bg]).
  assert (NoDup l /\ 0 ∉ l /\ sb_bg_list_count s + 1 = Z.of_nat (length l)) as (H1 & H2 & H3).
  { subst l. split; [|split].
    - apply NoDup_app. split; [done|]. split; [|apply NoDup_singleton].
      intros y Hy ->%list_elem_of_singleton. done.
    - rewrite elem_of_app, list_elem_of_singleton. intros [?|?]; [done|]. lia.
    - rewrite length_app. simpl. lia. }
  destruct (Z.eqb_spec (sb_bg_list_count s + 1) 1) as [E|E].
  - assert (sb_bg_list s = []) as Hnil by (destruct (sb_bg_list s); [done|simpl in Hc; lia]).
    subst l. rewrite Hnil in *. simpl in *. unfold inv, ptr_ok. simpl.
    repeat (split; [done|]). split; by apply list_elem_of_singleton.
  - assert (forall p, ptr_ok (sb_bg_list s) p -> ptr_ok l p) as Hok.
    { intros [id|] Hp; simpl in *; subst l.
      - apply elem_of_app. by left.
      - rewrite Hp in Hc. simpl in Hc. lia. }
    repeat (split; [by auto|]). by apply Hok.
Qed.

Lemma add_bg_inv_witness : inv (add_node 12 three).
Proof.
  apply (add_bg_inv three 12); [exact three_inv| |lia|reflexivity].
  apply (bool_decide_unpack _). reflexivity.
Defined.

Lemma ptr_after_del_ok l i id p :
  NoDup l -> l !! i = Some id -> (2 <= length l)%nat -> ptr_ok l p -> ptr_ok (delete i l) (ptr_after_del l id p).
Proof.
  intros Hnd Hi Hlen Hp.
  assert (forall y, y ∈ l -> y <> id -> y ∈ delete i l) as Hdel.
  { intros y Hy Hne. rewrite (delete_Permutation l i id Hi) in Hy. by apply elem_of_cons in Hy as [?|?]. }
  unfold ptr_after_del. case_bool_decide as E.
  - rewrite (succ_spec l i id) by done. destruct (l !! S i) as [n|] eqn:En.
    + apply Hdel; [by eapply list_elem_of_lookup_2|]. intros ->.
      assert (S i = i) by (by eapply NoDup_lookup). lia.
    + destruct l as [|y l]; [done|]. simpl. apply Hdel; [apply elem_of_cons; by left|].
      intros ->. assert (O = i) as <- by (by eapply (NoDup_lookup (id :: l))).
      apply lookup_ge_None in En. simpl in *. lia.
  - destruct p as [q|]; simpl in *; [|by subst].
    apply Hdel; [done|]. intros ->. done.
Qed.

(** nvfuse_remove_bg on a list of at least two groups (the root group is
    never removed) takes exactly the given group off and moves a search pointer
    that stood on it to another group of the list. *)
Theorem remove_bg_inv s bg :
  inv s -> bg ∈ sb_bg_list s -> 2 <= sb_bg_list_count s < 2 ^ 31 ->
  exists s', del_node bg s = Some s' /\ inv s' /\ bg :: sb_bg_list s' ≡ₚ sb_bg_list s.
Proof.
  intros (Hnd & H0 & Hc & Hp1 & Hp2) [i Hi]%list_elem_of_lookup Hlen. unfold del_node.
  assert (list_find (.= bg) (sb_bg_list s) = Some (i, bg)) as ->.
  { apply list_find_Some. split; [done|]. split; [done|]. intros j y Hj Hlt ->.
    assert (j = i) by (by eapply NoDup_lookup). lia. }
  simpl. eexists. split; [done|]. pose proof (delete_Permutation _ i bg Hi) as Hperm.
  split; [|by symmetry].
  apply lookup_lt_Some in Hi as Hlt.
  assert (NoDup (bg :: delete i (sb_bg_list s))) as [_ Hnd']%NoDup_cons by (by rewrite <- Hperm).
  split; [done|]. split.
  { simpl. intros Hin. apply H0. rewrite Hperm. apply elem_of_cons. by right. }
  split; [simpl; rewrite s32_small, length_delete by (eauto || lia); lia|].
  split; apply ptr_after_del_ok; try done; lia.
Qed.

Lemma remove_bg_inv_witness : exists s', del_node 7 three = Some s' /\ inv s' /\
  7 :: sb_bg_list s' ≡ₚ [7; 4; 9].
Proof.
  apply (remove_bg_inv three 7); [exact three_inv| |split; [vm_compute; discriminate|reflexivity]].
  apply (bool_decide_unpack _). reflexivity.
Defined.

(** ** Moving the pointer *)

Lemma move_walk_spec l bg k : forall fuel i x,
  NoDup l -> 0 ∉ l -> l !! i = Some x -> l !! ((i + k) mod length l)%nat = Some bg -> (k < fuel)%nat ->
  move_walk fuel l x bg = Some bg.
Proof.
  induction k as [|k IH]; intros fuel i x Hnd H0 Hi Hk Hf; (destruct fuel as [|fuel]; [lia|]); cbn [move_walk].
  - rewrite Nat.add_0_r, Nat.mod_small in Hk by (by eapply lookup_lt_Some). rewrite Hi in Hk. injection Hk as ->.
    rewrite Z.eqb_refl, (proj2 (Z.eqb_neq bg 0)); [done|]. intros ->. by apply list_elem_of_lookup_2 in Hi.
  - assert (bg <> 0) as Hb by (intros ->; by apply list_elem_of_lookup_2 in Hk).
    rewrite (proj2 (Z.eqb_neq bg 0)) by done. destruct (Z.eqb_spec x bg) as [->|]; [done|].
    rewrite (succ_spec l i x) by done. simpl.
    destruct (next_index l i x Hi) as (y & Hy & Hcase).
    assert (move_walk fuel l y bg = Some bg) as Hw.
    { apply (IH fuel (S i mod length l)%nat y); try done; [|lia].
      rewrite Nat.Div0.add_mod_idemp_l, <- Hk. f_equal. f_equal. lia. }
    destruct Hcase as [->|[-> ->]]; exact Hw.
Qed.

(** nvfuse_move_curr_bg_id terminates and puts the search pointer on the
    requested group whenever that group is on the list, wherever the pointer
    stood before; the walk visits each node at most once. *)
Theorem move_curr_bg_finds is_inode s x bg :
  inv s -> get_ptr is_inode s = Some x -> bg ∈ sb_bg_list s ->
  nvfuse_move_curr_bg_id false bg is_inode s = Some (set_ptr is_inode (Some bg) s).
Proof.
  intros (Hnd & H0 & _ & Hp1 & Hp2) Hp [j Hj]%list_elem_of_lookup.
  assert (x ∈ sb_bg_list s) as [i Hi]%list_elem_of_lookup by (by destruct is_inode; simpl in Hp; rewrite Hp in *).
  unfold nvfuse_move_curr_bg_id. cbn [negb]. rewrite Hp. unfold mbind, option_bind.
  apply lookup_lt_Some in Hi as Hil. apply lookup_lt_Some in Hj as Hjl. set (n := length (sb_bg_list s)) in *.
  assert (exists k, (k < n)%nat /\ ((i + k) mod n = j)%nat) as (k & Hk & Ek).
  { destruct (decide (i <= j)%nat).
    - exists (j - i)%nat. split; [lia|]. rewrite Nat.mod_small; lia.
    - exists (j + n - i)%nat. split; [lia|]. replace (i + (j + n - i))%nat with (j + 1 * n)%nat by lia.
      rewrite Nat.Div0.mod_add. by apply Nat.mod_small. }
  rewrite (move_walk_spec (sb_bg_list s) bg k (S n) i x); [done|done|done|done| |lia]. fold n. by rewrite Ek.
Qed.

Lemma move_curr_bg_finds_witness :
  nvfuse_move_curr_bg_id false 9 true three = Some (set_ptr true (Some 9) three).
Proof.
  apply (move_curr_bg_finds true three 7 9); [exact three_inv|reflexivity|].
  apply (bool_decide_unpack _). reflexivity.
Defined.

End BgListThms.
