(* ===== verification/Alloc.v ===== *)
(** * Allocation of inodes and blocks: bitmaps, descriptors and counters

    The allocator of nvfuse_core.c and the front end of nvfuse_indirect.c that
    searches the block groups.  The state holds the cached contents of the
    metadata blocks the functions reach through [nvfuse_get_bh]: descriptor,
    inode bitmap and data bitmap of every group, and the inode table.  A block
    that cannot be read is absent from its map.  [fs_dirty] records the blocks
    released with [DIRTY], which is what the flush writes back. *)
From S2P Require Import Prelude Bitmap Layout BgList.

Module Alloc.
Export Bitmap Layout.

Record fs := mk_fs {
  fs_sb : nvfuse_superblock;
  fs_bd : gmap Z nvfuse_bg_descriptor;      (* (BD_INO, bg) *)
  fs_ibitmap : gmap Z (list Z);             (* (IBITMAP_INO, bg) *)
  fs_dbitmap : gmap Z (list Z);             (* (DBITMAP_INO, bg) *)
  fs_itable : gmap Z nvfuse_inode;          (* (ITABLE_INO, ino): one inode per block *)
  fs_bgl : BgList.t;
  fs_dirty : gset (Z * Z) }.

Definition set_sb (sb : nvfuse_superblock) (s : fs) : fs :=
  mk_fs sb (fs_bd s) (fs_ibitmap s) (fs_dbitmap s) (fs_itable s) (fs_bgl s) (fs_dirty s).
Definition set_bd (bg : Z) (d : nvfuse_bg_descriptor) (s : fs) : fs :=
  mk_fs (fs_sb s) (<[bg := d]> (fs_bd s)) (fs_ibitmap s) (fs_dbitmap s) (fs_itable s)
    (fs_bgl s) (fs_dirty s).
Definition set_ibitmap (bg : Z) (b : list Z) (s : fs) : fs :=
  mk_fs (fs_sb s) (fs_bd s) (<[bg := b]> (fs_ibitmap s)) (fs_dbitmap s) (fs_itable s)
    (fs_bgl s) (fs_dirty s).
Definition set_dbitmap (bg : Z) (b : list Z) (s : fs) : fs :=
  mk_fs (fs_sb s) (fs_bd s) (fs_ibitmap s) (<[bg := b]> (fs_dbitmap s)) (fs_itable s)
    (fs_bgl s) (fs_dirty s).
Definition set_itable (ino : Z) (i : nvfuse_inode) (s : fs) : fs :=
  mk_fs (fs_sb s) (fs_bd s) (fs_ibitmap s) (fs_dbitmap s) (<[ino := i]> (fs_itable s))
    (fs_bgl s) (fs_dirty s).

(** [nvfuse_release_bh (sb, bh, 0, DIRTY)] on block (ino, lbno); a release with
    [NVF_CLEAN] leaves the state unchanged. *)
Definition mark_dirty (ino lbno : Z) (s : fs) : fs :=
  mk_fs (fs_sb s) (fs_bd s) (fs_ibitmap s) (fs_dbitmap s) (fs_itable s) (fs_bgl s)
    ({[ (ino, lbno) ]} ∪ fs_dirty s).

(** Superblock counter updates; the field widths are those of the struct
    ([sb_free_inodes] is s32, the block counters are s64). *)
Definition sb_add_inodes (primary : bool) (n : Z) (sb : nvfuse_superblock) : nvfuse_superblock :=
  mk_sb (sb_signature sb) (sb_no_of_sectors sb) (sb_no_of_blocks sb) (sb_no_of_used_blocks sb)
    (sb_no_of_inodes_per_bg sb) (sb_no_of_blocks_per_bg sb) (sb_root_ino sb)
    (s32 (sb_free_inodes sb + n)) (sb_free_blocks sb) (sb_bg_num sb) (sb_state sb)
    (sb_max_file_num sb) (sb_max_dir_num sb) (sb_max_inode_num sb)
    (if primary then asb sb
     else mk_asb (asb_root_bg_id (asb sb)) (s32 (asb_free_inodes (asb sb) + n))
            (asb_free_blocks (asb sb)) (asb_no_of_used_blocks (asb sb)) (asb_core_id (asb sb)))
    (sb_last_allocated_ino sb) (sb_last_allocated_bgid sb) (sb_last_allocated_bgid_by_ino sb).

Definition sb_add_blocks (primary : bool) (n : Z) (sb : nvfuse_superblock) : nvfuse_superblock :=
  mk_sb (sb_signature sb) (sb_no_of_sectors sb) (sb_no_of_blocks sb)
    (s64 (sb_no_of_used_blocks sb - n))
    (sb_no_of_inodes_per_bg sb) (sb_no_of_blocks_per_bg sb) (sb_root_ino sb)
    (sb_free_inodes sb) (s64 (sb_free_blocks sb + n)) (sb_bg_num sb) (sb_state sb)
    (sb_max_file_num sb) (sb_max_dir_num sb) (sb_max_inode_num sb)
    (if primary then asb sb
     else mk_asb (asb_root_bg_id (asb sb)) (asb_free_inodes (asb sb))
            (s64 (asb_free_blocks (asb sb) + n)) (asb_no_of_used_blocks (asb sb)) (asb_core_id (asb sb)))
    (sb_last_allocated_ino sb) (sb_last_allocated_bgid sb) (sb_last_allocated_bgid_by_ino sb).

Definition sb_set_last_ino (v : Z) (sb : nvfuse_superblock) : nvfuse_superblock :=
  mk_sb (sb_signature sb) (sb_no_of_sectors sb) (sb_no_of_blocks sb) (sb_no_of_used_blocks sb)
    (sb_no_of_inodes_per_bg sb) (sb_no_of_blocks_per_bg sb) (sb_root_ino sb)
    (sb_free_inodes sb) (sb_free_blocks sb) (sb_bg_num sb) (sb_state sb)
    (sb_max_file_num sb) (sb_max_dir_num sb) (sb_max_inode_num sb) (asb sb)
    (s32 v) (sb_last_allocated_bgid sb) (sb_last_allocated_bgid_by_ino sb).

Definition sb_set_last_bg (bg ino : Z) (sb : nvfuse_superblock) : nvfuse_superblock :=
  mk_sb (sb_signature sb) (sb_no_of_sectors sb) (sb_no_of_blocks sb) (sb_no_of_used_blocks sb)
    (sb_no_of_inodes_per_bg sb) (sb_no_of_blocks_per_bg sb) (sb_root_ino sb)
    (sb_free_inodes sb) (sb_free_blocks sb) (sb_bg_num sb) (sb_state sb)
    (sb_max_file_num sb) (sb_max_dir_num sb) (sb_max_inode_num sb) (asb sb)
    (sb_last_allocated_ino sb) (s32 bg) (s32 ino).

(** [nvfuse_get_bh] of a metadata block: [None] when the block is absent. *)
Definition get_bd (bg : Z) : M fs nvfuse_bg_descriptor := fun s => mlift (fs_bd s !! bg) s.
Definition get_ibitmap (bg : Z) : M fs (list Z) := fun s => mlift (fs_ibitmap s !! bg) s.
Definition get_dbitmap (bg : Z) : M fs (list Z) := fun s => mlift (fs_dbitmap s !! bg) s.

Section ops.
(** spdk_process_is_primary (), an SPDK call that is constant for a process. *)
Context (primary : bool).

(** ** Descriptor counters *)

(** src/nvfuse_core.c: nvfuse_inc_free_inodes.  The tail that hands an empty
    group back to the control plane is compiled out in the standalone process
    model ([nvfuse_process_model_is_dataplane] is the constant 0). *)
Definition nvfuse_inc_free_inodes (ino : Z) : M fs unit :=
  sb ← mgets fs_sb;
  let bg_id := ino / sb_no_of_inodes_per_bg sb in
  bd ← get_bd bg_id;
  massert (bd_id bd =? bg_id);;
  let bd := set_bd_free_inodes (u32 (bd_free_inodes bd + 1)) bd in
  mmodify (set_bd bg_id bd);;
  mmodify (set_sb (sb_add_inodes primary 1 sb));;
  massert (bd_free_inodes bd <=? bd_max_inodes bd);;
  mmodify (mark_dirty BD_INO bg_id).

(** src/nvfuse_core.c: nvfuse_dec_free_inodes *)
Definition nvfuse_dec_free_inodes (ino : Z) : M fs unit :=
  sb ← mgets fs_sb;
  let bg_id := ino / sb_no_of_inodes_per_bg sb in
  bd ← get_bd bg_id;
  massert (bd_id bd =? bg_id);;
  let bd := set_bd_free_inodes (u32 (bd_free_inodes bd - 1)) bd in
  mmodify (set_bd bg_id bd);;
  mmodify (set_sb (sb_add_inodes primary (-1) sb));;
  massert (0 <=? bd_free_inodes bd);;
  mmodify (mark_dirty BD_INO bg_id).

(** src/nvfuse_core.c: nvfuse_inc_free_blocks (the same remark on the group
    removal at its end). *)
Definition nvfuse_inc_free_blocks (blockno cnt : Z) : M fs unit :=
  sb ← mgets fs_sb;
  let bg_id := blockno / sb_no_of_blocks_per_bg sb in
  bd ← get_bd bg_id;
  massert (bd_id bd =? bg_id);;
  let bd := set_bd_free_blocks (u32 (bd_free_blocks bd + cnt)) bd in
  mmodify (set_bd bg_id bd);;
  let sb := sb_add_blocks primary cnt sb in
  mmodify (set_sb sb);;
  massert (bd_free_blocks bd <=? bd_max_blocks bd);;
  massert (sb_free_blocks sb <=? sb_no_of_blocks sb);;
  massert (primary || (asb_free_blocks (asb sb) <=? sb_no_of_blocks sb));;
  massert (0 <=? sb_no_of_used_blocks sb);;
  mmodify (mark_dirty BD_INO bg_id).

(** src/nvfuse_core.c: nvfuse_dec_free_blocks *)
Definition nvfuse_dec_free_blocks (blockno cnt : Z) : M fs unit :=
  sb ← mgets fs_sb;
  let bg_id := blockno / sb_no_of_blocks_per_bg sb in
  bd ← get_bd bg_id;
  massert (bd_id bd =? bg_id);;
  let bd := set_bd_free_blocks (u32 (bd_free_blocks bd - cnt)) bd in
  mmodify (set_bd bg_id bd);;
  let sb := sb_add_blocks primary (- cnt) sb in
  mmodify (set_sb sb);;
  massert (0 <=? bd_free_blocks bd);;
  massert (0 <=? sb_free_blocks sb);;
  massert (primary || (0 <=? asb_free_blocks (asb sb)));;
  massert (sb_no_of_used_blocks sb <=? sb_no_of_blocks sb);;
  mmodify (mark_dirty BD_INO bg_id).

(** src/nvfuse_core.c: nvfuse_get_free_blocks; 0 when the descriptor block
    cannot be read. *)
Definition nvfuse_get_free_blocks (bg_id : Z) : M fs Z :=
  s ← mget;
  match fs_bd s !! bg_id with
  | None => mret 0
  | Some bd => massert (bd_id bd =? bg_id);; mret (bd_free_blocks bd)
  end.

(** src/nvfuse_core.c: nvfuse_check_free_inode *)
Definition nvfuse_check_free_inode : M fs Z :=
  sb ← mgets fs_sb;
  if negb primary then mret (if asb_free_inodes (asb sb) =? 0 then 0 else 1)
  else mret (if sb_free_inodes sb =? 0 then 0 else 1).

(** src/nvfuse_core.c: nvfuse_check_free_block *)
Definition nvfuse_check_free_block (num_blocks : Z) : M fs Z :=
  sb ← mgets fs_sb;
  if primary then mret (if num_blocks <=? sb_free_blocks sb then 1 else 0)
  else mret (if num_blocks <=? asb_free_blocks (asb sb) then 1 else 0).

(** ** Inodes *)

(** The search loop of nvfuse_scan_free_ibitmap: [n] is the number of
    iterations left ([count < sb_no_of_inodes_per_bg]). *)
Fixpoint ibitmap_search (n : nat) (per_bg : Z) (buf : list Z) (free_inode : Z)
  : option (option Z) :=
  match n with
  | O => Some None
  | S n' =>
      t ← ext2fs_test_bit free_inode buf;
      if t =? 0 then Some (Some free_inode)
      else ibitmap_search n' per_bg buf (u32 (free_inode + 1) mod per_bg)
  end.

(** src/nvfuse_core.c: nvfuse_scan_free_ibitmap *)
Definition nvfuse_scan_free_ibitmap (bg_id hint_free_inode : Z) : M fs Z :=
  sb ← mgets fs_sb;
  bd ← get_bd bg_id;
  massert (bd_id bd =? bg_id);;
  buf ← get_ibitmap bg_id;
  let per_bg := sb_no_of_inodes_per_bg sb in
  found ← mlift (if bd_free_inodes bd =? 0 then Some None
                 else ibitmap_search (Z.to_nat per_bg) per_bg buf hint_free_inode);
  match found with
  | Some free_inode =>
      if free_inode <? per_bg then
        '(_, buf') ← mlift (ext2fs_set_bit free_inode buf);
        mmodify (set_ibitmap bg_id buf');;
        mmodify (mark_dirty IBITMAP_INO bg_id);;
        mret (u32 (free_inode + bg_id * bd_max_inodes bd))
      else
        mmodify (mark_dirty IBITMAP_INO bg_id);; mret 0
  | None => mret 0
  end.

(** src/nvfuse_core.c: nvfuse_release_ibitmap.  A bit that is already clear is
    reported and left alone; the bitmap is released dirty in both cases. *)
Definition nvfuse_release_ibitmap (bg_id ino : Z) : M fs unit :=
  bd ← get_bd bg_id;
  massert (bd_id bd =? bg_id);;
  buf ← get_ibitmap bg_id;
  let nr := ino mod bd_max_inodes bd in
  t ← mlift (ext2fs_test_bit nr buf);
  (if t =? 0 then mret tt
   else '(_, buf') ← mlift (ext2fs_clear_bit nr buf); mmodify (set_ibitmap bg_id buf'));;
  mmodify (mark_dirty IBITMAP_INO bg_id).

(** The group loop of nvfuse_find_free_inode: a do-while over at most [n]
    groups that starts at [bg_id] and stops when it is back at [last_id]. *)
Fixpoint find_free_inode_loop (n : nat) (bg_id last_id hint_ino : Z) : M fs Z :=
  match n with
  | O => mabort
  | S n' =>
      new_ino ← nvfuse_scan_free_ibitmap bg_id hint_ino;
      if negb (new_ino =? 0) then mret new_ino
      else
        sb ← mgets fs_sb;
        let bg_id := u32 (bg_id + 1) mod sb_bg_num sb in
        if bg_id =? last_id then mabort         (* no free inode: assert (0) *)
        else find_free_inode_loop n' bg_id last_id 0
  end.

(** src/nvfuse_core.c: nvfuse_find_free_inode (standalone process model).  The
    loop runs once per group, so [sb_bg_num] iterations suffice. *)
Definition nvfuse_find_free_inode (last_ino : Z) : M fs Z :=
  s ← mget;
  let sb := fs_sb s in
  bg_id ← (if negb primary then mlift (BgList.nvfuse_get_curr_bg_id primary true (fs_bgl s))
           else mret (last_ino / sb_no_of_inodes_per_bg sb));
  let hint_ino := last_ino mod sb_no_of_inodes_per_bg sb in
  find_free_inode_loop (Z.to_nat (sb_bg_num sb)) bg_id bg_id hint_ino.

(** src/nvfuse_core.c: nvfuse_alloc_new_inode.  INODE_ENTRY_NUM is 1, the
    inode fills its block; the whole block is overwritten, whatever it held. *)
Definition nvfuse_alloc_new_inode : M fs Z :=
  sb ← mgets fs_sb;
  hint_ino ← nvfuse_find_free_inode (u32 (sb_last_allocated_ino sb));
  if hint_ino =? 0 then mret 0
  else
    let search_block := hint_ino / INODE_ENTRY_NUM in
    let search_entry := hint_ino mod INODE_ENTRY_NUM in
    let alloc_ino := u32 (search_entry + search_block * INODE_ENTRY_NUM) in
    nvfuse_dec_free_inodes alloc_ino;;
    mmodify (set_itable alloc_ino
      (mk_inode alloc_ino 0 0 0 1 0 0 0 0 0 0 0 0 0 0 (repeat 0 14)));;
    mmodify (mark_dirty ITABLE_INO search_block);;
    (if negb primary || nvfuse_process_model_is_standalone
     then mmodify (fun s => set_sb (sb_set_last_ino (alloc_ino + 1) (fs_sb s)) s)
     else mret tt);;
    mret alloc_ino.

(** src/nvfuse_core.c: nvfuse_relocate_delete_inode *)
Definition nvfuse_relocate_delete_inode (ino : Z) : M fs Z :=
  s ← mget;
  inode ← mlift (fs_itable s !! ino);
  mmodify (set_itable ino
    (mk_inode 0 (i_type inode) 0 (i_bpino inode) (i_version inode) 1 (i_links_count inode)
       (i_ptr inode) (i_atime inode) (i_ctime inode) (i_mtime inode) (i_dtime inode)
       (i_gid inode) (i_uid inode) (i_mode inode) (i_blocks inode)));;
  mmodify (mark_dirty ITABLE_INO (ino / INODE_ENTRY_NUM));;
  nvfuse_inc_free_inodes ino;;
  sb ← mgets fs_sb;
  nvfuse_release_ibitmap (ino / sb_no_of_inodes_per_bg sb) ino;;
  mret 0.

(** ** Data blocks *)

(** The loop of nvfuse_alloc_dbitmap over the bitmap [buf] of a group of [n]
    blocks whose data area starts at [ds]; [acc] holds the offsets taken so
    far, last first, and [next] is [bd_next_block].  A step checks one block;
    reaching offset 0 jumps over the metadata area. *)
Fixpoint alloc_dbitmap_loop (fuel : nat) (n ds : Z) (cnt free_block num_blocks next : Z)
    (acc buf : list Z) : option (Z * Z * list Z * list Z) :=
  match fuel with
  | O => None
  | S fuel' =>
      if negb (cnt <? n) then Some (free_block, next, acc, buf)
      else
        let cnt := u32 (cnt + 1) in
        let '(free_block, cnt) :=
          if free_block =? 0 then (ds mod n, u32 (cnt + (ds mod n - 1)))
          else (free_block, cnt) in
        t ← ext2fs_test_bit free_block buf;
        if t =? 0 then
          '(_, buf') ← ext2fs_set_bit free_block buf;
          let num_blocks := u32 (num_blocks - 1) in
          if num_blocks =? 0 then Some (free_block, free_block, free_block :: acc, buf')
          else alloc_dbitmap_loop fuel' n ds cnt (u32 (free_block + 1) mod n) num_blocks
                 free_block (free_block :: acc) buf'
        else alloc_dbitmap_loop fuel' n ds cnt (u32 (free_block + 1) mod n) num_blocks
               next acc buf
  end.

(** src/nvfuse_core.c: nvfuse_alloc_dbitmap, the blocks stored in [alloc_blks]
    (their number is the return value of the source). *)
Definition nvfuse_alloc_dbitmap (bg_id num_blocks : Z) : M fs (list Z) :=
  sb ← mgets fs_sb;
  bd ← get_bd bg_id;
  buf ← get_dbitmap bg_id;
  let n := sb_no_of_blocks_per_bg sb in
  '(free_block, next, acc, buf') ←
    mlift (alloc_dbitmap_loop (S (Z.to_nat n)) n (bd_dtable_start bd) 0
             (bd_next_block bd mod n) num_blocks (bd_next_block bd) [] buf);
  mmodify (set_dbitmap bg_id buf');;
  mmodify (set_bd bg_id (set_bd_next_block next bd));;
  let blks := (fun o => u32 (bd_bg_start bd + o)) <$> rev acc in
  (if bool_decide (blks = []) then mret tt
   else
     mmodify (mark_dirty DBITMAP_INO bg_id);;
     mmodify (mark_dirty BD_INO bg_id);;
     nvfuse_dec_free_blocks (u32 (bd_bg_start bd + free_block)) (Z.of_nat (length blks)));;
  mret blks.

(** The loop of nvfuse_free_dbitmap: clears [n] bits from [nr] on; a bit that
    is already clear trips [assert (0)]. *)
Fixpoint clear_bits (n : nat) (nr : Z) (buf : list Z) : option (list Z) :=
  match n with
  | O => Some buf
  | S n' =>
      t ← ext2fs_test_bit nr buf;
      if t =? 0 then None
      else '(_, buf') ← ext2fs_clear_bit nr buf; clear_bits n' (nr + 1) buf'
  end.

(** src/nvfuse_core.c: nvfuse_free_dbitmap *)
Definition nvfuse_free_dbitmap (bg_id offset count : Z) : M fs Z :=
  bd ← get_bd bg_id;
  massert (bd_id bd =? bg_id);;
  buf ← get_dbitmap bg_id;
  buf' ← mlift (clear_bits (Z.to_nat count) offset buf);
  (if 0 <? count then
     mmodify (set_dbitmap bg_id buf');;
     mmodify (set_bd bg_id (set_bd_next_block offset bd));;
     mmodify (mark_dirty DBITMAP_INO bg_id);;
     mmodify (mark_dirty BD_INO bg_id);;
     nvfuse_inc_free_blocks (u32 (bd_bg_start bd + offset)) count
   else mret tt);;
  mret 0.

(** The loop of nvfuse_free_blocks: [n] blocks remain from [start_blk] on;
    [bg_id], [offset] and [length] describe the run being collected. *)
Fixpoint free_blocks_loop (n : nat) (start_blk bg_id offset length : Z) : M fs unit :=
  match n with
  | O => mret tt
  | S n' =>
      sb ← mgets fs_sb;
      let per_bg := sb_no_of_blocks_per_bg sb in
      let length := length + 1 in
      let next := start_blk + 1 in
      if negb (bg_id =? next / per_bg) || bool_decide (n' = O) then
        nvfuse_free_dbitmap bg_id offset length;;
        free_blocks_loop n' next (next / per_bg) (next mod per_bg) 0
      else free_blocks_loop n' next bg_id offset length
  end.

(** src/nvfuse_core.c: nvfuse_free_blocks *)
Definition nvfuse_free_blocks (block_to_delete count : Z) : M fs unit :=
  sb ← mgets fs_sb;
  let per_bg := sb_no_of_blocks_per_bg sb in
  let end_blk := u32 (block_to_delete + count) in
  free_blocks_loop (Z.to_nat (end_blk - block_to_delete)) block_to_delete
    (block_to_delete / per_bg) (block_to_delete mod per_bg) 0.

(** src/nvfuse_indirect.c: nvfuse_return_free_blocks *)
Fixpoint nvfuse_return_free_blocks (blks : list Z) : M fs unit :=
  match blks with
  | [] => mret tt
  | b :: rest => nvfuse_free_blocks b 1;; nvfuse_return_free_blocks rest
  end.

(** The group loop of nvfuse_alloc_free_block: a do-while that returns to
    [next_id] after at most [n] groups. *)
Fixpoint alloc_free_block_loop (n : nat) (ino bg_id next_id num_blocks : Z) (acc : list Z)
  : M fs (list Z) :=
  match n with
  | O => mabort
  | S n' =>
      free ← nvfuse_get_free_blocks bg_id;
      '(acc, num_blocks) ←
        (if negb (free =? 0) then
           blks ← nvfuse_alloc_dbitmap bg_id num_blocks;
           mmodify (fun s => set_sb (sb_set_last_bg bg_id ino (fs_sb s)) s);;
           mret (acc ++ blks, u32 (num_blocks - Z.of_nat (length blks)))
         else mret (acc, num_blocks));
      if negb (free =? 0) && (num_blocks =? 0) then mret acc
      else
        sb ← mgets fs_sb;
        let bg_id := u32 (bg_id + 1) mod sb_bg_num sb in
        if bg_id =? next_id then mret acc
        else alloc_free_block_loop n' ino bg_id next_id num_blocks acc
  end.

(** src/nvfuse_indirect.c: nvfuse_alloc_free_block for inode [ino] (standalone
    process model); running out of blocks trips [assert (0)]. *)
Definition nvfuse_alloc_free_block (ino num_blocks : Z) : M fs (list Z) :=
  sb ← mgets fs_sb;
  let bg_id := ino / sb_no_of_inodes_per_bg sb in
  let bg_id :=
    if negb (bg_id =? u32 (sb_last_allocated_bgid sb)) &&
       (ino =? u32 (sb_last_allocated_bgid_by_ino sb))
    then u32 (sb_last_allocated_bgid sb) else bg_id in
  blks ← alloc_free_block_loop (Z.to_nat (sb_bg_num sb)) ino bg_id bg_id num_blocks [];
  massert (negb (bool_decide (blks = [])));;
  mret blks.

(** src/nvfuse_indirect.c: nvfuse_alloc_free_blocks: [num_indirect_blocks + 1]
    blocks for the branch, then [num_blocks - 1] more for the direct map.  A
    short allocation trips [assert (0)] before the error path is reached. *)
Definition nvfuse_alloc_free_blocks (ino num_indirect_blocks num_blocks : Z)
  : M fs (list Z * list Z) :=
  let total_blocks := num_indirect_blocks + 1 in
  blocks ← (if negb (total_blocks =? 0) then
              b ← nvfuse_alloc_free_block ino total_blocks;
              massert (Z.of_nat (length b) =? total_blocks);; mret b
            else mret []);
  let total_blocks := num_blocks - 1 in
  direct_map ← (if negb (total_blocks =? 0) then
                  b ← nvfuse_alloc_free_block ino total_blocks;
                  massert (Z.of_nat (length b) =? total_blocks);; mret b
                else mret []);
  mret (blocks, direct_map).

End ops.
End Alloc.
