(* ===== verification/AllocSpec.v ===== *)
(** * Correctness of the allocator

    The invariant of the metadata ([inv]: per group, the free counters of the
    descriptor count the clear bits of the bitmaps; the superblock counters are
    their sums), the steps an allocation and a release make on the set of used
    blocks, and the proofs that the scans and loops of Alloc implement them. *)
From S2P Require Import Prelude Bitmap Layout BgList Alloc.
Import Alloc.

Module AllocSpec.

(** Number of clear bits of a bitmap in [lo, hi). *)
Definition free_in (buf : list Z) (lo hi : Z) : Z :=
  Zcount (fun i => negb (bit buf i)) (range lo hi).

Lemma succ_mod x n : 0 <= x < n -> (x + 1) mod n = if x + 1 =? n then 0 else x + 1.
Proof.
  intros. destruct (Z.eqb_spec (x + 1) n) as [->|]; [apply Z.mod_same; lia|].
  apply Z.mod_small. lia.
Qed.

Lemma or_elem_cons (j x : Z) (b : bool) (l : list Z) :
  (if decide (j = x) then true else b) || bool_decide (j ∈ l) = b || bool_decide (j ∈ x :: l).
Proof.
  case_decide as E; simpl.
  - rewrite bool_decide_eq_true_2; [by rewrite orb_true_r|]. subst. apply elem_of_cons. by left.
  - f_equal. apply bool_decide_ext. rewrite elem_of_cons. naive_solver.
Qed.

(** ** One group: the bitmap loops *)
Section dbitmap.
Context (B n ds : Z).
Context (Hn : 0 < n <= 8 * B) (Hds : 0 < ds mod n) (Hbig : n <= 2 ^ 31).

(** The offsets of the data area that the loop still visits when [r]
    iterations of budget are left and the search stands at [fb]. *)
Definition to_visit (r fb o : Z) : Prop :=
  if fb =? 0 then 0 < r /\ (o = ds mod n \/ o <= r)
  else fb <= o < fb + r \/ (n - fb < r /\ (o = ds mod n \/ o <= r - (n - fb))).

Lemma to_visit_start fb o :
  fb = 0 \/ ds mod n <= fb < n -> ds mod n <= o < n -> to_visit n fb o.
Proof. unfold to_visit. intros. destruct (Z.eqb_spec fb 0); lia. Qed.

Lemma to_visit_step r fb o :
  0 < r -> (fb = 0 \/ ds mod n <= fb < n) -> ds mod n <= o < n -> to_visit r fb o ->
  let fb1 := if fb =? 0 then ds mod n else fb in
  let r1 := if fb =? 0 then r - ds mod n else r - 1 in
  o = fb1 \/ to_visit r1 ((fb1 + 1) mod n) o.
Proof.
  intros Hr Hfb Ho Hv fb1 r1. pose proof (Z.mod_pos_bound ds n).
  assert (ds mod n <= fb1 < n) as Hfb1 by (subst fb1; destruct (Z.eqb_spec fb 0); lia).
  rewrite succ_mod by lia. unfold to_visit in *. subst fb1 r1.
  destruct (Z.eqb_spec fb 0) as [->|].
  - destruct (Z.eqb_spec (ds mod n + 1) n); [simpl; lia|].
    destruct (Z.eqb_spec (ds mod n + 1) 0); lia.
  - destruct (Z.eqb_spec (fb + 1) n); [simpl; lia|].
    destruct (Z.eqb_spec (fb + 1) 0); lia.
Qed.

(** The result of the loop: the offsets [l] taken, in order, lie in the data
    area, were clear and are distinct; exactly their bits are set; the loop
    stops early only when no clear bit is left among those it had to visit. *)
Lemma alloc_dbitmap_loop_spec fuel : forall cnt fb num next acc buf,
  wf_block B buf -> 0 <= cnt -> (fb = 0 \/ ds mod n <= fb < n) -> 1 <= num < 2 ^ 32 ->
  (1 <= fuel)%nat -> n - cnt < Z.of_nat fuel -> cnt <= 2 * n ->
  exists fb' next' l buf',
    alloc_dbitmap_loop fuel n ds cnt fb num next acc buf = Some (fb', next', rev l ++ acc, buf') /\
    wf_block B buf' /\ 0 <= fb' < n /\ NoDup l /\
    (forall o, o ∈ l -> ds mod n <= o < n /\ bit buf o = false) /\
    (forall j, 0 <= j -> bit buf' j = bit buf j || bool_decide (j ∈ l)) /\
    Z.of_nat (length l) <= num /\
    (Z.of_nat (length l) = num \/
     forall o, ds mod n <= o < n -> to_visit (n - cnt) fb o -> bit buf' o = true) /\
    (if bool_decide (l = []) then next' = next else ds mod n <= next' < n).
Proof.
  induction fuel as [|fuel IH]; [lia|].
  intros cnt fb num next acc buf Hwf Hcnt Hfb Hnum _ Hfuel Hcnt2.
  pose proof (Z.mod_pos_bound ds n) as Hdn.
  cbn [alloc_dbitmap_loop]. destruct (Z.ltb_spec cnt n) as [Hlt|Hge]; simpl negb; cbv iota.
  2:{ exists fb, next, [], buf. split; [done|]. split; [done|]. split; [lia|].
      split; [constructor|]. split; [by intros o ?%not_elem_of_nil|].
      split; [intros j _; by rewrite orb_false_r|]. split; [simpl; lia|]. split; [|done].
      right. intros o Ho Hv. unfold to_visit in Hv. destruct (Z.eqb_spec fb 0); lia. }
  set (fb1 := if fb =? 0 then ds mod n else fb).
  set (cnt1 := if fb =? 0 then cnt + ds mod n else cnt + 1).
  assert ((if fb =? 0 then (ds mod n, u32 (u32 (cnt + 1) + (ds mod n - 1))) else (fb, u32 (cnt + 1)))
          = (fb1, cnt1)) as ->.
  { subst fb1 cnt1. destruct (fb =? 0); rewrite !u32_small by (rewrite ?u32_small by lia; lia).
    - f_equal. lia.
    - done. }
  assert (ds mod n <= fb1 < n) as Hfb1 by (subst fb1; destruct (Z.eqb_spec fb 0); lia).
  assert (cnt < cnt1 <= cnt + n) by (subst cnt1; destruct (Z.eqb_spec fb 0); lia).
  assert (forall o, ds mod n <= o < n -> to_visit (n - cnt) fb o ->
            o = fb1 \/ to_visit (n - cnt1) ((fb1 + 1) mod n) o) as Hstep.
  { intros o Ho Hv. destruct (to_visit_step (n - cnt) fb o ltac:(lia) Hfb Ho Hv) as [E|E].
    - left. exact E.
    - right. revert E. subst fb1 cnt1. destruct (fb =? 0);
      match goal with |- to_visit ?a _ _ -> to_visit ?b _ _ => replace a with b by lia end; done. }
  assert (u32 (fb1 + 1) = fb1 + 1) as -> by (apply u32_small; lia).
  assert ((fb1 + 1) mod n = 0 \/ ds mod n <= (fb1 + 1) mod n < n) as Hnext.
  { rewrite succ_mod by lia. destruct (Z.eqb_spec (fb1 + 1) n); lia. }
  destruct (test_bit_spec B buf fb1) as (t & -> & Ht); [done|lia|]. simpl.
  rewrite Ht. destruct (bit buf fb1) eqn:Hbit; simpl negb; cbv iota.
  - (* already in use: go on *)
    edestruct (IH cnt1 ((fb1 + 1) mod n) num next acc buf)
      as (fb' & next' & l & buf' & -> & ? & ? & ? & Hl & Hb & ? & Hdone & ?); try done; try lia.
    exists fb', next', l, buf'. repeat (split; [done|]). split; [|done].
    destruct Hdone as [|Hdone]; [by left|right]. intros o Ho Hv.
    destruct (Hstep o Ho Hv) as [->|?]; [|by apply Hdone]. rewrite Hb by lia. by rewrite Hbit.
  - (* free: take it *)
    destruct (set_bit_spec B buf fb1) as (v & buf1 & -> & Hwf1 & _ & Hb1); [done|lia|]. simpl.
    rewrite (u32_small (num - 1)) by lia. destruct (Z.eqb_spec (num - 1) 0) as [E|E].
    + exists fb1, fb1, [fb1], buf1. split; [done|]. split; [done|]. split; [lia|].
      split; [apply NoDup_singleton|].
      split; [by intros o ->%list_elem_of_singleton|].
      split; [intros j Hj; rewrite Hb1, <- or_elem_cons, orb_false_r by done; done|].
      simpl. split; [lia|]. split; [left; lia|]. done.
    + edestruct (IH cnt1 ((fb1 + 1) mod n) (num - 1) fb1 (fb1 :: acc) buf1)
        as (fb' & next' & l & buf' & -> & ? & ? & Hnd & Hl & Hb & ? & Hdone & Hnx); try done; try lia.
      exists fb', next', (fb1 :: l), buf'.
      assert (fb1 ∉ l) as Hfresh.
      { intros Hin. destruct (Hl _ Hin) as [_ Hx]. rewrite Hb1, decide_True in Hx by (lia || done). done. }
      split; [simpl; by rewrite <- app_assoc|]. split; [done|]. split; [done|].
      split; [by constructor|].
      split; [intros o [->|Ho]%elem_of_cons; [done|]; destruct (Hl _ Ho) as [Hr Hx];
              rewrite Hb1 in Hx by lia; case_decide; done|].
      split; [intros j Hj; by rewrite Hb, Hb1, or_elem_cons by done|].
      rewrite length_cons. split; [lia|]. split.
      * destruct Hdone as [|Hdone]; [left; lia|right]. intros o Ho Hv.
        destruct (Hstep o Ho Hv) as [->|?]; [|by apply Hdone].
        rewrite Hb, Hb1, decide_True by (lia || done). done.
      * simpl. destruct l; simpl in Hnx; [subst; lia | done].
Qed.

End dbitmap.

(** ** The allocator invariant *)

(** What the superblock fixes at format time. *)
Record geometry (sb : nvfuse_superblock) : Prop := {
  geo_n : 0 < sb_no_of_blocks_per_bg sb <= 8 * CLUSTER_SIZE;
  geo_i : 0 < sb_no_of_inodes_per_bg sb <= 8 * CLUSTER_SIZE;
  geo_bg : 0 < sb_bg_num sb;
  geo_blocks : sb_no_of_blocks sb = sb_bg_num sb * sb_no_of_blocks_per_bg sb;
  geo_u32 : sb_no_of_blocks sb < 2 ^ 32;
  geo_ino : sb_bg_num sb * sb_no_of_inodes_per_bg sb < 2 ^ 31 - 1 }.

(** First data block of a group, as an offset in the group. *)
Definition ds_of (sb : nvfuse_superblock) (d : nvfuse_bg_descriptor) : Z :=
  bd_dtable_start d mod sb_no_of_blocks_per_bg sb.

(** A group is consistent: the descriptor's free counters are the numbers of
    clear bits of its bitmaps. *)
Record bg_ok (sb : nvfuse_superblock) (bg : Z) (d : nvfuse_bg_descriptor) (ib db : list Z) : Prop := {
  bo_id : bd_id d = bg;
  bo_start : bd_bg_start d = bg * sb_no_of_blocks_per_bg sb;
  bo_maxi : bd_max_inodes d = sb_no_of_inodes_per_bg sb;
  bo_maxb : bd_max_blocks d = sb_no_of_blocks_per_bg sb;
  bo_ib : wf_block CLUSTER_SIZE ib;
  bo_db : wf_block CLUSTER_SIZE db;
  bo_ds : 0 < ds_of sb d;
  bo_next : bd_next_block d mod sb_no_of_blocks_per_bg sb = 0 \/
            ds_of sb d <= bd_next_block d mod sb_no_of_blocks_per_bg sb;
  bo_fb : bd_free_blocks d = free_in db (ds_of sb d) (sb_no_of_blocks_per_bg sb);
  bo_fi : bd_free_inodes d = free_in ib 0 (sb_no_of_inodes_per_bg sb) }.

Definition group_inv (s : fs) (bg : Z) : Prop :=
  exists d ib db, fs_bd s !! bg = Some d /\ fs_ibitmap s !! bg = Some ib /\
    fs_dbitmap s !! bg = Some db /\ bg_ok (fs_sb s) bg d ib db.

Definition bg_free_blocks (s : fs) (bg : Z) : Z := from_option bd_free_blocks 0 (fs_bd s !! bg).
Definition bg_free_inodes (s : fs) (bg : Z) : Z := from_option bd_free_inodes 0 (fs_bd s !! bg).

Record inv (s : fs) : Prop := {
  inv_geo : geometry (fs_sb s);
  inv_groups : forall bg, 0 <= bg < sb_bg_num (fs_sb s) -> group_inv s bg;
  inv_free_blocks : sb_free_blocks (fs_sb s) =
    Zsum (bg_free_blocks s) (range 0 (sb_bg_num (fs_sb s)));
  inv_free_inodes : sb_free_inodes (fs_sb s) =
    Zsum (bg_free_inodes s) (range 0 (sb_bg_num (fs_sb s)));
  inv_used : 0 <= sb_no_of_used_blocks (fs_sb s) /\
    sb_no_of_used_blocks (fs_sb s) + sb_free_blocks (fs_sb s) <= sb_no_of_blocks (fs_sb s);
  inv_ino0 : exists ib, fs_ibitmap s !! 0 = Some ib /\ bit ib 0 = true }.

(** The part of the superblock no allocation changes. *)
Definition same_geo (sb sb' : nvfuse_superblock) : Prop :=
  sb_no_of_blocks_per_bg sb' = sb_no_of_blocks_per_bg sb /\
  sb_no_of_inodes_per_bg sb' = sb_no_of_inodes_per_bg sb /\
  sb_bg_num sb' = sb_bg_num sb /\ sb_no_of_blocks sb' = sb_no_of_blocks sb.

#[export] Instance same_geo_refl : Reflexive same_geo.
Proof. done. Qed.
#[export] Instance same_geo_trans : Transitive same_geo.
Proof. intros ??? (?&?&?&?) (?&?&?&?). repeat split; congruence. Qed.

Lemma geometry_same sb sb' : same_geo sb sb' -> geometry sb -> geometry sb'.
Proof. intros (Hn & Hi & Hb & Hk) []. split; rewrite ?Hn, ?Hi, ?Hb, ?Hk; done. Qed.

Lemma bg_ok_same sb sb' bg d ib db : same_geo sb sb' -> bg_ok sb bg d ib db -> bg_ok sb' bg d ib db.
Proof.
  intros (Hn & Hi & _ & _) []. split; unfold ds_of in *; rewrite ?Hn, ?Hi; done.
Qed.

Lemma free_in_bounds buf lo hi : lo <= hi -> 0 <= free_in buf lo hi <= hi - lo.
Proof.
  intros H. unfold free_in. pose proof (Zcount_bounds (fun i => negb (bit buf i)) (range lo hi)).
  rewrite length_range in H0 by done. lia.
Qed.

Lemma bg_ok_bounds sb bg d ib db :
  geometry sb -> bg_ok sb bg d ib db ->
  ds_of sb d < sb_no_of_blocks_per_bg sb /\
  0 <= bd_free_blocks d <= sb_no_of_blocks_per_bg sb - ds_of sb d /\
  0 <= bd_free_inodes d <= sb_no_of_inodes_per_bg sb.
Proof.
  intros [] []. pose proof (Z.mod_pos_bound (bd_dtable_start d) (sb_no_of_blocks_per_bg sb)).
  unfold ds_of in *. rewrite bo_fb0, bo_fi0.
  split; [lia|]. split; [apply free_in_bounds; lia|].
  pose proof (free_in_bounds ib 0 (sb_no_of_inodes_per_bg sb)). lia.
Qed.

(** The superblock counter bounds every group's counter. *)
Lemma inv_free_le s bg d : inv s -> 0 <= bg < sb_bg_num (fs_sb s) -> fs_bd s !! bg = Some d ->
  0 <= bd_free_blocks d <= sb_free_blocks (fs_sb s) /\ 0 <= bd_free_inodes d <= sb_free_inodes (fs_sb s).
Proof.
  intros Hinv Hbg Hd. destruct Hinv as [Hgeo Hgr Hfb Hfi _ _].
  assert (forall b, b ∈ range 0 (sb_bg_num (fs_sb s)) -> 0 <= bg_free_blocks s b /\ 0 <= bg_free_inodes s b) as Hpos.
  { intros b Hb%elem_of_range. destruct (Hgr b Hb) as (d' & ib & db & Hd' & _ & _ & Hok).
    unfold bg_free_blocks, bg_free_inodes. rewrite Hd'. simpl.
    destruct (bg_ok_bounds _ _ _ _ _ Hgeo Hok). lia. }
  assert (bg ∈ range 0 (sb_bg_num (fs_sb s))) as Hin by (by apply elem_of_range).
  rewrite Hfb, Hfi. destruct (Hpos bg Hin) as [H1 H2].
  assert (bg_free_blocks s bg <= Zsum (bg_free_blocks s) (range 0 (sb_bg_num (fs_sb s))))
    by (apply Zsum_elem_le; [apply Hpos|done]).
  assert (bg_free_inodes s bg <= Zsum (bg_free_inodes s) (range 0 (sb_bg_num (fs_sb s))))
    by (apply Zsum_elem_le; [apply Hpos|done]).
  unfold bg_free_blocks, bg_free_inodes in *. rewrite Hd in *. simpl in *. lia.
Qed.

(** Replacing one group's descriptor and bitmaps keeps the invariant when the
    superblock counters move by the same amounts. *)
Lemma inv_update s s' bg d ib db d' ib' db' :
  inv s -> 0 <= bg < sb_bg_num (fs_sb s) ->
  fs_bd s !! bg = Some d -> fs_ibitmap s !! bg = Some ib -> fs_dbitmap s !! bg = Some db ->
  fs_bd s' = <[bg := d']> (fs_bd s) -> fs_ibitmap s' = <[bg := ib']> (fs_ibitmap s) ->
  fs_dbitmap s' = <[bg := db']> (fs_dbitmap s) ->
  same_geo (fs_sb s) (fs_sb s') -> bg_ok (fs_sb s) bg d' ib' db' ->
  sb_free_blocks (fs_sb s') = sb_free_blocks (fs_sb s) + (bd_free_blocks d' - bd_free_blocks d) ->
  sb_free_inodes (fs_sb s') = sb_free_inodes (fs_sb s) + (bd_free_inodes d' - bd_free_inodes d) ->
  0 <= sb_no_of_used_blocks (fs_sb s') ->
  sb_no_of_used_blocks (fs_sb s') + sb_free_blocks (fs_sb s') <= sb_no_of_blocks (fs_sb s) ->
  (bg = 0 -> bit ib 0 = true -> bit ib' 0 = true) ->
  inv s'.
Proof.
  intros Hinv Hbg Hd Hib Hdb Ed Ei Eb Hsame Hok Hfb Hfi Hu1 Hu2 H0.
  destruct Hinv as [Hgeo Hgr Hfb0 Hfi0 Hu Hino]. destruct (Hsame) as (Hn & Hi & Hnum & Hnb).
  split.
  - by eapply geometry_same.
  - rewrite Hnum. intros b Hb. destruct (decide (b = bg)) as [->|Hne].
    + exists d', ib', db'. rewrite Ed, Ei, Eb, !lookup_insert_eq. eauto using bg_ok_same.
    + destruct (Hgr b Hb) as (d1 & ib1 & db1 & ? & ? & ? & ?). exists d1, ib1, db1.
      rewrite Ed, Ei, Eb, !lookup_insert_ne by done. eauto using bg_ok_same.
  - rewrite Hnum, Hfb, Hfb0.
    rewrite (Zsum_update (bg_free_blocks s) (bg_free_blocks s') _ bg).
    + unfold bg_free_blocks. rewrite Ed, lookup_insert_eq, Hd. simpl. lia.
    + apply NoDup_range.
    + by apply elem_of_range.
    + intros y Hy. unfold bg_free_blocks. by rewrite Ed, lookup_insert_ne.
  - rewrite Hnum, Hfi, Hfi0.
    rewrite (Zsum_update (bg_free_inodes s) (bg_free_inodes s') _ bg).
    + unfold bg_free_inodes. rewrite Ed, lookup_insert_eq, Hd. simpl. lia.
    + apply NoDup_range.
    + by apply elem_of_range.
    + intros y Hy. unfold bg_free_inodes. by rewrite Ed, lookup_insert_ne.
  - by rewrite Hnb.
  - destruct Hino as (ib0 & Hib0 & Hbit). destruct (decide (bg = 0)) as [->|].
    + exists ib'. rewrite Ei, lookup_insert_eq. split; [done|]. apply H0; [done|]. congruence.
    + exists ib0. by rewrite Ei, lookup_insert_ne.
Qed.

(** ** The abstract allocator: a set of used blocks *)

Definition per_bg (s : fs) : Z := sb_no_of_blocks_per_bg (fs_sb s).
Definition data_start (s : fs) (bg : Z) : Z :=
  from_option bd_dtable_start 0 (fs_bd s !! bg) mod per_bg s.
Definition block_used (s : fs) (b : Z) : bool :=
  match fs_dbitmap s !! (b / per_bg s) with Some db => bit db (b mod per_bg s) | None => true end.
Definition data_block (s : fs) (b : Z) : Prop :=
  0 <= b < sb_no_of_blocks (fs_sb s) /\ data_start s (b / per_bg s) <= b mod per_bg s.

(** What stays the same when data blocks are allocated or freed. *)
Record frame (s s' : fs) : Prop := {
  fr_geo : same_geo (fs_sb s) (fs_sb s');
  fr_data : forall bg, data_start s' bg = data_start s bg;
  fr_ibitmap : fs_ibitmap s' = fs_ibitmap s;
  fr_itable : fs_itable s' = fs_itable s;
  fr_bgl : fs_bgl s' = fs_bgl s;
  fr_free_inodes : sb_free_inodes (fs_sb s') = sb_free_inodes (fs_sb s) }.

(** The abstract transitions: exactly the blocks [blks] become used, or free. *)
Record alloc_step (s s' : fs) (blks : list Z) : Prop := {
  as_inv : inv s';
  as_frame : frame s s';
  as_nodup : NoDup blks;
  as_fresh : forall b, b ∈ blks -> data_block s b /\ block_used s b = false;
  as_used : forall b, 0 <= b -> block_used s' b = block_used s b || bool_decide (b ∈ blks);
  as_free : sb_free_blocks (fs_sb s') = sb_free_blocks (fs_sb s) - Z.of_nat (length blks);
  as_usedcnt : sb_no_of_used_blocks (fs_sb s') = sb_no_of_used_blocks (fs_sb s) + Z.of_nat (length blks) }.

Record free_step (s s' : fs) (blks : list Z) : Prop := {
  fs_step_inv : inv s';
  fs_step_frame : frame s s';
  fs_step_was : forall b, b ∈ blks -> data_block s b /\ block_used s b = true;
  fs_step_used : forall b, 0 <= b -> block_used s' b = block_used s b && negb (bool_decide (b ∈ blks));
  fs_step_free : sb_free_blocks (fs_sb s') = sb_free_blocks (fs_sb s) + Z.of_nat (length blks);
  fs_step_usedcnt : sb_no_of_used_blocks (fs_sb s') = sb_no_of_used_blocks (fs_sb s) - Z.of_nat (length blks) }.

#[export] Instance frame_refl : Reflexive frame.
Proof. done. Qed.
#[export] Instance frame_trans : Transitive frame.
Proof.
  intros s1 s2 s3 [G D] [G' D']. split; try congruence. by etrans.
Qed.

Lemma data_block_frame s s' b : frame s s' -> data_block s' b <-> data_block s b.
Proof.
  intros [(Hn & _ & _ & Hb) Hd _ _ _ _]. unfold data_block, per_bg. by rewrite Hn, Hb, Hd.
Qed.

Lemma block_split n bg o : 0 <= o < n -> (bg * n + o) / n = bg /\ (bg * n + o) mod n = o.
Proof.
  intros. rewrite Z.add_comm. split.
  - rewrite Z.div_add by lia. rewrite Z.div_small by lia. lia.
  - rewrite Z.mod_add by lia. apply Z.mod_small. lia.
Qed.

Lemma block_used_at s bg o : 0 <= o < per_bg s ->
  block_used s (bg * per_bg s + o) =
  match fs_dbitmap s !! bg with Some db => bit db o | None => true end.
Proof. intros. unfold block_used. destruct (block_split (per_bg s) bg o) as [-> ->]; done. Qed.

(** The fields of the superblock after a change of the block counters. *)
Lemma sb_add_blocks_fields p n sb :
  same_geo sb (sb_add_blocks p n sb) /\ sb_free_inodes (sb_add_blocks p n sb) = sb_free_inodes sb.
Proof. done. Qed.

(** nvfuse_dec_free_blocks in a state where its assertions hold. *)
Lemma dec_free_blocks_run s bg blockno cnt d :
  blockno / per_bg s = bg -> fs_bd s !! bg = Some d -> bd_id d = bg ->
  0 <= cnt <= bd_free_blocks d -> bd_free_blocks d < 2 ^ 32 ->
  cnt <= sb_free_blocks (fs_sb s) -> sb_no_of_blocks (fs_sb s) < 2 ^ 62 ->
  0 <= sb_no_of_used_blocks (fs_sb s) ->
  sb_no_of_used_blocks (fs_sb s) + sb_free_blocks (fs_sb s) <= sb_no_of_blocks (fs_sb s) ->
  nvfuse_dec_free_blocks true blockno cnt s =
  Some (tt, mark_dirty BD_INO bg (set_sb (sb_add_blocks true (- cnt) (fs_sb s))
              (set_bd bg (set_bd_free_blocks (bd_free_blocks d - cnt) d) s))) /\
  sb_free_blocks (sb_add_blocks true (- cnt) (fs_sb s)) = sb_free_blocks (fs_sb s) - cnt /\
  sb_no_of_used_blocks (sb_add_blocks true (- cnt) (fs_sb s)) = sb_no_of_used_blocks (fs_sb s) + cnt.
Proof.
  intros Hbg Hd Hid Hc Hf Hs Hk Hu1 Hu2.
  assert (s64 (sb_free_blocks (fs_sb s) + - cnt) = sb_free_blocks (fs_sb s) - cnt) as E1
    by (rewrite s64_small; lia).
  assert (s64 (sb_no_of_used_blocks (fs_sb s) - - cnt) = sb_no_of_used_blocks (fs_sb s) + cnt) as E2
    by (rewrite s64_small; lia).
  split; [|split; simpl; lia].
  unfold nvfuse_dec_free_blocks, mbind, M_bind, mgets, get_bd, mlift. unfold per_bg in Hbg.
  rewrite Hbg, Hd. simpl. rewrite Hid, Z.eqb_refl. simpl.
  rewrite (u32_small (bd_free_blocks d - cnt)) by lia. rewrite E1, E2.
  rewrite !(proj2 (Z.leb_le _ _)) by lia. reflexivity.
Qed.

(** Setting the bits [l] of the data area lowers the free count by [length l]. *)
Lemma free_in_set buf buf' lo hi l :
  0 <= lo -> NoDup l -> (forall o, o ∈ l -> lo <= o < hi /\ bit buf o = false) ->
  (forall j, 0 <= j -> bit buf' j = bit buf j || bool_decide (j ∈ l)) ->
  free_in buf' lo hi = free_in buf lo hi - Z.of_nat (length l).
Proof.
  intros Hlo Hnd Hl Hb. apply Zcount_remove; [apply NoDup_range|done| |].
  - intros x Hx. destruct (Hl x Hx) as [? ->]. by rewrite elem_of_range.
  - intros x Hx%elem_of_range. rewrite Hb by lia. by rewrite negb_orb.
Qed.

Lemma free_in_clear buf buf' lo hi l :
  0 <= lo -> NoDup l -> (forall o, o ∈ l -> lo <= o < hi /\ bit buf o = true) ->
  (forall j, 0 <= j -> bit buf' j = bit buf j && negb (bool_decide (j ∈ l))) ->
  free_in buf' lo hi = free_in buf lo hi + Z.of_nat (length l).
Proof.
  intros Hlo Hnd Hl Hb.
  enough (free_in buf lo hi = free_in buf' lo hi - Z.of_nat (length l)) by lia.
  apply free_in_set; [done|done| |].
  - intros o Ho. destruct (Hl o Ho). rewrite Hb, bool_decide_eq_true_2 by (lia || done).
    by rewrite andb_false_r.
  - intros j Hj. rewrite Hb by done. case_bool_decide as E.
    + destruct (Hl j E) as [_ ->]. done.
    + by rewrite andb_true_r, orb_false_r.
Qed.

(** All bits set: nothing is free. *)
Lemma free_in_full buf lo hi : (forall o, lo <= o < hi -> bit buf o = true) -> free_in buf lo hi = 0.
Proof.
  intros H. unfold free_in, Zcount. rewrite (Zsum_ext _ (fun _ => 0)).
  - rewrite Zsum_const. lia.
  - intros x Hx%elem_of_range. by rewrite H.
Qed.

(** A group with its lookups and bounds, from the invariant. *)
Lemma inv_group s bg : inv s -> 0 <= bg < sb_bg_num (fs_sb s) ->
  exists d ib db, fs_bd s !! bg = Some d /\ fs_ibitmap s !! bg = Some ib /\
    fs_dbitmap s !! bg = Some db /\ bg_ok (fs_sb s) bg d ib db /\
    data_start s bg = ds_of (fs_sb s) d /\ 0 < ds_of (fs_sb s) d < per_bg s /\
    0 <= bg * per_bg s /\ bg * per_bg s + per_bg s <= sb_no_of_blocks (fs_sb s).
Proof.
  intros Hinv Hbg. destruct (inv_groups s Hinv bg Hbg) as (d & ib & db & Hd & Hib & Hdb & Hok).
  pose proof (inv_geo s Hinv) as Hgeo. destruct (bg_ok_bounds _ _ _ _ _ Hgeo Hok) as (? & _ & _).
  destruct Hgeo, Hok. exists d, ib, db.
  split; [done|]. split; [done|]. split; [done|]. split; [by split|].
  split; [unfold data_start; by rewrite Hd|]. unfold per_bg in *.
  split; [lia|]. rewrite geo_blocks0. split; nia.
Qed.

(** The data blocks of one group as offsets. *)
Lemma data_block_at s bg o : inv s -> 0 <= bg < sb_bg_num (fs_sb s) ->
  data_start s bg <= o < per_bg s -> data_block s (bg * per_bg s + o).
Proof.
  intros Hinv Hbg Ho. destruct (inv_group s bg Hinv Hbg) as (d & ib & db & ? & ? & ? & ? & ? & ? & ? & ?).
  unfold data_block. destruct (block_split (per_bg s) bg o) as [-> ->]; [lia|]. lia.
Qed.

(** Membership of a block in a group-relative list of offsets. *)
Lemma elem_of_group_blocks n bg (l : list Z) b :
  0 < n -> (forall o, o ∈ l -> 0 <= o < n) ->
  b ∈ ((fun o => bg * n + o) <$> l) <-> b / n = bg /\ b mod n ∈ l.
Proof.
  intros Hn Hl. rewrite list_elem_of_fmap. split.
  - intros (o & -> & Ho). destruct (block_split n bg o) as [-> ->]; auto.
  - intros [<- Ho]. exists (b mod n). split; [|done].
    rewrite Z.mul_comm. apply Z.div_mod. lia.
Qed.

Lemma insert_same {A} (m : gmap Z A) k x : m !! k = Some x -> m = <[k := x]> m.
Proof. intros H. symmetry. by apply insert_id. Qed.

(** The state nvfuse_alloc_dbitmap and nvfuse_free_dbitmap leave behind: a new
    data bitmap and descriptor for one group, the counters moved by [delta]. *)
Lemma dbitmap_update_frame s s' bg d d' db' :
  fs_bd s !! bg = Some d -> bd_dtable_start d' = bd_dtable_start d ->
  fs_bd s' = <[bg := d']> (fs_bd s) -> fs_dbitmap s' = <[bg := db']> (fs_dbitmap s) ->
  fs_ibitmap s' = fs_ibitmap s -> fs_itable s' = fs_itable s -> fs_bgl s' = fs_bgl s ->
  same_geo (fs_sb s) (fs_sb s') -> sb_free_inodes (fs_sb s') = sb_free_inodes (fs_sb s) ->
  frame s s' /\ (forall bg', bg' <> bg -> fs_bd s' !! bg' = fs_bd s !! bg').
Proof.
  intros Hd Hds Ebd Edb Eib Eit Ebgl Hgeo Hfi. split.
  - split; try done. intros b. destruct (Hgeo) as (Hn & _). unfold data_start, per_bg.
    rewrite Hn, Ebd. destruct (decide (b = bg)) as [->|].
    + rewrite lookup_insert_eq, Hd. simpl. by rewrite Hds.
    + by rewrite lookup_insert_ne by done.
  - intros b Hb. rewrite Ebd. by apply lookup_insert_ne.
Qed.

(** Used blocks after a change of one group's data bitmap. *)
Lemma block_used_update s s' bg db' b :
  fs_dbitmap s' = <[bg := db']> (fs_dbitmap s) -> same_geo (fs_sb s) (fs_sb s') ->
  block_used s' b = if decide (b / per_bg s = bg) then bit db' (b mod per_bg s) else block_used s b.
Proof.
  intros E (Hn & _). unfold block_used, per_bg. rewrite Hn, E. case_decide as H.
  - by rewrite H, lookup_insert_eq.
  - by rewrite lookup_insert_ne by done.
Qed.

(** The allocation loop on the bitmap of a consistent group: the group is
    consistent again once the taken blocks are deducted. *)
Lemma dbitmap_take s bg num d ib db :
  geometry (fs_sb s) -> bg_ok (fs_sb s) bg d ib db -> 1 <= num < 2 ^ 32 ->
  exists fb next l db',
    alloc_dbitmap_loop (S (Z.to_nat (per_bg s))) (per_bg s) (bd_dtable_start d) 0
      (bd_next_block d mod per_bg s) num (bd_next_block d) [] db = Some (fb, next, rev l, db') /\
    bg_ok (fs_sb s) bg (set_bd_free_blocks (bd_free_blocks d - Z.of_nat (length l))
                          (set_bd_next_block next d)) ib db' /\
    0 <= fb < per_bg s /\ NoDup l /\
    (forall o, o ∈ l -> ds_of (fs_sb s) d <= o < per_bg s /\ bit db o = false) /\
    (forall j, 0 <= j -> bit db' j = bit db j || bool_decide (j ∈ l)) /\
    Z.of_nat (length l) = Z.min num (bd_free_blocks d) /\ (l = [] -> next = bd_next_block d).
Proof.
  intros Hgeo Hok Hnum. destruct (bg_ok_bounds _ _ _ _ _ Hgeo Hok) as (Hds & _ & _).
  change (bd_dtable_start d mod per_bg s < per_bg s) in Hds.
  assert (0 < bd_dtable_start d mod per_bg s) as Hds0 by apply (bo_ds _ _ _ _ _ Hok).
  assert (0 < per_bg s <= 8 * CLUSTER_SIZE) as Hn by apply Hgeo.
  assert (bd_next_block d mod per_bg s = 0 \/
          bd_dtable_start d mod per_bg s <= bd_next_block d mod per_bg s < per_bg s) as Hnext.
  { destruct (bo_next _ _ _ _ _ Hok) as [E|E]; [by left|right].
    split; [done|]. apply Z.mod_pos_bound. lia. }
  destruct (alloc_dbitmap_loop_spec CLUSTER_SIZE (per_bg s) (bd_dtable_start d) Hn Hds0
    ltac:(unfold CLUSTER_SIZE in *; lia) (S (Z.to_nat (per_bg s))) 0 (bd_next_block d mod per_bg s)
    num (bd_next_block d) [] db)
    as (fb & next & l & db' & Hrun & Hwf & Hfb & Hnd & Hl & Hb & Hlen & Hdone & Hnx);
    [apply Hok|lia|done|lia|lia|lia|lia|].
  rewrite app_nil_r in Hrun.
  assert (free_in db' (bd_dtable_start d mod per_bg s) (per_bg s) = bd_free_blocks d - Z.of_nat (length l)) as Hfree.
  { rewrite (bo_fb _ _ _ _ _ Hok). apply (free_in_set _ _ (bd_dtable_start d mod per_bg s)); try done. lia. }
  exists fb, next, l, db'. split; [done|]. split.
  { destruct Hok. split; simpl; try done.
    revert Hnx. case_bool_decide; [by intros ->|]. intros Hnx. right.
    change (bd_dtable_start d mod per_bg s <= next mod per_bg s). rewrite (Z.mod_small next); lia. }
  split; [done|]. split; [done|]. split; [done|]. split; [done|]. split.
  - pose proof (free_in_bounds db' (bd_dtable_start d mod per_bg s) (per_bg s) ltac:(lia)).
    destruct Hdone as [E|Hall]; [lia|]. rewrite free_in_full in Hfree; [lia|]. intros o Ho.
    apply Hall; [done|]. rewrite Z.sub_0_r. by eapply to_visit_start.
  - intros ->. exact Hnx.
Qed.

(** From the new bitmap and descriptor of one group to the abstract step. *)
Lemma alloc_step_intro s s' bg d ib db d' db' l :
  inv s -> 0 <= bg < sb_bg_num (fs_sb s) ->
  fs_bd s !! bg = Some d -> fs_ibitmap s !! bg = Some ib -> fs_dbitmap s !! bg = Some db ->
  fs_bd s' = <[bg := d']> (fs_bd s) -> fs_dbitmap s' = <[bg := db']> (fs_dbitmap s) ->
  fs_ibitmap s' = fs_ibitmap s -> fs_itable s' = fs_itable s -> fs_bgl s' = fs_bgl s ->
  same_geo (fs_sb s) (fs_sb s') -> sb_free_inodes (fs_sb s') = sb_free_inodes (fs_sb s) ->
  bg_ok (fs_sb s) bg d' ib db' -> bd_dtable_start d' = bd_dtable_start d ->
  bd_free_inodes d' = bd_free_inodes d ->
  bd_free_blocks d' = bd_free_blocks d - Z.of_nat (length l) -> NoDup l ->
  (forall o, o ∈ l -> data_start s bg <= o < per_bg s /\ bit db o = false) ->
  (forall j, 0 <= j -> bit db' j = bit db j || bool_decide (j ∈ l)) ->
  sb_free_blocks (fs_sb s') = sb_free_blocks (fs_sb s) - Z.of_nat (length l) ->
  sb_no_of_used_blocks (fs_sb s') = sb_no_of_used_blocks (fs_sb s) + Z.of_nat (length l) ->
  alloc_step s s' ((fun o => bg * per_bg s + o) <$> l).
Proof.
  intros Hinv Hbg Hd Hib Hdb Ebd Edb Eib Eit Ebgl Hgeo Efi Hok Eds Ei Ef Hnd Hl Hb Hfb Hu.
  destruct (inv_group s bg Hinv Hbg) as (d0 & ib0 & db0 & _ & _ & _ & _ & Hst & Hds & _ & _).
  assert (forall o, o ∈ l -> 0 <= o < per_bg s) as Hr by (intros o Ho; destruct (Hl o Ho); lia).
  pose proof (inv_used s Hinv).
  destruct (dbitmap_update_frame s s' bg d d' db') as [Hfr _]; try done.
  split; rewrite ?length_fmap; try done.
  - eapply (inv_update s s' bg d ib db d' ib db'); try done; try lia.
    rewrite Eib. by apply insert_same.
  - apply NoDup_fmap_2; [intros ???; lia|done].
  - intros b (o & -> & Ho)%list_elem_of_fmap. destruct (Hl o Ho) as [Ho1 Ho2].
    split; [by apply data_block_at|]. rewrite block_used_at by auto. by rewrite Hdb.
  - intros b Hb0. rewrite (block_used_update s s' bg db') by done.
    assert (0 <= b mod per_bg s) by (apply Z.mod_pos_bound; lia).
    case_decide as E.
    + rewrite Hb by done. f_equal.
      * unfold block_used. by rewrite E, Hdb.
      * apply bool_decide_ext. rewrite elem_of_group_blocks by (done || lia). naive_solver.
    + rewrite bool_decide_eq_false_2, orb_false_r; [done|].
      rewrite elem_of_group_blocks by (done || lia). naive_solver.
Qed.

(** nvfuse_alloc_dbitmap refines the abstract allocation in one group: it
    takes distinct, previously free data blocks of that group, as many as
    asked for or as the group has. *)
Lemma alloc_dbitmap_run s bg num :
  inv s -> 0 <= bg < sb_bg_num (fs_sb s) -> 1 <= num < 2 ^ 32 ->
  exists blks s', nvfuse_alloc_dbitmap true bg num s = Some (blks, s') /\ alloc_step s s' blks /\
    Z.of_nat (length blks) = Z.min num (bg_free_blocks s bg) /\
    (forall b, b ∈ blks -> b / per_bg s = bg) /\
    (forall bg', bg' <> bg -> fs_bd s' !! bg' = fs_bd s !! bg').
Proof.
  intros Hinv Hbg Hnum.
  destruct (inv_group s bg Hinv Hbg) as (d & ib & db & Hd & Hib & Hdb & Hok & Hst & Hds & H0 & Hend).
  pose proof (inv_used s Hinv) as Hused. destruct (inv_free_le s bg d Hinv Hbg Hd) as [Hfl _].
  destruct (inv_geo s Hinv) as [Hgn _ _ _ Hu32 _].
  destruct (dbitmap_take s bg num d ib db (inv_geo s Hinv) Hok Hnum)
    as (fb & next & l & db' & Hrun & Hok' & Hfb & Hnd & Hl & Hb & Hmin & Hnil).
  rewrite <- Hst in Hl.
  assert (forall o, o ∈ l -> 0 <= o < per_bg s) as Hr by (intros o Ho; destruct (Hl o Ho); lia).
  set (blks := (fun o => bg * per_bg s + o) <$> l).
  assert (length blks = length l) as Hlen by apply length_fmap.
  assert ((fun o => u32 (bd_bg_start d + o)) <$> l = blks) as Hblks.
  { apply list_fmap_ext. intros i o Ho%list_elem_of_lookup_2. apply Hr in Ho.
    rewrite (bo_start _ _ _ _ _ Hok). fold (per_bg s). apply u32_small. lia. }
  exists blks.
  enough (exists s', nvfuse_alloc_dbitmap true bg num s = Some (blks, s') /\
            alloc_step s s' blks /\ (forall bg', bg' <> bg -> fs_bd s' !! bg' = fs_bd s !! bg'))
    as (s' & Hs' & Hst' & Hfr).
  { exists s'. split; [done|]. split; [done|]. split.
    { unfold bg_free_blocks. rewrite Hd. simpl. lia. }
    split; [|done]. intros b [? _]%elem_of_group_blocks; [done|lia|done]. }
  unfold nvfuse_alloc_dbitmap, mbind, M_bind, mgets, get_bd, get_dbitmap, mlift.
  change (sb_no_of_blocks_per_bg (fs_sb s)) with (per_bg s). rewrite Hd, Hdb, Hrun.
  cbv beta iota zeta. rewrite rev_involutive, Hblks. cbn [mmodify].
  set (s1 := set_bd bg (set_bd_next_block next d) (set_dbitmap bg db' s)).
  change (mmodify _ _) with (Some (tt, set_dbitmap bg db' s)). cbv beta iota.
  change (mmodify _ _) with (Some (tt, s1)). cbv beta iota.
  case_bool_decide as E.
  - (* nothing was free *)
    exists s1. split; [done|]. assert (l = []) as -> by (by apply fmap_nil_inv in E).
    simpl in Hok'. rewrite Z.sub_0_r in Hok'.
    assert (set_bd_free_blocks (bd_free_blocks d) (set_bd_next_block next d) = set_bd_next_block next d)
      as Ed by (by destruct d). rewrite Ed in Hok'.
    split; [|intros b Hne; by apply lookup_insert_ne].
    eapply (alloc_step_intro s s1 bg d ib db (set_bd_next_block next d) db' []); try done; simpl; lia.
  - (* deduct the blocks from the counters *)
    set (s2 := mark_dirty BD_INO bg (mark_dirty DBITMAP_INO bg s1)).
    change (mmodify _ _) with (Some (tt, mark_dirty DBITMAP_INO bg s1)). cbv beta iota.
    change (mmodify _ _) with (Some (tt, s2)). cbv beta iota.
    rewrite (bo_start _ _ _ _ _ Hok). change (sb_no_of_blocks_per_bg (fs_sb s)) with (per_bg s).
    rewrite (u32_small (bg * per_bg s + fb)) by lia.
    destruct (dec_free_blocks_run s2 bg (bg * per_bg s + fb) (Z.of_nat (length blks))
      (set_bd_next_block next d)) as (-> & Hf & Hu); simpl; rewrite ?Hlen; try done; try lia.
    { apply block_split. done. }
    { apply lookup_insert_eq. }
    { apply (bo_id _ _ _ _ _ Hok). }

    rewrite Hlen in *. eexists. split; [reflexivity|].
    split; [|intros b Hne; simpl; by rewrite !lookup_insert_ne by done].
    eapply (alloc_step_intro s _ bg d ib db _ db' l); try done; simpl.
    by rewrite insert_insert_eq.
Qed.

(** ** Freeing *)

Lemma clear_bits_spec B n : forall nr buf,
  wf_block B buf -> 0 <= nr -> nr + Z.of_nat n <= 8 * B ->
  (forall j, nr <= j < nr + Z.of_nat n -> bit buf j = true) ->
  exists buf', clear_bits n nr buf = Some buf' /\ wf_block B buf' /\
    forall j, 0 <= j -> bit buf' j = bit buf j && negb (bool_decide (nr <= j < nr + Z.of_nat n)).
Proof.
  induction n as [|n IH]; intros nr buf Hwf Hnr Hle Hset.
  - exists buf. split; [done|]. split; [done|]. intros j Hj.
    rewrite bool_decide_eq_false_2 by lia. by rewrite andb_true_r.
  - simpl. destruct (test_bit_spec B buf nr) as (t & -> & Ht); [done|lia|]. simpl.
    rewrite Hset in Ht by lia. simpl in Ht. rewrite Ht.
    destruct (clear_bit_spec B buf nr) as (v & buf1 & -> & Hwf1 & _ & Hb1); [done|lia|]. simpl.
    destruct (IH (nr + 1) buf1) as (buf' & -> & Hwf' & Hb'); [done|lia|lia| |].
    { intros j Hj. rewrite Hb1 by lia. rewrite decide_False by lia. apply Hset. lia. }
    exists buf'. split; [done|]. split; [done|]. intros j Hj. rewrite Hb', Hb1 by done.
    case_decide as E.
    + rewrite (bool_decide_eq_true_2 (nr <= j < _)) by lia. by rewrite andb_false_r.
    + f_equal. f_equal. apply bool_decide_ext. lia.
Qed.

(** nvfuse_inc_free_blocks in a state where its assertions hold. *)
Lemma inc_free_blocks_run s bg blockno cnt d :
  blockno / per_bg s = bg -> fs_bd s !! bg = Some d -> bd_id d = bg ->
  0 <= cnt -> 0 <= bd_free_blocks d -> bd_free_blocks d + cnt <= bd_max_blocks d -> bd_max_blocks d < 2 ^ 32 ->
  0 <= sb_free_blocks (fs_sb s) -> sb_no_of_blocks (fs_sb s) < 2 ^ 62 ->
  cnt <= sb_no_of_used_blocks (fs_sb s) ->
  sb_no_of_used_blocks (fs_sb s) + sb_free_blocks (fs_sb s) <= sb_no_of_blocks (fs_sb s) ->
  nvfuse_inc_free_blocks true blockno cnt s =
  Some (tt, mark_dirty BD_INO bg (set_sb (sb_add_blocks true cnt (fs_sb s))
              (set_bd bg (set_bd_free_blocks (bd_free_blocks d + cnt) d) s))) /\
  sb_free_blocks (sb_add_blocks true cnt (fs_sb s)) = sb_free_blocks (fs_sb s) + cnt /\
  sb_no_of_used_blocks (sb_add_blocks true cnt (fs_sb s)) = sb_no_of_used_blocks (fs_sb s) - cnt.
Proof.
  intros Hbg Hd Hid Hc Hf0 Hf Hm Hs Hk Hu1 Hu2.
  assert (s64 (sb_free_blocks (fs_sb s) + cnt) = sb_free_blocks (fs_sb s) + cnt) as E1
    by (rewrite s64_small; lia).
  assert (s64 (sb_no_of_used_blocks (fs_sb s) - cnt) = sb_no_of_used_blocks (fs_sb s) - cnt) as E2
    by (rewrite s64_small; lia).
  split; [|split; simpl; lia].
  unfold nvfuse_inc_free_blocks, mbind, M_bind, mgets, get_bd, mlift. unfold per_bg in Hbg.
  rewrite Hbg, Hd. simpl. rewrite Hid, Z.eqb_refl. simpl.
  rewrite (u32_small (bd_free_blocks d + cnt)) by lia. rewrite E1, E2.
  rewrite !(proj2 (Z.leb_le _ _)) by lia. reflexivity.
Qed.

(** A run of [count] used data blocks starting at offset [off] of a group. *)
Definition run_of (s : fs) (bg off count : Z) : list Z :=
  range (bg * per_bg s + off) (bg * per_bg s + off + count).

Lemma elem_of_run n bg off count b :
  0 < n -> 0 <= off -> off + count <= n ->
  b ∈ range (bg * n + off) (bg * n + off + count) <-> b / n = bg /\ off <= b mod n < off + count.
Proof.
  intros Hn Ho Hc. rewrite elem_of_range. split.
  - intros Hb. pose proof (block_split n bg (b - bg * n) ltac:(lia)) as [E1 E2].
    replace (bg * n + (b - bg * n)) with b in * by lia. rewrite E1, E2. lia.
  - intros [<- Hb]. pose proof (Z.div_mod b n). lia.
Qed.

(** The abstract step of a group whose bits [off, off+count) were cleared. *)
Lemma free_step_intro s s' bg d ib db d' db' off count :
  inv s -> 0 <= bg < sb_bg_num (fs_sb s) ->
  fs_bd s !! bg = Some d -> fs_ibitmap s !! bg = Some ib -> fs_dbitmap s !! bg = Some db ->
  fs_bd s' = <[bg := d']> (fs_bd s) -> fs_dbitmap s' = <[bg := db']> (fs_dbitmap s) ->
  fs_ibitmap s' = fs_ibitmap s -> fs_itable s' = fs_itable s -> fs_bgl s' = fs_bgl s ->
  same_geo (fs_sb s) (fs_sb s') -> sb_free_inodes (fs_sb s') = sb_free_inodes (fs_sb s) ->
  bg_ok (fs_sb s) bg d' ib db' -> bd_dtable_start d' = bd_dtable_start d ->
  bd_free_inodes d' = bd_free_inodes d -> bd_free_blocks d' = bd_free_blocks d + count ->
  1 <= count <= sb_no_of_used_blocks (fs_sb s) ->
  data_start s bg <= off -> off + count <= per_bg s ->
  (forall o, off <= o < off + count -> bit db o = true) ->
  (forall j, 0 <= j -> bit db' j = bit db j && negb (bool_decide (off <= j < off + count))) ->
  sb_free_blocks (fs_sb s') = sb_free_blocks (fs_sb s) + count ->
  sb_no_of_used_blocks (fs_sb s') = sb_no_of_used_blocks (fs_sb s) - count ->
  free_step s s' (run_of s bg off count).
Proof.
  intros Hinv Hbg Hd Hib Hdb Ebd Edb Eib Eit Ebgl Hgeo Efi Hok Eds Ei Ef Hc Hoff Hend Hl Hb Hfb Hu.
  destruct (inv_group s bg Hinv Hbg) as (d0 & ib0 & db0 & _ & _ & _ & _ & Hst & Hds & H0 & _).
  pose proof (inv_used s Hinv).
  destruct (dbitmap_update_frame s s' bg d d' db') as [Hfr _]; try done.
  assert (Z.of_nat (length (run_of s bg off count)) = count) as Hlen
    by (unfold run_of; rewrite length_range; lia).
  split; rewrite ?Hlen; try done.
  - eapply (inv_update s s' bg d ib db d' ib db'); try done; try lia.
    rewrite Eib. by apply insert_same.
  - intros b Hin. apply elem_of_run in Hin as [E Ho]; [|lia..].
    assert (b = bg * per_bg s + b mod per_bg s) as ->
      by (rewrite <- E; pose proof (Z.div_mod b (per_bg s)); lia).
    assert (data_start s bg <= b mod per_bg s < per_bg s) as Hr by lia.
    split; [by apply data_block_at|]. rewrite block_used_at by lia. rewrite Hdb. by apply Hl.
  - intros b Hb0. rewrite (block_used_update s s' bg db') by done.
    assert (0 <= b mod per_bg s) by (apply Z.mod_pos_bound; lia).
    case_decide as E.
    + rewrite Hb by done. f_equal; [unfold block_used; by rewrite E, Hdb|].
      f_equal. apply bool_decide_ext. unfold run_of. rewrite elem_of_run by lia. naive_solver.
    + rewrite bool_decide_eq_false_2, andb_true_r; [done|].
      unfold run_of. rewrite elem_of_run by lia. naive_solver.
Qed.

(** nvfuse_free_dbitmap clears exactly the given run of used data blocks and
    gives it back to the counters. *)
Lemma free_dbitmap_run s bg off count :
  inv s -> 0 <= bg < sb_bg_num (fs_sb s) -> 1 <= count ->
  data_start s bg <= off -> off + count <= per_bg s ->
  (forall b, b ∈ run_of s bg off count -> block_used s b = true) ->
  count <= sb_no_of_used_blocks (fs_sb s) ->
  exists s', nvfuse_free_dbitmap true bg off count s = Some (0, s') /\
    free_step s s' (run_of s bg off count).
Proof.
  intros Hinv Hbg Hc Hoff Hend Hset Hcu.
  destruct (inv_group s bg Hinv Hbg) as (d & ib & db & Hd & Hib & Hdb & Hok & Hst & Hds & H0 & Hlast).
  pose proof (inv_used s Hinv) as Hused. destruct (inv_free_le s bg d Hinv Hbg Hd) as [Hfl _].
  destruct (inv_geo s Hinv) as [Hgn _ _ _ Hu32 _]. change (sb_no_of_blocks_per_bg (fs_sb s)) with (per_bg s) in Hgn.
  assert (forall j, off <= j < off + count -> bit db j = true) as Hbits.
  { intros j Hj. specialize (Hset (bg * per_bg s + j)). rewrite block_used_at, Hdb in Hset by lia.
    apply Hset, elem_of_range. lia. }
  destruct (clear_bits_spec CLUSTER_SIZE (Z.to_nat count) off db) as (db' & Hclr & Hwf & Hb);
    [apply Hok|lia|lia|intros j Hj; apply Hbits; lia|].
  rewrite Z2Nat.id in Hb by lia.
  assert (free_in db' (ds_of (fs_sb s) d) (per_bg s) = bd_free_blocks d + count) as Hfree.
  { rewrite (bo_fb _ _ _ _ _ Hok).
    rewrite (free_in_clear db db' _ _ (range off (off + count))).
    - rewrite length_range by lia. change (sb_no_of_blocks_per_bg (fs_sb s)) with (per_bg s). lia.
    - lia.
    - apply NoDup_range.
    - intros o Ho%elem_of_range. split; [lia|]. apply Hbits. lia.
    - intros j Hj. rewrite Hb by done. f_equal. f_equal. apply bool_decide_ext.
      by rewrite elem_of_range. }
  pose proof (free_in_bounds db' (ds_of (fs_sb s) d) (per_bg s) ltac:(lia)) as Hfb.
  set (s2 := mark_dirty BD_INO bg (mark_dirty DBITMAP_INO bg
               (set_bd bg (set_bd_next_block off d) (set_dbitmap bg db' s)))).
  destruct (inc_free_blocks_run s2 bg (bg * per_bg s + off) count (set_bd_next_block off d))
    as (Hrun & Hf & Hu); simpl; try done; try lia.
  { apply block_split. change (per_bg s2) with (per_bg s). lia. }
  { apply lookup_insert_eq. }
  { apply (bo_id _ _ _ _ _ Hok). }
  { rewrite (bo_maxb _ _ _ _ _ Hok). change (sb_no_of_blocks_per_bg (fs_sb s)) with (per_bg s). lia. }
  { rewrite (bo_maxb _ _ _ _ _ Hok). change (sb_no_of_blocks_per_bg (fs_sb s)) with (per_bg s). lia. }
  eexists. split.
  - unfold nvfuse_free_dbitmap, mbind, M_bind, get_bd, get_dbitmap, mlift, massert, mmodify.
    rewrite Hd, (bo_id _ _ _ _ _ Hok), Z.eqb_refl, Hdb, Hclr, (proj2 (Z.ltb_lt 0 count)) by lia.
    cbv beta iota zeta.
    rewrite (bo_start _ _ _ _ _ Hok). change (sb_no_of_blocks_per_bg (fs_sb s)) with (per_bg s).
    rewrite u32_small by lia. fold s2. rewrite Hrun. reflexivity.
  - eapply (free_step_intro s _ bg d ib db
      (set_bd_free_blocks (bd_free_blocks d + count) (set_bd_next_block off d)) db' off count);
      try done; simpl.
    + by rewrite insert_insert_eq.
    + destruct Hok. split; simpl; try done. right. 
      change (data_start s bg <= off) in Hoff. rewrite Hst in Hoff.
      change (sb_no_of_blocks_per_bg (fs_sb s)) with (per_bg s). rewrite Z.mod_small; [exact Hoff|lia].
Qed.

(** While the run stays in its group the loop of nvfuse_free_blocks only
    collects it; the whole run is freed at the end. *)
Lemma free_blocks_loop_run s bg off n : forall start len,
  (1 <= n)%nat -> (forall k, 0 < k < Z.of_nat n -> (start + k) / per_bg s = bg) ->
  free_blocks_loop true n start bg off len s =
  (nvfuse_free_dbitmap true bg off (len + Z.of_nat n);; mret tt) s.
Proof.
  induction n as [|n IH]; intros start len Hn Hk; [lia|].
  cbn [free_blocks_loop]. unfold mgets at 1. cbn [mbind M_bind].
  unfold mbind at 1, M_bind at 1. change (sb_no_of_blocks_per_bg (fs_sb s)) with (per_bg s).
  destruct n as [|n].
  - rewrite bool_decide_eq_true_2, orb_true_r by done. done.
  - rewrite (bool_decide_eq_false_2 (S n = O)), orb_false_r by done.
    rewrite (Hk 1) by lia. rewrite Z.eqb_refl. cbn [negb].
    rewrite IH; [|lia|].
    + replace (len + 1 + Z.of_nat (S n)) with (len + Z.of_nat (S (S n))) by lia. done.
    + intros k Hkk. replace (start + 1 + k) with (start + (1 + k)) by lia. apply Hk. lia.
Qed.

(** A run of data blocks lies in one group: the next group starts with metadata. *)
Lemma data_run_group s b count :
  inv s -> 1 <= count -> (forall x, b <= x < b + count -> data_block s x) ->
  0 <= b / per_bg s < sb_bg_num (fs_sb s) /\ data_start s (b / per_bg s) <= b mod per_bg s /\
  b mod per_bg s + count <= per_bg s.
Proof.
  intros Hinv Hc Hd. destruct (inv_geo s Hinv) as [Hgn _ Hgb Hblk _ _].
  change (sb_no_of_blocks_per_bg (fs_sb s)) with (per_bg s) in *.
  destruct (Hd b) as [Hb1 Hb2]; [lia|].
  assert (forall x, 0 <= x < sb_no_of_blocks (fs_sb s) -> 0 <= x / per_bg s < sb_bg_num (fs_sb s)) as Hq.
  { intros x Hx. split; [apply Z.div_pos; lia|]. apply Z.div_lt_upper_bound; lia. }
  split; [by apply Hq|]. split; [done|].
  destruct (Z.le_gt_cases (b mod per_bg s + count) (per_bg s)) as [|Hgt]; [done|exfalso].
  set (x := (b / per_bg s + 1) * per_bg s + 0).
  pose proof (Z.div_mod b (per_bg s)). pose proof (Z.mod_pos_bound b (per_bg s)).
  destruct (Hd x) as [Hx1 Hx2]; [subst x; lia|].
  destruct (block_split (per_bg s) (b / per_bg s + 1) 0) as [E1 E2]; [lia|].
  fold x in E1, E2. rewrite E2 in Hx2.
  destruct (inv_group s (x / per_bg s) Hinv) as (d & ib & db & _ & _ & _ & _ & Hst & Hds & _); [by apply Hq|].
  lia.
Qed.

(** nvfuse_free_blocks gives back exactly the blocks it is asked to free. *)
Lemma free_blocks_run s b count :
  inv s -> 1 <= count -> (forall x, b <= x < b + count -> data_block s x /\ block_used s x = true) ->
  count <= sb_no_of_used_blocks (fs_sb s) ->
  exists s', nvfuse_free_blocks true b count s = Some (tt, s') /\ free_step s s' (range b (b + count)).
Proof.
  intros Hinv Hc Hall Hcu.
  destruct (data_run_group s b count Hinv Hc) as (Hbg & Hds & Hend); [intros x Hx; by apply Hall|].
  destruct (inv_geo s Hinv) as [Hgn _ _ _ Hu32 _].
  change (sb_no_of_blocks_per_bg (fs_sb s)) with (per_bg s) in *.
  pose proof (Z.div_mod b (per_bg s) ltac:(lia)) as Hdm. pose proof (Z.mod_pos_bound b (per_bg s) ltac:(lia)).
  destruct (Hall b) as [[Hb _] _]; [lia|]. destruct (Hall (b + count - 1)) as [[Hbl _] _]; [lia|].
  assert (run_of s (b / per_bg s) (b mod per_bg s) count = range b (b + count)) as Hrun.
  { unfold run_of. f_equal; lia. }
  destruct (free_dbitmap_run s (b / per_bg s) (b mod per_bg s) count) as (s' & Hs' & Hst);
    try done; [intros x; rewrite Hrun, elem_of_range; apply Hall|].
  exists s'. rewrite Hrun in Hst. split; [|done].
  unfold nvfuse_free_blocks, mbind at 1, M_bind at 1, mgets.
  change (sb_no_of_blocks_per_bg (fs_sb s)) with (per_bg s).
  rewrite u32_small by lia. replace (b + count - b) with count by lia.
  rewrite free_blocks_loop_run; [|lia|].
  - rewrite Z2Nat.id by lia. unfold mbind, M_bind. by rewrite Z.add_0_l, Hs'.
  - intros k Hk. rewrite Z2Nat.id in Hk by lia.
    replace (b + k) with (b / per_bg s * per_bg s + (b mod per_bg s + k)) by lia.
    apply block_split. lia.
Qed.

(** Freeing a free data block trips the assertion on its bit. *)
Lemma free_blocks_twice s b :
  inv s -> data_block s b -> block_used s b = false -> nvfuse_free_blocks true b 1 s = None.
Proof.
  intros Hinv Hd Hu.
  destruct (data_run_group s b 1 Hinv) as (Hbg & Hds & Hend); [lia|intros x Hx; by replace x with b by lia|].
  destruct (inv_group s (b / per_bg s) Hinv Hbg) as (d & ib & db & Hbd & Hib & Hdb & Hok & Hst & Hdd & _ & Hlast).
  destruct (inv_geo s Hinv) as [Hgn _ _ _ Hu32 _].
  change (sb_no_of_blocks_per_bg (fs_sb s)) with (per_bg s) in Hgn.
  pose proof (proj1 Hd). unfold block_used in Hu. rewrite Hdb in Hu.
  destruct (test_bit_spec CLUSTER_SIZE db (b mod per_bg s)) as (v & Hv & Hv0); [apply Hok|lia|].
  rewrite Hu in Hv0. simpl in Hv0.
  unfold nvfuse_free_blocks, mbind at 1, M_bind at 1, mgets.
  change (sb_no_of_blocks_per_bg (fs_sb s)) with (per_bg s).
  rewrite u32_small by lia. replace (b + 1 - b) with 1 by lia.
  rewrite free_blocks_loop_run; [|lia|intros k Hk; simpl in Hk; lia].
  unfold nvfuse_free_dbitmap, mbind, M_bind, get_bd, get_dbitmap, mlift, massert.
  rewrite Hbd, (bo_id _ _ _ _ _ Hok), Z.eqb_refl, Hdb. cbv beta iota.
  change (Z.to_nat (0 + Z.of_nat (Z.to_nat 1))) with 1%nat. cbn [clear_bits].
  unfold mbind, option_bind. rewrite Hv, Hv0. done.
Qed.

(** ** Composing the abstract steps *)

Lemma alloc_step_nil s : inv s -> alloc_step s s [].
Proof.
  intros H. split; try done; simpl; try lia.
  - constructor.
  - by intros b ?%not_elem_of_nil.
  - intros b _. by rewrite orb_false_r.
Qed.

Lemma free_step_nil s : inv s -> free_step s s [].
Proof.
  intros H. split; try done; simpl; try lia.
  - by intros b ?%not_elem_of_nil.
  - intros b _. by rewrite andb_true_r.
Qed.

Lemma alloc_step_app s1 s2 s3 l1 l2 :
  alloc_step s1 s2 l1 -> alloc_step s2 s3 l2 -> alloc_step s1 s3 (l1 ++ l2).
Proof.
  intros [I1 F1 N1 R1 U1 C1 D1] [I2 F2 N2 R2 U2 C2 D2].
  assert (forall b, b ∈ l2 -> b ∉ l1 /\ data_block s1 b /\ block_used s1 b = false) as H2.
  { intros b Hb. destruct (R2 b Hb) as [Hd Hu]. rewrite (data_block_frame s1 s2) in Hd by done.
    rewrite U1 in Hu by apply Hd. apply orb_false_iff in Hu as [Hu1 Hu2].
    apply bool_decide_eq_false in Hu2. done. }
  split.
  - done.
  - by etrans.
  - apply NoDup_app. split; [done|]. split; [|done]. intros b Hb1 Hb2. destruct (H2 b Hb2) as [Hx _]. done.
  - intros b [Hb|Hb]%elem_of_app; [by apply R1|]. by apply H2.
  - intros b Hb. rewrite U2, U1 by done. rewrite <- orb_assoc. f_equal.
    rewrite <- bool_decide_or. apply bool_decide_ext. by rewrite elem_of_app.
  - rewrite length_app. lia.
  - rewrite length_app. lia.
Qed.

Lemma free_step_app s1 s2 s3 l1 l2 :
  free_step s1 s2 l1 -> free_step s2 s3 l2 -> free_step s1 s3 (l1 ++ l2).
Proof.
  intros [I1 F1 R1 U1 C1 D1] [I2 F2 R2 U2 C2 D2]. split.
  - done.
  - by etrans.
  - intros b [Hb|Hb]%elem_of_app; [by apply R1|]. destruct (R2 b Hb) as [Hd Hu].
    rewrite (data_block_frame s1 s2) in Hd by done. split; [done|].
    rewrite U1 in Hu by apply Hd. by apply andb_true_iff in Hu as [? _].
  - intros b Hb. rewrite U2, U1 by done. rewrite <- andb_assoc. f_equal.
    rewrite <- negb_orb, <- bool_decide_or. f_equal. apply bool_decide_ext. by rewrite elem_of_app.
  - rewrite length_app. lia.
  - rewrite length_app. lia.
Qed.

(** Freeing what was just allocated restores the set of used blocks. *)
Lemma alloc_free_cancel s s' s'' l :
  alloc_step s s' l -> free_step s' s'' l ->
  (forall b, 0 <= b -> block_used s'' b = block_used s b) /\
  sb_free_blocks (fs_sb s'') = sb_free_blocks (fs_sb s) /\
  sb_no_of_used_blocks (fs_sb s'') = sb_no_of_used_blocks (fs_sb s).
Proof.
  intros [_ _ _ R1 U1 C1 D1] [_ _ _ U2 C2 D2]. split; [|split; lia].
  intros b Hb. rewrite U2, U1 by done. case_bool_decide as E.
  - rewrite andb_false_r. by destruct (R1 b E) as [_ ->].
  - by rewrite orb_false_r, andb_true_r.
Qed.

(** Changing only the allocator's hints. *)
Lemma alloc_step_hint s s' l bg ino :
  alloc_step s s' l -> alloc_step s (set_sb (sb_set_last_bg bg ino (fs_sb s')) s') l.
Proof.
  intros [[G1 G2 G3 G4 G5 G6] [F1 F2 F3 F4 F5 F6] N R U C D].
  assert (same_geo (fs_sb s') (sb_set_last_bg bg ino (fs_sb s'))) as Hsame by done.
  split; try done. split; try done; [by eapply geometry_same|]. intros bg' Hbg'. destruct (G2 bg' Hbg') as (d & ib & db & ? & ? & ? & ?).
  exists d, ib, db. by eauto using bg_ok_same.
Qed.

(** nvfuse_return_free_blocks frees a list of distinct used blocks. *)
Lemma return_free_blocks_run blks : forall s,
  inv s -> NoDup blks -> (forall b, b ∈ blks -> data_block s b /\ block_used s b = true) ->
  Z.of_nat (length blks) <= sb_no_of_used_blocks (fs_sb s) ->
  exists s', nvfuse_return_free_blocks true blks s = Some (tt, s') /\ free_step s s' blks.
Proof.
  induction blks as [|b blks IH]; intros s Hinv Hnd Hall Hlen.
  - exists s. split; [done|]. by apply free_step_nil.
  - apply NoDup_cons in Hnd as [Hb Hnd]. rewrite length_cons in Hlen.
    destruct (free_blocks_run s b 1) as (s1 & H1 & S1); [done|lia| |lia|].
    { intros x Hx. replace x with b by lia. apply Hall, elem_of_cons. by left. }
    assert (range b (b + 1) = [b]) as Er.
    { unfold range. replace (b + 1 - b) with 1 by lia. done. }
    rewrite Er in S1.
    destruct (IH s1) as (s2 & H2 & S2).
    + apply S1.
    + done.
    + intros x Hx. destruct (Hall x) as [Hd Hu]; [apply elem_of_cons; by right|].
      rewrite (data_block_frame s s1) by apply S1. split; [done|].
      rewrite (fs_step_used _ _ _ S1) by apply Hd. rewrite Hu, bool_decide_eq_false_2; [done|].
      intros ->%list_elem_of_singleton. done.
    + rewrite (fs_step_usedcnt _ _ _ S1). simpl. lia.
    + exists s2. split; [|by apply (free_step_app s s1 s2 [b])].
      simpl. unfold mbind, M_bind. by rewrite H1, H2.
Qed.

(** ** The search over the block groups *)

(** The [k] groups visited from [bg] on, wrapping at [G]. *)
Definition groups_from (G bg : Z) (k : nat) : list Z :=
  (fun i => (bg + Z.of_nat i) mod G) <$> seq 0 k.

Lemma groups_from_S G bg k : 0 <= bg < G ->
  groups_from G bg (S k) = bg :: groups_from G ((bg + 1) mod G) k.
Proof.
  intros. unfold groups_from. simpl. f_equal; [rewrite Z.add_0_r; apply Z.mod_small; lia|].
  rewrite <- seq_shift, <- list_fmap_compose. apply list_fmap_ext. intros i x _. simpl.
  rewrite Zplus_mod_idemp_l. f_equal. lia.
Qed.

Lemma mod_shift_inj G b x y : 0 <= x < G -> 0 <= y < G -> (b + x) mod G = (b + y) mod G -> x = y.
Proof.
  intros Hx Hy E. pose proof (Z.div_mod (b + x) G). pose proof (Z.div_mod (b + y) G).
  assert ((b + x) / G = (b + y) / G) by nia. nia.
Qed.

Lemma groups_from_all G bg : 0 <= bg < G -> groups_from G bg (Z.to_nat G) ≡ₚ range 0 G.
Proof.
  intros H. apply NoDup_Permutation; [|apply NoDup_range|].
  - apply NoDup_fmap_2_strong; [|apply NoDup_seq].
    intros x y Hx%elem_of_seq Hy%elem_of_seq E.
    apply mod_shift_inj in E; lia.
  - intros x. rewrite elem_of_range. unfold groups_from. rewrite list_elem_of_fmap. split.
    + intros (i & -> & _). apply Z.mod_pos_bound. lia.
    + intros Hx. exists (Z.to_nat ((x - bg) mod G)). rewrite Z2Nat.id by (apply Z.mod_pos_bound; lia).
      rewrite Zplus_mod_idemp_r, elem_of_seq. split; [rewrite Z.mod_small; lia|].
      pose proof (Z.mod_pos_bound (x - bg) G). lia.
Qed.

Lemma Zsum_perm {A} (f : A -> Z) l1 l2 : l1 ≡ₚ l2 -> Zsum f l1 = Zsum f l2.
Proof. induction 1; simpl; lia. Qed.

Lemma groups_from_bounds G bg k x : 0 < G -> x ∈ groups_from G bg k -> 0 <= x < G.
Proof. intros HG. unfold groups_from. rewrite list_elem_of_fmap. intros (i & -> & _). apply Z.mod_pos_bound. lia. Qed.

Lemma get_free_blocks_run s bg : inv s -> 0 <= bg < sb_bg_num (fs_sb s) ->
  nvfuse_get_free_blocks bg s = Some (bg_free_blocks s bg, s).
Proof.
  intros Hinv Hbg. destruct (inv_group s bg Hinv Hbg) as (d & ib & db & Hd & _ & _ & Hok & _).
  unfold nvfuse_get_free_blocks, bg_free_blocks, mbind, M_bind, mget. rewrite Hd.
  by rewrite (bo_id _ _ _ _ _ Hok), Z.eqb_refl.
Qed.

Lemma bg_free_nonneg s bg : inv s -> 0 <= bg < sb_bg_num (fs_sb s) -> 0 <= bg_free_blocks s bg.
Proof.
  intros Hinv Hbg. destruct (inv_group s bg Hinv Hbg) as (d & ib & db & Hd & _).
  destruct (inv_free_le s bg d Hinv Hbg Hd). unfold bg_free_blocks. rewrite Hd. simpl. lia.
Qed.

(** The hint a process keeps for its next allocation names a group. *)
Definition hint_ok (s : fs) : Prop := 0 <= sb_last_allocated_bgid (fs_sb s) < sb_bg_num (fs_sb s).

(** One round of the loop: visit [bg], take what it has (at most [num]). *)
Definition visit (ino bg num : Z) (acc : list Z) : M fs (list Z * Z * Z) :=
  free ← nvfuse_get_free_blocks bg;
  '(acc, num) ←
    (if negb (free =? 0) then
       blks ← nvfuse_alloc_dbitmap true bg num;
       mmodify (fun s => set_sb (sb_set_last_bg bg ino (fs_sb s)) s);;
       mret (acc ++ blks, u32 (num - Z.of_nat (length blks)))
     else mret (acc, num));
  mret (acc, num, free).

Lemma visit_run s ino bg num acc :
  inv s -> hint_ok s -> 0 <= bg < sb_bg_num (fs_sb s) -> 1 <= num < 2 ^ 32 ->
  exists blks s', visit ino bg num acc s =
      Some ((acc ++ blks, num - Z.of_nat (length blks), bg_free_blocks s bg), s') /\
    alloc_step s s' blks /\ hint_ok s' /\
    Z.of_nat (length blks) = Z.min num (bg_free_blocks s bg) /\
    (forall bg', bg' <> bg -> bg_free_blocks s' bg' = bg_free_blocks s bg').
Proof.
  intros Hinv Hh Hbg Hnum. unfold visit. unfold mbind at 1, M_bind at 1.
  rewrite get_free_blocks_run by done. pose proof (bg_free_nonneg s bg Hinv Hbg).
  destruct (Z.eqb_spec (bg_free_blocks s bg) 0) as [E|E]; simpl negb; cbv iota.
  - exists [], s. rewrite app_nil_r, Z.sub_0_r, E. split; [done|].
    split; [by apply alloc_step_nil|]. split; [done|]. simpl. split; [lia|done].
  - destruct (alloc_dbitmap_run s bg num Hinv Hbg Hnum) as (blks & s1 & H1 & S1 & Hlen & _ & Hoth).
    exists blks, (set_sb (sb_set_last_bg bg ino (fs_sb s1)) s1).
    unfold mbind, M_bind. rewrite H1. cbv beta iota. unfold mmodify, mret, M_ret. cbv beta iota.
    rewrite u32_small by lia. split; [done|]. split; [by apply alloc_step_hint|].
    destruct (fr_geo _ _ (as_frame _ _ _ S1)) as (_ & _ & Hn & _).
    destruct (inv_geo s Hinv) as [? Hi Hb _ _ Hino].
    split; [|split; [done|]].
    + unfold hint_ok. simpl. rewrite Hn, s32_small; [done|nia].
    + intros bg' Hne. unfold bg_free_blocks. simpl. by rewrite Hoth.
Qed.

Lemma alloc_free_block_loop_S n ino bg next num acc s :
  alloc_free_block_loop true (S n) ino bg next num acc s =
  match visit ino bg num acc s with
  | None => None
  | Some ((acc, num, free), s') =>
      if negb (free =? 0) && (num =? 0) then Some (acc, s')
      else let bg' := u32 (bg + 1) mod sb_bg_num (fs_sb s') in
           if bg' =? next then Some (acc, s') else alloc_free_block_loop true n ino bg' next num acc s'
  end.
Proof.
  unfold visit, mbind, M_bind, mret, M_ret. cbn [alloc_free_block_loop]. unfold mbind, M_bind.
  destruct (nvfuse_get_free_blocks bg s) as [[free s1]|]; [|done].
  destruct (free =? 0) eqn:Ef; simpl.
  - rewrite Ef. by destruct (u32 (bg + 1) mod sb_bg_num (fs_sb s1) =? next).
  - destruct (nvfuse_alloc_dbitmap true bg num s1) as [[blks s2]|]; [|done]. simpl. rewrite Ef. simpl.
    destruct (u32 (num - Z.of_nat (length blks)) =? 0); [done|].
    simpl. by destruct (u32 (bg + 1) mod sb_bg_num (fs_sb s2) =? next).
Qed.

(** With [k] groups still to visit, the loop takes as many blocks as it was
    asked for or as those groups have. *)
Lemma alloc_free_block_loop_run k : forall s ino bg next num acc,
  inv s -> hint_ok s -> 0 <= bg < sb_bg_num (fs_sb s) -> 1 <= num < 2 ^ 32 ->
  (1 <= k)%nat -> NoDup (groups_from (sb_bg_num (fs_sb s)) bg k) ->
  (forall i, (0 < i < k)%nat -> (bg + Z.of_nat i) mod sb_bg_num (fs_sb s) <> next) ->
  (bg + Z.of_nat k) mod sb_bg_num (fs_sb s) = next ->
  exists blks s', alloc_free_block_loop true k ino bg next num acc s = Some (acc ++ blks, s') /\
    alloc_step s s' blks /\ hint_ok s' /\
    Z.of_nat (length blks) =
      Z.min num (Zsum (bg_free_blocks s) (groups_from (sb_bg_num (fs_sb s)) bg k)).
Proof.
  induction k as [|k IH]; intros s ino bg next num acc Hinv Hh Hbg Hnum Hk Hnd Hne Hlast; [lia|].
  rewrite alloc_free_block_loop_S.
  destruct (visit_run s ino bg num acc Hinv Hh Hbg Hnum) as (blks & s1 & -> & S1 & Hh1 & Hlen & Hoth).
  destruct (fr_geo _ _ (as_frame _ _ _ S1)) as (_ & _ & Hn & _).
  destruct (inv_geo s Hinv) as [_ Hi Hb _ _ Hino]. set (G := sb_bg_num (fs_sb s)) in *.
  rewrite groups_from_S in Hnd |- * by done. apply NoDup_cons in Hnd as [Hfresh Hnd].
  assert (0 <= (bg + 1) mod G < G) as Hb1 by (apply Z.mod_pos_bound; lia).
  pose proof (bg_free_nonneg s bg Hinv Hbg) as Hf0.
  set (rest := groups_from G ((bg + 1) mod G) k) in *.
  assert (0 <= Zsum (bg_free_blocks s) rest) as Hrest.
  { apply Zsum_nonneg. intros x Hx. apply bg_free_nonneg; [done|].
    eapply groups_from_bounds; [|done]. lia. }
  assert (Zsum (bg_free_blocks s1) rest = Zsum (bg_free_blocks s) rest) as Hsame.
  { apply Zsum_ext. intros x Hx. apply Hoth. by intros ->. }
  cbv beta iota. simpl Zsum. rewrite Hn, u32_small by nia. cbv zeta.
  destruct (Z.eqb_spec (num - Z.of_nat (length blks)) 0) as [E|E].
  - (* enough *)
    assert (bg_free_blocks s bg <> 0) by lia. rewrite (proj2 (Z.eqb_neq _ 0)) by done. simpl.
    exists blks, s1. split; [done|]. split; [done|]. split; [done|]. lia.
  - rewrite andb_false_r. fold G. destruct k as [|k].
    + (* back at the first group *)
      rewrite (proj2 (Z.eqb_eq _ _)) by (rewrite <- Hlast; f_equal; lia).
      exists blks, s1. split; [done|]. split; [done|]. split; [done|]. subst rest. simpl. lia.
    + rewrite (proj2 (Z.eqb_neq _ next)); [|rewrite <- (Z.add_0_r 1); apply (Hne 1%nat); lia].
      destruct (IH s1 ino ((bg + 1) mod G) next (num - Z.of_nat (length blks)) (acc ++ blks))
        as (blks' & s2 & -> & S2 & Hh2 & Hlen2); rewrite ?Hn; try done; try lia.
      * apply S1.
      * intros i Hi'. fold G. rewrite Zplus_mod_idemp_l.
        replace (bg + 1 + Z.of_nat i) with (bg + Z.of_nat (S i)) by lia. apply Hne. lia.
      * fold G. rewrite Zplus_mod_idemp_l, <- Hlast. f_equal. lia.
      * exists (blks ++ blks'), s2. split; [by rewrite app_assoc|].
        split; [by eapply alloc_step_app|]. split; [done|].
        rewrite length_app. rewrite Hn in Hlen2. fold G rest in Hlen2. lia.
Qed.

(** nvfuse_alloc_free_block visits every group, from the one its hint names. *)
Lemma alloc_free_block_search s ino num :
  inv s -> hint_ok s -> 0 <= ino < sb_bg_num (fs_sb s) * sb_no_of_inodes_per_bg (fs_sb s) ->
  1 <= num < 2 ^ 32 ->
  exists bg blks s', nvfuse_alloc_free_block true ino num s =
      (massert (negb (bool_decide (blks = [])));; mret blks) s' /\
    alloc_free_block_loop true (Z.to_nat (sb_bg_num (fs_sb s))) ino bg bg num [] s = Some (blks, s') /\
    alloc_step s s' blks /\ hint_ok s' /\
    Z.of_nat (length blks) = Z.min num (sb_free_blocks (fs_sb s)).
Proof.
  intros Hinv Hh Hino Hnum. unfold nvfuse_alloc_free_block, mgets.
  unfold mbind at 1, M_bind at 1.
  destruct (inv_geo s Hinv) as [_ Hi Hb _ _ Hi31]. set (G := sb_bg_num (fs_sb s)) in *.
  match goal with |- context [alloc_free_block_loop _ _ _ (if ?c then ?x else ?y) _ _ _] =>
    set (bg := if c then x else y) end.
  assert (0 <= bg < G) as Hbg.
  { unfold hint_ok in Hh. fold G in Hh. subst bg. destruct (_ && _).
    - rewrite u32_small by nia. done.
    - split; [apply Z.div_pos; lia|]. apply Z.div_lt_upper_bound; lia. }
  destruct (alloc_free_block_loop_run (Z.to_nat G) s ino bg bg num [])
    as (blks & s' & Hs' & S' & Hh' & Hlen); try done; fold G; try lia.
  { rewrite groups_from_all by done. apply NoDup_range. }
  { intros i Hi' E. rewrite <- (Z.mod_small bg G) in E at 2 by done.
    rewrite <- (Z.add_0_r bg) in E at 2. apply mod_shift_inj in E; lia. }
  { rewrite Z2Nat.id by lia. rewrite <- (Z.mod_small bg G) at 2 by done.
    rewrite <- (Z.mul_1_l G) at 1. by rewrite Z.mod_add by lia. }
  rewrite (Zsum_perm _ _ _ (groups_from_all G bg Hbg)) in Hlen.
  pose proof (inv_free_blocks s Hinv) as Hsum. fold G in Hsum. rewrite <- Hsum in Hlen.
  exists bg, blks, s'. split; [|done]. unfold mbind at 1, M_bind at 1. by rewrite Hs'.
Qed.

(** nvfuse_alloc_free_block: as many fresh blocks as asked for or as the file
    system has left. *)
Lemma alloc_free_block_run s ino num :
  inv s -> hint_ok s -> 0 <= ino < sb_bg_num (fs_sb s) * sb_no_of_inodes_per_bg (fs_sb s) ->
  1 <= num < 2 ^ 32 -> 1 <= sb_free_blocks (fs_sb s) ->
  exists blks s', nvfuse_alloc_free_block true ino num s = Some (blks, s') /\
    alloc_step s s' blks /\ hint_ok s' /\
    Z.of_nat (length blks) = Z.min num (sb_free_blocks (fs_sb s)).
Proof.
  intros Hinv Hh Hino Hnum Hfree.
  destruct (alloc_free_block_search s ino num Hinv Hh Hino Hnum) as (bg & blks & s' & -> & _ & S' & Hh' & Hlen).
  exists blks, s'. split; [|done]. unfold mbind, M_bind, massert.
  rewrite bool_decide_eq_false_2; [done|]. intros ->. simpl in Hlen. lia.
Qed.

(** nvfuse_alloc_free_blocks: the branch and the direct map are disjoint. *)
Lemma alloc_free_blocks_run s ino nind num :
  inv s -> hint_ok s -> 0 <= ino < sb_bg_num (fs_sb s) * sb_no_of_inodes_per_bg (fs_sb s) ->
  0 <= nind -> 1 <= num -> nind + num < 2 ^ 31 -> nind + num <= sb_free_blocks (fs_sb s) ->
  exists blocks direct s', nvfuse_alloc_free_blocks true ino nind num s = Some ((blocks, direct), s') /\
    alloc_step s s' (blocks ++ direct) /\ hint_ok s' /\
    Z.of_nat (length blocks) = nind + 1 /\ Z.of_nat (length direct) = num - 1.
Proof.
  intros Hinv Hh Hino Hni Hnum Hsum Hfree. unfold nvfuse_alloc_free_blocks.
  rewrite (proj2 (Z.eqb_neq (nind + 1) 0)) by lia. simpl negb. cbv iota.
  destruct (alloc_free_block_run s ino (nind + 1)) as (blks & s1 & H1 & S1 & Hh1 & Hl1); try done; try lia.
  unfold mbind, M_bind. rewrite H1, (proj2 (Z.eqb_eq _ (nind + 1))) by lia. simpl.
  destruct (Z.eqb_spec (num - 1) 0) as [E|E]; simpl.
  - exists blks, [], s1. split; [done|]. rewrite app_nil_r. split; [done|]. split; [done|]. simpl. lia.
  - destruct (fr_geo _ _ (as_frame _ _ _ S1)) as (_ & Hi & Hn & _).
    pose proof (as_free _ _ _ S1) as Hc.
    destruct (alloc_free_block_run s1 ino (num - 1)) as (blks' & s2 & H2 & S2 & Hh2 & Hl2);
      rewrite ?Hi, ?Hn; try done; try lia; [apply S1|].
    rewrite H2, (proj2 (Z.eqb_eq _ (num - 1))) by lia. simpl.
    exists blks, blks', s2. split; [done|]. split; [by eapply alloc_step_app|]. split; [done|]. lia.
Qed.

End AllocSpec.
