(* ===== verification/InodeSpec.v ===== *)
(** * Correctness of inode allocation

    The search for a free inode is complete (it fails only when every inode it
    visits is in use), an allocation takes one unused inode, resets its table
    entry and keeps the allocator invariant, and deleting an inode is its
    inverse on the set of used inodes. *)
From S2P Require Import Prelude Bitmap Layout BgList Alloc AllocSpec.
Import Alloc AllocSpec.

Module InodeSpec.

Definition per_ig (s : fs) : Z := sb_no_of_inodes_per_bg (fs_sb s).
Definition ino_used (s : fs) (ino : Z) : bool :=
  match fs_ibitmap s !! (ino / per_ig s) with Some ib => bit ib (ino mod per_ig s) | None => true end.

(** The table entry nvfuse_alloc_new_inode writes. *)
Definition fresh_inode (ino : Z) : nvfuse_inode :=
  mk_inode ino 0 0 0 1 0 0 0 0 0 0 0 0 0 0 (repeat 0 14).

(** What neither changes: geometry, data blocks and their counters. *)
Record iframe (s s' : fs) : Prop := {
  if_geo : same_geo (fs_sb s) (fs_sb s');
  if_data : forall bg, data_start s' bg = data_start s bg;
  if_dbitmap : fs_dbitmap s' = fs_dbitmap s;
  if_bgl : fs_bgl s' = fs_bgl s;
  if_free_blocks : sb_free_blocks (fs_sb s') = sb_free_blocks (fs_sb s);
  if_used_blocks : sb_no_of_used_blocks (fs_sb s') = sb_no_of_used_blocks (fs_sb s) }.

(** The abstract transitions on the set of used inodes. *)
Record ialloc_step (s s' : fs) (ino : Z) : Prop := {
  ia_inv : inv s';
  ia_frame : iframe s s';
  ia_range : 0 < ino < sb_bg_num (fs_sb s) * per_ig s;
  ia_fresh : ino_used s ino = false;
  ia_used : forall i, 0 <= i -> ino_used s' i = ino_used s i || bool_decide (i = ino);
  ia_free : sb_free_inodes (fs_sb s') = sb_free_inodes (fs_sb s) - 1;
  ia_table : fs_itable s' = <[ino := fresh_inode ino]> (fs_itable s) }.

Record ifree_step (s s' : fs) (ino : Z) : Prop := {
  ir_inv : inv s';
  ir_frame : iframe s s';
  ir_used : forall i, 0 <= i -> ino_used s' i = ino_used s i && negb (bool_decide (i = ino));
  ir_free : sb_free_inodes (fs_sb s') = sb_free_inodes (fs_sb s) + 1;
  ir_table : forall i, i <> ino -> fs_itable s' !! i = fs_itable s !! i;
  ir_deleted : (i_ino <$> fs_itable s' !! ino) = Some 0 /\ (i_deleted <$> fs_itable s' !! ino) = Some 1 }.

(** ** The bitmap search *)

Lemma ibitmap_search_spec B per buf n : forall fi,
  wf_block B buf -> 0 < per <= 8 * B -> per < 2 ^ 32 -> 0 <= fi < per ->
  exists r, ibitmap_search n per buf fi = Some r /\
    match r with
    | Some o => o ∈ groups_from per fi n /\ bit buf o = false
    | None => forall o, o ∈ groups_from per fi n -> bit buf o = true
    end.
Proof.
  induction n as [|n IH]; intros fi Hwf Hper Hbig Hfi.
  - exists None. split; [done|]. by intros o ?%not_elem_of_nil.
  - simpl ibitmap_search. destruct (test_bit_spec B buf fi) as (t & -> & Ht); [done|lia|]. simpl.
    rewrite Ht, groups_from_S by done. destruct (bit buf fi) eqn:E; simpl negb; cbv iota.
    + rewrite u32_small by lia.
      destruct (IH ((fi + 1) mod per)) as (r & -> & Hr); try done; [apply Z.mod_pos_bound; lia|].
      exists r. split; [done|]. destruct r as [o|].
      * destruct Hr. split; [|done]. apply elem_of_cons. by right.
      * intros o [->|Ho]%elem_of_cons; [done|by apply Hr].
    + exists (Some fi). split; [done|]. split; [|done]. apply elem_of_cons. by left.
Qed.

(** A group with a free inode: the search finds one and marks it. *)
Lemma scan_free_ibitmap_run s bg hint :
  inv s -> 0 <= bg < sb_bg_num (fs_sb s) -> 0 <= hint < per_ig s ->
  if bg_free_inodes s bg =? 0 then nvfuse_scan_free_ibitmap bg hint s = Some (0, s)
  else exists o ib ib', 0 <= o < per_ig s /\ bg * per_ig s + o <> 0 /\
    fs_ibitmap s !! bg = Some ib /\ wf_block CLUSTER_SIZE ib' /\ bit ib o = false /\
    (forall j, 0 <= j -> bit ib' j = if decide (j = o) then true else bit ib j) /\
    nvfuse_scan_free_ibitmap bg hint s =
      Some (bg * per_ig s + o, mark_dirty IBITMAP_INO bg (set_ibitmap bg ib' s)).
Proof.
  intros Hinv Hbg Hh. destruct (inv_group s bg Hinv Hbg) as (d & ib & db & Hd & Hib & _ & Hok & _).
  destruct (inv_geo s Hinv) as [_ Hgi Hgb _ _ Hino].
  unfold bg_free_inodes. rewrite Hd. simpl from_option.
  unfold nvfuse_scan_free_ibitmap, mbind, M_bind, mgets, get_bd, get_ibitmap, mlift, massert.
  change (sb_no_of_inodes_per_bg (fs_sb s)) with (per_ig s) in *.
  rewrite Hd, (bo_id _ _ _ _ _ Hok), Z.eqb_refl, Hib. cbv beta iota zeta.
  destruct (Z.eqb_spec (bd_free_inodes d) 0) as [E|E]; [done|].
  unfold CLUSTER_SIZE in *.
  destruct (ibitmap_search_spec (4 * 1024) (per_ig s) ib (Z.to_nat (per_ig s)) hint) as (r & -> & Hr);
    [apply Hok|lia..|].
  pose proof (groups_from_all (per_ig s) hint Hh) as Hperm. destruct r as [o|].
  - destruct Hr as [Ho Hbit]. rewrite Hperm, elem_of_range in Ho.
    destruct (set_bit_spec (4 * 1024) ib o) as (v & ib' & Hset & Hwf & _ & Hb); [apply Hok|lia|].
    assert (bg * per_ig s + o <> 0) as Hnz.
    { intros Hz. assert (bg = 0 /\ o = 0) as [-> ->] by nia.
      destruct (inv_ino0 s Hinv) as (ib0 & H0 & Hb0). congruence. }
    exists o, ib, ib'. split; [done|]. split; [done|]. split; [done|]. split; [done|]. split; [done|].
    split; [done|]. rewrite (proj2 (Z.ltb_lt o (per_ig s))), Hset by lia. cbv beta iota.
    unfold mmodify, mret, M_ret. rewrite (bo_maxi _ _ _ _ _ Hok).
    change (sb_no_of_inodes_per_bg (fs_sb s)) with (per_ig s).
    rewrite u32_small by nia. by rewrite Z.add_comm.
  - exfalso. apply E. rewrite (bo_fi _ _ _ _ _ Hok). apply free_in_full. intros o Ho.
    apply Hr. rewrite Hperm. by apply elem_of_range.
Qed.

(** An unused inode [ino] was marked in its bitmap and nothing else changed. *)
Definition marked (s s' : fs) (ino : Z) : Prop :=
  exists bg o ib ib', 0 <= bg < sb_bg_num (fs_sb s) /\ 0 <= o < per_ig s /\
    ino = bg * per_ig s + o /\ ino <> 0 /\
    fs_ibitmap s !! bg = Some ib /\ wf_block CLUSTER_SIZE ib' /\ bit ib o = false /\
    (forall j, 0 <= j -> bit ib' j = if decide (j = o) then true else bit ib j) /\
    s' = mark_dirty IBITMAP_INO bg (set_ibitmap bg ib' s).

Lemma bg_free_inodes_nonneg s bg : inv s -> 0 <= bg < sb_bg_num (fs_sb s) -> 0 <= bg_free_inodes s bg.
Proof.
  intros Hinv Hbg. destruct (inv_group s bg Hinv Hbg) as (d & ib & db & Hd & _).
  destruct (inv_free_le s bg d Hinv Hbg Hd). unfold bg_free_inodes. rewrite Hd. simpl. lia.
Qed.

(** The loop over the groups finds an inode when one of them has one. *)
Lemma find_free_inode_loop_run s k : forall bg last hint,
  inv s -> 0 <= bg < sb_bg_num (fs_sb s) -> 0 <= hint < per_ig s ->
  (forall i, (0 < i < k)%nat -> (bg + Z.of_nat i) mod sb_bg_num (fs_sb s) <> last) ->
  1 <= Zsum (bg_free_inodes s) (groups_from (sb_bg_num (fs_sb s)) bg k) ->
  exists ino s', find_free_inode_loop k bg last hint s = Some (ino, s') /\ marked s s' ino.
Proof.
  induction k as [|k IH]; intros bg last hint Hinv Hbg Hh Hne Hsum; [simpl in Hsum; lia|].
  rewrite groups_from_S in Hsum by done. simpl Zsum in Hsum. simpl find_free_inode_loop.
  unfold mbind at 1, M_bind at 1.
  destruct (inv_geo s Hinv) as [_ Hgi Hgb _ _ Hino].
  pose proof (scan_free_ibitmap_run s bg hint Hinv Hbg Hh) as Hscan.
  destruct (Z.eqb_spec (bg_free_inodes s bg) 0) as [E|E].
  - rewrite Hscan. simpl. unfold mbind, M_bind, mgets. rewrite u32_small by nia.
    destruct k as [|k]; [simpl in Hsum; lia|].
    rewrite (proj2 (Z.eqb_neq _ last)); [|apply (Hne 1%nat); lia].
    apply IH; try done; try lia.
    + apply Z.mod_pos_bound. lia.
    + intros i Hi. rewrite Zplus_mod_idemp_l.
      replace (bg + 1 + Z.of_nat i) with (bg + Z.of_nat (S i)) by lia. apply Hne. lia.
  - destruct Hscan as (o & ib & ib' & Ho & Hnz & Hib & Hwf & Hbit & Hb & ->).
    rewrite (proj2 (Z.eqb_neq _ 0)) by done. simpl. eexists _, _. split; [done|].
    exists bg, o, ib, ib'. done.
Qed.

Lemma find_free_inode_run s last :
  inv s -> 0 <= last < sb_bg_num (fs_sb s) * per_ig s -> 1 <= sb_free_inodes (fs_sb s) ->
  exists ino s', nvfuse_find_free_inode true last s = Some (ino, s') /\ marked s s' ino.
Proof.
  intros Hinv Hl Hfree. destruct (inv_geo s Hinv) as [_ Hgi Hgb _ _ Hino].
  change (sb_no_of_inodes_per_bg (fs_sb s)) with (per_ig s) in *.
  assert (0 <= last / per_ig s < sb_bg_num (fs_sb s)) as Hbg.
  { split; [apply Z.div_pos; lia|]. apply Z.div_lt_upper_bound; lia. }
  unfold nvfuse_find_free_inode, mbind, M_bind, mget. simpl.
  change (sb_no_of_inodes_per_bg (fs_sb s)) with (per_ig s).
  apply find_free_inode_loop_run; try done.
  - apply Z.mod_pos_bound. lia.
  - intros i Hi E. rewrite <- (Z.mod_small (last / per_ig s) (sb_bg_num (fs_sb s))) in E at 2 by done.
    rewrite <- (Z.add_0_r (last / per_ig s)) in E at 2. apply mod_shift_inj in E; lia.
  - rewrite (Zsum_perm _ _ _ (groups_from_all _ _ Hbg)), <- (inv_free_inodes s Hinv). done.
Qed.

(** nvfuse_dec_free_inodes and nvfuse_inc_free_inodes where their assertions hold. *)
Lemma dec_free_inodes_run s bg ino d :
  ino / per_ig s = bg -> fs_bd s !! bg = Some d -> bd_id d = bg ->
  1 <= bd_free_inodes d < 2 ^ 32 -> 1 <= sb_free_inodes (fs_sb s) < 2 ^ 31 ->
  nvfuse_dec_free_inodes true ino s =
  Some (tt, mark_dirty BD_INO bg (set_sb (sb_add_inodes true (-1) (fs_sb s))
              (set_bd bg (set_bd_free_inodes (bd_free_inodes d - 1) d) s))) /\
  sb_free_inodes (sb_add_inodes true (-1) (fs_sb s)) = sb_free_inodes (fs_sb s) - 1.
Proof.
  intros Hbg Hd Hid Hf Hs. split; [|simpl; rewrite s32_small; lia].
  unfold nvfuse_dec_free_inodes, mbind, M_bind, mgets, get_bd, mlift, massert, mmodify.
  change (sb_no_of_inodes_per_bg (fs_sb s)) with (per_ig s).
  rewrite Hbg, Hd, Hid, Z.eqb_refl. rewrite u32_small by lia. cbn [bd_free_inodes set_bd_free_inodes].
  by rewrite (proj2 (Z.leb_le _ _)) by lia.
Qed.

Lemma inc_free_inodes_run s bg ino d :
  ino / per_ig s = bg -> fs_bd s !! bg = Some d -> bd_id d = bg ->
  0 <= bd_free_inodes d < bd_max_inodes d -> bd_max_inodes d < 2 ^ 32 ->
  0 <= sb_free_inodes (fs_sb s) < 2 ^ 31 - 1 ->
  nvfuse_inc_free_inodes true ino s =
  Some (tt, mark_dirty BD_INO bg (set_sb (sb_add_inodes true 1 (fs_sb s))
              (set_bd bg (set_bd_free_inodes (bd_free_inodes d + 1) d) s))) /\
  sb_free_inodes (sb_add_inodes true 1 (fs_sb s)) = sb_free_inodes (fs_sb s) + 1.
Proof.
  intros Hbg Hd Hid Hf Hm Hs. split; [|simpl; rewrite s32_small; lia].
  unfold nvfuse_inc_free_inodes, mbind, M_bind, mgets, get_bd, mlift, massert, mmodify.
  change (sb_no_of_inodes_per_bg (fs_sb s)) with (per_ig s).
  rewrite Hbg, Hd, Hid, Z.eqb_refl. rewrite u32_small by lia. cbn [bd_free_inodes set_bd_free_inodes bd_max_inodes].
  by rewrite (proj2 (Z.leb_le _ _)) by lia.
Qed.

(** The superblock counter never exceeds the number of inodes. *)
Lemma free_inodes_le s : inv s -> 0 <= sb_free_inodes (fs_sb s) <= sb_bg_num (fs_sb s) * per_ig s.
Proof.
  intros Hinv. destruct (inv_geo s Hinv) as [_ Hgi Hgb _ _ Hino]. rewrite (inv_free_inodes s Hinv). split.
  - apply Zsum_nonneg. intros x Hx%elem_of_range. by apply bg_free_inodes_nonneg.
  - etrans; [apply (Zsum_le _ (fun _ => per_ig s))|].
    + intros x Hx%elem_of_range. destruct (inv_group s x Hinv Hx) as (d & ib & db & Hd & _ & _ & Hok & _).
      destruct (bg_ok_bounds _ _ _ _ _ (inv_geo s Hinv) Hok) as (_ & _ & ?).
      unfold bg_free_inodes. rewrite Hd. simpl. unfold per_ig. lia.
    + rewrite Zsum_const, length_range by lia. lia.
Qed.

(** Changing one bit of one inode bitmap changes one inode. *)
Lemma ino_used_update s s' bg o ib ib' (v : bool) :
  0 <= o < per_ig s -> fs_ibitmap s !! bg = Some ib ->
  fs_ibitmap s' = <[bg := ib']> (fs_ibitmap s) -> same_geo (fs_sb s) (fs_sb s') ->
  (forall j, 0 <= j -> bit ib' j = if decide (j = o) then v else bit ib j) ->
  forall i, 0 <= i ->
    ino_used s' i = if bool_decide (i = bg * per_ig s + o) then v else ino_used s i.
Proof.
  intros Ho Hib E (_ & Hi & _) Hb i Hi0. unfold ino_used, per_ig in *. rewrite Hi, E.
  set (n := sb_no_of_inodes_per_bg (fs_sb s)) in *.
  pose proof (Z.div_mod i n ltac:(lia)). pose proof (Z.mod_pos_bound i n ltac:(lia)).
  destruct (decide (i / n = bg)) as [Eb|Eb].
  - rewrite Eb, lookup_insert_eq, Hib, Hb by lia. case_decide; case_bool_decide; try done; exfalso; nia.
  - rewrite lookup_insert_ne by done. rewrite bool_decide_eq_false_2; [done|]. intros ->.
    destruct (block_split n bg o Ho). done.
Qed.

Lemma free_in_set1 buf buf' lo hi o : 0 <= lo -> lo <= o < hi -> bit buf o = false ->
  (forall j, 0 <= j -> bit buf' j = if decide (j = o) then true else bit buf j) ->
  free_in buf' lo hi = free_in buf lo hi - 1.
Proof.
  intros Hlo Ho Hf Hb. rewrite (free_in_set buf buf' lo hi [o]); [done|done|apply NoDup_singleton| |].
  - by intros x ->%list_elem_of_singleton.
  - intros j Hj. rewrite Hb by done. rewrite <- or_elem_cons. simpl. by rewrite orb_false_r.
Qed.

Lemma free_in_clear1 buf buf' lo hi o : 0 <= lo -> lo <= o < hi -> bit buf o = true ->
  (forall j, 0 <= j -> bit buf' j = if decide (j = o) then false else bit buf j) ->
  free_in buf' lo hi = free_in buf lo hi + 1.
Proof.
  intros Hlo Ho Hf Hb. rewrite (free_in_clear buf buf' lo hi [o]); [done|done|apply NoDup_singleton| |].
  - by intros x ->%list_elem_of_singleton.
  - intros j Hj. rewrite Hb by done. case_decide as E.
    + subst. rewrite bool_decide_eq_true_2, andb_false_r; [done|]. by apply list_elem_of_singleton.
    + rewrite bool_decide_eq_false_2, andb_true_r; [done|]. by rewrite list_elem_of_singleton.
Qed.

(** From the changed bit and counters of one group to the invariant. *)
Lemma ibitmap_step s s' bg o d ib db d' ib' (v : bool) :
  inv s -> 0 <= bg < sb_bg_num (fs_sb s) -> 0 <= o < per_ig s ->
  fs_bd s !! bg = Some d -> fs_ibitmap s !! bg = Some ib -> fs_dbitmap s !! bg = Some db ->
  wf_block CLUSTER_SIZE ib' -> bit ib o = negb v -> (bg * per_ig s + o <> 0) ->
  (forall j, 0 <= j -> bit ib' j = if decide (j = o) then v else bit ib j) ->
  d' = set_bd_free_inodes (bd_free_inodes d + (if v then -1 else 1)) d ->
  fs_bd s' = <[bg := d']> (fs_bd s) -> fs_ibitmap s' = <[bg := ib']> (fs_ibitmap s) ->
  fs_dbitmap s' = fs_dbitmap s -> fs_bgl s' = fs_bgl s ->
  same_geo (fs_sb s) (fs_sb s') ->
  sb_free_blocks (fs_sb s') = sb_free_blocks (fs_sb s) ->
  sb_no_of_used_blocks (fs_sb s') = sb_no_of_used_blocks (fs_sb s) ->
  sb_free_inodes (fs_sb s') = sb_free_inodes (fs_sb s) + (if v then -1 else 1) ->
  inv s' /\ iframe s s'.
Proof.
  intros Hinv Hbg Ho Hd Hib Hdb Hwf Hbit Hnz Hb Ed Ebd Eib Edb Ebgl Hgeo Hfb Hu Hfi.
  destruct (inv_group s bg Hinv Hbg) as (d0 & ib0 & db0 & Hd0 & Hib0 & Hdb0 & Hok & _). simplify_eq.
  pose proof (inv_used s Hinv). split.
  - eapply (inv_update s s' bg d ib db _ ib' db); try done; try lia.
    + rewrite Edb. by apply insert_same.
    + destruct Hok. split; simpl; try done. rewrite bo_fi0. destruct v; simpl in *.
      * symmetry. apply (free_in_set1 _ _ _ _ o); try done.
      * symmetry. apply (free_in_clear1 _ _ _ _ o); try done.
    + simpl. lia.
    + simpl. lia.
    + intros -> H0. rewrite Hb by lia. case_decide; [nia|done].
  - split; try done. intros b. destruct Hgeo as (Hn & _). unfold data_start, per_bg. rewrite Hn, Ebd.
    destruct (decide (b = bg)) as [->|]; [by rewrite lookup_insert_eq, Hd|by rewrite lookup_insert_ne].
Qed.

(** nvfuse_alloc_new_inode allocates one unused inode. *)
Lemma alloc_new_inode_run s :
  inv s -> 0 <= sb_last_allocated_ino (fs_sb s) < sb_bg_num (fs_sb s) * per_ig s ->
  1 <= sb_free_inodes (fs_sb s) ->
  exists ino s', nvfuse_alloc_new_inode true s = Some (ino, s') /\ ialloc_step s s' ino /\
    sb_last_allocated_ino (fs_sb s') = ino + 1.
Proof.
  intros Hinv Hl Hfree. destruct (inv_geo s Hinv) as [_ Hgi Hgb _ _ Hino].
  change (sb_no_of_inodes_per_bg (fs_sb s)) with (per_ig s) in *.
  destruct (find_free_inode_run s (sb_last_allocated_ino (fs_sb s)) Hinv Hl Hfree)
    as (ino & s1 & Hfind & bg & o & ib & ib' & Hbg & Ho & Eino & Hnz & Hib & Hwf & Hbit & Hb & Es1).
  destruct (inv_group s bg Hinv Hbg) as (d & ib0 & db & Hd & Hib0 & Hdb & Hok & _). simplify_eq.
  destruct (block_split (per_ig s) bg o Ho) as [Eq Em].
  assert (1 <= bd_free_inodes d) as Hpos.
  { rewrite (bo_fi _ _ _ _ _ Hok). apply (Zcount_pos _ _ o); [by apply elem_of_range|by rewrite Hbit]. }
  destruct (bg_ok_bounds _ _ _ _ _ (inv_geo s Hinv) Hok) as (_ & _ & Hub).
  change (sb_no_of_inodes_per_bg (fs_sb s)) with (per_ig s) in *.
  pose proof (free_inodes_le s Hinv).
  set (ino := bg * per_ig s + o) in *. set (s1 := mark_dirty IBITMAP_INO bg (set_ibitmap bg ib' s)) in *.
  destruct (dec_free_inodes_run s1 bg ino d) as [Hdec Hcnt]; simpl; try done; try (unfold CLUSTER_SIZE in *; lia).
  { apply Hok. }
  set (s2 := mark_dirty ITABLE_INO ino (set_itable ino (fresh_inode ino)
      (mark_dirty BD_INO bg (set_sb (sb_add_inodes true (-1) (fs_sb s1))
              (set_bd bg (set_bd_free_inodes (bd_free_inodes d - 1) d) s1))))).
  set (s3 := set_sb (sb_set_last_ino (ino + 1) (fs_sb s2)) s2).
  exists ino, s3. split; [|split].
  - unfold nvfuse_alloc_new_inode, mbind, M_bind, mgets. rewrite u32_small by lia. rewrite Hfind.
    rewrite (proj2 (Z.eqb_neq ino 0)) by done.
    change INODE_ENTRY_NUM with 1. rewrite Z.div_1_r, Z.mod_1_r, Z.mul_1_r, Z.add_0_l.
    rewrite (u32_small ino) by (subst ino; nia). cbv zeta. rewrite Hdec. reflexivity.
  - destruct (ibitmap_step s s3 bg o d ib db
      (set_bd_free_inodes (bd_free_inodes d - 1) d) ib' true) as [Hi Hf]; try done.
    split; try done.
    + subst ino; nia.
    + unfold ino_used. fold (per_ig s). rewrite Eq, Em, Hib. done.
    + intros i Hi0. rewrite (ino_used_update s s3 bg o ib ib' true) by done. fold ino.
      case_bool_decide; [by rewrite orb_true_r|by rewrite orb_false_r].
  - simpl. rewrite s32_small; subst ino; nia.
Qed.

(** nvfuse_relocate_delete_inode releases a used inode. *)
Lemma relocate_delete_inode_run s ino inode :
  inv s -> 0 < ino < sb_bg_num (fs_sb s) * per_ig s -> ino_used s ino = true ->
  fs_itable s !! ino = Some inode ->
  exists s', nvfuse_relocate_delete_inode true ino s = Some (0, s') /\ ifree_step s s' ino.
Proof.
  intros Hinv Hino Hused Hit. destruct (inv_geo s Hinv) as [_ Hgi Hgb _ _ Hmax].
  change (sb_no_of_inodes_per_bg (fs_sb s)) with (per_ig s) in *. unfold CLUSTER_SIZE in *.
  set (bg := ino / per_ig s) in *. set (o := ino mod per_ig s) in *.
  assert (0 <= bg < sb_bg_num (fs_sb s)) as Hbg.
  { split; [apply Z.div_pos; lia|]. apply Z.div_lt_upper_bound; lia. }
  assert (0 <= o < per_ig s) as Ho by (apply Z.mod_pos_bound; lia).
  assert (ino = bg * per_ig s + o) as Eino by (subst bg o; pose proof (Z.div_mod ino (per_ig s)); lia).
  destruct (inv_group s bg Hinv Hbg) as (d & ib & db & Hd & Hib & Hdb & Hok & _).
  assert (bit ib o = true) as Hbit.
  { unfold ino_used in Hused. fold bg in Hused. by rewrite Hib in Hused. }
  destruct (clear_bit_spec (4 * 1024) ib o) as (v & ib' & Hclr & Hwf & _ & Hb); [apply Hok|lia|].
  destruct (test_bit_spec (4 * 1024) ib o) as (tb & Htest & Ht); [apply Hok|lia|].
  rewrite Hbit in Ht. simpl in Ht.
  assert (free_in ib' 0 (per_ig s) = bd_free_inodes d + 1) as Hfree.
  { rewrite (bo_fi _ _ _ _ _ Hok). by apply (free_in_clear1 _ _ _ _ o). }
  pose proof (free_in_bounds ib' 0 (per_ig s) ltac:(lia)).
  pose proof (free_in_bounds ib 0 (per_ig s) ltac:(lia)) as Hb0.
  pose proof (free_inodes_le s Hinv). pose proof (bo_fi _ _ _ _ _ Hok) as Hfi.
  change (sb_no_of_inodes_per_bg (fs_sb s)) with (per_ig s) in *.
  pose proof (bo_maxi _ _ _ _ _ Hok) as Hmi. change (sb_no_of_inodes_per_bg (fs_sb s)) with (per_ig s) in *.
  set (i1 := mk_inode 0 (i_type inode) 0 (i_bpino inode) (i_version inode) 1 (i_links_count inode)
       (i_ptr inode) (i_atime inode) (i_ctime inode) (i_mtime inode) (i_dtime inode)
       (i_gid inode) (i_uid inode) (i_mode inode) (i_blocks inode)).
  set (s1 := mark_dirty ITABLE_INO ino (set_itable ino i1 s)).
  destruct (inc_free_inodes_run s1 bg ino d) as [Hinc Hcnt]; try done; try (simpl; lia).
  { apply Hok. }
  set (d' := set_bd_free_inodes (bd_free_inodes d + 1) d) in *.
  set (s2 := mark_dirty BD_INO bg (set_sb (sb_add_inodes true 1 (fs_sb s1)) (set_bd bg d' s1))) in *.
  set (s3 := mark_dirty IBITMAP_INO bg (set_ibitmap bg ib' s2)).
  exists s3. split.
  - unfold nvfuse_relocate_delete_inode, mbind, M_bind, mget, mlift, mmodify. rewrite Hit.
    change INODE_ENTRY_NUM with 1. rewrite Z.div_1_r. cbv beta iota. fold i1 s1. rewrite Hinc.
    unfold mgets. cbv beta iota. change (sb_no_of_inodes_per_bg (fs_sb s2)) with (per_ig s). fold bg.
    unfold nvfuse_release_ibitmap, mbind, M_bind, get_bd, get_ibitmap, mlift, massert, mmodify.
    assert (fs_bd s2 !! bg = Some d') as -> by apply lookup_insert_eq.
    change (bd_id d') with (bd_id d). rewrite (bo_id _ _ _ _ _ Hok), Z.eqb_refl.
    change (fs_ibitmap s2) with (fs_ibitmap s). rewrite Hib.
    change (bd_max_inodes d') with (bd_max_inodes d). rewrite Hmi. cbv beta iota zeta. fold o.
    rewrite Htest, Ht, Hclr. reflexivity.
  - destruct (ibitmap_step s s3 bg o d ib db d' ib' false) as [Hi Hf]; try done; [lia|].
    split; try done.
    + intros i Hi0. rewrite (ino_used_update s s3 bg o ib ib' false) by done. rewrite <- Eino.
      case_bool_decide; [by rewrite andb_false_r|by rewrite andb_true_r].
    + intros i Hne. simpl. by rewrite lookup_insert_ne.
    + simpl. by rewrite lookup_insert_eq.
Qed.

End InodeSpec.
