(* ===== verification/Demo.v ===== *)
(** * A small file system the examples run on

    Two groups of 16 blocks and 8 inodes each; the first four blocks of a group
    are metadata, inodes 0 to 2 are reserved, inode 2 is the root directory and
    owns block 4.  It satisfies the allocator invariant. *)
From S2P Require Import Prelude Bitmap Layout BgList Alloc AllocSpec.
Import Alloc AllocSpec.

Module Demo.

Definition block (b0 b1 : Z) : list Z := b0 :: b1 :: repeat 0 (Z.to_nat (CLUSTER_SIZE - 2)).

Definition bd (bg fi fb : Z) : nvfuse_bg_descriptor :=
  mk_bd NVFUSE_BD_MAGIC 0 bg (bg * 16) (bg * 16 + 1) 8 16 (bg * 16 + 2) 1 (bg * 16 + 3) 1 0 0
    (bg * 16 + 4) 12 fi fb 0.

Definition sb : nvfuse_superblock :=
  mk_sb NVFUSE_SB_SIGNATURE 256 32 1 8 16 ROOT_INO 13 23 2 FS_STATE_MOUNTED 0 0 0 asb_zero 0 0 0.

Definition root : nvfuse_inode :=
  mk_inode ROOT_INO NVFUSE_TYPE_DIRECTORY 4096 0 1 0 2 1 0 0 0 0 0 0 16768 (4 :: repeat 0 13).

Definition demo : fs :=
  {| fs_sb := sb;
     fs_bd := {[ 0 := bd 0 5 11; 1 := bd 1 8 12 ]};
     fs_ibitmap := {[ 0 := block 0x07 0; 1 := block 0 0 ]};
     fs_dbitmap := {[ 0 := block 0x1F 0; 1 := block 0x0F 0 ]};
     fs_itable := {[ 2 := root ]};
     fs_bgl := BgList.init; fs_dirty := ∅ |}.

Lemma block_wf b0 b1 : is_u8 b0 -> is_u8 b1 -> wf_block CLUSTER_SIZE (block b0 b1).
Proof.
  intros H0 H1. split.
  - unfold block. rewrite !length_cons, repeat_length. done.
  - constructor; [done|]. constructor; [done|]. apply Forall_forall.
    intros x Hx%list_elem_of_In%repeat_spec. subst. unfold is_u8. lia.
Qed.

Lemma demo_inv : inv demo.
Proof.
  split.
  - split; unfold CLUSTER_SIZE; simpl; lia.
  - intros bg Hbg. assert (bg = 0 \/ bg = 1) as [->| ->] by (simpl in Hbg; lia).
    + exists (bd 0 5 11), (block 0x07 0), (block 0x1F 0). split; [done|]. split; [done|]. split; [done|].
      split; try (apply block_wf; unfold is_u8; lia); try reflexivity. left. reflexivity.
    + exists (bd 1 8 12), (block 0 0), (block 0x0F 0). split; [done|]. split; [done|]. split; [done|].
      split; try (apply block_wf; unfold is_u8; lia); try reflexivity. left. reflexivity.
  - reflexivity.
  - reflexivity.
  - simpl. lia.
  - exists (block 0x07 0). done.
Qed.

Lemma demo_hint : hint_ok demo.
Proof. unfold hint_ok. simpl. lia. Qed.

(** The same file system with every data block in use. *)
Definition full : fs :=
  {| fs_sb := mk_sb NVFUSE_SB_SIGNATURE 256 32 24 8 16 ROOT_INO 13 0 2 FS_STATE_MOUNTED 0 0 0 asb_zero 0 0 0;
     fs_bd := {[ 0 := bd 0 5 0; 1 := bd 1 8 0 ]};
     fs_ibitmap := {[ 0 := block 0x07 0; 1 := block 0 0 ]};
     fs_dbitmap := {[ 0 := block 0xFF 0xFF; 1 := block 0xFF 0xFF ]};
     fs_itable := {[ 2 := root ]};
     fs_bgl := BgList.init; fs_dirty := ∅ |}.

Lemma full_inv : inv full.
Proof.
  split.
  - split; unfold CLUSTER_SIZE; simpl; lia.
  - intros bg Hbg. assert (bg = 0 \/ bg = 1) as [->| ->] by (simpl in Hbg; lia).
    + exists (bd 0 5 0), (block 0x07 0), (block 0xFF 0xFF). split; [done|]. split; [done|]. split; [done|].
      split; try (apply block_wf; unfold is_u8; lia); try reflexivity. left. reflexivity.
    + exists (bd 1 8 0), (block 0 0), (block 0xFF 0xFF). split; [done|]. split; [done|]. split; [done|].
      split; try (apply block_wf; unfold is_u8; lia); try reflexivity. left. reflexivity.
  - reflexivity.
  - reflexivity.
  - simpl. lia.
  - exists (block 0x07 0). done.
Qed.

Lemma full_hint : hint_ok full.
Proof. unfold hint_ok. simpl. lia. Qed.

(** The demo file system after the last inode of its last group was allocated. *)
Definition wrapped : fs := set_sb (sb_set_last_ino 16 (fs_sb demo)) demo.

Lemma wrapped_inv : inv wrapped.
Proof.
  pose proof demo_inv as [G1 G2 G3 G4 G5 G6].
  split; [by apply (geometry_same (fs_sb demo))| |exact G3|exact G4|exact G5|exact G6].
  intros bg Hbg. destruct (G2 bg Hbg) as (d & ib & db & Hd & Hib & Hdb & Hok).
  exists d, ib, db. split; [done|]. split; [done|]. split; [done|]. by apply (bg_ok_same (fs_sb demo)).
Qed.

End Demo.
