(* ===== verification/AllocThms.v ===== *)
(** * What the allocator guarantees

    The theorems on block and inode allocation, stated on the operations of
    nvfuse_core.c and nvfuse_indirect.c for every state that satisfies
    [AllocSpec.inv], and their instances on the file system of [Demo]. *)
From S2P Require Import Prelude Bitmap Layout BgList Alloc AllocSpec InodeSpec Demo.
Import Alloc AllocSpec InodeSpec Demo.

Module AllocThms.

(** ** Blocks *)

(** C24: nvfuse_alloc_free_block refines the abstract allocator.  On a
    consistent file system with a free block it returns; the blocks it hands
    out are distinct data blocks that were free, there are as many as asked for
    or as are free in all groups together, exactly they become used, and the
    counters, every bitmap and the allocator invariant stay consistent. *)
Theorem alloc_free_block_correct s ino num :
  inv s -> hint_ok s -> 0 <= ino < sb_bg_num (fs_sb s) * sb_no_of_inodes_per_bg (fs_sb s) ->
  1 <= num < 2 ^ 32 -> 1 <= sb_free_blocks (fs_sb s) ->
  exists blks s', nvfuse_alloc_free_block true ino num s = Some (blks, s') /\
    alloc_step s s' blks /\ hint_ok s' /\
    Z.of_nat (length blks) = Z.min num (sb_free_blocks (fs_sb s)).
Proof. apply alloc_free_block_run. Qed.

Lemma alloc_free_block_witness : exists blks s',
  nvfuse_alloc_free_block true 1 14 demo = Some (blks, s') /\ alloc_step demo s' blks /\ hint_ok s' /\
  Z.of_nat (length blks) = 14.
Proof.
  apply (alloc_free_block_correct demo 1 14); [exact demo_inv|exact demo_hint|simpl; lia|lia|simpl; lia].
Defined.

(** nvfuse_alloc_dbitmap serves a request from one group: it takes
    distinct free data blocks of that group, as many as asked for or as the
    group has, whatever the position of its search hint, and leaves the
    descriptors of the other groups alone. *)
Theorem alloc_dbitmap_correct s bg num :
  inv s -> 0 <= bg < sb_bg_num (fs_sb s) -> 1 <= num < 2 ^ 32 ->
  exists blks s', nvfuse_alloc_dbitmap true bg num s = Some (blks, s') /\ alloc_step s s' blks /\
    Z.of_nat (length blks) = Z.min num (bg_free_blocks s bg) /\
    (forall b, b ∈ blks -> b / per_bg s = bg) /\
    (forall bg', bg' <> bg -> fs_bd s' !! bg' = fs_bd s !! bg').
Proof. apply alloc_dbitmap_run. Qed.

Lemma alloc_dbitmap_witness : exists blks s', nvfuse_alloc_dbitmap true 1 100 demo = Some (blks, s') /\
  alloc_step demo s' blks /\ Z.of_nat (length blks) = 12 /\ (forall b, b ∈ blks -> b / 16 = 1) /\
  (forall bg', bg' <> 1 -> fs_bd s' !! bg' = fs_bd demo !! bg').
Proof. apply (alloc_dbitmap_correct demo 1 100); [exact demo_inv|simpl; lia|lia]. Defined.

(** nvfuse_alloc_free_blocks, which serves a new branch of a block map,
    returns the [nind + 1] blocks of the branch and the [num - 1] further data
    blocks, all distinct and previously free. *)
Theorem alloc_free_blocks_correct s ino nind num :
  inv s -> hint_ok s -> 0 <= ino < sb_bg_num (fs_sb s) * sb_no_of_inodes_per_bg (fs_sb s) ->
  0 <= nind -> 1 <= num -> nind + num < 2 ^ 31 -> nind + num <= sb_free_blocks (fs_sb s) ->
  exists blocks direct s', nvfuse_alloc_free_blocks true ino nind num s = Some ((blocks, direct), s') /\
    alloc_step s s' (blocks ++ direct) /\ hint_ok s' /\
    Z.of_nat (length blocks) = nind + 1 /\ Z.of_nat (length direct) = num - 1.
Proof. apply alloc_free_blocks_run. Qed.

Lemma alloc_free_blocks_witness : exists blocks direct s',
  nvfuse_alloc_free_blocks true 2 1 4 demo = Some ((blocks, direct), s') /\
  alloc_step demo s' (blocks ++ direct) /\ hint_ok s' /\
  Z.of_nat (length blocks) = 2 /\ Z.of_nat (length direct) = 3.
Proof.
  apply (alloc_free_blocks_correct demo 2 1 4);
    [exact demo_inv|exact demo_hint|simpl; lia|lia|lia|lia|simpl; lia].
Defined.

(** when no block is free nvfuse_alloc_free_block searches every group and
    then fails its assertion; it never returns a block that is in use. *)
Theorem alloc_free_block_full s ino num :
  inv s -> hint_ok s -> 0 <= ino < sb_bg_num (fs_sb s) * sb_no_of_inodes_per_bg (fs_sb s) ->
  1 <= num < 2 ^ 32 -> sb_free_blocks (fs_sb s) = 0 ->
  nvfuse_alloc_free_block true ino num s = None.
Proof.
  intros Hinv Hh Hino Hnum H0. destruct (alloc_free_block_search s ino num Hinv Hh Hino Hnum)
    as (bg & blks & s' & -> & _ & _ & _ & Hlen).
  assert (blks = []) as -> by (destruct blks; [done|simpl in Hlen; lia]). done.
Qed.

Lemma alloc_free_block_full_witness : nvfuse_alloc_free_block true 3 2 full = None.
Proof.
  apply (alloc_free_block_full full 3 2); [exact full_inv|exact full_hint|simpl; lia|lia|reflexivity].
Defined.

(** C25: nvfuse_free_blocks on a run of used data blocks returns, and exactly
    these blocks become free, with the counters adjusted. *)
Theorem free_blocks_correct s b count :
  inv s -> 1 <= count -> (forall x, b <= x < b + count -> data_block s x /\ block_used s x = true) ->
  count <= sb_no_of_used_blocks (fs_sb s) ->
  exists s', nvfuse_free_blocks true b count s = Some (tt, s') /\ free_step s s' (range b (b + count)).
Proof. apply free_blocks_run. Qed.

Lemma free_blocks_witness : exists s', nvfuse_free_blocks true 4 1 demo = Some (tt, s') /\
  free_step demo s' (range 4 (4 + 1)).
Proof.
  apply (free_blocks_correct demo 4 1); [exact demo_inv|lia| |simpl; lia].
  intros x Hx. replace x with 4 by lia. split; [|reflexivity].
  split; [simpl; lia|]. change (4 <= 4). lia.
Defined.

(** a double free is detected: freeing a data block that is already free
    ends in the assertion of nvfuse_free_dbitmap instead of corrupting the
    counters. *)
Theorem free_blocks_double_free s b :
  inv s -> data_block s b -> block_used s b = false -> nvfuse_free_blocks true b 1 s = None.
Proof. apply free_blocks_twice. Qed.

Lemma free_blocks_double_free_witness : nvfuse_free_blocks true 9 1 demo = None.
Proof.
  apply (free_blocks_double_free demo 9); [exact demo_inv| |reflexivity].
  split; [simpl; lia|]. change (4 <= 9). lia.
Defined.

(** C28: returning all blocks of an allocation restores the set of used blocks
    and both block counters. *)
Theorem alloc_return_roundtrip s ino num :
  inv s -> hint_ok s -> 0 <= ino < sb_bg_num (fs_sb s) * sb_no_of_inodes_per_bg (fs_sb s) ->
  1 <= num < 2 ^ 32 -> 1 <= sb_free_blocks (fs_sb s) ->
  exists blks s' s'', nvfuse_alloc_free_block true ino num s = Some (blks, s') /\
    nvfuse_return_free_blocks true blks s' = Some (tt, s'') /\ inv s'' /\
    (forall b, 0 <= b -> block_used s'' b = block_used s b) /\
    sb_free_blocks (fs_sb s'') = sb_free_blocks (fs_sb s) /\
    sb_no_of_used_blocks (fs_sb s'') = sb_no_of_used_blocks (fs_sb s).
Proof.
  intros Hinv Hh Hino Hnum Hf.
  destruct (alloc_free_block_run s ino num Hinv Hh Hino Hnum Hf) as (blks & s' & H1 & S1 & _ & _).
  pose proof (inv_used s Hinv) as Hu. pose proof (as_usedcnt _ _ _ S1).
  destruct (return_free_blocks_run blks s') as (s'' & H2 & S2); [apply S1|apply S1| |lia|].
  - intros b Hb. destruct (as_fresh _ _ _ S1 b Hb) as [Hd _].
    split; [by apply (data_block_frame s s'), Hd; apply S1|].
    rewrite (as_used _ _ _ S1) by apply Hd. rewrite bool_decide_eq_true_2 by done. apply orb_true_r.
  - exists blks, s', s''. split; [done|]. split; [done|]. split; [apply S2|].
    by apply (alloc_free_cancel s s' s'' blks).
Qed.

Lemma alloc_return_roundtrip_witness : exists blks s' s'',
  nvfuse_alloc_free_block true 3 5 demo = Some (blks, s') /\
  nvfuse_return_free_blocks true blks s' = Some (tt, s'') /\ inv s'' /\
  (forall b, 0 <= b -> block_used s'' b = block_used demo b) /\
  sb_free_blocks (fs_sb s'') = 23 /\ sb_no_of_used_blocks (fs_sb s'') = 1.
Proof.
  apply (alloc_return_roundtrip demo 3 5); [exact demo_inv|exact demo_hint|simpl; lia|lia|simpl; lia].
Defined.

(** ** Inodes *)

(** C26: nvfuse_alloc_new_inode on a consistent file system with a free inode
    returns an inode number that was unused; exactly it becomes used, its table
    entry is a cleared inode with its own number, the inode counters drop by
    one, data blocks are untouched and the invariant holds again. *)
Theorem alloc_new_inode_correct s :
  inv s -> 0 <= sb_last_allocated_ino (fs_sb s) < sb_bg_num (fs_sb s) * per_ig s ->
  1 <= sb_free_inodes (fs_sb s) ->
  exists ino s', nvfuse_alloc_new_inode true s = Some (ino, s') /\ ialloc_step s s' ino /\
    sb_last_allocated_ino (fs_sb s') = ino + 1.
Proof. apply alloc_new_inode_run. Qed.

Lemma alloc_new_inode_witness : exists ino s', nvfuse_alloc_new_inode true demo = Some (ino, s') /\
  ialloc_step demo s' ino /\ sb_last_allocated_ino (fs_sb s') = ino + 1.
Proof. apply (alloc_new_inode_correct demo); [exact demo_inv|cbv; done|simpl; lia]. Defined.

(** nvfuse_relocate_delete_inode on a used inode marks its table entry
    deleted, makes exactly that inode unused again and keeps the invariant. *)
Theorem delete_inode_correct s ino inode :
  inv s -> 0 < ino < sb_bg_num (fs_sb s) * per_ig s -> ino_used s ino = true ->
  fs_itable s !! ino = Some inode ->
  exists s', nvfuse_relocate_delete_inode true ino s = Some (0, s') /\ ifree_step s s' ino.
Proof. apply relocate_delete_inode_run. Qed.

Lemma delete_inode_witness : exists s', nvfuse_relocate_delete_inode true 2 demo = Some (0, s') /\
  ifree_step demo s' 2.
Proof. apply (delete_inode_correct demo 2 root); [exact demo_inv|cbv; done|reflexivity|reflexivity]. Defined.

(** deleting the inode that was just allocated restores the set of used
    inodes and the free-inode counter. *)
Theorem inode_roundtrip s :
  inv s -> 0 <= sb_last_allocated_ino (fs_sb s) < sb_bg_num (fs_sb s) * per_ig s ->
  1 <= sb_free_inodes (fs_sb s) ->
  exists ino s' s'', nvfuse_alloc_new_inode true s = Some (ino, s') /\
    nvfuse_relocate_delete_inode true ino s' = Some (0, s'') /\ inv s'' /\
    (forall i, 0 <= i -> ino_used s'' i = ino_used s i) /\
    sb_free_inodes (fs_sb s'') = sb_free_inodes (fs_sb s).
Proof.
  intros Hinv Hl Hf. destruct (alloc_new_inode_run s Hinv Hl Hf) as (ino & s' & H1 & S1 & _).
  destruct (if_geo _ _ (ia_frame _ _ _ S1)) as (_ & Hi & Hn & _).
  pose proof (ia_range _ _ _ S1) as Hr.
  destruct (relocate_delete_inode_run s' ino (fresh_inode ino)) as (s'' & H2 & S2).
  - apply S1.
  - unfold per_ig in *. by rewrite Hi, Hn.
  - rewrite (ia_used _ _ _ S1) by lia. rewrite bool_decide_eq_true_2 by done. apply orb_true_r.
  - rewrite (ia_table _ _ _ S1). apply lookup_insert_eq.
  - exists ino, s', s''. split; [done|]. split; [done|]. split; [apply S2|]. split.
    + intros i Hi0. rewrite (ir_used _ _ _ S2), (ia_used _ _ _ S1) by done.
      case_bool_decide as E; [|by rewrite orb_false_r, andb_true_r].
      subst. by rewrite (ia_fresh _ _ _ S1).
    + rewrite (ir_free _ _ _ S2), (ia_free _ _ _ S1). lia.
Qed.

Lemma inode_roundtrip_witness : exists ino s' s'', nvfuse_alloc_new_inode true demo = Some (ino, s') /\
  nvfuse_relocate_delete_inode true ino s' = Some (0, s'') /\ inv s'' /\
  (forall i, 0 <= i -> ino_used s'' i = ino_used demo i) /\ sb_free_inodes (fs_sb s'') = 13.
Proof. apply (inode_roundtrip demo); [exact demo_inv|cbv; done|simpl; lia]. Defined.

(** the allocation hint is not wrapped: once the last inode of the last
    group was handed out (the hint is then one past the end), the next
    allocation ends abnormally although inodes may be free, because the search
    starts at a group that does not exist. *)
Theorem alloc_new_inode_after_last s :
  inv s -> sb_last_allocated_ino (fs_sb s) = sb_bg_num (fs_sb s) * per_ig s ->
  fs_bd s !! sb_bg_num (fs_sb s) = None -> nvfuse_alloc_new_inode true s = None.
Proof.
  intros Hinv Hl Hnone. destruct (inv_geo s Hinv) as [_ Hgi Hgb _ _ Hino].
  change (sb_no_of_inodes_per_bg (fs_sb s)) with (per_ig s) in *.
  unfold nvfuse_alloc_new_inode, nvfuse_find_free_inode, mbind, M_bind, mgets, mget. cbn [negb].
  change (sb_no_of_inodes_per_bg (fs_sb s)) with (per_ig s).
  rewrite u32_small, Hl, Z.div_mul by lia. cbn [mret M_ret]. unfold mret, M_ret.
  destruct (Z.to_nat (sb_bg_num (fs_sb s))) as [|n]; [done|]. cbn [find_free_inode_loop].
  unfold nvfuse_scan_free_ibitmap, mbind, M_bind, mgets, get_bd, mlift. by rewrite Hnone.
Qed.

Lemma alloc_new_inode_after_last_witness :
  sb_free_inodes (fs_sb wrapped) = 13 /\ nvfuse_alloc_new_inode true wrapped = None.
Proof.
  split; [reflexivity|]. apply (alloc_new_inode_after_last wrapped); [exact wrapped_inv|reflexivity|reflexivity].
Defined.

End AllocThms.
