(* ===== verification/Mkfs.v ===== *)
(** * Formatting a device (nvfuse_mkfs.c)

    The device is a map from cluster numbers to cluster contents; a cluster is
    a value of the structure the source casts the buffer to.  A read of a
    cluster that holds something else has no meaning and ends the run.
    Buffers come from the DMA allocator; an allocation failure (return of -1
    before anything is written) is not represented. *)
From S2P Require Import Prelude Bitmap Layout BgList Alloc AllocSpec.
Import Alloc AllocSpec.

Module Mkfs.

Inductive cluster :=
  | CSuper (sb : nvfuse_superblock)
  | CBd (bd : nvfuse_bg_descriptor)
  | CBitmap (b : list Z)
  | CInode (i : nvfuse_inode)
  | CDir (l : list nvfuse_dir_entry).

Notation disk := (gmap Z cluster).

(** The state of a format: the superblock buffer and the device. *)
Record st := mk_st { st_sb : nvfuse_superblock; st_disk : disk }.

(** nvfuse_write_cluster and nvfuse_read_cluster of the device. *)
Definition nvfuse_write_cluster (c : cluster) (b : Z) : M st unit :=
  mmodify (fun s => mk_st (st_sb s) (<[b := c]> (st_disk s))).
Definition read_bd (b : Z) : M st nvfuse_bg_descriptor := fun s =>
  match st_disk s !! b with Some (CBd d) => Some (d, s) | _ => None end.
Definition read_bitmap (b : Z) : M st (list Z) := fun s =>
  match st_disk s !! b with Some (CBitmap x) => Some (x, s) | _ => None end.

(** [sb_free_inodes += fi; sb_free_blocks += fb] on the superblock buffer. *)
Definition sb_count (fi fb : Z) (sb : nvfuse_superblock) : nvfuse_superblock :=
  mk_sb (sb_signature sb) (sb_no_of_sectors sb) (sb_no_of_blocks sb) (sb_no_of_used_blocks sb)
    (sb_no_of_inodes_per_bg sb) (sb_no_of_blocks_per_bg sb) (sb_root_ino sb)
    (s32 (sb_free_inodes sb + fi)) (s64 (sb_free_blocks sb + fb)) (sb_bg_num sb) (sb_state sb)
    (sb_max_file_num sb) (sb_max_dir_num sb) (sb_max_inode_num sb) (asb sb)
    (sb_last_allocated_ino sb) (sb_last_allocated_bgid sb) (sb_last_allocated_bgid_by_ino sb).
Definition count (fi fb : Z) : M st unit :=
  mmodify (fun s => mk_st (sb_count fi fb (st_sb s)) (st_disk s)).

(** ** Descriptors and bitmaps of every group *)

(** src/nvfuse_mkfs.c: nvfuse_format_write_bd, [n] groups from [bg_id] on *)
Fixpoint format_write_bd_loop (n : nat) (bg_id bg_size : Z) : M st unit :=
  match n with
  | O => mret tt
  | S n' =>
      let bg_start := u32 (bg_id * bg_size) in
      let bd := nvfuse_make_bg_descriptor bd_zero bg_id bg_start bg_size in
      count (bd_free_inodes bd) (bd_free_blocks bd);;
      nvfuse_write_cluster (CBd bd) (bd_bd_start bd);;
      format_write_bd_loop n' (u32 (bg_id + 1)) bg_size
  end.
Definition nvfuse_format_write_bd (num_bgs bg_size : Z) : M st Z :=
  format_write_bd_loop (Z.to_nat num_bgs) 0 bg_size;; mret 0.

(** Sets bit [clu % bg_size] for [n] clusters from [clu] on. *)
Fixpoint reserve_clusters (n : nat) (clu bg_size : Z) (buf : list Z) : option (list Z) :=
  match n with
  | O => Some buf
  | S n' => '(_, buf') ← ext2fs_set_bit (clu mod bg_size) buf;
            reserve_clusters n' (clu + 1) bg_size buf'
  end.

(** src/nvfuse_mkfs.c: nvfuse_format_metadata_zeroing.  Zeroing of the inode
    tables is compiled out (NVFUSE_USE_MKFS_INODE_ZEROING is not defined). *)
Fixpoint format_zeroing_loop (n : nat) (bg_id bg_size : Z) : M st unit :=
  match n with
  | O => mret tt
  | S n' =>
      let bg_start := u32 (bg_id * bg_size) in
      let bd := nvfuse_make_bg_descriptor bd_zero bg_id bg_start bg_size in
      let zero := repeat 0 (Z.to_nat CLUSTER_SIZE) in
      nvfuse_write_cluster (CBitmap zero) (bd_ibitmap_start bd);;
      let last := u32 (bd_itable_start bd + bd_itable_size bd) in
      buf ← mlift (reserve_clusters (Z.to_nat (last - bd_bg_start bd)) (bd_bg_start bd) bg_size zero);
      nvfuse_write_cluster (CBitmap buf) (bd_dbitmap_start bd);;
      format_zeroing_loop n' (u32 (bg_id + 1)) bg_size
  end.
Definition nvfuse_format_metadata_zeroing (num_bgs bg_size : Z) : M st Z :=
  format_zeroing_loop (Z.to_nat num_bgs) 0 bg_size;; mret 0.

(** src/nvfuse_mkfs.c: nvfuse_format_bg *)
Definition nvfuse_format_bg (num_bgs bg_size : Z) : M st Z :=
  res ← nvfuse_format_write_bd num_bgs bg_size;
  if negb (res =? 0) then mret res
  else
    res ← nvfuse_format_metadata_zeroing num_bgs bg_size;
    if negb (res =? 0) then mret res else mret 0.

(** ** The root directory *)

(** Sets the bits of the reserved inodes. *)
Fixpoint reserve_inodes (n : nat) (ino : Z) (buf : list Z) : option (list Z) :=
  match n with
  | O => Some buf
  | S n' => '(_, buf') ← ext2fs_set_bit ino buf; reserve_inodes n' (ino + 1) buf'
  end.

Definition S_IFDIR : Z := 0x4000.

(** The root inode nvfuse_alloc_root_inode_direct fills in at time [now]. *)
Definition root_inode (now dtable_start : Z) : nvfuse_inode :=
  mk_inode ROOT_INO NVFUSE_TYPE_DIRECTORY (DIR_ENTRY_SIZE * DIR_ENTRY_NUM) 0 1 0 2 1
    now now now 0 0 0 (Z.lor 384 S_IFDIR) (dtable_start :: repeat 0 13).

(** Writes the table entries of the [n] reserved inodes from [ino] on. *)
Fixpoint write_resv_inodes (n : nat) (ino now : Z) (bd : nvfuse_bg_descriptor) : M st unit :=
  match n with
  | O => mret tt
  | S n' =>
      nvfuse_write_cluster
        (CInode (if ino =? ROOT_INO then root_inode now (bd_dtable_start bd) else inode_zero))
        (u32 (bd_itable_start bd + ino));;
      write_resv_inodes n' (ino + 1) now bd
  end.

Definition root_dentries : list nvfuse_dir_entry :=
  mk_dentry ROOT_INO DIR_USED 0 [46] :: mk_dentry ROOT_INO DIR_USED 0 [46; 46] ::
  repeat dentry_zero (Z.to_nat (DIR_ENTRY_NUM - 2)).

(** src/nvfuse_mkfs.c: nvfuse_alloc_root_inode_direct (INODE_ENTRY_SIZE is
    4096).  The reads whose buffer is cleared at once are dropped. *)
Definition nvfuse_alloc_root_inode_direct (now bg_id bg_size : Z) : M st Z :=
  let bd_addr := u32 (bg_id * bg_size + NVFUSE_BD_OFFSET) in
  bd ← read_bd bd_addr;
  massert (bd_magic bd =? NVFUSE_BD_MAGIC);;
  massert (bd_id bd =? bg_id);;
  buf ← read_bitmap (bd_ibitmap_start bd);
  buf ← mlift (reserve_inodes (Z.to_nat NUM_RESV_INO) 0 buf);
  let bd := set_bd_free_inodes (u32 (bd_free_inodes bd - NUM_RESV_INO)) bd in
  count (- NUM_RESV_INO) 0;;
  nvfuse_write_cluster (CBitmap buf) (bd_ibitmap_start bd);;
  buf ← read_bitmap (bd_dbitmap_start bd);
  '(_, buf) ← mlift (ext2fs_set_bit (bd_dtable_start bd mod bg_size) buf);
  let bd := set_bd_free_blocks (u32 (bd_free_blocks bd - 1)) bd in
  count 0 (-1);;
  nvfuse_write_cluster (CBitmap buf) (bd_dbitmap_start bd);;
  write_resv_inodes (Z.to_nat NUM_RESV_INO) 0 now bd;;
  nvfuse_write_cluster (CDir root_dentries) (bd_dtable_start bd);;
  nvfuse_write_cluster (CBd bd) bd_addr;;
  mret 0.

(** ** nvfuse_format *)

Definition NVFUSE_BG_NUM (num_clu bits : Z) : Z := Z.shiftr num_clu bits.
Definition NVFUSE_MAX_BITS : Z := 32.
Definition NVFUSE_MAX_INODE_BITS : Z := 30.
Definition NVFUSE_MAX_DIR_BITS : Z := 32.
Definition NVFUSE_MAX_FILE_BITS : Z := 32.
Definition INIT_NVFUSE_SUPERBLOCK_NO : Z := 0.
Definition NVFUSE_SUCCESS : Z := 0.
Definition NVFUSE_ERROR : Z := -1.

(** The group geometry of nvfuse_format: [bg_size] is 128 MiB, the [log2] of
    the source is exact on it. *)
Definition bg_size_bits : Z :=
  Z.log2 (Z.shiftl (Z.shiftl CLUSTER_SIZE BITS_PER_CLUSTER_BITS) CLUSTER_SIZE_BITS).
Definition bg_p_clu : Z := Z.shiftl 1 (bg_size_bits - CLUSTER_SIZE_BITS).

(** The fields nvfuse_format stores once the groups are written; the products
    are computed in [int]. *)
Definition finish_sb (num_clu : Z) (sb : nvfuse_superblock) : nvfuse_superblock :=
  let bg_num := s32 (NVFUSE_BG_NUM (s64 num_clu) (bg_size_bits - CLUSTER_SIZE_BITS)) in
  {| sb_signature := NVFUSE_SB_SIGNATURE;
     sb_no_of_sectors := s32 (s32 (bg_num * bg_p_clu) * (CLUSTER_SIZE / SECTOR_SIZE));
     sb_no_of_blocks := s32 (bg_num * bg_p_clu);
     sb_no_of_used_blocks := sb_no_of_used_blocks sb;
     sb_no_of_inodes_per_bg := NVFUSE_INODE_PER_BG;
     sb_no_of_blocks_per_bg := NVFUSE_DATA_PER_BG;
     sb_root_ino := ROOT_INO;
     sb_free_inodes := sb_free_inodes sb; sb_free_blocks := sb_free_blocks sb;
     sb_bg_num := bg_num; sb_state := FS_STATE_FORMATTED;
     sb_max_file_num := s32 (Z.shiftr (2 ^ 32 - 1) (NVFUSE_MAX_BITS - NVFUSE_MAX_FILE_BITS));
     sb_max_dir_num := s32 (Z.shiftr (2 ^ 32 - 1) (NVFUSE_MAX_BITS - NVFUSE_MAX_DIR_BITS));
     sb_max_inode_num := s32 (Z.shiftr (2 ^ 32 - 1) (NVFUSE_MAX_BITS - NVFUSE_MAX_INODE_BITS));
     asb := mk_asb 0 (asb_free_inodes (asb sb)) (asb_free_blocks (asb sb))
              (asb_no_of_used_blocks (asb sb)) (asb_core_id (asb sb));
     sb_last_allocated_ino := sb_last_allocated_ino sb;
     sb_last_allocated_bgid := sb_last_allocated_bgid sb;
     sb_last_allocated_bgid_by_ino := sb_last_allocated_bgid_by_ino sb |}.

(** src/nvfuse_mkfs.c: nvfuse_format of a device of [total_blkcount] sectors *)
Definition nvfuse_format (now total_blkcount : Z) (d : disk) : option (Z * disk) :=
  let num_sectors := u64 total_blkcount in
  let num_clu := num_sectors / SECTORS_PER_CLUSTER in
  let num_bg := NVFUSE_BG_NUM num_clu (bg_size_bits - CLUSTER_SIZE_BITS) in
  let num_clu' := u64 (Z.shiftl num_bg (bg_size_bits - CLUSTER_SIZE_BITS)) in
  let run : M st Z :=
    massert (negb (num_sectors =? 0) && negb (num_clu =? 0));;
    ret ← nvfuse_format_bg (u32 num_bg) (u32 bg_p_clu);
    if negb (ret =? 0) then mret NVFUSE_ERROR
    else
      ret ← nvfuse_alloc_root_inode_direct now 0 (u32 bg_p_clu);
      if negb (ret =? 0) then mret NVFUSE_ERROR
      else
        mmodify (fun s => mk_st (finish_sb num_clu' (st_sb s)) (st_disk s));;
        sb ← mgets st_sb;
        nvfuse_write_cluster (CSuper sb) INIT_NVFUSE_SUPERBLOCK_NO;;
        mret NVFUSE_SUCCESS in
  match run (mk_st sb_zero d) with
  | Some (r, s) => Some (r, st_disk s)
  | None => None
  end.

End Mkfs.
