(* ===== verification/Mount.v ===== *)
(** * Mounting and unmounting (nvfuse_core.c)

    The part of nvfuse_mount and nvfuse_umount that concerns persistent state:
    reading and checking the superblock, the state switch, loading the group
    descriptors, the group list, and writing the superblock and the dirty
    metadata back.  Memory pools, caches and IPC set-up are left out.  The
    process is the primary one of the standalone model. *)
From S2P Require Import Prelude Bitmap Layout BgList Alloc AllocSpec Mkfs.
Import Alloc AllocSpec Mkfs.

Module Mount.

Definition sb_set_state (v : Z) (sb : nvfuse_superblock) : nvfuse_superblock :=
  mk_sb (sb_signature sb) (sb_no_of_sectors sb) (sb_no_of_blocks sb) (sb_no_of_used_blocks sb)
    (sb_no_of_inodes_per_bg sb) (sb_no_of_blocks_per_bg sb) (sb_root_ino sb)
    (sb_free_inodes sb) (sb_free_blocks sb) (sb_bg_num sb) v
    (sb_max_file_num sb) (sb_max_dir_num sb) (sb_max_inode_num sb) (asb sb)
    (sb_last_allocated_ino sb) (sb_last_allocated_bgid sb) (sb_last_allocated_bgid_by_ino sb).

(** src/nvfuse_core.c: nvfuse_copy_disk_sb_to_sb and
    nvfuse_copy_mem_sb_to_disk_sb copy the common part only. *)
Definition copy_common (dst src : nvfuse_superblock) : nvfuse_superblock :=
  mk_sb (sb_signature src) (sb_no_of_sectors src) (sb_no_of_blocks src) (sb_no_of_used_blocks src)
    (sb_no_of_inodes_per_bg src) (sb_no_of_blocks_per_bg src) (sb_root_ino src)
    (sb_free_inodes src) (sb_free_blocks src) (sb_bg_num src) (sb_state src)
    (sb_max_file_num src) (sb_max_dir_num src) (sb_max_inode_num src) (asb src)
    (sb_last_allocated_ino dst) (sb_last_allocated_bgid dst) (sb_last_allocated_bgid_by_ino dst).

(** src/nvfuse_core.c: nvfuse_is_sb and nvfuse_is_bd *)
Definition nvfuse_is_sb (sb : nvfuse_superblock) : Z :=
  if sb_signature sb =? NVFUSE_SB_SIGNATURE then 1 else 0.
Definition nvfuse_is_bd (bd : nvfuse_bg_descriptor) : Z :=
  if bd_magic bd =? NVFUSE_BD_SIGNATURE then 1 else 0.

(** src/nvfuse_core.c: nvfuse_sync_superblock *)
Definition nvfuse_sync_superblock (sb : nvfuse_superblock) (d : disk) : disk :=
  <[INIT_NVFUSE_SUPERBLOCK_NO := CSuper (copy_common sb_zero sb)]> d.

(** src/nvfuse_core.c: nvfuse_scan_superblock.  A wrong signature aborts. *)
Definition nvfuse_scan_superblock (cur_sb : nvfuse_superblock) (d : disk) : option nvfuse_superblock :=
  match d !! INIT_NVFUSE_SUPERBLOCK_NO with
  | Some (CSuper read_sb) =>
      if sb_signature read_sb =? NVFUSE_SB_SIGNATURE then Some (copy_common cur_sb read_sb) else None
  | _ => None
  end.

(** The loop of nvfuse_mount that loads the descriptors of [n] groups from
    group [i] on into [sb_bd]. *)
Fixpoint load_bds (n : nat) (i per_bg : Z) (d : disk) : option (gmap Z nvfuse_bg_descriptor) :=
  match n with
  | O => Some ∅
  | S n' =>
      match d !! u32 (NVFUSE_BD_OFFSET + i * per_bg) with
      | Some (CBd bd) =>
          if bd_id bd =? i then m ← load_bds n' (i + 1) per_bg d; Some (<[i := bd]> m) else None
      | _ => None
      end
  end.

(** src/nvfuse_core.c: nvfuse_get_bd *)
Definition nvfuse_get_bd (bds : gmap Z nvfuse_bg_descriptor) (bg_id : Z) : option nvfuse_bg_descriptor :=
  bd ← bds !! bg_id; if bd_id bd =? bg_id then Some bd else None.

(** src/nvfuse_core.c: nvfuse_get_pbn for the metadata inodes: where block
    [offset] of the pseudo file [ino] lies.  Other inodes go through their own
    block map. *)
Definition nvfuse_get_pbn (sb : nvfuse_superblock) (bds : gmap Z nvfuse_bg_descriptor)
    (ino offset : Z) : option Z :=
  if ino <? ROOT_INO then Some (u32 NVFUSE_ERROR)
  else if ino =? BLOCK_IO_INO then Some offset
  else if ino =? ITABLE_INO then
    bd ← nvfuse_get_bd bds (offset / (sb_no_of_inodes_per_bg sb / INODE_ENTRY_NUM));
    Some (u32 (bd_itable_start bd + offset mod bd_itable_size bd))
  else if ino =? DBITMAP_INO then bd ← nvfuse_get_bd bds offset; Some (bd_dbitmap_start bd)
  else if ino =? IBITMAP_INO then bd ← nvfuse_get_bd bds offset; Some (bd_ibitmap_start bd)
  else if ino =? BD_INO then
    Some (u32 (u32 (offset * sb_no_of_blocks_per_bg sb) + NVFUSE_BD_OFFSET))
  else None.

(** The metadata a mounted file system reads on demand, block (ino, offset)
    from the cluster nvfuse_get_pbn names. *)
Definition bitmap_at (d : disk) (b : option Z) : option (list Z) :=
  a ← b; match d !! a with Some (CBitmap x) => Some x | _ => None end.
Definition inode_at (d : disk) (b : option Z) : option nvfuse_inode :=
  a ← b; match d !! a with Some (CInode x) => Some x | _ => None end.

Definition table {A} (n : Z) (f : Z -> option A) : gmap Z A :=
  list_to_map (omap (fun i => x ← f i; Some (i, x)) (range 0 n)).

Definition view (sb : nvfuse_superblock) (bds : gmap Z nvfuse_bg_descriptor) (bgl : BgList.t)
    (d : disk) : fs :=
  {| fs_sb := sb; fs_bd := bds;
     fs_ibitmap := table (sb_bg_num sb) (fun bg => bitmap_at d (nvfuse_get_pbn sb bds IBITMAP_INO bg));
     fs_dbitmap := table (sb_bg_num sb) (fun bg => bitmap_at d (nvfuse_get_pbn sb bds DBITMAP_INO bg));
     fs_itable := table (sb_bg_num sb * sb_no_of_inodes_per_bg sb)
                    (fun ino => inode_at d (nvfuse_get_pbn sb bds ITABLE_INO ino));
     fs_bgl := bgl; fs_dirty := ∅ |}.

(** Writing one dirty metadata block back to its cluster. *)
Definition flush_block (s : fs) (b : Z * Z) (d : disk) : disk :=
  let '(ino, lbno) := b in
  match nvfuse_get_pbn (fs_sb s) (fs_bd s) ino lbno with
  | None => d
  | Some a =>
      let put (o : option cluster) := match o with Some c => <[a := c]> d | None => d end in
      if ino =? BD_INO then put (CBd <$> fs_bd s !! lbno)
      else if ino =? IBITMAP_INO then put (CBitmap <$> fs_ibitmap s !! lbno)
      else if ino =? DBITMAP_INO then put (CBitmap <$> fs_dbitmap s !! lbno)
      else if ino =? ITABLE_INO then put (CInode <$> fs_itable s !! lbno)
      else d
  end.
Definition flush (s : fs) (d : disk) : disk := foldr (flush_block s) d (elements (fs_dirty s)).

(** All groups on the list, added by nvfuse_mount one by one. *)
Definition add_all_bgs (n : Z) : BgList.t := foldl (fun l bg => BgList.add_node bg l) BgList.init (range 0 n).

Inductive mounted :=
  | Mount_error (ret : Z) (d : disk)
  | Mount_ok (s : fs) (d : disk).

Section mount.
(** nvfuse_create_bptree for the root directory: an argument until the B+tree
    is modelled. *)
Context (nvfuse_create_bptree : M fs unit).

(** src/nvfuse_core.c: nvfuse_mount with a zeroed in-memory superblock *)
Definition nvfuse_mount (d : disk) : option mounted :=
  sb ← nvfuse_scan_superblock sb_zero d;
  if sb_state sb =? FS_STATE_MOUNTED then
    Some (Mount_error (-1) (nvfuse_sync_superblock (sb_set_state FS_STATE_CRASHED sb) d))
  else if sb_state sb =? FS_STATE_CRASHED then Some (Mount_error (-1) d)
  else
    bds ← load_bds (Z.to_nat (sb_bg_num sb)) 0 (sb_no_of_blocks_per_bg sb) d;
    let s := view sb bds (add_all_bgs (sb_bg_num sb)) d in
    '(s, d) ←
      (if sb_state sb =? FS_STATE_FORMATTED then
         root ← fs_itable s !! sb_root_ino sb;
         if i_ino root =? sb_root_ino sb then
           '(_, s') ← nvfuse_create_bptree s;
           Some (set_sb (sb_set_state FS_STATE_INITIALIZED (fs_sb s')) s', flush s' d)
         else None
       else Some (s, d));
    if sb_state (fs_sb s) =? FS_STATE_INITIALIZED then
      let s := set_sb (sb_set_state FS_STATE_MOUNTED (fs_sb s)) s in
      Some (Mount_ok s (nvfuse_sync_superblock (fs_sb s) d))
    else None.                                    (* assert (sb_state == FS_STATE_INITIALIZED) *)

(** src/nvfuse_core.c: nvfuse_umount *)
Definition nvfuse_umount (s : fs) (d : disk) : Z * disk :=
  if negb (sb_state (fs_sb s) =? FS_STATE_MOUNTED) then (-1, d)
  else
    let d := flush s d in
    let s := set_sb (sb_set_state FS_STATE_UMOUNTED (fs_sb s)) s in
    (0, nvfuse_sync_superblock (fs_sb s) d).

End mount.

End Mount.
