(* ===== verification/MkfsSpec.v ===== *)
(** * A formatted device satisfies the allocator's invariant

    nvfuse_format followed by the metadata load of nvfuse_mount gives a state
    in which [AllocSpec.inv] holds, with the root directory in place. *)
From S2P Require Import Prelude Bitmap Layout BgList Alloc AllocSpec Mkfs Mount.
Import Alloc AllocSpec Mkfs Mount.

Module MkfsSpec.

(** Blocks per group, first data block of a group, inodes per group. *)
Notation N := 32768 (only parsing).
Notation DS := 4100 (only parsing).

(** The descriptor of group [bg], and that of group 0 once the root directory
    is allocated. *)
Definition fmt_bd (bg : Z) : nvfuse_bg_descriptor :=
  mk_bd NVFUSE_BD_MAGIC 0 bg (bg * N) (bg * N + 1) 4096 N (bg * N + 2) 1 (bg * N + 3) 1
    (bg * N + 4) 4096 (bg * N + DS) (N - DS) 4096 (N - DS) 0.
Definition fmt_bd0 : nvfuse_bg_descriptor :=
  set_bd_free_blocks (N - DS - 1) (set_bd_free_inodes (4096 - 8) (fmt_bd 0)).

Lemma make_bd_fmt bg : 0 <= bg -> bg * N + N < 2 ^ 32 ->
  nvfuse_make_bg_descriptor bd_zero bg (u32 (bg * N)) N = fmt_bd bg.
Proof.
  intros H0 H. unfold nvfuse_make_bg_descriptor, fmt_bd.
  change (u32 (NVFUSE_DBITMAP_OFFSET + NVFUSE_DBITMAP_SIZE)) with 4.
  change (u32 (NVFUSE_INODE_PER_BG * INODE_ENTRY_SIZE) / CLUSTER_SIZE) with 4096.
  change (u32 (4 + 4096)) with DS. change NVFUSE_DATA_PER_BG with N.
  change (u32 (N - DS)) with (N - DS).
  change NVFUSE_BD_OFFSET with 1. change NVFUSE_IBITMAP_OFFSET with 2. change NVFUSE_DBITMAP_OFFSET with 3.
  change NVFUSE_INODE_PER_BG with 4096. change NVFUSE_DBITMAP_SIZE with 1.
  rewrite (u32_small (bg * N)) by lia.
  f_equal; try (rewrite u32_small; lia).
Qed.

(** ** Bitmaps *)
Definition zero_block : list Z := repeat 0 (Z.to_nat CLUSTER_SIZE).

Lemma zero_block_wf : wf_block CLUSTER_SIZE zero_block.
Proof.
  split; [unfold zero_block; rewrite repeat_length; done|].
  apply Forall_forall. intros x Hx%list_elem_of_In%repeat_spec. subst. unfold is_u8. lia.
Qed.

Lemma zero_block_bit j : bit zero_block j = false.
Proof.
  unfold bit, zero_block. destruct (repeat 0 _ !! Z.to_nat (j / 8)) as [b|] eqn:E; [|done].
  apply list_elem_of_lookup_2, list_elem_of_In, repeat_spec in E. subst. apply Z.testbit_0_l.
Qed.

Lemma reserve_clusters_shift n bg : forall o buf, 0 <= o -> o + Z.of_nat n <= N ->
  reserve_clusters n (bg * N + o) N buf = reserve_clusters n o N buf.
Proof.
  induction n as [|n IH]; intros o buf Ho Hn; [done|]. cbn [reserve_clusters].
  destruct (block_split N bg o) as [_ ->]; [lia|]. rewrite (Z.mod_small o) by lia.
  destruct (ext2fs_set_bit o buf) as [[v b]|]; [|done]. simpl.
  rewrite <- Z.add_assoc. apply IH; lia.
Qed.

(** Bits [o, o+n) set. *)
Definition set_run (B o n : Z) (buf buf' : list Z) : Prop :=
  wf_block B buf' /\ forall j, 0 <= j -> bit buf' j = bit buf j || bool_decide (o <= j < o + n).

Lemma set_run_step B o n buf buf1 buf2 : 0 <= n ->
  (forall j, 0 <= j -> bit buf1 j = if decide (j = o) then true else bit buf j) ->
  set_run B (o + 1) n buf1 buf2 -> set_run B o (n + 1) buf buf2.
Proof.
  intros Hn H1 [Hwf H2]. split; [done|]. intros j Hj. rewrite H2, H1 by done. case_decide.
  - simpl. rewrite bool_decide_eq_true_2 by lia. by rewrite orb_true_r.
  - f_equal. apply bool_decide_ext. lia.
Qed.

Lemma set_run_0 B o buf : wf_block B buf -> set_run B o 0 buf buf.
Proof.
  intros H. split; [done|]. intros j _. rewrite bool_decide_eq_false_2 by lia. by rewrite orb_false_r.
Qed.

Lemma reserve_clusters_spec B n : forall o buf,
  wf_block B buf -> 0 <= o -> o + Z.of_nat n <= N -> N <= 8 * B ->
  exists buf', reserve_clusters n o N buf = Some buf' /\ set_run B o (Z.of_nat n) buf buf'.
Proof.
  induction n as [|n IH]; intros o buf Hwf Ho Hn HB.
  - exists buf. split; [done|]. by apply set_run_0.
  - cbn [reserve_clusters]. rewrite Z.mod_small by lia.
    destruct (set_bit_spec B buf o) as (v & b1 & -> & Hwf1 & _ & Hb1); [done|lia|]. simpl.
    destruct (IH (o + 1) b1) as (b2 & -> & Hr); [done|lia..|]. exists b2. split; [done|].
    rewrite Nat2Z.inj_succ. eapply set_run_step; [lia|exact Hb1|exact Hr].
Qed.

Lemma reserve_inodes_spec B n : forall o buf,
  wf_block B buf -> 0 <= o -> o + Z.of_nat n <= 8 * B ->
  exists buf', reserve_inodes n o buf = Some buf' /\ set_run B o (Z.of_nat n) buf buf'.
Proof.
  induction n as [|n IH]; intros o buf Hwf Ho Hn.
  - exists buf. split; [done|]. by apply set_run_0.
  - cbn [reserve_inodes].
    destruct (set_bit_spec B buf o) as (v & b1 & -> & Hwf1 & _ & Hb1); [done|lia|]. simpl.
    destruct (IH (o + 1) b1) as (b2 & -> & Hr); [done|lia..|]. exists b2. split; [done|].
    rewrite Nat2Z.inj_succ. eapply set_run_step; [lia|exact Hb1|exact Hr].
Qed.

(** Free bits above a run of set bits on a zeroed block. *)
Lemma set_run_free o n lo hi buf : 0 <= lo -> o <= lo -> lo <= o + n <= hi ->
  set_run CLUSTER_SIZE o n zero_block buf -> free_in buf lo hi = hi - (o + n).
Proof.
  intros H0 Ho H [_ Hb].
  assert (free_in zero_block lo hi = hi - lo) as Hz.
  { unfold free_in, Zcount. rewrite (Zsum_ext _ (fun _ => 1)).
    - rewrite Zsum_const, length_range by lia. lia.
    - intros x _. by rewrite zero_block_bit. }
  unfold free_in at 1.
  rewrite (Zcount_remove (fun i => negb (bit zero_block i)) _ _ (range lo (o + n))).
  - fold (free_in zero_block lo hi). rewrite Hz, length_range by lia. lia.
  - apply NoDup_range.
  - apply NoDup_range.
  - intros x Hx%elem_of_range. rewrite elem_of_range, zero_block_bit. split; [lia|done].
  - intros x Hx%elem_of_range. rewrite Hb, zero_block_bit by lia. simpl. f_equal.
    apply bool_decide_ext. rewrite elem_of_range. lia.
Qed.

(** ** The loops over the groups *)

(** The superblock buffer while the groups are written. *)
Definition fmt_sb (fi fb : Z) : nvfuse_superblock :=
  mk_sb 0 0 0 0 0 0 0 fi fb 0 0 0 0 0 asb_zero 0 0 0.

Lemma addr_eq a bg o : 0 <= o < N -> a = bg * N + o <-> a / N = bg /\ a mod N = o.
Proof.
  intros Ho. split.
  - intros ->. by apply block_split.
  - intros [<- <-]. pose proof (Z.div_mod a N). lia.
Qed.

Lemma write_bd_loop_spec n : forall bg fi fb d,
  0 <= bg -> (bg + Z.of_nat n) * N < 2 ^ 31 ->
  0 <= fi -> fi + Z.of_nat n * 4096 < 2 ^ 31 -> 0 <= fb -> fb + Z.of_nat n * (N - DS) < 2 ^ 62 ->
  exists d', format_write_bd_loop n bg N (mk_st (fmt_sb fi fb) d) =
      Some (tt, mk_st (fmt_sb (fi + Z.of_nat n * 4096) (fb + Z.of_nat n * (N - DS))) d') /\
    forall a, d' !! a = if decide (a mod N = 1 /\ bg <= a / N < bg + Z.of_nat n)
                        then Some (CBd (fmt_bd (a / N))) else d !! a.
Proof.
  induction n as [|n IH]; intros bg fi fb d Hbg Hn Hfi Hfi' Hfb Hfb'.
  - exists d. simpl. rewrite !Z.add_0_r. split; [done|]. intros a. by rewrite decide_False by lia.
  - cbn [format_write_bd_loop]. rewrite make_bd_fmt by lia.
    unfold mbind, M_bind, count, nvfuse_write_cluster, mmodify. cbn [st_sb st_disk].
    assert (sb_count (bd_free_inodes (fmt_bd bg)) (bd_free_blocks (fmt_bd bg)) (fmt_sb fi fb) =
            fmt_sb (fi + 4096) (fb + (N - DS))) as ->.
    { unfold sb_count, fmt_sb, fmt_bd. simpl. rewrite s32_small, s64_small by lia. done. }
    rewrite u32_small by lia. change (bd_bd_start (fmt_bd bg)) with (bg * N + 1).
    destruct (IH (bg + 1) (fi + 4096) (fb + (N - DS)) (<[bg * N + 1 := CBd (fmt_bd bg)]> d))
      as (d' & -> & Hd'); [lia..|].
    exists d'. split; [do 3 f_equal; unfold fmt_sb; f_equal; lia|]. intros a. rewrite Hd'.
    destruct (decide (a = bg * N + 1)) as [E|E].
    + rewrite E. rewrite lookup_insert_eq. destruct (block_split N bg 1) as [-> ->]; [lia|].
      rewrite decide_False, decide_True by lia. done.
    + rewrite lookup_insert_ne by done. rewrite (addr_eq a bg 1) in E by lia.
      apply decide_ext. lia.
Qed.

Definition resv_block : list Z := default [] (reserve_clusters (Z.to_nat DS) 0 N zero_block).

Lemma resv_block_spec : reserve_clusters (Z.to_nat DS) 0 N zero_block = Some resv_block /\
  set_run CLUSTER_SIZE 0 DS zero_block resv_block.
Proof.
  destruct (reserve_clusters_spec CLUSTER_SIZE (Z.to_nat DS) 0 zero_block) as (b & E & Hr);
    [apply zero_block_wf|lia|lia|unfold CLUSTER_SIZE; lia|].
  unfold resv_block. rewrite E. cbn [default from_option]. rewrite Z2Nat.id in Hr by lia.
  split; [reflexivity|exact Hr].
Qed.
#[global] Opaque resv_block zero_block.

Lemma zeroing_loop_spec n : forall bg sb d,
  0 <= bg -> (bg + Z.of_nat n) * N < 2 ^ 31 ->
  exists d', format_zeroing_loop n bg N (mk_st sb d) = Some (tt, mk_st sb d') /\
    forall a, d' !! a =
      if decide (bg <= a / N < bg + Z.of_nat n) then
        if decide (a mod N = 2) then Some (CBitmap zero_block)
        else if decide (a mod N = 3) then Some (CBitmap resv_block) else d !! a
      else d !! a.
Proof.
  induction n as [|n IH]; intros bg sb d Hbg Hn.
  - exists d. split; [done|]. intros a. by rewrite decide_False by lia.
  - cbn [format_zeroing_loop]. rewrite make_bd_fmt by lia.
    unfold mbind, M_bind, nvfuse_write_cluster, mmodify, mlift. cbv zeta.
    change (repeat 0 (Z.to_nat CLUSTER_SIZE)) with zero_block.
    cbn [bd_itable_start bd_itable_size bd_bg_start bd_ibitmap_start bd_dbitmap_start fmt_bd st_sb st_disk].
    rewrite u32_small by lia. replace (bg * N + 4 + 4096 - bg * N) with DS by lia.
    assert (reserve_clusters (Z.to_nat DS) (bg * N) N zero_block = Some resv_block) as ->.
    { rewrite <- (Z.add_0_r (bg * N)), reserve_clusters_shift by lia. apply resv_block_spec. }
    cbv beta iota. cbn [st_sb st_disk]. rewrite u32_small by lia.
    edestruct (IH (bg + 1) sb) as (d' & -> & Hd'); [lia..|].
    exists d'. split; [done|]. intros a. rewrite Hd'. cbn [st_disk].
    destruct (decide (a / N = bg)) as [E|E].
    + rewrite (decide_False (P := bg + 1 <= _ < _)), (decide_True (P := bg <= _ < _)) by lia.
      destruct (decide (a mod N = 3)) as [E3|E3].
      * rewrite (decide_False (P := a mod N = 2)) by lia.
        by rewrite (proj2 (addr_eq a bg 3 ltac:(lia)) (conj E E3)), lookup_insert_eq.
      * rewrite lookup_insert_ne by (intros H; symmetry in H; apply addr_eq in H; lia).
        destruct (decide (a mod N = 2)) as [E2|E2].
        -- by rewrite (proj2 (addr_eq a bg 2 ltac:(lia)) (conj E E2)), lookup_insert_eq.
        -- rewrite lookup_insert_ne by (intros H; symmetry in H; apply addr_eq in H; lia). done.
    + rewrite !lookup_insert_ne by (intros H; symmetry in H; apply addr_eq in H; lia).
      destruct (decide (bg + 1 <= a / N < bg + 1 + Z.of_nat n)).
      * by rewrite (decide_True (P := bg <= _ < _)) by lia.
      * by rewrite (decide_False (P := bg <= _ < _)) by lia.
Qed.

(** ** The root directory *)

Lemma write_resv_inodes_spec n now : forall ino sb d, 0 <= ino -> ino + Z.of_nat n <= 8 ->
  exists d', write_resv_inodes n ino now fmt_bd0 (mk_st sb d) = Some (tt, mk_st sb d') /\
    (forall a, ~ 4 + ino <= a < 4 + ino + Z.of_nat n -> d' !! a = d !! a) /\
    (forall i, ino <= i < ino + Z.of_nat n ->
       d' !! (4 + i) = Some (CInode (if i =? ROOT_INO then root_inode now DS else inode_zero))).
Proof.
  induction n as [|n IH]; intros ino sb d H0 H8.
  - exists d. split; [done|]. split; [done|]. intros i Hi. lia.
  - cbn [write_resv_inodes]. unfold mbind, M_bind, nvfuse_write_cluster, mmodify. cbn [st_sb st_disk].
    change (bd_itable_start fmt_bd0) with 4. change (bd_dtable_start fmt_bd0) with DS.
    rewrite u32_small by lia. edestruct (IH (ino + 1) sb) as (d' & -> & Hf & Hw); [lia..|].
    exists d'. split; [done|]. split.
    + intros a Ha. rewrite Hf by lia. by rewrite lookup_insert_ne by lia.
    + intros i Hi. destruct (decide (i = ino)) as [->|]; [|apply Hw; lia].
      rewrite Hf by lia. apply lookup_insert_eq.
Qed.

Lemma alloc_root_spec now fi fb d :
  8 <= fi < 2 ^ 31 -> 1 <= fb < 2 ^ 62 ->
  d !! 1 = Some (CBd (fmt_bd 0)) -> d !! 2 = Some (CBitmap zero_block) ->
  d !! 3 = Some (CBitmap resv_block) ->
  exists d' ib db, nvfuse_alloc_root_inode_direct now 0 N (mk_st (fmt_sb fi fb) d) =
      Some (0, mk_st (fmt_sb (fi - 8) (fb - 1)) d') /\
    (forall a, N <= a -> d' !! a = d !! a) /\
    d' !! 1 = Some (CBd fmt_bd0) /\ d' !! 2 = Some (CBitmap ib) /\ d' !! 3 = Some (CBitmap db) /\
    (forall i, 0 <= i < 8 ->
       d' !! (4 + i) = Some (CInode (if i =? ROOT_INO then root_inode now DS else inode_zero))) /\
    d' !! DS = Some (CDir root_dentries) /\
    set_run CLUSTER_SIZE 0 8 zero_block ib /\ set_run CLUSTER_SIZE 0 (DS + 1) zero_block db.
Proof.
  intros Hfi Hfb H1 H2 H3. destruct resv_block_spec as [_ [Hrwf Hrb]].
  destruct (reserve_inodes_spec CLUSTER_SIZE 8 0 zero_block) as (ib & Hib & Hrun);
    [apply zero_block_wf|lia|unfold CLUSTER_SIZE; lia|].
  destruct (set_bit_spec CLUSTER_SIZE resv_block DS) as (v & db & Hdb & Hwf & _ & Hb);
    [done|unfold CLUSTER_SIZE; lia|].
  unfold nvfuse_alloc_root_inode_direct, mbind, M_bind, read_bd, read_bitmap, mlift, massert, count,
    nvfuse_write_cluster, mmodify, mret, M_ret.
  change (u32 (0 * N + NVFUSE_BD_OFFSET)) with 1. cbn [st_disk st_sb]. rewrite H1.
  change (bd_magic (fmt_bd 0) =? NVFUSE_BD_MAGIC) with true. change (bd_id (fmt_bd 0) =? 0) with true.
  change (bd_ibitmap_start (fmt_bd 0)) with 2. change (Z.to_nat NUM_RESV_INO) with 8%nat.
  cbv beta iota zeta. cbn [st_disk st_sb]. rewrite H2, Hib. cbv beta iota zeta. cbn [st_disk st_sb].
  change (u32 (bd_free_inodes (fmt_bd 0) - NUM_RESV_INO)) with 4088.
  change (bd_dbitmap_start (set_bd_free_inodes 4088 (fmt_bd 0))) with 3.
  change (bd_ibitmap_start (set_bd_free_inodes 4088 (fmt_bd 0))) with 2.
  rewrite lookup_insert_ne, H3 by lia. cbv beta iota zeta. cbn [st_disk st_sb].
  change (bd_dtable_start (set_bd_free_inodes 4088 (fmt_bd 0)) mod N) with DS.
  rewrite Hdb. cbv beta iota zeta. cbn [st_disk st_sb].
  change (u32 (bd_free_blocks (set_bd_free_inodes 4088 (fmt_bd 0)) - 1)) with 28667.
  change (set_bd_free_blocks 28667 (set_bd_free_inodes 4088 (fmt_bd 0))) with fmt_bd0.
  change (bd_dbitmap_start fmt_bd0) with 3. change (bd_dtable_start fmt_bd0) with DS.
  assert (sb_count 0 (-1) (sb_count (- NUM_RESV_INO) 0 (fmt_sb fi fb)) = fmt_sb (fi - 8) (fb - 1)) as ->.
  { assert (s32 (s32 (fi + - NUM_RESV_INO) + 0) = fi - 8) as Ei.
    { change (- NUM_RESV_INO) with (-8). rewrite (s32_small (fi + -8)) by lia. rewrite s32_small; lia. }
    assert (s64 (s64 (fb + 0) + -1) = fb - 1) as Eb.
    { rewrite (s64_small (fb + 0)) by lia. rewrite s64_small; lia. }
    unfold sb_count. cbn [sb_free_inodes sb_free_blocks fmt_sb]. rewrite Ei, Eb. reflexivity. }
  edestruct (write_resv_inodes_spec 8 now 0 (fmt_sb (fi - 8) (fb - 1))) as (d1 & -> & Hf & Hw); [lia..|].
  cbv beta iota. cbn [st_disk st_sb].
  eexists _, ib, db. split; [reflexivity|].
  split; [intros a Ha; rewrite !lookup_insert_ne by lia; rewrite Hf by lia; by rewrite !lookup_insert_ne by lia|].
  split; [apply lookup_insert_eq|].
  split; [rewrite !lookup_insert_ne by lia; rewrite Hf, lookup_insert_ne by lia; apply lookup_insert_eq|].
  split; [rewrite !lookup_insert_ne by lia; rewrite Hf by lia; apply lookup_insert_eq|].
  split; [intros i Hi; rewrite !lookup_insert_ne by lia; by apply Hw|].
  split; [rewrite lookup_insert_ne by lia; apply lookup_insert_eq|].
  split; [done|]. split; [done|]. intros j Hj. rewrite Hb, Hrb by done. case_decide.
  - rewrite (bool_decide_eq_true_2 (0 <= j < 0 + (DS + 1))) by lia. by rewrite orb_true_r.
  - f_equal. apply bool_decide_ext. lia.
Qed.

(** ** The whole format *)

(** The number of groups of a device of [total_blkcount] 512-byte sectors. *)
Definition groups_of (total_blkcount : Z) : Z := total_blkcount / 8 / N.

Definition group_bd (bg : Z) : nvfuse_bg_descriptor := if bg =? 0 then fmt_bd0 else fmt_bd bg.

Definition fmt_superblock (G : Z) : nvfuse_superblock :=
  mk_sb NVFUSE_SB_SIGNATURE (s32 (G * N * 8)) (G * N) 0 4096 N ROOT_INO (G * 4096 - 8)
    (G * (N - DS) - 1) G FS_STATE_FORMATTED (-1) (-1) (2 ^ 30 - 1) asb_zero 0 0 0.

(** What a formatted device of [G] groups holds. *)
Record formatted (now G : Z) (ib db : list Z) (d : disk) : Prop := {
  fm_sb : d !! 0 = Some (CSuper (fmt_superblock G));
  fm_bd : forall bg, 0 <= bg < G -> d !! (bg * N + 1) = Some (CBd (group_bd bg));
  fm_ib : forall bg, 0 <= bg < G ->
    d !! (bg * N + 2) = Some (CBitmap (if bg =? 0 then ib else zero_block));
  fm_db : forall bg, 0 <= bg < G ->
    d !! (bg * N + 3) = Some (CBitmap (if bg =? 0 then db else resv_block));
  fm_root : d !! (4 + ROOT_INO) = Some (CInode (root_inode now DS));
  fm_dir : d !! DS = Some (CDir root_dentries);
  fm_ib_bits : set_run CLUSTER_SIZE 0 8 zero_block ib;
  fm_db_bits : set_run CLUSTER_SIZE 0 (DS + 1) zero_block db }.

Lemma finish_sb_spec G fi fb : 0 < G -> G * N < 2 ^ 31 ->
  fi = G * 4096 - 8 -> fb = G * (N - DS) - 1 ->
  finish_sb (G * N) (fmt_sb fi fb) = fmt_superblock G.
Proof.
  intros HG HN -> ->. unfold finish_sb, fmt_superblock, fmt_sb. cbv zeta.
  cbn [sb_no_of_used_blocks sb_free_inodes sb_free_blocks asb sb_last_allocated_ino
       sb_last_allocated_bgid sb_last_allocated_bgid_by_ino].
  change (bg_size_bits - CLUSTER_SIZE_BITS) with 15. change bg_p_clu with N.
  rewrite s64_small by lia. unfold NVFUSE_BG_NUM. rewrite Z.shiftr_div_pow2 by lia.
  change (2 ^ 15) with N. rewrite Z.div_mul by lia. rewrite (s32_small G) by lia.
  rewrite (s32_small (G * N)) by lia. reflexivity.
Qed.

Lemma format_spec now total d :
  0 <= total < 2 ^ 64 -> 0 < groups_of total -> groups_of total * N < 2 ^ 31 ->
  exists d' ib db, nvfuse_format now total d = Some (NVFUSE_SUCCESS, d') /\
    formatted now (groups_of total) ib db d'.
Proof.
  intros Ht HG HN. unfold nvfuse_format. rewrite (u64_small total) by lia. unfold groups_of in *.
  change SECTORS_PER_CLUSTER with 8. change (bg_size_bits - CLUSTER_SIZE_BITS) with 15.
  unfold NVFUSE_BG_NUM. rewrite Z.shiftr_div_pow2, Z.shiftl_mul_pow2 by lia. change (2 ^ 15) with N.
  change (u32 bg_p_clu) with N.
  assert (0 < total / 8 /\ 0 < total) as [Ht8 Ht0].
  { split; Z.div_mod_to_equations; lia. }
  set (G := total / 8 / N) in *. rewrite (u32_small G), (u64_small (G * N)) by lia. cbv zeta.
  rewrite (proj2 (Z.eqb_neq total 0)), (proj2 (Z.eqb_neq (total / 8) 0)) by lia.
  destruct (write_bd_loop_spec (Z.to_nat G) 0 0 0 d) as (d1 & E1 & L1); [lia..|].
  rewrite Z2Nat.id in E1, L1 by lia. rewrite !(Z.add_0_l (G * _)) in E1.
  destruct (zeroing_loop_spec (Z.to_nat G) 0 (fmt_sb (G * 4096) (G * (N - DS))) d1) as (d2 & E2 & L2); [lia..|].
  rewrite Z2Nat.id in L2 by lia.
  assert (forall bg o, 0 <= bg < G -> 0 <= o < N -> d2 !! (bg * N + o) =
    if decide (o = 1) then Some (CBd (fmt_bd bg)) else if decide (o = 2) then Some (CBitmap zero_block)
    else if decide (o = 3) then Some (CBitmap resv_block) else d !! (bg * N + o)) as L.
  { intros bg o Hbg Ho. rewrite L2, L1. destruct (block_split N bg o Ho) as [-> ->].
    rewrite (decide_True (P := 0 <= bg < 0 + G)) by lia.
    destruct (decide (o = 1)) as [->|].
    - rewrite decide_False, decide_False, decide_True by lia. done.
    - by rewrite (decide_False (P := o = 1 /\ _)) by lia. }
  destruct (alloc_root_spec now (G * 4096) (G * (N - DS)) d2)
    as (d3 & ib & db & E3 & Hf & H1 & H2 & H3 & Hi & Hd & Hib & Hdb); [lia|lia|..].
  { apply (L 0 1); lia. } { apply (L 0 2); lia. } { apply (L 0 3); lia. }
  exists (<[0 := CSuper (fmt_superblock G)]> d3), ib, db. split.
  - unfold mbind, M_bind, massert, nvfuse_format_bg, nvfuse_format_write_bd, nvfuse_format_metadata_zeroing.
    unfold mbind, M_bind. cbn [negb andb].
    change sb_zero with (fmt_sb 0 0). rewrite E1. cbn [mret M_ret]. unfold mret, M_ret. cbn [Z.eqb negb].
    rewrite E2. cbn [Z.eqb negb]. rewrite E3. cbn [Z.eqb negb].
    unfold mmodify, mgets, nvfuse_write_cluster, mmodify. cbn [st_sb st_disk].
    rewrite finish_sb_spec by lia. reflexivity.
  - split; try done.
    + apply lookup_insert_eq.
    + intros bg Hbg. rewrite lookup_insert_ne by lia. unfold group_bd.
      destruct (Z.eqb_spec bg 0) as [->|]; [done|]. rewrite Hf by lia. apply (L bg 1); lia.
    + intros bg Hbg. rewrite lookup_insert_ne by lia.
      destruct (Z.eqb_spec bg 0) as [->|]; [done|]. rewrite Hf by lia. apply (L bg 2); lia.
    + intros bg Hbg. rewrite lookup_insert_ne by lia.
      destruct (Z.eqb_spec bg 0) as [->|]; [done|]. rewrite Hf by lia. apply (L bg 3); lia.
    + rewrite lookup_insert_ne by done. by apply (Hi ROOT_INO).
    + by rewrite lookup_insert_ne by lia.
Qed.

(** ** The mounted view of a formatted device *)

Lemma table_lookup {A} n (f : Z -> option A) i :
  table n f !! i = if decide (0 <= i < n) then f i else None.
Proof.
  unfold table. set (l := omap _ _).
  assert (forall x, (i, x) ∈ l <-> 0 <= i < n /\ f i = Some x) as Hl.
  { intros x. unfold l. rewrite list_elem_of_omap. split.
    - intros (j & Hj%elem_of_range & E). destruct (f j) eqn:Ef; simplify_eq/=. done.
    - intros [Hi Hf]. exists i. rewrite elem_of_range, Hf. done. }
  assert (NoDup l.*1) as Hnd.
  { unfold l. clear Hl l. pose proof (NoDup_range 0 n) as Hr. induction Hr as [|x r Hx Hr IH]; [constructor|].
    simpl. destruct (f x); simpl; [|done]. constructor; [|done].
    intros ((j & y) & E & Hin)%list_elem_of_fmap. apply list_elem_of_omap in Hin as (k & Hk & Ek).
    destruct (f k); simplify_eq/=. done. }
  case_decide as Hi.
  - destruct (f i) as [x|] eqn:Ef.
    + apply elem_of_list_to_map_1; [done|]. by apply Hl.
    + apply not_elem_of_list_to_map_1. intros ((j & y) & E & Hin)%list_elem_of_fmap. simpl in E. subst j.
      apply Hl in Hin. naive_solver.
  - apply not_elem_of_list_to_map_1. intros ((j & y) & E & Hin)%list_elem_of_fmap. simpl in E. subst j.
    apply Hl in Hin. naive_solver.
Qed.

Lemma load_bds_spec d (f : Z -> nvfuse_bg_descriptor) n : forall i,
  0 <= i -> (i + Z.of_nat n) * N < 2 ^ 31 ->
  (forall bg, i <= bg < i + Z.of_nat n -> d !! (bg * N + 1) = Some (CBd (f bg)) /\ bd_id (f bg) = bg) ->
  exists m, load_bds n i N d = Some m /\
    forall bg, m !! bg = if decide (i <= bg < i + Z.of_nat n) then Some (f bg) else None.
Proof.
  induction n as [|n IH]; intros i Hi Hn Hd.
  - exists ∅. split; [done|]. intros bg. rewrite decide_False by lia. apply lookup_empty.
  - cbn [load_bds]. destruct (Hd i) as [E Hid]; [lia|]. change NVFUSE_BD_OFFSET with 1.
    rewrite u32_small, (Z.add_comm 1), E, Hid, Z.eqb_refl by lia.
    destruct (IH (i + 1)) as (m & -> & Hm); [lia|lia|intros bg Hbg; apply Hd; lia|].
    simpl. eexists. split; [done|]. intros bg. destruct (decide (bg = i)) as [->|].
    + rewrite lookup_insert_eq, decide_True by lia. done.
    + rewrite lookup_insert_ne, Hm by done. apply decide_ext. lia.
Qed.

(** The state a mount of a formatted device starts from. *)
Record fresh (now G : Z) (s : fs) : Prop := {
  fr_sb : fs_sb s = fmt_superblock G;
  fr_inv : inv s;
  fr_root : fs_itable s !! ROOT_INO = Some (root_inode now DS);
  fr_resv : forall i, 0 <= i -> bit (default [] (fs_ibitmap s !! 0)) i = bool_decide (i < 8);
  fr_rootblk : block_used s DS = true }.

Lemma fmt_bg_ok G bg ib db : 0 <= bg < G -> G * N < 2 ^ 31 ->
  (if bg =? 0 then set_run CLUSTER_SIZE 0 8 zero_block ib else ib = zero_block) ->
  (if bg =? 0 then set_run CLUSTER_SIZE 0 (DS + 1) zero_block db else db = resv_block) ->
  bg_ok (fmt_superblock G) bg (group_bd bg) ib db.
Proof.
  intros Hbg HG Hib Hdb. destruct resv_block_spec as [_ Hresv].
  assert (set_run CLUSTER_SIZE 0 0 zero_block zero_block) as Hz by apply set_run_0, zero_block_wf.
  assert (bd_dtable_start (group_bd bg) mod N = DS) as Hds.
  { unfold group_bd. destruct (Z.eqb_spec bg 0) as [->|]; [reflexivity|].
    change (bd_dtable_start (fmt_bd bg)) with (bg * N + DS). apply (block_split N bg DS). lia. }
  assert (0 < DS) by lia.
  unfold group_bd in *. destruct (Z.eqb_spec bg 0) as [->|]; subst; split; unfold ds_of;
    cbn [sb_no_of_blocks_per_bg sb_no_of_inodes_per_bg fmt_superblock]; rewrite ?Hds.
  - reflexivity.
  - reflexivity.
  - reflexivity.
  - reflexivity.
  - apply Hib.
  - apply Hdb.
  - assumption.
  - left. reflexivity.
  - rewrite (set_run_free 0 (DS + 1) DS N db); [reflexivity|lia|lia|lia|exact Hdb].
  - rewrite (set_run_free 0 8 0 4096 ib); [reflexivity|lia|lia|lia|exact Hib].
  - reflexivity.
  - reflexivity.
  - reflexivity.
  - reflexivity.
  - apply zero_block_wf.
  - apply Hresv.
  - assumption.
  - left. reflexivity.
  - rewrite (set_run_free 0 DS DS N resv_block); [reflexivity|lia|lia|lia|exact Hresv].
  - rewrite (set_run_free 0 0 0 4096 zero_block); [reflexivity|lia|lia|lia|exact Hz].
Qed.

Lemma group_bd_id bg : bd_id (group_bd bg) = bg.
Proof. unfold group_bd. destruct (Z.eqb_spec bg 0); [subst; done|done]. Qed.

Lemma formatted_fresh now G ib db d : 0 < G -> G * N < 2 ^ 31 -> formatted now G ib db d ->
  exists bds, load_bds (Z.to_nat G) 0 N d = Some bds /\
    forall bgl, fresh now G (view (fmt_superblock G) bds bgl d).
Proof.
  intros HG HN [Hsb Hbd Hib Hdb Hroot _ Hibb Hdbb].
  destruct (load_bds_spec d group_bd (Z.to_nat G) 0) as (m & Hm & Lm); [lia|lia| |].
  { intros bg Hbg. rewrite Z2Nat.id in Hbg by lia. split; [apply Hbd; lia|apply group_bd_id]. }
  rewrite Z2Nat.id in Lm by lia. exists m. split; [done|]. intros bgl.
  set (s := view (fmt_superblock G) m bgl d).
  assert (forall bg, 0 <= bg < G -> nvfuse_get_bd m bg = Some (group_bd bg)) as Hget.
  { intros bg Hbg. unfold nvfuse_get_bd. rewrite Lm, decide_True by lia. simpl.
    by rewrite group_bd_id, Z.eqb_refl. }
  assert (forall bg, 0 <= bg < G -> fs_bd s !! bg = Some (group_bd bg)) as Lbd.
  { intros bg Hbg. simpl. by rewrite Lm, decide_True by lia. }
  assert (forall bg, bd_ibitmap_start (group_bd bg) = bg * N + 2 /\ bd_dbitmap_start (group_bd bg) = bg * N + 3)
    as Hst by (intros bg; unfold group_bd; destruct (Z.eqb_spec bg 0); [subst; done|done]).
  assert (forall bg, 0 <= bg < G -> fs_ibitmap s !! bg = Some (if bg =? 0 then ib else zero_block)) as Lib.
  { intros bg Hbg. simpl. rewrite table_lookup, decide_True by done. unfold nvfuse_get_pbn. simpl.
    rewrite Hget by done. simpl. destruct (Hst bg) as [-> _]. by rewrite Hib. }
  assert (forall bg, 0 <= bg < G -> fs_dbitmap s !! bg = Some (if bg =? 0 then db else resv_block)) as Ldb.
  { intros bg Hbg. simpl. rewrite table_lookup, decide_True by done. unfold nvfuse_get_pbn. simpl.
    rewrite Hget by done. simpl. destruct (Hst bg) as [_ ->]. by rewrite Hdb. }
  assert (bit ib 0 = true) as Hib0.
  { destruct Hibb as [_ Hb]. rewrite Hb by lia. rewrite bool_decide_eq_true_2 by lia. apply orb_true_r. }
  split.
  - done.
  - split.
    + split; simpl; unfold CLUSTER_SIZE; lia.
    + intros bg Hbg. simpl in Hbg. exists (group_bd bg), (if bg =? 0 then ib else zero_block),
        (if bg =? 0 then db else resv_block).
      split; [by apply Lbd|]. split; [by apply Lib|]. split; [by apply Ldb|].
      apply fmt_bg_ok; [exact Hbg|exact HN| |]; destruct (bg =? 0);
        [exact Hibb|reflexivity|exact Hdbb|reflexivity].
    + change (sb_bg_num (fs_sb s)) with G. change (sb_free_blocks (fs_sb s)) with (G * (N - DS) - 1).
      rewrite (Zsum_ext _ (fun bg => if bg =? 0 then N - DS - 1 else N - DS)).
      * rewrite (Zsum_update (fun _ => N - DS) _ _ 0); [|apply NoDup_range|apply elem_of_range; lia|].
        -- rewrite Zsum_const, length_range by lia. simpl. lia.
        -- intros y Hy. by rewrite (proj2 (Z.eqb_neq y 0)).
      * intros bg Hbg%elem_of_range. unfold bg_free_blocks. rewrite Lbd by done. simpl. unfold group_bd.
        by destruct (bg =? 0).
    + change (sb_bg_num (fs_sb s)) with G. change (sb_free_inodes (fs_sb s)) with (G * 4096 - 8).
      rewrite (Zsum_ext _ (fun bg => if bg =? 0 then 4088 else 4096)).
      * rewrite (Zsum_update (fun _ => 4096) _ _ 0); [|apply NoDup_range|apply elem_of_range; lia|].
        -- rewrite Zsum_const, length_range by lia. simpl. lia.
        -- intros y Hy. by rewrite (proj2 (Z.eqb_neq y 0)).
      * intros bg Hbg%elem_of_range. unfold bg_free_inodes. rewrite Lbd by done. simpl. unfold group_bd.
        by destruct (bg =? 0).
    + simpl. lia.
    + exists ib. split; [|done]. by rewrite Lib by lia.
  - simpl. rewrite table_lookup, decide_True by (simpl; unfold ROOT_INO; lia).
    unfold nvfuse_get_pbn. simpl. change (ROOT_INO / (4096 / INODE_ENTRY_NUM)) with 0.
    rewrite Hget by lia. simpl. change (u32 _) with (4 + ROOT_INO). by rewrite Hroot.
  - intros i Hi. rewrite Lib by lia. simpl. destruct Hibb as [_ ->]; [|done]. rewrite zero_block_bit. simpl.
    apply bool_decide_ext. lia.
  - unfold block_used. change (per_bg s) with N. change (DS / N) with 0. rewrite Ldb by lia. simpl.
    destruct Hdbb as [_ ->]; [|done]. rewrite bool_decide_eq_true_2; [apply orb_true_r|done].
Qed.

End MkfsSpec.
