(* ===== verification/MountThms.v ===== *)
(** * Format, mount and unmount: the guarantees

    Formatting establishes the allocator invariant; the life cycle of the
    superblock state over mount, crash and unmount. *)
From S2P Require Import Prelude Bitmap Layout BgList Alloc AllocSpec Demo Mkfs Mount MkfsSpec.
Import Alloc AllocSpec Mkfs Mount MkfsSpec.

Module MountThms.

(** An index creation that does nothing, for the examples. *)
Definition no_index : M fs unit := mret tt.

(** C29: nvfuse_format succeeds on every device of at least one and at most
    65535 groups, whatever it held before, and the metadata a mount then loads
    satisfies the allocator invariant: every free counter equals the number of
    clear bits of its bitmap, the metadata area of every group is reserved, the
    eight reserved inodes are taken and the root inode owns a used data block. *)
Theorem format_establishes_inv now total d :
  0 <= total < 2 ^ 64 -> 0 < groups_of total -> groups_of total * 32768 < 2 ^ 31 ->
  exists d' sb bds, nvfuse_format now total d = Some (NVFUSE_SUCCESS, d') /\
    nvfuse_scan_superblock sb_zero d' = Some sb /\ sb_bg_num sb = groups_of total /\
    load_bds (Z.to_nat (sb_bg_num sb)) 0 (sb_no_of_blocks_per_bg sb) d' = Some bds /\
    forall bgl, fresh now (groups_of total) (view sb bds bgl d').
Proof.
  intros Ht HG HN. destruct (format_spec now total d Ht HG HN) as (d' & ib & db & Hf & Hfm).
  destruct (formatted_fresh now _ ib db d' HG HN Hfm) as (bds & Hl & Hfr).
  exists d', (fmt_superblock (groups_of total)), bds. split; [done|]. split; [|done].
  unfold nvfuse_scan_superblock, INIT_NVFUSE_SUPERBLOCK_NO. by rewrite (fm_sb _ _ _ _ _ Hfm).
Qed.

Lemma format_establishes_inv_witness :
  exists d' sb bds, nvfuse_format 1000 524288 ∅ = Some (NVFUSE_SUCCESS, d') /\
    nvfuse_scan_superblock sb_zero d' = Some sb /\ sb_bg_num sb = 2 /\
    load_bds (Z.to_nat (sb_bg_num sb)) 0 (sb_no_of_blocks_per_bg sb) d' = Some bds /\
    forall bgl, fresh 1000 2 (view sb bds bgl d').
Proof.
  apply (format_establishes_inv 1000 524288 ∅); [lia|reflexivity|reflexivity].
Defined.

(** the first mount of a formatted device succeeds when the creation of
    the root index does: the file system is then in state MOUNTED, in memory
    and on the device, with the metadata the index creation left behind. *)
Theorem first_mount now total d create d' :
  0 <= total < 2 ^ 64 -> 0 < groups_of total -> groups_of total * 32768 < 2 ^ 31 ->
  nvfuse_format now total d = Some (NVFUSE_SUCCESS, d') ->
  (forall s, fresh now (groups_of total) s -> exists s', create s = Some (tt, s')) ->
  exists s s' d'', fresh now (groups_of total) s /\ create s = Some (tt, s') /\
    nvfuse_mount create d' = Some (Mount_ok (set_sb (sb_set_state FS_STATE_MOUNTED (fs_sb s')) s') d'') /\
    (exists sb, d'' !! INIT_NVFUSE_SUPERBLOCK_NO = Some (CSuper sb) /\ sb_state sb = FS_STATE_MOUNTED).
Proof.
  intros Ht HG HN Hd' Hc. destruct (format_spec now total d Ht HG HN) as (d1 & ib & db & Hf & Hfm).
  rewrite Hf in Hd'. simplify_eq.
  destruct (formatted_fresh now _ ib db d' HG HN Hfm) as (bds & Hl & Hfr).
  set (s := view (fmt_superblock (groups_of total)) bds (add_all_bgs (groups_of total)) d').
  destruct (Hc s (Hfr _)) as (s' & Hs'). exists s, s'.
  eexists. split; [apply Hfr|]. split; [done|]. split.
  - unfold nvfuse_mount, nvfuse_scan_superblock, INIT_NVFUSE_SUPERBLOCK_NO.
    rewrite (fm_sb _ _ _ _ _ Hfm).
    change (sb_signature (fmt_superblock _) =? NVFUSE_SB_SIGNATURE) with true.
    change (copy_common sb_zero (fmt_superblock (groups_of total))) with (fmt_superblock (groups_of total)).
    unfold mbind, option_bind. cbv beta iota.
    change (sb_state (fmt_superblock _) =? FS_STATE_MOUNTED) with false.
    change (sb_state (fmt_superblock _) =? FS_STATE_CRASHED) with false.
    change (sb_state (fmt_superblock _) =? FS_STATE_FORMATTED) with true. cbv beta iota.
    change (sb_bg_num (fmt_superblock _)) with (groups_of total).
    change (sb_no_of_blocks_per_bg (fmt_superblock _)) with 32768. rewrite Hl. cbv beta iota zeta.
    fold s. change (sb_root_ino _) with ROOT_INO. rewrite (fr_root _ _ s (Hfr _)).
    change (i_ino (root_inode now 4100) =? ROOT_INO) with true. cbv beta iota. rewrite Hs'. reflexivity.
  - eexists. split; [apply lookup_insert_eq|]. reflexivity.
Qed.

Lemma first_mount_witness : exists d', nvfuse_format 1000 262144 ∅ = Some (NVFUSE_SUCCESS, d') /\
  exists s s' d'', fresh 1000 1 s /\ no_index s = Some (tt, s') /\
    nvfuse_mount no_index d' = Some (Mount_ok (set_sb (sb_set_state FS_STATE_MOUNTED (fs_sb s')) s') d'') /\
    (exists sb, d'' !! INIT_NVFUSE_SUPERBLOCK_NO = Some (CSuper sb) /\ sb_state sb = FS_STATE_MOUNTED).
Proof.
  destruct (format_spec 1000 262144 ∅ ltac:(lia) eq_refl eq_refl) as (d' & ib & db & Hf & _).
  exists d'. split; [exact Hf|]. apply (first_mount 1000 262144 ∅ no_index d'); [lia|reflexivity|reflexivity|exact Hf|].
  intros s _. exists s. reflexivity.
Defined.

(** a device that was unmounted cleanly cannot be mounted again: unmount
    leaves state UMOUNTED in the superblock, and nvfuse_mount asserts that the
    state is INITIALIZED, which only the first mount after a format sets. *)
Theorem remount_after_umount create s d ret d' :
  sb_state (fs_sb s) = FS_STATE_MOUNTED -> sb_signature (fs_sb s) = NVFUSE_SB_SIGNATURE ->
  nvfuse_umount s d = (ret, d') -> ret = 0 /\ nvfuse_mount create d' = None.
Proof.
  intros Hst Hsig. unfold nvfuse_umount. rewrite Hst. cbn [Z.eqb negb]. intros [= <- <-].
  split; [done|]. unfold nvfuse_mount, nvfuse_scan_superblock, nvfuse_sync_superblock.
  rewrite lookup_insert_eq. cbn [sb_signature copy_common sb_set_state fs_sb set_sb].
  rewrite Hsig, Z.eqb_refl. unfold mbind, option_bind.
  change (sb_state (copy_common _ _)) with FS_STATE_UMOUNTED. cbn [Z.eqb].
  destruct (load_bds _ _ _ _) as [bds|]; [|done]. done.
Qed.

Lemma remount_after_umount_witness : exists d', nvfuse_umount Demo.demo ∅ = (0, d') /\
  nvfuse_mount no_index d' = None.
Proof.
  eexists. split; [reflexivity|].
  eapply (remount_after_umount no_index Demo.demo ∅ 0); reflexivity.
Defined.

(** a file system that was not unmounted is detected at the next mount:
    nvfuse_mount returns -1, records the state CRASHED on the device and leaves
    everything else as it was, and every later mount fails the same way. *)
Theorem mount_after_crash create d sb :
  d !! INIT_NVFUSE_SUPERBLOCK_NO = Some (CSuper sb) -> sb_signature sb = NVFUSE_SB_SIGNATURE ->
  sb_state sb = FS_STATE_MOUNTED ->
  exists d', nvfuse_mount create d = Some (Mount_error (-1) d') /\
    nvfuse_mount create d' = Some (Mount_error (-1) d') /\
    (exists sb', d' !! INIT_NVFUSE_SUPERBLOCK_NO = Some (CSuper sb') /\ sb_state sb' = FS_STATE_CRASHED) /\
    (forall b, b <> INIT_NVFUSE_SUPERBLOCK_NO -> d' !! b = d !! b).
Proof.
  intros Hd Hsig Hst. unfold nvfuse_mount at 1, nvfuse_scan_superblock. rewrite Hd, Hsig, Z.eqb_refl.
  unfold mbind at 1, option_bind at 1. change (sb_state (copy_common sb_zero sb)) with (sb_state sb).
  rewrite Hst, Z.eqb_refl. eexists. split; [reflexivity|]. split; [|split].
  - unfold nvfuse_mount, nvfuse_scan_superblock, nvfuse_sync_superblock. rewrite lookup_insert_eq.
    cbn [sb_signature copy_common sb_set_state]. rewrite Hsig, Z.eqb_refl. done.
  - eexists. split; [apply lookup_insert_eq|done].
  - intros b Hb. by apply lookup_insert_ne.
Qed.

Lemma mount_after_crash_witness : exists d',
  nvfuse_mount no_index {[ 0 := CSuper Demo.sb ]} = Some (Mount_error (-1) d') /\
  nvfuse_mount no_index d' = Some (Mount_error (-1) d') /\
  (exists sb', d' !! INIT_NVFUSE_SUPERBLOCK_NO = Some (CSuper sb') /\ sb_state sb' = FS_STATE_CRASHED) /\
  (forall b, b <> INIT_NVFUSE_SUPERBLOCK_NO -> d' !! b = ({[ 0 := CSuper Demo.sb ]} : disk) !! b).
Proof. apply (mount_after_crash no_index {[ 0 := CSuper Demo.sb ]} Demo.sb); reflexivity. Defined.

(** nvfuse_is_bd rejects every group descriptor that the file system
    itself writes: it compares with NVFUSE_BD_SIGNATURE, the descriptors carry
    NVFUSE_BD_MAGIC. *)
Theorem is_bd_rejects_own_descriptors bd bg_id bg_start bg_size :
  nvfuse_is_bd (nvfuse_make_bg_descriptor bd bg_id bg_start bg_size) = 0.
Proof. reflexivity. Qed.

End MountThms.
