(* ===== verification/Indirect.v ===== *)
(** * The block map of a file: direct and indirect blocks (nvfuse_indirect.c)

    An inode holds 11 direct pointers and one pointer each to a single, double
    and triple indirect block; an indirect block is an array of 1024 words.
    The state holds the allocator, the cached contents of the indirect blocks,
    and the pointer array of the inode at hand.  A pointer [u32 *p] of the
    source points into that array or into an indirect block; a block that is
    not in the cache map cannot be read (nvfuse_get_bh returns NULL).
    Reference counts of buffer heads are left to the buffer cache. *)
From S2P Require Import Prelude Bitmap Layout BgList Alloc.
Import Alloc.

Module Indirect.

Record ist := mk_ist {
  is_fs : fs;
  is_ind : gmap Z (list Z);        (* (BLOCK_IO_INO, block): contents as words *)
  is_ino : Z;                      (* ictx_ino *)
  is_iblocks : list Z;             (* ictx_inode->i_blocks *)
  is_dirty : gset Z;               (* indirect blocks marked dirty *)
  is_idirty : bool }.              (* nvfuse_mark_inode_dirty *)

(** A [u32 *] into the inode or into the buffer of block [b]. *)
Inductive ptr := PInode (o : Z) | PBlk (b o : Z).

Definition shift (p : ptr) (i : Z) : ptr :=
  match p with PInode o => PInode (o + i) | PBlk b o => PBlk b (o + i) end.

Definition word_at (l : list Z) (o : Z) : option Z :=
  if 0 <=? o then l !! Z.to_nat o else None.
Definition set_word (l : list Z) (o v : Z) : option (list Z) :=
  if (0 <=? o) && (o <? Z.of_nat (length l)) then Some (<[Z.to_nat o := v]> l) else None.

(** [*p] and [*p = v]; [None] outside the object. *)
Definition deref (p : ptr) (s : ist) : option Z :=
  match p with
  | PInode o => word_at (is_iblocks s) o
  | PBlk b o => ws ← is_ind s !! b; word_at ws o
  end.
Definition load (p : ptr) : M ist Z := fun s => mlift (deref p s) s.
Definition set_iblocks (l : list Z) (s : ist) : ist :=
  mk_ist (is_fs s) (is_ind s) (is_ino s) l (is_dirty s) (is_idirty s).
Definition set_ind (b : Z) (ws : list Z) (s : ist) : ist :=
  mk_ist (is_fs s) (<[b := ws]> (is_ind s)) (is_ino s) (is_iblocks s) (is_dirty s) (is_idirty s).
Definition store_to (p : ptr) (v : Z) (s : ist) : option ist :=
  match p with
  | PInode o => l ← set_word (is_iblocks s) o v; Some (set_iblocks l s)
  | PBlk b o => ws ← is_ind s !! b; l ← set_word ws o v; Some (set_ind b l s)
  end.
Definition store (p : ptr) (v : Z) : M ist unit := fun s =>
  match store_to p v s with Some s' => Some (tt, s') | None => None end.

Definition mark_inode_dirty : M ist unit :=
  mmodify (fun s => mk_ist (is_fs s) (is_ind s) (is_ino s) (is_iblocks s) (is_dirty s) true).
Definition mark_dirty_bh (b : Z) : M ist unit :=
  mmodify (fun s => mk_ist (is_fs s) (is_ind s) (is_ino s) (is_iblocks s) ({[ b ]} ∪ is_dirty s) (is_idirty s)).
Definition set_fs (f : fs) (s : ist) : ist :=
  mk_ist f (is_ind s) (is_ino s) (is_iblocks s) (is_dirty s) (is_idirty s).
(** An operation of the allocator. *)
Definition on_fs {A} (m : M fs A) : M ist A := fun s =>
  match m (is_fs s) with Some (a, f) => Some (a, set_fs f s) | None => None end.

Definition EIO : Z := 5.
Definition EAGAIN : Z := 11.

(** src/nvfuse_indirect.c: nvfuse_block_to_path: the offsets (none when the
    block is out of range) and [*boundary]. *)
Definition nvfuse_block_to_path (block : Z) : list Z * Z :=
  let ptrs := PTRS_PER_BLOCK in
  let ptrs_bits := PTRS_PER_BLOCK_BITS in
  let double_blocks := Z.shiftl 1 (ptrs_bits * 2) in
  let out offsets final block := (offsets, u32 (final - 1 - Z.land block (ptrs - 1))) in
  if block <? 0 then out [] 0 block
  else if block <? DIRECT_BLOCKS then out [block] DIRECT_BLOCKS block
  else
    let block := block - DIRECT_BLOCKS in
    if block <? PTRS_PER_BLOCK then out [INDIRECT_BLOCKS; block] ptrs block
    else
      let block := block - PTRS_PER_BLOCK in
      if block <? PTRS_PER_BLOCK * PTRS_PER_BLOCK then
        out [DINDIRECT_BLOCKS; Z.shiftr block ptrs_bits; Z.land block (ptrs - 1)] ptrs block
      else
        let block := block - double_blocks in
        if Z.shiftr block (ptrs_bits * 2) <? ptrs then
          out [TINDIRECT_BLOCKS; Z.shiftr block (ptrs_bits * 2);
               Z.land (Z.shiftr block ptrs_bits) (ptrs - 1); Z.land block (ptrs - 1)] ptrs block
        else out [] 0 block.

(** src/nvfuse_indirect.c: struct Indirect, add_chain and verify_chain *)
Record Indirect := mk_indirect { ind_p : ptr; ind_key : Z; ind_bh : option Z }.

Definition add_chain (bh : option Z) (p : ptr) : M ist Indirect :=
  k ← load p; mret (mk_indirect p k bh).

Fixpoint verify_chain (chain : list Indirect) : M ist bool :=
  match chain with
  | [] => mret true
  | c :: rest => v ← load (ind_p c); if ind_key c =? v then verify_chain rest else mret false
  end.

(** src/nvfuse_indirect.c: nvfuse_get_branch.  [chain] is the part filled so
    far; the result is the filled chain, whether it is complete (the source
    returns NULL then, else the last filled element), and the error. *)
Fixpoint get_branch_loop (offsets : list Z) (chain : list Indirect) (last : Indirect)
  : M ist (list Indirect * bool * Z) :=
  if ind_key last =? 0 then mret (chain, false, 0)
  else
    match offsets with
    | [] => mret (chain, true, 0)
    | o :: rest =>
        s ← mget;
        match is_ind s !! ind_key last with
        | None => mret (chain, false, - EIO)
        | Some _ =>
            ok ← verify_chain chain;
            if negb ok then mret (chain, false, - EAGAIN)
            else
              c ← add_chain (Some (ind_key last)) (PBlk (ind_key last) o);
              get_branch_loop rest (chain ++ [c]) c
        end
    end.
Definition nvfuse_get_branch (offsets : list Z) : M ist (list Indirect * bool * Z) :=
  match offsets with
  | [] => mabort
  | o :: rest => c ← add_chain None (PInode o); get_branch_loop rest [c] c
  end.

(** src/nvfuse_indirect.c: nvfuse_blks_to_allocate; [fuel] counts the words up
    to the boundary. *)
Fixpoint count_zeros (fuel : nat) (p : ptr) (count blks blocks_to_boundary : Z) : M ist Z :=
  match fuel with
  | O => mret count
  | S f =>
      if (count <? blks) && (count <=? blocks_to_boundary) then
        v ← load (shift p count);
        if v =? 0 then count_zeros f p (count + 1) blks blocks_to_boundary else mret count
      else mret count
  end.
Definition nvfuse_blks_to_allocate (branch : Indirect) (k blks blocks_to_boundary : Z) : M ist Z :=
  if 0 <? k then
    mret (if blks <? blocks_to_boundary + 1 then blks else blocks_to_boundary + 1)
  else count_zeros (Z.to_nat blocks_to_boundary) (ind_p branch) 1 blks blocks_to_boundary.

(** Stores [map] at [p + i], [p + i + 1], ... *)
Fixpoint store_map (p : ptr) (i : Z) (map : list Z) : M ist unit :=
  match map with
  | [] => mret tt
  | b :: rest => store (shift p i) b;; store_map p (i + 1) rest
  end.

(** The loop of nvfuse_alloc_branch over the new indirect blocks: [parent] is
    new_blocks[n - 1], [news] starts at new_blocks[n].  The buffer of the new
    block is cleared whatever the cache held for it. *)
Fixpoint alloc_branch_loop (parent : Z) (news offsets : list Z) (direct_map : list Z)
  : M ist (list Indirect) :=
  match news, offsets with
  | new :: news', o :: offsets' =>
      mmodify (set_ind parent (repeat 0 (Z.to_nat PTRS_PER_BLOCK)));;
      let p := PBlk parent o in
      massert (o =? 0);;                               (* assert (!offsets[n]) *)
      store p new;;
      (if bool_decide (news' = []) then
         store (shift p 0) new;; store_map p 1 direct_map
       else mret tt);;
      mark_dirty_bh parent;;
      rest ← alloc_branch_loop new news' offsets' direct_map;
      mret (mk_indirect p new (Some parent) :: rest)
  | _, _ => mret []
  end.

Section ops.
Context (primary : bool).

(** src/nvfuse_indirect.c: nvfuse_alloc_branch: the filled branch (its first
    element carries the key for the missing link), the data blocks after the
    first, and [*blks].  A failed allocation does not return (see
    nvfuse_alloc_free_blocks). *)
Definition nvfuse_alloc_branch (indirect_blks blks : Z) (offsets : list Z) (branch0 : Indirect)
  : M ist (list Indirect * list Z * Z) :=
  s ← mget;
  '(new_blocks, direct_map) ← on_fs (nvfuse_alloc_free_blocks primary (is_ino s) indirect_blks blks);
  match new_blocks with
  | [] => mabort
  | new0 :: news =>
      rest ← alloc_branch_loop new0 news (drop 1 offsets) direct_map;
      mret (mk_indirect (ind_p branch0) new0 (ind_bh branch0) :: rest, direct_map, blks)
  end.

(** src/nvfuse_indirect.c: nvfuse_splice_branch *)
Definition nvfuse_splice_branch (where_ : Indirect) (direct_map : list Z) (num blks : Z) : M ist unit :=
  store (ind_p where_) (ind_key where_);;
  (if (num =? 0) && (1 <? blks) then store_map (ind_p where_) 1 (take (Z.to_nat (blks - 1)) direct_map)
   else mret tt);;
  match ind_bh where_ with Some b => mark_dirty_bh b | None => mret tt end;;
  mark_inode_dirty.

(** The loop of nvfuse_get_block that extends a found mapping over contiguous
    blocks; [None] is the -EAGAIN exit. *)
Fixpoint map_more (fuel : nat) (chain : list Indirect) (p : ptr) (first_block count maxblocks boundary : Z)
  : M ist (option Z) :=
  match fuel with
  | O => mret (Some count)
  | S f =>
      if (count <? maxblocks) && (count <=? boundary) then
        ok ← verify_chain chain;
        if negb ok then mret None
        else
          blk ← load (shift p count);
          if blk =? u32 (first_block + count)
          then map_more f chain p first_block (count + 1) maxblocks boundary
          else mret (Some count)
      else mret (Some count)
  end.

(** src/nvfuse_indirect.c: nvfuse_get_block: the return value,
    [*num_alloc_blocks] and [*pblock]. *)
Definition nvfuse_get_block (lblock maxblocks : Z) (create : bool) : M ist (Z * Z * Z) :=
  let '(offsets, boundary) := nvfuse_block_to_path lblock in
  let boundary := s32 boundary in
  if bool_decide (offsets = []) then mret (-1, 0, 0)
  else
    '(chain, full, err) ← nvfuse_get_branch offsets;
    match last chain with
    | None => mabort
    | Some lst =>
        if (full : bool) then
          more ← map_more (Z.to_nat boundary) chain (ind_p lst) (ind_key lst) 1 maxblocks boundary;
          match more with
          | Some count => mret (0, count, ind_key lst)
          | None => mabort           (* -EAGAIN with a complete chain *)
          end
        else if negb create || (err =? - EIO) then mret (err, 0, 0)
        else
          let depth := Z.of_nat (length offsets) in
          let indirect_blks := depth - Z.of_nat (length chain) in
          count ← nvfuse_blks_to_allocate lst indirect_blks maxblocks boundary;
          '(branch, direct_map, count) ←
            nvfuse_alloc_branch indirect_blks count (drop (length chain - 1) offsets) lst;
          match branch with
          | [] => mabort
          | where_ :: _ =>
              nvfuse_splice_branch where_ direct_map indirect_blks count;;
              match last branch with
              | Some c => mret (0, count, ind_key c)
              | None => mabort
              end
          end
    end.

(** ** Truncation *)

(** Runs [f] on every element of [l], in order. *)
Fixpoint for_each {A} (f : A -> M ist unit) (l : list A) : M ist unit :=
  match l with [] => mret tt | x :: rest => f x;; for_each f rest end.

(** The pointers [p, p + 1, ...] of an array, from index [lo] up to [hi]. *)
Definition words_of (arr : Z -> ptr) (lo hi : Z) : list ptr := arr <$> range lo hi.

(** src/nvfuse_indirect.c: nvfuse_free_data.  Contiguous block numbers are
    freed with one call; [count] is the length of the run being collected. *)
Fixpoint free_data_loop (ps : list ptr) (block_to_free count : Z) : M ist unit :=
  match ps with
  | [] =>
      if 0 <? count then on_fs (nvfuse_free_blocks primary (u32 block_to_free) (u32 count));; mark_inode_dirty
      else mret tt
  | p :: rest =>
      nr ← load p;
      if nr =? 0 then free_data_loop rest block_to_free count
      else
        store p 0;;
        if count =? 0 then free_data_loop rest nr 1
        else if block_to_free =? u64 (nr - count) then free_data_loop rest block_to_free (count + 1)
        else
          on_fs (nvfuse_free_blocks primary (u32 block_to_free) (u32 count));;
          mark_inode_dirty;;
          free_data_loop rest nr 1
  end.
Definition nvfuse_free_data (ps : list ptr) : M ist unit := free_data_loop ps 0 0.

(** src/nvfuse_indirect.c: nvfuse_free_branches on an array of pointers; the
    slot is cleared before the subtree is freed, and a block that cannot be
    read is skipped. *)
Fixpoint nvfuse_free_branches (depth : nat) : list ptr -> M ist unit :=
  match depth with
  | O => nvfuse_free_data
  | S d => for_each (fun p =>
      nr ← load p;
      if nr =? 0 then mret tt
      else
        store p 0;;
        s ← mget;
        match is_ind s !! nr with
        | None => mret tt
        | Some _ =>
            nvfuse_free_branches d (words_of (PBlk nr) 0 PTRS_PER_BLOCK);;
            mark_dirty_bh nr;;
            on_fs (nvfuse_free_blocks primary (u32 nr) 1);;
            mark_inode_dirty
        end)
  end.

(** nvfuse_free_branches on the one-element array [&nr], a local variable of
    the caller that is not read again. *)
Definition free_branch (nr : Z) (depth : nat) : M ist unit :=
  if nr =? 0 then mret tt
  else
    match depth with
    | O => on_fs (nvfuse_free_blocks primary (u32 nr) 1);; mark_inode_dirty
    | S d =>
        s ← mget;
        match is_ind s !! nr with
        | None => mret tt
        | Some _ =>
            nvfuse_free_branches d (words_of (PBlk nr) 0 PTRS_PER_BLOCK);;
            mark_dirty_bh nr;;
            on_fs (nvfuse_free_blocks primary (u32 nr) 1);;
            mark_inode_dirty
        end
    end.

(** src/nvfuse_indirect.c: all_zeroes on the words of block [b] before [o] *)
Definition all_zeroes (b o : Z) (s : ist) : bool :=
  match is_ind s !! b with
  | Some ws => forallb (Z.eqb 0) (take (Z.to_nat o) ws)
  | None => true
  end.

(** The number of offsets left when trailing zero offsets are dropped, at
    least one ([for (k = depth; k > 1 && !offsets[k - 1]; k--)]). *)
Fixpoint strip_zero_offsets (k : nat) (offsets : list Z) : nat :=
  match k with
  | S (S k' as k1) => if bool_decide (offsets !! k1 = Some 0) then strip_zero_offsets k1 offsets else k
  | _ => k
  end.

(** [for (p = partial; p > chain && all_zeroes (...); p--)] *)
Fixpoint climb (i : nat) (chain : list Indirect) (s : ist) : nat :=
  match i with
  | O => O
  | S i' =>
      match chain !! i with
      | Some (mk_indirect (PBlk b o) _ _) => if all_zeroes b o s then climb i' chain s else i
      | _ => i
      end
  end.

(** src/nvfuse_indirect.c: nvfuse_find_shared: the chain, the index of the
    element it returns, and [*top]. *)
Definition nvfuse_find_shared (offsets : list Z) : M ist (list Indirect * nat * Z) :=
  let k := strip_zero_offsets (length offsets) offsets in
  '(chain, full, err) ← nvfuse_get_branch (take k offsets);
  let partial := (length chain - 1)%nat in
  c ← mlift (chain !! partial);
  v ← load (ind_p c);
  if (ind_key c =? 0) && negb (v =? 0) then mret (chain, partial, 0)
  else
    s ← mget;
    let i := climb partial chain s in
    c ← mlift (chain !! i);
    if bool_decide (i = (k - 1)%nat) && bool_decide (0 < i)%nat then
      mret (<[i := mk_indirect (shift (ind_p c) (-1)) (ind_key c) (ind_bh c)]> chain, i, 0)
    else
      top ← load (ind_p c);
      store (ind_p c) 0;;
      mret (chain, i, top).

(** The loop of __nvfuse_truncate_blocks that clears the ends of the indirect
    blocks on the shared branch, from chain index [i] up to the inode. *)
Fixpoint clear_ends (i n : nat) (chain : list Indirect) : M ist unit :=
  match i with
  | O => mret tt
  | S i' =>
      c ← mlift (chain !! i);
      match ind_p c with
      | PBlk b o =>
          nvfuse_free_branches (n - 1 - i) (words_of (PBlk b) (o + 1) PTRS_PER_BLOCK);;
          mark_dirty_bh b;;
          clear_ends i' n chain
      | PInode _ => mabort
      end
  end.

(** [nr = i_data[slot]; if (nr) ...] of the switch at the end. *)
Definition kill_subtree (slot : Z) (depth : nat) : M ist unit :=
  nr ← load (PInode slot);
  if nr =? 0 then mret tt
  else store (PInode slot) 0;; mark_inode_dirty;; free_branch nr depth.

(** src/nvfuse_indirect.c: __nvfuse_truncate_blocks (called by
    nvfuse_truncate_blocks with the same arguments) *)
Definition nvfuse_truncate_blocks (offset : Z) : M ist unit :=
  let iblock := s32 (Z.shiftr (s64 (u64 (offset + CLUSTER_SIZE - 1))) CLUSTER_SIZE_BITS) in
  let '(offsets, _) := nvfuse_block_to_path iblock in
  let n := length offsets in
  match offsets with
  | [] => mret tt
  | o0 :: _ =>
      (if bool_decide (n = 1%nat) then nvfuse_free_data (words_of PInode o0 DIRECT_BLOCKS)
       else
         '(chain, i, nr) ← nvfuse_find_shared offsets;
         (if negb (nr =? 0) then
            match chain !! i with
            | Some (mk_indirect _ _ (Some b)) => mark_dirty_bh b
            | _ => mark_inode_dirty
            end;;
            free_branch nr (n - 1 - i)
          else mret tt);;
         clear_ends i n chain);;
      (if o0 <? INDIRECT_BLOCKS then kill_subtree INDIRECT_BLOCKS 1 else mret tt);;
      (if o0 <? DINDIRECT_BLOCKS then kill_subtree DINDIRECT_BLOCKS 2 else mret tt);;
      (if o0 <? TINDIRECT_BLOCKS then kill_subtree TINDIRECT_BLOCKS 3 else mret tt)
  end.

End ops.

End Indirect.
