(* ===== verification/IndirectSpec.v ===== *)
(** * The block map as a tree: paths, nodes and the tree invariant

    A position in the block map is a path of offsets from the inode.  [node]
    is the block a path leads to (0 when it is absent), [tree_wf] says that the
    blocks of the tree are distinct, in use, and that every inner node is an
    indirect block of 1024 words.  The lemmas here describe what one store into
    a missing slot does to all paths. *)
From S2P Require Import Prelude Bitmap Layout BgList Alloc AllocSpec Indirect.
Import Alloc AllocSpec Indirect.

Module IndirectSpec.

(** ** Paths *)

(** Length of the paths below slot [o] of the inode. *)
Definition depth_of (o : Z) : nat :=
  if o <? DIRECT_BLOCKS then 1 else if o =? INDIRECT_BLOCKS then 2
  else if o =? DINDIRECT_BLOCKS then 3 else 4.

Definition prefix_ok (P : list Z) : Prop :=
  match P with
  | [] => False
  | o :: R => 0 <= o < 14 /\ Forall (fun x => 0 <= x < PTRS_PER_BLOCK) R /\ (length P <= depth_of o)%nat
  end.
Definition path_depth (P : list Z) : nat := match P with [] => 0 | o :: _ => depth_of o end.
Definition is_leaf (P : list Z) : Prop := length P = path_depth P.

(** The file block at the end of a complete path. *)
Definition path_to_block (P : list Z) : Z :=
  match P with
  | [o] => o
  | [_; a] => 11 + a
  | [_; a; b] => 11 + 1024 + (a * 1024 + b)
  | [_; a; b; c] => 11 + 1024 + 1024 * 1024 + (a * 1024 * 1024 + b * 1024 + c)
  | _ => -1
  end.
Definition max_block : Z := 11 + 1024 + 1024 * 1024 + 1024 * 1024 * 1024.

Definition path (b : Z) : list Z := (nvfuse_block_to_path b).1.
Definition boundary (b : Z) : Z := (nvfuse_block_to_path b).2.

(** Number of slots of the array the last pointer of a path lives in. *)
Definition last_cap (P : list Z) : Z := match P with [_] => DIRECT_BLOCKS | _ => PTRS_PER_BLOCK end.

Lemma land_1023 x : Z.land x (PTRS_PER_BLOCK - 1) = x mod 1024.
Proof. change (PTRS_PER_BLOCK - 1) with (Z.ones 10). rewrite Z.land_ones by lia. done. Qed.
Lemma shiftr_10 x : Z.shiftr x PTRS_PER_BLOCK_BITS = x / 1024.
Proof. unfold PTRS_PER_BLOCK_BITS. rewrite Z.shiftr_div_pow2 by lia. done. Qed.
Lemma shiftr_20 x : Z.shiftr x (PTRS_PER_BLOCK_BITS * 2) = x / 1048576.
Proof. unfold PTRS_PER_BLOCK_BITS. rewrite Z.shiftr_div_pow2 by lia. done. Qed.

Ltac path_norm :=
  unfold nvfuse_block_to_path; rewrite ?land_1023, ?shiftr_10, ?shiftr_20;
  change (Z.shiftl 1 (PTRS_PER_BLOCK_BITS * 2)) with 1048576;
  change PTRS_PER_BLOCK with 1024; change DIRECT_BLOCKS with 11.

(** The four ranges of file blocks, with the path and boundary of each. *)
Lemma block_to_path_cases b :
  (b < 0 /\ path b = []) \/
  (0 <= b < 11 /\ nvfuse_block_to_path b = ([b], 10 - b)) \/
  (exists a, 0 <= a < 1024 /\ b = 11 + a /\ nvfuse_block_to_path b = ([11; a], 1023 - a)) \/
  (exists a c, 0 <= a < 1024 /\ 0 <= c < 1024 /\ b = 11 + 1024 + (a * 1024 + c) /\
     nvfuse_block_to_path b = ([12; a; c], 1023 - c)) \/
  (exists a c e, 0 <= a < 1024 /\ 0 <= c < 1024 /\ 0 <= e < 1024 /\
     b = 11 + 1024 + 1048576 + (a * 1048576 + c * 1024 + e) /\
     nvfuse_block_to_path b = ([13; a; c; e], 1023 - e)) \/
  (max_block <= b /\ path b = []).
Proof.
  unfold path, max_block. path_norm.
  destruct (Z.ltb_spec b 0); [left; done|].
  destruct (Z.ltb_spec b 11).
  { right; left. split; [lia|]. rewrite Z.mod_small by lia. rewrite u32_small by lia. f_equal; lia. }
  destruct (Z.ltb_spec (b - 11) 1024).
  { do 2 right; left. exists (b - 11). split; [lia|]. split; [lia|].
    rewrite Z.mod_small by lia. rewrite u32_small by lia. f_equal; lia. }
  destruct (Z.ltb_spec (b - 11 - 1024) (1024 * 1024)).
  { do 3 right; left. set (x := b - 11 - 1024) in *.
    pose proof (Z.div_mod x 1024). pose proof (Z.mod_pos_bound x 1024).
    exists (x / 1024), (x mod 1024). split; [split; [apply Z.div_pos; lia|apply Z.div_lt_upper_bound; lia]|].
    split; [lia|]. split; [lia|]. rewrite u32_small by lia. f_equal; lia. }
  set (x := b - 11 - 1024 - 1048576) in *.
  destruct (Z.ltb_spec (x / 1048576) 1024) as [H3|H3].
  { do 4 right; left.
    assert (x < 1024 * 1048576) by (apply Z.nle_gt; intros Hle; pose proof (Z.div_le_lower_bound x 1048576 1024 ltac:(lia) ltac:(lia)); lia).
    pose proof (Z.div_mod x 1024). pose proof (Z.mod_pos_bound x 1024).
    pose proof (Z.div_mod (x / 1024) 1024). pose proof (Z.mod_pos_bound (x / 1024) 1024).
    assert (x / 1048576 = x / 1024 / 1024) as Ed by (rewrite Z.div_div by lia; done).
    exists (x / 1048576), ((x / 1024) mod 1024), (x mod 1024).
    split; [split; [apply Z.div_pos; lia|done]|]. split; [lia|]. split; [lia|]. split; [lia|].
    rewrite u32_small by lia. f_equal; lia. }
  do 5 right. split; [|done]. apply Z.nlt_ge. intros Hlt.
  assert (x / 1048576 < 1024) by (apply Z.div_lt_upper_bound; lia). lia.
Qed.

Lemma path_range b : path b <> [] <-> 0 <= b < max_block.
Proof.
  unfold path, max_block. destruct (block_to_path_cases b) as [[? E]|[[? E]|[(?&?&?&E)|[(?&?&?&?&?&E)|[(?&?&?&?&?&?&?&E)|[? E]]]]]];
    unfold path, max_block in *; rewrite E; simpl; split; intros; try done; lia.
Qed.

Ltac small_offsets :=
  repeat (apply Forall_cons; split; [change PTRS_PER_BLOCK with 1024; lia|]); by apply Forall_nil.

Lemma path_spec b : 0 <= b < max_block ->
  prefix_ok (path b) /\ is_leaf (path b) /\ path_to_block (path b) = b /\
  exists Q o, path b = Q ++ [o] /\ 0 <= o < last_cap (path b) /\ boundary b = last_cap (path b) - 1 - o.
Proof.
  unfold path, boundary, max_block. intros Hb.
  destruct (block_to_path_cases b) as [[? E]|[[? E]|[(a&Ha&Eb&E)|[(a&c&Ha&Hc&Eb&E)|[(a&c&e&Ha&Hc&He&Eb&E)|[? E]]]]]];
    unfold path, max_block in *; try lia; rewrite E; unfold prefix_ok, is_leaf, path_depth; cbn [fst snd].
  - assert (depth_of b = 1%nat) as D by (unfold depth_of, DIRECT_BLOCKS; rewrite (proj2 (Z.ltb_lt b 11)); [done|lia]).
    rewrite D. split; [split; [lia|]; split; [constructor|simpl; lia]|]. split; [done|]. split; [done|].
    exists [], b. split; [done|]. unfold last_cap, DIRECT_BLOCKS. lia.
  - change (depth_of 11) with 2%nat. split; [split; [lia|]; split; [small_offsets|simpl; lia]|].
    split; [done|]. split; [simpl; lia|]. exists [11], a. split; [done|]. change (last_cap _) with 1024. lia.
  - change (depth_of 12) with 3%nat. split; [split; [lia|]; split; [small_offsets|simpl; lia]|].
    split; [done|]. split; [simpl; lia|]. exists [12; a], c. split; [done|]. change (last_cap _) with 1024. lia.
  - change (depth_of 13) with 4%nat. split; [split; [lia|]; split; [small_offsets|simpl; lia]|].
    split; [done|]. split; [simpl; lia|]. exists [13; a; c], e. split; [done|]. change (last_cap _) with 1024. lia.
Qed.

(** A complete path has one of four shapes. *)
Lemma leaf_shapes P : prefix_ok P -> is_leaf P ->
  (exists o, P = [o] /\ 0 <= o < 11) \/ (exists a, P = [11; a] /\ 0 <= a < 1024) \/
  (exists a b, P = [12; a; b] /\ 0 <= a < 1024 /\ 0 <= b < 1024) \/
  (exists a b c, P = [13; a; b; c] /\ 0 <= a < 1024 /\ 0 <= b < 1024 /\ 0 <= c < 1024).
Proof.
  destruct P as [|o R]; [done|]. intros (Ho & HR & _) Hl. unfold is_leaf, path_depth, depth_of in Hl.
  change DIRECT_BLOCKS with 11 in Hl. change INDIRECT_BLOCKS with 11 in Hl. change DINDIRECT_BLOCKS with 12 in Hl.
  change PTRS_PER_BLOCK with 1024 in HR. rewrite Forall_forall in HR.
  destruct (Z.ltb_spec o 11); [|destruct (Z.eqb_spec o 11); [|destruct (Z.eqb_spec o 12)]].
  - left. destruct R; [|done]. eauto with lia.
  - right; left. destruct R as [|a [|]]; try done. exists a. subst. split; [done|]. apply HR, elem_of_cons. by left.
  - do 2 right; left. destruct R as [|a [|b [|]]]; try done. exists a, b. subst. split; [done|].
    split; apply HR; rewrite !elem_of_cons; auto.
  - do 3 right. destruct R as [|a [|b [|c [|]]]]; try done. exists a, b, c.
    assert (o = 13) as -> by lia. split; [done|]. split; [|split]; apply HR; rewrite !elem_of_cons; auto.
Qed.

Lemma path_of_block P : prefix_ok P -> is_leaf P ->
  0 <= path_to_block P < max_block /\ path (path_to_block P) = P.
Proof.
  intros H1 H2. unfold path, max_block.
  destruct (leaf_shapes P H1 H2) as [(o&->&Ho)|[(a&->&Ha)|[(a&b&->&Ha&Hb)|(a&b&c&->&Ha&Hb&Hc)]]]; simpl path_to_block;
    (split; [lia|]); match goal with |- context [nvfuse_block_to_path ?x] =>
      destruct (block_to_path_cases x) as [[? E]|[[? E]|[(?&?&?&E)|[(?&?&?&?&?&E)|[(?&?&?&?&?&?&?&E)|[? E]]]]]] end;
    unfold max_block in *; try lia; rewrite E; cbn [fst]; repeat f_equal; lia.
Qed.

(** ** Nodes *)

Definition child (s : ist) (b o : Z) : Z :=
  if b =? 0 then 0 else default 0 (deref (PBlk b o) s).
Fixpoint walk (s : ist) (b : Z) (R : list Z) : Z :=
  match R with [] => b | o :: R' => walk s (child s b o) R' end.
Definition node (s : ist) (P : list Z) : Z :=
  match P with [] => 0 | o :: R => walk s (default 0 (deref (PInode o) s)) R end.

(** The pointer that holds [node s (Q ++ [o])]. *)
Definition slot (s : ist) (Q : list Z) (o : Z) : ptr :=
  match Q with [] => PInode o | _ => PBlk (node s Q) o end.

(** The file block map this inode represents. *)
Definition lookup_block (s : ist) (b : Z) : Z := node s (path b).

Lemma walk_app s b R1 R2 : walk s b (R1 ++ R2) = walk s (walk s b R1) R2.
Proof. revert b. induction R1; simpl; auto. Qed.
Lemma walk_snoc s b R o : walk s b (R ++ [o]) = child s (walk s b R) o.
Proof. by rewrite walk_app. Qed.
Lemma node_app s P R : P <> [] -> node s (P ++ R) = walk s (node s P) R.
Proof. destruct P as [|o P]; [done|]. intros _. simpl. apply walk_app. Qed.
Lemma node_snoc s P o : P <> [] -> node s (P ++ [o]) = child s (node s P) o.
Proof. intros H. by rewrite node_app. Qed.
Lemma child_0 s o : child s 0 o = 0.
Proof. done. Qed.
Lemma walk_0 s R : walk s 0 R = 0.
Proof. induction R as [|o R IH]; [done|]. simpl. by rewrite child_0. Qed.

(** Nodes and blocks the tree is made of. *)
Definition live (s : ist) (b : Z) : Prop := data_block (is_fs s) b /\ block_used (is_fs s) b = true.

Record tree_wf (s : ist) : Prop := {
  tw_len : length (is_iblocks s) = 14%nat;
  tw_live : forall P, prefix_ok P -> node s P <> 0 -> live s (node s P);
  tw_inj : forall P Q, prefix_ok P -> prefix_ok Q -> node s P = node s Q -> node s P <> 0 -> P = Q;
  tw_ind : forall P, prefix_ok P -> ~ is_leaf P -> node s P <> 0 ->
    exists ws, is_ind s !! node s P = Some ws /\ length ws = Z.to_nat PTRS_PER_BLOCK }.

Lemma word_at_lookup l o : 0 <= o < Z.of_nat (length l) -> exists v, word_at l o = Some v.
Proof.
  intros H. unfold word_at. rewrite (proj2 (Z.leb_le 0 o)) by lia.
  apply lookup_lt_is_Some_2. lia.
Qed.

Lemma prefix_ok_app P R : P <> [] -> prefix_ok (P ++ R) -> prefix_ok P.
Proof.
  destruct P as [|o P]; [done|]. intros _. unfold prefix_ok. simpl. rewrite Forall_app, length_app.
  intros (? & [? ?] & ?). split; [done|]. split; [done|]. lia.
Qed.

Lemma prefix_ok_snoc Q o : Q <> [] -> prefix_ok (Q ++ [o]) -> prefix_ok Q /\ ~ is_leaf Q /\ 0 <= o < 1024.
Proof.
  intros HQ H. split; [by eapply prefix_ok_app|]. destruct Q as [|q Q]; [done|].
  unfold prefix_ok, is_leaf in *. simpl in *. rewrite length_app in H. simpl in H.
  destruct H as (? & [? [Ho _]%Forall_cons]%Forall_app & ?). split; [lia|].
  change PTRS_PER_BLOCK with 1024 in Ho. lia.
Qed.

Lemma prefix_ok_one o : prefix_ok [o] -> 0 <= o < 14.
Proof. intros (? & _). done. Qed.

(** The slot of a path under a present node holds that node. *)
Lemma deref_slot s Q o : tree_wf s -> prefix_ok (Q ++ [o]) -> (Q = [] \/ node s Q <> 0) ->
  deref (slot s Q o) s = Some (node s (Q ++ [o])).
Proof.
  intros [Hlen _ _ Hind] Hok HQ. destruct Q as [|q Q].
  - apply prefix_ok_one in Hok. simpl. destruct (word_at_lookup (is_iblocks s) o) as [v ->]; [lia|]. done.
  - destruct HQ as [?|HQ]; [done|]. assert (q :: Q <> []) as Hne by done.
    destruct (prefix_ok_snoc _ _ Hne Hok) as (Hp & Hl & Ho).
    destruct (Hind _ Hp Hl HQ) as (ws & Hws & Hlw).
    rewrite node_snoc by done. unfold child, slot. rewrite (proj2 (Z.eqb_neq _ 0)) by done.
    cbn [deref]. rewrite Hws. simpl. destruct (word_at_lookup ws o) as [v ->]; [|done].
    rewrite Hlw. change (Z.of_nat (Z.to_nat PTRS_PER_BLOCK)) with 1024. lia.
Qed.

(** ** Stores *)

#[export] Instance ptr_eq_dec : EqDecision ptr.
Proof. solve_decision. Defined.

(** What a store leaves alone besides the word it writes. *)
Record same_shape (s s' : ist) : Prop := {
  sh_fs : is_fs s' = is_fs s;
  sh_ino : is_ino s' = is_ino s;
  sh_len : length (is_iblocks s') = length (is_iblocks s);
  sh_ind : forall b, length <$> is_ind s' !! b = length <$> is_ind s !! b }.

#[export] Instance same_shape_refl : Reflexive same_shape.
Proof. done. Qed.
#[export] Instance same_shape_trans : Transitive same_shape.
Proof. intros ??? [] []. split; intros; congruence. Qed.

Lemma word_at_set l o v l' x : set_word l o v = Some l' ->
  word_at l' x = if decide (x = o) then Some v else word_at l x.
Proof.
  unfold set_word, word_at. destruct (Z.leb_spec 0 o); [|done]. destruct (Z.ltb_spec o (Z.of_nat (length l))); [|done].
  intros [= <-]. case_decide as E.
  - subst. rewrite (proj2 (Z.leb_le 0 o)) by lia. apply list_lookup_insert_eq. lia.
  - destruct (Z.leb_spec 0 x); [|done]. apply list_lookup_insert_ne. lia.
Qed.

Lemma set_word_length l o v l' : set_word l o v = Some l' -> length l' = length l.
Proof. unfold set_word. destruct (_ && _); [|done]. intros [= <-]. apply length_insert. Qed.

Lemma store_spec p v s s' : store_to p v s = Some s' ->
  same_shape s s' /\ forall q, deref q s' = if decide (q = p) then Some v else deref q s.
Proof.
  destruct p as [o|b o]; simpl.
  - destruct (set_word (is_iblocks s) o v) as [l|] eqn:E; [|done]. intros [= <-]. split.
    { split; try done. simpl. by eapply set_word_length. }
    intros [x|c x]; simpl; [|done]. rewrite (word_at_set _ _ _ _ _ E). repeat case_decide; congruence.
  - destruct (is_ind s !! b) as [ws|] eqn:Eb; [|done]. simpl.
    destruct (set_word ws o v) as [l|] eqn:E; [|done]. intros [= <-]. split.
    { split; try done. intros c. simpl. destruct (decide (c = b)) as [->|].
      - rewrite lookup_insert_eq, Eb. simpl. f_equal. by eapply set_word_length.
      - by rewrite lookup_insert_ne. }
    intros [x|c x]; simpl; [done|]. destruct (decide (c = b)) as [->|].
    + rewrite lookup_insert_eq, Eb. simpl. rewrite (word_at_set _ _ _ _ _ E). repeat case_decide; congruence.
    + rewrite lookup_insert_ne by done. rewrite decide_False; [done|]. congruence.
Qed.

Lemma store_total p v s x : deref p s = Some x -> exists s', store_to p v s = Some s'.
Proof.
  destruct p as [o|b o]; simpl.
  - unfold word_at, set_word. destruct (0 <=? o) eqn:E; [|done]. intros H%lookup_lt_Some. simpl.
    rewrite (proj2 (Z.ltb_lt o _)) by (apply Z.leb_le in E; lia). eauto.
  - destruct (is_ind s !! b) as [ws|]; [|done]. simpl.
    unfold word_at, set_word. destruct (0 <=? o) eqn:E; [|done]. intros H%lookup_lt_Some. simpl.
    rewrite (proj2 (Z.ltb_lt o _)) by (apply Z.leb_le in E; lia). simpl. eauto.
Qed.

(** ** Attaching a subtree at a missing slot *)

(** [Q] is [P] or lies below it. *)
Definition below (P Q : list Z) : option (list Z) :=
  if decide (take (length P) Q = P) then Some (drop (length P) Q) else None.

Lemma below_Some P Q R : below P Q = Some R <-> Q = P ++ R.
Proof.
  unfold below. split.
  - case_decide as E; [|done]. intros [= <-]. by rewrite <- E at 1; rewrite take_drop.
  - intros ->. by rewrite take_app_length, drop_app_length, decide_True.
Qed.
Lemma below_snoc P Q o : below P Q = None -> below P (Q ++ [o]) = if decide (Q ++ [o] = P) then Some [] else None.
Proof.
  intros H. case_decide as E.
  - apply below_Some. by rewrite app_nil_r.
  - destruct (below P (Q ++ [o])) as [R|] eqn:EB; [|done]. exfalso. apply below_Some in EB.
    destruct R as [|x R _] using rev_ind; [by rewrite app_nil_r in EB|].
    rewrite app_assoc in EB. apply app_inj_tail in EB as [EB _].
    assert (below P Q = Some R) by (by apply below_Some). congruence.
Qed.

Section attach.
Context (s s' : ist) (Q0 : list Z) (o0 b : Z).
Let P0 := Q0 ++ [o0].
Context (Hwf : tree_wf s) (Hok : prefix_ok P0) (Hpar : Q0 = [] \/ node s Q0 <> 0)
        (Hnone : node s P0 = 0) (Hst : store_to (slot s Q0 o0) b s = Some s').
(** The subtree that grows from [b] is made of live blocks that are not in the
    tree yet, each at one position. *)
Context (Hsub : forall R, prefix_ok (P0 ++ R) -> walk s b R <> 0 ->
           live s (walk s b R) /\ (forall Q, prefix_ok Q -> node s Q <> walk s b R) /\
           (~ is_leaf (P0 ++ R) -> exists ws, is_ind s !! walk s b R = Some ws /\ length ws = Z.to_nat PTRS_PER_BLOCK))
        (Hinj : forall R R', prefix_ok (P0 ++ R) -> prefix_ok (P0 ++ R') ->
           walk s b R = walk s b R' -> walk s b R <> 0 -> R = R').

Lemma attach_child c o : PBlk c o <> slot s Q0 o0 -> child s' c o = child s c o.
Proof.
  intros H. destruct (store_spec _ _ _ _ Hst) as [_ Hd]. unfold child. rewrite Hd.
  by rewrite decide_False.
Qed.

Lemma attach_walk R : prefix_ok (P0 ++ R) -> walk s' b R = walk s b R.
Proof.
  induction R as [|o R IH] using rev_ind; [done|]. rewrite app_assoc. intros HR.
  assert (P0 ++ R <> []) as Hne by (subst P0; by destruct Q0).
  destruct (prefix_ok_snoc _ _ Hne HR) as (Hp & Hl & Ho).
  rewrite !walk_snoc, IH by done. destruct (Z.eq_dec (walk s b R) 0) as [->|Hnz]; [by rewrite !child_0|].
  apply attach_child. unfold slot. destruct Q0 as [|q Q]; [done|]. intros [= E _].
  destruct (Hsub R Hp Hnz) as (_ & Hfresh & _). apply (Hfresh (q :: Q)); [|done].
  eapply prefix_ok_app; [done|exact Hok].
Qed.

(** The nodes after the store: the new subtree below [P0], the old tree
    everywhere else. *)
Lemma attach_node Q : prefix_ok Q ->
  node s' Q = match below P0 Q with Some R => walk s b R | None => node s Q end.
Proof.
  destruct (store_spec _ _ _ _ Hst) as [_ Hd].
  induction Q as [|o Q IH] using rev_ind; [done|]. intros HQ.
  destruct Q as [|q Q].
  - change ([] ++ [o]) with [o]. cbn [node walk]. rewrite Hd.
    destruct (decide (PInode o = slot s Q0 o0)) as [E|E].
    + unfold slot in E. destruct Q0 as [|q Q]; [|done]. injection E as ->.
      assert (below P0 [o0] = Some []) as -> by (by apply below_Some). done.
    + destruct (below P0 [o]) as [R|] eqn:EB; [|done]. exfalso. apply below_Some in EB.
      unfold P0 in EB. destruct Q0 as [|q Q]; [|by destruct Q]. injection EB as -> _. done.
  - assert (q :: Q <> []) as Hne by done. destruct (prefix_ok_snoc _ _ Hne HQ) as (Hp & Hl & Ho).
    rewrite node_snoc, IH by done. destruct (below P0 (q :: Q)) as [R|] eqn:EB.
    + apply below_Some in EB.
      assert (below P0 ((q :: Q) ++ [o]) = Some (R ++ [o])) as -> by (apply below_Some; by rewrite EB, app_assoc).
      rewrite walk_snoc. assert (prefix_ok (P0 ++ R ++ [o])) as HR by (by rewrite app_assoc, <- EB).
      pose proof (attach_walk (R ++ [o]) HR) as Hw. rewrite !walk_snoc in Hw.
      rewrite attach_walk in Hw; [done|]. by rewrite <- EB.
    + rewrite below_snoc by done. destruct (decide ((q :: Q) ++ [o] = P0)) as [E|E].
      * unfold P0 in E. apply app_inj_tail in E as [E ->]. simpl walk. unfold child. rewrite Hd.
        destruct Hpar as [Hnil|Hq]; [subst Q0; done|].
        rewrite E, (proj2 (Z.eqb_neq _ 0)) by done. rewrite decide_True; [done|].
        unfold slot. by destruct Q0.
      * destruct (Z.eq_dec (node s (q :: Q)) 0) as [Hz|Hz].
        { rewrite (node_snoc s (q :: Q)) by done. rewrite Hz. by rewrite !child_0. }
        rewrite node_snoc by done. apply attach_child. unfold slot. destruct Q0 as [|q0 Q1]; [done|].
        intros [= E1 E2]. apply E. unfold P0. rewrite E2. f_equal.
        destruct Hpar as [?|Hq]; [done|]. apply (tw_inj s Hwf); try done.
        by eapply prefix_ok_app, Hok.
Qed.

Lemma attach_wf : tree_wf s'.
Proof.
  destruct (store_spec _ _ _ _ Hst) as [[Hfs _ Hlen Hind] _].
  assert (forall c, live s c -> live s' c) as Hlive by (intros c; unfold live; by rewrite Hfs).
  assert (forall c, (exists ws, is_ind s !! c = Some ws /\ length ws = Z.to_nat PTRS_PER_BLOCK) ->
                    exists ws, is_ind s' !! c = Some ws /\ length ws = Z.to_nat PTRS_PER_BLOCK) as Hkeep.
  { intros c (ws & Hws & Hl). specialize (Hind c). rewrite Hws in Hind.
    destruct (is_ind s' !! c) as [ws'|]; [|done]. exists ws'. simpl in Hind. split; [done|]. congruence. }
  split.
  - rewrite Hlen. apply Hwf.
  - intros P HP. rewrite attach_node by done. destruct (below P0 P) as [R|] eqn:E.
    + apply below_Some in E. subst P. intros Hnz. apply Hlive. by apply Hsub.
    + intros Hnz. apply Hlive. by apply (tw_live s Hwf).
  - intros P Q HP HQ. rewrite !attach_node by done.
    destruct (below P0 P) as [R|] eqn:EP, (below P0 Q) as [R'|] eqn:EQ; intros Heq Hnz.
    + apply below_Some in EP, EQ. subst. f_equal. by apply Hinj.
    + apply below_Some in EP. subst P. destruct (Hsub R HP Hnz) as (_ & Hf & _). by destruct (Hf Q HQ).
    + apply below_Some in EQ. subst Q. rewrite Heq in Hnz.
      destruct (Hsub R' HQ Hnz) as (_ & Hf & _). by destruct (Hf P HP).
    + by apply (tw_inj s Hwf).
  - intros P HP Hl. rewrite attach_node by done. destruct (below P0 P) as [R|] eqn:E; intros Hnz; apply Hkeep.
    + apply below_Some in E. subst P. by apply Hsub.
    + by apply (tw_ind s Hwf).
Qed.

End attach.

(** ** Reading a branch *)

(** The chain element of slot [Q ++ [o]]. *)
Definition entry (s : ist) (Q : list Z) (o : Z) : Indirect :=
  mk_indirect (slot s Q o) (node s (Q ++ [o])) (match Q with [] => None | _ => Some (node s Q) end).
Fixpoint chain_from (s : ist) (Q R : list Z) : list Indirect :=
  match R with [] => [] | o :: R' => entry s Q o :: chain_from s (Q ++ [o]) R' end.

Lemma chain_from_snoc s R o : forall Q, chain_from s Q (R ++ [o]) = chain_from s Q R ++ [entry s (Q ++ R) o].
Proof.
  induction R as [|x R IH]; intros Q; simpl; [by rewrite app_nil_r|].
  rewrite IH. by rewrite <- app_assoc.
Qed.
Lemma chain_from_length s R : forall Q, length (chain_from s Q R) = length R.
Proof. induction R; simpl; auto. Qed.

(** Every strict prefix of [Q] is present. *)
Definition strict_nz (s : ist) (Q : list Z) : Prop :=
  forall Q' R', Q = Q' ++ R' -> Q' <> [] -> R' <> [] -> node s Q' <> 0.

Lemma strict_nz_snoc s Q o : strict_nz s Q -> node s Q <> 0 -> strict_nz s (Q ++ [o]).
Proof.
  intros H Hn Q' R' E HQ HR. destruct R' as [|x R' _] using rev_ind; [done|].
  rewrite app_assoc in E. apply app_inj_tail in E as [E _]. destruct R' as [|y R'].
  - rewrite app_nil_r in E. by subst.
  - by apply (H Q' (y :: R')).
Qed.

Lemma strict_nz_app s Q R : strict_nz s (Q ++ R) -> strict_nz s Q.
Proof. intros H Q' R' -> HQ HR. apply (H Q' (R' ++ R)); [by rewrite app_assoc|done|]. by destruct R'. Qed.

Lemma verify_chain_from s R : forall Q, tree_wf s -> prefix_ok (Q ++ R) -> R <> [] ->
  strict_nz s (Q ++ R) -> verify_chain (chain_from s Q R) s = Some (true, s).
Proof.
  induction R as [|o R IH]; intros Q Hwf Hok HR Hnz; [done|]. simpl.
  assert (Q ++ o :: R = (Q ++ [o]) ++ R) as E by (by rewrite <- app_assoc). rewrite E in Hok, Hnz.
  assert (prefix_ok (Q ++ [o])) as Hok1 by (eapply prefix_ok_app; [by destruct Q|exact Hok]).
  unfold mbind, M_bind, load, mlift. rewrite deref_slot; [|done|done|].
  - rewrite Z.eqb_refl. destruct R as [|x R]; [done|]. by apply IH.
  - destruct Q as [|q Q]; [by left|]. right. apply (Hnz (q :: Q) ([o] ++ R)); [by rewrite app_assoc|done|done].
Qed.

Lemma get_branch_loop_spec s R : forall Q o,
  tree_wf s -> prefix_ok ((Q ++ [o]) ++ R) -> strict_nz s (Q ++ [o]) ->
  exists Q1 R1 full, Q ++ [o] ++ R = Q1 ++ R1 /\ (exists R0, Q1 = (Q ++ [o]) ++ R0) /\
    get_branch_loop R (chain_from s [] (Q ++ [o])) (entry s Q o) s = Some ((chain_from s [] Q1, full, 0), s) /\
    strict_nz s Q1 /\ (if full : bool then R1 = [] /\ node s Q1 <> 0 else node s Q1 = 0).
Proof.
  induction R as [|x R IH]; intros Q o Hwf Hok Hnz; cbn [get_branch_loop]; cbn [ind_key entry].
  - exists (Q ++ [o]), []. destruct (Z.eqb_spec (node s (Q ++ [o])) 0) as [E|E].
    + exists false. split; [by rewrite !app_nil_r|]. split; [exists []; by rewrite app_nil_r|]. done.
    + exists true. split; [by rewrite !app_nil_r|]. split; [exists []; by rewrite app_nil_r|]. done.
  - destruct (Z.eqb_spec (node s (Q ++ [o])) 0) as [E|E].
    + exists (Q ++ [o]), (x :: R), false. split; [by rewrite app_assoc|].
      split; [exists []; by rewrite app_nil_r|]. done.
    + assert (Q ++ [o] <> []) as Hne by (by destruct Q).
      assert (prefix_ok (((Q ++ [o]) ++ [x]) ++ R)) as Hok2 by (by rewrite <- app_assoc).
      assert (prefix_ok ((Q ++ [o]) ++ [x])) as Hok1 by (eapply prefix_ok_app; [|exact Hok2]; by destruct (Q ++ [o])).
      destruct (prefix_ok_snoc _ _ Hne Hok1) as (Hp & Hl & Hx).
      destruct (tw_ind s Hwf _ Hp Hl E) as (ws & Hws & _).
      unfold mbind at 1, M_bind at 1, mget. rewrite Hws. unfold mbind at 1, M_bind at 1.
      rewrite verify_chain_from by (try done; by destruct Q).
      cbn [negb]. unfold mbind at 1, M_bind at 1, add_chain, load, mlift. unfold mbind, M_bind.
      assert (PBlk (node s (Q ++ [o])) x = slot s (Q ++ [o]) x) as -> by (by destruct Q).
      rewrite deref_slot by (try done; by right). cbn [mret M_ret]. unfold mret, M_ret.
      assert (mk_indirect (slot s (Q ++ [o]) x) (node s ((Q ++ [o]) ++ [x])) (Some (node s (Q ++ [o])))
              = entry s (Q ++ [o]) x) as -> by (unfold entry; by destruct Q).
      assert (chain_from s [] (Q ++ [o]) ++ [entry s (Q ++ [o]) x] = chain_from s [] ((Q ++ [o]) ++ [x])) as ->
        by (by rewrite (chain_from_snoc s (Q ++ [o]) x [])).
      destruct (IH (Q ++ [o]) x Hwf Hok2) as (Q1 & R1 & full & E1 & (R0 & E2) & Hrun & Hs & Hf);
        [by apply strict_nz_snoc|].
      exists Q1, R1, full. split; [by rewrite <- E1, <- !app_assoc|].
      split; [exists ([x] ++ R0); by rewrite E2, <- !app_assoc|]. done.
Qed.

(** nvfuse_get_branch follows a path as far as it is present. *)
Lemma get_branch_spec s P : tree_wf s -> prefix_ok P ->
  exists Q R full, P = Q ++ R /\ Q <> [] /\
    nvfuse_get_branch P s = Some ((chain_from s [] Q, full, 0), s) /\
    strict_nz s Q /\ (if full : bool then R = [] /\ node s Q <> 0 else node s Q = 0).
Proof.
  intros Hwf Hok. destruct P as [|o R]; [done|]. cbn [nvfuse_get_branch].
  destruct (get_branch_loop_spec s R [] o Hwf Hok) as (Q & R1 & full & E & (R0 & E2) & Hrun & Hs & Hf).
  { intros Q' R' E HQ HR. destruct Q' as [|? [|]]; [done| |done]. destruct R'; done. }
  exists Q, R1, full. split; [done|]. split; [by rewrite E2|]. split; [|done].
  unfold mbind at 1, M_bind at 1, add_chain, load, mlift. unfold mbind, M_bind.
  change (PInode o) with (slot s [] o).
  rewrite deref_slot; [|done|apply (prefix_ok_app _ R); done|by left].
  exact Hrun.
Qed.

(** The first missing level is unique. *)
Lemma first_missing s Q R Q1 R1 (full : bool) :
  Q ++ R = Q1 ++ R1 -> Q <> [] -> Q1 <> [] -> strict_nz s Q -> node s Q = 0 -> strict_nz s Q1 ->
  (if full then R1 = [] /\ node s Q1 <> 0 else node s Q1 = 0) -> full = false /\ Q1 = Q /\ R1 = R.
Proof.
  intros E HQ HQ1 Hs Hz Hs1 Hf.
  assert (full = false) as ->.
  { destruct full; [|done]. destruct Hf as [-> Hf]. exfalso. apply Hf.
    rewrite app_nil_r in E. rewrite <- E, node_app by done. by rewrite Hz, walk_0. }
  split; [done|].
  assert (forall A B C D, A ++ B = C ++ D -> A <> [] -> C <> [] -> node s A = 0 -> strict_nz s C ->
            (length C <= length A)%nat) as Hle.
  { intros A B C D EE HA HC HzA HsC. destruct (decide (length C <= length A)%nat) as [|Hgt]; [done|]. exfalso.
    assert (C = A ++ drop (length A) C) as EC.
    { assert (take (length A) C = A) as H.
      { transitivity (take (length A) (C ++ D)); [by rewrite take_app_le by lia|]. rewrite <- EE.
        apply take_app_length. }
      rewrite <- H at 1. by rewrite take_drop. }
    apply (HsC A (drop (length A) C)); try done. intros Hnil. apply (f_equal length) in Hnil.
    rewrite length_drop in Hnil. simpl in Hnil. lia. }
  assert (length Q = length Q1) as Hl.
  { pose proof (Hle Q R Q1 R1 E HQ HQ1 Hz Hs1). pose proof (Hle Q1 R1 Q R (eq_sym E) HQ1 HQ Hf Hs). lia. }
  apply app_inj_1 in E as [-> ->]; done.
Qed.

End IndirectSpec.
