(* ===== verification/IndirectGet.v ===== *)
(** * nvfuse_get_block: lookup and allocation refine a partial map

    On a well-formed tree a lookup returns the block of the path, and an
    allocating call maps exactly the requested run of file blocks to fresh
    blocks and leaves every other file block alone. *)
From S2P Require Import Prelude Bitmap Layout BgList Alloc AllocSpec Indirect IndirectSpec.
Import Alloc AllocSpec Indirect IndirectSpec.

Module IndirectGet.

(** ** Neighbouring file blocks *)

Lemma leaf_sibling Q o o' : prefix_ok (Q ++ [o]) -> is_leaf (Q ++ [o]) -> 0 <= o' < last_cap (Q ++ [o]) ->
  prefix_ok (Q ++ [o']) /\ is_leaf (Q ++ [o']) /\
  path_to_block (Q ++ [o']) = path_to_block (Q ++ [o]) + (o' - o) /\ last_cap (Q ++ [o']) = last_cap (Q ++ [o]).
Proof.
  intros H1 H2 H3.
  destruct (leaf_shapes _ H1 H2) as [(x&E&Hx)|[(a&E&Ha)|[(a&b&E&Ha&Hb)|(a&b&c&E&Ha&Hb&Hc)]]].
  - destruct Q as [|q Q]; [|by destruct Q]. injection E as ->. cbn [app last_cap] in *.
    change DIRECT_BLOCKS with 11 in H3.
    assert (depth_of o' = 1%nat) as D by (unfold depth_of, DIRECT_BLOCKS; rewrite (proj2 (Z.ltb_lt o' 11)); [done|lia]).
    unfold prefix_ok, is_leaf, path_depth. rewrite D. split; [split; [lia|]; split; [constructor|simpl; lia]|].
    split; [done|]. split; [simpl; lia|done].
  - change [11; a] with ([11] ++ [a]) in E. apply app_inj_tail in E as [-> ->]. cbn [app last_cap] in *.
    change PTRS_PER_BLOCK with 1024 in H3.
    split; [split; [lia|]; split; [small_offsets|by apply Nat.leb_le]|]. split; [done|]. split; [simpl; lia|done].
  - change [12; a; b] with ([12; a] ++ [b]) in E. apply app_inj_tail in E as [-> ->]. cbn [app last_cap] in *.
    change PTRS_PER_BLOCK with 1024 in H3.
    split; [split; [lia|]; split; [small_offsets|by apply Nat.leb_le]|]. split; [done|]. split; [simpl; lia|done].
  - change [13; a; b; c] with ([13; a; b] ++ [c]) in E. apply app_inj_tail in E as [-> ->]. cbn [app last_cap] in *.
    change PTRS_PER_BLOCK with 1024 in H3.
    split; [split; [lia|]; split; [small_offsets|by apply Nat.leb_le]|]. split; [done|]. split; [simpl; lia|done].
Qed.

Lemma path_sibling b Q o i : 0 <= b < max_block -> path b = Q ++ [o] -> 0 <= o + i < last_cap (Q ++ [o]) ->
  path (b + i) = Q ++ [o + i] /\ 0 <= b + i < max_block /\ prefix_ok (Q ++ [o + i]).
Proof.
  intros Hb HP Hi. destruct (path_spec b Hb) as (Hok & Hleaf & Hpb & _). rewrite HP in *.
  destruct (leaf_sibling Q o (o + i) Hok Hleaf Hi) as (Hok' & Hleaf' & Hpb' & _).
  destruct (path_of_block _ Hok' Hleaf') as [Hr Hp]. rewrite Hpb', Hpb in Hr, Hp.
  replace (b + (o + i - o)) with (b + i) in * by lia. done.
Qed.

Lemma shift_slot s Q o i : shift (slot s Q o) i = slot s Q (o + i).
Proof. by destruct Q. Qed.

Lemma last_cap_bounds P : 11 <= last_cap P <= 1024.
Proof. unfold last_cap. change PTRS_PER_BLOCK with 1024. change DIRECT_BLOCKS with 11. destruct P as [|? [|]]; lia. Qed.

(** The invariant of a file at hand: the tree and the allocator below it. *)
Record file_inv (s : ist) : Prop := {
  fi_tree : tree_wf s;
  fi_alloc : inv (is_fs s);
  fi_hint : hint_ok (is_fs s);
  fi_ino : 0 <= is_ino s < sb_bg_num (fs_sb (is_fs s)) * sb_no_of_inodes_per_bg (fs_sb (is_fs s)) }.

Lemma live_u32 s b : inv (is_fs s) -> live s b -> 0 <= b < 2 ^ 32.
Proof. intros Hinv [[Hb _] _]. destruct (inv_geo _ Hinv). lia. Qed.

(** ** Lookup *)

Lemma map_more_spec s Q o maxb bd fuel : forall cnt,
  tree_wf s -> prefix_ok (Q ++ [o]) -> strict_nz s (Q ++ [o]) -> is_leaf (Q ++ [o]) ->
  0 <= o -> o + bd < last_cap (Q ++ [o]) -> 1 <= cnt -> bd - cnt < Z.of_nat fuel ->
  (forall j, 0 <= j < cnt -> node s (Q ++ [o + j]) = u32 (node s (Q ++ [o]) + j)) ->
  exists cnt', map_more fuel (chain_from s [] (Q ++ [o])) (slot s Q o) (node s (Q ++ [o])) cnt maxb bd s
      = Some (Some cnt', s) /\
    cnt <= cnt' /\ (cnt' <= cnt \/ (cnt' <= maxb /\ cnt' <= bd + 1)) /\
    (forall j, 0 <= j < cnt' -> node s (Q ++ [o + j]) = u32 (node s (Q ++ [o]) + j)).
Proof.
  induction fuel as [|fuel IH]; intros cnt Hwf Hok Hnz Hleaf Ho Hbd Hc Hf Hall.
  - exists cnt. split; [done|]. split; [lia|]. split; [by left; lia|done].
  - cbn [map_more]. destruct (Z.ltb_spec cnt maxb) as [H1|H1];
      [|exists cnt; split; [done|]; split; [lia|]; split; [by left; lia|done]].
    destruct (Z.leb_spec cnt bd) as [H2|H2];
      [|exists cnt; split; [done|]; split; [lia|]; split; [by left; lia|done]].
    cbn [andb]. unfold mbind at 1, M_bind at 1. rewrite verify_chain_from by (try done; by destruct Q).
    cbn [negb]. unfold mbind, M_bind, load, mlift. rewrite shift_slot.
    destruct (leaf_sibling Q o (o + cnt) Hok Hleaf ltac:(lia)) as (Hok' & _).
    rewrite deref_slot; [|done|done|].
    2:{ destruct Q as [|q Q]; [by left|]. right. by apply (Hnz (q :: Q) [o]). }
    destruct (Z.eqb_spec (node s (Q ++ [o + cnt])) (u32 (node s (Q ++ [o]) + cnt))) as [E|E].
    + destruct (IH (cnt + 1)) as (cnt' & Hr & Hle & Hb & Ha); try done; try lia.
      { intros j Hj. destruct (Z.eq_dec j cnt) as [->|]; [done|]. apply Hall. lia. }
      exists cnt'. split; [done|]. split; [lia|]. split; [|done]. right. lia.
    + exists cnt. split; [done|]. split; [lia|]. split; [by left; lia|done].
Qed.

(** nvfuse_get_block without allocation is a lookup in the tree. *)
Lemma get_block_lookup_run s lb maxb :
  file_inv s -> 0 <= lb < max_block ->
  exists cnt, nvfuse_get_block true lb maxb false s = Some ((0, cnt, lookup_block s lb), s) /\
    (lookup_block s lb = 0 -> cnt = 0) /\
    (lookup_block s lb <> 0 -> 1 <= cnt /\ cnt <= Z.max 1 maxb /\
       forall j, 0 <= j < cnt -> lb + j < max_block /\
         lookup_block s (lb + j) = u32 (lookup_block s lb + j)).
Proof.
  intros [Hwf Hinv _ _] Hlb. destruct (path_spec lb Hlb) as (Hok & Hleaf & Hpb & Q & o & HP & Ho & Hbd).
  pose proof (fun i => path_sibling lb Q o i Hlb HP) as Hsib. unfold lookup_block, nvfuse_get_block. rewrite HP in *. unfold path, boundary in HP, Hbd.
  destruct (nvfuse_block_to_path lb) as [offs bd]. cbn [fst snd] in *. subst offs.
  pose proof (last_cap_bounds (Q ++ [o])) as Hcap. rewrite s32_small by lia.
  rewrite bool_decide_eq_false_2 by (by destruct Q). unfold mbind at 1, M_bind at 1.
  destruct (get_branch_spec s (Q ++ [o]) Hwf Hok) as (Q1 & R1 & full & E & Hne & -> & Hs & Hf).
  cbv beta iota.
  assert (exists q x, Q1 = q ++ [x]) as (q & x & ->)
    by (destruct Q1 as [|x q _] using rev_ind; [done|eauto]).
  rewrite chain_from_snoc, last_snoc. cbn [app]. destruct full.
  - destruct Hf as [-> Hnz]. rewrite app_nil_r in E. rewrite <- E in *. apply app_inj_tail in E as [<- <-].
    cbn [ind_p ind_key entry]. unfold mbind, M_bind.
    destruct (map_more_spec s Q o maxb bd (Z.to_nat bd) 1) as (cnt & Hm & H1 & H2 & H3); try done; try lia.
    { intros j Hj. replace j with 0 by lia. rewrite !Z.add_0_r. rewrite u32_small; [done|].
      by eapply live_u32, (tw_live s Hwf). }
    rewrite chain_from_snoc in Hm. cbn [app] in Hm. rewrite Hm. exists cnt. split; [done|].
    split; [intros; done|]. intros _. split; [lia|]. split; [lia|]. intros j Hj.
    destruct (Hsib j) as (Hps & ? & _); [lia|]. split; [lia|].
    rewrite Hps. by apply H3.
  - exists 0. cbn [negb orb]. split.
    + rewrite E, node_app by done. rewrite Hf, walk_0. done.
    + split; [done|]. intros Hnz. exfalso. apply Hnz. rewrite E, node_app by done. by rewrite Hf, walk_0.
Qed.

(** ** States with the same tree *)

Lemma walk_ext s s' : (forall b o, deref (PBlk b o) s' = deref (PBlk b o) s) ->
  forall R b, walk s' b R = walk s b R.
Proof. intros H R. induction R as [|o R IH]; intros b; [done|]. cbn [walk]. unfold child. by rewrite H, IH. Qed.

Lemma node_ext s s' P : (forall q, deref q s' = deref q s) -> node s' P = node s P.
Proof. intros H. destruct P as [|o R]; [done|]. cbn [node]. rewrite H. by apply walk_ext. Qed.

(** Only the allocator grew, or only dirty marks changed. *)
Lemma tree_wf_mono s s' :
  is_ind s' = is_ind s -> is_iblocks s' = is_iblocks s -> (forall b, live s b -> live s' b) ->
  tree_wf s -> tree_wf s' /\ forall P, node s' P = node s P.
Proof.
  intros E1 E2 Hlive [Hlen Hl Hinj Hind].
  assert (forall P, node s' P = node s P) as Hn.
  { intros P. apply node_ext. intros [o|b o]; simpl; by rewrite ?E1, ?E2. }
  split; [|done]. split.
  - by rewrite E2.
  - intros P. rewrite Hn. auto.
  - intros P Q. rewrite !Hn. apply Hinj.
  - intros P. rewrite Hn, E1. apply Hind.
Qed.

Lemma alloc_live s f l b : alloc_step (is_fs s) f l -> live s b -> live (set_fs f s) b.
Proof.
  intros S [Hd Hu]. split; [by apply (data_block_frame (is_fs s) f); [apply S|]|].
  simpl. rewrite (as_used _ _ _ S) by apply Hd. by rewrite Hu.
Qed.

(** Blocks an allocation returned: live afterwards, not in the tree. *)
Lemma alloc_fresh s f l b : file_inv s -> alloc_step (is_fs s) f l -> b ∈ l ->
  live (set_fs f s) b /\ b <> 0 /\ block_used (is_fs s) b = false /\
  (forall Q, prefix_ok Q -> node s Q <> b).
Proof.
  intros [Hwf Hinv _ _] S Hb. destruct (as_fresh _ _ _ S b Hb) as [Hd Hu].
  assert (b <> 0) as Hnz.
  { intros ->. destruct Hd as [_ Hd]. destruct (inv_geo _ Hinv) as [Hgn _ Hgb _ _ _].
    change (sb_no_of_blocks_per_bg (fs_sb (is_fs s))) with (per_bg (is_fs s)) in Hgn.
    rewrite Z.div_0_l, Z.mod_0_l in Hd by lia.
    destruct (inv_group (is_fs s) 0 Hinv) as (d & ib & db & _ & _ & _ & _ & Hst & Hds & _); lia. }
  split; [split|].
  - by apply (data_block_frame (is_fs s) f); [apply S|].
  - simpl. rewrite (as_used _ _ _ S) by apply Hd. rewrite bool_decide_eq_true_2 by done. apply orb_true_r.
  - split; [done|]. split; [done|]. intros Q HQ E. destruct (tw_live s Hwf Q HQ) as [_ Hl]; [by rewrite E|].
    rewrite E in Hl. congruence.
Qed.

(** ** Counting and writing runs of slots *)

Lemma count_zeros_spec s Q o blks bd fuel : forall cnt,
  tree_wf s -> prefix_ok (Q ++ [o]) -> is_leaf (Q ++ [o]) -> (Q = [] \/ node s Q <> 0) ->
  0 <= o -> o + bd < last_cap (Q ++ [o]) -> 1 <= cnt -> cnt <= blks -> cnt <= bd + 1 ->
  bd - cnt < Z.of_nat fuel ->
  (forall j, 0 <= j < cnt -> node s (Q ++ [o + j]) = 0) ->
  exists cnt', count_zeros fuel (slot s Q o) cnt blks bd s = Some (cnt', s) /\
    cnt <= cnt' <= blks /\ cnt' <= bd + 1 /\ (forall j, 0 <= j < cnt' -> node s (Q ++ [o + j]) = 0).
Proof.
  induction fuel as [|fuel IH]; intros cnt Hwf Hok Hleaf HQ Ho Hbd Hc Hcb Hcd Hf Hall.
  - exists cnt. split; [done|]. split; [lia|]. split; [lia|done].
  - cbn [count_zeros]. destruct (Z.ltb_spec cnt blks) as [H1|H1];
      [|exists cnt; split; [done|]; split; [lia|]; split; [lia|done]].
    destruct (Z.leb_spec cnt bd) as [H2|H2]; [|exists cnt; split; [done|]; split; [lia|]; split; [lia|done]].
    cbn [andb]. unfold mbind, M_bind, load, mlift. rewrite shift_slot.
    destruct (leaf_sibling Q o (o + cnt) Hok Hleaf ltac:(lia)) as (Hok' & _).
    rewrite deref_slot by done. destruct (Z.eqb_spec (node s (Q ++ [o + cnt])) 0) as [E|E].
    + destruct (IH (cnt + 1)) as (cnt' & Hr & Hle & Hb & Ha); try done; try lia.
      { intros j Hj. destruct (Z.eq_dec j cnt) as [->|]; [done|]. apply Hall. lia. }
      exists cnt'. split; [done|]. split; [lia|]. split; [lia|done].
    + exists cnt. split; [done|]. split; [lia|]. split; [lia|done].
Qed.

(** Attaching one data block at a missing leaf slot. *)
Lemma attach_leaf s Q o b :
  tree_wf s -> prefix_ok (Q ++ [o]) -> is_leaf (Q ++ [o]) -> (Q = [] \/ node s Q <> 0) ->
  node s (Q ++ [o]) = 0 -> b <> 0 -> live s b -> (forall X, prefix_ok X -> node s X <> b) ->
  exists s', store (slot s Q o) b s = Some (tt, s') /\ same_shape s s' /\ tree_wf s' /\
    forall X, prefix_ok X -> node s' X = if decide (X = Q ++ [o]) then b else node s X.
Proof.
  intros Hwf Hok Hleaf HQ Hnone Hb Hlive Hfresh.
  assert (forall R, prefix_ok ((Q ++ [o]) ++ R) -> R = []) as Hnil.
  { intros R HR. destruct R as [|x R]; [done|exfalso].
    assert (prefix_ok ((Q ++ [o]) ++ [x])) as H1.
    { apply (prefix_ok_app _ R); [by destruct Q|]. by rewrite <- app_assoc. }
    destruct (prefix_ok_snoc (Q ++ [o]) x) as (_ & Hnl & _); [by destruct Q|done|done]. }
  destruct (store_total (slot s Q o) b s _ (deref_slot s Q o Hwf Hok HQ)) as (s' & Hst).
  exists s'. unfold store. rewrite Hst. split; [done|].
  split; [apply (store_spec _ _ _ _ Hst)|].
  assert (forall R, prefix_ok ((Q ++ [o]) ++ R) -> walk s b R <> 0 ->
    live s (walk s b R) /\ (forall X, prefix_ok X -> node s X <> walk s b R) /\
    (~ is_leaf ((Q ++ [o]) ++ R) -> exists ws, is_ind s !! walk s b R = Some ws /\ length ws = Z.to_nat PTRS_PER_BLOCK)) as Hsub.
  { intros R HR _. rewrite (Hnil R HR) in *. split; [done|]. split; [done|]. rewrite app_nil_r. done. }
  assert (forall R R', prefix_ok ((Q ++ [o]) ++ R) -> prefix_ok ((Q ++ [o]) ++ R') ->
    walk s b R = walk s b R' -> walk s b R <> 0 -> R = R') as Hinj.
  { intros R R' HR HR' _ _. by rewrite (Hnil R HR), (Hnil R' HR'). }
  split; [by eapply (attach_wf s s' Q o b)|]. intros X HX.
  rewrite (attach_node s s' Q o b) by done. destruct (below (Q ++ [o]) X) as [R|] eqn:E.
  - apply below_Some in E. subst X. rewrite (Hnil R HX), app_nil_r, decide_True by done. done.
  - rewrite decide_False; [done|]. intros ->.
    assert (below (Q ++ [o]) (Q ++ [o]) = Some []) by (apply below_Some; by rewrite app_nil_r). congruence.
Qed.

(** Attaching a run of data blocks at consecutive missing leaf slots. *)
Lemma attach_run dm : forall s Q o i,
  tree_wf s -> (forall j, 0 <= j < Z.of_nat (length dm) ->
    prefix_ok (Q ++ [o + i + j]) /\ is_leaf (Q ++ [o + i + j]) /\ node s (Q ++ [o + i + j]) = 0) ->
  (Q = [] \/ node s Q <> 0) -> NoDup dm ->
  (forall b, b ∈ dm -> b <> 0 /\ live s b /\ forall X, prefix_ok X -> node s X <> b) ->
  exists s', store_map (slot s Q o) i dm s = Some (tt, s') /\ same_shape s s' /\ tree_wf s' /\
    (forall j b, dm !! j = Some b -> node s' (Q ++ [o + i + Z.of_nat j]) = b) /\
    (forall X, prefix_ok X -> (forall j, 0 <= j < Z.of_nat (length dm) -> X <> Q ++ [o + i + j]) ->
       node s' X = node s X).
Proof.
  induction dm as [|b dm IH]; intros s Q o i Hwf Hslots HQ Hnd Hfresh.
  - exists s. split; [done|]. split; [done|]. split; [done|]. split; [done|]. done.
  - cbn [store_map]. unfold mbind, M_bind. rewrite shift_slot.
    destruct (Hslots 0) as (Hok & Hleaf & Hz); [simpl; lia|]. rewrite Z.add_0_r in Hok, Hleaf, Hz.
    destruct (Hfresh b) as (Hb0 & Hbl & Hbf); [apply elem_of_cons; by left|].
    destruct (attach_leaf s Q (o + i) b) as (s1 & -> & Hsh1 & Hwf1 & Hn1); try done.
    apply NoDup_cons in Hnd as [Hbn Hnd].
    assert (slot s Q o = slot s1 Q o) as ->.
    { unfold slot. destruct Q as [|q Q]; [done|]. f_equal. symmetry. rewrite Hn1.
      - rewrite decide_False; [done|]. intros E. apply (f_equal length) in E. rewrite length_app in E. simpl in E. lia.
      - eapply prefix_ok_app; [done|exact Hok]. }
    destruct (IH s1 Q o (i + 1)) as (s2 & -> & Hsh2 & Hwf2 & Hn2 & Hf2); try done.
    + intros j Hj. destruct (Hslots (1 + j)) as (H1 & H2 & H3); [simpl; lia|].
      replace (o + i + (1 + j)) with (o + (i + 1) + j) in * by lia. split; [done|]. split; [done|].
      rewrite Hn1 by done. rewrite decide_False; [done|]. intros E. apply app_inj_tail in E. lia.
    + destruct HQ as [->|HQ]; [by left|]. right. rewrite Hn1; [|eapply prefix_ok_app; [by intros ->|exact Hok]].
      case_decide as E; [|done]. apply (f_equal length) in E. rewrite length_app in E. simpl in E. lia.
    + intros c Hc. destruct (Hfresh c) as (H1 & H2 & H3); [apply elem_of_cons; by right|].
      split; [done|]. split; [by unfold live in *; rewrite (sh_fs _ _ Hsh1)|].
      intros X HX. rewrite Hn1 by done. case_decide; [|by apply H3]. intros ->. done.
    + exists s2. split; [done|]. split; [by etrans|]. split; [done|]. split.
      * intros [|j] c Hc; simpl in Hc.
        -- injection Hc as ->. rewrite Z.add_0_r. rewrite Hf2; [|done|].
           ++ rewrite Hn1 by done. by rewrite decide_True.
           ++ intros j Hj E. apply app_inj_tail in E. lia.
        -- replace (o + i + Z.of_nat (S j)) with (o + (i + 1) + Z.of_nat j) by lia. by apply Hn2.
      * intros X HX Hne. rewrite Hf2; [|done|].
        -- rewrite Hn1 by done. rewrite decide_False; [done|]. rewrite <- (Z.add_0_r (o + i)). apply Hne. simpl. lia.
        -- intros j Hj. replace (o + (i + 1) + j) with (o + i + (1 + j)) by lia. apply Hne. simpl. lia.
Qed.

(** ** Building a new branch *)

(** Where the offsets [R] lead below the new block [b] when [news] are the
    blocks chained under it and [dm] the data blocks after the last of them. *)
Fixpoint cwalk (b : Z) (news dm R : list Z) : Z :=
  match R with
  | [] => b
  | o :: R' =>
      match news with
      | [] => 0
      | n :: news' =>
          if bool_decide (news' = []) then default 0 ((n :: dm) !! Z.to_nat o)
          else if o =? 0 then cwalk n news' dm R' else 0
      end
  end.

(** The words of block [b] after a run of stores from slot [i] on. *)
Lemma store_map_block dm : forall s b i,
  0 <= i -> (forall x, 0 <= x < 1024 -> exists v, deref (PBlk b x) s = Some v) ->
  i + Z.of_nat (length dm) <= 1024 ->
  exists s', store_map (PBlk b 0) i dm s = Some (tt, s') /\ same_shape s s' /\
    (forall c x, c <> b -> deref (PBlk c x) s' = deref (PBlk c x) s) /\
    (forall o, deref (PInode o) s' = deref (PInode o) s) /\
    (forall x, 0 <= x < 1024 -> deref (PBlk b x) s' =
       match dm !! Z.to_nat (x - i) with
       | Some v => if decide (i <= x) then Some v else deref (PBlk b x) s
       | None => deref (PBlk b x) s
       end).
Proof.
  induction dm as [|v dm IH]; intros s b i Hi Hd Hlen.
  - exists s. split; [done|]. split; [done|]. done.
  - cbn [store_map length] in *. unfold mbind, M_bind. cbn [shift]. rewrite Z.add_0_l.
    destruct (Hd i) as [w Hw]; [lia|]. destruct (store_total _ v s w Hw) as (s1 & E1).
    destruct (store_spec _ _ _ _ E1) as [Hsh1 Hd1]. unfold store at 1. rewrite E1.
    destruct (IH s1 b (i + 1)) as (s2 & -> & Hsh2 & Hc2 & Hi2 & Hd2); [lia| |lia|].
    { intros x Hx. rewrite Hd1. case_decide; eauto. }
    exists s2. split; [done|]. split; [by etrans|]. split; [|split].
    + intros c x Hc. rewrite Hc2 by done. rewrite Hd1, decide_False; [done|]. congruence.
    + intros o. rewrite Hi2, Hd1. by rewrite decide_False.
    + intros x Hx. rewrite Hd2, !Hd1 by done. destruct (decide (x = i)) as [->|Hne].
      * rewrite (decide_True (P := PBlk b i = PBlk b i)) by done.
        rewrite Z.sub_diag. change (Z.to_nat 0) with O. cbn [lookup list_lookup].
        rewrite (decide_True (P := i <= i)) by lia.
        destruct (dm !! Z.to_nat (i - (i + 1))); [|done]. by rewrite decide_False by lia.
      * rewrite (decide_False (P := PBlk b x = PBlk b i)) by congruence.
        destruct (decide (i <= x)) as [Hle|Hle].
        -- replace (Z.to_nat (x - i)) with (S (Z.to_nat (x - (i + 1)))) by lia. cbn [lookup list_lookup].
           change (list_lookup ?k dm) with (dm !! k).
           destruct (dm !! Z.to_nat (x - (i + 1))); [|done]. by rewrite decide_True by lia.
        -- destruct (dm !! Z.to_nat (x - (i + 1))); [rewrite decide_False by lia|];
             by destruct ((v :: dm) !! Z.to_nat (x - i)).
Qed.

Definition zeros_block : list Z := repeat 0 (Z.to_nat PTRS_PER_BLOCK).

Lemma deref_zeros s b x : 0 <= x < 1024 -> deref (PBlk b x) (set_ind b zeros_block s) = Some 0.
Proof.
  intros Hx. cbn [deref is_ind set_ind]. rewrite lookup_insert_eq. simpl. unfold word_at.
  rewrite (proj2 (Z.leb_le 0 x)) by lia. apply lookup_repeat.
  change (Z.to_nat PTRS_PER_BLOCK) with 1024%nat. lia.
Qed.

(** One new indirect block: cleared, its first word set, and below the last
    one also the run of data blocks. *)
Lemma new_block_words s parent n (lastp : bool) dm :
  Z.of_nat (length dm) <= 1023 ->
  exists s', (store (PBlk parent 0) n;;
      (if lastp then store (shift (PBlk parent 0) 0) n;; store_map (PBlk parent 0) 1 dm else mret tt))
      (set_ind parent zeros_block s) = Some (tt, s') /\
    is_fs s' = is_fs s /\ is_ino s' = is_ino s /\
    (forall o, deref (PInode o) s' = deref (PInode o) s) /\
    length (is_iblocks s') = length (is_iblocks s) /\
    (forall c x, c <> parent -> deref (PBlk c x) s' = deref (PBlk c x) s) /\
    (forall c, c <> parent -> length <$> is_ind s' !! c = length <$> is_ind s !! c) /\
    (exists ws, is_ind s' !! parent = Some ws /\ length ws = Z.to_nat PTRS_PER_BLOCK) /\
    (forall x, 0 <= x < 1024 -> deref (PBlk parent x) s' =
       Some (if lastp then default 0 ((n :: dm) !! Z.to_nat x) else if x =? 0 then n else 0)).
Proof.
  intros Hlen. set (s0 := set_ind parent zeros_block s).
  assert (forall s1, same_shape s0 s1 ->
    (exists ws, is_ind s1 !! parent = Some ws /\ length ws = Z.to_nat PTRS_PER_BLOCK) /\
    (forall c, c <> parent -> length <$> is_ind s1 !! c = length <$> is_ind s !! c)) as Hkeep.
  { intros s1 [_ _ _ Hi]. split.
    - specialize (Hi parent). unfold s0 in Hi. cbn [is_ind set_ind] in Hi. rewrite lookup_insert_eq in Hi.
      destruct (is_ind s1 !! parent) as [ws|]; [|done]. exists ws. split; [done|]. simpl in Hi.
      injection Hi as ->. done.
    - intros c Hc. rewrite Hi. unfold s0. cbn [is_ind set_ind]. by rewrite lookup_insert_ne. }
  assert (forall c x, c <> parent -> deref (PBlk c x) s0 = deref (PBlk c x) s) as Hoth.
  { intros c x Hc. unfold s0. cbn [deref is_ind set_ind]. by rewrite lookup_insert_ne. }
  destruct (store_total (PBlk parent 0) n s0 0) as (s1 & E1); [apply deref_zeros; lia|].
  destruct (store_spec _ _ _ _ E1) as [Hsh1 Hd1].
  unfold mbind, M_bind. unfold store at 1. rewrite E1. destruct lastp.
  - cbn [shift]. rewrite Z.add_0_l.
    destruct (store_total (PBlk parent 0) n s1 n) as (s2 & E2); [by rewrite Hd1, decide_True|].
    destruct (store_spec _ _ _ _ E2) as [Hsh2 Hd2]. unfold store at 1. rewrite E2.
    assert (forall x, 0 <= x < 1024 -> deref (PBlk parent x) s2 = Some (if x =? 0 then n else 0)) as Hw.
    { intros x Hx. rewrite Hd2, Hd1. destruct (Z.eqb_spec x 0) as [->|]; [by rewrite decide_True|].
      rewrite !decide_False by congruence. by apply deref_zeros. }
    destruct (store_map_block dm s2 parent 1) as (s3 & -> & Hsh3 & Hc3 & Hi3 & Hd3); [lia|eauto|lia|].
    assert (same_shape s0 s3) as Hsh by (etrans; [exact Hsh1|]; by etrans).
    exists s3. split; [done|]. split; [apply Hsh|]. split; [apply Hsh|].
    split; [intros o; by rewrite Hi3, Hd2, Hd1, !decide_False|]. split; [apply Hsh|].
    split; [intros c x Hc; rewrite Hc3, Hd2, Hd1, !decide_False by congruence; by apply Hoth|].
    split; [by apply Hkeep|]. split; [by apply Hkeep|].
    intros x Hx. rewrite Hd3, Hw by done. destruct (Z.eqb_spec x 0) as [->|Hne].
    + destruct (dm !! Z.to_nat (0 - 1)); [by rewrite decide_False by lia|done].
    + replace (Z.to_nat x) with (S (Z.to_nat (x - 1))) by lia. cbn [lookup list_lookup].
      change (list_lookup ?k dm) with (dm !! k).
      destruct (dm !! Z.to_nat (x - 1)); [by rewrite decide_True by lia|done].
  - exists s1. split; [done|]. split; [apply Hsh1|]. split; [apply Hsh1|].
    split; [intros o; by rewrite Hd1, decide_False|]. split; [apply Hsh1|].
    split; [intros c x Hc; rewrite Hd1, decide_False by congruence; by apply Hoth|].
    split; [by apply Hkeep|]. split; [by apply Hkeep|].
    intros x Hx. rewrite Hd1. destruct (Z.eqb_spec x 0) as [->|]; [by rewrite decide_True|].
    rewrite decide_False by congruence. by apply deref_zeros.
Qed.

Notation small := (Forall (fun x => 0 <= x < PTRS_PER_BLOCK)).

Lemma alloc_branch_loop_S parent n news o offs dm s :
  alloc_branch_loop parent (n :: news) (o :: offs) dm s =
  if o =? 0 then
    match (store (PBlk parent o) n;;
           (if bool_decide (news = []) then store (shift (PBlk parent o) 0) n;; store_map (PBlk parent o) 1 dm
            else mret tt)) (set_ind parent zeros_block s) with
    | Some (_, s1) =>
        match alloc_branch_loop n news offs dm
                (mk_ist (is_fs s1) (is_ind s1) (is_ino s1) (is_iblocks s1) ({[ parent ]} ∪ is_dirty s1) (is_idirty s1)) with
        | Some (rest, s2) => Some (mk_indirect (PBlk parent o) n (Some parent) :: rest, s2)
        | None => None
        end
    | None => None
    end
  else None.
Proof.
  cbn [alloc_branch_loop]. unfold mbind, M_bind, mmodify, massert, mark_dirty_bh, mmodify.
  change (repeat 0 (Z.to_nat PTRS_PER_BLOCK)) with zeros_block.
  destruct (o =? 0); [|done]. destruct (store (PBlk parent o) n _) as [[? s1]|]; [|done].
  destruct (bool_decide (news = [])).
  - destruct (store (shift (PBlk parent o) 0) n s1) as [[? s2]|]; [|done].
    destruct (store_map (PBlk parent o) 1 dm s2) as [[? s3]|]; done.
  - done.
Qed.

(** The new branch is detached: it is only reachable from its first block, and
    its words are those of [cwalk]. *)
Lemma alloc_branch_loop_spec dm news : forall parent offs s,
  NoDup (parent :: news) -> Forall (fun b => b <> 0) (parent :: news) -> Z.of_nat (length dm) <= 1023 ->
  length offs = length news -> Forall (fun o => o = 0) offs ->
  exists rest s', alloc_branch_loop parent news offs dm s = Some (rest, s') /\
    is_fs s' = is_fs s /\ is_ino s' = is_ino s /\
    (forall o, deref (PInode o) s' = deref (PInode o) s) /\ length (is_iblocks s') = length (is_iblocks s) /\
    (forall c x, c ∉ parent :: news -> deref (PBlk c x) s' = deref (PBlk c x) s) /\
    (forall c, c ∉ parent :: news -> length <$> is_ind s' !! c = length <$> is_ind s !! c) /\
    (forall R, (length R <= length news)%nat -> small R ->
       walk s' parent R = cwalk parent news dm R /\
       ((length R < length news)%nat -> cwalk parent news dm R <> 0 ->
          exists ws, is_ind s' !! cwalk parent news dm R = Some ws /\ length ws = Z.to_nat PTRS_PER_BLOCK)) /\
    ind_key <$> last rest = last news.
Proof.
  induction news as [|n news IH]; intros parent offs s Hnd Hnz Hdm Hlen Hz.
  - exists [], s. destruct offs; [|done]. split; [done|]. repeat (split; [done|]). split; [|done].
    intros R HR _. destruct R; [|simpl in HR; lia]. split; [done|]. simpl. lia.
  - destruct offs as [|o offs]; [done|]. apply Forall_cons in Hz as [-> Hz]. injection Hlen as Hlen.
    apply NoDup_cons in Hnd as [Hpar Hnd]. apply Forall_cons in Hnz as [Hp0 Hnz].
    rewrite alloc_branch_loop_S, Z.eqb_refl.
    destruct (new_block_words s parent n (bool_decide (news = [])) dm Hdm)
      as (s1 & -> & Hfs & Hino & Hi & Hlen1 & Hc & Hcl & (ws & Hws & Hwl) & Hw).
    cbv beta iota. set (s1' := mk_ist _ _ _ _ _ _).
    destruct (IH n offs s1') as (rest & s2 & -> & Hfs2 & Hino2 & Hi2 & Hlen2 & Hc2 & Hcl2 & HR2 & Hlast); try done.
    assert (forall x, deref (PBlk parent x) s2 = deref (PBlk parent x) s1) as Hpw by (intros x; by rewrite Hc2).
    assert (exists ws', is_ind s2 !! parent = Some ws' /\ length ws' = Z.to_nat PTRS_PER_BLOCK) as Hpl.
    { specialize (Hcl2 parent Hpar). simpl in Hcl2. rewrite Hws in Hcl2.
      destruct (is_ind s2 !! parent) as [ws'|]; [|done]. exists ws'. split; [done|]. simpl in Hcl2. congruence. }
    exists (mk_indirect (PBlk parent 0) n (Some parent) :: rest), s2. split; [done|].
    split; [by rewrite Hfs2|]. split; [by rewrite Hino2|].
    split; [intros x; rewrite Hi2; apply Hi|]. split; [by rewrite Hlen2|].
    split; [intros c x [Hcp Hcn]%not_elem_of_cons; rewrite Hc2 by done; by apply Hc|].
    split; [intros c [Hcp Hcn]%not_elem_of_cons; rewrite Hcl2 by done; by apply Hcl|].
    split.
    + intros [|x R] HR Hsm; [split; [done|]; intros _ _; exact Hpl|].
      apply Forall_cons in Hsm as [Hx Hsm]. change PTRS_PER_BLOCK with 1024 in Hx. cbn [walk cwalk].
      assert (child s2 parent x = if bool_decide (news = []) then default 0 ((n :: dm) !! Z.to_nat x)
              else if x =? 0 then n else 0) as ->.
      { unfold child. rewrite (proj2 (Z.eqb_neq parent 0)) by done. by rewrite Hpw, Hw. }
      case_bool_decide as En.
      * subst news. destruct R; [|simpl in HR; lia]. split; [done|]. simpl. lia.
      * destruct (Z.eqb_spec x 0) as [->|]; [|split; [apply walk_0|done]].
        destruct (HR2 R) as [Hwk Hind]; [simpl in HR; lia|done|]. split; [done|].
        intros Hlt. apply Hind. simpl in Hlt. lia.
    + rewrite !last_cons, <- Hlast. by destruct (last rest).
Qed.

(** ** The nodes of a detached branch *)

Lemma cwalk_in dm news : forall b R, (length R <= length news)%nat ->
  cwalk b news dm R <> 0 -> cwalk b news dm R ∈ b :: news ++ dm.
Proof.
  induction news as [|n news IH]; intros b R HR Hnz.
  - destruct R; [|simpl in HR; lia]. apply elem_of_cons. by left.
  - destruct R as [|o R]; [apply elem_of_cons; by left|]. cbn [cwalk] in *. apply elem_of_cons. right.
    case_bool_decide as En.
    + subst news. simpl. destruct ((n :: dm) !! Z.to_nat o) eqn:E; [|done]. by eapply list_elem_of_lookup_2.
    + destruct (o =? 0); [|done]. apply IH; [simpl in HR; lia|done].
Qed.

Lemma cwalk_inj dm news : forall b R R', NoDup (b :: news ++ dm) ->
  (length R <= length news)%nat -> (length R' <= length news)%nat -> small R -> small R' ->
  cwalk b news dm R = cwalk b news dm R' -> cwalk b news dm R <> 0 -> R = R'.
Proof.
  induction news as [|n news IH]; intros b R R' Hnd HR HR' Hs Hs' Heq Hnz.
  - destruct R, R'; simpl in HR, HR'; done || lia.
  - apply NoDup_cons in Hnd as [Hb Hnd].
    assert (forall o R0, (length (o :: R0) <= length (n :: news))%nat -> cwalk b (n :: news) dm (o :: R0) <> 0 ->
              cwalk b (n :: news) dm (o :: R0) ∈ (n :: news) ++ dm) as Hin.
    { intros o R0 Hl H0. cbn [cwalk] in *. case_bool_decide as En.
      - subst news. simpl. destruct ((n :: dm) !! Z.to_nat o) eqn:E; [|done]. by eapply list_elem_of_lookup_2.
      - destruct (o =? 0); [|done]. apply (cwalk_in dm news n R0); [simpl in Hl; lia|done]. }
    destruct R as [|o R], R' as [|o' R']; [done| | |].
    + exfalso. apply Hb. change (cwalk b (n :: news) dm []) with b in Heq. rewrite Heq. apply Hin; [done|]. by rewrite <- Heq.
    + exfalso. apply Hb. change (cwalk b (n :: news) dm []) with b in Heq. rewrite <- Heq. by apply Hin.
    + apply Forall_cons in Hs as [Ho Hs], Hs' as [Ho' Hs']. cbn [cwalk] in *. case_bool_decide as En.
      * subst news. destruct R; [|simpl in HR; lia]. destruct R'; [|simpl in HR'; lia]. f_equal.
        destruct ((n :: dm) !! Z.to_nat o) as [v|] eqn:E; [|done].
        destruct ((n :: dm) !! Z.to_nat o') as [v'|] eqn:E'; [|done]. cbn [default from_option id] in Heq. subst v'.
        assert (Z.to_nat o = Z.to_nat o') by (by eapply NoDup_lookup). lia.
      * destruct (Z.eqb_spec o 0) as [->|]; [|done]. destruct (Z.eqb_spec o' 0) as [->|]; [|done].
        f_equal. apply (IH n); try done; simpl in HR, HR'; lia.
Qed.

(** Complete paths below a new branch: the data blocks sit behind zeros. *)
Lemma cwalk_leaf dm news : forall b R n, length R = length news -> last news = Some n -> small R ->
  cwalk b news dm R =
    if decide (take (length news - 1) R = repeat 0 (length news - 1))
    then default 0 ((n :: dm) !! Z.to_nat (default 0 (last R))) else 0.
Proof.
  induction news as [|m news IH]; intros b R n HR Hl Hs; [done|]. destruct R as [|o R]; [done|].
  injection HR as HR. apply Forall_cons in Hs as [Ho Hs]. cbn [cwalk length]. rewrite Nat.sub_succ, Nat.sub_0_r.
  destruct news as [|m' news].
  - destruct R; [|done]. simpl in Hl. injection Hl as ->. rewrite bool_decide_eq_true_2 by done. done.
  - rewrite bool_decide_eq_false_2 by done. rewrite last_cons_cons in Hl.
    destruct R as [|o' R]; [done|]. rewrite last_cons_cons.
    specialize (IH m (o' :: R) n HR Hl Hs). cbn [length] in *. rewrite Nat.sub_succ, Nat.sub_0_r in IH.
    cbn [take repeat]. destruct (Z.eqb_spec o 0) as [->|].
    + rewrite IH. repeat case_decide; congruence.
    + by rewrite decide_False by congruence.
Qed.

(** Changes outside the tree do not change the tree. *)
Lemma tree_off s s' (B : list Z) :
  tree_wf s -> (forall b, b ∈ B -> forall X, prefix_ok X -> node s X <> b) ->
  is_fs s' = is_fs s -> (forall o, deref (PInode o) s' = deref (PInode o) s) ->
  length (is_iblocks s') = length (is_iblocks s) ->
  (forall c x, c ∉ B -> deref (PBlk c x) s' = deref (PBlk c x) s) ->
  (forall c, c ∉ B -> length <$> is_ind s' !! c = length <$> is_ind s !! c) ->
  tree_wf s' /\ forall X, prefix_ok X -> node s' X = node s X.
Proof.
  intros Hwf HB Hfs Hi Hlen Hc Hcl.
  assert (forall X, prefix_ok X -> node s' X = node s X) as Hn.
  { intros X. induction X as [|o X IH] using rev_ind; [done|]. intros HX. destruct X as [|x X].
    - cbn [app node walk]. by rewrite Hi.
    - assert (x :: X <> []) as Hne by done. destruct (prefix_ok_snoc _ _ Hne HX) as (Hp & _ & _).
      rewrite !node_snoc, IH by done. unfold child. destruct (Z.eqb_spec (node s (x :: X)) 0); [done|].
      rewrite Hc; [done|]. intros Hin. by apply (HB _ Hin (x :: X)). }
  split; [|done]. destruct Hwf as [H1 H2 H3 H4]. split.
  - by rewrite Hlen.
  - intros P HP. unfold live. rewrite Hn, Hfs by done. by apply H2.
  - intros P Q HP HQ. rewrite !Hn by done. by apply H3.
  - intros P HP Hl. rewrite Hn by done. intros Hnz. destruct (H4 P HP Hl Hnz) as (ws & Hws & Hwl).
    assert (node s P ∉ B) as HnB by (intros Hin; by apply (HB _ Hin P)).
    specialize (Hcl _ HnB). rewrite Hws in Hcl. destruct (is_ind s' !! node s P) as [ws'|]; [|done].
    exists ws'. split; [done|]. simpl in Hcl. congruence.
Qed.

End IndirectGet.
