(* ===== verification/IndirectCreate.v ===== *)
(** * nvfuse_get_block with allocation

    The allocating path of nvfuse_get_block: count the blocks, allocate them,
    build the detached branch, splice it in.  On a file whose missing levels
    start at offset zero (the source asserts it) the call maps a run of file
    blocks to fresh blocks and changes no other mapping. *)
From S2P Require Import Prelude Bitmap Layout BgList Alloc AllocSpec Indirect IndirectSpec IndirectGet.
Import Alloc AllocSpec Indirect IndirectSpec IndirectGet.

Module IndirectCreate.

(** What the splice of a run of [leafs] at the slots [Q ++ [o + j]] does to the
    complete paths. *)
Definition spliced (s s' : ist) (Q : list Z) (o : Z) (leafs : list Z) : Prop :=
  tree_wf s' /\ is_fs s' = is_fs s /\ is_ino s' = is_ino s /\
  (forall j b, leafs !! j = Some b -> node s' (Q ++ [o + Z.of_nat j]) = b) /\
  (forall X, prefix_ok X -> is_leaf X ->
     (forall j, 0 <= j < Z.of_nat (length leafs) -> X <> Q ++ [o + j]) -> node s' X = node s X).

Lemma spliced_marks s s' Q o leafs d i :
  spliced s s' Q o leafs ->
  spliced s (mk_ist (is_fs s') (is_ind s') (is_ino s') (is_iblocks s') d i) Q o leafs.
Proof.
  intros (Hwf & Hfs & Hino & H1 & H2).
  destruct (tree_wf_mono s' (mk_ist (is_fs s') (is_ind s') (is_ino s') (is_iblocks s') d i)) as [Hwf' Hn]; try done.
  split; [done|]. split; [done|]. split; [done|]. split.
  - intros j b Hb. rewrite Hn. by apply H1.
  - intros X HX Hl Hne. rewrite Hn. by apply H2.
Qed.

(** Fresh blocks: live, distinct, outside the tree. *)
Definition fresh_blocks (s : ist) (l : list Z) : Prop :=
  NoDup l /\ forall b, b ∈ l -> b <> 0 /\ live s b /\ forall X, prefix_ok X -> node s X <> b.

(** No level is missing: the run goes into an existing array of slots. *)
Lemma splice_flat s Q o b dm bh :
  tree_wf s -> (forall j, 0 <= j < 1 + Z.of_nat (length dm) ->
    prefix_ok (Q ++ [o + j]) /\ is_leaf (Q ++ [o + j]) /\ node s (Q ++ [o + j]) = 0) ->
  (Q = [] \/ node s Q <> 0) -> fresh_blocks s (b :: dm) ->
  exists s', nvfuse_splice_branch (mk_indirect (slot s Q o) b bh) dm 0 (1 + Z.of_nat (length dm)) s = Some (tt, s') /\
    spliced s s' Q o (b :: dm).
Proof.
  intros Hwf Hslots HQ [Hnd Hfr]. apply NoDup_cons in Hnd as [Hb Hnd].
  destruct (Hslots 0) as (Hok & Hleaf & Hz); [lia|]. rewrite Z.add_0_r in *.
  destruct (Hfr b) as (Hb0 & Hbl & Hbf); [apply elem_of_cons; by left|].
  destruct (attach_leaf s Q o b) as (s1 & E1 & Hsh1 & Hwf1 & Hn1); try done.
  assert (forall X, (length X < length (Q ++ [o]))%nat -> prefix_ok X -> node s1 X = node s X) as Hshort.
  { intros X HX HX'. rewrite Hn1 by done. rewrite decide_False; [done|]. intros ->. lia. }
  assert (slot s Q o = slot s1 Q o) as Eslot.
  { unfold slot. destruct Q as [|q Q]; [done|]. f_equal. symmetry. apply Hshort.
    - rewrite length_app. simpl. lia.
    - eapply prefix_ok_app; [done|exact Hok]. }
  assert (forall j, 0 <= j < Z.of_nat (length dm) -> prefix_ok (Q ++ [o + 1 + j]) /\
            is_leaf (Q ++ [o + 1 + j]) /\ node s1 (Q ++ [o + 1 + j]) = 0) as Hslots1.
  { intros j Hj. destruct (Hslots (1 + j)) as (H1 & H2 & H3); [lia|].
    replace (o + (1 + j)) with (o + 1 + j) in * by lia. split; [done|]. split; [done|].
    rewrite Hn1 by done. rewrite decide_False; [done|]. intros E. apply app_inj_tail in E. lia. }
  destruct (attach_run dm s1 Q o 1) as (s2 & E2 & Hsh2 & Hwf2 & Hn2 & Hf2); try done.
  { destruct HQ as [->|HQ]; [by left|]. right. rewrite Hshort; [done| |].
    - rewrite length_app. simpl. lia.
    - eapply prefix_ok_app; [by intros ->|exact Hok]. }
  { intros c Hc. destruct (Hfr c) as (H1 & H2 & H3); [apply elem_of_cons; by right|].
    split; [done|]. split; [by unfold live in *; rewrite (sh_fs _ _ Hsh1)|].
    intros X HX. rewrite Hn1 by done. case_decide; [|by apply H3]. by intros ->. }
  assert (spliced s s2 Q o (b :: dm)) as Hspl.
  { split; [done|]. split; [by rewrite (sh_fs _ _ Hsh2), (sh_fs _ _ Hsh1)|].
    split; [by rewrite (sh_ino _ _ Hsh2), (sh_ino _ _ Hsh1)|]. split.
    - intros [|j] c Hc; simpl in Hc.
      + injection Hc as ->. rewrite Z.add_0_r. rewrite Hf2; [|done|].
        * rewrite Hn1 by done. by rewrite decide_True.
        * intros j Hj E. apply app_inj_tail in E. lia.
      + replace (o + Z.of_nat (S j)) with (o + 1 + Z.of_nat j) by lia. by apply Hn2.
    - intros X HX Hl Hne. rewrite Hf2; [|done|].
      + rewrite Hn1 by done. rewrite decide_False; [done|]. rewrite <- (Z.add_0_r o). apply Hne. simpl. lia.
      + intros j Hj. replace (o + 1 + j) with (o + (1 + j)) by lia. apply Hne. simpl. lia. }
  unfold nvfuse_splice_branch, mbind, M_bind. cbn [ind_p ind_key ind_bh]. rewrite E1. cbn [Z.eqb andb].
  assert ((if 1 <? 1 + Z.of_nat (length dm)
           then store_map (slot s Q o) 1 (take (Z.to_nat (1 + Z.of_nat (length dm) - 1)) dm) else mret tt) s1 = Some (tt, s2)) as ->.
  { rewrite take_ge by lia. rewrite Eslot. destruct (Z.ltb_spec 1 (1 + Z.of_nat (length dm))); [done|].
    destruct dm; [|simpl in *; lia]. simpl in E2. by injection E2 as ->. }
  destruct bh as [c|]; eexists; (split; [reflexivity|]); repeat apply spliced_marks; exact Hspl.
Qed.

(** Some levels are missing: the branch is attached as a whole. *)
Lemma splice_deep s Q1 x b news dm bh n :
  tree_wf s -> prefix_ok ((Q1 ++ [x]) ++ repeat 0 (length news)) ->
  is_leaf ((Q1 ++ [x]) ++ repeat 0 (length news)) -> (Q1 = [] \/ node s Q1 <> 0) ->
  node s (Q1 ++ [x]) = 0 -> last news = Some n -> Z.of_nat (length dm) <= 1023 -> NoDup (b :: news ++ dm) ->
  (forall c, c ∈ b :: news ++ dm -> c <> 0 /\ live s c /\ forall X, prefix_ok X -> node s X <> c) ->
  (forall R, (length R <= length news)%nat -> small R ->
     walk s b R = cwalk b news dm R /\
     ((length R < length news)%nat -> cwalk b news dm R <> 0 ->
        exists ws, is_ind s !! cwalk b news dm R = Some ws /\ length ws = Z.to_nat PTRS_PER_BLOCK)) ->
  exists s', nvfuse_splice_branch (mk_indirect (slot s Q1 x) b bh) dm (Z.of_nat (length news))
      (1 + Z.of_nat (length dm)) s = Some (tt, s') /\
    spliced s s' ((Q1 ++ [x]) ++ repeat 0 (length news - 1)) 0 (n :: dm).
Proof.
  intros Hwf Hok Hleaf HQ Hnone Hlast Hdm Hnd Hfr Hwalk.
  set (k := length news) in *.
  assert (k <> O) as Hk by (subst k; by destruct news).
  assert (Q1 ++ [x] <> []) as Hne by (by destruct Q1).
  assert (prefix_ok (Q1 ++ [x])) as Hok1 by (by eapply prefix_ok_app).
  assert (forall R, prefix_ok ((Q1 ++ [x]) ++ R) -> (length R <= k)%nat /\ small R /\
            (is_leaf ((Q1 ++ [x]) ++ R) <-> length R = k)) as Hlen.
  { intros R HR. unfold is_leaf in *. destruct (Q1 ++ [x]) as [|q0 Q0]; [done|].
    simpl in *. destruct HR as (_ & [_ HR]%Forall_app & HR2). simpl in HR2.
    rewrite length_app, repeat_length in Hleaf. rewrite length_app in *. split; [lia|]. split; [done|]. lia. }
  assert (forall R, prefix_ok ((Q1 ++ [x]) ++ R) -> walk s b R <> 0 ->
    live s (walk s b R) /\ (forall X, prefix_ok X -> node s X <> walk s b R) /\
    (~ is_leaf ((Q1 ++ [x]) ++ R) -> exists ws, is_ind s !! walk s b R = Some ws /\ length ws = Z.to_nat PTRS_PER_BLOCK)) as Hsub.
  { intros R HR. destruct (Hlen R HR) as (HRl & HRs & HRleaf). destruct (Hwalk R HRl HRs) as [-> Hind].
    intros Hnz. destruct (Hfr _ (cwalk_in dm news b R HRl Hnz)) as (_ & Hl & Hf).
    split; [done|]. split; [done|]. intros Hnl. apply Hind; [|done]. rewrite HRleaf in Hnl. lia. }
  assert (forall R R', prefix_ok ((Q1 ++ [x]) ++ R) -> prefix_ok ((Q1 ++ [x]) ++ R') ->
    walk s b R = walk s b R' -> walk s b R <> 0 -> R = R') as Hinj.
  { intros R R' HR HR'. destruct (Hlen R HR) as (H1 & H2 & _), (Hlen R' HR') as (H3 & H4 & _).
    destruct (Hwalk R H1 H2) as [-> _], (Hwalk R' H3 H4) as [-> _]. by apply cwalk_inj. }
  destruct (store_total (slot s Q1 x) b s _ (deref_slot s Q1 x Hwf Hok1 HQ)) as (s1 & Hst).
  assert (tree_wf s1) as Hwf1 by (by eapply (attach_wf s s1 Q1 x b)).
  assert (forall X, prefix_ok X -> node s1 X =
    match below (Q1 ++ [x]) X with Some R => walk s b R | None => node s X end) as Hn1
    by (intros X HX; by apply (attach_node s s1 Q1 x b)).
  destruct (store_spec _ _ _ _ Hst) as [Hsh _].
  assert (spliced s s1 ((Q1 ++ [x]) ++ repeat 0 (k - 1)) 0 (n :: dm)) as Hspl.
  { split; [done|]. split; [apply Hsh|]. split; [apply Hsh|].
    assert (forall R, prefix_ok ((Q1 ++ [x]) ++ R) -> length R = k ->
      node s1 ((Q1 ++ [x]) ++ R) = if decide (take (k - 1) R = repeat 0 (k - 1))
        then default 0 ((n :: dm) !! Z.to_nat (default 0 (last R))) else 0) as Hleafs.
    { intros R HR HRk. rewrite Hn1 by done.
      assert (below (Q1 ++ [x]) ((Q1 ++ [x]) ++ R) = Some R) as -> by (by apply below_Some).
      destruct (Hlen R HR) as (H1 & H2 & _). destruct (Hwalk R H1 H2) as [-> _].
      by apply cwalk_leaf. }
    split.
    - intros j c Hc. rewrite <- app_assoc, Z.add_0_l. rewrite Hleafs.
      + rewrite last_snoc, take_app_length', decide_True by (rewrite ?repeat_length; done).
        cbn [default from_option id]. by rewrite Nat2Z.id, Hc.
      + assert (repeat 0 k = repeat 0 (k - 1) ++ [0]) as Er.
        { destruct k as [|k']; [done|]. rewrite Nat.sub_succ, Nat.sub_0_r. apply repeat_cons. }
        rewrite Er, app_assoc in Hok, Hleaf. rewrite app_assoc.
        apply lookup_lt_Some in Hc. simpl in Hc. apply (leaf_sibling _ 0); [done|done|].
        replace (last_cap _) with 1024; [lia|]. destruct Q1 as [|? [|]]; simpl; by destruct (repeat 0 (k - 1)).
      + rewrite length_app, repeat_length. simpl. lia.
    - intros X HX HXl Hne'. destruct (below (Q1 ++ [x]) X) as [R|] eqn:EB.
      + pose proof EB as EB'. apply below_Some in EB'. subst X. destruct (Hlen R HX) as (_ & HRs & HRl).
        apply HRl in HXl. rewrite Hleafs by done. rewrite node_app, Hnone, walk_0 by done.
        case_decide as E; [|done].
        destruct R as [|r R _] using rev_ind; [simpl in HXl; lia|]. rewrite length_app in HXl. simpl in HXl.
        rewrite last_snoc. cbn [default from_option id]. rewrite take_app_length' in E by lia. subst R.
        apply Forall_app in HRs as [_ [Hr _]%Forall_cons].
        destruct ((n :: dm) !! Z.to_nat r) as [v|] eqn:Ev; [|done]. exfalso. apply lookup_lt_Some in Ev.
        apply (Hne' r); [lia|]. by rewrite Z.add_0_l, (app_assoc (Q1 ++ [x])).
      + rewrite Hn1 by done. by rewrite EB. }
  unfold nvfuse_splice_branch, mbind, M_bind. cbn [ind_p ind_key ind_bh]. unfold store at 1. rewrite Hst.
  rewrite (proj2 (Z.eqb_neq (Z.of_nat k) 0)) by lia. cbn [andb].
  destruct bh as [c|]; eexists; (split; [reflexivity|]); repeat apply spliced_marks; exact Hspl.
Qed.

(** ** The allocation step *)

(** Allocating and building the branch: [new0 :: news] and [direct] are fresh,
    the tree is as before, and [cwalk] describes what hangs below [new0]. *)
Lemma alloc_branch_run s (R1 : list Z) x cnt c0 :
  file_inv s -> Forall (fun o => o = 0) R1 -> 1 <= cnt <= 1024 -> (length R1 <= 3)%nat ->
  Z.of_nat (length R1) + cnt <= sb_free_blocks (fs_sb (is_fs s)) ->
  exists new0 news direct rest f s2,
    nvfuse_alloc_branch true (Z.of_nat (length R1)) cnt (x :: R1) c0 s =
      Some ((mk_indirect (ind_p c0) new0 (ind_bh c0) :: rest, direct, cnt), s2) /\
    alloc_step (is_fs s) f (new0 :: news ++ direct) /\ hint_ok f /\ is_fs s2 = f /\ is_ino s2 = is_ino s /\
    length news = length R1 /\ Z.of_nat (length direct) = cnt - 1 /\
    tree_wf s2 /\ (forall X, prefix_ok X -> node s2 X = node s X) /\
    (forall c, c ∈ new0 :: news ++ direct -> c <> 0 /\ live s2 c /\ block_used (is_fs s) c = false /\
       forall X, prefix_ok X -> node s2 X <> c) /\
    (forall R, (length R <= length news)%nat -> small R ->
       walk s2 new0 R = cwalk new0 news direct R /\
       ((length R < length news)%nat -> cwalk new0 news direct R <> 0 ->
          exists ws, is_ind s2 !! cwalk new0 news direct R = Some ws /\ length ws = Z.to_nat PTRS_PER_BLOCK)) /\
    ind_key <$> last rest = last news.
Proof.
  intros Hfi Hz Hcnt Hlen Hfree. pose proof Hfi as [Hwf Hinv Hh Hino].
  destruct (alloc_free_blocks_run (is_fs s) (is_ino s) (Z.of_nat (length R1)) cnt)
    as (blocks & direct & f & Ealloc & S & Hhf & Hlb & Hld); try done; try lia.
  destruct blocks as [|new0 news]; [simpl in Hlb; lia|]. simpl in Hlb.
  assert (length news = length R1) as Hln by lia.
  set (s1 := set_fs f s).
  destruct (tree_wf_mono s s1) as [Hwf1 Hn1]; try done; [intros b; by apply (alloc_live s f _ b S)|].
  assert (forall c, c ∈ new0 :: news ++ direct -> live s1 c /\ c <> 0 /\ block_used (is_fs s) c = false /\
            forall X, prefix_ok X -> node s X <> c) as Hfr.
  { intros c Hc. by apply (alloc_fresh s f _ c Hfi S). }
  pose proof (as_nodup _ _ _ S) as Hnd.
  assert (NoDup (new0 :: news)) as Hnd1.
  { change (NoDup ((new0 :: news) ++ direct)) in Hnd. apply NoDup_app in Hnd as [? _]. done. }
  assert (forall c, c ∈ new0 :: news -> c ∈ new0 :: news ++ direct) as Hsubl.
  { intros c. rewrite !elem_of_cons, elem_of_app. naive_solver. }
  destruct (alloc_branch_loop_spec direct news new0 R1 s1)
    as (rest & s2 & Eloop & Hfs2 & Hino2 & Hi2 & Hlen2 & Hc2 & Hcl2 & HR2 & Hlast); try done.
  { apply Forall_forall. intros c Hc. by apply Hfr, Hsubl. }
  { lia. }
  destruct (tree_off s1 s2 (new0 :: news)) as [Hwf2 Hn2]; try done.
  { intros c Hc X HX. rewrite Hn1. by apply Hfr; [apply Hsubl|]. }
  exists new0, news, direct, rest, f, s2. split.
  { unfold nvfuse_alloc_branch, mbind, M_bind, mget, on_fs. rewrite Ealloc. fold s1.
    change (drop 1 (x :: R1)) with (drop 0 R1). rewrite drop_0, Eloop. reflexivity. }
  split; [done|]. split; [done|]. split; [done|]. split; [done|]. split; [done|]. split; [done|].
  split; [done|]. split; [intros X HX; by rewrite Hn2, Hn1|]. split.
  { intros c Hc. destruct (Hfr c Hc) as (H1 & H2 & H3 & H4). split; [done|].
    split; [by unfold live in *; rewrite Hfs2|]. split; [done|]. intros X HX. rewrite Hn2, Hn1 by done. by apply H4. }
  done.
Qed.

(** ** The whole call *)

(** The source allocates below a missing level only at offset zero. *)
Definition sequential (s : ist) (lb : Z) : Prop :=
  forall Q R, path lb = Q ++ R -> Q <> [] -> node s Q = 0 -> Forall (fun o => o = 0) R.

Lemma repeat_zero (R : list Z) : Forall (fun o => o = 0) R -> R = repeat 0 (length R).
Proof. induction 1; simpl; congruence. Qed.

(** The number of blocks the call allocates. *)
Lemma blks_to_allocate_run s Q R x maxb bd lst :
  tree_wf s -> prefix_ok ((Q ++ [x]) ++ R) -> is_leaf ((Q ++ [x]) ++ R) -> (Q = [] \/ node s Q <> 0) ->
  node s (Q ++ [x]) = 0 -> 0 <= x -> (R = [] -> x + bd < last_cap (Q ++ [x])) -> 0 <= bd -> 1 <= maxb ->
  ind_p lst = slot s Q x ->
  exists cnt, nvfuse_blks_to_allocate lst (Z.of_nat (length R)) maxb bd s = Some (cnt, s) /\
    1 <= cnt <= maxb /\ cnt <= bd + 1 /\ (R = [] -> forall j, 0 <= j < cnt -> node s (Q ++ [x + j]) = 0).
Proof.
  intros Hwf Hok Hleaf HQ Hnone Hx Hcap Hbd Hm Hp. unfold nvfuse_blks_to_allocate. destruct R as [|r R].
  - rewrite app_nil_r in *. change (0 <? Z.of_nat (@length Z [])) with false. cbv iota. rewrite Hp.
    destruct (count_zeros_spec s Q x maxb bd (Z.to_nat bd) 1) as (cnt & -> & Hc & Hcb & Hall); try done; try lia.
    { auto. }
    { intros j Hj. replace j with 0 by lia. by rewrite Z.add_0_r. }
    exists cnt. split; [done|]. split; [lia|]. split; [lia|]. auto.
  - rewrite (proj2 (Z.ltb_lt 0 _)) by (simpl; lia). eexists. split; [reflexivity|].
    destruct (Z.ltb_spec maxb (bd + 1)); (split; [lia|]); (split; [lia|]); done.
Qed.

Lemma leaf_length lb Q R : 0 <= lb < max_block -> path lb = Q ++ R -> Q <> [] -> (length R <= 3)%nat.
Proof.
  intros Hlb HP HQ. destruct (path_spec lb Hlb) as (Hok & Hleaf & _).
  assert (length (path lb) <= 4)%nat as H4.
  { destruct (leaf_shapes _ Hok Hleaf) as [(?&->&_)|[(?&->&_)|[(?&?&->&_)|(?&?&?&->&_)]]]; simpl; lia. }
  rewrite HP, length_app in H4. destruct Q; [done|]. simpl in H4. lia.
Qed.

(** From slots to file blocks. *)
Lemma spliced_lookup s s2 s' lb Q o leafs :
  0 <= lb < max_block -> path lb = Q ++ [o] -> 0 <= o -> o + Z.of_nat (length leafs) <= last_cap (Q ++ [o]) ->
  spliced s2 s' Q o leafs -> (forall X, prefix_ok X -> node s2 X = node s X) ->
  (forall j b, leafs !! j = Some b -> lookup_block s' (lb + Z.of_nat j) = b) /\
  (forall b, 0 <= b < max_block -> ~ lb <= b < lb + Z.of_nat (length leafs) -> lookup_block s' b = lookup_block s b).
Proof.
  intros Hlb HP Ho Hcap (_ & _ & _ & H1 & H2) Hn. unfold lookup_block. split.
  - intros j b Hb. pose proof (lookup_lt_Some _ _ _ Hb).
    destruct (path_sibling lb Q o (Z.of_nat j) Hlb HP) as (-> & _); [lia|]. by apply H1.
  - intros b Hb Hout. destruct (path_spec b Hb) as (Hok & Hleaf & Hpb & _).
    rewrite H2, Hn; try done. intros j Hj E. apply Hout.
    destruct (path_sibling lb Q o j Hlb HP) as (Hs & Hr & _); [lia|].
    destruct (path_spec (lb + j) Hr) as (_ & _ & Hpb' & _). rewrite Hs, <- E, Hpb in Hpb'. lia.
Qed.

(** The last offset and its array, read off the missing part of the path. *)
Lemma path_tail Q o q x (R : list Z) : Q ++ [o] = (q ++ [x]) ++ R -> Forall (fun v => v = 0) R ->
  (R = [] /\ Q = q /\ o = x) \/ (R <> [] /\ Q = (q ++ [x]) ++ repeat 0 (length R - 1) /\ o = 0).
Proof.
  intros E Hz. destruct R as [|r R _] using rev_ind.
  - left. rewrite app_nil_r in E. by apply app_inj_tail in E as [-> ->].
  - right. rewrite app_assoc in E. apply app_inj_tail in E as [-> ->].
    apply Forall_app in Hz as [Hz [-> _]%Forall_cons]. split; [by destruct R|]. split; [|done].
    rewrite length_app. simpl. replace (length R + 1 - 1)%nat with (length R) by lia.
    by rewrite <- (repeat_zero R Hz).
Qed.

(** Splicing in both cases. *)
Lemma splice_run s s2 lb Q o q x R1 new0 news direct bh :
  tree_wf s2 -> (forall X, prefix_ok X -> node s2 X = node s X) ->
  0 <= lb < max_block -> path lb = Q ++ [o] -> path lb = (q ++ [x]) ++ R1 -> Forall (fun v => v = 0) R1 ->
  (q = [] \/ node s q <> 0) -> node s (q ++ [x]) = 0 -> length news = length R1 ->
  0 <= o -> o + 1 + Z.of_nat (length direct) <= last_cap (Q ++ [o]) ->
  (R1 = [] -> forall j, 0 <= j < 1 + Z.of_nat (length direct) -> node s (q ++ [x + j]) = 0) ->
  NoDup (new0 :: news ++ direct) ->
  (forall c, c ∈ new0 :: news ++ direct -> c <> 0 /\ live s2 c /\ forall X, prefix_ok X -> node s2 X <> c) ->
  (forall R, (length R <= length news)%nat -> small R ->
     walk s2 new0 R = cwalk new0 news direct R /\
     ((length R < length news)%nat -> cwalk new0 news direct R <> 0 ->
        exists ws, is_ind s2 !! cwalk new0 news direct R = Some ws /\ length ws = Z.to_nat PTRS_PER_BLOCK)) ->
  exists s', nvfuse_splice_branch (mk_indirect (slot s q x) new0 bh) direct (Z.of_nat (length R1))
      (1 + Z.of_nat (length direct)) s2 = Some (tt, s') /\
    spliced s2 s' Q o (default new0 (last news) :: direct).
Proof.
  intros Hwf Hn Hlb HP EP Hz Hq Hnone Hln Ho Hcap Hzero Hnd Hfr Hwalk.
  destruct (path_spec lb Hlb) as (Hok & Hleaf & _). pose proof (last_cap_bounds (Q ++ [o])) as Hc.
  assert (prefix_ok (q ++ [x])) as Hokq by (rewrite EP in Hok; eapply prefix_ok_app; [by destruct q|exact Hok]).
  assert (slot s q x = slot s2 q x) as ->.
  { unfold slot. destruct q as [|q0 q]; [done|]. f_equal. symmetry. apply Hn.
    eapply prefix_ok_app; [done|exact Hokq]. }
  assert (q = [] \/ node s2 q <> 0) as Hq2.
  { destruct Hq as [->|Hq]; [by left|]. right. rewrite Hn; [done|].
    eapply prefix_ok_app; [|exact Hokq]. by intros ->. }
  rewrite EP in HP. symmetry in HP.
  destruct (path_tail Q o q x R1 HP Hz) as [(-> & -> & ->)|(HR & -> & ->)].
  - destruct news; [|done]. cbn [last default length Z.of_nat app] in *. rewrite app_nil_r in *.
    apply splice_flat; try done.
    intros j Hj. destruct (leaf_sibling q x (x + j)) as (H1 & H2 & _); [by rewrite <- EP|by rewrite <- EP|lia|].
    split; [done|]. split; [done|]. rewrite Hn by done. auto.
  - rewrite (repeat_zero R1 Hz) in EP. rewrite <- Hln in *.
    destruct (last news) as [n|] eqn:El; [|apply last_None in El; subst; destruct R1; done].
    cbn [default from_option id].
    apply splice_deep; try done; rewrite <- ?EP; try done; [by rewrite Hn|lia].
Qed.

(** nvfuse_get_block with [create] on an unmapped block of a sequential file. *)
Lemma get_block_create_run s lb maxb :
  file_inv s -> 0 <= lb < max_block -> lookup_block s lb = 0 -> sequential s lb -> 1 <= maxb ->
  3 + Z.min maxb 1024 <= sb_free_blocks (fs_sb (is_fs s)) ->
  exists cnt pb s', nvfuse_get_block true lb maxb true s = Some ((0, cnt, pb), s') /\ file_inv s' /\
    1 <= cnt <= maxb /\ lb + cnt <= max_block /\ pb = lookup_block s' lb /\
    (forall b, lb <= b < lb + cnt -> lookup_block s b = 0 /\ lookup_block s' b <> 0 /\
       block_used (is_fs s) (lookup_block s' b) = false) /\
    (forall b, 0 <= b < max_block -> ~ lb <= b < lb + cnt -> lookup_block s' b = lookup_block s b).
Proof.
  intros Hfi Hlb Hnone0 Hseq Hm Hfree. pose proof Hfi as [Hwf Hinv Hh Hino].
  destruct (path_spec lb Hlb) as (Hok & Hleaf & Hpb & Q & o & HP & Ho & Hbd).
  pose proof (last_cap_bounds (path lb)) as Hcap.
  unfold nvfuse_get_block.
  destruct (nvfuse_block_to_path lb) as [offs bd] eqn:Epath.
  assert (path lb = offs /\ boundary lb = bd) as [Eo Ebd] by (unfold path, boundary; by rewrite Epath).
  rewrite <- Eo. rewrite Ebd in Hbd. rewrite s32_small by lia.
  rewrite bool_decide_eq_false_2 by (rewrite HP; by destruct Q). unfold mbind at 1, M_bind at 1.
  destruct (get_branch_spec s (path lb) Hwf Hok) as (Q1 & R1 & full & EP & Hne & -> & Hs & Hf).
  assert (full = false) as ->.
  { destruct full; [|done]. exfalso. destruct Hf as [-> Hf]. rewrite app_nil_r in EP. apply Hf. by rewrite <- EP. }
  cbv beta iota.
  assert (exists q x, Q1 = q ++ [x]) as (q & x & ->) by (destruct Q1 as [|x q _] using rev_ind; [done|eauto]).
  assert (q = [] \/ node s q <> 0) as Hq.
  { destruct q as [|q0 q]; [by left|]. right. by apply (Hs (q0 :: q) [x]). }
  rewrite chain_from_length. rewrite chain_from_snoc, last_snoc. cbn [app negb orb].
  change (0 =? - EIO) with false. cbv iota.
  pose proof (Hseq _ _ EP Hne Hf) as Hz.
  assert (Z.of_nat (length (path lb)) - Z.of_nat (length (q ++ [x])) = Z.of_nat (length R1)) as ->
    by (rewrite EP, (length_app (q ++ [x]) R1); lia).
  assert (0 <= o /\ 0 <= x) as [Ho0 Hx0].
  { split; [lia|]. rewrite EP in Hok. assert (prefix_ok (q ++ [x])) as H by (eapply prefix_ok_app; [done|exact Hok]).
    destruct q as [|q0 q]; [apply prefix_ok_one in H; lia|].
    destruct (prefix_ok_snoc (q0 :: q) x) as (_ & _ & ?); [done|done|lia]. }
  unfold mbind at 1, M_bind at 1.
  destruct (blks_to_allocate_run s q R1 x maxb bd (entry s q x)) as (cnt & -> & Hc1 & Hc2 & Hc3); try done; try lia.
  { by rewrite <- EP. } { by rewrite <- EP. }
  { intros ->. rewrite app_nil_r in EP. rewrite HP in EP. apply app_inj_tail in EP as [-> ->].
    rewrite HP in Hbd. lia. }
  pose proof (leaf_length lb _ _ Hlb EP Hne) as HR3.
  destruct (alloc_branch_run s R1 x cnt (entry s q x))
    as (new0 & news & direct & rest & f & s2 & Halloc & Sst & Hhf & Hfs2 & Hino2 & Hln & Hld & Hwf2 & Hn2 & Hfr & Hwalk & Hlast);
    [done|done|lia|done|lia|].
  assert (drop (length (q ++ [x]) - 1) (path lb) = x :: R1) as ->.
  { rewrite EP, length_app. simpl. replace (length q + 1 - 1)%nat with (length q) by lia.
    rewrite <- app_assoc. rewrite drop_app_length. done. }
  cbv beta iota. unfold mbind at 1, M_bind at 1. rewrite Halloc. cbv beta iota.
  destruct (splice_run s s2 lb Q o q x R1 new0 news direct (ind_bh (entry s q x)))
    as (s' & Hspl & Hs'); try done; try lia.
  { rewrite <- HP. lia. }
  { intros HR j Hj. apply Hc3; [done|lia]. }
  { apply Sst. }
  { intros c Hc. destruct (Hfr c Hc) as (? & ? & _ & ?). done. }
  set (pb := default new0 (last news)) in *.
  assert (last (mk_indirect (slot s q x) new0 (ind_bh (entry s q x)) :: rest) =
          Some (default (mk_indirect (slot s q x) new0 (ind_bh (entry s q x))) (last rest))) as Elast
    by (rewrite last_cons; by destruct (last rest)).
  assert (ind_key (default (mk_indirect (slot s q x) new0 (ind_bh (entry s q x))) (last rest)) = pb) as Ekey.
  { subst pb. rewrite <- Hlast. by destruct (last rest). }
  exists cnt, pb, s'. split.
  { unfold mbind, M_bind. change (ind_p (entry s q x)) with (slot s q x).
    replace cnt with (1 + Z.of_nat (length direct)) at 1 by lia. rewrite Hspl. cbv beta iota.
    rewrite Elast, Ekey. reflexivity. }
  assert (Z.of_nat (length (pb :: direct)) = cnt) as Hlen by (simpl; lia).
  destruct (spliced_lookup s s2 s' lb Q o (pb :: direct)) as [Hin Hout]; try done; [rewrite <- HP; lia|].
  rewrite Hlen in Hout. destruct Hs' as (Hwf' & Hfs' & Hino' & _).
  assert (is_fs s' = f) as Hf' by congruence.
  assert (forall j, 0 <= j < cnt -> lb + j < max_block) as Hmax.
  { intros j Hj. destruct (path_sibling lb Q o j Hlb HP) as (_ & ? & _); [rewrite <- HP; lia|lia]. }
  split.
  { split; [done|rewrite Hf'; apply Sst|by rewrite Hf'|].
    destruct (fr_geo _ _ (as_frame _ _ _ Sst)) as (_ & Hi & Hb & _). rewrite Hf', Hino', Hino2, Hi, Hb. done. }
  split; [lia|]. split; [pose proof (Hmax (cnt - 1)); lia|].
  split; [symmetry; rewrite <- (Z.add_0_r lb); by apply (Hin 0%nat)|]. split; [|done].
  intros b Hb. assert (exists v, (pb :: direct) !! Z.to_nat (b - lb) = Some v) as [v Hv]
    by (apply lookup_lt_is_Some_2; lia).
  pose proof (Hin _ _ Hv) as Hlk. replace (lb + Z.of_nat (Z.to_nat (b - lb))) with b in Hlk by lia.
  assert (v ∈ new0 :: news ++ direct) as Hvin.
  { apply list_elem_of_lookup_2, elem_of_cons in Hv as [->|Hv].
    - subst pb. destruct (last news) as [n|] eqn:El; [|apply elem_of_cons; by left].
      apply last_Some in El as [l' ->]. cbn [default from_option id]. set_solver.
    - set_solver. }
  destruct (Hfr v Hvin) as (Hv0 & _ & Hvu & _). rewrite Hlk. split; [|done].
  unfold lookup_block. destruct (path_sibling lb Q o (b - lb) Hlb HP) as (Hps & _ & _); [rewrite <- HP; lia|].
  replace (lb + (b - lb)) with b in Hps by lia. rewrite Hps.
  destruct (path_tail Q o q x R1) as [(-> & -> & ->)|(HR & -> & ->)]; [by rewrite <- HP|done| |].
  - apply Hc3; [done|lia].
  - rewrite <- app_assoc, node_app, Hf by done. apply walk_0.
Qed.

End IndirectCreate.
