(* ===== verification/IndirectThms.v ===== *)
(** * What the block map guarantees

    The theorems on paths, lookup, allocation and truncation, with
    an empty file and a file of direct blocks as examples. *)
From S2P Require Import Prelude Bitmap Layout BgList Alloc AllocSpec Demo Indirect IndirectSpec IndirectGet.
From S2P Require Import IndirectCreate.
Import Alloc AllocSpec Indirect IndirectSpec IndirectGet IndirectCreate.

Module IndirectThms.

(** ** Freeing the data blocks of a range of slots *)

(** The blocks the slots [ps] hold. *)
Fixpoint vals (s : ist) (ps : list ptr) : list Z :=
  match ps with
  | [] => []
  | p :: ps' => match deref p s with
                | Some v => if v =? 0 then vals s ps' else v :: vals s ps'
                | None => vals s ps'
                end
  end.

Lemma vals_ext s s' ps : (forall p, p ∈ ps -> deref p s' = deref p s) -> vals s' ps = vals s ps.
Proof.
  intros H. induction ps as [|p ps IH]; [done|]. cbn [vals].
  rewrite H by (apply elem_of_cons; by left). rewrite IH; [done|]. intros q Hq. apply H, elem_of_cons. by right.
Qed.

Definition pending (b count : Z) : list Z := range b (b + count).

Lemma pending_snoc b count : 0 <= count -> pending b count ++ [b + count] = pending b (count + 1).
Proof.
  intros H. unfold pending, range. replace (b + (count + 1) - b) with (Z.of_nat (S (Z.to_nat count))) by lia.
  rewrite seqZ_S. rewrite Z2Nat.id by done. by replace (b + count - b) with count by lia.
Qed.

(** Freeing a pending run, inside the file state. *)
Lemma free_run s b count :
  inv (is_fs s) -> 1 <= count -> (forall x, x ∈ pending b count -> live s x) ->
  count <= sb_no_of_used_blocks (fs_sb (is_fs s)) ->
  exists f, (on_fs (nvfuse_free_blocks true (u32 b) (u32 count));; mark_inode_dirty) s =
      Some (tt, mk_ist f (is_ind s) (is_ino s) (is_iblocks s) (is_dirty s) true) /\
    free_step (is_fs s) f (pending b count).
Proof.
  intros Hinv Hc Hl Hu. destruct (inv_geo _ Hinv) as [_ _ _ _ Hk _]. pose proof (inv_used _ Hinv) as Huse.
  assert (live s b) as [[Hb _] _] by (apply Hl, elem_of_range; lia).
  assert (sb_free_blocks (fs_sb (is_fs s)) >= 0) as Hf.
  { rewrite (inv_free_blocks _ Hinv). apply Z.le_ge, Zsum_nonneg. intros x Hx%elem_of_range. by apply bg_free_nonneg. }
  destruct (free_blocks_run (is_fs s) b count) as (f & Hf1 & Hf2); try done; [intros x Hx; apply Hl, elem_of_range; done|].
  exists f. split; [|done]. unfold mbind, M_bind, on_fs. rewrite !u32_small by lia. by rewrite Hf1.
Qed.

Lemma live_after s f b l x : free_step (is_fs s) f l -> x ∉ l ->
  live s x -> live (mk_ist f (is_ind s) (is_ino s) (is_iblocks s) (is_dirty s) b) x.
Proof.
  intros S Hx [Hd Hu]. split; simpl.
  - by apply (data_block_frame (is_fs s) f); [apply S|].
  - rewrite (fs_step_used _ _ _ S) by apply Hd. by rewrite Hu, bool_decide_eq_false_2.
Qed.

Lemma free_data_loop_run ps : forall s b count,
  inv (is_fs s) -> 0 <= count -> NoDup ps -> (forall p, p ∈ ps -> exists v, deref p s = Some v) ->
  NoDup (pending b count ++ vals s ps) ->
  (forall x, x ∈ pending b count ++ vals s ps -> live s x) ->
  Z.of_nat (length (pending b count ++ vals s ps)) <= sb_no_of_used_blocks (fs_sb (is_fs s)) ->
  exists s', free_data_loop true ps b count s = Some (tt, s') /\
    free_step (is_fs s) (is_fs s') (pending b count ++ vals s ps) /\
    (forall q, deref q s' = if bool_decide (q ∈ ps) then Some 0 else deref q s).
Proof.
  induction ps as [|p ps IH]; intros s b count Hinv Hc Hnd Hd Hndv Hl Hlen.
  - rewrite app_nil_r in *. cbn [free_data_loop]. destruct (Z.ltb_spec 0 count) as [H|H].
    + destruct (free_run s b count) as (f & -> & Hf); try done; [lia| |].
      { revert Hlen. unfold pending. rewrite length_range by lia. lia. }
      eexists. split; [done|]. split; [done|]. intros [o|c o]; rewrite bool_decide_eq_false_2; try done; apply not_elem_of_nil.
    + exists s. replace count with 0 by lia. unfold pending. rewrite Z.add_0_r.
      assert (range b b = []) as -> by (unfold range; by rewrite Z.sub_diag).
      split; [done|]. split; [by apply free_step_nil|].
      intros q. rewrite bool_decide_eq_false_2; [done|apply not_elem_of_nil].
  - apply NoDup_cons in Hnd as [Hp Hnd]. destruct (Hd p) as [v Hv]; [apply elem_of_cons; by left|].
    cbn [free_data_loop]. unfold mbind at 1, M_bind at 1, load, mlift. rewrite Hv.
    destruct (Z.eqb_spec v 0) as [->|Hv0].
    + assert (vals s (p :: ps) = vals s ps) as Ev by (cbn [vals]; by rewrite Hv). rewrite Ev in *.
      destruct (IH s b count) as (s' & Hr & Hf & Hq); try done; [intros q Hq; apply Hd, elem_of_cons; by right|].
      exists s'. split; [done|]. split; [done|]. intros q. rewrite Hq, <- bool_decide_cons.
      destruct (decide (q = p)) as [->|]; [|by rewrite (bool_decide_eq_false_2 (q = p))].
      rewrite (bool_decide_eq_true_2 (p = p)), (bool_decide_eq_false_2 (p ∈ ps)) by done. done.
    + assert (vals s (p :: ps) = v :: vals s ps) as Ev
        by (cbn [vals]; rewrite Hv; by rewrite (proj2 (Z.eqb_neq v 0))).
      rewrite Ev in *.
      destruct (store_total p 0 s v Hv) as (s1 & E1). destruct (store_spec _ _ _ _ E1) as [[Hfs _ _ _] Hd1].
      unfold mbind at 1, M_bind at 1, store. rewrite E1.
      assert (vals s1 ps = vals s ps) as Ev1.
      { apply vals_ext. intros q Hq. rewrite Hd1, decide_False; [done|]. by intros ->. }
      assert (forall q, q ∈ ps -> exists w, deref q s1 = Some w) as Hd'.
      { intros q Hq. rewrite Hd1. case_decide; [eauto|]. apply Hd, elem_of_cons. by right. }
      assert (forall q s', (forall q, deref q s' = if bool_decide (q ∈ ps) then Some 0 else deref q s1) ->
                deref q s' = if bool_decide (q ∈ p :: ps) then Some 0 else deref q s) as Hfin.
      { intros q s' ->. rewrite Hd1, <- bool_decide_cons.
        destruct (decide (q = p)) as [->|]; [|by rewrite (bool_decide_eq_false_2 (q = p))].
        rewrite (bool_decide_eq_true_2 (p = p)) by done. by destruct (bool_decide (p ∈ ps)). }
      assert (forall x, live s x -> live s1 x) as Hl1 by (intros x; unfold live; by rewrite Hfs).
      assert (live s v) as Hlv by (apply Hl, elem_of_app; right; apply elem_of_cons; by left).
      assert (0 <= v < 2 ^ 32) as Hvr by (by eapply live_u32).
      destruct (Z.eqb_spec count 0) as [->|Hc0].
      * (* first block of a run *)
        assert (pending b 0 = []) as Ep by (unfold pending, range; rewrite Z.add_0_r, Z.sub_diag; done).
        rewrite Ep in *. cbn [app] in *.
        assert (pending v 1 ++ vals s1 ps = v :: vals s ps) as E2 by (rewrite Ev1; unfold pending, range; replace (v + 1 - v) with 1 by lia; done).
        destruct (IH s1 v 1) as (s' & -> & Hf & Hq); rewrite ?E2, ?Hfs; try done; [intros x Hx; by apply Hl1, Hl|].
        exists s'. rewrite E2, Hfs in Hf. split; [done|]. split; [done|]. intros q. by apply Hfin.
      * assert (forall x, x ∈ pending b count -> live s x) as Hlp by (intros x Hx; apply Hl, elem_of_app; by left).
        assert (0 <= b < 2 ^ 32) as Hbr by (eapply live_u32; [done|]; apply Hlp, elem_of_range; lia).
        assert (b + count - 1 < 2 ^ 32) as Hbc
          by (pose proof (live_u32 s (b + count - 1) Hinv (Hlp (b + count - 1) ltac:(apply elem_of_range; lia))); lia).
        destruct (Z.eqb_spec b (u64 (v - count))) as [Eb|Eb].
        -- (* contiguous *)
           assert (v = b + count) as ->.
           { destruct (Z.lt_ge_cases (v - count) 0) as [Hneg|Hneg].
             - unfold u64 in Eb. rewrite <- (Z.mod_add _ 1), Z.mod_small in Eb by lia. lia.
             - rewrite u64_small in Eb by lia. lia. }
           assert (pending b (count + 1) ++ vals s1 ps = pending b count ++ (b + count) :: vals s ps) as E2
             by (rewrite Ev1, <- pending_snoc by lia; by rewrite <- app_assoc).
           destruct (IH s1 b (count + 1)) as (s' & -> & Hf & Hq); rewrite ?E2, ?Hfs; try done; [lia|intros x Hx; by apply Hl1, Hl|].
           exists s'. rewrite E2, Hfs in Hf. split; [done|]. split; [done|]. intros q. by apply Hfin.
        -- (* flush the run *)
           destruct (free_run s1 b count) as (f & Hrun & Hf1); rewrite ?Hfs; try done; [lia| | |].
           { intros x Hx. by apply Hl1, Hlp. }
           { revert Hlen. rewrite length_app. unfold pending. pose proof (length_range b (b + count)). lia. }
           rewrite Hfs in Hf1.
           set (s2 := mk_ist f (is_ind s1) (is_ino s1) (is_iblocks s1) (is_dirty s1) true) in *.
           assert (vals s2 ps = vals s ps) as Ev2 by (rewrite <- Ev1; apply vals_ext; by intros []).
           assert (pending v 1 ++ vals s2 ps = v :: vals s ps) as E2 by (rewrite Ev2; unfold pending, range; replace (v + 1 - v) with 1 by lia; done).
           apply NoDup_app in Hndv as (Hnd1 & Hdisj & Hnd2).
           destruct (IH s2 v 1) as (s' & Hr & Hf & Hq); rewrite ?E2; try done.
           { apply Hf1. }
           { intros x Hx. assert (live s1 x) as Hx1 by (apply Hl1, Hl, elem_of_app; by right).
             rewrite <- Hfs in Hf1. apply (live_after s1 f true _ x Hf1); [|done].
             intros Hin. by apply (Hdisj x Hin). }
           { change (is_fs s2) with f. rewrite (fs_step_usedcnt _ _ _ Hf1). rewrite length_app in Hlen. cbn [length] in *. lia. }
           exists s'. rewrite E2 in Hf. split.
           { revert Hrun. unfold mbind, M_bind. destruct (on_fs _ s1) as [[? s1']|]; [|done].
             intros Hm. rewrite Hm. exact Hr. }
           split; [by eapply free_step_app|]. intros q. apply Hfin. intros q'. rewrite Hq. by destruct q'.
Qed.

(** ** Example file: inode 3 of the demo file system, empty *)
Definition empty_file : ist := mk_ist Demo.demo ∅ 3 (repeat 0 14) ∅ false.

Lemma empty_node P : prefix_ok P -> node empty_file P = 0.
Proof.
  destruct P as [|o R]; [done|]. intros (Ho & _). unfold node.
  assert (deref (PInode o) empty_file = Some 0) as ->.
  { simpl. unfold word_at. rewrite (proj2 (Z.leb_le 0 o)) by lia. apply (lookup_repeat 0 14). lia. }
  apply walk_0.
Qed.

Lemma empty_file_inv : file_inv empty_file.
Proof.
  split; [|exact Demo.demo_inv|exact Demo.demo_hint|simpl; lia]. split; [done| | |].
  - intros P HP. by rewrite empty_node.
  - intros P Q HP HQ. by rewrite !empty_node.
  - intros P HP _. by rewrite empty_node.
Qed.

(** ** The theorems *)

(** C31: nvfuse_block_to_path is a bijection between the file blocks of the
    supported range (about 2^30 blocks) and the complete paths of the tree:
    every block in range has a well-formed path from which it can be computed
    back, the reported boundary is the number of slots that follow the last
    one in its array, and every block out of range is rejected. *)
Theorem block_to_path_roundtrip b :
  (0 <= b < max_block -> prefix_ok (path b) /\ is_leaf (path b) /\ path_to_block (path b) = b /\
     exists Q o, path b = Q ++ [o] /\ 0 <= o < last_cap (path b) /\ boundary b = last_cap (path b) - 1 - o) /\
  (~ 0 <= b < max_block -> path b = []) /\
  (forall P, prefix_ok P -> is_leaf P -> path (path_to_block P) = P).
Proof.
  split; [apply path_spec|]. split.
  - intros Hout. destruct (path b) eqn:E; [done|]. exfalso. apply Hout, path_range. by rewrite E.
  - intros P H1 H2. by apply path_of_block.
Qed.

Lemma block_to_path_roundtrip_witness :
  path 2000000 = [13; 0; 928; 117] /\ path_to_block (path 2000000) = 2000000 /\ path (-1) = [].
Proof.
  destruct (block_to_path_roundtrip 2000000) as [H _].
  destruct (block_to_path_roundtrip (-1)) as (_ & H1 & _).
  split; [reflexivity|]. split; [apply H; unfold max_block; lia|apply H1; lia].
Defined.

(** C18: nvfuse_get_block without allocation refines a lookup in the partial
    map of the file: it returns 0 and the block of the path (0 for a hole),
    changes nothing, and the count it reports covers only blocks that are
    physically contiguous. *)
Theorem get_block_lookup s lb maxb :
  file_inv s -> 0 <= lb < max_block ->
  exists cnt, nvfuse_get_block true lb maxb false s = Some ((0, cnt, lookup_block s lb), s) /\
    (lookup_block s lb = 0 -> cnt = 0) /\
    (lookup_block s lb <> 0 -> 1 <= cnt /\ cnt <= Z.max 1 maxb /\
       forall j, 0 <= j < cnt -> lb + j < max_block /\
         lookup_block s (lb + j) = u32 (lookup_block s lb + j)).
Proof. apply get_block_lookup_run. Qed.

Lemma get_block_lookup_witness : exists cnt,
  nvfuse_get_block true 5000 8 false empty_file = Some ((0, cnt, lookup_block empty_file 5000), empty_file) /\
  (lookup_block empty_file 5000 = 0 -> cnt = 0) /\
  (lookup_block empty_file 5000 <> 0 -> 1 <= cnt /\ cnt <= Z.max 1 8 /\
     forall j, 0 <= j < cnt -> 5000 + j < max_block /\
       lookup_block empty_file (5000 + j) = u32 (lookup_block empty_file 5000 + j)).
Proof. apply (get_block_lookup empty_file 5000 8); [exact empty_file_inv|unfold max_block; lia]. Defined.

(** C19: nvfuse_get_block with allocation refines the insertion of a run into
    the partial map: on a hole whose missing levels start at offset zero, with
    enough free blocks, it returns 0; the [cnt] file blocks from [lb] on, and
    no others, are mapped to distinct blocks that were free, every other file
    block keeps its mapping, and tree and allocator are consistent again. *)
Theorem get_block_create s lb maxb :
  file_inv s -> 0 <= lb < max_block -> lookup_block s lb = 0 -> sequential s lb -> 1 <= maxb ->
  3 + Z.min maxb 1024 <= sb_free_blocks (fs_sb (is_fs s)) ->
  exists cnt pb s', nvfuse_get_block true lb maxb true s = Some ((0, cnt, pb), s') /\ file_inv s' /\
    1 <= cnt <= maxb /\ lb + cnt <= max_block /\ pb = lookup_block s' lb /\
    (forall b, lb <= b < lb + cnt -> lookup_block s b = 0 /\ lookup_block s' b <> 0 /\
       block_used (is_fs s) (lookup_block s' b) = false) /\
    (forall b, 0 <= b < max_block -> ~ lb <= b < lb + cnt -> lookup_block s' b = lookup_block s b).
Proof. apply get_block_create_run. Qed.

Lemma get_block_create_witness : exists cnt pb s',
  nvfuse_get_block true 11 4 true empty_file = Some ((0, cnt, pb), s') /\ file_inv s' /\
  1 <= cnt <= 4 /\ 11 + cnt <= max_block /\ pb = lookup_block s' 11 /\
  (forall b, 11 <= b < 11 + cnt -> lookup_block empty_file b = 0 /\ lookup_block s' b <> 0 /\
     block_used Demo.demo (lookup_block s' b) = false) /\
  (forall b, 0 <= b < max_block -> ~ 11 <= b < 11 + cnt -> lookup_block s' b = lookup_block empty_file b).
Proof.
  apply (get_block_create empty_file 11 4);
    [exact empty_file_inv|unfold max_block; lia|reflexivity| |lia|simpl; lia].
  intros Q R HP HQ _. change (path 11) with ([11; 0] : list Z) in HP.
  destruct Q as [|a [|b [|]]]; simplify_eq/=; auto.
Defined.

(** The offsets below the first missing level. *)
Lemma alloc_branch_loop_nonzero dm news : forall parent offs s,
  length offs = length news -> (exists o, o ∈ offs /\ o <> 0) -> Z.of_nat (length dm) <= 1023 ->
  alloc_branch_loop parent news offs dm s = None.
Proof.
  induction news as [|n news IH]; intros parent offs s Hlen (o & Ho & Hnz) Hdm.
  - destruct offs; [|done]. by apply not_elem_of_nil in Ho.
  - destruct offs as [|o0 offs]; [done|]. injection Hlen as Hlen. rewrite alloc_branch_loop_S.
    destruct (Z.eqb_spec o0 0) as [->|]; [|done]. apply elem_of_cons in Ho as [->|Ho]; [done|].
    destruct (new_block_words s parent n (bool_decide (news = [])) dm Hdm) as (s1 & -> & _).
    rewrite IH; eauto.
Qed.

(** a write that would allocate a new indirect block for a position other
    than its first slot is not supported: on a hole whose first missing level
    is above a non-zero offset the allocating call ends in the assertion of
    nvfuse_alloc_branch, although blocks are free. *)
Theorem get_block_sparse_aborts s lb maxb Q R :
  file_inv s -> 0 <= lb < max_block -> path lb = Q ++ R -> Q <> [] -> strict_nz s Q -> node s Q = 0 ->
  (exists o, o ∈ R /\ o <> 0) -> 1 <= maxb -> 3 + Z.min maxb 1024 <= sb_free_blocks (fs_sb (is_fs s)) ->
  nvfuse_get_block true lb maxb true s = None.
Proof.
  intros Hfi Hlb HPQ HQ Hs0 Hz0 HR Hm Hfree. pose proof Hfi as [Hwf Hinv Hh Hino].
  destruct (path_spec lb Hlb) as (Hok & Hleaf & Hpb & Q' & o & HP & Ho & Hbd).
  pose proof (last_cap_bounds (path lb)) as Hcap. unfold nvfuse_get_block.
  destruct (nvfuse_block_to_path lb) as [offs bd] eqn:Epath.
  assert (path lb = offs /\ boundary lb = bd) as [Eo Ebd] by (unfold path, boundary; by rewrite Epath).
  rewrite <- Eo. rewrite Ebd in Hbd. rewrite s32_small by lia.
  rewrite bool_decide_eq_false_2 by (rewrite HP; by destruct Q'). unfold mbind at 1, M_bind at 1.
  destruct (get_branch_spec s (path lb) Hwf Hok) as (Q1 & R1 & full & EP & Hne & -> & Hs & Hf).
  assert (full = false /\ Q1 = Q /\ R1 = R) as (-> & -> & ->).
  { apply (first_missing s Q R Q1 R1 full); try done. by rewrite <- EP, HPQ. }
  cbv beta iota. destruct Q as [|x q _] using rev_ind; [done|].
  assert (q = [] \/ node s q <> 0) as Hq.
  { destruct q as [|q0 q]; [by left|]. right. by apply (Hs0 (q0 :: q) [x]). }
  rewrite chain_from_length. rewrite chain_from_snoc, last_snoc. cbn [app negb orb].
  change (0 =? - EIO) with false. cbv iota.
  assert (Z.of_nat (length (path lb)) - Z.of_nat (length (q ++ [x])) = Z.of_nat (length R)) as ->
    by (rewrite EP, (length_app (q ++ [x]) R); lia).
  unfold mbind at 1, M_bind at 1.
  assert (R <> []) as HRn by (intros ->; destruct HR as (? & ?%not_elem_of_nil & _); done).
  destruct (blks_to_allocate_run s q R x maxb bd (entry s q x)) as (cnt & -> & Hc1 & Hc2 & _); try done; try lia.
  { by rewrite <- EP. } { by rewrite <- EP. }
  { rewrite EP in Hok. assert (prefix_ok (q ++ [x])) as H by (eapply prefix_ok_app; [done|exact Hok]).
    destruct q as [|q0 q]; [apply prefix_ok_one in H; lia|].
    destruct (prefix_ok_snoc (q0 :: q) x) as (_ & _ & ?); [done|done|lia]. }
  assert (drop (length (q ++ [x]) - 1) (path lb) = x :: R) as ->.
  { rewrite EP, length_app. simpl. replace (length q + 1 - 1)%nat with (length q) by lia.
    rewrite <- app_assoc. rewrite drop_app_length. done. }
  pose proof (leaf_length lb _ _ Hlb EP Hne) as HR3.
  destruct (alloc_free_blocks_run (is_fs s) (is_ino s) (Z.of_nat (length R)) cnt)
    as (blocks & direct & f & Ealloc & S & Hhf & Hlb' & Hld); try done; try lia.
  destruct blocks as [|new0 news]; [simpl in Hlb'; lia|]. simpl in Hlb'.
  unfold nvfuse_alloc_branch, mbind, M_bind, mget, on_fs. rewrite Ealloc.
  change (drop 1 (x :: R)) with (drop 0 R). rewrite drop_0.
  rewrite alloc_branch_loop_nonzero; [done|lia|done|lia].
Qed.

Lemma get_block_sparse_aborts_witness : nvfuse_get_block true 12 1 true empty_file = None.
Proof.
  apply (get_block_sparse_aborts empty_file 12 1 [11] [1]);
    [exact empty_file_inv|unfold max_block; lia|reflexivity|done| |reflexivity| |lia|simpl; lia].
  - intros Q' R' E HQ HR. destruct Q' as [|? [|]]; destruct R'; done.
  - exists 1. split; [by apply list_elem_of_singleton|done].
Defined.

(** ** Truncation of a file without indirect blocks *)

Definition direct_slots (k : Z) : list ptr := words_of PInode k DIRECT_BLOCKS.

Lemma elem_of_direct_slots k q : q ∈ direct_slots k <-> exists o, q = PInode o /\ k <= o < 11.
Proof.
  unfold direct_slots, words_of. rewrite list_elem_of_fmap. change DIRECT_BLOCKS with 11.
  split; intros (o & -> & Ho); exists o; (split; [done|]); by apply elem_of_range.
Qed.

Lemma elem_of_vals s ps x : x ∈ vals s ps <-> x <> 0 /\ exists p, p ∈ ps /\ deref p s = Some x.
Proof.
  induction ps as [|p ps IH]; cbn [vals].
  - split; [by intros ?%not_elem_of_nil|]. by intros (_ & ? & ?%not_elem_of_nil & _).
  - destruct (deref p s) as [v|] eqn:E; [destruct (Z.eqb_spec v 0)|]; rewrite ?elem_of_cons, IH; split.
    + intros (? & q & ? & ?). split; [done|]. exists q. rewrite elem_of_cons. auto.
    + intros (? & q & [->|?]%elem_of_cons & ?); [congruence|]. eauto.
    + intros [->|(? & q & ? & ?)]; (split; [done|]); [exists p|exists q]; rewrite elem_of_cons; auto.
    + intros (? & q & [->|?]%elem_of_cons & ?); [left; congruence|]. right. eauto.
    + intros (? & q & ? & ?). split; [done|]. exists q. rewrite elem_of_cons. auto.
    + intros (? & q & [->|?]%elem_of_cons & ?); [congruence|]. eauto.
Qed.

Lemma deref_direct s o : tree_wf s -> 0 <= o < 14 -> deref (PInode o) s = Some (node s [o]).
Proof.
  intros Hwf Ho. change (PInode o) with (slot s [] o). change [o] with ([] ++ [o]). apply deref_slot; [done| |by left].
  split; [done|]. split; [constructor|]. unfold depth_of. repeat case_match; simpl; lia.
Qed.

Lemma prefix_ok_single o : 0 <= o < 14 -> prefix_ok [o].
Proof. intros Ho. split; [done|]. split; [constructor|]. unfold depth_of. repeat case_match; simpl; lia. Qed.

Lemma NoDup_vals s ps : NoDup ps ->
  (forall p q v, p ∈ ps -> q ∈ ps -> deref p s = Some v -> deref q s = Some v -> v <> 0 -> p = q) -> NoDup (vals s ps).
Proof.
  induction 1 as [|p ps Hp Hnd IH]; intros Hinj; cbn [vals]; [constructor|].
  assert (NoDup (vals s ps)) as Hr.
  { apply IH. intros a b v Ha Hb. apply Hinj; apply elem_of_cons; by right. }
  destruct (deref p s) as [v|] eqn:E; [|done]. destruct (Z.eqb_spec v 0); [done|]. constructor; [|done].
  intros (_ & q & Hq & Eq)%elem_of_vals. assert (p = q) as ->; [|done].
  apply (Hinj p q v); try done; apply elem_of_cons; [by left|by right].
Qed.

(** Paths of a file without indirect blocks. *)
Lemma no_indirect_node s P : prefix_ok P -> node s [11] = 0 -> node s [12] = 0 -> node s [13] = 0 ->
  node s P = 0 \/ exists o, P = [o] /\ 0 <= o < 11.
Proof.
  intros HP H1 H2 H3. destruct P as [|o R]; [done|]. pose proof HP as (Ho & _ & Hlen).
  destruct (Z.lt_ge_cases o 11) as [Hlt|Hge].
  - right. exists o. split; [|lia]. destruct R; [done|]. unfold depth_of in Hlen.
    change DIRECT_BLOCKS with 11 in Hlen. rewrite (proj2 (Z.ltb_lt o 11)) in Hlen by done. simpl in Hlen. lia.
  - left. change (o :: R) with ([o] ++ R). rewrite node_app by done.
    assert (node s [o] = 0) as ->; [|apply walk_0].
    assert (o = 11 \/ o = 12 \/ o = 13) as [->|[->| ->]] by lia; done.
Qed.

Lemma kill_subtree_none s slot d : deref (PInode slot) s = Some 0 -> kill_subtree true slot d s = Some (tt, s).
Proof. intros H. unfold kill_subtree, mbind, M_bind, load, mlift. by rewrite H. Qed.

Lemma deref_inode_lt s o v : deref (PInode o) s = Some v -> o < Z.of_nat (length (is_iblocks s)).
Proof. cbn [deref]. unfold word_at. case_match; [|done]. intros ?%lookup_lt_Some. lia. Qed.

Lemma deref_inode_ge s o : 0 <= o -> deref (PInode o) s = None -> Z.of_nat (length (is_iblocks s)) <= o.
Proof. intros Ho. cbn [deref]. unfold word_at. rewrite (proj2 (Z.leb_le 0 o)) by done. intros ?%lookup_ge_None. lia. Qed.

Lemma deref_inode_none s o : Z.of_nat (length (is_iblocks s)) <= o -> deref (PInode o) s = None.
Proof. intros Ho. cbn [deref]. unfold word_at. case_match; [|done]. apply lookup_ge_None. lia. Qed.

Section TruncateDirect.
Context (s : ist) (k : Z).
Context (Hfi : file_inv s) (Hk : 0 <= k <= 10).
Context (H11 : node s [11] = 0) (H12 : node s [12] = 0) (H13 : node s [13] = 0).
Context (Hused : Z.of_nat (length (vals s (direct_slots k))) <= sb_no_of_used_blocks (fs_sb (is_fs s))).
Let Hwf : tree_wf s := fi_tree s Hfi.

Lemma direct_slot p : p ∈ direct_slots k -> exists o, p = PInode o /\ k <= o < 11 /\ deref p s = Some (node s [o]).
Proof.
  intros (o & -> & Ho)%elem_of_direct_slots. exists o. split; [done|]. split; [done|]. apply deref_direct; [done|lia].
Qed.

Lemma direct_inj o o' : 0 <= o < 14 -> 0 <= o' < 14 -> node s [o] = node s [o'] -> node s [o] <> 0 -> o = o'.
Proof. intros Ho Ho' E Hnz. assert ([o] = [o']) as [= ->]; [|done]. apply (tw_inj s Hwf); auto using prefix_ok_single. Qed.

Lemma free_direct_run : exists s', free_data_loop true (direct_slots k) 0 0 s = Some (tt, s') /\
  free_step (is_fs s) (is_fs s') (vals s (direct_slots k)) /\
  (forall q, deref q s' = if bool_decide (q ∈ direct_slots k) then Some 0 else deref q s).
Proof.
  assert (NoDup (direct_slots k)) as Hnd.
  { apply NoDup_fmap_2; [by intros ?? [= ->]|]. apply NoDup_range. }
  apply (free_data_loop_run (direct_slots k) s 0 0); cbn [pending]; try done.
  - apply Hfi.
  - intros p Hp. destruct (direct_slot p Hp) as (o & _ & _ & E). eauto.
  - apply NoDup_vals; [done|]. intros p q v Hp Hq Ep Eq Hnz.
    destruct (direct_slot p Hp) as (o & -> & Ho & E), (direct_slot q Hq) as (o' & -> & Ho' & E').
    f_equal. apply direct_inj; [lia..|congruence|congruence].
  - intros x (Hx0 & p & Hp & E)%elem_of_vals. destruct (direct_slot p Hp) as (o & -> & Ho & E2).
    assert (x = node s [o]) as -> by congruence.
    apply (tw_live s Hwf); [apply prefix_ok_single; lia|done].
Qed.

(** The tree after the loop. *)
Context (s' : ist) (Hfree : free_step (is_fs s) (is_fs s') (vals s (direct_slots k))).
Context (Hd : forall q, deref q s' = if bool_decide (q ∈ direct_slots k) then Some 0 else deref q s).

Lemma direct_inode o : 0 <= o < 14 ->
  deref (PInode o) s' = Some (if (k <=? o) && (o <? 11) then 0 else node s [o]).
Proof.
  intros Ho. rewrite Hd, deref_direct by done.
  destruct ((k <=? o) && (o <? 11)) eqn:E.
  - apply andb_prop in E as [?%Z.leb_le ?%Z.ltb_lt].
    rewrite bool_decide_eq_true_2; [done|]. apply elem_of_direct_slots. eauto.
  - rewrite bool_decide_eq_false_2; [done|]. intros (? & [= <-] & ?)%elem_of_direct_slots.
    apply andb_false_iff in E as [?%Z.leb_gt|?%Z.ltb_ge]; lia.
Qed.

Lemma direct_node1 o : 0 <= o < 14 -> node s' [o] = if (k <=? o) && (o <? 11) then 0 else node s [o].
Proof. intros Ho. cbn [node walk]. by rewrite direct_inode. Qed.

Lemma indirect_inode o : 11 <= o < 14 -> deref (PInode o) s' = Some 0.
Proof.
  intros Ho. rewrite direct_inode by lia. rewrite (proj2 (Z.ltb_ge o 11)), andb_false_r by lia.
  assert (o = 11 \/ o = 12 \/ o = 13) as [->|[->| ->]] by lia; by f_equal.
Qed.

Lemma direct_node P : prefix_ok P -> node s' P <> 0 -> exists o, P = [o] /\ 0 <= o < k /\ node s' P = node s [o].
Proof.
  intros HP Hnz.
  assert (forall o, 11 <= o < 14 -> node s' [o] = 0) as Hz by (intros o Ho; cbn [node walk]; by rewrite indirect_inode).
  destruct (no_indirect_node s' P HP) as [?|(o & -> & Ho)]; try (apply Hz; lia); [done|].
  rewrite direct_node1 in Hnz |- * by lia. exists o. split; [done|].
  rewrite (proj2 (Z.ltb_lt o 11)), andb_true_r in * by lia.
  destruct (Z.leb_spec k o); [done|]. split; [lia|done].
Qed.

Lemma direct_len : length (is_iblocks s') = 14%nat.
Proof.
  pose proof (indirect_inode 13 ltac:(lia)) as E13%deref_inode_lt.
  assert (deref (PInode 14) s' = None) as E14%deref_inode_ge; [|lia..].
  rewrite Hd, bool_decide_eq_false_2 by (intros (? & [= <-] & ?)%elem_of_direct_slots; lia).
  apply deref_inode_none. rewrite (tw_len s Hwf). lia.
Qed.

Lemma direct_wf : tree_wf s'.
Proof.
  split; [exact direct_len| | |].
  - intros P HP Hnz. destruct (direct_node P HP Hnz) as (o & -> & Ho & E). rewrite E in *.
    destruct (tw_live s Hwf [o]) as [H1 H2]; [apply prefix_ok_single; lia|done|].
    split; [by apply (data_block_frame (is_fs s) (is_fs s')); [apply Hfree|]|].
    rewrite (fs_step_used _ _ _ Hfree) by apply H1. rewrite H2, bool_decide_eq_false_2; [done|].
    intros (_ & p & Hp & Ep)%elem_of_vals. destruct (direct_slot p Hp) as (o' & -> & Ho' & E').
    assert (node s [o'] = node s [o]) as Eo by congruence.
    assert (o' = o) by (apply direct_inj; [lia..|done|by rewrite Eo]). lia.
  - intros P Q HP HQ Heq Hnz. destruct (direct_node P HP Hnz) as (o & -> & Ho & E).
    assert (node s' Q <> 0) as Hnq by congruence. destruct (direct_node Q HQ Hnq) as (o' & -> & Ho' & E').
    f_equal. apply direct_inj; [lia..|congruence|congruence].
  - intros P HP Hl Hnz. destruct (direct_node P HP Hnz) as (o & -> & Ho & E). exfalso. apply Hl.
    unfold is_leaf, path_depth, depth_of. change DIRECT_BLOCKS with 11. by rewrite (proj2 (Z.ltb_lt o 11)) by lia.
Qed.

Lemma direct_lookup b : 0 <= b < max_block -> lookup_block s' b = if b <? k then lookup_block s b else 0.
Proof.
  intros Hb. unfold lookup_block. destruct (path_spec b Hb) as (HP & _ & Hpb & _).
  destruct (no_indirect_node s (path b) HP H11 H12 H13) as [Hz|(o & E & Ho)].
  - rewrite Hz. transitivity 0; [|by case_match].
    destruct (Z.eq_dec (node s' (path b)) 0) as [|Hnz]; [done|].
    destruct (direct_node _ HP Hnz) as (o & E & Ho & E'). rewrite E' in *. rewrite E in Hz. done.
  - rewrite E in *. simpl in Hpb. subst o. rewrite direct_node1 by lia.
    destruct (Z.leb_spec k b), (Z.ltb_spec b k); try lia; [|done].
    by rewrite (proj2 (Z.ltb_lt b 11)) by lia.
Qed.

End TruncateDirect.

Lemma truncate_first_block offset : 0 <= offset <= 10 * 4096 ->
  s32 (Z.shiftr (s64 (u64 (offset + CLUSTER_SIZE - 1))) CLUSTER_SIZE_BITS) = (offset + 4095) / 4096 /\
  0 <= (offset + 4095) / 4096 <= 10.
Proof.
  intros Ho. assert (0 <= (offset + 4095) / 4096 <= 10) as Hk.
  { split; [apply Z.div_pos; lia|]. enough ((offset + 4095) / 4096 < 11) by lia. apply Z.div_lt_upper_bound; lia. }
  split; [|done]. change (offset + CLUSTER_SIZE - 1) with (offset + 4096 - 1). rewrite u64_small, s64_small by lia.
  rewrite Z.shiftr_div_pow2 by (unfold CLUSTER_SIZE_BITS; lia). change (2 ^ CLUSTER_SIZE_BITS) with 4096.
  replace (offset + 4096 - 1) with (offset + 4095) by lia. apply s32_small. lia.
Qed.

(** truncating a file that uses only direct blocks frees exactly the
    blocks behind the new end, clears their slots and keeps the rest of the
    map; blocks, counters and tree stay consistent. *)
Theorem truncate_direct s offset :
  file_inv s -> node s [11] = 0 -> node s [12] = 0 -> node s [13] = 0 ->
  0 <= offset <= 10 * 4096 ->
  let k := (offset + 4095) / 4096 in
  Z.of_nat (length (vals s (direct_slots k))) <= sb_no_of_used_blocks (fs_sb (is_fs s)) ->
  exists s', nvfuse_truncate_blocks true offset s = Some (tt, s') /\
    free_step (is_fs s) (is_fs s') (vals s (direct_slots k)) /\ tree_wf s' /\
    forall b, 0 <= b < max_block -> lookup_block s' b = if b <? k then lookup_block s b else 0.
Proof.
  intros Hfi H11 H12 H13 Hoff k Hused. destruct (truncate_first_block offset Hoff) as [Ek Hk]. fold k in Ek, Hk.
  destruct (free_direct_run s k Hfi Hk Hused) as (s' & Hrun & Hfree & Hd).
  exists s'. split; [|split; [done|split; [by eapply direct_wf|by eapply direct_lookup]]].
  unfold nvfuse_truncate_blocks. rewrite Ek.
  destruct (block_to_path_cases k) as [[? _]|[[_ E]|[(?&?&?&_)|[(?&?&?&?&?&_)|[(?&?&?&?&?&?&?&_)|[? _]]]]]];
    unfold max_block in *; try lia.
  rewrite E. cbv beta iota. rewrite bool_decide_eq_true_2 by done.
  unfold mbind, M_bind. unfold nvfuse_free_data. fold (direct_slots k). rewrite Hrun.
  change INDIRECT_BLOCKS with 11. change DINDIRECT_BLOCKS with 12. change TINDIRECT_BLOCKS with 13.
  rewrite !(proj2 (Z.ltb_lt k _)) by lia.
  by rewrite !kill_subtree_none by (eapply indirect_inode; eauto; lia).
Qed.

(** A file with four direct blocks: what nvfuse_get_block makes of the empty file. *)
Definition direct_file : ist :=
  match nvfuse_get_block true 0 4 true empty_file with Some (_, s) => s | None => empty_file end.

Lemma direct_file_inv : file_inv direct_file.
Proof.
  unfold direct_file. destruct (get_block_create_run empty_file 0 4) as (cnt & pb & s' & -> & H & _);
    [exact empty_file_inv|unfold max_block; lia|reflexivity| |lia|simpl; lia|done].
  intros Q R HP HQ _. change (path 0) with ([0] : list Z) in HP.
  destruct Q as [|a [|b [|]]]; simplify_eq/=; auto.
Qed.

Lemma truncate_direct_witness : exists s',
  nvfuse_truncate_blocks true 5000 direct_file = Some (tt, s') /\
  free_step (is_fs direct_file) (is_fs s') (vals direct_file (direct_slots 2)) /\
  length (vals direct_file (direct_slots 2)) = 2%nat /\ tree_wf s' /\
  forall b, 0 <= b < max_block -> lookup_block s' b = if b <? 2 then lookup_block direct_file b else 0.
Proof.
  destruct (truncate_direct direct_file 5000) as (s' & H1 & H2 & H3 & H4);
    [exact direct_file_inv|vm_compute; reflexivity..|lia| |].
  { apply Z.leb_le. vm_compute. reflexivity. }
  exists s'. split; [exact H1|]. split; [exact H2|]. split; [vm_compute; reflexivity|]. split; [exact H3|exact H4].
Defined.

End IndirectThms.
