(* ===== verification/DirHash.v ===== *)
(** * Hashes of directory entries

    src/nvfuse_dirhash.c: the TEA and half-MD4 compression functions, the
    legacy hash, the packing of a name into words, [ext2fs_dirhash] that
    selects among them, and the CRC-32C that [nvfuse_dir_hash] of
    src/nvfuse_core.c computes with the CRC32 instruction.

    A name is the list of its bytes (values 0..255).  Reading a byte behind
    the list is [None]; the compression functions work on lists of words of
    fixed length and give [None] on a list of another length. *)
From S2P Require Import Prelude.

Module DirHash.

(** ** Reading characters, as signed or unsigned char *)

Definition sign_char (c : Z) : Z := if c <? 128 then c else c - 256.

Definition char_at (unsigned_flag : bool) (name : list Z) (i : Z) : option Z :=
  c ← (if 0 <=? i then name !! Z.to_nat i else None);
  Some (if unsigned_flag then c else sign_char c).

(** ** TEA in a Davies-Meyer construction *)

Definition DELTA : Z := 0x9E3779B9.

(** One pass of the do-while loop, on (sum, b0, b1). *)
Definition tea_round (a b c d : Z) (st : Z * Z * Z) : Z * Z * Z :=
  let '(sum, b0, b1) := st in
  let sum := u32 (sum + DELTA) in
  let b0 := u32 (b0 + Z.lxor (Z.lxor (u32 (u32 (Z.shiftl b1 4) + a)) (u32 (b1 + sum))) (u32 (Z.shiftr b1 5 + b))) in
  let b1 := u32 (b1 + Z.lxor (Z.lxor (u32 (u32 (Z.shiftl b0 4) + c)) (u32 (b0 + sum))) (u32 (Z.shiftr b0 5 + d))) in
  (sum, b0, b1).

Fixpoint tea_rounds (n : nat) (a b c d : Z) (st : Z * Z * Z) : Z * Z * Z :=
  match n with O => st | S n => tea_rounds n a b c d (tea_round a b c d st) end.

Definition TEA_transform (buf inp : list Z) : option (list Z) :=
  match buf, inp with
  | [buf0; buf1; buf2; buf3], [a; b; c; d] =>
      let '(_, b0, b1) := tea_rounds 16 a b c d (0, buf0, buf1) in
      Some [u32 (buf0 + b0); u32 (buf1 + b1); buf2; buf3]
  | _, _ => None
  end.

(** ** Half MD4 *)

Definition F (x y z : Z) : Z := Z.lxor z (Z.land x (Z.lxor y z)).
Definition G (x y z : Z) : Z := u32 (Z.land x y + Z.land (Z.lxor x y) z).
Definition H (x y z : Z) : Z := Z.lxor (Z.lxor x y) z.

Definition K1 : Z := 0.
Definition K2 : Z := 0x5A827999.
Definition K3 : Z := 0x6ED9EBA1.

(** The rotation, and the macro ROUND: the new value of its argument [a]. *)
Definition rotl (a s : Z) : Z := Z.lor (u32 (Z.shiftl a s)) (Z.shiftr a (32 - s)).
Definition ROUND (f : Z -> Z -> Z -> Z) (a b c d x s : Z) : Z := rotl (u32 (a + u32 (f b c d + x))) s.

(** Four calls of ROUND in the order a, d, c, b of the source. *)
Definition quad (f : Z -> Z -> Z -> Z) (x1 x2 x3 x4 s1 s2 s3 s4 : Z) (st : Z * Z * Z * Z) : Z * Z * Z * Z :=
  let '(a, b, c, d) := st in
  let a := ROUND f a b c d x1 s1 in
  let d := ROUND f d a b c x2 s2 in
  let c := ROUND f c d a b x3 s3 in
  let b := ROUND f b c d a x4 s4 in
  (a, b, c, d).

Definition md4_rounds (i0 i1 i2 i3 i4 i5 i6 i7 : Z) (st : Z * Z * Z * Z) : Z * Z * Z * Z :=
  (* Round 1 *)
  let st := quad F (u32 (i0 + K1)) (u32 (i1 + K1)) (u32 (i2 + K1)) (u32 (i3 + K1)) 3 7 11 19 st in
  let st := quad F (u32 (i4 + K1)) (u32 (i5 + K1)) (u32 (i6 + K1)) (u32 (i7 + K1)) 3 7 11 19 st in
  (* Round 2 *)
  let st := quad G (u32 (i1 + K2)) (u32 (i3 + K2)) (u32 (i5 + K2)) (u32 (i7 + K2)) 3 5 9 13 st in
  let st := quad G (u32 (i0 + K2)) (u32 (i2 + K2)) (u32 (i4 + K2)) (u32 (i6 + K2)) 3 5 9 13 st in
  (* Round 3 *)
  let st := quad H (u32 (i3 + K3)) (u32 (i7 + K3)) (u32 (i2 + K3)) (u32 (i6 + K3)) 3 9 11 15 st in
  quad H (u32 (i1 + K3)) (u32 (i5 + K3)) (u32 (i0 + K3)) (u32 (i4 + K3)) 3 9 11 15 st.

Definition halfMD4Transform (buf inp : list Z) : option (list Z) :=
  match buf, inp with
  | [buf0; buf1; buf2; buf3], [i0; i1; i2; i3; i4; i5; i6; i7] =>
      let '(a, b, c, d) := md4_rounds i0 i1 i2 i3 i4 i5 i6 i7 (buf0, buf1, buf2, buf3) in
      Some [u32 (buf0 + a); u32 (buf1 + b); u32 (buf2 + c); u32 (buf3 + d)]
  | _, _ => None
  end.

(** ** The legacy hash *)

Fixpoint dx_hack_loop (n : nat) (unsigned_flag : bool) (name : list Z) (i hash0 hash1 : Z) : option Z :=
  match n with
  | O => Some (u32 (Z.shiftl hash0 1))
  | S n =>
      c ← char_at unsigned_flag name i;
      let hash := u32 (hash1 + Z.lxor hash0 (u32 (c * 7152373))) in
      let hash := if Z.land hash 0x80000000 =? 0 then hash else u32 (hash - 0x7fffffff) in
      dx_hack_loop n unsigned_flag name (i + 1) hash hash0
  end.

(** [while (len--)]: with a negative length the loop runs off the name. *)
Definition dx_hack_hash (name : list Z) (len : Z) (unsigned_flag : bool) : option Z :=
  if len <? 0 then None
  else dx_hack_loop (Z.to_nat len) unsigned_flag name 0 0x12a3fe2d 0x37abe8f9.

(** ** Packing a name into words *)

Definition hash_pad (len : Z) : Z :=
  let pad := Z.lor (u32 len) (u32 (Z.shiftl (u32 len) 8)) in
  Z.lor pad (u32 (Z.shiftl pad 16)).

(** The for loop: [n] iterations from [i] on; [out] is what was stored
    through [buf], [num] the number of words left. *)
Fixpoint str2hashbuf_loop (n : nat) (unsigned_flag : bool) (msg : list Z) (pad i val num : Z) (out : list Z)
    : option (Z * Z * list Z) :=
  match n with
  | O => Some (val, num, out)
  | S n =>
      let val := if i mod 4 =? 0 then pad else val in
      c ← char_at unsigned_flag msg i;
      let val := u32 (c + u32 (Z.shiftl val 8)) in
      if i mod 4 =? 3
      then str2hashbuf_loop n unsigned_flag msg pad (i + 1) pad (num - 1) (out ++ [val])
      else str2hashbuf_loop n unsigned_flag msg pad (i + 1) val num out
  end.

(** The words stored through [buf]. *)
Definition str2hashbuf (msg : list Z) (len num : Z) (unsigned_flag : bool) : option (list Z) :=
  let pad := hash_pad len in
  let len := if num * 4 <? len then num * 4 else len in
  '(val, num, out) ← str2hashbuf_loop (Z.to_nat len) unsigned_flag msg pad 0 pad num [];
  let num := num - 1 in
  let out := if 0 <=? num then out ++ [val] else out in
  Some (out ++ repeat pad (Z.to_nat num)).

(** ** Selection of the hash *)

Definition EXT2_HASH_LEGACY : Z := 0.
Definition EXT2_HASH_HALF_MD4 : Z := 1.
Definition EXT2_HASH_TEA : Z := 2.
Definition EXT2_HASH_LEGACY_UNSIGNED : Z := 3.
Definition EXT2_HASH_HALF_MD4_UNSIGNED : Z := 4.
Definition EXT2_HASH_TEA_UNSIGNED : Z := 5.

Definition default_seed : list Z := [0x67452301; 0xefcdab89; 0x98badcfe; 0x10325476].

(** [seed] is the pointer argument: null, or four words. *)
Definition initial_buf (seed : option (list Z)) : option (list Z) :=
  match seed with
  | None => Some default_seed
  | Some [s0; s1; s2; s3] =>
      Some (if (s0 =? 0) && (s1 =? 0) && (s2 =? 0) && (s3 =? 0) then default_seed else [s0; s1; s2; s3])
  | Some _ => None
  end.

(** [while (len > 0) { str2hashbuf(p, len, in, num); transform(buf, in); len -= 4 * num; p += 4 * num; }];
    running out of fuel is [None]. *)
Fixpoint compress_loop (fuel : nat) (transform : list Z -> list Z -> option (list Z)) (num : Z)
    (unsigned_flag : bool) (p : list Z) (len : Z) (buf : list Z) : option (list Z) :=
  if 0 <? len then
    match fuel with
    | O => None
    | S fuel =>
        inp ← str2hashbuf p len num unsigned_flag;
        buf ← transform buf inp;
        compress_loop fuel transform num unsigned_flag (drop (Z.to_nat (4 * num)) p) (len - 4 * num) buf
    end
  else Some buf.

(** The value returned, [*ret_hash], and [*ret_minor_hash] where it is stored. *)
Record dirhash_result := mk_dirhash { dh_ret : Z; dh_hash : Z; dh_minor : option Z }.

Definition word (buf : list Z) (i : nat) : option Z := buf !! i.

Definition ext2fs_dirhash (version : Z) (name : list Z) (len : Z) (seed : option (list Z)) (want_minor : bool)
    : option dirhash_result :=
  buf ← initial_buf seed;
  let finish (hash minor_hash : Z) :=
    Some (mk_dirhash 0 (Z.land hash (u32 (-2))) (if want_minor then Some minor_hash else None)) in
  if (version =? EXT2_HASH_LEGACY_UNSIGNED) || (version =? EXT2_HASH_LEGACY) then
    hash ← dx_hack_hash name len (version =? EXT2_HASH_LEGACY_UNSIGNED);
    finish hash 0
  else if (version =? EXT2_HASH_HALF_MD4_UNSIGNED) || (version =? EXT2_HASH_HALF_MD4) then
    buf ← compress_loop (Z.to_nat len) halfMD4Transform 8 (version =? EXT2_HASH_HALF_MD4_UNSIGNED) name len buf;
    minor_hash ← word buf 2; hash ← word buf 1;
    finish hash minor_hash
  else if (version =? EXT2_HASH_TEA_UNSIGNED) || (version =? EXT2_HASH_TEA) then
    buf ← compress_loop (Z.to_nat len) TEA_transform 4 (version =? EXT2_HASH_TEA_UNSIGNED) name len buf;
    hash ← word buf 0; minor_hash ← word buf 1;
    finish hash minor_hash
  else Some (mk_dirhash 0 0 None).

(** ** CRC-32C

    The CRC32 instruction with an 8-bit and with a 32-bit source operand: it
    shifts the operand, least significant bit first, through the register with
    the reflected Castagnoli polynomial (11EDC6F41h, reflected 82F63B78h). *)
Definition CRC_POLY : Z := 0x82F63B78.

Definition crc_step (x : Z) : Z :=
  if Z.odd x then Z.lxor (Z.shiftr x 1) CRC_POLY else Z.shiftr x 1.

Fixpoint crc_steps (n : nat) (x : Z) : Z :=
  match n with O => x | S n => crc_steps n (crc_step x) end.

Definition crc32_b (crc b : Z) : Z := crc_steps 8 (Z.lxor crc b).
Definition crc32_l (crc w : Z) : Z := crc_steps 32 (Z.lxor crc w).

Fixpoint crc32c_intel_le_hw_byte (crc : Z) (data : list Z) (length : nat) : option Z :=
  match length with
  | O => Some crc
  | S length =>
      match data with
      | b :: data => crc32c_intel_le_hw_byte (crc32_b crc b) data length
      | [] => None
      end
  end.

Definition SCALE_F : Z := 4.

(** A little-endian load of a word. *)
Definition load32 (b0 b1 b2 b3 : Z) : Z :=
  Z.lor b0 (Z.lor (Z.shiftl b1 8) (Z.lor (Z.shiftl b2 16) (Z.shiftl b3 24))).

Fixpoint crc_words (crc : Z) (data : list Z) (iquotient : nat) {struct iquotient} : option (Z * list Z) :=
  match iquotient with
  | O => Some (crc, data)
  | S n =>
      match data with
      | b0 :: b1 :: b2 :: b3 :: data => crc_words (crc32_l crc (load32 b0 b1 b2 b3)) data n
      | _ => None
      end
  end.

Definition crc32c_intel (data : list Z) (length : Z) : option Z :=
  let iquotient := u32 (length / SCALE_F) in
  let iremainder := u32 (length mod SCALE_F) in
  '(crc, ptmp) ← crc_words (u32 (-1)) data (Z.to_nat iquotient);
  if iremainder =? 0 then Some crc else crc32c_intel_le_hw_byte crc ptmp (Z.to_nat iremainder).

(** [nvfuse_dir_hash] of src/nvfuse_core.c: the two halves of the name. *)
Definition nvfuse_dir_hash (filename : list Z) : option (Z * Z) :=
  let size := s32 (Z.of_nat (length filename)) in
  let half := Z.quot size 2 in
  hash1 ← crc32c_intel filename half;
  hash2 ← crc32c_intel (drop (Z.to_nat half) filename) (size - half);
  Some (hash1, hash2).

(** The key of the directory index. *)
Definition dir_key (filename : list Z) : option Z :=
  '(h1, h2) ← nvfuse_dir_hash filename; Some (Z.lor h1 (u64 (Z.shiftl h2 32))).

(** Check value of the CRC: ASCII 1 to 9. *)
Example crc_check : crc32c_intel [49; 50; 51; 52; 53; 54; 55; 56; 57] 9 = Some (Z.lxor 0xE3069283 0xFFFFFFFF).
Proof. vm_compute. reflexivity. Qed.

End DirHash.
