(* ===== verification/DirHashThms.v ===== *)
(** * Properties of the directory hashes

    The word-wise CRC equals the byte-wise one and is injective on short
    names; the two compression functions are built from permutations; the
    packing of names fills exactly the words of its buffer; [ext2fs_dirhash]
    returns on every name and its signed and unsigned variants agree on ASCII
    names. *)
From S2P Require Import Prelude DirHash.
Import DirHash.

Module DirHashThms.

(** ** Words *)

Lemma is_u32_bits x : 0 <= x -> (forall n, 32 <= n -> Z.testbit x n = false) -> 0 <= x < 2 ^ 32.
Proof.
  intros Hx Hb. split; [done|]. destruct (Z.eq_dec x 0) as [->|]; [lia|].
  apply Z.log2_lt_pow2; [lia|]. apply Z.nle_gt. intros Hl.
  pose proof (Z.bit_log2 x ltac:(lia)) as E. by rewrite Hb in E.
Qed.

Lemma testbit_high x n : 0 <= x < 2 ^ n -> forall m, n <= m -> Z.testbit x m = false.
Proof.
  intros Hx m Hm. destruct (Z.eq_dec x 0) as [->|]; [apply Z.bits_0|].
  apply Z.bits_above_log2; [lia|]. apply Z.log2_lt_pow2; [lia|].
  apply Z.lt_le_trans with (2 ^ n); [lia|]. apply Z.pow_le_mono_r; lia.
Qed.

Lemma lxor_u32 a b : 0 <= a < 2 ^ 32 -> 0 <= b < 2 ^ 32 -> 0 <= Z.lxor a b < 2 ^ 32.
Proof.
  intros Ha Hb. apply is_u32_bits; [apply Z.lxor_nonneg; lia|]. intros n Hn.
  by rewrite Z.lxor_spec, (testbit_high a 32), (testbit_high b 32).
Qed.

Lemma lxor_cancel a b c : Z.lxor a b = Z.lxor a c -> b = c.
Proof.
  intros E. rewrite <- (Z.lxor_0_l b), <- (Z.lxor_0_l c), <- (Z.lxor_nilpotent a), !Z.lxor_assoc. by rewrite E.
Qed.

Lemma u32_add_sub x y : 0 <= x < 2 ^ 32 -> u32 (u32 (x + y) - y) = x.
Proof.
  intros Hx. unfold u32. rewrite Zminus_mod_idemp_l. replace (x + y - y) with x by lia. by apply Z.mod_small.
Qed.

(** ** CRC *)

Lemma crc_step_xor x y : crc_step (Z.lxor x y) = Z.lxor (crc_step x) (crc_step y).
Proof.
  unfold crc_step. rewrite <- !Z.bit0_odd, Z.lxor_spec, Z.shiftr_lxor.
  destruct (Z.testbit x 0), (Z.testbit y 0); cbn [xorb]; apply Z.bits_inj'; intros n _;
    rewrite !Z.lxor_spec; repeat destruct (Z.testbit _ _); done.
Qed.

Lemma crc_steps_xor n : forall x y, crc_steps n (Z.lxor x y) = Z.lxor (crc_steps n x) (crc_steps n y).
Proof. induction n as [|n IH]; intros; cbn [crc_steps]; [done|]. by rewrite crc_step_xor, IH. Qed.

Lemma crc_steps_shift n : forall x, crc_steps n (Z.shiftl x (Z.of_nat n)) = x.
Proof.
  induction n as [|n IH]; intros x; cbn [crc_steps]; [apply Z.shiftl_0_r|].
  assert (crc_step (Z.shiftl x (Z.of_nat (S n))) = Z.shiftl x (Z.of_nat n)) as ->; [|apply IH].
  unfold crc_step. rewrite <- Z.bit0_odd, Z.shiftl_spec_low by lia.
  rewrite Z.shiftr_shiftl_l by lia. f_equal. lia.
Qed.

Lemma crc_steps_add n m x : crc_steps (n + m) x = crc_steps m (crc_steps n x).
Proof. revert x. induction n as [|n IH]; intros; cbn; [done|apply IH]. Qed.

(** The bytes of a list as one little-endian number. *)
Fixpoint le_word (l : list Z) : Z :=
  match l with [] => 0 | b :: l => Z.lxor b (Z.shiftl (le_word l) 8) end.

Lemma crc_bytes l : forall crc, foldl crc32_b crc l = crc_steps (8 * length l) (Z.lxor crc (le_word l)).
Proof.
  induction l as [|b l IH]; intros crc; cbn [foldl le_word length].
  - by rewrite Z.lxor_0_r.
  - rewrite IH, Nat.mul_succ_r, Nat.add_comm, crc_steps_add. f_equal.
    rewrite <- Z.lxor_assoc, crc_steps_xor. f_equal. symmetry. apply (crc_steps_shift 8).
Qed.

Definition bytes (l : list Z) : Prop := Forall is_u8 l.

Lemma land_byte b w : is_u8 b -> Z.land b (Z.shiftl w 8) = 0.
Proof.
  intros Hb. apply Z.bits_inj'. intros n Hn. rewrite Z.land_spec, Z.bits_0.
  destruct (Z.lt_ge_cases n 8).
  - rewrite Z.shiftl_spec_low by done. apply andb_false_r.
  - by rewrite (testbit_high b 8).
Qed.

Lemma lor_byte b w : is_u8 b -> Z.lor b (Z.shiftl w 8) = Z.lxor b (Z.shiftl w 8).
Proof. intros Hb. symmetry. by apply Z.lxor_lor, land_byte. Qed.

Lemma le_word_cons b l : is_u8 b -> le_word (b :: l) = b + 256 * le_word l.
Proof.
  intros Hb. cbn [le_word]. rewrite <- Z.add_nocarry_lxor by (by apply land_byte).
  rewrite Z.shiftl_mul_pow2 by lia. lia.
Qed.

Lemma load32_le b0 b1 b2 b3 : is_u8 b0 -> is_u8 b1 -> is_u8 b2 -> is_u8 b3 ->
  load32 b0 b1 b2 b3 = le_word [b0; b1; b2; b3].
Proof.
  intros H0 H1 H2 H3. unfold load32. cbn [le_word]. rewrite Z.shiftl_0_l, Z.lxor_0_r.
  rewrite <- !lor_byte by done. rewrite !Z.shiftl_lor, !Z.shiftl_shiftl by lia. done.
Qed.

Lemma crc_words_bytes n : forall crc data, bytes data -> (4 * n <= length data)%nat ->
  crc_words crc data n = Some (foldl crc32_b crc (take (4 * n) data), drop (4 * n) data).
Proof.
  induction n as [|n IH]; intros crc data Hb Hlen; [done|].
  destruct data as [|b0 [|b1 [|b2 [|b3 data]]]]; cbn [length] in Hlen; try lia.
  do 4 (apply Forall_cons in Hb as [? Hb]). cbn [crc_words]. rewrite IH by (done || lia).
  replace (4 * S n)%nat with (S (S (S (S (4 * n))))) by lia. cbn [take drop]. do 2 f_equal.
  change (b0 :: b1 :: b2 :: b3 :: take (4 * n) data) with ([b0; b1; b2; b3] ++ take (4 * n) data).
  rewrite foldl_app. f_equal. rewrite crc_bytes, <- load32_le by done. done.
Qed.

Lemma crc_tail n : forall crc data, (n <= length data)%nat ->
  crc32c_intel_le_hw_byte crc data n = Some (foldl crc32_b crc (take n data)).
Proof.
  induction n as [|n IH]; intros crc [|b data] Hlen; cbn [length] in Hlen; try lia; cbn; try done.
  apply IH. lia.
Qed.

Lemma crc32c_intel_bytes data len : bytes data -> 0 <= len <= Z.of_nat (length data) -> len < 2 ^ 32 ->
  crc32c_intel data len = Some (foldl crc32_b (u32 (-1)) (take (Z.to_nat len) data)).
Proof.
  intros Hb Hlen H32. unfold crc32c_intel, SCALE_F.
  assert (0 <= len / 4 < 2 ^ 32 /\ 0 <= len mod 4 < 4 /\ len = 4 * (len / 4) + len mod 4) as (H1 & H2 & H3).
  { dmlia. }
  rewrite (u32_small (len / 4)), (u32_small (len mod 4)) by lia.
  assert (4 * Z.to_nat (len / 4) + Z.to_nat (len mod 4) <= length data)%nat as Hd by lia.
  rewrite crc_words_bytes by (done || lia). cbn [mbind option_bind].
  replace (Z.to_nat len) with (4 * Z.to_nat (len / 4) + Z.to_nat (len mod 4))%nat by lia.
  rewrite <- take_take_drop, foldl_app. destruct (Z.eqb_spec (len mod 4) 0) as [->|]; [done|].
  apply crc_tail. rewrite length_drop. lia.
Qed.

Lemma crc_step_u32 x : 0 <= x < 2 ^ 32 -> 0 <= crc_step x < 2 ^ 32.
Proof.
  intros Hx. assert (0 <= Z.shiftr x 1 < 2 ^ 32) as Hs.
  { rewrite Z.shiftr_div_pow2 by lia. change (2 ^ 1) with 2. split; [apply Z.div_pos; lia|]. apply Z.div_lt_upper_bound; lia. }
  unfold crc_step. destruct (Z.odd x); [|done]. apply lxor_u32; [done|unfold CRC_POLY; lia].
Qed.

(** The register can be run backwards. *)
Definition crc_unstep (y : Z) : Z :=
  if Z.testbit y 31 then 2 * Z.lxor y CRC_POLY + 1 else 2 * y.

Lemma crc_unstep_step x : 0 <= x < 2 ^ 32 -> crc_unstep (crc_step x) = x.
Proof.
  intros Hx. unfold crc_unstep, crc_step.
  assert (Z.testbit (Z.shiftr x 1) 31 = false) as E.
  { rewrite Z.shiftr_spec by lia. apply (testbit_high x 32); lia. }
  pose proof (Z.div2_odd x) as Ho. rewrite Z.div2_spec in Ho. destruct (Z.odd x); cbn [Z.b2z] in Ho.
  - rewrite Z.lxor_spec, E. change (Z.testbit CRC_POLY 31) with true. cbn [xorb].
    rewrite Z.lxor_assoc, Z.lxor_nilpotent, Z.lxor_0_r. lia.
  - rewrite E. lia.
Qed.

Lemma crc_steps_u32 n : forall x, 0 <= x < 2 ^ 32 -> 0 <= crc_steps n x < 2 ^ 32.
Proof. induction n as [|n IH]; intros x Hx; cbn [crc_steps]; [done|]. by apply IH, crc_step_u32. Qed.

Lemma crc_steps_inj n : forall x y, 0 <= x < 2 ^ 32 -> 0 <= y < 2 ^ 32 -> crc_steps n x = crc_steps n y -> x = y.
Proof.
  induction n as [|n IH]; intros x y Hx Hy E; cbn [crc_steps] in E; [done|].
  apply IH in E; try by apply crc_step_u32.
  rewrite <- (crc_unstep_step x), <- (crc_unstep_step y) by done. by rewrite E.
Qed.

Lemma le_word_range l : bytes l -> 0 <= le_word l < 2 ^ (8 * Z.of_nat (length l)).
Proof.
  induction 1 as [|b l Hb Hl IH]; [simpl; lia|]. rewrite le_word_cons by done. unfold is_u8 in Hb.
  cbn [length]. replace (8 * Z.of_nat (S (length l))) with (8 + 8 * Z.of_nat (length l)) by lia.
  rewrite Z.pow_add_r by lia. nia.
Qed.

Lemma le_word_inj l1 : forall l2, bytes l1 -> bytes l2 -> length l1 = length l2 -> le_word l1 = le_word l2 -> l1 = l2.
Proof.
  induction l1 as [|b1 l1 IH]; intros [|b2 l2] H1 H2 Hlen E; try done.
  apply Forall_cons in H1 as [Hb1 H1], H2 as [Hb2 H2]. rewrite !le_word_cons in E by done. unfold is_u8 in *.
  assert (b1 = b2) as -> by lia. f_equal. apply IH; [done..|by injection Hlen|lia].
Qed.

(** Equal CRCs of byte lists of equal length, up to one word. *)
Lemma crc_short_inj l1 l2 : bytes l1 -> bytes l2 -> length l1 = length l2 -> (length l1 <= 4)%nat ->
  foldl crc32_b (u32 (-1)) l1 = foldl crc32_b (u32 (-1)) l2 -> l1 = l2.
Proof.
  intros H1 H2 Hlen H4. rewrite !crc_bytes, <- Hlen. intros E.
  assert (forall l, bytes l -> (length l <= 4)%nat -> 0 <= le_word l < 2 ^ 32) as Hr.
  { intros l Hl Hle. pose proof (le_word_range l Hl) as [Hlo Hhi]. split; [done|].
    apply Z.lt_le_trans with (1 := Hhi). apply Z.pow_le_mono_r; lia. }
  apply crc_steps_inj in E; try (apply lxor_u32; [apply u32_range|apply Hr; (done || lia)]).
  apply lxor_cancel in E. by apply le_word_inj.
Qed.

Lemma crc_u32 l : bytes l -> 0 <= foldl crc32_b (u32 (-1)) l < 2 ^ 32.
Proof.
  assert (forall crc, bytes l -> 0 <= crc < 2 ^ 32 -> 0 <= foldl crc32_b crc l < 2 ^ 32) as Hg; [|intros; apply Hg; [done|apply u32_range]].
  induction l as [|b l IH]; intros crc Hl Hc; [done|]. apply Forall_cons in Hl as [Hb Hl]. cbn [foldl].
  apply IH; [done|]. apply crc_steps_u32, lxor_u32; [done|]. unfold is_u8 in Hb. lia.
Qed.

(** The key of a name, by the CRCs of its halves. *)
Definition half_crc (name : list Z) (first : bool) : Z :=
  let half := (length name / 2)%nat in
  foldl crc32_b (u32 (-1)) (if first then take half name else drop half name).

Lemma dir_hash_halves name : bytes name -> Z.of_nat (length name) < 2 ^ 31 ->
  nvfuse_dir_hash name = Some (half_crc name true, half_crc name false).
Proof.
  intros Hb Hlen. unfold nvfuse_dir_hash, half_crc. rewrite s32_small by lia.
  assert (Z.quot (Z.of_nat (length name)) 2 = Z.of_nat (length name / 2)) as ->.
  { rewrite Z.quot_div_nonneg by lia. by rewrite Nat2Z.inj_div. }
  assert (length name / 2 <= length name)%nat as Hh by (apply Nat.Div0.div_le_upper_bound; lia).
  rewrite (crc32c_intel_bytes name) by (done || lia). cbn [mbind option_bind]. rewrite Nat2Z.id.
  rewrite crc32c_intel_bytes; [|by apply Forall_drop|rewrite length_drop; lia|lia]. cbn [mbind option_bind].
  rewrite (take_ge (drop _ _)); [done|]. rewrite length_drop. lia.
Qed.

Lemma dir_key_halves name : bytes name -> Z.of_nat (length name) < 2 ^ 31 ->
  dir_key name = Some (half_crc name true + 2 ^ 32 * half_crc name false).
Proof.
  intros Hb Hlen. unfold dir_key. rewrite dir_hash_halves by done. cbn [mbind option_bind]. f_equal.
  assert (0 <= half_crc name true < 2 ^ 32) as H1 by (apply crc_u32; by apply Forall_take).
  assert (0 <= half_crc name false < 2 ^ 32) as H2 by (apply crc_u32; by apply Forall_drop).
  rewrite Z.shiftl_mul_pow2 by lia. rewrite u64_small by lia.
  assert (Z.land (half_crc name true) (half_crc name false * 2 ^ 32) = 0) as E.
  { rewrite <- Z.shiftl_mul_pow2 by lia. apply Z.bits_inj'. intros n Hn. rewrite Z.land_spec, Z.bits_0.
    destruct (Z.lt_ge_cases n 32).
    - rewrite Z.shiftl_spec_low by done. apply andb_false_r.
    - by rewrite (testbit_high (half_crc name true) 32). }
  rewrite <- Z.lxor_lor, <- Z.add_nocarry_lxor by done. lia.
Qed.

(** ** The ciphers inside the compression functions *)

Definition tea_unround (a b c d : Z) (st : Z * Z * Z) : Z * Z * Z :=
  let '(sum, b0, b1) := st in
  let b1 := u32 (b1 - Z.lxor (Z.lxor (u32 (u32 (Z.shiftl b0 4) + c)) (u32 (b0 + sum))) (u32 (Z.shiftr b0 5 + d))) in
  let b0 := u32 (b0 - Z.lxor (Z.lxor (u32 (u32 (Z.shiftl b1 4) + a)) (u32 (b1 + sum))) (u32 (Z.shiftr b1 5 + b))) in
  (u32 (sum - DELTA), b0, b1).

Fixpoint tea_unrounds (n : nat) (a b c d : Z) (st : Z * Z * Z) : Z * Z * Z :=
  match n with O => st | S n => tea_unround a b c d (tea_unrounds n a b c d st) end.

Definition words3 (st : Z * Z * Z) : Prop := let '(x, y, z) := st in is_u32 x /\ is_u32 y /\ is_u32 z.

Lemma tea_round_words a b c d st : words3 (tea_round a b c d st).
Proof. destruct st as [[sum b0] b1]. cbn. split_and!; apply u32_range. Qed.

Lemma tea_unround_round a b c d st : words3 st -> tea_unround a b c d (tea_round a b c d st) = st.
Proof.
  destruct st as [[sum b0] b1]. intros (Hs & H0 & H1). unfold tea_round, tea_unround.
  rewrite (u32_add_sub b1), (u32_add_sub b0), (u32_add_sub sum) by done. done.
Qed.

Lemma tea_unrounds_rounds n a b c d : forall st, words3 st -> tea_unrounds n a b c d (tea_rounds n a b c d st) = st.
Proof.
  induction n as [|n IH]; intros st Hst; [done|]. cbn [tea_rounds tea_unrounds].
  rewrite IH by apply tea_round_words. by apply tea_unround_round.
Qed.

Lemma rotl_bit a s n : 0 <= a < 2 ^ 32 -> 0 <= s < 32 -> 0 <= n < 32 ->
  Z.testbit (rotl a s) n = Z.testbit a (if n <? s then n + 32 - s else n - s).
Proof.
  intros Ha Hs Hn. unfold rotl, u32. rewrite Z.lor_spec, Z.mod_pow2_bits_low, Z.shiftl_spec, Z.shiftr_spec by lia.
  destruct (Z.ltb_spec n s).
  - rewrite (Z.testbit_neg_r a (n - s)) by lia. simpl. f_equal. lia.
  - rewrite (testbit_high a 32 Ha (n + (32 - s))) by lia. apply orb_false_r.
Qed.

Lemma rotl_u32 a s : 0 <= a < 2 ^ 32 -> 0 <= s < 32 -> 0 <= rotl a s < 2 ^ 32.
Proof.
  intros Ha Hs. apply is_u32_bits.
  - apply Z.lor_nonneg. split; [apply u32_range|]. apply Z.shiftr_nonneg. lia.
  - intros n Hn. unfold rotl, u32. rewrite Z.lor_spec, Z.mod_pow2_bits_high, Z.shiftr_spec by lia.
    apply (testbit_high a 32); lia.
Qed.

Lemma rotl_inv a s : 0 <= a < 2 ^ 32 -> 0 < s < 32 -> rotl (rotl a s) (32 - s) = a.
Proof.
  intros Ha Hs. pose proof (rotl_u32 a s Ha ltac:(lia)) as Hr. apply Z.bits_inj'. intros n Hn.
  destruct (Z.lt_ge_cases n 32).
  - rewrite rotl_bit by lia. destruct (Z.ltb_spec n (32 - s)); rewrite rotl_bit by lia.
    + rewrite (proj2 (Z.ltb_ge _ _)) by lia. f_equal. lia.
    + rewrite (proj2 (Z.ltb_lt _ _)) by lia. f_equal. lia.
  - rewrite (testbit_high a 32 Ha n) by lia.
    apply (testbit_high (rotl (rotl a s) (32 - s)) 32); [apply rotl_u32; lia|lia].
Qed.

(** ROUND, backwards. *)
Definition UNROUND (f : Z -> Z -> Z -> Z) (a b c d x s : Z) : Z := u32 (rotl a (32 - s) - u32 (f b c d + x)).

Lemma UNROUND_ROUND f a b c d x s : is_u32 a -> 0 < s < 32 -> UNROUND f (ROUND f a b c d x s) b c d x s = a.
Proof.
  intros Ha Hs. unfold UNROUND, ROUND. rewrite rotl_inv by (apply u32_range || lia). by apply u32_add_sub.
Qed.

Definition unquad (f : Z -> Z -> Z -> Z) (x1 x2 x3 x4 s1 s2 s3 s4 : Z) (st : Z * Z * Z * Z) : Z * Z * Z * Z :=
  let '(a, b, c, d) := st in
  let b := UNROUND f b c d a x4 s4 in
  let c := UNROUND f c d a b x3 s3 in
  let d := UNROUND f d a b c x2 s2 in
  let a := UNROUND f a b c d x1 s1 in
  (a, b, c, d).

Definition words4 (st : Z * Z * Z * Z) : Prop :=
  let '(x, y, z, w) := st in is_u32 x /\ is_u32 y /\ is_u32 z /\ is_u32 w.

Definition shift (s : Z) : Prop := 0 < s < 32.

Lemma unquad_quad f x1 x2 x3 x4 s1 s2 s3 s4 st : words4 st -> shift s1 -> shift s2 -> shift s3 -> shift s4 ->
  unquad f x1 x2 x3 x4 s1 s2 s3 s4 (quad f x1 x2 x3 x4 s1 s2 s3 s4 st) = st.
Proof.
  destruct st as [[[a b] c] d]. intros (Ha & Hb & Hc & Hd) ????. unfold quad, unquad.
  rewrite (UNROUND_ROUND f b), (UNROUND_ROUND f c), (UNROUND_ROUND f d), (UNROUND_ROUND f a) by done. done.
Qed.

Lemma quad_words f x1 x2 x3 x4 s1 s2 s3 s4 st : shift s1 -> shift s2 -> shift s3 -> shift s4 ->
  words4 (quad f x1 x2 x3 x4 s1 s2 s3 s4 st).
Proof.
  destruct st as [[[a b] c] d]. unfold shift. intros ????. cbn.
  split_and!; apply rotl_u32; (apply u32_range || lia).
Qed.

Definition md4_unrounds (i0 i1 i2 i3 i4 i5 i6 i7 : Z) (st : Z * Z * Z * Z) : Z * Z * Z * Z :=
  let st := unquad H (u32 (i1 + K3)) (u32 (i5 + K3)) (u32 (i0 + K3)) (u32 (i4 + K3)) 3 9 11 15 st in
  let st := unquad H (u32 (i3 + K3)) (u32 (i7 + K3)) (u32 (i2 + K3)) (u32 (i6 + K3)) 3 9 11 15 st in
  let st := unquad G (u32 (i0 + K2)) (u32 (i2 + K2)) (u32 (i4 + K2)) (u32 (i6 + K2)) 3 5 9 13 st in
  let st := unquad G (u32 (i1 + K2)) (u32 (i3 + K2)) (u32 (i5 + K2)) (u32 (i7 + K2)) 3 5 9 13 st in
  let st := unquad F (u32 (i4 + K1)) (u32 (i5 + K1)) (u32 (i6 + K1)) (u32 (i7 + K1)) 3 7 11 19 st in
  unquad F (u32 (i0 + K1)) (u32 (i1 + K1)) (u32 (i2 + K1)) (u32 (i3 + K1)) 3 7 11 19 st.

Lemma md4_unrounds_rounds i0 i1 i2 i3 i4 i5 i6 i7 st : words4 st ->
  md4_unrounds i0 i1 i2 i3 i4 i5 i6 i7 (md4_rounds i0 i1 i2 i3 i4 i5 i6 i7 st) = st.
Proof.
  intros Hst. unfold md4_rounds, md4_unrounds.
  repeat (rewrite unquad_quad; [|first [done|apply quad_words; unfold shift; lia]|unfold shift; lia..]). done.
Qed.

(** ** Packing *)

Definition pack (pad : Z) (cs : list Z) : Z := foldl (fun v c => u32 (c + u32 (Z.shiftl v 8))) pad cs.

(** Word [j] of the packed name: its four characters behind the padding. *)
Definition pack_word (pad : Z) (cs : list Z) (j : nat) : Z := pack pad (take 4 (drop (4 * j) cs)).

Lemma mod4_add i k : i mod 4 = 0 -> 0 <= k < 4 -> (i + k) mod 4 = k.
Proof. intros. dmlia. Qed.

Lemma pack_words_chunk pad c0 c1 c2 c3 cs q :
  pack_word pad (c0 :: c1 :: c2 :: c3 :: cs) <$> seq 0 (S q) = pack pad [c0; c1; c2; c3] :: (pack_word pad cs <$> seq 0 q).
Proof.
  cbn [seq fmap list_fmap]. f_equal. rewrite <- (fmap_S_seq 0 q), <- list_fmap_compose. apply list_fmap_ext.
  intros _ j _. unfold pack_word, compose. by replace (4 * S j)%nat with (S (S (S (S (4 * j))))) by lia.
Qed.

Lemma lookup_4 (cs : list Z) c0 c1 c2 c3 k : (c0 :: c1 :: c2 :: c3 :: cs) !! (4 + k)%nat = cs !! k.
Proof. done. Qed.

Lemma length_div4 n : (S (S (S (S n))) / 4 = S (n / 4))%nat.
Proof. replace (S (S (S (S n)))) with (1 * 4 + n)%nat by lia. by rewrite Nat.div_add_l. Qed.

Section PackLoop.
Context (uf : bool) (msg : list Z) (pad : Z).

(** One iteration, by its phase. *)
Lemma loop_step n i val num out c k : char_at uf msg i = Some c -> i mod 4 = k -> 0 <= k < 3 -> (k = 0 -> val = pad) ->
  str2hashbuf_loop (S n) uf msg pad i val num out =
  str2hashbuf_loop n uf msg pad (i + 1) (u32 (c + u32 (Z.shiftl val 8))) num out.
Proof.
  intros Hc <- Hk Hv. cbn [str2hashbuf_loop]. rewrite Hc. cbn [mbind option_bind].
  rewrite (proj2 (Z.eqb_neq _ 3)) by lia. destruct (Z.eqb_spec (i mod 4) 0); [by rewrite Hv|done].
Qed.

Lemma loop_step3 n i val num out c : char_at uf msg i = Some c -> i mod 4 = 3 ->
  str2hashbuf_loop (S n) uf msg pad i val num out =
  str2hashbuf_loop n uf msg pad (i + 1) pad (num - 1) (out ++ [u32 (c + u32 (Z.shiftl val 8))]).
Proof. intros Hc Hk. cbn [str2hashbuf_loop]. rewrite Hc, Hk. done. Qed.

Lemma str2hashbuf_loop_spec m : forall cs i num out, (length cs < 4 * m)%nat -> i mod 4 = 0 -> 0 <= i ->
  (forall k c, cs !! k = Some c -> char_at uf msg (i + Z.of_nat k) = Some c) ->
  str2hashbuf_loop (length cs) uf msg pad i pad num out =
    Some (pack_word pad cs (length cs / 4), num - Z.of_nat (length cs / 4),
          out ++ (pack_word pad cs <$> seq 0 (length cs / 4))).
Proof.
  induction m as [|m IH]; intros cs i num out Hlen Hi Hi0 Hc; [lia|].
  destruct cs as [|c0 cs]; [cbn; rewrite Z.sub_0_r, app_nil_r; done|].
  pose proof (Hc 0%nat c0 eq_refl) as E0. rewrite Z.add_0_r in E0. cbn [length].
  rewrite (loop_step _ _ _ _ _ c0 0) by (done || lia).
  destruct cs as [|c1 cs]; [cbn; rewrite Z.sub_0_r, app_nil_r; done|]. cbn [length].
  rewrite (loop_step _ _ _ _ _ c1 1) by (try apply (Hc 1%nat); try apply mod4_add; (done || lia)).
  destruct cs as [|c2 cs]; [cbn; rewrite Z.sub_0_r, app_nil_r; done|]. cbn [length].
  replace (i + 1 + 1) with (i + 2) by lia.
  rewrite (loop_step _ _ _ _ _ c2 2) by (try apply (Hc 2%nat); try apply mod4_add; (done || lia)).
  destruct cs as [|c3 cs]; [cbn; rewrite Z.sub_0_r, app_nil_r; done|]. cbn [length].
  replace (i + 2 + 1) with (i + 3) by lia.
  rewrite (loop_step3 _ _ _ _ _ c3) by (try apply (Hc 3%nat); try apply mod4_add; (done || lia)).
  replace (i + 3 + 1) with (i + 4) by lia. cbn [length] in Hlen.
  rewrite IH; [|lia|dmlia|lia|].
  - rewrite length_div4, pack_words_chunk. cbn [pack foldl]. do 2 f_equal; [f_equal; [|lia]|by rewrite <- app_assoc].
    unfold pack_word. by replace (4 * S (length cs / 4))%nat with (S (S (S (S (4 * (length cs / 4)))))) by lia.
  - intros k c Hk. replace (i + 4 + Z.of_nat k) with (i + Z.of_nat (4 + k)) by lia. by apply Hc.
Qed.

End PackLoop.

Definition chars (unsigned_flag : bool) (name : list Z) : list Z :=
  (fun c => if unsigned_flag then c else sign_char c) <$> name.

Lemma char_at_chars uf name k c : chars uf name !! k = Some c -> char_at uf name (Z.of_nat k) = Some c.
Proof.
  unfold chars, char_at. rewrite list_lookup_fmap, (proj2 (Z.leb_le 0 _)), Nat2Z.id by lia.
  by destruct (name !! k).
Qed.

Lemma pack_word_beyond pad cs j : (length cs <= 4 * j)%nat -> pack_word pad cs j = pad.
Proof. intros Hj. unfold pack_word. by rewrite drop_ge. Qed.

Lemma fmap_seq_const {A} (f : nat -> A) x n : forall a, (forall j, (a <= j)%nat -> f j = x) -> f <$> seq a n = repeat x n.
Proof.
  induction n as [|n IH]; intros a Hf; cbn [seq fmap list_fmap repeat]; [done|]. f_equal; [by apply Hf|].
  apply IH. intros j Hj. apply Hf. lia.
Qed.

Lemma str2hashbuf_run msg len num uf : 0 <= num -> 0 <= len <= Z.of_nat (length msg) ->
  str2hashbuf msg len num uf =
    Some (pack_word (hash_pad len) (take (Z.to_nat (Z.min len (4 * num))) (chars uf msg)) <$> seq 0 (Z.to_nat num)).
Proof.
  intros Hn Hl. unfold str2hashbuf. set (pad := hash_pad len).
  replace (if num * 4 <? len then num * 4 else len) with (Z.min len (4 * num)) by (destruct (Z.ltb_spec (num * 4) len); lia).
  set (cs := take (Z.to_nat (Z.min len (4 * num))) (chars uf msg)).
  assert (length cs = Z.to_nat (Z.min len (4 * num))) as Hcs.
  { unfold cs, chars. rewrite length_take, length_fmap. lia. }
  rewrite <- Hcs. rewrite (str2hashbuf_loop_spec uf msg pad (S (length cs)) cs); [|lia|done|done|].
  2:{ intros k c Hk. rewrite Z.add_0_l. apply char_at_chars. unfold cs in Hk.
      apply lookup_take_Some in Hk as [Hk _]. done. }
  cbn [mbind option_bind app]. set (q := (length cs / 4)%nat).
  assert (4 * q <= length cs < 4 * q + 4)%nat as Hq.
  { unfold q. pose proof (Nat.div_mod_eq (length cs) 4). pose proof (Nat.mod_upper_bound (length cs) 4). lia. }
  f_equal. destruct (Z.leb_spec 0 (num - Z.of_nat q - 1)).
  - replace (Z.to_nat num) with (q + (1 + Z.to_nat (num - Z.of_nat q - 1)))%nat by lia.
    rewrite !seq_app, !fmap_app, <- !app_assoc. do 2 f_equal.
    rewrite (fmap_seq_const _ pad); [done|]. intros j Hj. apply pack_word_beyond. lia.
  - replace (Z.to_nat num) with q by lia. replace (Z.to_nat (num - Z.of_nat q - 1)) with 0%nat by lia. apply app_nil_r.
Qed.

(** ** The loop over the blocks of a name *)

Definition state_ok (buf : list Z) : Prop := length buf = 4%nat /\ Forall is_u32 buf.

Lemma TEA_transform_total buf inp : state_ok buf -> length inp = 4%nat ->
  exists buf', TEA_transform buf inp = Some buf' /\ state_ok buf'.
Proof.
  intros [Hl Hb] Hi. destruct buf as [|b0 [|b1 [|b2 [|b3 [|]]]]]; try done. destruct inp as [|a [|b [|c [|d [|]]]]]; try done.
  unfold TEA_transform. destruct (tea_rounds 16 a b c d (0, b0, b1)) as [[s x] y].
  eexists. split; [done|]. split; [done|]. do 4 (apply Forall_cons in Hb as [? Hb]).
  repeat constructor; try apply u32_range; unfold is_u32 in *; lia.
Qed.

Lemma halfMD4_total buf inp : state_ok buf -> length inp = 8%nat ->
  exists buf', halfMD4Transform buf inp = Some buf' /\ state_ok buf'.
Proof.
  intros [Hl Hb] Hi. destruct buf as [|b0 [|b1 [|b2 [|b3 [|]]]]]; try done.
  destruct inp as [|i0 [|i1 [|i2 [|i3 [|i4 [|i5 [|i6 [|i7 [|]]]]]]]]]; try done.
  unfold halfMD4Transform. destruct (md4_rounds _ _ _ _ _ _ _ _ _) as [[[x y] z] w].
  eexists. split; [done|]. split; [done|]. repeat constructor; apply u32_range.
Qed.

Lemma compress_total transform num uf :
  1 <= num -> (forall buf inp, state_ok buf -> length inp = Z.to_nat num -> exists buf', transform buf inp = Some buf' /\ state_ok buf') ->
  forall fuel p len buf, state_ok buf -> len <= Z.of_nat (length p) -> len <= Z.of_nat fuel ->
  exists buf', compress_loop fuel transform num uf p len buf = Some buf' /\ state_ok buf'.
Proof.
  intros Hn Htr. induction fuel as [|fuel IH]; intros p len buf Hb Hp Hf; cbn [compress_loop].
  - rewrite (proj2 (Z.ltb_ge 0 len)) by lia. eauto.
  - destruct (Z.ltb_spec 0 len); [|eauto]. rewrite str2hashbuf_run by lia. cbn [mbind option_bind].
    destruct (Htr buf (pack_word (hash_pad len) (take (Z.to_nat (Z.min len (4 * num))) (chars uf p)) <$> seq 0 (Z.to_nat num)))
      as (buf' & -> & Hb'); [done|by rewrite length_fmap, length_seq|]. cbn [mbind option_bind].
    apply IH; [done|rewrite length_drop; lia|lia].
Qed.

Lemma dx_hack_total n uf : forall name i h0 h1, 0 <= i -> i + Z.of_nat n <= Z.of_nat (length name) ->
  exists h, dx_hack_loop n uf name i h0 h1 = Some h /\ is_u32 h.
Proof.
  induction n as [|n IH]; intros name i h0 h1 Hi Hl; cbn [dx_hack_loop]; [eexists; split; [done|apply u32_range]|].
  destruct (lookup_lt_is_Some_2 name (Z.to_nat i)) as [c Hc]; [lia|].
  unfold char_at. rewrite (proj2 (Z.leb_le 0 i)), Hc by done. cbn [mbind option_bind]. apply IH; lia.
Qed.

Definition seed_ok (seed : option (list Z)) : Prop := match seed with Some s => state_ok s | None => True end.

Lemma initial_buf_ok seed : seed_ok seed -> exists buf, initial_buf seed = Some buf /\ state_ok buf.
Proof.
  assert (state_ok default_seed) as Hd by (split; [done|]; repeat constructor; unfold is_u32; lia).
  destruct seed as [s|]; [|by eauto]. intros [Hl Hs]. destruct s as [|s0 [|s1 [|s2 [|s3 [|]]]]]; try done.
  cbn. eexists. split; [done|]. destruct (_ && _); [done|]. split; [done|exact Hs].
Qed.

Lemma state_word buf i : state_ok buf -> (i < 4)%nat -> exists w, word buf i = Some w /\ is_u32 w.
Proof.
  intros [Hl Hb] Hi. destruct (lookup_lt_is_Some_2 buf i) as [w Hw]; [lia|]. exists w. split; [done|].
  by eapply Forall_lookup_1.
Qed.

(** The bit that is kept free in every hash. *)
Lemma mask_even h : is_u32 h -> is_u32 (Z.land h (u32 (-2))) /\ Z.even (Z.land h (u32 (-2))) = true.
Proof.
  intros Hh. split.
  - apply is_u32_bits; [apply Z.land_nonneg; left; apply Hh|]. intros n Hn.
    by rewrite Z.land_spec, (testbit_high h 32).
  - rewrite <- Z.negb_odd, <- Z.bit0_odd, Z.land_spec. change (Z.testbit (u32 (-2)) 0) with false. by rewrite andb_false_r.
Qed.

(** What every call returns. *)
Definition hash_ok (r : dirhash_result) : Prop :=
  dh_ret r = 0 /\ is_u32 (dh_hash r) /\ Z.even (dh_hash r) = true /\ (forall m, dh_minor r = Some m -> is_u32 m).

Lemma finish_ok h m want : is_u32 h -> is_u32 m ->
  hash_ok (mk_dirhash 0 (Z.land h (u32 (-2))) (if want : bool then Some m else None)).
Proof.
  intros Hh Hm. destruct (mask_even h Hh). split_and!; try done. simpl. destruct want; [|done]. by intros ? [= <-].
Qed.

(** C34: ext2fs_dirhash returns on every name, seed and version, without
    reading behind the name: the return value is 0, the hash is an even 32-bit
    number (the last bit is reserved), the minor hash is stored only when it
    is asked for, and an unknown version gives hash 0. *)
Theorem ext2fs_dirhash_total version name seed want :
  seed_ok seed ->
  exists r, ext2fs_dirhash version name (Z.of_nat (length name)) seed want = Some r /\ hash_ok r /\
    (want = false -> dh_minor r = None) /\ (~ 0 <= version <= 5 -> dh_hash r = 0).
Proof.
  intros Hseed. destruct (initial_buf_ok seed Hseed) as (buf & Hbuf & Hok).
  unfold ext2fs_dirhash. rewrite Hbuf. cbn [mbind option_bind].
  destruct (_ || _) eqn:E1; [|clear E1; destruct (_ || _) eqn:E2; [|clear E2; destruct (_ || _) eqn:E3]].
  - unfold dx_hack_hash. rewrite (proj2 (Z.ltb_ge _ 0)) by lia.
    destruct (dx_hack_total (Z.to_nat (Z.of_nat (length name))) (version =? EXT2_HASH_LEGACY_UNSIGNED) name 0
      0x12a3fe2d 0x37abe8f9) as (h & -> & Hh); [lia..|]. cbn [mbind option_bind].
    eexists. split; [done|]. split; [apply finish_ok; [done|unfold is_u32; lia]|].
    split; [by intros ->|]. intros Hv. exfalso.
    apply orb_prop in E1 as [->%Z.eqb_eq| ->%Z.eqb_eq]; apply Hv; unfold EXT2_HASH_LEGACY, EXT2_HASH_LEGACY_UNSIGNED; lia.
  - destruct (compress_total halfMD4Transform 8 (version =? EXT2_HASH_HALF_MD4_UNSIGNED) ltac:(lia) halfMD4_total
      (Z.to_nat (Z.of_nat (length name))) name (Z.of_nat (length name)) buf) as (buf' & -> & Hok'); [done|lia..|].
    destruct (state_word buf' 2 Hok') as (m & Em & Hm); [lia|]. destruct (state_word buf' 1 Hok') as (h & Eh & Hh); [lia|].
    cbn [mbind option_bind]. rewrite Em, Eh. cbn [mbind option_bind].
    eexists. split; [done|]. split; [by apply finish_ok|]. split; [by intros ->|]. intros Hv. exfalso.
    apply orb_prop in E2 as [->%Z.eqb_eq| ->%Z.eqb_eq]; apply Hv; unfold EXT2_HASH_HALF_MD4, EXT2_HASH_HALF_MD4_UNSIGNED; lia.
  - destruct (compress_total TEA_transform 4 (version =? EXT2_HASH_TEA_UNSIGNED) ltac:(lia) TEA_transform_total
      (Z.to_nat (Z.of_nat (length name))) name (Z.of_nat (length name)) buf) as (buf' & -> & Hok'); [done|lia..|].
    destruct (state_word buf' 0 Hok') as (h & Eh & Hh); [lia|]. destruct (state_word buf' 1 Hok') as (m & Em & Hm); [lia|].
    cbn [mbind option_bind]. rewrite Em, Eh. cbn [mbind option_bind].
    eexists. split; [done|]. split; [by apply finish_ok|]. split; [by intros ->|]. intros Hv. exfalso.
    apply orb_prop in E3 as [->%Z.eqb_eq| ->%Z.eqb_eq]; apply Hv; unfold EXT2_HASH_TEA, EXT2_HASH_TEA_UNSIGNED; lia.
  - eexists. split; [done|]. split; [|done]. by split_and!.
Qed.

Lemma ext2fs_dirhash_total_witness :
  exists r, ext2fs_dirhash 2 [97; 98; 200] 3 (Some [1; 2; 3; 4]) true = Some r /\ hash_ok r /\
    (true = false -> dh_minor r = None) /\ (~ 0 <= 2 <= 5 -> dh_hash r = 0).
Proof.
  apply (ext2fs_dirhash_total 2 [97; 98; 200] (Some [1; 2; 3; 4]) true).
  split; [reflexivity|]. repeat constructor; unfold is_u32; lia.
Defined.

(** ** Signed and unsigned characters *)

Definition ascii (name : list Z) : Prop := Forall (fun c => 0 <= c < 128) name.

Lemma char_at_ascii name i : ascii name -> char_at true name i = char_at false name i.
Proof.
  intros Ha. unfold char_at. destruct (0 <=? i); [|done]. destruct (name !! Z.to_nat i) as [c|] eqn:E; [|done].
  cbn [mbind option_bind]. unfold sign_char. eapply Forall_lookup_1 in Ha; [|done].
  by rewrite (proj2 (Z.ltb_lt c 128)) by lia.
Qed.

Lemma dx_hack_ascii n name : ascii name -> forall i h0 h1, dx_hack_loop n true name i h0 h1 = dx_hack_loop n false name i h0 h1.
Proof.
  intros Ha. induction n as [|n IH]; intros i h0 h1; cbn [dx_hack_loop]; [done|]. rewrite char_at_ascii by done.
  destruct (char_at false name i); cbn [mbind option_bind]; [apply IH|done].
Qed.

Lemma str2hashbuf_ascii msg len num : ascii msg -> str2hashbuf msg len num true = str2hashbuf msg len num false.
Proof.
  intros Ha. assert (forall n pad i val m out,
    str2hashbuf_loop n true msg pad i val m out = str2hashbuf_loop n false msg pad i val m out) as Hl; [|by unfold str2hashbuf; rewrite Hl].
  induction n as [|n IH]; intros; cbn [str2hashbuf_loop]; [done|]. rewrite char_at_ascii by done.
  destruct (char_at false msg i); cbn [mbind option_bind]; [|done]. by rewrite !IH.
Qed.

Lemma compress_ascii fuel tr num : forall p len buf, ascii p ->
  compress_loop fuel tr num true p len buf = compress_loop fuel tr num false p len buf.
Proof.
  induction fuel as [|fuel IH]; intros p len buf Ha; cbn [compress_loop]; [done|]. destruct (0 <? len); [|done].
  rewrite str2hashbuf_ascii by done. destruct (str2hashbuf p len num false); cbn [mbind option_bind]; [|done].
  destruct (tr buf _); cbn [mbind option_bind]; [|done]. apply IH. by apply Forall_drop.
Qed.

(** on ASCII names the signed and the unsigned variant of each of the
    three hashes agree, so that the choice of the variant only matters for
    bytes from 128 on. *)
Theorem dirhash_ascii name len seed want :
  ascii name ->
  ext2fs_dirhash EXT2_HASH_LEGACY_UNSIGNED name len seed want = ext2fs_dirhash EXT2_HASH_LEGACY name len seed want /\
  ext2fs_dirhash EXT2_HASH_HALF_MD4_UNSIGNED name len seed want = ext2fs_dirhash EXT2_HASH_HALF_MD4 name len seed want /\
  ext2fs_dirhash EXT2_HASH_TEA_UNSIGNED name len seed want = ext2fs_dirhash EXT2_HASH_TEA name len seed want.
Proof.
  intros Ha. unfold ext2fs_dirhash. destruct (initial_buf seed) as [buf|]; [|done]. cbn [mbind option_bind].
  change (EXT2_HASH_LEGACY_UNSIGNED =? EXT2_HASH_LEGACY_UNSIGNED) with true.
  change (EXT2_HASH_LEGACY =? EXT2_HASH_LEGACY_UNSIGNED) with false.
  split; [|split]; simpl.
  - unfold dx_hack_hash. destruct (len <? 0); [done|]. by rewrite dx_hack_ascii.
  - by rewrite compress_ascii.
  - by rewrite compress_ascii.
Qed.

(** A byte from 128 on, on which they differ, and the ASCII case. *)
Lemma dirhash_ascii_witness :
  ext2fs_dirhash EXT2_HASH_TEA_UNSIGNED [97; 98] 2 None false = ext2fs_dirhash EXT2_HASH_TEA [97; 98] 2 None false /\
  ext2fs_dirhash EXT2_HASH_TEA_UNSIGNED [200] 1 None false <> ext2fs_dirhash EXT2_HASH_TEA [200] 1 None false.
Proof.
  split.
  - apply (dirhash_ascii [97; 98] 2 None false). repeat constructor; lia.
  - vm_compute. intros E. discriminate E.
Defined.

(** ** The claims on CRC, ciphers and packing *)

(** C33: crc32c_intel, which feeds whole words to the CRC32 instruction and
    the last bytes one by one, computes the byte-wise CRC-32C of the first
    [len] bytes, for every length and alignment of the rest. *)
Theorem crc32c_word_byte data len :
  bytes data -> 0 <= len <= Z.of_nat (length data) -> len < 2 ^ 32 ->
  crc32c_intel data len = crc32c_intel_le_hw_byte (u32 (-1)) data (Z.to_nat len).
Proof. intros Hb Hl H32. rewrite crc32c_intel_bytes, crc_tail by (done || lia). done. Qed.

Lemma crc32c_word_byte_witness :
  crc32c_intel [110; 118; 102; 117; 115; 101] 6 = crc32c_intel_le_hw_byte (u32 (-1)) [110; 118; 102; 117; 115; 101] 6.
Proof.
  apply (crc32c_word_byte [110; 118; 102; 117; 115; 101] 6); [|simpl; lia|lia].
  repeat constructor; unfold is_u8; lia.
Defined.

(** two different names of the same length, of at most eight bytes, never
    have the same directory index key: nvfuse_dir_hash is injective on them. *)
Theorem dir_key_injective n1 n2 :
  bytes n1 -> bytes n2 -> length n1 = length n2 -> (length n1 <= 8)%nat -> dir_key n1 = dir_key n2 -> n1 = n2.
Proof.
  intros H1 H2 Hlen H8. rewrite !dir_key_halves by (done || lia). intros [= E].
  assert (forall l, bytes l -> 0 <= half_crc l true < 2 ^ 32) as Hr by (intros; apply crc_u32; by apply Forall_take).
  pose proof (Hr n1 H1). pose proof (Hr n2 H2).
  assert (half_crc n1 true = half_crc n2 true /\ half_crc n1 false = half_crc n2 false) as [E1 E2] by lia.
  unfold half_crc in *. rewrite <- Hlen in *.
  assert (length n1 / 2 <= 4)%nat by (apply Nat.Div0.div_le_upper_bound; lia).
  assert (length n1 - length n1 / 2 <= 4)%nat.
  { pose proof (Nat.div_mod_eq (length n1) 2). pose proof (Nat.mod_upper_bound (length n1) 2). lia. }
  rewrite <- (take_drop (length n1 / 2) n1), <- (take_drop (length n1 / 2) n2). f_equal.
  - apply crc_short_inj; [by apply Forall_take..|rewrite !length_take; lia|rewrite length_take; lia|done].
  - apply crc_short_inj; [by apply Forall_drop..|rewrite !length_drop; lia|rewrite length_drop; lia|done].
Qed.

Lemma dir_key_injective_witness : dir_key [102; 105; 108; 101; 49] <> dir_key [102; 105; 108; 101; 50].
Proof.
  intros E. assert ([102; 105; 108; 101; 49] = [102; 105; 108; 101; 50]) as Heq; [|discriminate Heq].
  apply dir_key_injective; [..|exact E]; [repeat constructor; unfold is_u8; lia..|reflexivity|simpl; lia].
Defined.

(** the block ciphers inside the two compression functions are
    permutations of the state for every input block: the sixteen TEA rounds
    and the twenty-four half-MD4 rounds can be undone. *)
Theorem cipher_rounds_invertible :
  (forall a b c d st, words3 st -> tea_unrounds 16 a b c d (tea_rounds 16 a b c d st) = st) /\
  (forall i0 i1 i2 i3 i4 i5 i6 i7 st, words4 st ->
     md4_unrounds i0 i1 i2 i3 i4 i5 i6 i7 (md4_rounds i0 i1 i2 i3 i4 i5 i6 i7 st) = st).
Proof. split; intros; [by apply tea_unrounds_rounds|by apply md4_unrounds_rounds]. Qed.

Lemma cipher_rounds_invertible_witness :
  tea_unrounds 16 1 2 3 4 (tea_rounds 16 1 2 3 4 (0, 7, 9)) = (0, 7, 9) /\
  md4_unrounds 1 2 3 4 5 6 7 8 (md4_rounds 1 2 3 4 5 6 7 8 (5, 6, 7, 8)) = (5, 6, 7, 8).
Proof. split; apply cipher_rounds_invertible; cbn; unfold is_u32; lia. Defined.

(** str2hashbuf stores exactly [num] words, whatever the length of the
    name: word [j] is the pad shifted left by the characters [4j .. 4j+3] of
    the name, and the pad itself behind its end. *)
Theorem str2hashbuf_packs msg len num uf :
  0 <= num -> 0 <= len <= Z.of_nat (length msg) ->
  str2hashbuf msg len num uf =
    Some (pack_word (hash_pad len) (take (Z.to_nat (Z.min len (4 * num))) (chars uf msg)) <$> seq 0 (Z.to_nat num)).
Proof. apply str2hashbuf_run. Qed.

Lemma str2hashbuf_packs_witness :
  str2hashbuf [65; 66; 67; 68; 69] 5 4 true =
    Some [0x41424344; 0x05050545; 0x05050505; 0x05050505].
Proof. rewrite (str2hashbuf_packs [65; 66; 67; 68; 69] 5 4 true); [vm_compute; reflexivity|lia|simpl; lia]. Defined.

End DirHashThms.
