(* ===== verification/Arr.v ===== *)
(** * C arrays: indexed access that fails outside the object

    [aget], [aset], [acopy] and [afill] are reading, writing, [memcpy] and
    [memset] of array elements; an access outside the array is [None].  The
    lemmas give their results on lists written as concatenations, the form the
    proofs about nodes and tables use. *)
From S2P Require Import Prelude.

Module Arr.
Section arr.
Context {A : Type}.
Implicit Types (l src : list A) (x : A).

Definition aget l (i : Z) : option A := if 0 <=? i then l !! Z.to_nat i else None.

Definition aset l (i : Z) x : option (list A) :=
  if (0 <=? i) && (i <? Z.of_nat (length l)) then Some (<[Z.to_nat i := x]> l) else None.

(** [n] elements of [src] from [j] on, written to [l] from [i] on. *)
Definition acopy l src (i j n : Z) : option (list A) :=
  if (0 <=? i) && (0 <=? j) && (0 <=? n) &&
     (i + n <=? Z.of_nat (length l)) && (j + n <=? Z.of_nat (length src))
  then Some (take (Z.to_nat i) l ++ take (Z.to_nat n) (drop (Z.to_nat j) src)
             ++ drop (Z.to_nat (i + n)) l)
  else None.

Definition afill l (i n : Z) x : option (list A) :=
  if (0 <=? i) && (0 <=? n) && (i + n <=? Z.of_nat (length l))
  then Some (take (Z.to_nat i) l ++ replicate (Z.to_nat n) x ++ drop (Z.to_nat (i + n)) l)
  else None.

(** ** Equations *)

Lemma aget_nat l (i : nat) : aget l (Z.of_nat i) = l !! i.
Proof. unfold aget. destruct (Z.leb_spec 0 (Z.of_nat i)); [|lia]. by rewrite Nat2Z.id. Qed.

Lemma aget_middle l1 x l2 : aget (l1 ++ x :: l2) (Z.of_nat (length l1)) = Some x.
Proof. rewrite aget_nat. by apply list_lookup_middle. Qed.

Lemma aget_neg l i : i < 0 -> aget l i = None.
Proof. intros. unfold aget. destruct (Z.leb_spec 0 i); [lia|done]. Qed.

Lemma aset_nat l (i : nat) x : (i < length l)%nat -> aset l (Z.of_nat i) x = Some (<[i := x]> l).
Proof.
  intros. unfold aset. destruct (Z.leb_spec 0 (Z.of_nat i)); [|lia].
  destruct (Z.ltb_spec (Z.of_nat i) (Z.of_nat (length l))); [|lia]. by rewrite Nat2Z.id.
Qed.

Lemma aset_middle l1 x y l2 :
  aset (l1 ++ x :: l2) (Z.of_nat (length l1)) y = Some (l1 ++ y :: l2).
Proof.
  rewrite aset_nat by (rewrite length_app; simpl; lia).
  rewrite insert_app_r_alt, Nat.sub_diag by lia. done.
Qed.

Lemma acopy_spec l src i j n :
  0 <= i -> 0 <= j -> 0 <= n -> i + n <= Z.of_nat (length l) -> j + n <= Z.of_nat (length src) ->
  acopy l src i j n =
    Some (take (Z.to_nat i) l ++ take (Z.to_nat n) (drop (Z.to_nat j) src)
          ++ drop (Z.to_nat (i + n)) l).
Proof.
  intros. unfold acopy.
  do 5 (match goal with |- context [?a <=? ?b] => destruct (Z.leb_spec a b); [|lia] end). done.
Qed.

(** Copying a block of the source over a block of the same length. *)
Lemma acopy_app l1 l2 l3 s1 s2 s3 i j n :
  i = Z.of_nat (length l1) -> j = Z.of_nat (length s1) ->
  n = Z.of_nat (length s2) -> length l2 = length s2 ->
  acopy (l1 ++ l2 ++ l3) (s1 ++ s2 ++ s3) i j n = Some (l1 ++ s2 ++ l3).
Proof.
  intros -> -> -> Hl. rewrite acopy_spec by (rewrite ?length_app; lia). f_equal.
  rewrite !Nat2Z.id, <- Nat2Z.inj_add, Nat2Z.id.
  rewrite take_app_length, drop_app_length, take_app_length. do 2 f_equal.
  rewrite <- Hl, app_assoc, <- length_app, drop_app_length. done.
Qed.

Lemma afill_app l1 l2 l3 i n x :
  i = Z.of_nat (length l1) -> n = Z.of_nat (length l2) ->
  afill (l1 ++ l2 ++ l3) i n x = Some (l1 ++ replicate (length l2) x ++ l3).
Proof.
  intros -> ->. unfold afill. rewrite !length_app.
  do 3 (match goal with |- context [?a <=? ?b] => destruct (Z.leb_spec a b); [|lia] end).
  simpl. rewrite !Nat2Z.id, <- Nat2Z.inj_add, Nat2Z.id, take_app_length. do 3 f_equal.
  rewrite app_assoc, <- length_app, drop_app_length. done.
Qed.

Lemma length_aset l i x l' : aset l i x = Some l' -> length l' = length l.
Proof. unfold aset. case_match; intros; simplify_eq. apply length_insert. Qed.

Lemma length_acopy l src i j n l' : acopy l src i j n = Some l' -> length l' = length l.
Proof.
  unfold acopy. intros H. case_match eqn:E; simplify_eq.
  rewrite !andb_true_iff, !Z.leb_le in E. rewrite !length_app, length_drop, !length_take, length_drop. lia.
Qed.

End arr.
End Arr.
