(* ===== verification/BpTree.v ===== *)
(** * The B+tree index of a directory (nvfuse_bp_tree.c): data and operations

    The tree lives in a file of its own.  Block 0 is the master block with the
    number of the root node and a bitmap of the blocks; every other block
    holds one node: a header, an array of FANOUT keys and an array of FANOUT
    items.  A leaf with [i_num = n] has n keys with their values; an inner node
    with [i_num = n] has n + 1 children in its items, and key j bounds the keys
    below child j for j < n (key n is only a hint).

    An [index_node_t] in memory is a copy of the header of a block plus
    pointers to the two arrays in the buffer of that block.  The model keeps
    this split: a [node] has its own header and the number of the block whose
    arrays it points to, so that a header changed in memory reaches the block
    only through [bp_write_node], while keys and items change at once.

    Left to other components: buffer reference counts (the buffer cache), and
    nvfuse_get_block, which gives a block of the file a block of the device and
    is the operation of the class [BlockMap].  The memory pools are taken as
    large enough; [m_size] counts what was taken from them as the source does.
    The fields m_fsize, m_bitmap_ptr and m_buf are written and never read. *)
From S2P Require Import Prelude Bitmap Arr.
Import Arr Bitmap.

Module BpTree.

Definition CLUSTER_SIZE : Z := 4096.
Definition BP_NODE_HEAD_SIZE : Z := 40.
Definition BP_KEY_SIZE : Z := 8.
Definition BP_ITEM_SIZE : Z := 4.
Definition BP_PAIR_SIZE : Z := BP_KEY_SIZE + BP_ITEM_SIZE.
Definition BP_BITMAP_SIZE : Z := CLUSTER_SIZE - BP_NODE_HEAD_SIZE.
Definition BP_NODES_PER_MASTER : Z := 1 + Z.shiftl BP_BITMAP_SIZE 3.
Definition _FANOUT : Z := (CLUSTER_SIZE - BP_NODE_HEAD_SIZE) / BP_PAIR_SIZE.
Definition FANOUT : Z := if _FANOUT mod 2 =? 0 then _FANOUT - 1 else _FANOUT.
Definition MAX_STACK : Z := 128.
Definition DATA_FLAG : Z := 1.
Definition INDEX_NODE_FREE : Z := 0.
Definition INDEX_NODE_USED : Z := 1.
Definition SIZEOF_INDEX_NODE : Z := 80.
Definition SIZEOF_KEY_PAIR : Z := 16.
Definition NVFUSE_ERROR : Z := -1.
(** (11 + 1024 + 1024^2 + 1024^3) clusters *)
Definition MAX_FILE_SIZE : Z := (11 + 1024 + 1024 ^ 2 + 1024 ^ 3) * CLUSTER_SIZE.

(** ** Data *)

(** The header that a block and an [index_node_t] share. *)
Record hdr := mk_hdr {
  i_root : Z; i_flag : Z; i_num : Z; i_offset : Z;
  i_next_node : Z; i_prev_node : Z; i_status : Z }.

(** key_pair_t: two parallel arrays. *)
Record key_pair := mk_pair { i_key : list Z; i_item : list Z }.

(** The contents of the block of a node. *)
Record page := mk_page { p_hdr : hdr; i_pair : key_pair }.

(** index_node_t: the header in memory and the block [i_bh] it is attached to. *)
Record node := mk_node { n_hdr : hdr; i_bh : option Z }.

(** master_ondisk_node_t *)
Record ondisk := mk_ondisk {
  m_root : Z; m_bitmap_free : Z; m_alloc_block : Z; m_dealloc_block : Z;
  m_last_allocated_sub_master : Z; m_last_allocated_sub_offset : Z;
  bitmap : list Z }.

(** master_node_t with the file of the tree: [m_isize] is the size of its inode
    in bytes, [m_pages] the blocks of the nodes, [m_dev] the state behind
    nvfuse_get_block.  The stack has its top first. *)
Record tree {D : Type} := mk_tree {
  m_ondisk : ondisk; m_stack : list Z; m_size : Z; m_key_count : Z;
  m_isize : Z; m_pages : gmap Z page; m_dev : D }.
Arguments tree : clear implicits.

(** nvfuse_get_block (sb, ictx, lblock, 1, NULL, NULL, 1): the error code. *)
Class BlockMap (D : Type) := get_block : Z -> M D Z.

Definition set_root (v : Z) (h : hdr) : hdr :=
  mk_hdr v (i_flag h) (i_num h) (i_offset h) (i_next_node h) (i_prev_node h) (i_status h).
Definition set_flag (v : Z) (h : hdr) : hdr :=
  mk_hdr (i_root h) v (i_num h) (i_offset h) (i_next_node h) (i_prev_node h) (i_status h).
Definition set_num (v : Z) (h : hdr) : hdr :=
  mk_hdr (i_root h) (i_flag h) v (i_offset h) (i_next_node h) (i_prev_node h) (i_status h).
Definition set_next (v : Z) (h : hdr) : hdr :=
  mk_hdr (i_root h) (i_flag h) (i_num h) (i_offset h) v (i_prev_node h) (i_status h).
Definition set_prev (v : Z) (h : hdr) : hdr :=
  mk_hdr (i_root h) (i_flag h) (i_num h) (i_offset h) (i_next_node h) v (i_status h).
Definition set_status (v : Z) (h : hdr) : hdr :=
  mk_hdr (i_root h) (i_flag h) (i_num h) (i_offset h) (i_next_node h) (i_prev_node h) v.
Definition on_hdr (f : hdr -> hdr) (n : node) : node := mk_node (f (n_hdr n)) (i_bh n).
Definition num (n : node) : Z := i_num (n_hdr n).
Definition off (n : node) : Z := i_offset (n_hdr n).
Definition B_NEXT (n : node) : Z := i_next_node (n_hdr n).
Definition B_PREV (n : node) : Z := i_prev_node (n_hdr n).
Definition B_ISLEAF (n : node) : bool := i_flag (n_hdr n) =? DATA_FLAG.
Definition B_ISROOT (n : node) : bool := negb (i_root (n_hdr n) =? 0).

Definition hdr_zero : hdr := mk_hdr 0 0 0 0 0 0 0.
Definition zeros (n : Z) : list Z := replicate (Z.to_nat n) 0.
Definition pair_zero (n : Z) : key_pair := mk_pair (zeros n) (zeros n).
Definition page_zero : page := mk_page hdr_zero (pair_zero FANOUT).

(** ** Pairs: the macros of nvfuse_bp_tree.h *)

Definition key_compare (k1 k2 : Z) : Z :=
  if k2 <? k1 then 1 else if k1 =? k2 then 0 else -1.
(** [(int)(x - y)] on 32-bit items. *)
Definition B_ITEM_CMP (x y : Z) : Z := s32 (x - y).

Definition B_KEY_COPY (p : key_pair) (i key : Z) : option key_pair :=
  k ← aset (i_key p) i key; Some (mk_pair k (i_item p)).
Definition B_PAIR_SET (p : key_pair) (i key item : Z) : option key_pair :=
  k ← aset (i_key p) i key; v ← aset (i_item p) i item; Some (mk_pair k v).
(** The macro uses rte_memcpy.  The copy reads the old contents, also where the
    two ranges of a node overlap (a removal moves the pairs behind it down by
    one), which rte_memcpy does not promise. *)
Definition B_PAIR_COPY_N (a b : key_pair) (i j n : Z) : option key_pair :=
  k ← acopy (i_key a) (i_key b) i j n; v ← acopy (i_item a) (i_item b) i j n;
  Some (mk_pair k v).
Definition B_PAIR_COPY (a b : key_pair) (i j : Z) : option key_pair :=
  k ← aget (i_key b) j; v ← aget (i_item b) j; B_PAIR_SET a i k v.
Definition B_PAIR_INIT_N (a : key_pair) (i n : Z) : option key_pair :=
  k ← afill (i_key a) i n 0; v ← afill (i_item a) i n 0; Some (mk_pair k v).
Definition B_PAIR_INIT (a : key_pair) (i : Z) : option key_pair := B_PAIR_SET a i 0 0.

(** The first loop of bp_merge_key and bp_merge_key2: the last of the [n] first
    positions whose key is set and below [key], -1 if there is none. *)
Fixpoint scan_below (n : nat) (keys : list Z) (key : Z) : option Z :=
  match n with
  | O => Some (-1)
  | S n' =>
      k ← aget keys (Z.of_nat n');
      if negb (k =? 0) && (key_compare k key <? 0) then Some (Z.of_nat n')
      else scan_below n' keys key
  end.

(** Their second loop: moves [n] pairs that end at [j] up by one. *)
Fixpoint shift_up (n : nat) (j : Z) (p : key_pair) : option key_pair :=
  match n with
  | O => Some p
  | S n' =>
      p ← B_PAIR_COPY p p j (j - 1);
      p ← B_PAIR_INIT p (j - 1);
      shift_up n' (j - 1) p
  end.

(** What bp_merge_key and bp_merge_key2 share; the flag tells whether the pair
    was stored, which it is only in an empty position. *)
Definition merge_pair (p : key_pair) (key value max : Z) : option (key_pair * bool) :=
  i ← scan_below (Z.to_nat (max - 1)) (i_key p) key;
  let i := i + 1 in
  p ← shift_up (Z.to_nat (max - 1 - i)) (max - 1) p;
  k ← aget (i_key p) i;
  if k =? 0 then p ← B_PAIR_SET p i key value; Some (p, true) else Some (p, false).

(** src/nvfuse_bp_tree.c: bp_merge_key2 *)
Definition bp_merge_key2 (p : key_pair) (key value max : Z) : option key_pair :=
  '(p, _) ← merge_pair p key value max; Some p.

(** src/nvfuse_bp_tree.c: bp_bin_search; [max] may become -1. *)
Fixpoint bin_loop (fuel : nat) (keys : list Z) (cmp : Z -> option Z) (min max : Z) : option Z :=
  if max <? min then Some (-1)
  else
    match fuel with
    | O => None
    | S fuel' =>
        let mid := Z.shiftr (min + max) 1 in
        c ← cmp mid;
        if c =? 0 then Some mid
        else if c <? 0 then bin_loop fuel' keys cmp min (mid - 1)
        else bin_loop fuel' keys cmp (mid + 1) max
    end.
Definition bp_bin_search (keys : list Z) (max : Z) (cmp : Z -> option Z) : option Z :=
  bin_loop (S (Z.to_nat (max + 1))) keys cmp 0 max.

(** src/nvfuse_bp_tree.c: get_pair_tree *)
Definition get_pair_tree (p : key_pair) (n key : Z) : option Z :=
  bp_bin_search (i_key p) (n - 1) (fun mid => k ← aget (i_key p) mid; Some (key_compare key k)).

(** src/nvfuse_bp_tree.c: bp_compare_index_node *)
Definition bp_compare_index_node (keys : list Z) (key mid : Z) : option Z :=
  k2 ← aget keys mid;
  ret1 ← (if mid - 1 <? 0 then Some 1 else k1 ← aget keys (mid - 1); Some (key_compare key k1));
  let ret2 := key_compare key k2 in
  Some (if (0 <? ret1) && (ret2 <=? 0) then 0 else ret2).

(** src/nvfuse_bp_tree.c: bubble_sort.  One pass over the positions from [j] up
    to [n + j], then passes until nothing was swapped. *)
Fixpoint bubble_pass (n : nat) (j : Z) (p : key_pair) (swap : bool) : option (key_pair * bool) :=
  match n with
  | O => Some (p, swap)
  | S n' =>
      a ← aget (i_key p) (j - 1); b ← aget (i_key p) j;
      if 0 <? key_compare a b then
        u ← aget (i_item p) (j - 1); v ← aget (i_item p) j;
        p ← B_PAIR_SET p j a u; p ← B_PAIR_SET p (j - 1) b v;
        bubble_pass n' (j + 1) p true
      else bubble_pass n' (j + 1) p swap
  end.
Fixpoint bubble_loop (n : nat) (len : Z) (p : key_pair) : option key_pair :=
  match n with
  | O => Some p
  | S n' =>
      '(p, swap) ← bubble_pass (Z.to_nat (len - 1)) 1 p false;
      if (swap : bool) then bubble_loop n' (len - 1) p else Some p
  end.
Definition bubble_sort (p : key_pair) (n : Z) : option key_pair := bubble_loop (Z.to_nat n) n p.

Section ops.
Context {D : Type} `{BlockMap D}.
Notation BM := (M (tree D)).

(** ** State access *)

Definition set_ondisk (f : ondisk -> ondisk) (s : tree D) : tree D :=
  mk_tree D (f (m_ondisk s)) (m_stack s) (m_size s) (m_key_count s) (m_isize s) (m_pages s) (m_dev s).
Definition set_stack (l : list Z) (s : tree D) : tree D :=
  mk_tree D (m_ondisk s) l (m_size s) (m_key_count s) (m_isize s) (m_pages s) (m_dev s).
Definition add_size (n : Z) (s : tree D) : tree D :=
  mk_tree D (m_ondisk s) (m_stack s) (m_size s + n) (m_key_count s) (m_isize s) (m_pages s) (m_dev s).
Definition add_key_count (n : Z) (s : tree D) : tree D :=
  mk_tree D (m_ondisk s) (m_stack s) (m_size s) (u32 (m_key_count s + n)) (m_isize s) (m_pages s) (m_dev s).
Definition set_isize (n : Z) (s : tree D) : tree D :=
  mk_tree D (m_ondisk s) (m_stack s) (m_size s) (m_key_count s) n (m_pages s) (m_dev s).
Definition set_page (b : Z) (p : page) (s : tree D) : tree D :=
  mk_tree D (m_ondisk s) (m_stack s) (m_size s) (m_key_count s) (m_isize s) (<[b := p]> (m_pages s)) (m_dev s).
Definition set_dev (d : D) (s : tree D) : tree D :=
  mk_tree D (m_ondisk s) (m_stack s) (m_size s) (m_key_count s) (m_isize s) (m_pages s) d.

Definition on_dev {A} (m : M D A) : BM A := fun s =>
  match m (m_dev s) with Some (a, d) => Some (a, set_dev d s) | None => None end.
Definition get_page (b : Z) : BM page := fun s => mlift (m_pages s !! b) s.

(** The arrays a node points to. *)
Definition load_pair (n : node) : BM key_pair :=
  b ← mlift (i_bh n); p ← get_page b; mret (i_pair p).
Definition store_pair (n : node) (kp : key_pair) : BM unit :=
  b ← mlift (i_bh n); p ← get_page b; mmodify (set_page b (mk_page (p_hdr p) kp)).
(** A change of the arrays of a node by a pair operation. *)
Definition update_pair (n : node) (f : key_pair -> option key_pair) : BM unit :=
  kp ← load_pair n; kp ← mlift (f kp); store_pair n kp.
Definition B_KEY_GET (n : node) (i : Z) : BM Z := kp ← load_pair n; mlift (aget (i_key kp) i).
Definition B_ITEM_GET (n : node) (i : Z) : BM Z := kp ← load_pair n; mlift (aget (i_item kp) i).

(** ** The stack of the path *)
Definition stack_push (v : Z) : BM unit :=
  s ← mget;
  mput (set_stack (v :: m_stack s) s);;
  massert (negb (MAX_STACK <=? Z.of_nat (length (m_stack s)) + 1)).
Definition stack_pop : BM Z :=
  s ← mget;
  match m_stack s with
  | [] => mabort
  | v :: l => mput (set_stack l s);; mret v
  end.
Definition B_FLUSH_STACK : BM unit := mmodify (set_stack []).
Definition m_sp : BM Z := mgets (fun s => Z.of_nat (length (m_stack s))).

(** ** The bitmap of the file

    Blocks from BP_NODES_PER_MASTER on belong to further master blocks.  Their
    context is set up with [master_ctx->master = (master_node_t * )bh->bh_buf],
    so that the functions below follow a pointer [m_ondisk] made of the first
    bytes of that block, which are zero: an abnormal end. *)
Definition bp_read_master_ctx (master_id : Z) : BM ondisk :=
  if master_id =? 0 then mgets m_ondisk else mabort.

Definition set_bits (od : ondisk) (free : Z) (bm : list Z) : ondisk :=
  mk_ondisk (m_root od) free (m_alloc_block od) (m_dealloc_block od)
    (m_last_allocated_sub_master od) (m_last_allocated_sub_offset od) bm.

Definition bp_set_bitmap (offset : Z) : BM unit :=
  od ← bp_read_master_ctx (offset / BP_NODES_PER_MASTER);
  '(_, bm) ← mlift (ext2fs_set_bit (offset mod BP_NODES_PER_MASTER) (bitmap od));
  mmodify (set_ondisk (fun od => set_bits od (m_bitmap_free od - 1) bm));;
  massert (0 <=? m_bitmap_free od - 1).

Definition bp_clear_bitmap (offset : Z) : BM unit :=
  od ← bp_read_master_ctx (offset / BP_NODES_PER_MASTER);
  t ← mlift (ext2fs_test_bit (offset mod BP_NODES_PER_MASTER) (bitmap od));
  massert (negb (t =? 0));;
  '(_, bm) ← mlift (ext2fs_clear_bit (offset mod BP_NODES_PER_MASTER) (bitmap od));
  mmodify (set_ondisk (fun od => set_bits od (m_bitmap_free od + 1) bm));;
  massert (m_bitmap_free od + 1 <=? BP_NODES_PER_MASTER).

Definition bp_test_bitmap (offset : Z) : BM Z :=
  od ← bp_read_master_ctx (offset / BP_NODES_PER_MASTER);
  mlift (ext2fs_test_bit (offset mod BP_NODES_PER_MASTER) (bitmap od)).

Definition bp_inc_free_bitmap (offset : Z) : BM unit :=
  od ← bp_read_master_ctx (offset / BP_NODES_PER_MASTER);
  mmodify (set_ondisk (fun od => set_bits od (m_bitmap_free od + 1) (bitmap od)));;
  massert (m_bitmap_free od + 1 <=? BP_NODES_PER_MASTER).

(** src/nvfuse_bp_tree.c: _bp_scan_bitmap, [n] = length - 1 steps. *)
Fixpoint scan_bits (n : nat) (bm : list Z) (offset length : Z) : option Z :=
  match n with
  | O => Some 0
  | S n' =>
      t ← ext2fs_test_bit offset bm;
      if t =? 0 then Some offset
      else scan_bits n' bm (if offset + 1 =? length then 1 else offset + 1) length
  end.
Definition _bp_scan_bitmap (bm : list Z) (offset length : Z) : option Z :=
  scan_bits (Z.to_nat (length - 1)) bm offset length.

Definition NVFUSE_SIZE_TO_BLK (x : Z) : Z := s32 (Z.shiftr x 12).

(** src/nvfuse_bp_tree.c: bp_scan_bitmap, [n] master blocks left. *)
Fixpoint scan_masters (n : nat) (max_offset max_master last_master last_offset : Z) : BM Z :=
  match n with
  | O => mret 0
  | S n' =>
      od ← bp_read_master_ctx last_master;
      free_blk ← (if negb (m_bitmap_free od =? 0) then
                    let length := if last_master + 1 =? max_master
                                  then max_offset mod BP_NODES_PER_MASTER
                                  else BP_NODES_PER_MASTER in
                    mlift (_bp_scan_bitmap (bitmap od) last_offset length)
                  else mret 0);
      if negb (free_blk mod BP_NODES_PER_MASTER =? 0) then
        mmodify (set_ondisk (fun od =>
          mk_ondisk (m_root od) (m_bitmap_free od) (m_alloc_block od) (m_dealloc_block od)
            last_master free_blk (bitmap od)));;
        mret (last_master * BP_NODES_PER_MASTER + free_blk)
      else scan_masters n' max_offset max_master ((last_master + 1) mod max_master) last_offset
  end.
Definition bp_scan_bitmap : BM Z :=
  s ← mget;
  let max_offset := NVFUSE_SIZE_TO_BLK (m_isize s) in
  let max_master := (max_offset + BP_NODES_PER_MASTER - 1) / BP_NODES_PER_MASTER in
  let od := m_ondisk s in
  let last_offset := m_last_allocated_sub_offset od in
  let last_offset := if last_offset =? 0 then 1 else last_offset in
  scan_masters (Z.to_nat max_master) max_offset max_master
    (m_last_allocated_sub_master od) last_offset.

Definition grow_file : BM unit :=
  s ← mget;
  massert (m_isize s <? MAX_FILE_SIZE);;
  mput (set_isize (m_isize s + CLUSTER_SIZE) s).
Definition count_blocks (alloc dealloc : Z) : BM unit :=
  mmodify (set_ondisk (fun od =>
    mk_ondisk (m_root od) (m_bitmap_free od) (m_alloc_block od + alloc) (m_dealloc_block od + dealloc)
      (m_last_allocated_sub_master od) (m_last_allocated_sub_offset od) (bitmap od))).

(** The part of bp_alloc_bitmap from the label FREE_BLK_FOUND on: nvfuse_get_new_bh
    gives a cleared buffer, whose status is set. *)
Definition take_block (new_bno : Z) : BM Z :=
  ret ← on_dev (get_block new_bno);
  if negb (ret =? 0) then mret NVFUSE_ERROR
  else
    mmodify (set_page new_bno
      (mk_page (set_status INDEX_NODE_USED hdr_zero) (pair_zero FANOUT)));;
    t ← bp_test_bitmap new_bno;
    massert (t =? 0);;
    bp_set_bitmap new_bno;;
    count_blocks 1 0;;
    massert (negb (new_bno =? 0));;
    mret new_bno.

(** src/nvfuse_bp_tree.c: bp_alloc_bitmap.  The block of a new sub-master gets
    its bit 0 set in its own bitmap, which nothing can read afterwards. *)
Definition bp_alloc_bitmap : BM Z :=
  od ← mgets m_ondisk;
  new_bno ← (if negb (m_dealloc_block od =? 0) then bp_scan_bitmap else mret 0);
  if negb (new_bno =? 0) then count_blocks 0 (-1);; take_block new_bno
  else
    new_bno ← mgets (fun s => NVFUSE_SIZE_TO_BLK (m_isize s));
    sub ← (if new_bno mod BP_NODES_PER_MASTER =? 0 then
             ret ← on_dev (get_block new_bno);
             if negb (ret =? 0) then mret None
             else
               mmodify (set_page new_bno page_zero);;
               grow_file;;
               count_blocks 1 0;;
               b ← mgets (fun s => NVFUSE_SIZE_TO_BLK (m_isize s));
               mret (Some b)
           else mret (Some new_bno));
    match sub with
    | None => mret NVFUSE_ERROR
    | Some new_bno =>
        bp_inc_free_bitmap new_bno;;
        grow_file;;
        take_block new_bno
    end.

(** src/nvfuse_bp_tree.c: bp_dealloc_bitmap *)
Definition bp_dealloc_bitmap (p : node) : BM node :=
  count_blocks (-1) 1;;
  bp_clear_bitmap (off p);;
  mret (on_hdr (set_status INDEX_NODE_FREE) p).

(** ** Nodes *)

(** src/nvfuse_bp_tree.c: bp_alloc_node; the new node is not attached yet. *)
Definition bp_alloc_node (flag offset : Z) (is_new : bool) : BM node :=
  mmodify (add_size SIZEOF_INDEX_NODE);;
  o ← (if is_new then bp_alloc_bitmap else mret offset);
  mmodify (add_size SIZEOF_KEY_PAIR);;
  mret (mk_node (mk_hdr 0 flag 0 o 0 0 INDEX_NODE_USED) None).
Definition B_iALLOC (offset : Z) (is_new : bool) : BM node := bp_alloc_node 0 offset is_new.
Definition B_dALLOC (offset : Z) (is_new : bool) : BM node := bp_alloc_node 1 offset is_new.

(** src/nvfuse_bp_tree.c: bp_release_node *)
Definition bp_release_node : BM unit := mmodify (add_size (- (SIZEOF_KEY_PAIR + SIZEOF_INDEX_NODE))).

Definition flag_ok (h : hdr) : bool := (i_flag h =? 0) || (i_flag h =? 1).

(** src/nvfuse_bp_tree.c: bp_read_node with bp_copy_raw_to_node.  A block that
    is not in the file gives no buffer. *)
Definition bp_read_node (n : node) (offset : Z) (sync : bool) : BM node :=
  p ← get_page offset;
  h ← (if sync then massert (flag_ok (p_hdr p));; massert (negb (i_offset (p_hdr p) =? 0));;
                    mret (p_hdr p)
       else mret (n_hdr n));
  massert (flag_ok h);;
  mret (mk_node h (Some offset)).

(** src/nvfuse_bp_tree.c: bp_write_node with bp_copy_node_to_raw *)
Definition bp_write_node (n : node) : BM unit :=
  b ← mlift (i_bh n);
  massert (flag_ok (n_hdr n));;
  p ← get_page b;
  mmodify (set_page b (mk_page (n_hdr n) (i_pair p))).

(** Allocation of a handle for an existing node and its reading. *)
Definition B_OPEN (offset : Z) : BM node :=
  n ← bp_alloc_node 0 offset false; bp_read_node n (off n) true.

(** ** Descent *)

(** src/nvfuse_bp_tree.c: bp_next_node *)
Definition bp_next_node (ip : node) (key : Z) : BM node :=
  k ← B_KEY_GET ip (num ip - 1);
  offset ← (if 0 <? key_compare key k then B_ITEM_GET ip (num ip)
            else
              kp ← load_pair ip;
              key_num ← mlift (bp_bin_search (i_key kp) (num ip) (bp_compare_index_node (i_key kp) key));
              B_ITEM_GET ip key_num);
  bp_read_node ip (s32 offset) true.

(** src/nvfuse_bp_tree.c: traverse_empty, and the loop of search_data_node.  A
    level is pushed for every step, so that the stack bounds the depth. *)
Fixpoint traverse (fuel : nat) (ip : node) (key : Z) : BM node :=
  if B_ISLEAF ip then mret ip
  else
    match fuel with
    | O => mabort
    | S fuel' =>
        stack_push (off ip);;
        ip ← bp_next_node ip key;
        massert (negb (off ip =? 0));;
        traverse fuel' ip key
    end.
Definition traverse_empty (ip : node) (key : Z) : BM node := traverse (Z.to_nat MAX_STACK) ip key.

Definition B_GET_PAIR (dp : node) (key : Z) : BM Z :=
  kp ← load_pair dp; mlift (get_pair_tree kp (num dp) key).

(** src/nvfuse_bp_tree.c: search_data_node: the leaf (also [m_cur]) and the index. *)
Definition search_data_node (key : Z) : BM (node * Z) :=
  root ← mgets (fun s => m_root (m_ondisk s));
  ip ← B_OPEN root;
  ip ← traverse_empty ip key;
  index ← B_GET_PAIR ip key;
  mret (ip, index).

(** src/nvfuse_bp_tree.c: bp_find_key: the index and [*value]. *)
Definition bp_find_key (key : Z) : BM (Z * Z) :=
  '(cur, index) ← search_data_node key;
  value ← (if 0 <=? index then B_ITEM_GET cur index else mret 0);
  B_FLUSH_STACK;;
  bp_release_node;;
  mret (index, value).

(** src/nvfuse_bp_tree.c: bp_insert_value_tree *)
Definition bp_insert_value_tree (ip : node) (index key value : Z) : BM unit :=
  k ← B_KEY_GET ip index;
  if key_compare k key =? 0 then
    update_pair ip (fun kp => v ← aset (i_item kp) index value; Some (mk_pair (i_key kp) v))
  else mret tt.

(** src/nvfuse_bp_tree.c: bp_update_key_tree.  When the key is missing the path
    stays on the stack and the node is not released. *)
Definition bp_update_key_tree (key value : Z) : BM Z :=
  '(cur, index) ← search_data_node key;
  if index <? 0 then mret 0
  else
    bp_insert_value_tree cur index key value;;
    bp_write_node cur;;
    B_FLUSH_STACK;;
    bp_release_node;;
    mret 0.

End ops.
End BpTree.
