(* ===== verification/BpTreeOps.v ===== *)
(** * The B+tree index: insertion with splits, removal with merges

    The functions of src/nvfuse_bp_tree.c that change the tree.  Functions that
    change a node they are given return the changed header. *)
From S2P Require Import Prelude Bitmap Arr BpTree.
Import Arr Bitmap BpTree.

Module BpTreeOps.

Section ops.
Context {D : Type} `{BlockMap D}.
Notation BM := (M (tree D)).

Definition set_m_root (v : Z) : BM unit :=
  mmodify (set_ondisk (fun od =>
    mk_ondisk v (m_bitmap_free od) (m_alloc_block od) (m_dealloc_block od)
      (m_last_allocated_sub_master od) (m_last_allocated_sub_offset od) (bitmap od))).

(** ** Creation *)

(** The master part of src/nvfuse_bp_tree.c: bp_alloc_inode_and_master: block 0
    of the file with an empty bitmap in which bit 0 is set. *)
Definition bp_alloc_master : BM Z :=
  ret ← on_dev (get_block 0);
  if negb (ret =? 0) then mret NVFUSE_ERROR
  else
    mmodify (set_ondisk (fun _ => mk_ondisk 0 1 1 0 0 0 (replicate (Z.to_nat BP_BITMAP_SIZE) 0)));;
    grow_file;;
    bp_set_bitmap 0;;
    mret 0.

(** src/nvfuse_bp_tree.c: bp_init_root *)
Definition bp_init_root : BM unit :=
  new_bno ← bp_alloc_bitmap;
  root_off ← mgets (fun s => m_root (m_ondisk s));
  root ← B_dALLOC root_off false;
  p ← get_page new_bno;
  let h := n_hdr root in
  let root := mk_node (mk_hdr 1 DATA_FLAG (i_num h) 1 (i_next_node h) (i_prev_node h)
                         INDEX_NODE_USED) (Some new_bno) in
  set_m_root (off root);;
  bp_write_node root;;
  bp_release_node.

(** ** Splits *)

(** src/nvfuse_bp_tree.c: bp_add_root_node: the full root leaf [dp] becomes an
    inner node over two new leaves. *)
Definition bp_add_root_node (dp : node) (key value : Z) : BM node :=
  dp_left ← B_dALLOC 0 true;
  dp_left ← bp_read_node dp_left (off dp_left) false;
  dp_right ← B_dALLOC 0 true;
  dp_right ← bp_read_node dp_right (off dp_right) false;
  src ← load_pair dp;
  pair ← mlift (B_PAIR_COPY_N (pair_zero (FANOUT * 2)) src 0 0 (num dp));
  pair ← mlift (bp_merge_key2 pair key value (num dp + 1));
  let offset := num dp / 2 in
  let dp := on_hdr (set_num (num dp - offset)) dp in
  let dp_left := on_hdr (set_num (num dp)) dp_left in
  let dp_right := on_hdr (set_num (num dp_right + offset + 1)) dp_right in
  update_pair dp_left (fun p => p ← B_PAIR_INIT_N p 0 FANOUT; B_PAIR_COPY_N p pair 0 0 (num dp_left));;
  update_pair dp_right (fun p => p ← B_PAIR_INIT_N p 0 FANOUT;
                                 B_PAIR_COPY_N p pair 0 (num dp_left) (num dp_right));;
  let parent_ip := on_hdr (fun h => set_num 1 (set_flag 0 h)) dp in
  kl ← B_KEY_GET dp_left (num dp_left - 1);
  kr ← B_KEY_GET dp_right (num dp_right - 1);
  update_pair parent_ip (fun p => p ← B_PAIR_INIT_N p 0 FANOUT;
                                  p ← B_PAIR_SET p 0 kl (u32 (off dp_left));
                                  B_PAIR_SET p 1 kr (u32 (off dp_right)));;
  let dp_right := on_hdr (fun h => set_prev (off dp_left) (set_next (B_NEXT dp_left) h)) dp_right in
  (* B_NEXT (dp_left) is 0, the node is new *)
  (if negb (B_NEXT dp_left =? 0) then mabort else mret tt);;
  let dp_left := on_hdr (set_next (off dp_right)) dp_left in
  bp_write_node dp_left;; bp_release_node;;
  bp_write_node dp_right;; bp_release_node;;
  mret parent_ip.

(** src/nvfuse_bp_tree.c: bp_split_data: half of the [count] pairs of [child] go
    to each of the nodes; the results are both headers and [median]. *)
Definition bp_split_data (p_ip : node) (child : key_pair) (sibling_ip : node) (count : Z)
  : BM (node * node * key_pair) :=
  let half := count / 2 in
  update_pair p_ip (fun p => p ← B_PAIR_INIT_N p 0 FANOUT; B_PAIR_COPY_N p child 0 0 half);;
  let p_ip := on_hdr (fun h => set_num (half - 1) (set_root 0 h)) p_ip in
  k ← mlift (aget (i_key child) (half - 1));
  let median := mk_pair [k] [u32 (off p_ip)] in
  update_pair sibling_ip (fun p => B_PAIR_COPY_N p child 0 half half);;
  let sibling_ip := on_hdr (set_num (num sibling_ip + half - 1)) sibling_ip in
  mret (p_ip, sibling_ip, median).

(** src/nvfuse_bp_tree.c: bp_split_index_node *)
Definition bp_split_index_node (p_ip : node) (child : key_pair) (count : Z) (median : key_pair)
  : BM (node * option node * key_pair) :=
  if count - 1 <? FANOUT then
    update_pair p_ip (fun p => B_PAIR_COPY_N p child 0 0 (num p_ip + 1));;
    mret (p_ip, None, median)
  else
    sibling_ip ← B_iALLOC 0 true;
    sibling_ip ← bp_read_node sibling_ip (off sibling_ip) false;
    '(p_ip, sibling_ip, median) ← bp_split_data p_ip child sibling_ip count;
    mret (p_ip, Some sibling_ip, median).

(** The first of the [n] first positions from [i] on whose item is [o]. *)
Fixpoint find_item (n : nat) (i : Z) (items : list Z) (o : Z) : option (option Z) :=
  match n with
  | O => Some None
  | S n' =>
      v ← aget items i;
      if B_ITEM_CMP v o =? 0 then Some (Some i) else find_item n' (i + 1) items o
  end.

(** The pairs of [src] with a key, from position [i] on, stored in [dst] from
    [count] on. *)
Fixpoint collect_pairs (n : nat) (i count : Z) (src dst : key_pair) : option (key_pair * Z) :=
  match n with
  | O => Some (dst, count)
  | S n' =>
      k ← aget (i_key src) i;
      if k =? 0 then collect_pairs n' (i + 1) count src dst
      else dst ← B_PAIR_COPY dst src count i; collect_pairs n' (i + 1) (count + 1) src dst
  end.

(** src/nvfuse_bp_tree.c: bp_split_data_node: the full leaf [dp] below [ip] is
    split for the new pair; [pair] receives the children of [ip] with the two
    halves in place of [dp]. *)
Definition bp_split_data_node (ip dp : node) (key value : Z) (pair : key_pair) : BM key_pair :=
  dp_right ← B_dALLOC 0 true;
  dp_right ← bp_read_node dp_right (off dp_right) false;
  update_pair ip (fun p =>
    slot ← find_item (Z.to_nat (num ip + 1)) 0 (i_item p) (off dp);
    match slot with Some i => B_PAIR_INIT p i | None => Some p end);;
  src ← load_pair dp;
  pair_array ← mlift (B_PAIR_COPY_N (pair_zero (num dp + 1)) src 0 0 (num dp));
  pair_array ← mlift (bp_merge_key2 pair_array key value (num dp + 1));
  let offset := num dp / 2 in
  let dp_left := on_hdr (set_num (num dp - offset)) dp in
  let dp_right := on_hdr (set_num (num dp_right + offset + 1)) dp_right in
  update_pair dp_left (fun p => B_PAIR_INIT_N p 0 FANOUT);;
  update_pair dp_right (fun p => B_PAIR_INIT_N p 0 FANOUT);;
  update_pair dp_left (fun p => B_PAIR_COPY_N p pair_array 0 0 (num dp_left));;
  update_pair dp_right (fun p => B_PAIR_COPY_N p pair_array 0 (num dp_left) (num dp_right));;
  let dp_right := on_hdr (fun h => set_prev (off dp_left) (set_next (B_NEXT dp_left) h)) dp_right in
  (if negb (B_NEXT dp_left =? 0) then
     nd ← B_OPEN (B_NEXT dp_left);
     bp_write_node (on_hdr (set_prev (off dp_right)) nd);;
     bp_release_node
   else mret tt);;
  let dp_left := on_hdr (set_next (off dp_right)) dp_left in
  ipp ← load_pair ip;
  '(pair, count) ← mlift (collect_pairs (Z.to_nat (num ip + 1)) 0 0 ipp pair);
  kl ← B_KEY_GET dp_left (num dp_left - 1);
  pair ← mlift (bp_merge_key2 pair kl (u32 (off dp_left)) (count + 1));
  kr ← B_KEY_GET dp_right (num dp_right - 1);
  pair ← mlift (bp_merge_key2 pair kr (u32 (off dp_right)) (count + 2));
  bp_write_node dp_left;;
  bp_write_node dp_right;;
  bp_release_node;; bp_release_node;;
  mret pair.

(** The loop of bp_split_tree over the [n] children of [ip] from [i] on: the
    pair whose item is [o] gives its key, the others are stored in [dst]. *)
Fixpoint extract_pair (n : nat) (i ptr key o : Z) (src dst : key_pair) : option (Z * key_pair) :=
  match n with
  | O => Some (key, dst)
  | S n' =>
      v ← aget (i_item src) i;
      if B_ITEM_CMP v o =? 0 then
        k ← aget (i_key src) i; extract_pair n' (i + 1) ptr k o src dst
      else
        dst ← B_PAIR_COPY dst src ptr i; extract_pair n' (i + 1) (ptr + 1) key o src dst
  end.

(** The second branch of the loop of bp_split_tree: the child of [ip] named by
    [median] was split, [new_child] is its right half. *)
Definition insert_child (ip new_child : node) (pair_arr median : key_pair)
  : BM (node * option node * key_pair) :=
  let ip := on_hdr (set_num (num ip + 1)) ip in
  let count := num ip + 1 in
  src ← load_pair ip;
  mk ← mlift (aget (i_key median) 0);
  mi ← mlift (aget (i_item median) 0);
  '(key, pair_arr) ← mlift (extract_pair (Z.to_nat (num ip)) 0 0 0 mi src pair_arr);
  pair_arr ← mlift (bp_merge_key2 pair_arr mk mi (num ip));
  let median := pair_zero 1 in
  last_key ← B_KEY_GET new_child (num new_child);
  pair_arr ← mlift (bp_merge_key2 pair_arr (if 0 <? key_compare key last_key then key else last_key)
                      (u32 (off new_child)) (num ip + 1));
  pair_arr ← mlift (bubble_sort pair_arr count);
  bp_write_node new_child;;
  bp_release_node;;
  bp_split_index_node ip pair_arr count median.

(** The loop of bp_split_tree after its first iteration's split: [ip] is the
    node at hand and [new_child] its right half if it was split.  Every further
    iteration pops a level. *)
Fixpoint split_loop (fuel : nat) (ip : node) (new_child : option node) (median : key_pair)
  : BM (node * option node * key_pair) :=
  bp_write_node ip;;
  sp ← m_sp;
  match new_child with
  | None => mret (ip, None, median)
  | Some nc =>
      if B_ISROOT ip || (sp =? 0) then mret (ip, Some nc, median)
      else
        match fuel with
        | O => mabort
        | S fuel' =>
            ip_offset ← stack_pop;
            ip ← bp_read_node ip ip_offset true;
            '(ip, new_child, median) ← insert_child ip nc (pair_zero (FANOUT + 1)) median;
            split_loop fuel' ip new_child median
        end
  end.

(** The last part of bp_split_tree: a new root over [ip] and [new_child]. *)
Definition split_root (ip new_child : node) (median : key_pair) : BM node :=
  root ← B_iALLOC 0 true;
  root ← bp_read_node root (off root) false;
  k_ip ← B_KEY_GET ip (num ip - 1);
  k_nc ← B_KEY_GET new_child (num new_child - 1);
  mk ← mlift (aget (i_key median) 0);
  update_pair root (fun p =>
    if key_compare k_ip k_nc <? 0 then
      p ← B_PAIR_SET p 0 mk (u32 (off ip)); B_PAIR_SET p 1 k_nc (u32 (off new_child))
    else
      p ← B_PAIR_SET p 0 mk (u32 (off new_child)); B_PAIR_SET p 1 k_ip (u32 (off ip)));;
  let ip := on_hdr (set_root 0) ip in
  let new_child := on_hdr (set_root 0) new_child in
  let root := on_hdr (fun h => set_num 1 (set_root 1 h)) root in
  set_m_root (off root);;
  bp_write_node root;;
  bp_write_node ip;;
  bp_write_node new_child;;
  bp_release_node;; bp_release_node;;
  mret ip.

(** src/nvfuse_bp_tree.c: bp_split_tree *)
Definition bp_split_tree (dp : node) (key value : Z) : BM unit :=
  ip_offset ← stack_pop;
  ip ← B_OPEN ip_offset;
  pair_arr ← bp_split_data_node ip dp key value (pair_zero (FANOUT + 1));
  let ip := on_hdr (set_num (num ip + 1)) ip in
  '(ip, new_child, median) ← bp_split_index_node ip pair_arr (num ip + 1) (pair_zero 1);
  '(ip, new_child, median) ← split_loop (Z.to_nat MAX_STACK) ip new_child median;
  (match new_child with Some nc => split_root ip nc median;; mret tt | None => mret tt end);;
  bp_release_node.

(** src/nvfuse_bp_tree.c: bp_merge_key: the header afterwards. *)
Definition bp_merge_key (dp : node) (key value : Z) : BM node :=
  p ← load_pair dp;
  '(p, stored) ← mlift (merge_pair p key value (num dp + 1));
  store_pair dp p;;
  mret (if (stored : bool) then on_hdr (set_num (num dp + 1)) dp else dp).

(** src/nvfuse_bp_tree.c: bp_insert_key_tree: the result and, for a key that is
    already there, [*cur_value]. *)
Definition bp_insert_key_tree (key value : Z) (update : bool) : BM (Z * option Z) :=
  root ← mgets (fun s => m_root (m_ondisk s));
  root ← B_OPEN root;
  dp ← traverse_empty root key;
  index ← B_GET_PAIR dp key;
  if 0 <=? index then
    cur_value ← B_ITEM_GET dp index;
    k ← B_KEY_GET dp index;
    res ← (if update && (key_compare k key =? 0) then
             update_pair dp (fun p => v ← aset (i_item p) index value; Some (mk_pair (i_key p) v));;
             bp_write_node dp;; mret 0
           else mret (-1));
    B_FLUSH_STACK;; bp_release_node;;
    mret (res, Some cur_value)
  else
    (if B_ISROOT dp && (num dp =? FANOUT) then
       root ← bp_add_root_node dp key value;
       bp_write_node (on_hdr (set_root 1) root);; bp_release_node
     else if num dp =? FANOUT then bp_split_tree dp key value
     else
       dp ← bp_merge_key dp key value;
       bp_write_node dp;; bp_release_node);;
    B_FLUSH_STACK;;
    mmodify (add_key_count 1);;
    mret (0, None).

(** ** Removal *)

(** Takes the block of a merged node out of the list of leaves: the neighbours
    of [de_alloc] are linked; the result is the header of [nd], one of them. *)
Definition unlink_leaf (de_alloc nd : node) : BM node :=
  let prev_is := B_PREV de_alloc =? off nd in
  let next_is := negb prev_is && (B_NEXT de_alloc =? off nd) in
  prev ← (if negb prev_is && negb (B_PREV de_alloc =? 0)
          then n ← B_OPEN (B_PREV de_alloc); mret (Some n) else mret None);
  next ← (if negb next_is && negb (B_NEXT de_alloc =? 0)
          then n ← B_OPEN (B_NEXT de_alloc); mret (Some n) else mret None);
  let nd := if prev_is then on_hdr (set_next (B_NEXT de_alloc)) nd else nd in
  let nd := if next_is then on_hdr (set_prev (B_PREV de_alloc)) nd else nd in
  (match prev with
   | Some n => bp_write_node (on_hdr (set_next (B_NEXT de_alloc)) n);; bp_release_node
   | None => mret tt end);;
  (match next with
   | Some n => bp_write_node (on_hdr (set_prev (B_PREV de_alloc)) n);; bp_release_node
   | None => mret tt end);;
  mret nd.

(** The position of [o] among the [n] first items, 0 if it is not there. *)
Definition target_of (n : Z) (items : list Z) (o : Z) : option Z :=
  slot ← find_item (Z.to_nat n) 0 items o; Some (default 0 slot).

(** The keys of two redistributed children are renewed in their parent. *)
Fixpoint renew_keys (n : nat) (i cl cr kl kr : Z) (p : key_pair) : option key_pair :=
  match n with
  | O => Some p
  | S n' =>
      v ← aget (i_item p) i;
      p ← (if B_ITEM_CMP v cl =? 0 then B_KEY_COPY p i kl else Some p);
      k ← aget (i_key p) i;
      p ← (if (B_ITEM_CMP v cr =? 0) && (0 <? key_compare kr k) then B_KEY_COPY p i kr else Some p);
      renew_keys n' (i + 1) cl cr kl kr p
  end.

(** src/nvfuse_bp_tree.c: bp_redist_data_child: [child] of [ip] is merged with a
    neighbour, or the pairs of both are shared out evenly.  The result is the
    header of [ip] and whether it has too few children now. *)
Definition bp_redist_data_child (ip child : node) (data_node : bool) : BM (node * bool) :=
  let extra := if data_node then 0 else 1 in
  ipp ← load_pair ip;
  target1 ← mlift (target_of (num ip + 1) (i_item ipp) (off child));
  let target2 := if target1 =? 0 then 1
                 else if num ip <=? target1 then num ip - 1 else target1 + 1 in
  src ← load_pair child;
  pair ← mlift (B_PAIR_COPY_N (pair_zero (FANOUT * 2)) src 0 0 (num child + extra));
  o2 ← mlift (aget (i_item ipp) target2);
  child2 ← B_OPEN (s32 o2);
  src2 ← load_pair child2;
  pair ← mlift (B_PAIR_COPY_N pair src2 (num child + extra) 0 (num child2 + extra));
  let count := num child + extra + (num child2 + extra) in
  pair ← mlift (bubble_sort pair count);
  if count <? FANOUT + extra then
    let '(i, nd, de_alloc) := if target2 <? target1 then (target2, child, child2)
                              else (target1, child2, child) in
    update_pair ip (fun p => p ← B_PAIR_COPY_N p p i (i + 1) (num ip - i); B_PAIR_INIT p (num ip));;
    let ip := on_hdr (set_num (num ip - 1)) ip in
    update_pair nd (fun p => B_PAIR_COPY_N p pair 0 0 (Z.min count FANOUT));;
    let nd := on_hdr (set_num count) nd in
    nd ← (if data_node then unlink_leaf de_alloc nd
          else mret (on_hdr (set_num (num nd - 1)) nd));
    de_alloc ← bp_dealloc_bitmap de_alloc;
    b ← mlift (i_bh de_alloc);
    mmodify (set_page b page_zero);;
    bp_write_node (on_hdr (set_status INDEX_NODE_FREE) de_alloc);;
    bp_write_node nd;;
    bp_write_node ip;;
    bp_release_node;; bp_release_node;;
    mret (ip, negb (FANOUT / 2 + 1 <=? num ip + 1))
  else
    let '(lft, rgt) := if target2 <? target1 then (child2, child) else (child, child2) in
    let lft := on_hdr (set_num (count / 2)) lft in
    let rgt := on_hdr (set_num (count / 2 + count mod 2)) rgt in
    update_pair lft (fun p => p ← B_PAIR_COPY_N p pair 0 0 (num lft);
                               B_PAIR_INIT_N p (num lft) (FANOUT - num lft));;
    update_pair rgt (fun p => p ← B_PAIR_COPY_N p pair 0 (num lft) (num rgt);
                                B_PAIR_INIT_N p (num rgt) (FANOUT - num rgt));;
    kl ← B_KEY_GET lft (num lft - 1);
    kr ← B_KEY_GET rgt (num rgt - 1);
    update_pair ip (renew_keys (Z.to_nat (num ip + 1)) 0 (off lft) (off rgt) kl kr);;
    bp_write_node (on_hdr (set_num (num lft - extra)) lft);;
    bp_write_node (on_hdr (set_num (num rgt - extra)) rgt);;
    bp_write_node ip;;
    bp_release_node;; bp_release_node;;
    mret (ip, negb (FANOUT / 2 + 1 <=? num ip + 1)).

(** What [B_ISLEAF (dp)] reads in the second and later iterations of the loop of
    bp_merge_key_tree, when bp_redist_data_child has given the node back to its
    pool: whatever the pool left in it.  If it still looks like a leaf, its
    [i_pair], set to NULL by bp_release_node, is followed. *)
Context (freed_is_leaf : bool).

(** The loop of bp_merge_key_tree; [dp] is the leaf in the first iteration and
    [index_temp] the inner node below [ip] in the later ones. *)
Fixpoint merge_loop (fuel : nat) (dp : option node) (index_temp : node) : BM (node * bool) :=
  match fuel with
  | O => mabort
  | S fuel' =>
      ip_offset ← stack_pop;
      ip ← B_OPEN ip_offset;
      '(ip, ret) ← (match dp with
                    | Some dp => bp_redist_data_child ip dp true
                    | None => if freed_is_leaf then mabort
                              else bp_redist_data_child ip index_temp false
                    end);
      bp_write_node ip;;
      if B_ISROOT ip || negb ret then mret (ip, ret)
      else merge_loop fuel' None ip
  end.

(** The last part of bp_merge_key_tree: a root with a single child gives way to
    that child. *)
Definition shrink_root (ip : node) : BM unit :=
  ip ← bp_dealloc_bitmap ip;
  new_root ← B_ITEM_GET ip 0;
  set_m_root (s32 new_root);;
  root ← B_OPEN (s32 new_root);
  bp_write_node (on_hdr (set_root 1) root);;
  bp_write_node ip;;
  bp_release_node;; bp_release_node.

(** src/nvfuse_bp_tree.c: bp_merge_key_tree *)
Definition bp_merge_key_tree (dp : node) : BM Z :=
  if B_ISLEAF dp && B_ISROOT dp then
    bp_write_node dp;; bp_release_node;; mret 0
  else
    '(ip, ret) ← merge_loop (Z.to_nat MAX_STACK) (Some dp) dp;
    (if B_ISROOT ip && (num ip =? 0) then shrink_root ip
     else bp_write_node ip;; bp_release_node);;
    mret (if (ret : bool) then 1 else 0).

(** src/nvfuse_bp_tree.c: bp_remove_key.  NVFUSE_USE_DELAYED_REDISTRIBUTION_BPTREE
    is set: only an empty leaf is merged.  A missing key leaves the path on the
    stack and the node unreleased. *)
Definition bp_remove_key (key : Z) : BM Z :=
  '(dp, i) ← search_data_node key;
  if i <? 0 then mret (-1)
  else
    k ← B_KEY_GET dp i;
    if negb (key_compare k key =? 0) then mret (-1)
    else
      update_pair dp (fun p => p ← B_PAIR_COPY_N p p i (i + 1) (num dp - 1 - i);
                               B_PAIR_INIT p (num dp - 1));;
      let dp := on_hdr (set_num (num dp - 1)) dp in
      (if 1 <=? num dp then bp_write_node dp;; bp_release_node
       else bp_merge_key_tree dp;; mret tt);;
      B_FLUSH_STACK;;
      mmodify (add_key_count (-1));;
      mret 0.

End ops.
End BpTreeOps.
