(* ===== verification/BpPairs.v ===== *)
(** * B+tree: arrays of keys, the block bitmap

    [BpPairs]: the array routines as operations on lists of pairs; [BpAlloc]: the
    blocks of the file of a tree. *)
From stdpp Require Import sorting.
From S2P Require Import Prelude Bitmap Arr BpTree BpTreeOps.
Import Arr BpTree BpTreeOps.

(** ** Arrays of keys and items as lists of pairs

    The loops of the B+tree code work on two parallel arrays.  [mk l] is the
    key_pair whose arrays hold the list [l] of pairs; the lemmas give the effect
    of every loop on such lists: binary search, merging of a pair, copying,
    collecting, extracting and sorting. *)
Module BpPairs.

Definition mk (l : list (Z * Z)) : key_pair := mk_pair l.*1 l.*2.

Lemma mk_eta (p : key_pair) :
  length (i_key p) = length (i_item p) -> exists l, p = mk l /\ length l = length (i_key p).
Proof.
  destruct p as [ks vs]; cbn [i_key i_item]. intros Hl. exists (zip ks vs). unfold mk.
  rewrite fst_zip, snd_zip by lia. split; [done|]. rewrite length_zip_with_l_eq; done.
Qed.

Lemma mk_zeros n : pair_zero n = mk (replicate (Z.to_nat n) (0, 0)).
Proof. unfold pair_zero, mk, zeros. by rewrite !fmap_replicate. Qed.

(** ** Comparison *)

Lemma key_compare_lt a b : (key_compare a b <? 0) = (a <? b).
Proof. unfold key_compare. zbool. Qed.
Lemma key_compare_gt a b : (0 <? key_compare a b) = (b <? a).
Proof. unfold key_compare. zbool. Qed.
Lemma key_compare_eq a b : (key_compare a b =? 0) = (a =? b).
Proof. unfold key_compare. zbool. Qed.

Lemma item_cmp_eq x y : is_s32 x -> is_s32 y -> (B_ITEM_CMP x y =? 0) = (x =? y).
Proof.
  unfold B_ITEM_CMP, is_s32, s32. intros.
  destruct (Z.eqb_spec x y) as [->|Hne]; [by rewrite Z.sub_diag|].
  apply Z.eqb_neq. Z.div_mod_to_equations. lia.
Qed.

(** ** Access *)

Lemma get_key l1 k v l2 i :
  i = Z.of_nat (length l1) -> aget (i_key (mk (l1 ++ (k, v) :: l2))) i = Some k.
Proof.
  intros ->. unfold mk; cbn [i_key i_item]. rewrite fmap_app, fmap_cons, <- (length_fmap fst l1). apply aget_middle.
Qed.

Lemma get_item l1 k v l2 i :
  i = Z.of_nat (length l1) -> aget (i_item (mk (l1 ++ (k, v) :: l2))) i = Some v.
Proof.
  intros ->. unfold mk; cbn [i_key i_item]. rewrite fmap_app, fmap_cons, <- (length_fmap snd l1). apply aget_middle.
Qed.

Lemma set_pair l1 x l2 k v i :
  i = Z.of_nat (length l1) ->
  B_PAIR_SET (mk (l1 ++ x :: l2)) i k v = Some (mk (l1 ++ (k, v) :: l2)).
Proof.
  intros ->. unfold B_PAIR_SET, mk; cbn [i_key i_item]. rewrite !fmap_app, !fmap_cons.
  rewrite <- (length_fmap fst l1) at 1. rewrite aset_middle; simpl.
  rewrite <- (length_fmap snd l1). rewrite aset_middle; simpl. done.
Qed.

Lemma set_item l1 k x l2 v i :
  i = Z.of_nat (length l1) ->
  (w ← aset (i_item (mk (l1 ++ (k, x) :: l2))) i v; Some (mk_pair (i_key (mk (l1 ++ (k, x) :: l2))) w))
  = Some (mk (l1 ++ (k, v) :: l2)).
Proof.
  intros ->. unfold mk; cbn [i_key i_item]. rewrite !fmap_app, !fmap_cons.
  rewrite <- (length_fmap snd l1), aset_middle; simpl. done.
Qed.

Lemma copy_pair l1 x l2 s1 y s2 i j :
  i = Z.of_nat (length l1) -> j = Z.of_nat (length s1) ->
  B_PAIR_COPY (mk (l1 ++ x :: l2)) (mk (s1 ++ y :: s2)) i j = Some (mk (l1 ++ y :: l2)).
Proof.
  intros Hi Hj. unfold B_PAIR_COPY. destruct y as [k v].
  rewrite (get_key s1 k v s2 j Hj), (get_item s1 k v s2 j Hj); simpl. by apply set_pair.
Qed.

Lemma copy_n l1 l2 l3 s1 s2 s3 i j n :
  i = Z.of_nat (length l1) -> j = Z.of_nat (length s1) -> n = Z.of_nat (length s2) ->
  length l2 = length s2 ->
  B_PAIR_COPY_N (mk (l1 ++ l2 ++ l3)) (mk (s1 ++ s2 ++ s3)) i j n = Some (mk (l1 ++ s2 ++ l3)).
Proof.
  intros. unfold B_PAIR_COPY_N, mk; cbn [i_key i_item]. rewrite !fmap_app.
  rewrite !acopy_app by (rewrite !length_fmap; congruence). done.
Qed.

Lemma init_n l1 l2 l3 i n :
  i = Z.of_nat (length l1) -> n = Z.of_nat (length l2) ->
  B_PAIR_INIT_N (mk (l1 ++ l2 ++ l3)) i n = Some (mk (l1 ++ replicate (length l2) (0, 0) ++ l3)).
Proof.
  intros. unfold B_PAIR_INIT_N, mk; cbn [i_key i_item]. rewrite !fmap_app, !fmap_replicate.
  rewrite !afill_app by (rewrite !length_fmap; congruence). simpl. by rewrite !length_fmap.
Qed.

Lemma key_copy l1 k v l2 i k' :
  i = Z.of_nat (length l1) ->
  B_KEY_COPY (mk (l1 ++ (k, v) :: l2)) i k' = Some (mk (l1 ++ (k', v) :: l2)).
Proof.
  intros ->. unfold B_KEY_COPY, mk; cbn [i_key i_item]. rewrite !fmap_app, !fmap_cons.
  rewrite <- (length_fmap fst l1). rewrite aset_middle; simpl. done.
Qed.

#[global] Arguments mk : simpl never.
#[global] Arguments i_key : simpl never.
#[global] Arguments i_item : simpl never.

(** ** Merging of a pair *)

Lemma scan_below_spec l1 l2 l3 key :
  Forall (fun p => p.1 <> 0 /\ p.1 < key) l1 -> Forall (fun p => p.1 = 0 \/ key <= p.1) l2 ->
  scan_below (length (l1 ++ l2)) (i_key (mk (l1 ++ l2 ++ l3))) key = Some (Z.of_nat (length l1) - 1).
Proof.
  intros H1 H2. revert l3. induction l2 as [|[k v] l2 IH] using rev_ind; intros l3.
  - rewrite app_nil_r. destruct l1 as [|[k v] l1 _] using rev_ind; [done|].
    rewrite length_app, Nat.add_comm. cbn [length Nat.add scan_below].
    rewrite <- app_assoc. change ([(k, v)] ++ [] ++ l3) with ((k, v) :: l3).
    rewrite get_key by done. simpl. apply Forall_app in H1 as [_ H1].
    apply Forall_cons in H1 as [[Hk Hlt] _]. simpl in *.
    rewrite key_compare_lt. destruct (Z.eqb_spec k 0); [lia|]. destruct (Z.ltb_spec k key); [|lia].
    simpl. f_equal. lia.
  - apply Forall_app in H2 as [H2 Hk]. apply Forall_cons in Hk as [Hk _]. simpl in Hk.
    rewrite app_assoc, length_app, Nat.add_comm. cbn [length Nat.add scan_below].
    rewrite <- app_assoc. change ([(k, v)] ++ l3) with ((k, v) :: l3).
    replace (l1 ++ l2 ++ (k, v) :: l3) with ((l1 ++ l2) ++ (k, v) :: l3) by by rewrite app_assoc.
    replace ((l1 ++ (l2 ++ [(k, v)]) ++ l3)) with ((l1 ++ l2) ++ (k, v) :: l3)
      by by rewrite <- !app_assoc.
    rewrite get_key by done. simpl. rewrite key_compare_lt.
    replace (negb (k =? 0) && (k <? key)) with false by zbool.
    rewrite <- app_assoc. by apply IH.
Qed.

Lemma shift_up_spec l1 l2 x l3 j :
  j = Z.of_nat (length (l1 ++ l2)) ->
  shift_up (length l2) j (mk (l1 ++ l2 ++ x :: l3)) =
    Some (mk (l1 ++ match l2 with [] => x :: l3 | _ => (0, 0) :: l2 ++ l3 end)).
Proof.
  revert x l3 j. induction l2 as [|y l2 IH] using rev_ind; intros x l3 j Hj; [done|].
  rewrite length_app, Nat.add_comm. cbn [length Nat.add shift_up].
  replace (l1 ++ (l2 ++ [y]) ++ x :: l3) with ((l1 ++ l2 ++ [y]) ++ x :: l3) by by rewrite <- !app_assoc.
  rewrite !length_app in Hj. simpl in Hj.
  replace (mk ((l1 ++ l2 ++ [y]) ++ x :: l3)) with (mk ((l1 ++ l2) ++ y :: x :: l3)) at 2
    by (f_equal; by rewrite <- !app_assoc).
  rewrite copy_pair by (rewrite ?length_app; simpl; lia). simpl.
  replace ((l1 ++ l2 ++ [y]) ++ y :: l3) with ((l1 ++ l2) ++ y :: y :: l3) by by rewrite <- !app_assoc.
  unfold B_PAIR_INIT. rewrite set_pair by (rewrite ?length_app; lia). simpl.
  rewrite <- app_assoc. rewrite (IH (0, 0) (y :: l3) (j - 1)) by (rewrite length_app; lia).
  destruct l2 as [|z l2]; simpl; [done|]. by rewrite <- app_assoc.
Qed.

(** A pair is stored between the smaller and the larger keys of the [max - 1]
    pairs before an empty place. *)
Lemma merge_pair_spec l1 l2 x l3 key value max :
  Forall (fun p => p.1 <> 0 /\ p.1 < key) l1 -> Forall (fun p => key < p.1) l2 ->
  max = Z.of_nat (length (l1 ++ l2)) + 1 -> (l2 = [] -> x.1 = 0) ->
  merge_pair (mk (l1 ++ l2 ++ x :: l3)) key value max =
    Some (mk (l1 ++ (key, value) :: l2 ++ l3), true).
Proof.
  intros H1 H2 -> Hx. unfold merge_pair.
  replace (Z.to_nat (Z.of_nat (length (l1 ++ l2)) + 1 - 1)) with (length (l1 ++ l2)) by lia.
  rewrite scan_below_spec; [simpl | done | eapply Forall_impl; [done|simpl; lia]].
  replace (Z.to_nat (Z.of_nat (length (l1 ++ l2)) + 1 - 1 - (Z.of_nat (length l1) - 1 + 1)))
    with (length l2) by (rewrite length_app; lia).
  rewrite shift_up_spec by lia. simpl.
  assert (exists v r, (match l2 with [] => x :: l3 | _ => (0, 0) :: l2 ++ l3 end) = (0, v) :: r /\
                      r = l2 ++ l3) as (v & r & -> & ->).
  { destruct l2; [|by eexists _, _]. destruct x as [k v]. simpl in Hx. rewrite Hx by done. by eexists _, _. }
  rewrite get_key by lia. simpl. by rewrite set_pair by lia.
Qed.

Lemma merge_key2_spec l1 l2 x l3 key value max :
  Forall (fun p => p.1 <> 0 /\ p.1 < key) l1 -> Forall (fun p => key < p.1) l2 ->
  max = Z.of_nat (length (l1 ++ l2)) + 1 -> (l2 = [] -> x.1 = 0) ->
  bp_merge_key2 (mk (l1 ++ l2 ++ x :: l3)) key value max = Some (mk (l1 ++ (key, value) :: l2 ++ l3)).
Proof. intros. unfold bp_merge_key2. by rewrite merge_pair_spec. Qed.

(** ** Search *)

Section bin_search.
Context (cmp : Z -> option Z) (c : Z -> Z) (top : Z).
Hypothesis Hcmp : forall i, 0 <= i <= top -> cmp i = Some (c i).
Hypothesis Hmono : forall i j, 0 <= i < j -> j <= top -> c i <= 0 -> c j < 0.

Lemma bin_loop_spec keys fuel min max :
  0 <= min -> max <= top -> max - min < Z.of_nat fuel ->
  (forall i, 0 <= i <= top -> c i = 0 -> min <= i <= max) ->
  exists r, bin_loop fuel keys cmp min max = Some r /\
    ((0 <= r <= top /\ c r = 0) \/ (r = -1 /\ forall i, 0 <= i <= top -> c i <> 0)).
Proof.
  revert min max. induction fuel as [|fuel IH]; intros min max Hmin Hmax Hf Hz; simpl.
  - destruct (Z.ltb_spec max min); [|lia]. eexists; split; [done|]. right. split; [done|].
    intros i Hi E. specialize (Hz i Hi E). lia.
  - destruct (Z.ltb_spec max min).
    { eexists; split; [done|]. right. split; [done|]. intros i Hi E. specialize (Hz i Hi E). lia. }
    rewrite Z.shiftr_div_pow2 by lia. change (2 ^ 1) with 2. set (mid := (min + max) / 2).
    assert (min <= mid <= max) by (unfold mid; dmlia).
    rewrite Hcmp by lia. simpl. destruct (Z.eqb_spec (c mid) 0); [eexists; split; [done|]; left; lia|].
    destruct (Z.ltb_spec (c mid) 0).
    + apply IH; try lia. intros i Hi E. specialize (Hz i Hi E).
      destruct (Z.lt_trichotomy i mid) as [|[->|]]; [lia|lia|].
      pose proof (Hmono mid i). lia.
    + apply IH; try lia. intros i Hi E. specialize (Hz i Hi E).
      destruct (Z.lt_trichotomy i mid) as [|[->|]]; [|lia|lia].
      pose proof (Hmono i mid). lia.
Qed.

Lemma bin_search_spec keys :
  -1 <= top ->
  exists r, bp_bin_search keys top cmp = Some r /\
    ((0 <= r <= top /\ c r = 0) \/ (r = -1 /\ forall i, 0 <= i <= top -> c i <> 0)).
Proof. intros. unfold bp_bin_search. apply bin_loop_spec; lia. Qed.

End bin_search.

(** ** Sorted lists of pairs *)

Definition plt (p q : Z * Z) : Prop := p.1 < q.1.
Definition ple (p q : Z * Z) : Prop := p.1 <= q.1.

Lemma sorted_app R (l1 l2 : list (Z * Z)) :
  StronglySorted R (l1 ++ l2) <->
  StronglySorted R l1 /\ StronglySorted R l2 /\ Forall (fun p => Forall (R p) l2) l1.
Proof.
  induction l1 as [|x l1 IH]; simpl.
  - split; [intros; repeat split; [constructor|done|constructor] | by intros (_ & ? & _)].
  - split.
    + intros [H1 H2]%StronglySorted_inv. apply IH in H1 as (Ha & Hb & Hc).
      apply Forall_app in H2 as [? ?]. repeat split; [by constructor|done|by constructor].
    + intros (Ha & Hb & Hc). apply StronglySorted_inv in Ha as [? ?]. apply Forall_cons in Hc as [? ?].
      constructor; [apply IH; done | by apply Forall_app].
Qed.

Lemma sorted_cons R x (l : list (Z * Z)) : StronglySorted R (x :: l) <-> StronglySorted R l /\ Forall (R x) l.
Proof.
  split; [apply StronglySorted_inv | intros [? ?]; by constructor].
Qed.

Lemma sorted_keys_lt (l : list (Z * Z)) i j a b :
  StronglySorted plt l -> l !! i = Some a -> l !! j = Some b -> (i < j)%nat -> a.1 < b.1.
Proof.
  intros Hs Ha Hb Hij. rewrite <- (take_drop_middle l i a Ha) in Hs, Hb.
  apply sorted_app in Hs as (_ & Hs & _). apply sorted_cons in Hs as [_ Hs].
  assert (i < length l)%nat by (eapply lookup_lt_Some; done).
  rewrite lookup_app_r in Hb by (rewrite length_take; lia). rewrite length_take in Hb.
  replace (j - i `min` length l)%nat with (S (j - i - 1)) in Hb by lia. simpl in Hb.
  eapply Forall_lookup_1 in Hs; [|done]. done.
Qed.

(** A key splits a sorted list that does not hold it. *)
Lemma sorted_split (l : list (Z * Z)) key :
  StronglySorted plt l -> key ∉ l.*1 ->
  exists l1 l2, l = l1 ++ l2 /\ Forall (fun p => p.1 < key) l1 /\ Forall (fun p => key < p.1) l2.
Proof.
  induction l as [|x l IH]; intros Hs Hk; [by exists [], []|].
  apply sorted_cons in Hs as [Hs Hx]. rewrite fmap_cons, not_elem_of_cons in Hk. destruct Hk as [Hne Hk].
  destruct (Z.lt_ge_cases x.1 key).
  - destruct IH as (l1 & l2 & -> & H1 & H2); [done..|]. exists (x :: l1), l2.
    split; [done|]. split; [by constructor|done].
  - exists [], (x :: l). split; [done|]. split; [constructor|]. constructor; [lia|].
    eapply Forall_impl; [done|]. unfold plt. intros; simpl in *; lia.
Qed.

Lemma sorted_insert (l1 l2 : list (Z * Z)) key value :
  StronglySorted plt (l1 ++ l2) -> Forall (fun p => p.1 < key) l1 -> Forall (fun p => key < p.1) l2 ->
  StronglySorted plt (l1 ++ (key, value) :: l2).
Proof.
  rewrite !sorted_app, sorted_cons. intros (? & ? & Hc) H1 H2. split; [done|]. split; [by split|].
  rewrite Forall_forall in *. intros x Hx. constructor; [by apply H1|]. by apply Hc.
Qed.

Lemma get_pair_spec l1 l2 key :
  StronglySorted plt l1 ->
  exists r, get_pair_tree (mk (l1 ++ l2)) (Z.of_nat (length l1)) key = Some r /\
    ((exists i w, r = Z.of_nat i /\ l1 !! i = Some (key, w)) \/ (r = -1 /\ key ∉ l1.*1)).
Proof.
  intros Hs. unfold get_pair_tree.
  set (c := fun i => key_compare key (default 0 (fst <$> l1 !! Z.to_nat i))).
  destruct (bin_search_spec (fun mid => k0 ← aget (i_key (mk (l1 ++ l2))) mid; Some (key_compare key k0))
              c (Z.of_nat (length l1) - 1)) with (keys := i_key (mk (l1 ++ l2)))
    as (r & Hr & Hres).
  - intros i Hi. assert (Z.to_nat i < length l1)%nat as Hlt by lia.
    apply lookup_lt_is_Some in Hlt as [[a b] Hab]. unfold c. rewrite Hab.
    rewrite <- (take_drop_middle l1 (Z.to_nat i) (a, b) Hab) at 1. rewrite <- app_assoc. simpl.
    rewrite get_key; [done|]. rewrite length_take. lia.
  - intros i j Hij Hj. unfold c.
    assert (Z.to_nat i < length l1)%nat as [[a b] Ha]%lookup_lt_is_Some by lia.
    assert (Z.to_nat j < length l1)%nat as [[a' b'] Hb]%lookup_lt_is_Some by lia.
    rewrite Ha, Hb. simpl. pose proof (sorted_keys_lt _ _ _ _ _ Hs Ha Hb) as Hlt. simpl in Hlt.
    unfold key_compare. zbool.
  - lia.
  - exists r. split; [done|]. destruct Hres as [[Hr1 Hr2]|[-> Hno]].
    + left. assert (Z.to_nat r < length l1)%nat as [[a b] Ha]%lookup_lt_is_Some by lia.
      unfold c in Hr2. rewrite Ha in Hr2. simpl in Hr2. exists (Z.to_nat r), b.
      split; [lia|]. rewrite Ha. unfold key_compare in Hr2. zbool.
    + right. split; [done|]. intros ([a b] & -> & Hin)%list_elem_of_fmap.
      apply list_elem_of_lookup in Hin as [i Hi]. simpl in *.
      apply (Hno (Z.of_nat i)); [apply lookup_lt_Some in Hi; lia|].
      unfold c. rewrite Nat2Z.id, Hi. simpl. unfold key_compare. zbool.
Qed.

(** ** Loops over the children *)

Lemma find_item_spec l1 k o l2 n i :
  Forall (fun p => is_s32 p.2 /\ p.2 <> o) l1 -> is_s32 o -> (length l1 < n)%nat ->
  forall l0, i = Z.of_nat (length l0) ->
  find_item n i (i_item (mk (l0 ++ l1 ++ (k, o) :: l2))) o = Some (Some (i + Z.of_nat (length l1))).
Proof.
  revert n i. induction l1 as [|[k1 o1] l1 IH]; intros n i Hl Ho Hn l0 Hi; (destruct n as [|n]; [simpl in *; lia|]); simpl.
  - rewrite get_item by done. simpl. rewrite item_cmp_eq, Z.eqb_refl by done. do 2 f_equal. lia.
  - apply Forall_cons in Hl as [[Hs Hne] Hl]. simpl in *. rewrite get_item by done. simpl.
    rewrite item_cmp_eq by done. destruct (Z.eqb_spec o1 o); [done|].
    replace (l0 ++ (k1, o1) :: l1 ++ (k, o) :: l2) with ((l0 ++ [(k1, o1)]) ++ l1 ++ (k, o) :: l2)
      by by rewrite <- app_assoc.
    rewrite IH; [do 2 f_equal; lia | done | done | lia | rewrite length_app; simpl; lia].
Qed.

Lemma collect_spec l : forall n s0 s2 d0 d1 d2 i count,
  n = length l -> i = Z.of_nat (length s0) -> count = Z.of_nat (length d0) ->
  length d1 = length (filter (fun p : Z * Z => p.1 <> 0) l) ->
  collect_pairs n i count (mk (s0 ++ l ++ s2)) (mk (d0 ++ d1 ++ d2)) =
    Some (mk (d0 ++ filter (fun p => p.1 <> 0) l ++ d2), count + Z.of_nat (length d1)).
Proof.
  induction l as [|[k v] l IH]; intros n s0 s2 d0 d1 d2 i count -> Hi Hc Hd; simpl.
  - destruct d1; [|done]. simpl. by rewrite Z.add_0_r.
  - rewrite get_key by done. simpl.
    replace (s0 ++ (k, v) :: l ++ s2) with ((s0 ++ [(k, v)]) ++ l ++ s2) by by rewrite <- app_assoc.
    destruct (Z.eqb_spec k 0) as [->|Hk].
    + rewrite filter_cons_False in Hd |- * by (simpl; lia).
      apply IH; [done | rewrite length_app; simpl; lia | done | done].
    + rewrite filter_cons_True in Hd |- * by done. destruct d1 as [|x d1]; [done|]. simpl in Hd.
      replace (d0 ++ (x :: d1) ++ d2) with (d0 ++ x :: (d1 ++ d2)) by done.
      rewrite <- (app_assoc s0). change ([(k, v)] ++ l ++ s2) with ((k, v) :: l ++ s2).
      rewrite copy_pair by done. simpl.
      replace (s0 ++ (k, v) :: l ++ s2) with ((s0 ++ [(k, v)]) ++ l ++ s2) by by rewrite <- app_assoc.
      replace (d0 ++ (k, v) :: d1 ++ d2) with ((d0 ++ [(k, v)]) ++ d1 ++ d2) by by rewrite <- app_assoc.
      rewrite IH; [|done | rewrite length_app; simpl; lia | rewrite length_app; simpl; lia | lia].
      f_equal. f_equal; [|lia]. by rewrite <- app_assoc.
Qed.

Lemma extract_skip l : forall n s0 s2 d0 d1 d2 i ptr key o,
  n = length l -> i = Z.of_nat (length s0) -> ptr = Z.of_nat (length d0) -> length d1 = length l ->
  Forall (fun p => is_s32 p.2 /\ p.2 <> o) l -> is_s32 o -> forall m,
  extract_pair (n + m) i ptr key o (mk (s0 ++ l ++ s2)) (mk (d0 ++ d1 ++ d2)) =
    extract_pair m (i + Z.of_nat n) (ptr + Z.of_nat n) key o (mk (s0 ++ l ++ s2)) (mk (d0 ++ l ++ d2)).
Proof.
  induction l as [|[k v] l IH]; intros n s0 s2 d0 d1 d2 i ptr key o -> Hi Hc Hd Hl Ho m; simpl.
  - destruct d1; [|done]. by rewrite !Z.add_0_r.
  - apply Forall_cons in Hl as [[Hs Hne] Hl]. simpl in *. rewrite get_item by done. simpl.
    rewrite item_cmp_eq by done. destruct (Z.eqb_spec v o); [done|].
    destruct d1 as [|x d1]; [done|]. simpl in Hd.
    replace (d0 ++ (x :: d1) ++ d2) with (d0 ++ x :: (d1 ++ d2)) by done.
    rewrite copy_pair by done. simpl.
    replace (s0 ++ (k, v) :: l ++ s2) with ((s0 ++ [(k, v)]) ++ l ++ s2) by by rewrite <- app_assoc.
    replace (d0 ++ (k, v) :: d1 ++ d2) with ((d0 ++ [(k, v)]) ++ d1 ++ d2) by by rewrite <- app_assoc.
    rewrite IH; [|done | rewrite length_app; simpl; lia | rewrite length_app; simpl; lia | lia | done | done].
    rewrite <- !app_assoc. simpl. f_equal; lia.
Qed.

(** The pair of the split child is left out and its key returned. *)
Lemma extract_spec l1 k o l2 s2 d1 d2 n :
  n = S (length (l1 ++ l2)) -> length d1 = length (l1 ++ l2) -> is_s32 o ->
  Forall (fun p => is_s32 p.2 /\ p.2 <> o) (l1 ++ l2) ->
  extract_pair n 0 0 0 o (mk (l1 ++ (k, o) :: l2 ++ s2)) (mk (d1 ++ d2)) =
    Some (k, mk (l1 ++ l2 ++ d2)).
Proof.
  intros -> Hd Ho [H1 H2]%Forall_app. rewrite !length_app in *.
  assert (exists da db, d1 = da ++ db /\ length da = length l1 /\ length db = length l2) as (da & db & -> & Ha & Hb).
  { exists (take (length l1) d1), (drop (length l1) d1). rewrite take_drop, length_take, length_drop. split_and!; [done|lia|lia]. }
  replace (S (length l1 + length l2)) with (length l1 + S (length l2))%nat by lia.
  rewrite <- app_assoc. change (mk (da ++ db ++ d2)) with (mk ([] ++ da ++ (db ++ d2))).
  change (mk (l1 ++ (k, o) :: l2 ++ s2)) with (mk ([] ++ l1 ++ ((k, o) :: l2 ++ s2))).
  rewrite extract_skip by done. cbn [extract_pair].
  change (mk ([] ++ l1 ++ (k, o) :: l2 ++ s2)) with (mk (l1 ++ (k, o) :: l2 ++ s2)).
  rewrite get_item by lia. cbn [mbind option_bind]. rewrite item_cmp_eq, Z.eqb_refl by done.
  rewrite get_key by lia. cbn [mbind option_bind].
  replace (l1 ++ (k, o) :: l2 ++ s2) with ((l1 ++ [(k, o)]) ++ l2 ++ s2) by by rewrite <- app_assoc.
  replace ([] ++ l1 ++ db ++ d2) with (l1 ++ db ++ d2) by done.
  replace (length l2) with (length l2 + 0)%nat by lia.
  rewrite extract_skip by (rewrite ?length_app; simpl; first [done | lia]). done.
Qed.

(** ** Sorting *)

(** One pass of bubble_sort over [x :: l] on lists. *)
Fixpoint bubble (x : Z * Z) (l : list (Z * Z)) : list (Z * Z) :=
  match l with
  | [] => [x]
  | y :: l => if y.1 <? x.1 then y :: bubble x l else x :: bubble y l
  end.
Fixpoint swaps (x : Z * Z) (l : list (Z * Z)) : bool :=
  match l with
  | [] => false
  | y :: l => if y.1 <? x.1 then true else swaps y l
  end.

Lemma bubble_perm l : forall x, bubble x l ≡ₚ x :: l.
Proof.
  induction l as [|y l IH]; intros x; simpl; [done|].
  destruct (y.1 <? x.1); rewrite IH; [apply Permutation_swap|done].
Qed.

Lemma bubble_max l : forall x, exists l' y,
  bubble x l = l' ++ [y] /\ Forall (fun z => ple z y) (x :: l).
Proof.
  induction l as [|z l IH]; intros x; simpl.
  - exists [], x. split; [done|]. repeat constructor. unfold ple. lia.
  - destruct (Z.ltb_spec z.1 x.1).
    + destruct (IH x) as (l' & y & -> & Hy). exists (z :: l'), y. split; [done|].
      apply Forall_cons in Hy as [Hx Hl]. constructor; [done|]. constructor; [|done].
      unfold ple in *. lia.
    + destruct (IH z) as (l' & y & -> & Hy). exists (x :: l'), y. split; [done|].
      constructor; [|done]. apply Forall_cons in Hy as [Hz Hl]. unfold ple in *. lia.
Qed.

Lemma swaps_sorted l : forall x, swaps x l = false -> bubble x l = x :: l /\ StronglySorted ple (x :: l).
Proof.
  induction l as [|y l IH]; intros x; simpl; [intros; split; [done|repeat constructor]|].
  destruct (Z.ltb_spec y.1 x.1); [done|]. intros [-> Hs]%IH. split; [done|].
  apply sorted_cons. split; [done|]. apply sorted_cons in Hs as [Hs Hy]. constructor; [unfold ple; lia|].
  eapply Forall_impl; [done|]. unfold ple. intros; simpl in *; lia.
Qed.

Lemma bubble_pass_spec l : forall d x r j sw,
  j = Z.of_nat (length d) + 1 ->
  bubble_pass (length l) j (mk (d ++ x :: l ++ r)) sw = Some (mk (d ++ bubble x l ++ r), sw || swaps x l).
Proof.
  induction l as [|[k v] l IH]; intros d [kx vx] r j sw ->; simpl; [by rewrite orb_false_r|].
  rewrite (get_key _ _ _ _ (Z.of_nat (length d) + 1 - 1)) by lia. simpl.
  replace (d ++ (kx, vx) :: (k, v) :: l ++ r) with ((d ++ [(kx, vx)]) ++ (k, v) :: l ++ r) by by rewrite <- app_assoc.
  rewrite get_key by (rewrite length_app; simpl; lia). simpl.
  rewrite key_compare_gt. destruct (Z.ltb_spec k kx).
  - replace ((d ++ [(kx, vx)]) ++ (k, v) :: l ++ r) with (d ++ (kx, vx) :: (k, v) :: l ++ r) at 1 by by rewrite <- app_assoc.
    rewrite (get_item _ _ _ _ (Z.of_nat (length d) + 1 - 1)) by lia. simpl.
    rewrite get_item by (rewrite length_app; simpl; lia). simpl.
    rewrite set_pair by (rewrite length_app; simpl; lia). simpl.
    rewrite <- app_assoc. simpl. rewrite set_pair by lia. simpl.
    replace (d ++ (k, v) :: (kx, vx) :: l ++ r) with ((d ++ [(k, v)]) ++ (kx, vx) :: l ++ r) by by rewrite <- app_assoc.
    rewrite IH by (rewrite length_app; simpl; lia). rewrite <- app_assoc. by rewrite orb_true_r.
  - rewrite IH by (rewrite length_app; simpl; lia). rewrite <- app_assoc. done.
Qed.

Lemma bubble_loop_spec n : forall (m s r : list (Z * Z)),
  (length m <= n)%nat -> StronglySorted ple s -> Forall (fun p => Forall (ple p) s) m ->
  exists l', bubble_loop n (Z.of_nat (length m)) (mk (m ++ s ++ r)) = Some (mk (l' ++ r)) /\
             l' ≡ₚ m ++ s /\ StronglySorted ple l'.
Proof.
  induction n as [|n IH]; intros m s r Hn Hs Hm; simpl.
  - destruct m; [|simpl in Hn; lia]. by exists s.
  - destruct m as [|x m]; simpl; [by exists s|].
    replace (Z.to_nat (Z.of_nat (S (length m)) - 1)) with (length m) by lia.
    change (mk (x :: m ++ s ++ r)) with (mk ([] ++ x :: m ++ (s ++ r))).
    rewrite bubble_pass_spec by done. simpl. destruct (swaps x m) eqn:E.
    + destruct (bubble_max m x) as (l' & y & Hb & Hy). rewrite Hb.
      pose proof (bubble_perm m x) as Hp. rewrite Hb in Hp.
      replace (Z.of_nat (S (length m)) - 1) with (Z.of_nat (length l'))
        by (apply Permutation_length in Hp; rewrite length_app in Hp; simpl in Hp; lia).
      rewrite <- app_assoc. change ([y] ++ s ++ r) with ((y :: s) ++ r).
      rewrite <- Hp in Hm, Hy. apply Forall_app in Hm as [Hm Hys]. apply Forall_app in Hy as [Hy _].
      destruct (IH l' (y :: s) r) as (q & -> & Hq & Hqs).
      * apply Permutation_length in Hp. rewrite length_app in Hp. simpl in *. lia.
      * apply sorted_cons. split; [done|]. apply Forall_cons in Hys as [Hys _]. done.
      * rewrite Forall_forall in *. intros z Hz. constructor; [by apply Hy | by apply Hm].
      * exists q. split; [done|]. split; [|done]. rewrite Hq.
        change (x :: m ++ s) with ((x :: m) ++ s). rewrite <- Hp, <- app_assoc. done.
    + destruct (swaps_sorted m x E) as [-> Hsx]. exists (x :: m ++ s).
      split; [simpl; by rewrite <- app_assoc|]. split; [done|].
      change (x :: m ++ s) with ((x :: m) ++ s). by apply sorted_app.
Qed.

(** bubble_sort sorts the first [n] pairs and leaves the others alone. *)
Lemma bubble_sort_spec l r n :
  n = Z.of_nat (length l) ->
  exists l', bubble_sort (mk (l ++ r)) n = Some (mk (l' ++ r)) /\ l' ≡ₚ l /\ StronglySorted ple l'.
Proof.
  intros ->. unfold bubble_sort. rewrite Nat2Z.id.
  destruct (bubble_loop_spec (length l) l [] r) as (l' & H & Hp & Hs).
  - lia.
  - constructor.
  - apply Forall_true. constructor.
  - exists l'. rewrite app_nil_r in Hp. done.
Qed.

Lemma ple_plt l : StronglySorted ple l -> NoDup l.*1 -> StronglySorted plt l.
Proof.
  induction l as [|x l IH]; [constructor|]. rewrite fmap_cons, NoDup_cons, !sorted_cons.
  intros [Hs Hx] [Hin Hnd]. split; [by apply IH|]. rewrite Forall_forall in *. intros y Hy.
  specialize (Hx y Hy). unfold plt, ple in *. assert (x.1 <> y.1); [|lia].
  intros E. apply Hin. rewrite E. by apply list_elem_of_fmap_2.
Qed.

Lemma sorted_unique l1 l2 : StronglySorted plt l1 -> StronglySorted plt l2 -> l1 ≡ₚ l2 -> l1 = l2.
Proof.
  revert l2. induction l1 as [|x l1 IH]; intros l2 H1 H2 Hp; [by apply Permutation_nil_l in Hp|].
  destruct l2 as [|y l2]; [by apply Permutation_nil_r in Hp|].
  assert (x = y) as ->.
  { apply sorted_cons in H1 as [_ H1], H2 as [_ H2]. rewrite Forall_forall in H1, H2.
    assert (x ∈ y :: l2) as Hx by (rewrite <- Hp; apply elem_of_cons; by left).
    assert (y ∈ x :: l1) as Hy by (rewrite Hp; apply elem_of_cons; by left).
    apply elem_of_cons in Hx as [|Hx]; [done|]. apply elem_of_cons in Hy as [|Hy]; [done|].
    specialize (H1 y Hy). specialize (H2 x Hx). unfold plt in *. lia. }
  f_equal. apply sorted_cons in H1 as [H1 _], H2 as [H2 _]. apply IH; [done..|].
  by apply Permutation_cons_inv in Hp.
Qed.

Lemma plt_nodup l : StronglySorted plt l -> NoDup l.*1.
Proof.
  induction l as [|x l IH]; [constructor|]. rewrite sorted_cons, fmap_cons, NoDup_cons.
  intros [Hs Hx]. split; [|by apply IH]. intros (y & E & Hy)%list_elem_of_fmap.
  rewrite Forall_forall in Hx. specialize (Hx y Hy). unfold plt in Hx. lia.
Qed.

Lemma plt_ple l : StronglySorted plt l -> StronglySorted ple l.
Proof.
  induction l as [|x l IH]; [constructor|]. rewrite !sorted_cons. intros [Hs Hx].
  split; [by apply IH|]. eapply Forall_impl; [done|]. unfold plt, ple. lia.
Qed.

(** Sorting pairs with distinct keys gives the one sorted list of them. *)
Lemma bubble_sort_to l l' r n :
  n = Z.of_nat (length l) -> StronglySorted plt l' -> l' ≡ₚ l ->
  bubble_sort (mk (l ++ r)) n = Some (mk (l' ++ r)).
Proof.
  intros -> Hs Hp. destruct (bubble_sort_spec l r _ eq_refl) as (q & -> & Hq & Hqs).
  rewrite (sorted_unique q l'); [done | | done | by rewrite Hq, Hp].
  apply ple_plt; [done|]. rewrite Hq, <- Hp. by apply plt_nodup.
Qed.

End BpPairs.

(** ** The block bitmap of a B+tree file

    [alloc_ok]: the bitmap marks block 0 and the blocks in use, the free
    counters count the other blocks of the file.  Allocation gives a block that
    is not in use, recycled if there is one, and release takes it back; the
    bitmap limits the file to [max_blocks] blocks. *)
Import Arr Bitmap BpTree BpTreeOps.

Module BpAlloc.

Definition max_blocks : Z := 8 * BP_BITMAP_SIZE.
Definition free_bits (bm : list Z) (n : Z) : Z := Zcount (fun i => negb (bit bm i)) (range 0 n).

(** [n] is the number of blocks of the file, [isz] its size in bytes, [used] the
    blocks of the nodes. *)
Record alloc_ok (n : Z) (od : ondisk) (isz : Z) (used : list Z) : Prop := {
  ao_isz : isz = n * CLUSTER_SIZE;
  ao_range : 1 <= n <= max_blocks;
  ao_bm : wf_block BP_BITMAP_SIZE (bitmap od);
  ao_bits : forall i, 0 <= i < max_blocks -> bit (bitmap od) i = bool_decide (i = 0 \/ i ∈ used);
  ao_used : forall o, o ∈ used -> 0 < o < n;
  ao_free : m_bitmap_free od = free_bits (bitmap od) n;
  ao_dealloc : m_dealloc_block od = free_bits (bitmap od) n;
  ao_last : m_last_allocated_sub_master od = 0;
  ao_off : 0 <= m_last_allocated_sub_offset od < Z.max 2 n }.

Definition fresh_page : page := mk_page (set_status INDEX_NODE_USED hdr_zero) (pair_zero FANOUT).

Lemma alloc_ok_ext n od isz u u' :
  (forall x, x ∈ u <-> x ∈ u') -> alloc_ok n od isz u -> alloc_ok n od isz u'.
Proof.
  intros He [?? Hb Hbits Hu ????]. constructor; try done.
  - intros i Hi. rewrite Hbits by done. apply bool_decide_ext. by rewrite He.
  - intros o Ho. apply Hu. by apply He.
Qed.

(** Fields of the master block that the allocator does not use. *)
Lemma alloc_ok_od n od od' isz u :
  bitmap od' = bitmap od -> m_bitmap_free od' = m_bitmap_free od ->
  m_dealloc_block od' = m_dealloc_block od ->
  m_last_allocated_sub_master od' = m_last_allocated_sub_master od ->
  m_last_allocated_sub_offset od' = m_last_allocated_sub_offset od ->
  alloc_ok n od isz u -> alloc_ok n od' isz u.
Proof.
  intros E1 E2 E3 E4 E5 [?? Hb Hbits Hu ????]. constructor; rewrite ?E1, ?E2, ?E3, ?E4, ?E5; done.
Qed.

Lemma max_blocks_eq : max_blocks = 32448.
Proof. reflexivity. Qed.
Lemma nodes_per_master_eq : BP_NODES_PER_MASTER = 32449.
Proof. reflexivity. Qed.

Lemma size_to_blk n : 0 <= n <= max_blocks -> NVFUSE_SIZE_TO_BLK (n * CLUSTER_SIZE) = n.
Proof.
  rewrite max_blocks_eq. intros. unfold NVFUSE_SIZE_TO_BLK, CLUSTER_SIZE.
  rewrite Z.shiftr_div_pow2 by lia. change (2 ^ 12) with 4096. rewrite Z.div_mul by lia.
  apply s32_small. lia.
Qed.

(** ** The scan *)

Lemma scan_bits_spec bm k off n i :
  wf_block BP_BITMAP_SIZE bm -> n <= max_blocks -> 1 <= off < n -> 1 <= i < n -> bit bm i = false ->
  (i - off) mod (n - 1) < Z.of_nat k ->
  exists r, scan_bits k bm off n = Some r /\ 1 <= r < n /\ bit bm r = false.
Proof.
  intros Hbm Hn Hoff Hi Hb. revert off Hoff. induction k as [|k IH]; intros off Hoff Hk.
  { pose proof (Z.mod_pos_bound (i - off) (n - 1)). lia. }
  simpl. destruct (test_bit_spec BP_BITMAP_SIZE bm off) as (v & -> & Hv); [done|unfold max_blocks in *; lia|].
  simpl. rewrite Hv. destruct (bit bm off) eqn:E; simpl; [|by exists off].
  assert (i <> off) by congruence.
  assert ((i - off) mod (n - 1) <> 0) as Hnz.
  { intros H0. apply Z.mod_divide in H0; [|lia]. destruct H0 as [q Hq]. destruct (Z.lt_trichotomy q 0) as [|[->|]]; nia. }
  apply IH.
  - destruct (Z.eqb_spec (off + 1) n); lia.
  - pose proof (Z.mod_pos_bound (i - off) (n - 1)).
    assert ((i - (if off + 1 =? n then 1 else off + 1)) mod (n - 1) = (i - off) mod (n - 1) - 1); [|lia].
    destruct (Z.eqb_spec (off + 1) n).
    + rewrite <- (Z.mod_small ((i - off) mod (n - 1) - 1) (n - 1)) by lia.
      rewrite Zminus_mod_idemp_l. replace (i - off - 1) with (i - 1 + (-1) * (n - 1)) by lia.
      by rewrite Z_mod_plus_full.
    + rewrite <- (Z.mod_small ((i - off) mod (n - 1) - 1) (n - 1)) by lia.
      rewrite Zminus_mod_idemp_l. f_equal. lia.
Qed.

Lemma free_bits_pos bm n : free_bits bm n <> 0 -> exists i, 0 <= i < n /\ bit bm i = false.
Proof.
  intros Hf. destruct (decide (Exists (fun i => bit bm i = false) (range 0 n))) as [He|Hne].
  - apply Exists_exists in He as (i & Hi & Hb). apply elem_of_range in Hi. by exists i.
  - exfalso. apply Hf. unfold free_bits. rewrite (Zcount_ext _ (fun _ => false)).
    + unfold Zcount. rewrite Zsum_const. lia.
    + intros x Hx. destruct (bit bm x) eqn:E; [done|]. exfalso. apply Hne, Exists_exists. eauto.
Qed.

(** Setting a bit that was clear, and the reverse. *)
Lemma free_bits_update bm bm' n b :
  0 <= b < n -> (forall i, 0 <= i < n -> i <> b -> bit bm' i = bit bm i) -> bit bm' b = negb (bit bm b) ->
  free_bits bm' n = free_bits bm n + if bit bm b then 1 else -1.
Proof.
  intros Hb Ho Hn. unfold free_bits, Zcount.
  set (g := fun i => if (0 <=? i) && (i <? n) then (if negb (bit bm' i) then 1 else 0) else (if negb (bit bm i) then 1 else 0)).
  rewrite (Zsum_ext _ g (range 0 n)).
  - rewrite (Zsum_update (fun x => if negb (bit bm x) then 1 else 0) g _ b).
    + unfold g at 1. replace ((0 <=? b) && (b <? n)) with true by zbool. rewrite Hn.
      destruct (bit bm b); simpl; lia.
    + apply NoDup_range.
    + by apply elem_of_range.
    + intros y Hy. unfold g. destruct ((0 <=? y) && (y <? n)) eqn:E; [|done].
      apply andb_true_iff in E as [?%Z.leb_le ?%Z.ltb_lt]. by rewrite Ho by lia.
  - intros x Hx%elem_of_range. unfold g. by replace ((0 <=? x) && (x <? n)) with true by zbool.
Qed.

Lemma free_bits_snoc bm n : 0 <= n -> free_bits bm (n + 1) = free_bits bm n + if bit bm n then 0 else 1.
Proof.
  intros. unfold free_bits, Zcount, range. rewrite !Z.sub_0_r.
  rewrite (seqZ_app 0 n 1) by lia. rewrite Zsum_app. cbn [seqZ].
  change (seqZ (0 + n) 1) with [Z.of_nat 0 + (0 + n)]. cbn [Zsum foldr].
  replace (Z.of_nat 0 + (0 + n)) with n by lia. destruct (bit bm n); simpl; lia.
Qed.

(** ** Allocation and release *)
Section ops.
Context {D : Type} `{BlockMap D}.
Implicit Types s : tree D.

(** The device has room: nvfuse_get_block succeeds. *)
Definition has_space : Prop := forall b (d : D), exists d', get_block b d = Some (0, d').

(** What an operation of the allocator leaves alone. *)
Definition same_rest s s' : Prop :=
  m_stack s' = m_stack s /\ m_size s' = m_size s /\ m_key_count s' = m_key_count s /\
  m_root (m_ondisk s') = m_root (m_ondisk s).

Lemma read_master_0 b (Q : ondisk -> tree D -> Prop) s :
  0 <= b < BP_NODES_PER_MASTER -> Q (m_ondisk s) s ->
  wp (bp_read_master_ctx (b / BP_NODES_PER_MASTER)) Q s.
Proof. intros Hb HQ. rewrite Z.div_small by done. exact HQ. Qed.

Lemma in_master b : 0 <= b < max_blocks -> 0 <= b < BP_NODES_PER_MASTER.
Proof. rewrite max_blocks_eq, nodes_per_master_eq. lia. Qed.

Lemma set_bitmap_wp b s (Q : unit -> tree D -> Prop) :
  0 <= b < max_blocks -> wf_block BP_BITMAP_SIZE (bitmap (m_ondisk s)) ->
  1 <= m_bitmap_free (m_ondisk s) ->
  (forall bm, wf_block BP_BITMAP_SIZE bm ->
     (forall j, 0 <= j -> bit bm j = if decide (j = b) then true else bit (bitmap (m_ondisk s)) j) ->
     Q tt (set_ondisk (fun od => set_bits od (m_bitmap_free od - 1) bm) s)) ->
  wp (bp_set_bitmap b) Q s.
Proof.
  intros Hb Hwf Hfree HQ. unfold bp_set_bitmap. wp_step. apply read_master_0; [by apply in_master|].
  rewrite (Z.mod_small b) by by apply in_master.
  destruct (set_bit_spec _ _ b Hwf Hb) as (v & bm & E & Hwf' & _ & Hbits).
  rewrite E. wp_steps. apply wp_lift with (v, bm); [done|]. wp_steps.
  apply wp_assert; [apply Z.leb_le; lia|]. by apply HQ.
Qed.

Lemma clear_bitmap_wp b s (Q : unit -> tree D -> Prop) :
  0 <= b < max_blocks -> wf_block BP_BITMAP_SIZE (bitmap (m_ondisk s)) ->
  bit (bitmap (m_ondisk s)) b = true -> m_bitmap_free (m_ondisk s) < BP_NODES_PER_MASTER ->
  (forall bm, wf_block BP_BITMAP_SIZE bm ->
     (forall j, 0 <= j -> bit bm j = if decide (j = b) then false else bit (bitmap (m_ondisk s)) j) ->
     Q tt (set_ondisk (fun od => set_bits od (m_bitmap_free od + 1) bm) s)) ->
  wp (bp_clear_bitmap b) Q s.
Proof.
  intros Hb Hwf Hset Hfree HQ. unfold bp_clear_bitmap. wp_step. apply read_master_0; [by apply in_master|].
  rewrite (Z.mod_small b) by by apply in_master.
  destruct (test_bit_spec _ _ b Hwf Hb) as (t & E & Ht).
  wp_step. apply wp_lift with t; [done|]. wp_step. apply wp_assert; [by rewrite Ht, Hset|].
  destruct (clear_bit_spec _ _ b Hwf Hb) as (v & bm & E' & Hwf' & _ & Hbits).
  rewrite E'. wp_steps. apply wp_lift with (v, bm); [done|]. wp_steps.
  apply wp_assert; [apply Z.leb_le; lia|]. by apply HQ.
Qed.

Lemma on_dev_wp b s (Q : Z -> tree D -> Prop) :
  has_space -> (forall d, Q 0 (set_dev d s)) -> wp (on_dev (get_block b)) Q s.
Proof.
  intros Hsp HQ. destruct (Hsp b (m_dev s)) as [d Hd]. unfold wp, on_dev. rewrite Hd. apply HQ.
Qed.

(** The block [b] that was chosen is marked, cleared and counted. *)
Lemma take_block_wp n b u s (Q : Z -> tree D -> Prop) :
  has_space -> m_isize s = n * CLUSTER_SIZE -> 1 <= n <= max_blocks ->
  wf_block BP_BITMAP_SIZE (bitmap (m_ondisk s)) ->
  (forall i, 0 <= i < max_blocks -> bit (bitmap (m_ondisk s)) i = bool_decide (i = 0 \/ i ∈ u)) ->
  (forall o, o ∈ u -> 0 < o < n) -> 0 < b < n -> b ∉ u ->
  m_bitmap_free (m_ondisk s) = free_bits (bitmap (m_ondisk s)) n ->
  m_dealloc_block (m_ondisk s) = free_bits (bitmap (m_ondisk s)) n - 1 ->
  m_last_allocated_sub_master (m_ondisk s) = 0 ->
  0 <= m_last_allocated_sub_offset (m_ondisk s) < Z.max 2 n ->
  (forall s', alloc_ok n (m_ondisk s') (m_isize s') (b :: u) -> same_rest s s' ->
     m_pages s' = <[b := fresh_page]> (m_pages s) -> Q b s') ->
  wp (take_block b) Q s.
Proof.
  intros Hsp Hsz Hn Hwf Hbits Hu Hb Hbu Hf Hd Hl Ho HQ. unfold take_block.
  assert (bit (bitmap (m_ondisk s)) b = false) as Hclr
    by (rewrite Hbits by lia; apply bool_decide_eq_false_2; intros [?|?]; [lia|done]).
  assert (1 <= m_bitmap_free (m_ondisk s)) as Hpos.
  { rewrite Hf. apply Zcount_pos with b; [apply elem_of_range; lia|]. by rewrite Hclr. }
  wp_step. apply on_dev_wp; [done|]. intros d. simpl. wp_steps.
  unfold bp_test_bitmap. wp_step. apply read_master_0; [apply in_master; lia|].
  rewrite (Z.mod_small b) by (apply in_master; lia).
  destruct (test_bit_spec _ _ b Hwf) as (t & E & Ht); [unfold max_blocks in *; lia|].
  cbn. apply wp_lift with t; [done|]. wp_step. apply wp_assert; [by rewrite Ht, Hclr|].
  wp_step. apply set_bitmap_wp; [lia|done|done|]. intros bm Hwf' Hb'. unfold count_blocks. wp_steps.
  apply wp_assert; [apply negb_true_iff, Z.eqb_neq; lia|]. wp_steps.
  apply HQ; [|done|done]. cbn.
  assert (free_bits bm n = free_bits (bitmap (m_ondisk s)) n - 1) as Hfb.
  { rewrite (free_bits_update (bitmap (m_ondisk s)) bm n b) by
      (first [lia | intros i Hi Hne; rewrite Hb' by lia; by rewrite decide_False
             | rewrite Hb' by lia; by rewrite decide_True, Hclr]). rewrite Hclr. lia. }
  constructor; cbn; try done; try lia.
  - intros i Hi. rewrite Hb' by lia. case_decide as Ei.
    + symmetry. apply bool_decide_eq_true_2. right. rewrite Ei. apply elem_of_cons. by left.
    + rewrite Hbits by done. apply bool_decide_ext. rewrite elem_of_cons. naive_solver.
  - intros o [->|Hin]%elem_of_cons; [done|by apply Hu].
Qed.

(** src/nvfuse_bp_tree.c: bp_alloc_bitmap gives a block that is not in use. *)
Lemma alloc_bitmap_wp n u s (Q : Z -> tree D -> Prop) :
  has_space -> alloc_ok n (m_ondisk s) (m_isize s) u -> n < max_blocks ->
  (forall b n' s', alloc_ok n' (m_ondisk s') (m_isize s') (b :: u) -> n <= n' <= n + 1 ->
     0 < b < n' -> b ∉ u -> same_rest s s' ->
     m_pages s' = <[b := fresh_page]> (m_pages s) -> Q b s') ->
  wp bp_alloc_bitmap Q s.
Proof.
  intros Hsp [Hsz Hn Hwf Hbits Hu Hf Hd Hl Ho] Hlt HQ. unfold bp_alloc_bitmap. wp_steps.
  assert (NVFUSE_SIZE_TO_BLK (m_isize s) = n) as Hblk by (rewrite Hsz; apply size_to_blk; lia).
  destruct (Z.eqb_spec (m_dealloc_block (m_ondisk s)) 0) as [E|E]; simpl.
  - (* a new block at the end of the file *)
    wp_steps. change (negb (0 =? 0)) with false. cbv iota. wp_steps. rewrite Hblk, Z.mod_small by (apply in_master; lia).
    destruct (Z.eqb_spec n 0); [lia|]. wp_steps. unfold bp_inc_free_bitmap. wp_step.
    apply read_master_0; [apply in_master; lia|]. wp_steps.
    assert (m_bitmap_free (m_ondisk s) = 0) as Hf0 by lia.
    apply wp_assert; [rewrite Hf0, nodes_per_master_eq; done|]. unfold grow_file. wp_steps.
    apply wp_assert.
    { cbn. rewrite Hsz. apply Z.ltb_lt. unfold MAX_FILE_SIZE, CLUSTER_SIZE. rewrite max_blocks_eq in *. lia. }
    wp_steps.
    assert (bit (bitmap (m_ondisk s)) n = false) as Hbn.
    { rewrite Hbits by lia. apply bool_decide_eq_false_2. intros [?|Hin]; [lia|]. apply Hu in Hin. lia. }
    assert (free_bits (bitmap (m_ondisk s)) (n + 1) = 1) as Hfb
      by (rewrite free_bits_snoc, Hbn by lia; lia).
    eapply take_block_wp with (n := n + 1) (u := u); cbn; try done; try lia.
    + intros o Hin. apply Hu in Hin. lia.
    + intros Hin. apply Hu in Hin. lia.
    + intros s' Hok Hs Hp. eapply HQ; try done; [lia..|]. intros Hin. apply Hu in Hin. lia.
  - (* a block that was released *)
    destruct (free_bits_pos (bitmap (m_ondisk s)) n) as (i & Hi & Hbi); [congruence|].
    assert (i <> 0) by (intros ->; rewrite Hbits in Hbi by lia; apply bool_decide_eq_false in Hbi; tauto).
    set (lo := if m_last_allocated_sub_offset (m_ondisk s) =? 0 then 1 else m_last_allocated_sub_offset (m_ondisk s)).
    assert (1 <= lo < n) by (unfold lo; zbool).
    destruct (scan_bits_spec (bitmap (m_ondisk s)) (Z.to_nat (n - 1)) lo n i) as (b & Hb & Hbr & Hbb);
      [done|lia|lia|lia|done|pose proof (Z.mod_pos_bound (i - lo) (n - 1)); lia|].
    unfold bp_scan_bitmap. wp_steps. fold lo. rewrite Hblk.
    replace ((n + BP_NODES_PER_MASTER - 1) / BP_NODES_PER_MASTER) with 1
      by (rewrite nodes_per_master_eq, max_blocks_eq in *; dmlia).
    rewrite Hl. change (Z.to_nat 1) with 1%nat. cbn [scan_masters]. wp_step.
    unfold bp_read_master_ctx. cbn [Z.eqb]. wp_steps. rewrite Hf. destruct (Z.eqb_spec (free_bits (bitmap (m_ondisk s)) n) 0); [lia|].
    cbn [negb]. change (0 + 1 =? 1) with true. rewrite Z.mod_small by (apply in_master; lia).
    apply wp_lift with b; [done|].
    rewrite Z.mod_small by (apply in_master; lia). destruct (Z.eqb_spec b 0); [lia|]. cbn [negb].
    wp_steps. rewrite Z.mul_0_l, Z.add_0_l.
    destruct (Z.eqb_spec b 0); [lia|]. cbn [negb]. unfold count_blocks. wp_steps.
    assert (b ∉ u) by (rewrite Hbits in Hbb by lia; apply bool_decide_eq_false in Hbb; tauto).
    eapply take_block_wp with (n := n) (u := u); cbn; try done; try lia.
    intros s' Hok Hs Hp. eapply HQ; try done; lia.
Qed.

(** src/nvfuse_bp_tree.c: bp_dealloc_bitmap *)
Lemma dealloc_wp n u u' nd s (Q : node -> tree D -> Prop) :
  alloc_ok n (m_ondisk s) (m_isize s) u -> off nd ∈ u ->
  (forall x, x ∈ u' <-> x ∈ u /\ x <> off nd) ->
  (forall s', alloc_ok n (m_ondisk s') (m_isize s') u' -> same_rest s s' -> m_pages s' = m_pages s ->
     Q (on_hdr (set_status INDEX_NODE_FREE) nd) s') ->
  wp (bp_dealloc_bitmap nd) Q s.
Proof.
  intros [Hsz Hn Hwf Hbits Hu Hf Hd Hl Ho] Hin Hu' HQ. unfold bp_dealloc_bitmap, count_blocks.
  pose proof (Hu _ Hin). wp_steps.
  assert (bit (bitmap (m_ondisk s)) (off nd) = true) as Hset
    by (rewrite Hbits by lia; apply bool_decide_eq_true_2; by right).
  apply clear_bitmap_wp; cbn; [lia|done|done| |].
  { rewrite Hf, nodes_per_master_eq. pose proof (Zcount_bounds (fun i => negb (bit (bitmap (m_ondisk s)) i)) (range 0 n)) as Hc.
    rewrite length_range in Hc by lia. unfold free_bits. rewrite max_blocks_eq in *. lia. }
  intros bm Hwf' Hb'. wp_steps. apply HQ; [|done|done]. cbn.
  assert (free_bits bm n = free_bits (bitmap (m_ondisk s)) n + 1) as Hfb.
  { rewrite (free_bits_update (bitmap (m_ondisk s)) bm n (off nd)) by
      (first [lia | intros i Hi Hne; rewrite Hb' by lia; by rewrite decide_False
             | rewrite Hb' by lia; by rewrite decide_True, Hset]). rewrite Hset. lia. }
  constructor; cbn; try done; try lia.
  - intros i Hi. rewrite Hb' by lia. case_decide as Ei.
    + symmetry. apply bool_decide_eq_false_2. rewrite Hu'. intros [?|[??]]; [lia|done].
    + rewrite Hbits by done. apply bool_decide_ext. rewrite Hu'. naive_solver.
  - intros o Ho'. apply Hu. by apply Hu'.
Qed.

End ops.
End BpAlloc.
