(* ===== verification/BpTreeSpec.v ===== *)
(** * The B+tree as an abstract tree, and the map it stands for

    [bt] is the tree without its blocks.  [shape] says that it is a search tree
    of uniform height: key j of an inner node bounds child j, the last key is
    only a hint.  [holds] says that the blocks of the file hold the nodes of
    the tree, [chain] that the leaves are linked from left to right, and
    [bt_inv] puts these together with the block bitmap.  A position in the tree
    is a [path] of frames, the innermost first. *)
From stdpp Require Import sorting.
From S2P Require Import Prelude Bitmap Arr BpTree BpTreeOps BpPairs.
Import Arr BpTree BpTreeOps BpPairs BpAlloc.

Module BpTreeSpec.

Definition KEY_MAX : Z := 2 ^ 64 - 1.

Inductive bt := Leaf (o : Z) (es : list (Z * Z)) | Node (o : Z) (cs : list (Z * bt)).

Definition toff (t : bt) : Z := match t with Leaf o _ | Node o _ => o end.

(** What the block of a node holds: entries, or keys with child blocks. *)
Inductive data := DLeaf (es : list (Z * Z)) | DNode (ks : list (Z * Z)).

Definition kos (cs : list (Z * bt)) : list (Z * Z) := prod_map id toff <$> cs.

Fixpoint nodes (t : bt) : list (Z * data) :=
  match t with
  | Leaf o es => [(o, DLeaf es)]
  | Node o cs => (o, DNode (kos cs)) :: concat (map (fun c => nodes c.2) cs)
  end.
Fixpoint ents (t : bt) : list (Z * Z) :=
  match t with Leaf _ es => es | Node _ cs => concat (map (fun c => ents c.2) cs) end.
Fixpoint leaves (t : bt) : list Z :=
  match t with Leaf o _ => [o] | Node _ cs => concat (map (fun c => leaves c.2) cs) end.

(** A list-valued function of subtrees collected over children. *)
Definition cmap {A} (f : bt -> list A) (cs : list (Z * bt)) : list A := concat (map (fun c => f c.2) cs).

(** ** Search tree shape *)

Fixpoint kids (P : Z -> Z -> bt -> Prop) (lo hi : Z) (cs : list (Z * bt)) : Prop :=
  match cs with
  | [] => False
  | (k, t) :: cs =>
      lo < k /\ match cs with [] => k <= hi /\ P lo hi t | _ => P lo k t /\ kids P k hi cs end
  end.

Fixpoint shape (h : nat) (lo hi : Z) (t : bt) : Prop :=
  match h, t with
  | O, Leaf _ es => StronglySorted plt es /\ Forall (fun p => lo < p.1 <= hi) es
  | S h, Node _ cs => (2 <= length cs)%nat /\ kids (shape h) lo hi cs
  | _, _ => False
  end.

(** Children that end at the bound [m]. *)
Fixpoint lkids (P : Z -> Z -> bt -> Prop) (lo m : Z) (cs : list (Z * bt)) : Prop :=
  match cs with
  | [] => m = lo
  | (k, t) :: cs => lo < k /\ P lo k t /\ lkids P k m cs
  end.

(** ** The blocks *)

Definition page_ok (r o : Z) (d : data) (pg : page) : Prop :=
  i_root (p_hdr pg) = (if o =? r then 1 else 0) /\ i_offset (p_hdr pg) = o /\
  match d with
  | DLeaf es =>
      i_flag (p_hdr pg) = 1 /\ i_num (p_hdr pg) = Z.of_nat (length es) /\
      exists z, Z.of_nat (length es + z) = FANOUT /\ i_pair pg = mk (es ++ replicate z (0, 0))
  | DNode ks =>
      i_flag (p_hdr pg) = 0 /\ i_num (p_hdr pg) = Z.of_nat (length ks) - 1 /\
      exists rest, Z.of_nat (length (ks ++ rest)) = FANOUT /\ i_pair pg = mk (ks ++ rest)
  end.

Definition holds (r : Z) (P : gmap Z page) (l : list (Z * data)) : Prop :=
  Forall (fun od => exists pg, P !! od.1 = Some pg /\ page_ok r od.1 od.2 pg) l.

Fixpoint chain (P : gmap Z page) (prev : Z) (ls : list Z) : Prop :=
  match ls with
  | [] => True
  | o :: ls =>
      (exists pg, P !! o = Some pg /\ i_prev_node (p_hdr pg) = prev /\ i_next_node (p_hdr pg) = hd 0 ls) /\
      chain P o ls
  end.

Record bt_inv {D} (s : tree D) (n : Z) (h : nat) (t : bt) : Prop := {
  bi_shape : shape h 0 KEY_MAX t;
  bi_root : toff t = m_root (m_ondisk s);
  bi_holds : holds (m_root (m_ondisk s)) (m_pages s) (nodes t);
  bi_nodup : NoDup (nodes t).*1;
  bi_chain : chain (m_pages s) 0 (leaves t);
  bi_alloc : alloc_ok n (m_ondisk s) (m_isize s) (nodes t).*1;
  bi_stack : m_stack s = [] }.

(** The map that the tree stands for. *)
Definition bt_map (t : bt) : gmap Z Z := list_to_map (ents t).

(** ** Paths *)

Record frame := mk_frame { f_off : Z; f_left : list (Z * bt); f_key : Z; f_right : list (Z * bt) }.

Definition fill (f : frame) (t : bt) : bt := Node (f_off f) (f_left f ++ (f_key f, t) :: f_right f).
Fixpoint plug (p : list frame) (t : bt) : bt :=
  match p with [] => t | f :: p => plug p (fill f t) end.

Fixpoint fnodes (p : list frame) (c : Z) : list (Z * data) :=
  match p with
  | [] => []
  | f :: p => (f_off f, DNode (kos (f_left f) ++ (f_key f, c) :: kos (f_right f)))
              :: cmap nodes (f_left f) ++ cmap nodes (f_right f) ++ fnodes p (f_off f)
  end.
Fixpoint pre {A} (g : bt -> list A) (p : list frame) : list A :=
  match p with [] => [] | f :: p => pre g p ++ cmap g (f_left f) end.
Fixpoint post {A} (g : bt -> list A) (p : list frame) : list A :=
  match p with [] => [] | f :: p => cmap g (f_right f) ++ post g p end.

(** The part of the shape that a path contributes: a subtree of height [h] with
    keys in (lo, hi] fits into it. *)
Inductive ctx : list frame -> nat -> Z -> Z -> Prop :=
  | ctx_top h : ctx [] h 0 KEY_MAX
  | ctx_in f p h lo hi m :
      ctx p (S h) lo hi -> lkids (shape h) lo m (f_left f) -> m < f_key f ->
      (1 <= length (f_left f ++ f_right f))%nat ->
      match f_right f with [] => f_key f <= hi | _ => kids (shape h) (f_key f) hi (f_right f) end ->
      ctx (f :: p) h m (match f_right f with [] => hi | _ => f_key f end).

(** ** Lemmas on children *)

Lemma cmap_app {A} (f : bt -> list A) l1 l2 : cmap f (l1 ++ l2) = cmap f l1 ++ cmap f l2.
Proof. unfold cmap. by rewrite map_app, concat_app. Qed.
Lemma cmap_cons {A} (f : bt -> list A) k t l : cmap f ((k, t) :: l) = f t ++ cmap f l.
Proof. done. Qed.
Lemma nodes_node o cs : nodes (Node o cs) = (o, DNode (kos cs)) :: cmap nodes cs.
Proof. done. Qed.
Lemma kos_app l1 l2 : kos (l1 ++ l2) = kos l1 ++ kos l2.
Proof. apply fmap_app. Qed.
Lemma length_kos l : length (kos l) = length l.
Proof. apply length_fmap. Qed.

Lemma kids_ne P lo hi cs : kids P lo hi cs -> cs <> [].
Proof. by destruct cs. Qed.

Lemma kids_app P lo hi l r :
  r <> [] -> kids P lo hi (l ++ r) <-> exists m, lkids P lo m l /\ kids P m hi r.
Proof.
  intros Hr. revert lo. induction l as [|[k t] l IH]; intros lo.
  - simpl. split; [intros; by exists lo | by intros (m & -> & ?)].
  - cbn [app kids lkids]. destruct (l ++ r) as [|c cs] eqn:E.
    { apply app_eq_nil in E as [_ ->]. done. }
    rewrite IH. naive_solver.
Qed.

Lemma lkids_app P lo m l r : lkids P lo m (l ++ r) <-> exists m', lkids P lo m' l /\ lkids P m' m r.
Proof.
  revert lo. induction l as [|[k t] l IH]; intros lo; simpl.
  - split; [intros; by exists lo | by intros (m' & -> & ?)].
  - rewrite IH. naive_solver.
Qed.

Lemma lkids_le (P : Z -> Z -> bt -> Prop) lo m l : lkids P lo m l -> lo <= m.
Proof.
  revert lo. induction l as [|[k t] l IH]; intros lo; simpl; [lia|].
  intros (? & _ & H%IH). lia.
Qed.

Lemma kids_lt P lo hi cs : kids P lo hi cs -> lo < hi.
Proof.
  revert lo. induction cs as [|[k t] cs IH]; intros lo; simpl; [done|].
  intros [Hk H]. destruct cs as [|c cs]; [lia|]. destruct H as [_ H%IH]. lia.
Qed.

(** ** Lemmas on paths *)

Lemma nodes_plug p : forall t, nodes (plug p t) ≡ₚ nodes t ++ fnodes p (toff t).
Proof.
  induction p as [|f p IH]; intros t; simpl; [by rewrite app_nil_r|].
  rewrite IH. unfold fill. rewrite nodes_node, kos_app, cmap_app, cmap_cons. cbn [kos fmap list_fmap toff].
  change (prod_map id toff (f_key f, t)) with (f_key f, toff t).
  rewrite <- !app_comm_cons. etrans; [|apply Permutation_middle]. constructor.
  rewrite <- !app_assoc. apply Permutation_app_swap_app.
Qed.

Lemma ents_plug p : forall t, ents (plug p t) = pre ents p ++ ents t ++ post ents p.
Proof.
  induction p as [|f p IH]; intros t; simpl; [by rewrite app_nil_r|].
  rewrite IH. change (ents (fill f t)) with (cmap ents (f_left f ++ (f_key f, t) :: f_right f)).
  rewrite cmap_app, cmap_cons. by rewrite <- !app_assoc.
Qed.

Lemma leaves_plug p : forall t, leaves (plug p t) = pre leaves p ++ leaves t ++ post leaves p.
Proof.
  induction p as [|f p IH]; intros t; simpl; [by rewrite app_nil_r|].
  rewrite IH. change (leaves (fill f t)) with (cmap leaves (f_left f ++ (f_key f, t) :: f_right f)).
  rewrite cmap_app, cmap_cons. by rewrite <- !app_assoc.
Qed.

Lemma toff_plug p t t' : toff t = toff t' -> toff (plug p t) = toff (plug p t').
Proof. revert t t'. induction p as [|f p IH]; intros t t' E; simpl; [done|]. by apply IH. Qed.

Lemma kids_fill h lo hi m f t :
  lkids (shape h) lo m (f_left f) -> m < f_key f ->
  match f_right f with [] => f_key f <= hi | _ => kids (shape h) (f_key f) hi (f_right f) end ->
  shape h m (match f_right f with [] => hi | _ => f_key f end) t ->
  kids (shape h) lo hi (f_left f ++ (f_key f, t) :: f_right f).
Proof.
  intros Hl Hm Hr Ht. apply kids_app; [done|]. exists m. split; [done|]. simpl.
  split; [done|]. by destruct (f_right f).
Qed.

Lemma ctx_plug p h lo hi t :
  ctx p h lo hi -> shape h lo hi t -> shape (h + length p) 0 KEY_MAX (plug p t).
Proof.
  intros Hc. revert t. induction Hc as [h|f p h lo hi m Hc IH Hl Hm Hn Hr]; intros t Ht; simpl.
  - by rewrite Nat.add_0_r.
  - replace (h + S (length p))%nat with (S h + length p)%nat by lia. apply IH.
    simpl. split; [rewrite length_app in *; simpl; lia|]. by eapply kids_fill.
Qed.

(** Every position of a tree of the right shape is a path of the right shape. *)
Lemma ctx_step p h lo hi o l k t r :
  ctx p (S h) lo hi -> shape (S h) lo hi (Node o (l ++ (k, t) :: r)) ->
  exists m, ctx (mk_frame o l k r :: p) h m (match r with [] => hi | _ => k end) /\
            shape h m (match r with [] => hi | _ => k end) t /\ lkids (shape h) lo m l /\ m < k.
Proof.
  intros Hc [Hn Hk]. apply kids_app in Hk as (m & Hl & Hk); [|done]. simpl in Hk.
  destruct Hk as [Hm Hk]. exists m. split; [|split; [destruct r; tauto|done]].
  apply (ctx_in (mk_frame o l k r) p h lo hi m); simpl; try done.
  - rewrite length_app in *. simpl in *. lia.
  - destruct r; tauto.
Qed.

Lemma ctx_bounds p h lo hi : ctx p h lo hi -> 0 <= lo /\ hi <= KEY_MAX.
Proof.
  induction 1 as [h|f p h lo hi m Hc [IH1 IH2] Hl Hm Hn Hr]; [unfold KEY_MAX; lia|].
  apply lkids_le in Hl. split; [lia|]. destruct (f_right f) as [|c r] eqn:E; [done|].
  apply kids_lt in Hr. lia.
Qed.

(** ** Lemmas on blocks *)

Lemma holds_app r P l1 l2 : holds r P (l1 ++ l2) <-> holds r P l1 /\ holds r P l2.
Proof. apply Forall_app. Qed.
Lemma holds_perm r P l l' : l ≡ₚ l' -> holds r P l -> holds r P l'.
Proof. intros Hp. unfold holds. by rewrite Hp. Qed.

(** A block that is not among the nodes may change. *)
Lemma holds_insert r P l b pg : b ∉ l.*1 -> holds r P l -> holds r (<[b := pg]> P) l.
Proof.
  unfold holds. rewrite !Forall_forall. intros Hb H [o d] Hin. destruct (H _ Hin) as (pg' & Hp & Hok).
  exists pg'. split; [|done]. rewrite lookup_insert_ne; [done|]. intros ->. apply Hb.
  by apply (list_elem_of_fmap_2 fst) in Hin.
Qed.

(** The links may change. *)
Definition same_node (pg pg' : page) : Prop :=
  i_pair pg' = i_pair pg /\ i_root (p_hdr pg') = i_root (p_hdr pg) /\
  i_offset (p_hdr pg') = i_offset (p_hdr pg) /\ i_flag (p_hdr pg') = i_flag (p_hdr pg) /\
  i_num (p_hdr pg') = i_num (p_hdr pg).

Lemma holds_links r P l b pg pg' :
  P !! b = Some pg -> same_node pg pg' -> holds r P l -> holds r (<[b := pg']> P) l.
Proof.
  intros Hb (E1 & E2 & E3 & E4 & E5). unfold holds. rewrite !Forall_forall. intros H [o d] Hin.
  destruct (H _ Hin) as (pg0 & Hp & Hok). simpl in *. destruct (decide (o = b)) as [->|Hne].
  - simplify_eq. exists pg'. rewrite lookup_insert_eq. split; [done|].
    unfold page_ok in *. by rewrite E1, E2, E3, E4, E5.
  - exists pg0. by rewrite lookup_insert_ne.
Qed.

(** Only the root number matters for nodes that are not the root. *)
Lemma holds_root r r' P l : r ∉ l.*1 -> r' ∉ l.*1 -> holds r P l -> holds r' P l.
Proof.
  unfold holds. rewrite !Forall_forall. intros Hr Hr' H [o d] Hin. destruct (H _ Hin) as (pg & Hp & Hok).
  exists pg. split; [done|]. destruct Hok as (E1 & E2 & E3). split; [|done]. simpl in *.
  apply (list_elem_of_fmap_2 fst) in Hin. simpl in Hin. rewrite E1.
  destruct (Z.eqb_spec o r), (Z.eqb_spec o r'); congruence.
Qed.

Lemma last_shift (l : list Z) x d : List.last (x :: l) d = List.last l x.
Proof.
  revert x d. induction l as [|y l IH]; intros x d; [done|].
  change (List.last (y :: l) d = List.last (y :: l) x). by rewrite (IH y d), (IH y x).
Qed.

Lemma chain_app P prev l1 o l2 :
  chain P prev (l1 ++ o :: l2) ->
  exists pg, P !! o = Some pg /\ i_prev_node (p_hdr pg) = List.last l1 prev /\
             i_next_node (p_hdr pg) = hd 0 l2.
Proof.
  revert prev. induction l1 as [|x l1 IH]; intros prev; simpl.
  - by intros [H _].
  - intros [_ H]. apply IH in H as (pg & H1 & H2 & H3). exists pg. split; [done|]. split; [|done].
    rewrite H2. symmetry. apply last_shift.
Qed.

Lemma chain_ext P P' prev ls :
  (forall o, o ∈ ls -> P' !! o = P !! o) -> chain P prev ls -> chain P' prev ls.
Proof.
  revert prev. induction ls as [|o ls IH]; intros prev Heq; simpl; [done|]. intros [(pg & H1 & H2) H].
  split.
  - exists pg. rewrite Heq; [done|]. apply elem_of_cons. by left.
  - apply IH; [|done]. intros x Hx. apply Heq. apply elem_of_cons. by right.
Qed.

(** ** The entries are sorted *)

Lemma shape_ents h : forall lo hi t,
  shape h lo hi t -> StronglySorted plt (ents t) /\ Forall (fun p => lo < p.1 <= hi) (ents t).
Proof.
  induction h as [|h IH]; intros lo hi [o es|o cs]; simpl; try done.
  intros [_ Hk]. revert lo Hk. induction cs as [|[k t] cs IHc]; intros lo; simpl; [done|].
  intros [Hlo Hk]. destruct cs as [|c cs].
  - destruct Hk as [_ Hk]. simpl. rewrite app_nil_r. by apply IH.
  - destruct Hk as [[Hs Hf]%IH Hk]. pose proof (kids_lt _ _ _ _ Hk). apply IHc in Hk as [Hs' Hf'].
    change (StronglySorted plt (ents t ++ concat (map (fun c => ents c.2) (c :: cs))) /\
            Forall (fun p => lo < p.1 <= hi) (ents t ++ concat (map (fun c => ents c.2) (c :: cs)))).
    split.
    + apply sorted_app. split; [done|]. split; [done|]. eapply Forall_impl; [exact Hf|]. intros x Hx.
      eapply Forall_impl; [exact Hf'|]. unfold plt. intros; simpl in *; lia.
    + apply Forall_app. split; (eapply Forall_impl; [eassumption|]); simpl; intros; lia.
Qed.

Lemma lkids_ents h lo m l :
  lkids (shape h) lo m l -> Forall (fun p => lo < p.1 <= m) (cmap ents l).
Proof.
  revert lo. induction l as [|[k t] l IH]; intros lo; simpl; [constructor|].
  intros (Hlo & Ht & Hl). pose proof (lkids_le _ _ _ _ Hl). apply IH in Hl. apply shape_ents in Ht as [_ Ht].
  rewrite cmap_cons. apply Forall_app. split; (eapply Forall_impl; [eassumption|]); simpl; intros; lia.
Qed.

Lemma kids_ents h lo hi r :
  kids (shape h) lo hi r -> Forall (fun p => lo < p.1 <= hi) (cmap ents r).
Proof.
  revert lo. induction r as [|[k t] r IH]; intros lo; simpl; [constructor|].
  intros (Hlo & Hr). rewrite cmap_cons. destruct r as [|c r].
  - simpl. rewrite app_nil_r. destruct Hr as [_ Ht]. by apply shape_ents in Ht as [_ Ht].
  - destruct Hr as [Ht Hr]. pose proof (kids_lt _ _ _ _ Hr). apply IH in Hr. apply shape_ents in Ht as [_ Ht].
    apply Forall_app. split; (eapply Forall_impl; [eassumption|]); simpl; intros; lia.
Qed.

(** The entries left and right of a position lie outside its bounds. *)
Lemma ctx_ents p h lo hi :
  ctx p h lo hi -> Forall (fun e => e.1 <= lo) (pre ents p) /\ Forall (fun e => hi < e.1) (post ents p).
Proof.
  induction 1 as [h|f p h lo hi m Hc [IH1 IH2] Hl Hm Hn Hr]; simpl; [split; constructor|].
  pose proof (lkids_le _ _ _ _ Hl). split; apply Forall_app; split.
  - eapply Forall_impl; [exact IH1|]. simpl. intros; lia.
  - apply lkids_ents in Hl. eapply Forall_impl; [exact Hl|]. simpl. intros; lia.
  - destruct (f_right f) as [|c r]; [constructor|]. apply kids_ents in Hr.
    eapply Forall_impl; [exact Hr|]. simpl. intros; lia.
  - destruct (f_right f) as [|c r]; [done|]. apply kids_lt in Hr.
    eapply Forall_impl; [exact IH2|]. simpl. intros; lia.
Qed.

Lemma ctx_absent p lo hi key es o :
  ctx p 0 lo hi -> lo < key <= hi -> key ∉ es.*1 -> key ∉ (ents (plug p (Leaf o es))).*1.
Proof.
  intros Hc Hk Hn. rewrite ents_plug. simpl. rewrite !fmap_app, !elem_of_app.
  apply ctx_ents in Hc as [H1 H2]. rewrite Forall_forall in H1, H2.
  intros [(e & -> & He)%list_elem_of_fmap|[|(e & -> & He)%list_elem_of_fmap]]; [|done|].
  - specialize (H1 _ He). simpl in *. lia.
  - specialize (H2 _ He). simpl in *. lia.
Qed.

(** ** Size *)

Lemma shape_size h : forall lo hi t, shape h lo hi t -> (2 ^ h <= length (nodes t))%nat.
Proof.
  induction h as [|h IH]; intros lo hi [o es|o cs]; simpl; try done; try lia.
  intros [H2 Hk]. 
  assert (forall lo, kids (shape h) lo hi cs -> (length cs * 2 ^ h <= length (concat (map (fun c => nodes c.2) cs)))%nat) as Hc.
  { clear Hk lo H2. induction cs as [|[k t] cs IHc]; intros lo; simpl; [lia|]. intros [_ Hk].
    rewrite length_app. destruct cs as [|c cs].
    - destruct Hk as [_ Hk%IH]. simpl in *. lia.
    - destruct Hk as [Ht%IH Hk%IHc]. simpl in *. lia. }
  specialize (Hc _ Hk). nia.
Qed.

Lemma nodup_bound (l : list Z) N : NoDup l -> (forall x, x ∈ l -> 0 < x < N) -> 1 <= N -> Z.of_nat (length l) < N.
Proof.
  intros Hnd Hb HN. assert (l ⊆+ range 1 N) as Hs.
  { apply NoDup_submseteq; [done|]. intros x Hx. apply elem_of_range. specialize (Hb x Hx). lia. }
  apply submseteq_length in Hs. pose proof (length_range 1 N HN). lia.
Qed.

Lemma height_bound {D} (s : tree D) n h t : bt_inv s n h t -> (h <= 14)%nat.
Proof.
  intros Hi. destruct Hi as [Hs _ _ Hnd _ [_ Hn _ _ Hu _ _ _ _] _].
  apply shape_size in Hs. pose proof (nodup_bound _ n Hnd Hu ltac:(lia)) as Hl.
  rewrite length_fmap in Hl. rewrite max_blocks_eq in Hn.
  destruct (Nat.le_gt_cases h 14); [done|]. exfalso.
  assert (2 ^ 15 <= 2 ^ h)%nat by (apply Nat.pow_le_mono_r; lia).
  change (2 ^ 15)%nat with (Z.to_nat 32768) in *. lia.
Qed.

End BpTreeSpec.
