(* ===== verification/BpSearch.v ===== *)
(** * B+tree: lookup, and nodes being changed

    [BpSearch] is the descent and the lookup of a key; [BpWorld] says what the file
    holds while an operation changes some of its blocks. *)
From stdpp Require Import sorting.
From S2P Require Import Prelude Bitmap Arr BpTree BpTreeOps BpPairs BpTreeSpec.
Import Arr BpTree BpTreeOps BpPairs BpAlloc BpTreeSpec.

(** ** The descent in a B+tree and the lookup of a key *)
Module BpSearch.

(** ** The child that a key belongs to *)

Lemma kids_find P lo hi cs key :
  kids P lo hi cs -> lo < key <= hi ->
  exists l k t r m, cs = l ++ (k, t) :: r /\ lkids P lo m l /\ m < key /\ (r <> [] -> key <= k).
Proof.
  revert lo. induction cs as [|[k t] cs IH]; intros lo Hk Hkey; simpl in Hk; [done|].
  destruct Hk as [Hlo Hk]. destruct (Z.le_gt_cases key k) as [Hle|Hgt].
  - exists [], k, t, cs, lo. repeat split; simpl; lia.
  - destruct cs as [|c cs].
    { exists [], k, t, [], lo. repeat split; simpl; try lia. done. }
    destruct Hk as [HP Hk]. destruct (IH k Hk) as (l & k' & t' & r & m & E & Hl & Hm & Hr); [lia|].
    exists ((k, t) :: l), k', t', r, m. rewrite E. repeat split; simpl; auto.
Qed.

Lemma lkids_sorted P lo m l : lkids P lo m l -> StronglySorted plt (kos l) /\ Forall (fun p => lo < p.1 <= m) (kos l).
Proof.
  revert lo. induction l as [|[k t] l IH]; intros lo; simpl; [repeat constructor|].
  intros (Hk & _ & H). pose proof (lkids_le _ _ _ _ H). apply IH in H as [Hs Hf]. split.
  - apply sorted_cons. split; [done|]. eapply Forall_impl; [done|]. unfold plt. simpl. lia.
  - constructor; [simpl; lia|]. eapply Forall_impl; [done|]. simpl. lia.
Qed.

Lemma kids_sorted P lo hi cs : kids P lo hi cs -> StronglySorted plt (kos cs) /\ Forall (fun p => lo < p.1 <= hi) (kos cs).
Proof.
  revert lo. induction cs as [|[k t] cs IH]; intros lo; simpl; [done|]. intros [Hk H].
  destruct cs as [|c cs]; [split; repeat constructor; simpl; lia|]. destruct H as [_ H].
  pose proof (kids_lt _ _ _ _ H). apply IH in H as [Hs Hf]. split.
  - apply sorted_cons. split; [done|]. eapply Forall_impl; [done|]. unfold plt. simpl. lia.
  - constructor; [simpl; lia|]. eapply Forall_impl; [done|]. simpl. lia.
Qed.

Lemma get_key_at ks rest i k v : ks !! i = Some (k, v) -> aget (i_key (mk (ks ++ rest))) (Z.of_nat i) = Some k.
Proof.
  intros Hi. rewrite <- (take_drop_middle ks i _ Hi), <- app_assoc. simpl. apply get_key.
  apply lookup_lt_Some in Hi. rewrite length_take. lia.
Qed.

(** bp_bin_search with bp_compare_index_node finds the child [length l]. *)
Lemma index_search l k v r rest key :
  StronglySorted plt (l ++ (k, v) :: r) -> Forall (fun p => p.1 < key) l -> key <= k ->
  bp_bin_search (i_key (mk ((l ++ (k, v) :: r) ++ rest))) (Z.of_nat (length (l ++ (k, v) :: r)) - 1)
    (bp_compare_index_node (i_key (mk ((l ++ (k, v) :: r) ++ rest))) key) = Some (Z.of_nat (length l)).
Proof.
  set (ks := l ++ (k, v) :: r). intros Hs Hl Hk.
  set (K := fun i => default 0 (fst <$> ks !! Z.to_nat i)).
  set (c := fun i => if ((i =? 0) || (K (i - 1) <? key)) && (key <=? K i) then 0 else key_compare key (K i)).
  assert (forall i, 0 <= i < Z.of_nat (length ks) -> aget (i_key (mk (ks ++ rest))) i = Some (K i)) as HK.
  { intros i Hi. assert (Z.to_nat i < length ks)%nat as [[a b] Ha]%lookup_lt_is_Some by lia.
    unfold K. rewrite Ha. simpl. rewrite <- (Z2Nat.id i) by lia. by eapply get_key_at. }
  assert (forall i j, 0 <= i < j -> j < Z.of_nat (length ks) -> K i < K j) as HKlt.
  { intros i j Hi Hj.
    assert (Z.to_nat i < length ks)%nat as [[a b] Ha]%lookup_lt_is_Some by lia.
    assert (Z.to_nat j < length ks)%nat as [[a' b'] Hb]%lookup_lt_is_Some by lia.
    unfold K. rewrite Ha, Hb. simpl. eapply (sorted_keys_lt _ _ _ _ _ Hs Ha Hb). lia. }
  assert (forall i, 0 <= i <= Z.of_nat (length ks) - 1 -> c i <= 0 -> key <= K i) as Hneg.
  { intros i Hi. unfold c, key_compare. zbool. }
  destruct (bin_search_spec (bp_compare_index_node (i_key (mk (ks ++ rest))) key) c (Z.of_nat (length ks) - 1))
    with (keys := i_key (mk (ks ++ rest))) as (j & Hj & Hres).
  - intros i Hi. unfold bp_compare_index_node. rewrite (HK i) by lia. simpl.
    destruct (Z.ltb_spec (i - 1) 0).
    + simpl. unfold c. replace (i =? 0) with true by (symmetry; apply Z.eqb_eq; lia). unfold key_compare. zbool.
    + rewrite (HK (i - 1)) by lia. simpl. rewrite key_compare_gt. unfold c.
      replace (i =? 0) with false by (symmetry; apply Z.eqb_neq; lia). unfold key_compare. zbool.
  - intros i j Hij Hj Hci. pose proof (Hneg i ltac:(lia) Hci).
    assert (K i <= K (j - 1)) by (destruct (Z.eq_dec i (j - 1)) as [->|]; [lia|]; pose proof (HKlt i (j - 1)); lia).
    pose proof (HKlt i j). unfold c, key_compare. zbool.
  - lia.
  - rewrite Hj. f_equal. assert (length l < length ks)%nat by (unfold ks; rewrite length_app; simpl; lia).
    assert (K (Z.of_nat (length l)) = k) as HKl.
    { unfold K, ks. rewrite Nat2Z.id, list_lookup_middle; done. }
    assert (c (Z.of_nat (length l)) = 0) as Hz.
    { unfold c. rewrite HKl. replace (key <=? k) with true by zbool. rewrite andb_true_r.
      destruct (Z.eqb_spec (Z.of_nat (length l)) 0); [done|]. simpl.
      assert (length l - 1 < length l)%nat as [[a b] Ha]%lookup_lt_is_Some by lia.
      replace (K (Z.of_nat (length l) - 1)) with a.
      - eapply Forall_lookup_1 in Hl; [|done]. simpl in Hl. by destruct (Z.ltb_spec a key); [|lia].
      - unfold K, ks. rewrite lookup_app_l by lia. replace (Z.to_nat (Z.of_nat (length l) - 1)) with (length l - 1)%nat by lia.
        by rewrite Ha. }
    destruct Hres as [[Hr Hc]|[-> Hno]]; [|exfalso; apply (Hno (Z.of_nat (length l))); [lia|done]].
    destruct (Z.lt_trichotomy j (Z.of_nat (length l))) as [Hlt|[->|Hgt]]; [|done|]; exfalso.
    + assert (key <= K j) by (apply Hneg; lia). pose proof (HKlt j (Z.of_nat (length l))).
      rewrite <- HKl in *. unfold c in Hz. 
      assert (key <= K (Z.of_nat (length l) - 1)).
      { destruct (Z.eq_dec j (Z.of_nat (length l) - 1)) as [<-|]; [done|].
        pose proof (HKlt j (Z.of_nat (length l) - 1)). lia. }
      revert Hz. unfold key_compare. zbool.
    + assert (key <= K (Z.of_nat (length l))) by (apply Hneg; lia).
      assert (K (Z.of_nat (length l)) <= K (j - 1)).
      { destruct (Z.eq_dec (Z.of_nat (length l)) (j - 1)) as [<-|]; [lia|].
        pose proof (HKlt (Z.of_nat (length l)) (j - 1)). lia. }
      pose proof (HKlt (Z.of_nat (length l)) j). revert Hc. unfold c, key_compare. zbool.
Qed.

(** ** Nodes in memory *)

(** A node that was read from block [o]. *)
Definition opened (P : gmap Z page) (o : Z) (nd : node) : Prop :=
  exists pg, P !! o = Some pg /\ nd = mk_node (p_hdr pg) (Some o).

(** Block numbers are small. *)
Definition offs_ok (l : list (Z * data)) : Prop := Forall (fun od => 0 < od.1 < max_blocks) l.

Lemma offs_ok_s32 x : 0 < x < max_blocks -> is_s32 x.
Proof. rewrite max_blocks_eq. unfold is_s32. lia. Qed.

Lemma s32_off x : 0 < x < max_blocks -> s32 x = x.
Proof. intros. apply s32_small, offs_ok_s32. done. Qed.

Lemma u32_off x : 0 < x < max_blocks -> u32 x = x.
Proof. rewrite max_blocks_eq. intros. apply u32_small. lia. Qed.

Lemma FANOUT_eq : FANOUT = 337.
Proof. reflexivity. Qed.

Section ops.
Context {D : Type} `{BlockMap D}.
Implicit Types s : tree D.

Lemma get_page_wp b pg s (Q : page -> tree D -> Prop) :
  m_pages s !! b = Some pg -> Q pg s -> wp (get_page b) Q s.
Proof. intros Hb HQ. unfold wp, get_page, mlift. by rewrite Hb. Qed.

Lemma load_pair_wp nd b pg s (Q : key_pair -> tree D -> Prop) :
  i_bh nd = Some b -> m_pages s !! b = Some pg -> Q (i_pair pg) s -> wp (load_pair nd) Q s.
Proof.
  intros Hn Hb HQ. unfold load_pair. rewrite Hn. wp_step. apply wp_lift with b; [done|].
  wp_step. eapply get_page_wp; [done|]. done.
Qed.

Lemma store_pair_wp nd b pg kp s (Q : unit -> tree D -> Prop) :
  i_bh nd = Some b -> m_pages s !! b = Some pg -> Q tt (set_page b (mk_page (p_hdr pg) kp) s) ->
  wp (store_pair nd kp) Q s.
Proof.
  intros Hn Hb HQ. unfold store_pair. rewrite Hn. wp_step. apply wp_lift with b; [done|].
  wp_step. eapply get_page_wp; [done|]. by wp_steps.
Qed.

Lemma update_pair_wp nd b pg f kp s (Q : unit -> tree D -> Prop) :
  i_bh nd = Some b -> m_pages s !! b = Some pg -> f (i_pair pg) = Some kp ->
  Q tt (set_page b (mk_page (p_hdr pg) kp) s) -> wp (update_pair nd f) Q s.
Proof.
  intros Hn Hb Hf HQ. unfold update_pair. wp_step. eapply load_pair_wp; [done..|].
  wp_step. eapply wp_lift; [done|]. by eapply store_pair_wp.
Qed.

Lemma key_get_wp nd b pg i k s (Q : Z -> tree D -> Prop) :
  i_bh nd = Some b -> m_pages s !! b = Some pg -> aget (i_key (i_pair pg)) i = Some k -> Q k s ->
  wp (B_KEY_GET nd i) Q s.
Proof.
  intros Hn Hb Hk HQ. unfold B_KEY_GET. wp_step. eapply load_pair_wp; [done..|]. by eapply wp_lift.
Qed.

Lemma item_get_wp nd b pg i k s (Q : Z -> tree D -> Prop) :
  i_bh nd = Some b -> m_pages s !! b = Some pg -> aget (i_item (i_pair pg)) i = Some k -> Q k s ->
  wp (B_ITEM_GET nd i) Q s.
Proof.
  intros Hn Hb Hk HQ. unfold B_ITEM_GET. wp_step. eapply load_pair_wp; [done..|]. by eapply wp_lift.
Qed.

Lemma page_ok_flag r o d pg : page_ok r o d pg -> flag_ok (p_hdr pg) = true.
Proof. intros (_ & _ & Hd). unfold flag_ok. destruct d; destruct Hd as (-> & _); done. Qed.

Lemma page_ok_off r o d pg : page_ok r o d pg -> i_offset (p_hdr pg) = o.
Proof. by intros (_ & -> & _). Qed.

Lemma read_node_wp nd b pg s (Q : node -> tree D -> Prop) :
  m_pages s !! b = Some pg -> flag_ok (p_hdr pg) = true -> i_offset (p_hdr pg) <> 0 ->
  Q (mk_node (p_hdr pg) (Some b)) s -> wp (bp_read_node nd b true) Q s.
Proof.
  intros Hb Hf Ho HQ. unfold bp_read_node. wp_step. eapply get_page_wp; [done|]. wp_steps.
  apply wp_assert; [done|]. wp_steps. apply wp_assert; [by apply negb_true_iff, Z.eqb_neq|].
  wp_steps. apply wp_assert; [done|]. by wp_steps.
Qed.

Lemma open_wp b pg s (Q : node -> tree D -> Prop) :
  m_pages s !! b = Some pg -> flag_ok (p_hdr pg) = true -> i_offset (p_hdr pg) <> 0 ->
  Q (mk_node (p_hdr pg) (Some b)) (add_size SIZEOF_KEY_PAIR (add_size SIZEOF_INDEX_NODE s)) ->
  wp (B_OPEN b) Q s.
Proof.
  intros Hb Hf Ho HQ. unfold B_OPEN, bp_alloc_node. wp_steps. by eapply read_node_wp.
Qed.

Lemma write_node_wp nd b pg s (Q : unit -> tree D -> Prop) :
  i_bh nd = Some b -> m_pages s !! b = Some pg -> flag_ok (n_hdr nd) = true ->
  Q tt (set_page b (mk_page (n_hdr nd) (i_pair pg)) s) -> wp (bp_write_node nd) Q s.
Proof.
  intros Hn Hb Hf HQ. unfold bp_write_node. rewrite Hn. wp_step. apply wp_lift with b; [done|].
  wp_steps. apply wp_assert; [done|]. wp_steps. eapply get_page_wp; [done|]. by wp_steps.
Qed.

Lemma push_wp v s (Q : unit -> tree D -> Prop) :
  (length (m_stack s) < 127)%nat -> Q tt (set_stack (v :: m_stack s) s) -> wp (stack_push v) Q s.
Proof.
  intros Hl HQ. unfold stack_push. wp_steps. apply wp_assert; [|done].
  apply negb_true_iff, Z.leb_gt. unfold MAX_STACK. lia.
Qed.

Lemma pop_wp v l s (Q : Z -> tree D -> Prop) :
  m_stack s = v :: l -> Q v (set_stack l s) -> wp stack_pop Q s.
Proof. intros Hl HQ. unfold stack_pop. wp_steps. rewrite Hl. by wp_steps. Qed.

(** ** One step down *)

Lemma next_node_wp r nd o pg lo hi P cs l k t rr key pgt s (Q : node -> tree D -> Prop) :
  m_pages s !! o = Some pg -> nd = mk_node (p_hdr pg) (Some o) -> page_ok r o (DNode (kos cs)) pg ->
  kids P lo hi cs -> (2 <= length cs)%nat -> cs = l ++ (k, t) :: rr ->
  Forall (fun p => p.1 < key) (kos l) -> (rr <> [] -> key <= k) ->
  m_pages s !! toff t = Some pgt -> flag_ok (p_hdr pgt) = true -> i_offset (p_hdr pgt) = toff t ->
  0 < toff t < max_blocks -> Q (mk_node (p_hdr pgt) (Some (toff t))) s ->
  wp (bp_next_node nd key) Q s.
Proof.
  intros Hp -> (_ & _ & Hf & Hn & rest & Hlen & Hpair) Hk H2 Hcs Hl Hr Ht Hft Hot Hto HQ.
  apply kids_sorted in Hk as [Hs _]. unfold bp_next_node, num. cbn [n_hdr]. rewrite Hn, length_kos.
  assert (kos cs = kos l ++ (k, toff t) :: kos rr) as Hkcs by (by rewrite Hcs, kos_app).
  assert (wp (bp_read_node (mk_node (p_hdr pg) (Some o)) (s32 (toff t)) true) Q s) as Hread
    by (rewrite s32_off by done; eapply read_node_wp; try done; lia).
  destruct rr as [|c rr].
  - (* the last child *)
    destruct l as [|[k0 t0] l0 _] using rev_ind; [subst cs; simpl in H2; lia|].
    assert (k0 < key) as Hk0 by (rewrite kos_app in Hl; apply Forall_app in Hl as [_ Hl]; by apply Forall_cons in Hl as [? _]).
    wp_step. eapply key_get_wp with (k := k0); [done|done| |].
    { rewrite Hpair, Hkcs, kos_app, <- !app_assoc. simpl. apply get_key.
      rewrite Hcs, !length_app, length_kos. simpl. lia. }
    rewrite key_compare_gt. replace (k0 <? key) with true by zbool.
    wp_step. eapply item_get_wp with (k := toff t); [done|done| |done].
    rewrite Hpair, Hkcs. simpl. rewrite <- app_assoc. simpl. apply get_item.
    rewrite Hcs, length_kos, !length_app. simpl. lia.
  - (* found by binary search *)
    specialize (Hr ltac:(done)).
    assert (exists kl tl, kos cs !! (length cs - 2)%nat = Some (kl, tl) /\ key <= kl) as (kl & tl & Hkl & Hle).
    { assert (length cs - 2 < length (kos cs))%nat as [[a b] Ha]%lookup_lt_is_Some by (rewrite length_kos; lia).
      exists a, b. split; [done|]. destruct (Nat.eq_dec (length l) (length cs - 2)) as [E|E].
      - rewrite <- E, <- (length_kos l), Hkcs, list_lookup_middle in Ha by done. simplify_eq. done.
      - assert (length l < length cs - 2)%nat.
        { rewrite Hcs, length_app in *. simpl in *. lia. }
        assert (kos cs !! length l = Some (k, toff t)) as Hm by (rewrite Hkcs; apply list_lookup_middle; by rewrite length_kos).
        pose proof (sorted_keys_lt _ _ _ _ _ Hs Hm Ha) as Hlt. simpl in Hlt. lia. }
    wp_step. eapply key_get_wp with (k := kl); [done|done| |].
    { rewrite Hpair. replace (Z.of_nat (length cs) - 1 - 1) with (Z.of_nat (length cs - 2)) by lia.
      by eapply get_key_at. }
    rewrite key_compare_gt. replace (kl <? key) with false by zbool.
    wp_step. wp_step. eapply load_pair_wp; [done|done|]. wp_step.
    rewrite Hpair, Hkcs. rewrite <- (length_kos cs), Hkcs.
    eapply wp_lift; [apply index_search; [by rewrite <- Hkcs|done|done]|].
    eapply item_get_wp with (k := toff t); [done|done| |done].
    rewrite Hpair, Hkcs, <- app_assoc. simpl. by apply get_item.
Qed.

(** ** The whole descent *)

Lemma holds_at r P o d l : holds r P l -> (o, d) ∈ l -> exists pg, P !! o = Some pg /\ page_ok r o d pg.
Proof. unfold holds. rewrite Forall_forall. intros H0 Hin. apply (H0 _ Hin). Qed.

Lemma nodes_top t : exists d, (toff t, d) ∈ nodes t.
Proof. destruct t; simpl; eexists; apply elem_of_cons; by left. Qed.

Lemma traverse_wp r h : forall t p nd s fuel lo hi key (Q : node -> tree D -> Prop),
  holds r (m_pages s) (nodes t) -> offs_ok (nodes t) -> shape h lo hi t -> ctx p h lo hi ->
  lo < key <= hi -> opened (m_pages s) (toff t) nd -> m_stack s = f_off <$> p ->
  (h <= fuel)%nat -> (h + length p < 127)%nat ->
  (forall p' o es lo' hi' nd',
     plug p t = plug p' (Leaf o es) -> ctx p' 0 lo' hi' -> shape 0 lo' hi' (Leaf o es) ->
     lo' < key <= hi' -> opened (m_pages s) o nd' -> Q nd' (set_stack (f_off <$> p') s)) ->
  wp (traverse fuel nd key) Q s.
Proof.
  induction h as [|h IH]; intros t p nd s fuel lo hi key Q Hh Ho Hs Hc Hk Hnd Hst Hf Hd HQ.
  - destruct t as [o es|]; [|done]. destruct Hnd as (pg & Hp & ->).
    destruct (holds_at r (m_pages s) o (DLeaf es) (nodes (Leaf o es))) as (pg' & Hp' & Hok);
      [done|simpl; apply elem_of_cons; by left|]. simpl in Hp. simplify_eq.
    assert (wp (mret (mk_node (p_hdr pg) (Some o))) Q s) as Hfin.
    { apply wp_ret. replace s with (set_stack (f_off <$> p) s) by (rewrite <- Hst; by destruct s).
      eapply HQ; try done. by exists pg. }
    destruct Hok as (_ & _ & Hfl & _).
    destruct fuel; simpl; unfold B_ISLEAF; cbn [n_hdr]; rewrite Hfl; done.
  - destruct t as [|o cs]; [done|]. destruct Hnd as (pg & Hp & ->). simpl in Hp.
    destruct (holds_at r (m_pages s) o (DNode (kos cs)) (nodes (Node o cs))) as (pg' & Hp' & Hok);
      [done|simpl; apply elem_of_cons; by left|]. simplify_eq.
    destruct fuel as [|fuel]; [lia|]. simpl.
    replace (B_ISLEAF _) with false by (destruct Hok as (_ & _ & Hfl & _); unfold B_ISLEAF; cbn [n_hdr]; by rewrite Hfl).
    pose proof Hs as Hs'. destruct Hs' as [H2 Hkids].
    destruct (kids_find _ _ _ _ _ Hkids Hk) as (l & k & t & rr & m & Hcs & Hl & Hm & Hr).
    assert (holds r (m_pages s) (nodes t) /\ offs_ok (nodes t)) as [Hht Hot].
    { rewrite nodes_node, Hcs, cmap_app, cmap_cons in Hh, Ho. unfold offs_ok in *.
      apply Forall_cons in Hh as [_ Hh]. apply Forall_app in Hh as [_ Hh]. apply Forall_app in Hh as [Hh _].
      apply Forall_cons in Ho as [_ Ho]. apply Forall_app in Ho as [_ Ho]. apply Forall_app in Ho as [Ho _]. done. }
    destruct (nodes_top t) as [d Hdt]. destruct (holds_at _ _ _ _ _ Hht Hdt) as (pgt & Hpt & Hokt).
    assert (0 < toff t < max_blocks) as Hto by (unfold offs_ok in Hot; rewrite Forall_forall in Hot; by apply (Hot _ Hdt)).
    wp_step. apply push_wp; [rewrite Hst, length_fmap; lia|].
    wp_step. eapply next_node_wp with (o := o) (pg := pg) (pgt := pgt); try done.
    { apply lkids_sorted in Hl as [_ Hl]. eapply Forall_impl; [done|]. simpl. intros; lia. }
    { by eapply page_ok_flag. }
    { by eapply page_ok_off. }
    wp_step. apply wp_assert.
    { unfold off. cbn [n_hdr]. rewrite (page_ok_off _ _ _ _ Hokt). apply negb_true_iff, Z.eqb_neq. lia. }
    subst cs. destruct (ctx_step p h lo hi o l k t rr Hc Hs) as (m' & Hc' & Hs' & Hl' & Hm').
    assert (m' = m) as ->.
    { clear -Hl Hl'. revert Hl Hl'. generalize lo. induction l as [|[k0 t0] l IHl]; intros lo0; simpl.
      - congruence.
      - intros (_ & _ & H1) (_ & _ & H2). by eapply IHl. }
    eapply (IH t (mk_frame o l k rr :: p)); try done.
    + split; [done|]. destruct rr; [lia|]. by apply Hr.
    + by exists pgt.
    + cbn. unfold off. cbn [n_hdr]. rewrite (page_ok_off _ _ _ _ Hok). by rewrite Hst.
    + lia.
    + simpl. lia.
Qed.

(** ** Lookup *)

Definition sized s : tree D := add_size SIZEOF_KEY_PAIR (add_size SIZEOF_INDEX_NODE s).

Lemma inv_offs s n h t : bt_inv s n h t -> offs_ok (nodes t).
Proof.
  intros [_ _ _ _ _ [_ Hn _ _ Hu _ _ _ _] _]. unfold offs_ok. rewrite Forall_forall. intros [o d] Hin.
  apply (list_elem_of_fmap_2 fst) in Hin. specialize (Hu _ Hin). simpl in *. lia.
Qed.

(** The descent that every operation starts with: it ends at the leaf of the key. *)
Lemma descend_wp s n h t key (Q : node -> tree D -> Prop) :
  bt_inv s n h t -> 0 < key <= KEY_MAX ->
  (forall p o es lo hi pg, t = plug p (Leaf o es) -> ctx p 0 lo hi ->
     shape 0 lo hi (Leaf o es) -> lo < key <= hi ->
     m_pages s !! o = Some pg -> page_ok (m_root (m_ondisk s)) o (DLeaf es) pg ->
     Q (mk_node (p_hdr pg) (Some o)) (set_stack (f_off <$> p) (sized s))) ->
  wp (B_OPEN (m_root (m_ondisk s))) (fun ip => wp (traverse_empty ip key) Q) s.
Proof.
  intros Hi Hk HQ. pose proof (height_bound _ _ _ _ Hi) as Hh. pose proof (inv_offs _ _ _ _ Hi) as Ho.
  destruct Hi as [Hs Hr Hho Hnd Hch Hal Hst].
  destruct (nodes_top t) as [d Hd]. destruct (holds_at _ _ _ _ _ Hho Hd) as (pg & Hp & Hok).
  assert (0 < toff t < max_blocks) as Hto by (unfold offs_ok in Ho; rewrite Forall_forall in Ho; by apply (Ho _ Hd)).
  rewrite Hr in *. eapply open_wp; [done|by eapply page_ok_flag| |].
  { rewrite (page_ok_off _ _ _ _ Hok). lia. }
  unfold traverse_empty. change (add_size SIZEOF_KEY_PAIR (add_size SIZEOF_INDEX_NODE s)) with (sized s).
  eapply (traverse_wp (m_root (m_ondisk s)) h t []); try done.
  - apply ctx_top.
  - exists pg. rewrite Hr. done.
  - unfold MAX_STACK. lia.
  - simpl. lia.
  - intros p o es lo hi nd Heq Hc Hsh Hkk (pg' & Hp' & ->). simpl in Heq.
    apply (HQ p o es lo hi pg'); try done.
    assert ((o, DLeaf es) ∈ nodes t) as Hin.
    { rewrite Heq, nodes_plug. apply elem_of_app. left. simpl. apply elem_of_cons. by left. }
    destruct (holds_at _ _ _ _ _ Hho Hin) as (pg2 & Hp2 & Hok2). simpl in Hp'. by simplify_eq.
Qed.

Lemma leaf_index_wp r o es pg key s (Q : Z -> tree D -> Prop) :
  m_pages s !! o = Some pg -> page_ok r o (DLeaf es) pg -> StronglySorted plt es ->
  (forall idx, (exists i v, idx = Z.of_nat i /\ es !! i = Some (key, v)) \/ (idx = -1 /\ key ∉ es.*1) -> Q idx s) ->
  wp (B_GET_PAIR (mk_node (p_hdr pg) (Some o)) key) Q s.
Proof.
  intros Hp (_ & _ & _ & Hn & z & Hz & Hpair) Hs HQ. unfold B_GET_PAIR. wp_step.
  eapply load_pair_wp; [done|done|]. unfold num. cbn [n_hdr]. rewrite Hn, Hpair.
  destruct (get_pair_spec es (replicate z (0, 0)) key Hs) as (idx & -> & Hidx).
  apply wp_lift with idx; [done|]. by apply HQ.
Qed.

Lemma map_lookup s n h t k v : bt_inv s n h t -> bt_map t !! k = Some v <-> (k, v) ∈ ents t.
Proof.
  intros [Hs _ _ _ _ _ _]. apply shape_ents in Hs as [Hs%plt_nodup _]. unfold bt_map.
  symmetry. by apply elem_of_list_to_map.
Qed.

Lemma map_lookup_none t k : bt_map t !! k = None <-> k ∉ (ents t).*1.
Proof. unfold bt_map. symmetry. apply not_elem_of_list_to_map. Qed.

Lemma lookup_here s n h p o es i k v :
  bt_inv s n h (plug p (Leaf o es)) -> es !! i = Some (k, v) ->
  bt_map (plug p (Leaf o es)) !! k = Some v.
Proof.
  intros Hi He. rewrite map_lookup by done. rewrite ents_plug, !elem_of_app. right. left.
  by eapply list_elem_of_lookup_2.
Qed.

(** src/nvfuse_bp_tree.c: search_data_node *)
Lemma search_wp s n h t key (Q : node * Z -> tree D -> Prop) :
  bt_inv s n h t -> 0 < key <= KEY_MAX ->
  (forall p o es lo hi pg idx, t = plug p (Leaf o es) -> ctx p 0 lo hi ->
     shape 0 lo hi (Leaf o es) -> lo < key <= hi ->
     m_pages s !! o = Some pg -> page_ok (m_root (m_ondisk s)) o (DLeaf es) pg ->
     (exists i v, idx = Z.of_nat i /\ es !! i = Some (key, v)) \/ (idx = -1 /\ key ∉ es.*1) ->
     Q (mk_node (p_hdr pg) (Some o), idx) (set_stack (f_off <$> p) (sized s))) ->
  wp (search_data_node key) Q s.
Proof.
  intros Hi Hk HQ. unfold search_data_node. wp_steps.
  eapply wp_mono; [apply (descend_wp s n h t key
    (fun nd s' => wp (index ← B_GET_PAIR nd key; mret (nd, index)) Q s') Hi Hk)|].
  - intros p o es lo hi pg -> Hc Hsh Hkk Hp Hok. wp_step.
    eapply leaf_index_wp; [exact Hp|exact Hok|apply Hsh|].
    intros idx Hidx. wp_steps. by eapply HQ.
  - intros ip s' Hw. by wp_step.
Qed.

(** src/nvfuse_bp_tree.c: bp_find_key reads the map and changes nothing. *)
Lemma find_key_wp s n h t key (Q : Z * Z -> tree D -> Prop) :
  bt_inv s n h t -> 0 < key <= KEY_MAX ->
  (forall idx v, (0 <= idx /\ bt_map t !! key = Some v) \/ (idx = -1 /\ v = 0 /\ bt_map t !! key = None) ->
     Q (idx, v) s) ->
  wp (bp_find_key key) Q s.
Proof.
  intros Hi Hk HQ. unfold bp_find_key. wp_step. eapply search_wp; [done|done|].
  intros p o es lo hi pg idx -> Hc Hsh Hkk Hp Hok Hidx.
  assert (forall sz, set_stack [] (add_size (- (SIZEOF_KEY_PAIR + SIZEOF_INDEX_NODE)) (set_stack sz (sized s))) = s) as Hback.
  { intros sz. pose proof (bi_stack _ _ _ _ Hi) as E. destruct s; unfold sized, set_stack, add_size; cbn in *.
    rewrite E. f_equal. unfold SIZEOF_KEY_PAIR, SIZEOF_INDEX_NODE. lia. }
  destruct Hidx as [(i & v & -> & He)|[-> Hn]].
  - destruct (Z.leb_spec 0 (Z.of_nat i)); [|lia]. wp_step.
    eapply item_get_wp with (k := v); [done|done| |].
    { destruct Hok as (_ & _ & _ & _ & z & _ & ->).
      rewrite <- (take_drop_middle es i _ He), <- app_assoc. simpl. apply get_item.
      apply lookup_lt_Some in He. rewrite length_take. lia. }
    unfold B_FLUSH_STACK, bp_release_node. wp_steps.
    replace (add_size _ (set_stack [] _)) with s; [apply HQ; left; split; [lia|by eapply lookup_here]|].
    symmetry. etrans; [|apply (Hback (f_off <$> p))]. done.
  - simpl. unfold B_FLUSH_STACK, bp_release_node. wp_steps.
    replace (add_size _ (set_stack [] _)) with s; [apply HQ; right; split; [done|]; split; [done|]|].
    + apply map_lookup_none. by eapply ctx_absent.
    + symmetry. etrans; [|apply (Hback (f_off <$> p))]. done.
Qed.

End ops.
End BpSearch.

(** ** Nodes being changed

    While an operation runs, some blocks are open: their contents are being
    changed.  [world s n r os l] says that the file holds the nodes [l], that
    the blocks [os] are open, and that these are all the blocks in use.  The
    lemmas open and close nodes, write open blocks and allocate new ones, so
    that the proofs about splits and merges never look at the whole file. *)
Import Arr BpTree BpTreeOps BpPairs BpAlloc BpTreeSpec BpSearch.

Module BpWorld.

Section world.
Context {D : Type} `{BlockMap D}.
Implicit Types s : tree D.

Record world s (n r : Z) (os : list Z) (l : list (Z * data)) : Prop := {
  w_holds : holds r (m_pages s) l;
  w_nodup : NoDup (os ++ l.*1);
  w_alloc : alloc_ok n (m_ondisk s) (m_isize s) (os ++ l.*1) }.

(** Steps that the world does not see. *)
Definition same_world s s' : Prop :=
  m_ondisk s' = m_ondisk s /\ m_isize s' = m_isize s /\ m_pages s' = m_pages s.

Lemma world_same s s' n r os l : same_world s s' -> world s n r os l -> world s' n r os l.
Proof. intros (E1 & E2 & E3) [H1 H2 H3]. constructor; by rewrite ?E1, ?E2, ?E3. Qed.

Lemma world_perm s n r os os' l l' : os ≡ₚ os' -> l ≡ₚ l' -> world s n r os l -> world s n r os' l'.
Proof.
  intros Ho Hl [H1 H2 H3]. constructor.
  - by eapply holds_perm.
  - by rewrite <- Ho, <- Hl.
  - eapply alloc_ok_ext; [|done]. intros x. by rewrite Ho, Hl.
Qed.

Lemma world_open s n r os b d l : world s n r os ((b, d) :: l) -> world s n r (b :: os) l.
Proof.
  intros [H1 H2 H3]. apply Forall_cons in H1 as [_ H1]. rewrite fmap_cons in *. constructor; [done| |].
  - simpl. by rewrite Permutation_middle.
  - eapply alloc_ok_ext; [|done]. intros x. simpl. rewrite elem_of_app, !elem_of_cons, elem_of_app. tauto.
Qed.

Lemma world_close s n r os b d l pg :
  m_pages s !! b = Some pg -> page_ok r b d pg -> world s n r (b :: os) l -> world s n r os ((b, d) :: l).
Proof.
  intros Hb Hok [H1 H2 H3]. constructor.
  - constructor; [by exists pg|done].
  - rewrite fmap_cons. simpl in *. by rewrite <- Permutation_middle.
  - eapply alloc_ok_ext; [|done]. intros x. rewrite fmap_cons. simpl. rewrite elem_of_app, !elem_of_cons, elem_of_app. tauto.
Qed.

Lemma world_notin s n r os l b : world s n r os l -> b ∈ os -> b ∉ l.*1.
Proof. intros [_ H2 _] Hb Hl. apply NoDup_app in H2 as (_ & H2 & _). by eapply H2. Qed.

Lemma world_set s n r os l b pg : world s n r os l -> b ∈ os -> world (set_page b pg s) n r os l.
Proof.
  intros Hw Hb. pose proof (world_notin _ _ _ _ _ _ Hw Hb). destruct Hw as [H1 H2 H3].
  constructor; [|done|done]. by apply holds_insert.
Qed.

Lemma world_root s n r r' os l : r ∉ l.*1 -> r' ∉ l.*1 -> world s n r os l -> world s n r' os l.
Proof. intros Hr Hr' [H1 H2 H3]. constructor; [|done..]. by apply (holds_root r). Qed.

Lemma world_range s n r os l b : world s n r os l -> b ∈ os \/ b ∈ l.*1 -> 0 < b < max_blocks.
Proof.
  intros [_ _ [_ Hn _ _ Hu _ _ _ _]] Hb. rewrite <- elem_of_app in Hb. specialize (Hu _ Hb). lia.
Qed.

Lemma world_links s n r os l b pg pg' :
  world s n r os l -> m_pages s !! b = Some pg -> same_node pg pg' -> world (set_page b pg' s) n r os l.
Proof. intros [H1 H2 H3] Hb Hs. constructor; [|done|done]. by eapply holds_links. Qed.

(** One step for any number of writes to open blocks and to other fields. *)
Definition same_alloc (od od' : ondisk) : Prop :=
  bitmap od' = bitmap od /\ m_bitmap_free od' = m_bitmap_free od /\
  m_dealloc_block od' = m_dealloc_block od /\
  m_last_allocated_sub_master od' = m_last_allocated_sub_master od /\
  m_last_allocated_sub_offset od' = m_last_allocated_sub_offset od.

Lemma world_frame s s' n r os l :
  world s n r os l -> same_alloc (m_ondisk s) (m_ondisk s') -> m_isize s' = m_isize s ->
  (forall x, x ∉ os -> m_pages s' !! x = m_pages s !! x) -> world s' n r os l.
Proof.
  intros Hw (E1 & E2 & E3 & E4 & E5) Ei Hp. pose proof (fun b => world_notin _ _ _ _ _ b Hw) as Hn.
  destruct Hw as [H1 H2 H3]. constructor; [|done|].
  - unfold holds in *. rewrite Forall_forall in *. intros [o d] Hin. destruct (H1 _ Hin) as (pg & Hpg & Hok).
    exists pg. split; [|done]. simpl. rewrite Hp; [done|]. intros Ho.
    apply (list_elem_of_fmap_2 fst) in Hin. by apply (Hn o).
  - rewrite Ei. by eapply alloc_ok_od.
Qed.

(** A new node, attached to its block. *)
Lemma new_node_wp flag n r os l s (Q : node -> tree D -> Prop) :
  has_space -> world s n r os l -> n < max_blocks -> flag = 0 \/ flag = 1 ->
  (forall b n' s', world s' n' r (b :: os) l -> n <= n' <= n + 1 -> b ∉ os -> b ∉ l.*1 ->
     m_stack s' = m_stack s -> m_key_count s' = m_key_count s ->
     m_root (m_ondisk s') = m_root (m_ondisk s) -> m_size s' = m_size s + 96 ->
     m_pages s' = <[b := fresh_page]> (m_pages s) ->
     Q (mk_node (mk_hdr 0 flag 0 b 0 0 INDEX_NODE_USED) (Some b)) s') ->
  wp (bp_alloc_node flag 0 true) (fun nd => wp (bp_read_node nd (off nd) false) Q) s.
Proof.
  intros Hsp [H1 H2 H3] Hn Hf HQ. unfold bp_alloc_node. wp_steps.
  eapply alloc_bitmap_wp with (n := n) (u := os ++ l.*1); [done|done|done|].
  intros b n' s' Hok Hn' Hb Hbu (E1 & E2 & E3 & E4) Hp. wp_steps. unfold bp_read_node. wp_step.
  apply get_page_wp with fresh_page; [cbn; rewrite Hp; by rewrite lookup_insert_eq|]. wp_steps.
  apply wp_assert; [unfold flag_ok; cbn; destruct Hf as [->| ->]; done|]. wp_steps.
  rewrite elem_of_app in Hbu. apply (HQ b n'); cbn; try done; try tauto.
  - constructor; cbn; [|constructor; [by rewrite elem_of_app|done]|done].
    rewrite Hp. apply holds_insert; [tauto|done].
  - rewrite E2. unfold SIZEOF_INDEX_NODE, SIZEOF_KEY_PAIR. cbn. unfold SIZEOF_INDEX_NODE. lia.
Qed.

Lemma new_node_bind {A} flag n r os l s (k : node -> M (tree D) A) (Q : A -> tree D -> Prop) :
  has_space -> world s n r os l -> n < max_blocks -> flag = 0 \/ flag = 1 ->
  (forall b n' s', world s' n' r (b :: os) l -> n <= n' <= n + 1 -> b ∉ os -> b ∉ l.*1 ->
     m_stack s' = m_stack s -> m_key_count s' = m_key_count s ->
     m_root (m_ondisk s') = m_root (m_ondisk s) -> m_size s' = m_size s + 96 ->
     m_pages s' = <[b := fresh_page]> (m_pages s) ->
     wp (k (mk_node (mk_hdr 0 flag 0 b 0 0 INDEX_NODE_USED) (Some b))) Q s') ->
  wp (x ← bp_alloc_node flag 0 true; x' ← bp_read_node x (off x) false; k x') Q s.
Proof.
  intros Hsp Hw Hn Hf HQ. wp_step.
  eapply wp_mono; [by eapply (new_node_wp flag n r os l s (fun nd s' => wp (k nd) Q s'))|].
  intros nd s' Hnd. by wp_step.
Qed.

(** ** Beginning and end of an operation *)

Lemma world_of_inv s n h t : bt_inv s n h t -> world s n (m_root (m_ondisk s)) [] (nodes t).
Proof. intros [_ _ H1 H2 _ H3 _]. by constructor. Qed.

Lemma inv_of_world s n h t :
  world s n (m_root (m_ondisk s)) [] (nodes t) -> shape h 0 KEY_MAX t -> toff t = m_root (m_ondisk s) ->
  chain (m_pages s) 0 (leaves t) -> bt_inv (set_stack [] s) n h t.
Proof. intros [H1 H2 H3] Hs Hr Hc. by constructor. Qed.

(** Blocks of leaves. *)
Lemma leaves_nodes t : forall x, x ∈ leaves t -> x ∈ (nodes t).*1.
Proof.
  revert t. fix IH 1. intros [o es|o cs] x; simpl; [done|]. intros Hx. apply elem_of_cons. right.
  revert Hx. induction cs as [|[k t] cs IHc]; simpl; [done|]. rewrite fmap_app, !elem_of_app.
  intros [Hx|Hx]; [left; by apply IH|right; by apply IHc].
Qed.

Lemma cmap_leaves_nodes cs x : x ∈ cmap leaves cs -> x ∈ (cmap nodes cs).*1.
Proof.
  induction cs as [|[k t] cs IH]; [done|]. rewrite !cmap_cons, fmap_app, !elem_of_app.
  intros [Hx|Hx]; [left; by apply leaves_nodes|right; by apply IH].
Qed.

Lemma path_leaves_nodes p : forall c x,
  x ∈ pre leaves p \/ x ∈ post leaves p -> x ∈ (fnodes p c).*1.
Proof.
  induction p as [|f p IH]; intros c x; simpl; [intros [?|?]; set_solver|].
  rewrite elem_of_cons, !fmap_app, !elem_of_app.
  intros [[Hx|Hx]|[Hx|Hx]]; right; eauto using cmap_leaves_nodes.
Qed.

(** Writing outside the leaves keeps the chain. *)
Lemma chain_set (P : gmap Z page) L b pg : b ∉ L -> chain P 0 L -> chain (<[b := pg]> P) 0 L.
Proof. intros Hb. apply chain_ext. intros o Ho. rewrite lookup_insert_ne; [done|]. by intros ->. Qed.

(** Replacing the contents of a leaf but not its links. *)
Lemma chain_same (P : gmap Z page) L prev b pg pg' :
  P !! b = Some pg -> i_prev_node (p_hdr pg') = i_prev_node (p_hdr pg) ->
  i_next_node (p_hdr pg') = i_next_node (p_hdr pg) ->
  chain P prev L -> chain (<[b := pg']> P) prev L.
Proof.
  intros Hb E1 E2. revert prev. induction L as [|o L IH]; intros prev; simpl; [done|].
  intros [(pg0 & H1 & H2 & H3) Hc]. split; [|by apply IH].
  destruct (decide (o = b)) as [->|Hne].
  - exists pg'. rewrite lookup_insert_eq. simplify_eq. split; [done|]. split; congruence.
  - exists pg0. by rewrite lookup_insert_ne.
Qed.

(** ** The entries of one leaf change *)

Lemma leaf_world s n h p o es :
  bt_inv s n h (plug p (Leaf o es)) ->
  world s n (m_root (m_ondisk s)) [o] (fnodes p o) /\
  chain (m_pages s) 0 (pre leaves p ++ o :: post leaves p).
Proof.
  intros Hi. split.
  - apply world_open with (d := DLeaf es). eapply world_perm; [done| |by eapply world_of_inv].
    by rewrite nodes_plug.
  - destruct Hi as [_ _ _ _ Hc _ _]. rewrite leaves_plug in Hc. done.
Qed.

Lemma leaf_inv s n lo hi p o es pg :
  world s n (m_root (m_ondisk s)) [o] (fnodes p o) ->
  chain (m_pages s) 0 (pre leaves p ++ o :: post leaves p) ->
  toff (plug p (Leaf o es)) = m_root (m_ondisk s) ->
  ctx p 0 lo hi -> shape 0 lo hi (Leaf o es) ->
  m_pages s !! o = Some pg -> page_ok (m_root (m_ondisk s)) o (DLeaf es) pg ->
  bt_inv (set_stack [] s) n (length p) (plug p (Leaf o es)).
Proof.
  intros Hw Hc Hr Hctx Hs Hp Hok. apply inv_of_world.
  - eapply world_perm; [done| |by eapply world_close]. rewrite nodes_plug. done.
  - by eapply (ctx_plug p 0).
  - done.
  - by rewrite leaves_plug.
Qed.

(** The map when an entry is added to a leaf, replaced or removed. *)
Lemma map_insert p h o l1 l2 key value :
  shape h 0 KEY_MAX (plug p (Leaf o (l1 ++ (key, value) :: l2))) ->
  bt_map (plug p (Leaf o (l1 ++ (key, value) :: l2))) = <[key := value]> (bt_map (plug p (Leaf o (l1 ++ l2)))).
Proof.
  intros Hs. apply shape_ents in Hs as [Hs%plt_nodup _]. unfold bt_map.
  rewrite !ents_plug in *. simpl in *.
  rewrite <- list_to_map_cons. apply list_to_map_proper; [done|].
  rewrite <- !app_assoc. rewrite <- app_comm_cons.
  rewrite (app_assoc (pre ents p) l1), (app_assoc (pre ents p) l1 (l2 ++ _)).
  by rewrite <- Permutation_middle.
Qed.

Lemma map_delete p h o l1 l2 key value :
  shape h 0 KEY_MAX (plug p (Leaf o (l1 ++ (key, value) :: l2))) ->
  bt_map (plug p (Leaf o (l1 ++ l2))) = delete key (bt_map (plug p (Leaf o (l1 ++ (key, value) :: l2)))).
Proof.
  intros Hs. rewrite (map_insert p h) by done. rewrite delete_insert_id; [done|].
  apply shape_ents in Hs as [Hs%plt_nodup _]. apply map_lookup_none.
  rewrite !ents_plug in *. simpl in *. rewrite !fmap_app, fmap_cons in *. 
  rewrite <- !app_assoc in *. simpl in *.
  rewrite (app_assoc (pre ents p).*1) in Hs. rewrite <- Permutation_middle in Hs.
  apply NoDup_cons in Hs as [Hs _]. rewrite <- app_assoc in Hs. done.
Qed.

End world.
End BpWorld.
