(* ===== verification/BpSplit.v ===== *)
(** * B+tree: insertion into nodes, splits

    [BpInsert]: an insertion without splits and the update of a value, with the
    steps a split shares; [BpSplit]: the halves of a split node. *)
From stdpp Require Import sorting.
From S2P Require Import Prelude Bitmap Arr BpTree BpTreeOps BpPairs BpTreeSpec BpSearch.
Import Arr BpTree BpTreeOps BpPairs BpAlloc BpTreeSpec BpSearch BpWorld.

(** ** Insertion into a B+tree without splits, update of a value

    Also the steps that a split shares: what a page holds after a node was
    written. *)
Module BpInsert.

Section ops.
Context {D : Type} `{BlockMap D}.
Implicit Types s : tree D.

Lemma entry_split (es : list (Z * Z)) i key v :
  es !! i = Some (key, v) -> exists l1 l2, es = l1 ++ (key, v) :: l2 /\ i = length l1.
Proof.
  intros Hi. exists (take i es), (drop (S i) es). split.
  - symmetry. by apply take_drop_middle.
  - apply lookup_lt_Some in Hi. rewrite length_take. lia.
Qed.

Lemma bounds_replace lo hi l1 l2 (key v v' : Z) :
  shape 0 lo hi (Leaf 0 (l1 ++ (key, v) :: l2)) -> shape 0 lo hi (Leaf 0 (l1 ++ (key, v') :: l2)).
Proof.
  intros [Hs Hf]. split.
  - apply sorted_app in Hs as (? & Hs & Ha). apply sorted_cons in Hs as [? ?].
    apply sorted_app. split; [done|]. split; [by apply sorted_cons|].
    eapply Forall_impl; [exact Ha|]. intros x Hx. apply Forall_cons in Hx as [? ?]. by constructor.
  - apply Forall_app in Hf as [? Hf]. apply Forall_cons in Hf as [? ?]. apply Forall_app. split; [done|]. by constructor.
Qed.

Lemma bounds_insert lo hi l1 l2 key value :
  shape 0 lo hi (Leaf 0 (l1 ++ l2)) -> lo < key <= hi ->
  Forall (fun p => p.1 < key) l1 -> Forall (fun p => key < p.1) l2 ->
  shape 0 lo hi (Leaf 0 (l1 ++ (key, value) :: l2)).
Proof.
  intros [Hs Hf] Hk H1 H2. split; [by apply sorted_insert|].
  apply Forall_app in Hf as [? ?]. apply Forall_app. split; [done|]. by constructor.
Qed.

(** A store of the arrays followed by one of the header. *)
Lemma set_page_twice b pg pg' s : set_page b pg (set_page b pg' s) = set_page b pg s.
Proof. unfold set_page. cbn. by rewrite insert_insert_eq. Qed.

(** The page of a leaf after its entries were replaced. *)
Lemma leaf_page r o pg es es' h z :
  page_ok r o (DLeaf es) pg -> h = set_num (Z.of_nat (length es')) (p_hdr pg) ->
  Z.of_nat (length es' + z) = FANOUT ->
  page_ok r o (DLeaf es') (mk_page h (mk (es' ++ replicate z (0, 0)))).
Proof.
  intros (Hr & Ho & Hf & _) -> Hz. split; [done|]. split; [done|]. split; [done|]. split; [done|]. by exists z.
Qed.

Lemma page_leaf_split r o pg es :
  page_ok r o (DLeaf es) pg -> exists z, Z.of_nat (length es + z) = FANOUT /\
    i_pair pg = mk (es ++ replicate z (0, 0)) /\ i_num (p_hdr pg) = Z.of_nat (length es).
Proof. intros (_ & _ & _ & Hn & z & Hz & Hp). by exists z. Qed.

Lemma set_num_same h : set_num (i_num h) h = h.
Proof. by destruct h. Qed.

(** src/nvfuse_bp_tree.c: bp_merge_key on a leaf with room *)
Lemma merge_key_wp r o pg l1 l2 key value s (Q : node -> tree D -> Prop) :
  m_pages s !! o = Some pg -> page_ok r o (DLeaf (l1 ++ l2)) pg ->
  Z.of_nat (length (l1 ++ l2)) < FANOUT ->
  Forall (fun p => p.1 <> 0 /\ p.1 < key) l1 -> Forall (fun p => key < p.1) l2 ->
  (forall pg' z, Z.of_nat (length (l1 ++ (key, value) :: l2) + z) = FANOUT ->
     pg' = mk_page (set_num (Z.of_nat (length (l1 ++ (key, value) :: l2))) (p_hdr pg))
             (mk ((l1 ++ (key, value) :: l2) ++ replicate z (0, 0))) ->
     Q (mk_node (p_hdr pg') (Some o)) (set_page o (mk_page (p_hdr pg) (i_pair pg')) s)) ->
  wp (bp_merge_key (mk_node (p_hdr pg) (Some o)) key value) Q s.
Proof.
  intros Hp Hok Hlen H1 H2 HQ. destruct (page_leaf_split _ _ _ _ Hok) as (z & Hz & Hpair & Hn).
  destruct z as [|z]; [lia|]. unfold bp_merge_key. wp_step. eapply load_pair_wp; [done|done|].
  wp_step. unfold num. cbn [n_hdr]. rewrite Hpair, Hn. cbn [replicate].
  eapply wp_lift; [rewrite <- app_assoc; apply merge_pair_spec; done|].
  cbn beta iota. wp_step. eapply store_pair_wp; [done|done|]. cbn iota. wp_steps.
  assert (length (l1 ++ (key, value) :: l2) = S (length (l1 ++ l2))) as Hl by (rewrite !length_app; simpl; lia).
  specialize (HQ _ z ltac:(rewrite Hl; lia) eq_refl). cbn in HQ. rewrite Hl in HQ.
  unfold on_hdr. cbn. replace (Z.of_nat (length (l1 ++ l2)) + 1) with (Z.of_nat (S (length (l1 ++ l2)))) by lia.
  rewrite <- app_assoc in HQ. exact HQ.
Qed.

(** What an operation leaves: the invariant for a tree with the map [m]. *)
Definition result s n (m : gmap Z Z) (grow : Z) s' : Prop :=
  (exists n' h t, bt_inv s' n' h t /\ bt_map t = m /\ n <= n' <= n + grow) /\
  m_size s' = m_size s.

Lemma release_flush s p :
  set_stack [] (add_size (- (SIZEOF_KEY_PAIR + SIZEOF_INDEX_NODE)) (set_stack p (sized s))) = set_stack [] s.
Proof.
  unfold set_stack, add_size, sized. cbn. f_equal. unfold SIZEOF_KEY_PAIR, SIZEOF_INDEX_NODE. lia.
Qed.

(** A leaf whose entries were replaced by [es'], after its page was written. *)
Lemma leaf_done s n h p o es es' lo hi pg z s1 :
  bt_inv s n h (plug p (Leaf o es)) -> ctx p 0 lo hi -> shape 0 lo hi (Leaf o es') ->
  m_pages s !! o = Some pg -> page_ok (m_root (m_ondisk s)) o (DLeaf es) pg ->
  Z.of_nat (length es' + z) = FANOUT ->
  m_ondisk s1 = m_ondisk s -> m_isize s1 = m_isize s ->
  m_pages s1 = <[o := mk_page (set_num (Z.of_nat (length es')) (p_hdr pg)) (mk (es' ++ replicate z (0, 0)))]> (m_pages s) ->
  bt_inv (set_stack [] s1) n (length p) (plug p (Leaf o es')).
Proof.
  intros Hi Hc Hs Hp Hok Hz E1 E2 E3. destruct (leaf_world _ _ _ _ _ _ Hi) as [Hw Hch].
  eapply leaf_inv with (lo := lo) (hi := hi); try done.
  - rewrite E1. eapply world_same; [|eapply world_set with (b := o)]; [|done|apply elem_of_cons; by left].
    split; [done|]. split; [done|]. exact E3.
  - rewrite E3. by eapply chain_same.
  - rewrite E1. destruct Hi as [_ <- _ _ _ _ _]. by apply toff_plug.
  - rewrite E3. apply lookup_insert_eq.
  - rewrite E1. by eapply leaf_page.
Qed.

(** The tree after the value of an entry was replaced. *)
Lemma replace_result s n h p o l1 l2 key v value lo hi pg z s1 :
  let es' := l1 ++ (key, value) :: l2 in
  bt_inv s n h (plug p (Leaf o (l1 ++ (key, v) :: l2))) -> ctx p 0 lo hi -> shape 0 lo hi (Leaf o (l1 ++ (key, v) :: l2)) ->
  m_pages s !! o = Some pg -> page_ok (m_root (m_ondisk s)) o (DLeaf (l1 ++ (key, v) :: l2)) pg ->
  Z.of_nat (length (l1 ++ (key, v) :: l2) + z) = FANOUT ->
  m_ondisk s1 = m_ondisk s -> m_isize s1 = m_isize s -> m_stack s1 = [] -> m_size s1 = m_size s ->
  m_pages s1 = <[o := mk_page (p_hdr pg) (mk (es' ++ replicate z (0, 0)))]> (m_pages s) ->
  result s n (<[key := value]> (bt_map (plug p (Leaf o (l1 ++ (key, v) :: l2))))) 0 s1.
Proof.
  intros es' Hi Hc Hsh Hp Hok Hz Ed Ei Es Esz Ep. split; [|lia].
  assert (length es' = length (l1 ++ (key, v) :: l2)) as Hlen by (unfold es'; rewrite !length_app; done).
  assert (shape 0 lo hi (Leaf o es')) as Hs' by exact (bounds_replace _ _ _ _ _ _ value Hsh).
  assert (i_num (p_hdr pg) = Z.of_nat (length es')) as Hnum by (destruct Hok as (_ & _ & _ & -> & _); by rewrite Hlen).
  exists n, (length p), (plug p (Leaf o es')). split; [|split; [|lia]].
  - assert (bt_inv (set_stack [] s1) n (length p) (plug p (Leaf o es'))) as Hinv.
    { eapply leaf_done with (s := s) (pg := pg) (z := z); try done; [lia|].
      by rewrite <- Hnum, set_num_same. }
    destruct Hinv. by constructor.
  - unfold es'. rewrite (map_insert p (0 + length p) o l1 l2 key value) by (by eapply ctx_plug).
    rewrite (map_insert p h o l1 l2 key v) by apply (bi_shape _ _ _ _ Hi). by rewrite insert_insert_eq.
Qed.

(** src/nvfuse_bp_tree.c: bp_update_key_tree on a key of the tree *)
Lemma update_key_wp s n h t key value v :
  bt_inv s n h t -> 0 < key <= KEY_MAX -> bt_map t !! key = Some v ->
  wp (bp_update_key_tree key value)
     (fun r s' => r = 0 /\ result s n (<[key := value]> (bt_map t)) 0 s' /\ m_key_count s' = m_key_count s) s.
Proof.
  intros Hi Hk Hv. unfold bp_update_key_tree. wp_step. eapply search_wp; [done|done|].
  intros p o es lo hi pg idx -> Hc Hsh Hkk Hp Hok [(i & v0 & -> & He)|[-> Hn]].
  2:{ exfalso. pose proof (ctx_absent p lo hi key es o Hc Hkk Hn) as Hab.
      apply map_lookup_none in Hab. congruence. }
  destruct (Z.ltb_spec (Z.of_nat i) 0); [lia|].
  destruct (entry_split _ _ _ _ He) as (l1 & l2 & -> & ->).
  destruct (page_leaf_split _ _ _ _ Hok) as (z & Hz & Hpair & Hnum).
  wp_step. unfold bp_insert_value_tree. wp_step. eapply key_get_wp with (k := key); [done|done| |].
  { rewrite Hpair, <- app_assoc. by apply get_key. }
  rewrite key_compare_eq, Z.eqb_refl.
  eapply update_pair_wp; [done|done| |].
  { rewrite Hpair, <- app_assoc. simpl. by apply set_item. }
  wp_step. eapply write_node_wp; [done|apply lookup_insert_eq|by eapply page_ok_flag|].
  unfold B_FLUSH_STACK, bp_release_node. wp_steps. split; [done|]. split; [|done].
  eapply replace_result with (z := z); try done.
  - cbn. unfold SIZEOF_KEY_PAIR, SIZEOF_INDEX_NODE. lia.
  - cbn. by rewrite insert_insert_eq, <- app_assoc.
Qed.

End ops.
End BpInsert.

(** ** Insertion into a B+tree with splits

    A full leaf is split in two, and every inner node above it that overflows
    too; the root may get a new level. *)
Import Arr BpTree BpTreeOps BpPairs BpAlloc BpTreeSpec BpSearch BpWorld BpInsert.

Module BpSplit.

#[local] Arguments replicate : simpl never.

(** Lookup in a map with several writes at distinct blocks. *)
Ltac pg_lookup :=
  cbn; repeat first [rewrite lookup_insert_eq | rewrite lookup_insert_ne by congruence]; first [eassumption | reflexivity].

(** Headers and nodes in normal form. *)
Ltac hdr_simpl :=
  unfold num, off, on_hdr, B_NEXT, B_PREV, B_ISROOT, B_ISLEAF;
  cbn [n_hdr i_bh i_num i_root i_flag i_offset i_next_node i_prev_node i_status
       set_num set_root set_flag set_next set_prev set_status].

Lemma zero_pairs n : pair_zero (Z.of_nat n) = mk (replicate n (0, 0)).
Proof. rewrite mk_zeros. by rewrite Nat2Z.id. Qed.

Lemma fresh_pair : i_pair fresh_page = mk (replicate (Z.to_nat FANOUT) (0, 0)).
Proof. unfold fresh_page. cbn [i_pair]. by rewrite mk_zeros. Qed.

(** Clearing a node and copying a block of pairs into it. *)
Lemma init_all q : Z.of_nat (length q) = FANOUT ->
  B_PAIR_INIT_N (mk q) 0 FANOUT = Some (mk (replicate (length q) (0, 0))).
Proof.
  intros Hq. pose proof (init_n [] q [] 0 FANOUT) as Hi. cbn [app] in Hi. rewrite !app_nil_r in Hi.
  rewrite Hi; [done|done|by rewrite Hq].
Qed.

Lemma copy_block q1 q2 s1 a s2 j n :
  length q1 = length a -> j = Z.of_nat (length s1) -> n = Z.of_nat (length a) ->
  B_PAIR_COPY_N (mk (q1 ++ q2)) (mk (s1 ++ a ++ s2)) 0 j n = Some (mk (a ++ q2)).
Proof. intros Hq Hj Hn. apply (copy_n [] q1 q2 s1 a s2); done. Qed.

Lemma fill_node z s1 a s2 j n m :
  m = (length a + z)%nat -> j = Z.of_nat (length s1) -> n = Z.of_nat (length a) ->
  B_PAIR_COPY_N (mk (replicate m (0, 0))) (mk (s1 ++ a ++ s2)) 0 j n = Some (mk (a ++ replicate z (0, 0))).
Proof.
  intros -> Hj Hn. rewrite replicate_add. apply copy_block; [by rewrite length_replicate|done|done].
Qed.

(** The pairs of a full leaf with the new one, cut in the middle. *)
Lemma halves (e : list (Z * Z)) :
  Z.of_nat (length e) = FANOUT + 1 ->
  exists a ka va b kb vb, e = (a ++ [(ka, va)]) ++ (b ++ [(kb, vb)]) /\
    Z.of_nat (length (a ++ [(ka, va)])) = FANOUT - FANOUT / 2 /\
    Z.of_nat (length (b ++ [(kb, vb)])) = FANOUT / 2 + 1.
Proof.
  rewrite FANOUT_eq. change (337 / 2) with 168. intros Hl.
  assert (length (take 169 e) = 169)%nat as H1 by (rewrite length_take; lia).
  assert (length (drop 169 e) = 169)%nat as H2 by (rewrite length_drop; lia).
  destruct (@exists_last _ (take 169 e)) as (a & [ka va] & Ha); [intros E; by rewrite E in H1|].
  destruct (@exists_last _ (drop 169 e)) as (b & [kb vb] & Hb); [intros E; by rewrite E in H2|].
  exists a, ka, va, b, kb, vb. rewrite <- Ha, <- Hb, take_drop, H1, H2. done.
Qed.

Lemma halves_shape lo hi o o1 o2 a ka va b kb vb :
  shape 0 lo hi (Leaf o ((a ++ [(ka, va)]) ++ (b ++ [(kb, vb)]))) ->
  shape 0 lo ka (Leaf o1 (a ++ [(ka, va)])) /\ shape 0 ka kb (Leaf o2 (b ++ [(kb, vb)])) /\
  lo < ka /\ ka < kb /\ kb <= hi.
Proof.
  intros [Hs Hf]. apply sorted_app in Hs as (Ha & Hb & Hab). apply Forall_app in Hf as [Hfa Hfb].
  rewrite Forall_app in Hfa, Hfb. destruct Hfa as [Hfa Hka], Hfb as [Hfb Hkb].
  apply Forall_cons in Hka as [Hka _], Hkb as [Hkb _]. simpl in Hka, Hkb.
  pose proof Ha as Ha'. apply sorted_app in Ha' as (_ & _ & Hal).
  pose proof Hb as Hb'. apply sorted_app in Hb' as (_ & _ & Hbl).
  apply Forall_app in Hab as [_ Hab]. apply Forall_cons in Hab as [Hab _].
  apply Forall_app in Hab as [Hab1 Hab2]. apply Forall_cons in Hab2 as [Hab2 _]. unfold plt in Hab2. simpl in Hab2.
  split; [|split; [|lia]]; (split; [done|]); apply Forall_app; (split; [|repeat constructor; simpl; lia]);
    rewrite Forall_forall in *; intros x Hx.
  - specialize (Hal x Hx). apply Forall_cons in Hal as [Hal _]. unfold plt in Hal. specialize (Hfa x Hx). simpl in *. lia.
  - specialize (Hbl x Hx). apply Forall_cons in Hbl as [Hbl _]. unfold plt in Hbl. specialize (Hab1 x Hx). unfold plt in Hab1. simpl in *. lia.
Qed.

Section ops.
Context {D : Type} `{BlockMap D}.
Implicit Types s : tree D.

(** The header of a leaf in a split: only links and number change. *)
Lemma leaf_page_ok r b h q es z :
  i_root h = (if b =? r then 1 else 0) -> i_offset h = b -> i_flag h = 1 -> i_num h = Z.of_nat (length es) ->
  Z.of_nat (length es + z) = FANOUT -> q = mk (es ++ replicate z (0, 0)) ->
  page_ok r b (DLeaf es) (mk_page h q).
Proof. intros ??????. split; [done|]. split; [done|]. split; [done|]. split; [done|]. by exists z. Qed.

Lemma node_page_ok r b h q ks rest :
  i_root h = (if b =? r then 1 else 0) -> i_offset h = b -> i_flag h = 0 -> i_num h = Z.of_nat (length ks) - 1 ->
  Z.of_nat (length (ks ++ rest)) = FANOUT -> q = mk (ks ++ rest) ->
  page_ok r b (DNode ks) (mk_page h q).
Proof. intros ??????. split; [done|]. split; [done|]. split; [done|]. split; [done|]. by exists rest. Qed.

(** src/nvfuse_bp_tree.c: bp_add_root_node with the write that follows it *)
Lemma add_root_wp s n o l1 l2 key value pg (Q : unit -> tree D -> Prop) :
  has_space -> n + 2 <= max_blocks -> world s n o [o] [] -> m_pages s !! o = Some pg ->
  page_ok o o (DLeaf (l1 ++ l2)) pg -> Z.of_nat (length (l1 ++ l2)) = FANOUT ->
  Forall (fun p => p.1 <> 0 /\ p.1 < key) l1 -> Forall (fun p => key < p.1) l2 ->
  (forall s' n' b1 b2 a ka va b kb vb,
     l1 ++ (key, value) :: l2 = (a ++ [(ka, va)]) ++ (b ++ [(kb, vb)]) -> n <= n' <= n + 2 ->
     world s' n' o [] (nodes (Node o [(ka, Leaf b1 (a ++ [(ka, va)])); (kb, Leaf b2 (b ++ [(kb, vb)]))])) ->
     chain (m_pages s') 0 [b1; b2] -> m_root (m_ondisk s') = m_root (m_ondisk s) ->
     m_size s' = m_size s - 96 -> m_key_count s' = m_key_count s -> Q tt s') ->
  wp (root ← bp_add_root_node (mk_node (p_hdr pg) (Some o)) key value;
      bp_write_node (on_hdr (set_root 1) root);; bp_release_node) Q s.
Proof.
  intros Hsp Hn Hw Hp Hok Hlen H1 H2 HQ. destruct (page_leaf_split _ _ _ _ Hok) as (z & Hz & Hpair & Hnum).
  assert (z = O) as -> by lia. rewrite app_nil_r in Hpair.
  destruct (halves (l1 ++ (key, value) :: l2)) as (a & ka & va & b & kb & vb & HE & HA & HB).
  { rewrite length_app in *. simpl in *. lia. }
  set (A := a ++ [(ka, va)]) in *. set (B := b ++ [(kb, vb)]) in *.
  unfold bp_add_root_node. wp_step. unfold B_dALLOC.
  eapply new_node_bind with (n := n) (r := o) (os := [o]) (l := []); [done|done|lia|by right|].
  intros b1 n1 s1 Hw1 Hn1 Hb1 _ _ Ek1 Er1 Es1 Ep1.
  eapply new_node_bind with (n := n1) (r := o) (os := [b1; o]) (l := []); [done|done|lia|by right|].
  intros b2 n2 s2 Hw2 Hn2 Hb2 _ _ Ek2 Er2 Es2 Ep2.
  assert (b1 <> o) as Hb10 by set_solver. assert (b2 <> o) as Hb20 by set_solver.
  assert (b2 <> b1) as Hb21 by set_solver.
  pose proof (world_range _ _ _ _ _ b1 Hw2 ltac:(left; set_solver)) as Hr1.
  pose proof (world_range _ _ _ _ _ b2 Hw2 ltac:(left; set_solver)) as Hr2.
  rewrite Ep1 in Ep2.
  assert (m_pages s2 !! o = Some pg) as Hpo by (rewrite Ep2; pg_lookup).
  wp_step. eapply load_pair_wp; [done|exact Hpo|].
  assert (num (mk_node (p_hdr pg) (Some o)) = FANOUT) as Hnumo by (unfold num; cbn [n_hdr]; lia).
  rewrite Hnumo, Hpair.
  change (pair_zero (FANOUT * 2)) with (pair_zero (Z.of_nat 674)). rewrite zero_pairs.
  wp_step. eapply wp_lift.
  { pose proof (fill_node 337 [] (l1 ++ l2) [] 0 FANOUT 674) as Hc. rewrite !app_nil_r in Hc. apply Hc; [|done|lia].
    rewrite FANOUT_eq in Hlen. lia. }
  wp_step. eapply wp_lift.
  { change (replicate 337 (0, 0)) with ((0, 0) :: replicate 336 (0, 0) : list (Z * Z)).
    rewrite <- app_assoc. apply merge_key2_spec; [done|done|lia|done]. }
  replace (l1 ++ (key, value) :: l2 ++ replicate 336 (0, 0)) with ([] ++ A ++ (B ++ replicate 336 (0, 0)))
    by (cbn [app]; rewrite app_assoc, <- HE, <- app_assoc; done).
  hdr_simpl.
  assert (Z.of_nat (length A + 168) = FANOUT /\ Z.of_nat (length B + 168) = FANOUT) as [HA' HB']
    by (rewrite FANOUT_eq in *; change (337 / 2) with 168 in *; lia).
  wp_step. eapply update_pair_wp; [done|rewrite Ep2; pg_lookup| |].
  { rewrite fresh_pair, init_all by (rewrite length_replicate; done). cbn [mbind option_bind].
    apply (fill_node 168); [rewrite length_replicate; lia|done|lia]. }
  wp_step. eapply update_pair_wp; [done|cbn; rewrite Ep2; pg_lookup| |].
  { rewrite fresh_pair, init_all by (rewrite length_replicate; done). cbn [mbind option_bind app].
    apply (fill_node 168); [rewrite length_replicate; lia|lia|lia]. }
  wp_step. eapply key_get_wp with (k := ka); [done|cbn; rewrite Ep2; pg_lookup| |].
  { cbn [i_pair]. unfold A. rewrite <- app_assoc. apply get_key. unfold A in HA. rewrite length_app in HA. simpl in HA. lia. }
  wp_step. eapply key_get_wp with (k := kb); [done|cbn; rewrite Ep2; pg_lookup| |].
  { cbn [i_pair]. unfold B. rewrite <- app_assoc. apply get_key. unfold B in HB. rewrite length_app in HB. simpl in HB. lia. }
  rewrite !u32_off by done.
  wp_step. eapply update_pair_wp; [done|cbn; rewrite Ep2; pg_lookup| |].
  { rewrite Hpair, init_all by done. cbn [mbind option_bind].
    assert (replicate (length (l1 ++ l2)) (0, 0) = [] ++ (0, 0) :: ((0, 0) :: replicate 335 (0, 0))) as ->
      by (replace (length (l1 ++ l2)) with (S (S 335)) by (rewrite FANOUT_eq in Hlen; lia); reflexivity).
    rewrite set_pair by done. cbn [mbind option_bind app].
    change ((ka, b1) :: (0, 0) :: replicate 335 (0, 0)) with ([(ka, b1)] ++ (0, 0) :: replicate 335 (0, 0)).
    rewrite set_pair by done. reflexivity. }
  hdr_simpl. wp_steps. change (negb (0 =? 0)) with false. cbn iota. wp_steps.
  eapply write_node_wp; [done|cbn; rewrite Ep2; pg_lookup|done|].
  unfold bp_release_node. wp_steps.
  eapply write_node_wp; [done|cbn; rewrite Ep2; pg_lookup|done|]. wp_steps.
  hdr_simpl. eapply write_node_wp; [done|cbn; rewrite Ep2; pg_lookup|done|]. wp_steps.
  match goal with |- Q tt ?st => set (s' := st) end.
  assert (world s' n2 o [b2; b1; o] []) as Hw'.
  { eapply world_frame; [exact Hw2|done|done|]. intros x Hx. rewrite !not_elem_of_cons in Hx.
    destruct Hx as (Hx1 & Hx2 & Hx3 & _). subst s'. cbn.
    repeat rewrite (lookup_insert_ne _ _ x) by congruence. done. }
  assert (exists h, m_pages s' !! o = Some (mk_page h (mk ([(ka, b1); (kb, b2)] ++ replicate 335 (0, 0)))) /\
            h = set_root 1 (set_num 1 (set_flag 0 (set_num (FANOUT - FANOUT / 2) (p_hdr pg))))) as (ho & Hpo' & Eho).
  { subst s'. eexists. split; [pg_lookup|done]. }
  assert (exists h, m_pages s' !! b1 = Some (mk_page h (mk (A ++ replicate 168 (0, 0)))) /\
            h = mk_hdr 0 1 (FANOUT - FANOUT / 2) b1 b2 0 INDEX_NODE_USED) as (h1 & Hp1' & Eh1).
  { subst s'. eexists. split; [pg_lookup|done]. }
  assert (exists h, m_pages s' !! b2 = Some (mk_page h (mk (B ++ replicate 168 (0, 0)))) /\
            h = mk_hdr 0 1 (FANOUT / 2 + 1) b2 0 b1 INDEX_NODE_USED) as (h2 & Hp2' & Eh2).
  { subst s'. eexists. split; [pg_lookup|done]. }
  destruct Hok as (Hro & Hoo & Hfo & _).
  apply (HQ s' n2 b1 b2 _ _ _ _ _ _ HE); [lia| | |by subst s'; cbn; congruence| |by subst s'; cbn; congruence].
  - cbn [nodes map concat app].
    eapply world_close; [exact Hpo'| |].
    { apply (node_page_ok _ _ _ _ _ (replicate 335 (0, 0))); subst ho; cbn; try done. by rewrite Z.eqb_refl. }
    eapply world_close; [exact Hp1'| |].
    { apply (leaf_page_ok _ _ _ _ _ 168); subst h1; cbn; try done. by apply Z.eqb_neq in Hb10 as ->. }
    eapply world_close; [exact Hp2'| |].
    { apply (leaf_page_ok _ _ _ _ _ 168); subst h2; cbn; try done. by apply Z.eqb_neq in Hb20 as ->. }
    eapply world_perm; [|done|exact Hw']. solve_Permutation.
  - cbn [chain]. split; [|split; [|done]].
    + eexists. split; [exact Hp1'|]. by subst h1.
    + eexists. split; [exact Hp2'|]. by subst h2.
  - subst s'. cbn. unfold SIZEOF_KEY_PAIR, SIZEOF_INDEX_NODE. lia.
Qed.


(** ** Inner nodes *)

(** Two halves of the children of a node that overflowed. *)
Lemma child_halves (cs : list (Z * bt)) :
  Z.of_nat (length cs) = FANOUT + 1 ->
  exists ca ka ta cb kb tb, cs = (ca ++ [(ka, ta)]) ++ (cb ++ [(kb, tb)]) /\
    length (ca ++ [(ka, ta)]) = 169%nat /\ length (cb ++ [(kb, tb)]) = 169%nat.
Proof.
  rewrite FANOUT_eq. intros Hl.
  assert (length (take 169 cs) = 169)%nat as H1 by (rewrite length_take; lia).
  assert (length (drop 169 cs) = 169)%nat as H2 by (rewrite length_drop; lia).
  destruct (@exists_last _ (take 169 cs)) as (a & [ka va] & Ha); [intros E; by rewrite E in H1|].
  destruct (@exists_last _ (drop 169 cs)) as (b & [kb vb] & Hb); [intros E; by rewrite E in H2|].
  exists a, ka, va, b, kb, vb. rewrite <- Ha, <- Hb, take_drop, H1, H2. done.
Qed.

(** src/nvfuse_bp_tree.c: bp_split_index_node on a node with room *)
Lemma split_room_wp o hdr q pg ks rest med s (Q : node * option node * key_pair -> tree D -> Prop) :
  m_pages s !! o = Some pg -> i_pair pg = mk q -> Z.of_nat (length q) = FANOUT ->
  i_num hdr = Z.of_nat (length ks) - 1 -> Z.of_nat (length ks) <= FANOUT ->
  (forall q2, Z.of_nat (length (ks ++ q2)) = FANOUT ->
     Q (mk_node hdr (Some o), None, med) (set_page o (mk_page (p_hdr pg) (mk (ks ++ q2))) s)) ->
  wp (bp_split_index_node (mk_node hdr (Some o)) (mk (ks ++ rest)) (num (mk_node hdr (Some o)) + 1) med) Q s.
Proof.
  intros Hp Hpair Hq Hn Hl HQ. unfold bp_split_index_node. hdr_simpl. rewrite Hn.
  destruct (Z.ltb_spec (Z.of_nat (length ks) - 1 + 1 - 1) FANOUT); [|lia].
  rewrite <- (take_drop (length ks) q) in Hpair.
  wp_step. eapply update_pair_wp; [done|exact Hp| |].
  - rewrite Hpair. apply (copy_block (take (length ks) q) (drop (length ks) q) [] ks rest);
      [rewrite length_take; lia|done|lia].
  - wp_steps. apply HQ. rewrite length_app, length_drop. lia.
Qed.

(** src/nvfuse_bp_tree.c: bp_split_index_node with bp_split_data *)
Lemma split_full_wp n r l o hdr q pg ks kb' rest med ka' s (Q : node * option node * key_pair -> tree D -> Prop) :
  has_space -> n < max_blocks -> world s n r [o] l ->
  m_pages s !! o = Some pg -> i_pair pg = mk q -> Z.of_nat (length q) = FANOUT ->
  i_num hdr = FANOUT -> i_offset hdr = o ->
  length (ks ++ [ka']) = 169%nat -> length kb' = 169%nat ->
  (forall b n' s' pga pgb,
     n <= n' <= n + 1 -> b <> o -> world s' n' r [b; o] l ->
     m_pages s' !! o = Some pga -> i_pair pga = mk ((ks ++ [ka']) ++ replicate 168 (0, 0)) ->
     m_pages s' !! b = Some pgb -> i_pair pgb = mk (kb' ++ replicate 168 (0, 0)) ->
     (forall x, x <> o -> x <> b -> m_pages s' !! x = m_pages s !! x) ->
     m_stack s' = m_stack s -> m_key_count s' = m_key_count s ->
     m_root (m_ondisk s') = m_root (m_ondisk s) -> m_size s' = m_size s + 96 ->
     Q (mk_node (set_num 168 (set_root 0 hdr)) (Some o),
        Some (mk_node (mk_hdr 0 0 168 b 0 0 INDEX_NODE_USED) (Some b)), mk [(ka'.1, o)]) s') ->
  wp (bp_split_index_node (mk_node hdr (Some o)) (mk (((ks ++ [ka']) ++ kb') ++ rest))
        (num (mk_node hdr (Some o)) + 1) med) Q s.
Proof.
  intros Hsp Hn Hw Hp Hpair Hq Hnum Hoff Hla Hlb HQ. unfold bp_split_index_node. hdr_simpl. rewrite Hnum.
  destruct (Z.ltb_spec (FANOUT + 1 - 1) FANOUT); [lia|].
  unfold B_iALLOC. eapply new_node_bind with (n := n) (r := r) (os := [o]) (l := l); [done|done|done|by left|].
  intros b n1 s1 Hw1 Hn1 Hb _ Est Ek Er Es Ep. assert (b <> o) by set_solver.
  pose proof (world_range _ _ _ _ _ o Hw1 ltac:(left; set_solver)) as Hro.
  unfold bp_split_data. change ((FANOUT + 1) / 2) with 169. wp_step.
  assert (length q = 337)%nat as Hq' by (rewrite FANOUT_eq in Hq; lia).
  wp_step. eapply update_pair_wp; [done|cbn; rewrite Ep; pg_lookup| |].
  { rewrite Hpair, init_all by done. cbn [mbind option_bind]. rewrite <- app_assoc.
    apply (fill_node 168 [] (ks ++ [ka']) (kb' ++ rest)); [rewrite Hla, Hq'; done|done|rewrite Hla; done]. }
  hdr_simpl. rewrite Hoff, u32_off by done. destruct ka' as [ka va].
  wp_step. eapply wp_lift.
  { rewrite <- !app_assoc. cbn [app]. apply (get_key ks ka va). rewrite length_app in Hla. simpl in Hla. lia. }
  wp_step. eapply update_pair_wp; [done|cbn; rewrite Ep; pg_lookup| |].
  { rewrite fresh_pair. rewrite <- app_assoc. apply (fill_node 168 (ks ++ [(ka, va)]) kb' rest).
    - rewrite Hlb. done.
    - by rewrite Hla.
    - by rewrite Hlb. }
  hdr_simpl. wp_steps. cbn beta iota. wp_steps.
  eapply (HQ b n1); [done|done| |cbn; rewrite Ep; pg_lookup|done|cbn; rewrite Ep; pg_lookup|done| | | | |].
  - eapply world_frame; [exact Hw1|done|done|]. intros x Hx. rewrite !not_elem_of_cons in Hx.
    destruct Hx as (? & ? & _). cbn. by rewrite !lookup_insert_ne by congruence.
  - intros x Hx1 Hx2. cbn. rewrite Ep. by rewrite !lookup_insert_ne by congruence.
  - done.
  - done.
  - done.
  - done.
Qed.

(** ** A new root *)

Lemma split_root_wp n r l o b hdr hdrb pga pgb ka kl kr s (Q : node -> tree D -> Prop) :
  has_space -> n < max_blocks -> world s n r [b; o] l -> b <> o ->
  m_pages s !! o = Some pga -> m_pages s !! b = Some pgb ->
  i_flag hdr = 0 -> i_offset hdr = o -> i_flag hdrb = 0 -> i_offset hdrb = b ->
  aget (i_key (i_pair pga)) (i_num hdr - 1) = Some kl ->
  aget (i_key (i_pair pgb)) (i_num hdrb - 1) = Some kr -> kl < kr ->
  (forall b' n' s' h,
     n <= n' <= n + 1 -> b' <> o -> b' <> b -> world s' n' r [b'; b; o] l ->
     m_pages s' !! o = Some (mk_page (set_root 0 hdr) (i_pair pga)) ->
     m_pages s' !! b = Some (mk_page (set_root 0 hdrb) (i_pair pgb)) ->
     m_pages s' !! b' = Some (mk_page h (mk ([(ka, o); (kr, b)] ++ replicate 335 (0, 0)))) ->
     h = mk_hdr 1 0 1 b' 0 0 INDEX_NODE_USED ->
     (forall x, x <> o -> x <> b -> x <> b' -> m_pages s' !! x = m_pages s !! x) ->
     m_key_count s' = m_key_count s -> m_root (m_ondisk s') = b' -> m_size s' = m_size s - 96 ->
     Q (mk_node (set_root 0 hdr) (Some o)) s') ->
  wp (split_root (mk_node hdr (Some o)) (mk_node hdrb (Some b)) (mk [(ka, o)])) Q s.
Proof.
  intros Hsp Hn Hw Hbo Hpo Hpb Hfo Hoo Hfb Hob Hkl Hkr Hlt HQ. unfold split_root, B_iALLOC.
  eapply new_node_bind with (n := n) (r := r) (os := [b; o]) (l := l); [done|done|done|by left|].
  intros b' n1 s1 Hw1 Hn1 Hb' _ Est Ek Er Es Ep. assert (b' <> o) by set_solver. assert (b' <> b) by set_solver.
  pose proof (world_range _ _ _ _ _ o Hw1 ltac:(left; set_solver)) as Hro.
  pose proof (world_range _ _ _ _ _ b Hw1 ltac:(left; set_solver)) as Hrb.
  hdr_simpl.
  wp_step. eapply key_get_wp with (k := kl); [done|rewrite Ep; pg_lookup|done|].
  wp_step. eapply key_get_wp with (k := kr); [done|rewrite Ep; pg_lookup|done|].
  wp_step. apply wp_lift with ka; [done|]. rewrite Hoo, Hob, !u32_off, key_compare_lt by done.
  replace (kl <? kr) with true by (symmetry; by apply Z.ltb_lt).
  wp_step. eapply update_pair_wp; [done|cbn; rewrite Ep; pg_lookup| |].
  { rewrite fresh_pair.
    assert (replicate (Z.to_nat FANOUT) (0, 0) = [] ++ (0, 0) :: ((0, 0) :: replicate 335 (0, 0))) as -> by reflexivity.
    cbn beta iota. rewrite set_pair by done. cbn [mbind option_bind app].
    change ((ka, o) :: (0, 0) :: replicate 335 (0, 0)) with ([(ka, o)] ++ (0, 0) :: replicate 335 (0, 0)).
    rewrite set_pair by done. reflexivity. }
  hdr_simpl. unfold set_m_root. wp_steps.
  eapply write_node_wp; [done|cbn; rewrite Ep; pg_lookup|done|]. wp_steps.
  eapply write_node_wp; [done|cbn; rewrite Ep; pg_lookup|by unfold flag_ok; cbn; rewrite Hfo|]. wp_steps.
  eapply write_node_wp; [done|cbn; rewrite Ep; pg_lookup|by unfold flag_ok; cbn; rewrite Hfb|].
  unfold bp_release_node. wp_steps.
  eapply (HQ b' n1); [done|done|done| |cbn; rewrite Ep; pg_lookup|cbn; rewrite Ep; pg_lookup|cbn; rewrite Ep; pg_lookup|done| |done|done|].
  - eapply world_frame; [exact Hw1|done|done|]. intros x Hx. rewrite !not_elem_of_cons in Hx.
    destruct Hx as (? & ? & ? & _). cbn. by rewrite !lookup_insert_ne by congruence.
  - intros x Hx1 Hx2 Hx3. cbn. rewrite Ep. by rewrite !lookup_insert_ne by congruence.
  - cbn. unfold SIZEOF_KEY_PAIR, SIZEOF_INDEX_NODE. lia.
Qed.

End ops.
End BpSplit.
