(* ===== verification/BpUp.v ===== *)
(** * B+tree: the way up of an insertion

    [BpGrow] is one level of the way up, [BpUp] all levels and the whole operation,
    [BpLeafSplit] a full leaf below an inner node. *)
From stdpp Require Import sorting.
From S2P Require Import Prelude Bitmap Arr BpTree BpTreeOps BpPairs BpTreeSpec BpSearch BpSplit.
Import Arr BpTree BpTreeOps BpPairs BpAlloc BpTreeSpec BpSearch BpWorld BpInsert BpSplit.

(** ** Insertion into a B+tree: the way up *)
Module BpGrow.

#[local] Arguments replicate : simpl never.

Section ops.
Context {D : Type} `{BlockMap D}.
Implicit Types s : tree D.

Lemma sorted_nonzero lo hi (l : list (Z * Z)) :
  0 <= lo -> Forall (fun p => lo < p.1 <= hi) l -> Forall (fun p => p.1 <> 0) l.
Proof. intros Hlo Hf. eapply Forall_impl; [exact Hf|]. simpl. intros; lia. Qed.

(** src/nvfuse_bp_tree.c: bp_split_tree, the branch for a split inner child *)
Lemma insert_child_wp r fo pgf l1 fk o l2 ka kb b hdrb pgb s
    (Q : node * option node * key_pair -> tree D -> Prop) :
  m_pages s !! fo = Some pgf -> page_ok r fo (DNode (l1 ++ (fk, o) :: l2)) pgf ->
  m_pages s !! b = Some pgb -> aget (i_key (i_pair pgb)) (i_num hdrb) = Some kb ->
  flag_ok hdrb = true -> i_offset hdrb = b -> 0 < b < max_blocks -> is_s32 o ->
  Forall (fun p => is_s32 p.2 /\ p.2 <> o) (l1 ++ l2) ->
  Forall (fun p => p.1 <> 0 /\ p.1 < ka) l1 -> 0 < ka -> ka < (if kb <? fk then fk else kb) ->
  Forall (fun p => (if kb <? fk then fk else kb) < p.1) l2 ->
  StronglySorted plt (l1 ++ l2) ->
  (forall d, Z.of_nat (length ((l1 ++ (ka, o) :: (if kb <? fk then fk else kb, b) :: l2) ++ d)) = FANOUT + 1 ->
     wp (bp_split_index_node (mk_node (set_num (Z.of_nat (length (l1 ++ l2)) + 1) (p_hdr pgf)) (Some fo))
           (mk ((l1 ++ (ka, o) :: (if kb <? fk then fk else kb, b) :: l2) ++ d))
           (num (mk_node (set_num (Z.of_nat (length (l1 ++ l2)) + 1) (p_hdr pgf)) (Some fo)) + 1) (pair_zero 1)) Q
        (add_size (-96) (set_page b (mk_page hdrb (i_pair pgb)) s))) ->
  wp (insert_child (mk_node (p_hdr pgf) (Some fo)) (mk_node hdrb (Some b)) (pair_zero (FANOUT + 1)) (mk [(ka, o)])) Q s.
Proof.
  intros Hpf (_ & _ & _ & Hn & rest & Hlr & Hpair) Hpb Hkb Hfb Hob Hb Ho Hoff H1 Hka Hkk H2 Hs HQ.
  set (key' := if kb <? fk then fk else kb) in *.
  assert (length (l1 ++ (fk, o) :: l2) = S (length (l1 ++ l2))) as Hlen by (rewrite !length_app; simpl; lia).
  assert (Z.of_nat (length (l1 ++ l2)) + 1 <= FANOUT) as Hle by (rewrite length_app, Hlen in Hlr; lia).
  unfold insert_child. hdr_simpl. rewrite Hn, Hlen. replace (Z.of_nat (S (length (l1 ++ l2))) - 1 + 1) with (Z.of_nat (length (l1 ++ l2)) + 1) by lia.
  wp_step. eapply load_pair_wp; [done|exact Hpf|].
  wp_step. apply wp_lift with ka; [done|]. wp_step. apply wp_lift with o; [done|].
  rewrite Hpair. rewrite FANOUT_eq in Hle. change (pair_zero (FANOUT + 1)) with (pair_zero (Z.of_nat 338)). rewrite zero_pairs.
  set (m := length (l1 ++ l2)) in *.
  replace (replicate 338 (0, 0)) with (replicate m (0, 0) ++ replicate (S (S (336 - m))) (0, 0) : list (Z * Z))
    by (rewrite <- replicate_add; f_equal; lia).
  wp_step. eapply wp_lift.
  { rewrite <- app_assoc. cbn [app]. apply (extract_spec l1 fk o l2 rest).
    - unfold m. lia.
    - by rewrite length_replicate.
    - done.
    - done. }
  cbn beta iota. wp_step. eapply wp_lift.
  { change (replicate (S (S (336 - m))) (0, 0)) with ((0, 0) :: (replicate (S (336 - m)) (0, 0)) : list (Z * Z)).
    apply (merge_key2_spec l1 l2 (0, 0)); [done| |unfold m; lia|done].
    eapply Forall_impl; [exact H2|]. simpl. intros; lia. }
  wp_step. eapply key_get_wp with (k := kb); [done|exact Hpb|done|].
  rewrite key_compare_gt. fold key'. rewrite Hob, u32_off by done. wp_step. eapply wp_lift.
  { change (replicate (S (336 - m)) (0, 0)) with ((0, 0) :: (replicate (336 - m) (0, 0)) : list (Z * Z)).
    replace (l1 ++ (ka, o) :: l2 ++ (0, 0) :: replicate (336 - m) (0, 0))
      with ((l1 ++ [(ka, o)]) ++ l2 ++ (0, 0) :: replicate (336 - m) (0, 0)) by by rewrite <- app_assoc.
    apply merge_key2_spec; [|done| |done].
    - apply Forall_app. split; [|constructor; [simpl; lia|constructor]].
      eapply Forall_impl; [exact H1|]. simpl. intros; lia.
    - unfold m. rewrite !length_app. simpl. lia. }
  set (ks := l1 ++ (ka, o) :: (key', b) :: l2).
  assert (length ks = S (S m)) as Hks by (unfold ks, m; rewrite !length_app; simpl; lia).
  replace ((l1 ++ [(ka, o)]) ++ (key', b) :: l2 ++ replicate (336 - m) (0, 0)) with (ks ++ replicate (336 - m) (0, 0))
    by (unfold ks; by rewrite <- !app_assoc).
  wp_step. eapply wp_lift.
  { apply (bubble_sort_to ks ks); [rewrite Hks; lia| |done].
    unfold ks. apply sorted_app in Hs as (Hs1 & Hs2 & Hs12). apply sorted_app. split; [done|]. split.
    - apply sorted_cons. split; [apply sorted_cons; split; [done|]|].
      + eapply Forall_impl; [exact H2|]. unfold plt. simpl. done.
      + constructor; [done|]. eapply Forall_impl; [exact H2|]. unfold plt. simpl. intros; lia.
    - rewrite Forall_forall in *. intros x Hx. specialize (H1 x Hx). simpl in H1.
      constructor; [unfold plt; simpl; lia|]. constructor; [unfold plt; simpl; lia|]. by apply Hs12. }
  wp_step. eapply write_node_wp; [done|exact Hpb|done|]. unfold bp_release_node. wp_steps.
  apply HQ. fold ks. rewrite length_app, Hks, length_replicate. rewrite FANOUT_eq. lia.
Qed.

(** ** Children of an overflowing node *)

Lemma lkids_kids (P : Z -> Z -> bt -> Prop) lo m l : l <> [] -> lkids P lo m l -> kids P lo m l.
Proof.
  revert lo. induction l as [|[k t] l IH]; intros lo Hne; [done|]. simpl. intros (Hk & HP & Hl).
  split; [done|]. destruct l as [|c l]; [simpl in Hl; subst; split; [lia|done]|].
  split; [done|]. by apply IH.
Qed.

Lemma kids_halves P lo hi ca ka ta cb kb tb :
  kids P lo hi ((ca ++ [(ka, ta)]) ++ (cb ++ [(kb, tb)])) ->
  kids P lo ka (ca ++ [(ka, ta)]) /\ kids P ka hi (cb ++ [(kb, tb)]) /\ lo < ka /\ ka < kb /\ kb <= hi.
Proof.
  intros Hk. apply kids_app in Hk as (m & Hl & Hr); [|by destruct cb].
  pose proof Hl as Hl'. apply lkids_app in Hl' as (m' & Hl1 & Hl2). simpl in Hl2. destruct Hl2 as (Hm & _ & ->).
  pose proof Hr as Hr'. apply kids_app in Hr' as (m2 & Hr1 & Hr2); [|done]. simpl in Hr2.
  apply lkids_le in Hl1, Hr1. destruct Hr2 as (? & ? & _).
  split; [apply lkids_kids; [by destruct ca|done]|]. split; [done|]. lia.
Qed.

(** The children of the node above after its child was split. *)
Lemma kids_replace h lo hi m f o b ca ka ta cb kb tb :
  lkids (shape (S h)) lo m (f_left f) -> m < f_key f ->
  match f_right f with [] => f_key f <= hi | _ => kids (shape (S h)) (f_key f) hi (f_right f) end ->
  (1 <= length ca)%nat -> (1 <= length cb)%nat ->
  kids (shape h) m (match f_right f with [] => hi | _ => f_key f end) ((ca ++ [(ka, ta)]) ++ (cb ++ [(kb, tb)])) ->
  let key' := if kb <? f_key f then f_key f else kb in
  kids (shape (S h)) lo hi (f_left f ++ (ka, Node o (ca ++ [(ka, ta)])) :: (key', Node b (cb ++ [(kb, tb)])) :: f_right f) /\
  m < ka /\ ka < key' /\ (f_right f <> [] -> key' = f_key f).
Proof.
  intros Hl Hm Hr Hla Hlb Hk key'. apply kids_halves in Hk as (Ha & Hb & Hlo & Hab & Hbh).
  assert (ka < key') by (unfold key'; destruct (Z.ltb_spec kb (f_key f)); lia).
  assert (f_right f <> [] -> key' = f_key f) as Hkey.
  { unfold key'. destruct (f_right f); [done|]. intros _. destruct (Z.ltb_spec kb (f_key f)); lia. }
  split; [|done]. apply kids_app; [done|]. exists m. split; [done|].
  cbn [kids]. split; [done|]. split.
  { cbn [shape]. split; [rewrite length_app; simpl; lia|done]. }
  split; [done|]. destruct (f_right f) as [|c r] eqn:E.
  - split; [unfold key'; destruct (Z.ltb_spec kb (f_key f)); lia|]. cbn [shape]. split; [rewrite length_app; simpl; lia|done].
  - rewrite Hkey by done. split; [|done]. cbn [shape]. split; [rewrite length_app; simpl; lia|done].
Qed.

Lemma kos_offs p cs : p ∈ kos cs -> p.2 ∈ (cmap nodes cs).*1.
Proof.
  induction cs as [|[k t] cs IH]; simpl; [intros ?; set_solver|]. rewrite cmap_cons, fmap_app, elem_of_app.
  intros [->|Hp]%elem_of_cons; [|right; by apply IH]. left. simpl. destruct (nodes_top t) as [d Hd].
  by apply (list_elem_of_fmap_2 fst) in Hd.
Qed.

(** ** The way up *)

(** What bp_split_tree does after its loop. *)
Definition finish (ip : node) (new_child : option node) (median : key_pair) : M (tree D) unit :=
  (match new_child with Some nc => split_root ip nc median;; mret tt | None => mret tt end);;
  bp_release_node.

(** The result: a tree with the entries [e] and the leaves [L]. *)
Definition grown s n (p : nat) (e : list (Z * Z)) (L : list Z) s' : Prop :=
  exists n' h t, world s' n' (m_root (m_ondisk s')) [] (nodes t) /\ shape h 0 KEY_MAX t /\
    toff t = m_root (m_ondisk s') /\ leaves t = L /\ chain (m_pages s') 0 L /\ ents t = e /\
    n <= n' <= n + Z.of_nat p + 2 /\ m_size s' = m_size s - 96 /\ m_key_count s' = m_key_count s.

Lemma split_loop_done fuel ip b pg med s (Q : node * option node * key_pair -> tree D -> Prop) :
  i_bh ip = Some b -> m_pages s !! b = Some pg -> flag_ok (n_hdr ip) = true ->
  Q (ip, None, med) (set_page b (mk_page (n_hdr ip) (i_pair pg)) s) -> wp (split_loop fuel ip None med) Q s.
Proof.
  intros Hb Hp Hf HQ. destruct fuel; simpl; wp_step; (eapply write_node_wp; [done|exact Hp|done|]);
    unfold m_sp; by wp_steps.
Qed.

(** The node fits: the tree is complete. *)
Lemma up_room_wp r p o cs hdr q pg rest fuel lo hi h n med s (Q : unit -> tree D -> Prop) :
  world s n r [o] (cmap nodes cs ++ fnodes p o) -> m_root (m_ondisk s) = r ->
  i_root hdr = (if o =? r then 1 else 0) -> i_offset hdr = o -> i_flag hdr = 0 ->
  i_num hdr = Z.of_nat (length cs) - 1 -> Z.of_nat (length cs) <= FANOUT -> (2 <= length cs)%nat ->
  m_pages s !! o = Some pg -> i_pair pg = mk q -> Z.of_nat (length q) = FANOUT ->
  kids (shape h) lo hi cs -> ctx p (S h) lo hi -> toff (plug p (Node o cs)) = r ->
  chain (m_pages s) 0 (pre leaves p ++ cmap leaves cs ++ post leaves p) ->
  (forall s', grown s n (length p) (pre ents p ++ cmap ents cs ++ post ents p)
                (pre leaves p ++ cmap leaves cs ++ post leaves p) s' -> Q tt s') ->
  wp (bp_split_index_node (mk_node hdr (Some o)) (mk (kos cs ++ rest)) (num (mk_node hdr (Some o)) + 1) med)
     (fun x => wp (let '(ip, nc, med) := x in split_loop fuel ip nc med)
        (fun x => wp (let '(ip, nc, med) := x in finish ip nc med) Q)) s.
Proof.
  intros Hw Hr Hroot Hoff Hflag Hnum Hfan H2 Hp Hpair Hq Hk Hc Htop Hch HQ.
  eapply split_room_wp; [exact Hp|exact Hpair|done|by rewrite length_kos|by rewrite length_kos|].
  intros q2 Hq2. eapply split_loop_done; [done|cbn; apply lookup_insert_eq|by unfold flag_ok; cbn; rewrite Hflag|].
  rewrite set_page_twice. unfold finish, bp_release_node. wp_steps. apply HQ.
  exists n, (S h + length p)%nat, (plug p (Node o cs)). cbn [m_ondisk set_page add_size m_pages m_size m_key_count].
  assert (forall x, x ∈ pre leaves p ++ cmap leaves cs ++ post leaves p -> x ∈ (cmap nodes cs ++ fnodes p o).*1) as Hsub.
  { intros x. rewrite fmap_app, !elem_of_app. intros [Hx|[Hx|Hx]].
    - right. apply path_leaves_nodes. by left.
    - left. by apply cmap_leaves_nodes.
    - right. apply path_leaves_nodes. by right. }
  split_and!.
  - rewrite Hr. eapply world_perm; [done| |].
    + symmetry. etrans; [apply nodes_plug|]. rewrite nodes_node. reflexivity.
    + cbn [toff]. eapply world_close; [cbn; apply lookup_insert_eq| |].
      * apply (node_page_ok _ _ _ _ _ q2); try done. rewrite length_kos. done.
      * eapply world_frame; [exact Hw|done|done|]. intros x Hx. cbn. rewrite lookup_insert_ne; [done|]. set_solver.
  - eapply ctx_plug; [done|]. split; done.
  - by rewrite Hr.
  - rewrite leaves_plug. done.
  - apply chain_set; [|done]. intros Hin. apply Hsub in Hin. apply (world_notin _ _ _ _ _ o Hw); [set_solver|done].
  - rewrite ents_plug. done.
  - lia.
  - lia.
  - unfold SIZEOF_KEY_PAIR, SIZEOF_INDEX_NODE. lia.
  - done.
Qed.

Lemma sorted_last_key ks x rest i k v :
  StronglySorted plt (ks ++ [x]) -> i = Z.of_nat (length ks) - 1 -> last ks = Some (k, v) ->
  aget (i_key (mk ((ks ++ [x]) ++ rest))) i = Some k /\ k < x.1.
Proof.
  intros Hs -> Hl. destruct ks as [|y ks _] using rev_ind; [done|]. rewrite last_snoc in Hl. simplify_eq.
  split.
  - rewrite <- !app_assoc. cbn [app]. apply get_key. rewrite length_app. simpl. lia.
  - apply sorted_app in Hs as (_ & _ & Hs). apply Forall_app in Hs as [_ Hs].
    apply Forall_cons in Hs as [Hs _]. by apply Forall_cons in Hs as [Hs _].
Qed.

Lemma last_exists {A} (l : list A) : (1 <= length l)%nat -> exists x, last l = Some x.
Proof. intros Hl. destruct l as [|x l _] using rev_ind; [simpl in Hl; lia|]. exists x. apply last_snoc. Qed.

(** The root itself was split. *)
Lemma up_root_wp r o b cs hdr pga pgb ca ka ta cb kb tb h n med s (Q : unit -> tree D -> Prop) :
  has_space -> n < max_blocks -> world s n r [b; o] (cmap nodes cs) -> b <> o -> r = o ->
  cs = (ca ++ [(ka, ta)]) ++ (cb ++ [(kb, tb)]) -> length ca = 168%nat -> length cb = 168%nat ->
  m_pages s !! o = Some pga -> i_pair pga = mk ((kos ca ++ [(ka, toff ta)]) ++ replicate 168 (0, 0)) ->
  m_pages s !! b = Some pgb -> i_pair pgb = mk (kos (cb ++ [(kb, tb)]) ++ replicate 168 (0, 0)) ->
  i_offset hdr = o -> i_flag hdr = 0 -> i_num hdr = 168 -> i_root hdr = 0 ->
  kids (shape h) 0 KEY_MAX cs -> chain (m_pages s) 0 (cmap leaves cs) -> med = mk [(ka, o)] ->
  (forall s', (exists n' h t, world s' n' (m_root (m_ondisk s')) [] (nodes t) /\ shape h 0 KEY_MAX t /\
       toff t = m_root (m_ondisk s') /\ leaves t = cmap leaves cs /\ chain (m_pages s') 0 (cmap leaves cs) /\
       ents t = cmap ents cs /\ n <= n' <= n + 1 /\ m_size s' = m_size s - 192 /\ m_key_count s' = m_key_count s) ->
     Q tt s') ->
  wp (finish (mk_node hdr (Some o)) (Some (mk_node (mk_hdr 0 0 168 b 0 0 INDEX_NODE_USED) (Some b))) med) Q s.
Proof.
  intros Hsp Hn Hw Hbo Hro Hcs Hla Hlb Hpo Hpair Hpb Hpairb Hoff Hflag Hnum Hroot Hk Hch -> HQ.
  pose proof (kids_sorted _ _ _ _ Hk) as [Hs _]. rewrite Hcs, kos_app in Hs.
  rewrite Hcs in Hk. apply kids_halves in Hk as (Hka & Hkb & Hlo & Hab & Hbh).
  apply sorted_app in Hs as (Hsa & Hsb & Hsab). rewrite !kos_app in Hsa, Hsb. cbn [kos fmap list_fmap] in Hsa, Hsb.
  change (prod_map id toff (ka, ta)) with (ka, toff ta) in Hsa. change (prod_map id toff (kb, tb)) with (kb, toff tb) in Hsb.
  destruct (last_exists (kos ca)) as ([kl vl] & Hkl); [rewrite length_kos; lia|].
  destruct (last_exists (kos cb)) as ([kr vr] & Hkr); [rewrite length_kos; lia|].
  destruct (sorted_last_key (kos ca) (ka, toff ta) (replicate 168 (0, 0)) 167 kl vl Hsa) as [Hgl Hll];
    [rewrite length_kos, Hla; done|done|].
  destruct (sorted_last_key (kos cb) (kb, toff tb) (replicate 168 (0, 0)) 167 kr vr Hsb) as [Hgr Hlr];
    [rewrite length_kos, Hlb; done|done|]. simpl in Hll, Hlr.
  assert (ka < kr) as Hakr.
  { pose proof (kids_sorted _ _ _ _ Hkb) as [_ Hf]. rewrite Forall_forall in Hf.
    apply last_Some in Hkr as [l' Hl']. rewrite kos_app, Hl' in Hf. apply (Hf (kr, vr)). set_solver. }
  unfold finish. wp_step. wp_step.
  eapply split_root_wp with (n := n) (r := r) (l := cmap nodes cs) (kl := kl) (kr := kr);
    [done|done|exact Hw|done|exact Hpo|exact Hpb|done|done|done|done| | |lia|].
  { rewrite Hpair, Hnum. exact Hgl. }
  { rewrite Hpairb, kos_app. exact Hgr. }
  intros b' n' s' h' Hn' Hb'o Hb'b Hw' Ho' Hb2 Hb' -> Hother Ek Er Es.
  unfold bp_release_node. wp_steps. apply HQ.
  exists n', (S (S h)), (Node b' [(ka, Node o (ca ++ [(ka, ta)])); (kr, Node b (cb ++ [(kb, tb)]))]).
  assert (forall x, x ∈ [b'; b; o] -> x ∉ (cmap nodes cs).*1) as Hnotin by (intros x Hx; by eapply world_notin).
  assert (leaves (Node b' [(ka, Node o (ca ++ [(ka, ta)])); (kr, Node b (cb ++ [(kb, tb)]))]) = cmap leaves cs) as Hlv
    by (rewrite Hcs, cmap_app; cbn [leaves map concat]; rewrite app_nil_r; done).
  split_and!.
  - cbn. rewrite Er. cbn [nodes map concat].
    eapply world_close; [cbn; exact Hb'| |].
    { apply (node_page_ok _ _ _ _ [(ka, o); (kr, b)] (replicate 335 (0, 0))); try done. cbn. by rewrite Z.eqb_refl. }
    eapply world_perm; [done| |].
    { rewrite app_nil_r. change (concat (map (fun c => nodes c.2) (ca ++ [(ka, ta)]))) with (cmap nodes (ca ++ [(ka, ta)])).
      change (concat (map (fun c => nodes c.2) (cb ++ [(kb, tb)]))) with (cmap nodes (cb ++ [(kb, tb)])).
      etrans; [|apply perm_skip, Permutation_middle]. rewrite <- cmap_app, <- Hcs. reflexivity. }
    eapply world_close; [cbn; exact Ho'| |].
    { rewrite Hpair, kos_app. apply (node_page_ok _ _ _ _ _ (replicate 168 (0, 0))); try done.
      - cbn. symmetry. destruct (Z.eqb_spec o b'); congruence.
      - cbn. rewrite Hnum, length_app, length_kos, Hla. done.
      - rewrite !length_app, length_kos, Hla. done. }
    eapply world_close; [cbn; exact Hb2| |].
    { rewrite Hpairb. apply (node_page_ok _ _ _ _ _ (replicate 168 (0, 0))); try done.
      - cbn. symmetry. destruct (Z.eqb_spec b b'); congruence.
      - cbn. rewrite length_kos, length_app, Hlb. done.
      - rewrite !length_app, length_kos, length_app, Hlb. done. }
    apply (world_root _ _ r); [apply Hnotin; set_solver|apply Hnotin; set_solver|].
    eapply world_perm; [|done|]; [|eapply world_frame; [exact Hw'|done|done|done]]. solve_Permutation.
  - cbn [shape kids]. split; [simpl; lia|]. split; [lia|]. split; [split; [rewrite length_app, Hla; simpl; lia|exact Hka]|].
    split; [lia|]. split; [lia|]. split; [rewrite length_app, Hlb; simpl; lia|exact Hkb].
  - cbn. done.
  - exact Hlv.
  - cbn. eapply chain_ext; [|exact Hch]. intros x Hx. apply Hother.
    + intros ->. apply (Hnotin o); [set_solver|by apply cmap_leaves_nodes].
    + intros ->. apply (Hnotin b); [set_solver|by apply cmap_leaves_nodes].
    + intros ->. apply (Hnotin b'); [set_solver|by apply cmap_leaves_nodes].
  - rewrite Hcs, cmap_app. cbn [ents map concat]. rewrite app_nil_r. done.
  - lia.
  - lia.
  - cbn. rewrite Es. unfold SIZEOF_KEY_PAIR, SIZEOF_INDEX_NODE. lia.
  - cbn. done.
Qed.

End ops.
End BpGrow.

(** ** Insertion into a B+tree: all levels, and the whole operation *)
Import Arr BpTree BpTreeOps BpPairs BpAlloc BpTreeSpec BpSearch BpWorld BpInsert BpSplit BpGrow.

Module BpUp.

#[local] Arguments replicate : simpl never.

Section ops.
Context {D : Type} `{BlockMap D}.
Implicit Types s : tree D.

Lemma path_sub p c cs x :
  x ∈ pre leaves p ++ cmap leaves cs ++ post leaves p -> x ∈ (cmap nodes cs ++ fnodes p c).*1.
Proof.
  rewrite fmap_app, !elem_of_app. intros [Hx|[Hx|Hx]].
  - right. apply path_leaves_nodes. by left.
  - left. by apply cmap_leaves_nodes.
  - right. apply path_leaves_nodes. by right.
Qed.

(** The root is a frame of every path that is not empty. *)
Lemma toff_plug_in p : forall f t c, toff (plug (f :: p) t) ∈ (fnodes (f :: p) c).*1.
Proof.
  induction p as [|g p IH]; intros f t c.
  - apply elem_of_cons. by left.
  - cbn [fnodes fmap list_fmap]. apply elem_of_cons. right. rewrite !fmap_app, !elem_of_app. right. right.
    apply (IH g (fill f t) (f_off f)).
Qed.

(** What is collected from the leaves does not see the split. *)
Lemma collect_split {A} (g : bt -> list A) f p o b ka key' ca cb cs :
  (forall x l, g (Node x l) = cmap g l) -> cs = ca ++ cb ->
  pre g p ++ cmap g (f_left f ++ (ka, Node o ca) :: (key', Node b cb) :: f_right f) ++ post g p =
  pre g (f :: p) ++ cmap g cs ++ post g (f :: p).
Proof.
  intros Hg ->. rewrite !cmap_app, !cmap_cons, !Hg. cbn [pre post]. by rewrite <- !app_assoc.
Qed.

(** The world after the halves of a child were written and their parent opened. *)
Lemma world_up s s' n r o b f p cs ca cb d pga pgb :
  world s n r [b; o] (cmap nodes cs ++ (f_off f, d) :: cmap nodes (f_left f) ++ cmap nodes (f_right f) ++ fnodes p (f_off f)) ->
  cs = ca ++ cb -> m_pages s' !! o = Some pga -> page_ok r o (DNode (kos ca)) pga ->
  m_pages s' !! b = Some pgb -> page_ok r b (DNode (kos cb)) pgb ->
  same_alloc (m_ondisk s) (m_ondisk s') -> m_isize s' = m_isize s ->
  (forall x, x ∉ [b; o] -> m_pages s' !! x = m_pages s !! x) -> forall ka key',
  world s' n r [f_off f] (cmap nodes (f_left f ++ (ka, Node o ca) :: (key', Node b cb) :: f_right f) ++ fnodes p (f_off f)).
Proof.
  intros Hw -> Ho Hoko Hb Hokb Hal Hi Hp ka key'.
  assert (world s' n r [o; b; f_off f] (cmap nodes (ca ++ cb) ++ cmap nodes (f_left f) ++ cmap nodes (f_right f) ++ fnodes p (f_off f))) as Hw'.
  { eapply (world_perm _ _ _ [f_off f; b; o]); [solve_Permutation|reflexivity|]. apply world_open with (d := d).
    eapply world_frame; [|exact Hal|exact Hi|exact Hp]. eapply world_perm; [reflexivity| |exact Hw].
    symmetry. apply Permutation_middle. }
  eapply world_close in Hw'; [|exact Ho|exact Hoko]. eapply world_close in Hw'; [|exact Hb|exact Hokb].
  eapply world_perm; [reflexivity| |exact Hw'].
  rewrite !cmap_app, !cmap_cons, !nodes_node. solve_Permutation.
Qed.

(** src/nvfuse_bp_tree.c: bp_split_tree from the first inner node on *)
Lemma up_wp r p : forall s n o cs hdr q pg rest fuel lo hi h med (Q : unit -> tree D -> Prop),
  has_space -> n + Z.of_nat (length p) + 2 <= max_blocks ->
  world s n r [o] (cmap nodes cs ++ fnodes p o) -> m_root (m_ondisk s) = r ->
  i_root hdr = (if o =? r then 1 else 0) -> i_offset hdr = o -> i_flag hdr = 0 ->
  i_num hdr = Z.of_nat (length cs) - 1 -> Z.of_nat (length (kos cs ++ rest)) = FANOUT + 1 -> (2 <= length cs)%nat ->
  m_pages s !! o = Some pg -> i_pair pg = mk q -> Z.of_nat (length q) = FANOUT ->
  kids (shape h) lo hi cs -> ctx p (S h) lo hi -> toff (plug p (Node o cs)) = r ->
  m_stack s = f_off <$> p -> (length p <= fuel)%nat ->
  chain (m_pages s) 0 (pre leaves p ++ cmap leaves cs ++ post leaves p) ->
  (forall s', grown s n (length p) (pre ents p ++ cmap ents cs ++ post ents p)
                (pre leaves p ++ cmap leaves cs ++ post leaves p) s' -> Q tt s') ->
  wp (bp_split_index_node (mk_node hdr (Some o)) (mk (kos cs ++ rest)) (num (mk_node hdr (Some o)) + 1) med)
     (fun x => wp (let '(ip, nc, med) := x in split_loop fuel ip nc med)
        (fun x => wp (let '(ip, nc, med) := x in finish ip nc med) Q)) s.
Proof.
  induction p as [|f p IH]; intros s n o cs hdr q pg rest fuel lo hi h med Q
    Hsp Hn Hw Hr Hroot Hoff Hflag Hnum Hlen H2 Hp Hpair Hq Hk Hc Htop Hst Hf Hch HQ;
    (destruct (Z.le_gt_cases (Z.of_nat (length cs)) FANOUT) as [Hroom|Hfull];
      [by eapply up_room_wp|]).
  - (* the root *)
    assert (Z.of_nat (length cs) = FANOUT + 1) as Hcs by (rewrite length_app, length_kos in Hlen; lia).
    destruct (child_halves cs Hcs) as (ca & ka & ta & cb & kb & tb & E & Hla & Hlb).
    inversion Hc; subst lo hi. cbn [fnodes plug toff] in *. rewrite app_nil_r in Hw.
    assert (kos cs ++ rest = ((kos ca ++ [(ka, toff ta)]) ++ kos (cb ++ [(kb, tb)])) ++ rest) as ->
      by (rewrite E, !kos_app; done).
    eapply split_full_wp with (n := n) (r := r) (l := cmap nodes cs); [done|simpl in Hn; lia|exact Hw|exact Hp|exact Hpair|done| |done| | |].
    { rewrite Hnum. lia. }
    { rewrite length_app, length_kos in *. done. }
    { by rewrite length_kos. }
    intros b n' s' pga pgb Hn' Hbo Hw' Hpa Hpaira Hpb Hpairb Hoth Est Ek Er Es.
    destruct fuel as [|fuel]; simpl; wp_step; (eapply write_node_wp; [done|exact Hpa|by unfold flag_ok; cbn; rewrite Hflag|]);
      unfold m_sp; wp_steps; cbn; rewrite Est, Hst; cbn; wp_steps.
    all: eapply (up_root_wp r o b cs _ _ pgb ca ka ta cb kb tb h n'); [done|simpl in Hn; lia|by apply world_set; [|set_solver]|done|by symmetry|exact E| | |
        cbn; apply lookup_insert_eq|exact Hpaira|cbn; rewrite lookup_insert_ne by done; exact Hpb|exact Hpairb|exact Hoff|exact Hflag|done|done|exact Hk| |done|].
    all: try (rewrite length_app in *; simpl in *; lia).
    all: try (cbn; eapply chain_ext; [|cbn in Hch; rewrite app_nil_r in Hch; exact Hch]; intros x Hx;
      apply cmap_leaves_nodes in Hx;
      assert (x <> o) by (intros ->; by apply (world_notin _ _ _ _ _ o Hw'); [set_solver|]);
      assert (x <> b) by (intros ->; by apply (world_notin _ _ _ _ _ b Hw'); [set_solver|]);
      rewrite lookup_insert_ne by done; by apply Hoth).
    all: intros s3 (n3 & h3 & t3 & G1 & G2 & G3 & G4 & G5 & G6 & G7 & G8 & G9); apply HQ;
      exists n3, h3, t3; cbn [pre post app length]; rewrite !app_nil_r; cbn in G8, G9; split_and!; try done; try congruence; simpl; lia.
  - (* an inner node: its parent takes the halves *)
    assert (Z.of_nat (length cs) = FANOUT + 1) as Hcs by (rewrite length_app, length_kos in Hlen; lia).
    destruct (child_halves cs Hcs) as (ca & ka & ta & cb & kb & tb & E & Hla & Hlb).
    inversion Hc as [|f' p' h' lo' hi' m' Hc' Hlk Hmk Hlen' Hrk]; subst f' p' h' m'. clear Hc.
    assert (kos cs ++ rest = ((kos ca ++ [(ka, toff ta)]) ++ kos (cb ++ [(kb, tb)])) ++ rest) as ->
      by (rewrite E, !kos_app; done).
    destruct fuel as [|fuel]; [simpl in Hf; lia|].
    eapply split_full_wp with (n := n) (r := r) (l := cmap nodes cs ++ fnodes (f :: p) o);
      [done|simpl in Hn; lia|exact Hw|exact Hp|exact Hpair|done| |done| | |].
    { rewrite Hnum. lia. }
    { rewrite length_app, length_kos in *. done. }
    { by rewrite length_kos. }
    intros b n' s' pga pgb Hn' Hbo Hw' Hpa Hpaira Hpb Hpairb Hoth Est Ek Er Es.
    assert (o ∈ [b; o] /\ b ∈ [b; o]) as [Hino Hinb] by (rewrite !elem_of_cons; tauto).
    assert ((f_off f, DNode (kos (f_left f) ++ (f_key f, o) :: kos (f_right f))) ∈ cmap nodes cs ++ fnodes (f :: p) o) as Hfin
      by (apply elem_of_app; right; simpl; apply elem_of_cons; by left).
    destruct (holds_at _ _ _ _ _ (w_holds _ _ _ _ _ Hw') Hfin) as (pgf & Hpf & Hokf).
    assert (f_off f <> o /\ f_off f <> b) as [Hfo Hfb].
    { apply (list_elem_of_fmap_2 fst) in Hfin. cbn [fst] in Hfin.
      split; intros E'; [apply (world_notin _ _ _ _ _ o Hw' Hino)|apply (world_notin _ _ _ _ _ b Hw' Hinb)];
        [exact (eq_ind _ (fun x => x ∈ _) Hfin o E')|exact (eq_ind _ (fun x => x ∈ _) Hfin b E')]. }
    rewrite Hst, fmap_cons in Est.
    cbn [split_loop]. wp_step. eapply write_node_wp; [done|exact Hpa|by unfold flag_ok; cbn; rewrite Hflag|].
    unfold m_sp. wp_steps. cbn [set_page m_stack]. rewrite Est.
    destruct (Z.eqb_spec (Z.of_nat (length (f_off f :: (f_off <$> p)))) 0) as [E0|_]; [simpl in E0; lia|].
    change (B_ISROOT (mk_node (set_num 168 (set_root 0 hdr)) (Some o))) with false. cbn [orb]. cbn iota.
    wp_step. eapply pop_wp; [cbn; exact Est|].
    wp_step. eapply read_node_wp; [cbn; rewrite lookup_insert_ne by done; exact Hpf|by eapply page_ok_flag| |].
    { rewrite (page_ok_off _ _ _ _ Hokf). apply (world_range _ _ _ _ _ (f_off f)) in Hw'; [lia|].
      right. apply (list_elem_of_fmap_2 fst) in Hfin. done. }
    pose proof Hk as Hk'. rewrite E in Hk'.
    destruct (kids_replace h lo' hi' lo f o b ca ka ta cb kb tb Hlk Hmk Hrk) as (Hkn & Hmka & Hkk & Hkey);
      [rewrite length_app in Hla; simpl in Hla; lia|rewrite length_app in Hlb; simpl in Hlb; lia|congruence|].
    pose proof (ctx_bounds _ _ _ _ Hc') as [Hlo0 _].
    pose proof (lkids_sorted _ _ _ _ Hlk) as [Hsl Hfl].
    pose proof (kids_sorted _ _ _ _ Hkn) as [Hsn _]. pose proof (lkids_le _ _ _ _ Hlk) as Hlom.
    pose proof Hsn as Hsn'. rewrite kos_app in Hsn'. apply sorted_app in Hsn' as (_ & Hsn1 & Hsn2).
    cbn [kos fmap list_fmap] in Hsn1, Hsn2. fold (kos (f_right f)) in Hsn1, Hsn2. cbn [prod_map id toff fst snd] in Hsn1, Hsn2.
    apply sorted_cons in Hsn1 as [Hsn1 _]. apply sorted_cons in Hsn1 as [Hsr Hgr].
    wp_step. eapply (insert_child_wp r (f_off f) pgf (kos (f_left f)) (f_key f) o (kos (f_right f)) ka kb b _ pgb).
    + cbn. rewrite lookup_insert_ne by done. exact Hpf.
    + exact Hokf.
    + cbn. rewrite lookup_insert_ne by done. exact Hpb.
    + rewrite Hpairb, kos_app, <- app_assoc. apply (get_key (kos cb) kb (toff tb)).
      rewrite length_app in Hlb. simpl in Hlb. rewrite length_kos. cbn. lia.
    + done.
    + done.
    + eapply (world_range _ _ _ _ _ b Hw'); by left.
    + apply offs_ok_s32. eapply (world_range _ _ _ _ _ o Hw'); by left.
    + rewrite <- kos_app. rewrite Forall_forall. intros x Hx. apply kos_offs in Hx.
      assert (x.2 ∈ (cmap nodes cs ++ fnodes (f :: p) o).*1) as Hx'.
      { rewrite fmap_app, elem_of_app. right. cbn [fnodes fmap list_fmap fst]. rewrite elem_of_cons. right.
        rewrite cmap_app, fmap_app in Hx. rewrite !fmap_app, !elem_of_app in *. tauto. }
      split; [apply offs_ok_s32; eapply (world_range _ _ _ _ _ x.2 Hw'); by right|].
      intros E'. apply (world_notin _ _ _ _ _ o Hw' Hino). exact (eq_ind _ (fun x => x ∈ _) Hx' o E').
    + eapply Forall_impl; [exact Hfl|]. simpl. intros; lia.
    + lia.
    + exact Hkk.
    + eapply Forall_impl; [exact Hgr|]. unfold plt. simpl. done.
    + apply sorted_app. split; [done|]. split; [done|]. eapply Forall_impl; [exact Hsn2|].
      intros x Hx. apply Forall_cons in Hx as [_ Hx]. by apply Forall_cons in Hx as [_ Hx].
    + intros d Hd. set (key' := if kb <? f_key f then f_key f else kb) in *.
      set (cs' := f_left f ++ (ka, Node o (ca ++ [(ka, ta)])) :: (key', Node b (cb ++ [(kb, tb)])) :: f_right f).
      assert (kos (f_left f) ++ (ka, o) :: (key', b) :: kos (f_right f) = kos cs') as Ekos
        by (unfold cs'; by rewrite kos_app).
      rewrite Ekos in *.
      match goal with |- wp _ _ ?st => set (s2 := st) end.
      assert (r ∈ (cmap nodes cs ++ fnodes (f :: p) o).*1) as Hrin.
      { rewrite fmap_app, elem_of_app. right. rewrite <- Htop. apply toff_plug_in. }
      assert (o <> r) as Hor by (intros ->; by apply (world_notin _ _ _ _ _ _ Hw' Hino)).
      assert (b <> r) as Hbr by (intros ->; by apply (world_notin _ _ _ _ _ _ Hw' Hinb)).
      assert (world s2 n' r [f_off f] (cmap nodes cs' ++ fnodes p (f_off f))) as Hw2.
      { eapply (world_up s' s2); [exact Hw'|exact E| | | | | | |].
        - unfold s2. cbn. rewrite lookup_insert_ne by done. apply lookup_insert_eq.
        - apply (node_page_ok _ _ _ _ _ (replicate 168 (0, 0))); try done.
          + cbn. by rewrite (proj2 (Z.eqb_neq _ _) Hor).
          + cbn. rewrite length_kos, Hla. done.
          + rewrite !length_app, length_kos, Hla. done.
          + rewrite Hpaira. by rewrite kos_app.
        - unfold s2. cbn. apply lookup_insert_eq.
        - apply (node_page_ok _ _ _ _ _ (replicate 168 (0, 0))); try done.
          + cbn. by rewrite (proj2 (Z.eqb_neq _ _) Hbr).
          + cbn. rewrite length_kos, Hlb. done.
          + rewrite !length_app, length_kos, Hlb. done.
        - done.
        - done.
        - intros x Hx. unfold s2. cbn. rewrite !lookup_insert_ne; [done| |]; intros ->; by apply Hx. }
      assert (length cs' = S (S (length (kos (f_left f) ++ kos (f_right f))))) as Hlcs.
      { unfold cs'. rewrite !length_app, !length_kos. simpl. lia. }
      destruct Hokf as (Hokr & Hoko & Hokfl & Hokn & restf & Hokl & Hokp).
      eapply (IH s2 n' (f_off f) cs' _ _ _ d fuel lo' hi' (S h));
        [done|simpl in Hn |- *; lia|exact Hw2|cbn; congruence|done|done|done|cbn; rewrite Hlcs; lia|exact Hd|lia| |exact Hokp|exact Hokl
        |exact Hkn|exact Hc'| |done|simpl in Hf; lia| |].
      * unfold s2. cbn. rewrite !lookup_insert_ne by congruence. exact Hpf.
      * rewrite <- Htop. cbn [plug]. apply toff_plug. done.
      * unfold cs'. rewrite (collect_split leaves f p o b ka key' _ _ cs) by done.
        eapply chain_ext; [|exact Hch]. intros x Hx. apply path_sub with (c := o) in Hx.
        unfold s2. cbn. rewrite !lookup_insert_ne; [apply Hoth| |]; intros <-;
          first [by apply (world_notin _ _ _ _ _ _ Hw' Hinb)|by apply (world_notin _ _ _ _ _ _ Hw' Hino)].
      * intros s3 (n3 & h3 & t3 & G1 & G2 & G3 & G4 & G5 & G6 & G7 & G8 & G9). apply HQ.
        unfold cs' in G4, G5, G6. rewrite (collect_split leaves f p o b ka key' _ _ cs) in G4, G5 by done.
        rewrite (collect_split ents f p o b ka key' _ _ cs) in G6 by done.
        exists n3, h3, t3. cbn in G8, G9. split_and!; try done; try congruence; simpl length; lia.
Qed.

End ops.
End BpUp.

(** ** Insertion into a B+tree: a full leaf below an inner node

    The leaf keeps the lower half of its entries, a new leaf to its right takes
    the upper half, and the parent gets one more child. *)
Import Arr BpTree BpTreeOps BpPairs BpAlloc BpTreeSpec BpSearch BpWorld BpInsert BpSplit BpGrow BpUp.

Module BpLeafSplit.

#[local] Arguments replicate : simpl never.

(** ** The list of leaves *)

(** The first of the leaves [L] gets a new predecessor. *)
Definition relink (P : gmap Z page) (b : Z) (L : list Z) : gmap Z page :=
  match L with
  | [] => P
  | x :: _ => alter (fun pg => mk_page (set_prev b (p_hdr pg)) (i_pair pg)) x P
  end.

Lemma relink_other P b L x : x ∉ L -> relink P b L !! x = P !! x.
Proof. destruct L as [|y L]; [done|]. intros Hx. simpl. apply lookup_alter_ne. intros ->. apply Hx. by left. Qed.

Lemma relink_same P P' b L x : P !! x = P' !! x -> relink P b L !! x = relink P' b L !! x.
Proof.
  intros E. destruct L as [|y L]; [done|]. simpl. destruct (decide (y = x)) as [->|Hne].
  - by rewrite !lookup_alter_eq, E.
  - by rewrite !lookup_alter_ne.
Qed.

Lemma chain_relink P prev b L : NoDup L -> chain P prev L -> chain (relink P b L) b L.
Proof.
  destruct L as [|x L]; [done|]. intros [Hx _]%NoDup_cons [(pg & H1 & H2 & H3) Hc]. simpl. split.
  - exists (mk_page (set_prev b (p_hdr pg)) (i_pair pg)). by rewrite lookup_alter_eq, H1.
  - eapply chain_ext; [|exact Hc]. intros y Hy. apply lookup_alter_ne. by intros ->.
Qed.

(** A leaf [b] is put behind the leaf [o]. *)
Lemma chain_split P P' prev L1 o b L2 pg pgo pgb :
  NoDup (L1 ++ o :: L2) -> b ∉ L1 ++ L2 -> chain P prev (L1 ++ o :: L2) -> P !! o = Some pg ->
  P' !! o = Some pgo -> i_prev_node (p_hdr pgo) = i_prev_node (p_hdr pg) -> i_next_node (p_hdr pgo) = b ->
  P' !! b = Some pgb -> i_prev_node (p_hdr pgb) = o -> i_next_node (p_hdr pgb) = i_next_node (p_hdr pg) ->
  (forall x, x ∈ L1 ++ L2 -> P' !! x = relink P b L2 !! x) -> chain P' prev (L1 ++ o :: b :: L2).
Proof.
  intros Hnd Hb Hc Hp Ho Eo1 Eo2 Hpb Eb1 Eb2 Hx. revert prev Hc. induction L1 as [|y L1 IH]; intros prev Hc.
  - cbn [app] in *. apply NoDup_cons in Hnd as [Ho2 Hnd]. destruct Hc as [(pg0 & H1 & H2 & H3) Hc]. simplify_eq.
    split; [exists pgo; split; [done|]; split; [congruence|done]|].
    split; [exists pgb; split; [done|]; split; [done|congruence]|].
    eapply chain_ext; [exact Hx|]. by eapply chain_relink.
  - cbn [app] in *. destruct Hc as [(pg0 & H1 & H2 & H3) Hc]. apply NoDup_cons in Hnd as [Hy Hnd]. split.
    + exists pg0. split; [|split; [done|by destruct L1]]. rewrite Hx by (apply elem_of_cons; by left).
      rewrite relink_other; [done|]. intros Hin. apply Hy. rewrite elem_of_app, elem_of_cons. tauto.
    + apply IH; [done| | |done].
      * intros Hin. apply Hb. apply elem_of_cons. by right.
      * intros x Hin. apply Hx. apply elem_of_cons. by right.
Qed.

Lemma leaves_sublist t : leaves t `sublist_of` (nodes t).*1.
Proof.
  revert t. fix IH 1. intros [o es|o cs]; simpl; [done|]. apply sublist_cons.
  induction cs as [|[k t] cs IHc]; simpl; [done|]. rewrite fmap_app. by apply sublist_app.
Qed.

Lemma leaves_nodup t : NoDup (nodes t).*1 -> NoDup (leaves t).
Proof. intros Hn. eapply sublist_NoDup; [exact Hn|apply leaves_sublist]. Qed.

(** ** The children of the parent *)

Lemma kids_lower lo lo' hi cs :
  lo' <= lo -> kids (shape 0) lo hi cs -> kids (shape 0) lo' hi cs.
Proof.
  intros Hl. assert (forall a t, shape 0 lo a t -> shape 0 lo' a t) as Hs.
  { intros a [o es|o c]; simpl; [|done]. intros [Hs Hf]. split; [done|].
    eapply Forall_impl; [exact Hf|]. simpl. intros; lia. }
  destruct cs as [|[k t] cs]; cbn [kids]; [done|]. intros [Hk Hr]. split; [lia|].
  destruct cs as [|c cs]; (split; [|try apply Hs; tauto]); [tauto|apply Hs; tauto].
Qed.

Lemma leaf_kids lo hi m f o b a ka va c kb vb :
  lkids (shape 0) lo m (f_left f) -> m < f_key f ->
  match f_right f with [] => f_key f <= hi | _ => kids (shape 0) (f_key f) hi (f_right f) end ->
  shape 0 m (match f_right f with [] => hi | _ => f_key f end) (Leaf o ((a ++ [(ka, va)]) ++ (c ++ [(kb, vb)]))) ->
  kids (shape 0) lo hi
    (f_left f ++ (ka, Leaf o (a ++ [(ka, va)])) :: (kb, Leaf b (c ++ [(kb, vb)])) :: f_right f) /\ m < ka.
Proof.
  intros Hl Hm Hr Hs. destruct (halves_shape _ _ _ o b _ _ _ _ _ _ Hs) as (Ha & Hb & Hlo & Hab & Hbh).
  split; [|done]. apply kids_app; [done|]. exists m. split; [done|]. cbn [kids]. split; [done|]. split; [done|].
  split; [done|]. destruct (f_right f) as [|x r] eqn:E.
  - split; [done|]. destruct Hb as [Hb1 Hb2]. split; [done|].
    eapply Forall_impl; [exact Hb2|]. simpl. intros; lia.
  - split; [done|]. by eapply kids_lower.
Qed.

Lemma filter_keys (l : list (Z * Z)) : Forall (fun p => p.1 <> 0) l -> filter (fun p : Z * Z => p.1 <> 0) l = l.
Proof. induction 1 as [|x l Hx Hl IH]; [done|]. rewrite filter_cons_True by done. by f_equal. Qed.

(** The pairs of the parent with the two halves in place of the leaf. *)
Lemma parent_pairs l1 l2 rest ka o kb b :
  Forall (fun p => p.1 <> 0 /\ p.1 < ka) l1 -> 0 < ka -> ka < kb -> Forall (fun p => kb < p.1) l2 ->
  Z.of_nat (length (l1 ++ l2)) + 1 <= FANOUT ->
  exists d p1,
    collect_pairs (length (l1 ++ (0, 0) :: l2)) 0 0 (mk (l1 ++ (0, 0) :: l2 ++ rest)) (pair_zero (FANOUT + 1)) =
      Some (p1, Z.of_nat (length (l1 ++ l2))) /\
    (p ← bp_merge_key2 p1 ka o (Z.of_nat (length (l1 ++ l2)) + 1);
     bp_merge_key2 p kb b (Z.of_nat (length (l1 ++ l2)) + 2)) =
      Some (mk ((l1 ++ (ka, o) :: (kb, b) :: l2) ++ d)) /\
    Z.of_nat (length ((l1 ++ (ka, o) :: (kb, b) :: l2) ++ d)) = FANOUT + 1.
Proof.
  rewrite FANOUT_eq. intros H1 Hka Hab H2 Hlen. set (m := length (l1 ++ l2)) in *.
  assert (Forall (fun p => p.1 <> 0) (l1 ++ l2)) as Hnz.
  { apply Forall_app. split; (eapply Forall_impl; [eassumption|]); simpl; intros; lia. }
  assert (filter (fun p : Z * Z => p.1 <> 0) (l1 ++ (0, 0) :: l2) = l1 ++ l2) as Hfil.
  { apply Forall_app in Hnz as [Hn1 Hn2]. rewrite filter_app, filter_cons_False by (simpl; lia).
    f_equal; by apply filter_keys. }
  change (pair_zero (337 + 1)) with (pair_zero (Z.of_nat 338)). rewrite zero_pairs.
  replace (replicate 338 (0, 0)) with (replicate m (0, 0) ++ replicate (S (S (336 - m))) (0, 0) : list (Z * Z))
    by (rewrite <- replicate_add; f_equal; lia).
  exists (replicate (336 - m) (0, 0)), (mk ((l1 ++ l2) ++ replicate (S (S (336 - m))) (0, 0))). split; [|split].
  - pose proof (collect_spec (l1 ++ (0, 0) :: l2) (length (l1 ++ (0, 0) :: l2)) [] rest []
      (replicate m (0, 0)) (replicate (S (S (336 - m))) (0, 0)) 0 0) as Hc. cbn [app] in Hc.
    rewrite <- app_assoc, <- app_comm_cons in Hc.
    rewrite Hc, Hfil, length_replicate by (rewrite ?Hfil, ?length_replicate; done). done.
  - change (replicate (S (S (336 - m))) (0, 0)) with ((0, 0) :: replicate (S (336 - m)) (0, 0) : list (Z * Z)).
    rewrite <- app_assoc. rewrite merge_key2_spec; [|done| |done|done].
    2:{ eapply Forall_impl; [exact H2|]. simpl. intros; lia. }
    cbn [mbind option_bind]. change (replicate (S (336 - m)) (0, 0)) with ((0, 0) :: replicate (336 - m) (0, 0) : list (Z * Z)).
    replace (l1 ++ (ka, o) :: l2 ++ (0, 0) :: replicate (336 - m) (0, 0))
      with ((l1 ++ [(ka, o)]) ++ l2 ++ (0, 0) :: replicate (336 - m) (0, 0)) by by rewrite <- app_assoc.
    rewrite merge_key2_spec; [by rewrite <- !app_assoc| |done| |done].
    + apply Forall_app. split; [|constructor; [simpl; lia|constructor]].
      eapply Forall_impl; [exact H1|]. simpl. intros; lia.
    + unfold m. rewrite !length_app. simpl. lia.
  - unfold m in *. rewrite !length_app, length_replicate in *. simpl in *. lia.
Qed.

Section ops.
Context {D : Type} `{BlockMap D}.
Implicit Types s : tree D.

(** Two states that differ in the pages only. *)
Definition same_but_pages s s' : Prop :=
  m_ondisk s' = m_ondisk s /\ m_isize s' = m_isize s /\ m_stack s' = m_stack s /\
  m_key_count s' = m_key_count s /\ m_size s' = m_size s.

Lemma link_next_wp n r os l b L s (Q : unit -> tree D -> Prop) :
  world s n r os l -> (forall y, y ∈ L -> y ∈ l.*1) ->
  (forall s', world s' n r os l -> same_but_pages s s' -> m_pages s' = relink (m_pages s) b L -> Q tt s') ->
  wp (if negb (hd 0 L =? 0) then
        nd ← B_OPEN (hd 0 L); bp_write_node (on_hdr (set_prev b) nd);; bp_release_node
      else mret tt) Q s.
Proof.
  intros Hw Hin HQ. destruct L as [|x L]; cbn [hd].
  - wp_steps. by apply HQ.
  - assert (x ∈ l.*1) as Hx by (apply Hin; apply elem_of_cons; by left).
    pose proof (world_range _ _ _ _ _ x Hw (or_intror Hx)) as Hr.
    rewrite (proj2 (Z.eqb_neq x 0)) by lia. cbn [negb]. cbn iota.
    apply list_elem_of_fmap in Hx as ([x' d] & -> & Hx). cbn [fst] in *.
    destruct (holds_at _ _ _ _ _ (w_holds _ _ _ _ _ Hw) Hx) as (pg & Hp & Hok).
    wp_step. eapply open_wp; [exact Hp|by eapply page_ok_flag|rewrite (page_ok_off _ _ _ _ Hok); lia|].
    wp_step. eapply write_node_wp; [done|exact Hp|unfold flag_ok, on_hdr; cbn; by eapply page_ok_flag|].
    unfold bp_release_node. wp_steps. apply HQ.
    + eapply world_same; [|eapply (world_links s n r os l x' pg); [exact Hw|exact Hp|]].
      * split; [done|]. split; [done|]. cbn. reflexivity.
      * done.
    + split_and!; try done. cbn. unfold SIZEOF_KEY_PAIR, SIZEOF_INDEX_NODE. lia.
    + cbn. symmetry. apply map_eq. intros y. destruct (decide (y = x')) as [->|Hne].
      * by rewrite lookup_alter_eq, lookup_insert_eq, Hp.
      * by rewrite lookup_alter_ne, lookup_insert_ne by done.
Qed.

(** The last part of bp_split_data_node: the pairs of the parent are collected
    and both halves written. *)
Lemma collect_halves_wp fo pgf o pgo b pgb hf hl hr l1 l2 rest a ka va c kb vb za zb s
    (Q : key_pair -> tree D -> Prop) :
  m_pages s !! fo = Some pgf -> i_pair pgf = mk (l1 ++ (0, 0) :: l2 ++ rest) ->
  i_num hf = Z.of_nat (length (l1 ++ l2)) ->
  m_pages s !! o = Some pgo -> i_pair pgo = mk ((a ++ [(ka, va)]) ++ za) ->
  i_num hl = Z.of_nat (length (a ++ [(ka, va)])) -> i_offset hl = o -> flag_ok hl = true ->
  m_pages s !! b = Some pgb -> i_pair pgb = mk ((c ++ [(kb, vb)]) ++ zb) ->
  i_num hr = Z.of_nat (length (c ++ [(kb, vb)])) -> i_offset hr = b -> flag_ok hr = true ->
  0 < o < max_blocks -> 0 < b < max_blocks -> o <> b ->
  Forall (fun p => p.1 <> 0 /\ p.1 < ka) l1 -> 0 < ka -> ka < kb -> Forall (fun p => kb < p.1) l2 ->
  Z.of_nat (length (l1 ++ l2)) + 1 <= FANOUT ->
  (forall d, Z.of_nat (length ((l1 ++ (ka, o) :: (kb, b) :: l2) ++ d)) = FANOUT + 1 ->
     Q (mk ((l1 ++ (ka, o) :: (kb, b) :: l2) ++ d))
       (add_size (-96) (add_size (-96) (set_page b (mk_page hr (i_pair pgb)) (set_page o (mk_page hl (i_pair pgo)) s))))) ->
  wp (ipp ← load_pair (mk_node hf (Some fo));
      '(pairs, count) ← mlift (collect_pairs (Z.to_nat (num (mk_node hf (Some fo)) + 1)) 0 0 ipp (pair_zero (FANOUT + 1)));
      kl ← B_KEY_GET (mk_node hl (Some o)) (num (mk_node hl (Some o)) - 1);
      pairs ← mlift (bp_merge_key2 pairs kl (u32 (off (mk_node hl (Some o)))) (count + 1));
      kr ← B_KEY_GET (mk_node hr (Some b)) (num (mk_node hr (Some b)) - 1);
      pairs ← mlift (bp_merge_key2 pairs kr (u32 (off (mk_node hr (Some b)))) (count + 2));
      bp_write_node (mk_node hl (Some o));;
      bp_write_node (mk_node hr (Some b));;
      bp_release_node;; bp_release_node;;
      mret pairs) Q s.
Proof.
  intros Hpf Hf Hnf Hpo Ho Hnl Hol Hfl Hpb Hb Hnr Hob Hfr Hor Hbr Hne H1 Hka Hab H2 Hlen HQ.
  destruct (parent_pairs l1 l2 rest ka o kb b H1 Hka Hab H2 Hlen) as (d & p1 & Hcol & Hmer & Hd).
  destruct (bp_merge_key2 p1 ka o _) as [p2|] eqn:Hm1; [|done]. cbn [mbind option_bind] in Hmer.
  wp_step. eapply load_pair_wp; [done|exact Hpf|]. hdr_simpl. rewrite Hnf, Hf.
  replace (Z.to_nat (Z.of_nat (length (l1 ++ l2)) + 1)) with (length (l1 ++ (0, 0) :: l2))
    by (rewrite !length_app; simpl; lia).
  wp_step. eapply wp_lift; [exact Hcol|]. cbn beta iota. rewrite Hnl, Hnr, Hol, Hob, !u32_off by done.
  wp_step. eapply key_get_wp with (k := ka); [done|exact Hpo| |].
  { rewrite Ho, <- app_assoc. apply get_key. rewrite length_app. simpl. lia. }
  wp_step. eapply wp_lift; [exact Hm1|].
  wp_step. eapply key_get_wp with (k := kb); [done|exact Hpb| |].
  { rewrite Hb, <- app_assoc. apply get_key. rewrite length_app. simpl. lia. }
  wp_step. eapply wp_lift; [exact Hmer|].
  wp_step. eapply write_node_wp; [done|exact Hpo|done|].
  wp_step. eapply write_node_wp; [done|cbn; rewrite lookup_insert_ne by done; exact Hpb|done|].
  unfold bp_release_node. wp_steps. by apply HQ.
Qed.

(** src/nvfuse_bp_tree.c: bp_split_data_node *)
Lemma split_data_node_wp n r f p o l1 l2 lo hi m key value pgf pg L1 L2 s (Q : key_pair -> tree D -> Prop) :
  has_space -> n < max_blocks ->
  let W := cmap nodes (f_left f) ++ cmap nodes (f_right f) ++ fnodes p (f_off f) in
  world s n r [o; f_off f] W ->
  m_pages s !! f_off f = Some pgf -> page_ok r (f_off f) (DNode (kos (f_left f) ++ (f_key f, o) :: kos (f_right f))) pgf ->
  m_pages s !! o = Some pg -> page_ok r o (DLeaf (l1 ++ l2)) pg -> Z.of_nat (length (l1 ++ l2)) = FANOUT -> o <> r -> r ∈ f_off f :: W.*1 ->
  Forall (fun x => x.1 <> 0 /\ x.1 < key) l1 -> Forall (fun x => key < x.1) l2 ->
  shape 0 m (match f_right f with [] => hi | _ => f_key f end) (Leaf o (l1 ++ (key, value) :: l2)) ->
  lkids (shape 0) lo m (f_left f) -> m < f_key f ->
  match f_right f with [] => f_key f <= hi | _ => kids (shape 0) (f_key f) hi (f_right f) end -> 0 <= lo ->
  NoDup (L1 ++ o :: L2) -> (forall x, x ∈ L1 ++ L2 -> x ∈ W.*1) -> chain (m_pages s) 0 (L1 ++ o :: L2) ->
  (forall b n' s' pgf' q d a ka va c kb vb,
     let cs := f_left f ++ (ka, Leaf o (a ++ [(ka, va)])) :: (kb, Leaf b (c ++ [(kb, vb)])) :: f_right f in
     l1 ++ (key, value) :: l2 = (a ++ [(ka, va)]) ++ (c ++ [(kb, vb)]) -> n <= n' <= n + 1 ->
     world s' n' r [f_off f] (cmap nodes cs ++ fnodes p (f_off f)) -> kids (shape 0) lo hi cs ->
     m_pages s' !! f_off f = Some pgf' -> i_pair pgf' = mk q -> Z.of_nat (length q) = FANOUT ->
     Z.of_nat (length (kos cs ++ d)) = FANOUT + 1 -> chain (m_pages s') 0 (L1 ++ o :: b :: L2) ->
     m_stack s' = m_stack s -> m_key_count s' = m_key_count s ->
     m_root (m_ondisk s') = m_root (m_ondisk s) -> m_size s' = m_size s - 96 -> Q (mk (kos cs ++ d)) s') ->
  wp (bp_split_data_node (mk_node (p_hdr pgf) (Some (f_off f))) (mk_node (p_hdr pg) (Some o)) key value
        (pair_zero (FANOUT + 1))) Q s.
Proof.
  intros Hsp Hn W Hw Hpf Hokf Hp Hok Hlen Hor Hrin H1 H2 Hsh Hlk Hmk Hrk Hlo Hnd HL Hch HQ.
  destruct (page_leaf_split _ _ _ _ Hok) as (z & Hz & Hpair & Hnum).
  assert (z = O) as -> by lia. rewrite app_nil_r in Hpair.
  destruct (halves (l1 ++ (key, value) :: l2)) as (a & ka & va & c & kb & vb & HE & HA & HB).
  { rewrite length_app in *. simpl in *. lia. }
  rewrite HE in Hsh. pose proof (fun b => leaf_kids _ _ _ f o b _ _ _ _ _ _ Hlk Hmk Hrk Hsh) as Hkn.
  set (A := a ++ [(ka, va)]) in *. set (B := c ++ [(kb, vb)]) in *.
  remember (pair_zero (FANOUT + 1)) as pz eqn:Hpz. unfold bp_split_data_node, B_dALLOC.
  eapply new_node_bind with (n := n) (r := r) (os := [o; f_off f]) (l := W); [done|done|done|by right|].
  intros b n1 s1 Hw1 Hn1 Hb1 HbW Est Ek Er Es Ep.
  assert (b <> o /\ b <> f_off f) as [Hbo Hbf] by (rewrite !not_elem_of_cons in Hb1; tauto).
  assert (o <> f_off f) as Hof by (destruct Hw as [_ [Hx _]%NoDup_cons _]; rewrite not_elem_of_cons in Hx; tauto).
  assert (b <> r) as Hbr by (intros ->; rewrite elem_of_cons in Hrin; destruct Hrin; congruence).
  pose proof (world_range _ _ _ _ _ o Hw1 ltac:(left; set_solver)) as Hro.
  pose proof (world_range _ _ _ _ _ b Hw1 ltac:(left; set_solver)) as Hrb.
  destruct Hokf as (Hfr & Hfo & Hff & Hfn & rest & Hfl & Hfp).
  pose proof (lkids_sorted _ _ _ _ Hlk) as [_ Hfs]. pose proof (lkids_le _ _ _ _ Hlk) as Hlom.
  assert (Forall (fun x => is_s32 x.2 /\ x.2 <> o) (kos (f_left f))) as Hslots.
  { rewrite Forall_forall. intros x Hx. apply kos_offs in Hx.
    assert (x.2 ∈ W.*1) as HxW by (unfold W; rewrite !fmap_app, elem_of_app; tauto).
    split; [apply offs_ok_s32; eapply (world_range _ _ _ _ _ x.2 Hw); by right|].
    intros E. apply (world_notin _ _ _ _ _ o Hw); [apply elem_of_cons; by left|by rewrite <- E]. }
  wp_step. eapply update_pair_wp; [done|cbn; rewrite Ep; pg_lookup| |].
  { rewrite Hfp. hdr_simpl. rewrite Hfn, (page_ok_off _ _ _ _ Hok), <- app_assoc, <- app_comm_cons.
    pose proof (find_item_spec (kos (f_left f)) (f_key f) o (kos (f_right f) ++ rest)
      (Z.to_nat (Z.of_nat (length (kos (f_left f) ++ (f_key f, o) :: kos (f_right f))) - 1 + 1)) 0 Hslots (offs_ok_s32 _ Hro)) as Hfi.
    specialize (Hfi ltac:(rewrite length_app; simpl; lia) [] eq_refl). cbn [app] in Hfi. rewrite Hfi.
    cbn [mbind option_bind]. unfold B_PAIR_INIT. apply set_pair. lia. }
  assert (num (mk_node (p_hdr pg) (Some o)) = FANOUT) as Hnumo by (unfold num; cbn [n_hdr]; lia).
  rewrite Hnumo. wp_step. eapply load_pair_wp; [done|cbn; rewrite Ep; pg_lookup|]. rewrite Hpair.
  change (pair_zero (FANOUT + 1)) with (pair_zero (Z.of_nat 338)). rewrite zero_pairs.
  wp_step. eapply wp_lift.
  { pose proof (fill_node 1 [] (l1 ++ l2) [] 0 FANOUT 338) as Hc. rewrite !app_nil_r in Hc. apply Hc; [|done|lia].
    rewrite FANOUT_eq in Hlen. lia. }
  wp_step. eapply wp_lift.
  { change (replicate 1 (0, 0)) with ((0, 0) :: [] : list (Z * Z)).
    rewrite <- app_assoc. apply merge_key2_spec; [done|done|lia|done]. }
  replace (l1 ++ (key, value) :: l2 ++ []) with ([] ++ A ++ B) by (cbn [app]; by rewrite app_nil_r).
  hdr_simpl.
  assert (Z.of_nat (length A + 168) = FANOUT /\ Z.of_nat (length B + 168) = FANOUT) as [HA' HB']
    by (rewrite FANOUT_eq in *; change (337 / 2) with 168 in *; lia).
  wp_step. eapply update_pair_wp; [done|cbn; rewrite Ep; pg_lookup| |].
  { rewrite Hpair. apply init_all. done. }
  wp_step. eapply update_pair_wp; [done|cbn; rewrite Ep; pg_lookup| |].
  { rewrite fresh_pair, init_all by (rewrite length_replicate; done). reflexivity. }
  wp_step. eapply update_pair_wp; [done|cbn; rewrite Ep; pg_lookup| |].
  { cbn [i_pair]. apply (fill_node 168); [lia|done|lia]. }
  wp_step. eapply update_pair_wp; [done|cbn; rewrite Ep; pg_lookup| |].
  { cbn [i_pair app]. rewrite <- (app_nil_r (A ++ B)), <- app_assoc. apply (fill_node 168); [rewrite length_replicate; lia|lia|lia]. }
  hdr_simpl.
  destruct (chain_app _ _ _ _ _ Hch) as (pg0 & Hp0 & Hprev & Hnext). assert (pg0 = pg) as -> by congruence.
  rewrite Hnext. match goal with |- wp _ _ ?st => set (s2 := st) end.
  assert (forall x, x ∈ [b; o; f_off f] -> x ∉ L1 ++ L2) as HxL.
  { intros x Hx Hin. apply HL in Hin. by apply (world_notin _ _ _ _ _ x Hw1). }
  assert (world s2 n1 r [b; o; f_off f] W) as Hw2.
  { eapply world_frame; [exact Hw1|done|done|]. intros x Hx. rewrite !not_elem_of_cons in Hx.
    destruct Hx as (? & ? & ? & _). unfold s2. cbn. by rewrite !lookup_insert_ne by congruence. }
  wp_step. eapply (link_next_wp n1 r [b; o; f_off f] W b L2); [exact Hw2|intros y Hy; apply HL, elem_of_app; by right|].
  intros s3 Hw3 (E1 & E2 & E3 & E4 & E5) Ep3.
  assert (forall x, x ∈ [b; o; f_off f] -> m_pages s3 !! x = m_pages s2 !! x) as Hkeep.
  { intros x Hx. rewrite Ep3. apply relink_other. intros Hin. apply (HxL x Hx), elem_of_app. by right. }
  assert (b ∈ [b; o; f_off f] /\ o ∈ [b; o; f_off f] /\ f_off f ∈ [b; o; f_off f]) as (Inb & Ino & Inf)
    by (rewrite !elem_of_cons; tauto).
  destruct (Hkn b) as [Hkb Hmka].
  set (cs := f_left f ++ (ka, Leaf o A) :: (kb, Leaf b B) :: f_right f) in *.
  assert (kos cs = kos (f_left f) ++ (ka, o) :: (kb, b) :: kos (f_right f)) as Ekos by (unfold cs; by rewrite kos_app).
  pose proof (kids_sorted _ _ _ _ Hkb) as [Hss _]. rewrite Ekos in Hss. apply sorted_app in Hss as (_ & Hss & _).
  apply sorted_cons in Hss as [Hss Hab]. apply sorted_cons in Hss as [_ Hbr']. apply Forall_cons in Hab as [Hab _].
  unfold plt in Hab. cbn [fst] in Hab.
  subst pz. eapply (collect_halves_wp (f_off f) _ o _ b _ (p_hdr pgf) (set_next b (set_num (FANOUT - FANOUT / 2) (p_hdr pg)))
    (set_prev (i_offset (p_hdr pg)) (set_next (hd 0 L2) (set_num (0 + FANOUT / 2 + 1) (mk_hdr 0 1 0 b 0 0 INDEX_NODE_USED))))
    (kos (f_left f)) (kos (f_right f)) rest a ka va c kb vb (replicate 168 (0, 0)) (replicate 168 (0, 0))).
  - rewrite (Hkeep _ Inf). unfold s2. pg_lookup.
  - done.
  - rewrite Hfn, !length_app. simpl. lia.
  - rewrite (Hkeep _ Ino). unfold s2. pg_lookup.
  - done.
  - exact (eq_sym HA).
  - cbn. by eapply page_ok_off.
  - unfold flag_ok. cbn. destruct Hok as (_ & _ & -> & _). done.
  - rewrite (Hkeep _ Inb). unfold s2. pg_lookup.
  - done.
  - exact (eq_sym HB).
  - done.
  - done.
  - done.
  - done.
  - done.
  - eapply Forall_impl; [exact Hfs|]. simpl. intros; lia.
  - lia.
  - done.
  - eapply Forall_impl; [exact Hbr'|]. done.
  - rewrite !length_app in *. simpl in Hfl. lia.
  - intros d Hd. rewrite <- Ekos in *.
    match goal with |- Q _ ?st => set (s4 := st) end.
    assert (m_pages s4 !! o = Some (mk_page (set_next b (set_num (FANOUT - FANOUT / 2) (p_hdr pg))) (mk (A ++ replicate 168 (0, 0))))) as Hpo4
      by (unfold s4; cbn; by rewrite lookup_insert_ne, lookup_insert_eq by congruence).
    assert (m_pages s4 !! b = Some (mk_page (set_prev (i_offset (p_hdr pg)) (set_next (hd 0 L2) (set_num (0 + FANOUT / 2 + 1)
      (mk_hdr 0 1 0 b 0 0 INDEX_NODE_USED)))) (mk (B ++ replicate 168 (0, 0))))) as Hpb4 by (unfold s4; cbn; by rewrite lookup_insert_eq).
    assert (forall x, x <> b -> x <> o -> m_pages s4 !! x = m_pages s3 !! x) as Hoth
      by (intros x Hx1 Hx2; unfold s4; cbn; by rewrite !lookup_insert_ne by congruence).
    eapply (HQ b n1 s4 (mk_page (p_hdr pgf) (mk (kos (f_left f) ++ (0, 0) :: kos (f_right f) ++ rest))) _ d); [exact HE|done| |exact Hkb| |reflexivity| |exact Hd| | | | |].
    + assert (world s4 n1 r [o; b; f_off f] W) as Hw4.
      { eapply (world_perm _ _ _ [b; o; f_off f]); [apply perm_swap|reflexivity|].
        eapply world_frame; [exact Hw3|done|done|]. intros x Hx. rewrite !not_elem_of_cons in Hx. apply Hoth; tauto. }
      eapply world_close with (d := DLeaf A) in Hw4; [|exact Hpo4|].
      2:{ destruct Hok as (G1 & G2 & G3 & _). by apply (leaf_page_ok _ _ _ _ _ 168). }
      eapply world_close with (d := DLeaf B) in Hw4; [|exact Hpb4|].
      2:{ apply (leaf_page_ok _ _ _ _ _ 168); try done. cbn. by rewrite (proj2 (Z.eqb_neq _ _) Hbr). }
      eapply world_perm; [reflexivity| |exact Hw4]. unfold cs, W. rewrite cmap_app, !cmap_cons. cbn [nodes app].
      solve_Permutation.
    + rewrite Hoth by congruence. rewrite (Hkeep _ Inf). unfold s2. pg_lookup.
    + rewrite <- Hfl, !length_app. simpl. rewrite length_app. lia.
    + eapply (chain_split (m_pages s)); [exact Hnd|exact (HxL b Inb)|exact Hch|exact Hp|exact Hpo4|done|done|exact Hpb4|exact (page_ok_off _ _ _ _ Hok)|symmetry; exact Hnext|].
      intros x Hx. assert (x <> b /\ x <> o /\ x <> f_off f) as (? & ? & ?)
        by (split_and!; intros ->; [by apply (HxL b)|by apply (HxL o)|by apply (HxL (f_off f))]).
      rewrite Hoth, Ep3 by done. apply relink_same. unfold s2. cbn. rewrite Ep. by rewrite !lookup_insert_ne by congruence.
    + etrans; [exact E3|exact Est].
    + etrans; [exact E4|exact Ek].
    + etrans; [exact (f_equal m_root E1)|exact Er].
    + unfold s4. cbn. unfold s2 in E5. cbn in E5. lia.
Qed.

End ops.
End BpLeafSplit.
