(* ===== verification/BpRemove.v ===== *)
(** * B+tree: a new key, creation, removal

    [BpInsertNew] puts the cases of an insertion together; [BpRemove] has the
    creation of a tree and the removal of a key. *)
From stdpp Require Import sorting.
From S2P Require Import Prelude Bitmap Arr BpTree BpTreeOps BpPairs BpTreeSpec BpSearch BpSplit BpUp.
Import Arr BpTree BpTreeOps BpPairs BpAlloc BpTreeSpec BpSearch BpWorld BpInsert BpSplit BpGrow BpUp BpLeafSplit.

(** ** Insertion of a new key into a B+tree

    The three cases of bp_insert_key_tree put together: a leaf with room, a
    full root leaf, a full leaf below inner nodes. *)
Module BpInsertNew.

#[local] Arguments replicate : simpl never.

Section ops.
Context {D : Type} `{BlockMap D}.
Implicit Types s : tree D.

(** src/nvfuse_bp_tree.c: bp_split_tree *)
Lemma split_tree_wp n r f p o l1 l2 lo hi key value pg s (Q : unit -> tree D -> Prop) :
  has_space -> n + Z.of_nat (length p) + 3 <= max_blocks -> m_root (m_ondisk s) = r ->
  world s n r [o] (fnodes (f :: p) o) -> m_pages s !! o = Some pg ->
  page_ok r o (DLeaf (l1 ++ l2)) pg -> Z.of_nat (length (l1 ++ l2)) = FANOUT ->
  Forall (fun x => x.1 <> 0 /\ x.1 < key) l1 -> Forall (fun x => key < x.1) l2 ->
  ctx (f :: p) 0 lo hi -> shape 0 lo hi (Leaf o (l1 ++ (key, value) :: l2)) ->
  toff (plug (f :: p) (Leaf o (l1 ++ l2))) = r -> m_stack s = f_off <$> f :: p ->
  (length p <= Z.to_nat MAX_STACK)%nat ->
  NoDup (pre leaves (f :: p) ++ o :: post leaves (f :: p)) ->
  chain (m_pages s) 0 (pre leaves (f :: p) ++ o :: post leaves (f :: p)) ->
  (forall s' L, grown s n (S (length p)) (pre ents (f :: p) ++ (l1 ++ (key, value) :: l2) ++ post ents (f :: p)) L s' -> Q tt s') ->
  wp (bp_split_tree (mk_node (p_hdr pg) (Some o)) key value) Q s.
Proof.
  intros Hsp Hn Hr Hw Hp Hok Hlen H1 H2 Hc Hsh Htop Hst Hfuel Hnd Hch HQ.
  inversion Hc as [|f' p' h' lo' hi' m' Hc' Hlk Hmk Hlen' Hrk E1 E2 E3 Ehi]; subst f' p' h' m'.
  pose proof Hw as Hw0. cbn [fnodes] in Hw0.
  destruct (holds_at _ _ _ _ _ (w_holds _ _ _ _ _ Hw) (list_elem_of_here _ _)) as (pgf & Hpf & Hokf). cbn [fst snd] in *.
  assert (r ∈ (fnodes (f :: p) o).*1) as Hrin by (rewrite <- Htop; apply toff_plug_in).
  assert (o <> r) as Hor by (intros ->; by apply (world_notin _ _ _ _ _ r Hw); [apply elem_of_cons; left|]).
  pose proof (ctx_bounds _ _ _ _ Hc') as [Hlo0 _].
  unfold bp_split_tree. wp_step. eapply pop_wp; [rewrite Hst; reflexivity|].
  wp_step. eapply open_wp; [exact Hpf|by eapply page_ok_flag| |].
  { rewrite (page_ok_off _ _ _ _ Hokf). eapply (world_range _ _ _ _ _ (f_off f)) in Hw; [lia|].
    right. cbn. apply elem_of_cons. by left. }
  wp_step. eapply (split_data_node_wp n r f p o l1 l2 lo' hi' lo key value pgf pg (pre leaves (f :: p)) (post leaves (f :: p)));
    [done|lia| |exact Hpf|exact Hokf|exact Hp|exact Hok|done|done|exact Hrin|done|done| |done|done|done|done|exact Hnd| |exact Hch|].
  - eapply (world_perm _ _ _ [f_off f; o]); [apply perm_swap|reflexivity|]. eapply world_open.
    eapply world_frame; [exact Hw0|done|done|done].
  - by rewrite Ehi.
  - intros x. cbn [pre post]. rewrite !fmap_app, !elem_of_app.
    intros [[Hx|Hx]|[Hx|Hx]]; eauto using cmap_leaves_nodes, path_leaves_nodes.
  - intros b n' s' pgf' q d a ka va c kb vb cs HE Hn' Hw' Hkn Hpf' Hq Hql Hd Hch' Est Ek Er Es.
    cbn [m_stack set_stack add_size] in Est.
    destruct Hokf as (G1 & G2 & G3 & G4 & _).
    assert (length cs = S (length (kos (f_left f) ++ (f_key f, o) :: kos (f_right f)))) as Hlcs
      by (unfold cs; rewrite !length_app; simpl; rewrite !length_kos; lia).
    assert (2 <= length cs)%nat by (unfold cs; rewrite length_app; simpl; lia).
    wp_step. hdr_simpl. eapply wp_mono.
    1: eapply (up_wp r p s' n' (f_off f) cs (set_num (i_num (p_hdr pgf) + 1) (p_hdr pgf)) q pgf' d (Z.to_nat MAX_STACK) lo' hi' 0 (pair_zero 1) Q);
      [done|lia|exact Hw'|etrans; [exact Er|exact Hr]|exact G1|exact G2|exact G3|cbn; lia|exact Hd|done|exact Hpf'|exact Hq|exact Hql|exact Hkn|exact Hc'| |done|done| |].
    4:{ intros [[ip1 nc1] med1] s3 Hx. cbn beta iota in *. wp_step. eapply wp_mono; [exact Hx|].
        intros [[ip2 nc2] med2] s4 Hy. exact Hy. }
    + rewrite <- Htop. cbn [plug]. by apply toff_plug.
    + assert (pre leaves p ++ cmap leaves cs ++ post leaves p = pre leaves (f :: p) ++ o :: b :: post leaves (f :: p)) as ->; [|exact Hch'].
      unfold cs. rewrite cmap_app, !cmap_cons. cbn [pre post leaves app]. by rewrite <- !app_assoc.
    + intros s3 (n3 & h3 & t3 & K1 & K2 & K3 & K4 & K5 & K6 & K7 & K8 & K9). eapply HQ.
      assert (pre ents p ++ cmap ents cs ++ post ents p = pre ents (f :: p) ++ (l1 ++ (key, value) :: l2) ++ post ents (f :: p)) as Ee.
      { unfold cs. rewrite cmap_app, !cmap_cons, HE. cbn [pre post ents]. by rewrite <- !app_assoc. }
      rewrite Ee in K6. cbn in K8, K9, Es, Ek. unfold SIZEOF_KEY_PAIR, SIZEOF_INDEX_NODE in Es.
      exists n3, h3, t3. split_and!; try done; try lia; try congruence.
Qed.

(** ** bp_insert_key_tree *)

(** What follows the search: [index] is the position of the key in [dp]. *)
Definition insert_at (key value : Z) (update : bool) (dp : node) (index : Z) : M (tree D) (Z * option Z) :=
  if 0 <=? index then
    cur_value ← B_ITEM_GET dp index;
    k ← B_KEY_GET dp index;
    res ← (if update && (key_compare k key =? 0) then
             update_pair dp (fun p => v ← aset (i_item p) index value; Some (mk_pair (i_key p) v));;
             bp_write_node dp;; mret 0
           else mret (-1));
    B_FLUSH_STACK;; bp_release_node;;
    mret (res, Some cur_value)
  else
    (if B_ISROOT dp && (num dp =? FANOUT) then
       root ← bp_add_root_node dp key value;
       bp_write_node (on_hdr (set_root 1) root);; bp_release_node
     else if num dp =? FANOUT then bp_split_tree dp key value
     else
       dp ← bp_merge_key dp key value;
       bp_write_node dp;; bp_release_node);;
    B_FLUSH_STACK;;
    mmodify (add_key_count 1);;
    mret (0, None).

Lemma insert_descend_wp s n h t key value update (Q : Z * option Z -> tree D -> Prop) :
  bt_inv s n h t -> 0 < key <= KEY_MAX ->
  (forall p o es lo hi pg idx, t = plug p (Leaf o es) -> ctx p 0 lo hi ->
     shape 0 lo hi (Leaf o es) -> lo < key <= hi ->
     m_pages s !! o = Some pg -> page_ok (m_root (m_ondisk s)) o (DLeaf es) pg ->
     (exists i v, idx = Z.of_nat i /\ es !! i = Some (key, v)) \/ (idx = -1 /\ key ∉ es.*1) ->
     wp (insert_at key value update (mk_node (p_hdr pg) (Some o)) idx) Q (set_stack (f_off <$> p) (sized s))) ->
  wp (bp_insert_key_tree key value update) Q s.
Proof.
  intros Hi Hk HQ. change (bp_insert_key_tree key value update) with
    (root ← mgets (fun s => m_root (m_ondisk s)); root ← B_OPEN root; dp ← traverse_empty root key;
     index ← B_GET_PAIR dp key; insert_at key value update dp index).
  wp_steps. eapply wp_mono.
  - apply (descend_wp s n h t key
      (fun nd s' => wp (index ← B_GET_PAIR nd key; insert_at key value update nd index) Q s') Hi Hk).
    intros p o es lo hi pg -> Hc Hsh Hkk Hp Hok.
    wp_step. eapply leaf_index_wp; [exact Hp|exact Hok|apply Hsh|].
    intros idx Hidx. exact (HQ p o es lo hi pg idx eq_refl Hc Hsh Hkk Hp Hok Hidx).
  - intros ip s' Hx. wp_step. exact Hx.
Qed.

(** The tree after an insertion, from its entries. *)
Lemma grown_result s s0 n p o l1 l2 key value lo hi L k s' :
  ctx p 0 lo hi -> shape 0 lo hi (Leaf o (l1 ++ (key, value) :: l2)) ->
  grown s0 n k (pre ents p ++ (l1 ++ (key, value) :: l2) ++ post ents p) L s' ->
  m_size s0 = m_size s + 96 -> Z.of_nat k + 2 <= 17 ->
  result s n (<[key := value]> (bt_map (plug p (Leaf o (l1 ++ l2))))) 17 (set_stack [] s').
Proof.
  intros Hc Hsh (n' & h' & t & K1 & K2 & K3 & K4 & K5 & K6 & K7 & K8 & K9) Hsz Hk.
  split; [|cbn; lia]. exists n', h', t. split; [|split; [|lia]].
  - rewrite <- K4 in K5. by apply inv_of_world.
  - rewrite <- (map_insert p (0 + length p)) by (by eapply ctx_plug). unfold bt_map. rewrite K6. by rewrite ents_plug.
Qed.

(** What an insertion of a new key has to leave. *)
Definition inserted s n key value m (r : Z * option Z) s' : Prop :=
  r = (0, None) /\ result s n (<[key := value]> m) 17 s' /\ m_key_count s' = u32 (m_key_count s + 1).

Lemma root_leaf s n h p o l : bt_inv s n h (plug p (Leaf o l)) -> (o =? m_root (m_ondisk s)) = true <-> p = [].
Proof.
  intros Hi. destruct (leaf_world _ _ _ _ _ _ Hi) as [Hw _]. destruct Hi as [_ Hr _ _ _ _ _]. rewrite Z.eqb_eq. split.
  - intros E. destruct p as [|f p]; [done|]. exfalso. apply (world_notin _ _ _ _ _ o Hw); [apply elem_of_cons; by left|].
    rewrite E, <- Hr. apply toff_plug_in.
  - intros ->. done.
Qed.

(** The leaf has room. *)
Lemma insert_room_wp s n h p o l1 l2 lo hi pg key value update :
  bt_inv s n h (plug p (Leaf o (l1 ++ l2))) -> ctx p 0 lo hi -> shape 0 lo hi (Leaf o (l1 ++ (key, value) :: l2)) ->
  m_pages s !! o = Some pg -> page_ok (m_root (m_ondisk s)) o (DLeaf (l1 ++ l2)) pg ->
  Z.of_nat (length (l1 ++ l2)) < FANOUT ->
  Forall (fun x => x.1 <> 0 /\ x.1 < key) l1 -> Forall (fun x => key < x.1) l2 ->
  wp (insert_at key value update (mk_node (p_hdr pg) (Some o)) (-1)) (inserted s n key value (bt_map (plug p (Leaf o (l1 ++ l2)))))
     (set_stack (f_off <$> p) (sized s)).
Proof.
  intros Hi Hc Hsh Hp Hok Hlen H1 H2. destruct (page_leaf_split _ _ _ _ Hok) as (z0 & _ & _ & Hnum).
  unfold insert_at. change (0 <=? -1) with false. cbn iota. hdr_simpl. rewrite Hnum.
  rewrite (proj2 (Z.eqb_neq (Z.of_nat (length (l1 ++ l2))) FANOUT)) by lia. rewrite andb_false_r.
  wp_step. wp_step. eapply (merge_key_wp (m_root (m_ondisk s)) o pg l1 l2); [done|done|done|done|done|].
  intros pg' z Hz ->. wp_step. eapply write_node_wp; [done|cbn; apply lookup_insert_eq|by unfold flag_ok; cbn; eapply page_ok_flag|].
  unfold bp_release_node, B_FLUSH_STACK. wp_steps. split; [done|]. split; [|done].
  split; [|cbn; unfold SIZEOF_KEY_PAIR, SIZEOF_INDEX_NODE; lia].
  exists n, (length p), (plug p (Leaf o (l1 ++ (key, value) :: l2))). split; [|split; [|lia]].
  - match goal with |- bt_inv ?s1 _ _ _ =>
      assert (bt_inv (set_stack [] s1) n (length p) (plug p (Leaf o (l1 ++ (key, value) :: l2)))) as Hinv end.
    { eapply leaf_done with (s := s) (es := l1 ++ l2) (pg := pg) (z := z) (lo := lo) (hi := hi); try done.
      cbn. by rewrite insert_insert_eq. }
    exact Hinv.
  - apply (map_insert p (0 + length p)). by eapply ctx_plug.
Qed.

(** The leaf is full and the root. *)
Lemma insert_root_wp s n h o l1 l2 pg key value update :
  has_space -> n + 2 <= max_blocks ->
  bt_inv s n h (Leaf o (l1 ++ l2)) -> shape 0 0 KEY_MAX (Leaf o (l1 ++ (key, value) :: l2)) ->
  m_pages s !! o = Some pg -> page_ok (m_root (m_ondisk s)) o (DLeaf (l1 ++ l2)) pg ->
  Z.of_nat (length (l1 ++ l2)) = FANOUT ->
  Forall (fun x => x.1 <> 0 /\ x.1 < key) l1 -> Forall (fun x => key < x.1) l2 ->
  wp (insert_at key value update (mk_node (p_hdr pg) (Some o)) (-1)) (inserted s n key value (bt_map (Leaf o (l1 ++ l2))))
     (set_stack [] (sized s)).
Proof.
  intros Hsp Hn Hi Hsh Hp Hok Hlen H1 H2. destruct (page_leaf_split _ _ _ _ Hok) as (z0 & _ & _ & Hnum).
  pose proof (bi_root _ _ _ _ Hi) as Hr. cbn [toff] in Hr. rewrite <- Hr in Hok.
  pose proof Hok as (Hroot & _). rewrite Z.eqb_refl in Hroot.
  unfold insert_at. change (0 <=? -1) with false. cbn iota. hdr_simpl. rewrite Hnum, Hroot, Hlen, Z.eqb_refl. change (1 =? 1) with true. cbn [andb]. cbn iota.
  destruct (leaf_world s n h [] o _ Hi) as [Hw Hch]. rewrite <- Hr in Hw.
  wp_step. eapply (add_root_wp _ n o l1 l2); [done|done| |exact Hp|exact Hok|done|done|done|].
  { eapply world_frame; [exact Hw|done|done|done]. }
  intros s' n' b1 b2 a ka va b kb vb HE Hn' Hw' Hch' Er Es Ek. unfold B_FLUSH_STACK. wp_steps.
  cbn in Er, Es, Ek. split; [done|]. split; [|cbn; by rewrite Ek].
  assert (bt_map (Leaf o (l1 ++ (key, value) :: l2)) = <[key := value]> (bt_map (Leaf o (l1 ++ l2)))) as Hm
    by exact (map_insert [] 0 o l1 l2 key value Hsh).
  rewrite HE in Hsh. destruct (halves_shape _ _ _ b1 b2 _ _ _ _ _ _ Hsh) as (Ha & Hb & Hlo & Hab & Hbh).
  split; [|cbn; unfold SIZEOF_KEY_PAIR, SIZEOF_INDEX_NODE in *; lia].
  exists n', 1%nat, (Node o [(ka, Leaf b1 (a ++ [(ka, va)])); (kb, Leaf b2 (b ++ [(kb, vb)]))]).
  split; [|split; [|lia]].
  - assert (m_root (m_ondisk s') = o) as Hro by congruence.
    match goal with |- bt_inv ?s1 _ _ _ => change s1 with (set_stack [] (add_key_count 1 s')) end.
    apply inv_of_world; cbn [m_ondisk add_key_count m_pages]; rewrite ?Hro; [|split; [simpl; lia|]|done|done].
    + eapply world_same; [|exact Hw']. done.
    + cbn [kids]. split; [done|]. split; [done|]. split; [lia|]. split; [done|].
      destruct Hb as [Hb1 Hb2]. split; [done|]. eapply Forall_impl; [exact Hb2|]. simpl. intros; lia.
  - rewrite <- Hm, HE. unfold bt_map. cbn [ents map concat]. by rewrite app_nil_r.
Qed.

Lemma path_bound s n h p lo hi t : bt_inv s n h (plug p t) -> ctx p 0 lo hi -> shape 0 lo hi t -> (length p <= 14)%nat.
Proof.
  intros Hi Hc Hs. apply (height_bound s n _ (plug p t)). destruct Hi. constructor; try done. by apply (ctx_plug p 0 lo hi).
Qed.

(** The leaf is full and not the root. *)
Lemma insert_split_wp s n h f p o l1 l2 lo hi pg key value update :
  has_space -> n + 17 <= max_blocks ->
  bt_inv s n h (plug (f :: p) (Leaf o (l1 ++ l2))) -> ctx (f :: p) 0 lo hi ->
  shape 0 lo hi (Leaf o (l1 ++ l2)) -> shape 0 lo hi (Leaf o (l1 ++ (key, value) :: l2)) ->
  m_pages s !! o = Some pg -> page_ok (m_root (m_ondisk s)) o (DLeaf (l1 ++ l2)) pg ->
  Z.of_nat (length (l1 ++ l2)) = FANOUT ->
  Forall (fun x => x.1 <> 0 /\ x.1 < key) l1 -> Forall (fun x => key < x.1) l2 ->
  wp (insert_at key value update (mk_node (p_hdr pg) (Some o)) (-1))
     (inserted s n key value (bt_map (plug (f :: p) (Leaf o (l1 ++ l2))))) (set_stack (f_off <$> f :: p) (sized s)).
Proof.
  intros Hsp Hn Hi Hc Hsh0 Hsh Hp Hok Hlen H1 H2. destruct (page_leaf_split _ _ _ _ Hok) as (z0 & _ & _ & Hnum).
  assert ((o =? m_root (m_ondisk s)) = false) as Hnr.
  { apply not_true_iff_false. rewrite (root_leaf s n h (f :: p) o _ Hi). done. }
  pose proof Hok as (Hroot & _). rewrite Hnr in Hroot.
  destruct (leaf_world _ _ _ _ _ _ Hi) as [Hw Hch]. pose proof (path_bound _ _ _ _ _ _ _ Hi Hc Hsh0) as Hlp.
  unfold insert_at. change (0 <=? -1) with false. cbn iota. hdr_simpl. rewrite Hnum, Hroot, Hlen, Z.eqb_refl. change (0 =? 1) with false. cbn [andb]. cbn iota.
  wp_step. eapply (split_tree_wp n _ f p o l1 l2 lo hi key value pg);
    [done|simpl in Hlp; lia|reflexivity| |exact Hp|exact Hok|done|done|done|exact Hc|exact Hsh|exact (bi_root _ _ _ _ Hi)|done|unfold MAX_STACK; simpl in Hlp; lia| |exact Hch|].
  - eapply world_frame; [exact Hw|done|done|done].
  - pose proof (leaves_nodup _ (bi_nodup _ _ _ _ Hi)) as Hnd. by rewrite leaves_plug in Hnd.
  - intros s' L Hg. unfold B_FLUSH_STACK. wp_steps. split; [done|].
    assert (m_key_count s' = m_key_count s) as Ek by (destruct Hg as (? & ? & ? & K); apply K).
    pose proof (grown_result s _ _ _ _ _ _ _ _ _ _ _ _ _ Hc Hsh Hg) as Hres.
    destruct Hres as [(n' & h' & t' & I1 & I2 & I3) Hsz];
      [cbn; unfold SIZEOF_KEY_PAIR, SIZEOF_INDEX_NODE; lia|simpl in Hlp; lia|].
    split; [|cbn; by rewrite Ek]. split; [|done]. exists n', h', t'. split; [|done]. destruct I1. by constructor.
Qed.

(** A new key is stored, whatever the state of its leaf. *)
Lemma insert_new_wp s n h t key value update :
  has_space -> n + 17 <= max_blocks -> bt_inv s n h t -> 0 < key <= KEY_MAX -> bt_map t !! key = None ->
  wp (bp_insert_key_tree key value update) (inserted s n key value (bt_map t)) s.
Proof.
  intros Hsp Hn Hi Hk Hnone. eapply insert_descend_wp; [exact Hi|done|].
  intros p o es lo hi pg idx -> Hc Hsh Hkk Hp Hok [(i & v & -> & He)|[-> Habs]].
  { exfalso. pose proof (lookup_here _ _ _ _ _ _ _ _ _ Hi He). congruence. }
  destruct (sorted_split es key) as (l1 & l2 & -> & H1 & H2); [apply Hsh|done|].
  pose proof (ctx_bounds _ _ _ _ Hc) as [Hlo _].
  assert (Forall (fun x => x.1 <> 0 /\ x.1 < key) l1) as H1'.
  { destruct Hsh as [_ Hf]. apply Forall_app in Hf as [Hf _]. rewrite Forall_forall in *. intros x Hx.
    specialize (H1 x Hx). specialize (Hf x Hx). simpl in *. lia. }
  assert (shape 0 lo hi (Leaf o (l1 ++ (key, value) :: l2))) as Hsh' by (by apply (bounds_insert lo hi l1 l2)).
  destruct (page_leaf_split _ _ _ _ Hok) as (z & Hz & _).
  destruct (Z.lt_ge_cases (Z.of_nat (length (l1 ++ l2))) FANOUT); [by eapply insert_room_wp|].
  assert (Z.of_nat (length (l1 ++ l2)) = FANOUT) by lia. destruct p as [|f p].
  - inversion Hc; subst. eapply insert_root_wp; try done. lia.
  - by eapply insert_split_wp.
Qed.

(** A key that is there is reported; its value changes only if asked for. *)
Lemma insert_old_wp s n h t key value update v :
  bt_inv s n h t -> 0 < key <= KEY_MAX -> bt_map t !! key = Some v ->
  wp (bp_insert_key_tree key value update)
     (fun r s' => r = ((if update then 0 else -1), Some v) /\
        result s n (if update then <[key := value]> (bt_map t) else bt_map t) 0 s' /\
        m_key_count s' = m_key_count s) s.
Proof.
  intros Hi Hk Hv. eapply insert_descend_wp; [exact Hi|done|].
  intros p o es lo hi pg idx -> Hc Hsh Hkk Hp Hok [(i & v' & -> & He)|[-> Habs]].
  2:{ exfalso. pose proof (ctx_absent p lo hi key es o Hc Hkk Habs) as Hab. apply map_lookup_none in Hab. congruence. }
  pose proof (lookup_here _ _ _ _ _ _ _ _ _ Hi He). assert (v' = v) as -> by congruence.
  destruct (entry_split _ _ _ _ He) as (l1 & l2 & -> & ->).
  destruct (page_leaf_split _ _ _ _ Hok) as (z & Hz & Hpair & Hnum).
  unfold insert_at. rewrite (proj2 (Z.leb_le 0 (Z.of_nat (length l1)))) by lia.
  wp_step. eapply item_get_wp with (k := v); [done|exact Hp|rewrite Hpair, <- app_assoc; by apply get_item|].
  wp_step. eapply key_get_wp with (k := key); [done|exact Hp|rewrite Hpair, <- app_assoc; by apply get_key|].
  rewrite key_compare_eq, Z.eqb_refl, andb_true_r. destruct update; wp_step.
  - wp_step. eapply update_pair_wp; [done|exact Hp| |].
    { rewrite Hpair, <- app_assoc. simpl. by apply set_item. }
    wp_step. eapply write_node_wp; [done|apply lookup_insert_eq|by eapply page_ok_flag|].
    unfold B_FLUSH_STACK, bp_release_node. wp_steps. split; [done|]. split; [|done].
    eapply replace_result with (z := z); try done.
    + cbn. unfold SIZEOF_KEY_PAIR, SIZEOF_INDEX_NODE. lia.
    + cbn. by rewrite insert_insert_eq, <- app_assoc.
  - unfold B_FLUSH_STACK, bp_release_node. wp_steps. split; [done|]. split; [|done].
    split; [|cbn; unfold SIZEOF_KEY_PAIR, SIZEOF_INDEX_NODE; lia].
    exists n, h, (plug p (Leaf o (l1 ++ (key, v) :: l2))). split; [|split; [done|lia]]. destruct Hi. by constructor.
Qed.

End ops.
End BpInsertNew.

(** ** Creation of a B+tree, removal from a leaf that keeps an entry

    The configuration of the build delays redistribution: a leaf is merged with
    a neighbour only when it is empty, so that most removals end here. *)
Import Arr Bitmap BpTree BpTreeOps BpPairs BpAlloc BpTreeSpec BpSearch BpWorld BpInsert BpSplit.
Import BpGrow BpUp BpLeafSplit BpInsertNew.

Module BpRemove.

#[local] Arguments replicate : simpl never.

Section ops.
Context {D : Type} `{BlockMap D}.
Implicit Types s : tree D.

(** ** Creation *)

Lemma bit_zeros n i : bit (replicate n 0) i = false.
Proof.
  unfold bit. destruct (replicate n 0 !! _) as [x|] eqn:E; [|done].
  apply lookup_replicate in E as [-> _]. apply Z.bits_0.
Qed.

Lemma alloc_ok_empty bm od : wf_block BP_BITMAP_SIZE bm ->
  (forall j, 0 <= j -> bit bm j = if decide (j = 0) then true else false) ->
  bitmap od = bm -> m_bitmap_free od = 0 -> m_dealloc_block od = 0 -> m_last_allocated_sub_master od = 0 ->
  m_last_allocated_sub_offset od = 0 -> alloc_ok 1 od CLUSTER_SIZE [].
Proof.
  intros Hwf Hb Eb Ef Ed Em Eo.
  assert (free_bits bm 1 = 0) as Hf by (change 1 with (0 + 1); rewrite free_bits_snoc, Hb by lia; done).
  constructor; rewrite ?Eb; try done; try lia.
  - intros i Hi. rewrite Hb by lia. apply eq_sym. case_decide as Ei.
    + apply bool_decide_eq_true_2. by left.
    + apply bool_decide_eq_false_2. intros [?|Hin]; [done|]. by apply not_elem_of_nil in Hin.
  - intros o Ho. by apply not_elem_of_nil in Ho.
Qed.

Lemma alloc_master_wp s (Q : Z -> tree D -> Prop) :
  has_space -> m_isize s = 0 ->
  (forall s', alloc_ok 1 (m_ondisk s') (m_isize s') [] -> m_root (m_ondisk s') = 0 -> m_stack s' = m_stack s ->
     m_size s' = m_size s -> m_key_count s' = m_key_count s -> Q 0 s') ->
  wp bp_alloc_master Q s.
Proof.
  intros Hsp Hz HQ. unfold bp_alloc_master. wp_step. apply on_dev_wp; [done|]. intros d.
  change (negb (0 =? 0)) with false. cbn iota. wp_steps. unfold grow_file. wp_steps.
  apply wp_assert; [cbn; by rewrite Hz|]. wp_steps.
  eapply set_bitmap_wp; [by rewrite max_blocks_eq| |done|].
  { split; [done|]. by apply Forall_replicate. }
  intros bm Hwf Hb. wp_steps. apply HQ; try done. cbn. rewrite Hz. eapply alloc_ok_empty; try done.
  intros j Hj. rewrite Hb by done. cbn [m_ondisk set_ondisk set_isize bitmap]. by rewrite bit_zeros.
Qed.

(** src/nvfuse_bp_tree.c: the master of an empty file and bp_init_root *)
Lemma create_wp s (Q : unit -> tree D -> Prop) :
  has_space -> m_isize s = 0 -> m_stack s = [] ->
  (forall s', bt_inv s' 2 0 (Leaf 1 []) -> m_size s' = m_size s -> m_key_count s' = m_key_count s -> Q tt s') ->
  wp (bp_alloc_master;; bp_init_root) Q s.
Proof.
  intros Hsp Hz Hst HQ. wp_step. apply alloc_master_wp; [done|done|]. intros s1 Hok1 Hr1 Est1 Es1 Ek1.
  unfold bp_init_root. wp_step. eapply alloc_bitmap_wp; [done|exact Hok1|by rewrite max_blocks_eq|].
  intros b n' s2 Hok2 Hn' Hb Hbu (R1 & R2 & R3 & R4) Ep.
  assert (b = 1 /\ n' = 2) as [-> ->] by lia.
  unfold B_dALLOC, bp_alloc_node. wp_steps.
  eapply get_page_wp; [cbn; rewrite Ep; apply lookup_insert_eq|]. unfold set_m_root. wp_steps.
  eapply write_node_wp; [done|cbn; rewrite Ep; apply lookup_insert_eq|done|].
  unfold bp_release_node. wp_steps. apply HQ.
  - constructor; cbn.
    + split; [constructor|constructor].
    + done.
    + constructor; [|constructor]. cbn [fst snd]. eexists. split; [cbn; apply lookup_insert_eq|].
      split; [done|]. split; [done|]. split; [done|]. split; [done|]. exists 337%nat. split; [done|].
      exact fresh_pair.
    + apply NoDup_singleton.
    + split; [|done]. eexists. split; [apply lookup_insert_eq|]. done.
    + eapply alloc_ok_od; [..|exact Hok2]; done.
    + congruence.
  - cbn. unfold SIZEOF_KEY_PAIR, SIZEOF_INDEX_NODE. lia.
  - cbn. congruence.
Qed.

(** ** Removal *)

(** The pairs behind the removed one move down. *)
Lemma remove_pair l1 x l2 z :
  (p ← B_PAIR_COPY_N (mk ((l1 ++ x :: l2) ++ replicate z (0, 0))) (mk ((l1 ++ x :: l2) ++ replicate z (0, 0)))
         (Z.of_nat (length l1)) (Z.of_nat (length l1) + 1)
         (Z.of_nat (length (l1 ++ x :: l2)) - 1 - Z.of_nat (length l1));
   B_PAIR_INIT p (Z.of_nat (length (l1 ++ x :: l2)) - 1)) =
  Some (mk ((l1 ++ l2) ++ replicate (S z) (0, 0))).
Proof.
  destruct (@exists_last _ (x :: l2)) as (a & y & Ha); [done|].
  assert (length a = length l2) as Hl by (apply (f_equal length) in Ha; rewrite length_app in Ha; simpl in Ha; lia).
  pose proof (copy_n l1 a ([y] ++ replicate z (0, 0)) (l1 ++ [x]) l2 (replicate z (0, 0))
    (Z.of_nat (length l1)) (Z.of_nat (length l1) + 1) (Z.of_nat (length l2))) as Hc.
  replace (Z.of_nat (length (l1 ++ x :: l2)) - 1 - Z.of_nat (length l1)) with (Z.of_nat (length l2))
    by (rewrite length_app; simpl; lia).
  replace (l1 ++ a ++ [y] ++ replicate z (0, 0)) with ((l1 ++ x :: l2) ++ replicate z (0, 0)) in Hc
    by (rewrite Ha, <- !app_assoc; done).
  replace ((l1 ++ [x]) ++ l2 ++ replicate z (0, 0)) with ((l1 ++ x :: l2) ++ replicate z (0, 0)) in Hc
    by (rewrite <- !app_assoc; done).
  rewrite Hc by first [done | lia | rewrite length_app; simpl; lia].
  cbn [mbind option_bind]. unfold B_PAIR_INIT. rewrite (app_assoc l1 l2). cbn [app].
  rewrite set_pair by (rewrite !length_app; simpl; lia). done.
Qed.

Lemma bounds_remove lo hi o l1 x l2 : shape 0 lo hi (Leaf o (l1 ++ x :: l2)) -> shape 0 lo hi (Leaf o (l1 ++ l2)).
Proof.
  intros [Hs Hf]. split.
  - apply sorted_app in Hs as (H1 & [H2 _]%sorted_cons & H3). apply sorted_app. split; [done|]. split; [done|].
    eapply Forall_impl; [exact H3|]. intros y Hy. by apply Forall_cons in Hy as [_ Hy].
  - apply Forall_app in Hf as [? [_ ?]%Forall_cons]. by apply Forall_app.
Qed.

(** The key is in a leaf that is the root or keeps an entry. *)
Definition keeps (t : bt) (key : Z) : Prop :=
  forall p o es, t = plug p (Leaf o es) -> key ∈ es.*1 -> p = [] \/ (2 <= length es)%nat.

(** The tree of the same height and file with the map [m]. *)
Definition reshaped s n (h : nat) (m : gmap Z Z) s' : Prop :=
  (exists t, bt_inv s' n h t /\ bt_map t = m) /\ m_size s' = m_size s.

Lemma reshaped_result s n h m s' : reshaped s n h m s' -> result s n m 0 s'.
Proof. intros [(t & Hi & Hm) Hs]. split; [|done]. exists n, h, t. split; [done|]. split; [done|lia]. Qed.

Lemma kids_first P lo hi k t cs : kids P lo hi ((k, t) :: cs) -> exists hi', P lo hi' t.
Proof. cbn [kids]. intros [_ Hk]. destruct cs; [exists hi|exists k]; tauto. Qed.

Lemma shape_height h : forall h' lo hi lo' hi' t, shape h lo hi t -> shape h' lo' hi' t -> h = h'.
Proof.
  induction h as [|h IH]; intros h' lo hi lo' hi' [o es|o cs]; destruct h' as [|h']; cbn [shape]; try done.
  destruct cs as [|[k t] cs]; [intros [Hl _]; simpl in Hl; lia|]. intros [_ H1] [_ H2].
  apply kids_first in H1 as [a H1]. apply kids_first in H2 as [b H2]. f_equal. by eapply IH.
Qed.

(** The tree after an entry was taken out of its leaf. *)
Lemma remove_result s n h p o l1 key v l2 lo hi pg z s1 :
  bt_inv s n h (plug p (Leaf o (l1 ++ (key, v) :: l2))) -> ctx p 0 lo hi -> shape 0 lo hi (Leaf o (l1 ++ (key, v) :: l2)) ->
  m_pages s !! o = Some pg -> page_ok (m_root (m_ondisk s)) o (DLeaf (l1 ++ (key, v) :: l2)) pg ->
  Z.of_nat (length (l1 ++ (key, v) :: l2) + z) = FANOUT ->
  m_ondisk s1 = m_ondisk s -> m_isize s1 = m_isize s -> m_stack s1 = [] -> m_size s1 = m_size s ->
  m_pages s1 = <[o := mk_page (set_num (Z.of_nat (length (l1 ++ (key, v) :: l2)) - 1) (p_hdr pg))
                        (mk ((l1 ++ l2) ++ replicate (S z) (0, 0)))]> (m_pages s) ->
  reshaped s n h (delete key (bt_map (plug p (Leaf o (l1 ++ (key, v) :: l2))))) s1.
Proof.
  intros Hi Hc Hsh Hp Hok Hz Ed Ei Est Esz Ep. split; [|lia].
  assert (length p = h) as Hh by (eapply (shape_height (0 + length p)); [by eapply ctx_plug|apply (bi_shape _ _ _ _ Hi)]).
  assert (length (l1 ++ (key, v) :: l2) = S (length (l1 ++ l2))) as Hlen by (rewrite !length_app; simpl; lia).
  exists (plug p (Leaf o (l1 ++ l2))). split.
  - assert (bt_inv (set_stack [] s1) n (length p) (plug p (Leaf o (l1 ++ l2)))) as Hinv.
    { eapply leaf_done with (s := s) (pg := pg) (z := S z); try done; [by eapply bounds_remove|lia|].
      rewrite Ep, Hlen. do 3 f_equal. lia. }
    rewrite <- Hh. destruct Hinv. by constructor.
  - by rewrite (map_delete p h o l1 l2 key v) by apply (bi_shape _ _ _ _ Hi).
Qed.

Context (freed : bool).

(** The leaf is written; an empty root leaf stays. *)
Lemma leaf_write_wp dp b pg s (Q : unit -> tree D -> Prop) :
  i_bh dp = Some b -> m_pages s !! b = Some pg -> i_flag (n_hdr dp) = 1 -> 1 <= num dp \/ i_root (n_hdr dp) = 1 ->
  Q tt (add_size (-96) (set_page b (mk_page (n_hdr dp) (i_pair pg)) s)) ->
  wp (if 1 <=? num dp then bp_write_node dp;; bp_release_node else bp_merge_key_tree freed dp;; mret tt) Q s.
Proof.
  intros Hb Hp Hf Hn HQ. assert (flag_ok (n_hdr dp) = true) as Hfo by (unfold flag_ok; by rewrite Hf).
  destruct (Z.leb_spec 1 (num dp)).
  - wp_step. eapply write_node_wp; [done|exact Hp|done|]. unfold bp_release_node. by wp_steps.
  - destruct Hn as [?|Hr]; [lia|]. wp_step. unfold bp_merge_key_tree, B_ISLEAF, B_ISROOT. rewrite Hf, Hr.
    change ((1 =? DATA_FLAG) && negb (1 =? 0)) with true. cbn iota. wp_step. eapply write_node_wp; [done|exact Hp|done|]. unfold bp_release_node. by wp_steps.
Qed.

Lemma remove_wp s n h t key v :
  bt_inv s n h t -> 0 < key <= KEY_MAX -> bt_map t !! key = Some v -> keeps t key ->
  wp (bp_remove_key freed key)
     (fun r s' => r = 0 /\ reshaped s n h (delete key (bt_map t)) s' /\ m_key_count s' = u32 (m_key_count s - 1)) s.
Proof.
  intros Hi Hk Hv Hkeep. unfold bp_remove_key. wp_step. eapply search_wp; [done|done|].
  intros p o es lo hi pg idx -> Hc Hsh Hkk Hp Hok [(i & v0 & -> & He)|[-> Hn]].
  2:{ exfalso. pose proof (ctx_absent p lo hi key es o Hc Hkk Hn) as Hab. apply map_lookup_none in Hab. congruence. }
  destruct (Z.ltb_spec (Z.of_nat i) 0); [lia|].
  destruct (entry_split _ _ _ _ He) as (l1 & l2 & -> & ->).
  destruct (page_leaf_split _ _ _ _ Hok) as (z & Hz & Hpair & Hnum).
  wp_step. eapply key_get_wp with (k := key); [done|exact Hp|rewrite Hpair, <- app_assoc; by apply get_key|].
  rewrite key_compare_eq, Z.eqb_refl. cbn [negb]. cbn iota. hdr_simpl. rewrite Hnum.
  wp_step. eapply update_pair_wp; [done|exact Hp| |].
  { rewrite Hpair. apply remove_pair. }
  assert (v0 = v) as -> by (pose proof (lookup_here _ _ _ _ _ _ _ _ _ Hi He); congruence).
  wp_step. eapply (leaf_write_wp (mk_node (set_num (Z.of_nat (length (l1 ++ (key, v) :: l2)) - 1) (p_hdr pg)) (Some o)));
    [done|cbn; apply lookup_insert_eq|apply Hok| |].
  { destruct (Hkeep p o _ eq_refl) as [->|Hl].
    - rewrite fmap_app, elem_of_app. right. apply elem_of_cons. by left.
    - right. destruct Hok as (Hr & _). cbn. rewrite Hr. pose proof (proj2 (root_leaf s n h [] o _ Hi) eq_refl) as ->. done.
    - left. cbn. lia. }
  unfold B_FLUSH_STACK. wp_steps. split; [done|]. split; [|done].
  eapply remove_result with (z := z); try done.
  - cbn. unfold SIZEOF_KEY_PAIR, SIZEOF_INDEX_NODE. lia.
  - cbn. by rewrite insert_insert_eq.
Qed.

(** A key that is not there: the tree is untouched, the path stays on the stack
    and the leaf is not released. *)
Lemma remove_missing_wp s n h t key :
  bt_inv s n h t -> 0 < key <= KEY_MAX -> bt_map t !! key = None ->
  wp (bp_remove_key freed key)
     (fun r s' => r = -1 /\ bt_inv (set_stack [] s') n h t /\ length (m_stack s') = h /\ m_size s' = m_size s + 96) s.
Proof.
  intros Hi Hk Hv. unfold bp_remove_key. wp_step. eapply search_wp; [done|done|].
  intros p o es lo hi pg idx -> Hc Hsh Hkk Hp Hok [(i & v0 & -> & He)|[-> Hn]].
  { exfalso. pose proof (lookup_here _ _ _ _ _ _ _ _ _ Hi He). congruence. }
  cbn [Z.ltb Z.compare]. wp_steps. split; [done|]. split; [destruct Hi; by constructor|]. split.
  - cbn. rewrite length_fmap. eapply (shape_height (0 + length p)); [by eapply ctx_plug|apply (bi_shape _ _ _ _ Hi)].
  - cbn. unfold SIZEOF_KEY_PAIR, SIZEOF_INDEX_NODE. lia.
Qed.

End ops.
End BpRemove.
