(* ===== verification/BpTreeThms.v ===== *)
(** * What the B+tree guarantees

    Creation, lookup, insertion, update and removal refine operations on a
    finite map; the limit of the file; the sort of the redistribution.  The
    examples run on a file whose blocks are always there. *)
From stdpp Require Import sorting.
From S2P Require Import Prelude Bitmap Arr BpTree BpTreeOps BpPairs BpTreeSpec BpSearch BpSplit BpUp BpRemove.
Import Arr Bitmap BpTree BpTreeOps BpPairs BpAlloc BpTreeSpec BpSearch.
Import BpWorld BpInsert BpSplit BpGrow BpUp BpLeafSplit BpInsertNew BpRemove.

Module BpTreeThms.

(** ** A file that never runs out of space *)

Definition unlimited : BlockMap unit := fun _ => mret 0.
#[local] Existing Instance unlimited.

Lemma unlimited_space : has_space (D := unit).
Proof. intros b d. by exists d. Qed.

Definition no_file : tree unit := mk_tree unit (mk_ondisk 0 0 0 0 0 0 []) [] 0 0 0 ∅ tt.
Definition after {A} (m : M (tree unit) A) (s : tree unit) : tree unit :=
  match m s with Some (_, s') => s' | None => s end.

Lemma after_wp {A} (m : M (tree unit) A) s (Q : tree unit -> Prop) : wp m (fun _ => Q) s -> Q (after m s).
Proof. unfold wp, after. by destruct (m s) as [[a s']|]. Qed.

(** An empty tree, and one that maps 5 to 50 and 9 to 90. *)
Definition demo0 : tree unit := after (bp_alloc_master;; bp_init_root) no_file.
Definition demo1 : tree unit := after (bp_insert_key_tree 5 50 false) demo0.
Definition demo2 : tree unit := after (bp_insert_key_tree 9 90 false) demo1.

(** [s] holds a tree that stands for the map [m]. *)
Definition represents {D} (s : tree D) (n : Z) (m : gmap Z Z) : Prop := exists h t, bt_inv s n h t /\ bt_map t = m.

Lemma represents_result {D} (s s' : tree D) n m g :
  result s n m g s' -> exists n', n <= n' <= n + g /\ represents s' n' m /\ m_size s' = m_size s.
Proof. intros [(n' & h & t & Hi & Hm & Hn) Hs]. exists n'. split; [done|]. split; [|done]. by exists h, t. Qed.

Lemma demo0_inv : represents demo0 2 ∅.
Proof.
  apply (after_wp (bp_alloc_master;; bp_init_root) no_file (fun s => represents s 2 ∅)).
  apply create_wp; [apply unlimited_space|done|done|]. intros s' Hi _ _. by exists 0%nat, (Leaf 1 []).
Qed.

Lemma demo_insert s n m key value :
  n + 17 <= max_blocks -> 0 < key <= KEY_MAX -> m !! key = None -> represents s n m ->
  exists n', n <= n' <= n + 17 /\ represents (after (bp_insert_key_tree key value false) s) n' (<[key := value]> m).
Proof.
  intros Hn Hk Hm (h & t & Hi & <-).
  apply (after_wp _ s (fun s' => exists n', n <= n' <= n + 17 /\ represents s' n' (<[key := value]> (bt_map t)))).
  eapply wp_mono; [by apply (insert_new_wp s n h t); [apply unlimited_space|..]|].
  intros r s' (_ & Hres & _). apply represents_result in Hres as (n' & ? & ? & _). by exists n'.
Qed.

Lemma demo2_inv : exists n, 2 <= n <= 36 /\ represents demo2 n {[9 := 90; 5 := 50]}.
Proof.
  destruct (demo_insert demo0 2 ∅ 5 50) as (n1 & H1 & R1); [by rewrite max_blocks_eq|done|done|exact demo0_inv|].
  destruct (demo_insert demo1 n1 (<[5 := 50]> ∅) 9 90) as (n2 & H2 & R2); [rewrite max_blocks_eq; lia|done|done|exact R1|].
  exists n2. split; [lia|]. exact R2.
Qed.

(** ** The operations against a map *)

Section spec.
Context {D : Type} `{BlockMap D}.
Implicit Types s : tree D.

(** A program over the tree: what the directory index does with it. *)
Inductive op := Find (key : Z) | Insert (key value : Z) (update : bool) | Update (key value : Z).

Definition op_key (o : op) : Z := match o with Find k | Insert k _ _ | Update k _ => k end.

(** The code of an operation: its result and the value it found. *)
Definition run_op (o : op) : M (tree D) (Z * option Z) :=
  match o with
  | Find key => '(i, v) ← bp_find_key key; mret (if 0 <=? i then (0, Some v) else (-1, None))
  | Insert key value update => bp_insert_key_tree key value update
  | Update key value => r ← bp_update_key_tree key value; mret (r, None)
  end.
Fixpoint run (l : list op) : M (tree D) (list (Z * option Z)) :=
  match l with
  | [] => mret []
  | o :: l => r ← run_op o; rs ← run l; mret (r :: rs)
  end.

(** The same on a map. *)
Definition spec_op (m : gmap Z Z) (o : op) : gmap Z Z * (Z * option Z) :=
  match o with
  | Find key => (m, match m !! key with Some v => (0, Some v) | None => (-1, None) end)
  | Insert key value update =>
      match m !! key with
      | Some v => (if update then <[key := value]> m else m, (if update then 0 else -1, Some v))
      | None => (<[key := value]> m, (0, None))
      end
  | Update key value => (<[key := value]> m, (0, None))
  end.
Fixpoint spec (m : gmap Z Z) (l : list op) : gmap Z Z * list (Z * option Z) :=
  match l with
  | [] => (m, [])
  | o :: l => let '(m, r) := spec_op m o in let '(m, rs) := spec m l in (m, r :: rs)
  end.

(** Keys are positive 64-bit numbers, and only keys that are there are updated. *)
Definition op_ok (m : gmap Z Z) (o : op) : Prop :=
  0 < op_key o <= KEY_MAX /\ match o with Update key _ => is_Some (m !! key) | _ => True end.
Fixpoint ops_ok (m : gmap Z Z) (l : list op) : Prop :=
  match l with [] => True | o :: l => op_ok m o /\ ops_ok (spec_op m o).1 l end.

Lemma run_op_wp s n m o :
  has_space -> n + 17 <= max_blocks -> represents s n m -> op_ok m o ->
  wp (run_op o) (fun r s' => r = (spec_op m o).2 /\ m_size s' = m_size s /\
        exists n', n <= n' <= n + 17 /\ represents s' n' (spec_op m o).1) s.
Proof.
  intros Hsp Hn (h & t & Hi & <-) [Hk Hu].
  assert (forall s' m' g, 0 <= g <= 17 -> result s n m' g s' -> m_size s' = m_size s /\
    exists n', n <= n' <= n + 17 /\ represents s' n' m') as Hres.
  { intros s' m' g Hg Hr. apply represents_result in Hr as (n' & Hn' & Hrep & Hsz). split; [done|].
    exists n'. split; [lia|done]. }
  destruct o as [key|key value update|key value]; cbn [run_op spec_op op_key] in *.
  - wp_step. eapply find_key_wp; [exact Hi|done|].
    assert (m_size s = m_size s /\ exists n', n <= n' <= n + 17 /\ represents s n' (bt_map t)) as Hsame
      by (split; [done|]; exists n; split; [lia|]; by exists h, t).
    intros idx v [[Hidx Hv]|(-> & -> & Hv)]; rewrite Hv; cbn beta iota.
    + rewrite (proj2 (Z.leb_le 0 idx)) by done. wp_steps. by split.
    + cbn. wp_steps. by split.
  - destruct (bt_map t !! key) as [v|] eqn:Hv.
    + eapply wp_mono; [by eapply insert_old_wp|]. intros r s' (-> & Hr & _). split; [done|]. by apply (Hres _ _ 0).
    + eapply wp_mono; [by eapply insert_new_wp|]. intros r s' (-> & Hr & _). split; [done|]. by apply (Hres _ _ 17).
  - destruct Hu as [v Hv]. wp_step. eapply wp_mono; [by eapply update_key_wp|].
    intros r s' (-> & Hr & _). wp_steps. split; [done|]. by apply (Hres _ _ 0).
Qed.

Lemma run_wp l : forall s n m,
  has_space -> n + 17 * Z.of_nat (length l) <= max_blocks -> represents s n m -> ops_ok m l ->
  wp (run l) (fun rs s' => rs = (spec m l).2 /\ m_size s' = m_size s /\
        exists n', n <= n' /\ represents s' n' (spec m l).1) s.
Proof.
  induction l as [|o l IH]; intros s n m Hsp Hn Hr Hok; cbn [run spec].
  - wp_steps. split; [done|]. split; [done|]. by exists n.
  - destruct Hok as [Ho Hl]. wp_step. eapply wp_mono; [apply (run_op_wp s n m o); [done|simpl in Hn; lia|done|done]|].
    intros r s1 (-> & Hs1 & n1 & Hn1 & Hr1). wp_step.
    destruct (spec_op m o) as [m1 r1]. cbn [fst snd] in *.
    eapply wp_mono; [apply (IH s1 n1 m1); [done|simpl in Hn; lia|done|done]|].
    intros rs s2 (-> & Hs2 & n2 & Hn2 & Hr2). wp_steps. destruct (spec m1 l) as [m2 rs2]. cbn [fst snd] in *.
    split; [done|]. split; [congruence|]. exists n2. split; [lia|done].
Qed.


(** bp_find_key on a tree that holds a map returns the value of the key with
    the index of its entry, or -1 exactly when the key is absent; it changes
    nothing, the stack and the memory counter included. *)
Theorem bp_find_key_correct s n m key :
  represents s n m -> 0 < key <= KEY_MAX ->
  wp (bp_find_key key) (fun r s' => s' = s /\
    match m !! key with Some v => 0 <= r.1 /\ r.2 = v | None => r = (-1, 0) end) s.
Proof.
  intros (h & t & Hi & <-) Hk. eapply find_key_wp; [exact Hi|done|].
  intros idx v [[Hidx Hv]|(-> & -> & Hv)]; rewrite Hv; done.
Qed.

(** bp_insert_key_tree of a new key, with room for 17 more blocks, succeeds
    and inserts the key into the map, whatever nodes have to be split: the leaf
    with room, the full root leaf, a full leaf under full inner nodes up to a
    new root.  It takes at most 17 blocks, counts the key and releases every
    handle. *)
Theorem bp_insert_key_tree_new s n m key value update :
  has_space -> n + 17 <= max_blocks -> represents s n m -> 0 < key <= KEY_MAX -> m !! key = None ->
  wp (bp_insert_key_tree key value update)
     (fun r s' => r = (0, None) /\ m_size s' = m_size s /\ m_key_count s' = u32 (m_key_count s + 1) /\
        exists n', n <= n' <= n + 17 /\ represents s' n' (<[key := value]> m)) s.
Proof.
  intros Hsp Hn (h & t & Hi & <-) Hk Hm. eapply wp_mono; [by apply (insert_new_wp s n h t)|].
  intros r s' (-> & Hr & Hc). apply represents_result in Hr as (n' & Hn' & Hrep & Hsz). split_and!; try done. by exists n'.
Qed.

(** bp_insert_key_tree of a key that is there reports its old value; with
    the update flag it replaces the value and returns 0, without it it changes
    nothing in the map and returns -1. *)
Theorem bp_insert_key_tree_old s n m key value update v :
  represents s n m -> 0 < key <= KEY_MAX -> m !! key = Some v ->
  wp (bp_insert_key_tree key value update)
     (fun r s' => r = ((if update then 0 else -1), Some v) /\ m_size s' = m_size s /\ m_key_count s' = m_key_count s /\
        represents s' n (if update then <[key := value]> m else m)) s.
Proof.
  intros (h & t & Hi & <-) Hk Hm. eapply wp_mono; [by apply (insert_old_wp s n h t)|].
  intros r s' (-> & Hr & Hc). apply represents_result in Hr as (n' & Hn' & Hrep & Hsz).
  assert (n' = n) as -> by lia. done.
Qed.

(** C27: bp_remove_key of a key whose leaf keeps an entry or is the root deletes
    the key from the map and releases every handle. *)
Theorem bp_remove_key_correct freed s n h t key v :
  bt_inv s n h t -> 0 < key <= KEY_MAX -> bt_map t !! key = Some v -> keeps t key ->
  wp (bp_remove_key freed key)
     (fun r s' => r = 0 /\ m_size s' = m_size s /\ m_key_count s' = u32 (m_key_count s - 1) /\
        represents s' n (delete key (bt_map t))) s.
Proof.
  intros Hi Hk Hm Hkeep. eapply wp_mono; [by apply (remove_wp freed s n h t key v)|].
  intros r s' (-> & Hr & Hc). apply reshaped_result, represents_result in Hr as (n' & Hn' & Hrep & Hsz).
  assert (n' = n) as -> by lia. done.
Qed.

(** bp_remove_key of a key that is absent returns -1 and leaves the tree
    alone, but it returns with the whole path from the root on its stack and the
    handle of the leaf (96 bytes) still allocated. *)
Theorem bp_remove_key_missing freed s n h t key :
  bt_inv s n h t -> 0 < key <= KEY_MAX -> bt_map t !! key = None ->
  wp (bp_remove_key freed key)
     (fun r s' => r = -1 /\ bt_inv (set_stack [] s') n h t /\ length (m_stack s') = h /\ m_size s' = m_size s + 96) s.
Proof. apply remove_missing_wp. Qed.


(** bubble_sort, which the redistribution of two nodes uses, sorts the first
    [n] pairs by key and touches no other: the result is the one sorted
    permutation of them when the keys differ. *)
Theorem bubble_sort_sorts (l r : list (Z * Z)) :
  exists l', bubble_sort (mk (l ++ r)) (Z.of_nat (length l)) = Some (mk (l' ++ r)) /\ l' ≡ₚ l /\
    StronglySorted ple l' /\ (NoDup l.*1 -> forall l2, l2 ≡ₚ l -> StronglySorted ple l2 -> l2 = l').
Proof.
  destruct (bubble_sort_spec l r _ eq_refl) as (l' & H1 & H2 & H3). exists l'. split_and!; try done.
  intros Hnd l2 Hp Hs. apply sorted_unique; [apply ple_plt; [done|by rewrite Hp]|apply ple_plt; [done|by rewrite H2]|by rewrite H2].
Qed.

End spec.

(** ** Examples *)

Lemma flag_leaf {D} (s : tree D) n h t pg :
  bt_inv s n h t -> m_pages s !! m_root (m_ondisk s) = Some pg -> i_flag (p_hdr pg) = 1 ->
  exists es, t = Leaf (m_root (m_ondisk s)) es.
Proof.
  intros [_ Hr Hh _ _ _ _] Hp Hf. destruct t as [o es|o cs]; cbn in Hr; [exists es; by rewrite Hr|]. exfalso.
  apply Forall_cons in Hh as [(pg' & Hp' & _ & _ & Hf' & _) _]. cbn in *. rewrite Hr in Hp'. simplify_eq. congruence.
Qed.

Lemma keeps_leaf o es key : keeps (Leaf o es) key.
Proof.
  assert (forall p f t, exists o' cs, plug (f :: p) t = Node o' cs) as Htop.
  { induction p as [|g p IH]; intros f t; [by eexists _, _|]. apply (IH g (fill f t)). }
  intros [|f p] o' es' E _; [by left|]. destruct (Htop p f (Leaf o' es')) as (o2 & cs & E2). congruence.
Qed.


Lemma bp_find_key_witness :
  wp (bp_find_key 9) (fun r s' => s' = demo2 /\ 0 <= r.1 /\ r.2 = 90) demo2.
Proof.
  destruct demo2_inv as (n & _ & R). eapply wp_mono; [apply (bp_find_key_correct demo2 n {[9 := 90; 5 := 50]} 9 R); done|].
  intros r s' Hr. exact Hr.
Defined.

Lemma bp_insert_key_tree_new_witness :
  wp (bp_insert_key_tree 7 70 false)
     (fun r s' => r = (0, None) /\ exists n', represents s' n' (<[7 := 70]> {[9 := 90; 5 := 50]})) demo2.
Proof.
  destruct demo2_inv as (n & Hn & R).
  eapply wp_mono; [apply (bp_insert_key_tree_new demo2 n {[9 := 90; 5 := 50]} 7 70 false unlimited_space); [rewrite max_blocks_eq; lia|exact R|done|done]|].
  intros r s' (-> & _ & _ & n' & _ & R'). split; [done|]. by exists n'.
Defined.

Lemma bp_insert_key_tree_old_witness :
  wp (bp_insert_key_tree 9 91 true)
     (fun r s' => r = (0, Some 90) /\ exists n', represents s' n' (<[9 := 91]> {[9 := 90; 5 := 50]})) demo2.
Proof.
  destruct demo2_inv as (n & Hn & R).
  eapply wp_mono; [apply (bp_insert_key_tree_old demo2 n {[9 := 90; 5 := 50]} 9 91 true 90 R); [done|done]|].
  intros r s' (-> & _ & _ & R'). split; [done|]. by exists n.
Defined.

Lemma bp_remove_key_witness :
  exists n, wp (bp_remove_key false 9)
     (fun r s' => r = 0 /\ represents s' n (delete 9 {[9 := 90; 5 := 50]})) demo2.
Proof.
  destruct demo2_inv as (n & Hn & h & t & Hi & Hm). exists n.
  destruct (flag_leaf demo2 n h t (default page_zero (m_pages demo2 !! m_root (m_ondisk demo2))) Hi) as [es ->];
    [vm_compute; reflexivity|vm_compute; reflexivity|].
  rewrite <- Hm.
  eapply wp_mono; [apply (bp_remove_key_correct false demo2 n h _ 9 90 Hi); [done|by rewrite Hm|apply keeps_leaf]|].
  intros r s' (-> & _ & _ & R'). by split.
Defined.

Lemma bp_remove_key_missing_witness :
  wp (bp_remove_key false 7) (fun r s' => r = -1 /\ m_size s' = m_size demo2 + 96) demo2.
Proof.
  destruct demo2_inv as (n & Hn & h & t & Hi & Hm).
  eapply wp_mono; [apply (bp_remove_key_missing false demo2 n h t 7 Hi); [done|by rewrite Hm]|].
  intros r s' (-> & _ & _ & Hs). by split.
Defined.

(** A file in which every block is in use. *)
Definition full_file : tree unit :=
  mk_tree unit (mk_ondisk 1 0 0 0 0 0 (replicate (Z.to_nat BP_BITMAP_SIZE) 255)) [] 0 0 (max_blocks * CLUSTER_SIZE) ∅ tt.

Lemma full_bit i : 0 <= i < max_blocks -> bit (bitmap (m_ondisk full_file)) i = true.
Proof.
  intros Hi. unfold bit. cbn [full_file m_ondisk bitmap].
  assert ((Z.to_nat (i / 8) < Z.to_nat BP_BITMAP_SIZE)%nat) as Hlt by (unfold max_blocks in Hi; dmlia).
  rewrite lookup_replicate_2 by done.
  change 255 with (Z.ones 8). apply Z.ones_spec_low. dmlia.
Qed.

Lemma full_file_ok : alloc_ok max_blocks (m_ondisk full_file) (m_isize full_file) (range 1 max_blocks).
Proof.
  assert (free_bits (bitmap (m_ondisk full_file)) max_blocks = 0) as Hf.
  { destruct (Z.eq_dec (free_bits (bitmap (m_ondisk full_file)) max_blocks) 0) as [|Hne]; [done|].
    apply free_bits_pos in Hne as (i & Hi & Hb). rewrite (full_bit i Hi) in Hb. discriminate Hb. }
  constructor; rewrite ?Hf.
  - reflexivity.
  - rewrite max_blocks_eq. lia.
  - unfold full_file. cbn [m_ondisk bitmap]. split; [by rewrite length_replicate|]. apply Forall_replicate. unfold is_u8. lia.
  - intros i Hi. rewrite (full_bit i Hi). symmetry. apply bool_decide_eq_true_2. rewrite elem_of_range. lia.
  - intros o Ho%elem_of_range. lia.
  - reflexivity.
  - reflexivity.
  - reflexivity.
  - rewrite max_blocks_eq. cbn. lia.
Qed.


End BpTreeThms.
