(* ===== verification/Dir.v ===== *)
(** * Directories: entries, the hash index, lookup (nvfuse_core.c, nvfuse_api.c)

    A directory is an inode with blocks of DIR_ENTRY_NUM entries and, in
    [i_bpino], the inode of a B+tree that maps the hash of a name to the number
    of its entry.  Two interfaces cut the component out of the file system:
    [Store] is what it uses of the inode table, the allocators and the block
    map of files, [Index] what it uses of a B+tree file.

    The model keeps the locks, since the source keeps them across calls:
    [d_locked] are the inodes whose context is locked (nvfuse_read_inode takes
    the spin lock, nvfuse_release_inode drops it), [d_held] the buffers that
    are taken (nvfuse_get_bh takes the lock of the buffer).  Taking what is
    taken spins for ever, which is an abnormal end ([None]) here.  [d_bufs] are
    the contents of the directory blocks; the buffer of a block that was freed
    keeps its contents, as in the cache.  The wall clock is [d_now]. *)
From S2P Require Import Prelude Bitmap Layout DirHash.
Import Layout DirHash.

Module Dir.

(** ** Data *)
Definition MAX_FILES_PER_DIR : Z := 0x7FFFFFFF.
(** (11 + 1024 + 1024^2 + 1024^3) clusters *)
Definition MAX_FILE_SIZE : Z := (11 + 1024 + 1024 ^ 2 + 1024 ^ 3) * CLUSTER_SIZE.
Definition NVFUSE_TYPE_FILE : Z := 4.
Definition NVFUSE_TYPE_BPTREE : Z := 8.
Definition NVFUSE_BP_LOW_BITS : Z := 32.
Definition NVFUSE_BP_COLLISION_BITS : Z := 2.
Definition NVFUSE_SUCCESS : Z := 0.
Definition NVFUSE_ERROR : Z := -1.
Definition NVFUSE_SIZE_TO_BLK (x : Z) : Z := s32 (Z.shiftr x 12).
Definition NVFUSE_DENTRY_TO_BLK (x : Z) : Z := x / DIR_ENTRY_NUM.

Definition block_zero : list nvfuse_dir_entry := replicate (Z.to_nat DIR_ENTRY_NUM) dentry_zero.
Definition set_d_flag (f : Z) (e : nvfuse_dir_entry) : nvfuse_dir_entry :=
  mk_dentry (d_ino e) f (d_version e) (d_filename e).

Definition name_dot : list Z := [46].
Definition name_dotdot : list Z := [46; 46].
Definition strcmp_eq (a b : list Z) : bool := bool_decide (a = b).
Definition strlen (a : list Z) : Z := Z.of_nat (length a).

(** src/nvfuse_core.c: nvfuse_dir_is_invalid *)
Definition nvfuse_dir_is_invalid (dir : nvfuse_dir_entry) : bool :=
  (d_flag dir =? DIR_EMPTY) || (d_flag dir =? DIR_DELETED).

Definition set_i_type (v : Z) (i : nvfuse_inode) : nvfuse_inode :=
  mk_inode (i_ino i) v (i_size i) (i_bpino i) (i_version i) (i_deleted i) (i_links_count i) (i_ptr i)
    (i_atime i) (i_ctime i) (i_mtime i) (i_dtime i) (i_gid i) (i_uid i) (i_mode i) (i_blocks i).
Definition set_i_size (v : Z) (i : nvfuse_inode) : nvfuse_inode :=
  mk_inode (i_ino i) (i_type i) v (i_bpino i) (i_version i) (i_deleted i) (i_links_count i) (i_ptr i)
    (i_atime i) (i_ctime i) (i_mtime i) (i_dtime i) (i_gid i) (i_uid i) (i_mode i) (i_blocks i).
Definition set_i_bpino (v : Z) (i : nvfuse_inode) : nvfuse_inode :=
  mk_inode (i_ino i) (i_type i) (i_size i) v (i_version i) (i_deleted i) (i_links_count i) (i_ptr i)
    (i_atime i) (i_ctime i) (i_mtime i) (i_dtime i) (i_gid i) (i_uid i) (i_mode i) (i_blocks i).
Definition set_i_links (v : Z) (i : nvfuse_inode) : nvfuse_inode :=
  mk_inode (i_ino i) (i_type i) (i_size i) (i_bpino i) (i_version i) (i_deleted i) (u32 v) (i_ptr i)
    (i_atime i) (i_ctime i) (i_mtime i) (i_dtime i) (i_gid i) (i_uid i) (i_mode i) (i_blocks i).
Definition set_i_ptr (v : Z) (i : nvfuse_inode) : nvfuse_inode :=
  mk_inode (i_ino i) (i_type i) (i_size i) (i_bpino i) (i_version i) (i_deleted i) (i_links_count i) (u32 v)
    (i_atime i) (i_ctime i) (i_mtime i) (i_dtime i) (i_gid i) (i_uid i) (i_mode i) (i_blocks i).

Definition set_i_blocks (l : list Z) (i : nvfuse_inode) : nvfuse_inode :=
  mk_inode (i_ino i) (i_type i) (i_size i) (i_bpino i) (i_version i) (i_deleted i) (i_links_count i) (i_ptr i)
    (i_atime i) (i_ctime i) (i_mtime i) (i_dtime i) (i_gid i) (i_uid i) (i_mode i) l.

(** ** Interfaces *)

(** What directories use of the rest of the file system: the inode table,
    nvfuse_alloc_new_inode (0 when there is none), nvfuse_relocate_delete_inode,
    nvfuse_get_block (ino, lblock, 1, .., 1) with its error code,
    nvfuse_truncate_blocks (ino, size), whether nvfuse_get_pbn finds a block, and
    two fields of the superblock: sb_no_of_inodes_per_bg * sb_bg_num and
    sb_root_ino. *)
Class Store (A : Type) := {
  st_inode : A -> Z -> option nvfuse_inode;
  st_set_inode : Z -> nvfuse_inode -> A -> A;
  st_alloc_inode : M A Z;
  st_delete_inode : Z -> M A Z;
  st_get_block : Z -> Z -> M A Z;
  st_truncate : Z -> Z -> M A unit;
  st_mapped : A -> Z -> Z -> bool;
  st_no_of_inodes : A -> Z;
  st_root_ino : A -> Z }.

(** What directories use of the B+tree file [bpino]: creation of the master
    block and the root ([None] is an error), lookup (index below 0 when the key
    is absent, and the value), B_INSERT without update (the error code, and the
    old value when there is one), B_UPDATE, B_REMOVE. *)
Class Index (A I : Type) := {
  ix_create : Z -> M A (option I);
  ix_find : Z -> Z -> M (A * I) (Z * Z);
  ix_insert : Z -> Z -> Z -> M (A * I) (Z * option Z);
  ix_update : Z -> Z -> Z -> M (A * I) Z;
  ix_remove : Z -> Z -> M (A * I) Z }.

(** ** State *)

Record dst {A I : Type} := mk_dst {
  d_store : A;
  d_locked : gset Z;
  d_held : gset (Z * Z);
  d_bufs : gmap (Z * Z) (list nvfuse_dir_entry);
  d_index : gmap Z I;
  d_now : Z }.
Arguments dst : clear implicits.

Section ops.
Context {A I : Type} `{Store A} `{Index A I}.
Notation DM := (M (dst A I)).
Implicit Types s : dst A I.

Definition set_store (a : A) s : dst A I :=
  mk_dst A I a (d_locked s) (d_held s) (d_bufs s) (d_index s) (d_now s).
Definition set_locked (l : gset Z) s : dst A I :=
  mk_dst A I (d_store s) l (d_held s) (d_bufs s) (d_index s) (d_now s).
Definition set_held (h : gset (Z * Z)) s : dst A I :=
  mk_dst A I (d_store s) (d_locked s) h (d_bufs s) (d_index s) (d_now s).
Definition set_buf (k : Z * Z) (b : list nvfuse_dir_entry) s : dst A I :=
  mk_dst A I (d_store s) (d_locked s) (d_held s) (<[k := b]> (d_bufs s)) (d_index s) (d_now s).
Definition set_index (m : gmap Z I) s : dst A I :=
  mk_dst A I (d_store s) (d_locked s) (d_held s) (d_bufs s) m (d_now s).

Definition on_store {X} (m : M A X) : DM X := fun s =>
  match m (d_store s) with Some (x, a) => Some (x, set_store a s) | None => None end.

(** The fields of an inode whose context is locked; the pointer [ictx_inode]
    stays valid, so every access sees the current contents. *)
Definition get_inode (ino : Z) : DM nvfuse_inode := fun s => mlift (st_inode (d_store s) ino) s.
Definition upd_inode (ino : Z) (f : nvfuse_inode -> nvfuse_inode) : DM unit :=
  i ← get_inode ino; mmodify (fun s => set_store (st_set_inode ino (f i) (d_store s)) s).

(** ** Locks and buffers *)

Definition lock_inode (ino : Z) : DM unit :=
  s ← mget; massert (bool_decide (ino ∉ d_locked s));; mput (set_locked ({[ ino ]} ∪ d_locked s) s).
Definition unlock_inode (ino : Z) : DM unit :=
  s ← mget; massert (bool_decide (ino ∈ d_locked s));; mput (set_locked (d_locked s ∖ {[ ino ]}) s).
Definition hold (k : Z * Z) : DM unit :=
  s ← mget; massert (bool_decide (k ∉ d_held s));; mput (set_held ({[ k ]} ∪ d_held s) s).

(** src/nvfuse_core.c: nvfuse_read_inode with no context given; the result
    tells whether it is not NULL. *)
Definition nvfuse_read_inode (ino : Z) : DM bool :=
  if ino <? ROOT_INO then mret false
  else
    lock_inode ino;;
    inode ← get_inode ino;
    massert (ino =? i_ino inode);;
    mret true.

(** src/nvfuse_core.c: nvfuse_release_inode; a second release trips an assertion. *)
Definition nvfuse_release_inode (ino : Z) : DM unit := unlock_inode ino.

(** nvfuse_get_bh (sb, ictx, ino, lblock, READ, META): asserts that the inode is
    locked and that the block is mapped. *)
Definition nvfuse_get_bh (ino lblock : Z) : DM unit :=
  s ← mget;
  massert (bool_decide (ino ∈ d_locked s));;
  hold (ino, lblock);;
  massert (st_mapped (d_store s) ino lblock);;
  massert (bool_decide (is_Some (d_bufs s !! (ino, lblock)))).
(** The same with WRITE: the block is not read; its buffer is what the cache
    still has, or a cleared one. *)
Definition nvfuse_get_bh_write (ino lblock : Z) : DM unit :=
  s ← mget;
  massert (bool_decide (ino ∈ d_locked s));;
  hold (ino, lblock);;
  massert (st_mapped (d_store s) ino lblock);;
  mmodify (set_buf (ino, lblock) (default block_zero (d_bufs s !! (ino, lblock)))).
(** nvfuse_get_new_bh: a cleared buffer *)
Definition nvfuse_get_new_bh (ino lblock : Z) : DM unit :=
  s ← mget;
  massert (bool_decide (ino ∈ d_locked s));;
  hold (ino, lblock);;
  massert (st_mapped (d_store s) ino lblock);;
  mmodify (set_buf (ino, lblock) block_zero).
(** nvfuse_release_bh; releasing what is not held trips the assertion on the
    reference count. *)
Definition nvfuse_release_bh (k : Z * Z) : DM unit :=
  s ← mget; massert (bool_decide (k ∈ d_held s));; mput (set_held (d_held s ∖ {[ k ]}) s).
Definition release_opt (k : option (Z * Z)) : DM unit :=
  match k with Some k => nvfuse_release_bh k | None => mret tt end.

(** Entry [i] of the buffer of a block. *)
Definition get_dentry (ino lblock i : Z) : DM nvfuse_dir_entry := fun s =>
  mlift (b ← d_bufs s !! (ino, lblock); if 0 <=? i then b !! Z.to_nat i else None) s.
Definition set_dentry (ino lblock i : Z) (e : nvfuse_dir_entry) : DM unit :=
  s ← mget;
  b ← mlift (d_bufs s !! (ino, lblock));
  massert ((0 <=? i) && (i <? Z.of_nat (length b)));;
  mput (set_buf (ino, lblock) (<[Z.to_nat i := e]> b) s).

(** ** The index *)

Definition on_index {X} (bpino : Z) (m : M (A * I) X) : DM X := fun s =>
  match d_index s !! bpino with
  | Some i =>
      match m (d_store s, i) with
      | Some (x, (a, i')) => Some (x, set_index (<[bpino := i']> (d_index s)) (set_store a s))
      | None => None
      end
  | None => None
  end.

(** bp_init_master and src/nvfuse_bp_tree.c: bp_read_master, which takes the
    inode and block 0 of the tree *)
Definition bp_read_master (bpino : Z) : DM unit :=
  b ← nvfuse_read_inode bpino;
  massert b;;
  hold (bpino, 0).
(** bp_write_master, or B_RELEASE_BH on the master block *)
Definition bp_write_master (bpino : Z) : DM unit := nvfuse_release_bh (bpino, 0).
Definition bp_deinit_master (bpino : Z) : DM unit := nvfuse_release_inode bpino.

Definition collision_mask : Z := Z.shiftr (2 ^ 32 - 1) NVFUSE_BP_COLLISION_BITS.
Definition collision_shift : Z := NVFUSE_BP_LOW_BITS - NVFUSE_BP_COLLISION_BITS.
(** The number of further names with the same hash, and the entry of an index value. *)
Definition collisions (v : Z) : Z := Z.shiftr v collision_shift.
Definition decode_offset (v : Z) : Z := if collisions v =? 0 then Z.land v collision_mask else 0.
(** The value after one more name collides. *)
Definition bump (v : Z) : Z := u32 (Z.shiftl (u32 (collisions v + 1)) collision_shift).

(** src/nvfuse_core.c: nvfuse_set_dir_indexing.  The statistics of the clock are
    left out. *)
Definition nvfuse_set_dir_indexing (ino : Z) (filename : list Z) (offset : Z) : DM Z :=
  inode ← get_inode ino;
  let bpino := i_bpino inode in
  massert (negb (bpino =? 0));;
  bp_read_master bpino;;
  let offset := Z.land offset collision_mask in
  key ← mlift (dir_key filename);
  '(r, cur_offset) ← on_index bpino (ix_insert bpino key offset);
  (if r <? 0 then
     cur ← mlift cur_offset;
     on_index bpino (ix_update bpino key (bump cur));; mret tt
   else mret tt);;
  bp_write_master bpino;;
  bp_deinit_master bpino;;
  mret 0.

(** src/nvfuse_core.c: nvfuse_get_dir_indexing: the error code and [*offset].
    The names . and .. return before the tree is released. *)
Definition nvfuse_get_dir_indexing (ino : Z) (filename : list Z) : DM (Z * Z) :=
  inode ← get_inode ino;
  let bpino := i_bpino inode in
  massert (negb (bpino =? 0));;
  bp_read_master bpino;;
  if strcmp_eq filename name_dot || strcmp_eq filename name_dotdot then mret (0, 0)
  else
    key ← mlift (dir_key filename);
    '(r, v) ← on_index bpino (ix_find bpino key);
    bp_write_master bpino;;
    bp_deinit_master bpino;;
    mret (if r <? 0 then (-1, v) else (0, decode_offset v)).

(** src/nvfuse_core.c: nvfuse_update_dir_indexing: as above, but the block of the
    tree stays taken on every path. *)
Definition nvfuse_update_dir_indexing (ino : Z) (filename : list Z) : DM (Z * Z) :=
  inode ← get_inode ino;
  let bpino := i_bpino inode in
  massert (negb (bpino =? 0));;
  bp_read_master bpino;;
  if strcmp_eq filename name_dot || strcmp_eq filename name_dotdot then mret (0, 0)
  else
    key ← mlift (dir_key filename);
    '(r, v) ← on_index bpino (ix_find bpino key);
    bp_deinit_master bpino;;
    mret (if r <? 0 then (-1, v) else (0, decode_offset v)).

(** src/nvfuse_core.c: nvfuse_del_dir_indexing; a missing key returns with the
    tree taken. *)
Definition nvfuse_del_dir_indexing (ino : Z) (filename : list Z) : DM Z :=
  inode ← get_inode ino;
  let bpino := i_bpino inode in
  massert (negb (bpino =? 0));;
  bp_read_master bpino;;
  key ← mlift (dir_key filename);
  '(r, v) ← on_index bpino (ix_find bpino key);
  if r <? 0 then mret (-1)
  else
    (if collisions v =? 0 then on_index bpino (ix_remove bpino key);; mret tt
     else
       let c := u32 (Z.shiftl (collisions v - 1) collision_shift) in
       on_index bpino (ix_update bpino key (Z.lor c (Z.land v collision_mask)));; mret tt);;
    bp_write_master bpino;;
    bp_deinit_master bpino;;
    mret 0.

(** src/nvfuse_core.c: nvfuse_create_bptree with the part of
    src/nvfuse_bp_tree.c: bp_alloc_inode_and_master that makes the inode. *)
Definition nvfuse_create_bptree (ino : Z) : DM Z :=
  bpino ← on_store st_alloc_inode;
  if bpino =? 0 then mret (-1)
  else
    lock_inode bpino;;
    upd_inode bpino (fun i => set_i_links 1 (set_i_size 0 (set_i_type NVFUSE_TYPE_BPTREE i)));;
    t ← on_store (ix_create bpino);
    match t with
    | None => mret (-1)
    | Some t =>
        mmodify (fun s => set_index (<[bpino := t]> (d_index s)) s);;
        hold (bpino, 0);;
        bp_write_master bpino;;
        upd_inode ino (set_i_bpino bpino);;
        bp_deinit_master bpino;;
        mret 0
    end.

End ops.
End Dir.
