(* ===== verification/DirOps.v ===== *)
(** * Directories: creating, looking up, linking and removing names

    The functions of src/nvfuse_core.c and src/nvfuse_api.c that work on the
    entries of a directory, on top of the index of [Dir].  nvfuse_check_flush_dirty
    and nvfuse_release_super, which do not change what is modelled, are left out. *)
From S2P Require Import Prelude Bitmap Layout DirHash Dir.
Import Layout DirHash Dir.

Module DirOps.

(** ** Device numbers (mknod) *)

(** The macros of the C library. *)
Definition major (dev : Z) : Z :=
  Z.lor (Z.land (Z.shiftr dev 8) 0xfff) (u32 (Z.land (Z.shiftr dev 32) (Z.lnot 0xfff))).
Definition minor (dev : Z) : Z :=
  Z.lor (Z.land dev 0xff) (u32 (Z.land (Z.shiftr dev 12) (Z.lnot 0xff))).
Definition makedev (maj min : Z) : Z :=
  Z.lor (Z.lor (Z.shiftl (Z.land maj 0xfff) 8) (Z.shiftl (Z.land maj 0xfffff000) 32))
    (Z.lor (Z.land min 0xff) (Z.shiftl (Z.land min 0xffffff00) 12)).

Definition old_encode_dev (dev : Z) : Z := (Z.lor (Z.shiftl (major dev) 8) (minor dev)) mod 2 ^ 16.
Definition new_encode_dev (dev : Z) : Z :=
  u32 (Z.lor (Z.lor (Z.land (minor dev) 0xff) (Z.shiftl (major dev) 8))
         (Z.shiftl (Z.land (minor dev) (Z.lnot 0xff)) 12)).
Definition old_valid_dev (dev : Z) : bool := (major dev <? 256) && (minor dev <? 256).
Definition old_decode_dev (val : Z) : Z := makedev (Z.land (Z.shiftr val 8) 255) (Z.land val 255).
Definition new_decode_dev (dev : Z) : Z :=
  makedev (Z.shiftr (Z.land dev 0xfff00) 8)
    (Z.lor (Z.land dev 0xff) (Z.land (Z.shiftr dev 12) 0xfff00)).

Definition S_IFMT : Z := 0xF000.
Definition S_IFCHR : Z := 0x2000.
Definition S_IFBLK : Z := 0x6000.
Definition S_IFDIR : Z := 0x4000.
Definition S_ISCHR (m : Z) : bool := Z.land m S_IFMT =? S_IFCHR.
Definition S_ISBLK (m : Z) : bool := Z.land m S_IFMT =? S_IFBLK.

Section ops.
Context {A I : Type} `{Store A} `{Index A I}.
Notation DM := (M (dst A I)).

(** ** Lookup *)

(** [dir->d_flag == DIR_USED && !strcmp (dir->d_filename, filename)] *)
Definition is_entry (filename : list Z) (e : nvfuse_dir_entry) : bool :=
  (d_flag e =? DIR_USED) && strcmp_eq (d_filename e) filename.

(** The inner loop of nvfuse_lookup_linear.  Nothing in its body advances [dir]:
    the first entry decides, and if it is not the one the loop does not end, for
    any number of iterations. *)
Fixpoint linear_while (fuel : nat) (ino blk i last : Z) (filename : list Z) : DM bool :=
  match fuel with
  | O => mabort
  | S fuel' =>
      if i <? last then
        e ← get_dentry ino blk i;
        if is_entry filename e then mret true else linear_while fuel' ino blk i last filename
      else mret false
  end.

(** The loop over the blocks: the block of the entry found, and the buffer left
    in [*dir_bh_return]. *)
Fixpoint lookup_linear_loop (fuel n : nat) (ino blk : Z) (filename : list Z) (dir_bh : option (Z * Z))
  : DM (option Z * option (Z * Z)) :=
  match n with
  | O => mret (None, dir_bh)
  | S n' =>
      nvfuse_get_bh ino blk;;
      inode ← get_inode ino;
      let dentry_num :=
        if blk <? NVFUSE_SIZE_TO_BLK (i_size inode) - 1 then DIR_ENTRY_NUM
        else
          let r := i_links_count inode mod DIR_ENTRY_NUM in
          if r =? 0 then DIR_ENTRY_NUM else r in
      found ← linear_while fuel ino blk 0 dentry_num filename;
      if (found : bool) then mret (Some blk, Some (ino, blk))
      else
        nvfuse_release_bh (ino, blk);;
        lookup_linear_loop fuel n' ino (blk + 1) filename (Some (ino, blk))
  end.

(** src/nvfuse_api.c: nvfuse_lookup_linear: the position of the entry. *)
Definition nvfuse_lookup_linear (ino : Z) (filename : list Z) : DM (option (Z * Z) * option (Z * Z)) :=
  inode ← get_inode ino;
  '(r, bh) ← lookup_linear_loop 1 (Z.to_nat (NVFUSE_SIZE_TO_BLK (i_size inode))) ino 0 filename None;
  mret ((fun blk => (blk, 0)) <$> r, bh).

(** What nvfuse_lookup_bptree returns in [dir] and [*dir_bh_return]: NULL, an
    entry in a buffer, or the marker 1 without a buffer. *)
Inductive bp_result := BpNone | BpFound (blk i : Z) | BpCollision.

(** src/nvfuse_api.c: nvfuse_lookup_bptree *)
Definition nvfuse_lookup_bptree (ino : Z) (filename : list Z) : DM bp_result :=
  '(res, dentry_idx) ← nvfuse_get_dir_indexing ino filename;
  if res <? 0 then mret BpNone
  else if negb (dentry_idx =? 0) then
    let blk := NVFUSE_DENTRY_TO_BLK dentry_idx in
    nvfuse_get_bh ino blk;;
    dir ← get_dentry ino blk (dentry_idx mod DIR_ENTRY_NUM);
    massert (is_entry filename dir);;
    mret (BpFound blk (dentry_idx mod DIR_ENTRY_NUM))
  else mret BpCollision.

(** src/nvfuse_api.c: nvfuse_lookup: the code, the entry copied to
    [*file_entry], and, when [want_ictx] holds, whether [*file_ictx] is set to
    the locked inode of the entry. *)
Definition nvfuse_lookup (want_ictx : bool) (filename : list Z) (cur_dir_ino : Z)
  : DM (Z * option nvfuse_dir_entry) :=
  b ← nvfuse_read_inode cur_dir_ino;
  if negb (b : bool) then mret (-1, None)
  else
    dir_inode ← get_inode cur_dir_ino;
    '(dir, dir_bh) ←
      (if i_bpino dir_inode =? 0 then mret (None, None)
       else
         r ← nvfuse_lookup_bptree cur_dir_ino filename;
         match r with
         | BpNone => mret (None, None)
         | BpFound blk i => mret (Some (blk, i), Some (cur_dir_ino, blk))
         | BpCollision => nvfuse_lookup_linear cur_dir_ino filename
         end);
    res ←
      match dir with
      | None => mret (-1, None)
      | Some (blk, i) =>
          e ← get_dentry cur_dir_ino blk i;
          (if (want_ictx : bool) then nvfuse_read_inode (d_ino e);; mret tt else mret tt);;
          limit ← mgets (fun s => st_no_of_inodes (d_store s));
          massert ((0 <? d_ino e) && (d_ino e <? limit));;
          mret (0, Some e)
      end;
    release_opt dir_bh;;
    nvfuse_release_inode cur_dir_ino;;
    mret res.

(** ** A free entry *)

(** The scan of one block: the first invalid entry from the one after [i] on,
    around the block.  [i] may be (u32) -1. *)
Fixpoint scan_block (n : nat) (ino blk i : Z) : DM (Z * bool) :=
  match n with
  | O => mret (i, false)
  | S n' =>
      let i := u32 (i + 1) in
      let i := if i =? DIR_ENTRY_NUM then 0 else i in
      e ← get_dentry ino blk i;
      if nvfuse_dir_is_invalid e then mret (i, true) else scan_block n' ino blk i
  end.

(** The loop over [n] blocks from [blk] on. *)
Fixpoint scan_blocks (n : nat) (ino blk i : Z) : DM (Z * Z * bool) :=
  match n with
  | O => mret (blk, i, false)
  | S n' =>
      nvfuse_get_bh ino blk;;
      '(i, flag) ← scan_block (Z.to_nat DIR_ENTRY_NUM) ino blk i;
      nvfuse_release_bh (ino, blk);;
      if (flag : bool) then mret (blk, i, true)
      else
        inode ← get_inode ino;
        let blk := u32 (blk + 1) in
        scan_blocks n' ino (if blk =? u32 (NVFUSE_SIZE_TO_BLK (i_size inode)) then 0 else blk) (u32 (-1))
  end.

(** From the label RETRY on; [fuel] bounds the number of blocks added. *)
Fixpoint find_empty_retry (fuel : nat) (ino blk i : Z) : DM Z :=
  match fuel with
  | O => mabort
  | S fuel' =>
      inode ← get_inode ino;
      let dir_num := u32 (i_size inode / DIR_ENTRY_SIZE) in
      let '(i, num_block) :=
        if dir_num =? i_links_count inode then (u32 (-1), 0)
        else (if i =? DIR_ENTRY_NUM - 1 then u32 (-1) else i, dir_num / DIR_ENTRY_NUM) in
      '(blk, i, flag) ← scan_blocks (Z.to_nat num_block) ino blk i;
      if (flag : bool) then mret (u32 (blk * DIR_ENTRY_NUM + i))
      else
        let blk := dir_num / DIR_ENTRY_NUM in
        let new_blk := NVFUSE_SIZE_TO_BLK (i_size inode) in
        ret ← on_store (st_get_block ino new_blk);
        if negb (ret =? 0) then mret (u32 NVFUSE_ERROR)
        else
          nvfuse_get_new_bh ino new_blk;;
          nvfuse_release_bh (ino, new_blk);;
          massert (i_size inode <? MAX_FILE_SIZE);;
          upd_inode ino (fun inode => set_i_size (i_size inode + CLUSTER_SIZE) inode);;
          find_empty_retry fuel' ino blk i
  end.

(** src/nvfuse_core.c: nvfuse_find_empty_dentry, as its callers store the result
    (u32).  A round adds one block; the next one finds a free entry in it unless
    the link count equals the new number of entries, which a third round ends. *)
Definition nvfuse_find_empty_dentry (ino : Z) : DM Z :=
  inode ← get_inode ino;
  let n := u32 (i_links_count inode - 1) in
  find_empty_retry 3 ino (n / DIR_ENTRY_NUM) (n mod DIR_ENTRY_NUM).

(** ** An existing entry *)

(** The loop over the entries; [dir] is the position in the buffer [dir_bh]. *)
Fixpoint find_existing_loop (n : nat) (ino read_bytes : Z) (dir_bh : option Z) (dir : Z) (filename : list Z)
  : DM Z :=
  match n with
  | O => mret (u32 (-1))
  | S n' =>
      '(blk, dir) ←
        (if Z.land read_bytes (CLUSTER_SIZE - 1) =? 0 then
           release_opt ((fun b => (ino, b)) <$> dir_bh);;
           nvfuse_get_bh ino (NVFUSE_SIZE_TO_BLK read_bytes);;
           mret (NVFUSE_SIZE_TO_BLK read_bytes, 0)
         else blk ← mlift dir_bh; mret (blk, dir));
      e ← get_dentry ino blk dir;
      if is_entry filename e then
        nvfuse_release_bh (ino, blk);;
        mret (u32 (read_bytes / DIR_ENTRY_SIZE))
      else find_existing_loop n' ino (read_bytes + DIR_ENTRY_SIZE) (Some blk) (dir + 1) filename
  end.

(** src/nvfuse_core.c: nvfuse_find_existing_dentry: the number of the entry, or
    (u32) -1 with the last buffer taken. *)
Definition nvfuse_find_existing_dentry (ino : Z) (filename : list Z) : DM Z :=
  '(r, offset) ← nvfuse_get_dir_indexing ino filename;
  let offset := if r <? 0 then 0 else offset in
  inode ← get_inode ino;
  let dir_size := i_size inode in
  let start := offset * DIR_ENTRY_SIZE in
  dir_bh ← (if negb (Z.land start (CLUSTER_SIZE - 1) =? 0) then
              nvfuse_get_bh ino (NVFUSE_SIZE_TO_BLK start);; mret (Some (NVFUSE_SIZE_TO_BLK start))
            else mret None);
  find_existing_loop (Z.to_nat ((dir_size - start + DIR_ENTRY_SIZE - 1) / DIR_ENTRY_SIZE))
    ino start dir_bh (offset mod DIR_ENTRY_NUM) filename.

End ops.
End DirOps.
