(* ===== verification/DirApi.v ===== *)
(** * Directories: files and directories made, removed and renamed (nvfuse_api.c)

    The API functions that take a directory inode and a name.  Error returns are
    where the source has them, with what it has locked at that point. *)
From S2P Require Import Prelude Bitmap Layout DirHash Dir DirOps.
Import Layout DirHash Dir DirOps.

Module DirApi.

Section ops.
Context {A I : Type} `{Store A} `{Index A I}.
Notation DM := (M (dst A I)).

(** nvfuse_move_bc_to_unused_list for the blocks [lo, hi) of a file: takes the
    lock of every buffer, so none may be held. *)
Definition drop_buffers (ino lo hi : Z) : DM unit :=
  s ← mget; massert (forallb (fun b => bool_decide ((ino, b) ∉ d_held s)) (range lo hi)).

(** The u32 number of blocks of a file of [size] bytes *)
Definition num_blocks (size : Z) : Z :=
  u32 (u32 (NVFUSE_SIZE_TO_BLK size) + (if Z.land size (CLUSTER_SIZE - 1) =? 0 then 0 else 1)).

(** src/nvfuse_core.c: nvfuse_free_inode_size *)
Definition nvfuse_free_inode_size (ino size : Z) : DM unit :=
  inode ← get_inode ino;
  let num_block := num_blocks (i_size inode) in
  let trun_num_block := u32 (NVFUSE_SIZE_TO_BLK size) in
  if (num_block =? 0) || (num_block <=? trun_num_block) then mret tt
  else
    drop_buffers ino trun_num_block num_block;;
    on_store (st_truncate ino size).

(** src/nvfuse_core.c: nvfuse_relocate_delete_inode *)
Definition nvfuse_relocate_delete_inode (ino : Z) : DM unit :=
  on_store (st_delete_inode ino);; nvfuse_release_inode ino.

(** src/nvfuse_api.c: nvfuse_make_first_directory *)
Definition nvfuse_make_first_directory (ino : Z) : DM Z :=
  inode ← get_inode ino;
  massert (i_size inode =? 0);;
  ret ← on_store (st_get_block ino (NVFUSE_SIZE_TO_BLK (i_size inode)));
  if negb (ret =? 0) then mret NVFUSE_ERROR
  else
    upd_inode ino (set_i_size CLUSTER_SIZE);;
    nvfuse_get_bh_write ino 0;;
    inode ← get_inode ino;
    d0 ← get_dentry ino 0 0;
    set_dentry ino 0 0 (mk_dentry (i_ino inode) DIR_USED (d_version d0) name_dot);;
    d1 ← get_dentry ino 0 1;
    set_dentry ino 0 1 (mk_dentry (i_ino inode) DIR_USED (d_version d1) name_dotdot);;
    nvfuse_release_bh (ino, 0);;
    mret 0.

(** What nvfuse_createfile and nvfuse_mkdir share: the blocks and the index of a
    directory that was empty so far, and a free entry.  The result is the entry,
    or the error code. *)
Definition prepare_entry (par_ino : Z) : DM (Z + Z) :=
  dir_inode ← get_inode par_ino;
  ret ← (if (i_links_count dir_inode =? 2) && (i_bpino dir_inode =? 0)
         then nvfuse_make_first_directory par_ino else mret 0);
  if negb (ret =? 0) then mret (inr (-1))
  else
    empty_dentry ← nvfuse_find_empty_dentry par_ino;
    if empty_dentry <? 0 then mret (inr (-1))
    else
      dir_inode ← get_inode par_ino;
      ret ← (if (i_bpino dir_inode =? 0) && (i_links_count dir_inode =? 2)
             then nvfuse_create_bptree par_ino else mret 0);
      mret (if negb (ret =? 0) then inr NVFUSE_ERROR else inl empty_dentry).

(** The new link and its position in the directory. *)
Definition count_entry (par_ino empty_dentry : Z) : DM unit :=
  upd_inode par_ino (fun i => set_i_links (i_links_count i + 1) i);;
  upd_inode par_ino (set_i_ptr empty_dentry);;
  i ← get_inode par_ino;
  massert (i_links_count i =? u32 (i_ptr i + 1)).

(** nvfuse_alloc_ictx, nvfuse_alloc_new_inode, nvfuse_read_inode and
    nvfuse_insert_ictx: a new inode whose context is locked. *)
Definition new_inode : DM Z :=
  alloc_ino ← on_store st_alloc_inode;
  if alloc_ino =? 0 then mret 0 else lock_inode alloc_ino;; mret alloc_ino.

(** The entry is written and indexed. *)
Definition write_entry (par_ino ino version : Z) (filename : list Z) (lblock entry : Z) : DM unit :=
  nvfuse_get_bh par_ino lblock;;
  get_dentry par_ino lblock entry;;
  set_dentry par_ino lblock entry (mk_dentry ino DIR_USED version filename);;
  dir_inode ← get_inode par_ino;
  nvfuse_set_dir_indexing par_ino filename (i_ptr dir_inode);;
  mret tt.

(** The common middle of nvfuse_createfile and nvfuse_mkdir: the entry is counted,
    a new inode is taken and initialised, and the entry is written; [None] when
    there is no inode. *)
Definition add_entry (par_ino : Z) (filename : list Z) (empty_dentry : Z) (init : Z -> nvfuse_inode -> nvfuse_inode)
  : DM (option Z) :=
  let search_lblock := empty_dentry / DIR_ENTRY_NUM in
  let search_entry := empty_dentry mod DIR_ENTRY_NUM in
  count_entry par_ino (search_lblock * DIR_ENTRY_NUM + search_entry);;
  alloc_ino ← new_inode;
  if alloc_ino =? 0 then mret None
  else
    now ← mgets d_now;
    upd_inode alloc_ino (init now);;
    new_inode ← get_inode alloc_ino;
    write_entry par_ino (i_ino new_inode) (i_version new_inode) filename search_lblock search_entry;;
    mret (Some alloc_ino).

Definition init_file (mode dev now : Z) (i : nvfuse_inode) : nvfuse_inode :=
  mk_inode (i_ino i) NVFUSE_TYPE_FILE 0 (i_bpino i) (i_version i) (i_deleted i) 1 (i_ptr i)
    now now now (i_dtime i) 0 0 (mode mod 2 ^ 16)
    (if S_ISCHR mode || S_ISBLK mode then
       if old_valid_dev dev then <[0%nat := old_encode_dev dev]> (i_blocks i)
       else <[1%nat := new_encode_dev dev]> (i_blocks i)
     else i_blocks i).

(** src/nvfuse_api.c: nvfuse_createfile: the code and the new inode. *)
Definition nvfuse_createfile (par_ino : Z) (filename : list Z) (mode dev : Z) : DM (Z * option Z) :=
  if (strlen filename <? 1) || (FNAME_SIZE <=? strlen filename) then mret (-1, None)
  else
    b ← nvfuse_read_inode par_ino;
    massert b;;
    dir_inode ← get_inode par_ino;
    if i_links_count dir_inode =? MAX_FILES_PER_DIR then mret (-1, None)
    else
      r ← prepare_entry par_ino;
      match r with
      | inr e => mret (e, None)
      | inl empty_dentry =>
          new_ino ← add_entry par_ino filename empty_dentry (init_file mode dev);
          match new_ino with
          | None => mret (-1, None)
          | Some alloc_ino =>
              nvfuse_release_bh (par_ino, empty_dentry / DIR_ENTRY_NUM);;
              nvfuse_release_inode alloc_ino;;
              nvfuse_release_inode par_ino;;
              mret (NVFUSE_SUCCESS, Some alloc_ino)
          end
      end.

Definition init_dir (mode now : Z) (i : nvfuse_inode) : nvfuse_inode :=
  mk_inode (i_ino i) NVFUSE_TYPE_DIRECTORY 0 (i_bpino i) (i_version i) (i_deleted i) 2 1
    now now now (i_dtime i) 0 0 (Z.lor (Z.land mode 511) S_IFDIR) (i_blocks i).

(** src/nvfuse_api.c: nvfuse_mkdir.  At the label RET the function returns
    NVFUSE_SUCCESS whatever [ret] is. *)
Definition nvfuse_mkdir (par_ino : Z) (dirname : list Z) (mode : Z) : DM (Z * option Z) :=
  if (strlen dirname <? 1) || (FNAME_SIZE <=? strlen dirname) then mret (NVFUSE_SUCCESS, None)
  else
    '(l, _) ← nvfuse_lookup false dirname par_ino;
    if l =? 0 then mret (NVFUSE_SUCCESS, None)
    else
      b ← nvfuse_read_inode par_ino;
      massert b;;
      dir_inode ← get_inode par_ino;
      if i_links_count dir_inode =? MAX_FILES_PER_DIR then mret (-1, None)
      else
        massert (u32 (i_ptr dir_inode + 1) =? i_links_count dir_inode);;
        r ← prepare_entry par_ino;
        match r with
        | inr e => mret (e, None)
        | inl empty_dentry =>
            new_ino ← add_entry par_ino dirname empty_dentry (init_dir mode);
            match new_ino with
            | None => mret (-1, None)
            | Some alloc_ino =>
                upd_inode alloc_ino (set_i_bpino 0);;
                nvfuse_release_bh (par_ino, empty_dentry / DIR_ENTRY_NUM);;
                nvfuse_release_inode par_ino;;
                nvfuse_release_inode alloc_ino;;
                mret (NVFUSE_SUCCESS, Some alloc_ino)
            end
        end.

(** ** Removal *)

(** src/nvfuse_api.c: nvfuse_shrink_dentry: the last entry moves to the place of
    the deleted one. *)
Definition nvfuse_shrink_dentry (ino to_entry from_entry : Z) : DM Z :=
  if to_entry =? from_entry then mret (-1)
  else
    massert (to_entry <? from_entry);;
    let from_blk := NVFUSE_SIZE_TO_BLK (from_entry * DIR_ENTRY_SIZE) in
    let to_blk := NVFUSE_SIZE_TO_BLK (to_entry * DIR_ENTRY_SIZE) in
    nvfuse_get_bh ino from_blk;;
    dir_from ← get_dentry ino from_blk (from_entry mod DIR_ENTRY_NUM);
    massert (negb (d_flag dir_from =? DIR_DELETED));;
    let is_diff_block := negb (to_blk =? from_blk) in
    (if is_diff_block then nvfuse_get_bh ino to_blk else mret tt);;
    dir_to ← get_dentry ino to_blk (to_entry mod DIR_ENTRY_NUM);
    massert (d_flag dir_to =? DIR_DELETED);;
    set_dentry ino to_blk (to_entry mod DIR_ENTRY_NUM) dir_from;;
    set_dentry ino from_blk (from_entry mod DIR_ENTRY_NUM) (set_d_flag DIR_DELETED dir_from);;
    nvfuse_del_dir_indexing ino (d_filename dir_from);;
    nvfuse_set_dir_indexing ino (d_filename dir_from) to_entry;;
    nvfuse_release_bh (ino, from_blk);;
    (if is_diff_block then nvfuse_release_bh (ino, to_blk) else mret tt);;
    mret 0.

(** The tail that nvfuse_rmfile and nvfuse_rmdir share: shrink, and free the
    last block when it has no entry left. *)
Definition close_gap (par_ino found_entry : Z) : DM unit :=
  dir_inode ← get_inode par_ino;
  nvfuse_shrink_dentry par_ino found_entry (i_links_count dir_inode);;
  dir_inode ← get_inode par_ino;
  (if (i_links_count dir_inode * DIR_ENTRY_SIZE) mod CLUSTER_SIZE =? 0 then
     nvfuse_free_inode_size par_ino (i_links_count dir_inode * DIR_ENTRY_SIZE);;
     upd_inode par_ino (fun i => set_i_size (i_size i - CLUSTER_SIZE) i)
   else mret tt);;
  nvfuse_release_inode par_ino.

(** Their head: the directory, the entry of the name with its buffer, and the
    inode of the entry, locked; [None] is an inode that cannot be read. *)
Definition open_entry (par_ino : Z) (filename : list Z) : DM (Z * option Z) :=
  b ← nvfuse_read_inode par_ino;
  massert b;;
  found_entry ← nvfuse_find_existing_dentry par_ino filename;
  let search_lblock := found_entry / DIR_ENTRY_NUM in
  nvfuse_get_bh par_ino search_lblock;;
  dir ← get_dentry par_ino search_lblock (found_entry mod DIR_ENTRY_NUM);
  b ← nvfuse_read_inode (d_ino dir);
  massert b;;
  inode ← get_inode (d_ino dir);
  if i_ino inode =? 0 then
    nvfuse_release_bh (par_ino, search_lblock);; mret (found_entry, None)
  else mret (found_entry, Some (d_ino dir)).

Definition delete_entry (par_ino found_entry : Z) : DM unit :=
  let blk := found_entry / DIR_ENTRY_NUM in
  e ← get_dentry par_ino blk (found_entry mod DIR_ENTRY_NUM);
  set_dentry par_ino blk (found_entry mod DIR_ENTRY_NUM) (set_d_flag DIR_DELETED e).

Definition drop_link (par_ino : Z) : DM unit :=
  upd_inode par_ino (fun i => set_i_links (i_links_count i - 1) i);;
  upd_inode par_ino (fun i => set_i_ptr (i_links_count i - 1) i).

(** The part of nvfuse_rmfile that takes a link from the file and ends the inode
    with its last one. *)
Definition drop_file (ino : Z) : DM unit :=
  upd_inode ino (fun i => set_i_links (i_links_count i - 1) i);;
  inode ← get_inode ino;
  if i_links_count inode =? 0 then nvfuse_free_inode_size ino 0;; nvfuse_relocate_delete_inode ino
  else nvfuse_release_inode ino.

(** src/nvfuse_api.c: nvfuse_rmfile.  The test [found_entry < 0] is on a u32 and
    never holds.  The refusal of a directory returns with the entry's buffer and
    both inodes taken. *)
Definition nvfuse_rmfile (par_ino : Z) (filename : list Z) : DM Z :=
  '(found_entry, r) ← open_entry par_ino filename;
  match r with
  | None => mret NVFUSE_ERROR
  | Some ino =>
      inode ← get_inode ino;
      if i_type inode =? NVFUSE_TYPE_DIRECTORY then mret NVFUSE_ERROR
      else
        nvfuse_del_dir_indexing par_ino filename;;
        drop_file ino;;
        drop_link par_ino;;
        delete_entry par_ino found_entry;;
        nvfuse_release_bh (par_ino, found_entry / DIR_ENTRY_NUM);;
        close_gap par_ino found_entry;;
        mret NVFUSE_SUCCESS
  end.

(** src/nvfuse_api.c: nvfuse_rmdir; every refusal returns with the buffer and
    both inodes taken. *)
Definition nvfuse_rmdir (par_ino : Z) (filename : list Z) : DM Z :=
  '(found_entry, r) ← open_entry par_ino filename;
  match r with
  | None => mret NVFUSE_ERROR
  | Some ino =>
      inode ← get_inode ino;
      root ← mgets (fun s => st_root_ino (d_store s));
      e ← get_dentry par_ino (found_entry / DIR_ENTRY_NUM) (found_entry mod DIR_ENTRY_NUM);
      if i_ino inode =? root then mret (-1)
      else if i_type inode =? NVFUSE_TYPE_FILE then mret NVFUSE_ERROR
      else if negb (strcmp_eq (d_filename e) filename) then mret NVFUSE_ERROR
      else if 2 <? i_links_count inode then mret NVFUSE_ERROR
      else
        delete_entry par_ino found_entry;;
        drop_link par_ino;;
        nvfuse_del_dir_indexing par_ino filename;;
        (if i_bpino inode =? 0 then mret tt
         else
           b ← nvfuse_read_inode (i_bpino inode);
           massert b;;
           nvfuse_free_inode_size (i_bpino inode) 0;;
           nvfuse_relocate_delete_inode (i_bpino inode);;
           mmodify (fun s => set_index (delete (i_bpino inode) (d_index s)) s));;
        nvfuse_free_inode_size ino 0;;
        nvfuse_relocate_delete_inode ino;;
        nvfuse_release_bh (par_ino, found_entry / DIR_ENTRY_NUM);;
        close_gap par_ino found_entry;;
        mret NVFUSE_SUCCESS
  end.

(** ** Links and renaming *)

(** src/nvfuse_core.c: nvfuse_rm_direntry: the code and the inode of the entry. *)
Definition nvfuse_rm_direntry (par_ino : Z) (name : list Z) : DM (Z * option Z) :=
  '(found_entry, r) ← open_entry par_ino name;
  match r with
  | None => mret (NVFUSE_ERROR, None)
  | Some ino =>
      upd_inode ino (fun i => set_i_links (i_links_count i - 1) i);;
      nvfuse_del_dir_indexing par_ino name;;
      delete_entry par_ino found_entry;;
      nvfuse_release_bh (par_ino, found_entry / DIR_ENTRY_NUM);;
      nvfuse_release_inode par_ino;;
      nvfuse_release_inode ino;;
      mret (0, Some ino)
  end.

(** src/nvfuse_core.c: nvfuse_link.  The entry found by nvfuse_find_empty_dentry
    is not used: the name is written to entry [i_ptr]. *)
Definition nvfuse_link (newino : Z) (new_filename : list Z) (ino : Z) : DM Z :=
  if (strlen new_filename <? 1) || (FNAME_SIZE <=? strlen new_filename) then mret NVFUSE_ERROR
  else
    '(l, _) ← nvfuse_lookup false new_filename newino;
    if l =? 0 then mret NVFUSE_ERROR
    else
      b ← nvfuse_read_inode newino;
      massert b;;
      dir_inode ← get_inode newino;
      if i_links_count dir_inode =? MAX_FILES_PER_DIR then mret (-1)
      else
        nvfuse_find_empty_dentry newino;;
        dir_inode ← get_inode newino;
        let search_lblock := i_ptr dir_inode / DIR_ENTRY_NUM in
        let search_entry := i_ptr dir_inode mod DIR_ENTRY_NUM in
        upd_inode newino (set_i_ptr (search_lblock * DIR_ENTRY_NUM + search_entry));;
        upd_inode newino (fun i => set_i_links (i_links_count i + 1) i);;
        b ← nvfuse_read_inode ino;
        massert b;;
        upd_inode ino (fun i => set_i_links (i_links_count i + 1) i);;
        inode ← get_inode ino;
        write_entry newino ino (i_version inode) new_filename search_lblock search_entry;;
        nvfuse_release_bh (newino, search_lblock);;
        nvfuse_release_inode newino;;
        nvfuse_release_inode ino;;
        mret NVFUSE_SUCCESS.

(** src/nvfuse_api.c: nvfuse_rename; the codes of the parts are ignored. *)
Definition nvfuse_rename (par_ino : Z) (name : list Z) (new_par_ino : Z) (newname : list Z) : DM Z :=
  '(_, ino) ← nvfuse_rm_direntry par_ino name;
  '(l, e) ← nvfuse_lookup true newname new_par_ino;
  (if l =? 0 then
     e ← mlift e;
     inode ← get_inode (d_ino e);
     nvfuse_release_inode (d_ino e);;
     if i_type inode =? NVFUSE_TYPE_DIRECTORY then nvfuse_rmdir new_par_ino newname
     else nvfuse_rmfile new_par_ino newname
   else mret 0);;
  nvfuse_link new_par_ino newname (default 0 ino);;
  mret 0.

(** src/nvfuse_api.c: nvfuse_hardlink *)
Definition nvfuse_hardlink (par_ino : Z) (name : list Z) (new_par_ino : Z) (newname : list Z) : DM Z :=
  '(l, e) ← nvfuse_lookup false name par_ino;
  if l <? 0 then mret (-1)
  else
    e ← mlift e;
    '(l, _) ← nvfuse_lookup false newname new_par_ino;
    if l =? 0 then mret (-1)
    else nvfuse_link new_par_ino newname (d_ino e);; mret 0.

(** ** Reading *)

Definition DT_DIR : Z := 4.
Definition DT_REG : Z := 8.
Record dirent := mk_de { de_ino : Z; de_name : list Z; de_type : Z }.

(** src/nvfuse_api.c: nvfuse_readdir *)
Definition nvfuse_readdir (par_ino dir_offset : Z) : DM (option dirent) :=
  b ← nvfuse_read_inode par_ino;
  massert b;;
  dir_inode ← get_inode par_ino;
  let dir_size := dir_offset * DIR_ENTRY_SIZE in
  r ← (if i_size dir_inode <=? dir_size then mret None
       else
         let blk := NVFUSE_SIZE_TO_BLK (dir_offset * DIR_ENTRY_SIZE) in
         nvfuse_get_bh par_ino blk;;
         dir ← get_dentry par_ino blk (dir_offset mod DIR_ENTRY_NUM);
         r ← (if nvfuse_dir_is_invalid dir then mret None
              else
                b ← nvfuse_read_inode (d_ino dir);
                massert b;;
                inode ← get_inode (d_ino dir);
                nvfuse_release_inode (d_ino dir);;
                mret (Some (mk_de (d_ino dir) (d_filename dir)
                              (if i_type inode =? NVFUSE_TYPE_DIRECTORY then DT_DIR else DT_REG))));
         nvfuse_release_bh (par_ino, blk);;
         mret r);
  nvfuse_release_inode par_ino;;
  mret r.

End ops.
End DirApi.
