(* ===== verification/DirPath.v ===== *)
(** * Paths: splitting and resolving, and the path forms of the operations

    A path is the list of its bytes.  The source copies paths into buffers of
    FNAME_SIZE and 256 bytes with strcpy; a copy that does not fit writes behind
    the buffer, which is an abnormal end here. *)
From S2P Require Import Prelude Bitmap Layout DirHash Dir DirOps DirApi.
Import Layout DirHash Dir DirOps DirApi.

Module DirPath.

Definition SLASH : Z := 47.
Definition PATH_BUF : Z := 256.

(** strrchr (path, '/'): the number of bytes before the last slash. *)
Fixpoint strrchr (path : list Z) : option Z :=
  match path with
  | [] => None
  | c :: rest =>
      match strrchr rest with
      | Some i => Some (i + 1)
      | None => if c =? SLASH then Some 0 else None
      end
  end.

(** strcpy into a buffer of [size] bytes *)
Definition strcpy (size : Z) (a : list Z) : option (list Z) := if strlen a <? size then Some a else None.

(** src/nvfuse_dep.c: fat_dirname into a buffer of [size] bytes *)
Definition fat_dirname (size : Z) (path : list Z) : option (list Z) :=
  dest ← strcpy size path;
  i ← strrchr dest;
  Some (if i =? 0 then take 1 dest else take (Z.to_nat i) dest).

(** src/nvfuse_dep.c: fat_filename *)
Definition fat_filename (size : Z) (path : list Z) : option (list Z) :=
  match strrchr path with
  | None => strcpy size path
  | Some i => strcpy size (drop (Z.to_nat (i + 1)) path)
  end.

(** The tokens that strtok (b, slash) and the calls after it return. *)
Fixpoint tokens_from (cur : list Z) (path : list Z) : list (list Z) :=
  match path with
  | [] => if bool_decide (cur = []) then [] else [cur]
  | c :: rest =>
      if c =? SLASH then
        (if bool_decide (cur = []) then [] else [cur]) ++ tokens_from [] rest
      else tokens_from (cur ++ [c]) rest
  end.
Definition tokens (path : list Z) : list (list Z) := tokens_from [] path.

(** The last loop of nvfuse_path_open2: [i] after [while (b[--i] != '/' && i > 1);] *)
Fixpoint rfind (n : nat) (b : list Z) (i : Z) : option Z :=
  match n with
  | O => None
  | S n' =>
      let i := i - 1 in
      c ← (if 0 <=? i then b !! Z.to_nat i else None);
      if negb (c =? SLASH) && (1 <? i) then rfind n' b i else Some i
  end.

Definition count_slashes (path : list Z) : Z := Zcount (fun c => c =? SLASH) path.

Section ops.
Context {A I : Type} `{Store A} `{Index A I}.
(** nvh_root_ino and nvh_cwd_ino *)
Context (root_ino cwd_ino : Z).
Notation DM := (M (dst A I)).

(** The walk along the tokens; [None] is NVFUSE_ERROR. *)
Fixpoint walk (ino : Z) (ts : list (list Z)) : DM (option Z) :=
  match ts with
  | [] => mret (Some ino)
  | t :: ts =>
      '(l, e) ← nvfuse_lookup false t ino;
      if l <? 0 then mret None
      else e ← mlift e; walk (d_ino e) ts
  end.

Definition start_ino (path : list Z) : Z :=
  match path with c :: _ => if c =? SLASH then root_ino else cwd_ino | [] => cwd_ino end.

(** src/nvfuse_core.c: nvfuse_path_open: the inode of the directory. *)
Definition nvfuse_path_open (path : list Z) : DM (option Z) :=
  b ← mlift (strcpy PATH_BUF path);
  walk (start_ino path) (tokens b).

(** src/nvfuse_core.c: nvfuse_path_open2 *)
Definition nvfuse_path_open2 (path : list Z) : DM (option Z) :=
  b ← mlift (strcpy PATH_BUF path);
  let i := strlen b in
  last ← mlift (if 0 <? i then b !! Z.to_nat (i - 1) else None);
  if last =? SLASH then mret None
  else
    i ← mlift (rfind (length b) b i);
    c ← mlift (b !! Z.to_nat i);
    let b := if c =? SLASH then take (Z.to_nat i) b else b in
    if count_slashes path =? 0 then mret (Some (start_ino path))
    else walk (start_ino path) (tokens b).

(** src/nvfuse_api.c: nvfuse_path_resolve: the file name, and the inode of the
    directory or NVFUSE_ERROR. *)
Definition nvfuse_path_resolve (path : list Z) : DM (list Z * option Z) :=
  if bool_decide (head path = Some SLASH) then
    filename ← mlift (fat_filename FNAME_SIZE path);
    dirname ← mlift (fat_dirname FNAME_SIZE path);
    r ← nvfuse_path_open dirname;
    mret (filename, r)
  else
    filename ← mlift (fat_filename FNAME_SIZE path);
    r ← nvfuse_path_open2 path;
    mret (filename, r).

(** Resolve, refuse inode 0, and run an operation on the directory. *)
Definition with_path (path : list Z) (op : Z -> list Z -> DM Z) : DM Z :=
  '(filename, r) ← nvfuse_path_resolve path;
  match r with
  | None => mret NVFUSE_ERROR
  | Some ino => if ino =? 0 then mret (-1) else op ino filename
  end.

(** src/nvfuse_api.c: nvfuse_opendir *)
Definition nvfuse_opendir (path : list Z) : DM Z :=
  '(filename, r) ← nvfuse_path_resolve path;
  match r with
  | None => mret NVFUSE_ERROR
  | Some ino =>
      if bool_decide (filename = []) then mret ino
      else
        '(l, e) ← nvfuse_lookup false filename ino;
        if l <? 0 then mret NVFUSE_ERROR else e ← mlift e; mret (d_ino e)
  end.

(** src/nvfuse_api.c: nvfuse_rmfile_path, nvfuse_unlink *)
Definition nvfuse_rmfile_path (path : list Z) : DM Z := with_path path nvfuse_rmfile.
Definition nvfuse_unlink (path : list Z) : DM Z := nvfuse_rmfile_path path.

(** src/nvfuse_api.c: nvfuse_rmdir_path *)
Definition nvfuse_rmdir_path (path : list Z) : DM Z := with_path path nvfuse_rmdir.

(** src/nvfuse_api.c: nvfuse_mkdir_path *)
Definition nvfuse_mkdir_path (path : list Z) (mode : Z) : DM Z :=
  with_path path (fun ino filename => '(r, _) ← nvfuse_mkdir ino filename mode; mret r).

(** src/nvfuse_api.c: nvfuse_mknod, which returns 0 also for an invalid path. *)
Definition nvfuse_mknod (path : list Z) (mode dev : Z) : DM Z :=
  '(filename, r) ← nvfuse_path_resolve path;
  match r with
  | None => mret NVFUSE_ERROR
  | Some ino =>
      if ino =? 0 then mret 0
      else
        '(l, _) ← nvfuse_lookup false filename ino;
        if l =? 0 then mret NVFUSE_ERROR
        else
          '(res, _) ← nvfuse_createfile ino filename mode dev;
          if res <? 0 then mret res else mret 0
  end.

(** Two paths: src/nvfuse_api.c: nvfuse_rename_path and nvfuse_hardlink_path *)
Definition with_paths (from to : list Z) (op : Z -> list Z -> Z -> list Z -> DM Z) : DM Z :=
  '(name, r) ← nvfuse_path_resolve from;
  match r with
  | None => mret NVFUSE_ERROR
  | Some ino =>
      '(newname, r) ← nvfuse_path_resolve to;
      match r with
      | None => mret NVFUSE_ERROR
      | Some new_ino => op ino name new_ino newname
      end
  end.
Definition nvfuse_rename_path (from to : list Z) : DM Z := with_paths from to nvfuse_rename.
Definition nvfuse_hardlink_path (from to : list Z) : DM Z := with_paths from to nvfuse_hardlink.

End ops.
End DirPath.
