(* ===== verification/Files.v ===== *)
(** * Files: the allocator, the inode table and the block maps put together

    The store the directories run on: the state of the allocator with the inode
    table ([Alloc.fs]) and the cached indirect blocks of all files.  An
    operation of [Indirect] runs on one file: its pointer array is loaded from
    the inode table and stored back. *)
From S2P Require Import Prelude Bitmap Layout BgList Alloc Indirect Dir.
Import Alloc Dir.

Module Files.

Record files := mk_files { f_fs : fs; f_ind : gmap Z (list Z); f_ind_dirty : gset Z }.

Definition on_alloc {X} (m : M fs X) : M files X := fun f =>
  match m (f_fs f) with
  | Some (x, s) => Some (x, mk_files s (f_ind f) (f_ind_dirty f))
  | None => None
  end.

(** An operation on the block map of file [ino], whose inode is in the table. *)
Definition on_file {X} (ino : Z) (m : M Indirect.ist X) : M files X := fun f =>
  match fs_itable (f_fs f) !! ino with
  | None => None
  | Some i =>
      match m (Indirect.mk_ist (f_fs f) (f_ind f) ino (i_blocks i) (f_ind_dirty f) false) with
      | None => None
      | Some (x, s) =>
          let f' := Indirect.is_fs s in
          match fs_itable f' !! ino with
          | None => None
          | Some i' =>
              Some (x, mk_files (set_itable ino (set_i_blocks (Indirect.is_iblocks s) i') f')
                         (Indirect.is_ind s) (Indirect.is_dirty s))
          end
      end
  end.

Section ops.
Context (primary : bool).

(** The part of src/nvfuse_core.c: nvfuse_get_pbn for files: the block, 0 if
    there is none. *)
Definition nvfuse_get_pbn (ino offset : Z) : M files Z :=
  '(ret, _, value) ← on_file ino (Indirect.nvfuse_get_block primary offset 1 false);
  mret (if ret =? 0 then value else 0).

#[export] Instance files_store : Store files := {
  st_inode f ino := fs_itable (f_fs f) !! ino;
  st_set_inode ino i f := mk_files (set_itable ino i (f_fs f)) (f_ind f) (f_ind_dirty f);
  st_alloc_inode := on_alloc (nvfuse_alloc_new_inode primary);
  st_delete_inode ino := on_alloc (nvfuse_relocate_delete_inode primary ino);
  st_get_block ino lblock := '(ret, _, _) ← on_file ino (Indirect.nvfuse_get_block primary lblock 1 true); mret ret;
  st_truncate ino size := on_file ino (Indirect.nvfuse_truncate_blocks primary size);
  st_mapped f ino lblock :=
    match nvfuse_get_pbn ino lblock f with Some (v, _) => negb (v =? 0) | None => false end;
  st_no_of_inodes f := u32 (sb_no_of_inodes_per_bg (fs_sb (f_fs f)) * sb_bg_num (fs_sb (f_fs f)));
  st_root_ino f := sb_root_ino (fs_sb (f_fs f)) }.

End ops.
End Files.
