(* ===== verification/BpIndex.v ===== *)
(** * The B+tree as the index of a directory

    The implementation of the interface [Index]: an index file is the master
    block and the nodes of a B+tree; a session (bp_init_master, bp_read_master)
    starts with an empty stack and clear counters, and the file's blocks come
    from the store.  The size of the file is kept with the tree and stored in
    its inode when it changes. *)
From S2P Require Import Prelude Bitmap Layout Arr BpTree BpTreeOps Dir.
Import Arr Bitmap Layout.

Module BpIndex.

Record bptree := mk_bptree {
  b_ondisk : BpTree.ondisk; b_size : Z; b_pages : gmap Z BpTree.page }.

Section index.
Context {A : Type} `{Dir.Store A}.
(** What the read of a freed handle in a removal that empties a leaf yields. *)
Context (freed : bool).

(** nvfuse_get_block for the file of the tree *)
Definition file_map (bpino : Z) : BpTree.BlockMap A := fun lblock => Dir.st_get_block bpino lblock.

(** src/nvfuse_bp_tree.c: bp_init_master, bp_read_master *)
Definition bp_open (a : A) (t : bptree) : BpTree.tree A :=
  BpTree.mk_tree A (b_ondisk t) [] 0 0 (b_size t) (b_pages t) a.
Definition bp_close (s : BpTree.tree A) : bptree :=
  mk_bptree (BpTree.m_ondisk s) (BpTree.m_isize s) (BpTree.m_pages s).

(** The size of the inode of the tree after an operation. *)
Definition put_size (bpino size : Z) (a : A) : option A :=
  i ← Dir.st_inode a bpino; Some (Dir.st_set_inode bpino (Dir.set_i_size size i) a).

Definition session {X} (bpino : Z) (m : M (BpTree.tree A) X) : M (A * bptree) X := fun '(a, t) =>
  match m (bp_open a t) with
  | None => None
  | Some (x, s) =>
      if BpTree.m_isize s =? b_size t then Some (x, (BpTree.m_dev s, bp_close s))
      else a' ← put_size bpino (BpTree.m_isize s) (BpTree.m_dev s); Some (x, (a', bp_close s))
  end.

(** The tree part of src/nvfuse_bp_tree.c: bp_alloc_inode_and_master, and bp_init_root. *)
Definition bp_create (bpino : Z) : M A (option bptree) := fun a =>
  let blk := file_map bpino in
  let s := BpTree.mk_tree A (BpTree.mk_ondisk 0 0 0 0 0 0 []) [] 0 0 0 ∅ a in
  match @BpTreeOps.bp_alloc_master A blk s with
  | None => None
  | Some (r, s) =>
      if r <? 0 then Some (None, BpTree.m_dev s)
      else
        match @BpTreeOps.bp_init_root A blk s with
        | None => None
        | Some (_, s) =>
            a' ← put_size bpino (BpTree.m_isize s) (BpTree.m_dev s); Some (Some (bp_close s), a')
        end
  end.

#[export] Instance bp_index : Dir.Index A bptree := {
  ix_create := bp_create;
  ix_find bpino key := session bpino (@BpTree.bp_find_key A (file_map bpino) key);
  ix_insert bpino key value := session bpino (@BpTreeOps.bp_insert_key_tree A (file_map bpino) key value false);
  ix_update bpino key value := session bpino (@BpTree.bp_update_key_tree A (file_map bpino) key value);
  ix_remove bpino key := session bpino (@BpTreeOps.bp_remove_key A (file_map bpino) freed key) }.

End index.
End BpIndex.
