(* ===== verification/DirEntry.v ===== *)
(** * Directories: laws, invariant, list of entries

    [DirSpec] has the laws of the interfaces and the invariant, [DirIndex] the
    rules for locks, buffers and the index, [DirEntry] the list of entries. *)
From S2P Require Import Prelude Bitmap Layout DirHash Dir DirOps DirApi.
Import Layout DirHash Dir DirOps DirApi.

(** ** Directories: the laws of the interfaces and the invariant

    [StoreLaws] and [IndexLaws] say what a directory needs of the store and of
    the index; both describe a device that does not run out of blocks.
    [dir_data] ties a list of entries to the inode, the blocks and the index of
    a directory: the entries are dense, entry k lies at its place, the index maps
    the hash of the name of entry k to k. *)
Module DirSpec.

(** ** Laws *)

(** Only file [b] may differ. *)
Record frame {A} `{Store A} (b : Z) (a a' : A) : Prop := {
  fr_inode : forall j, j <> b -> st_inode a' j = st_inode a j;
  fr_mapped : forall j lb, j <> b -> st_mapped a' j lb = st_mapped a j lb;
  fr_limit : st_no_of_inodes a' = st_no_of_inodes a;
  fr_root : st_root_ino a' = st_root_ino a }.

Definition live {A} `{Store A} (a : A) (ino : Z) : Prop :=
  exists i, st_inode a ino = Some i /\ i_ino i = ino.

Definition new_inode_of (ino : Z) : nvfuse_inode := mk_inode ino 0 0 0 1 0 0 0 0 0 0 0 0 0 0 (repeat 0 14).

(** At least [n] inode numbers are not in use. *)
Definition spare {A} `{Store A} (a : A) (n : nat) : Prop :=
  exists l : list Z, NoDup l /\ length l = n /\ forall j, j ∈ l -> ROOT_INO <= j < st_no_of_inodes a /\ ~ live a j.

Class StoreLaws (A : Type) `{Store A} := {
  sl_set_eq : forall (a : A) j i, st_inode (st_set_inode j i a) j = Some i;
  sl_set_frame : forall (a : A) j i, frame j a (st_set_inode j i a);
  sl_set_mapped : forall (a : A) j i i0 lb, st_inode a j = Some i0 -> i_blocks i = i_blocks i0 ->
    st_mapped (st_set_inode j i a) j lb = st_mapped a j lb;
  sl_alloc : forall a : A, spare a 1 -> wp st_alloc_inode (fun ino a' =>
    ROOT_INO <= ino < st_no_of_inodes a /\ ~ live a ino /\ st_inode a' ino = Some (new_inode_of ino) /\
    frame ino a a') a;
  sl_delete : forall (a : A) b, live a b -> wp (st_delete_inode b) (fun _ a' =>
    ~ live a' b /\ is_Some (st_inode a' b) /\ frame b a a') a;
  sl_get_block : forall (a : A) b lb, wp (st_get_block b lb) (fun r a' =>
    r = 0 /\ frame b a a' /\ (exists l, st_inode a' b = set_i_blocks l <$> st_inode a b) /\
    st_mapped a' b lb = true /\ forall lb', lb' <> lb -> st_mapped a' b lb' = st_mapped a b lb') a;
  sl_truncate : forall (a : A) b size, is_Some (st_inode a b) -> wp (st_truncate b size) (fun _ a' =>
    frame b a a' /\ (exists l, st_inode a' b = set_i_blocks l <$> st_inode a b) /\
    forall lb, lb * CLUSTER_SIZE < size -> st_mapped a' b lb = st_mapped a b lb) a }.

(** The file of an index may grow: its size and its block map change. *)
Definition index_frame {A} `{Store A} (b : Z) (a a' : A) : Prop :=
  frame b a a' /\ exists l z, st_inode a' b = set_i_size z ∘ set_i_blocks l <$> st_inode a b.

Definition KEY_MAX : Z := 2 ^ 64 - 1.

(** [ix_rep i n m]: the index file [i] of [n] blocks stands for the map [m]; an
    insertion takes at most [ix_step] blocks of [ix_max]; [ix_keeps i ks] covers
    the removal of the keys [ks] one after the other. *)
Class IndexLaws (A I : Type) `{Store A} `{Index A I} := {
  ix_rep : I -> Z -> gmap Z Z -> Prop;
  ix_keeps : I -> list Z -> Prop;
  ix_max : Z;
  ix_step : Z;
  il_step : 0 <= ix_step;
  il_create : forall (a : A) b, is_Some (st_inode a b) -> wp (ix_create b) (fun t a' =>
    exists i, t = Some i /\ ix_rep i 2 ∅ /\ index_frame b a a') a;
  il_find : forall (a : A) b i n m key, ix_rep i n m -> 0 < key <= KEY_MAX -> wp (ix_find b key) (fun r p =>
    p = (a, i) /\ match m !! key with Some v => 0 <= r.1 /\ r.2 = v | None => r.1 < 0 end) (a, i);
  il_insert : forall (a : A) b i n m key v, ix_rep i n m -> 0 < key <= KEY_MAX -> is_Some (st_inode a b) ->
    n + ix_step <= ix_max -> m !! key = None -> wp (ix_insert b key v) (fun r p =>
    r.1 = 0 /\ index_frame b a p.1 /\ exists n', n <= n' <= n + ix_step /\ ix_rep p.2 n' (<[key := v]> m)) (a, i);
  il_insert_old : forall (a : A) b i n m key v v0, ix_rep i n m -> 0 < key <= KEY_MAX -> is_Some (st_inode a b) ->
    m !! key = Some v0 -> wp (ix_insert b key v) (fun r p =>
    r = (-1, Some v0) /\ index_frame b a p.1 /\ ix_rep p.2 n m) (a, i);
  il_update : forall (a : A) b i n m key v, ix_rep i n m -> 0 < key <= KEY_MAX -> is_Some (st_inode a b) ->
    is_Some (m !! key) -> wp (ix_update b key v) (fun r p =>
    index_frame b a p.1 /\ ix_rep p.2 n (<[key := v]> m)) (a, i);
  il_remove : forall (a : A) b i n m key ks, ix_rep i n m -> 0 < key <= KEY_MAX -> is_Some (st_inode a b) ->
    is_Some (m !! key) -> ix_keeps i (key :: ks) -> wp (ix_remove b key) (fun r p =>
    r = 0 /\ index_frame b a p.1 /\ ix_rep p.2 n (delete key m) /\ ix_keeps p.2 ks) (a, i) }.

Section frames.
Context {A : Type} `{StoreLaws A}.
Implicit Types a : A.

Lemma frame_refl b a : frame b a a.
Proof. by split. Qed.

Lemma frame_trans b a1 a2 a3 : frame b a1 a2 -> frame b a2 a3 -> frame b a1 a3.
Proof.
  intros [E1 E2 E3 E4] [G1 G2 G3 G4]. split; [intros; by rewrite G1, E1|intros; by rewrite G2, E2|by rewrite G3|by rewrite G4].
Qed.

(** A change of a file in use leaves the unused numbers alone, any other change
    takes at most one. *)
Lemma spare_sub a a' n k (X : gset Z) :
  st_no_of_inodes a' = st_no_of_inodes a -> (forall j, j ∉ X -> st_inode a' j = st_inode a j) ->
  (forall l, NoDup l -> (forall j, j ∈ l -> ~ live a j) -> (length l <= k + length (filter (fun j => j ∉ X) l))%nat) ->
  spare a (k + n) -> spare a' n.
Proof.
  intros E Hi Hk (l & Hnd & Hl & Hj). specialize (Hk l Hnd (fun j Hin => proj2 (Hj j Hin))).
  set (l' := filter (fun j => j ∉ X) l) in *. exists (take n l'). split; [|split].
  - assert (NoDup l') as Hl' by by apply NoDup_filter. rewrite <- (take_drop n l') in Hl'. by apply NoDup_app in Hl' as [? _].
  - rewrite length_take. lia.
  - intros j Hin. assert (j ∈ l') as [HX Hin']%list_elem_of_filter by (rewrite <- (take_drop n l'); apply elem_of_app; by left).
    rewrite E. unfold live. rewrite Hi by done. by apply Hj.
Qed.

Lemma filter_out_none (b : Z) (l : list Z) : b ∉ l -> filter (fun j => j ∉ ({[ b ]} : gset Z)) l = l.
Proof.
  induction l as [|x l IH]; [done|]. intros [Hx Hl]%not_elem_of_cons. rewrite filter_cons, IH by done.
  by rewrite decide_True by set_solver.
Qed.

Lemma filter_out_one (b : Z) (l : list Z) : NoDup l -> (length l <= 1 + length (filter (fun j => j ∉ ({[ b ]} : gset Z)) l))%nat.
Proof.
  induction 1 as [|x l Hx Hl IH]; [simpl; lia|]. rewrite filter_cons. case_decide as Hb; [simpl in *; lia|].
  assert (x = b) as -> by set_solver. rewrite filter_out_none by done. simpl. lia.
Qed.

Lemma spare_frame b a a' n : frame b a a' -> live a b -> spare a n -> spare a' n.
Proof.
  intros F Hb. apply (spare_sub a a' n 0 {[ b ]}); [apply F|intros j Hj; apply F; set_solver|].
  intros l _ Hl. rewrite filter_out_none; [done|]. intros Hin. by apply (Hl b).
Qed.

Lemma spare_frame_new b a a' n : frame b a a' -> spare a (S n) -> spare a' n.
Proof.
  intros F. apply (spare_sub a a' n 1 {[ b ]}); [apply F|intros j Hj; apply F; set_solver|].
  intros l Hl _. by apply filter_out_one.
Qed.

Lemma spare_le a n n' : (n <= n')%nat -> spare a n' -> spare a n.
Proof.
  intros Hn (l & Hnd & Hl & Hj). rewrite <- (take_drop n l) in Hnd, Hj. apply NoDup_app in Hnd as [Hnd _].
  exists (take n l). split; [done|]. split; [rewrite length_take; lia|]. intros j Hin. apply Hj, elem_of_app. by left.
Qed.

Lemma set_inode_ne a j j' i : j <> j' -> st_inode (st_set_inode j i a) j' = st_inode a j'.
Proof. intros. by apply (fr_inode _ _ _ (sl_set_frame a j i)). Qed.

Lemma index_frame_some b a a' : index_frame b a a' -> is_Some (st_inode a b) -> is_Some (st_inode a' b).
Proof. intros [_ (l & z & ->)] [i ->]. by eexists. Qed.

Lemma index_frame_live b a a' : index_frame b a a' -> live a b -> live a' b.
Proof. intros [_ (l & z & E)] (i & Hi & Hb). rewrite Hi in E. eexists. split; [exact E|done]. Qed.

Lemma index_frame_trans b a1 a2 a3 : index_frame b a1 a2 -> index_frame b a2 a3 -> index_frame b a1 a3.
Proof.
  intros [F1 (l & z & E1)] [F2 (l' & z' & E2)]. split; [by eapply frame_trans|]. exists l', z'.
  rewrite E2, E1. by destruct (st_inode a1 b).
Qed.

End frames.

(** ** The entries of a directory *)

Definition entry_key (e : nvfuse_dir_entry) : option Z := dir_key (d_filename e).

(** The number of blocks that hold [n] entries. *)
Definition blocks_for (n : Z) : Z := (n + DIR_ENTRY_NUM - 1) / DIR_ENTRY_NUM.

(** Entry [k] of directory [d] in the buffers. *)
Definition dent (bufs : gmap (Z * Z) (list nvfuse_dir_entry)) (d k : Z) : option nvfuse_dir_entry :=
  b ← bufs !! (d, k / DIR_ENTRY_NUM); b !! Z.to_nat (k mod DIR_ENTRY_NUM).

Definition nth_entry (es : list nvfuse_dir_entry) (k : Z) : option nvfuse_dir_entry :=
  if 0 <=? k then es !! Z.to_nat k else None.
Definition len (es : list nvfuse_dir_entry) : Z := Z.of_nat (length es).

(** Entry [k], past . and .., with its name. *)
Definition file_at (es : list nvfuse_dir_entry) (k : Z) (name : list Z) (e : nvfuse_dir_entry) : Prop :=
  2 <= k /\ nth_entry es k = Some e /\ d_filename e = name.

(** A name that the index can hold. *)
Definition name_ok (name : list Z) (key : Z) : Prop :=
  dir_key name = Some key /\ 0 < key <= KEY_MAX /\ name <> name_dot /\ name <> name_dotdot.

(** What is known of the list of entries alone. *)
Record entries_ok (es : list nvfuse_dir_entry) (m : gmap Z Z) : Prop := {
  eo_len : 2 <= len es <= 2 ^ 30;
  eo_used : Forall (fun e => d_flag e = DIR_USED) es;
  eo_names : forall k e, 2 <= k -> nth_entry es k = Some e -> exists key, name_ok (d_filename e) key /\ m !! key = Some k;
  eo_map : forall key k, m !! key = Some k ->
    2 <= k /\ exists e, nth_entry es k = Some e /\ dir_key (d_filename e) = Some key }.

Record dir_data {A I} `{Store A} `{Index A I} `{!IndexLaws A I} (a : A)
    (bufs : gmap (Z * Z) (list nvfuse_dir_entry)) (index : gmap Z I) (d b nb : Z)
    (i : I) (n : Z) (m : gmap Z Z) (es : list nvfuse_dir_entry) : Prop := {
  dd_inode : exists di, st_inode a d = Some di /\ i_ino di = d /\ i_bpino di = b /\ i_links_count di = len es /\
    i_ptr di = len es - 1 /\ i_size di = nb * CLUSTER_SIZE;
  dd_tree : live a b;
  dd_inos : ROOT_INO <= d /\ ROOT_INO <= b /\ b <> d;
  dd_size : blocks_for (len es) <= nb <= 2 ^ 26;
  dd_mapped : forall blk, 0 <= blk < nb -> st_mapped a d blk = true;
  dd_blocks : forall blk, 0 <= blk < nb -> exists l, bufs !! (d, blk) = Some l /\ len l = DIR_ENTRY_NUM;
  dd_dent : forall k e, 0 <= k < nb * DIR_ENTRY_NUM -> dent bufs d k = Some e ->
    if k <? len es then nth_entry es k = Some e else nvfuse_dir_is_invalid e = true;
  dd_entries : entries_ok es m;
  dd_index : index !! b = Some i;
  dd_rep : ix_rep i n m }.

(** Nothing of the directory is taken. *)
Record dir_free {A I} (s : dst A I) (d b : Z) : Prop := {
  df_d : d ∉ d_locked s;
  df_b : b ∉ d_locked s;
  df_bufs : forall blk, (d, blk) ∉ d_held s;
  df_master : (b, 0) ∉ d_held s }.

(** A directory at rest, with the entries [es]: it has just the blocks it needs. *)
Definition dir_inv {A I} `{Store A} `{Index A I} `{!IndexLaws A I} (s : dst A I) (d b : Z) (i : I) (n : Z)
    (m : gmap Z Z) (es : list nvfuse_dir_entry) : Prop :=
  dir_data (d_store s) (d_bufs s) (d_index s) d b (blocks_for (len es)) i n m es /\ dir_free s d b.

End DirSpec.

(** ** Directories: rules for locks and buffers, and the operations on the index *)
Import Layout DirHash Dir DirOps DirApi DirSpec.

Module DirIndex.

(** The projections of an explicit state. *)
Ltac dcbn := cbn [d_store d_locked d_held d_bufs d_index d_now set_store set_locked set_held set_buf set_index].

Lemma add_remove `{Countable K} (x : K) (X : gset K) : x ∉ X -> ({[x]} ∪ X) ∖ {[x]} = X.
Proof. intros. set_solver. Qed.

Lemma remove_add `{Countable K} (x : K) (X : gset K) : x ∈ X -> {[x]} ∪ X ∖ {[x]} = X.
Proof. intros Hx. apply set_eq. intros y. destruct (decide (y = x)) as [->|]; set_solver. Qed.

Section rules.
Context {A I : Type} `{StoreLaws A} `{!Index A I} `{!IndexLaws A I}.
Implicit Types (s : dst A I) (a : A).

Lemma wp_get_inode ino i (Q : nvfuse_inode -> dst A I -> Prop) s :
  st_inode (d_store s) ino = Some i -> Q i s -> wp (get_inode ino) Q s.
Proof. unfold wp, get_inode. by intros ->. Qed.

Lemma wp_upd_inode ino i f (Q : unit -> dst A I -> Prop) s :
  st_inode (d_store s) ino = Some i -> Q tt (set_store (st_set_inode ino (f i) (d_store s)) s) ->
  wp (upd_inode ino f) Q s.
Proof. intros Hi HQ. unfold upd_inode. wp_step. eapply wp_get_inode; [done|]. by wp_steps. Qed.

Lemma wp_on_store {X} (m : M A X) (Q : X -> dst A I -> Prop) s :
  wp m (fun x a => Q x (set_store a s)) (d_store s) -> wp (on_store m) Q s.
Proof. unfold wp, on_store. by destruct (m (d_store s)) as [[x a]|]. Qed.

Lemma wp_on_index {X} b i (m : M (A * I) X) (Q : X -> dst A I -> Prop) s :
  d_index s !! b = Some i ->
  wp m (fun x p => Q x (set_index (<[b := p.2]> (d_index s)) (set_store p.1 s))) (d_store s, i) ->
  wp (on_index b m) Q s.
Proof. unfold wp, on_index. intros ->. by destruct (m (d_store s, i)) as [[x [a j]]|]. Qed.

Lemma wp_lock ino (Q : unit -> dst A I -> Prop) s :
  ino ∉ d_locked s -> Q tt (set_locked ({[ ino ]} ∪ d_locked s) s) -> wp (lock_inode ino) Q s.
Proof. intros. unfold lock_inode. wp_steps. apply wp_assert; [by apply bool_decide_true|]. by wp_steps. Qed.

Lemma wp_unlock ino (Q : unit -> dst A I -> Prop) s :
  ino ∈ d_locked s -> Q tt (set_locked (d_locked s ∖ {[ ino ]}) s) -> wp (nvfuse_release_inode ino) Q s.
Proof. intros. unfold nvfuse_release_inode, unlock_inode. wp_steps. apply wp_assert; [by apply bool_decide_true|]. by wp_steps. Qed.

Lemma wp_hold k (Q : unit -> dst A I -> Prop) s :
  k ∉ d_held s -> Q tt (set_held ({[ k ]} ∪ d_held s) s) -> wp (hold k) Q s.
Proof. intros. unfold hold. wp_steps. apply wp_assert; [by apply bool_decide_true|]. by wp_steps. Qed.

Lemma wp_release k (Q : unit -> dst A I -> Prop) s :
  k ∈ d_held s -> Q tt (set_held (d_held s ∖ {[ k ]}) s) -> wp (nvfuse_release_bh k) Q s.
Proof. intros. unfold nvfuse_release_bh. wp_steps. apply wp_assert; [by apply bool_decide_true|]. by wp_steps. Qed.

Lemma wp_read_inode ino i (Q : bool -> dst A I -> Prop) s :
  ROOT_INO <= ino -> ino ∉ d_locked s -> st_inode (d_store s) ino = Some i -> i_ino i = ino ->
  Q true (set_locked ({[ ino ]} ∪ d_locked s) s) -> wp (nvfuse_read_inode ino) Q s.
Proof.
  intros Hr Hl Hi Hino HQ. unfold nvfuse_read_inode. rewrite (proj2 (Z.ltb_ge ino ROOT_INO)) by done.
  wp_step. apply wp_lock; [done|]. wp_step. eapply wp_get_inode; [done|]. wp_steps.
  apply wp_assert; [by apply Z.eqb_eq|]. by wp_steps.
Qed.

(** Reading a locked inode does not come back. *)
Lemma read_locked ino s : ROOT_INO <= ino -> ino ∈ d_locked s -> nvfuse_read_inode ino s = None.
Proof.
  intros Hr Hl. unfold nvfuse_read_inode. rewrite (proj2 (Z.ltb_ge ino ROOT_INO)) by done.
  unfold lock_inode, mbind, M_bind, mget, massert. by rewrite bool_decide_false by set_solver.
Qed.

Lemma wp_get_bh ino lb (Q : unit -> dst A I -> Prop) s :
  ino ∈ d_locked s -> (ino, lb) ∉ d_held s -> st_mapped (d_store s) ino lb = true -> is_Some (d_bufs s !! (ino, lb)) ->
  Q tt (set_held ({[ (ino, lb) ]} ∪ d_held s) s) -> wp (nvfuse_get_bh ino lb) Q s.
Proof.
  intros Hl Hh Hm Hb HQ. unfold nvfuse_get_bh. wp_steps. apply wp_assert; [by apply bool_decide_true|].
  wp_step. apply wp_hold; [done|]. wp_step. apply wp_assert; [done|]. wp_steps.
  apply wp_assert; [by apply bool_decide_true|done].
Qed.

Lemma wp_get_new_bh ino lb (Q : unit -> dst A I -> Prop) s :
  ino ∈ d_locked s -> (ino, lb) ∉ d_held s -> st_mapped (d_store s) ino lb = true ->
  Q tt (set_buf (ino, lb) block_zero (set_held ({[ (ino, lb) ]} ∪ d_held s) s)) -> wp (nvfuse_get_new_bh ino lb) Q s.
Proof.
  intros Hl Hh Hm HQ. unfold nvfuse_get_new_bh. wp_steps. apply wp_assert; [by apply bool_decide_true|].
  wp_step. apply wp_hold; [done|]. wp_step. apply wp_assert; [done|]. by wp_steps.
Qed.

Lemma wp_get_dentry d blk j e (Q : nvfuse_dir_entry -> dst A I -> Prop) s :
  0 <= j < DIR_ENTRY_NUM -> dent (d_bufs s) d (blk * DIR_ENTRY_NUM + j) = Some e -> Q e s ->
  wp (get_dentry d blk j) Q s.
Proof.
  unfold dent, wp, get_dentry. change DIR_ENTRY_NUM with 32. intros Hj.
  replace ((blk * 32 + j) / 32) with blk by dmlia. replace ((blk * 32 + j) mod 32) with j by dmlia.
  rewrite (proj2 (Z.leb_le 0 j)) by lia. intros ->. done.
Qed.

(** A buffer with one entry replaced. *)
Definition set_dent (bufs : gmap (Z * Z) (list nvfuse_dir_entry)) (d k : Z) (e : nvfuse_dir_entry) :=
  match bufs !! (d, k / DIR_ENTRY_NUM) with
  | Some l => <[ (d, k / DIR_ENTRY_NUM) := <[ Z.to_nat (k mod DIR_ENTRY_NUM) := e ]> l ]> bufs
  | None => bufs
  end.

Definition with_bufs (bufs : gmap (Z * Z) (list nvfuse_dir_entry)) s : dst A I :=
  mk_dst A I (d_store s) (d_locked s) (d_held s) bufs (d_index s) (d_now s).

Lemma wp_set_dentry d blk j e l (Q : unit -> dst A I -> Prop) s :
  0 <= j < DIR_ENTRY_NUM -> d_bufs s !! (d, blk) = Some l -> len l = DIR_ENTRY_NUM ->
  Q tt (with_bufs (set_dent (d_bufs s) d (blk * DIR_ENTRY_NUM + j) e) s) ->
  wp (set_dentry d blk j e) Q s.
Proof.
  unfold set_dent, len, set_dentry. change DIR_ENTRY_NUM with 32. intros Hj Hl Hlen.
  replace ((blk * 32 + j) / 32) with blk by dmlia. replace ((blk * 32 + j) mod 32) with j by dmlia.
  rewrite Hl. intros HQ. wp_steps. eapply wp_lift; [done|]. wp_step. apply wp_assert; [|by wp_steps].
  rewrite Hlen. apply andb_true_intro. lia.
Qed.

Lemma dent_set bufs d k k' e l :
  0 <= k -> 0 <= k' -> bufs !! (d, k / DIR_ENTRY_NUM) = Some l -> len l = DIR_ENTRY_NUM ->
  dent (set_dent bufs d k e) d k' = if k' =? k then Some e else dent bufs d k'.
Proof.
  unfold dent, set_dent, len. change DIR_ENTRY_NUM with 32. intros Hk Hk' Hl Hlen. rewrite Hl.
  destruct (Z.eqb_spec k' k) as [->|Hne].
  - rewrite lookup_insert_eq. cbn. apply list_lookup_insert_eq. dmlia.
  - destruct (Z.eq_dec (k' / 32) (k / 32)) as [E|E].
    + rewrite E, lookup_insert_eq, Hl. cbn. apply list_lookup_insert_ne. dmlia.
    + by rewrite lookup_insert_ne by congruence.
Qed.

Lemma set_dent_other bufs d k e key : key.1 <> d -> set_dent bufs d k e !! key = bufs !! key.
Proof.
  unfold set_dent. intros Hd. destruct (bufs !! (d, k / DIR_ENTRY_NUM)) as [l|]; [|done].
  apply lookup_insert_ne. intros <-. done.
Qed.

Lemma set_dent_block bufs d k e blk l :
  bufs !! (d, blk) = Some l -> exists l', set_dent bufs d k e !! (d, blk) = Some l' /\ len l' = len l.
Proof.
  intros Hl. unfold set_dent. destruct (bufs !! (d, k / DIR_ENTRY_NUM)) as [l0|] eqn:E; [|by exists l].
  destruct (Z.eq_dec blk (k / DIR_ENTRY_NUM)) as [->|].
  - rewrite lookup_insert_eq. eexists. split; [done|]. unfold len. rewrite length_insert. congruence.
  - rewrite lookup_insert_ne by congruence. by exists l.
Qed.

(** ** The index of a directory *)

(** The tree [b] is at rest and holds the map [m]. *)
Record tree_ready s (b : Z) (i : I) (n : Z) (m : gmap Z Z) : Prop := {
  tr_ino : ROOT_INO <= b;
  tr_live : live (d_store s) b;
  tr_lock : b ∉ d_locked s;
  tr_held : (b, 0) ∉ d_held s;
  tr_index : d_index s !! b = Some i;
  tr_rep : ix_rep i n m }.

Definition bp_of s (d b : Z) : Prop := exists di, st_inode (d_store s) d = Some di /\ i_bpino di = b.

Definition tree_taken s (b : Z) : dst A I :=
  set_held ({[ (b, 0) ]} ∪ d_held s) (set_locked ({[ b ]} ∪ d_locked s) s).

Lemma wp_read_master s b i n m (Q : unit -> dst A I -> Prop) :
  tree_ready s b i n m -> Q tt (tree_taken s b) -> wp (bp_read_master b) Q s.
Proof.
  intros [Hr (bi & Hbi & Hb) Hl Hh _ _] HQ. unfold bp_read_master. wp_step. eapply wp_read_inode; [done..|].
  wp_steps. apply wp_assert; [done|]. apply wp_hold; [done|]. done.
Qed.

(** The common start of the index operations, for a ready tree [T]. *)
#[local] Ltac open_tree T :=
  pose proof (tr_ino _ _ _ _ _ T) as Hr; unfold ROOT_INO in Hr;
  wp_step; eapply wp_get_inode; [done|]; wp_step; apply wp_assert; [apply negb_true_iff, Z.eqb_neq; lia|];
  wp_step; eapply wp_read_master; [done|].

(** Closing a tree whose file and device may have changed. *)
Lemma wp_close {X} s b (x : gmap Z I) a' (k : M (dst A I) X) Q :
  b ∉ d_locked s -> (b, 0) ∉ d_held s -> wp k Q (set_index x (set_store a' s)) ->
  wp (bp_write_master b;; bp_deinit_master b;; k) Q (set_index x (set_store a' (tree_taken s b))).
Proof.
  intros Hb Hh HQ. unfold tree_taken. wp_step. apply wp_release; [dcbn; set_solver|]. wp_step. apply wp_unlock; [dcbn; set_solver|].
  dcbn. rewrite !add_remove by done. by destruct s.
Qed.

Lemma set_index_id s : set_index (d_index s) (set_store (d_store s) s) = s.
Proof. by destruct s. Qed.

(** A lookup leaves everything as it was. *)
Lemma get_indexing_wp s d b i n m name key (Q : Z * Z -> dst A I -> Prop) :
  bp_of s d b -> tree_ready s b i n m -> name_ok name key ->
  (forall v, Q (match m !! key with Some k => (0, decode_offset k) | None => (-1, v) end) s) ->
  wp (nvfuse_get_dir_indexing d name) Q s.
Proof.
  intros (di & Hd & <-) T (Hkey & Hk & Hn1 & Hn2) HQ. unfold nvfuse_get_dir_indexing.
  open_tree T. unfold strcmp_eq. rewrite !bool_decide_false by done. cbn iota. cbn [orb].
  wp_step. eapply wp_lift; [done|]. wp_step.
  apply (wp_on_index _ i); [apply T|]. eapply wp_mono; [eapply il_find; [apply T|done]|].
  intros [r v] p [-> Hr']. cbn [fst snd] in *. rewrite (insert_id (d_index (tree_taken s _))) by apply T.
  apply wp_close; [apply T..|]. change (d_index (tree_taken s (i_bpino di))) with (d_index s).
  change (d_store (tree_taken s (i_bpino di))) with (d_store s). rewrite set_index_id. wp_steps.
  specialize (HQ v). destruct (m !! key) as [k|].
  - destruct Hr' as [Hr' ->]. by rewrite (proj2 (Z.ltb_ge r 0)) by lia.
  - by rewrite (proj2 (Z.ltb_lt r 0)) by lia.
Qed.

(** The state after an operation that changed the tree [b]. *)
Definition retree s (b : Z) (a' : A) (i' : I) : dst A I := set_index (<[ b := i' ]> (d_index s)) (set_store a' s).

Lemma set_indexing_wp s d b i n m name key off (Q : Z -> dst A I -> Prop) :
  bp_of s d b -> tree_ready s b i n m -> name_ok name key -> n + ix_step <= ix_max -> m !! key = None ->
  (forall a' i' n', index_frame b (d_store s) a' -> n <= n' <= n + ix_step ->
     ix_rep i' n' (<[ key := Z.land off collision_mask ]> m) -> Q 0 (retree s b a' i')) ->
  wp (nvfuse_set_dir_indexing d name off) Q s.
Proof.
  intros (di & Hd & <-) T (Hkey & Hk & Hn1 & Hn2) Hroom Hm HQ. unfold nvfuse_set_dir_indexing.
  open_tree T.
  wp_step. eapply wp_lift; [done|]. wp_step.
  apply (wp_on_index _ i); [apply T|].
  destruct (tr_live _ _ _ _ _ T) as (bi & Hbi & _).
  eapply wp_mono; [eapply (il_insert (d_store s)); [apply T|done|by exists bi|exact Hroom|done]|].
  intros [r cur] [a' i'] (Hz & Hf & n' & Hn' & Hrep). cbn [fst snd] in *. subst r. cbn beta iota. wp_step.
  change (0 <? 0) with false. cbn iota. wp_step.
  apply wp_close; [apply T..|]. wp_steps. by apply (HQ a' i' n').
Qed.

(** A second name with the hash of the first: the value becomes a count. *)
Lemma set_indexing_collision_wp s d b i n m name key off v (Q : Z -> dst A I -> Prop) :
  bp_of s d b -> tree_ready s b i n m -> name_ok name key -> m !! key = Some v ->
  (forall a' i', index_frame b (d_store s) a' -> ix_rep i' n (<[ key := bump v ]> m) -> Q 0 (retree s b a' i')) ->
  wp (nvfuse_set_dir_indexing d name off) Q s.
Proof.
  intros (di & Hd & <-) T (Hkey & Hk & Hn1 & Hn2) Hm HQ. unfold nvfuse_set_dir_indexing.
  open_tree T.
  wp_step. eapply wp_lift; [done|]. wp_step.
  apply (wp_on_index _ i); [apply T|].
  destruct (tr_live _ _ _ _ _ T) as (bi & Hbi & Hb).
  eapply wp_mono; [eapply (il_insert_old (d_store s)); [apply T|done|by exists bi|done]|].
  intros [r cur] [a1 i1] ([= -> ->] & Hf1 & Hrep1). cbn [fst snd] in *. cbn beta iota. wp_step.
  change (-1 <? 0) with true. cbn iota. wp_step. eapply wp_lift; [done|]. wp_step.
  apply (wp_on_index _ i1); [apply lookup_insert_eq|].
  eapply wp_mono; [eapply (il_update a1); [exact Hrep1|done|by eapply index_frame_some|by exists v]|].
  intros r2 [a2 i2] [Hf2 Hrep2]. cbn [fst snd] in *. wp_step.
  dcbn. rewrite insert_insert_eq. apply (wp_close s (i_bpino di) (<[i_bpino di:=i2]> (d_index s)) a2); [apply T..|].
  wp_steps. apply HQ; [|done]. by eapply index_frame_trans.
Qed.

Lemma del_indexing_wp s d b i n m name key v ks (Q : Z -> dst A I -> Prop) :
  bp_of s d b -> tree_ready s b i n m -> name_ok name key -> m !! key = Some v -> collisions v = 0 -> ix_keeps i (key :: ks) ->
  (forall a' i', index_frame b (d_store s) a' -> ix_rep i' n (delete key m) -> ix_keeps i' ks -> Q 0 (retree s b a' i')) ->
  wp (nvfuse_del_dir_indexing d name) Q s.
Proof.
  intros (di & Hd & <-) T (Hkey & Hk & Hn1 & Hn2) Hm Hc Hkeep HQ. unfold nvfuse_del_dir_indexing.
  open_tree T.
  wp_step. eapply wp_lift; [done|]. wp_step.
  apply (wp_on_index _ i); [apply T|]. eapply wp_mono; [eapply il_find; [apply T|done]|].
  intros [r v'] p [-> Hr']. rewrite Hm in Hr'. cbn [fst snd] in *. destruct Hr' as [Hr' ->].
  rewrite (proj2 (Z.ltb_ge r 0)) by lia. wp_step. rewrite Hc. change (0 =? 0) with true. cbn iota. wp_step.
  destruct (tr_live _ _ _ _ _ T) as (bi & Hbi & _).
  apply (wp_on_index _ i); [apply lookup_insert_eq|].
  eapply wp_mono; [eapply (il_remove (d_store s)); [apply T|done|by exists bi|by exists v|exact Hkeep]|].
  intros r2 [a' i'] (_ & Hf & Hrep & Hks). cbn [fst snd] in *. wp_step. dcbn. rewrite insert_insert_eq.
  apply (wp_close s (i_bpino di) (<[i_bpino di:=i']> (d_index s)) a'); [apply T..|]. wp_steps. by apply (HQ a' i').
Qed.

(** Deleting a name that is not in the index keeps the tree taken. *)
Lemma del_indexing_missing_wp s d b i n m name key (Q : Z -> dst A I -> Prop) :
  bp_of s d b -> tree_ready s b i n m -> name_ok name key -> m !! key = None ->
  Q (-1) (tree_taken s b) -> wp (nvfuse_del_dir_indexing d name) Q s.
Proof.
  intros (di & Hd & <-) T (Hkey & Hk & Hn1 & Hn2) Hm HQ. unfold nvfuse_del_dir_indexing.
  open_tree T.
  wp_step. eapply wp_lift; [done|]. wp_step.
  apply (wp_on_index _ i); [apply T|]. eapply wp_mono; [eapply il_find; [apply T|done]|].
  intros [r v'] p [-> Hr']. rewrite Hm in Hr'. cbn [fst snd] in *.
  rewrite (proj2 (Z.ltb_lt r 0)) by lia. wp_step. rewrite insert_id by apply T.
  by rewrite (set_index_id (tree_taken s _)).
Qed.

End rules.
End DirIndex.

(** ** Directories: the list of entries, free and existing entries, lookup *)
Import Layout DirHash Dir DirOps DirApi DirSpec DirIndex.

Module DirEntry.

(** ** Arithmetic of entries and blocks *)

Lemma cluster_eq : CLUSTER_SIZE = 4096. Proof. done. Qed.
Lemma entry_num_eq : DIR_ENTRY_NUM = 32. Proof. done. Qed.
Lemma blocks_for_eq n : blocks_for n = (n + 31) / 32.
Proof. unfold blocks_for. rewrite entry_num_eq. f_equal. lia. Qed.

Lemma land_mask k : 0 <= k < 2 ^ 30 -> Z.land k collision_mask = k.
Proof. intros. change collision_mask with (Z.ones 30). rewrite Z.land_ones by lia. by apply Z.mod_small. Qed.

Lemma collisions_small k : 0 <= k < 2 ^ 30 -> collisions k = 0.
Proof. intros. unfold collisions. rewrite Z.shiftr_div_pow2 by done. by apply Z.div_small. Qed.

Lemma decode_small k : 0 <= k < 2 ^ 30 -> decode_offset k = k.
Proof. intros. unfold decode_offset. rewrite collisions_small by done. by apply land_mask. Qed.

Lemma dir_size_to_blk k : 0 <= k < 2 ^ 42 -> NVFUSE_SIZE_TO_BLK k = k / 4096.
Proof. intros. unfold NVFUSE_SIZE_TO_BLK. rewrite Z.shiftr_div_pow2 by lia. apply s32_small. change (2 ^ 12) with 4096. dmlia. Qed.

Lemma entry_to_blk k : 0 <= k < 2 ^ 32 -> NVFUSE_SIZE_TO_BLK (k * DIR_ENTRY_SIZE) = k / 32.
Proof. intros. change DIR_ENTRY_SIZE with 128. rewrite dir_size_to_blk by lia. dmlia. Qed.

Lemma land_cluster k : 0 <= k -> Z.land (k * DIR_ENTRY_SIZE) (CLUSTER_SIZE - 1) = (k mod 32) * 128.
Proof.
  intros. change (CLUSTER_SIZE - 1) with (Z.ones 12). change DIR_ENTRY_SIZE with 128. rewrite Z.land_ones by lia.
  change (2 ^ 12) with 4096. dmlia.
Qed.

(** ** The list of entries *)

Section lists.
Implicit Types es : list nvfuse_dir_entry.

Lemma nth_entry_lt es k e : nth_entry es k = Some e -> 0 <= k < len es.
Proof. unfold nth_entry, len. zbool. intros Hk%lookup_lt_Some. lia. Qed.

Lemma nth_entry_is_Some es k : 0 <= k < len es -> is_Some (nth_entry es k).
Proof. unfold nth_entry, len. zbool. intros. apply lookup_lt_is_Some. lia. Qed.

Lemma nth_entry_app es e k :
  nth_entry (es ++ [e]) k = if k =? len es then Some e else nth_entry es k.
Proof.
  unfold nth_entry, len. zbool; subst.
  - rewrite lookup_app_r by lia. by replace (Z.to_nat _ - length es)%nat with 0%nat by lia.
  - destruct (decide (Z.to_nat k < length es)%nat); [by rewrite lookup_app_l|].
    rewrite !lookup_ge_None_2; [done| |]; rewrite ?length_app; simpl; lia.
Qed.

Lemma len_app es e : len (es ++ [e]) = len es + 1.
Proof. unfold len. rewrite length_app. simpl. lia. Qed.

(** The entries after the removal of entry [k]: the last one takes its place. *)
Definition swap_remove (k : Z) es : list nvfuse_dir_entry :=
  let l := take (length es - 1) es in
  match last es with
  | Some e => <[ Z.to_nat k := e ]> l
  | None => l
  end.

Lemma len_swap k es : 0 < len es -> len (swap_remove k es) = len es - 1.
Proof.
  unfold len, swap_remove. intros. destruct (last es); rewrite ?length_insert, length_take; lia.
Qed.

Lemma nth_swap k j es :
  0 <= k < len es -> 0 <= j ->
  nth_entry (swap_remove k es) j =
    if j =? len es - 1 then None else if j =? k then nth_entry es (len es - 1) else nth_entry es j.
Proof.
  unfold len. intros Hk Hj. unfold nth_entry, swap_remove. rewrite last_lookup.
  replace (Init.Nat.pred (length es)) with (Z.to_nat (Z.of_nat (length es) - 1)) by lia.
  destruct (lookup_lt_is_Some_2 es (Z.to_nat (Z.of_nat (length es) - 1))) as [e He]; [lia|]. rewrite He.
  rewrite (proj2 (Z.leb_le 0 j)) by done. rewrite (proj2 (Z.leb_le 0 (Z.of_nat (length es) - 1))) by lia.
  destruct (Z.eqb_spec j (Z.of_nat (length es) - 1)) as [->|Hlast].
  { apply lookup_ge_None_2. rewrite length_insert, length_take. lia. }
  destruct (decide (j < Z.of_nat (length es))) as [Hlt|Hge].
  - destruct (Z.eqb_spec j k) as [->|Hne].
    + rewrite list_lookup_insert_eq by (rewrite length_take; lia). done.
    + rewrite list_lookup_insert_ne by lia. apply lookup_take_lt. lia.
  - rewrite (proj2 (Z.eqb_neq j k)) by lia.
    rewrite !lookup_ge_None_2; [done| |rewrite length_insert, length_take]; lia.
Qed.

Lemma entries_app es m e key :
  entries_ok es m -> d_flag e = DIR_USED -> name_ok (d_filename e) key -> m !! key = None -> len es < 2 ^ 30 ->
  entries_ok (es ++ [e]) (<[ key := len es ]> m).
Proof.
  intros [Hl Hu Hn Hm] He Hk Hnew Hlt. split.
  - rewrite len_app. lia.
  - apply Forall_app. by split; [|constructor].
  - intros k e'. rewrite nth_entry_app. intros Hk2. destruct (Z.eqb_spec k (len es)) as [->|Hne].
    + intros [= <-]. exists key. split; [done|]. apply lookup_insert_eq.
    + intros He'. destruct (Hn k e' Hk2 He') as (key' & Hok & Hm'). exists key'. split; [done|].
      rewrite lookup_insert_ne; [done|]. intros <-. congruence.
  - intros key' k. destruct (decide (key = key')) as [<-|Hne].
    + rewrite lookup_insert_eq. intros [= <-]. split; [lia|]. exists e. rewrite nth_entry_app, Z.eqb_refl.
      split; [done|]. apply Hk.
    + rewrite lookup_insert_ne by done. intros Hk'. destruct (Hm key' k Hk') as (H2 & e' & He' & Hke').
      split; [done|]. exists e'. rewrite nth_entry_app. apply nth_entry_lt in He' as Hr.
      rewrite (proj2 (Z.eqb_neq k (len es))) by lia. done.
Qed.

(** The map after the removal of [key], whose entry [k] is taken by the entry of [lkey]. *)
Definition swap_map (key lkey k : Z) (m : gmap Z Z) : gmap Z Z :=
  if key =? lkey then delete key m else <[ lkey := k ]> (delete lkey (delete key m)).

Lemma entries_swap es m k e key le lkey :
  entries_ok es m -> 2 <= k -> nth_entry es k = Some e -> dir_key (d_filename e) = Some key -> m !! key = Some k ->
  nth_entry es (len es - 1) = Some le -> dir_key (d_filename le) = Some lkey -> m !! lkey = Some (len es - 1) ->
  entries_ok (swap_remove k es) (swap_map key lkey k m).
Proof.
  intros [Hl Hu Hn Hm] Hk He Hkey Hmk Hle Hlkey Hml.
  pose proof (nth_entry_lt _ _ _ He) as Hr.
  assert (key = lkey <-> k = len es - 1) as Heq by (split; intros; simplify_eq; done).
  split.
  - rewrite len_swap by lia. lia.
  - unfold swap_remove. destruct (last es) as [x|] eqn:Hx.
    + apply Forall_insert; [by apply Forall_take|].
      rewrite last_lookup in Hx. by eapply Forall_lookup_1 in Hu.
    + by apply Forall_take.
  - intros j e' Hj. rewrite nth_swap by lia. destruct (Z.eqb_spec j (len es - 1)) as [|Hjl]; [done|].
    unfold swap_map. destruct (Z.eqb_spec j k) as [->|Hjk].
    + intros He'. destruct (Hn (len es - 1) e') as (key' & Hok & Hm'); [lia|done|]. exists key'. split; [done|].
      assert (key' = lkey) as -> by (rewrite Hle in He'; destruct Hok; congruence).
      rewrite (proj2 (Z.eqb_neq key lkey)) by (intros E; apply Heq in E; lia). apply lookup_insert_eq.
    + intros He'. destruct (Hn j e') as (key' & Hok & Hm'); [done..|]. exists key'. split; [done|].
      assert (key' <> key) by (intros ->; congruence). assert (key' <> lkey) by (intros ->; congruence).
      destruct (key =? lkey); [by rewrite lookup_delete_ne|].
      by rewrite lookup_insert_ne, !lookup_delete_ne.
  - intros key' j. unfold swap_map. destruct (Z.eqb_spec key lkey) as [E|E].
    + destruct (decide (key = key')) as [<-|Hne]; [by rewrite lookup_delete_eq|]. rewrite lookup_delete_ne by done.
      intros Hj. destruct (Hm key' j Hj) as (H2 & e' & He' & Hke'). split; [done|]. exists e'.
      apply nth_entry_lt in He' as Hjr. rewrite nth_swap by lia.
      assert (j <> k) by (intros ->; simplify_eq). apply Heq in E. subst k.
      rewrite !(proj2 (Z.eqb_neq j _)) by lia. done.
    + destruct (decide (lkey = key')) as [<-|Hne].
      * rewrite lookup_insert_eq. intros [= <-]. split; [done|]. exists le.
        rewrite nth_swap, Z.eqb_refl by lia. rewrite (proj2 (Z.eqb_neq k _)); [done|]. intros Hkl. by apply Heq in Hkl.
      * rewrite lookup_insert_ne, lookup_delete_ne by done.
        destruct (decide (key = key')) as [<-|Hne2]; [by rewrite lookup_delete_eq|]. rewrite lookup_delete_ne by done.
        intros Hj. destruct (Hm key' j Hj) as (H2 & e' & He' & Hke'). split; [done|]. exists e'.
        apply nth_entry_lt in He' as Hjr. rewrite nth_swap by lia.
        rewrite (proj2 (Z.eqb_neq j k)) by (intros ->; simplify_eq).
        rewrite (proj2 (Z.eqb_neq j _)) by (intros ->; simplify_eq). done.
Qed.

End lists.
End DirEntry.
