(* ===== verification/DirFind.v ===== *)
(** * Directories: search

    [DirFind] finds a free entry, an entry and a name; [DirLookup] has the lookups
    that miss or do not come back. *)
From S2P Require Import Prelude Bitmap Layout DirHash Dir DirOps DirApi DirEntry.
Import Layout DirHash Dir DirOps DirApi DirSpec DirIndex DirEntry.

(** ** Directories: finding a free entry, an existing entry, a name *)
Module DirFind.

Section find.
Context {A I : Type} `{StoreLaws A} `{!Index A I} `{!IndexLaws A I}.
Implicit Types (s : dst A I) (a : A) (es : list nvfuse_dir_entry).

Notation data s d b nb i n m es := (dir_data (d_store s) (d_bufs s) (d_index s) d b nb i n m es).

(** ** What the invariant gives *)

Lemma data_len a bufs idx d b nb i n m es :
  dir_data a bufs idx d b nb i n m es -> 2 <= len es <= 2 ^ 30 /\ len es <= nb * 32 /\ 1 <= nb <= 2 ^ 26.
Proof.
  intros D. destruct (dd_entries _ _ _ _ _ _ _ _ _ _ D) as [Hl _ _ _]. pose proof (dd_size _ _ _ _ _ _ _ _ _ _ D) as Hs.
  rewrite blocks_for_eq in Hs. dmlia.
Qed.

Lemma data_dent a bufs idx d b nb i n m es k :
  dir_data a bufs idx d b nb i n m es -> 0 <= k < nb * 32 -> exists e, dent bufs d k = Some e /\
    if k <? len es then nth_entry es k = Some e else nvfuse_dir_is_invalid e = true.
Proof.
  intros D Hk. destruct (dd_blocks _ _ _ _ _ _ _ _ _ _ D (k / 32)) as (l & Hl & Hlen); [dmlia|].
  destruct (lookup_lt_is_Some_2 l (Z.to_nat (k mod 32))) as [e He]; [unfold len in Hlen; rewrite entry_num_eq in Hlen; dmlia|].
  exists e. assert (dent bufs d k = Some e) as Hd by (unfold dent; rewrite entry_num_eq, Hl; done).
  split; [done|]. by apply (dd_dent _ _ _ _ _ _ _ _ _ _ D k e).
Qed.

Lemma data_entry a bufs idx d b nb i n m es k e :
  dir_data a bufs idx d b nb i n m es -> nth_entry es k = Some e -> dent bufs d k = Some e /\ d_flag e = DIR_USED.
Proof.
  intros D He. pose proof (data_len _ _ _ _ _ _ _ _ _ _ D). pose proof (nth_entry_lt _ _ _ He) as Hk.
  destruct (data_dent _ _ _ _ _ _ _ _ _ _ k D) as (e' & Hd & Hif); [lia|].
  rewrite (proj2 (Z.ltb_lt _ _)) in Hif by lia. split; [congruence|].
  destruct (dd_entries _ _ _ _ _ _ _ _ _ _ D) as [_ Hu _ _]. unfold nth_entry in He.
  destruct (0 <=? k); [|done]. by eapply Forall_lookup_1 in Hu.
Qed.

Lemma data_ready s d b nb i n m es :
  data s d b nb i n m es -> b ∉ d_locked s -> (b, 0) ∉ d_held s -> tree_ready s b i n m.
Proof. intros D Hl Hh. split; try done; try apply D. Qed.

Lemma data_bp s d b nb i n m es : data s d b nb i n m es -> bp_of s d b.
Proof. intros D. destruct (dd_inode _ _ _ _ _ _ _ _ _ _ D) as (di & Hi & _ & Hb & _). by exists di. Qed.

(** ** A free entry *)

Lemma scan_block_hit k d blk i e (Q : Z * bool -> dst A I -> Prop) s :
  let j := if u32 (i + 1) =? DIR_ENTRY_NUM then 0 else u32 (i + 1) in
  0 <= j < DIR_ENTRY_NUM -> dent (d_bufs s) d (blk * DIR_ENTRY_NUM + j) = Some e -> nvfuse_dir_is_invalid e = true ->
  Q (j, true) s -> wp (scan_block (S k) d blk i) Q s.
Proof.
  intros j Hj He Hi HQ. cbn [scan_block]. fold j. wp_step. eapply wp_get_dentry; [done|exact He|]. rewrite Hi. exact HQ.
Qed.

Lemma scan_blocks_hit k d blk i e (Q : Z * Z * bool -> dst A I -> Prop) s :
  d ∈ d_locked s -> (d, blk) ∉ d_held s -> st_mapped (d_store s) d blk = true -> is_Some (d_bufs s !! (d, blk)) ->
  let j := if u32 (i + 1) =? DIR_ENTRY_NUM then 0 else u32 (i + 1) in
  0 <= j < DIR_ENTRY_NUM -> dent (d_bufs s) d (blk * DIR_ENTRY_NUM + j) = Some e -> nvfuse_dir_is_invalid e = true ->
  Q (blk, j, true) s -> wp (scan_blocks (S k) d blk i) Q s.
Proof.
  intros Hl Hh Hm Hb j Hj He Hi HQ. cbn [scan_blocks]. wp_step. apply wp_get_bh; [done..|].
  change (Z.to_nat DIR_ENTRY_NUM) with (S 31). wp_step. apply (scan_block_hit 31 _ _ _ e); [done..|]. fold j.
  wp_step. apply wp_release; [dcbn; set_solver|]. dcbn. rewrite add_remove by done. cbn iota. destruct s. exact HQ.
Qed.

(** The directory when its free entry is known: [nb] blocks, and the inode and
    the blocks below [nb] as before but for the size. *)
Definition room_for s s' (d b nb : Z) (i : I) (n : Z) (m : gmap Z Z) es : Prop :=
  d_locked s' = d_locked s /\ d_held s' = d_held s /\ d_index s' = d_index s /\ d_now s' = d_now s /\
  frame d (d_store s) (d_store s') /\
  (exists l z, st_inode (d_store s') d = set_i_size z ∘ set_i_blocks l <$> st_inode (d_store s) d) /\
  (forall k, k.1 <> d -> d_bufs s' !! k = d_bufs s !! k) /\
  data s' d b nb i n m es.

Lemma room_same s d b nb i n m es : data s d b nb i n m es -> room_for s s d b nb i n m es.
Proof.
  intros D. split_and!; try done. destruct (dd_inode _ _ _ _ _ _ _ _ _ _ D) as (di & Hi & _). exists (i_blocks di), (i_size di).
  rewrite Hi. cbn. by destruct di.
Qed.

Lemma dent_new_block bufs d nb k :
  0 <= k < (nb + 1) * 32 -> 0 <= nb ->
  dent (<[ (d, nb) := block_zero ]> bufs) d k = if k <? nb * 32 then dent bufs d k else Some dentry_zero.
Proof.
  intros Hk Hnb. unfold dent. rewrite entry_num_eq. destruct (Z.ltb_spec k (nb * 32)).
  - rewrite lookup_insert_ne; [done|]. intros [= E]. dmlia.
  - replace (k / 32) with nb by dmlia. rewrite lookup_insert_eq. cbn.
    unfold block_zero. rewrite lookup_replicate_2; [done|]. rewrite entry_num_eq. dmlia.
Qed.

Lemma grow_data s d b nb i n m es a1 a2 di l :
  data s d b nb i n m es -> nb < 2 ^ 26 ->
  st_inode (d_store s) d = Some di -> frame d (d_store s) a1 -> st_inode a1 d = set_i_blocks l <$> st_inode (d_store s) d ->
  (forall lb, st_mapped a1 d lb = true \/ lb <> nb) -> (forall lb, lb <> nb -> st_mapped a1 d lb = st_mapped (d_store s) d lb) ->
  a2 = st_set_inode d (set_i_size (i_size di + CLUSTER_SIZE) (set_i_blocks l di)) a1 ->
  dir_data a2 (<[ (d, nb) := block_zero ]> (d_bufs s)) (d_index s) d b (nb + 1) i n m es.
Proof.
  intros D Hnb Hdi F E Hm1 Hm2 ->. pose proof (data_len _ _ _ _ _ _ _ _ _ _ D) as (Hl1 & Hl2 & Hl3).
  destruct (dd_inode _ _ _ _ _ _ _ _ _ _ D) as (di' & Hdi' & H1' & H2' & H3' & H4' & H5'). simplify_eq.
  rewrite Hdi in E. cbn in E. destruct (dd_inos _ _ _ _ _ _ _ _ _ _ D) as (? & ? & Hbd).
  split; try apply D.
  - rewrite sl_set_eq. eexists. split; [done|]. cbn. split_and!; try done. lia.
  - destruct (dd_tree _ _ _ _ _ _ _ _ _ _ D) as (bi & Hbi & ?). exists bi.
    rewrite set_inode_ne by done. by rewrite (fr_inode _ _ _ F) by done.
  - pose proof (dd_size _ _ _ _ _ _ _ _ _ _ D). lia.
  - intros blk Hblk. erewrite sl_set_mapped; [|exact E|done].
    destruct (Z.eq_dec blk nb) as [->|]; [by destruct (Hm1 nb)|]. rewrite Hm2 by done. apply D. lia.
  - intros blk Hblk. destruct (Z.eq_dec blk nb) as [->|].
    + exists block_zero. by rewrite lookup_insert_eq.
    + rewrite lookup_insert_ne by congruence. apply D. lia.
  - rewrite entry_num_eq. intros k e Hk. rewrite dent_new_block by lia. destruct (Z.ltb_spec k (nb * 32)).
    + apply (dd_dent _ _ _ _ _ _ _ _ _ _ D). rewrite entry_num_eq. lia.
    + intros [= <-]. by rewrite (proj2 (Z.ltb_ge k (len es))) by lia.
Qed.

(** A round that finds entry [k] in block [k / 32]. *)
Lemma retry_hit f s d b nb i n m es k i0 (Q : Z -> dst A I -> Prop) :
  data s d b nb i n m es -> d ∈ d_locked s -> (forall blk, (d, blk) ∉ d_held s) -> nb * 32 <> len es ->
  len es <= k < nb * 32 -> i0 = u32 (k mod 32 - 1) -> Q k s -> wp (find_empty_retry (S f) d (k / 32) i0) Q s.
Proof.
  intros D Hl Hh Hne Hk -> HQ. pose proof (data_len _ _ _ _ _ _ _ _ _ _ D) as (Hl1 & Hl2 & Hl3).
  destruct (dd_inode _ _ _ _ _ _ _ _ _ _ D) as (di & Hdi & _ & _ & Hlinks & _ & Hsz).
  cbn [find_empty_retry]. wp_step. eapply wp_get_inode; [exact Hdi|].
  assert (u32 (i_size di / DIR_ENTRY_SIZE) = nb * 32) as ->.
  { rewrite Hsz. change (nb * CLUSTER_SIZE / DIR_ENTRY_SIZE) with (nb * 4096 / 128). rewrite u32_small; dmlia. }
  rewrite Hlinks, entry_num_eq, (proj2 (Z.eqb_neq _ _) Hne).
  assert (u32 (k mod 32 - 1) =? 32 - 1 = false) as ->.
  { apply Z.eqb_neq. destruct (Z.eq_dec (k mod 32) 0) as [->|]; [done|]. rewrite u32_small; dmlia. }
  cbn beta iota zeta. wp_step.
  destruct (data_dent _ _ _ _ _ _ _ _ _ _ k D) as (e & He & Hinv); [lia|].
  rewrite (proj2 (Z.ltb_ge k (len es))) in Hinv by lia.
  replace (Z.to_nat (nb * 32 / 32)) with (S (Z.to_nat (nb - 1))) by (rewrite Z.div_mul by done; lia).
  assert ((if u32 (u32 (k mod 32 - 1) + 1) =? DIR_ENTRY_NUM then 0 else u32 (u32 (k mod 32 - 1) + 1)) = k mod 32) as Hj.
  { rewrite entry_num_eq. unfold u32. rewrite Zplus_mod_idemp_l. replace (k mod 32 - 1 + 1) with (k mod 32) by lia.
    rewrite (Z.mod_small (k mod 32)) by dmlia. rewrite (proj2 (Z.eqb_neq _ _)); [done|]. dmlia. }
  eapply scan_blocks_hit; [done|apply Hh|apply D; dmlia| | | |exact Hinv|]; try rewrite Hj.
  - destruct (dd_blocks _ _ _ _ _ _ _ _ _ _ D (k / 32)) as (l & -> & _); [dmlia|done].
  - rewrite entry_num_eq. dmlia.
  - rewrite entry_num_eq. by replace (k / 32 * 32 + k mod 32) with k by dmlia.
  - cbn iota. wp_step. rewrite u32_small by dmlia. by replace (k / 32 * 32 + k mod 32) with k by dmlia.
Qed.

Lemma room_grown s d b nb i n m es a1 di l :
  data s d b nb i n m es -> nb < 2 ^ 26 -> st_inode (d_store s) d = Some di -> frame d (d_store s) a1 ->
  st_inode a1 d = set_i_blocks l <$> st_inode (d_store s) d -> st_mapped a1 d nb = true ->
  (forall lb, lb <> nb -> st_mapped a1 d lb = st_mapped (d_store s) d lb) ->
  room_for s (set_store (st_set_inode d (set_i_size (i_size di + CLUSTER_SIZE) (set_i_blocks l di)) a1)
                (set_buf (d, nb) block_zero s)) d b (nb + 1) i n m es.
Proof.
  intros D Hnb Hdi F E Hm Hm'. unfold room_for. dcbn. split_and!; try done.
  - eapply frame_trans; [exact F|apply sl_set_frame].
  - rewrite sl_set_eq. exists l, (i_size di + CLUSTER_SIZE). by rewrite Hdi.
  - intros k Hk. apply lookup_insert_ne. intros <-. done.
  - eapply grow_data; try done. intros lb. destruct (Z.eq_dec lb nb) as [->|]; [by left|by right].
Qed.

(** nvfuse_find_empty_dentry returns the entry after the last one, and adds a
    block when the last block is full. *)
Lemma find_empty_wp s d b i n m es (Q : Z -> dst A I -> Prop) :
  data s d b (blocks_for (len es)) i n m es -> d ∈ d_locked s -> (forall blk, (d, blk) ∉ d_held s) -> len es < 2 ^ 30 ->
  (forall s', room_for s s' d b (blocks_for (len es + 1)) i n m es -> Q (len es) s') ->
  wp (nvfuse_find_empty_dentry d) Q s.
Proof.
  intros D Hl Hh Hlen HQ. pose proof (data_len _ _ _ _ _ _ _ _ _ _ D) as (Hl1 & Hl2 & Hl3).
  destruct (dd_inode _ _ _ _ _ _ _ _ _ _ D) as (di & Hdi & _ & _ & Hlinks & _ & Hsz).
  remember (blocks_for (len es)) as nb eqn:Hnb. pose proof Hnb as Hnb'. rewrite blocks_for_eq in Hnb'.
  rewrite blocks_for_eq in HQ.
  unfold nvfuse_find_empty_dentry. wp_step. eapply wp_get_inode; [exact Hdi|]. rewrite Hlinks, entry_num_eq.
  rewrite (u32_small (len es - 1)) by lia. cbn beta.
  destruct (Z.eq_dec (nb * 32) (len es)) as [Hfull|Hroom].
  - remember 2%nat as f eqn:Hf. cbn [find_empty_retry]. wp_step. eapply wp_get_inode; [exact Hdi|].
    assert (u32 (i_size di / DIR_ENTRY_SIZE) = nb * 32) as ->.
    { rewrite Hsz. change (nb * CLUSTER_SIZE / DIR_ENTRY_SIZE) with (nb * 4096 / 128). rewrite u32_small; dmlia. }
    rewrite Hlinks, (proj2 (Z.eqb_eq _ _) Hfull). cbn beta iota zeta. wp_step. change (Z.to_nat 0) with 0%nat.
    cbn [scan_blocks]. wp_step. cbn beta iota. wp_step. rewrite (dir_size_to_blk (i_size di)) by (rewrite Hsz, cluster_eq; lia).
    assert (i_size di / 4096 = nb) as -> by (rewrite Hsz, cluster_eq; dmlia).
    apply wp_on_store. eapply wp_mono; [apply sl_get_block|]. intros r a1 (-> & F & (l & E) & Hmap & Hmap').
    change (negb (0 =? 0)) with false. cbn iota.
    wp_step. apply wp_get_new_bh; [done|apply Hh|done|]. wp_step. apply wp_release; [dcbn; set_solver|].
    dcbn. rewrite add_remove by apply Hh. wp_step. apply wp_assert; [rewrite Hsz; apply Z.ltb_lt; unfold MAX_FILE_SIZE; rewrite cluster_eq; lia|].
    wp_step. eapply wp_upd_inode; [dcbn; rewrite E, Hdi; done|]. dcbn.
    assert (nb < 2 ^ 26) by lia.
    pose proof (room_grown s d b nb i n m es a1 di l D ltac:(done) Hdi F E Hmap Hmap') as R.
    pose proof R as (Rl & Rh & _ & _ & _ & _ & _ & RD).
    replace (nb * 32 / DIR_ENTRY_NUM) with (len es / 32) by (rewrite entry_num_eq; dmlia).
    replace (nb + 1) with ((len es + 1 + 31) / 32) in * by dmlia.
    subst f. eapply retry_hit; [exact RD|..].
    + exact Hl.
    + exact Hh.
    + dmlia.
    + dmlia.
    + change (u32 (-1)) with (u32 (0 - 1)). do 2 f_equal. dmlia.
    + apply HQ, R.
  - replace ((len es - 1) / 32) with (len es / 32) by dmlia. eapply retry_hit; [exact D|done|done|done|dmlia| |].
    + rewrite u32_small; dmlia.
    + apply HQ. replace ((len es + 1 + 31) / 32) with nb by dmlia. by apply room_same.
Qed.

(** ** An existing entry *)

Lemma file_key es m k name e key :
  entries_ok es m -> file_at es k name e -> dir_key name = Some key -> name_ok name key /\ m !! key = Some k.
Proof.
  intros [_ _ Hn _] (H2 & He & <-) Hkey. destruct (Hn k e H2 He) as (key' & Hok & Hm).
  destruct (proj1 Hok) as []. assert (key' = key) as -> by (destruct Hok; congruence). done.
Qed.

Lemma is_entry_self e name : d_flag e = DIR_USED -> d_filename e = name -> is_entry name e = true.
Proof. intros Hf Hn. unfold is_entry, strcmp_eq. rewrite Hf, Z.eqb_refl, Hn. by apply bool_decide_true. Qed.

Lemma wp_get_kth d k e (Q : nvfuse_dir_entry -> dst A I -> Prop) s :
  0 <= k -> dent (d_bufs s) d k = Some e -> Q e s -> wp (get_dentry d (k / 32) (k mod 32)) Q s.
Proof.
  intros Hk He HQ. eapply wp_get_dentry; [rewrite entry_num_eq; dmlia| |exact HQ].
  rewrite entry_num_eq. by replace (k / 32 * 32 + k mod 32) with k by dmlia.
Qed.

(** nvfuse_find_existing_dentry of a file that is there returns its entry, and
    everything is released. *)
Lemma find_existing_wp s d b nb i n m es k name e (Q : Z -> dst A I -> Prop) :
  data s d b nb i n m es -> d ∈ d_locked s -> b ∉ d_locked s -> (forall blk, (d, blk) ∉ d_held s) -> (b, 0) ∉ d_held s ->
  file_at es k name e -> Q k s -> wp (nvfuse_find_existing_dentry d name) Q s.
Proof.
  intros D Hl Hbl Hh Hbh Hf HQ. pose proof (data_len _ _ _ _ _ _ _ _ _ _ D) as (Hl1 & Hl2 & Hl3).
  destruct (dd_inode _ _ _ _ _ _ _ _ _ _ D) as (di & Hdi & _ & _ & Hlinks & _ & Hsz).
  destruct Hf as (Hk2 & He & Hname). pose proof (nth_entry_lt _ _ _ He) as Hk.
  destruct (eo_names _ _ (dd_entries _ _ _ _ _ _ _ _ _ _ D) k e Hk2 He) as (key & Hok & Hmk). rewrite Hname in Hok.
  destruct (data_entry _ _ _ _ _ _ _ _ _ _ _ _ D He) as [Hdent Hflag].
  assert (exists l, d_bufs s !! (d, k / 32) = Some l) as [l Hbuf].
  { destruct (dd_blocks _ _ _ _ _ _ _ _ _ _ D (k / 32)) as (l & Hl' & _); [dmlia|by exists l]. }
  assert (st_mapped (d_store s) d (k / 32) = true) as Hmap by (apply D; dmlia).
  unfold nvfuse_find_existing_dentry. wp_step.
  eapply get_indexing_wp; [by eapply data_bp|by eapply data_ready|exact Hok|]. intros v. rewrite Hmk, decode_small by lia.
  cbn beta iota zeta. change (0 <? 0) with false. cbn iota. wp_step. eapply wp_get_inode; [exact Hdi|].
  rewrite land_cluster, entry_to_blk by lia.
  assert (exists f, Z.to_nat ((i_size di - k * DIR_ENTRY_SIZE + DIR_ENTRY_SIZE - 1) / DIR_ENTRY_SIZE) = S f) as [f ->].
  { exists (Z.to_nat (nb * 32 - k - 1)). rewrite Hsz, cluster_eq. change DIR_ENTRY_SIZE with 128. dmlia. }
  assert (u32 (k * DIR_ENTRY_SIZE / DIR_ENTRY_SIZE) = k) as Hret.
  { change DIR_ENTRY_SIZE with 128. rewrite Z.div_mul by done. apply u32_small. lia. }
  cbn [find_existing_loop]. rewrite land_cluster, entry_to_blk by lia. wp_step.
  destruct (Z.eqb_spec (k mod 32 * 128) 0) as [Hz|Hz]; cbn [negb].
  - wp_step. wp_step. wp_step. cbn [fmap option_fmap option_map release_opt]. wp_step. wp_step.
    apply wp_get_bh; [done|apply Hh|done|by eexists|]. wp_step. cbn beta iota. wp_step.
    replace 0 with (k mod 32) at 1 by lia. eapply wp_get_kth; [lia|exact Hdent|].
    rewrite (is_entry_self e name) by done. wp_step. apply wp_release; [dcbn; set_solver|]. dcbn. rewrite add_remove by apply Hh.
    rewrite Hret. destruct s. exact HQ.
  - wp_step. apply wp_get_bh; [done|apply Hh|done|by eexists|]. wp_step. wp_step. wp_step. eapply wp_lift; [done|].
    wp_step. cbn beta iota. wp_step. rewrite entry_num_eq. eapply wp_get_kth; [lia|exact Hdent|].
    rewrite (is_entry_self e name) by done. wp_step. apply wp_release; [dcbn; set_solver|]. dcbn. rewrite add_remove by apply Hh.
    rewrite Hret. destruct s. exact HQ.
Qed.

(** ** Lookup of a name *)

(** A file that is there is found in its entry; nothing changes and nothing stays
    taken but the inode of the file, when its context was asked for. *)
Definition opened (want : bool) (ino : Z) s : dst A I := if want then set_locked ({[ ino ]} ∪ d_locked s) s else s.

Lemma lookup_open_wp (want : bool) s d b nb i n m es k name e (Q : Z * option nvfuse_dir_entry -> dst A I -> Prop) :
  data s d b nb i n m es -> dir_free s d b -> file_at es k name e -> 0 < d_ino e < st_no_of_inodes (d_store s) ->
  (want = true -> live (d_store s) (d_ino e) /\ ROOT_INO <= d_ino e /\ d_ino e <> d /\ d_ino e ∉ d_locked s) ->
  Q (0, Some e) (opened want (d_ino e) s) -> wp (nvfuse_lookup want name d) Q s.
Proof.
  intros D [Fd Fb Fh Fm] Hf Hino Hwant HQ. pose proof (data_len _ _ _ _ _ _ _ _ _ _ D) as (Hl1 & Hl2 & Hl3).
  destruct (dd_inode _ _ _ _ _ _ _ _ _ _ D) as (di & Hdi & Hd & Hb & Hlinks & _ & Hsz).
  destruct (dd_inos _ _ _ _ _ _ _ _ _ _ D) as (Hrd & Hrb & Hbd).
  destruct Hf as (Hk2 & He & Hname). pose proof (nth_entry_lt _ _ _ He) as Hk.
  destruct (eo_names _ _ (dd_entries _ _ _ _ _ _ _ _ _ _ D) k e Hk2 He) as (key & Hok & Hmk). rewrite Hname in Hok.
  destruct (data_entry _ _ _ _ _ _ _ _ _ _ _ _ D He) as [Hdent Hflag].
  unfold nvfuse_lookup. wp_step. eapply wp_read_inode; [done..|]. cbn [negb]. cbn iota. wp_step.
  eapply wp_get_inode; [exact Hdi|]. rewrite Hb, (proj2 (Z.eqb_neq b 0)) by (unfold ROOT_INO in *; lia).
  wp_step. wp_step. unfold nvfuse_lookup_bptree. wp_step.
  eapply (get_indexing_wp (set_locked ({[ d ]} ∪ d_locked s) s) d b i n m name key);
    [by eapply (data_bp (set_locked _ s))|eapply (data_ready (set_locked _ s)); [exact D|dcbn; set_solver|done]|exact Hok|].
  intros v. rewrite Hmk, decode_small by lia. cbn beta iota. change (0 <? 0) with false. cbn iota.
  rewrite (proj2 (Z.eqb_neq k 0)) by lia. cbn [negb]. cbn iota. unfold NVFUSE_DENTRY_TO_BLK. rewrite entry_num_eq.
  destruct (dd_blocks _ _ _ _ _ _ _ _ _ _ D (k / 32)) as (l & Hbuf & _); [dmlia|].
  wp_step. apply wp_get_bh; dcbn; [set_solver|apply Fh|apply D; dmlia|by eexists|].
  wp_step. eapply wp_get_kth; [lia|exact Hdent|]. wp_step. apply wp_assert; [by apply is_entry_self|].
  wp_steps. cbn beta iota. wp_steps. eapply wp_get_kth; [lia|exact Hdent|]. destruct want.
  - destruct (Hwant eq_refl) as ((fi & Hfi & Hfn) & Hr & Hne & Hnl). wp_steps.
    eapply wp_read_inode; [done|dcbn; set_solver|exact Hfi|done|]. wp_steps.
    apply wp_assert; [apply andb_true_intro; dcbn; lia|]. wp_steps. cbn [release_opt].
    apply wp_release; [dcbn; set_solver|]. wp_step. apply wp_unlock; [dcbn; set_solver|]. wp_step. dcbn.
    rewrite !add_remove by apply Fh. unfold opened in HQ.
    replace (({[ d_ino e ]} ∪ ({[ d ]} ∪ d_locked s)) ∖ {[ d ]}) with ({[ d_ino e ]} ∪ d_locked s) by set_solver.
    destruct s. exact HQ.
  - wp_steps. apply wp_assert; [apply andb_true_intro; dcbn; lia|]. wp_steps. cbn [release_opt].
    apply wp_release; [dcbn; set_solver|]. wp_step. apply wp_unlock; [dcbn; set_solver|]. wp_step. dcbn.
    rewrite !add_remove by done || apply Fh. destruct s. exact HQ.
Qed.

Lemma lookup_found_wp s d b nb i n m es k name e (Q : Z * option nvfuse_dir_entry -> dst A I -> Prop) :
  data s d b nb i n m es -> dir_free s d b -> file_at es k name e -> 0 < d_ino e < st_no_of_inodes (d_store s) ->
  Q (0, Some e) s -> wp (nvfuse_lookup false name d) Q s.
Proof. intros. by eapply lookup_open_wp. Qed.

End find.
End DirFind.

(** ** Directories: lookups that miss, and lookups that do not come back *)
Import Layout DirHash Dir DirOps DirApi DirSpec DirIndex DirEntry DirFind.

Module DirLookup.

Section lookup.
Context {A I : Type} `{StoreLaws A} `{!Index A I} `{!IndexLaws A I}.
Implicit Types (s : dst A I) (a : A) (es : list nvfuse_dir_entry).

Notation data s d b nb i n m es := (dir_data (d_store s) (d_bufs s) (d_index s) d b nb i n m es).

(** The start of a lookup, up to the search in the index. *)
Definition locked_dir s d : dst A I := set_locked ({[ d ]} ∪ d_locked s) s.

Lemma data_locked s d b nb i n m es : data s d b nb i n m es -> data (locked_dir s d) d b nb i n m es.
Proof. done. Qed.

Lemma ready_locked s d b nb i n m es : data s d b nb i n m es -> dir_free s d b -> tree_ready (locked_dir s d) b i n m.
Proof.
  intros D [Fd Fb Fh Fm]. destruct (dd_inos _ _ _ _ _ _ _ _ _ _ D) as (_ & _ & Hbd).
  eapply (data_ready (locked_dir s d)); [exact D|dcbn; unfold locked_dir; dcbn; set_solver|done].
Qed.

Lemma lookup_missing_wp {want : bool} s d b nb i n m es name key (Q : Z * option nvfuse_dir_entry -> dst A I -> Prop) :
  data s d b nb i n m es -> dir_free s d b -> name_ok name key -> m !! key = None ->
  Q (-1, None) s -> wp (nvfuse_lookup want name d) Q s.
Proof.
  intros D F Hok Hm HQ. destruct (dd_inode _ _ _ _ _ _ _ _ _ _ D) as (di & Hdi & Hd & Hb & _).
  destruct (dd_inos _ _ _ _ _ _ _ _ _ _ D) as (Hrd & Hrb & Hbd). pose proof F as [Fd Fb Fh Fm].
  unfold nvfuse_lookup. wp_step. eapply wp_read_inode; [done..|]. cbn [negb]. cbn iota. wp_step.
  eapply wp_get_inode; [exact Hdi|]. rewrite Hb, (proj2 (Z.eqb_neq b 0)) by (unfold ROOT_INO in *; lia).
  wp_step. wp_step. unfold nvfuse_lookup_bptree. wp_step.
  eapply (get_indexing_wp (locked_dir s d)); [by eapply (data_bp (locked_dir s d))|by eapply ready_locked|exact Hok|].
  intros v. rewrite Hm. cbn beta iota. change (-1 <? 0) with true. wp_steps. cbn beta iota. wp_steps. cbn [release_opt].
  wp_steps. apply wp_unlock; [unfold locked_dir; dcbn; set_solver|]. wp_steps. unfold locked_dir. dcbn.
  rewrite add_remove by done. destruct s. exact HQ.
Qed.

(** A directory that never had an entry has no index: every name is missing. *)
Lemma lookup_no_index_wp s d di name (Q : Z * option nvfuse_dir_entry -> dst A I -> Prop) :
  st_inode (d_store s) d = Some di -> i_ino di = d -> ROOT_INO <= d -> d ∉ d_locked s -> i_bpino di = 0 ->
  Q (-1, None) s -> wp (nvfuse_lookup false name d) Q s.
Proof.
  intros Hdi Hd Hrd Fd Hb HQ. unfold nvfuse_lookup. wp_step. eapply wp_read_inode; [done..|]. cbn [negb]. cbn iota. wp_step.
  eapply wp_get_inode; [exact Hdi|]. rewrite Hb. change (0 =? 0) with true. cbn iota. wp_steps. cbn beta iota. wp_steps. cbn [release_opt].
  wp_steps. apply wp_unlock; [dcbn; set_solver|]. wp_steps. dcbn. rewrite add_remove by done. destruct s. exact HQ.
Qed.

(** ** Lookups that do not end *)

(** More iterations do not help the inner loop of the linear search: when it
    ends at all, it ends in the first one. *)
Lemma linear_while_fuel fuel ino blk i last name s r :
  linear_while fuel ino blk i last name s = Some r -> linear_while 1 ino blk i last name s = Some r.
Proof.
  induction fuel as [|fuel IH]; [done|]. cbn [linear_while]. destruct (i <? last) eqn:Hlt; [|done].
  unfold mbind, M_bind. destruct (get_dentry ino blk i s) as [[e s']|] eqn:He; [|done].
  assert (s' = s) as ->.
  { revert He. unfold get_dentry, mlift. by destruct (d_bufs s !! (ino, blk) ≫= _); intros; simplify_eq. }
  destruct (is_entry name e) eqn:Hie; [done|]. intros Hr. specialize (IH Hr). cbn [linear_while] in IH. rewrite Hlt in IH.
  unfold mbind, M_bind in IH. rewrite He, Hie in IH. exact IH.
Qed.

(** The linear search of a directory whose first entry is another one. *)
Lemma lookup_linear_diverges s d b nb i n m es e0 name :
  data s d b nb i n m es -> d ∈ d_locked s -> (d, 0) ∉ d_held s -> nth_entry es 0 = Some e0 -> d_filename e0 <> name ->
  nvfuse_lookup_linear d name s = None.
Proof.
  intros D Hl Hh He Hn. pose proof (data_len _ _ _ _ _ _ _ _ _ _ D) as (Hl1 & Hl2 & Hl3).
  destruct (dd_inode _ _ _ _ _ _ _ _ _ _ D) as (di & Hdi & _ & _ & Hlinks & _ & Hsz).
  destruct (data_entry _ _ _ _ _ _ _ _ _ _ _ _ D He) as [Hdent Hflag].
  unfold nvfuse_lookup_linear. apply bind_aborts. eapply wp_get_inode; [exact Hdi|]. apply aborts_bind.
  rewrite dir_size_to_blk by (rewrite Hsz, cluster_eq; lia).
  replace (i_size di / 4096) with nb by (rewrite Hsz, cluster_eq; dmlia).
  replace (Z.to_nat nb) with (S (Z.to_nat (nb - 1))) by lia. remember (Z.to_nat (nb - 1)) as k. cbn [lookup_linear_loop].
  destruct (dd_blocks _ _ _ _ _ _ _ _ _ _ D 0) as (l & Hbuf & _); [lia|].
  apply bind_aborts. apply wp_get_bh; [done|done|apply D; lia|by eexists|].
  apply bind_aborts. eapply wp_get_inode; [exact Hdi|]. apply aborts_bind. cbn [linear_while].
  rewrite (proj2 (Z.ltb_lt 0 _)).
  - apply bind_aborts. eapply (wp_get_dentry d 0 0); [rewrite entry_num_eq; lia|exact Hdent|].
    unfold is_entry, strcmp_eq. rewrite bool_decide_false by done. by rewrite andb_false_r.
  - rewrite Hlinks, entry_num_eq. zbool. dmlia.
Qed.

(** What every lookup of . or .. starts with: the index stays taken. *)
Lemma dots_taken s d b i n m name (Q : Z * Z -> dst A I -> Prop) :
  bp_of s d b -> tree_ready s b i n m -> name = name_dot \/ name = name_dotdot -> Q (0, 0) (tree_taken s b) ->
  wp (nvfuse_get_dir_indexing d name) Q s.
Proof.
  intros (di & Hd & <-) T Hname HQ. unfold nvfuse_get_dir_indexing.
  pose proof (tr_ino _ _ _ _ _ T) as Hr. unfold ROOT_INO in Hr.
  wp_step. eapply wp_get_inode; [done|]. wp_step. apply wp_assert; [apply negb_true_iff, Z.eqb_neq; lia|].
  wp_step. eapply wp_read_master; [done|].
  assert (strcmp_eq name name_dot || strcmp_eq name name_dotdot = true) as ->; [|by wp_step].
  unfold strcmp_eq. destruct Hname as [->| ->]; done.
Qed.

Lemma lookup_starts s d b nb i n m es want name :
  data s d b nb i n m es -> dir_free s d b ->
  (nvfuse_lookup_bptree d name (locked_dir s d) = None \/
   wp (nvfuse_lookup_bptree d name) (fun r s' => r = BpCollision /\ nvfuse_lookup_linear d name s' = None) (locked_dir s d)) ->
  nvfuse_lookup want name d s = None.
Proof.
  intros D F Hrest. destruct (dd_inode _ _ _ _ _ _ _ _ _ _ D) as (di & Hdi & Hd & Hb & _).
  destruct (dd_inos _ _ _ _ _ _ _ _ _ _ D) as (Hrd & Hrb & Hbd). pose proof F as [Fd Fb Fh Fm].
  unfold nvfuse_lookup. apply bind_aborts. eapply wp_read_inode; [done..|]. cbn [negb]. cbn iota.
  apply bind_aborts. eapply wp_get_inode; [exact Hdi|]. apply aborts_bind.
  rewrite Hb, (proj2 (Z.eqb_neq b 0)) by (unfold ROOT_INO in *; lia).
  destruct Hrest as [Hn|Hc].
  - by apply aborts_bind.
  - apply bind_aborts. eapply wp_mono; [exact Hc|]. cbn beta. by intros r s' [-> Hl].
Qed.

End lookup.
End DirLookup.
