(* ===== verification/DirMake.v ===== *)
(** * Directories: creation

    [DirCreate] writes a new entry, [DirMake] is nvfuse_createfile and nvfuse_mkdir,
    [DirFirst] the first entry of an empty directory. *)
From S2P Require Import Prelude Bitmap Layout DirHash Dir DirOps DirApi DirEntry DirFind.
Import Layout DirHash Dir DirOps DirApi DirSpec DirIndex DirEntry DirFind.

(** ** Directories: a new entry *)
Module DirCreate.

Section create.
Context {A I : Type} `{StoreLaws A} `{!Index A I} `{!IndexLaws A I}.
Implicit Types (s : dst A I) (a : A) (es : list nvfuse_dir_entry).

Notation data s d b nb i n m es := (dir_data (d_store s) (d_bufs s) (d_index s) d b nb i n m es).

(** Only inodes in use are locked. *)
Definition locks_live s : Prop := forall j, j ∈ d_locked s -> live (d_store s) j.

(** Entry [len es] of a directory with room is written and indexed. *)
Lemma data_append a bufs idx d b nb i n m es e key a' idx' i' n' di :
  dir_data a bufs idx d b nb i n m es -> len es < nb * 32 -> len es < 2 ^ 30 ->
  d_flag e = DIR_USED -> name_ok (d_filename e) key -> m !! key = None ->
  st_inode a' d = Some di -> i_ino di = d -> i_bpino di = b -> i_links_count di = len es + 1 -> i_ptr di = len es ->
  i_size di = nb * CLUSTER_SIZE -> live a' b -> (forall lb, st_mapped a' d lb = st_mapped a d lb) ->
  idx' !! b = Some i' -> ix_rep i' n' (<[ key := len es ]> m) ->
  dir_data a' (set_dent bufs d (len es) e) idx' d b nb i' n' (<[ key := len es ]> m) (es ++ [e]).
Proof.
  intros D Hroom Hlim He Hok Hm Hdi H1' H2' H3' H4' H5' Hb Hmap Hidx Hrep.
  pose proof (data_len _ _ _ _ _ _ _ _ _ _ D) as (Hl1 & Hl2 & Hl3).
  destruct (dd_blocks _ _ _ _ _ _ _ _ _ _ D (len es / 32)) as (l & Hbuf & Hlen); [dmlia|].
  split; try done.
  - exists di. rewrite len_app. split_and!; try done. lia.
  - apply D.
  - rewrite len_app, blocks_for_eq. dmlia.
  - intros blk Hblk. rewrite Hmap. by apply D.
  - intros blk Hblk. destruct (dd_blocks _ _ _ _ _ _ _ _ _ _ D blk Hblk) as (l' & Hl' & Hlen').
    destruct (set_dent_block bufs d (len es) e blk l' Hl') as (l2 & ? & ?). exists l2. split; [done|congruence].
  - intros k e' Hk. rewrite (dent_set bufs d (len es) k e l); [|lia|lia|by rewrite entry_num_eq|done].
    rewrite len_app, nth_entry_app. destruct (Z.eqb_spec k (len es)) as [->|Hne].
    + by rewrite (proj2 (Z.ltb_lt _ _)) by lia.
    + intros Hd. pose proof (dd_dent _ _ _ _ _ _ _ _ _ _ D k e' Hk Hd) as Hif.
      destruct (Z.ltb_spec k (len es)); [by rewrite (proj2 (Z.ltb_lt _ _)) by lia|].
      by rewrite (proj2 (Z.ltb_ge _ _)) by lia.
  - by apply entries_app; [apply D|..].
Qed.

Lemma write_entry_wp s d b i n m di l k ino ver name key (Q : unit -> dst A I -> Prop) :
  d ∈ d_locked s -> (d, k / 32) ∉ d_held s -> st_mapped (d_store s) d (k / 32) = true ->
  d_bufs s !! (d, k / 32) = Some l -> len l = DIR_ENTRY_NUM -> b <> d ->
  st_inode (d_store s) d = Some di -> i_bpino di = b -> i_ptr di = k -> tree_ready s b i n m ->
  name_ok name key -> m !! key = None -> n + ix_step <= ix_max -> 0 <= k < 2 ^ 30 ->
  (forall a' i' n', index_frame b (d_store s) a' -> n <= n' <= n + ix_step -> ix_rep i' n' (<[ key := k ]> m) ->
     Q tt (retree (with_bufs (set_dent (d_bufs s) d k (mk_dentry ino DIR_USED ver name))
                     (set_held ({[ (d, k / 32) ]} ∪ d_held s) s)) b a' i')) ->
  wp (write_entry d ino ver name (k / 32) (k mod 32)) Q s.
Proof.
  intros Hl Hh Hmap Hbuf Hlen Hbd Hdi Hb Hp T Hok Hm Hroom Hk HQ. unfold write_entry.
  wp_step. apply wp_get_bh; [done..|by eexists|].
  destruct (lookup_lt_is_Some_2 l (Z.to_nat (k mod 32))) as [e0 He0]; [unfold len in Hlen; rewrite entry_num_eq in Hlen; dmlia|].
  assert (dent (d_bufs s) d k = Some e0) as Hd0 by (unfold dent; rewrite entry_num_eq, Hbuf; done).
  wp_step. eapply wp_get_kth; [lia|exact Hd0|]. wp_step.
  apply (wp_set_dentry _ _ _ _ l); [rewrite entry_num_eq; dmlia|done|done|].
  rewrite entry_num_eq. replace (k / 32 * 32 + k mod 32) with k by dmlia.
  wp_step. eapply wp_get_inode; [exact Hdi|]. wp_step.
  set (s1 := with_bufs _ _).
  apply (set_indexing_wp s1 d b i n m name key); [by exists di| |done|done|done|].
  - destruct T as [T1 T2 T3 T4 T5 T6]. split; try done. cbn. intros Hin. apply elem_of_union in Hin. set_solver.
  - intros a' i' n' Hf Hn' Hrep. rewrite Hp, land_mask in Hrep by done. wp_step. by apply (HQ a' i' n').
Qed.

Lemma count_entry_wp s d di k (Q : unit -> dst A I -> Prop) :
  st_inode (d_store s) d = Some di -> i_links_count di = k -> 0 <= k < 2 ^ 30 ->
  Q tt (set_store (st_set_inode d (set_i_ptr k (set_i_links (k + 1) di)) (st_set_inode d (set_i_links (k + 1) di) (d_store s))) s) ->
  wp (count_entry d k) Q s.
Proof.
  intros Hdi Hk Hr HQ. unfold count_entry. wp_step. eapply wp_upd_inode; [exact Hdi|]. rewrite Hk.
  wp_step. eapply wp_upd_inode; [apply sl_set_eq|]. wp_step. eapply wp_get_inode; [apply sl_set_eq|].
  apply wp_assert; [|done]. apply Z.eqb_eq. cbn. rewrite (u32_small k), !u32_small by lia. done.
Qed.

Lemma new_inode_wp s (Q : Z -> dst A I -> Prop) :
  locks_live s -> spare (d_store s) 1 ->
  (forall ino a', ROOT_INO <= ino < st_no_of_inodes (d_store s) -> ~ live (d_store s) ino ->
     st_inode a' ino = Some (new_inode_of ino) -> frame ino (d_store s) a' ->
     Q ino (set_locked ({[ ino ]} ∪ d_locked s) (set_store a' s))) ->
  wp new_inode Q s.
Proof.
  intros Hlive Hsp HQ. unfold new_inode. wp_step. apply wp_on_store. eapply wp_mono; [by apply sl_alloc|].
  intros ino a' (Hr & Hnl & Hi & F). cbn beta. rewrite (proj2 (Z.eqb_neq ino 0)) by (unfold ROOT_INO in Hr; lia).
  wp_step. apply wp_lock; [intros Hin; by apply Hnl, Hlive|]. wp_step. by apply HQ.
Qed.

(** Everything outside the files [X] is as before. *)
Record others (X : gset Z) s s' : Prop := {
  ot_inode : forall j, j ∉ X -> st_inode (d_store s') j = st_inode (d_store s) j;
  ot_mapped : forall j lb, j ∉ X -> st_mapped (d_store s') j lb = st_mapped (d_store s) j lb;
  ot_bufs : forall k, k.1 ∉ X -> d_bufs s' !! k = d_bufs s !! k;
  ot_index : forall j, j ∉ X -> d_index s' !! j = d_index s !! j;
  ot_limit : st_no_of_inodes (d_store s') = st_no_of_inodes (d_store s);
  ot_root : st_root_ino (d_store s') = st_root_ino (d_store s);
  ot_now : d_now s' = d_now s }.

Lemma others_refl X s : others X s s.
Proof. by split. Qed.

Lemma others_trans X s1 s2 s3 : others X s1 s2 -> others X s2 s3 -> others X s1 s3.
Proof.
  intros [A1 A2 A3 A4 A5 A6 A7] [B1 B2 B3 B4 B5 B6 B7].
  split; intros; rewrite ?B1, ?B2, ?B3, ?B4, ?B5, ?B6, ?B7 by done; auto.
Qed.

Lemma others_mono X Y s s' : X ⊆ Y -> others X s s' -> others Y s s'.
Proof. intros HXY [? ? ? ? ? ? ?]. split; auto; set_solver. Qed.

Lemma others_store X b s s' a' : frame b (d_store s) a' -> b ∈ X -> d_store s' = a' -> d_bufs s' = d_bufs s ->
  d_index s' = d_index s -> d_now s' = d_now s -> others X s s'.
Proof.
  intros [F1 F2 F3 F4] Hb <- Eb Ei En. split; intros; rewrite ?Eb, ?Ei, ?En; auto.
  - apply F1. set_solver.
  - apply F2. set_solver.
Qed.

(** Another directory stays at rest. *)
Lemma others_dir X s s' d b i n m es :
  others X s s' -> d ∉ X -> b ∉ X -> d_locked s' = d_locked s -> d_held s' = d_held s ->
  dir_inv s d b i n m es -> dir_inv s' d b i n m es.
Proof.
  intros [O1 O2 O3 O4 _ _ _] Hd Hb El Eh [D [F1 F2 F3 F4]]. split; [|split; rewrite ?El, ?Eh; auto].
  destruct D as [D1 D2 D3 D4 D5 D6 D7 D8 D9 D10]. split; auto.
  - by rewrite O1.
  - unfold live. by rewrite O1.
  - intros. rewrite O2 by done. auto.
  - intros blk Hblk. destruct (D6 blk Hblk) as (l & Hl & Hlen). exists l. by rewrite O3.
  - intros k e Hk. unfold dent. rewrite O3 by done. by apply D7.
  - by rewrite O4.
Qed.

Lemma add_entry_wp s d b nb i n m es name key init (Q : option Z -> dst A I -> Prop) :
  data s d b nb i n m es -> len es < nb * 32 -> len es < 2 ^ 30 -> name_ok name key -> m !! key = None ->
  n + ix_step <= ix_max -> d ∈ d_locked s -> b ∉ d_locked s -> (forall blk, (d, blk) ∉ d_held s) -> (b, 0) ∉ d_held s ->
  locks_live s -> spare (d_store s) 1 -> (forall i now, i_ino (init now i) = i_ino i) -> (forall i now, i_version (init now i) = i_version i) ->
  (forall ino i' n' s', ROOT_INO <= ino < st_no_of_inodes (d_store s) -> ~ live (d_store s) ino ->
     d_locked s' = {[ ino ]} ∪ d_locked s -> d_held s' = {[ (d, len es / 32) ]} ∪ d_held s ->
     others {[ d; b; ino ]} s s' -> n <= n' <= n + ix_step ->
     st_inode (d_store s') ino = Some (init (d_now s) (new_inode_of ino)) ->
     data s' d b nb i' n' (<[ key := len es ]> m) (es ++ [mk_dentry ino DIR_USED 1 name]) -> Q (Some ino) s') ->
  wp (add_entry d name (len es) init) Q s.
Proof.
  intros D Hroom Hlim Hok Hm Hix Hl Hbl Hh Hbh Hlive Hsp Hino Hver HQ.
  pose proof (data_len _ _ _ _ _ _ _ _ _ _ D) as (Hl1 & Hl2 & Hl3).
  destruct (dd_inode _ _ _ _ _ _ _ _ _ _ D) as (di & Hdi & Hd & Hb & Hlinks & Hptr & Hsz).
  destruct (dd_inos _ _ _ _ _ _ _ _ _ _ D) as (Hrd & Hrb & Hbd).
  destruct (dd_tree _ _ _ _ _ _ _ _ _ _ D) as (bi & Hbi & Hbib).
  unfold add_entry. rewrite entry_num_eq. replace (len es / 32 * 32 + len es mod 32) with (len es) by dmlia.
  wp_step. eapply count_entry_wp; [exact Hdi|done|lia|]. set (di2 := set_i_ptr _ _). set (a1 := st_set_inode d di2 _).
  assert (frame d (d_store s) a1) as F1 by (eapply frame_trans; apply sl_set_frame).
  assert (forall lb, st_mapped a1 d lb = st_mapped (d_store s) d lb) as M1.
  { intros lb. unfold a1. erewrite sl_set_mapped; [|apply sl_set_eq|done]. by eapply sl_set_mapped. }
  wp_step. apply new_inode_wp.
  { intros j Hj. destruct (Hlive j Hj) as (ij & Hij & Hj'). destruct (decide (j = d)) as [->|].
    - exists di2. split; [apply sl_set_eq|done].
    - exists ij. cbn. by rewrite (fr_inode _ _ _ F1). }
  { eapply spare_frame; [exact F1|by exists di|done]. }
  intros ino a2 Hr Hnl Hnew F2. dcbn. cbn [d_store set_store] in Hr, Hnl, F2. rewrite (fr_limit _ _ _ F1) in Hr.
  assert (ino <> d) as Hind. { intros ->. apply Hnl. exists di2. split; [apply sl_set_eq|done]. }
  assert (ino <> b) as Hinb. { intros ->. apply Hnl. exists bi. by rewrite (fr_inode _ _ _ F1). }
  rewrite (proj2 (Z.eqb_neq ino 0)) by (unfold ROOT_INO in Hr; lia).
  wp_steps. eapply wp_upd_inode; [exact Hnew|]. wp_step. eapply wp_get_inode; [apply sl_set_eq|]. dcbn.
  rewrite Hino, Hver. cbn [i_ino i_version new_inode_of]. set (a3 := st_set_inode ino _ a2). wp_step.
  assert (forall j, j <> d -> j <> ino -> st_inode a3 j = st_inode (d_store s) j) as E3.
  { intros j Hj1 Hj2. unfold a3. rewrite set_inode_ne by done. rewrite (fr_inode _ _ _ F2) by done. by apply (fr_inode _ _ _ F1). }
  assert (st_inode a3 d = Some di2) as Ed.
  { unfold a3. rewrite set_inode_ne by done. rewrite (fr_inode _ _ _ F2) by done. apply sl_set_eq. }
  assert (forall j lb, j <> ino -> st_mapped a3 j lb = st_mapped (d_store s) j lb) as M3.
  { intros j lb Hj. unfold a3. rewrite (fr_mapped _ _ _ (sl_set_frame a2 ino _)) by done.
    rewrite (fr_mapped _ _ _ F2) by done. destruct (decide (j = d)) as [->|]; [apply M1|by apply (fr_mapped _ _ _ F1)]. }
  destruct (dd_blocks _ _ _ _ _ _ _ _ _ _ D (len es / 32)) as (l & Hbuf & Hlen); [dmlia|].
  eapply (write_entry_wp _ d b i n m di2 l (len es)); dcbn;
    [set_solver|apply Hh|rewrite M3 by done; apply D; dmlia|exact Hbuf|done|done|exact Ed|done| | |exact Hok|exact Hm|done|lia|].
  { cbn. apply u32_small. lia. }
  { split; dcbn; [done|exists bi; by rewrite E3|set_solver|done|apply D|apply D]. }
  intros a4 i' n' Hf Hn' Hrep. wp_step. cbn [d_store] in Hf. destruct Hf as [F4 (l4 & z4 & E4)].
  rewrite E3, Hbi in E4 by done.
  apply (HQ ino i' n'); try done; dcbn.
  - intros (j & Hj & Hj2). apply Hnl. exists j. by rewrite (fr_inode _ _ _ F1).
  - assert (frame ino a2 a3) as F3 by apply sl_set_frame.
    split; intros; try done.
    + etrans; [apply F4; set_solver|]. apply E3; set_solver.
    + etrans; [apply F4; set_solver|]. apply M3; set_solver.
    + apply set_dent_other. set_solver.
    + apply lookup_insert_ne. set_solver.
    + etrans; [apply F4|]. etrans; [apply F3|]. etrans; [apply F2|apply F1].
    + etrans; [apply F4|]. etrans; [apply F3|]. etrans; [apply F2|apply F1].
  - rewrite (fr_inode _ _ _ F4) by done. apply sl_set_eq.
  - eapply (data_append _ _ _ _ _ _ _ _ _ _ _ key a4 _ i' n' di2); try done.
    + by rewrite (fr_inode _ _ _ F4) by done.
    + cbn. rewrite !u32_small; lia.
    + cbn. rewrite !u32_small; lia.
    + eexists. split; [exact E4|]. done.
    + intros lb. rewrite (fr_mapped _ _ _ F4) by done. by apply M3.
    + apply lookup_insert_eq.
Qed.

End create.
End DirCreate.

(** ** Directories: nvfuse_createfile and nvfuse_mkdir *)
Import Layout DirHash Dir DirOps DirApi DirSpec DirIndex DirEntry DirFind DirLookup DirCreate.

Module DirMake.

Section make.
Context {A I : Type} `{StoreLaws A} `{!Index A I} `{!IndexLaws A I}.
Implicit Types (s : dst A I) (a : A) (es : list nvfuse_dir_entry).

Notation data s d b nb i n m es := (dir_data (d_store s) (d_bufs s) (d_index s) d b nb i n m es).

Lemma room_others s s' d b nb i n m es : room_for s s' d b nb i n m es -> others {[ d ]} s s'.
Proof.
  intros (_ & _ & Ei & En & [F1 F2 F3 F4] & _ & Hb & _). split; intros; rewrite ?Ei, ?En; auto.
  - apply F1. set_solver.
  - apply F2. set_solver.
  - apply Hb. set_solver.
Qed.

Lemma room_live s s' d b nb i n m es j : room_for s s' d b nb i n m es -> live (d_store s) j -> live (d_store s') j.
Proof.
  intros (_ & _ & _ & _ & F & (l & z & E) & _) (ij & Hij & Hj). destruct (decide (j = d)) as [->|].
  - rewrite Hij in E. eexists. split; [exact E|done].
  - exists ij. by rewrite (fr_inode _ _ _ F).
Qed.

(** A directory with an index only needs a free entry. *)
Lemma prepare_wp s d b i n m es (Q : Z + Z -> dst A I -> Prop) :
  data s d b (blocks_for (len es)) i n m es -> d ∈ d_locked s -> (forall blk, (d, blk) ∉ d_held s) -> len es < 2 ^ 30 ->
  (forall s', room_for s s' d b (blocks_for (len es + 1)) i n m es -> Q (inl (len es)) s') ->
  wp (prepare_entry d) Q s.
Proof.
  intros D Hl Hh Hlim HQ. destruct (dd_inode _ _ _ _ _ _ _ _ _ _ D) as (di & Hdi & _ & Hb & _).
  destruct (dd_inos _ _ _ _ _ _ _ _ _ _ D) as (_ & Hrb & _). unfold ROOT_INO in Hrb.
  pose proof (data_len _ _ _ _ _ _ _ _ _ _ D) as (Hl1 & _).
  unfold prepare_entry. wp_step. eapply wp_get_inode; [exact Hdi|].
  rewrite Hb, (proj2 (Z.eqb_neq b 0)), andb_false_r by lia. wp_steps. change (negb (0 =? 0)) with false. cbn iota.
  wp_step. eapply find_empty_wp; [done..|]. intros s' R. rewrite (proj2 (Z.ltb_ge (len es) 0)) by lia.
  pose proof R as (_ & _ & _ & _ & _ & _ & _ & D').
  destruct (dd_inode _ _ _ _ _ _ _ _ _ _ D') as (di' & Hdi' & _ & Hb' & _).
  wp_step. eapply wp_get_inode; [exact Hdi'|]. rewrite Hb', (proj2 (Z.eqb_neq b 0)) by lia. cbn [andb]. wp_steps.
  change (negb (0 =? 0)) with false. cbn iota. by apply HQ.
Qed.

(** The directory after the new entry, everything released. *)
Record made (X : gset Z) s s' (d b : Z) (i' : I) (n' : Z) (m : gmap Z Z) es (key ino : Z) (name : list Z)
    (node : nvfuse_inode) : Prop := {
  mk_locked : d_locked s' = d_locked s;
  mk_held : d_held s' = d_held s;
  mk_others : others ({[ ino ]} ∪ X) s s';
  mk_ino : ROOT_INO <= ino < st_no_of_inodes (d_store s) /\ ~ live (d_store s) ino;
  mk_new : ino <> d /\ ino <> b;
  mk_node : st_inode (d_store s') ino = Some node;
  mk_dir : dir_inv s' d b i' n' (<[ key := len es ]> m) (es ++ [mk_dentry ino DIR_USED 1 name]) }.

Lemma made_finish X s s1 s2 s' d b m es i' n' key ino name node :
  dir_free s d b -> others X s s1 -> {[ d; b ]} ⊆ X -> (forall j, live (d_store s) j -> live (d_store s1) j) ->
  d_locked s' = d_locked s -> d_held s' = d_held s ->
  ~ live (d_store s1) ino -> ROOT_INO <= ino < st_no_of_inodes (d_store s1) -> others {[ d; b; ino ]} s1 s2 ->
  data s2 d b (blocks_for (len es + 1)) i' n' (<[ key := len es ]> m) (es ++ [mk_dentry ino DIR_USED 1 name]) ->
  others {[ ino ]} s2 s' -> d_bufs s' = d_bufs s2 -> d_index s' = d_index s2 -> ino <> d -> ino <> b ->
  st_inode (d_store s') ino = Some node ->
  made X s s' d b i' n' m es key ino name node.
Proof.
  intros F O1 HX Hlv El Eh Hnl Hr O2 D2 O3 Eb Ei Hd Hb Hnode.
  assert (others ({[ ino ]} ∪ X) s s') as O.
  { eapply others_trans; [eapply others_mono; [|exact O1]; set_solver|].
    eapply others_trans; [eapply others_mono; [|exact O2]; set_solver|]. eapply others_mono; [|exact O3]. set_solver. }
  split; try done.
  - rewrite <- (ot_limit _ _ _ O1). split; [done|]. intros Hlive. by apply Hnl, Hlv.
  - split; [|destruct F; split; rewrite ?El, ?Eh; auto]. rewrite len_app, Eb, Ei.
    destruct D2 as [D1 D2' D3 D4 D5 D6 D7 D8 D9 D10]. split; auto.
    + rewrite (ot_inode _ _ _ O3) by set_solver. exact D1.
    + unfold live. by rewrite (ot_inode _ _ _ O3) by set_solver.
    + intros. rewrite (ot_mapped _ _ _ O3) by set_solver. auto.
Qed.

Lemma create_rest_wp X s s1 d b i n m es name key mode dev (Q : Z * option Z -> dst A I -> Prop) :
  dir_free s d b -> d_locked s1 = {[ d ]} ∪ d_locked s -> d_held s1 = d_held s -> others X s s1 -> {[ d; b ]} ⊆ X ->
  (forall j, live (d_store s) j -> live (d_store s1) j) -> locks_live s ->
  data s1 d b (blocks_for (len es + 1)) i n m es -> len es < 2 ^ 30 -> name_ok name key -> m !! key = None ->
  n + ix_step <= ix_max -> spare (d_store s1) 1 ->
  (forall ino i' n' s', n <= n' <= n + ix_step ->
     made X s s' d b i' n' m es key ino name (init_file mode dev (d_now s) (new_inode_of ino)) ->
     Q (NVFUSE_SUCCESS, Some ino) s') ->
  wp (new_ino ← add_entry d name (len es) (init_file mode dev);
      match new_ino with
      | None => mret (-1, None)
      | Some alloc_ino =>
          nvfuse_release_bh (d, len es / DIR_ENTRY_NUM);;
          nvfuse_release_inode alloc_ino;;
          nvfuse_release_inode d;;
          mret (NVFUSE_SUCCESS, Some alloc_ino)
      end) Q s1.
Proof.
  intros F El Eh O1 HX Hlv Hlive D Hlim Hok Hm Hix Hsp HQ. pose proof F as [Fd Fb Fh Fm].
  pose proof (data_len _ _ _ _ _ _ _ _ _ _ D) as (Hl1 & Hl2 & Hl3).
  destruct (dd_inos _ _ _ _ _ _ _ _ _ _ D) as (Hrd & Hrb & Hbd).
  assert (live (d_store s1) d) as Hld.
  { destruct (dd_inode _ _ _ _ _ _ _ _ _ _ D) as (di & Hdi & Hd & _). by exists di. }
  assert (live (d_store s1) b) as Hlb by apply D.
  wp_step. eapply (add_entry_wp s1 d b _ i n m es name key); [exact D|rewrite blocks_for_eq in *; dmlia|done|done|done|done|..].
  - rewrite El. set_solver.
  - rewrite El. set_solver.
  - intros blk. by rewrite Eh.
  - by rewrite Eh.
  - intros j Hj. rewrite El in Hj. apply elem_of_union in Hj as [->%elem_of_singleton|Hj]; [done|]. by apply Hlv, Hlive.
  - done.
  - done.
  - done.
  - intros ino i' n' s2 Hr Hnl El2 Eh2 O2 Hn' Hnode D2. rewrite entry_num_eq.
    assert (ino <> d) as Hid by (intros ->; done). assert (ino <> b) as Hib by (intros ->; done).
    assert (ino ∉ d_locked s) as Hil by (intros Hin; by apply Hnl, Hlv, Hlive).
    wp_step. apply wp_release; [rewrite Eh2; set_solver|]. rewrite Eh2, Eh, add_remove by apply Fh.
    wp_step. apply wp_unlock; [dcbn; rewrite El2; set_solver|]. wp_step. apply wp_unlock; [dcbn; rewrite El2, El; set_solver|].
    wp_step. apply (HQ ino i' n'); [done|].
    eapply (made_finish X s s1 s2); try done.
    + dcbn. rewrite El2, El. set_solver.
    + dcbn. rewrite Hnode. by rewrite (ot_now _ _ _ O1).
Qed.

Lemma others_locked X s d s1 : others X (locked_dir s d) s1 -> others X s s1.
Proof. intros [? ? ? ? ? ? ?]. by split. Qed.

(** nvfuse_createfile in a directory that has an index. *)
Lemma createfile_wp s d b i n m es name key mode dev (Q : Z * option Z -> dst A I -> Prop) :
  dir_inv s d b i n m es -> locks_live s -> 1 <= strlen name < FNAME_SIZE -> name_ok name key -> m !! key = None ->
  len es < 2 ^ 30 -> n + ix_step <= ix_max -> spare (d_store s) 1 ->
  (forall ino i' n' s', n <= n' <= n + ix_step ->
     made {[ d; b ]} s s' d b i' n' m es key ino name (init_file mode dev (d_now s) (new_inode_of ino)) ->
     Q (NVFUSE_SUCCESS, Some ino) s') ->
  wp (nvfuse_createfile d name mode dev) Q s.
Proof.
  intros [D F] Hlive Hlen Hok Hm Hlim Hix Hsp HQ. pose proof F as [Fd Fb Fh Fm].
  pose proof (data_len _ _ _ _ _ _ _ _ _ _ D) as (Hl1 & Hl2 & Hl3).
  destruct (dd_inode _ _ _ _ _ _ _ _ _ _ D) as (di & Hdi & Hd & Hb & Hlinks & _).
  destruct (dd_inos _ _ _ _ _ _ _ _ _ _ D) as (Hrd & Hrb & Hbd).
  unfold nvfuse_createfile. rewrite (proj2 (Z.ltb_ge _ 1)), (proj2 (Z.leb_gt _ _)) by lia. cbn [orb].
  wp_step. eapply wp_read_inode; [done..|]. wp_step. apply wp_assert; [done|]. wp_step. eapply wp_get_inode; [exact Hdi|].
  rewrite Hlinks, (proj2 (Z.eqb_neq _ MAX_FILES_PER_DIR)) by (unfold MAX_FILES_PER_DIR; lia).
  wp_step. eapply (prepare_wp (locked_dir s d)); [exact D|unfold locked_dir; dcbn; set_solver|exact Fh|done|].
  intros s1 R. pose proof R as (El & Eh & _ & _ & _ & _ & _ & D1). cbn beta iota.
  eapply (create_rest_wp {[ d; b ]} s s1 d b i n m es name key); try done.
  - eapply others_mono; [|by eapply others_locked, room_others]. set_solver.
  - intros j Hj. by eapply (room_live _ _ _ _ _ _ _ _ _ _ R).
  - destruct R as (_ & _ & _ & _ & FR & _). eapply spare_frame; [exact FR|by exists di|done].
Qed.

End make.
End DirMake.

(** ** Directories: the first entry of an empty directory

    A new directory has neither blocks nor an index; the first nvfuse_createfile
    or nvfuse_mkdir in it makes both. *)
Import Layout DirHash Dir DirOps DirApi DirSpec DirIndex DirEntry DirFind DirLookup DirCreate DirMake.

Module DirFirst.

Section first.
Context {A I : Type} `{StoreLaws A} `{!Index A I} `{!IndexLaws A I}.
Implicit Types (s : dst A I) (a : A) (es : list nvfuse_dir_entry).

Notation data s d b nb i n m es := (dir_data (d_store s) (d_bufs s) (d_index s) d b nb i n m es).

(** Nothing but parts of inodes in use is taken. *)
Definition taken_live s : Prop := locks_live s /\ forall k, k ∈ d_held s -> live (d_store s) k.1.

(** What the buffer of block 0 holds before the directory uses it: entries of
    an earlier life of the inode, none in use past the first two. *)
Definition stale_ok s d : Prop :=
  let l := default block_zero (d_bufs s !! (d, 0)) in
  len l = DIR_ENTRY_NUM /\ forall k e, 2 <= k -> nth_entry l k = Some e -> nvfuse_dir_is_invalid e = true.

(** A directory as nvfuse_mkdir leaves it. *)
Record fresh_dir s d : Prop := {
  fd_inode : exists di, st_inode (d_store s) d = Some di /\ i_ino di = d /\ i_links_count di = 2 /\ i_ptr di = 1 /\
    i_bpino di = 0 /\ i_size di = 0;
  fd_ino : ROOT_INO <= d;
  fd_lock : d ∉ d_locked s;
  fd_held : forall blk, (d, blk) ∉ d_held s;
  fd_stale : stale_ok s d }.

(** The two entries nvfuse_make_first_directory writes. *)
Definition dots (d v0 v1 : Z) : list nvfuse_dir_entry :=
  [mk_dentry d DIR_USED v0 name_dot; mk_dentry d DIR_USED v1 name_dotdot].

Lemma dots_ok d v0 v1 : entries_ok (dots d v0 v1) ∅.
Proof.
  split; [done|by repeat constructor| |].
  - intros k e Hk He%nth_entry_lt. cbn in He. unfold len in He. simpl in He. lia.
  - intros key k. by rewrite lookup_empty.
Qed.

(** The buffer after nvfuse_make_first_directory. *)
Definition first_block (l : list nvfuse_dir_entry) (d : Z) : list nvfuse_dir_entry :=
  match l with
  | e0 :: e1 :: rest => dots d (d_version e0) (d_version e1) ++ rest
  | _ => l
  end.

Lemma make_first_wp s d di l (Q : Z -> dst A I -> Prop) :
  st_inode (d_store s) d = Some di -> i_ino di = d -> i_size di = 0 -> d ∈ d_locked s -> (d, 0) ∉ d_held s ->
  l = default block_zero (d_bufs s !! (d, 0)) -> len l = DIR_ENTRY_NUM ->
  (forall a' bl, frame d (d_store s) a' -> st_inode a' d = Some (set_i_size CLUSTER_SIZE (set_i_blocks bl di)) ->
     st_mapped a' d 0 = true -> Q 0 (set_buf (d, 0) (first_block l d) (set_store a' s))) ->
  wp (nvfuse_make_first_directory d) Q s.
Proof.
  intros Hdi Hd Hsz Hl Hh El Hlen HQ. unfold nvfuse_make_first_directory. wp_step. eapply wp_get_inode; [exact Hdi|].
  wp_step. apply wp_assert; [by apply Z.eqb_eq|]. rewrite Hsz. change (NVFUSE_SIZE_TO_BLK 0) with 0.
  wp_step. apply wp_on_store. eapply wp_mono; [apply sl_get_block|]. intros r a1 (-> & F & (bl & E) & Hm & _).
  change (negb (0 =? 0)) with false. cbn iota. rewrite Hdi in E. cbn in E.
  wp_step. eapply wp_upd_inode; [exact E|]. set (a2 := st_set_inode _ _ _).
  wp_step. unfold nvfuse_get_bh_write. wp_steps. apply wp_assert; [by apply bool_decide_true|].
  wp_step. apply wp_hold; [done|]. wp_step.
  assert (st_mapped a2 d 0 = true) as Hm2 by (unfold a2; erewrite sl_set_mapped; [done|exact E|done]).
  apply wp_assert; [done|]. wp_steps. dcbn. rewrite <- El. eapply wp_get_inode; [apply sl_set_eq|].
  destruct l as [|e0 [|e1 rest]]; [by rewrite entry_num_eq in Hlen..|].
  wp_step. eapply (wp_get_dentry d 0 0 e0); [rewrite entry_num_eq; lia|unfold dent; cbn; by rewrite lookup_insert_eq|].
  wp_step. eapply (wp_set_dentry d 0 0); [rewrite entry_num_eq; lia|cbn; apply lookup_insert_eq|done|].
  unfold set_dent at 1. cbn. rewrite lookup_insert_eq, insert_insert_eq. cbn.
  wp_step. eapply (wp_get_dentry d 0 1 e1); [rewrite entry_num_eq; lia|unfold dent; cbn; by rewrite lookup_insert_eq|].
  wp_step. eapply (wp_set_dentry d 0 1); [rewrite entry_num_eq; lia|cbn; apply lookup_insert_eq|done|].
  unfold set_dent at 1. cbn. rewrite lookup_insert_eq, insert_insert_eq. cbn.
  wp_step. apply wp_release; [dcbn; set_solver|]. wp_step. unfold with_bufs. dcbn. rewrite add_remove by done.
  change (Z.to_nat ((0 * DIR_ENTRY_NUM + 1) mod DIR_ENTRY_NUM)) with 1%nat.
  change (Z.to_nat ((0 * DIR_ENTRY_NUM + 0) mod DIR_ENTRY_NUM)) with 0%nat.
  specialize (HQ a2 bl). rewrite Hd. unfold set_buf in HQ. cbn in HQ. destruct s. apply HQ.
  - eapply frame_trans; [exact F|apply sl_set_frame].
  - apply sl_set_eq.
  - done.
Qed.

Lemma create_bptree_wp s d di (Q : Z -> dst A I -> Prop) :
  st_inode (d_store s) d = Some di -> live (d_store s) d -> taken_live s -> spare (d_store s) 2 ->
  (forall b i a', ROOT_INO <= b < st_no_of_inodes (d_store s) -> ~ live (d_store s) b -> live a' b -> ix_rep i 2 ∅ ->
     (forall j, j <> d -> j <> b -> st_inode a' j = st_inode (d_store s) j) ->
     (forall j lb, j <> b -> st_mapped a' j lb = st_mapped (d_store s) j lb) ->
     st_no_of_inodes a' = st_no_of_inodes (d_store s) -> st_root_ino a' = st_root_ino (d_store s) ->
     st_inode a' d = Some (set_i_bpino b di) -> spare a' 1 -> Q 0 (set_index (<[ b := i ]> (d_index s)) (set_store a' s))) ->
  wp (nvfuse_create_bptree d) Q s.
Proof.
  intros Hdi Hld [Hll Hhl] Hsp HQ. unfold nvfuse_create_bptree. wp_step. apply wp_on_store.
  eapply wp_mono; [apply sl_alloc, (spare_le _ 1 2); [lia|done]|]. intros b a1 (Hr & Hnl & Hnew & F1).
  assert (b <> d) as Hbd by (intros ->; done).
  rewrite (proj2 (Z.eqb_neq b 0)) by (unfold ROOT_INO in Hr; lia). wp_step.
  apply wp_lock; [intros Hin; by apply Hnl, Hll|]. wp_step. eapply wp_upd_inode; [exact Hnew|]. wp_step.
  apply wp_on_store. dcbn. set (a2 := st_set_inode b _ a1).
  eapply wp_mono; [apply il_create; eexists; apply sl_set_eq|]. intros t a3 (i & -> & Hrep & F3 & (l & z & E3)).
  unfold a2 in E3. rewrite sl_set_eq in E3. cbn in E3. wp_steps. dcbn.
  apply wp_hold; [intros Hin; by apply Hnl, (Hhl (b, 0))|]. wp_step. apply wp_release; [dcbn; set_solver|].
  assert (st_inode a3 d = Some di) as E3d.
  { rewrite (fr_inode _ _ _ F3) by done. unfold a2. rewrite set_inode_ne by done. by rewrite (fr_inode _ _ _ F1) by done. }
  wp_step. eapply wp_upd_inode; [exact E3d|]. wp_step. apply wp_unlock; [dcbn; set_solver|]. wp_step. dcbn.
  rewrite !add_remove; [|intros Hin; by apply Hnl, (Hhl (b, 0))|intros Hin; by apply Hnl, Hll].
  set (a4 := st_set_inode d _ a3). specialize (HQ b i a4). destruct s. apply HQ; clear HQ; try done.
  - eexists. unfold a4. rewrite set_inode_ne by done. split; [exact E3|done].
  - intros j Hj1 Hj2. unfold a4. rewrite set_inode_ne, (fr_inode _ _ _ F3) by done. unfold a2.
    rewrite set_inode_ne by done. by apply (fr_inode _ _ _ F1).
  - intros j lb Hj. transitivity (st_mapped a3 j lb).
    + unfold a4. destruct (decide (j = d)) as [->|]; [by eapply sl_set_mapped|by apply (fr_mapped _ _ _ (sl_set_frame _ _ _))].
    + rewrite (fr_mapped _ _ _ F3) by done. unfold a2. rewrite (fr_mapped _ _ _ (sl_set_frame a1 b _)) by done.
      by apply (fr_mapped _ _ _ F1).
  - unfold a4. rewrite (fr_limit _ _ _ (sl_set_frame _ _ _)), (fr_limit _ _ _ F3). unfold a2.
    rewrite (fr_limit _ _ _ (sl_set_frame _ _ _)). apply F1.
  - unfold a4. rewrite (fr_root _ _ _ (sl_set_frame _ _ _)), (fr_root _ _ _ F3). unfold a2.
    rewrite (fr_root _ _ _ (sl_set_frame _ _ _)). apply F1.
  - apply sl_set_eq.
  - assert (live a2 b) as Hlb by (eexists; split; [apply sl_set_eq|done]).
    eapply spare_frame; [apply sl_set_frame| |eapply spare_frame; [exact F3|exact Hlb|]].
    + destruct Hld as (i0 & Hi0 & Hd0). assert (i0 = di) as -> by congruence. by exists di.
    + eapply spare_frame; [apply sl_set_frame| |by eapply spare_frame_new]. by eexists.
Qed.

(** nvfuse_find_empty_dentry in the block just made. *)
Lemma find_first_wp s d di l (Q : Z -> dst A I -> Prop) :
  st_inode (d_store s) d = Some di -> i_links_count di = 2 -> i_size di = CLUSTER_SIZE -> d ∈ d_locked s ->
  (d, 0) ∉ d_held s -> st_mapped (d_store s) d 0 = true -> d_bufs s !! (d, 0) = Some l ->
  (exists e, l !! 2%nat = Some e /\ nvfuse_dir_is_invalid e = true) -> Q 2 s -> wp (nvfuse_find_empty_dentry d) Q s.
Proof.
  intros Hdi Hlk Hsz Hl Hh Hm Hb (e & He & Hinv) HQ. unfold nvfuse_find_empty_dentry. wp_step.
  eapply wp_get_inode; [exact Hdi|]. rewrite Hlk. change (u32 (2 - 1)) with 1.
  change (1 / DIR_ENTRY_NUM) with 0. change (1 mod DIR_ENTRY_NUM) with 1. remember 2%nat as f. cbn [find_empty_retry].
  wp_step. eapply wp_get_inode; [exact Hdi|]. rewrite Hsz, Hlk. change (u32 (CLUSTER_SIZE / DIR_ENTRY_SIZE)) with 32.
  change (32 =? 2) with false. change (1 =? DIR_ENTRY_NUM - 1) with false. cbn beta iota zeta. wp_step.
  change (Z.to_nat (32 / DIR_ENTRY_NUM)) with 1%nat.
  eapply (scan_blocks_hit 0 d 0 1 e); [done|done|done|by eexists|done| |exact Hinv|].
  - unfold dent. change (0 * DIR_ENTRY_NUM + (if u32 (1 + 1) =? DIR_ENTRY_NUM then 0 else u32 (1 + 1))) with 2.
    change (2 / DIR_ENTRY_NUM) with 0. rewrite Hb. subst f. exact He.
  - exact HQ.
Qed.

Lemma first_block_spec l d : len l = DIR_ENTRY_NUM -> (forall k e, 2 <= k -> nth_entry l k = Some e -> nvfuse_dir_is_invalid e = true) ->
  exists v0 v1, len (first_block l d) = DIR_ENTRY_NUM /\ (exists e, first_block l d !! 2%nat = Some e /\ nvfuse_dir_is_invalid e = true) /\
    forall k e, 0 <= k -> first_block l d !! Z.to_nat k = Some e ->
      if k <? 2 then nth_entry (dots d v0 v1) k = Some e else nvfuse_dir_is_invalid e = true.
Proof.
  rewrite entry_num_eq. intros Hl Hinv. destruct l as [|e0 [|e1 [|e2 rest]]]; [done..|].
  exists (d_version e0), (d_version e1). cbn [first_block]. split; [exact Hl|]. split.
  - exists e2. split; [done|]. by apply (Hinv 2).
  - intros k e Hk He. destruct (Z.ltb_spec k 2).
    + unfold nth_entry. rewrite (proj2 (Z.leb_le 0 k)) by done. by assert (k = 0 \/ k = 1) as [->| ->] by lia.
    + apply (Hinv k e); [done|]. unfold nth_entry. rewrite (proj2 (Z.leb_le 0 k)) by lia.
      rewrite <- He. replace (Z.to_nat k) with (2 + Z.to_nat (k - 2))%nat by lia. done.
Qed.

Lemma prepare_fresh_wp s d di (Q : Z + Z -> dst A I -> Prop) :
  st_inode (d_store s) d = Some di -> i_ino di = d -> i_links_count di = 2 -> i_ptr di = 1 -> i_bpino di = 0 ->
  i_size di = 0 -> ROOT_INO <= d -> d ∈ d_locked s -> (forall blk, (d, blk) ∉ d_held s) -> stale_ok s d -> taken_live s -> spare (d_store s) 2 ->
  (forall s' b i v0 v1, ~ live (d_store s) b -> d_locked s' = d_locked s -> d_held s' = d_held s ->
     others {[ d; b ]} s s' -> (forall j, live (d_store s) j -> live (d_store s') j) ->
     data s' d b 1 i 2 ∅ (dots d v0 v1) -> spare (d_store s') 1 -> Q (inl 2) s') ->
  wp (prepare_entry d) Q s.
Proof.
  intros Hdi Hd Hlk Hp Hb0 Hsz Hrd Hl Hh [Hlen Hinv] [Hll Hhl] Hsp HQ. set (l := default block_zero (d_bufs s !! (d, 0))) in *.
  destruct (first_block_spec l d Hlen Hinv) as (v0 & v1 & Hflen & He2 & Hfirst).
  unfold prepare_entry. wp_step. eapply wp_get_inode; [exact Hdi|]. rewrite Hlk, Hb0. cbn [Z.eqb andb]. wp_step.
  change (2 =? 2) with true. cbn [andb]. eapply (make_first_wp s d di l); [done..|by apply Hh|done|done|].
  intros a1 bl F1 E1 M1. change (negb (0 =? 0)) with false. cbn iota.
  assert (forall j, live (d_store s) j -> live a1 j) as L1.
  { intros j (ij & Hij & Hj). destruct (decide (j = d)) as [->|]; [by eexists|]. exists ij. by rewrite (fr_inode _ _ _ F1). }
  wp_step. eapply (find_first_wp _ d); [exact E1|done|done|done|by apply Hh|done|cbn; apply lookup_insert_eq|done|].
  change (2 <? 0) with false. cbn iota. wp_step. eapply wp_get_inode; [exact E1|]. cbn [i_bpino i_links_count set_i_size set_i_blocks].
  rewrite Hb0, Hlk. change ((0 =? 0) && (2 =? 2)) with true. cbn iota. wp_step.
  eapply create_bptree_wp; [exact E1|by eexists|split; dcbn; [intros j Hj; by apply L1, Hll|intros k Hk; by apply L1, Hhl]|eapply spare_frame; [exact F1|by exists di|done]|].
  cbn [d_store set_store set_buf]. intros b i a2 Hr Hnl Hlb Hrep Fi Fm Flim Froot E2 Hsp2.
  change (negb (0 =? 0)) with false. cbn iota. wp_step.
  assert (b <> d) as Hbd by (intros ->; apply Hnl; by eexists).
  eapply (HQ _ b i v0 v1); dcbn; try done.
  - intros Hlv. by apply Hnl, L1.
  - split; dcbn; intros; try done.
    + rewrite Fi by set_solver. apply (fr_inode _ _ _ F1). set_solver.
    + rewrite Fm by set_solver. apply (fr_mapped _ _ _ F1). set_solver.
    + apply lookup_insert_ne. set_solver.
    + apply lookup_insert_ne. set_solver.
    + rewrite Flim. apply F1.
    + rewrite Froot. apply F1.
  - intros j Hj. destruct (decide (j = d)) as [->|]; [by eexists|]. destruct (decide (j = b)) as [->|]; [done|].
    destruct (L1 j Hj) as (ij & Hij & ?). exists ij. by rewrite Fi.
  - split; dcbn; try done.
    + eexists. split; [exact E2|]. cbn. split_and!; done.
    + split; [done|]. split; [apply Hr|done].
    + intros blk Hblk. assert (blk = 0) as -> by lia. by rewrite Fm by done.
    + intros blk Hblk. assert (blk = 0) as -> by lia. exists (first_block l d). by rewrite lookup_insert_eq.
    + intros k e Hk. unfold dent. rewrite entry_num_eq in Hk |- *. replace (k / 32) with 0 by dmlia.
      rewrite lookup_insert_eq. replace (k mod 32) with k by dmlia. apply Hfirst. lia.
    + apply dots_ok.
    + apply lookup_insert_eq.
Qed.

(** nvfuse_createfile in a directory without an index. *)
Lemma createfile_first_wp s d name key mode dev (Q : Z * option Z -> dst A I -> Prop) :
  fresh_dir s d -> taken_live s -> 1 <= strlen name < FNAME_SIZE -> name_ok name key -> 2 + ix_step <= ix_max -> spare (d_store s) 2 ->
  (forall b ino i' n' v0 v1 s', 2 <= n' <= 2 + ix_step -> ~ live (d_store s) b ->
     made {[ d; b ]} s s' d b i' n' ∅ (dots d v0 v1) key ino name (init_file mode dev (d_now s) (new_inode_of ino)) ->
     Q (NVFUSE_SUCCESS, Some ino) s') ->
  wp (nvfuse_createfile d name mode dev) Q s.
Proof.
  intros [(di & Hdi & Hd & Hlk & Hp & Hb & Hsz) Hrd Fd Fh Hst] [Hll Hhl] Hlen Hok Hix Hsp HQ.
  assert (live (d_store s) d) as Hld by (by exists di).
  unfold nvfuse_createfile. rewrite (proj2 (Z.ltb_ge _ 1)), (proj2 (Z.leb_gt _ _)) by lia. cbn [orb].
  wp_step. eapply wp_read_inode; [done..|]. wp_step. apply wp_assert; [done|]. wp_step. eapply wp_get_inode; [exact Hdi|].
  rewrite Hlk. change (2 =? MAX_FILES_PER_DIR) with false. cbn iota.
  wp_step. eapply (prepare_fresh_wp (locked_dir s d) d di); try done.
  { unfold locked_dir. dcbn. set_solver. }
  { split; [|exact Hhl]. unfold locks_live, locked_dir. dcbn. intros j [->%elem_of_singleton|Hj]%elem_of_union; [done|by apply Hll]. }
  intros s1 b i v0 v1 Hnl El Eh O Hlv D1 Hsp1. cbn beta iota. cbn [d_store set_locked locked_dir] in Hnl, Hlv.
  eapply (create_rest_wp {[ d; b ]} s s1 d b i 2 ∅ (dots d v0 v1) name key); try done.
  - split; [done|intros Hin; by apply Hnl, Hll|done|intros Hin; by apply Hnl, (Hhl (b, 0))].
  - by eapply others_locked.
  - intros ino i' n' s' Hn' Hmade. by apply (HQ b ino i' n' v0 v1).
Qed.

End first.
End DirFirst.
