(* ===== verification/DirRmfile.v ===== *)
(** * Directories: removal

    [DirRemove] takes an entry out, [DirShrink] closes the gap it leaves,
    [DirRmfile] is nvfuse_rmfile. *)
From S2P Require Import Prelude Bitmap Layout DirHash Dir DirOps DirApi DirEntry DirFind DirMake.
Import Layout DirHash Dir DirOps DirApi DirSpec DirIndex DirEntry DirFind DirLookup DirCreate.

(** ** Directories: the removal of a file *)
Module DirRemove.

Section remove.
Context {A I : Type} `{StoreLaws A} `{!Index A I} `{!IndexLaws A I}.
Implicit Types (s : dst A I) (a : A) (es : list nvfuse_dir_entry).

Notation data s d b nb i n m es := (dir_data (d_store s) (d_bufs s) (d_index s) d b nb i n m es).

(** ** Truncation and the end of an inode *)

Lemma free_inode_size_wp s ino fi size (Q : unit -> dst A I -> Prop) :
  st_inode (d_store s) ino = Some fi -> (forall blk, (ino, blk) ∉ d_held s) ->
  (forall a', frame ino (d_store s) a' -> (exists l, st_inode a' ino = Some (set_i_blocks l fi)) ->
     (forall lb, lb * CLUSTER_SIZE < size -> st_mapped a' ino lb = st_mapped (d_store s) ino lb) ->
     Q tt (set_store a' s)) ->
  wp (nvfuse_free_inode_size ino size) Q s.
Proof.
  intros Hfi Hh HQ. unfold nvfuse_free_inode_size. wp_step. eapply wp_get_inode; [exact Hfi|]. cbv zeta.
  case_match.
  - wp_step. replace s with (set_store (d_store s) s) by (by destruct s). apply HQ; [apply frame_refl| |done].
    exists (i_blocks fi). rewrite Hfi. by destruct fi.
  - wp_step. unfold drop_buffers. wp_steps. apply wp_assert; [apply forallb_forall; intros x _; apply bool_decide_true, Hh|].
    apply wp_on_store. eapply wp_mono; [apply sl_truncate; by exists fi|].
    intros [] a' (F & (l & E) & Hm). apply HQ; [done|exists l; by rewrite E, Hfi|done].
Qed.

(** One link less: the last one ends the inode. *)
Definition unlinked a' (ino : Z) (fi : nvfuse_inode) : Prop :=
  if i_links_count fi =? 1 then ~ live a' ino else st_inode a' ino = Some (set_i_links (i_links_count fi - 1) fi).

Lemma drop_file_wp s ino fi (Q : unit -> dst A I -> Prop) :
  st_inode (d_store s) ino = Some fi -> i_ino fi = ino -> 1 <= i_links_count fi < 2 ^ 32 -> ino ∈ d_locked s ->
  (forall blk, (ino, blk) ∉ d_held s) ->
  (forall a', frame ino (d_store s) a' -> unlinked a' ino fi ->
     Q tt (set_locked (d_locked s ∖ {[ ino ]}) (set_store a' s))) ->
  wp (drop_file ino) Q s.
Proof.
  intros Hfi Hino Hlk Hl Hh HQ. unfold drop_file. wp_step. eapply wp_upd_inode; [exact Hfi|]. wp_step.
  eapply wp_get_inode; [apply sl_set_eq|]. set (fi' := set_i_links _ fi). unfold unlinked in HQ.
  assert (i_links_count fi' = i_links_count fi - 1) as -> by (cbn; apply u32_small; lia).
  destruct (Z.eqb_spec (i_links_count fi) 1) as [->|Hne].
  - change (1 - 1 =? 0) with true. cbn iota. wp_step. eapply free_inode_size_wp; [apply sl_set_eq|exact Hh|].
    intros a1 F1 (l & E1) _. unfold nvfuse_relocate_delete_inode. wp_step. apply wp_on_store. dcbn.
    eapply wp_mono; [apply sl_delete; eexists; split; [exact E1|done]|]. intros _ a2 (Hd & _ & F2). apply wp_unlock; [done|].
    apply HQ; [|done]. cbn [d_store set_store] in F1. eapply frame_trans; [|exact F2]. eapply frame_trans; [|exact F1]. apply sl_set_frame.
  - rewrite (proj2 (Z.eqb_neq _ 0)) by lia. apply wp_unlock; [done|]. apply HQ; [apply sl_set_frame|apply sl_set_eq].
Qed.

(** ** The directory while an entry is removed *)

(** The files outside [d], [b] and [ino] are as in [s0]; the inode of the
    directory is [di], its blocks are mapped as before, its index holds [m]. *)
Record mid s0 s (d b ino : Z) (di : nvfuse_inode) (i : I) (n : Z) (m : gmap Z Z) : Prop := {
  mi_inode : st_inode (d_store s) d = Some di;
  mi_tree : live (d_store s) b;
  mi_mapped : forall lb, st_mapped (d_store s) d lb = st_mapped (d_store s0) d lb;
  mi_index : d_index s !! b = Some i;
  mi_rep : ix_rep i n m;
  mi_others : others {[ d; b; ino ]} s0 s }.

Lemma mid_start s d b nb ino i n m es di :
  data s d b nb i n m es -> st_inode (d_store s) d = Some di -> mid s s d b ino di i n m.
Proof. intros D Hdi. split; try done; try apply D. Qed.

Lemma mid_retree s0 s d b ino di i n m a' i' n' m' :
  mid s0 s d b ino di i n m -> b <> d -> index_frame b (d_store s) a' -> ix_rep i' n' m' ->
  mid s0 (retree s b a' i') d b ino di i' n' m'.
Proof.
  intros [M1 M2 M3 M4 M5 M6] Hbd F R. pose proof F as [Ff _]. split; try done.
  - etrans; [by apply (fr_inode _ _ _ Ff)|done].
  - by eapply index_frame_live.
  - intros lb. etrans; [by apply (fr_mapped _ _ _ Ff)|done].
  - apply lookup_insert_eq.
  - eapply others_trans; [exact M6|]. split; intros; try done; try apply Ff; try set_solver.
    apply lookup_insert_ne. set_solver.
Qed.

Lemma mid_file s0 s d b ino di i n m a' :
  mid s0 s d b ino di i n m -> ino <> d -> ino <> b -> frame ino (d_store s) a' ->
  mid s0 (set_store a' s) d b ino di i n m.
Proof.
  intros [M1 M2 M3 M4 M5 M6] Hd Hb F. split; try done; dcbn.
  - rewrite (fr_inode _ _ _ F); done.
  - destruct M2 as (bi & ? & ?). exists bi. by rewrite (fr_inode _ _ _ F).
  - intros lb. by rewrite (fr_mapped _ _ _ F).
  - eapply others_trans; [exact M6|]. by apply (others_store _ ino _ _ a'); [..|set_solver| | | |].
Qed.

Lemma mid_dir s0 s d b ino di di' i n m :
  mid s0 s d b ino di i n m -> b <> d -> i_blocks di' = i_blocks di ->
  mid s0 (set_store (st_set_inode d di' (d_store s)) s) d b ino di' i n m.
Proof.
  intros [M1 M2 M3 M4 M5 M6] Hb Hbl. split; try done; dcbn.
  - apply sl_set_eq.
  - destruct M2 as (bi & ? & ?). exists bi. by rewrite set_inode_ne.
  - intros lb. by erewrite sl_set_mapped.
  - eapply others_trans; [exact M6|]. apply (others_store _ d _ _ _ (sl_set_frame _ d di')); [set_solver|done..].
Qed.

Lemma mid_bufs s0 s d b ino di i n m k e :
  mid s0 s d b ino di i n m -> mid s0 (with_bufs (set_dent (d_bufs s) d k e) s) d b ino di i n m.
Proof.
  intros [M1 M2 M3 M4 M5 M6]. split; try done. eapply others_trans; [exact M6|]. split; intros; try done.
  apply set_dent_other. set_solver.
Qed.

(** Locks and buffers do not matter to it. *)
Lemma mid_locks s0 s d b ino di i n m L K :
  mid s0 s d b ino di i n m -> mid s0 (set_locked L (set_held K s)) d b ino di i n m.
Proof. intros [M1 M2 M3 M4 M5 [? ? ? ? ? ? ?]]. by split. Qed.

Lemma mid_ready s0 s d b ino di i n m :
  mid s0 s d b ino di i n m -> ROOT_INO <= b -> b ∉ d_locked s -> (b, 0) ∉ d_held s -> tree_ready s b i n m.
Proof. intros [M1 M2 M3 M4 M5 M6] Hr Hl Hh. by split. Qed.

End remove.
End DirRemove.

(** ** Directories: closing the gap a removed entry leaves *)
Import Layout DirHash Dir DirOps DirApi DirSpec DirIndex DirEntry DirFind DirLookup DirCreate DirRemove.

Module DirShrink.

Section shrink.
Context {A I : Type} `{StoreLaws A} `{!Index A I} `{!IndexLaws A I}.
Implicit Types (s : dst A I) (a : A) (es : list nvfuse_dir_entry).

(** The blocks [0, nb) of the directory have their buffers. *)
Definition blocks_ok (bufs : gmap (Z * Z) (list nvfuse_dir_entry)) (d nb : Z) : Prop :=
  forall blk, 0 <= blk < nb -> exists l, bufs !! (d, blk) = Some l /\ len l = DIR_ENTRY_NUM.

Lemma blocks_set bufs d nb k e : blocks_ok bufs d nb -> blocks_ok (set_dent bufs d k e) d nb.
Proof.
  intros B blk Hblk. destruct (B blk Hblk) as (l & Hl & Hlen).
  destruct (set_dent_block bufs d k e blk l Hl) as (l' & ? & ?). exists l'. split; [done|congruence].
Qed.

Lemma dent_set_ok bufs d nb k k' e :
  blocks_ok bufs d nb -> 0 <= k < nb * 32 -> 0 <= k' ->
  dent (set_dent bufs d k e) d k' = if k' =? k then Some e else dent bufs d k'.
Proof.
  intros B Hk Hk'. destruct (B (k / 32)) as (l & Hl & Hlen); [dmlia|].
  by apply (dent_set bufs d k k' e l); [lia|lia|rewrite entry_num_eq|].
Qed.

Lemma wp_set_kth s d nb k e (Q : unit -> dst A I -> Prop) :
  blocks_ok (d_bufs s) d nb -> 0 <= k < nb * 32 -> Q tt (with_bufs (set_dent (d_bufs s) d k e) s) ->
  wp (set_dentry d (k / 32) (k mod 32) e) Q s.
Proof.
  intros B Hk HQ. destruct (B (k / 32)) as (l & Hl & Hlen); [dmlia|].
  apply (wp_set_dentry _ _ _ _ l); [rewrite entry_num_eq; dmlia|done|done|].
  rewrite entry_num_eq. by replace (k / 32 * 32 + k mod 32) with k by dmlia.
Qed.

(** The move of the last entry [le] from [L] to the deleted entry [k]: the
    buffers and the index. *)
Definition moved_bufs (bufs : gmap (Z * Z) (list nvfuse_dir_entry)) (d k L : Z) (le : nvfuse_dir_entry) :=
  set_dent (set_dent bufs d k le) d L (set_d_flag DIR_DELETED le).

Lemma shrink_core {X} s0 s d b nb ino di i n m k L ek le lkey (rest : M (dst A I) X) Q :
  mid s0 s d b ino di i n m -> i_bpino di = b -> b <> d -> ROOT_INO <= b -> b ∉ d_locked s -> (b, 0) ∉ d_held s ->
  blocks_ok (d_bufs s) d nb -> 0 <= k < L -> L < nb * 32 -> L < 2 ^ 30 ->
  dent (d_bufs s) d k = Some ek -> d_flag ek = DIR_DELETED ->
  name_ok (d_filename le) lkey -> m !! lkey = Some L -> ix_keeps i [lkey] -> n + ix_step <= ix_max ->
  (forall s' i' n', mid s0 s' d b ino di i' n' (<[ lkey := k ]> (delete lkey m)) -> n <= n' <= n + ix_step ->
     d_locked s' = d_locked s -> d_held s' = d_held s -> d_bufs s' = moved_bufs (d_bufs s) d k L le -> wp rest Q s') ->
  wp (dir_to ← get_dentry d (k / 32) (k mod 32);
      massert (d_flag dir_to =? DIR_DELETED);;
      set_dentry d (k / 32) (k mod 32) le;;
      set_dentry d (L / 32) (L mod 32) (set_d_flag DIR_DELETED le);;
      nvfuse_del_dir_indexing d (d_filename le);;
      nvfuse_set_dir_indexing d (d_filename le) k;;
      rest) Q s.
Proof.
  intros Mi Hb Hbd Hrb Hbl Hbh B Hk HL HL30 Hek Hdel Hok Hml Hkeep Hroom HQ.
  wp_step. eapply wp_get_kth; [lia|exact Hek|]. wp_step. apply wp_assert; [by apply Z.eqb_eq|].
  wp_step. eapply (wp_set_kth _ _ nb); [exact B|lia|]. wp_step.
  eapply (wp_set_kth _ _ nb); [by apply blocks_set|lia|]. set (s1 := with_bufs _ _).
  assert (mid s0 s1 d b ino di i n m) as M1 by (do 2 apply (mid_bufs s0); exact Mi).
  wp_step. eapply (del_indexing_wp s1 d b i n m _ lkey L []);
    [exists di; by split; [apply M1|]|eapply (mid_ready s0); [exact M1|done..]|done|done|apply collisions_small; lia|done|].
  intros a2 i2 F2 R2 _. assert (mid s0 (retree s1 b a2 i2) d b ino di i2 n (delete lkey m)) as M2 by by eapply mid_retree.
  wp_step. eapply (set_indexing_wp (retree s1 b a2 i2) d b i2 n _ _ lkey);
    [exists di; by split; [apply M2|]|eapply (mid_ready s0); [exact M2|done..]|done|done|apply lookup_delete_eq|].
  intros a3 i3 n3 F3 Hn3 R3. rewrite land_mask in R3 by lia.
  eapply (HQ _ i3 n3); [by eapply mid_retree|done..].
Qed.

(** nvfuse_shrink_dentry when the removed entry is not the last one. *)
Lemma shrink_wp s0 s d b nb ino di i n m k L ek le lkey (Q : Z -> dst A I -> Prop) :
  mid s0 s d b ino di i n m -> i_bpino di = b -> b <> d -> ROOT_INO <= b -> d ∈ d_locked s -> b ∉ d_locked s ->
  (forall blk, (d, blk) ∉ d_held s) -> (b, 0) ∉ d_held s ->
  (forall blk, 0 <= blk < nb -> st_mapped (d_store s0) d blk = true) ->
  blocks_ok (d_bufs s) d nb -> 0 <= k < L -> L < nb * 32 -> L < 2 ^ 30 ->
  dent (d_bufs s) d k = Some ek -> d_flag ek = DIR_DELETED -> dent (d_bufs s) d L = Some le -> d_flag le = DIR_USED ->
  name_ok (d_filename le) lkey -> m !! lkey = Some L -> ix_keeps i [lkey] -> n + ix_step <= ix_max ->
  (forall s' i' n', mid s0 s' d b ino di i' n' (<[ lkey := k ]> (delete lkey m)) -> n <= n' <= n + ix_step ->
     d_locked s' = d_locked s -> d_held s' = d_held s -> d_bufs s' = moved_bufs (d_bufs s) d k L le -> Q 0 s') ->
  wp (nvfuse_shrink_dentry d k L) Q s.
Proof.
  intros Mi Hb Hbd Hrb Hl Hbl Hh Hbh Hmap B Hk HL HL30 Hek Hdel Hle Hused Hok Hml Hkeep Hroom HQ.
  assert (forall j, 0 <= j <= L -> st_mapped (d_store s) d (j / 32) = true /\ is_Some (d_bufs s !! (d, j / 32))) as Hblk.
  { intros j Hj. rewrite (mi_mapped _ _ _ _ _ _ _ _ _ Mi). split; [apply Hmap; dmlia|].
    destruct (B (j / 32)) as (l & -> & _); [dmlia|done]. }
  unfold nvfuse_shrink_dentry. rewrite (proj2 (Z.eqb_neq k L)) by lia. wp_step. apply wp_assert; [apply Z.ltb_lt; lia|].
  rewrite !entry_to_blk, entry_num_eq by lia. wp_step. apply wp_get_bh; [done|apply Hh|apply Hblk; lia|apply Hblk; lia|].
  wp_step. eapply wp_get_kth; [lia|exact Hle|]. wp_step. apply wp_assert; [by rewrite Hused|]. wp_step.
  set (K := {[ (d, L / 32) ]} ∪ d_held s).
  assert (mid s0 (set_held K s) d b ino di i n m) as MK.
  { replace (set_held K s) with (set_locked (d_locked s) (set_held K s)) by (by destruct s). by apply mid_locks. }
  destruct (Z.eqb_spec (k / 32) (L / 32)) as [Hs|Hd]; cbn [negb].
  - wp_step. eapply (shrink_core s0 (set_held K s) d b nb); try done; [dcbn; set_solver|].
    intros s' i' n' M' Hn' El Eh Eb. dcbn. wp_step. apply wp_release; [rewrite Eh; set_solver|]. wp_steps.
    rewrite Eh. cbn [d_held set_held]. unfold K. rewrite add_remove by apply Hh. apply (HQ _ i' n'); [|done..].
    replace (set_held _ s') with (set_locked (d_locked s') (set_held (d_held s) s')) by (by destruct s'). by apply mid_locks.
  - apply wp_get_bh; dcbn; [done|intros Hin; apply elem_of_union in Hin as [[= E]%elem_of_singleton|Hin]; [done|by apply Hh in Hin]|apply Hblk; lia|apply Hblk; lia|].
    set (K2 := {[ (d, k / 32) ]} ∪ K).
    assert (mid s0 (set_held K2 (set_held K s)) d b ino di i n m) as MK2.
    { replace (set_held K2 (set_held K s)) with (set_locked (d_locked s) (set_held K2 (set_held K s))) by (by destruct s). by apply mid_locks. }
    eapply (shrink_core s0 (set_held K2 (set_held K s)) d b nb); try done; [dcbn; set_solver|].
    intros s' i' n' M' Hn' El Eh Eb. wp_step. apply wp_release; [rewrite Eh; dcbn; set_solver|].
    wp_step. apply wp_release; [dcbn; rewrite Eh; dcbn; set_solver|]. wp_step. dcbn. rewrite Eh. dcbn.
    assert ((K2 ∖ {[ (d, L / 32) ]}) ∖ {[ (d, k / 32) ]} = d_held s) as ->.
    { pose proof (Hh (L / 32)). pose proof (Hh (k / 32)). unfold K2, K. set_solver. }
    apply (HQ _ i' n'); [|done..].
    replace (set_held _ _) with (set_locked (d_locked s') (set_held (d_held s) s')) by (by destruct s'). by apply mid_locks.
Qed.

End shrink.
End DirShrink.

(** ** Directories: nvfuse_rmfile *)
Import Layout DirHash Dir DirOps DirApi DirSpec DirIndex DirEntry DirFind DirLookup DirCreate DirRemove DirShrink.

Module DirRmfile.

Section rmfile.
Context {A I : Type} `{StoreLaws A} `{!Index A I} `{!IndexLaws A I}.
Implicit Types (s : dst A I) (a : A) (es : list nvfuse_dir_entry).

Notation data s d b nb i n m es := (dir_data (d_store s) (d_bufs s) (d_index s) d b nb i n m es).

(** The buffers hold the entries [es], and no other entry in use. *)
Definition holds (bufs : gmap (Z * Z) (list nvfuse_dir_entry)) (d nb : Z) es : Prop :=
  forall j e, 0 <= j < nb * 32 -> dent bufs d j = Some e ->
    if j <? len es then nth_entry es j = Some e else nvfuse_dir_is_invalid e = true.

Lemma deleted_invalid e : nvfuse_dir_is_invalid (set_d_flag DIR_DELETED e) = true.
Proof. done. Qed.

Lemma holds_last bufs d nb es k e :
  blocks_ok bufs d nb -> holds bufs d nb es -> k = len es - 1 -> 0 <= k -> len es <= nb * 32 ->
  holds (set_dent bufs d k (set_d_flag DIR_DELETED e)) d nb (swap_remove k es).
Proof.
  intros B Hh -> Hk Hnb j e' Hj. rewrite (dent_set_ok _ _ nb) by (done || lia). rewrite len_swap by lia.
  destruct (Z.eqb_spec j (len es - 1)) as [->|Hne].
  - intros [= <-]. by rewrite (proj2 (Z.ltb_ge _ _)) by lia.
  - intros He. pose proof (Hh j e' Hj He) as Hif. destruct (Z.ltb_spec j (len es - 1)).
    + rewrite nth_swap, !(proj2 (Z.eqb_neq j _)) by lia. by rewrite (proj2 (Z.ltb_lt _ _)) in Hif by lia.
    + by rewrite (proj2 (Z.ltb_ge _ _)) in Hif by lia.
Qed.

Lemma holds_moved bufs d nb es k e le :
  blocks_ok bufs d nb -> holds bufs d nb es -> 0 <= k < len es - 1 -> len es <= nb * 32 ->
  nth_entry es (len es - 1) = Some le ->
  holds (moved_bufs (set_dent bufs d k (set_d_flag DIR_DELETED e)) d k (len es - 1) le) d nb (swap_remove k es).
Proof.
  intros B Hh Hk Hnb Hle j e' Hj. unfold moved_bufs.
  rewrite !(dent_set_ok _ _ nb) by (done || lia || (repeat apply blocks_set; done)). rewrite len_swap by lia.
  destruct (Z.eqb_spec j (len es - 1)) as [->|Hne].
  - intros [= <-]. by rewrite (proj2 (Z.ltb_ge _ _)) by lia.
  - rewrite nth_swap, (proj2 (Z.eqb_neq j (len es - 1))) by lia. destruct (Z.eqb_spec j k) as [->|Hjk].
    + intros [= <-]. by rewrite (proj2 (Z.ltb_lt _ _)) by lia.
    + intros He. pose proof (Hh j e' Hj He) as Hif. destruct (Z.ltb_spec j (len es - 1)).
      * by rewrite (proj2 (Z.ltb_lt _ _)) in Hif by lia.
      * by rewrite (proj2 (Z.ltb_ge _ _)) in Hif by lia.
Qed.

(** The last step: the inode of the directory is [di] with [nb'] blocks. *)
Lemma mid_data s d b di i n m nb nb' es :
  st_inode (d_store s) d = Some di -> live (d_store s) b -> d_index s !! b = Some i -> ix_rep i n m -> i_ino di = d -> i_bpino di = b -> i_links_count di = len es -> i_ptr di = len es - 1 ->
  i_size di = nb' * CLUSTER_SIZE -> ROOT_INO <= d -> ROOT_INO <= b -> b <> d -> blocks_for (len es) <= nb' <= nb -> nb <= 2 ^ 26 ->
  (forall blk, 0 <= blk < nb' -> st_mapped (d_store s) d blk = true) -> blocks_ok (d_bufs s) d nb ->
  holds (d_bufs s) d nb es -> entries_ok es m -> data s d b nb' i n m es.
Proof.
  intros M1 M2 M4 M5 ? ? ? ? ? ? ? ? Hnb Hnb26 Hmap B Hh E. split; try done.
  - by exists di.
  - lia.
  - intros blk Hblk. apply B. lia.
  - rewrite entry_num_eq. intros k e Hk. apply Hh. lia.
Qed.

Lemma mid_self s0 s d b ino di i n m : mid s0 s d b ino di i n m -> mid s s d b d di i n m.
Proof. intros [M1 M2 M3 M4 M5 M6]. split; try done. Qed.

(** The removal of entry [k] of [es], on the list and the map: [le] is the last entry. *)
Record removal es (m : gmap Z Z) (k : Z) (e le : nvfuse_dir_entry) (key lkey : Z) : Prop := {
  rv_ok : entries_ok es m;
  rv_k : 2 <= k;
  rv_entry : nth_entry es k = Some e;
  rv_name : name_ok (d_filename e) key;
  rv_key : m !! key = Some k;
  rv_last : nth_entry es (len es - 1) = Some le;
  rv_lname : name_ok (d_filename le) lkey;
  rv_lkey : m !! lkey = Some (len es - 1) }.

Lemma removal_ok es m k e le key lkey : removal es m k e le key lkey -> entries_ok (swap_remove k es) (swap_map key lkey k m).
Proof. intros [Ho Hk He Hn Hm Hl Hln Hml]. eapply entries_swap; try done; [apply Hn|apply Hln]. Qed.

Lemma removal_last es m k e le key lkey : removal es m k e le key lkey -> (key = lkey <-> k = len es - 1).
Proof. intros [Ho Hk He Hn Hm Hl Hln Hml]. split; intros; [simplify_eq; done|subst k; simplify_eq; destruct Hn, Hln; congruence]. Qed.

(** The shrink, whichever entry was removed: buffers and index afterwards. *)
Lemma gap_wp s0 s d b nb di i n m0 k es e le key lkey (Q : Z -> dst A I -> Prop) :
  removal es m0 k e le key lkey -> mid s s d b d di i n (delete key m0) -> nb = blocks_for (len es) ->
  i_bpino di = b -> b <> d -> ROOT_INO <= b -> (k <> len es - 1 -> ix_keeps i [lkey]) -> n + ix_step <= ix_max ->
  blocks_ok (d_bufs s0) d nb -> holds (d_bufs s0) d nb es -> d_bufs s = set_dent (d_bufs s0) d k (set_d_flag DIR_DELETED e) ->
  (forall blk, 0 <= blk < nb -> st_mapped (d_store s) d blk = true) ->
  d ∈ d_locked s -> b ∉ d_locked s -> (forall blk, (d, blk) ∉ d_held s) -> (b, 0) ∉ d_held s ->
  (forall r s' i' n', mid s s' d b d di i' n' (swap_map key lkey k m0) -> n <= n' <= n + ix_step ->
     d_locked s' = d_locked s -> d_held s' = d_held s -> blocks_ok (d_bufs s') d nb ->
     holds (d_bufs s') d nb (swap_remove k es) -> Q r s') ->
  wp (nvfuse_shrink_dentry d k (len es - 1)) Q s.
Proof.
  intros R Mi Hnb Hb Hbd Hrb Hkeep Hroom B Hh Eb Hmap Hl Hbl Hdh Hbh HQ.
  pose proof (nth_entry_lt _ _ _ (rv_entry _ _ _ _ _ _ _ R)) as Hk. pose proof (rv_k _ _ _ _ _ _ _ R) as Hk2.
  pose proof (eo_len _ _ (rv_ok _ _ _ _ _ _ _ R)) as Hl1. rewrite blocks_for_eq in Hnb.
  assert (blocks_ok (d_bufs s) d nb) as B1 by (rewrite Eb; by apply blocks_set).
  assert (len es <= nb * 32) as Hl2 by dmlia.
  pose proof (removal_last _ _ _ _ _ _ _ R) as Hlast. unfold swap_map in HQ.
  destruct (Z.eqb_spec k (len es - 1)) as [E|E].
  - unfold nvfuse_shrink_dentry. rewrite (proj2 (Z.eqb_eq _ _) E). wp_step.
    rewrite (proj2 (Z.eqb_eq key lkey)) in HQ by (by apply Hlast).
    eapply (HQ _ s i n); try done; [pose proof il_step; lia|]. rewrite Eb. apply holds_last; done || lia.
  - rewrite (proj2 (Z.eqb_neq key lkey)) in HQ by (intros X; by apply E, Hlast).
    assert (0 <= k < nb * 32 /\ 0 <= len es - 1 < nb * 32) as [Hkr Hlr] by lia.
    destruct (rv_ok _ _ _ _ _ _ _ R) as [_ Hu _ _].
    assert (forall j x, nth_entry es j = Some x -> dent (d_bufs s0) d j = Some x) as Hd.
    { intros j x Hx. pose proof (nth_entry_lt _ _ _ Hx). destruct (B (j / 32)) as (l & Hbl' & Hlen); [dmlia|].
      destruct (lookup_lt_is_Some_2 l (Z.to_nat (j mod 32))) as [y Hy]; [unfold len in Hlen; rewrite entry_num_eq in Hlen; dmlia|].
      assert (dent (d_bufs s0) d j = Some y) as Hdj by (unfold dent; rewrite entry_num_eq, Hbl'; done).
      pose proof (Hh j y ltac:(lia) Hdj) as Hif. rewrite (proj2 (Z.ltb_lt _ _)) in Hif by lia. congruence. }
    eapply (shrink_wp s s d b nb d di i n (delete key m0) k (len es - 1) (set_d_flag DIR_DELETED e) le lkey); try done; try lia.
    + rewrite Eb, (dent_set_ok _ _ nb), Z.eqb_refl by (done || lia). done.
    + rewrite Eb, (dent_set_ok _ _ nb), (proj2 (Z.eqb_neq _ k)) by (done || lia). apply Hd, R.
    + destruct R as [_ _ _ _ _ Hle _ _]. unfold nth_entry in Hle. destruct (0 <=? len es - 1); [|done].
      by eapply Forall_lookup_1 in Hu.
    + apply R.
    + rewrite lookup_delete_ne; [apply R|]. intros X. by apply E, Hlast.
    + by apply Hkeep.
    + intros s' i' n' M' Hn' El' Eh' Eb'. apply (HQ 0 s' i' n'); try done; rewrite Eb'.
      * unfold moved_bufs. by do 2 apply blocks_set.
      * rewrite Eb. apply holds_moved; try done; [lia|apply R].
Qed.

Lemma close_gap_wp s0 s d b nb di i n m0 k es e le key lkey (Q : unit -> dst A I -> Prop) :
  removal es m0 k e le key lkey -> mid s s d b d di i n (delete key m0) -> nb = blocks_for (len es) ->
  i_ino di = d -> i_bpino di = b -> i_links_count di = len es - 1 -> i_ptr di = len es - 2 -> i_size di = nb * CLUSTER_SIZE ->
  b <> d -> ROOT_INO <= b -> ROOT_INO <= d -> (k <> len es - 1 -> ix_keeps i [lkey]) -> n + ix_step <= ix_max ->
  blocks_ok (d_bufs s0) d nb -> holds (d_bufs s0) d nb es -> d_bufs s = set_dent (d_bufs s0) d k (set_d_flag DIR_DELETED e) ->
  (forall blk, 0 <= blk < nb -> st_mapped (d_store s) d blk = true) ->
  d ∈ d_locked s -> b ∉ d_locked s -> (forall blk, (d, blk) ∉ d_held s) -> (b, 0) ∉ d_held s ->
  (forall s' i' n', n <= n' <= n + ix_step -> others {[ d; b ]} s s' -> d_locked s' = d_locked s ∖ {[ d ]} ->
     d_held s' = d_held s -> 
     data s' d b (blocks_for (len es - 1)) i' n' (swap_map key lkey k m0) (swap_remove k es) -> Q tt s') ->
  wp (close_gap d k) Q s.
Proof.
  intros R Mi Hnb Hdi Hb Hlk Hp Hsz Hbd Hrb Hrd Hkeep Hroom B Hh Eb Hmap Hl Hbl Hdh Hbh HQ.
  pose proof (nth_entry_lt _ _ _ (rv_entry _ _ _ _ _ _ _ R)) as Hk. pose proof (rv_k _ _ _ _ _ _ _ R) as Hk2.
  pose proof (eo_len _ _ (rv_ok _ _ _ _ _ _ _ R)) as Hl1. pose proof (len_swap k es ltac:(lia)) as Hsl.
  unfold close_gap. wp_step. eapply wp_get_inode; [apply Mi|]. rewrite Hlk. wp_step.
  eapply (gap_wp s0 s d b nb di i n m0 k es e le key lkey); try done.
  intros _ s1 i' n' M1 Hn' El Eh B1 Hh1. rewrite blocks_for_eq in Hnb.
  assert (others {[ d; b ]} s s1) as O1 by (eapply others_mono; [|apply M1]; set_solver).
  wp_step. eapply wp_get_inode; [apply M1|]. rewrite Hlk. change DIR_ENTRY_SIZE with 128. rewrite cluster_eq.
  assert ((len es - 1) * 128 mod 4096 = (len es - 1) mod 32 * 128) as -> by dmlia.
  assert (forall blk, 0 <= blk < nb -> st_mapped (d_store s1) d blk = true) as Hm1.
  { intros blk Hblk. rewrite (mi_mapped _ _ _ _ _ _ _ _ _ M1). by apply Hmap. }
  destruct (Z.eqb_spec ((len es - 1) mod 32 * 128) 0) as [Hz|Hz].
  - wp_step. wp_step. eapply free_inode_size_wp; [apply M1|intros blk; rewrite Eh; apply Hdh|].
    intros a2 F2 (l & E2) Hm2. eapply wp_upd_inode; [exact E2|]. apply wp_unlock; [dcbn; rewrite El; done|].
    dcbn. rewrite El. set (di' := set_i_size _ _). set (a3 := st_set_inode d di' a2).
    assert (frame d (d_store s1) a3) as F3 by (eapply frame_trans; [exact F2|apply sl_set_frame]).
    eapply (HQ _ i' n'); try done.
    + eapply others_trans; [exact O1|]. apply (others_store _ d _ _ a3 F3); [set_solver|done..].
    + eapply (mid_data _ d b di' i' n' _ nb); dcbn; rewrite ?Hsl; try done.
      * apply sl_set_eq.
      * destruct (mi_tree _ _ _ _ _ _ _ _ _ M1) as (bi & ? & ?). exists bi. by rewrite (fr_inode _ _ _ F3).
      * apply M1.
      * apply M1.
      * cbn. lia.
      * cbn. rewrite Hsz, blocks_for_eq, cluster_eq. dmlia.
      * rewrite blocks_for_eq. dmlia.
      * dmlia.
      * intros blk Hblk. rewrite blocks_for_eq in Hblk. unfold a3. erewrite sl_set_mapped; [|exact E2|done].
        rewrite Hm2 by (rewrite cluster_eq; dmlia). apply Hm1. dmlia.
      * by apply (removal_ok _ _ _ e le).
  - wp_step. cbn iota. wp_step. apply wp_unlock; [by rewrite El|]. rewrite El. eapply (HQ _ i' n'); try done.
    { destruct O1. by split. }
    eapply (mid_data _ d b di i' n' _ nb); dcbn; rewrite ?Hsl; try done; try apply M1.
    + lia.
    + rewrite Hsz, blocks_for_eq. f_equal. dmlia.
    + rewrite blocks_for_eq. dmlia.
    + dmlia.
    + intros blk Hblk. apply Hm1. rewrite blocks_for_eq in Hblk. dmlia.
    + by apply (removal_ok _ _ _ e le).
Qed.

(** The common end of the removals of entry [k], whose buffer is taken. *)
Lemma end_removal_wp s0 s d b nb ino di i n m0 k es e le key lkey H (Q : Z -> dst A I -> Prop) :
  removal es m0 k e le key lkey -> mid s0 s d b ino di i n (delete key m0) -> nb = blocks_for (len es) -> ino <> d ->
  i_ino di = d -> i_bpino di = b -> i_links_count di = len es - 1 -> i_ptr di = len es - 2 -> i_size di = nb * CLUSTER_SIZE ->
  b <> d -> ROOT_INO <= b -> ROOT_INO <= d -> (k <> len es - 1 -> ix_keeps i [lkey]) -> n + ix_step <= ix_max ->
  blocks_ok (d_bufs s0) d nb -> holds (d_bufs s0) d nb es -> d_bufs s = d_bufs s0 -> dent (d_bufs s0) d k = Some e ->
  (forall blk, 0 <= blk < nb -> st_mapped (d_store s0) d blk = true) ->
  d ∈ d_locked s -> b ∉ d_locked s -> d_held s = {[ (d, k / 32) ]} ∪ H -> (forall blk, (d, blk) ∉ H) -> (b, 0) ∉ H ->
  (forall s' i' n', n <= n' <= n + ix_step -> others {[ d; b ]} s s' -> d_locked s' = d_locked s ∖ {[ d ]} -> d_held s' = H ->
     data s' d b (blocks_for (len es - 1)) i' n' (swap_map key lkey k m0) (swap_remove k es) -> Q NVFUSE_SUCCESS s') ->
  wp (delete_entry d k;; nvfuse_release_bh (d, k / DIR_ENTRY_NUM);; close_gap d k;; mret NVFUSE_SUCCESS) Q s.
Proof.
  intros R Mi Hnb Hid Hdi Hb Hlk Hp Hsz Hbd Hrb Hrd Hkeep Hroom B Hh Eb Hdent Hmap Hl Hbl Eh Hdh Hbh HQ.
  pose proof (nth_entry_lt _ _ _ (rv_entry _ _ _ _ _ _ _ R)) as Hk. pose proof (rv_k _ _ _ _ _ _ _ R) as Hk2.
  pose proof Hnb as Hnb'. rewrite blocks_for_eq in Hnb'.
  unfold delete_entry. rewrite entry_num_eq. wp_step. wp_step. eapply wp_get_kth; [lia|by rewrite Eb|].
  apply (wp_set_kth _ _ nb); [by rewrite Eb|dmlia|]. set (s1 := with_bufs _ s).
  assert (mid s0 s1 d b ino di i n (delete key m0)) as M1 by by apply mid_bufs.
  wp_step. apply wp_release; [cbn; rewrite Eh; set_solver|]. cbn [d_held s1 with_bufs]. rewrite Eh, add_remove by apply Hdh.
  set (s2 := set_held H s1).
  assert (mid s0 s2 d b ino di i n (delete key m0)) as M2.
  { replace s2 with (set_locked (d_locked s1) (set_held H s1)) by done. by apply mid_locks. }
  wp_step. eapply (close_gap_wp s s2 d b nb di i n m0 k es e le key lkey); try done; try by rewrite Eb.
  - by eapply mid_self.
  - intros blk Hblk. rewrite (mi_mapped _ _ _ _ _ _ _ _ _ M2). by apply Hmap.
  - intros s' i' n' Hn' O El Eh' D. wp_step. apply (HQ s' i' n'); try done.
    eapply others_trans; [|exact O]. split; intros; try done. apply set_dent_other. set_solver.
Qed.

(** The head of the removals: entry [k] and its inode, with what they lock. *)
Definition entry_open s (d k ino : Z) : dst A I :=
  set_locked ({[ ino ]} ∪ ({[ d ]} ∪ d_locked s)) (set_held ({[ (d, k / 32) ]} ∪ d_held s) s).

Lemma open_entry_wp s d b i n m es k name e fi (Q : Z * option Z -> dst A I -> Prop) :
  dir_inv s d b i n m es -> file_at es k name e -> st_inode (d_store s) (d_ino e) = Some fi -> i_ino fi = d_ino e ->
  ROOT_INO <= d_ino e -> d_ino e ∉ d_locked s -> d_ino e <> d ->
  Q (k, Some (d_ino e)) (entry_open s d k (d_ino e)) -> wp (open_entry d name) Q s.
Proof.
  intros [D F] Hf Hfi Hino Hri Hli Hid HQ. pose proof F as [Fd Fb Fh Fm].
  pose proof (data_len _ _ _ _ _ _ _ _ _ _ D) as (Hl1 & Hl2 & Hl3).
  destruct (dd_inode _ _ _ _ _ _ _ _ _ _ D) as (di & Hdi & Hd & _). destruct (dd_inos _ _ _ _ _ _ _ _ _ _ D) as (Hrd & Hrb & Hbd).
  pose proof Hf as (Hk2 & He & Hname). pose proof (nth_entry_lt _ _ _ He) as Hk.
  destruct (data_entry _ _ _ _ _ _ _ _ _ _ _ _ D He) as [Hdent _].
  destruct (dd_blocks _ _ _ _ _ _ _ _ _ _ D (k / 32)) as (l & Hbuf & _); [dmlia|].
  unfold open_entry. wp_step. eapply wp_read_inode; [done..|]. wp_step. apply wp_assert; [done|]. wp_step.
  eapply (find_existing_wp (locked_dir s d)); [exact D|unfold locked_dir; dcbn; set_solver|unfold locked_dir; dcbn; set_solver|done|done|exact Hf|].
  cbv zeta. rewrite entry_num_eq. wp_step.
  apply wp_get_bh; [unfold locked_dir; dcbn; set_solver|apply Fh|apply D; dmlia|by eexists|].
  wp_step. eapply wp_get_kth; [lia|exact Hdent|]. wp_step. eapply wp_read_inode; [done|unfold locked_dir; dcbn; set_solver|exact Hfi|done|].
  wp_step. apply wp_assert; [done|]. wp_step. eapply wp_get_inode; [exact Hfi|].
  rewrite Hino, (proj2 (Z.eqb_neq (d_ino e) 0)) by (unfold ROOT_INO in *; lia). wp_step. exact HQ.
Qed.

Lemma rmfile_wp s d b i n m es k e le key lkey fi (Q : Z -> dst A I -> Prop) :
  dir_inv s d b i n m es -> removal es m k e le key lkey ->
  st_inode (d_store s) (d_ino e) = Some fi -> i_ino fi = d_ino e -> i_type fi <> NVFUSE_TYPE_DIRECTORY ->
  1 <= i_links_count fi < 2 ^ 32 -> ROOT_INO <= d_ino e -> d_ino e ∉ d_locked s -> (forall blk, (d_ino e, blk) ∉ d_held s) ->
  d_ino e <> d -> d_ino e <> b -> ix_keeps i (key :: if k =? len es - 1 then [] else [lkey]) -> n + ix_step <= ix_max ->
  (forall s' i' n', n <= n' <= n + ix_step -> d_locked s' = d_locked s -> d_held s' = d_held s ->
     others {[ d; b; d_ino e ]} s s' -> unlinked (d_store s') (d_ino e) fi ->
     dir_inv s' d b i' n' (swap_map key lkey k m) (swap_remove k es) -> Q NVFUSE_SUCCESS s') ->
  wp (nvfuse_rmfile d (d_filename e)) Q s.
Proof.
  intros Inv R Hfi Hino Hty Hlk Hri Hli Hhi Hid Hib Hkeep Hroom HQ. set (ino := d_ino e) in *.
  pose proof Inv as [D F]. pose proof F as [Fd Fb Fh Fm].
  pose proof (data_len _ _ _ _ _ _ _ _ _ _ D) as (Hl1 & Hl2 & Hl3).
  destruct (dd_inode _ _ _ _ _ _ _ _ _ _ D) as (di & Hdi & Hd & Hb & Hdl & Hdp & Hsz).
  destruct (dd_inos _ _ _ _ _ _ _ _ _ _ D) as (Hrd & Hrb & Hbd).
  pose proof R as [Ro Rk Re Rn Rm Rl Rln Rlm]. pose proof (nth_entry_lt _ _ _ Re) as Hk.
  destruct (data_entry _ _ _ _ _ _ _ _ _ _ _ _ D Re) as [Hdent _].
  set (nb := blocks_for (len es)) in *.
  assert (blocks_ok (d_bufs s) d nb) as B by exact (dd_blocks _ _ _ _ _ _ _ _ _ _ D).
  assert (holds (d_bufs s) d nb es) as Hh.
  { intros j e' Hj. apply (dd_dent _ _ _ _ _ _ _ _ _ _ D). by rewrite entry_num_eq. }
  unfold nvfuse_rmfile. wp_step. eapply (open_entry_wp s d b i n m es k _ e fi); try done.
  fold ino. set (s1 := entry_open s d k ino).
  assert (mid s s1 d b ino di i n m) as M1 by (apply mid_locks; by eapply mid_start).
  cbn beta iota. wp_step. eapply wp_get_inode; [exact Hfi|]. rewrite (proj2 (Z.eqb_neq _ _) Hty).
  wp_step. eapply (del_indexing_wp s1 d b i n m _ key k);
    [by exists di|eapply (mid_ready s); [exact M1|done|cbn; set_solver|cbn; set_solver]|done|done|apply collisions_small; lia|exact Hkeep|].
  intros a2 i2 F2 R2 K2. set (s2 := retree s1 b a2 i2).
  assert (mid s s2 d b ino di i2 n (delete key m)) as M2 by by eapply mid_retree.
  assert (st_inode a2 ino = Some fi) as Hfi2 by (etrans; [by apply F2|exact Hfi]).
  wp_step. eapply (drop_file_wp s2 ino fi); [exact Hfi2|done|done|cbn; set_solver|cbn; set_solver|].
  intros a3 F3 U3. set (s3 := set_locked _ (set_store a3 s2)).
  assert (mid s s3 d b ino di i2 n (delete key m)) as M3.
  { assert (mid s (set_store a3 s2) d b ino di i2 n (delete key m)) as M by by apply mid_file.
    destruct M as [? ? ? ? ? []]. by split. }
  wp_step. unfold drop_link. wp_step. eapply wp_upd_inode; [apply M3|]. eapply wp_upd_inode; [apply sl_set_eq|].
  set (di1 := set_i_links _ di). set (di2 := set_i_ptr _ di1). set (s4 := set_store _ (set_store _ s3)).
  assert (i_links_count di1 = len es - 1) as Hl1' by (cbn; rewrite Hdl; apply u32_small; lia).
  assert (i_ptr di2 = len es - 2) as Hp2 by (cbn -[di1]; rewrite Hl1', u32_small; lia).
  assert (mid s s4 d b ino di2 i2 n (delete key m)) as M4.
  { eapply (mid_dir s _ d b ino di1); [|done|done]. eapply (mid_dir s s3 d b ino di); [exact M3|done|done]. }
  assert (d_locked s4 = {[ d ]} ∪ d_locked s) as EL by (cbn; apply add_remove; set_solver).
  eapply (end_removal_wp s s4 d b nb ino di2 i2 n m k es e le key lkey (d_held s)); try done.
  - intros Hne. by rewrite (proj2 (Z.eqb_neq k (len es - 1))) in K2 by done.
  - intros blk Hblk. by apply (dd_mapped _ _ _ _ _ _ _ _ _ _ D).
  - rewrite EL. set_solver.
  - rewrite EL. set_solver.
  - intros s5 i' n' Hn' O5 El Eh D5. apply (HQ s5 i' n'); try done.
    + rewrite El, EL. apply add_remove, Fd.
    + eapply others_trans; [apply M4|]. eapply others_mono; [|exact O5]. set_solver.
    + assert (st_inode (d_store s5) ino = st_inode a3 ino) as E5.
      { destruct O5 as [O5 _ _ _ _ _ _]. rewrite O5 by set_solver. cbn. by rewrite !set_inode_ne. }
      unfold unlinked, live in *. by rewrite E5.
    + split; [by rewrite len_swap by lia|]. split; rewrite ?El, ?Eh, ?EL, ?add_remove; done.
Qed.

End rmfile.
End DirRmfile.
