(* ===== verification/DirMap.v ===== *)
(** * Directories: a directory as a finite map

    [dir_abs] relates the entries of a directory to a map from names to inode
    numbers; [run] is a program of creations and lookups, [spec] what it may do
    to the map. *)
From S2P Require Import Prelude Bitmap Layout DirHash Dir DirOps DirApi DirEntry DirFind DirMake.
Import Layout DirHash Dir DirOps DirApi DirSpec DirIndex DirEntry DirFind DirLookup DirCreate DirMake DirFirst.

Module DirMap.

#[local] Notation name := (list Z).

Inductive op := Create (n : name) (mode dev : Z) | Lookup (n : name).
Definition op_name (o : op) : name := match o with Create n _ _ | Lookup n => n end.

(** What a program of creations and lookups may return and leave, on a map: a
    creation adds the name with an inode number that no name has. *)
Fixpoint spec (D : gmap name Z) (l : list op) (rs : list (Z * option Z)) : Prop :=
  match l, rs with
  | [], [] => True
  | Create n _ _ :: l, (code, Some ino) :: rs =>
      code = 0 /\ (forall n', D !! n' <> Some ino) /\ spec (<[ n := ino ]> D) l rs
  | Lookup n :: l, r :: rs =>
      r = match D !! n with Some ino => (0, Some ino) | None => (-1, None) end /\ spec D l rs
  | _, _ => False
  end.

Fixpoint creates (l : list op) : nat :=
  match l with [] => 0 | Create _ _ _ :: l => S (creates l) | _ :: l => creates l end.

(** Names of files that the index can hold, each created once. *)
Fixpoint ops_ok (used : gset name) (l : list op) : Prop :=
  match l with
  | [] => True
  | o :: l =>
      (exists key, name_ok (op_name o) key) /\
      match o with
      | Create n _ _ => 1 <= strlen n < FNAME_SIZE /\ n ∉ used /\ ops_ok ({[ n ]} ∪ used) l
      | Lookup _ => ops_ok used l
      end
  end.

(** No two of the names have the same hash. *)
Definition no_collision (names : list name) : Prop :=
  forall n1 n2 key, n1 ∈ names -> n2 ∈ names -> dir_key n1 = Some key -> dir_key n2 = Some key -> n1 = n2.

(** The names of the entries past . and .. with their inodes. *)
Definition dir_abs (es : list nvfuse_dir_entry) (D : gmap name Z) : Prop :=
  forall n ino, D !! n = Some ino <-> exists k e, file_at es k n e /\ d_ino e = ino.

Lemma abs_dots d v0 v1 : dir_abs (dots d v0 v1) ∅.
Proof.
  intros n ino. rewrite lookup_empty. split; [done|]. intros (k & e & (Hk & He%nth_entry_lt & _) & _).
  unfold len in He. simpl in He. lia.
Qed.

Lemma abs_app es D e : 2 <= len es -> D !! d_filename e = None ->
  dir_abs es D -> dir_abs (es ++ [e]) (<[ d_filename e := d_ino e ]> D).
Proof.
  intros Hl Hn Ha n ino. split.
  - destruct (decide (d_filename e = n)) as [<-|Hne].
    + rewrite lookup_insert_eq. intros [= <-]. exists (len es), e. split; [|done]. split; [lia|]. split; [|done].
      by rewrite nth_entry_app, Z.eqb_refl.
    + rewrite lookup_insert_ne by done. intros (k & e' & (Hk & He & Hname) & Hino)%Ha. exists k, e'. split; [|done].
      split; [done|]. split; [|done]. rewrite nth_entry_app. apply nth_entry_lt in He as Hr.
      by rewrite (proj2 (Z.eqb_neq k _)) by lia.
  - intros (k & e' & (Hk & He & <-) & <-). rewrite nth_entry_app in He. destruct (Z.eqb_spec k (len es)) as [->|Hne].
    + injection He as <-. apply lookup_insert_eq.
    + assert (D !! d_filename e' = Some (d_ino e')) as HD by (apply Ha; by exists k, e').
      rewrite lookup_insert_ne; [done|]. intros E. rewrite E, HD in Hn. done.
Qed.

Section refine.
Context {A I : Type} `{StoreLaws A} `{!Index A I} `{!IndexLaws A I}.
Implicit Types (s : dst A I) (es : list nvfuse_dir_entry) (D : gmap name Z).

(** The code of a program. *)
Definition run_op (d : Z) (o : op) : M (dst A I) (Z * option Z) :=
  match o with
  | Create n mode dev => nvfuse_createfile d n mode dev
  | Lookup n => '(code, e) ← nvfuse_lookup false n d; mret (code, d_ino <$> e)
  end.
Fixpoint run (d : Z) (l : list op) : M (dst A I) (list (Z * option Z)) :=
  match l with
  | [] => mret []
  | o :: l => r ← run_op d o; rs ← run d l; mret (r :: rs)
  end.

(** The inodes of the entries are in use. *)
Definition files_live s es : Prop :=
  forall k e, 2 <= k -> nth_entry es k = Some e -> 0 < d_ino e < st_no_of_inodes (d_store s) /\ live (d_store s) (d_ino e).

(** Directory [d] at rest holds the map [D] and has had [c] entries made. *)
Definition dir_map s (d : Z) D (c : nat) : Prop :=
  (fresh_dir s d /\ taken_live s /\ D = ∅ /\ c = 0%nat) \/
  (exists b i n m es, dir_inv s d b i n m es /\ locks_live s /\ dir_abs es D /\ files_live s es /\
     n <= 2 + Z.of_nat c * ix_step /\ len es = 2 + Z.of_nat c).

Lemma made_live X s s' d b i' n' m es key ino n node j :
  made X s s' d b i' n' m es key ino n node -> X = {[ d; b ]} -> i_ino node = ino ->
  live (d_store s) j -> live (d_store s') j.
Proof.
  intros Md -> Hi Hj. pose proof (mk_dir _ _ _ _ _ _ _ _ _ _ _ _ _ Md) as [Dd _].
  destruct (decide (j = ino)) as [->|]; [exists node; split; [apply Md|done]|].
  destruct (decide (j = d)) as [->|]; [destruct (dd_inode _ _ _ _ _ _ _ _ _ _ Dd) as (di & ? & ? & _); by exists di|].
  destruct (decide (j = b)) as [->|]; [apply Dd|].
  destruct Hj as (ij & Hij & Hjj). exists ij. rewrite (ot_inode _ _ _ (mk_others _ _ _ _ _ _ _ _ _ _ _ _ _ Md)) by set_solver. done.
Qed.

(** After a creation. *)
Lemma made_map s s' d b i' n' m es key ino nm mode dev D c :
  made {[ d; b ]} s s' d b i' n' m es key ino nm (init_file mode dev (d_now s) (new_inode_of ino)) ->
  locks_live s -> dir_abs es D -> files_live s es -> 2 <= len es -> n' <= 2 + Z.of_nat (S c) * ix_step ->
  len es = 2 + Z.of_nat c -> D !! nm = None ->
  (forall n2, D !! n2 <> Some ino) /\ dir_map s' d (<[ nm := ino ]> D) (S c).
Proof.
  intros Md Hll Ha Hfl Hl Hn Hlen HD. pose proof (mk_ino _ _ _ _ _ _ _ _ _ _ _ _ _ Md) as [Hr Hnl]. split.
  { intros n2 (k & e & (Hk & He & _) & <-)%Ha. by apply Hnl, (Hfl k e). }
  right. exists b, i', n', (<[ key := len es ]> m), (es ++ [mk_dentry ino DIR_USED 1 nm]). split; [apply Md|]. split.
  { intros j Hj. rewrite (mk_locked _ _ _ _ _ _ _ _ _ _ _ _ _ Md) in Hj. eapply made_live; [exact Md|done..|]. by apply Hll. }
  split; [by apply (abs_app es D (mk_dentry ino DIR_USED 1 nm))|]. split; [|split; [done|rewrite len_app; lia]].
  intros k e Hk. rewrite nth_entry_app, (ot_limit _ _ _ (mk_others _ _ _ _ _ _ _ _ _ _ _ _ _ Md)).
  destruct (Z.eqb_spec k (len es)) as [->|Hne].
  - intros [= <-]. cbn. split; [unfold ROOT_INO in Hr; lia|]. eexists. split; [apply Md|done].
  - intros He. destruct (Hfl k e Hk He) as [? ?]. split; [done|]. by eapply made_live.
Qed.

(** Unused numbers are lost only to the files that come into use. *)
Lemma others_spare X (l0 : list Z) s s' n :
  others X s s' -> (forall j, j ∈ X -> ~ live (d_store s) j -> j ∈ l0) ->
  spare (d_store s) (length l0 + n) -> spare (d_store s') n.
Proof.
  intros O HX. apply (spare_sub _ _ n (length l0) X); [apply O|apply O|].
  intros l Hl Hj. assert (length (filter (fun j => j ∈ X) l) <= length l0)%nat as Hle.
  { apply submseteq_length, NoDup_submseteq; [by apply NoDup_filter|].
    intros j [Hjx Hjl]%list_elem_of_filter. apply HX; auto. }
  enough (length l = length (filter (fun j => j ∈ X) l) + length (filter (fun j => j ∉ X) l))%nat by lia.
  clear. induction l as [|x l IH]; [done|]. rewrite !filter_cons. destruct (decide (x ∈ X)).
  - rewrite decide_False by tauto. simpl. lia.
  - rewrite decide_True by done. simpl. lia.
Qed.

Lemma create_step d s D c n key mode dev k :
  dir_map s d D c -> 1 <= strlen n < FNAME_SIZE -> name_ok n key -> D !! n = None ->
  (forall n' ino, D !! n' = Some ino -> dir_key n' = Some key -> n' = n) ->
  2 + Z.of_nat (S c) * ix_step <= ix_max -> Z.of_nat c < 2 ^ 29 -> spare (d_store s) (S (if decide (c = 0%nat) then S k else k)) ->
  wp (nvfuse_createfile d n mode dev) (fun r s' => exists ino, r = (0, Some ino) /\ (forall n', D !! n' <> Some ino) /\
    dir_map s' d (<[ n := ino ]> D) (S c) /\ spare (d_store s') k /\ d_locked s' = d_locked s /\ d_held s' = d_held s) s.
Proof.
  intros Hm Hlen Hok HD Hinj Hmax Hc Hsp. pose proof il_step as Hst.
  destruct Hm as [(F & T & -> & ->)|(b & i & nb & m & es & Inv & Hll & Ha & Hfl & Hn & Hles)].
  - eapply createfile_first_wp; [exact F|done|done|exact Hok|lia|by eapply spare_le; [|exact Hsp]; simpl; lia|].
    intros b ino i' n' v0 v1 s' Hn' Hnb Md. exists ino. split; [done|].
    assert (ROOT_INO <= ino) as Hri by apply Md.
    destruct (made_map _ _ _ _ _ _ _ _ _ _ _ _ _ ∅ 0 Md) as [Hfr Hmap]; try done; [apply T|apply abs_dots| |lia|].
    { intros j e Hj He%nth_entry_lt. unfold len in He. simpl in He. lia. }
    split; [done|]. split; [done|]. split; [|split; apply Md].
    apply (others_spare ({[ ino ]} ∪ {[ d; b ]}) [ino; b] s); [apply Md| |exact Hsp].
    intros j Hj Hnj. destruct (fd_inode _ _ F) as (di & Hdi & Hd & _).
    assert (j <> d) by (intros ->; apply Hnj; by exists di). set_solver.
  - pose proof Inv as [Dd _]. pose proof (data_len _ _ _ _ _ _ _ _ _ _ Dd) as (Hl1 & _).
    assert (m !! key = None) as Hmk.
    { destruct (m !! key) as [j|] eqn:E; [|done]. destruct (eo_map _ _ (dd_entries _ _ _ _ _ _ _ _ _ _ Dd) key j E) as (Hj & e & He & Hke).
      assert (D !! d_filename e = Some (d_ino e)) as HDe by (apply Ha; by exists j, e).
      rewrite (Hinj _ _ HDe Hke) in HDe. congruence. }
    eapply createfile_wp; [exact Inv|done|done|exact Hok|done|lia|lia|by eapply spare_le; [|exact Hsp]; lia|].
    intros ino i' n' s' Hn' Md. exists ino. split; [done|].
    destruct (made_map _ _ _ _ _ _ _ _ _ _ _ _ _ D c Md) as [Hfr Hmap]; try done; [lia|nia|].
    split; [done|]. split; [done|]. split; [|split; apply Md].
    apply (others_spare ({[ ino ]} ∪ {[ d; b ]}) [ino] s); [apply Md| |eapply spare_le; [|exact Hsp]; case_decide; simpl; lia].
    intros j Hj Hnj. destruct (dd_inode _ _ _ _ _ _ _ _ _ _ Dd) as (di & Hdi & Hd & _). pose proof (dd_tree _ _ _ _ _ _ _ _ _ _ Dd).
    assert (j <> d) by (intros ->; apply Hnj; by exists di). assert (j <> b) by (intros ->; done). set_solver.
Qed.

Lemma lookup_step d s D c n key :
  dir_map s d D c -> name_ok n key -> (forall n' ino, D !! n' = Some ino -> dir_key n' = Some key -> n' = n) ->
  wp (run_op d (Lookup n)) (fun r s' => r = match D !! n with Some ino => (0, Some ino) | None => (-1, None) end /\ s' = s) s.
Proof.
  intros Hm Hok Hinj. cbn [run_op]. wp_step.
  destruct Hm as [(F & T & -> & ->)|(b & i & nb & m & es & [Dd F] & Hll & Ha & Hfl & Hn & Hles)].
  - destruct (fd_inode _ _ F) as (di & Hdi & Hd & _ & _ & Hb & _).
    eapply lookup_no_index_wp; [exact Hdi|done|apply F|apply F|done|]. by wp_steps.
  - destruct (D !! n) as [ino|] eqn:HD.
    + apply Ha in HD as (k & e & Hf & <-). destruct (Hfl k e) as [Hr _]; [apply Hf|apply Hf|].
      eapply lookup_found_wp; [exact Dd|done|exact Hf|done|]. by wp_steps.
    + eapply lookup_missing_wp; [exact Dd|done|exact Hok| |by wp_steps].
      destruct (m !! key) as [j|] eqn:E; [|done]. destruct (eo_map _ _ (dd_entries _ _ _ _ _ _ _ _ _ _ Dd) key j E) as (Hj & e & He & Hke).
      assert (D !! d_filename e = Some (d_ino e)) as HDe by (apply Ha; by exists j, e).
      rewrite (Hinj _ _ HDe Hke) in HDe. congruence.
Qed.

Lemma run_map d l : forall s D c,
  dir_map s d D c -> ops_ok (dom D) l -> no_collision (elements (dom D) ++ map op_name l) ->
  2 + Z.of_nat (c + creates l) * ix_step <= ix_max -> Z.of_nat (c + creates l) <= 2 ^ 29 ->
  spare (d_store s) (if decide (c = 0%nat) then S (creates l) else creates l) ->
  wp (run d l) (fun rs s' => spec D l rs /\ (exists D', dir_map s' d D' (c + creates l)) /\
    d_locked s' = d_locked s /\ d_held s' = d_held s) s.
Proof.
  induction l as [|o l IH]; intros s D c Hm Hops Hinj Hmax Hc Hsp; cbn [run spec creates] in *.
  { wp_steps. rewrite Nat.add_0_r. split; [done|]. split; [by exists D|done]. }
  destruct Hops as [[key Hok] Hops]. pose proof il_step as Hst.
  assert (forall n' ino, D !! n' = Some ino -> dir_key n' = Some key -> n' = op_name o) as Hinj1.
  { intros n' ino Hn' Hk'. apply (Hinj n' (op_name o) key); [| |done|apply Hok].
    - apply elem_of_app. left. apply elem_of_elements, elem_of_dom. by exists ino.
    - apply elem_of_app. right. cbn. apply elem_of_cons. by left. }
  wp_step. destruct o as [n mode dev|n]; cbn [op_name creates] in *.
  - destruct Hops as (Hlen & Hnew & Hops). apply not_elem_of_dom in Hnew.
    eapply wp_mono; [eapply (create_step d s D c n key mode dev (creates l)); try done; try nia|].
    { case_decide; (eapply spare_le; [|exact Hsp]); simpl; lia. }
    intros r s1 (ino & -> & Hfr & Hm1 & Hsp1 & El & Eh). wp_step.
    eapply wp_mono; [apply (IH s1 (<[ n := ino ]> D) (S c)); try done|].
    + by rewrite dom_insert_L.
    + intros n1 n2 k H1' H2'. apply Hinj; rewrite elem_of_app, elem_of_elements in *; cbn; rewrite elem_of_cons; set_solver.
    + by replace (S c + creates l)%nat with (c + S (creates l))%nat by lia.
    + lia.
    + intros rs s2 (Hs & [D' Hm2] & El2 & Eh2). wp_steps. split_and!; try done; try congruence.
      exists D'. by replace (c + S (creates l))%nat with (S c + creates l)%nat by lia.
  - eapply wp_mono; [by eapply lookup_step|]. intros r s1 [-> ->]. wp_step.
    eapply wp_mono; [apply (IH s D c); try done|].
    + intros n1 n2 k H1' H2'. apply Hinj; rewrite elem_of_app in *; cbn; rewrite elem_of_cons; set_solver.
    + intros rs s2 (Hs & Hm2 & El2 & Eh2). by wp_steps.
Qed.

End refine.
End DirMap.
