(* ===== verification/BpIndexLaws.v ===== *)
(** * B+tree: the index of a directory

    [BpFrame]: what an operation of the tree may do to the device; [BpIndexLaws]:
    the tree keeps the promises of the directory index; [DirDemo]: a store in
    which the examples run. *)
From S2P Require Import Prelude Bitmap Layout DirHash Arr BpTree BpTreeOps BpPairs BpTreeSpec BpSearch BpSplit.
From S2P Require Import BpRemove Dir BpIndex DirEntry.
Import Arr Bitmap BpTree BpTreeOps.

(** ** The device below a B+tree

    The operations of the tree reach the device only through nvfuse_get_block:
    a relation that every call of nvfuse_get_block respects relates the devices
    before and after a whole operation. *)
Module BpFrame.

Create HintDb kept.

Section frame.
Context {D : Type} `{BlockMap D} (R : D -> D -> Prop) `{!PreOrder R}.
Context (get_block_R : forall b d r d', get_block b d = Some (r, d') -> R d d').
Implicit Types s : tree D.

(** The device after [m] is related to the one before. *)
Definition kept {X} (m : M (tree D) X) : Prop := forall s x s', m s = Some (x, s') -> R (m_dev s) (m_dev s').

Lemma wp_kept {X} (m : M (tree D) X) Q s :
  kept m -> wp m Q s -> wp m (fun x s' => Q x s' /\ R (m_dev s) (m_dev s')) s.
Proof. unfold kept, wp. intros K. destruct (m s) as [[x s']|] eqn:E; [|done]. intros HQ. split; [done|]. by eapply K. Qed.

Lemma kept_pure {X} (m : M (tree D) X) : (forall s x s', m s = Some (x, s') -> m_dev s' = m_dev s) -> kept m.
Proof. intros K s x s' E. rewrite (K s x s' E). reflexivity. Qed.

Lemma kept_bind {X Y} (m : M (tree D) X) (k : X -> M (tree D) Y) : kept m -> (forall x, kept (k x)) -> kept (m ≫= k).
Proof.
  intros Km Kk s y s2. unfold mbind, M_bind. destruct (m s) as [[x s1]|] eqn:E; [|done]. intros E2.
  etransitivity; [by eapply Km|by eapply Kk].
Qed.

Lemma kept_ret {X} (x : X) : kept (mret x).
Proof. apply kept_pure. by intros s y s' [= _ ->]. Qed.
Lemma kept_get : kept mget.
Proof. apply kept_pure. by intros s y s' [= _ ->]. Qed.
Lemma kept_gets {X} (f : tree D -> X) : kept (mgets f).
Proof. apply kept_pure. by intros s y s' [= _ ->]. Qed.
Lemma kept_abort {X} : kept (mabort : M (tree D) X).
Proof. by intros s y s'. Qed.
Lemma kept_lift {X} (o : option X) : kept (mlift o).
Proof. apply kept_pure. unfold mlift. destruct o; [by intros s y s' [= _ ->]|done]. Qed.
Lemma kept_assert b : kept (massert b).
Proof. apply kept_pure. unfold massert. destruct b; [by intros s y s' [= _ ->]|done]. Qed.
Lemma kept_modify f : (forall s, m_dev (f s) = m_dev s) -> kept (mmodify f).
Proof. intros E. apply kept_pure. intros s y s' [= _ <-]. apply E. Qed.
(** A write of what was read, changed by [f]. *)
Lemma kept_update {X} (f : tree D -> tree D) (k : tree D -> M (tree D) X) :
  (forall s, m_dev (f s) = m_dev s) -> (forall s, kept (k s)) -> kept (s ← mget; mput (f s);; k s).
Proof.
  intros E K s x s' Hm. change (k s (f s) = Some (x, s')) in Hm. apply K in Hm. by rewrite E in Hm.
Qed.
Lemma kept_dev b : kept (on_dev (get_block b)).
Proof.
  unfold on_dev. intros s x s'. destruct (get_block b (m_dev s)) as [[r d]|] eqn:E; [|done].
  intros [= _ <-]. by eapply get_block_R.
Qed.

#[local] Hint Resolve kept_ret kept_get kept_gets kept_abort kept_lift kept_assert kept_dev : kept.

(** One step of the proof that a program keeps the device. *)
#[local] Ltac kept_step :=
  match goal with
  | |- kept (let '(_, _) := ?p in _) => destruct p
  | |- kept (match ?x with _ => _ end) => destruct x
  | |- kept (mmodify _) => apply kept_modify; done
  | |- kept (_ ≫= _) => apply kept_bind; [|intros]
  | |- kept (let '(_, _) := ?p in _) => destruct p
  end.
#[local] Ltac keep := repeat first [solve [eauto 2 with kept] | progress cbv zeta | kept_step].

Lemma kept_stack_push v : kept (stack_push v).
Proof. by apply kept_update; [|intros; apply kept_assert]. Qed.
Lemma kept_stack_pop : kept stack_pop.
Proof.
  apply kept_pure. unfold stack_pop, mbind, M_bind, mget. intros s x s'. destruct (m_stack s); [done|]. by intros [= _ <-].
Qed.
Lemma kept_grow : kept grow_file.
Proof.
  apply kept_pure. unfold grow_file, mbind, M_bind, mget, massert. intros s x s'. destruct (_ <? _); [|done]. by intros [= _ <-].
Qed.
#[local] Hint Resolve kept_stack_push kept_stack_pop kept_grow : kept.

Ltac kept_def d := unfold d; keep.

Lemma kept_get_page b : kept (get_page b).
Proof. unfold get_page. apply kept_pure. unfold mlift. intros s x s'. destruct (_ !! _); [|done]. by intros [= _ ->]. Qed.
#[local] Hint Resolve kept_get_page : kept.
Lemma kept_load n : kept (load_pair n). Proof. kept_def @load_pair. Qed.
Lemma kept_store n p : kept (store_pair n p). Proof. kept_def @store_pair. Qed.
#[local] Hint Resolve kept_load kept_store : kept.
Lemma kept_update_pair n f : kept (update_pair n f). Proof. kept_def @update_pair. Qed.
Lemma kept_key n i : kept (B_KEY_GET n i). Proof. kept_def @B_KEY_GET. Qed.
Lemma kept_item n i : kept (B_ITEM_GET n i). Proof. kept_def @B_ITEM_GET. Qed.
Lemma kept_flush : kept B_FLUSH_STACK. Proof. kept_def @B_FLUSH_STACK. Qed.
Lemma kept_master i : kept (bp_read_master_ctx i). Proof. kept_def @bp_read_master_ctx. Qed.
#[local] Hint Resolve kept_update_pair kept_key kept_item kept_flush kept_master : kept.
Lemma kept_set_bitmap i : kept (bp_set_bitmap i). Proof. kept_def @bp_set_bitmap. Qed.
Lemma kept_clear_bitmap i : kept (bp_clear_bitmap i). Proof. kept_def @bp_clear_bitmap. Qed.
Lemma kept_test_bitmap i : kept (bp_test_bitmap i). Proof. kept_def @bp_test_bitmap. Qed.
Lemma kept_inc i : kept (bp_inc_free_bitmap i). Proof. kept_def @bp_inc_free_bitmap. Qed.
Lemma kept_count a b : kept (count_blocks a b). Proof. kept_def @count_blocks. Qed.
#[local] Hint Resolve kept_set_bitmap kept_clear_bitmap kept_test_bitmap kept_inc kept_count : kept.
Lemma kept_scan_masters n : forall a b c d, kept (scan_masters n a b c d).
Proof. induction n; intros; cbn [scan_masters]; keep. Qed.
#[local] Hint Resolve kept_scan_masters : kept.
Lemma kept_scan : kept bp_scan_bitmap. Proof. kept_def @bp_scan_bitmap. Qed.
Lemma kept_take b : kept (take_block b). Proof. kept_def @take_block. Qed.
#[local] Hint Resolve kept_scan kept_take : kept.
Lemma kept_alloc : kept bp_alloc_bitmap. Proof. kept_def @bp_alloc_bitmap. Qed.
Lemma kept_dealloc n : kept (bp_dealloc_bitmap n). Proof. kept_def @bp_dealloc_bitmap. Qed.
#[local] Hint Resolve kept_alloc kept_dealloc : kept.
Lemma kept_alloc_node f o b : kept (bp_alloc_node f o b). Proof. kept_def @bp_alloc_node. Qed.
Lemma kept_release : kept bp_release_node. Proof. kept_def @bp_release_node. Qed.
Lemma kept_read_node n o b : kept (bp_read_node n o b). Proof. kept_def @bp_read_node. Qed.
Lemma kept_write_node n : kept (bp_write_node n). Proof. kept_def @bp_write_node. Qed.
#[local] Hint Resolve kept_alloc_node kept_release kept_read_node kept_write_node : kept.
#[local] Hint Unfold B_iALLOC B_dALLOC m_sp traverse_empty : kept.
Lemma kept_open o : kept (B_OPEN o). Proof. kept_def @B_OPEN. Qed.
Lemma kept_next n k : kept (bp_next_node n k). Proof. kept_def @bp_next_node. Qed.
#[local] Hint Resolve kept_open kept_next : kept.
Lemma kept_traverse f : forall n k, kept (traverse f n k).
Proof. induction f; intros; cbn [traverse]; keep. Qed.
Lemma kept_get_pair n k : kept (B_GET_PAIR n k). Proof. kept_def @B_GET_PAIR. Qed.
#[local] Hint Resolve kept_traverse kept_get_pair : kept.
Lemma kept_search k : kept (search_data_node k). Proof. kept_def @search_data_node. Qed.
#[local] Hint Resolve kept_search : kept.
Lemma kept_find k : kept (bp_find_key k). Proof. kept_def @bp_find_key. Qed.
Lemma kept_insert_value n i k v : kept (bp_insert_value_tree n i k v). Proof. kept_def @bp_insert_value_tree. Qed.
#[local] Hint Resolve kept_insert_value : kept.
Lemma kept_update_key k v : kept (bp_update_key_tree k v). Proof. kept_def @bp_update_key_tree. Qed.

Lemma kept_set_root v : kept (set_m_root v). Proof. kept_def @set_m_root. Qed.
#[local] Hint Resolve kept_set_root : kept.
Lemma kept_create : kept (bp_alloc_master;; bp_init_root).
Proof. unfold bp_alloc_master, bp_init_root. keep. Qed.
Lemma kept_add_root dp k v : kept (bp_add_root_node dp k v). Proof. kept_def @bp_add_root_node. Qed.
Lemma kept_split_data a b c d : kept (bp_split_data a b c d). Proof. kept_def @bp_split_data. Qed.
#[local] Hint Resolve kept_add_root kept_split_data : kept.
Lemma kept_split_index a b c d : kept (bp_split_index_node a b c d). Proof. kept_def @bp_split_index_node. Qed.
Lemma kept_split_data_node a b c d e : kept (bp_split_data_node a b c d e). Proof. kept_def @bp_split_data_node. Qed.
#[local] Hint Resolve kept_split_index kept_split_data_node : kept.
Lemma kept_insert_child a b c d : kept (insert_child a b c d). Proof. kept_def @insert_child. Qed.
#[local] Hint Resolve kept_insert_child : kept.
Lemma kept_split_loop f : forall a b c, kept (split_loop f a b c).
Proof. induction f; intros; cbn [split_loop]; keep. Qed.
Lemma kept_split_root a b c : kept (split_root a b c). Proof. kept_def @split_root. Qed.
#[local] Hint Resolve kept_split_loop kept_split_root : kept.
Lemma kept_split_tree a b c : kept (bp_split_tree a b c). Proof. kept_def @bp_split_tree. Qed.
Lemma kept_merge_key a b c : kept (bp_merge_key a b c). Proof. kept_def @bp_merge_key. Qed.
#[local] Hint Resolve kept_split_tree kept_merge_key : kept.
Lemma kept_insert k v u : kept (bp_insert_key_tree k v u). Proof. kept_def @bp_insert_key_tree. Qed.

Lemma kept_unlink a b : kept (unlink_leaf a b). Proof. kept_def @unlink_leaf. Qed.
#[local] Hint Resolve kept_unlink : kept.
Lemma kept_redist a b c : kept (bp_redist_data_child a b c). Proof. kept_def @bp_redist_data_child. Qed.
#[local] Hint Resolve kept_redist : kept.
Lemma kept_merge_loop freed f : forall a b, kept (merge_loop freed f a b).
Proof. induction f; intros; cbn [merge_loop]; keep. Qed.
Lemma kept_shrink_root a : kept (shrink_root a). Proof. kept_def @shrink_root. Qed.
#[local] Hint Resolve kept_merge_loop kept_shrink_root : kept.
Lemma kept_merge_tree freed a : kept (bp_merge_key_tree freed a). Proof. kept_def @bp_merge_key_tree. Qed.
#[local] Hint Resolve kept_merge_tree : kept.
Lemma kept_remove freed k : kept (bp_remove_key freed k). Proof. kept_def @bp_remove_key. Qed.

End frame.
End BpFrame.

(** ** The B+tree keeps the promises of the directory index

    The laws [IndexLaws] of the index, from the theorems on the B+tree and the
    laws of the store the file of the tree lies on. *)
Import Arr Bitmap Layout.

Module BpIndexLaws.

Section laws.
Context {A : Type} `{DirSpec.StoreLaws A} (freed : bool).
Implicit Types (a : A) (i : BpIndex.bptree).
Notation tree := (BpTree.tree A).

(** What nvfuse_get_block may change for the file [b]. *)
Definition grown (b : Z) a a' : Prop :=
  DirSpec.frame b a a' /\ exists l, Dir.st_inode a' b = Dir.set_i_blocks l <$> Dir.st_inode a b.

#[local] Instance grown_preorder b : PreOrder (grown b).
Proof.
  split.
  - intros a. split; [apply DirSpec.frame_refl|]. destruct (Dir.st_inode a b) as [i|]; [|by exists []].
    exists (i_blocks i). by destruct i.
  - intros a1 a2 a3 [F1 (l1 & E1)] [F2 (l2 & E2)]. split; [by eapply DirSpec.frame_trans|]. exists l2.
    rewrite E2, E1. by destruct (Dir.st_inode a1 b).
Qed.

Lemma map_grown b lb a r a' : BpIndex.file_map b lb a = Some (r, a') -> grown b a a'.
Proof.
  intros E. pose proof (DirSpec.sl_get_block a b lb) as Hw. unfold BpIndex.file_map in E. unfold wp in Hw.
  rewrite E in Hw. destruct Hw as (_ & F & Hi & _). by split.
Qed.

Lemma map_space b : @BpAlloc.has_space A (BpIndex.file_map b).
Proof.
  intros lb a. destruct (wp_elim _ _ _ (DirSpec.sl_get_block a b lb)) as (r & a' & E & -> & _). by exists a'.
Qed.

(** ** Sessions *)

(** The tree of the file does not depend on the device. *)
Definition tree_rep i (n : Z) (h : nat) t : Prop := BpTreeSpec.bt_inv (BpIndex.bp_open tt i) n h t.

Lemma rep_open a i n h t : tree_rep i n h t <-> BpTreeSpec.bt_inv (BpIndex.bp_open a i) n h t.
Proof. split; intros []; by split. Qed.

Lemma rep_close (s : tree) n h t : BpTreeSpec.bt_inv s n h t -> tree_rep (BpIndex.bp_close s) n h t.
Proof. intros []. by split. Qed.

Lemma rep_size i n h t : tree_rep i n h t -> BpIndex.b_size i = n * BpTree.CLUSTER_SIZE.
Proof. intros [_ _ _ _ _ Ha _]. apply Ha. Qed.

Lemma grown_size b a a' z : is_Some (Dir.st_inode a b) -> grown b a a' ->
  exists a2, BpIndex.put_size b z a' = Some a2 /\ DirSpec.index_frame b a a2.
Proof.
  intros [bi Hbi] [F (l & E)]. rewrite Hbi in E. cbn in E. unfold BpIndex.put_size. rewrite E. cbn.
  eexists. split; [done|]. split; [eapply DirSpec.frame_trans; [exact F|apply DirSpec.sl_set_frame]|].
  exists l, z. by rewrite DirSpec.sl_set_eq, Hbi.
Qed.

Lemma grown_frame b a a' : grown b a a' -> DirSpec.index_frame b a a'.
Proof.
  intros [F (l & E)]. split; [done|]. destruct (Dir.st_inode a b) as [bi|] eqn:Hbi; [|by exists l, 0].
  exists l, (i_size bi). rewrite E. by destruct bi.
Qed.

(** An operation on the tree is one on the file and its inode. *)
Lemma session_wp {X} b (m : M tree X) a i (Q : X -> A * BpIndex.bptree -> Prop) :
  is_Some (Dir.st_inode a b) -> @BpFrame.kept A (grown b) X m ->
  wp m (fun x s' => forall a', DirSpec.index_frame b a a' -> Q x (a', BpIndex.bp_close s')) (BpIndex.bp_open a i) ->
  wp (BpIndex.session b m) Q (a, i).
Proof.
  intros Hi K Hw. apply (BpFrame.wp_kept (grown b)) in Hw; [|done]. unfold wp, BpIndex.session in *.
  destruct (m (BpIndex.bp_open a i)) as [[x s']|]; [|done]. destruct Hw as [HQ Hg]. cbn [BpTree.m_dev BpIndex.bp_open] in Hg.
  destruct (BpTree.m_isize s' =? BpIndex.b_size i); [by apply HQ, grown_frame|].
  destruct (grown_size b a _ (BpTree.m_isize s') Hi Hg) as (a2 & -> & F). by apply HQ.
Qed.

(** A lookup does not come near the inode. *)
Lemma find_session_wp b (m : M tree (Z * Z)) a i (Q : Z * Z -> A * BpIndex.bptree -> Prop) :
  wp m (fun x s' => s' = BpIndex.bp_open a i /\ Q x (a, i)) (BpIndex.bp_open a i) -> wp (BpIndex.session b m) Q (a, i).
Proof.
  unfold wp, BpIndex.session. destruct (m (BpIndex.bp_open a i)) as [[x s']|]; [|done]. intros [-> HQ].
  cbn [BpTree.m_isize BpIndex.bp_open]. rewrite Z.eqb_refl. by destruct i.
Qed.

(** ** The laws *)

Definition rep i (n : Z) (m : gmap Z Z) : Prop := exists h t, tree_rep i n h t /\ BpTreeSpec.bt_map t = m.

(** The keys can be removed one after the other, each from a leaf that is the
    root or keeps an entry. *)
Fixpoint removable i (ks : list Z) : Prop :=
  match ks with
  | [] => True
  | k :: ks =>
      (forall n h t, tree_rep i n h t -> BpRemove.keeps t k) /\
      forall b a r a' i', BpIndex.session b (@BpTreeOps.bp_remove_key A (BpIndex.file_map b) freed k) (a, i) = Some (r, (a', i')) ->
        removable i' ks
  end.

Lemma result_rep a i s' n m g :
  BpInsert.result (BpIndex.bp_open a i) n m g s' -> exists n', n <= n' <= n + g /\ rep (BpIndex.bp_close s') n' m.
Proof.
  intros [(n' & h & t & Hi & <- & Hn) _]. exists n'. split; [done|]. exists h, t. split; [by eapply rep_close|done].
Qed.

Lemma create_law a b : is_Some (Dir.st_inode a b) -> wp (BpIndex.bp_create b) (fun t a' =>
  exists i, t = Some i /\ rep i 2 ∅ /\ DirSpec.index_frame b a a') a.
Proof.
  intros Hi. set (s0 := BpTree.mk_tree A (BpTree.mk_ondisk 0 0 0 0 0 0 []) [] 0 0 0 ∅ a).
  pose proof (BpRemove.create_wp (H := BpIndex.file_map b) s0
    (fun _ s' => BpTreeSpec.bt_inv s' 2 0 (BpTreeSpec.Leaf 1 [])) (map_space b) eq_refl eq_refl ltac:(done)) as Hw.
  apply (BpFrame.wp_kept (grown b)) in Hw; [|apply BpFrame.kept_create; [apply _|apply map_grown]].
  apply wp_elim in Hw as ([] & s' & E & Hinv & Hg). unfold mbind, M_bind in E.
  unfold wp, BpIndex.bp_create. fold s0.
  pose proof (BpRemove.alloc_master_wp (H := BpIndex.file_map b) s0 (fun r _ => r = 0) (map_space b) eq_refl ltac:(done)) as Hr.
  apply wp_elim in Hr as (r & s1 & E1 & ->). rewrite E1 in E |- *. cbn [Z.ltb Z.compare]. rewrite E.
  destruct (grown_size b a _ (BpTree.m_isize s') Hi Hg) as (a2 & E2 & F). rewrite E2. cbn.
  exists (BpIndex.bp_close s'). split; [done|]. split; [|done]. exists 0%nat, (BpTreeSpec.Leaf 1 []).
  split; [by apply rep_close|done].
Qed.

#[export] Program Instance bp_index_laws : @DirSpec.IndexLaws A BpIndex.bptree _ (BpIndex.bp_index freed) := {
  ix_rep := rep;
  ix_keeps := removable;
  ix_max := BpAlloc.max_blocks;
  ix_step := 17 }.
Next Obligation. done. Qed.
Next Obligation. intros a b. apply create_law. Qed.
Next Obligation.
  intros a b i n m key (h & t & Hi & <-) Hk. cbn. apply find_session_wp.
  eapply (BpSearch.find_key_wp (H := BpIndex.file_map b) _ n h t key); [by apply rep_open|done|].
  intros idx v [(Hidx & Hv)|(-> & -> & Hv)]; rewrite Hv; done.
Qed.
Next Obligation.
  intros a b i n m key v (h & t & Hi & <-) Hk Hs Hn Hm. cbn. apply session_wp; [done|apply BpFrame.kept_insert; [apply _|apply map_grown]|].
  eapply wp_mono; [eapply (BpInsertNew.insert_new_wp (H := BpIndex.file_map b) _ n h t); [apply map_space|exact Hn|by apply rep_open|done|done]|].
  intros r s' (-> & Hr & _) a' F. split; [done|]. split; [done|]. by eapply result_rep.
Qed.
Next Obligation.
  intros a b i n m key v v0 (h & t & Hi & <-) Hk Hs Hm. cbn. apply session_wp; [done|apply BpFrame.kept_insert; [apply _|apply map_grown]|].
  eapply wp_mono; [eapply (BpInsertNew.insert_old_wp (H := BpIndex.file_map b) _ n h t); [by apply rep_open|done|exact Hm]|].
  intros r s' (-> & Hr & _) a' F. split; [done|]. split; [done|]. apply result_rep in Hr as (n' & Hn' & Hr).
  by assert (n' = n) as <- by lia.
Qed.
Next Obligation.
  intros a b i n m key v (h & t & Hi & <-) Hk Hs [v0 Hm]. cbn. apply session_wp; [done|apply BpFrame.kept_update_key; apply _ || apply map_grown|].
  eapply wp_mono; [eapply (BpInsert.update_key_wp (H := BpIndex.file_map b) _ n h t); [by apply rep_open|done|exact Hm]|].
  intros r s' (-> & Hr & _) a' F. split; [done|]. apply result_rep in Hr as (n' & Hn' & Hr).
  by assert (n' = n) as <- by lia.
Qed.
Next Obligation.
  intros a b i n m key ks (h & t & Hi & <-) Hk Hs [v0 Hm] [Hkeep Hks]. cbn.
  assert (wp (BpIndex.session b (@BpTreeOps.bp_remove_key A (BpIndex.file_map b) freed key)) (fun r p =>
    r = 0 /\ DirSpec.index_frame b a p.1 /\ rep p.2 n (delete key (BpTreeSpec.bt_map t))) (a, i)) as Hw.
  { apply session_wp; [done|apply BpFrame.kept_remove; apply _ || apply map_grown|].
    eapply wp_mono; [eapply (BpRemove.remove_wp (H := BpIndex.file_map b) freed _ n h t); [by apply rep_open|done|exact Hm|by eapply Hkeep]|].
    intros r s' (-> & Hr & _) a' F. split; [done|]. split; [done|].
    apply BpRemove.reshaped_result, result_rep in Hr as (n' & Hn' & Hr). by assert (n' = n) as <- by lia. }
  apply wp_elim in Hw as (r & [a' i'] & E & -> & F & Hr). unfold wp. rewrite E. split_and!; try done. by eapply Hks.
Qed.

(** ** Trees that are a single leaf *)

Lemma plug_leaf p o es o' es' : BpTreeSpec.plug p (BpTreeSpec.Leaf o es) = BpTreeSpec.Leaf o' es' -> p = [].
Proof.
  assert (forall q o1 cs, BpTreeSpec.plug q (BpTreeSpec.Node o1 cs) <> BpTreeSpec.Leaf o' es') as Hq.
  { induction q as [|g q IH]; intros o1 cs; [done|]. apply IH. }
  destruct p as [|f p]; [done|]. intros E. by apply Hq in E.
Qed.

Lemma leaf_keeps i n t k : tree_rep i n 0 t -> forall n' h' t', tree_rep i n' h' t' -> BpRemove.keeps t' k.
Proof.
  intros [Hs Hr Hh _ _ _ _] n' h' t' [Hs' Hr' Hh' _ _ _ _]. destruct t as [o es|o cs]; [|done].
  destruct t' as [o' es'|o' cs'].
  - intros p o2 es2 E _. left. symmetry in E. by eapply plug_leaf.
  - apply Forall_cons in Hh as [(pg & Hp & Hok) _]. apply Forall_cons in Hh' as [(pg' & Hp' & Hok') _].
    cbn in *. destruct Hok as (_ & _ & Hf & _), Hok' as (_ & _ & Hf' & _).
    assert (o = o') as <- by congruence. simplify_eq. congruence.
Qed.

(** The root block is a leaf: so is the whole tree. *)
Definition root_is_leaf i : bool :=
  match BpIndex.b_pages i !! BpTree.m_root (BpIndex.b_ondisk i) with
  | Some pg => BpTree.i_flag (BpTree.p_hdr pg) =? 1
  | None => false
  end.

Lemma leaf_height i n h t : root_is_leaf i = true -> tree_rep i n h t -> h = 0%nat.
Proof.
  unfold root_is_leaf. intros Hl [Hs Hr Hh _ _ _ _]. destruct t as [o es|o cs]; [by destruct h|].
  apply Forall_cons in Hh as [(pg & Hp & Hok) _]. cbn in *. rewrite <- Hr, Hp in Hl. destruct Hok as (_ & _ & Hf & _).
  by rewrite Hf in Hl.
Qed.

Lemma leaf_removable ks : forall i n t, tree_rep i n 0 t -> Forall (fun k => 0 < k <= DirSpec.KEY_MAX) ks -> removable i ks.
Proof.
  induction ks as [|k ks IH]; intros i n t Hi Hks; [done|]. apply Forall_cons in Hks as [Hk Hks]. cbn [removable]. split.
  - intros n' h' t' Hi'. by eapply leaf_keeps.
  - intros b a r a' i' E. pose proof (proj1 (rep_open a i n 0 t) Hi) as Ho.
    assert (wp (@BpTreeOps.bp_remove_key A (BpIndex.file_map b) freed k) (fun _ s' => exists t', tree_rep (BpIndex.bp_close s') n 0 t')
      (BpIndex.bp_open a i)) as Hw.
    { destruct (BpTreeSpec.bt_map t !! k) as [v|] eqn:Hm.
      - eapply wp_mono; [eapply (BpRemove.remove_wp freed _ n 0 t k v); [done|done|done|by eapply leaf_keeps]|].
        intros _ s' (_ & [(t' & Ht' & _) _] & _). exists t'. by apply rep_close.
      - eapply wp_mono; [by apply (BpRemove.remove_missing_wp freed _ n 0 t k)|].
        intros _ s' (_ & Ht' & _). exists t. by apply rep_close in Ht'. }
    unfold wp in Hw. unfold BpIndex.session in E. destruct (BpTreeOps.bp_remove_key _ _ _) as [[x s']|]; [|done].
    destruct Hw as [t' Ht']. assert (i' = BpIndex.bp_close s') as ->.
    { destruct (_ =? _); [congruence|]. destruct (BpIndex.put_size _ _ _); [|done]. cbn in E. congruence. }
    by eapply IH.
Qed.

End laws.
End BpIndexLaws.

(** ** Directories: a store in which the examples run

    The laws of the store hold of this one: a table of inodes with a limit and a
    device that always has another block.  The index on it is the B+tree. *)
Import Layout DirHash Dir DirSpec.

Module DirDemo.

Record ideal := mk_ideal { t_inodes : gmap Z nvfuse_inode; t_mapped : gset (Z * Z) }.

Definition inode_limit : Z := 1024.

Definition in_use (a : ideal) (ino : Z) : bool :=
  match t_inodes a !! ino with Some i => i_ino i =? ino | None => false end.
Fixpoint first_unused (n : nat) (ino : Z) (a : ideal) : Z :=
  match n with
  | O => 0
  | S n => if in_use a ino then first_unused n (ino + 1) a else ino
  end.
Definition put (ino : Z) (i : nvfuse_inode) (a : ideal) : ideal := mk_ideal (<[ ino := i ]> (t_inodes a)) (t_mapped a).
Definition set_i_ino (v : Z) (i : nvfuse_inode) : nvfuse_inode :=
  mk_inode v (i_type i) (i_size i) (i_bpino i) (i_version i) (i_deleted i) (i_links_count i) (i_ptr i)
    (i_atime i) (i_ctime i) (i_mtime i) (i_dtime i) (i_gid i) (i_uid i) (i_mode i) (i_blocks i).

#[export] Instance ideal_store : Store ideal := {
  st_inode a ino := t_inodes a !! ino;
  st_set_inode := put;
  st_alloc_inode a :=
    let ino := first_unused (Z.to_nat (inode_limit - ROOT_INO)) ROOT_INO a in
    Some (ino, if ino =? 0 then a else put ino (new_inode_of ino) a);
  st_delete_inode ino a := Some (0, match t_inodes a !! ino with Some i => put ino (set_i_ino (if ino =? 0 then 1 else 0) i) a | None => a end);
  st_get_block ino lb a := Some (0, mk_ideal (t_inodes a) ({[ (ino, lb) ]} ∪ t_mapped a));
  st_truncate ino size a :=
    Some (tt, mk_ideal (t_inodes a) (filter (fun k => ~ (k.1 = ino /\ size <= k.2 * CLUSTER_SIZE)) (t_mapped a)));
  st_mapped a ino lb := bool_decide ((ino, lb) ∈ t_mapped a);
  st_no_of_inodes _ := inode_limit;
  st_root_ino _ := ROOT_INO }.

Lemma in_use_live a ino : in_use a ino = true <-> live a ino.
Proof.
  unfold in_use, live. cbn. destruct (t_inodes a !! ino) as [i|]; [|naive_solver].
  rewrite Z.eqb_eq. naive_solver.
Qed.

Lemma first_unused_spec a n : forall j k, j <= k < j + Z.of_nat n -> in_use a k = false ->
  let r := first_unused n j a in j <= r < j + Z.of_nat n /\ in_use a r = false.
Proof.
  induction n as [|n IH]; intros j k Hk Hu; cbn [first_unused]; [lia|]. destruct (in_use a j) eqn:E; [|split; [lia|done]].
  assert (j <> k) by congruence. destruct (IH (j + 1) k) as [Hr ?]; [lia|done|]. cbv zeta. split; [lia|done].
Qed.

Lemma put_frame a j i : frame j a (put j i a).
Proof. split; try done. intros j' Hj. cbn. by apply lookup_insert_ne. Qed.

#[export] Instance ideal_laws : StoreLaws ideal.
Proof.
  split.
  - intros a j i. apply lookup_insert_eq.
  - intros a j i. apply put_frame.
  - done.
  - intros a (l & _ & Hl & Hj). destruct l as [|k l]; [done|]. destruct (Hj k) as [Hk Hnl]; [apply elem_of_cons; by left|].
    unfold wp. cbn -[first_unused Z.to_nat]. unfold st_no_of_inodes in Hk. cbn in Hk. set (n := Z.to_nat (inode_limit - ROOT_INO)).
    assert (Z.of_nat n = inode_limit - ROOT_INO) as Hn by done.
    destruct (first_unused_spec a n ROOT_INO k) as [Hr Hu]; [lia| |].
    { destruct (in_use a k) eqn:E; [|done]. by apply in_use_live in E. }
    cbv zeta in *. set (ino := first_unused n ROOT_INO a) in *. rewrite (proj2 (Z.eqb_neq ino 0)) by (unfold ROOT_INO in Hr; lia).
    split; [lia|]. split; [rewrite <- in_use_live; congruence|]. split; [apply lookup_insert_eq|apply put_frame].
  - intros a b (i & Hi & Hb). unfold wp. cbn in *. rewrite Hi. split; [|split; [|apply put_frame]].
    + intros (j & Hj & Hjb). cbn in Hj. rewrite lookup_insert_eq in Hj. injection Hj as <-. cbn in Hjb.
      destruct (Z.eqb_spec b 0); lia.
    + eexists. apply lookup_insert_eq.
  - intros a b lb. unfold wp. cbn. split; [done|]. split; [split; try done|].
    + intros j lb' Hj. apply bool_decide_ext. set_solver.
    + split; [|split].
      * destruct (t_inodes a !! b) as [i|]; [|by exists []]. exists (i_blocks i). by destruct i.
      * apply bool_decide_true. set_solver.
      * intros lb' Hl. apply bool_decide_ext. set_solver.
  - intros a b size Hi. unfold wp. cbn. split; [split; try done|split].
    + intros j lb Hj. apply bool_decide_ext. set_solver.
    + destruct Hi as [i Hi]. cbn in Hi. rewrite Hi. exists (i_blocks i). by destruct i.
    + intros lb Hlb. apply bool_decide_ext. rewrite elem_of_filter. cbn. naive_solver lia.
Qed.

End DirDemo.
