(* ===== verification/DirThms.v ===== *)
(** * What directories guarantee

    Creation, lookup and removal of files; the refinement of a finite map; the
    lookups that do not come back.  The examples run on the store of [DirDemo]
    with the B+tree as index. *)
From S2P Require Import Prelude Bitmap Layout DirHash BpPairs Dir DirOps DirApi BpIndex DirEntry DirFind DirMake.
From S2P Require Import DirRmfile DirMap BpIndexLaws.
Import Layout DirHash Dir DirOps DirApi DirSpec DirIndex DirEntry DirFind DirLookup DirCreate.
Import DirMake DirFirst DirRemove DirShrink DirRmfile DirMap DirDemo.

Module DirThms.

(** ** A directory without entries *)

Definition demo_dir : Z := 5.
Definition empty_inode : nvfuse_inode := init_dir 493 0 (new_inode_of demo_dir).
Notation demo_state := (dst ideal BpIndex.bptree).
Definition demo0 : demo_state := mk_dst ideal BpIndex.bptree (mk_ideal {[ demo_dir := empty_inode ]} ∅) ∅ ∅ ∅ ∅ 7.
#[export] Instance demo_index : Index ideal BpIndex.bptree := BpIndex.bp_index false.
#[export] Instance demo_index_laws : IndexLaws ideal BpIndex.bptree := BpIndexLaws.bp_index_laws false.

Definition name_a : list Z := [97].
Definition name_b : list Z := [98].

Lemma demo0_fresh : fresh_dir demo0 demo_dir.
Proof.
  split; try done.
  - exists empty_inode. done.
  - split; [done|]. cbn. intros k e Hk. unfold nth_entry. rewrite (proj2 (Z.leb_le 0 k)) by lia.
    intros [-> _]%lookup_replicate. done.
Qed.

Lemma demo0_taken : taken_live demo0.
Proof. split; intros x; cbn; set_solver. Qed.

Lemma demo0_spare : spare (d_store demo0) 4.
Proof.
  exists [6; 7; 8; 9]. split; [by apply (bool_decide_unpack _); vm_compute|]. split; [done|].
  intros j Hj. split.
  - cbn. unfold ROOT_INO, inode_limit. repeat apply elem_of_cons in Hj as [->|Hj]; try lia. by apply not_elem_of_nil in Hj.
  - intros (i & Hi & _). cbn in Hi. apply lookup_singleton_Some in Hi as [<- _].
    repeat apply elem_of_cons in Hj as [Hj|Hj]; try done. by apply not_elem_of_nil in Hj.
Qed.

Definition key_of (n : list Z) : Z := default 0 (dir_key n).
Lemma key_ok n : bool_decide (dir_key n = Some (key_of n)) && (0 <? key_of n) && (key_of n <=? KEY_MAX) &&
  negb (bool_decide (n = name_dot)) && negb (bool_decide (n = name_dotdot)) = true -> name_ok n (key_of n).
Proof.
  rewrite !andb_true_iff, !negb_true_iff, !bool_decide_eq_true, !bool_decide_eq_false, Z.ltb_lt, Z.leb_le.
  intros [[[[? ?] ?] ?] ?]. done.
Qed.
Lemma name_a_ok : name_ok name_a (key_of name_a). Proof. apply key_ok. by vm_compute. Qed.
Lemma name_b_ok : name_ok name_b (key_of name_b). Proof. apply key_ok. by vm_compute. Qed.


(** ** One file made *)

Definition after {X} (m : M demo_state X) (s : demo_state) : demo_state := match m s with Some (_, s') => s' | None => s end.
Lemma demo_after_wp {X} (m : M demo_state X) s (Q : demo_state -> Prop) : wp m (fun _ => Q) s -> Q (after m s).
Proof. unfold wp, after. by destruct (m s) as [[x s']|]. Qed.

(** The directory with one file. *)
Definition demo_with (f : list Z) : demo_state := after (nvfuse_createfile demo_dir f 420 0) demo0.

(** The directory holds the file [f], whose inode is [ino]. *)
Definition demo_holds (f : list Z) (s : demo_state) (b : Z) (i : BpIndex.bptree) (n : Z) es (ino : Z) : Prop :=
  made {[ demo_dir; b ]} demo0 s demo_dir b i n ∅ es (key_of f) ino f (init_file 420 0 7 (new_inode_of ino)) /\
  2 <= n <= 19 /\ (exists v0 v1, es = dots demo_dir v0 v1).

Lemma demo_with_holds f : name_ok f (key_of f) -> 1 <= strlen f < FNAME_SIZE ->
  exists b i n es ino, demo_holds f (demo_with f) b i n es ino.
Proof.
  intros Hok Hlen. apply (demo_after_wp (nvfuse_createfile demo_dir f 420 0) demo0
    (fun s => exists b i n es ino, demo_holds f s b i n es ino)).
  eapply createfile_first_wp; [exact demo0_fresh|exact demo0_taken|done|exact Hok|done|eapply spare_le; [|exact demo0_spare]; lia|].
  intros b ino i' n' v0 v1 s' Hn _ Hm. exists b, i', n', (dots demo_dir v0 v1), ino. split; [exact Hm|]. split; [exact Hn|].
  by exists v0, v1.
Qed.

(** Its index is a single leaf. *)
Lemma demo_leaf : map_Forall (fun _ i => BpIndexLaws.root_is_leaf i = true) (d_index (demo_with name_a)).
Proof. apply (bool_decide_unpack _). by vm_compute. Qed.
#[local] Opaque demo_with key_of.

Lemma demo_live f s b i n es ino : demo_holds f s b i n es ino -> locks_live s /\ spare (d_store s) 1.
Proof.
  intros (Md & _ & _). split.
  - intros j Hj. rewrite (mk_locked _ _ _ _ _ _ _ _ _ _ _ _ _ Md) in Hj. by apply elem_of_empty in Hj.
  - apply (others_spare ({[ ino ]} ∪ {[ demo_dir; b ]}) [ino; b] demo0); [apply Md| |eapply spare_le; [|exact demo0_spare]; simpl; lia].
    intros j Hj Hnj. assert (j <> demo_dir) by (intros ->; apply Hnj; by exists empty_inode). set_solver.
Qed.

Section theorems.
Context {A I : Type} `{StoreLaws A} `{!Index A I} `{!IndexLaws A I}.
Implicit Types (s : dst A I) (es : list nvfuse_dir_entry).

(** ** Creation *)


(** The first nvfuse_createfile in a directory that nvfuse_mkdir made gives it
    a block with the entries . and .. for itself, the inode and the master and
    root blocks of its B+tree, and then the file as its third entry. *)
Theorem createfile_first_correct s d name key mode dev :
  fresh_dir s d -> taken_live s -> spare (d_store s) 2 -> 1 <= strlen name < FNAME_SIZE -> name_ok name key -> 2 + ix_step <= ix_max ->
  wp (nvfuse_createfile d name mode dev) (fun r s' => exists ino b i' n' v0 v1, r = (NVFUSE_SUCCESS, Some ino) /\
    n' <= 2 + ix_step /\ ~ live (d_store s) ino /\ ~ live (d_store s) b /\
    st_inode (d_store s') ino = Some (init_file mode dev (d_now s) (new_inode_of ino)) /\
    dir_inv s' d b i' n' {[ key := 2 ]}
      [mk_dentry d DIR_USED v0 name_dot; mk_dentry d DIR_USED v1 name_dotdot; mk_dentry ino DIR_USED 1 name] /\
    d_locked s' = d_locked s /\ d_held s' = d_held s /\ others {[ d; b; ino ]} s s') s.
Proof.
  intros F T Hsp Hlen Hok Hn. eapply createfile_first_wp; try done.
  intros b ino i' n' v0 v1 s' Hn' Hb [M1 M2 M3 M4 _ M5 M6]. exists ino, b, i', n', v0, v1. split_and!; try done; try lia; try apply M4.
  eapply others_mono; [|exact M3]. set_solver.
Qed.

(** ** Lookup *)


(** A name whose hash another name of the directory has cannot be looked up:
    the search of nvfuse_lookup_bptree finds the other entry and ends in the
    assertion that the names are equal. *)
Theorem lookup_other_name_aborts s d b i n m es name key k e want :
  dir_inv s d b i n m es -> name_ok name key -> m !! key = Some k -> nth_entry es k = Some e -> d_filename e <> name ->
  nvfuse_lookup want name d s = None.
Proof.
  intros [D F] Hok Hm He Hn. eapply lookup_starts; [exact D|done|left].
  destruct (eo_map _ _ (dd_entries _ _ _ _ _ _ _ _ _ _ D) key k Hm) as (Hk & _).
  pose proof (nth_entry_lt _ _ _ He) as Hr. pose proof (data_len _ _ _ _ _ _ _ _ _ _ D) as (Hl1 & Hl2 & Hl3).
  destruct (data_entry _ _ _ _ _ _ _ _ _ _ _ _ D He) as [Hdent Hflag]. pose proof F as [Fd Fb Fh Fm].
  destruct (dd_blocks _ _ _ _ _ _ _ _ _ _ D (k / 32)) as (l & Hbuf & _); [dmlia|].
  unfold nvfuse_lookup_bptree. apply bind_aborts.
  eapply (get_indexing_wp (locked_dir s d)); [by eapply (data_bp (locked_dir s d))|by eapply ready_locked|exact Hok|].
  intros v. rewrite Hm, decode_small by lia. cbn beta iota. change (0 <? 0) with false. cbn iota.
  rewrite (proj2 (Z.eqb_neq k 0)) by lia. cbn [negb]. cbn iota. unfold NVFUSE_DENTRY_TO_BLK. rewrite entry_num_eq.
  apply bind_aborts. apply wp_get_bh; [unfold locked_dir; dcbn; set_solver|apply Fh|apply D; dmlia|by eexists|].
  apply bind_aborts. eapply wp_get_kth; [lia|exact Hdent|]. apply aborts_bind.
  unfold is_entry, strcmp_eq. by rewrite bool_decide_false, andb_false_r.
Qed.

(** The lookup of .. in a directory with entries never returns: the index
    hands it to nvfuse_lookup_linear, whose inner loop compares the first entry,
    ".", for ever, however many iterations it is given. *)
Theorem lookup_dotdot_hangs s d b i n m es e0 want :
  dir_inv s d b i n m es -> nth_entry es 0 = Some e0 -> d_filename e0 = name_dot ->
  nvfuse_lookup want name_dotdot d s = None /\
  (forall fuel last, 0 < last -> linear_while fuel d 0 0 last name_dotdot s = None).
Proof.
  intros [D F] He Hn. pose proof F as [Fd Fb Fh Fm]. destruct (dd_inos _ _ _ _ _ _ _ _ _ _ D) as (_ & _ & Hbd). split.
  - eapply lookup_starts; [exact D|done|right]. unfold nvfuse_lookup_bptree. wp_step.
    eapply (dots_taken (locked_dir s d)); [by eapply (data_bp (locked_dir s d))|by eapply ready_locked|by right|].
    change (0 <? 0) with false. change (0 =? 0) with true. cbn [negb]. cbn iota. wp_step. split; [done|].
    eapply (lookup_linear_diverges (tree_taken (locked_dir s d) b) d b); [exact D|unfold tree_taken, locked_dir; dcbn; set_solver| |exact He|].
    + unfold tree_taken, locked_dir. dcbn. intros [[= E]%elem_of_singleton|Hin]%elem_of_union; [done|by apply Fh in Hin].
    + rewrite Hn. done.
  - intros fuel last Hlast. destruct (data_entry _ _ _ _ _ _ _ _ _ _ _ _ D He) as [Hdent _].
    destruct (linear_while fuel d 0 0 last name_dotdot s) eqn:E; [|done]. apply linear_while_fuel in E. revert E. cbn [linear_while].
    rewrite (proj2 (Z.ltb_lt 0 last)) by done. intros E. rewrite <- E. apply bind_aborts.
    eapply (wp_get_dentry d 0 0); [rewrite entry_num_eq; lia|exact Hdent|].
    unfold is_entry, strcmp_eq. rewrite Hn, bool_decide_false by done. by rewrite andb_false_r.
Qed.

(** The index stays taken: whatever searches it next spins on its lock. *)
Lemma lookup_taken s d b nb i n m es want name :
  dir_data (d_store s) (d_bufs s) (d_index s) d b nb i n m es -> d ∉ d_locked s -> b ∈ d_locked s ->
  nvfuse_lookup want name d s = None.
Proof.
  intros D Fd Hb. destruct (dd_inode _ _ _ _ _ _ _ _ _ _ D) as (di & Hdi & Hd & Hbp & _).
  destruct (dd_inos _ _ _ _ _ _ _ _ _ _ D) as (Hrd & Hrb & Hbd). assert (i_bpino di =? 0 = false) as Hz by (unfold ROOT_INO in *; lia).
  unfold nvfuse_lookup. apply bind_aborts. eapply wp_read_inode; [done..|]. cbn [negb]. cbn iota.
  apply bind_aborts. eapply wp_get_inode; [exact Hdi|]. rewrite Hz. do 2 apply aborts_bind. unfold nvfuse_lookup_bptree. apply aborts_bind.
  unfold nvfuse_get_dir_indexing. apply bind_aborts. eapply wp_get_inode; [exact Hdi|].
  apply bind_aborts, wp_assert; [by rewrite Hz|]. apply aborts_bind. unfold bp_read_master. apply aborts_bind.
  rewrite Hbp. apply read_locked; [done|]. dcbn. set_solver.
Qed.

(** The lookup of . succeeds but leaves the inode and the master block of the
    index locked, so that the next lookup of any name in the directory never
    returns. *)
Theorem lookup_dot_leaks s d b i n m es e0 :
  dir_inv s d b i n m es -> nth_entry es 0 = Some e0 -> d_filename e0 = name_dot -> 0 < d_ino e0 < st_no_of_inodes (d_store s) ->
  wp (nvfuse_lookup false name_dot d)
    (fun r s' => r = (0, Some e0) /\ d_locked s' = {[ b ]} ∪ d_locked s /\ d_held s' = {[ (b, 0) ]} ∪ d_held s /\
       forall want name, nvfuse_lookup want name d s' = None) s.
Proof.
  intros [D F] He Hn Hino. pose proof F as [Fd Fb Fh Fm]. destruct (dd_inode _ _ _ _ _ _ _ _ _ _ D) as (di & Hdi & Hd & Hb & Hlk & _ & Hsz).
  destruct (dd_inos _ _ _ _ _ _ _ _ _ _ D) as (Hrd & Hrb & Hbd). pose proof (data_len _ _ _ _ _ _ _ _ _ _ D) as (Hl1 & Hl2 & Hl3).
  destruct (data_entry _ _ _ _ _ _ _ _ _ _ _ _ D He) as [Hdent Hflag].
  destruct (dd_blocks _ _ _ _ _ _ _ _ _ _ D 0) as (l & Hbuf & _); [lia|].
  unfold nvfuse_lookup. wp_step. eapply wp_read_inode; [done..|]. cbn [negb]. cbn iota. wp_step.
  eapply wp_get_inode; [exact Hdi|]. rewrite Hb, (proj2 (Z.eqb_neq b 0)) by (unfold ROOT_INO in *; lia).
  wp_step. wp_step. unfold nvfuse_lookup_bptree. wp_step.
  eapply (dots_taken (locked_dir s d)); [by eapply (data_bp (locked_dir s d))|by eapply ready_locked|by left|].
  cbn beta iota. change (0 <? 0) with false. change (0 =? 0) with true. cbn [negb]. cbn iota. wp_step. cbn iota.
  unfold nvfuse_lookup_linear. wp_step. eapply wp_get_inode; [exact Hdi|]. rewrite dir_size_to_blk by (rewrite Hsz, cluster_eq; lia).
  set (nb := blocks_for (len es)) in *.
  replace (i_size di / 4096) with nb by (rewrite Hsz, cluster_eq; dmlia).
  replace (Z.to_nat nb) with (S (Z.to_nat (nb - 1))) by lia. remember (Z.to_nat (nb - 1)) as k. cbn [lookup_linear_loop].
  wp_step. wp_step. apply wp_get_bh; [unfold tree_taken, locked_dir; dcbn; set_solver| |apply D; lia|by eexists|].
  { unfold tree_taken, locked_dir. dcbn. intros [[= E]%elem_of_singleton|Hin]%elem_of_union; [done|by apply Fh in Hin]. }
  wp_step. eapply wp_get_inode; [exact Hdi|]. wp_step. cbn [linear_while].
  rewrite (proj2 (Z.ltb_lt 0 _)) by (rewrite Hlk, entry_num_eq; zbool; dmlia).
  wp_step. eapply (wp_get_dentry d 0 0); [rewrite entry_num_eq; lia|exact Hdent|].
  assert (is_entry name_dot e0 = true) as -> by (by apply is_entry_self). wp_step. cbn iota. wp_step. wp_step. cbn.
  wp_step. wp_step. eapply (wp_get_dentry d 0 0); [rewrite entry_num_eq; lia|exact Hdent|]. wp_steps.
  apply wp_assert; [apply andb_true_intro; split; apply Z.ltb_lt; apply Hino|]. wp_steps. cbn [release_opt].
  apply wp_release; [dcbn; set_solver|]. wp_step. apply wp_unlock; [dcbn; set_solver|]. wp_step. dcbn.
  split; [done|]. unfold tree_taken, locked_dir. dcbn.
  assert (({[b]} ∪ ({[d]} ∪ d_locked s)) ∖ {[d]} = {[b]} ∪ d_locked s) as El by set_solver.
  split; [done|]. split; [pose proof (Fh 0); set_solver|]. intros want name.
  eapply lookup_taken; [exact D|dcbn; set_solver|dcbn; set_solver].
Qed.

(** ** Removal *)


(** ** The directory as a map *)


End theorems.

(** ** Colliding names *)

(** The index keeps the number of further names with the hash of a key in two
    bits: the fifth name with the hash brings the counter back to 0, so that the
    next removal of one of the five takes the key of all of them out of the
    index. *)
Theorem collision_counter_wraps v :
  0 <= v < 2 ^ 30 ->
  collisions (bump v) = 1 /\ collisions (bump (bump v)) = 2 /\ collisions (bump (bump (bump v))) = 3 /\
  bump (bump (bump (bump v))) = 0 /\ collisions 0 = 0.
Proof.
  intros Hv. assert (bump v = 2 ^ 30) as -> by (unfold bump; by rewrite (collisions_small v)).
  split_and!; by vm_compute.
Qed.

(** ** Examples *)


Lemma createfile_first_correct_witness :
  wp (nvfuse_createfile demo_dir name_a 420 0) (fun r s' => exists ino, r = (0, Some ino)) demo0.
Proof.
  eapply wp_mono; [eapply (createfile_first_correct demo0 demo_dir name_a (key_of name_a) 420 0);
    [exact demo0_fresh|exact demo0_taken|eapply spare_le; [|exact demo0_spare]; lia|done|exact name_a_ok|done]|].
  intros r s' (ino & _ & _ & _ & _ & _ & -> & _). by exists ino.
Defined.



(** Two names with the same hash. *)
Definition name_c : list Z := [97; 97; 97; 97; 97; 97; 97; 97; 97; 97].
Definition name_c' : list Z := [72; 115; 52; 110; 57; 97; 97; 97; 97; 97].
Lemma name_c_ok : name_ok name_c (key_of name_c). Proof. apply key_ok. by vm_compute. Qed.
Lemma name_c'_ok : name_ok name_c' (key_of name_c). Proof. assert (key_of name_c = key_of name_c') as -> by (by vm_compute). apply key_ok. by vm_compute. Qed.

Lemma lookup_other_name_aborts_witness : nvfuse_lookup false name_c' demo_dir (demo_with name_c) = None.
Proof.
  destruct (demo_with_holds name_c name_c_ok ltac:(done)) as (b & i & n & es & ino & Md & Hn & v0 & v1 & ->).
  eapply (lookup_other_name_aborts _ demo_dir b i n _ _ name_c' (key_of name_c) 2);
    [apply Md|exact name_c'_ok|apply lookup_insert_eq|reflexivity|done].
Defined.

Lemma lookup_dotdot_hangs_witness : nvfuse_lookup false name_dotdot demo_dir (demo_with name_a) = None.
Proof.
  destruct (demo_with_holds name_a name_a_ok ltac:(done)) as (b & i & n & es & ino & Md & Hn & v0 & v1 & ->).
  eapply (lookup_dotdot_hangs _ demo_dir b i n); [apply Md|reflexivity|done].
Defined.

Lemma lookup_dot_leaks_witness : wp (nvfuse_lookup false name_dot demo_dir)
  (fun _ s' => forall want name, nvfuse_lookup want name demo_dir s' = None) (demo_with name_a).
Proof.
  destruct (demo_with_holds name_a name_a_ok ltac:(done)) as (b & i & n & es & ino & Md & Hn & v0 & v1 & ->).
  eapply wp_mono; [eapply (lookup_dot_leaks _ demo_dir b i n); [apply Md|reflexivity|done|by cbn]|].
  by intros r s' (_ & _ & _ & Hx).
Defined.


Lemma collision_counter_wraps_witness : 0 <= 7 < 2 ^ 30 /\ bump (bump (bump (bump 7))) = 0.
Proof. split; [lia|]. apply (collision_counter_wraps 7). lia. Defined.

End DirThms.
