(* ===== verification/Xattr.v ===== *)
(** * Extended attributes (nvfuse_xattr.c)

    An inode ends with the bytes xattr[3972].  They hold entries one behind the
    other,
    [e_name_len (4) | e_value_size (4) | name | 0 | value | 0], and end where a
    name length is 0.  Pointers into the array are offsets; an access outside
    the array is an abnormal end ([None]).  NULL arguments are [None] of an
    option; strings are the bytes before the NUL.

    The functions run on the state of the directories with the array of every
    inode beside it; nvfuse_alloc_new_inode clears the array of a new inode. *)
From S2P Require Import Prelude Layout Mem DirHash Dir DirOps DirApi DirPath.
Import Layout Mem DirHash Dir DirOps DirApi DirPath.

Module Xattr.

(** ** Constants *)
Definition XATTR_SIZE : Z := 3972.
Definition NVFUSE_XATTR_MAX_SIZE : Z := 3968.
Definition NVFUSE_XATTR_NAME_MAX_LEN : Z := 256.
Definition NVFUSE_XATTR_VALUE_MAX_LEN : Z := 512.
(** errno.h *)
Definition ERANGE : Z := 34.

(** ** Entries *)

Definition ru32 (a : list Z) (off : Z) : option Z := le_val <$> rd a off 4.

(** struct nvfuse_xattr_entry: its two fields; the name follows. *)
Definition e_name_len (a : list Z) (e : Z) : option Z := ru32 a e.
Definition e_value_size (a : list Z) (e : Z) : option Z := ru32 a (e + 4).
Definition e_name (e : Z) : Z := e + 8.

Definition entry_size (name_len value_size : Z) : Z := 4 + 4 + (name_len + 1 + value_size) + 1.
Definition ENTRY_SIZE (a : list Z) (e : Z) : option Z :=
  n ← e_name_len a e; v ← e_value_size a e; Some (entry_size n v).
Definition XATTR_NEXT_ENTRY (a : list Z) (e : Z) : option Z := sz ← ENTRY_SIZE a e; Some (e + sz).
Definition IS_XATTR_LAST_ENTRY (a : list Z) (e : Z) : option bool := n ← e_name_len a e; Some (n =? 0).

Definition memset0 (a : list Z) (off len : Z) : option (list Z) := wr a off (replicate (Z.to_nat len) 0).
(** memmove takes the old contents of the source. *)
Definition memmove (a : list Z) (dst src len : Z) : option (list Z) := bs ← rd a src len; wr a dst bs.

(** The test in the loops: the lengths, then memcmp *)
Definition has_name (a : list Z) (here : Z) (name : list Z) : option bool :=
  n ← e_name_len a here;
  if negb (n =? u32 (strlen name)) then Some false
  else bs ← rd a (e_name here) (strlen name); Some (bool_decide (bs = name)).

(** list_for_each_xattr with the search for a name: was it found, and where did
    the loop end?  An entry takes bytes, so that [fuel] is enough when it is the
    length of the array. *)
Fixpoint find_entry (fuel : nat) (a : list Z) (here : Z) (name : list Z) : option (bool * Z) :=
  match fuel with
  | O => None
  | S fuel =>
      last ← IS_XATTR_LAST_ENTRY a here;
      if (last : bool) then Some (false, here)
      else
        found ← has_name a here name;
        if (found : bool) then Some (true, here)
        else next ← XATTR_NEXT_ENTRY a here; find_entry fuel a next name
  end.
(** The loop to the end of the entries. *)
Fixpoint find_last (fuel : nat) (a : list Z) (last : Z) : option Z :=
  match fuel with
  | O => None
  | S fuel =>
      b ← IS_XATTR_LAST_ENTRY a last;
      if (b : bool) then Some last else next ← XATTR_NEXT_ENTRY a last; find_last fuel a next
  end.

(** The part that nvfuse_set_xattr and nvfuse_remove_xattr share: the entries
    behind [here] move over it; the new end. *)
Definition remove_entry (a : list Z) (here last : Z) : option (list Z * Z) :=
  next ← XATTR_NEXT_ENTRY a here;
  shrinksize ← ENTRY_SIZE a here;
  a ← memmove a here next (last - next);
  a ← memset0 a (last - shrinksize) shrinksize;
  Some (a, last - shrinksize).

(** Copy name and value to the end. *)
Definition append_entry (a : list Z) (last : Z) (name value : list Z) : option (list Z) :=
  a ← wr a last (le_bytes 4 (u32 (strlen name)));
  a ← wr a (e_name last) name;
  a ← wr a (e_name last + strlen name + 1) value;
  wr a (last + 4) (le_bytes 4 (u32 (strlen value))).

Definition free_space (last : Z) : Z := u32 (NVFUSE_XATTR_MAX_SIZE - last).

(** The part of nvfuse_set_xattr that works on the array; the inner [None] is
    the error for want of space. *)
Definition set_entry (a name value : list Z) : option (option (list Z)) :=
  '(is_found, here) ← find_entry (length a) a 0 name;
  if negb (is_found : bool) then
    if free_space here <? entry_size (strlen name) (strlen value) then Some None
    else a ← append_entry a here name value; Some (Some a)
  else
    last ← find_last (length a) a 0;
    sz ← e_value_size a here;
    if free_space last <? u32 (strlen value - sz) then Some None
    else
      '(a, last) ← remove_entry a here last;
      a ← append_entry a last name value;
      Some (Some a).

(** nvfuse_remove_xattr on the array *)
Definition delete_entry (a name : list Z) : option (option (list Z)) :=
  '(is_found, here) ← find_entry (length a) a 0 name;
  if negb (is_found : bool) then Some None
  else
    last ← find_last (length a) a here;
    if negb (last =? here) then '(a, _) ← remove_entry a here last; Some (Some a) else Some (Some a).

(** nvfuse_get_xattr on the array: the code and the buffer.  memset on a NULL
    buffer is an abnormal end. *)
Definition get_entry (a name : list Z) (buffer : option (list Z)) (buf_size : Z) : option (Z * option (list Z)) :=
  '(is_found, last) ← find_entry (length a) a 0 name;
  if negb (is_found : bool) then Some (-1, buffer)
  else
    sz ← ENTRY_SIZE a last;
    if buf_size <? sz then Some (ERANGE, buffer)
    else
      buf ← buffer;
      buf ← memset0 buf 0 buf_size;
      bs ← rd a (e_name last) (sz - 4 - 4);
      buf ← wr buf 0 bs;
      Some (0, Some buf).

(** The loop of nvfuse_list_xattr; [pos] is the advance of [buffer]. *)
Fixpoint list_entries (fuel : nat) (a : list Z) (last : Z) (buf : list Z) (pos rest : Z) : option (Z * list Z) :=
  match fuel with
  | O => None
  | S fuel =>
      b ← IS_XATTR_LAST_ENTRY a last;
      if (b : bool) then Some (0, buf)
      else
        n ← e_name_len a last;
        if rest <? u32 (n + 1) then Some (-1, buf)
        else
          bs ← rd a (e_name last) (u32 (n + 1));
          buf ← wr buf pos bs;
          next ← XATTR_NEXT_ENTRY a last;
          list_entries fuel a next buf (pos + u32 (n + 1)) (rest - u32 (n + 1))
  end.

(** ** The functions *)

Record xst {A I : Type} := mk_xst { x_dir : dst A I; x_attrs : gmap Z (list Z) }.
Arguments xst : clear implicits.
Arguments mk_xst {A I}.

Section ops.
Context {A I : Type} `{Store A} `{Index A I}.
Context (root_ino cwd_ino : Z).
Notation XM := (M (xst A I)).
Implicit Types s : xst A I.

Definition attrs_of s (ino : Z) : list Z := default (replicate (Z.to_nat XATTR_SIZE) 0) (x_attrs s !! ino).
Definition set_attrs (ino : Z) (a : list Z) s : xst A I := mk_xst (x_dir s) (<[ ino := a ]> (x_attrs s)).
Definition xdir {X} (m : M (dst A I) X) : XM X := fun s =>
  match m (x_dir s) with Some (x, d) => Some (x, mk_xst d (x_attrs s)) | None => None end.

(** What the four functions begin with: the inode of a path, locked, or the code
    to return.  The context of a reserved inode is NULL. *)
Definition open_path (path : list Z) : XM (Z + Z) :=
  if bool_decide (path = [SLASH]) then mret (inl (-1))
  else
    '(filename, r) ← xdir (nvfuse_path_resolve root_ino cwd_ino path);
    match r with
    | None => mret (inl NVFUSE_ERROR)
    | Some d_ino' =>
        if d_ino' =? 0 then mret (inl (-1))
        else
          '(l, e) ← xdir (nvfuse_lookup true filename d_ino');
          if l <? 0 then mret (inl (-1))
          else e ← mlift e; massert (ROOT_INO <=? d_ino e);; mret (inr (d_ino e))
    end.

Definition name_len_ok (name : list Z) : bool :=
  negb ((NVFUSE_XATTR_NAME_MAX_LEN <? u32 (strlen name)) || (u32 (strlen name) <? 1)).
Definition value_len_ok (value : list Z) : bool :=
  negb ((NVFUSE_XATTR_VALUE_MAX_LEN <? u32 (strlen value)) || (u32 (strlen value) <? 1)).

(** Run on the array of the inode, release the inode; [None] is an error that
    leaves the array alone. *)
Definition change_attrs (path : list Z) (f : list Z -> option (option (list Z))) : XM Z :=
  r ← open_path path;
  match r with
  | inl code => mret code
  | inr ino =>
      s ← mget;
      r ← mlift (f (attrs_of s ino));
      match r with
      | Some a => mmodify (set_attrs ino a);; xdir (nvfuse_release_inode ino);; mret 0
      | None => xdir (nvfuse_release_inode ino);; mret (-1)
      end
  end.

(** src/nvfuse_xattr.c: nvfuse_set_xattr *)
Definition nvfuse_set_xattr (path : list Z) (name value : option (list Z)) : XM Z :=
  match name, value with
  | Some name, Some value =>
      if negb (name_len_ok name) then mret (-1)
      else if negb (value_len_ok value) then mret (-1)
      else change_attrs path (fun a => set_entry a name value)
  | _, _ => mret (-1)
  end.

(** src/nvfuse_xattr.c: nvfuse_remove_xattr *)
Definition nvfuse_remove_xattr (path : list Z) (name : option (list Z)) : XM Z :=
  match name with
  | Some name =>
      if negb (name_len_ok name) then mret (-1) else change_attrs path (fun a => delete_entry a name)
  | None => mret (-1)
  end.

(** src/nvfuse_xattr.c: nvfuse_get_xattr: the code and the buffer *)
Definition nvfuse_get_xattr (path : list Z) (name : option (list Z)) (buffer : option (list Z)) (buf_size : Z)
  : XM (Z * option (list Z)) :=
  match name with
  | Some name =>
      if negb (name_len_ok name) then mret (-1, buffer)
      else
        r ← open_path path;
        match r with
        | inl code => mret (code, buffer)
        | inr ino =>
            s ← mget;
            r ← mlift (get_entry (attrs_of s ino) name buffer buf_size);
            xdir (nvfuse_release_inode ino);;
            mret r
        end
  | None => mret (-1, buffer)
  end.

(** src/nvfuse_xattr.c: nvfuse_list_xattr *)
Definition nvfuse_list_xattr (path : list Z) (buffer : list Z) (buf_size : Z) : XM (Z * list Z) :=
  r ← open_path path;
  match r with
  | inl code => mret (code, buffer)
  | inr ino =>
      s ← mget;
      buf ← mlift (memset0 buffer 0 buf_size);
      let a := attrs_of s ino in
      r ← mlift (list_entries (length a) a 0 buf 0 buf_size);
      xdir (nvfuse_release_inode ino);;
      mret r
  end.

End ops.
End Xattr.
