(* ===== verification/XattrSpec.v ===== *)
(** * Extended attributes: the array as a list of pairs

    [array l] are the bytes for the list [l] of names and values; every
    operation on the array is an operation on the list. *)
From S2P Require Import Prelude Layout Mem DirHash Dir DirOps DirApi DirPath Xattr.
Import Layout Mem Dir Xattr.

Module XattrSpec.

Notation attr := (list Z * list Z)%type.
Implicit Types (l : list attr) (p : attr) (n v : list Z) (k : nat).

Definition esize p : Z := entry_size (strlen p.1) (strlen p.2).
Definition enc1 p : list Z := le_bytes 4 (strlen p.1) ++ le_bytes 4 (strlen p.2) ++ p.1 ++ [0] ++ p.2 ++ [0].
Definition enc l : list Z := concat (enc1 <$> l).
Definition total l : Z := Zsum esize l.
Definition zeros k : list Z := replicate k 0.
Definition array l : list Z := enc l ++ zeros (Z.to_nat (XATTR_SIZE - total l)).

Definition good p : Prop := 1 <= strlen p.1 <= NVFUSE_XATTR_NAME_MAX_LEN /\ 1 <= strlen p.2 <= NVFUSE_XATTR_VALUE_MAX_LEN.

(** [l] fits into the array and no name occurs twice. *)
Record attrs_ok l : Prop := {
  ao_good : Forall good l;
  ao_size : total l <= NVFUSE_XATTR_MAX_SIZE;
  ao_names : NoDup l.*1 }.

(** The value of a name. *)
Definition attr_map l : gmap (list Z) (list Z) := list_to_map l.
Definition value_of l n : option (list Z) := attr_map l !! n.

Definition drop_name n l : list attr := filter (fun p => p.1 <> n) l.

(** The check for space: a value is replaced only by one that is not shorter. *)
Definition room l n v : bool :=
  match value_of l n with
  | None => total l + esize (n, v) <=? NVFUSE_XATTR_MAX_SIZE
  | Some v0 => (strlen v0 <=? strlen v) && (total l + (strlen v - strlen v0) <=? NVFUSE_XATTR_MAX_SIZE)
  end.

(** ** Bytes at a position *)

Lemma rd_app a1 a2 a3 off len : off = Z.of_nat (length a1) -> len = Z.of_nat (length a2) -> rd (a1 ++ a2 ++ a3) off len = Some a2.
Proof.
  intros -> ->. rewrite rd_Some by (rewrite ?length_app; lia). f_equal. rewrite !Nat2Z.id.
  by rewrite drop_app_length, take_app_length.
Qed.

Lemma wr_app a1 a2 a3 off bs : off = Z.of_nat (length a1) -> length bs = length a2 ->
  wr (a1 ++ a2 ++ a3) off bs = Some (a1 ++ bs ++ a3).
Proof.
  intros -> Hl. unfold wr. rewrite (proj2 (in_obj_true _ _ _)) by (rewrite !length_app; lia).
  rewrite Nat2Z.id, take_app_length. do 3 f_equal. rewrite Hl.
  by rewrite app_assoc, drop_app_length' by (rewrite length_app; lia).
Qed.

Lemma ru32_le a1 a3 off x : off = Z.of_nat (length a1) -> 0 <= x < 2 ^ 32 -> ru32 (a1 ++ le_bytes 4 x ++ a3) off = Some x.
Proof.
  intros -> Hx. unfold ru32. rewrite (rd_app _ (le_bytes 4 x)) by done. cbn [fmap option_fmap option_map]. f_equal.
  rewrite le_val_bytes. apply Z.mod_small. lia.
Qed.

Lemma strlen_nonneg (a : list Z) : 0 <= strlen a.
Proof. unfold strlen. lia. Qed.
Lemma strlen_app (a b : list Z) : strlen (a ++ b) = strlen a + strlen b.
Proof. unfold strlen. rewrite length_app. lia. Qed.

Lemma length_enc1 p : Z.of_nat (length (enc1 p)) = esize p.
Proof. unfold enc1, esize, entry_size, strlen. rewrite !length_app, !length_le_bytes. cbn [length]. lia. Qed.

Lemma length_enc l : Z.of_nat (length (enc l)) = total l.
Proof.
  induction l as [|p l IH]; [done|]. change (enc (p :: l)) with (enc1 p ++ enc l).
  change (total (p :: l)) with (esize p + total l). rewrite length_app. pose proof (length_enc1 p). lia.
Qed.

Lemma enc_app l1 l2 : enc (l1 ++ l2) = enc l1 ++ enc l2.
Proof. unfold enc. by rewrite fmap_app, concat_app. Qed.
Lemma enc_cons p l : enc (p :: l) = enc1 p ++ enc l.
Proof. done. Qed.
Lemma total_app l1 l2 : total (l1 ++ l2) = total l1 + total l2.
Proof. apply Zsum_app. Qed.
Lemma total_cons p l : total (p :: l) = esize p + total l.
Proof. done. Qed.
Lemma enc_snoc l p : enc (l ++ [p]) = enc l ++ enc1 p.
Proof. by rewrite enc_app, enc_cons, app_nil_r. Qed.
Lemma total_snoc l p : total (l ++ [p]) = total l + esize p.
Proof. rewrite total_app, total_cons. unfold total at 2. cbn [Zsum foldr]. lia. Qed.
Lemma snoc_cons l p l2 : (l ++ [p]) ++ l2 = l ++ p :: l2.
Proof. by rewrite <- app_assoc. Qed.

Lemma esize_pos p : 10 <= esize p.
Proof. unfold esize, entry_size. pose proof (strlen_nonneg p.1). pose proof (strlen_nonneg p.2). lia. Qed.
Lemma total_nonneg l : 10 * Z.of_nat (length l) <= total l.
Proof. induction l as [|p l IH]; [done|]. rewrite total_cons. pose proof (esize_pos p). simpl length. lia. Qed.

Lemma length_zeros k : length (zeros k) = k.
Proof. apply length_replicate. Qed.
Lemma zeros_add (j k : nat) : zeros (j + k) = zeros j ++ zeros k.
Proof. apply replicate_add. Qed.

(** ** An entry and the end *)

Definition small p : Prop := 1 <= strlen p.1 < 2 ^ 32 /\ strlen p.2 < 2 ^ 32.

Lemma good_small p : good p -> small p.
Proof. unfold good, small, NVFUSE_XATTR_NAME_MAX_LEN, NVFUSE_XATTR_VALUE_MAX_LEN. lia. Qed.

Section entry.
Context (a1 a3 : list Z) (p : attr) (off : Z).
Context (Hoff : off = Z.of_nat (length a1)) (Hp : small p).
Let a := a1 ++ enc1 p ++ a3.

Lemma entry_name_len : e_name_len a off = Some (strlen p.1).
Proof. unfold a, enc1, e_name_len. rewrite <- !app_assoc. apply ru32_le; [done|]. destruct Hp. lia. Qed.

Lemma entry_value_size : e_value_size a off = Some (strlen p.2).
Proof.
  unfold a, enc1, e_value_size. rewrite <- !app_assoc, (app_assoc a1). apply ru32_le.
  - rewrite length_app, length_le_bytes. lia.
  - pose proof (strlen_nonneg p.2). destruct Hp. lia.
Qed.

Lemma entry_size_at : ENTRY_SIZE a off = Some (esize p).
Proof. unfold ENTRY_SIZE. by rewrite entry_name_len, entry_value_size. Qed.

Lemma entry_next : XATTR_NEXT_ENTRY a off = Some (off + esize p).
Proof. unfold XATTR_NEXT_ENTRY. by rewrite entry_size_at. Qed.

Lemma entry_not_last : IS_XATTR_LAST_ENTRY a off = Some false.
Proof. unfold IS_XATTR_LAST_ENTRY. rewrite entry_name_len. simpl. f_equal. destruct Hp. lia. Qed.

(** Name, NUL, value, NUL *)
Definition payload p : list Z := p.1 ++ [0] ++ p.2 ++ [0].

Lemma entry_payload (b1 b2 : list Z) len : payload p = b1 ++ b2 -> len = Z.of_nat (length b1) -> rd a (e_name off) len = Some b1.
Proof.
  intros E ->. unfold a, enc1, e_name. fold (payload p). rewrite E, <- !app_assoc.
  rewrite (app_assoc (le_bytes 4 (strlen p.1))), (app_assoc a1). apply rd_app; [|done].
  rewrite !length_app, !length_le_bytes. lia.
Qed.

Lemma entry_name n : strlen n < 2 ^ 32 -> has_name a off n = Some (bool_decide (p.1 = n)).
Proof.
  intros Hn. unfold has_name. rewrite entry_name_len. cbn [mbind option_bind].
  rewrite u32_small by (pose proof (strlen_nonneg n); lia). destruct (Z.eqb_spec (strlen p.1) (strlen n)) as [E|E]; cbn [negb].
  - by rewrite (entry_payload p.1 ([0] ++ p.2 ++ [0])) by done.
  - rewrite bool_decide_false; [done|]. intros F. by rewrite F in E.
Qed.
End entry.

Lemma zeros_last a1 k off : off = Z.of_nat (length a1) -> (4 <= k)%nat -> IS_XATTR_LAST_ENTRY (a1 ++ zeros k) off = Some true.
Proof.
  intros -> Hk. unfold IS_XATTR_LAST_ENTRY, e_name_len, ru32. replace k with (4 + (k - 4))%nat by lia. rewrite zeros_add.
  by rewrite rd_app.
Qed.

(** ** The loops *)

Lemma find_last_array l1 l2 k fuel : Forall small l2 -> (4 <= k)%nat -> (length l2 < fuel)%nat ->
  find_last fuel (enc l1 ++ enc l2 ++ zeros k) (total l1) = Some (total (l1 ++ l2)).
Proof.
  intros Hs Hk. revert l1 fuel. induction Hs as [|p l2 Hp Hs IH]; intros l1 [|fuel] Hf; simpl in Hf; try lia; cbn [find_last].
  - change (enc []) with ([] : list Z). rewrite app_nil_l, zeros_last by (rewrite ?length_enc; done). by rewrite app_nil_r.
  - rewrite enc_cons, <- app_assoc. rewrite entry_not_last by (rewrite ?length_enc; done). cbn [mbind option_bind].
    rewrite entry_next by (rewrite ?length_enc; done). cbn [mbind option_bind].
    specialize (IH (l1 ++ [p]) fuel). rewrite enc_snoc, total_snoc, snoc_cons, <- app_assoc in IH. by rewrite IH by lia.
Qed.

(** The search skips entries with other names. *)
Lemma find_skip l1 l2 rest n fuel : Forall small l2 -> strlen n < 2 ^ 32 -> n ∉ l2.*1 ->
  find_entry (length l2 + fuel) (enc l1 ++ enc l2 ++ rest) (total l1) n =
  find_entry fuel (enc (l1 ++ l2) ++ rest) (total (l1 ++ l2)) n.
Proof.
  intros Hs Hn. revert l1. induction Hs as [|p l2 Hp Hs IH]; intros l1 Hnin.
  - by rewrite app_nil_r.
  - rewrite fmap_cons, not_elem_of_cons in Hnin. destruct Hnin as [Hne Hnin].
    cbn [length plus find_entry]. rewrite enc_cons, <- app_assoc.
    rewrite entry_not_last by (rewrite ?length_enc; done). cbn [mbind option_bind].
    rewrite entry_name by (rewrite ?length_enc; done). cbn [mbind option_bind]. rewrite bool_decide_false by done.
    rewrite entry_next by (rewrite ?length_enc; done). cbn [mbind option_bind].
    specialize (IH (l1 ++ [p]) Hnin). by rewrite enc_snoc, total_snoc, snoc_cons, <- app_assoc in IH.
Qed.

(** ** A list and one of its names *)

Lemma split_name l n : n ∈ l.*1 -> exists l1 v l2, l = l1 ++ (n, v) :: l2 /\ n ∉ l1.*1.
Proof.
  induction l as [|[n' v] l IH]; [by intros ?%elem_of_nil|]. destruct (decide (n = n')) as [<-|Hne].
  - intros _. exists [], v, l. split; [done|]. apply not_elem_of_nil.
  - intros [?|Hin]%elem_of_cons; [done|]. destruct (IH Hin) as (l1 & v1 & l2 & -> & Hn). exists ((n', v) :: l1), v1, l2.
    split; [done|]. rewrite fmap_cons. by apply not_elem_of_cons.
Qed.

Lemma value_missing l n : n ∉ l.*1 -> value_of l n = None.
Proof. apply not_elem_of_list_to_map_1. Qed.

Lemma value_split l1 l2 n v : n ∉ l1.*1 -> value_of (l1 ++ (n, v) :: l2) n = Some v.
Proof.
  intros Hn. unfold value_of, attr_map. rewrite list_to_map_app, lookup_union_r by by apply not_elem_of_list_to_map_1.
  apply lookup_insert_eq.
Qed.

Lemma drop_name_none l n : n ∉ l.*1 -> drop_name n l = l.
Proof.
  induction l as [|p l IH]; [done|]. rewrite fmap_cons, not_elem_of_cons. intros [Hp Hl]. unfold drop_name.
  rewrite filter_cons_True by congruence. f_equal. by apply IH.
Qed.

Lemma drop_name_split l1 l2 n v : n ∉ l1.*1 -> n ∉ l2.*1 -> drop_name n (l1 ++ (n, v) :: l2) = l1 ++ l2.
Proof.
  intros H1 H2. unfold drop_name. rewrite filter_app, filter_cons_False by (simpl; tauto).
  fold (drop_name n l1). fold (drop_name n l2). by rewrite !drop_name_none.
Qed.

Lemma drop_name_notin n l : n ∉ (drop_name n l).*1.
Proof. intros (p & -> & Hp)%list_elem_of_fmap. unfold drop_name in Hp. by apply list_elem_of_filter in Hp as [? _]. Qed.

(** What a list with a name looks like around it. *)
Lemma names_split l1 l2 n v : NoDup (l1 ++ (n, v) :: l2).*1 -> n ∉ l1.*1 /\ n ∉ l2.*1.
Proof.
  rewrite fmap_app, fmap_cons. cbn [fst]. intros (_ & Hd & [? _]%NoDup_cons)%NoDup_app. split; [|done].
  intros Hin. apply (Hd _ Hin). apply elem_of_cons. by left.
Qed.

Lemma attr_map_drop l n : attr_map (drop_name n l) = delete n (attr_map l).
Proof.
  unfold attr_map, drop_name. induction l as [|[n' v] l IH]; [cbn; by rewrite delete_empty|].
  rewrite filter_cons. case_decide as Hn; cbn [fst] in Hn; rewrite !list_to_map_cons, IH.
  - by rewrite delete_insert_ne.
  - destruct (decide (n' = n)) as [->|]; [|tauto]. by rewrite delete_insert_eq.
Qed.

Lemma attr_map_snoc l n v : n ∉ l.*1 -> attr_map (l ++ [(n, v)]) = <[ n := v ]> (attr_map l).
Proof. apply list_to_map_snoc. Qed.

(** ** The search in an array *)

Section search.
Context l (Hl : attrs_ok l).

Lemma all_small : Forall small l.
Proof. eapply Forall_impl; [apply Hl|]. apply good_small. Qed.

Lemma length_le : 10 * Z.of_nat (length l) <= NVFUSE_XATTR_MAX_SIZE.
Proof. pose proof (total_nonneg l). pose proof (ao_size _ Hl). lia. Qed.

Lemma length_array : length (array l) = Z.to_nat XATTR_SIZE.
Proof.
  unfold array. rewrite length_app, length_zeros. pose proof (length_enc l). pose proof (total_nonneg l).
  pose proof (ao_size _ Hl). unfold XATTR_SIZE, NVFUSE_XATTR_MAX_SIZE in *. lia.
Qed.

Lemma tail_room : (4 <= Z.to_nat (XATTR_SIZE - total l))%nat.
Proof. pose proof (ao_size _ Hl). unfold XATTR_SIZE, NVFUSE_XATTR_MAX_SIZE in *. lia. Qed.

Lemma fuel_split (k : nat) : 10 * Z.of_nat k <= 3968 -> exists f, Z.to_nat XATTR_SIZE = (k + S f)%nat.
Proof. exists (Z.to_nat (XATTR_SIZE - Z.of_nat k - 1)). unfold XATTR_SIZE. lia. Qed.

Lemma find_none n : strlen n < 2 ^ 32 -> n ∉ l.*1 -> find_entry (length (array l)) (array l) 0 n = Some (false, total l).
Proof.
  intros Hn Hnin. pose proof length_le. unfold NVFUSE_XATTR_MAX_SIZE in *. pose proof tail_room as Hk.
  rewrite length_array. destruct (fuel_split (length l)) as [f ->]; [lia|].
  pose proof (find_skip [] l (zeros (Z.to_nat (XATTR_SIZE - total l))) n (S f) all_small Hn Hnin) as E.
  cbn [app] in E. change (enc []) with ([] : list Z) in E. rewrite app_nil_l in E. unfold array at 1.
  etrans; [exact E|]. cbn [find_entry]. rewrite zeros_last by (rewrite ?length_enc; done). done.
Qed.

Lemma find_some l1 v l2 n : l = l1 ++ (n, v) :: l2 -> strlen n < 2 ^ 32 ->
  find_entry (length (array l)) (array l) 0 n = Some (true, total l1).
Proof.
  intros E0 Hn. pose proof length_le as Hlen. unfold NVFUSE_XATTR_MAX_SIZE in *.
  pose proof all_small as Hs. rewrite E0 in Hs. apply Forall_app in Hs as [Hs1 Hs2%Forall_cons]. destruct Hs2 as [Hsp _].
  pose proof (ao_names _ Hl) as Hnd. rewrite E0 in Hnd. apply names_split in Hnd as [H1 H2].
  rewrite E0, length_app in Hlen. simpl in Hlen.
  rewrite length_array. destruct (fuel_split (length l1)) as [f ->]; [lia|].
  set (rest := enc1 (n, v) ++ enc l2 ++ zeros (Z.to_nat (XATTR_SIZE - total l))).
  assert (array l = enc l1 ++ rest) as ->.
  { unfold array, rest. rewrite E0 at 1. by rewrite enc_app, enc_cons, <- !app_assoc. }
  pose proof (find_skip [] l1 rest n (S f) Hs1 Hn H1) as E.
  cbn [app] in E. change (enc []) with ([] : list Z) in E. rewrite app_nil_l in E. etrans; [exact E|]. cbn [find_entry]. unfold rest.
  rewrite entry_not_last by (rewrite ?length_enc; done). cbn [mbind option_bind].
  rewrite entry_name by (rewrite ?length_enc; done). cbn [mbind option_bind fst]. by rewrite bool_decide_true.
Qed.

Lemma last_of l1 l2 : l = l1 ++ l2 -> find_last (length (array l)) (array l) (total l1) = Some (total l).
Proof.
  intros E0. pose proof length_le as Hlen. unfold NVFUSE_XATTR_MAX_SIZE in *. pose proof tail_room as Hk.
  pose proof all_small as Hs. rewrite E0 in Hs. apply Forall_app in Hs as [Hs1 Hs2]. rewrite length_array.
  rewrite E0, length_app in Hlen. pose proof (find_last_array l1 l2 (Z.to_nat (XATTR_SIZE - total l)) (Z.to_nat XATTR_SIZE) Hs2 Hk) as E.
  rewrite <- E0 in E. unfold array. rewrite E0 at 1. rewrite enc_app, <- app_assoc. apply E. unfold XATTR_SIZE. lia.
Qed.
End search.

(** ** Removal and addition of an entry *)

(** The entries behind one move over it; what they leave is cleared. *)
Lemma remove_entry_array l1 p l2 k : small p ->
  remove_entry (enc l1 ++ enc1 p ++ enc l2 ++ zeros k) (total l1) (total (l1 ++ p :: l2)) =
  Some (enc (l1 ++ l2) ++ zeros (Z.to_nat (esize p) + k), total (l1 ++ l2)).
Proof.
  intros Hp. unfold remove_entry. rewrite entry_next, entry_size_at by (rewrite ?length_enc; done). cbn [mbind option_bind].
  unfold memmove, memset0. rewrite total_app, total_cons.
  replace (total l1 + (esize p + total l2) - (total l1 + esize p)) with (total l2) by lia.
  replace (total l1 + (esize p + total l2) - esize p) with (total l1 + total l2) by lia.
  rewrite (app_assoc (enc l1)). rewrite (rd_app (enc l1 ++ enc1 p) (enc l2) (zeros k)).
  2:{ rewrite length_app, Nat2Z.inj_add, length_enc, length_enc1. lia. }
  2:{ by rewrite length_enc. }
  cbn [mbind option_bind]. rewrite <- app_assoc.
  set (x := enc1 p ++ enc l2). assert (length x = length (enc l2) + length (enc1 p))%nat as Hx.
  { unfold x. rewrite length_app. lia. }
  pose proof (length_enc l1). pose proof (length_enc l2). pose proof (length_enc1 p).
  assert (enc1 p ++ enc l2 ++ zeros k = take (length (enc l2)) x ++ drop (length (enc l2)) x ++ zeros k) as ->.
  { rewrite (app_assoc (enc1 p)). fold x. by rewrite (app_assoc (take _ x)), take_drop. }
  rewrite wr_app; [|by rewrite length_enc|rewrite length_take; lia]. cbn [mbind option_bind].
  rewrite (app_assoc (enc l1)), wr_app; [|rewrite length_app; lia|rewrite length_replicate, length_drop; lia].
  cbn [mbind option_bind]. rewrite zeros_add, enc_app, total_app, <- !app_assoc. done.
Qed.

Lemma append_entry_array l k n v : strlen n < 2 ^ 32 -> strlen v < 2 ^ 32 -> esize (n, v) <= Z.of_nat k ->
  append_entry (enc l ++ zeros k) (total l) n v = Some (enc (l ++ [(n, v)]) ++ zeros (k - Z.to_nat (esize (n, v)))).
Proof.
  intros Hn Hv Hk. pose proof (strlen_nonneg n). pose proof (strlen_nonneg v).
  assert (esize (n, v) = strlen n + strlen v + 10) as He by (unfold esize, entry_size; cbn [fst snd]; lia).
  set (r := (k - Z.to_nat (esize (n, v)))%nat). pose proof (length_enc l) as Hlen.
  assert (zeros k = zeros 4 ++ zeros 4 ++ zeros (length n) ++ zeros 1 ++ zeros (length v) ++ zeros 1 ++ zeros r) as ->.
  { rewrite <- !zeros_add. f_equal. unfold r, strlen in *. lia. }
  unfold append_entry, e_name. rewrite !u32_small by lia.
  rewrite wr_app by (rewrite ?length_le_bytes, ?length_zeros; done). cbn [mbind option_bind].
  set (x1 := le_bytes 4 (strlen n)). assert (length x1 = 4%nat) as Hx1 by apply length_le_bytes.
  rewrite (app_assoc x1), (app_assoc (enc l)).
  rewrite wr_app; [|rewrite !length_app, length_zeros; lia|by rewrite length_zeros]. cbn [mbind option_bind].
  rewrite <- !app_assoc.
  assert (enc l ++ x1 ++ zeros 4 ++ n ++ zeros 1 ++ zeros (length v) ++ zeros 1 ++ zeros r =
          (enc l ++ x1 ++ zeros 4 ++ n ++ zeros 1) ++ zeros (length v) ++ zeros 1 ++ zeros r) as -> by by rewrite <- !app_assoc.
  rewrite wr_app; [|rewrite !length_app, !length_zeros; unfold strlen; lia|by rewrite length_zeros]. cbn [mbind option_bind].
  rewrite <- !app_assoc, (app_assoc (enc l)). rewrite wr_app; [|rewrite length_app; lia|by rewrite length_le_bytes].
  f_equal. rewrite enc_snoc. unfold enc1. cbn [fst snd]. fold x1. by rewrite <- !app_assoc.
Qed.

(** ** The operations on the array *)

Definition set_attr n v l : list attr := drop_name n l ++ [(n, v)].

Lemma array_fits l k : total l <= XATTR_SIZE -> k = Z.to_nat (XATTR_SIZE - total l) -> enc l ++ zeros k = array l.
Proof. by intros _ ->. Qed.

Lemma attrs_ok_nil : attrs_ok [].
Proof. split; [constructor|done|constructor]. Qed.

Lemma total_drop n l : total (drop_name n l) <= total l.
Proof.
  unfold drop_name. induction l as [|p l IH]; [done|]. rewrite filter_cons. case_decide; rewrite !total_cons; [lia|].
  pose proof (esize_pos p). lia.
Qed.

Lemma attrs_ok_drop n l : attrs_ok l -> attrs_ok (drop_name n l).
Proof.
  intros [H1 H2 H3]. split.
  - apply Forall_forall. intros p [_ Hp]%list_elem_of_filter. revert p Hp. by apply Forall_forall.
  - pose proof (total_drop n l). lia.
  - revert H3. unfold drop_name. clear. induction l as [|p l IH]; [done|]. rewrite fmap_cons. intros [Hp Hl]%NoDup_cons.
    rewrite filter_cons. case_decide; [|by apply IH]. rewrite fmap_cons. apply NoDup_cons. split; [|by apply IH].
    intros (q & E & Hq)%list_elem_of_fmap. apply list_elem_of_filter in Hq as [_ Hq]. apply Hp. rewrite E. by apply list_elem_of_fmap_2.
Qed.

Lemma attrs_ok_add n v l : attrs_ok l -> good (n, v) -> n ∉ l.*1 -> total l + esize (n, v) <= NVFUSE_XATTR_MAX_SIZE ->
  attrs_ok (l ++ [(n, v)]).
Proof.
  intros [H1 H2 H3] Hg Hn Hs. split.
  - apply Forall_app. split; [done|]. by constructor.
  - by rewrite total_snoc.
  - rewrite fmap_app. apply NoDup_app. split; [done|]. split; [|apply NoDup_singleton].
    intros x Hx ->%list_elem_of_singleton. done.
Qed.

Lemma free_space_eq l : attrs_ok l -> free_space (total l) = NVFUSE_XATTR_MAX_SIZE - total l.
Proof.
  intros H. unfold free_space. apply u32_small. pose proof (ao_size _ H). pose proof (total_nonneg l).
  unfold NVFUSE_XATTR_MAX_SIZE in *. lia.
Qed.

Lemma total_replaced l1 l2 n v0 v : total (l1 ++ (n, v0) :: l2) = total (l1 ++ l2) + esize (n, v) + strlen v0 - strlen v.
Proof. rewrite !total_app, total_cons. unfold esize, entry_size. cbn [fst snd]. lia. Qed.

(** An entry in the middle of an array, and an entry added to one *)
Section middle.
Context l l1 n v0 l2 (Hl : attrs_ok l) (E : l = l1 ++ (n, v0) :: l2).

Lemma array_middle : array l = enc l1 ++ enc1 (n, v0) ++ enc l2 ++ zeros (Z.to_nat (XATTR_SIZE - total l)).
Proof. unfold array. rewrite E at 1. by rewrite enc_app, enc_cons, <- !app_assoc. Qed.

Lemma middle_small : small (n, v0).
Proof. pose proof (all_small _ Hl) as Hs. rewrite E in Hs. apply Forall_app in Hs as [_ Hs]. by inversion Hs. Qed.

Lemma middle_value : e_value_size (array l) (total l1) = Some (strlen v0).
Proof. rewrite array_middle. by rewrite entry_value_size by (rewrite ?length_enc; done || apply middle_small). Qed.

Lemma middle_removed : remove_entry (array l) (total l1) (total l) = Some (array (l1 ++ l2), total (l1 ++ l2)).
Proof.
  rewrite array_middle. rewrite E at 2. rewrite remove_entry_array by apply middle_small. f_equal. f_equal. unfold array. do 2 f_equal.
  pose proof (ao_size _ Hl) as Hs. rewrite E in Hs |- *. rewrite !total_app, total_cons in *. pose proof (esize_pos (n, v0)).
  unfold NVFUSE_XATTR_MAX_SIZE, XATTR_SIZE in *. lia.
Qed.
End middle.

Lemma array_append l n v : attrs_ok l -> good (n, v) -> total l + esize (n, v) <= NVFUSE_XATTR_MAX_SIZE ->
  append_entry (array l) (total l) n v = Some (array (l ++ [(n, v)])).
Proof.
  intros Hl Hg Hs. destruct (good_small _ Hg) as [H1 H2]. cbn [fst snd] in *. unfold array, NVFUSE_XATTR_MAX_SIZE, XATTR_SIZE in *.
  rewrite append_entry_array by lia. rewrite total_snoc. do 3 f_equal. pose proof (esize_pos (n, v)). lia.
Qed.

Section ops.
Context l n (Hl : attrs_ok l) (Hn : strlen n < 2 ^ 32).

Lemma set_entry_array v : good (n, v) ->
  set_entry (array l) n v = Some (if room l n v then Some (array (set_attr n v l)) else None) /\
  (room l n v = true -> attrs_ok (set_attr n v l)).
Proof.
  intros Hg. pose proof Hg as [Hgn Hgv]. cbn [fst snd] in *. unfold NVFUSE_XATTR_NAME_MAX_LEN, NVFUSE_XATTR_VALUE_MAX_LEN in *.
  pose proof (ao_size _ Hl) as Hs. pose proof (total_nonneg l) as Hnn. unfold set_entry, room, set_attr.
  destruct (decide (n ∈ l.*1)) as [Hin|Hin].
  - destruct (split_name _ _ Hin) as (l1 & v0 & l2 & E & H1). pose proof (ao_names _ Hl) as Hnd. rewrite E in Hnd.
    apply names_split in Hnd as [_ H2]. rewrite (find_some l Hl l1 v0 l2 n E Hn). cbn [mbind option_bind negb].
    pose proof (last_of l Hl [] l eq_refl) as El. change (total []) with 0 in El. rewrite El. cbn [mbind option_bind].
    rewrite (middle_value l l1 n v0 l2) by done. cbn [mbind option_bind]. rewrite free_space_eq by done.
    assert (drop_name n l = l1 ++ l2) as Ed by (rewrite E; by apply drop_name_split).
    assert (value_of l n = Some v0) as -> by (rewrite E; by apply value_split).
    assert (total l = total (l1 ++ l2) + esize (n, v) + strlen v0 - strlen v) as Et by (rewrite E; apply total_replaced).
    pose proof (attrs_ok_drop n l Hl) as Hd. rewrite Ed in Hd.
    assert (1 <= strlen v0 <= 512) as Hv0.
    { pose proof (ao_good _ Hl) as Hgl. rewrite E in Hgl. apply Forall_app in Hgl as [_ Hgl]. inversion Hgl as [|? ? [? Hv] _]. exact Hv. }
    unfold NVFUSE_XATTR_MAX_SIZE in *. rewrite (middle_removed l l1 n v0 l2) by done. cbn [mbind option_bind]. rewrite Ed.
    destruct (Z.leb_spec (strlen v0) (strlen v)) as [Hle|Hgt]; cbn [andb].
    + rewrite u32_small by lia. destruct (Z.leb_spec (total l + (strlen v - strlen v0)) 3968); [|rewrite (proj2 (Z.ltb_lt _ _)) by lia; done].
      rewrite (proj2 (Z.ltb_ge _ _)) by lia. rewrite array_append by (done || unfold NVFUSE_XATTR_MAX_SIZE; lia).
      split; [done|]. intros _. rewrite <- Ed. apply attrs_ok_add; [by apply attrs_ok_drop|done|apply drop_name_notin|].
      rewrite Ed. unfold NVFUSE_XATTR_MAX_SIZE. lia.
    + rewrite (proj2 (Z.ltb_lt _ _)); [done|]. unfold u32. dmlia.
  - rewrite find_none by done. cbn [mbind option_bind negb]. rewrite free_space_eq, drop_name_none, value_missing by done.
    change (entry_size (strlen n) (strlen v)) with (esize (n, v)). unfold NVFUSE_XATTR_MAX_SIZE in *.
    destruct (Z.leb_spec (total l + esize (n, v)) 3968); [|rewrite (proj2 (Z.ltb_lt _ _)) by lia; done].
    rewrite (proj2 (Z.ltb_ge _ _)) by lia. rewrite array_append by (done || unfold NVFUSE_XATTR_MAX_SIZE; lia).
    split; [done|]. intros _. by apply attrs_ok_add.
Qed.

Lemma delete_entry_array :
  delete_entry (array l) n = Some (if bool_decide (n ∈ l.*1) then Some (array (drop_name n l)) else None).
Proof.
  unfold delete_entry. case_bool_decide as Hin; [|by rewrite find_none].
  destruct (split_name _ _ Hin) as (l1 & v0 & l2 & E & H1). pose proof (ao_names _ Hl) as Hnd. rewrite E in Hnd.
  apply names_split in Hnd as [_ H2]. rewrite (find_some l Hl l1 v0 l2 n E Hn). cbn [mbind option_bind negb].
  rewrite (last_of l Hl l1 ((n, v0) :: l2) E). cbn [mbind option_bind].
  assert (total l <> total l1) as Hne.
  { rewrite E, total_app, total_cons. pose proof (esize_pos (n, v0)). pose proof (total_nonneg l2). lia. }
  rewrite (proj2 (Z.eqb_neq _ _)) by done. cbn [negb]. rewrite (middle_removed l l1 n v0 l2) by done. cbn [mbind option_bind].
  by rewrite E, drop_name_split.
Qed.

(** What nvfuse_get_xattr leaves in a buffer of [size] bytes: name and value with
    their NULs, if the whole entry would fit. *)
Definition got (v : list Z) (buf : list Z) : Z * list Z :=
  let size := Z.of_nat (length buf) in
  if size <? esize (n, v) then (ERANGE, buf)
  else (0, payload (n, v) ++ zeros (Z.to_nat (size - (strlen n + strlen v + 2)))).

Lemma memset0_all (buf : list Z) : memset0 buf 0 (Z.of_nat (length buf)) = Some (zeros (length buf)).
Proof.
  unfold memset0. rewrite Nat2Z.id. pose proof (wr_app [] buf [] 0 (zeros (length buf)) eq_refl (length_zeros _)) as E.
  by rewrite !app_nil_r in E.
Qed.

Lemma get_entry_array (buf : list Z) :
  get_entry (array l) n (Some buf) (Z.of_nat (length buf)) =
  Some (match value_of l n with Some v => let r := got v buf in (r.1, Some r.2) | None => (-1, Some buf) end).
Proof.
  unfold get_entry. destruct (decide (n ∈ l.*1)) as [Hin|Hin].
  2:{ rewrite find_none by done. cbn [mbind option_bind negb]. by rewrite value_missing. }
  destruct (split_name _ _ Hin) as (l1 & v & l2 & E & H1). rewrite (find_some l Hl l1 v l2 n E Hn). cbn [mbind option_bind negb].
  assert (value_of l n = Some v) as -> by (rewrite E; by apply value_split).
  rewrite (array_middle l l1 n v l2 E). assert (small (n, v)) as Hs by (by eapply (middle_small l)).
  rewrite entry_size_at by (rewrite ?length_enc; done). cbn [mbind option_bind]. unfold got.
  destruct (Z.ltb_spec (Z.of_nat (length buf)) (esize (n, v))) as [Hb|Hb]; [done|]. rewrite memset0_all. cbn [mbind option_bind].
  assert (esize (n, v) = strlen n + strlen v + 10) as He by (unfold esize, entry_size; cbn [fst snd]; lia).
  pose proof (strlen_nonneg n). pose proof (strlen_nonneg v).
  assert (Z.of_nat (length (payload (n, v))) = strlen n + strlen v + 2) as Hp.
  { unfold payload, strlen. rewrite !length_app. cbn [length fst snd]. lia. }
  rewrite (entry_payload _ _ (n, v) _ ltac:(by rewrite length_enc) (payload (n, v)) []) by (rewrite ?app_nil_r; done || lia).
  cbn [mbind option_bind]. set (r := Z.to_nat (Z.of_nat (length buf) - (strlen n + strlen v + 2))).
  assert (zeros (length buf) = [] ++ zeros (length (payload (n, v))) ++ zeros r) as ->.
  { rewrite app_nil_l, <- zeros_add. f_equal. lia. }
  rewrite wr_app by (rewrite ?length_zeros; done). done.
Qed.
End ops.

(** What nvfuse_list_xattr leaves in the buffer *)
Definition names_of l : list Z := concat ((fun p => p.1 ++ [0]) <$> l).

Lemma names_of_cons p l : names_of (p :: l) = (p.1 ++ [0]) ++ names_of l.
Proof. done. Qed.
Lemma names_of_snoc p l : names_of (l ++ [p]) = names_of l ++ p.1 ++ [0].
Proof. unfold names_of. rewrite fmap_app, concat_app. cbn [fmap list_fmap concat]. by rewrite app_nil_r. Qed.

Lemma list_entries_array l1 l2 k r fuel : Forall good l2 -> (4 <= k)%nat -> (length l2 < fuel)%nat ->
  exists res, list_entries fuel (enc l1 ++ enc l2 ++ zeros k) (total l1) (names_of l1 ++ zeros r) (strlen (names_of l1)) (Z.of_nat r) = Some res /\
  if strlen (names_of l2) <=? Z.of_nat r
  then res = (0, names_of (l1 ++ l2) ++ zeros (r - length (names_of l2))) else res.1 = -1.
Proof.
  intros Hs Hk. revert l1 r fuel. induction Hs as [|p l2 Hp Hs IH]; intros l1 r [|fuel] Hf; simpl in Hf; try lia; cbn [list_entries].
  - change (enc []) with ([] : list Z). rewrite app_nil_l, zeros_last by (rewrite ?length_enc; done). eexists. split; [done|].
    change (strlen (names_of [])) with 0. rewrite (proj2 (Z.leb_le 0 _)) by lia. rewrite app_nil_r. cbn [names_of fmap list_fmap concat length].
    by rewrite Nat.sub_0_r.
  - pose proof (good_small _ Hp) as Hsp. rewrite enc_cons, <- app_assoc. rewrite entry_not_last by (rewrite ?length_enc; done). cbn [mbind option_bind].
    rewrite entry_name_len by (rewrite ?length_enc; done). cbn [mbind option_bind].
    destruct Hp as [Hp _]. unfold NVFUSE_XATTR_NAME_MAX_LEN in Hp. rewrite u32_small by lia.
    assert (strlen (names_of (p :: l2)) = strlen p.1 + 1 + strlen (names_of l2)) as Hlen.
    { rewrite names_of_cons, !strlen_app. done. }
    pose proof (strlen_nonneg (names_of l2)).
    destruct (Z.ltb_spec (Z.of_nat r) (strlen p.1 + 1)) as [Hr|Hr].
    + eexists. split; [done|]. by rewrite (proj2 (Z.leb_gt _ _)) by lia.
    + assert (Z.of_nat (length (p.1 ++ [0])) = strlen p.1 + 1) as Hn by (rewrite length_app; unfold strlen; cbn [length]; lia).
      rewrite (entry_payload _ _ p _ ltac:(by rewrite length_enc) (p.1 ++ [0]) (p.2 ++ [0])) by (try lia; unfold payload; by rewrite <- app_assoc).
      cbn [mbind option_bind].
      assert (zeros r = zeros (length (p.1 ++ [0])) ++ zeros (r - length (p.1 ++ [0]))) as ->.
      { rewrite <- zeros_add. f_equal. lia. }
      rewrite wr_app by (rewrite ?length_zeros; done). cbn [mbind option_bind].
      rewrite entry_next by (rewrite ?length_enc; done). cbn [mbind option_bind].
      destruct (IH (l1 ++ [p]) (r - length (p.1 ++ [0%Z]))%nat fuel) as (res & E & Hres); [lia|].
      rewrite enc_snoc, total_snoc, names_of_snoc, !strlen_app, <- !app_assoc in E. change (strlen [0]) with 1 in E.
      exists res. split.
      * rewrite <- E. rewrite !app_assoc. f_equal; lia.
      * rewrite Hlen. replace (strlen p.1 + 1 + strlen (names_of l2) <=? Z.of_nat r)
          with (strlen (names_of l2) <=? Z.of_nat (r - length (p.1 ++ [0]))) by (zbool; lia).
        destruct (_ <=? _); [|done]. rewrite Hres, snoc_cons. do 3 f_equal. rewrite names_of_cons, (length_app (p.1 ++ [0])). lia.
Qed.

Lemma list_array l (buf : list Z) : attrs_ok l ->
  exists res, list_entries (length (array l)) (array l) 0 (zeros (length buf)) 0 (Z.of_nat (length buf)) = Some res /\
  if strlen (names_of l) <=? Z.of_nat (length buf)
  then res = (0, names_of l ++ zeros (length buf - length (names_of l))) else res.1 = -1.
Proof.
  intros Hl. apply (list_entries_array [] l); [apply Hl|by apply tail_room|].
  rewrite length_array by done. pose proof (length_le l Hl). unfold NVFUSE_XATTR_MAX_SIZE, XATTR_SIZE in *. lia.
Qed.

End XattrSpec.
