(* ===== verification/XattrThms.v ===== *)
(** * Extended attributes: sequences of operations on the files of a directory *)
From S2P Require Import Prelude Bitmap Layout Mem DirHash Dir DirOps DirApi DirPath BpIndex DirEntry DirFind DirMake.
From S2P Require Import BpIndexLaws DirThms Xattr XattrSpec.
Import Layout DirHash Dir DirOps DirApi DirPath DirSpec DirIndex DirEntry DirFind DirLookup Xattr XattrSpec.
Import DirCreate DirMake DirFirst DirDemo DirThms.

Module XattrThms.

Section theorems.
Context {A I : Type} `{StoreLaws A} `{!Index A I} `{!IndexLaws A I}.
Context (root_ino cwd_ino : Z).
Implicit Types (s : xst A I) (d : dst A I) (f n v buf : list Z) (S : gmap Z (list attr)).

(** ** Paths into the root directory *)

Definition plain f : Prop := 1 <= strlen f < FNAME_SIZE - 1 /\ SLASH ∉ f.

Lemma strrchr_plain f : SLASH ∉ f -> strrchr f = None.
Proof.
  induction f as [|c f IH]; [done|]. rewrite not_elem_of_cons. intros [Hc Hf]. cbn [strrchr]. rewrite IH by done.
  by rewrite (proj2 (Z.eqb_neq c SLASH)).
Qed.

Lemma resolve_plain f d : plain f ->
  nvfuse_path_resolve root_ino cwd_ino (SLASH :: f) d = Some ((f, Some root_ino), d).
Proof.
  intros [Hl Hs]. unfold nvfuse_path_resolve. cbn [head]. rewrite bool_decide_true by done.
  unfold fat_filename, fat_dirname, strcpy. cbn [strrchr]. rewrite (strrchr_plain f) by done. rewrite Z.eqb_refl.
  change (Z.to_nat (0 + 1)) with 1%nat. cbn [drop].
  assert (strlen (SLASH :: f) = strlen f + 1) as E by (unfold strlen; simpl length; lia). rewrite E.
  rewrite !(proj2 (Z.ltb_lt _ _)) by lia. cbn [mbind option_bind]. cbn [strrchr]. rewrite (strrchr_plain f), Z.eqb_refl by done.
  cbn [mbind option_bind]. change (0 =? 0) with true. cbn [take].
  cbn [drop]. rewrite drop_0. rewrite (proj2 (Z.ltb_lt _ _)) by lia. cbn. reflexivity.
Qed.

(** ** Files that are there, names that are not *)

(** The files of the root directory by their names; their inodes are free. *)
Record file_of (d : dst A I) f ino : Prop := {
  fo_plain : plain f;
  fo_entry : exists b i c m es k e, dir_inv d root_ino b i c m es /\ file_at es k f e /\ d_ino e = ino;
  fo_range : ROOT_INO <= ino < st_no_of_inodes (d_store d);
  fo_live : live (d_store d) ino;
  fo_free : ino <> root_ino /\ ino ∉ d_locked d }.

Definition no_file (d : dst A I) f : Prop :=
  plain f /\ exists b i c m es key, dir_inv d root_ino b i c m es /\ name_ok f key /\ m !! key = None.

Definition lock_ino ino (d : dst A I) : dst A I := set_locked ({[ ino ]} ∪ d_locked d) d.

Lemma wp_xdir {X} (m : M (dst A I) X) (Q : X -> xst A I -> Prop) s :
  wp m (fun x d => Q x (mk_xst d (x_attrs s))) (x_dir s) -> wp (xdir m) Q s.
Proof. unfold wp, xdir. by destruct (m (x_dir s)) as [[x d]|]. Qed.

Lemma open_found_wp f ino (Q : Z + Z -> xst A I -> Prop) s :
  file_of (x_dir s) f ino -> Q (inr ino) (mk_xst (lock_ino ino (x_dir s)) (x_attrs s)) ->
  wp (open_path root_ino cwd_ino (SLASH :: f)) Q s.
Proof.
  intros [Hp (b & i & c & m & es & k & e & [Dd Df] & Hf & <-) Hr Hl [Hne Hnl]] HQ. unfold open_path.
  pose proof Hp as [[Hlen _] _]. rewrite bool_decide_false by (intros [= ->]; done).
  wp_step. apply wp_xdir. unfold wp at 1. rewrite resolve_plain by done. cbn beta iota.
  assert (root_ino <> 0) as Hz. { destruct (dd_inos _ _ _ _ _ _ _ _ _ _ Dd). unfold ROOT_INO in *. lia. }
  rewrite (proj2 (Z.eqb_neq _ _)) by done. wp_step. apply wp_xdir. cbn [x_dir].
  eapply lookup_open_wp; [exact Dd|exact Df|exact Hf|unfold ROOT_INO in *; lia|intros _; split_and!; try done; lia|].
  cbn beta iota. change (0 <? 0) with false. cbn iota. wp_step. eapply wp_lift; [done|]. wp_step.
  apply wp_assert; [lia|]. wp_step. exact HQ.
Qed.

Lemma open_missing_wp f (Q : Z + Z -> xst A I -> Prop) s :
  no_file (x_dir s) f -> Q (inl (-1)) s -> wp (open_path root_ino cwd_ino (SLASH :: f)) Q s.
Proof.
  intros [Hp (b & i & c & m & es & key & [Dd Df] & Hok & Hm)] HQ. unfold open_path.
  pose proof Hp as [[Hlen _] _]. rewrite bool_decide_false by (intros [= ->]; done).
  wp_step. apply wp_xdir. unfold wp at 1. rewrite resolve_plain by done. cbn beta iota.
  assert (root_ino <> 0) as Hz. { destruct (dd_inos _ _ _ _ _ _ _ _ _ _ Dd). unfold ROOT_INO in *. lia. }
  rewrite (proj2 (Z.eqb_neq _ _)) by done. wp_step. apply wp_xdir. cbn [x_dir].
  eapply lookup_missing_wp; [exact Dd|exact Df|exact Hok|exact Hm|]. cbn beta iota. change (-1 <? 0) with true. cbn iota. wp_step.
  by destruct s.
Qed.

(** The inode is released at the end. *)
Lemma release_wp ino s (att : gmap Z (list Z)) (Q : unit -> xst A I -> Prop) :
  ino ∉ d_locked (x_dir s) -> Q tt (mk_xst (x_dir s) att) ->
  wp (xdir (nvfuse_release_inode ino)) Q (mk_xst (lock_ino ino (x_dir s)) att).
Proof.
  intros Hn HQ. apply wp_xdir. cbn [x_dir x_attrs]. apply wp_unlock; [unfold lock_ino; dcbn; set_solver|].
  unfold lock_ino. dcbn. rewrite add_remove by done. by destruct (x_dir s).
Qed.

(** ** Operations *)

(** Buffers are given with their contents. *)
Inductive xop :=
| XSet (f n v : list Z)
| XRemove (f n : list Z)
| XGet (f n buf : list Z)
| XList (f buf : list Z).

Definition op_file (op : xop) : list Z := match op with XSet f _ _ | XRemove f _ | XGet f _ _ | XList f _ => f end.
(** Lengths that strlen can give. *)
Definition op_small (op : xop) : Prop :=
  match op with XSet _ n v => strlen n < 2 ^ 32 /\ strlen v < 2 ^ 32 | XRemove _ n | XGet _ n _ => strlen n < 2 ^ 32 | XList _ _ => True end.

Definition run_op (op : xop) : M (xst A I) (Z * list Z) :=
  match op with
  | XSet f n v => r ← nvfuse_set_xattr root_ino cwd_ino (SLASH :: f) (Some n) (Some v); mret (r, [])
  | XRemove f n => r ← nvfuse_remove_xattr root_ino cwd_ino (SLASH :: f) (Some n); mret (r, [])
  | XGet f n buf =>
      '(r, b) ← nvfuse_get_xattr root_ino cwd_ino (SLASH :: f) (Some n) (Some buf) (Z.of_nat (length buf)); mret (r, default [] b)
  | XList f buf => nvfuse_list_xattr root_ino cwd_ino (SLASH :: f) buf (Z.of_nat (length buf))
  end.
Fixpoint run_ops (ops : list xop) : M (xst A I) (list (Z * list Z)) :=
  match ops with [] => mret [] | op :: ops => r ← run_op op; rs ← run_ops ops; mret (r :: rs) end.

(** ** The abstract attributes: a list of names and values for every inode *)

Definition attrs_in S ino : list attr := default [] (S !! ino).

Section spec.
Context (fs : gmap (list Z) Z).

Definition spec_op S (op : xop) (r : Z * list Z) S' : Prop :=
  match op with
  | XSet f n v =>
      match (if name_len_ok n && value_len_ok v then fs !! f else None) with
      | Some ino =>
          if room (attrs_in S ino) n v then r = (0, []) /\ S' = <[ ino := set_attr n v (attrs_in S ino) ]> S
          else r = (-1, []) /\ S' = S
      | None => r = (-1, []) /\ S' = S
      end
  | XRemove f n =>
      match (if name_len_ok n then fs !! f else None) with
      | Some ino =>
          if bool_decide (n ∈ (attrs_in S ino).*1) then r = (0, []) /\ S' = <[ ino := drop_name n (attrs_in S ino) ]> S
          else r = (-1, []) /\ S' = S
      | None => r = (-1, []) /\ S' = S
      end
  | XGet f n buf =>
      S' = S /\
      match (if name_len_ok n then fs !! f else None) ≫= (fun ino => value_of (attrs_in S ino) n) with
      | Some v => r = got n v buf
      | None => r = (-1, buf)
      end
  | XList f buf =>
      S' = S /\
      match fs !! f with
      | Some ino =>
          let names := names_of (attrs_in S ino) in
          if strlen names <=? Z.of_nat (length buf) then r = (0, names ++ zeros (length buf - length names)) else r.1 = -1
      | None => r = (-1, buf)
      end
  end.

Inductive spec_ops : gmap Z (list attr) -> list xop -> list (Z * list Z) -> gmap Z (list attr) -> Prop :=
| spec_done S : spec_ops S [] [] S
| spec_next S op r S1 ops rs S2 : spec_op S op r S1 -> spec_ops S1 ops rs S2 -> spec_ops S (op :: ops) (r :: rs) S2.

(** The arrays hold the lists. *)
Definition holds s S : Prop := forall ino, attrs_ok (attrs_in S ino) /\ attrs_of s ino = array (attrs_in S ino).

(** Every name is a file of the root directory or is not there. *)
Definition names_ok (d : dst A I) (ops : list xop) : Prop :=
  Forall (fun op => op_small op /\ match fs !! op_file op with Some ino => file_of d (op_file op) ino | None => no_file d (op_file op) end) ops.

Lemma holds_set s S ino (l : list attr) : holds s S -> attrs_ok l -> holds (set_attrs ino (array l) s) (<[ ino := l ]> S).
Proof.
  intros Hh Hl j. unfold attrs_in, attrs_of, set_attrs. cbn [x_attrs]. destruct (decide (ino = j)) as [<-|Hj].
  - by rewrite !lookup_insert_eq.
  - rewrite !lookup_insert_ne by done. apply Hh.
Qed.

Lemma change_attrs_wp f g s S (Q : Z -> xst A I -> Prop) :
  holds s S ->
  match fs !! f with Some ino => file_of (x_dir s) f ino | None => no_file (x_dir s) f end ->
  match fs !! f with
  | Some ino => exists r, g (array (attrs_in S ino)) = Some (array <$> r) /\
      match r with Some l => Q 0 (set_attrs ino (array l) s) | None => Q (-1) s end
  | None => Q (-1) s
  end -> wp (change_attrs root_ino cwd_ino (SLASH :: f) g) Q s.
Proof.
  intros Hh Hf HQ. unfold change_attrs. destruct (fs !! f) as [ino|].
  - destruct HQ as (r & Hg & HQ). wp_step. eapply open_found_wp; [done|]. cbn beta iota. wp_steps.
    assert (attrs_of (mk_xst (lock_ino ino (x_dir s)) (x_attrs s)) ino = array (attrs_in S ino)) as Ea by apply Hh.
    eapply wp_lift; [rewrite Ea; exact Hg|]. destruct (fo_free _ _ _ Hf) as [_ Hn]. destruct r as [l|]; cbn [fmap option_fmap option_map].
    + wp_steps. unfold set_attrs. cbn [x_dir x_attrs]. apply release_wp; [done|]. wp_step. exact HQ.
    + wp_step. apply release_wp; [done|]. wp_step. by destruct s.
  - wp_step. by apply open_missing_wp.
Qed.

Lemma name_len_ok_true n : strlen n < 2 ^ 32 -> name_len_ok n = true -> 1 <= strlen n <= NVFUSE_XATTR_NAME_MAX_LEN.
Proof. intros Hn. pose proof (strlen_nonneg n). unfold name_len_ok. rewrite u32_small by lia. lia. Qed.
Lemma value_len_ok_true v : strlen v < 2 ^ 32 -> value_len_ok v = true -> 1 <= strlen v <= NVFUSE_XATTR_VALUE_MAX_LEN.
Proof. intros Hn. pose proof (strlen_nonneg v). unfold value_len_ok. rewrite u32_small by lia. lia. Qed.

Lemma xattr_op_wp op s S :
  holds s S -> names_ok (x_dir s) [op] ->
  wp (run_op op) (fun r s' => exists S', spec_op S op r S' /\ holds s' S' /\ x_dir s' = x_dir s) s.
Proof.
  intros Hh [[Hsm Hf] _]%Forall_cons. destruct op as [f n v|f n|f n buf|f buf]; cbn [run_op op_file op_small spec_op] in *.
  - destruct Hsm as [Hn Hv]. wp_step. unfold nvfuse_set_xattr. destruct (name_len_ok n) eqn:En; cbn [negb andb]; [|wp_steps; exists S; by split].
    destruct (value_len_ok v) eqn:Ev; cbn [negb]; [|wp_steps; exists S; by split].
    apply name_len_ok_true in En; [|done]. apply value_len_ok_true in Ev; [|done].
    eapply change_attrs_wp; [exact Hh|exact Hf|]. destruct (fs !! f) as [ino|]; [|wp_steps; exists S; by split].
    destruct (Hh ino) as [Hl _]. destruct (set_entry_array (attrs_in S ino) n Hl Hn v) as [E Hok]; [by split|].
    rewrite E. destruct (room _ _ _) eqn:Er.
    + eexists (Some _). split; [done|]. wp_steps. eexists. split; [done|]. split; [|done]. by apply holds_set; [|apply Hok].
    + exists None. split; [done|]. wp_steps. by exists S.
  - wp_step. unfold nvfuse_remove_xattr. destruct (name_len_ok n) eqn:En; cbn [negb]; [|wp_steps; exists S; by split].
    eapply change_attrs_wp; [exact Hh|exact Hf|]. destruct (fs !! f) as [ino|]; [|wp_steps; exists S; by split].
    destruct (Hh ino) as [Hl _]. rewrite (delete_entry_array (attrs_in S ino) n Hl Hsm). case_bool_decide as Hin.
    + eexists (Some _). split; [done|]. wp_steps. eexists. split; [done|]. split; [|done]. by apply holds_set; [|apply attrs_ok_drop].
    + exists None. split; [done|]. wp_steps. by exists S.
  - wp_step. unfold nvfuse_get_xattr. destruct (name_len_ok n) eqn:En; cbn [negb]; [|wp_steps; exists S; by split].
    wp_step. destruct (fs !! f) as [ino|] eqn:Ef.
    + eapply open_found_wp; [done|]. wp_steps. destruct (Hh ino) as [Hl Ha].
      assert (attrs_of (mk_xst (lock_ino ino (x_dir s)) (x_attrs s)) ino = array (attrs_in S ino)) as -> by exact Ha.
      eapply wp_lift; [by apply get_entry_array|]. wp_step. apply release_wp; [apply Hf|]. wp_step. cbn [mbind option_bind].
      destruct (value_of (attrs_in S ino) n); wp_step; exists S; (split; [|by destruct s]); [by destruct (got _ _ _)|done].
    + apply open_missing_wp; [done|]. wp_steps. exists S. by split.
  - unfold nvfuse_list_xattr. wp_step. destruct (fs !! f) as [ino|] eqn:Ef.
    + eapply open_found_wp; [done|]. wp_steps. destruct (Hh ino) as [Hl Ha].
      eapply wp_lift; [apply memset0_all|].
      assert (attrs_of (mk_xst (lock_ino ino (x_dir s)) (x_attrs s)) ino = array (attrs_in S ino)) as -> by exact Ha.
      destruct (list_array (attrs_in S ino) buf Hl) as (res & E & Hres).
      wp_step. eapply wp_lift; [exact E|]. wp_step. apply release_wp; [apply Hf|]. wp_step. exists S. split; [done|by destruct s].
    + apply open_missing_wp; [done|]. wp_step. exists S. by split.
Qed.

Lemma run_ops_wp ops s S :
  holds s S -> names_ok (x_dir s) ops ->
  wp (run_ops ops) (fun rs s' => exists S', spec_ops S ops rs S' /\ holds s' S' /\ x_dir s' = x_dir s) s.
Proof.
  revert s S. induction ops as [|op ops IH]; intros s S Hh Hok.
  - cbn [run_ops]. wp_step. exists S. split_and!; try done. constructor.
  - apply Forall_cons in Hok as [Hop Hops]. cbn [run_ops]. wp_step.
    eapply wp_mono; [apply xattr_op_wp; [exact Hh|by constructor]|]. intros r s1 (S1 & Hr & Hh1 & Ed). wp_step.
    eapply wp_mono; [apply (IH s1 S1 Hh1); by rewrite Ed|]. intros rs s2 (S2 & Hrs & Hh2 & Ed2). wp_step.
    exists S2. split_and!; [by econstructor|done|congruence].
Qed.


(** A shorter value never replaces a longer one: the difference of the
    lengths is unsigned, so that nvfuse_set_xattr takes it for a lack of space. *)
Theorem shorter_value_refused f n v v0 ino s S :
  holds s S -> fs !! f = Some ino -> file_of (x_dir s) f ino -> strlen n < 2 ^ 32 ->
  value_of (attrs_in S ino) n = Some v0 -> strlen v < strlen v0 ->
  wp (nvfuse_set_xattr root_ino cwd_ino (SLASH :: f) (Some n) (Some v)) (fun r s' => r = -1 /\ s' = s) s.
Proof.
  intros Hh Hfs Hf Hn Hv0 Hlt. unfold nvfuse_set_xattr. destruct (name_len_ok n) eqn:En; cbn [negb]; [|by wp_steps].
  destruct (value_len_ok v) eqn:Ev; cbn [negb]; [|by wp_steps]. destruct (Hh ino) as [Hl _].
  assert (strlen v0 <= NVFUSE_XATTR_VALUE_MAX_LEN) as Hmax.
  { pose proof (ao_good _ Hl) as Hg. rewrite Forall_forall in Hg. unfold value_of, attr_map in Hv0.
    apply elem_of_list_to_map_2, Hg in Hv0 as [_ Hv]. apply Hv. }
  unfold NVFUSE_XATTR_VALUE_MAX_LEN in Hmax. apply name_len_ok_true in En; [|done]. apply value_len_ok_true in Ev; [|lia].
  eapply change_attrs_wp; [exact Hh|by rewrite Hfs|]. rewrite Hfs. exists None. split; [|done].
  destruct (set_entry_array (attrs_in S ino) n Hl Hn v) as [E _]; [by split|]. rewrite E. unfold room. rewrite Hv0.
  by rewrite (proj2 (Z.leb_gt _ _)) by lia.
Qed.

End spec.
End theorems.

(** ** Examples *)

(** The file [name_a] of the demonstration directory, without attributes. *)
Definition demo_x : xst DirDemo.ideal BpIndex.bptree := mk_xst (demo_with name_a) ∅.
Definition attr_n : list Z := [117; 115; 101; 114].
Definition attr_v : list Z := [49; 50].

Lemma demo_files : exists ino, file_of demo_dir (demo_with name_a) name_a ino /\ no_file demo_dir (demo_with name_a) name_b.
Proof.
  destruct (demo_with_holds name_a name_a_ok ltac:(done)) as (b & i & n & es & ino & Md & Hn & v0 & v1 & ->). exists ino. split.
  - destruct (mk_ino _ _ _ _ _ _ _ _ _ _ _ _ _ Md) as [Hr _]. destruct (mk_new _ _ _ _ _ _ _ _ _ _ _ _ _ Md) as [Hne _]. split.
    + split; [done|]. by apply (bool_decide_unpack _); vm_compute.
    + exists b, i, n, (<[ key_of name_a := 2 ]> ∅), (dots demo_dir v0 v1 ++ [mk_dentry ino DIR_USED 1 name_a]), 2, (mk_dentry ino DIR_USED 1 name_a).
      split; [apply Md|]. split; [|done]. split; [done|]. by split.
    + exact Hr.
    + eexists. split; [apply Md|done].
    + split; [exact Hne|]. rewrite (mk_locked _ _ _ _ _ _ _ _ _ _ _ _ _ Md). apply not_elem_of_empty.
  - split; [split; [done|by apply (bool_decide_unpack _); vm_compute]|].
    exists b, i, n, (<[ key_of name_a := 2 ]> ∅), (dots demo_dir v0 v1 ++ [mk_dentry ino DIR_USED 1 name_a]), (key_of name_b).
    split; [apply Md|]. split; [exact name_b_ok|]. by apply (bool_decide_unpack _); vm_compute.
Qed.

Lemma demo_holds_none : holds demo_x ∅.
Proof. intros ino. split; [apply attrs_ok_nil|done]. Qed.

Definition demo_ops : list xop :=
  [XSet name_a attr_n attr_v; XGet name_a attr_n (replicate 20 7); XSet name_b attr_n attr_v;
   XList name_a (replicate 6 7); XRemove name_a attr_n; XRemove name_a attr_n].
Definition demo_answers : list (Z * list Z) :=
  [(0, []); (0, attr_n ++ [0] ++ attr_v ++ [0] ++ zeros 12); (-1, []); (0, attr_n ++ zeros 2); (0, []); (-1, [])].

Lemma demo_spec ino rs S' : spec_ops {[ name_a := ino ]} ∅ demo_ops rs S' -> rs = demo_answers.
Proof.
  set (fs := {[ name_a := ino ]} : gmap (list Z) Z). intros H. unfold demo_ops in H. set (l := [(attr_n, attr_v)]).
  assert (fs !! name_a = Some ino) as Ea by apply lookup_singleton_eq.
  assert (fs !! name_b = None) as Eb by by apply lookup_singleton_ne. clearbody fs.
  assert (forall S l', attrs_in (<[ ino := l' ]> S) ino = l') as Hin by (intros; unfold attrs_in; by rewrite lookup_insert_eq).
  assert (name_len_ok attr_n = true) as En by done. assert (value_len_ok attr_v = true) as Ev by done.
  inversion H as [|? ? r1 S1 ? ? ? H1 G1]; subst. clear H. cbn [spec_op] in H1. rewrite En, Ev, Ea in H1.
  assert (r1 = (0, []) /\ S1 = <[ ino := l ]> ∅) as [-> ->] by exact H1. clear H1.
  inversion G1 as [|? ? r2 S2 ? ? ? H2 G2]; subst. clear G1. cbn [spec_op] in H2. rewrite En, Ea in H2. cbn [mbind option_bind] in H2.
  rewrite Hin in H2. destruct H2 as [-> H2]. vm_compute in H2. subst r2.
  inversion G2 as [|? ? r3 S3 ? ? ? H3 G3]; subst. clear G2. cbn [spec_op] in H3. rewrite En, Ev, Eb in H3. destruct H3 as [-> ->].
  inversion G3 as [|? ? r4 S4 ? ? ? H4 G4]; subst. clear G3. cbn [spec_op] in H4. rewrite Ea, Hin in H4. destruct H4 as [-> H4].
  vm_compute in H4. subst r4.
  inversion G4 as [|? ? r5 S5 ? ? ? H5 G5]; subst. clear G4. cbn [spec_op] in H5. rewrite En, Ea, Hin in H5.
  assert (r5 = (0, []) /\ S5 = <[ ino := [] ]> (<[ ino := l ]> ∅)) as [-> ->] by exact H5. clear H5.
  inversion G5 as [|? ? r6 S6 ? ? ? H6 G6]; subst. clear G5. cbn [spec_op] in H6. rewrite En, Ea, Hin in H6.
  assert (r6 = (-1, []) /\ S6 = <[ ino := [] ]> (<[ ino := l ]> ∅)) as [-> ->] by exact H6.
  inversion G6; subst. reflexivity.
Qed.


(** A value of two bytes is set, one of a byte does not replace it. *)
Definition demo_x2 (ino : Z) : xst DirDemo.ideal BpIndex.bptree := set_attrs ino (array [(attr_n, attr_v)]) demo_x.

Lemma demo_attrs_ok : attrs_ok [(attr_n, attr_v)].
Proof. split; [apply Forall_singleton; split; by vm_compute|by vm_compute|apply NoDup_singleton]. Qed.

Lemma shorter_value_refused_ex : exists ino,
  wp (nvfuse_set_xattr demo_dir demo_dir (SLASH :: name_a) (Some attr_n) (Some [49])) (fun r s' => r = -1 /\ s' = demo_x2 ino) (demo_x2 ino).
Proof.
  destruct demo_files as (ino & Hf & _). exists ino.
  apply (shorter_value_refused demo_dir demo_dir {[ name_a := ino ]} name_a attr_n [49] attr_v ino (demo_x2 ino) (<[ ino := [(attr_n, attr_v)] ]> ∅)).
  - exact (holds_set demo_x ∅ ino [(attr_n, attr_v)] demo_holds_none demo_attrs_ok).
  - apply lookup_singleton_eq.
  - exact Hf.
  - done.
  - unfold attrs_in. rewrite lookup_insert_eq. done.
  - done.
Defined.

End XattrThms.
