(* ===== verification/File.v ===== *)
(** * Files: the open file table and data buffers (nvfuse_core.c, nvfuse_api.c)

    The state of [Dir] with what open files add: the table of MAX_OPEN_FILE
    entries with their locks, and the buffers of data blocks.

    [f_cache] are the buffers with loaded contents (bc_load), each with its dirty
    flag (bc_dirty); any other block is read from the device first.  The lock of
    a buffer is in [d_held] of [Dir].  NVFUSE_KEEP_DIRTY_BH_IN_ICTX is not
    defined in the configuration, so that an inode context never lists dirty
    buffers: its two counters stay 0.  nvfuse_check_flush_dirty writes out when
    there are many dirty buffers; since metadata counts as well, the decision is
    a parameter, [flush_due]. *)
From S2P Require Import Prelude Bitmap Layout Dir DirOps DirApi.
Import Layout Dir DirOps DirApi.

Module File.

(** ** Constants *)
Definition START_OPEN_FILE : Z := 3.
Definition MAX_OPEN_FILE : Z := 16.
Definition SEEK_SET : Z := 0.
Definition SEEK_CUR : Z := 1.
Definition SEEK_END : Z := 2.
(** fcntl.h *)
Definition O_RDWR : Z := 2.
Definition O_CREAT : Z := 0x40.
Definition O_APPEND : Z := 0x400.
Definition O_DIRECT : Z := 0x4000.
Definition O_SYNC : Z := 0x101000.
Definition has_flag (flags f : Z) : bool := negb (Z.land flags f =? 0).

(** A u32 block number from a byte offset *)
Definition lbno (off : Z) : Z := u32 (NVFUSE_SIZE_TO_BLK off).
Definition in_block (off : Z) : Z := Z.land off (CLUSTER_SIZE - 1).

(** ** Data *)

(** struct nvfuse_file_table without its lock *)
Record nvfuse_file_table := mk_ft {
  ft_ino : Z;
  ft_size : Z;
  ft_used : Z;
  ft_rwoffset : Z;
  ft_flags : Z }.
Definition ft_zero : nvfuse_file_table := mk_ft 0 0 0 0 0.

Definition set_used (v : Z) (t : nvfuse_file_table) := mk_ft (ft_ino t) (ft_size t) v (ft_rwoffset t) (ft_flags t).
Definition set_rwoffset (v : Z) (t : nvfuse_file_table) := mk_ft (ft_ino t) (ft_size t) (ft_used t) v (ft_flags t).
Definition set_size (v : Z) (t : nvfuse_file_table) := mk_ft (ft_ino t) v (ft_used t) (ft_rwoffset t) (ft_flags t).

Record buf := mk_buf { b_data : list Z; b_dirty : bool }.

(** What files use beyond [Store]: the contents of a block on the device, and
    nvfuse_get_block (ino, lblock, max, &num_alloc, &pblock, create): its code,
    [*num_alloc] and [*pblock]. *)
Class DataStore (A : Type) := {
  ds_read : A -> Z -> Z -> list Z;
  ds_write : Z -> Z -> list Z -> A -> A;
  ds_get_block : Z -> Z -> Z -> bool -> M A (Z * Z * Z) }.

Record fst {A I : Type} := mk_fst {
  f_dir : dst A I;
  f_table : list nvfuse_file_table;
  f_ftlock : gset Z;
  f_cache : gmap (Z * Z) buf }.
Arguments fst : clear implicits.

Section ops.
Context {A I : Type} `{Store A} `{Index A I} `{DataStore A}.
Context (flush_due : fst A I -> bool).
Notation FM := (M (fst A I)).
Implicit Types s : fst A I.

Definition set_dir (d : dst A I) s : fst A I := mk_fst A I d (f_table s) (f_ftlock s) (f_cache s).
Definition set_table (t : list nvfuse_file_table) s : fst A I := mk_fst A I (f_dir s) t (f_ftlock s) (f_cache s).
Definition set_ftlock (l : gset Z) s : fst A I := mk_fst A I (f_dir s) (f_table s) l (f_cache s).
Definition set_cache (c : gmap (Z * Z) buf) s : fst A I := mk_fst A I (f_dir s) (f_table s) (f_ftlock s) c.

Definition on_dir {X} (m : M (dst A I) X) : FM X := fun s =>
  match m (f_dir s) with Some (x, d) => Some (x, set_dir d s) | None => None end.

(** An inode that the caller uses without a test for NULL. *)
Definition read_inode (ino : Z) : FM unit := on_dir (b ← nvfuse_read_inode ino; massert b).
Definition release_inode (ino : Z) : FM unit := on_dir (nvfuse_release_inode ino).
Definition inode_of (ino : Z) : FM nvfuse_inode := on_dir (get_inode ino).
Definition change_inode (ino : Z) (f : nvfuse_inode -> nvfuse_inode) : FM unit := on_dir (upd_inode ino f).

(** ** The table *)

(** src/nvfuse_core.c: nvfuse_init_file_table *)
Definition nvfuse_init_file_table (allocated : bool) : FM Z :=
  if allocated then
    mmodify (fun s => set_ftlock ∅ (set_table (replicate (Z.to_nat MAX_OPEN_FILE) ft_zero) s));; mret 0
  else mret (-1).

(** src/nvfuse_core.c: nvfuse_get_file_table, with the access to its target *)
Definition get_ft (fid : Z) : FM nvfuse_file_table := fun s =>
  mlift (if 0 <=? fid then f_table s !! Z.to_nat fid else None) s.
Definition upd_ft (fid : Z) (f : nvfuse_file_table -> nvfuse_file_table) : FM unit :=
  t ← get_ft fid; mmodify (fun s => set_table (<[Z.to_nat fid := f t]> (f_table s)) s).

(** rte_spinlock_lock waits for ever for a lock that is taken;
    rte_spinlock_unlock clears the lock, taken or not. *)
Definition ft_lock (fid : Z) : FM unit :=
  s ← mget; massert (bool_decide (fid ∉ f_ftlock s));; mput (set_ftlock ({[ fid ]} ∪ f_ftlock s) s).
Definition ft_unlock (fid : Z) : FM unit := mmodify (fun s => set_ftlock (f_ftlock s ∖ {[ fid ]}) s).

(** The loop over the entries from [i] on; after it the last lock is dropped. *)
Fixpoint alloc_scan (n : nat) (i : Z) : FM Z :=
  match n with
  | O => ft_unlock (i - 1);; mret (-1)
  | S n' =>
      ft ← get_ft i;
      ft_lock i;;
      if ft_used ft =? 0 then upd_ft i (set_used 1);; ft_unlock i;; mret i
      else ft_unlock i;; alloc_scan n' (i + 1)
  end.

(** src/nvfuse_core.c: nvfuse_allocate_open_file_table *)
Definition nvfuse_allocate_open_file_table : FM Z :=
  alloc_scan (Z.to_nat (MAX_OPEN_FILE - START_OPEN_FILE)) START_OPEN_FILE.

(** src/nvfuse_core.c: nvfuse_close_file_table *)
Definition nvfuse_close_file_table (fid : Z) : FM unit :=
  get_ft fid;;
  ft_lock fid;;
  upd_ft fid (fun _ => ft_zero);;
  ft_unlock fid.

(** src/nvfuse_core.c: nvfuse_seek, on an entry *)
Definition nvfuse_seek (offset position : Z) (t : nvfuse_file_table) : nvfuse_file_table :=
  if position =? SEEK_SET then set_rwoffset offset t
  else if position =? SEEK_CUR then set_rwoffset (ft_rwoffset t + offset) t
  else if position =? SEEK_END then set_rwoffset (ft_size t - offset) t
  else t.

(** src/nvfuse_core.c: nvfuse_lseek, whose offset is a u32 *)
Definition nvfuse_lseek (fd offset position : Z) : FM Z :=
  upd_ft fd (nvfuse_seek (u32 offset) position);; mret NVFUSE_SUCCESS.

(** src/nvfuse_core.c: nvfuse_is_directio *)
Definition nvfuse_is_directio (fid : Z) : FM Z :=
  ft ← get_ft fid; mret (if has_flag (ft_flags ft) O_DIRECT then 1 else 0).

(** ** Data buffers *)

(** The contents of a block: its buffer, or the device. *)
Definition block_now s (ino lb : Z) : list Z :=
  match f_cache s !! (ino, lb) with
  | Some b => b_data b
  | None => ds_read (d_store (f_dir s)) ino lb
  end.

(** src/nvfuse_buffer_cache.c: nvfuse_get_bh for a block of data: the inode is
    locked and the block mapped; a synchronous read loads it. *)
Definition get_data_bh (ino lb : Z) (sync_read : bool) : FM unit :=
  on_dir (d ← mget; massert (bool_decide (ino ∈ d_locked d));; hold (ino, lb);; massert (st_mapped (d_store d) ino lb));;
  if sync_read then
    mmodify (fun s =>
      match f_cache s !! (ino, lb) with
      | Some _ => s
      | None => set_cache (<[(ino, lb) := mk_buf (block_now s ino lb) false]> (f_cache s)) s
      end)
  else mret tt.

(** rte_memcpy of [bytes] to offset [off] of a buffer *)
Definition splice (off : Z) (bytes l : list Z) : list Z :=
  take (Z.to_nat off) l ++ bytes ++ drop (Z.to_nat off + length bytes) l.

(** Change of a buffer that is released with DIRTY.  The contents of a buffer
    that is not loaded matter only when not all of it is written. *)
Definition write_data (ino lb off : Z) (bytes : list Z) : FM unit :=
  massert ((0 <=? off) && (off + Z.of_nat (length bytes) <=? CLUSTER_SIZE));;
  mmodify (fun s => set_cache (<[(ino, lb) := mk_buf (splice off bytes (block_now s ino lb)) true]> (f_cache s)) s).
Definition release_data_bh (ino lb : Z) : FM unit := on_dir (nvfuse_release_bh (ino, lb)).

(** The bytes [off, off + n) of a buffer *)
Definition buf_bytes (ino lb off n : Z) : FM (list Z) :=
  mgets (fun s => take (Z.to_nat n) (drop (Z.to_nat off) (block_now s ino lb))).

(** Writing out a set of buffers: src/nvfuse_core.c: nvfuse_flush_dirty_data *)
Definition write_out (l : list (Z * Z * buf)) (a : A) : A :=
  foldr (fun p a => if b_dirty p.2 then ds_write p.1.1 p.1.2 (b_data p.2) a else a) a l.
Definition clean (b : buf) : buf := mk_buf (b_data b) false.
Definition flush_state s : fst A I :=
  let d := f_dir s in
  set_cache (clean <$> f_cache s) (set_dir (set_store (write_out (map_to_list (f_cache s)) (d_store d)) d) s).
Definition nvfuse_flush_dirty_data : FM unit := mmodify flush_state.

(** src/nvfuse_core.c: nvfuse_check_flush_dirty *)
Definition nvfuse_check_flush_dirty : FM unit :=
  mmodify (fun s => if flush_due s then flush_state s else s).

(** nvfuse_replace_buffer_cache takes a clean buffer when it needs one. *)
Definition evict_state (k : Z * Z) s : fst A I :=
  match f_cache s !! k with
  | Some b => if b_dirty b then s else set_cache (delete k (f_cache s)) s
  | None => s
  end.

End ops.
End File.
