(* ===== verification/FileIO.v ===== *)
(** * Files: open, close, read, write (nvfuse_api.c)

    The user's buffer is the list of its bytes; a copy outside it is an abnormal
    end.  Loops over the blocks of a transfer have fuel for one more block than
    the bytes can touch. *)
From S2P Require Import Prelude Bitmap Layout Dir DirOps DirApi DirPath File.
Import Layout Dir DirOps DirApi DirPath File.

Module FileIO.

Section ops.
Context {A I : Type} `{Store A} `{Index A I} `{DataStore A}.
Context (flush_due : fst A I -> bool).
Notation FM := (M (fst A I)).

(** ** Open and close *)

(** The entry of a file that was opened. *)
Definition open_ft (ino size flags : Z) (append : bool) (t : nvfuse_file_table) : nvfuse_file_table :=
  nvfuse_seek (if append then size else 0) SEEK_SET (mk_ft ino size 1 0 flags).

(** src/nvfuse_api.c: nvfuse_openfile_ino, which leaves the flags of the entry
    as they are.  Both refusals keep the inode locked. *)
Definition nvfuse_openfile_ino (ino flags : Z) : FM Z :=
  read_inode ino;;
  inode ← inode_of ino;
  if negb (i_type inode =? NVFUSE_TYPE_FILE) then mret (-1)
  else
    fid ← nvfuse_allocate_open_file_table;
    if fid <? 0 then mret NVFUSE_ERROR
    else
      upd_ft fid (fun t => open_ft ino (i_size inode) (ft_flags t) (has_flag flags O_APPEND) t);;
      release_inode ino;;
      mret fid.

(** src/nvfuse_api.c: nvfuse_openfile.  A missing name is created for O_RDWR as
    well; the refusals after the lookup keep the inode locked. *)
Definition nvfuse_openfile (par_ino : Z) (filename : list Z) (flags mode : Z) : FM Z :=
  if bool_decide (filename = []) then mret (-1)
  else
    '(res, e) ← on_dir (nvfuse_lookup false filename par_ino);
    '(res, ino) ←
      (if res <? 0 then
         if has_flag flags O_RDWR || has_flag flags O_CREAT then
           '(res, ino) ← on_dir (nvfuse_createfile par_ino filename mode 0);
           mret (if res <? 0 then inl res else inr tt, default 0 ino)
         else on_dir (nvfuse_lookup false filename par_ino);; mret (inl (-1), 0)
       else e ← mlift e; mret (inr tt, d_ino e));
    match res with
    | inl code => mret code
    | inr _ =>
        read_inode ino;;
        inode ← inode_of ino;
        if negb (i_type inode =? NVFUSE_TYPE_FILE) then mret (-1)
        else
          fid ← nvfuse_allocate_open_file_table;
          if fid <? 0 then mret fid
          else
            upd_ft fid (open_ft (i_ino inode) (i_size inode) flags (has_flag flags O_APPEND));;
            release_inode ino;;
            nvfuse_check_flush_dirty flush_due;;
            mret fid
    end.

(** src/nvfuse_api.c: nvfuse_openfile_path *)
Definition nvfuse_openfile_path (root_ino cwd_ino : Z) (path : list Z) (flags mode : Z) : FM Z :=
  '(filename, r) ← on_dir (nvfuse_path_resolve root_ino cwd_ino path);
  match r with
  | None => mret NVFUSE_ERROR
  | Some ino => if ino =? 0 then mret (-1) else nvfuse_openfile ino filename flags mode
  end.

(** src/nvfuse_api.c: nvfuse_closefile *)
Definition nvfuse_closefile (fid : Z) : FM Z := nvfuse_close_file_table fid;; mret NVFUSE_SUCCESS.

(** ** Read *)

Definition io_fuel (count : Z) : nat := S (S (S (Z.to_nat (count / CLUSTER_SIZE)))).

(** The number of bytes of a step at [off] *)
Definition step_len (off count : Z) : Z :=
  let remain := CLUSTER_SIZE - in_block off in if count <? remain then count else remain.

(** The loop of nvfuse_readfile_core: the bytes copied so far. *)
Fixpoint read_loop (fuel : nat) (fid ino count : Z) (sync_read : bool) (acc : list Z) (rcount : Z) : FM (Z * list Z) :=
  match fuel with
  | O => mabort
  | S fuel' =>
      ft ← get_ft fid;
      inode ← inode_of ino;
      if (0 <? count) && (ft_rwoffset ft <? i_size inode) then
        let lb := lbno (ft_rwoffset ft) in
        get_data_bh ino lb sync_read;;
        let remain := step_len (ft_rwoffset ft) count in
        bytes ← buf_bytes ino lb (in_block (ft_rwoffset ft)) remain;
        upd_ft fid (set_rwoffset (ft_rwoffset ft + remain));;
        release_data_bh ino lb;;
        read_loop fuel' fid ino (count - remain) sync_read (if sync_read then acc ++ bytes else acc) (rcount + remain)
      else mret (rcount, acc)
  end.

(** src/nvfuse_api.c: nvfuse_readfile_core: the result and what is copied to the
    front of the buffer of [size] bytes. *)
Definition nvfuse_readfile_core (fid size count roffset : Z) (sync_read : bool) : FM (Z * list Z) :=
  ft ← get_ft fid;
  read_inode (ft_ino ft);;
  upd_ft fid (set_rwoffset roffset);;
  r ← read_loop (io_fuel count) fid (ft_ino ft) count sync_read [] 0;
  massert (Z.of_nat (length (r.2)) <=? size);;
  release_inode (ft_ino ft);;
  mret r.

(** src/nvfuse_api.c: nvfuse_readfile and nvfuse_readfile_aio *)
Definition nvfuse_readfile (fid size count roffset : Z) : FM (Z * list Z) :=
  nvfuse_readfile_core fid size count roffset true.
Definition nvfuse_readfile_aio (fid size count roffset : Z) : FM (Z * list Z) :=
  nvfuse_readfile_core fid size count roffset false.

(** [if (of->rwoffset > of->size) of->size = of->rwoffset;] *)
Definition grow_size (t : nvfuse_file_table) : nvfuse_file_table :=
  if ft_size t <? ft_rwoffset t then set_size (ft_rwoffset t) t else t.

(** src/nvfuse_api.c: nvfuse_readfile_directio_core: the data goes around the
    buffers; only the offset moves. *)
Definition nvfuse_readfile_directio_core (fid count roffset : Z) : FM Z :=
  ft ← get_ft fid;
  upd_ft fid (set_rwoffset roffset);;
  if negb (Z.rem count CLUSTER_SIZE =? 0) then mret 0
  else
    read_inode (ft_ino ft);;
    inode ← inode_of (ft_ino ft);
    (if i_size inode <? roffset + count then release_inode (ft_ino ft);; mret 0
     else
       upd_ft fid (fun t => grow_size (set_rwoffset (ft_rwoffset t + count) t));;
       release_inode (ft_ino ft);;
       mret count).

(** src/nvfuse_api.c: nvfuse_readfile_aio_directio *)
Definition nvfuse_readfile_aio_directio (fid count roffset : Z) : FM Z :=
  nvfuse_readfile_directio_core fid count roffset.

(** ** Write *)

(** The block that is allocated is the one behind the last byte of the file;
    [None] is a failed allocation, with the inode locked. *)
Definition alloc_tail (ino : Z) (inode : nvfuse_inode) (rwoffset : Z) : FM bool :=
  if i_size inode <=? rwoffset then
    ret ← on_dir (on_store (st_get_block ino (NVFUSE_SIZE_TO_BLK (i_size inode))));
    mret (ret =? 0)
  else mret true.

(** The loop of nvfuse_writefile_core; the size of the inode is set to the one
    in the table.  [None] is NVFUSE_ERROR. *)
Fixpoint write_loop (fuel : nat) (fid count : Z) (user_buf : list Z) (wcount : Z) : FM (option Z) :=
  match fuel with
  | O => mabort
  | S fuel' =>
      if 0 <? count then
        ft ← get_ft fid;
        let ino := ft_ino ft in
        let off := ft_rwoffset ft in
        read_inode ino;;
        inode ← inode_of ino;
        let remain := step_len off count in
        ok ← alloc_tail ino inode off;
        if negb (ok : bool) then mret None
        else
          get_data_bh ino (lbno off) (negb (remain =? CLUSTER_SIZE));;
          massert (remain <=? Z.of_nat (length user_buf));;
          write_data ino (lbno off) (in_block off) (take (Z.to_nat remain) user_buf);;
          upd_ft fid (fun t => grow_size (set_rwoffset (off + remain) t));;
          ft ← get_ft fid;
          change_inode ino (fun i => set_i_size (ft_size ft) (set_i_type NVFUSE_TYPE_FILE i));;
          massert (ft_size ft <? MAX_FILE_SIZE);;
          release_data_bh ino (lbno off);;
          release_inode ino;;
          write_loop fuel' fid (count - remain) (drop (Z.to_nat remain) user_buf) (u32 (wcount + remain))
      else mret (Some wcount)
  end.

(** src/nvfuse_api.c: nvfuse_fsync_ictx: the loop runs while the inode context
    counts dirty buffers, which it never does. *)
Definition nvfuse_fsync_ictx (ino : Z) : FM Z := mret 0.

(** src/nvfuse_api.c: nvfuse_writefile_core *)
Definition nvfuse_writefile_core (fid : Z) (user_buf : list Z) (count woffset : Z) : FM Z :=
  get_ft fid;;
  upd_ft fid (set_rwoffset woffset);;
  r ← write_loop (io_fuel count) fid count user_buf 0;
  match r with
  | None => mret NVFUSE_ERROR
  | Some wcount =>
      ft ← get_ft fid;
      (if has_flag (ft_flags ft) O_SYNC then
         read_inode (ft_ino ft);; nvfuse_fsync_ictx (ft_ino ft);; release_inode (ft_ino ft)
       else mret tt);;
      mret (s32 wcount)
  end.

(** src/nvfuse_api.c: nvfuse_writefile *)
Definition nvfuse_writefile (fid : Z) (user_buf : list Z) (count woffset : Z) : FM Z :=
  wcount ← nvfuse_writefile_core fid user_buf count woffset;
  nvfuse_check_flush_dirty flush_due;;
  mret wcount.

(** src/nvfuse_api.c: nvfuse_writefile_directio_core *)
Definition nvfuse_writefile_directio_core (fid count woffset : Z) : FM Z :=
  ft ← get_ft fid;
  upd_ft fid (set_rwoffset woffset);;
  if negb (count mod CLUSTER_SIZE =? 0) then mret 0
  else
    let ino := ft_ino ft in
    read_inode ino;;
    inode ← inode_of ino;
    ok ← (if negb (count =? 0) && (i_size inode <=? woffset) then
            '(ret, _, _) ← on_dir (on_store (ds_get_block ino (NVFUSE_SIZE_TO_BLK (i_size inode)) (Z.shiftr count 12) true));
            if negb (ret =? 0) then mret false
            else
              massert (i_size inode <? MAX_FILE_SIZE);;
              change_inode ino (fun i => set_i_size (i_size i + count) i);;
              mret true
          else mret true);
    if negb (ok : bool) then mret NVFUSE_ERROR
    else
      release_inode ino;;
      upd_ft fid (fun t => grow_size (set_rwoffset (ft_rwoffset t + count) t));;
      mret (s32 count).

(** src/nvfuse_api.c: nvfuse_writefile_directio_prepare *)
Definition nvfuse_writefile_directio_prepare (fid count woffset : Z) : FM Z :=
  nvfuse_writefile_directio_core fid count woffset.

(** src/nvfuse_api.c: nvfuse_gather_bh: takes the buffers of a transfer and
    hands them out. *)
Fixpoint gather_loop (fuel : nat) (ino off count : Z) (acc : list (Z * Z)) : FM (list (Z * Z)) :=
  match fuel with
  | O => mabort
  | S fuel' =>
      if 0 <? count then
        let remain := step_len off count in
        get_data_bh ino (lbno off) false;;
        gather_loop fuel' ino (off + remain) (count - remain) ((ino, lbno off) :: acc)
      else mret acc
  end.
Definition nvfuse_gather_bh (fid count woffset : Z) : FM (list (Z * Z)) :=
  ft ← get_ft fid;
  read_inode (ft_ino ft);;
  r ← gather_loop (io_fuel count) (ft_ino ft) woffset count [];
  release_inode (ft_ino ft);;
  mret r.

(** ** Synchronisation *)

(** src/nvfuse_api.c: nvfuse_fsync and nvfuse_fdatasync (nvfuse_fdsync_ictx
    returns at once for the same reason as nvfuse_fsync_ictx) *)
Definition nvfuse_fsync (fd : Z) : FM Z :=
  ft ← get_ft fd;
  read_inode (ft_ino ft);;
  nvfuse_fsync_ictx (ft_ino ft);;
  release_inode (ft_ino ft);;
  mret 0.
Definition nvfuse_fdatasync (fd : Z) : FM Z :=
  ft ← get_ft fd;
  read_inode (ft_ino ft);;
  release_inode (ft_ino ft);;
  mret 0.

(** src/nvfuse_api.c: nvfuse_sync *)
Definition nvfuse_sync : FM Z := nvfuse_flush_dirty_data;; mret 0.

End ops.
End FileIO.
