(* ===== verification/FileOps.v ===== *)
(** * Files: size, attributes, symbolic links, preallocation (nvfuse_api.c, nvfuse_core.c)

    The entry points that name a file by its path, by a directory and a name, or
    by its number.  Returns that keep inodes or buffers locked are as in the
    source. *)
From S2P Require Import Prelude Bitmap Layout Dir DirOps DirApi DirPath File FileIO.
Import Layout Dir DirOps DirApi DirPath File FileIO.

Module FileOps.

(** ** Constants *)
Definition ENOENT : Z := 2.
Definition S_IFLNK : Z := 0xA000.
(** S_IRWXU | S_IRWXG | S_IRWXO | S_ISUID | S_ISGID | S_ISVTX *)
Definition MODE_MASK : Z := 0xFFF.
Definition F_OK : Z := 0.
Definition W_OK : Z := 2.
Definition R_OK : Z := 4.

Definition set_i_mode (v : Z) (i : nvfuse_inode) : nvfuse_inode :=
  mk_inode (i_ino i) (i_type i) (i_size i) (i_bpino i) (i_version i) (i_deleted i) (i_links_count i) (i_ptr i)
    (i_atime i) (i_ctime i) (i_mtime i) (i_dtime i) (i_gid i) (i_uid i) (v mod 2 ^ 16) (i_blocks i).
Definition set_i_owner (uid gid : Z) (i : nvfuse_inode) : nvfuse_inode :=
  mk_inode (i_ino i) (i_type i) (i_size i) (i_bpino i) (i_version i) (i_deleted i) (i_links_count i) (i_ptr i)
    (i_atime i) (i_ctime i) (i_mtime i) (i_dtime i) (gid mod 2 ^ 16) (uid mod 2 ^ 16) (i_mode i) (i_blocks i).
Definition set_i_times (atime mtime : Z) (i : nvfuse_inode) : nvfuse_inode :=
  mk_inode (i_ino i) (i_type i) (i_size i) (i_bpino i) (i_version i) (i_deleted i) (i_links_count i) (i_ptr i)
    (u32 atime) (i_ctime i) (u32 mtime) (i_dtime i) (i_gid i) (i_uid i) (i_mode i) (i_blocks i).

(** [(inode->i_mode & ~mask) | (mode & mask)] *)
Definition chmod_mode (old mode : Z) : Z := Z.lor (Z.land old (Z.lnot MODE_MASK)) (Z.land mode MODE_MASK).

(** struct stat, as far as it is filled in *)
Record stat := mk_stat {
  st_ino : Z; st_mode : Z; st_nlink : Z; st_uid : Z; st_gid : Z; st_rdev : Z; st_size : Z;
  st_atime : Z; st_mtime : Z; st_ctime : Z }.
Definition stat_root : stat := mk_stat 0 (Z.lor S_IFDIR 493) 2 0 0 0 0 0 0 0.

Record statvfs := mk_statvfs {
  f_bsize : Z; f_blocks : Z; f_bfree : Z; f_bavail : Z; f_files : Z; f_ffree : Z; f_favail : Z;
  f_flag : Z; f_namemax : Z }.

(** src/nvfuse_api.c: nvfuse_statvfs *)
Definition nvfuse_statvfs (sb : nvfuse_superblock) : statvfs :=
  mk_statvfs CLUSTER_SIZE (sb_no_of_blocks sb) (sb_free_blocks sb) (sb_free_blocks sb)
    (u64 (s32 (sb_max_inode_num sb - sb_free_inodes sb))) (u64 (sb_free_inodes sb)) (u64 (sb_free_inodes sb))
    0 (FNAME_SIZE - 1).

Section ops.
Context {A I : Type} `{Store A} `{Index A I} `{DataStore A}.
Context (flush_due : fst A I -> bool) (root_ino cwd_ino : Z).
Notation FM := (M (fst A I)).
Notation DM := (M (dst A I)).

(** ** Size *)

(** src/nvfuse_core.c: nvfuse_free_inode_size: nvfuse_move_bc_to_unused_list
    drops the buffers from the block of the new size on, dirty or not. *)
Definition drop_cache (ino lo hi : Z) : FM unit :=
  mmodify (fun s => set_cache (filter (fun p => ~ (p.1.1 = ino /\ lo <= p.1.2 < hi)) (f_cache s)) s).
Definition free_inode_size (ino size : Z) : FM unit :=
  inode ← inode_of ino;
  drop_cache ino (u32 (NVFUSE_SIZE_TO_BLK size)) (num_blocks (i_size inode));;
  on_dir (nvfuse_free_inode_size ino size).

(** The search of nvfuse_truncate and nvfuse_chmod from an entry on: the inode
    of the entry, locked, and the buffer that is held. *)
Fixpoint find_file_loop (n : nat) (ino read_bytes : Z) (dir_bh : option Z) (dir : Z) (filename : list Z)
  : DM (option Z * option Z) :=
  match n with
  | O => mret (None, dir_bh)
  | S n' =>
      '(blk, dir) ←
        (if Z.land read_bytes (CLUSTER_SIZE - 1) =? 0 then
           release_opt ((fun b => (ino, b)) <$> dir_bh);;
           nvfuse_get_bh ino (NVFUSE_SIZE_TO_BLK read_bytes);;
           mret (NVFUSE_SIZE_TO_BLK read_bytes, 0)
         else blk ← mlift dir_bh; mret (blk, dir));
      e ← get_dentry ino blk dir;
      if is_entry filename e then
        b ← nvfuse_read_inode (d_ino e);
        massert b;;
        mret (Some (d_ino e), Some blk)
      else find_file_loop n' ino (read_bytes + DIR_ENTRY_SIZE) (Some blk) (dir + 1) filename
  end.
Definition find_file (par_ino : Z) (filename : list Z) (reset : bool) : DM (option Z * option Z) :=
  b ← nvfuse_read_inode par_ino;
  massert b;;
  '(r, offset) ← nvfuse_get_dir_indexing par_ino filename;
  let offset := if reset && (r <? 0) then 0 else offset in
  inode ← get_inode par_ino;
  let start := offset * DIR_ENTRY_SIZE in
  dir_bh ← (if negb (Z.land start (CLUSTER_SIZE - 1) =? 0) then
              nvfuse_get_bh par_ino (NVFUSE_SIZE_TO_BLK start);; mret (Some (NVFUSE_SIZE_TO_BLK start))
            else mret None);
  find_file_loop (Z.to_nat ((i_size inode - start + DIR_ENTRY_SIZE - 1) / DIR_ENTRY_SIZE))
    par_ino start dir_bh (offset mod DIR_ENTRY_NUM) filename.

(** src/nvfuse_core.c: nvfuse_truncate *)
Definition nvfuse_truncate (par_ino : Z) (filename : list Z) (trunc_size : Z) : FM Z :=
  '(f, dir_bh) ← on_dir (find_file par_ino filename true);
  match f with
  | None => on_dir (release_opt ((fun b => (par_ino, b)) <$> dir_bh));; mret NVFUSE_ERROR
  | Some ino =>
      inode ← inode_of ino;
      if i_type inode =? NVFUSE_TYPE_DIRECTORY then mret NVFUSE_ERROR
      else
        free_inode_size ino trunc_size;;
        change_inode ino (set_i_size trunc_size);;
        massert (trunc_size <? MAX_FILE_SIZE);;
        release_inode ino;;
        on_dir (release_opt ((fun b => (par_ino, b)) <$> dir_bh));;
        release_inode par_ino;;
        nvfuse_check_flush_dirty flush_due;;
        mret NVFUSE_SUCCESS
  end.

(** src/nvfuse_core.c: nvfuse_truncate_ino: the size stays. *)
Definition nvfuse_truncate_ino (ino trunc_size : Z) : FM Z :=
  read_inode ino;; free_inode_size ino trunc_size;; release_inode ino;; mret NVFUSE_SUCCESS.

(** src/nvfuse_api.c: nvfuse_ftruncate: the size in the table stays. *)
Definition nvfuse_ftruncate (fid size : Z) : FM Z :=
  ft ← get_ft fid;
  read_inode (ft_ino ft);;
  free_inode_size (ft_ino ft) size;;
  massert (size <? MAX_FILE_SIZE);;
  change_inode (ft_ino ft) (set_i_size size);;
  release_inode (ft_ino ft);;
  nvfuse_check_flush_dirty flush_due;;
  mret 0.

(** Resolve a path and run an operation on the directory and the name. *)
Definition on_path (path : list Z) (invalid : Z) (op : Z -> list Z -> FM Z) : FM Z :=
  '(filename, r) ← on_dir (nvfuse_path_resolve root_ino cwd_ino path);
  match r with
  | None => mret NVFUSE_ERROR
  | Some ino => if ino =? 0 then mret invalid else op ino filename
  end.

(** src/nvfuse_api.c: nvfuse_truncate_path *)
Definition nvfuse_truncate_path (path : list Z) (size : Z) : FM Z :=
  on_path path (-1) (fun ino filename => nvfuse_truncate ino filename size).

(** ** Attributes *)

(** src/nvfuse_core.c: nvfuse_chmod; the inode of a name that is not there is
    a NULL pointer. *)
Definition nvfuse_chmod (par_ino : Z) (filename : list Z) (mode : Z) : FM Z :=
  '(f, dir_bh) ← on_dir (find_file par_ino filename false);
  ino ← mlift f;
  change_inode ino (fun i => set_i_mode (chmod_mode (i_mode i) mode) i);;
  release_inode ino;;
  on_dir (release_opt ((fun b => (par_ino, b)) <$> dir_bh));;
  release_inode par_ino;;
  nvfuse_check_flush_dirty flush_due;;
  mret NVFUSE_SUCCESS.

(** Is it the path of one slash? *)
Definition is_root (path : list Z) : bool := bool_decide (path = [SLASH]).

(** The frame of the functions that look a path up and use the inode of the
    file: the code for the root, for an invalid path and for a missing name. *)
Definition with_inode (path : list Z) (invalid missing : Z) (op : Z -> FM Z) : FM Z :=
  on_path path invalid (fun par filename =>
    '(l, e) ← on_dir (nvfuse_lookup true filename par);
    if l <? 0 then mret missing
    else
      e ← mlift e;
      r ← op (d_ino e);
      release_inode (d_ino e);;
      mret r).

(** src/nvfuse_api.c: nvfuse_chmod_path; [res] is what the resolution left. *)
Definition nvfuse_chmod_path (path : list Z) (mode : Z) : FM Z :=
  if is_root path then mret (-1)
  else with_inode path (-1) (-1) (fun ino =>
    change_inode ino (fun i => set_i_mode (chmod_mode (i_mode i) mode) i);; mret 0).

(** src/nvfuse_api.c: nvfuse_chown *)
Definition nvfuse_chown (path : list Z) (uid gid : Z) : FM Z :=
  if is_root path then mret (-1)
  else with_inode path (-1) (-1) (fun ino => change_inode ino (set_i_owner uid gid);; mret 0).

(** src/nvfuse_api.c: nvfuse_utimens, with the seconds of the two times *)
Definition nvfuse_utimens (path : list Z) (atime mtime : Z) : FM Z :=
  if is_root path then mret (-1)
  else with_inode path (-1) (-1) (fun ino => change_inode ino (set_i_times atime mtime);; mret 0).

(** Block [k] of the pointer array, which device files use for their number. *)
Definition i_block (i : nvfuse_inode) (k : nat) : Z := default 0 (i_blocks i !! k).

(** src/nvfuse_api.c: nvfuse_getattr; [None] where [stbuf] stays cleared. *)
Definition stat_of (i : nvfuse_inode) : stat :=
  mk_stat (i_ino i) (i_mode i) (i_links_count i) (i_uid i) (i_gid i)
    (if S_ISCHR (i_mode i) || S_ISBLK (i_mode i) then old_decode_dev (i_block i 0 mod 2 ^ 16) else new_decode_dev (i_block i 1))
    (i_size i) (i_atime i) (i_mtime i) (i_ctime i).
Definition nvfuse_getattr (path : list Z) : FM (Z * option stat) :=
  if is_root path then mret (0, Some stat_root)
  else
    '(filename, r) ← on_dir (nvfuse_path_resolve root_ino cwd_ino path);
    match r with
    | None => mret (NVFUSE_ERROR, None)
    | Some par =>
        if par =? 0 then mret (- ENOENT, None)
        else
          '(l, e) ← on_dir (nvfuse_lookup true filename par);
          if l <? 0 then mret (- ENOENT, None)
          else
            e ← mlift e;
            inode ← inode_of (d_ino e);
            release_inode (d_ino e);;
            mret (0, Some (stat_of inode))
    end.

(** src/nvfuse_api.c: nvfuse_fgetattr *)
Definition nvfuse_fgetattr (path : list Z) (fd : Z) : FM (option Z * stat) :=
  if is_root path then mret (None, stat_root)
  else
    ft ← get_ft fd;
    read_inode (ft_ino ft);;
    inode ← inode_of (ft_ino ft);
    release_inode (ft_ino ft);;
    mret (Some 0, mk_stat 0 (i_mode inode) (i_links_count inode) 0 0 0 (i_size inode)
                    (i_atime inode) (i_mtime inode) (i_ctime inode)).

(** src/nvfuse_api.c: nvfuse_access; F_OK is no bit, and [res] is 0 when no bit
    is tested. *)
Definition access_code (type mask : Z) : Z :=
  if type =? NVFUSE_TYPE_FILE then 0 else if has_flag mask W_OK then -1 else 0.
Definition nvfuse_access (path : list Z) (mask : Z) : FM Z :=
  if is_root path then mret 0
  else with_inode path (-1) (-1) (fun ino => inode ← inode_of ino; mret (access_code (i_type inode) mask)).

(** ** Symbolic links *)

(** src/nvfuse_api.c: nvfuse_symlink; [link] is the string with its NUL. *)
Definition nvfuse_symlink (link : list Z) (parent : Z) (name : list Z) : FM Z :=
  '(l, _) ← on_dir (nvfuse_lookup false name parent);
  if l =? 0 then mret NVFUSE_ERROR
  else
    '(res, ino) ← on_dir (nvfuse_createfile parent name (Z.lor 511 S_IFLNK) 0);
    if negb (res =? NVFUSE_SUCCESS) then mret res
    else
      fid ← nvfuse_openfile_ino (default 0 ino) 1;
      bytes ← nvfuse_writefile flush_due fid link (strlen link) 0;
      if negb (u32 bytes =? strlen link) then mret (-1)
      else
        nvfuse_check_flush_dirty flush_due;;
        nvfuse_closefile fid;;
        mret 0.

(** src/nvfuse_api.c: nvfuse_symlink_path *)
Definition nvfuse_symlink_path (target_name link_name : list Z) : FM Z :=
  '(filename, r) ← on_dir (nvfuse_path_resolve root_ino cwd_ino link_name);
  match r with
  | None => mret NVFUSE_ERROR
  | Some ino => nvfuse_symlink target_name ino filename
  end.

(** src/nvfuse_api.c: nvfuse_readlink_ino: a buffer of [size] bytes must be
    filled; a refusal keeps the file open. *)
Definition nvfuse_readlink_ino (ino size : Z) : FM (Z * list Z) :=
  fid ← nvfuse_openfile_ino (if ino =? 0 then ROOT_INO else ino) 0;
  '(bytes, buf) ← nvfuse_readfile fid size size 0;
  if negb (u32 bytes =? size) then mret (-1, buf)
  else nvfuse_closefile fid;; mret (bytes, buf).

(** src/nvfuse_api.c: nvfuse_readlink *)
Definition nvfuse_readlink (path : list Z) (size : Z) : FM (Z * list Z) :=
  if is_root path then mret (-1, [])
  else
    '(filename, r) ← on_dir (nvfuse_path_resolve root_ino cwd_ino path);
    match r with
    | None => mret (NVFUSE_ERROR, [])
    | Some par =>
        '(l, e) ← on_dir (nvfuse_lookup false filename par);
        if l <? 0 then mret (-1, [])
        else
          e ← mlift e;
          if d_ino e =? 0 then mret (-1, []) else nvfuse_readlink_ino (d_ino e) size
    end.

(** ** Preallocation *)

(** The loop of nvfuse_fallocate: the block behind the last one that was
    allocated, and the last code of nvfuse_get_block. *)
Fixpoint fallocate_loop (fuel : nat) (ino curr_block remain_block res : Z) : FM (Z * Z) :=
  match fuel with
  | O => mabort
  | S fuel' =>
      if remain_block =? 0 then mret (curr_block, res)
      else
        '(res, num, _) ← on_dir (on_store (ds_get_block ino curr_block remain_block true));
        let curr_block := u32 (curr_block + num) in
        let remain_block := u32 (remain_block - num) in
        if num =? 0 then mret (curr_block, res)
        else
          nvfuse_check_flush_dirty flush_due;;
          fallocate_loop fuel' ino curr_block remain_block res
  end.

(** src/nvfuse_api.c: nvfuse_fallocate; the number of blocks comes from [length]
    alone. *)
Definition nvfuse_fallocate (path : list Z) (start length : Z) : FM Z :=
  on_path path (-1) (fun par filename =>
    '(l, e) ← on_dir (nvfuse_lookup true filename par);
    if l <? 0 then mret (-1)
    else
      e ← mlift e;
      let ino := d_ino e in
      inode ← inode_of ino;
      res ← (if i_size inode <? start + length then
               let max_block := u32 (Z.quot (length + CLUSTER_SIZE - 1) CLUSTER_SIZE) in
               '(curr_block, res) ←
                 fallocate_loop (S (Z.to_nat max_block)) ino (u32 (Z.quot start CLUSTER_SIZE)) max_block 0;
               let length := curr_block * CLUSTER_SIZE in
               change_inode ino (fun i => if i_size i <? length then set_i_size length i else i);;
               inode ← inode_of ino;
               massert (i_size inode <? MAX_FILE_SIZE);;
               mret res
             else mret 0);
      release_inode ino;;
      nvfuse_check_flush_dirty flush_due;;
      mret res).

(** src/nvfuse_api.c: nvfuse_fgetblk: the block and [*num_alloc]; a failure
    keeps the inode locked. *)
Definition nvfuse_fgetblk (fid lblk max_blocks : Z) : FM (Z * Z) :=
  ft ← get_ft fid;
  b ← on_dir (nvfuse_read_inode (ft_ino ft));
  if negb (b : bool) then mret (-1, 0)
  else
    '(ret, num, blk) ← on_dir (on_store (ds_get_block (ft_ino ft) lblk max_blocks false));
    if ret <? 0 then mret (-1, num)
    else release_inode (ft_ino ft);; mret (s32 blk, num).

End ops.
End FileOps.
