(* ===== verification/FileRules.v ===== *)
(** * Files: laws, contents, rules

    [FileSpec] has the laws and the contents of a file, [FileRules] the rules for
    the table, inodes and data buffers. *)
From S2P Require Import Prelude Bitmap Layout Dir DirEntry DirMake File FileIO.
Import Layout Dir DirSpec DirIndex DirEntry DirCreate File FileIO.

(** ** Files: laws, the contents of a file, rules

    [DataLaws] says what files need of the device and of the block map beyond
    [StoreLaws].  [file_ok] ties an array of bytes to the inode, the block map
    and the buffers of a file; [cache_ok] is the invariant of the buffers: a
    clean one agrees with the device. *)
Module FileSpec.

Lemma wp_and {S X} (m : M S X) (Q Q' : X -> S -> Prop) s : wp m Q s -> wp m Q' s -> wp m (fun x s' => Q x s' /\ Q' x s') s.
Proof. unfold wp. destruct (m s) as [[x s']|]; [by split|done]. Qed.

Class DataLaws (A : Type) `{Store A} `{DataStore A} := {
  dl_len : forall (a : A) j lb, length (ds_read a j lb) = Z.to_nat CLUSTER_SIZE;
  dl_write_eq : forall (a : A) j lb c, st_mapped a j lb = true -> length c = Z.to_nat CLUSTER_SIZE ->
    ds_read (ds_write j lb c a) j lb = c;
  dl_write_ne : forall (a : A) j lb c j' lb', (j, lb) <> (j', lb') -> st_mapped a j lb = true ->
    st_mapped a j' lb' = true -> ds_read (ds_write j lb c a) j' lb' = ds_read a j' lb';
  dl_write_inode : forall (a : A) j lb c j', st_inode (ds_write j lb c a) j' = st_inode a j';
  dl_write_mapped : forall (a : A) j lb c j' lb', st_mapped (ds_write j lb c a) j' lb' = st_mapped a j' lb';
  dl_write_limit : forall (a : A) j lb c, st_no_of_inodes (ds_write j lb c a) = st_no_of_inodes a;
  dl_write_root : forall (a : A) j lb c, st_root_ino (ds_write j lb c a) = st_root_ino a;
  dl_set_inode : forall (a : A) j i i0 j' lb, st_inode a j = Some i0 -> i_blocks i = i_blocks i0 ->
    ds_read (st_set_inode j i a) j' lb = ds_read a j' lb;
  dl_get_block : forall (a : A) b lb, wp (st_get_block b lb) (fun _ a' =>
    forall j l, st_mapped a j l = true -> ds_read a' j l = ds_read a j l) a;
  dl_truncate : forall (a : A) b size, is_Some (st_inode a b) -> wp (st_truncate b size) (fun _ a' =>
    forall j l, st_mapped a j l = true -> st_mapped a' j l = true -> ds_read a' j l = ds_read a j l) a }.

(** ** Offsets *)

Definition flen (bs : list Z) : Z := Z.of_nat (length bs).
Definition nblocks (n : Z) : Z := (n + 4095) / 4096.

Lemma max_size : MAX_FILE_SIZE < 2 ^ 43. Proof. done. Qed.

Lemma lbno_eq k : 0 <= k < MAX_FILE_SIZE -> lbno k = k / 4096.
Proof.
  intros Hk. pose proof max_size. unfold lbno, NVFUSE_SIZE_TO_BLK. rewrite Z.shiftr_div_pow2 by lia. change (2 ^ 12) with 4096.
  assert (0 <= k / 4096 < 2 ^ 31) by (unfold MAX_FILE_SIZE in *; change CLUSTER_SIZE with 4096 in *; dmlia).
  rewrite s32_small by lia. apply u32_small. lia.
Qed.

Lemma size_to_blk_eq k : 0 <= k < MAX_FILE_SIZE -> NVFUSE_SIZE_TO_BLK k = k / 4096.
Proof.
  intros Hk. unfold NVFUSE_SIZE_TO_BLK. rewrite Z.shiftr_div_pow2 by lia. change (2 ^ 12) with 4096. apply s32_small.
  unfold MAX_FILE_SIZE in *; change CLUSTER_SIZE with 4096 in *; dmlia.
Qed.

Lemma in_block_eq k : in_block k = k mod 4096.
Proof. unfold in_block. change (CLUSTER_SIZE - 1) with (Z.ones 12). by rewrite Z.land_ones. Qed.

Lemma step_len_eq off count : step_len off count = Z.min count (4096 - off mod 4096).
Proof. unfold step_len. rewrite in_block_eq. change CLUSTER_SIZE with 4096. zbool; lia. Qed.

(** The rounds of a transfer loop, the last test included *)
Definition rounds (off count : Z) : Z := if 0 <? count then (off mod 4096 + count + 4095) / 4096 + 1 else 1.

Lemma rounds_fuel off count : rounds off count <= Z.of_nat (io_fuel count).
Proof. unfold rounds, io_fuel. change CLUSTER_SIZE with 4096. zbool; try lia. rewrite !Nat2Z.inj_succ. dmlia. Qed.

Lemma rounds_step off count : 0 < count ->
  let r := step_len off count in rounds (off + r) (count - r) + 1 <= rounds off count /\ 0 < r <= count /\ off mod 4096 + r <= 4096.
Proof.
  intros Hc. cbv zeta. rewrite step_len_eq. unfold rounds. rewrite (proj2 (Z.ltb_lt 0 count)) by done.
  split; [|dmlia]. destruct (Z.ltb_spec 0 (count - Z.min count (4096 - off mod 4096))); dmlia.
Qed.

(** ** Contents *)

Section contents.
Context {A I : Type} `{Store A} `{DataStore A}.
Implicit Types s : fst A I.

Definition byte_at s (ino k : Z) : option Z := block_now s ino (k / 4096) !! Z.to_nat (k mod 4096).

Record cache_ok s : Prop := {
  co_len : forall k b, f_cache s !! k = Some b -> length (b_data b) = Z.to_nat CLUSTER_SIZE;
  co_mapped : forall k b, f_cache s !! k = Some b -> st_mapped (d_store (f_dir s)) k.1 k.2 = true;
  co_clean : forall k b, f_cache s !! k = Some b -> b_dirty b = false -> b_data b = ds_read (d_store (f_dir s)) k.1 k.2 }.

Record file_ok s (ino : Z) (bs : list Z) : Prop := {
  fk_inode : exists i, st_inode (d_store (f_dir s)) ino = Some i /\ i_ino i = ino /\ i_type i = NVFUSE_TYPE_FILE /\ i_size i = flen bs;
  fk_ino : ROOT_INO <= ino;
  fk_max : flen bs < MAX_FILE_SIZE;
  fk_mapped : forall lb, 0 <= lb < nblocks (flen bs) -> st_mapped (d_store (f_dir s)) ino lb = true;
  fk_bytes : forall k, 0 <= k < flen bs -> byte_at s ino k = bs !! Z.to_nat k;
  fk_locked : ino ∉ d_locked (f_dir s);
  fk_held : forall lb, (ino, lb) ∉ d_held (f_dir s);
  fk_cached : forall lb, is_Some (f_cache s !! (ino, lb)) -> 0 <= lb < nblocks (flen bs) }.

(** Only the files of [X] may differ; nothing is taken or released. *)
Record fothers (X : gset Z) s s' : Prop := {
  fo_dir : others X (f_dir s) (f_dir s');
  fo_locked : d_locked (f_dir s') = d_locked (f_dir s);
  fo_held : d_held (f_dir s') = d_held (f_dir s);
  fo_block : forall j lb, j ∉ X -> st_mapped (d_store (f_dir s)) j lb = true -> block_now s' j lb = block_now s j lb;
  fo_cached : forall j lb, j ∉ X -> is_Some (f_cache s' !! (j, lb)) -> is_Some (f_cache s !! (j, lb));
  fo_ftlock : f_ftlock s' = f_ftlock s }.

(** The table differs in entry [fid] at most. *)
Definition table_but (fid : Z) (t : nvfuse_file_table) s s' : Prop := f_table s' = <[ Z.to_nat fid := t ]> (f_table s).

Definition ft_at s (fid : Z) (t : nvfuse_file_table) : Prop := 0 <= fid /\ f_table s !! Z.to_nat fid = Some t.

(** [bs] with [d] written at [off] *)
Definition overwrite (off : Z) (d bs : list Z) : list Z :=
  take (Z.to_nat off) bs ++ d ++ drop (Z.to_nat off + length d) bs.

Lemma overwrite_len off d bs : 0 <= off <= flen bs -> flen (overwrite off d bs) = Z.max (flen bs) (off + flen d).
Proof. intros. unfold overwrite, flen in *. rewrite !length_app, length_take, length_drop. lia. Qed.

Lemma overwrite_nil off bs : overwrite off [] bs = bs.
Proof. unfold overwrite. simpl. rewrite Nat.add_0_r. apply take_drop. Qed.

Lemma overwrite_lookup off d bs k : 0 <= off <= flen bs -> 0 <= k ->
  overwrite off d bs !! Z.to_nat k = if (off <=? k) && (k <? off + flen d) then d !! Z.to_nat (k - off) else bs !! Z.to_nat k.
Proof.
  intros Ho Hk. unfold overwrite, flen in *. destruct (Z.leb_spec off k); [destruct (Z.ltb_spec k (off + Z.of_nat (length d)))|]; cbn [andb].
  - rewrite lookup_app_r by (rewrite length_take; lia). rewrite lookup_app_l by (rewrite length_take; lia).
    f_equal. rewrite length_take. lia.
  - rewrite lookup_app_r by (rewrite length_take; lia). rewrite lookup_app_r by (rewrite length_take; lia).
    rewrite lookup_drop. f_equal. rewrite length_take. lia.
  - rewrite lookup_app_l by (rewrite length_take; lia). apply lookup_take_lt. lia.
Qed.

Lemma overwrite_app off d1 d2 bs : 0 <= off <= flen bs ->
  overwrite (off + flen d1) d2 (overwrite off d1 bs) = overwrite off (d1 ++ d2) bs.
Proof.
  intros Ho. pose proof (overwrite_len off d1 bs Ho) as Hl. assert (0 <= flen d1) by (unfold flen; lia).
  apply list_eq. intros i. rewrite <- (Nat2Z.id i). assert (0 <= Z.of_nat i) by lia. generalize dependent (Z.of_nat i). clear i. intros k Hk.
  rewrite !overwrite_lookup by lia.
  assert (flen (d1 ++ d2) = flen d1 + flen d2) as -> by (unfold flen; rewrite length_app; lia).
  assert (0 <= flen d2) by (unfold flen; lia).
  zbool; first [rewrite lookup_app_r by (unfold flen in *; lia); f_equal; unfold flen in *; lia|by rewrite lookup_app_l by (unfold flen in *; lia)].
Qed.

Lemma fothers_refl X s : fothers X s s.
Proof. split; done. Qed.

Lemma fothers_trans X s1 s2 s3 : fothers X s1 s2 -> fothers X s2 s3 -> fothers X s1 s3.
Proof.
  intros [A1 A2 A3 A4 A5 A6] [B1 B2 B3 B4 B5 B6]. split; [by eapply others_trans|congruence..| | |congruence].
  - intros j lb Hj Hm. rewrite B4, A4; try done. by rewrite (ot_mapped _ _ _ A1).
  - intros j lb Hj Hs. auto.
Qed.

Lemma fothers_mono X Y s s' : X ⊆ Y -> fothers X s s' -> fothers Y s s'.
Proof. intros HX [? ? ? A4 A5 ?]. split; try done; [by eapply others_mono| |]; intros j lb Hj; [apply A4|apply A5]; set_solver. Qed.

(** Other files stay as they are. *)
Lemma fothers_file X s s' ino bs : fothers X s s' -> ino ∉ X -> file_ok s ino bs -> file_ok s' ino bs.
Proof.
  intros [O L Hd B Hca _] Hi [(i & F1) F2 F3 F4 F5 F6 F7 F8]. split; try done.
  - exists i. by rewrite (ot_inode _ _ _ O).
  - intros lb Hlb. rewrite (ot_mapped _ _ _ O) by done. by apply F4.
  - intros k Hk. unfold byte_at. rewrite B; [by apply F5|done|]. apply F4. unfold nblocks. dmlia.
  - by rewrite L.
  - intros lb. rewrite Hd. apply F7.
  - intros lb Hlb. by apply F8, Hca.
Qed.

End contents.
End FileSpec.

(** ** Files: rules for the table, inodes and data buffers *)
Import Layout Dir DirSpec DirIndex DirEntry DirCreate File FileIO FileSpec.

Module FileRules.

(** The projections of an explicit state. *)
Ltac fcbn := cbn [f_dir f_table f_ftlock f_cache set_dir set_table set_ftlock set_cache
  d_store d_locked d_held d_bufs d_index d_now set_store set_locked set_held set_buf set_index].

Section rules.
Context {A I : Type} `{Store A} `{DataStore A}.
Implicit Types s : fst A I.

Lemma wp_on_dir {X} (m : M (dst A I) X) (Q : X -> fst A I -> Prop) s :
  wp m (fun x d => Q x (set_dir d s)) (f_dir s) -> wp (on_dir m) Q s.
Proof. unfold wp, on_dir. by destruct (m (f_dir s)) as [[x d]|]. Qed.

Lemma wp_inode_of ino i (Q : nvfuse_inode -> fst A I -> Prop) s :
  st_inode (d_store (f_dir s)) ino = Some i -> Q i s -> wp (inode_of ino) Q s.
Proof. intros Hi HQ. apply wp_on_dir. eapply wp_get_inode; [done|]. by destruct s. Qed.

Lemma wp_change_inode ino i f (Q : unit -> fst A I -> Prop) s :
  st_inode (d_store (f_dir s)) ino = Some i ->
  Q tt (set_dir (set_store (st_set_inode ino (f i) (d_store (f_dir s))) (f_dir s)) s) -> wp (change_inode ino f) Q s.
Proof. intros Hi HQ. apply wp_on_dir. by eapply wp_upd_inode. Qed.

Lemma wp_lock_inode ino i (Q : unit -> fst A I -> Prop) s :
  ROOT_INO <= ino -> ino ∉ d_locked (f_dir s) -> st_inode (d_store (f_dir s)) ino = Some i -> i_ino i = ino ->
  Q tt (set_dir (set_locked ({[ ino ]} ∪ d_locked (f_dir s)) (f_dir s)) s) -> wp (read_inode ino) Q s.
Proof. intros. apply wp_on_dir. wp_step. eapply wp_read_inode; [done..|]. by apply wp_assert. Qed.

Lemma wp_unlock_inode ino (Q : unit -> fst A I -> Prop) s :
  ino ∈ d_locked (f_dir s) -> Q tt (set_dir (set_locked (d_locked (f_dir s) ∖ {[ ino ]}) (f_dir s)) s) ->
  wp (release_inode ino) Q s.
Proof. intros. apply wp_on_dir. by apply wp_unlock. Qed.

Lemma wp_get_ft fid t (Q : nvfuse_file_table -> fst A I -> Prop) s : ft_at s fid t -> Q t s -> wp (get_ft fid) Q s.
Proof. intros [Hf Ht] HQ. unfold wp, get_ft. rewrite (proj2 (Z.leb_le 0 fid)), Ht by lia. done. Qed.

Lemma wp_upd_ft fid t f (Q : unit -> fst A I -> Prop) s :
  ft_at s fid t -> Q tt (set_table (<[Z.to_nat fid := f t]> (f_table s)) s) -> wp (upd_ft fid f) Q s.
Proof. intros Ht HQ. unfold upd_ft. wp_step. eapply wp_get_ft; [done|]. by wp_steps. Qed.

Lemma ft_at_insert s fid t t' : ft_at s fid t -> ft_at (set_table (<[Z.to_nat fid := t']> (f_table s)) s) fid t'.
Proof. intros [Hf Ht]. split; [done|]. fcbn. apply list_lookup_insert_eq. by apply lookup_lt_Some in Ht. Qed.

(** A buffer that was loaded by a read *)
Definition load (ino lb : Z) (s : fst A I) : gmap (Z * Z) buf :=
  match f_cache s !! (ino, lb) with
  | Some _ => f_cache s
  | None => <[(ino, lb) := mk_buf (block_now s ino lb) false]> (f_cache s)
  end.

Lemma wp_get_data_bh ino lb (sync : bool) (Q : unit -> fst A I -> Prop) s :
  ino ∈ d_locked (f_dir s) -> (ino, lb) ∉ d_held (f_dir s) -> st_mapped (d_store (f_dir s)) ino lb = true ->
  Q tt (set_cache (if sync then load ino lb s else f_cache s)
          (set_dir (set_held ({[ (ino, lb) ]} ∪ d_held (f_dir s)) (f_dir s)) s)) ->
  wp (get_data_bh ino lb sync) Q s.
Proof.
  intros Hl Hh Hm HQ. unfold get_data_bh. wp_step. apply wp_on_dir. wp_steps. apply wp_assert; [by apply bool_decide_true|].
  wp_step. apply wp_hold; [done|]. apply wp_assert; [done|].
  destruct sync; [|wp_step; by destruct s]. wp_step. revert HQ. unfold load. fcbn.
  destruct (f_cache s !! (ino, lb)) as [b|]; [by destruct s|done].
Qed.

Lemma wp_release_data_bh ino lb (Q : unit -> fst A I -> Prop) s :
  (ino, lb) ∈ d_held (f_dir s) ->
  Q tt (set_dir (set_held (d_held (f_dir s) ∖ {[ (ino, lb) ]}) (f_dir s)) s) -> wp (release_data_bh ino lb) Q s.
Proof. intros. apply wp_on_dir. by apply wp_release. Qed.

Lemma wp_write_data ino lb off bytes (Q : unit -> fst A I -> Prop) s :
  0 <= off -> off + flen bytes <= CLUSTER_SIZE ->
  Q tt (set_cache (<[(ino, lb) := mk_buf (splice off bytes (block_now s ino lb)) true]> (f_cache s)) s) ->
  wp (write_data ino lb off bytes) Q s.
Proof.
  intros Ho Hb HQ. unfold write_data. wp_step. apply wp_assert; [|by wp_steps].
  unfold flen in Hb. apply andb_true_iff. split; apply Z.leb_le; lia.
Qed.

(** ** What does not change the contents *)

(** Loading a buffer changes no block. *)
Lemma load_lookup ino lb s k : load ino lb s !! k =
  if decide (k = (ino, lb)) then Some (default (mk_buf (block_now s ino lb) false) (f_cache s !! k)) else f_cache s !! k.
Proof.
  unfold load. destruct (f_cache s !! (ino, lb)) as [b|] eqn:E; case_decide as Hk.
  - subst. by rewrite E.
  - done.
  - subst. by rewrite E, lookup_insert_eq.
  - by rewrite lookup_insert_ne.
Qed.

Lemma load_block_now ino lb s s' j l :
  d_store (f_dir s') = d_store (f_dir s) -> f_cache s' = load ino lb s -> block_now s' j l = block_now s j l.
Proof.
  intros Es Ec. unfold block_now at 1. rewrite Ec, Es, load_lookup. unfold block_now.
  case_decide as Hk; [injection Hk as -> ->|done]. by destruct (f_cache s !! (ino, lb)).
Qed.

Lemma load_cache_ok `{!DataLaws A} ino lb s s' :
  cache_ok s -> st_mapped (d_store (f_dir s)) ino lb = true ->
  d_store (f_dir s') = d_store (f_dir s) -> f_cache s' = load ino lb s -> cache_ok s'.
Proof.
  intros [C1 C2 C3] Hm Es Ec.
  assert (forall k b, f_cache s' !! k = Some b -> f_cache s !! k = Some b \/ (k = (ino, lb) /\ b = mk_buf (ds_read (d_store (f_dir s)) ino lb) false)) as Hc.
  { intros k b. rewrite Ec, load_lookup. case_decide as Hk; [|by left]. subst. unfold block_now.
    destruct (f_cache s !! (ino, lb)); intros [= <-]; [by left|by right]. }
  split; intros k b Hb; rewrite ?Es; destruct (Hc k b Hb) as [Hb'|[-> ->]]; eauto. apply dl_len.
Qed.

(** Taking an offset in the table, locks and buffers leaves every file alone. *)
Lemma same_file s s' ino bs :
  d_store (f_dir s') = d_store (f_dir s) -> d_locked (f_dir s') = d_locked (f_dir s) -> d_held (f_dir s') = d_held (f_dir s) ->
  (forall j l, block_now s' j l = block_now s j l) ->
  (forall lb, is_Some (f_cache s' !! (ino, lb)) -> is_Some (f_cache s !! (ino, lb)) \/ 0 <= lb < nblocks (flen bs)) ->
  file_ok s ino bs -> file_ok s' ino bs.
Proof.
  intros Es El Eh Eb Ec [F1 F2 F3 F4 F5 F6 F7 F8]. split; rewrite ?Es, ?El, ?Eh; try done.
  - intros k Hk. unfold byte_at. rewrite Eb. by apply F5.
  - intros lb [Hlb|Hlb]%Ec; [by apply F8|done].
Qed.

Lemma cache_ok_eq s s' : d_store (f_dir s') = d_store (f_dir s) -> f_cache s' = f_cache s -> cache_ok s -> cache_ok s'.
Proof. intros Es Ec [C1 C2 C3]. split; rewrite ?Es, ?Ec; done. Qed.

Lemma block_len `{!DataLaws A} s ino lb : cache_ok s -> length (block_now s ino lb) = Z.to_nat CLUSTER_SIZE.
Proof.
  intros [C _ _]. unfold block_now. destruct (f_cache s !! (ino, lb)) as [b|] eqn:E; [by eapply C|apply dl_len].
Qed.

End rules.
End FileRules.
