(* ===== verification/FileWrite.v ===== *)
(** * Files: reading and writing

    [FileRead] and [FileWrite]: the loops of nvfuse_readfile_core and
    nvfuse_writefile_core. *)
From S2P Require Import Prelude Bitmap Layout Dir DirEntry DirMake File FileIO FileRules.
Import Layout Dir DirSpec DirIndex DirEntry DirCreate File FileIO FileSpec FileRules.

(** ** Files: reading

    A read returns the bytes of the file from its offset on, and, since a step
    copies up to the end of the block, the bytes behind the end of the file in
    its last block. *)
Module FileRead.

Section read.
Context {A I : Type} `{StoreLaws A} `{!DataStore A} `{!DataLaws A}.
Implicit Types s : fst A I.

(** [full]: the bytes of all blocks of the file *)
Definition whole s (ino n : Z) (full : list Z) : Prop :=
  flen full = n * 4096 /\ forall k, 0 <= k < n * 4096 -> byte_at s ino k = full !! Z.to_nat k.

(** The bytes behind the end of a file *)
Definition slack s (ino size : Z) : list Z :=
  if size mod 4096 =? 0 then [] else drop (Z.to_nat (size mod 4096)) (block_now s ino (size / 4096)).

Lemma file_whole s ino bs : cache_ok s -> file_ok s ino bs -> whole s ino (nblocks (flen bs)) (bs ++ slack s ino (flen bs)).
Proof.
  intros Hc F. remember (flen bs) as n eqn:En. assert (Z.of_nat (length bs) = n) as Hb by done. assert (0 <= n) by lia.
  assert (length (slack s ino n) = Z.to_nat (nblocks n * 4096 - n)) as Hl.
  { unfold slack, nblocks. destruct (Z.eqb_spec (n mod 4096) 0) as [E|E]; [simpl; dmlia|].
    rewrite length_drop, block_len by done. change CLUSTER_SIZE with 4096. dmlia. }
  split; [unfold flen; rewrite length_app, Hl; unfold nblocks; dmlia|].
  intros k Hk. destruct (Z.lt_ge_cases k n) as [Hkn|Hkn].
  - rewrite lookup_app_l by lia. apply F. lia.
  - rewrite lookup_app_r by lia. unfold byte_at, slack.
    assert (k / 4096 = n / 4096) as -> by (unfold nblocks in Hk; dmlia).
    rewrite (proj2 (Z.eqb_neq (n mod 4096) 0)) by (unfold nblocks in Hk; dmlia).
    rewrite lookup_drop. f_equal. unfold nblocks in *. dmlia.
Qed.

(** The part of a block that a step copies *)
Lemma step_bytes s ino n full off r :
  cache_ok s -> whole s ino n full -> 0 <= off -> off < n * 4096 -> 0 <= r -> off mod 4096 + r <= 4096 ->
  take (Z.to_nat r) (drop (Z.to_nat (in_block off)) (block_now s ino (off / 4096))) = take (Z.to_nat r) (drop (Z.to_nat off) full).
Proof.
  intros Hc [Hl Hf] Ho Hn Hr Hb. rewrite in_block_eq. apply list_eq. intros i.
  destruct (Nat.lt_ge_cases i (Z.to_nat r)) as [Hi|Hi]; [|by rewrite !lookup_take_ge by lia].
  rewrite !lookup_take_lt, !lookup_drop by lia.
  specialize (Hf (off + Z.of_nat i)). unfold byte_at in Hf.
  replace ((off + Z.of_nat i) / 4096) with (off / 4096) in Hf by dmlia.
  replace (Z.to_nat (off mod 4096) + i)%nat with (Z.to_nat ((off + Z.of_nat i) mod 4096)) by dmlia.
  rewrite Hf by dmlia. f_equal. lia.
Qed.

(** How far a read gets *)
Definition read_count (size off count : Z) : Z := if off <? size then Z.min count (nblocks size * 4096 - off) else 0.

Lemma read_count_step size off count : 0 <= off -> off < size -> 0 < count ->
  let r := step_len off count in
  read_count size off count = r + read_count size (off + r) (count - r) /\ off / 4096 < nblocks size /\
  0 <= read_count size (off + r) (count - r).
Proof.
  intros Ho Hs Hc. cbv zeta. rewrite step_len_eq. unfold read_count, nblocks.
  rewrite (proj2 (Z.ltb_lt off size)) by done. destruct (Z.ltb_spec (off + Z.min count (4096 - off mod 4096)) size); dmlia.
Qed.

(** What a read changes: the offset in the table, and buffers that get loaded. *)
Record read_to s s' (fid : Z) (t : nvfuse_file_table) (n : Z) : Prop := {
  rt_dir : f_dir s' = f_dir s;
  rt_ftlock : f_ftlock s' = f_ftlock s;
  rt_cache : cache_ok s';
  rt_block : forall j l, block_now s' j l = block_now s j l;
  rt_cached : forall k, is_Some (f_cache s' !! k) -> is_Some (f_cache s !! k) \/ (k.1 = ft_ino t /\ 0 <= k.2 < nblocks n);
  rt_table : table_but fid t s s' }.

Lemma read_loop_wp fuel : forall s fid ino count sync acc rcount t i full,
  cache_ok s -> st_inode (d_store (f_dir s)) ino = Some i -> 0 <= i_size i < MAX_FILE_SIZE ->
  ft_at s fid t -> ft_ino t = ino -> 0 <= ft_rwoffset t -> 0 <= count -> ino ∈ d_locked (f_dir s) ->
  (forall lb, (ino, lb) ∉ d_held (f_dir s)) ->
  (forall lb, 0 <= lb < nblocks (i_size i) -> st_mapped (d_store (f_dir s)) ino lb = true) ->
  whole s ino (nblocks (i_size i)) full -> rounds (ft_rwoffset t) count <= Z.of_nat fuel ->
  wp (read_loop fuel fid ino count sync acc rcount) (fun r s' =>
    let n := read_count (i_size i) (ft_rwoffset t) count in
    r = (rcount + n, if sync then acc ++ take (Z.to_nat n) (drop (Z.to_nat (ft_rwoffset t)) full) else acc) /\
    read_to s s' fid (set_rwoffset (ft_rwoffset t + n) t) (i_size i)) s.
Proof.
  induction fuel as [|fuel IH]; intros s fid ino count sync acc rcount t i full Hc Hi Hsz Ht Hit Ho Hn Hl Hh Hm Hw Hf.
  { unfold rounds in Hf. zbool; try lia. dmlia. }
  cbn [read_loop]. set (off := ft_rwoffset t) in *. wp_step. eapply wp_get_ft; [done|]. wp_step. eapply wp_inode_of; [done|]. fold off.
  destruct (Z.ltb_spec 0 count) as [Hpos|Hpos]; cycle 1.
  { cbn [andb]. wp_step. assert (read_count (i_size i) off count = 0) as Hz.
    { unfold read_count, nblocks. destruct (Z.ltb_spec off (i_size i)); dmlia. }
    cbv zeta. rewrite Hz, !Z.add_0_r. split; [by destruct sync; rewrite ?app_nil_r|].
    split; try done; [by left|]. unfold table_but. symmetry. apply list_insert_id. destruct Ht as [_ ->]. by destruct t. }
  destruct (Z.ltb_spec off (i_size i)) as [Hlt|Hlt]; cbn [andb]; cycle 1.
  { wp_step. assert (read_count (i_size i) off count = 0) as Hz by (unfold read_count; by rewrite (proj2 (Z.ltb_ge _ _))).
    cbv zeta. rewrite Hz, !Z.add_0_r. split; [by destruct sync; rewrite ?app_nil_r|].
    split; try done; [by left|]. unfold table_but. symmetry. apply list_insert_id. destruct Ht as [_ ->]. by destruct t. }
  destruct (rounds_step off count Hpos) as (Hr & Hrc & Hrb). destruct (read_count_step (i_size i) off count) as (Hs & Hq & Hn'); [lia..|].
  cbv zeta in *. set (r := step_len off count) in *. assert (lbno off = off / 4096) as -> by (apply lbno_eq; lia).
  wp_step. apply wp_get_data_bh; [done|apply Hh|apply Hm; dmlia|]. wp_step. unfold buf_bytes. wp_step.
  set (s1 := set_cache _ _). assert (f_cache s1 = if sync then load ino (off / 4096) s else f_cache s) as Ec by done.
  assert (forall j l, block_now s1 j l = block_now s j l) as Hb1.
  { intros j l. destruct sync; [by eapply load_block_now|done]. }
  assert (cache_ok s1) as Hc1 by (destruct sync; [eapply (load_cache_ok ino (off / 4096)); [exact Hc|apply Hm; dmlia|done..]|by apply (cache_ok_eq s)]).
  rewrite Hb1. rewrite (step_bytes s ino (nblocks (i_size i)) full) by (done || lia || (unfold nblocks in *; dmlia)).
  wp_step. eapply (wp_upd_ft fid t); [done|]. wp_step. apply wp_release_data_bh; [fcbn; set_solver|]. unfold s1. fcbn.
  set (s2 := set_dir _ _). assert (f_dir s2 = f_dir s) as Ed.
  { unfold s2. fcbn. rewrite add_remove by apply Hh. by destruct (f_dir s). }
  assert (forall j l, block_now s2 j l = block_now s j l) as Hb2.
  { intros j l. rewrite <- Hb1. unfold block_now. by rewrite Ed. }
  assert (cache_ok s2) as Hc2 by (eapply cache_ok_eq; [| |exact Hc1]; [by rewrite Ed|done]).
  eapply wp_mono; [eapply (IH s2 fid ino (count - r) sync _ _ (set_rwoffset (off + r) t) i full)|]; try (by rewrite ?Ed); try done.
  - eapply (ft_at_insert s). exact Ht.
  - cbn. lia.
  - lia.
  - destruct Hw as [Hw1 Hw2]. split; [done|]. intros k Hk. unfold byte_at. rewrite Hb2. by apply Hw2.
  - cbn [set_rwoffset ft_rwoffset]. lia.
  - cbn [set_rwoffset ft_rwoffset ft_ino ft_size ft_used ft_flags]. intros x s3 [-> [R1 R2 R3 R4 R6 R5]]. split; [f_equal; [lia|]|].
    + destruct sync; [|done]. rewrite <- app_assoc. f_equal. rewrite Hs, !Z2Nat.inj_add by lia.
      by rewrite <- take_take_drop, drop_drop.
    + split; [congruence|done|done|intros; by rewrite R4, Hb2| |].
      { intros k [Hk|Hk]%R6; [|by right]. change (f_cache s2) with (f_cache s1) in Hk. rewrite Ec in Hk. destruct sync; [|by left].
        rewrite load_lookup in Hk. case_decide as Hkq; [right|by left]. subst k. cbn [Datatypes.fst snd set_rwoffset ft_ino]. split; [done|dmlia]. }
      unfold table_but in *. rewrite R5. unfold s2. fcbn.
      rewrite list_insert_insert_eq, Hs. unfold set_rwoffset. cbn. by rewrite Z.add_assoc.
Qed.

Lemma readfile_core_wp s fid size count off sync t bs :
  cache_ok s -> file_ok s (ft_ino t) bs -> ft_at s fid t -> 0 <= off -> 0 <= count <= size ->
  wp (nvfuse_readfile_core fid size count off sync) (fun r s' =>
    let n := read_count (flen bs) off count in
    r = (n, if sync then take (Z.to_nat n) (drop (Z.to_nat off) (bs ++ slack s (ft_ino t) (flen bs))) else []) /\
    read_to s s' fid (set_rwoffset (off + n) t) (flen bs)) s.
Proof.
  intros Hc F Ht Ho Hn. pose proof F as [(i & Hi & Hino & Hty & Hsz) F2 F3 F4 F5 F6 F7 F8].
  pose proof (file_whole s _ _ Hc F) as Hw. set (full := bs ++ _) in *.
  unfold nvfuse_readfile_core. wp_step. eapply wp_get_ft; [done|]. wp_step. eapply wp_lock_inode; [done..|].
  wp_step. eapply wp_upd_ft; [exact Ht|]. fcbn. wp_step. set (s1 := set_table _ _).
  assert (forall j l, block_now s1 j l = block_now s j l) as Hb1 by done.
  eapply wp_mono; [eapply (read_loop_wp (io_fuel count) s1 fid (ft_ino t) count sync [] 0 (set_rwoffset off t) i full)|]; try done.
  - by apply (cache_ok_eq s).
  - rewrite Hsz. split; [unfold flen; lia|done].
  - by eapply (ft_at_insert s).
  - lia.
  - unfold s1. fcbn. set_solver.
  - rewrite Hsz. apply F4.
  - by rewrite Hsz.
  - apply rounds_fuel.
  - rewrite Hsz. cbn [set_rwoffset ft_rwoffset ft_ino ft_size ft_used ft_flags]. intros x s2 [-> [R1 R2 R3 R4 R6 R5]]. cbn [app].
    set (n := read_count (flen bs) off count) in *. wp_step.
    assert (0 <= n <= count) as Hn'. { unfold n, read_count, nblocks. destruct (Z.ltb_spec off (flen bs)); dmlia. }
    apply wp_assert. { apply Z.leb_le. destruct sync; cbn [snd length]; [rewrite length_take; lia|lia]. }
    wp_step. apply wp_unlock_inode; [rewrite R1; unfold s1; fcbn; set_solver|]. wp_step. cbv zeta. rewrite Z.add_0_l.
    split; [by destruct sync|]. split; fcbn.
    + rewrite R1. unfold s1. fcbn. rewrite add_remove by done. by destruct (f_dir s).
    + by rewrite R2.
    + eapply cache_ok_eq; [| |exact R3]; done.
    + intros j l. rewrite <- Hb1, <- R4. done.
    + apply R6.
    + unfold table_but in *. fcbn. rewrite R5. unfold s1. fcbn. by rewrite list_insert_insert_eq.
Qed.

Lemma slack_len s ino n : cache_ok s -> 0 <= n -> flen (slack s ino n) < 4096 /\ (n + flen (slack s ino n)) mod 4096 = 0.
Proof.
  intros Hc Hn. unfold slack, flen. destruct (Z.eqb_spec (n mod 4096) 0) as [E|E]; [simpl; split; [lia|dmlia]|].
  rewrite length_drop, block_len by done. change CLUSTER_SIZE with 4096. split; dmlia.
Qed.

(** The bytes that nvfuse_readfile returns *)
Lemma readfile_bytes_wp s fid size count off t bs :
  cache_ok s -> file_ok s (ft_ino t) bs -> ft_at s fid t -> 0 <= off -> 0 <= count <= size ->
  wp (nvfuse_readfile fid size count off) (fun r s' =>
    (exists tail, (flen bs + flen tail) mod 4096 = 0 /\ flen tail < 4096 /\
       r = (flen (r.2), if off <? flen bs then take (Z.to_nat count) (drop (Z.to_nat off) (bs ++ tail)) else [])) /\
    exists n, read_to s s' fid (set_rwoffset n t) (flen bs)) s.
Proof.
  intros Hc F Hat Ho Hn. eapply wp_mono; [by eapply (readfile_core_wp s fid size count off true t bs)|].
  intros r s1 [-> R]. set (tail := slack s (ft_ino t) (flen bs)) in *. set (n := read_count (flen bs) off count) in *.
  split; [|by eexists]. destruct (slack_len s (ft_ino t) (flen bs)) as [Ht1 Ht2]; [done|unfold flen; lia|]. fold tail in Ht1, Ht2.
  exists tail. split; [done|]. split; [done|]. cbn [snd].
  assert (0 <= flen bs /\ 0 <= flen tail) as [? ?] by (unfold flen; lia).
  assert (flen (bs ++ tail) = flen bs + flen tail) as Hfl by (unfold flen; rewrite length_app; lia).
  unfold n, read_count. destruct (Z.ltb_spec off (flen bs)) as [Hlt|Hge]; [|done].
  assert (flen bs + flen tail = nblocks (flen bs) * 4096) as Hnb by (unfold nblocks; dmlia).
  assert (length (drop (Z.to_nat off) (bs ++ tail)) = Z.to_nat (nblocks (flen bs) * 4096 - off)) as Hl.
  { rewrite length_drop. unfold flen in *. lia. }
  assert (forall m, 0 <= m <= nblocks (flen bs) * 4096 - off -> flen (take (Z.to_nat m) (drop (Z.to_nat off) (bs ++ tail))) = m) as Htk.
  { intros m Hm. unfold flen. rewrite length_take, Hl. lia. }
  f_equal; [by rewrite Htk by lia|].
  destruct (Z.le_gt_cases count (nblocks (flen bs) * 4096 - off)); [by rewrite Z.min_l by lia|].
  rewrite Z.min_r by lia. by rewrite !take_ge by (rewrite Hl; lia).
Qed.

(** A read leaves every file as it is. *)
Lemma read_to_file s s' fid t ino bs bs0 :
  read_to s s' fid t (flen bs0) -> file_ok s (ft_ino t) bs0 -> file_ok s ino bs -> file_ok s' ino bs.
Proof.
  intros [E _ _ B C _] F0 F. apply (same_file s); rewrite ?E; try done.
  intros lb [Hs|[Hi Hlb]]%C; [by left|]. cbn in Hi, Hlb. subst ino. right.
  enough (flen bs = flen bs0) as -> by done.
  destruct (fk_inode _ _ _ F0) as (i & Hi & _ & _ & <-), (fk_inode _ _ _ F) as (i' & Hi' & _ & _ & <-). congruence.
Qed.

Lemma read_to_others s s' fid t n : read_to s s' fid t n -> fothers {[ ft_ino t ]} s s'.
Proof.
  intros [E L _ B C _]. split; rewrite ?E; try done. intros j lb Hj [Hs|[Hi _]]%C; [done|]. cbn in Hi. set_solver.
Qed.

End read.
End FileRead.

(** ** Files: writing

    A write through the only open entry of a file at an offset in the file
    replaces its bytes from the offset on and extends it. *)
Import Layout Dir DirSpec DirIndex DirEntry DirCreate File FileIO FileSpec FileRules.

Module FileWrite.

Section write.
Context {A I : Type} `{StoreLaws A} `{!DataStore A} `{!DataLaws A}.
Implicit Types (s : fst A I) (a : A).

(** ** The block map grows *)

Record grown a a' (ino : Z) (i : nvfuse_inode) : Prop := {
  gr_frame : frame ino a a';
  gr_inode : exists l, st_inode a' ino = Some (set_i_blocks l i);
  gr_mapped : forall lb, st_mapped a ino lb = true -> st_mapped a' ino lb = true;
  gr_read : forall j lb, st_mapped a j lb = true -> ds_read a' j lb = ds_read a j lb }.

Lemma alloc_tail_wp ino i off (Q : bool -> fst A I -> Prop) s :
  st_inode (d_store (f_dir s)) ino = Some i -> 0 <= off <= i_size i -> i_size i < MAX_FILE_SIZE ->
  (forall lb, 0 <= lb < nblocks (i_size i) -> st_mapped (d_store (f_dir s)) ino lb = true) ->
  (forall a', grown (d_store (f_dir s)) a' ino i -> st_mapped a' ino (off / 4096) = true ->
     Q true (set_dir (set_store a' (f_dir s)) s)) ->
  wp (alloc_tail ino i off) Q s.
Proof.
  intros Hi Ho Hmax Hm HQ. unfold alloc_tail. destruct (Z.leb_spec (i_size i) off) as [Hle|Hlt].
  - assert (i_size i = off) as Hs by lia. wp_step. apply wp_on_dir, wp_on_store.
    eapply wp_mono; [apply wp_and; [apply sl_get_block|apply dl_get_block]|].
    intros r a' [(-> & F & (l & E) & Hn & Hmm) Hd]. wp_step. rewrite size_to_blk_eq, Hs in Hn, Hmm by lia.
    apply HQ; [|done]. split; [done| |intros lb Hlb|done].
    + exists l. by rewrite E, Hi.
    + destruct (decide (lb = off / 4096)) as [->|]; [done|]. by rewrite Hmm.
  - wp_step. replace s with (set_dir (set_store (d_store (f_dir s)) (f_dir s)) s) by (by destruct s as [[] ? ? ?]).
    apply HQ; [|apply Hm; unfold nblocks; dmlia]. split; [apply frame_refl| |done|done].
    exists (i_blocks i). rewrite Hi. by destruct i.
Qed.

(** ** One round *)

(** [d] was written at [off] through entry [fid], [t] before. *)
Record wrote s s' (fid : Z) (t : nvfuse_file_table) (off : Z) (d bs : list Z) : Prop := {
  wr_file : file_ok s' (ft_ino t) (overwrite off d bs);
  wr_cache : cache_ok s';
  wr_others : fothers {[ ft_ino t ]} s s';
  wr_inode : exists i l, st_inode (d_store (f_dir s)) (ft_ino t) = Some i /\
    st_inode (d_store (f_dir s')) (ft_ino t) = Some (set_i_size (flen (overwrite off d bs)) (set_i_blocks l i));
  wr_device : forall j lb, st_mapped (d_store (f_dir s)) j lb = true ->
    st_mapped (d_store (f_dir s')) j lb = true /\ ds_read (d_store (f_dir s')) j lb = ds_read (d_store (f_dir s)) j lb;
  wr_table : table_but fid (grow_size (set_rwoffset (off + flen d) t)) s s' }.

Lemma grow_size_ino t v : ft_ino (grow_size (set_rwoffset v t)) = ft_ino t.
Proof. unfold grow_size. cbn. by case_match. Qed.
Lemma grow_size_size t v : ft_size (grow_size (set_rwoffset v t)) = Z.max (ft_size t) v.
Proof. unfold grow_size. cbn. destruct (Z.ltb_spec (ft_size t) v); cbn; lia. Qed.
Lemma grow_size_off t v : ft_rwoffset (grow_size (set_rwoffset v t)) = v.
Proof. unfold grow_size. cbn. by case_match. Qed.
Lemma grow_size_again t v v' : v <= v' ->
  grow_size (set_rwoffset v' (grow_size (set_rwoffset v t))) = grow_size (set_rwoffset v' t).
Proof.
  intros Hv. unfold grow_size. cbn. destruct (Z.ltb_spec (ft_size t) v) as [Hs|Hs]; cbn; [|done].
  rewrite (proj2 (Z.ltb_lt (ft_size t) v')) by lia. destruct (Z.ltb_spec v v'); [done|]. by replace v' with v by lia.
Qed.

(** The state after a round *)
Definition round_state s (fid ino q : Z) (t' : nvfuse_file_table) (a' : A) (i' : nvfuse_inode) (c : gmap (Z * Z) buf)
  (data : list Z) : fst A I :=
  mk_fst A I
    (mk_dst A I (st_set_inode ino i' a') (d_locked (f_dir s)) (d_held (f_dir s)) (d_bufs (f_dir s)) (d_index (f_dir s)) (d_now (f_dir s)))
    (<[Z.to_nat fid := t']> (f_table s)) (f_ftlock s) (<[(ino, q) := mk_buf data true]> c).

Lemma round_wrote s fid t off d bs i l a' sync :
  cache_ok s -> file_ok s (ft_ino t) bs -> ft_size t = flen bs -> ft_rwoffset t = off -> 0 <= off <= flen bs ->
  0 < flen d -> off mod 4096 + flen d <= 4096 -> off + flen d < MAX_FILE_SIZE ->
  st_inode (d_store (f_dir s)) (ft_ino t) = Some i -> i_type i = NVFUSE_TYPE_FILE ->
  grown (d_store (f_dir s)) a' (ft_ino t) i -> st_inode a' (ft_ino t) = Some (set_i_blocks l i) ->
  st_mapped a' (ft_ino t) (off / 4096) = true ->
  let ino := ft_ino t in
  let t' := grow_size (set_rwoffset (off + flen d) t) in
  let s1 := set_dir (set_store a' (f_dir s)) s in
  wrote s (round_state s fid ino (off / 4096) t' a' (set_i_size (ft_size t') (set_i_type NVFUSE_TYPE_FILE (set_i_blocks l i)))
      (if (sync : bool) then load ino (off / 4096) s1 else f_cache s) (splice (off mod 4096) d (block_now s1 ino (off / 4096))))
    fid t off d bs.
Proof.
  intros Hc F Hsz Hoff Ho Hd0 Hd Hmax Hi Hty [G1 _ G3 G4] Hi' Hm ino t' s1.
  pose proof F as [_ F2 F3 F4 F5 F6 F7 F8]. set (q := off / 4096) in *.
  set (i' := set_i_size _ _). set (c := if sync then _ else _). set (data := splice _ _ _). set (s' := round_state _ _ _ _ _ _ _ _ _).
  pose proof (overwrite_len off d bs Ho) as Hlen.
  assert (ft_size t' = flen (overwrite off d bs)) as Hsz' by (unfold t'; rewrite grow_size_size, Hlen; lia).
  assert (forall j, j <> ino -> st_inode (d_store (f_dir s')) j = st_inode (d_store (f_dir s)) j) as Hino.
  { intros j Hj. cbn. rewrite set_inode_ne by done. by apply G1. }
  assert (forall j lb, st_mapped (d_store (f_dir s')) j lb = st_mapped a' j lb) as Hmap.
  { intros j lb. cbn. destruct (decide (j = ino)) as [->|]; [by eapply sl_set_mapped|by apply sl_set_frame]. }
  assert (forall j lb, st_mapped (d_store (f_dir s)) j lb = true -> st_mapped a' j lb = true) as Hmap'.
  { intros j lb Hj. destruct (decide (j = ino)) as [->|]; [by apply G3|]. by rewrite (fr_mapped _ _ _ G1). }
  assert (forall j lb, ds_read (d_store (f_dir s')) j lb = ds_read a' j lb) as Hrd.
  { intros j lb. cbn. by eapply dl_set_inode. }
  assert (cache_ok s1) as Hc1.
  { destruct Hc as [C1 C2 C3]. split; cbn; intros k b Hb; [by eapply C1|by apply Hmap', (C2 k b)|].
    intros Hcl. rewrite (C3 k b Hb Hcl), G4; [done|by apply (C2 k b)]. }
  assert (forall k, is_Some (c !! k) -> k = (ino, q) \/ c !! k = f_cache s !! k) as Hck.
  { intros k. unfold c. destruct sync; [|by right]. rewrite load_lookup. case_decide; [by left|by right]. }
  assert (length (block_now s1 ino q) = Z.to_nat CLUSTER_SIZE) as Hbl by by apply block_len.
  assert (forall j lb, (j, lb) <> (ino, q) -> st_mapped (d_store (f_dir s)) j lb = true -> block_now s' j lb = block_now s j lb) as Hbn.
  { intros j lb Hne Hj. unfold block_now. cbn. rewrite lookup_insert_ne by congruence.
    assert (c !! (j, lb) = f_cache s !! (j, lb)) as ->.
    { unfold c. destruct sync; [|done]. rewrite load_lookup. by rewrite decide_False. }
    destruct (f_cache s !! (j, lb)); [done|]. rewrite (dl_set_inode _ _ _ _ _ _ Hi') by done. by apply G4. }
  assert (st_mapped (d_store (f_dir s)) ino q = true -> block_now s1 ino q = block_now s ino q) as Hbq.
  { intros Hq. unfold block_now. cbn. destruct (f_cache s !! (ino, q)); [done|by apply G4]. }
  assert (block_now s' ino q = data) as Hbd by (unfold block_now; cbn; by rewrite lookup_insert_eq).
  split.
  - split; [exists i'|done|rewrite Hlen; lia| | |done|done|].
    + split; [cbn; apply sl_set_eq|]. split; [|by rewrite <- Hsz'].
      destruct (fk_inode _ _ _ F) as (i0 & Hi0 & Hino0 & _). cbn. cbn in Hi0. congruence.
    + intros lb Hlb. rewrite Hmap. destruct (Z.lt_ge_cases lb (nblocks (flen bs))); [apply Hmap', F4; lia|].
      assert (lb = q) as ->; [|done]. unfold nblocks, q in *. rewrite Hlen in Hlb. dmlia.
    + intros k Hk. change (ft_ino t) with ino. rewrite overwrite_lookup by lia. unfold byte_at. rewrite Hlen in Hk.
      destruct (decide (k / 4096 = q)) as [Hq|Hq].
      * rewrite Hq, Hbd. unfold data, splice. change (take (Z.to_nat (off mod 4096)) ?l ++ d ++ drop (Z.to_nat (off mod 4096) + length d) ?l)
          with (overwrite (off mod 4096) d l). assert (flen (block_now s1 ino q) = 4096) as Hfl by (unfold flen; rewrite Hbl; done).
        rewrite overwrite_lookup by dmlia.
        assert ((off mod 4096 <=? k mod 4096) && (k mod 4096 <? off mod 4096 + flen d) = (off <=? k) && (k <? off + flen d)) as ->.
        { unfold q in Hq. zbool; dmlia. }
        destruct ((off <=? k) && (k <? off + flen d)) eqn:E; [f_equal; unfold q in Hq; dmlia|].
        assert (k < flen bs) as Hkb by (zbool; lia). rewrite Hbq by (apply F4; unfold nblocks; dmlia).
        rewrite <- Hq. apply F5. lia.
      * destruct ((off <=? k) && (k <? off + flen d)) eqn:E.
        { exfalso. apply Hq. unfold q. zbool; dmlia. }
        assert (k < flen bs) as Hkb by (zbool; lia). rewrite Hbn; [apply F5; lia|congruence|]. apply F4. unfold nblocks. dmlia.
    + intros lb Hlb. change (ft_ino t) with ino in Hlb. cbn in Hlb. rewrite Hlen. destruct (decide (lb = q)) as [->|Hne].
      { unfold q, nblocks. dmlia. }
      rewrite lookup_insert_ne in Hlb by congruence. destruct (Hck (ino, lb) Hlb) as [[= ?]|Hk]; [done|]. rewrite Hk in Hlb.
      apply F8 in Hlb. unfold nblocks in *. dmlia.
  - destruct Hc1 as [C1 C2 C3]. split; intros k b; cbn [s' round_state f_cache].
    + intros [[<- <-]|[Hne Hb]]%lookup_insert_Some.
      { cbn. unfold data, splice. rewrite !length_app, length_take, length_drop, Hbl. change CLUSTER_SIZE with 4096. unfold flen in *. dmlia. }
      destruct (Hck k) as [->|Hk]; [by eexists|done|]. rewrite Hk in Hb. by apply (C1 k).
    + rewrite Hmap. intros [[<- <-]|[Hne Hb]]%lookup_insert_Some; [done|].
      destruct (Hck k) as [->|Hk]; [by eexists|done|]. rewrite Hk in Hb. by apply (C2 k b).
    + rewrite Hrd. intros [[<- <-]|[Hne Hb]]%lookup_insert_Some; [done|].
      destruct (Hck k) as [->|Hk]; [by eexists|done|]. rewrite Hk in Hb. by apply (C3 k b).
  - split; try done.
    + split; try done.
      * intros j Hj. apply Hino. set_solver.
      * intros j lb Hj. rewrite Hmap. apply G1. set_solver.
      * etrans; [apply sl_set_frame|apply G1].
      * etrans; [apply sl_set_frame|apply G1].
    + intros j lb Hj. apply Hbn. set_solver.
    + intros j lb Hj. cbn. rewrite lookup_insert_ne by set_solver. intros Hs. destruct (Hck (j, lb) Hs) as [[= ? ?]|Hk]; [set_solver|].
      by rewrite <- Hk.
  - exists i, l. split; [done|]. rewrite <- Hsz'. change (ft_ino t) with ino. cbn. rewrite sl_set_eq. unfold i', set_i_size, set_i_type, set_i_blocks. cbn. by rewrite Hty.
  - intros j lb Hj. rewrite Hmap, Hrd. split; [by apply Hmap'|by apply G4].
  - done.
Qed.

(** What a round needs of the file, whatever its contents *)
Record writable s (t : nvfuse_file_table) (i : nvfuse_inode) : Prop := {
  wt_inode : st_inode (d_store (f_dir s)) (ft_ino t) = Some i;
  wt_ino : i_ino i = ft_ino t;
  wt_root : ROOT_INO <= ft_ino t;
  wt_max : i_size i < MAX_FILE_SIZE;
  wt_mapped : forall lb, 0 <= lb < nblocks (i_size i) -> st_mapped (d_store (f_dir s)) (ft_ino t) lb = true;
  wt_locked : ft_ino t ∉ d_locked (f_dir s);
  wt_held : forall lb, (ft_ino t, lb) ∉ d_held (f_dir s) }.

Lemma file_writable s t bs : file_ok s (ft_ino t) bs -> exists i, writable s t i /\ i_size i = flen bs /\ i_type i = NVFUSE_TYPE_FILE.
Proof. intros [(i & Hi & Hino & Hty & His) F2 F3 F4 F5 F6 F7 F8]. exists i. split; [|done]. by split; rewrite ?His. Qed.

(** One round of the loop as a step between states *)
Lemma write_round_state s fid fuel count t buf w i (Q : option Z -> fst A I -> Prop) :
  writable s t i -> ft_at s fid t -> 0 <= ft_rwoffset t <= i_size i -> 0 < count <= flen buf ->
  ft_rwoffset t + count < MAX_FILE_SIZE -> ft_size t < MAX_FILE_SIZE ->
  let off := ft_rwoffset t in
  let r := step_len off count in
  let t' := grow_size (set_rwoffset (off + r) t) in
  (forall a' l, grown (d_store (f_dir s)) a' (ft_ino t) i -> st_inode a' (ft_ino t) = Some (set_i_blocks l i) ->
     st_mapped a' (ft_ino t) (off / 4096) = true ->
     let s1 := set_dir (set_store a' (f_dir s)) s in
     wp (write_loop fuel fid (count - r) (drop (Z.to_nat r) buf) (u32 (w + r))) Q
       (round_state s fid (ft_ino t) (off / 4096) t' a' (set_i_size (ft_size t') (set_i_type NVFUSE_TYPE_FILE (set_i_blocks l i)))
          (if negb (r =? CLUSTER_SIZE) then load (ft_ino t) (off / 4096) s1 else f_cache s)
          (splice (off mod 4096) (take (Z.to_nat r) buf) (block_now s1 (ft_ino t) (off / 4096))))) ->
  wp (write_loop (S fuel) fid count buf w) Q s.
Proof.
  intros [Hi Hino F2 F3 F4 F6 F7] Ht Ho Hn Hmax Hsz off r t' HQ.
  destruct (rounds_step off count) as (_ & Hr & Hrb); [lia|]. fold r in Hr, Hrb.
  assert (flen (take (Z.to_nat r) buf) = r) as Hlr by (unfold flen in *; rewrite length_take; lia).
  cbn [write_loop]. rewrite (proj2 (Z.ltb_lt 0 count)) by lia. wp_step. eapply wp_get_ft; [exact Ht|]. fold off.
  wp_step. eapply wp_lock_inode; [done..|]. wp_step. eapply wp_inode_of; [exact Hi|].
  rewrite lbno_eq, in_block_eq by lia. fold r. set (q := off / 4096) in *. wp_step.
  eapply (alloc_tail_wp (ft_ino t) i off); [exact Hi|done..|]. fcbn. intros a' G Hm. cbn [negb]. cbn iota.
  destruct (gr_inode _ _ _ _ G) as [l Hi']. wp_step. apply wp_get_data_bh; fcbn; [set_solver|apply F7|done|].
  wp_step. apply wp_assert; [apply Z.leb_le; unfold flen in *; lia|].
  wp_step. apply wp_write_data; [dmlia|rewrite Hlr; change CLUSTER_SIZE with 4096; lia|].
  fcbn. wp_step. eapply (wp_upd_ft fid t); [exact Ht|]. fcbn. fold t'. wp_step.
  eapply wp_get_ft; [split; [apply Ht|]; fcbn; apply list_lookup_insert_eq; by eapply lookup_lt_Some, Ht|].
  wp_step. eapply wp_change_inode; [fcbn; exact Hi'|]. fcbn. wp_step.
  apply wp_assert; [apply Z.ltb_lt; unfold t'; rewrite grow_size_size; lia|].
  wp_step. apply wp_release_data_bh; [fcbn; set_solver|]. fcbn. wp_step. apply wp_unlock_inode; [fcbn; set_solver|]. fcbn.
  rewrite !add_remove by (done || apply F7). specialize (HQ a' l G Hi' Hm). cbv zeta in HQ. revert HQ.
  match goal with |- ?P ?x -> ?P' ?y => enough (x = y) as -> by exact id end.
  unfold round_state, set_dir, set_store, set_locked, set_held, set_table, set_cache. fcbn. f_equal. f_equal. f_equal. f_equal.
  destruct (negb (r =? CLUSTER_SIZE)); [|done]. symmetry. by apply (load_block_now (ft_ino t) q).
Qed.

Lemma write_round s fid fuel count t off buf w bs (Q : option Z -> fst A I -> Prop) :
  cache_ok s -> file_ok s (ft_ino t) bs -> ft_at s fid t -> ft_size t = flen bs -> ft_rwoffset t = off -> 0 <= off <= flen bs ->
  0 < count <= flen buf -> off + count < MAX_FILE_SIZE ->
  let r := step_len off count in
  (forall s', wrote s s' fid t off (take (Z.to_nat r) buf) bs ->
     wp (write_loop fuel fid (count - r) (drop (Z.to_nat r) buf) (u32 (w + r))) Q s') ->
  wp (write_loop (S fuel) fid count buf w) Q s.
Proof.
  intros Hc F Ht Hsz Hoff Ho Hn Hmax r HQ. destruct (file_writable _ _ _ F) as (i & W & His & Hty).
  destruct (rounds_step off count) as (_ & Hr & Hrb); [lia|]. fold r in Hr, Hrb.
  assert (flen (take (Z.to_nat r) buf) = r) as Hlr by (unfold flen in *; rewrite length_take; lia). subst off.
  eapply (write_round_state s fid fuel count t buf w i); try done; [by rewrite His|rewrite Hsz; apply F|].
  cbv zeta. fold r. intros a' l G Hi' Hm. apply HQ.
  pose proof (round_wrote s fid t _ (take (Z.to_nat r) buf) bs i l a' (negb (r =? CLUSTER_SIZE)) Hc F Hsz eq_refl Ho) as Hw.
  rewrite Hlr in Hw. apply Hw; try done; try lia. apply W.
Qed.

(** The size that the inode gets is the one in the table, or where the write
    ends. *)
Lemma write_loop_size fuel : forall s fid count t buf w i,
  writable s t i -> ft_at s fid t -> 0 <= ft_rwoffset t <= i_size i -> 0 < count <= flen buf ->
  ft_rwoffset t + count < MAX_FILE_SIZE -> ft_size t <= i_size i -> 0 <= w -> w + count < 2 ^ 32 ->
  rounds (ft_rwoffset t) count <= Z.of_nat fuel ->
  wp (write_loop fuel fid count buf w) (fun r s' => r = Some (w + count) /\
    exists i' t', writable s' t i' /\ i_size i' = Z.max (ft_size t) (ft_rwoffset t + count) /\
      ft_at s' fid t' /\ ft_ino t' = ft_ino t) s.
Proof.
  induction fuel as [|fuel IH]; intros s fid count t buf w i W Ht Ho Hn Hmax Hsz Hw Hw2 Hf.
  { unfold rounds in Hf. rewrite (proj2 (Z.ltb_lt 0 count)) in Hf by lia. dmlia. }
  destruct (rounds_step (ft_rwoffset t) count) as (Hr1 & Hr & Hrb); [lia|]. cbv zeta in *.
  pose proof W as [W1 W2 W3 W4 W5 W6 W7].
  eapply (write_round_state s fid fuel count t buf w i); try done; [lia|]. cbv zeta. set (r := step_len (ft_rwoffset t) count) in *.
  intros a' l G Hi' Hm. rewrite u32_small by lia. set (t' := grow_size _). set (s1 := round_state _ _ _ _ _ _ _ _ _).
  assert (ft_ino t' = ft_ino t) as Hti by apply grow_size_ino.
  assert (ft_rwoffset t' = ft_rwoffset t + r) as Hto by apply grow_size_off.
  assert (ft_size t' = Z.max (ft_size t) (ft_rwoffset t + r)) as Hts by apply grow_size_size.
  set (i' := set_i_size (ft_size t') (set_i_type NVFUSE_TYPE_FILE (set_i_blocks l i))) in *.
  assert (i_size i' = Z.max (ft_size t) (ft_rwoffset t + r)) as His' by done.
  assert (writable s1 t i') as W'.
  { split; try done; [cbn; apply sl_set_eq|lia|].
    intros lb Hlb. replace (st_mapped (d_store (f_dir s1)) (ft_ino t) lb) with (st_mapped a' (ft_ino t) lb) by (symmetry; cbn; by eapply sl_set_mapped).
    destruct (Z.lt_ge_cases lb (nblocks (i_size i))) as [Hlt|Hge]; [by apply (gr_mapped _ _ _ _ G), W5; lia|].
    replace lb with (ft_rwoffset t / 4096); [done|]. unfold nblocks in *. dmlia. }
  assert (ft_at s1 fid t') as Hat1 by (split; [apply Ht|]; cbn; apply list_lookup_insert_eq; by eapply lookup_lt_Some, Ht).
  destruct (Z.eq_dec (count - r) 0) as [Hz|Hnz].
  - assert (r = count) as Hrc by lia. rewrite Hz, Hrc. destruct fuel as [|fuel]; [exfalso; unfold rounds in *; zbool; lia|].
    cbn [write_loop]. change (0 <? 0) with false. cbn iota. wp_step. split; [done|]. exists i', t'. rewrite His', Hrc. done.
  - eapply wp_mono; [eapply (IH s1 fid (count - r) t' _ (w + r) i')|]; rewrite ?Hto, ?Hts, ?His'; try lia.
    + destruct W' as [V1 V2 V3 V4 V5 V6 V7]. by split; rewrite ?Hti.
    + done.
    + unfold flen in *. rewrite length_drop. lia.
    + intros x s2 [-> (i2 & t2 & V & Hv & Hat2 & Ht2)]. split; [f_equal; lia|]. exists i2, t2. split; [|by rewrite Ht2; split; [lia|]].
      destruct V as [V1 V2 V3 V4 V5 V6 V7]. rewrite Hti in *. by split.
Qed.

(** ** All rounds *)

Lemma wrote_nothing s fid t bs :
  cache_ok s -> file_ok s (ft_ino t) bs -> ft_at s fid t -> ft_size t = flen bs -> 0 <= ft_rwoffset t <= flen bs ->
  wrote s s fid t (ft_rwoffset t) [] bs.
Proof.
  intros Hc F Ht Hsz Ho. rewrite <- (overwrite_nil (ft_rwoffset t) bs) in F. split; [done|done|apply fothers_refl| |done|].
  - rewrite overwrite_nil in *. destruct (fk_inode _ _ _ F) as (i & Hi & _ & _ & Hs). exists i, (i_blocks i). split; [done|].
    rewrite Hi, <- Hs. by destruct i.
  - unfold table_but. symmetry. apply list_insert_id. rewrite (proj2 Ht). f_equal. unfold flen at 1. simpl.
    unfold grow_size. rewrite Z.add_0_r. cbn. rewrite (proj2 (Z.ltb_ge _ _)) by lia. by destruct t.
Qed.

Lemma wrote_table s s' fid t off d bs : ft_at s fid t -> wrote s s' fid t off d bs ->
  ft_at s' fid (grow_size (set_rwoffset (off + flen d) t)).
Proof.
  intros [Hf Ht] W. split; [done|]. rewrite (wr_table _ _ _ _ _ _ _ W). apply list_lookup_insert_eq. by eapply lookup_lt_Some.
Qed.

Lemma wrote_trans s s1 s2 fid t off d1 d2 bs : 0 <= off <= flen bs ->
  wrote s s1 fid t off d1 bs ->
  wrote s1 s2 fid (grow_size (set_rwoffset (off + flen d1) t)) (off + flen d1) d2 (overwrite off d1 bs) ->
  wrote s s2 fid t off (d1 ++ d2) bs.
Proof.
  intros Ho [W1 W2 W3 (i & l & Wi & Wl) W6 W5] [V1 V2 V3 (i' & l' & Vi & Vl) V6 V5].
  rewrite grow_size_ino, overwrite_app in * by done. split; [done|done|by eapply fothers_trans| | |].
  - exists i, l'. split; [done|]. rewrite Vl. rewrite Wl in Vi. injection Vi as <-. done.
  - intros j lb Hj. destruct (W6 j lb Hj) as [Hm1 E1]. destruct (V6 j lb Hm1) as [Hm2 E2]. by rewrite E2.
  - unfold table_but in *. rewrite V5, W5, list_insert_insert_eq. unfold flen. rewrite length_app, Nat2Z.inj_add, Z.add_assoc.
    f_equal. apply grow_size_again. lia.
Qed.

Lemma write_loop_wp fuel : forall s fid count t off buf w bs,
  cache_ok s -> file_ok s (ft_ino t) bs -> ft_at s fid t -> ft_size t = flen bs -> ft_rwoffset t = off -> 0 <= off <= flen bs ->
  0 <= count <= flen buf -> off + count < MAX_FILE_SIZE -> 0 <= w -> w + count < 2 ^ 32 -> rounds off count <= Z.of_nat fuel ->
  wp (write_loop fuel fid count buf w) (fun r s' => r = Some (w + count) /\ wrote s s' fid t off (take (Z.to_nat count) buf) bs) s.
Proof.
  induction fuel as [|fuel IH]; intros s fid count t off buf w bs Hc F Ht Hsz Hoff Ho Hn Hmax Hw Hw2 Hf.
  { unfold rounds in Hf. zbool; try lia. dmlia. }
  destruct (Z.eq_dec count 0) as [->|Hne].
  { cbn [write_loop]. change (0 <? 0) with false. cbn iota. wp_step. rewrite Z.add_0_r. split; [done|].
    change (take _ _) with (@nil Z). subst off. by apply wrote_nothing. }
  destruct (rounds_step off count) as (Hr1 & Hr & Hrb); [lia|]. cbv zeta in *.
  eapply (write_round s fid fuel count t off); try done; [lia|]. cbv zeta. set (r := step_len off count) in *.
  intros s1 W1. rewrite u32_small by lia.
  assert (flen (take (Z.to_nat r) buf) = r) as Hlr by (unfold flen in *; rewrite length_take; lia).
  pose proof (overwrite_len off (take (Z.to_nat r) buf) bs Ho) as Hlen.
  pose proof (wrote_table _ _ _ _ _ _ _ Ht W1) as Ht1. rewrite Hlr in *.
  eapply wp_mono; [eapply (IH s1 fid (count - r) (grow_size (set_rwoffset (off + r) t)) (off + r) _ _ (overwrite off (take (Z.to_nat r) buf) bs)); try lia|].
  - apply W1.
  - rewrite grow_size_ino. apply W1.
  - done.
  - rewrite grow_size_size, Hlen. lia.
  - apply grow_size_off.
  - unfold flen in *. rewrite length_drop. lia.
  - intros x s2 [-> W2]. split; [f_equal; lia|].
    replace (take (Z.to_nat count) buf) with (take (Z.to_nat r) buf ++ take (Z.to_nat (count - r)) (drop (Z.to_nat r) buf))
      by (rewrite take_take_drop; f_equal; lia).
    eapply wrote_trans; [done|exact W1|by rewrite Hlr].
Qed.

Lemma writefile_core_wp s fid buf count off t bs :
  cache_ok s -> file_ok s (ft_ino t) bs -> ft_at s fid t -> ft_size t = flen bs -> 0 <= off <= flen bs ->
  0 <= count <= flen buf -> count < 2 ^ 31 -> off + count < MAX_FILE_SIZE ->
  wp (nvfuse_writefile_core fid buf count off) (fun r s' =>
    r = count /\ wrote s s' fid t off (take (Z.to_nat count) buf) bs) s.
Proof.
  intros Hc F Ht Hsz Ho Hn Hn2 Hmax. unfold nvfuse_writefile_core. wp_step. eapply wp_get_ft; [exact Ht|]. wp_step.
  eapply wp_upd_ft; [exact Ht|]. set (s0 := set_table _ s). wp_step.
  eapply wp_mono; [eapply (write_loop_wp _ s0 fid count (set_rwoffset off t) off buf 0 bs)|]; try done; try lia.
  - by apply (cache_ok_eq s).
  - apply (same_file s); try done. by left.
  - by eapply (ft_at_insert s).
  - apply rounds_fuel.
  - intros x s' [-> W]. rewrite Z.add_0_l. cbn iota. wp_step.
    assert (wrote s s' fid t off (take (Z.to_nat count) buf) bs) as W'.
    { destruct W as [W1 W2 [O1 O2 O3 O4 O5 O6] W4 W6 W5]. split; [done|done|by split|done|done|].
      unfold table_but in *. rewrite W5. unfold s0. cbn. rewrite list_insert_insert_eq. done. }
    pose proof (wrote_table _ _ _ _ _ _ _ Ht W') as Ht'. eapply wp_get_ft; [exact Ht'|]. rewrite s32_small by lia. wp_step.
    case_match; [|by wp_steps]. rewrite grow_size_ino. pose proof (wr_file _ _ _ _ _ _ _ W') as F'.
    destruct (fk_inode _ _ _ F') as (i' & Hi' & Hino' & _). wp_step. eapply wp_lock_inode; [apply F'|apply F'|done..|].
    wp_step. unfold nvfuse_fsync_ictx. wp_step. apply wp_unlock_inode; [fcbn; set_solver|]. wp_step. split; [done|].
    fcbn. rewrite add_remove by apply F'. unfold set_dir, set_locked. fcbn. by destruct s' as [[] ? ? ?].
Qed.

End write.
End FileWrite.
