(* ===== verification/FileSync.v ===== *)
(** * Files: writing out, eviction, truncation *)
From S2P Require Import Prelude Bitmap Layout Dir DirApi DirEntry DirMake DirRmfile File FileIO FileOps FileRules.
Import Layout Dir DirApi DirSpec DirIndex DirEntry DirCreate DirRemove File FileIO FileOps FileSpec FileRules.

Module FileSync.

Section sync.
Context {A I : Type} `{StoreLaws A} `{!DataStore A} `{!DataLaws A}.
Implicit Types (s : fst A I) (a : A).

(** ** Writing out *)

(** The device after the buffers of a list were written out *)
Record written (l : list (Z * Z * buf)) a a' : Prop := {
  wo_inode : forall j, st_inode a' j = st_inode a j;
  wo_mapped : forall j lb, st_mapped a' j lb = st_mapped a j lb;
  wo_limit : st_no_of_inodes a' = st_no_of_inodes a;
  wo_root : st_root_ino a' = st_root_ino a;
  wo_dirty : forall k b, (k, b) ∈ l -> b_dirty b = true -> ds_read a' k.1 k.2 = b_data b;
  wo_clean : forall j lb, st_mapped a j lb = true -> (forall b, (j, lb, b) ∈ l -> b_dirty b = false) ->
    ds_read a' j lb = ds_read a j lb }.

Lemma write_out_written l a : NoDup l.*1 ->
  (forall k b, (k, b) ∈ l -> st_mapped a k.1 k.2 = true /\ length (b_data b) = Z.to_nat CLUSTER_SIZE) ->
  written l a (write_out l a).
Proof.
  induction l as [|[[j lb] b] l IH]; intros Hnd Hl; [split; try done; set_solver|].
  apply NoDup_cons in Hnd as [Hni Hnd]. destruct (Hl (j, lb) b) as [Hm Hlen]; [apply elem_of_cons; by left|].
  destruct IH as [W1 W2 W3 W4 W5 W6]; [done|intros k b' Hk; apply Hl, elem_of_cons; by right|].
  assert (forall b', (j, lb, b') ∉ l) as Hno.
  { intros b' Hin. apply Hni, list_elem_of_fmap. by exists (j, lb, b'). }
  cbn [write_out foldr Datatypes.fst snd] in *. unfold write_out in *. cbn [foldr]. set (a1 := foldr _ a l) in *. cbn [Datatypes.fst snd].
  destruct (b_dirty b) eqn:Hd; cycle 1.
  { split; try done.
    - intros k b' [[= -> ->]|Hin]%elem_of_cons; [congruence|by apply W5].
    - intros j' lb' Hj' Hcl. apply W6; [done|]. intros b' Hin. apply Hcl, elem_of_cons. by right. }
  split.
  - intros j'. by rewrite dl_write_inode.
  - intros j' lb'. by rewrite dl_write_mapped.
  - by rewrite dl_write_limit.
  - by rewrite dl_write_root.
  - intros k b' [[= -> ->]|Hin]%elem_of_cons Hb'.
    + apply dl_write_eq; [by rewrite W2|done].
    + destruct (Hl k b') as [Hmk _]; [apply elem_of_cons; by right|].
      rewrite dl_write_ne; [by apply W5| |by rewrite W2|by rewrite W2]. intros E. apply (Hno b'). rewrite E. by destruct k.
  - intros j' lb' Hj' Hcl. rewrite dl_write_ne; [|intros [= <- <-]|by rewrite W2|by rewrite W2].
    + apply W6; [done|]. intros b' Hin. apply Hcl, elem_of_cons. by right.
    + assert (b_dirty b = false); [|congruence]. apply Hcl, elem_of_cons. by left.
Qed.

(** After a flush every buffer is clean and every file is as it was, on the
    device as well. *)
Lemma flush_written s : cache_ok s -> written (map_to_list (f_cache s)) (d_store (f_dir s)) (d_store (f_dir (flush_state s))).
Proof.
  intros [C1 C2 C3]. apply write_out_written; [apply NoDup_fst_map_to_list|].
  intros k b Hk%elem_of_map_to_list. split; [by apply (C2 k b)|by apply (C1 k)].
Qed.

Lemma flush_lookup s k : f_cache (flush_state s) !! k = clean <$> f_cache s !! k.
Proof. cbn. apply lookup_fmap. Qed.

Lemma flush_device s j lb : cache_ok s -> st_mapped (d_store (f_dir s)) j lb = true ->
  ds_read (d_store (f_dir (flush_state s))) j lb = block_now s j lb.
Proof.
  intros Hc Hm. destruct (flush_written s Hc) as [_ _ _ _ W5 W6]. unfold block_now.
  destruct (f_cache s !! (j, lb)) as [b|] eqn:E.
  - destruct (b_dirty b) eqn:Hd; [by apply (W5 (j, lb) b); [apply elem_of_map_to_list|]|].
    rewrite W6; [symmetry; by eapply (co_clean _ Hc (j, lb))|done|]. intros b' Hb'%elem_of_map_to_list. congruence.
  - apply W6; [done|]. intros b' Hb'%elem_of_map_to_list. congruence.
Qed.

Lemma flush_block s j lb : cache_ok s -> st_mapped (d_store (f_dir s)) j lb = true ->
  block_now (flush_state s) j lb = block_now s j lb.
Proof.
  intros Hc Hm. unfold block_now at 1. rewrite flush_lookup. destruct (f_cache s !! (j, lb)) as [b|] eqn:E; cbn [fmap option_fmap option_map].
  - unfold block_now. by rewrite E.
  - by apply flush_device.
Qed.

Lemma flush_cache_ok s : cache_ok s -> cache_ok (flush_state s).
Proof.
  intros Hc. pose proof (flush_written s Hc) as W. destruct Hc as [C1 C2 C3].
  split; intros k b; rewrite flush_lookup; destruct (f_cache s !! k) as [b0|] eqn:E; try done; intros [= <-]; cbn [clean b_data].
  - by apply (C1 k).
  - rewrite (wo_mapped _ _ _ W). by eapply C2.
  - intros _. symmetry. replace (b_data b0) with (block_now s k.1 k.2) by (unfold block_now; destruct k; cbn; by rewrite E).
    apply flush_device; [by split|]. by eapply C2.
Qed.

Lemma flush_others s : cache_ok s -> fothers ∅ s (flush_state s).
Proof.
  intros Hc. pose proof (flush_written s Hc) as W. split; try done.
  - split; try done; intros; apply W.
  - intros j lb _ Hm. by apply flush_block.
  - intros j lb _. rewrite flush_lookup. by destruct (f_cache s !! (j, lb)).
Qed.

(** A clean buffer may be taken away. *)
Lemma evict_block s k j lb : cache_ok s -> block_now (evict_state k s) j lb = block_now s j lb.
Proof.
  intros Hc. unfold evict_state. destruct (f_cache s !! k) as [b|] eqn:E; [|done]. destruct (b_dirty b) eqn:Hd; [done|].
  unfold block_now. cbn. destruct (decide (k = (j, lb))) as [->|].
  - rewrite lookup_delete_eq, E. symmetry. by eapply (co_clean _ Hc (j, lb)).
  - by rewrite lookup_delete_ne.
Qed.

Lemma evict_same s k : f_dir (evict_state k s) = f_dir s /\ f_table (evict_state k s) = f_table s /\ f_ftlock (evict_state k s) = f_ftlock s.
Proof. unfold evict_state. repeat case_match; done. Qed.

Lemma evict_lookup s k k' b : f_cache (evict_state k s) !! k' = Some b -> f_cache s !! k' = Some b.
Proof.
  unfold evict_state. destruct (f_cache s !! k) as [b0|]; [|done]. destruct (b_dirty b0); [done|].
  cbn. by intros [_ ?]%lookup_delete_Some.
Qed.

Lemma evict_cache_ok s k : cache_ok s -> cache_ok (evict_state k s).
Proof.
  intros [C1 C2 C3]. destruct (evict_same s k) as (Ed & _).
  split; intros k' b Hb%evict_lookup; rewrite ?Ed; eauto.
Qed.

Lemma evict_others s k : cache_ok s -> fothers ∅ s (evict_state k s).
Proof.
  intros Hc. destruct (evict_same s k) as (Ed & _ & El). split; rewrite ?Ed; try done.
  - intros j lb _ _. by apply evict_block.
  - intros j lb _ [b Hb%evict_lookup]. by exists b.
Qed.

(** ** Truncation *)

(** The buffers that are dropped *)
Definition dropped (ino size : Z) (i : nvfuse_inode) s : fst A I :=
  set_cache (filter (fun p => ~ (p.1.1 = ino /\ u32 (NVFUSE_SIZE_TO_BLK size) <= p.1.2 < num_blocks (i_size i))) (f_cache s)) s.

Lemma num_blocks_eq n : 0 <= n < MAX_FILE_SIZE -> num_blocks n = nblocks n.
Proof.
  intros Hn. unfold num_blocks. rewrite size_to_blk_eq by done. change (CLUSTER_SIZE - 1) with (Z.ones 12).
  rewrite Z.land_ones by lia. change (2 ^ 12) with 4096. assert (0 <= n / 4096 < 2 ^ 31) as Hq.
  { unfold MAX_FILE_SIZE in *. change CLUSTER_SIZE with 4096 in *. dmlia. }
  rewrite (u32_small (n / 4096)) by lia. rewrite u32_small by (case_match; lia). unfold nblocks.
  destruct (Z.eqb_spec (n mod 4096) 0); dmlia.
Qed.

(** The state after free_inode_size: the block map is cut, the buffers from the
    last block that is kept on are gone. *)
Lemma file_free_wp s ino i size (Q : unit -> fst A I -> Prop) :
  st_inode (d_store (f_dir s)) ino = Some i -> (forall lb, (ino, lb) ∉ d_held (f_dir s)) -> 0 <= size ->
  (forall a' c, frame ino (d_store (f_dir s)) a' -> (exists l, st_inode a' ino = Some (set_i_blocks l i)) ->
     (forall lb, lb * CLUSTER_SIZE < size -> st_mapped a' ino lb = st_mapped (d_store (f_dir s)) ino lb) ->
     (forall j lb, st_mapped (d_store (f_dir s)) j lb = true -> st_mapped a' j lb = true ->
        ds_read a' j lb = ds_read (d_store (f_dir s)) j lb) ->
     f_cache (dropped ino size i s) = c ->
     Q tt (set_cache c (set_dir (set_store a' (f_dir s)) s))) ->
  wp (free_inode_size ino size) Q s.
Proof.
  intros Hi Hh Hsz HQ. unfold free_inode_size. wp_step. eapply wp_inode_of; [exact Hi|]. unfold drop_cache. wp_step. wp_step.
  fold (dropped ino size i s). apply wp_on_dir. unfold nvfuse_free_inode_size. wp_step. eapply wp_get_inode; [exact Hi|]. cbv zeta.
  case_match.
  - wp_step. match goal with |- Q tt ?x => replace x with (set_cache (f_cache (dropped ino size i s)) (set_dir (set_store (d_store (f_dir s)) (f_dir s)) s)) by (by destruct s as [[] ? ? ?]) end.
    apply (HQ (d_store (f_dir s)) (f_cache (dropped ino size i s))); [apply frame_refl| |done|done|done].
    exists (i_blocks i). rewrite Hi. by destruct i.
  - wp_step. unfold drop_buffers. wp_steps. apply wp_assert; [apply forallb_forall; intros x _; apply bool_decide_true, Hh|].
    apply wp_on_store. eapply wp_mono; [apply wp_and; [apply sl_truncate; by exists i|apply dl_truncate; by exists i]|].
    intros [] a' [(F & (l & E) & Hm) Hd]. apply (HQ a' (f_cache (dropped ino size i s))); try done. exists l. change (st_inode a' ino = set_i_blocks l <$> st_inode (d_store (f_dir s)) ino) in E. by rewrite E, Hi.
Qed.

(** The tail of the file, when it is not a whole block, is not dirty. *)
Definition tail_clean s (ino size : Z) : Prop :=
  size mod 4096 = 0 \/ forall b, f_cache s !! (ino, size / 4096) = Some b -> b_dirty b = false.

(** The file was cut to [size] bytes; the buffer of its last block is gone. *)
Record cut s s' (ino size : Z) (i : nvfuse_inode) : Prop := {
  ct_inode : exists l, st_inode (d_store (f_dir s')) ino = Some (set_i_size size (set_i_blocks l i));
  ct_cache : cache_ok s';
  ct_others : fothers {[ ino ]} s s';
  ct_table : f_table s' = f_table s;
  ct_mapped : forall lb, lb * 4096 < size -> st_mapped (d_store (f_dir s')) ino lb = st_mapped (d_store (f_dir s)) ino lb;
  ct_block : forall lb, 0 <= lb -> lb * 4096 < size ->
    block_now s' ino lb = if lb <? size / 4096 then block_now s ino lb else ds_read (d_store (f_dir s)) ino lb;
  ct_cached : forall lb, is_Some (f_cache s' !! (ino, lb)) -> 0 <= lb < size / 4096 }.

Lemma dropped_lookup s ino size i k : st_inode (d_store (f_dir s)) ino = Some i -> 0 <= size < MAX_FILE_SIZE -> 0 <= i_size i < MAX_FILE_SIZE ->
  f_cache (dropped ino size i s) !! k =
    if decide (k.1 = ino /\ size / 4096 <= k.2 < nblocks (i_size i)) then None else f_cache s !! k.
Proof.
  intros Hi Hs Hz. unfold dropped. cbn. rewrite num_blocks_eq by done. fold (lbno size). rewrite lbno_eq by done.
  destruct (f_cache s !! k) as [b|] eqn:E.
  - case_decide as Hd; [apply map_lookup_filter_None; right; intros x _; cbn; tauto|].
    apply map_lookup_filter_Some. done.
  - case_decide; apply map_lookup_filter_None; by left.
Qed.

Lemma cut_state s ino i l a' size bs :
  cache_ok s -> file_ok s ino bs -> st_inode (d_store (f_dir s)) ino = Some i -> 0 <= size <= flen bs ->
  frame ino (d_store (f_dir s)) a' -> st_inode a' ino = Some (set_i_blocks l i) ->
  (forall lb, lb * CLUSTER_SIZE < size -> st_mapped a' ino lb = st_mapped (d_store (f_dir s)) ino lb) ->
  (forall j lb, st_mapped (d_store (f_dir s)) j lb = true -> st_mapped a' j lb = true ->
     ds_read a' j lb = ds_read (d_store (f_dir s)) j lb) ->
  cut s (set_cache (f_cache (dropped ino size i s))
           (set_dir (set_store (st_set_inode ino (set_i_size size (set_i_blocks l i)) a') (f_dir s)) s)) ino size i.
Proof.
  intros Hc F Hi Hsz Fr Hi' Hm Hd. set (s' := set_cache _ _).
  pose proof F as [(i0 & Hi0 & Hino & Hty & His) F2 F3 F4 F5 F6 F7 F8]. assert (i0 = i) as -> by congruence.
  change CLUSTER_SIZE with 4096 in Hm.
  assert (forall k, f_cache s' !! k = if decide (k.1 = ino /\ size / 4096 <= k.2 < nblocks (flen bs)) then None else f_cache s !! k) as Hck.
  { intros k. rewrite <- His. unfold s'. cbn. rewrite <- dropped_lookup by (done || rewrite ?His; unfold flen in *; lia). done. }
  assert (forall j lb, st_mapped (d_store (f_dir s')) j lb = st_mapped a' j lb) as Hmap.
  { intros j lb. cbn. destruct (decide (j = ino)) as [->|]; [by eapply sl_set_mapped|by apply sl_set_frame]. }
  assert (forall j lb, ds_read (d_store (f_dir s')) j lb = ds_read a' j lb) as Hrd.
  { intros j lb. cbn. by eapply dl_set_inode. }
  assert (forall j lb, j <> ino \/ lb * 4096 < size -> st_mapped a' j lb = st_mapped (d_store (f_dir s)) j lb) as Hma.
  { intros j lb [Hj|Hlb]; [by apply Fr|]. destruct (decide (j = ino)) as [->|]; [by apply Hm|by apply Fr]. }
  assert (forall k b, f_cache s' !! k = Some b -> f_cache s !! k = Some b /\ st_mapped a' k.1 k.2 = st_mapped (d_store (f_dir s)) k.1 k.2) as Hold.
  { intros k b. rewrite Hck. case_decide as Hk; [done|]. intros Hb. split; [done|]. apply Hma.
    destruct (decide (k.1 = ino)) as [<-|]; [right|by left]. destruct (F8 k.2) as [? ?]; [destruct k; by eexists|].
    destruct (Z.lt_ge_cases k.2 (size / 4096)); [dmlia|tauto]. }
  split; [exists l; apply sl_set_eq| | |done| | |].
  - destruct Hc as [C1 C2 C3]. split; intros k b Hb; destruct (Hold k b Hb) as [Hb' Hmk].
    + by apply (C1 k).
    + rewrite Hmap, Hmk. by eapply C2.
    + intros Hcl. rewrite Hrd, Hd; [by apply C3|by eapply C2|rewrite Hmk; by eapply C2].
  - split; try done.
    + split; try done.
      * intros j Hj%not_elem_of_singleton. cbn. rewrite set_inode_ne by done. by apply Fr.
      * intros j lb Hj%not_elem_of_singleton. rewrite (Hmap j lb). by apply Fr.
      * etrans; [apply sl_set_frame|apply Fr].
      * etrans; [apply sl_set_frame|apply Fr].
    + intros j lb Hj%not_elem_of_singleton Hmj. unfold block_now. rewrite Hck. cbn [Datatypes.fst snd].
      rewrite decide_False by tauto. destruct (f_cache s !! (j, lb)); [done|]. rewrite Hrd. apply Hd; [done|]. by rewrite Hma by (by left).
    + intros j lb Hj. rewrite Hck. case_decide; [by intros []|done].
  - intros lb Hlb. rewrite Hmap. apply Hma. by right.
  - intros lb Hlb0 Hlb. assert (st_mapped (d_store (f_dir s)) ino lb = true) as Hmp by (apply F4; unfold nblocks; dmlia).
    assert (ds_read (d_store (f_dir s')) ino lb = ds_read (d_store (f_dir s)) ino lb) as Hde.
    { rewrite Hrd. apply Hd; [done|]. rewrite Hma; [done|by right]. }
    unfold block_now. rewrite Hck. cbn [Datatypes.fst snd]. destruct (Z.ltb_spec lb (size / 4096)) as [Hlt|Hge].
    + rewrite decide_False by lia. by rewrite Hde.
    + rewrite decide_True by (split; [done|unfold nblocks; dmlia]). done.
  - intros lb Hs. rewrite Hck in Hs. cbn [Datatypes.fst snd] in Hs. case_decide as Hk; [by destruct Hs|]. apply F8 in Hs.
    destruct (Z.lt_ge_cases lb (size / 4096)); [lia|tauto].
Qed.

(** With a clean tail the bytes that are kept are those of the file. *)
Lemma cut_file s s' ino size i bs : cache_ok s -> file_ok s ino bs -> st_inode (d_store (f_dir s)) ino = Some i ->
  0 <= size <= flen bs -> tail_clean s ino size -> cut s s' ino size i -> file_ok s' ino (take (Z.to_nat size) bs).
Proof.
  intros Hc F Hi Hsz Ht [(l & Hi') C2 C3 C4 C5 C6 C7].
  pose proof F as [(i0 & Hi0 & Hino & Hty & His) F2 F3 F4 F5 F6 F7 F8]. assert (i0 = i) as -> by congruence.
  assert (flen (take (Z.to_nat size) bs) = size) as Hfl by (unfold flen in *; rewrite length_take; lia).
  assert (forall lb, 0 <= lb -> lb * 4096 < size -> block_now s' ino lb = block_now s ino lb) as Hbn.
  { intros lb Hlb0 Hlb. rewrite C6 by done. destruct (Z.ltb_spec lb (size / 4096)); [done|].
    unfold block_now. destruct (f_cache s !! (ino, lb)) as [b|] eqn:E; [|done]. symmetry. eapply (co_clean _ Hc (ino, lb)); [done|].
    destruct Ht as [Ht|Ht]; [dmlia|]. apply Ht. replace (size / 4096) with lb by dmlia. done. }
  split; rewrite ?Hfl; try done; [by eexists|lia| | |by rewrite (fo_locked _ _ _ C3)|intros lb; by rewrite (fo_held _ _ _ C3)|].
  - intros lb Hlb. rewrite C5 by (unfold nblocks in *; dmlia). apply F4. unfold nblocks in *. dmlia.
  - intros k Hk. unfold byte_at. rewrite Hbn by dmlia. rewrite lookup_take_lt by lia. apply F5. lia.
  - intros lb Hs%C7. unfold nblocks. dmlia.
Qed.

Lemma ftruncate_wp (flush_due : fst A I -> bool) s fid t bs i size :
  cache_ok s -> file_ok s (ft_ino t) bs -> ft_at s fid t -> 0 <= size <= flen bs -> st_inode (d_store (f_dir s)) (ft_ino t) = Some i ->
  wp (nvfuse_ftruncate flush_due fid size) (fun r s' => r = 0 /\
    exists s1, cut s s1 (ft_ino t) size i /\ s' = if flush_due s1 then flush_state s1 else s1) s.
Proof.
  intros Hc F Ht Hsz Hi. pose proof F as [(i0 & Hi0 & Hino & Hty & His) F2 F3 F4 F5 F6 F7 F8]. assert (i0 = i) as -> by congruence.
  unfold nvfuse_ftruncate. wp_step. eapply wp_get_ft; [exact Ht|]. wp_step. eapply wp_lock_inode; [done..|]. wp_step.
  eapply file_free_wp; [exact Hi|exact F7|lia|]. fcbn. intros a' c Fr (l & Hi') Hm Hd <-.
  wp_step. apply wp_assert; [apply Z.ltb_lt; lia|]. wp_step. eapply wp_change_inode; [fcbn; exact Hi'|].
  wp_step. apply wp_unlock_inode; [fcbn; set_solver|]. wp_step. unfold nvfuse_check_flush_dirty. wp_steps. split; [done|].
  eexists. split; [|done]. fcbn. rewrite add_remove by done.
  apply (cut_state s (ft_ino t) i l a' size bs); done.
Qed.

End sync.
End FileSync.
