(* ===== verification/FileMap.v ===== *)
(** * Files: the abstract view, opening, an example

    [FileMap]: open files as arrays of bytes; [FileOpen]: opening by directory and
    name; [FileDemo]: a store with a device, on which the examples run. *)
From S2P Require Import Prelude Bitmap Layout DirHash Dir DirOps DirApi BpIndex DirEntry DirFind DirMake BpIndexLaws.
From S2P Require Import File FileIO FileRules FileWrite FileSync.
Import Layout Dir DirSpec DirIndex DirEntry DirCreate File FileIO FileSpec FileRules FileRead FileWrite FileSync.

(** ** Files: open files as arrays of bytes

    The abstract view of the file layer: the contents of the files by inode
    number and the open files by descriptor, each file open at most once.
    Writing out and eviction may happen between any two operations and are not
    visible. *)
Module FileMap.

(** ** Specification *)

Inductive op :=
  | Open (ino flags : Z)
  | Close (fid : Z)
  | Write (fid : Z) (data : list Z) (off : Z)
  | Read (fid count off : Z)
  | Fsync (fid : Z)
  | Sync
  | Evict (k : Z * Z).

Record abs := mk_abs { ab_files : gmap Z (list Z); ab_fds : gmap Z Z }.

(** The least descriptor that is not in use; -1 if there is none *)
Fixpoint free_from (n : nat) (i : Z) (D : gmap Z Z) : Z :=
  match n with
  | O => -1
  | S n => match D !! i with None => i | Some _ => free_from n (i + 1) D end
  end.
Definition first_free (D : gmap Z Z) : Z := free_from (Z.to_nat (MAX_OPEN_FILE - START_OPEN_FILE)) START_OPEN_FILE D.

(** The contents behind a descriptor *)
Definition behind (a : abs) (fid : Z) : option (list Z) := ino ← ab_fds a !! fid; ab_files a !! ino.

Definition next (a : abs) (o : op) : abs :=
  match o with
  | Open ino _ => mk_abs (ab_files a) (<[ first_free (ab_fds a) := ino ]> (ab_fds a))
  | Close fid => mk_abs (ab_files a) (delete fid (ab_fds a))
  | Write fid data off =>
      match ab_fds a !! fid with
      | Some ino => mk_abs (<[ ino := overwrite off data (default [] (ab_files a !! ino)) ]> (ab_files a)) (ab_fds a)
      | None => a
      end
  | _ => a
  end.

(** The results that are allowed: a read returns the bytes of the file, and at
    most those up to the end of its last block. *)
Definition answer (a : abs) (o : op) (r : Z * list Z) : Prop :=
  match o with
  | Open _ _ => r = (first_free (ab_fds a), [])
  | Close _ => r = (0, [])
  | Write _ data _ => r = (flen data, [])
  | Read fid count off => exists bs tail, behind a fid = Some bs /\ (flen bs + flen tail) mod 4096 = 0 /\ flen tail < 4096 /\
      r = (flen (r.2), if off <? flen bs then take (Z.to_nat count) (drop (Z.to_nat off) (bs ++ tail)) else [])
  | _ => r = (0, [])
  end.

(** A file is opened once; a write starts in the file or at its end. *)
Definition op_ok (a : abs) (o : op) : Prop :=
  match o with
  | Open ino _ => is_Some (ab_files a !! ino) /\ (forall fid, ab_fds a !! fid <> Some ino) /\ first_free (ab_fds a) <> -1
  | Close fid => is_Some (ab_fds a !! fid)
  | Write fid data off => exists bs, behind a fid = Some bs /\ 0 <= off <= flen bs /\ flen data < 2 ^ 31 /\ off + flen data < MAX_FILE_SIZE
  | Read fid count off => is_Some (ab_fds a !! fid) /\ 0 <= off /\ 0 <= count < 2 ^ 31
  | Fsync fid => is_Some (ab_fds a !! fid)
  | _ => True
  end.

Fixpoint prog_ok (a : abs) (l : list op) : Prop :=
  match l with [] => True | o :: l => op_ok a o /\ prog_ok (next a o) l end.
Fixpoint answers (a : abs) (l : list op) (rs : list (Z * list Z)) : Prop :=
  match l, rs with
  | [], [] => True
  | o :: l, r :: rs => answer a o r /\ answers (next a o) l rs
  | _, _ => False
  end.
Definition final (a : abs) (l : list op) : abs := foldl next a l.

Section refine.
Context {A I : Type} `{StoreLaws A} `{!DataStore A} `{!DataLaws A}.
Implicit Types s : fst A I.

(** ** The invariant *)

Record files_inv s (a : abs) : Prop := {
  fi_cache : cache_ok s;
  fi_files : forall ino bs, ab_files a !! ino = Some bs -> file_ok s ino bs;
  fi_fds : forall fid ino, ab_fds a !! fid = Some ino -> exists t bs, ft_at s fid t /\ ft_ino t = ino /\ ft_used t <> 0 /\
    ab_files a !! ino = Some bs /\ ft_size t = flen bs;
  fi_once : forall fid fid' ino, ab_fds a !! fid = Some ino -> ab_fds a !! fid' = Some ino -> fid = fid';
  fi_free : forall fid, START_OPEN_FILE <= fid < MAX_OPEN_FILE -> ab_fds a !! fid = None -> exists t, ft_at s fid t /\ ft_used t = 0;
  fi_ftlock : f_ftlock s = ∅ }.

(** What keeps the table and the contents keeps the invariant. *)
Lemma inv_same s s' a : files_inv s a -> cache_ok s' -> f_table s' = f_table s -> f_ftlock s' = f_ftlock s ->
  (forall ino bs, file_ok s ino bs -> file_ok s' ino bs) -> files_inv s' a.
Proof.
  intros [C F D O E L] Hc Ht Hl Hf. split; [done|auto| |done| |congruence].
  - intros fid ino (t & bs & Hat & ?)%D. exists t, bs. split; [|done]. unfold ft_at. by rewrite Ht.
  - intros fid Hfid (t & Hat & ?)%E; [|done]. exists t. split; [|done]. unfold ft_at. by rewrite Ht.
Qed.

Lemma flush_inv s a : files_inv s a -> files_inv (flush_state s) a.
Proof.
  intros Inv. pose proof (fi_cache _ _ Inv) as Hc. apply (inv_same s); try done; [by apply flush_cache_ok|].
  intros ino bs F. eapply fothers_file; [by apply flush_others|set_solver|done].
Qed.

Lemma evict_inv s a k : files_inv s a -> files_inv (evict_state k s) a.
Proof.
  intros Inv. pose proof (fi_cache _ _ Inv) as Hc. destruct (evict_same s k) as (_ & Et & El).
  apply (inv_same s); try done; [by apply evict_cache_ok|].
  intros ino bs F. eapply fothers_file; [by apply evict_others|set_solver|done].
Qed.

(** ** Opening *)

Lemma alloc_scan_wp n : forall i s (D : gmap Z Z),
  f_ftlock s = ∅ -> free_from n i D <> -1 -> 0 <= i ->
  (forall fid, i <= fid < i + Z.of_nat n -> if D !! fid then exists t, ft_at s fid t /\ ft_used t <> 0
                                       else exists t, ft_at s fid t /\ ft_used t = 0) ->
  wp (alloc_scan n i) (fun r s' => r = free_from n i D /\ i <= r < i + Z.of_nat n /\ D !! r = None /\
    exists t, ft_at s r t /\ s' = set_table (<[Z.to_nat r := set_used 1 t]> (f_table s)) s) s.
Proof.
  induction n as [|n IH]; intros i s D Hl Hf Hi Ht; [done|]. cbn [alloc_scan free_from] in *.
  pose proof (Ht i ltac:(lia)) as Hti. wp_step. destruct (D !! i) as [ino|] eqn:Di; destruct Hti as (t & Hat & Hu).
  - eapply wp_get_ft; [done|]. wp_step. unfold ft_lock. wp_steps. apply wp_assert; [apply bool_decide_true; rewrite Hl; set_solver|].
    wp_steps. rewrite (proj2 (Z.eqb_neq _ 0)) by done. unfold ft_unlock. wp_steps.
    assert (set_ftlock (f_ftlock (set_ftlock ({[i]} ∪ f_ftlock s) s) ∖ {[i]}) (set_ftlock ({[i]} ∪ f_ftlock s) s) = s) as ->.
    { unfold set_ftlock. cbn. rewrite add_remove by (rewrite Hl; set_solver). by destruct s. }
    eapply wp_mono; [apply (IH (i + 1) s D); try done; [lia|]|].
    + intros fid Hfid. apply Ht. lia.
    + intros r s' (-> & Hr & Hd & Hs). split; [done|]. split; [lia|done].
  - eapply wp_get_ft; [done|]. wp_step. unfold ft_lock. wp_steps. apply wp_assert; [apply bool_decide_true; rewrite Hl; set_solver|].
    wp_steps. rewrite Hu. change (0 =? 0) with true. cbn iota. wp_step. eapply wp_upd_ft; [exact Hat|]. unfold ft_unlock. wp_steps.
    split; [done|]. split; [lia|]. split; [done|]. exists t. split; [done|]. unfold set_ftlock, set_table. cbn.
    rewrite add_remove by (rewrite Hl; set_solver). by destruct s.
Qed.

Lemma inv_slots s a fid : files_inv s a -> START_OPEN_FILE <= fid < START_OPEN_FILE + Z.of_nat (Z.to_nat (MAX_OPEN_FILE - START_OPEN_FILE)) ->
  if ab_fds a !! fid then exists t, ft_at s fid t /\ ft_used t <> 0 else exists t, ft_at s fid t /\ ft_used t = 0.
Proof.
  intros Inv Hfid. destruct (ab_fds a !! fid) as [ino|] eqn:E.
  - destruct (fi_fds _ _ Inv fid ino E) as (t & bs & ? & _ & ? & _). by exists t.
  - apply (fi_free _ _ Inv); [|done]. change (START_OPEN_FILE + _) with MAX_OPEN_FILE in Hfid. done.
Qed.

(** The part that the two functions share: a slot of the table is filled for the
    inode [ino], which is locked. *)
Lemma slot_wp {X} s s0 a ino bs f (refuse : Z -> M (fst A I) X) (k : Z -> M (fst A I) X) (Q : X -> fst A I -> Prop) :
  files_inv s a -> ab_files a !! ino = Some bs -> (forall fid, ab_fds a !! fid <> Some ino) -> first_free (ab_fds a) <> -1 ->
  s0 = set_dir (set_locked ({[ ino ]} ∪ d_locked (f_dir s)) (f_dir s)) s ->
  (forall t, ft_ino (f t) = ino /\ ft_size (f t) = flen bs /\ ft_used (f t) = 1) ->
  (forall s', files_inv s' (next a (Open ino 0)) -> f_dir s' = f_dir s -> wp (k (first_free (ab_fds a))) Q s') ->
  wp (fid ← nvfuse_allocate_open_file_table; if fid <? 0 then refuse fid else upd_ft fid f;; release_inode ino;; k fid) Q s0.
Proof.
  intros Inv Hf Hno Hfree -> Hff HQ. pose proof (fi_files _ _ Inv ino bs Hf) as F. pose proof F as [_ _ _ _ _ F6 _ _].
  set (s1 := set_dir _ s). wp_step. unfold nvfuse_allocate_open_file_table.
  eapply wp_mono; [apply (alloc_scan_wp _ START_OPEN_FILE s1 (ab_fds a)); try done|].
  - apply Inv.
  - intros fid Hfid. by apply (inv_slots s a).
  - intros r s2 (Hr & Hrange & Hnone & t & Hat & ->). change (START_OPEN_FILE + _) with MAX_OPEN_FILE in Hrange.
    unfold START_OPEN_FILE, MAX_OPEN_FILE in Hrange. rewrite (proj2 (Z.ltb_ge r 0)) by lia.
    wp_step. eapply (wp_upd_ft r (set_used 1 t)); [by eapply (ft_at_insert s1)|].
    wp_step. apply wp_unlock_inode; [fcbn; set_solver|]. fold (first_free (ab_fds a)) in Hr. unfold s1. fcbn.
    rewrite add_remove by done. rewrite list_insert_insert_eq. set (t' := f _). set (s3 := set_dir _ _).
    assert (f_table s3 = <[Z.to_nat r := t']> (f_table s)) as Et by done. assert (f_dir s3 = f_dir s) as Ed by (unfold s3; cbn; by destruct (f_dir s)).
    destruct (Hff (set_used 1 t)) as (Ht1 & Ht2 & Ht3). fold t' in Ht1, Ht2, Ht3.
    assert (forall fid t0, fid <> r -> ft_at s fid t0 -> ft_at s3 fid t0) as Hother.
    { intros fid t0 Hne [Hf0 Ht0]. split; [done|]. rewrite Et, list_lookup_insert_ne by lia. done. }
    assert (ft_at s3 r t') as Hr3. { split; [lia|]. rewrite Et. apply list_lookup_insert_eq. eapply lookup_lt_Some, Hat. }
    rewrite Hr. apply HQ; [|done]. destruct Inv as [C Fi D O E L]. cbn [next]. rewrite <- Hr.
    split; cbn [ab_files ab_fds]; [by apply (cache_ok_eq s); rewrite ?Ed| | | | |done].
    + intros ino' bs' Hf'. apply (same_file s); rewrite ?Ed; [done..| |by left|by apply Fi].
      intros j lb. unfold block_now. by rewrite Ed.
    + intros fid ino'. destruct (decide (fid = r)) as [->|Hne].
      * rewrite lookup_insert_eq. intros [= <-]. exists t', bs. split_and!; try done; lia.
      * rewrite lookup_insert_ne by done. intros (t0 & bs0 & Hat0 & ?)%D. exists t0, bs0. split; [by apply Hother|done].
    + intros fid fid' ino'. destruct (decide (fid = r)) as [->|Hne], (decide (fid' = r)) as [->|Hne']; try done.
      * rewrite lookup_insert_eq, lookup_insert_ne by done. intros [= <-] Hd. by apply Hno in Hd.
      * rewrite lookup_insert_eq, lookup_insert_ne by done. intros Hd [= <-]. by apply Hno in Hd.
      * rewrite !lookup_insert_ne by done. apply O.
    + intros fid Hfid. destruct (decide (fid = r)) as [->|Hne]; [by rewrite lookup_insert_eq|].
      rewrite lookup_insert_ne by done. intros Hd. destruct (E fid Hfid Hd) as (t0 & Hat0 & ?). exists t0. split; [by apply Hother|done].
Qed.

Lemma open_ft_fields ino size flags append t :
  ft_ino (open_ft ino size flags append t) = ino /\ ft_size (open_ft ino size flags append t) = size /\
  ft_used (open_ft ino size flags append t) = 1.
Proof. done. Qed.

Lemma fd_open_wp s a ino flags bs : files_inv s a -> ab_files a !! ino = Some bs -> (forall fid, ab_fds a !! fid <> Some ino) ->
  first_free (ab_fds a) <> -1 ->
  wp (nvfuse_openfile_ino ino flags) (fun r s' => r = first_free (ab_fds a) /\ files_inv s' (next a (Open ino flags))) s.
Proof.
  intros Inv Hf Hno Hfree. pose proof (fi_files _ _ Inv ino bs Hf) as F. pose proof F as [(i & Hi & Hino & Hty & Hsz) F2 _ _ _ F6 F7 _].
  unfold nvfuse_openfile_ino. wp_step. eapply wp_lock_inode; [done..|]. wp_step. eapply wp_inode_of; [done|].
  rewrite Hty. change (NVFUSE_TYPE_FILE =? NVFUSE_TYPE_FILE) with true. cbn [negb]. cbn iota.
  eapply (slot_wp s); [done..| |]; [intros t; rewrite <- Hsz; apply open_ft_fields|]. intros s' Inv' _. by wp_step.
Qed.

(** ** Closing *)

Lemma close_wp s a fid : files_inv s a -> is_Some (ab_fds a !! fid) ->
  wp (nvfuse_closefile fid) (fun r s' => r = 0 /\ files_inv s' (next a (Close fid))) s.
Proof.
  intros Inv [ino Hd]. destruct (fi_fds _ _ Inv fid ino Hd) as (t & bs & Hat & _). pose proof (fi_ftlock _ _ Inv) as Hl.
  unfold nvfuse_closefile, nvfuse_close_file_table. wp_step. wp_step. eapply wp_get_ft; [done|]. wp_step. unfold ft_lock. wp_steps.
  apply wp_assert; [apply bool_decide_true; rewrite Hl; set_solver|]. wp_steps. eapply wp_upd_ft; [exact Hat|]. unfold ft_unlock. wp_steps.
  split; [done|]. set (s3 := set_ftlock _ _).
  assert (f_table s3 = <[Z.to_nat fid := ft_zero]> (f_table s)) as Et by done. assert (f_dir s3 = f_dir s) as Ed by done.
  assert (f_ftlock s3 = ∅) as El. { unfold s3. cbn. rewrite Hl. set_solver. }
  assert (forall fid' t0, fid' <> fid -> ft_at s fid' t0 -> ft_at s3 fid' t0) as Hother.
  { intros fid' t0 Hne [Hf0 Ht0]. split; [done|]. destruct Hat as [Hfid _]. rewrite Et, list_lookup_insert_ne by lia. done. }
  destruct Inv as [C Fi D O E L]. cbn [next]. split; cbn [ab_files ab_fds]; [by apply (cache_ok_eq s)| | | | |done].
  - intros ino' bs' Hf'. apply (same_file s); try done; [by left|by apply Fi].
  - intros fid' ino' [Hne Hd']%lookup_delete_Some. destruct (D fid' ino' Hd') as (t0 & bs0 & Hat0 & ?). exists t0, bs0.
    split; [apply Hother; congruence|done].
  - intros fid1 fid2 ino' [_ H1]%lookup_delete_Some [_ H2]%lookup_delete_Some. by eapply O.
  - intros fid' Hfid Hn. destruct (decide (fid' = fid)) as [->|Hne].
    + exists ft_zero. split; [|done]. split; [apply Hat|]. rewrite Et. apply list_lookup_insert_eq. eapply lookup_lt_Some, Hat.
    + rewrite lookup_delete_ne in Hn by done. destruct (E fid' Hfid Hn) as (t0 & Hat0 & ?). exists t0. split; [by apply Hother|done].
Qed.

End refine.

Section programs.
Context {A I : Type} `{StoreLaws A} `{!DataStore A} `{!DataLaws A}.
Context (flush_due : fst A I -> bool).
Implicit Types s : fst A I.

(** ** The code *)

Definition run_op (o : op) : M (fst A I) (Z * list Z) :=
  match o with
  | Open ino flags => r ← nvfuse_openfile_ino ino flags; mret (r, [])
  | Close fid => r ← nvfuse_closefile fid; mret (r, [])
  | Write fid data off => r ← nvfuse_writefile flush_due fid data (flen data) off; mret (r, [])
  | Read fid count off => nvfuse_readfile fid count count off
  | Fsync fid => r ← nvfuse_fsync fid; mret (r, [])
  | Sync => r ← nvfuse_sync; mret (r, [])
  | Evict k => mmodify (evict_state k);; mret (0, [])
  end.
Fixpoint run (l : list op) : M (fst A I) (list (Z * list Z)) :=
  match l with
  | [] => mret []
  | o :: l => r ← run_op o; rs ← run l; mret (r :: rs)
  end.

(** ** Reading, writing, synchronisation *)

Lemma wp_check_flush (Q : unit -> fst A I -> Prop) s a :
  files_inv s a -> (forall s', files_inv s' a -> Q tt s') -> wp (nvfuse_check_flush_dirty flush_due) Q s.
Proof. intros Inv HQ. unfold nvfuse_check_flush_dirty. wp_step. apply HQ. case_match; [by apply flush_inv|done]. Qed.

(** The table entry of [fid] changes along with its file. *)
Lemma files_inv_update s s' a fid ino t t' bs bs' :
  files_inv s a -> ab_fds a !! fid = Some ino -> ft_at s fid t -> ft_ino t = ino ->
  cache_ok s' -> file_ok s' ino bs' -> fothers {[ ino ]} s s' -> table_but fid t' s s' ->
  ft_ino t' = ino -> ft_size t' = flen bs' -> ft_used t' = ft_used t -> ab_files a !! ino = Some bs ->
  files_inv s' (mk_abs (<[ ino := bs' ]> (ab_files a)) (ab_fds a)).
Proof.
  intros [C Fi D O E L] Hd Hat Hit C' F' Ho Ht Hi' Hs' Hu' Hf.
  assert (ft_at s' fid t') as Hat'. { split; [apply Hat|]. rewrite Ht. apply list_lookup_insert_eq. eapply lookup_lt_Some, Hat. }
  assert (forall fid' t0, fid' <> fid -> ft_at s fid' t0 -> ft_at s' fid' t0) as Hother.
  { intros fid' t0 Hne [Hf0 Ht0]. split; [done|]. destruct Hat as [Hfid _]. rewrite Ht, list_lookup_insert_ne by lia. done. }
  split; cbn [ab_files ab_fds]; [done| | |done| |by rewrite (fo_ftlock _ _ _ Ho)].
  - intros ino0 bs0. destruct (decide (ino0 = ino)) as [->|Hne].
    + rewrite lookup_insert_eq. by intros [= <-].
    + rewrite lookup_insert_ne by done. intros Hf0. eapply fothers_file; [exact Ho|set_solver|by apply Fi].
  - intros fid0 ino0 Hd0. destruct (D fid0 ino0 Hd0) as (t0 & bs0 & Hat0 & Hi0 & Hu0 & Hf0 & Hs0).
    destruct (decide (fid0 = fid)) as [->|Hne].
    + assert (ino0 = ino) as -> by congruence. exists t', bs'. rewrite lookup_insert_eq.
      assert (t0 = t) as -> by (destruct Hat0, Hat; congruence). by rewrite Hu'.
    + exists t0, bs0. rewrite lookup_insert_ne; [split; [by apply Hother|done]|]. intros ->. by eapply Hne, O.
  - intros fid0 Hfid Hn. destruct (E fid0 Hfid Hn) as (t0 & Hat0 & ?). exists t0. split; [|done]. apply Hother; [congruence|done].
Qed.

Lemma grow_size_used t v : ft_used (grow_size (set_rwoffset v t)) = ft_used t.
Proof. unfold grow_size. cbn. by case_match. Qed.

Lemma behind_fd s a fid bs : files_inv s a -> behind a fid = Some bs -> exists t, ab_fds a !! fid = Some (ft_ino t) /\
  ab_files a !! ft_ino t = Some bs /\ ft_at s fid t /\ ft_size t = flen bs /\ file_ok s (ft_ino t) bs.
Proof.
  intros Inv Hb. unfold behind in Hb. destruct (ab_fds a !! fid) as [ino|] eqn:Hd; [|done]. cbn in Hb.
  destruct (fi_fds _ _ Inv fid ino Hd) as (t & bs0 & Hat & <- & _ & Hf & Hs). assert (bs0 = bs) as -> by congruence.
  exists t. split_and!; try done. by apply (fi_files _ _ Inv).
Qed.

Lemma write_wp s a fid data off bs : files_inv s a -> behind a fid = Some bs -> 0 <= off <= flen bs -> flen data < 2 ^ 31 ->
  off + flen data < MAX_FILE_SIZE ->
  wp (nvfuse_writefile flush_due fid data (flen data) off) (fun r s' => r = flen data /\ files_inv s' (next a (Write fid data off))) s.
Proof.
  intros Inv Hb Ho Hn Hmax. destruct (behind_fd _ _ _ _ Inv Hb) as (t & Hd & Hf & Hat & Hs & F).
  assert (0 <= flen data) by (unfold flen; lia). unfold nvfuse_writefile. wp_step.
  eapply wp_mono; [eapply (writefile_core_wp s fid data (flen data) off t bs); first [done|apply Inv|lia]|].
  intros r s1 [-> W]. replace (take (Z.to_nat (flen data)) data) with data in W by (unfold flen; rewrite Nat2Z.id; symmetry; by apply take_ge).
  wp_step. eapply wp_check_flush; [|intros s2 Inv2; wp_step; split; [done|exact Inv2]].
  cbn [next]. rewrite Hd, Hf. change (default [] (Some bs)) with bs. destruct W as [W1 W2 W3 _ _ W5].
  eapply (files_inv_update s s1 a fid (ft_ino t) t (grow_size (set_rwoffset (off + flen data) t)) bs);
    first [done|apply grow_size_ino|apply grow_size_used|rewrite grow_size_size, overwrite_len by done; lia].
Qed.

Lemma read_wp s a fid count off : files_inv s a -> is_Some (ab_fds a !! fid) -> 0 <= off -> 0 <= count < 2 ^ 31 ->
  wp (nvfuse_readfile fid count count off) (fun r s' => answer a (Read fid count off) r /\ files_inv s' a) s.
Proof.
  intros Inv [ino Hd] Ho Hn. destruct (fi_fds _ _ Inv fid ino Hd) as (t & bs & Hat & Hi & Hu & Hf & Hs).
  assert (behind a fid = Some bs) as Hb by (unfold behind; by rewrite Hd). pose proof (fi_files _ _ Inv ino bs Hf) as F.
  eapply wp_mono; [eapply (readfile_bytes_wp s fid count count off t bs); first [done|by rewrite Hi|apply Inv|lia]|].
  intros r s1 ((tail & Ht1 & Ht2 & Hr) & n & R). split; [by exists bs, tail|].
  pose proof (read_to_others _ _ _ _ _ R) as Ho1. pose proof R as [Ed Rl Rc Rb Rca Rt].
  replace a with (mk_abs (<[ ino := bs ]> (ab_files a)) (ab_fds a)) by (destruct a; cbn in *; by rewrite insert_id).
  cbn [ft_ino set_rwoffset] in Ho1. rewrite Hi in Ho1.
  eapply (files_inv_update s s1 a fid ino t (set_rwoffset n t) bs bs); try done.
  eapply read_to_file; [exact R|cbn [ft_ino set_rwoffset]; by rewrite Hi|done].
Qed.

Lemma fsync_wp s a fid : files_inv s a -> is_Some (ab_fds a !! fid) ->
  wp (nvfuse_fsync fid) (fun r s' => r = 0 /\ s' = s) s.
Proof.
  intros Inv [ino Hd]. destruct (fi_fds _ _ Inv fid ino Hd) as (t & bs & Hat & Hi & Hu & Hf & Hs).
  pose proof (fi_files _ _ Inv ino bs Hf) as [(i & Hii & Hino & _) F2 _ _ _ F6 _ _].
  unfold nvfuse_fsync. wp_step. eapply wp_get_ft; [done|]. rewrite Hi. wp_step. eapply wp_lock_inode; [done..|].
  wp_step. unfold nvfuse_fsync_ictx. wp_step. wp_step. apply wp_unlock_inode; [fcbn; set_solver|]. wp_step. split; [done|].
  fcbn. rewrite add_remove by done. by destruct s as [[] ? ? ?].
Qed.

Lemma step_wp s a o : files_inv s a -> op_ok a o -> wp (run_op o) (fun r s' => answer a o r /\ files_inv s' (next a o)) s.
Proof.
  intros Inv Hok. destruct o as [ino flags|fid|fid data off|fid count off|fid| |k]; cbn [run_op op_ok] in *.
  - destruct Hok as ([bs Hf] & Hno & Hfree). wp_step. eapply wp_mono; [by eapply fd_open_wp|].
    intros r s' [-> Inv']. wp_step. done.
  - wp_step. eapply wp_mono; [by eapply close_wp|]. intros r s' [-> Inv']. by wp_step.
  - destruct Hok as (bs & Hb & Ho & Hn & Hmax). wp_step. eapply wp_mono; [by eapply write_wp|]. intros r s' [-> Inv']. by wp_step.
  - destruct Hok as (Hd & Ho & Hn). by apply read_wp.
  - wp_step. eapply wp_mono; [by eapply fsync_wp|]. intros r s' [-> ->]. by wp_step.
  - unfold nvfuse_sync, nvfuse_flush_dirty_data. wp_steps. split; [done|]. by apply flush_inv.
  - wp_steps. split; [done|]. by apply evict_inv.
Qed.

Lemma files_run_wp l : forall s a, files_inv s a -> prog_ok a l -> wp (run l) (fun rs s' => answers a l rs /\ files_inv s' (final a l)) s.
Proof.
  induction l as [|o l IH]; intros s a Inv Hok; cbn [run prog_ok answers] in *; [by wp_step|].
  destruct Hok as [Ho Hl]. wp_step. eapply wp_mono; [by apply step_wp|]. intros r s1 [Hr Inv1]. wp_step.
  eapply wp_mono; [by apply IH|]. intros rs s2 [Hrs Inv2]. by wp_step.
Qed.

End programs.
End FileMap.

(** ** Files: opening by directory and name

    nvfuse_openfile on a directory at rest: the lookup and the creation of the
    directory component composed with the table. *)
Import Layout DirHash Dir DirOps DirApi DirSpec DirIndex DirEntry DirFind DirLookup DirCreate DirMake.
Import File FileIO FileSpec FileRules FileSync FileMap.

Module FileOpen.

Section files.
Context {A I : Type} `{StoreLaws A} `{!DataStore A} `{!DataLaws A} `{!Index A I} `{!IndexLaws A I}.
Context (flush_due : fst A I -> bool).
Implicit Types s : fst A I.

(** Writing out leaves the directories alone, whatever the buffers hold. *)
Lemma write_out_meta l (a : A) :
  (forall j, st_inode (write_out l a) j = st_inode a j) /\ (forall j lb, st_mapped (write_out l a) j lb = st_mapped a j lb) /\
  st_no_of_inodes (write_out l a) = st_no_of_inodes a /\ st_root_ino (write_out l a) = st_root_ino a.
Proof.
  induction l as [|[[j lb] b] l (E1 & E2 & E3 & E4)]; [done|]. unfold write_out in *. cbn [foldr]. case_match; [|done].
  split_and!; intros; rewrite ?dl_write_inode, ?dl_write_mapped, ?dl_write_limit, ?dl_write_root; auto.
Qed.

Lemma check_flush_others (Q : unit -> fst A I -> Prop) s :
  (forall s', others ∅ (f_dir s) (f_dir s') -> d_locked (f_dir s') = d_locked (f_dir s) -> d_held (f_dir s') = d_held (f_dir s) ->
     f_table s' = f_table s -> Q tt s') -> wp (nvfuse_check_flush_dirty flush_due) Q s.
Proof.
  intros HQ. unfold nvfuse_check_flush_dirty. wp_step. case_match; [|apply HQ; try done; apply others_refl].
  destruct (write_out_meta (map_to_list (f_cache s)) (d_store (f_dir s))) as (E1 & E2 & E3 & E4). apply HQ; done.
Qed.

(** A name that is there *)
Lemma openfile_found_wp s a d b i n m es k name e flags mode bs :
  files_inv s a -> dir_inv (f_dir s) d b i n m es -> file_at es k name e ->
  0 < d_ino e < st_no_of_inodes (d_store (f_dir s)) -> name <> [] ->
  ab_files a !! d_ino e = Some bs -> (forall fid, ab_fds a !! fid <> Some (d_ino e)) -> first_free (ab_fds a) <> -1 ->
  wp (nvfuse_openfile flush_due d name flags mode) (fun r s' => r = first_free (ab_fds a) /\
    files_inv s' (next a (Open (d_ino e) flags)) /\ dir_inv (f_dir s') d b i n m es) s.
Proof.
  intros Inv [Dd Df] Hf Hi Hne Hfile Hno Hfree. unfold nvfuse_openfile. rewrite bool_decide_false by done.
  wp_step. apply wp_on_dir. eapply lookup_found_wp; [exact Dd|exact Df|exact Hf|exact Hi|]. cbn beta iota.
  change (0 <? 0) with false. cbn iota. wp_step. wp_step. eapply wp_lift; [done|]. wp_step. cbn beta iota.
  assert (set_dir (f_dir s) s = s) as -> by (by destruct s).
  pose proof (fi_files _ _ Inv _ bs Hfile) as F. pose proof F as [(fi & Hfi & Hino & Hty & Hsz) F2 _ _ _ F6 F7 _].
  wp_step. eapply wp_lock_inode; [done..|]. wp_step. eapply wp_inode_of; [done|].
  rewrite Hty. change (NVFUSE_TYPE_FILE =? NVFUSE_TYPE_FILE) with true. cbn [negb]. cbn iota.
  eapply (slot_wp s); [done..| |]; [intros t; rewrite <- Hsz, Hino; apply open_ft_fields|]. intros s' Inv' Ed. wp_step.
  unfold nvfuse_check_flush_dirty. wp_steps. split; [done|]. destruct (flush_due s'); [|by rewrite Ed].
  split; [by apply flush_inv|]. destruct (write_out_meta (map_to_list (f_cache s')) (d_store (f_dir s'))) as (E1 & E2 & E3 & E4).
  eapply (others_dir ∅ (f_dir s)); [rewrite <- Ed; by split|set_solver|set_solver|by rewrite <- Ed|by rewrite <- Ed|by split].
Qed.

(** A name that is not there is made, for O_RDWR as well as for O_CREAT. *)
Lemma openfile_create_wp s a d b i n m es name key flags mode :
  files_inv s a -> dir_inv (f_dir s) d b i n m es -> locks_live (f_dir s) -> spare (d_store (f_dir s)) 1 ->
  1 <= strlen name < FNAME_SIZE -> name_ok name key -> m !! key = None -> len es < 2 ^ 30 -> n + ix_step <= ix_max ->
  has_flag flags O_RDWR || has_flag flags O_CREAT = true -> first_free (ab_fds a) <> -1 ->
  wp (nvfuse_openfile flush_due d name flags mode) (fun r s' => r = first_free (ab_fds a) /\
    exists ino i' n' t, ~ live (d_store (f_dir s)) ino /\
      st_inode (d_store (f_dir s')) ino = Some (init_file mode 0 (d_now (f_dir s)) (new_inode_of ino)) /\
      dir_inv (f_dir s') d b i' n' (<[ key := len es ]> m) (es ++ [mk_dentry ino DIR_USED 1 name]) /\
      ft_at s' r t /\ ft_ino t = ino /\ ft_size t = 0 /\ ft_rwoffset t = 0 /\ ft_flags t = flags /\
      d_locked (f_dir s') = d_locked (f_dir s) /\ d_held (f_dir s') = d_held (f_dir s)) s.
Proof.
  intros Inv Dinv Hll Hsp Hlen Hok Hm Hl Hn Hfl Hfree. pose proof Dinv as [Dd Df].
  assert (name <> []) as Hne by (intros ->; unfold strlen in Hlen; simpl in Hlen; lia).
  unfold nvfuse_openfile. rewrite bool_decide_false by done.
  wp_step. apply wp_on_dir. eapply lookup_missing_wp; [exact Dd|exact Df|exact Hok|exact Hm|]. cbn beta iota.
  change (-1 <? 0) with true. cbn iota. rewrite Hfl. cbn iota. assert (set_dir (f_dir s) s = s) as -> by (by destruct s).
  wp_step. wp_step. apply wp_on_dir. eapply createfile_wp; [exact Dinv|exact Hll|exact Hlen|exact Hok|exact Hm|exact Hl|exact Hn|exact Hsp|].
  intros ino i' n' d1 Hn' [M1 M2 M3 [M4 M4'] M5 M6 M7]. change (NVFUSE_SUCCESS <? 0) with false. wp_step. cbn beta iota.
  set (node := init_file _ _ _ _) in *. change (default 0 (Some ino)) with ino.
  wp_step. eapply (wp_lock_inode ino node); fcbn; [lia| |exact M6|done|].
  { rewrite M1. intros Hin. by apply M4', Hll. }
  wp_step. eapply (wp_inode_of ino node); [fcbn; exact M6|]. change (i_type node =? NVFUSE_TYPE_FILE) with true. cbn [negb]. cbn iota.
  set (s1 := set_dir _ _). wp_step. unfold nvfuse_allocate_open_file_table.
  eapply wp_mono; [apply (alloc_scan_wp _ START_OPEN_FILE s1 (ab_fds a)); try done|].
  { apply Inv. }
  { intros fid Hfid. by apply (inv_slots s a). }
  intros r s2 (Hr & Hrange & Hnone & t & Hat & ->). unfold START_OPEN_FILE in Hrange. rewrite (proj2 (Z.ltb_ge r 0)) by lia.
  wp_step. eapply (wp_upd_ft r (set_used 1 t)); [by eapply (ft_at_insert s1)|].
  wp_step. apply wp_unlock_inode; [fcbn; set_solver|]. wp_step. set (s3 := set_dir _ _).
  assert (f_dir s3 = d1) as Ed. { unfold s3, s1. fcbn. rewrite add_remove; [by destruct d1|]. rewrite M1. intros Hin. by apply M4', Hll. }
  apply check_flush_others. rewrite Ed. intros s' Ho El Eh Et. wp_step. split; [done|].
  exists ino, i', n', (open_ft (i_ino node) (i_size node) flags (has_flag flags O_APPEND) (set_used 1 t)).
  split; [done|]. split; [rewrite (ot_inode _ _ _ Ho); [done|set_solver]|].
  split; [eapply (others_dir ∅ d1); [done|set_solver|set_solver|done|done|done]|].
  split; [|by split_and!; try done; [unfold open_ft, nvfuse_seek; cbn; by destruct (has_flag flags O_APPEND)|by rewrite El|by rewrite Eh]].
  split; [lia|]. rewrite Et. unfold s3. fcbn. rewrite list_insert_insert_eq. apply list_lookup_insert_eq. eapply lookup_lt_Some, Hat.
Qed.

(** Otherwise the name is refused and nothing has changed. *)
Lemma openfile_missing_wp s d b i n m es name key flags mode :
  dir_inv (f_dir s) d b i n m es -> name <> [] -> name_ok name key -> m !! key = None ->
  has_flag flags O_RDWR || has_flag flags O_CREAT = false ->
  wp (nvfuse_openfile flush_due d name flags mode) (fun r s' => r = -1 /\ s' = s) s.
Proof.
  intros [Dd Df] Hne Hok Hm Hfl. unfold nvfuse_openfile. rewrite bool_decide_false by done.
  assert (set_dir (f_dir s) s = s) as Es by (by destruct s).
  wp_step. apply wp_on_dir. eapply lookup_missing_wp; [exact Dd|exact Df|exact Hok|exact Hm|]. cbn beta iota.
  change (-1 <? 0) with true. cbn iota. rewrite Hfl, Es. cbn iota.
  wp_step. wp_step. apply wp_on_dir. eapply lookup_missing_wp; [exact Dd|exact Df|exact Hok|exact Hm|]. wp_step. rewrite Es. by wp_step.
Qed.

End files.
End FileOpen.

(** ** Files: a store with a device, on which the examples run

    Any store with the laws of [DirSpec], and the contents of its blocks beside
    it, which the operations of the store leave alone. *)
Import Layout Dir DirSpec DirDemo File FileIO FileSpec FileMap.

Module FileDemo.

Record disk (A : Type) := mk_disk { dk_store : A; dk_data : gmap (Z * Z) (list Z) }.
Arguments mk_disk {A} _ _.
Arguments dk_store {A} _.
Arguments dk_data {A} _.

Definition zero_block : list Z := replicate (Z.to_nat CLUSTER_SIZE) 0.
Definition as_block (c : list Z) : list Z := if Nat.eqb (length c) (Z.to_nat CLUSTER_SIZE) then c else zero_block.

Section lift.
Context {A : Type} `{StoreLaws A}.

Definition on_disk {X} (m : M A X) : M (disk A) X := fun d =>
  match m (dk_store d) with Some (x, a) => Some (x, mk_disk a (dk_data d)) | None => None end.

#[export] Instance disk_store : Store (disk A) := {
  st_inode d := st_inode (dk_store d);
  st_set_inode ino i d := mk_disk (st_set_inode ino i (dk_store d)) (dk_data d);
  st_alloc_inode := on_disk st_alloc_inode;
  st_delete_inode ino := on_disk (st_delete_inode ino);
  st_get_block ino lb := on_disk (st_get_block ino lb);
  st_truncate ino size := on_disk (st_truncate ino size);
  st_mapped d := st_mapped (dk_store d);
  st_no_of_inodes d := st_no_of_inodes (dk_store d);
  st_root_ino d := st_root_ino (dk_store d) }.

(** A run of blocks is found or made block by block. *)
Fixpoint get_blocks (n : nat) (ino lb : Z) : M (disk A) Z :=
  match n with O => mret 0 | S n => r ← st_get_block ino lb; if r =? 0 then get_blocks n ino (lb + 1) else mret r end.

#[export] Instance disk_data : DataStore (disk A) := {
  ds_read d j lb := as_block (default zero_block (dk_data d !! (j, lb)));
  ds_write j lb c d := mk_disk (dk_store d) (<[ (j, lb) := c ]> (dk_data d));
  ds_get_block ino lb max create :=
    if create then r ← get_blocks (Z.to_nat max) ino lb; mret (r, max, 1)
    else d ← mget; mret (if st_mapped d ino lb then (0, 1, 1) else (-1, 0, 0)) }.

Lemma wp_on_disk {X} (m : M A X) (Q : X -> disk A -> Prop) d :
  wp m (fun x a => Q x (mk_disk a (dk_data d))) (dk_store d) -> wp (on_disk m) Q d.
Proof. unfold wp, on_disk. by destruct (m (dk_store d)) as [[x a]|]. Qed.

Lemma frame_disk b (d d' : disk A) : frame b (dk_store d) (dk_store d') -> frame b d d'.
Proof. intros [F1 F2 F3 F4]. by split. Qed.

#[export] Instance disk_laws : StoreLaws (disk A).
Proof.
  split.
  - intros a j i. apply (sl_set_eq (dk_store a)).
  - intros a j i. apply frame_disk. cbn. apply (sl_set_frame (dk_store a)).
  - intros a j i i0 lb. apply (sl_set_mapped (dk_store a)).
  - intros a Hs. apply wp_on_disk. eapply wp_mono; [by apply sl_alloc|]. intros ino a' (? & ? & ? & F).
    apply (frame_disk ino a (mk_disk a' (dk_data a))) in F. done.
  - intros a b Hb. apply wp_on_disk. eapply wp_mono; [by apply sl_delete|]. intros r a' (? & ? & F).
    apply (frame_disk b a (mk_disk a' (dk_data a))) in F. done.
  - intros a b lb. apply wp_on_disk. eapply wp_mono; [apply sl_get_block|]. intros r a' (? & F & ? & ? & ?).
    apply (frame_disk b a (mk_disk a' (dk_data a))) in F. done.
  - intros a b size Hb. apply wp_on_disk. eapply wp_mono; [by apply sl_truncate|]. intros r a' (F & ? & ?).
    apply (frame_disk b a (mk_disk a' (dk_data a))) in F. done.
Qed.

Lemma as_block_len c : length (as_block c) = Z.to_nat CLUSTER_SIZE.
Proof. unfold as_block. destruct (Nat.eqb_spec (length c) (Z.to_nat CLUSTER_SIZE)); [done|]. apply length_replicate. Qed.

#[export] Instance disk_data_laws : DataLaws (disk A).
Proof.
  split; try done.
  - intros a j lb. apply as_block_len.
  - intros a j lb c _ Hc. cbn. rewrite lookup_insert_eq. cbn. unfold as_block. by rewrite Hc, Nat.eqb_refl.
  - intros a j lb c j' lb' Hne _ _. cbn. by rewrite lookup_insert_ne.
  - intros a b lb. apply wp_on_disk. eapply wp_mono; [apply sl_get_block|]. done.
  - intros a b size Hb. apply wp_on_disk. eapply wp_mono; [by apply sl_truncate|]. done.
Qed.

End lift.

(** ** Empty files *)

Definition file_ino : Z := 5.
Definition other_ino : Z := 6.
Definition empty_file (ino : Z) : nvfuse_inode := set_i_links 1 (set_i_type NVFUSE_TYPE_FILE (new_inode_of ino)).
Notation demo_state := (fst (disk ideal) BpIndex.bptree).
Definition demo_table : list nvfuse_file_table := replicate (Z.to_nat MAX_OPEN_FILE) ft_zero.
Definition demo1 : demo_state :=
  mk_fst _ _ (mk_dst _ _ (mk_disk (mk_ideal {[ file_ino := empty_file file_ino; other_ino := empty_file other_ino ]} ∅) ∅) ∅ ∅ ∅ ∅ 7)
    demo_table ∅ ∅.
Definition demo_abs : abs := mk_abs {[ file_ino := []; other_ino := [] ]} ∅.

Lemma demo_file ino : ino = file_ino \/ ino = other_ino -> file_ok demo1 ino [].
Proof.
  intros Hi. split; try done.
  - exists (empty_file ino). destruct Hi as [-> | ->]; done.
  - unfold ROOT_INO. destruct Hi as [-> | ->]; done.
  - change (flen []) with 0. intros lb. unfold nblocks. change ((0 + 4095) / 4096) with 0. lia.
  - change (flen []) with 0. lia.
  - by intros lb [].
Qed.

Lemma file_demo_inv : files_inv demo1 demo_abs.
Proof.
  split; try done.
  - intros ino bs. cbn. intros [[<- <-]|[_ [<- <-]%lookup_singleton_Some]]%lookup_insert_Some; apply demo_file; auto.
  - intros fid Hfid _. exists ft_zero. split; [|done]. unfold START_OPEN_FILE, MAX_OPEN_FILE in Hfid. split; [lia|].
    cbn [f_table demo1 demo_table]. apply lookup_replicate_2. unfold MAX_OPEN_FILE. lia.
Qed.

End FileDemo.
