(* ===== verification/FileThms.v ===== *)
(** * What files guarantee

    Reading and writing through a descriptor, sequences of operations as arrays
    of bytes, what reaches the device, truncation, and the cases in which the
    code loses data or does not come back. *)
From S2P Require Import Prelude Bitmap Layout DirHash Dir DirOps DirApi BpIndex DirEntry DirFind DirMake BpIndexLaws.
From S2P Require Import File FileIO FileOps FileRules FileWrite FileSync FileMap.
Import Layout DirHash Dir DirOps DirApi DirSpec DirIndex DirEntry DirFind DirCreate DirDemo.
Import File FileIO FileOps FileSpec FileRules FileRead FileWrite FileSync FileMap FileOpen FileDemo.

Module FileThms.

(** ** An open file with contents *)

Definition never {A I} (s : fst A I) : bool := false.
Definition after {X} (m : M demo_state X) (s : demo_state) : demo_state := match m s with Some (_, s') => s' | None => s end.

Definition digits : list Z := [48; 49; 50; 51; 52; 53; 54; 55; 56; 57].
(** The file is opened as descriptor 3 and ten bytes are written. *)
Definition demo_prog : list op := [Open file_ino 2; Write 3 digits 0].
Definition demo2 : demo_state := after (run never demo_prog) demo1.
Definition demo_abs2 : abs := final demo_abs demo_prog.

Lemma demo_prog_ok : prog_ok demo_abs demo_prog.
Proof.
  split; [|split; [|done]].
  - split; [by eexists|]. split; [by intros fid|done].
  - exists []. split; [done|]. split; [done|]. split; done.
Qed.

Lemma file_demo2_inv : files_inv demo2 demo_abs2.
Proof.
  pose proof (files_run_wp never demo_prog demo1 demo_abs file_demo_inv demo_prog_ok) as Hw. unfold demo2, after, wp in *.
  destruct (run never demo_prog demo1) as [[rs s']|]; [apply Hw|done].
Qed.

Definition demo_ft : nvfuse_file_table := mk_ft file_ino 10 1 10 0.
Lemma demo2_file : file_ok demo2 file_ino digits.
Proof. apply (fi_files _ _ file_demo2_inv). vm_compute. reflexivity. Qed.
Lemma demo2_ft : ft_at demo2 3 demo_ft.
Proof. split; [done|]. by vm_compute. Qed.
#[local] Opaque demo2.

Section theorems.
Context {A I : Type} `{StoreLaws A} `{!DataStore A} `{!DataLaws A}.
Implicit Types s : fst A I.

Lemma set_table_file s ft ino bs : file_ok s ino bs -> file_ok (set_table ft s) ino bs.
Proof. apply same_file; try done. by left. Qed.

(** ** What does not come back *)

Lemma locked_stuck ino s : ROOT_INO <= ino -> ino ∈ d_locked (f_dir s) -> read_inode ino s = None.
Proof.
  intros Hr Hl. unfold read_inode, on_dir. rewrite (aborts_bind _ _ (f_dir s)); [done|]. unfold nvfuse_read_inode.
  rewrite (proj2 (Z.ltb_ge ino ROOT_INO)) by done. apply aborts_bind. unfold lock_inode, mget, mbind, M_bind, massert.
  by rewrite bool_decide_false by tauto.
Qed.

Lemma on_dir_aborts {X} (m : M (dst A I) X) s : m (f_dir s) = None -> on_dir m s = None.
Proof. unfold on_dir. by intros ->. Qed.

(** A read of a block that is not mapped trips an assertion. *)
Lemma read_unmapped_stuck s fid t i count off : ft_at s fid t -> st_inode (d_store (f_dir s)) (ft_ino t) = Some i ->
  i_ino i = ft_ino t -> ROOT_INO <= ft_ino t -> ft_ino t ∉ d_locked (f_dir s) ->
  (forall lb, (ft_ino t, lb) ∉ d_held (f_dir s)) ->
  0 < count -> 0 <= off < i_size i -> off < MAX_FILE_SIZE -> st_mapped (d_store (f_dir s)) (ft_ino t) (off / 4096) = false ->
  nvfuse_readfile fid count count off s = None.
Proof.
  intros Hat Hi Hino Hr Hl Hh Hc Ho Hmax Hm. unfold nvfuse_readfile, nvfuse_readfile_core.
  apply bind_aborts. eapply wp_get_ft; [done|]. apply bind_aborts. eapply wp_lock_inode; [done..|].
  apply bind_aborts. eapply wp_upd_ft; [by apply Hat|]. fcbn. apply aborts_bind. unfold io_fuel. cbn [read_loop].
  set (s1 := set_table _ _). assert (ft_at s1 fid (set_rwoffset off t)) as Hat1 by (by eapply (ft_at_insert (set_dir _ s))).
  apply bind_aborts. eapply wp_get_ft; [exact Hat1|]. apply bind_aborts. eapply wp_inode_of; [exact Hi|]. cbn [ft_rwoffset set_rwoffset].
  rewrite (proj2 (Z.ltb_lt 0 count)), (proj2 (Z.ltb_lt off _)) by lia. cbn [andb]. apply aborts_bind. rewrite lbno_eq by lia.
  unfold get_data_bh. apply aborts_bind, on_dir_aborts. unfold mget. apply bind_aborts. wp_steps.
  apply bind_aborts, wp_assert; [apply bool_decide_true; unfold s1; fcbn; set_solver|].
  apply bind_aborts, wp_hold; [apply Hh|]. unfold massert. unfold s1. fcbn. by rewrite Hm.
Qed.

(** The search of a table without a free entry *)
Lemma alloc_scan_full n : forall i s, f_ftlock s = ∅ ->
  (forall fid, i <= fid < i + Z.of_nat n -> exists t, ft_at s fid t /\ ft_used t <> 0) ->
  wp (alloc_scan n i) (fun r s' => r = -1 /\ f_dir s' = f_dir s) s.
Proof.
  induction n as [|n IH]; intros i s Hl Ht; cbn [alloc_scan]; [unfold ft_unlock; by wp_steps|].
  destruct (Ht i ltac:(lia)) as (t & Hat & Hu). wp_step. eapply wp_get_ft; [done|]. wp_step. unfold ft_lock. wp_steps.
  apply wp_assert; [apply bool_decide_true; rewrite Hl; set_solver|]. wp_steps. rewrite (proj2 (Z.eqb_neq _ 0)) by done.
  unfold ft_unlock. wp_steps. eapply wp_mono; [apply IH|]; cbn.
  - rewrite Hl. set_solver.
  - intros fid Hfid. apply Ht. lia.
  - done.
Qed.

(** ** Reading and writing *)




(** A write sets the size of the inode to the size recorded with the
    descriptor, or to where the write ends.  Through a descriptor that was
    opened before the file grew through another one, a write within the file
    cuts it off. *)
Theorem stale_descriptor_truncates s fid t bs buf count off :
  file_ok s (ft_ino t) bs -> ft_at s fid t -> ft_size t < flen bs -> 0 <= off -> 0 < count <= flen buf ->
  count < 2 ^ 31 -> off + count < flen bs ->
  wp (nvfuse_writefile_core fid buf count off) (fun r s' => r = count /\
    exists i, st_inode (d_store (f_dir s')) (ft_ino t) = Some i /\
      i_size i = Z.max (ft_size t) (off + count) /\ i_size i < flen bs) s.
Proof.
  intros F Hat Hsz Ho Hn Hn2 Hend. destruct (file_writable _ _ _ F) as (i & [W1 W2 W3 W4 W5 W6 W7] & His & _).
  assert (off + count < MAX_FILE_SIZE) as Hmax by lia.
  unfold nvfuse_writefile_core. wp_step. eapply wp_get_ft; [exact Hat|]. wp_step. eapply wp_upd_ft; [exact Hat|]. wp_step.
  set (s0 := set_table _ s).
  eapply wp_mono; [apply (write_loop_size _ s0 fid count (set_rwoffset off t) buf 0 i); try done|].
  all: try (first [by eapply (ft_at_insert s)|apply rounds_fuel|cbn; lia]).
  intros r s1 [-> (i' & t' & [V1 V2 V3 V4 V5 V6 V7] & Hi' & Hat' & Ht')]. rewrite Z.add_0_l.
    cbn [ft_ino ft_size ft_rwoffset set_rwoffset] in *. wp_step. eapply wp_get_ft; [exact Hat'|]. rewrite s32_small by lia. rewrite Ht'.
    wp_step. case_match; [|wp_steps; split; [done|]; exists i'; split_and!; [done|done|lia]].
    wp_step. eapply wp_lock_inode; [done..|]. wp_step. unfold nvfuse_fsync_ictx. wp_step. apply wp_unlock_inode; [fcbn; set_solver|].
    wp_step. split; [done|]. exists i'. split_and!; [done|done|lia].
Qed.

(** ** Durability and truncation *)

(** What is left when the buffers are lost *)
Definition crash s : fst A I := set_cache ∅ s.

Lemma sync_wp s : cache_ok s -> wp nvfuse_sync (fun r s' => s' = flush_state s /\ cache_ok s' /\
  (forall ino bs, file_ok s ino bs -> file_ok s' ino bs) /\ f_table s' = f_table s) s.
Proof.
  intros Hc. unfold nvfuse_sync, nvfuse_flush_dirty_data. wp_steps. split; [done|]. split; [by apply flush_cache_ok|]. split; [|done].
  intros ino bs F. eapply fothers_file; [by apply flush_others|set_solver|done].
Qed.




(** Without that proviso bytes that should be kept are lost: the dirty
    buffer of the last block goes away with the blocks behind it, and the block
    has again what the device holds. *)
Theorem ftruncate_loses_tail s fid t bs size :
  cache_ok s -> file_ok s (ft_ino t) bs -> ft_at s fid t -> 0 <= size <= flen bs ->
  wp (nvfuse_ftruncate (fun _ => false) fid size) (fun r s' => r = 0 /\
    forall k, size / 4096 * 4096 <= k < size ->
      byte_at s' (ft_ino t) k = ds_read (d_store (f_dir s)) (ft_ino t) (size / 4096) !! Z.to_nat (k mod 4096)) s.
Proof.
  intros Hc F Hat Hsz. destruct (fk_inode _ _ _ F) as (i & Hi & _).
  eapply wp_mono; [by eapply ftruncate_wp|]. intros r s' [-> (s1 & C & ->)]. split; [done|].
  intros k Hk. unfold byte_at. replace (k / 4096) with (size / 4096) by dmlia.
  rewrite (ct_block _ _ _ _ _ C) by dmlia. by rewrite Z.ltb_irrefl.
Qed.

(** nvfuse_openfile_ino when all descriptors are in use fails and keeps the
    inode locked: the next operation on the file waits for ever. *)
Theorem openfile_full_locks s ino i flags :
  ROOT_INO <= ino -> ino ∉ d_locked (f_dir s) -> st_inode (d_store (f_dir s)) ino = Some i -> i_ino i = ino ->
  i_type i = NVFUSE_TYPE_FILE -> f_ftlock s = ∅ ->
  (forall fid, START_OPEN_FILE <= fid < MAX_OPEN_FILE -> exists t, ft_at s fid t /\ ft_used t <> 0) ->
  wp (nvfuse_openfile_ino ino flags) (fun r s' => r = NVFUSE_ERROR /\ ino ∈ d_locked (f_dir s') /\
    nvfuse_openfile_ino ino flags s' = None) s.
Proof.
  intros Hr Hl Hi Hino Hty Hft Hall. unfold nvfuse_openfile_ino at 1. wp_step. eapply wp_lock_inode; [done..|].
  wp_step. eapply wp_inode_of; [done|]. rewrite Hty. change (NVFUSE_TYPE_FILE =? NVFUSE_TYPE_FILE) with true. cbn [negb]. cbn iota.
  wp_step. eapply wp_mono; [apply alloc_scan_full; [done|]|].
  - intros fid Hfid. apply (Hall fid). unfold START_OPEN_FILE, MAX_OPEN_FILE in *. lia.
  - intros r s' [-> Ed]. change (-1 <? 0) with true. cbn iota. wp_step. split; [done|]. rewrite Ed. fcbn. split; [set_solver|].
    unfold nvfuse_openfile_ino. apply aborts_bind, locked_stuck; [done|]. rewrite Ed. fcbn. set_solver.
Qed.

(** nvfuse_ftruncate to a larger size reports success but maps no blocks: a
    read from a new block trips an assertion. *)
Theorem ftruncate_grow_unreadable (flush_due : fst A I -> bool) s fid t bs size count off :
  file_ok s (ft_ino t) bs -> ft_at s fid t -> flen bs <= off < size -> size < MAX_FILE_SIZE -> 0 < count ->
  st_mapped (d_store (f_dir s)) (ft_ino t) (off / 4096) = false ->
  wp (nvfuse_ftruncate flush_due fid size) (fun r s' => r = 0 /\ nvfuse_readfile fid count count off s' = None) s.
Proof.
  intros F Hat Hsz Hmax Hc Hm. pose proof F as [(i & Hi & Hino & Hty & His) F2 F3 F4 F5 F6 F7 F8].
  assert (0 <= flen bs) as Hl0 by (unfold flen; lia).
  assert (nblocks (flen bs) <= off / 4096) as Hnb.
  { destruct (Z.le_gt_cases (nblocks (flen bs)) (off / 4096)); [done|]. rewrite F4 in Hm; [done|]. dmlia. }
  unfold nvfuse_ftruncate. wp_step. eapply wp_get_ft; [exact Hat|]. wp_step. eapply wp_lock_inode; [done..|].
  unfold free_inode_size, drop_cache. wp_step. wp_step. eapply wp_inode_of; [exact Hi|]. wp_steps. apply wp_on_dir.
  unfold nvfuse_free_inode_size. wp_step. eapply wp_get_inode; [exact Hi|]. cbv zeta.
  rewrite num_blocks_eq, His by lia. fold (lbno size). rewrite lbno_eq by lia.
  assert (nblocks (flen bs) <=? size / 4096 = true) as -> by (apply Z.leb_le; dmlia). rewrite orb_true_r. wp_step.
  wp_step. apply wp_assert; [apply Z.ltb_lt; lia|]. wp_step. eapply wp_change_inode; [exact Hi|].
  wp_step. apply wp_unlock_inode; [fcbn; set_solver|]. wp_step. apply check_flush_others.
  fcbn. rewrite add_remove by done. intros s' Ho El Eh Et. wp_step. split; [done|].
  assert (ft_at s' fid t) as Hat' by (split; [apply Hat|]; rewrite Et; apply Hat).
  apply (read_unmapped_stuck s' fid t (set_i_size size i)); try done; try lia.
  - rewrite (ot_inode _ _ _ Ho) by set_solver. apply sl_set_eq.
  - by rewrite El.
  - intros lb. by rewrite Eh.
  - cbn. lia.
  - rewrite (ot_mapped _ _ _ Ho) by set_solver. fcbn. by rewrite (sl_set_mapped _ _ _ i).
Qed.

End theorems.
(** ** Examples *)

(** The file with its ten bytes on the device *)
Definition demo3 : demo_state := after nvfuse_sync demo2.
Lemma demo3_holds : cache_ok demo3 /\ file_ok demo3 file_ino digits /\ ft_at demo3 3 demo_ft.
Proof.
  pose proof (sync_wp demo2 (fi_cache _ _ file_demo2_inv)) as Hw. unfold demo3, after, wp in *.
  destruct (nvfuse_sync demo2) as [[r s']|]; [|done]. destruct Hw as (_ & Hc & Hf & Ht). split; [done|].
  split; [by apply Hf, demo2_file|]. destruct demo2_ft as [? E]. split; [done|]. by rewrite Ht.
Qed.




(** A second descriptor of the file, from before the write *)
Definition demo_stale : demo_state := set_table (<[ 4%nat := mk_ft file_ino 0 1 0 0 ]> (f_table demo2)) demo2.
Lemma stale_descriptor_truncates_witness : wp (nvfuse_writefile_core 4 [65] 1 0) (fun r s' => r = 1 /\
  exists i, st_inode (d_store (f_dir s')) file_ino = Some i /\ i_size i = 1) demo_stale.
Proof.
  eapply wp_mono; [apply (stale_descriptor_truncates demo_stale 4 (mk_ft file_ino 0 1 0 0) digits [65] 1 0)|]; [|split; [done|reflexivity]|done..|].
  - apply set_table_file, demo2_file.
  - by intros r s' (? & i & ? & ? & _); split; [|exists i].
Defined.




(** The ten bytes are not on the device yet: four zeros are left. *)
Lemma ftruncate_loses_tail_witness : wp (nvfuse_ftruncate never 3 4) (fun r s' => r = 0 /\
  forall k, 0 <= k < 4 -> byte_at s' file_ino k = Some 0) demo2.
Proof.
  eapply wp_mono; [apply (ftruncate_loses_tail demo2 3 demo_ft digits 4); [apply file_demo2_inv|apply demo2_file|apply demo2_ft|done]|].
  intros r s' [-> Hb]. split; [done|]. intros k Hk. change file_ino with (ft_ino demo_ft). rewrite Hb by (change (4 / 4096) with 0; lia).
  assert (ds_read (d_store (f_dir demo2)) (ft_ino demo_ft) (4 / 4096) = zero_block) as -> by (by vm_compute).
  apply lookup_replicate_2. change (Z.to_nat CLUSTER_SIZE) with (Z.to_nat 4096). dmlia.
Defined.

Lemma ftruncate_grow_unreadable_witness :
  wp (nvfuse_ftruncate never 3 5000) (fun r s' => r = 0 /\ nvfuse_readfile 3 1 1 4096 s' = None) demo2.
Proof.
  apply (ftruncate_grow_unreadable never demo2 3 demo_ft digits 5000 1 4096); [apply demo2_file|apply demo2_ft|done..|by vm_compute].
Defined.

(** All descriptors taken *)
Definition demo_full : demo_state := set_table (replicate 16 (mk_ft other_ino 0 1 0 0)) demo1.
Lemma openfile_full_locks_witness : wp (nvfuse_openfile_ino file_ino 2) (fun r s' => r = NVFUSE_ERROR /\
  nvfuse_openfile_ino file_ino 2 s' = None) demo_full.
Proof.
  eapply wp_mono; [apply (openfile_full_locks demo_full file_ino (empty_file file_ino) 2); try done|].
  - intros fid Hfid. exists (mk_ft other_ino 0 1 0 0). unfold START_OPEN_FILE, MAX_OPEN_FILE in Hfid. split; [|done]. split; [lia|].
    apply lookup_replicate_2. lia.
  - by intros r s' (? & _ & ?).
Defined.

End FileThms.
