(* ===== verification/BufferCache.v ===== *)
(** * The buffer cache (nvfuse_buffer_cache.c, nvfuse_core.c)

    Buffers are objects named by a number; the lists and the hash buckets hold
    names, the most recently used first.  A list is the sequence behind the
    pointers of its entries: list_del takes a name out of the list it is in.
    The loops over a list take out at most the entry they are at
    (list_for_each_safe), so that they run over the sequence as it is at their
    start.  Taking a spin lock that is taken spins for ever ([None]).

    NVFUSE_KEEP_DIRTY_BH_IN_ICTX is not defined: no inode context lists buffer
    heads, nvfuse_find_bh_in_ictx returns NULL at its first test, and bc_bh_head
    stays empty.  The buffer head of a buffer that is in use is a value that its
    holder keeps.  bc_temp only serves messages.

    The process is standalone; the device completes every request.  [pbn] is
    nvfuse_get_pbn, the block map of [Indirect]. *)
From S2P Require Import Prelude Layout.
Import Layout.

Module BufferCache.

(** ** Constants *)
Definition BUFFER_TYPE_UNUSED : Z := 0.
Definition BUFFER_TYPE_REF : Z := 1.
Definition BUFFER_TYPE_CLEAN : Z := 2.
Definition BUFFER_TYPE_DIRTY : Z := 3.
Definition BUFFER_TYPE_FLUSHING : Z := 4.
Definition BUFFER_TYPE_NUM : Z := 5.
Definition HASH_NUM : Z := 52631.
Definition AIO_MAX_QDEPTH : Z := 512.
Definition NVFUSE_SYNC_DIRTY_COUNT : Z := 2048.
Definition NVFUSE_INITIAL_BUFFER_SIZE_DATA : Z := 16.
Definition NVFUSE_BH_MEMPOOL_TOTAL_SIZE : Z := 0x10000.
Definition NVFUSE_BC_MEMPOOL_TOTAL_SIZE : Z := 0x400000.
Definition NVFUSE_MEGA_BYTES : Z := 1048576.
Definition SECTORS_PER_CLUSTER : Z := 8.

Definition zero_buf : list Z := replicate (Z.to_nat CLUSTER_SIZE) 0.

(** ** Data *)

(** struct nvfuse_buffer_cache without its links *)
Record nvfuse_buffer_cache := mk_bc {
  bc_list_type : Z;
  bc_bno : Z;
  bc_locked : bool;
  bc_dirty : bool;
  bc_load : bool;
  bc_flush : bool;
  bc_ref : Z;
  bc_bh_count : Z;
  bc_pno : Z;
  bc_buf : list Z }.

(** The two halves of bc_bno *)
Definition bc_lbno (b : nvfuse_buffer_cache) : Z := bc_bno b mod 2 ^ 32.
Definition bc_ino (b : nvfuse_buffer_cache) : Z := bc_bno b / 2 ^ 32.

Definition set_type (v : Z) (b : nvfuse_buffer_cache) :=
  mk_bc v (bc_bno b) (bc_locked b) (bc_dirty b) (bc_load b) (bc_flush b) (bc_ref b) (bc_bh_count b) (bc_pno b) (bc_buf b).
Definition set_bno (v : Z) (b : nvfuse_buffer_cache) :=
  mk_bc (bc_list_type b) v (bc_locked b) (bc_dirty b) (bc_load b) (bc_flush b) (bc_ref b) (bc_bh_count b) (bc_pno b) (bc_buf b).
Definition set_lock (v : bool) (b : nvfuse_buffer_cache) :=
  mk_bc (bc_list_type b) (bc_bno b) v (bc_dirty b) (bc_load b) (bc_flush b) (bc_ref b) (bc_bh_count b) (bc_pno b) (bc_buf b).
Definition set_dirty (v : bool) (b : nvfuse_buffer_cache) :=
  mk_bc (bc_list_type b) (bc_bno b) (bc_locked b) v (bc_load b) (bc_flush b) (bc_ref b) (bc_bh_count b) (bc_pno b) (bc_buf b).
Definition set_load (v : bool) (b : nvfuse_buffer_cache) :=
  mk_bc (bc_list_type b) (bc_bno b) (bc_locked b) (bc_dirty b) v (bc_flush b) (bc_ref b) (bc_bh_count b) (bc_pno b) (bc_buf b).
Definition set_flush (v : bool) (b : nvfuse_buffer_cache) :=
  mk_bc (bc_list_type b) (bc_bno b) (bc_locked b) (bc_dirty b) (bc_load b) v (bc_ref b) (bc_bh_count b) (bc_pno b) (bc_buf b).
Definition set_ref (v : Z) (b : nvfuse_buffer_cache) :=
  mk_bc (bc_list_type b) (bc_bno b) (bc_locked b) (bc_dirty b) (bc_load b) (bc_flush b) v (bc_bh_count b) (bc_pno b) (bc_buf b).
Definition set_bh_count (v : Z) (b : nvfuse_buffer_cache) :=
  mk_bc (bc_list_type b) (bc_bno b) (bc_locked b) (bc_dirty b) (bc_load b) (bc_flush b) (bc_ref b) v (bc_pno b) (bc_buf b).
Definition set_pno (v : Z) (b : nvfuse_buffer_cache) :=
  mk_bc (bc_list_type b) (bc_bno b) (bc_locked b) (bc_dirty b) (bc_load b) (bc_flush b) (bc_ref b) (bc_bh_count b) v (bc_buf b).
Definition set_buf (v : list Z) (b : nvfuse_buffer_cache) :=
  mk_bc (bc_list_type b) (bc_bno b) (bc_locked b) (bc_dirty b) (bc_load b) (bc_flush b) (bc_ref b) (bc_bh_count b) (bc_pno b) v.

(** struct nvfuse_buffer_head: its buffer and the two status bits in use *)
Record nvfuse_buffer_head := mk_bh { bh_bc : Z; bh_meta : bool; bh_dirty : bool }.

(** struct nvfuse_buffer_manager, the pools and the device; [bm_next] is the
    next name. *)
Record bm := mk_bm {
  bm_lock : bool;
  bm_bcs : gmap Z nvfuse_buffer_cache;
  bm_list : gmap Z (list Z);
  bm_hash : gmap Z (list Z);
  bm_list_count : gmap Z Z;
  bm_hash_count : gmap Z Z;
  bm_cache_size : Z;
  bm_cache_ref : Z;
  bm_cache_hit : Z;
  bm_bh_free : Z;
  bm_bc_free : Z;
  bm_next : Z;
  bm_dev : gmap Z (list Z) }.

Definition set_bm_lock (v : bool) (s : bm) := mk_bm v (bm_bcs s) (bm_list s) (bm_hash s) (bm_list_count s) (bm_hash_count s)
  (bm_cache_size s) (bm_cache_ref s) (bm_cache_hit s) (bm_bh_free s) (bm_bc_free s) (bm_next s) (bm_dev s).
Definition set_bcs v (s : bm) := mk_bm (bm_lock s) v (bm_list s) (bm_hash s) (bm_list_count s) (bm_hash_count s)
  (bm_cache_size s) (bm_cache_ref s) (bm_cache_hit s) (bm_bh_free s) (bm_bc_free s) (bm_next s) (bm_dev s).
Definition set_list v (s : bm) := mk_bm (bm_lock s) (bm_bcs s) v (bm_hash s) (bm_list_count s) (bm_hash_count s)
  (bm_cache_size s) (bm_cache_ref s) (bm_cache_hit s) (bm_bh_free s) (bm_bc_free s) (bm_next s) (bm_dev s).
Definition set_hash v (s : bm) := mk_bm (bm_lock s) (bm_bcs s) (bm_list s) v (bm_list_count s) (bm_hash_count s)
  (bm_cache_size s) (bm_cache_ref s) (bm_cache_hit s) (bm_bh_free s) (bm_bc_free s) (bm_next s) (bm_dev s).
Definition set_list_count v (s : bm) := mk_bm (bm_lock s) (bm_bcs s) (bm_list s) (bm_hash s) v (bm_hash_count s)
  (bm_cache_size s) (bm_cache_ref s) (bm_cache_hit s) (bm_bh_free s) (bm_bc_free s) (bm_next s) (bm_dev s).
Definition set_hash_count v (s : bm) := mk_bm (bm_lock s) (bm_bcs s) (bm_list s) (bm_hash s) (bm_list_count s) v
  (bm_cache_size s) (bm_cache_ref s) (bm_cache_hit s) (bm_bh_free s) (bm_bc_free s) (bm_next s) (bm_dev s).
Definition set_cache_size v (s : bm) := mk_bm (bm_lock s) (bm_bcs s) (bm_list s) (bm_hash s) (bm_list_count s) (bm_hash_count s)
  v (bm_cache_ref s) (bm_cache_hit s) (bm_bh_free s) (bm_bc_free s) (bm_next s) (bm_dev s).
Definition count_ref (hit : bool) (s : bm) := mk_bm (bm_lock s) (bm_bcs s) (bm_list s) (bm_hash s) (bm_list_count s) (bm_hash_count s)
  (bm_cache_size s) (if hit then bm_cache_ref s else u64 (bm_cache_ref s + 1)) (if hit then u64 (bm_cache_hit s + 1) else bm_cache_hit s)
  (bm_bh_free s) (bm_bc_free s) (bm_next s) (bm_dev s).
Definition set_bh_free v (s : bm) := mk_bm (bm_lock s) (bm_bcs s) (bm_list s) (bm_hash s) (bm_list_count s) (bm_hash_count s)
  (bm_cache_size s) (bm_cache_ref s) (bm_cache_hit s) v (bm_bc_free s) (bm_next s) (bm_dev s).
Definition set_bc_free v (s : bm) := mk_bm (bm_lock s) (bm_bcs s) (bm_list s) (bm_hash s) (bm_list_count s) (bm_hash_count s)
  (bm_cache_size s) (bm_cache_ref s) (bm_cache_hit s) (bm_bh_free s) v (bm_next s) (bm_dev s).
Definition set_next v (s : bm) := mk_bm (bm_lock s) (bm_bcs s) (bm_list s) (bm_hash s) (bm_list_count s) (bm_hash_count s)
  (bm_cache_size s) (bm_cache_ref s) (bm_cache_hit s) (bm_bh_free s) (bm_bc_free s) v (bm_dev s).
Definition set_dev v (s : bm) := mk_bm (bm_lock s) (bm_bcs s) (bm_list s) (bm_hash s) (bm_list_count s) (bm_hash_count s)
  (bm_cache_size s) (bm_cache_ref s) (bm_cache_hit s) (bm_bh_free s) (bm_bc_free s) (bm_next s) v.

Notation BM := (M bm).

Definition lst (s : bm) (t : Z) : list Z := default [] (bm_list s !! t).
Definition bucket (s : bm) (h : Z) : list Z := default [] (bm_hash s !! h).
Definition count (s : bm) (t : Z) : Z := default 0 (bm_list_count s !! t).
Definition hash_count (s : bm) (h : Z) : Z := default 0 (bm_hash_count s !! h).
Definition block (s : bm) (pno : Z) : list Z := default zero_buf (bm_dev s !! pno).

(** ** Locks, lists, counters *)

Definition get_obj (id : Z) : BM nvfuse_buffer_cache := fun s => mlift (bm_bcs s !! id) s.
Definition upd_obj (id : Z) (f : nvfuse_buffer_cache -> nvfuse_buffer_cache) : BM unit :=
  b ← get_obj id; mmodify (fun s => set_bcs (<[ id := f b ]> (bm_bcs s)) s).

Definition bm_spin_lock : BM unit := s ← mget; massert (negb (bm_lock s));; mput (set_bm_lock true s).
Definition bm_spin_unlock : BM unit := mmodify (set_bm_lock false).
Definition bc_spin_lock (id : Z) : BM unit := b ← get_obj id; massert (negb (bc_locked b));; upd_obj id (set_lock true).
Definition bc_spin_unlock (id : Z) : BM unit := upd_obj id (set_lock false).

Definition without (id : Z) (l : list Z) : list Z := filter (fun x => x <> id) l.
Definition list_del (id : Z) : BM unit := mmodify (fun s => set_list (without id <$> bm_list s) s).
Definition hlist_del (id : Z) : BM unit := mmodify (fun s => set_hash (without id <$> bm_hash s) s).
Definition list_add (id t : Z) (tail : bool) : BM unit :=
  mmodify (fun s => set_list (<[ t := if tail then lst s t ++ [id] else id :: lst s t ]> (bm_list s)) s).
Definition hlist_add_head (id h : Z) : BM unit := mmodify (fun s => set_hash (<[ h := id :: bucket s h ]> (bm_hash s)) s).

(** rte_atomic32_inc and rte_atomic32_dec on the counters *)
Definition count_add (t d : Z) : BM unit := mmodify (fun s => set_list_count (<[ t := s32 (count s t + d) ]> (bm_list_count s)) s).
Definition hash_count_add (h d : Z) : BM unit :=
  mmodify (fun s => set_hash_count (<[ h := s32 (hash_count s h + d) ]> (bm_hash_count s)) s).

(** src/nvfuse_buffer_cache.c: nvfuse_move_buffer_list_nolock *)
Definition nvfuse_move_buffer_list_nolock (id desired_type : Z) (tail : bool) : BM unit :=
  bc ← get_obj id;
  if bc_list_type bc =? desired_type then mret tt
  else
    list_del id;;
    count_add (bc_list_type bc) (-1);;
    massert (bc_list_type bc <? BUFFER_TYPE_NUM);;
    upd_obj id (set_type desired_type);;
    list_add id desired_type tail;;
    count_add desired_type 1.

(** src/nvfuse_buffer_cache.c: nvfuse_move_buffer_list *)
Definition nvfuse_move_buffer_list (id desired_type : Z) (tail : bool) : BM unit :=
  bm_spin_lock;; nvfuse_move_buffer_list_nolock id desired_type tail;; bm_spin_unlock.

(** src/nvfuse_buffer_cache.c: nvfuse_init_bc; SPINLOCK_INIT clears the lock. *)
Definition nvfuse_init_bc (id : Z) : BM unit :=
  upd_obj id (fun b => mk_bc (bc_list_type b) 0 false false false (bc_flush b) 0 (bc_bh_count b) 0 zero_buf).

(** ** Writing out *)

(** src/nvfuse_core.c: nvfuse_sync_dirty_data: a job for every buffer that is
    being flushed; there are [num_blocks] jobs, and others are not initialised. *)
Fixpoint collect_jobs (l : list Z) : BM (list (Z * list Z)) :=
  match l with
  | [] => mret []
  | id :: l =>
      bc_spin_lock id;;
      bc ← get_obj id;
      massert (bc_dirty bc);;
      massert (bc_flush bc);;
      bc_spin_unlock id;;
      jobs ← collect_jobs l;
      mret ((bc_pno bc, bc_buf bc) :: jobs)
  end.
Definition write_jobs (jobs : list (Z * list Z)) : BM unit :=
  mmodify (fun s => set_dev (foldl (fun d j => <[ j.1 := j.2 ]> d) (bm_dev s) jobs) s).
Definition nvfuse_sync_dirty_data (num_blocks : Z) : BM unit :=
  massert (num_blocks <=? AIO_MAX_QDEPTH);;
  bm_spin_lock;;
  s ← mget;
  jobs ← collect_jobs (lst s BUFFER_TYPE_FLUSHING);
  massert (Z.of_nat (length jobs) =? num_blocks);;
  bm_spin_unlock;;
  massert (negb (num_blocks =? 0));;
  write_jobs jobs.

(** The two loops of nvfuse_flush_dirty_data *)
Fixpoint collect_dirty (l : list Z) (flushing_count : Z) : BM Z :=
  match l with
  | [] => mret flushing_count
  | id :: l =>
      bc_spin_lock id;;
      bc ← get_obj id;
      massert (bc_dirty bc);;
      upd_obj id (set_flush true);;
      nvfuse_move_buffer_list_nolock id BUFFER_TYPE_FLUSHING false;;
      bc_spin_unlock id;;
      let flushing_count := flushing_count + 1 in
      if AIO_MAX_QDEPTH <=? flushing_count then mret flushing_count else collect_dirty l flushing_count
  end.
Fixpoint finish_flush (l : list Z) : BM unit :=
  match l with
  | [] => mret tt
  | id :: l =>
      bc_spin_lock id;;
      bc ← get_obj id;
      massert (bc_dirty bc);;
      upd_obj id (fun b => set_flush false (set_dirty false b));;
      nvfuse_move_buffer_list_nolock id BUFFER_TYPE_CLEAN false;;
      bc_spin_unlock id;;
      finish_flush l
  end.

(** src/nvfuse_core.c: nvfuse_flush_dirty_data: a round of its loop, and the
    loop, with [fuel] for its rounds *)
Definition flush_round : BM unit :=
  bm_spin_lock;;
  s ← mget;
  flushing_count ← collect_dirty (lst s BUFFER_TYPE_DIRTY) 0;
  bm_spin_unlock;;
  nvfuse_sync_dirty_data flushing_count;;
  bm_spin_lock;;
  s ← mget;
  finish_flush (lst s BUFFER_TYPE_FLUSHING);;
  bm_spin_unlock.
Fixpoint flush_loop (fuel : nat) : BM unit :=
  match fuel with
  | O => mabort
  | S fuel => s ← mget; if count s BUFFER_TYPE_DIRTY =? 0 then mret tt else flush_round;; flush_loop fuel
  end.
Definition nvfuse_flush_dirty_data : BM unit :=
  s ← mget; flush_loop (S (length (lst s BUFFER_TYPE_DIRTY))).

(** src/nvfuse_core.c: nvfuse_check_flush_dirty *)
Definition nvfuse_check_flush_dirty (force : bool) : BM unit :=
  s ← mget;
  let dirty_count := count s BUFFER_TYPE_DIRTY in
  if negb force && (dirty_count <? NVFUSE_SYNC_DIRTY_COUNT) then mret tt
  else if dirty_count =? 0 then mret tt
  else nvfuse_flush_dirty_data.

(** ** Lookup and replacement *)

(** src/nvfuse_buffer_cache.c: nvfuse_hash_lookup *)
Fixpoint hash_scan (l : list Z) (key : Z) : BM (option Z) :=
  match l with
  | [] => mret None
  | id :: l => b ← get_obj id; if bc_bno b =? key then mret (Some id) else hash_scan l key
  end.
Definition nvfuse_hash_lookup (key : Z) : BM (option Z) := s ← mget; hash_scan (bucket s (key mod HASH_NUM)) key.

(** The search for a victim, from the end of the list; without one the code
    sleeps for ever. *)
Fixpoint victim_scan (l : list Z) : BM Z :=
  match l with
  | [] => mabort
  | id :: l => b ← get_obj id; if (bc_ref b =? 0) && (bc_bh_count b =? 0) then mret id else victim_scan l
  end.

(** src/nvfuse_buffer_cache.c: nvfuse_replace_buffer_cache, called with the lock
    of the manager taken. *)
Definition nvfuse_replace_buffer_cache : BM Z :=
  s ← mget;
  type ←
    (if negb (count s BUFFER_TYPE_UNUSED =? 0) then mret BUFFER_TYPE_UNUSED
     else if negb (count s BUFFER_TYPE_CLEAN =? 0) then mret BUFFER_TYPE_CLEAN
     else nvfuse_check_flush_dirty true;; mret BUFFER_TYPE_DIRTY);
  s ← mget;
  massert (negb (count s type =? 0));;
  id ← victim_scan (rev (lst s type));
  list_del id;;
  hlist_del id;;
  count_add type (-1);;
  bc ← get_obj id;
  hash_count_add (if type =? BUFFER_TYPE_UNUSED then HASH_NUM else bc_bno bc mod HASH_NUM) (-1);;
  mret id.

(** src/nvfuse_buffer_cache.c: nvfuse_inc_bc_ref, nvfuse_dec_bc_ref *)
Definition nvfuse_inc_bc_ref (id : Z) : BM unit :=
  upd_obj id (fun b => set_ref (s32 (bc_ref b + 1)) b);; b ← get_obj id; massert (bc_ref b =? 1).
Definition nvfuse_dec_bc_ref (id : Z) : BM unit :=
  upd_obj id (fun b => set_ref (s32 (bc_ref b - 1)) b);; b ← get_obj id; massert (0 <=? bc_ref b).

(** A hit: the buffer goes to the front of its list. *)
Definition cache_hit (id lblock : Z) : BM unit :=
  bc ← get_obj id;
  massert (bc_lbno bc =? lblock);;
  list_del id;;
  count_add (bc_list_type bc) (-1);;
  list_add id (bc_list_type bc) false;;
  count_add (bc_list_type bc) 1;;
  mmodify (count_ref true).

(** A miss: a victim becomes the buffer of [key]. *)
Definition cache_miss (key : Z) : BM Z :=
  id ← nvfuse_replace_buffer_cache;
  nvfuse_init_bc id;;
  hlist_add_head id (key mod HASH_NUM);;
  hash_count_add (key mod HASH_NUM) 1;;
  list_add id BUFFER_TYPE_REF false;;
  count_add BUFFER_TYPE_REF 1;;
  upd_obj id (fun b => set_bh_count 0 (set_type BUFFER_TYPE_REF (set_bno key b)));;
  mret id.

(** src/nvfuse_buffer_cache.c: nvfuse_find_bc *)
Definition nvfuse_find_bc (key lblock : Z) : BM Z :=
  bm_spin_lock;;
  mmodify (count_ref false);;
  r ← nvfuse_hash_lookup key;
  id ← match r with Some id => cache_hit id lblock;; mret id | None => cache_miss key end;
  bc_spin_lock id;;
  nvfuse_inc_bc_ref id;;
  bc ← get_obj id;
  (if negb (bc_ref bc =? 0) && negb (bc_list_type bc =? BUFFER_TYPE_REF)
   then nvfuse_move_buffer_list_nolock id BUFFER_TYPE_REF false else mret tt);;
  bm_spin_unlock;;
  mret id.

(** src/nvfuse_bp_tree.c: nvfuse_make_pbno_key, for NVFUSE_BP_TYPE_DATA *)
Definition nvfuse_make_pbno_key (ino lbno : Z) : Z := u64 (Z.shiftl ino 32 + lbno).

Section get.
Context (pbn : Z -> Z -> Z).

(** src/nvfuse_buffer_cache.c: nvfuse_get_bc.  The read of a block that is not
    mapped is asserted away. *)
Definition nvfuse_get_bc (ino lblock : Z) (sync_read : bool) : BM Z :=
  id ← nvfuse_find_bc (nvfuse_make_pbno_key ino lblock) lblock;
  bc ← get_obj id;
  (if bc_pno bc =? 0 then
     let new_pno := pbn ino lblock in
     massert (negb (new_pno =? 0));; upd_obj id (set_pno new_pno)
   else mret tt);;
  bc ← get_obj id;
  s ← mget;
  (if sync_read && negb (bc_load bc)
   then upd_obj id (fun b => set_load true (set_buf (block s (bc_pno b)) b)) else mret tt);;
  bc ← get_obj id;
  massert (bc_ino bc =? ino);;
  massert (bc_lbno bc =? lblock);;
  massert (1 <=? bc_ref bc);;
  massert (negb (bc_pno bc =? 0));;
  mret id.

(** src/nvfuse_buffer_cache.c: nvfuse_alloc_buffer_head: is there one? *)
Definition nvfuse_alloc_buffer_head : BM bool :=
  s ← mget;
  if bm_bh_free s =? 0 then mret false else mmodify (set_bh_free (bm_bh_free s - 1));; mret true.
(** src/nvfuse_buffer_cache.c: nvfuse_free_buffer_head *)
Definition nvfuse_free_buffer_head : BM unit := mmodify (fun s => set_bh_free (bm_bh_free s + 1) s).

(** src/nvfuse_buffer_cache.c: _nvfuse_get_bh and nvfuse_get_bh *)
Definition nvfuse_get_bh (ino lblock : Z) (sync_read is_meta : bool) : BM (option nvfuse_buffer_head) :=
  ok ← nvfuse_alloc_buffer_head;
  if negb (ok : bool) then mret None
  else
    id ← nvfuse_get_bc ino lblock sync_read;
    mret (Some (mk_bh id is_meta false)).

(** src/nvfuse_buffer_cache.c: nvfuse_mark_dirty_bh *)
Definition nvfuse_mark_dirty_bh (bh : nvfuse_buffer_head) : BM nvfuse_buffer_head :=
  bc ← get_obj (bh_bc bh);
  massert (bc_locked bc);;
  upd_obj (bh_bc bh) (set_dirty true);;
  mret (mk_bh (bh_bc bh) (bh_meta bh) true).

(** src/nvfuse_buffer_cache.c: nvfuse_get_new_bh *)
Definition nvfuse_get_new_bh (ino lblock : Z) (is_meta : bool) : BM (option nvfuse_buffer_head) :=
  r ← nvfuse_get_bh ino lblock false is_meta;
  match r with
  | None => mret None
  | Some bh =>
      bc ← get_obj (bh_bc bh);
      (if negb (bc_pno bc =? 0) then upd_obj (bh_bc bh) (set_buf zero_buf) else mret tt);;
      bh ← nvfuse_mark_dirty_bh bh;
      mret (Some bh)
  end.

End get.

(** ** Release *)

(** src/nvfuse_buffer_cache.c: nvfuse_release_bc *)
Definition nvfuse_release_bc (id : Z) (tail dirty : bool) : BM unit :=
  nvfuse_dec_bc_ref id;;
  bc ← get_obj id;
  if dirty || bc_dirty bc then
    upd_obj id (fun b => set_load true (set_dirty true b));;
    bc_spin_unlock id;;
    nvfuse_move_buffer_list id BUFFER_TYPE_DIRTY tail
  else
    upd_obj id (set_dirty false);;
    bc_spin_unlock id;;
    bc ← get_obj id;
    massert (bc_ref bc =? 0);;
    nvfuse_move_buffer_list id BUFFER_TYPE_CLEAN tail.

(** src/nvfuse_buffer_cache.c: nvfuse_release_bh *)
Definition nvfuse_release_bh (bh : option nvfuse_buffer_head) (tail dirty : bool) : BM unit :=
  match bh with
  | None => mret tt
  | Some bh => nvfuse_release_bc (bh_bc bh) tail dirty;; nvfuse_free_buffer_head
  end.

(** src/nvfuse_buffer_cache.c: nvfuse_move_bc_to_unused_list; the buffer stays in
    its hash bucket. *)
Definition nvfuse_move_bc_to_unused_list (key : Z) : BM unit :=
  bm_spin_lock;;
  r ← nvfuse_hash_lookup key;
  match r with
  | Some id =>
      bc_spin_lock id;;
      upd_obj id (fun b => set_ref 0 (set_dirty false (set_pno 0 (set_load false b))));;
      bc_spin_unlock id;;
      nvfuse_move_buffer_list_nolock id BUFFER_TYPE_UNUSED false
  | None => mret tt
  end;;
  bm_spin_unlock.

(** ** The size of the cache *)

(** src/nvfuse_buffer_cache.c: nvfuse_alloc_bc with its buffer *)
Definition nvfuse_alloc_bc : BM (option Z) :=
  s ← mget;
  if bm_bc_free s =? 0 then mret None
  else
    let id := bm_next s in
    mput (set_next (id + 1) (set_bc_free (bm_bc_free s - 1)
           (set_bcs (<[ id := mk_bc 0 0 false false false false 0 0 0 zero_buf ]> (bm_bcs s)) s)));;
    mret (Some id).

(** src/nvfuse_buffer_cache.c: nvfuse_add_buffer_cache *)
Fixpoint add_loop (nr : nat) : BM Z :=
  match nr with
  | O => mret 0
  | S nr =>
      r ← nvfuse_alloc_bc;
      match r with
      | None => mret (-1)
      | Some id =>
          list_add id BUFFER_TYPE_UNUSED false;;
          hlist_add_head id HASH_NUM;;
          hash_count_add HASH_NUM 1;;
          count_add BUFFER_TYPE_UNUSED 1;;
          mmodify (fun s => set_cache_size (s32 (bm_cache_size s + 1)) s);;
          add_loop nr
      end
  end.
Definition nvfuse_add_buffer_cache (nr : Z) : BM Z := massert (0 <? nr);; add_loop (Z.to_nat nr).

(** src/nvfuse_buffer_cache.c: nvfuse_remove_buffer_cache *)
Fixpoint remove_loop (l : list Z) (nr_buffers : Z) : BM unit :=
  match l with
  | [] => mret tt
  | id :: l =>
      bc_spin_lock id;;
      bc ← get_obj id;
      massert (bc_bh_count bc =? 0);;
      massert (negb (bc_dirty bc));;
      list_del id;;
      hlist_del id;;
      bc_spin_unlock id;;
      mmodify (fun s => set_bc_free (bm_bc_free s + 1) (set_bcs (delete id (bm_bcs s)) s));;
      hash_count_add HASH_NUM (-1);;
      count_add BUFFER_TYPE_UNUSED (-1);;
      mmodify (fun s => set_cache_size (s32 (bm_cache_size s - 1)) s);;
      if nr_buffers - 1 =? 0 then mret tt else remove_loop l (nr_buffers - 1)
  end.
Definition nvfuse_remove_buffer_cache (nr_buffers : Z) : BM Z :=
  massert (0 <? nr_buffers);;
  s ← mget;
  if bm_cache_size s - nr_buffers <? NVFUSE_INITIAL_BUFFER_SIZE_DATA then mret (-1)
  else if count s BUFFER_TYPE_UNUSED <? nr_buffers then mret (-1)
  else
    bm_spin_lock;;
    s ← mget;
    remove_loop (lst s BUFFER_TYPE_UNUSED) nr_buffers;;
    bm_spin_unlock;;
    mret 0.

(** src/nvfuse_buffer_cache.c: nvfuse_init_buffer_cache: the size in blocks from
    the size in megabytes and the sectors of the device *)
Definition buffer_size_in_4k (buffer_size total_blkcount : Z) : Z :=
  if buffer_size =? 0 then s32 (total_blkcount / SECTORS_PER_CLUSTER / 1000)
  else s32 (buffer_size * (NVFUSE_MEGA_BYTES / CLUSTER_SIZE)).
Fixpoint init_loop (n : nat) : BM unit :=
  match n with
  | O => mret tt
  | S n => r ← nvfuse_add_buffer_cache 1; if r <? 0 then mret tt else init_loop n
  end.
Definition init_state (dev : gmap Z (list Z)) : bm :=
  mk_bm false ∅ ∅ ∅ ∅ ∅ 0 0 0 NVFUSE_BH_MEMPOOL_TOTAL_SIZE NVFUSE_BC_MEMPOOL_TOTAL_SIZE 0 dev.
Definition nvfuse_init_buffer_cache (buffer_size total_blkcount : Z) : BM Z :=
  mmodify (fun s => init_state (bm_dev s));;
  let n := buffer_size_in_4k buffer_size total_blkcount in
  massert (negb (n =? 0));;
  init_loop (Z.to_nat n);;
  mret 0.

(** src/nvfuse_buffer_cache.c: nvfuse_deinit_buffer_cache *)
Fixpoint deinit_list (l : list Z) (removed_count : Z) : BM Z :=
  match l with
  | [] => mret removed_count
  | id :: l =>
      bc ← get_obj id;
      massert (bc_bh_count bc =? 0);;
      massert (negb (bc_dirty bc));;
      list_del id;;
      mmodify (fun s => set_bc_free (bm_bc_free s + 1) (set_bcs (delete id (bm_bcs s)) s));;
      deinit_list l (removed_count + 1)
  end.
Fixpoint deinit_types (n : nat) (type removed_count : Z) : BM Z :=
  match n with
  | O => mret removed_count
  | S n => s ← mget; r ← deinit_list (lst s type) removed_count; deinit_types n (type + 1) r
  end.
Definition nvfuse_deinit_buffer_cache : BM unit :=
  removed_count ← deinit_types (Z.to_nat BUFFER_TYPE_NUM) BUFFER_TYPE_UNUSED 0;
  s ← mget;
  massert (removed_count =? bm_cache_size s).

End BufferCache.
