(* ===== verification/BufferRules.v ===== *)
(** * Caches: lists, hash tables, the invariant of the buffer cache

    [CacheLists] is shared by both caches; [BufferSpec] has the invariant of the
    buffer cache and the abstract store, [BufferRules] the rules for objects,
    locks and lists. *)
From S2P Require Import Prelude Layout BufferCache.
Import Layout BufferCache.

(** ** Lists and hash tables of a cache

    What the buffer cache and the cache of inode contexts share: objects that
    are in the list of their type ([ty]) and in the bucket of their number
    ([no]).  The bucket [HASH_NUM] holds the unused ones. *)
Module CacheLists.

(** ** Lists without an entry *)

Lemma elem_without id x l : x ∈ without id l <-> x <> id /\ x ∈ l.
Proof. unfold without. by rewrite list_elem_of_filter. Qed.

Lemma without_notin id l : id ∉ l -> without id l = l.
Proof.
  induction l as [|y l IH]; [done|]. intros [? ?]%not_elem_of_cons. unfold without. rewrite filter_cons_True by congruence.
  f_equal. by apply IH.
Qed.

Lemma without_nodup id l : NoDup l -> NoDup (without id l).
Proof. apply NoDup_filter. Qed.

Lemma length_without id l : NoDup l -> id ∈ l -> Z.of_nat (length (without id l)) = Z.of_nat (length l) - 1.
Proof.
  induction l as [|y l IH]; [by intros _ ?%elem_of_nil|]. intros [Hy Hl]%NoDup_cons [->|Hin]%elem_of_cons.
  - unfold without. rewrite filter_cons_False by tauto. fold (without y l). rewrite without_notin by done. simpl. lia.
  - unfold without. rewrite filter_cons_True by (intros ->; done). fold (without id l). cbn [length]. rewrite !Nat2Z.inj_succ, IH by done. lia.
Qed.

(** ** Invariants of the lists and of the hash table *)

Section shape.
Context {V : Type} (ty : V -> Z).
Implicit Types (m : gmap Z V) (L : Z -> list Z) (C : Z -> Z) (b : V).

Record lists_ok m L C : Prop := {
  li_nodup : forall t, NoDup (L t);
  li_in : forall t id, id ∈ L t <-> exists b, m !! id = Some b /\ ty b = t;
  li_type : forall id b, m !! id = Some b -> 0 <= ty b < BUFFER_TYPE_NUM;
  li_count : forall t, C t = Z.of_nat (length (L t));
  li_size : Z.of_nat (size m) < 2 ^ 31 - 1 }.

Lemma li_length m L C t : lists_ok m L C -> (length (L t) <= size m)%nat.
Proof.
  intros Hl. rewrite <- size_dom, <- (size_list_to_set (C := gset Z) (L t)) by apply Hl. apply subseteq_size.
  intros id. rewrite elem_of_list_to_set, (li_in _ _ _ Hl), elem_of_dom. intros (b & ? & _). by exists b.
Qed.

(** An object changes, maybe its type, and the lists with it. *)
Lemma lists_relocate m L C L' C' id b b' : lists_ok m L C -> m !! id = Some b -> 0 <= ty b' < BUFFER_TYPE_NUM ->
  (forall t, NoDup (L' t)) -> (forall t x, x ∈ L' t <-> (x <> id /\ x ∈ L t) \/ (x = id /\ t = ty b')) ->
  (forall t, C' t = Z.of_nat (length (L' t))) -> lists_ok (<[ id := b' ]> m) L' C'.
Proof.
  intros [H1 H2 H3 H4 H5] Hb Ht Hn Hin Hc. split; try done.
  - intros t x. rewrite Hin, H2. destruct (decide (x = id)) as [->|Hx].
    + rewrite lookup_insert_eq. naive_solver.
    + rewrite lookup_insert_ne by done. naive_solver.
  - intros x bx [[<- <-]|[_ Hx]]%lookup_insert_Some; [done|by eapply H3].
  - by rewrite map_size_insert_Some by eauto.
Qed.

Lemma lists_same m L C id b b' : lists_ok m L C -> m !! id = Some b -> ty b' = ty b ->
  lists_ok (<[ id := b' ]> m) L C.
Proof.
  intros Hl Hb Ht. pose proof Hl as [H1 H2 H3 H4 H5]. eapply lists_relocate; try done; [rewrite Ht; by eapply H3|].
  intros t x. split; [|intros [[_ ?]|[-> ->]]; [done|]; apply H2; by exists b].
  intros Hx. destruct (decide (x = id)) as [->|]; [right|by left]. apply H2 in Hx as (b0 & ? & <-). split; [done|congruence].
Qed.

(** An entry goes from the list of its old type to an end of the list of its
    new one. *)
Lemma lists_moved m L C L' C' id b b' (tail : bool) : lists_ok m L C -> m !! id = Some b -> 0 <= ty b' < BUFFER_TYPE_NUM ->
  (forall t, L' t = if t =? ty b' then (if tail then without id (L t) ++ [id] else id :: without id (L t)) else without id (L t)) ->
  (forall t, C' t = C t - (if t =? ty b then 1 else 0) + (if t =? ty b' then 1 else 0)) ->
  lists_ok (<[ id := b' ]> m) L' C'.
Proof.
  intros Hl Hb Ht El Ec. assert (forall t x, x ∈ L' t <-> (x <> id /\ x ∈ L t) \/ (x = id /\ t = ty b')) as Hin.
  { intros t x. rewrite El. destruct (Z.eqb_spec t (ty b')) as [->|]; [destruct tail|];
      rewrite ?elem_of_app, ?elem_of_cons, ?elem_without, ?elem_of_nil; naive_solver. }
  assert (forall t, NoDup (without id (L t))) as Hnd by (intros; apply without_nodup, Hl).
  eapply lists_relocate; try done.
  - intros t. rewrite El. assert (id ∉ without id (L t)) by (rewrite elem_without; tauto).
    destruct (t =? ty b'); [destruct tail|]; [|by apply NoDup_cons|done].
    apply NoDup_app. split; [done|]. split; [|apply NoDup_singleton]. intros x Hx ->%list_elem_of_singleton. done.
  - intros t. rewrite Ec, (li_count _ _ _ Hl). assert (Z.of_nat (length (without id (L t))) = Z.of_nat (length (L t)) - (if t =? ty b then 1 else 0)) as Hw.
    { destruct (Z.eqb_spec t (ty b)) as [->|Hne].
      - apply length_without; [apply Hl|]. apply Hl. by exists b.
      - rewrite without_notin; [lia|]. intros (b0 & Hb0 & Ht0)%(li_in _ _ _ Hl). congruence. }
    rewrite El. destruct (t =? ty b'); [destruct tail|]; rewrite ?length_app; cbn [length]; lia.
Qed.

(** The lists of all types together hold every object once. *)
Lemma lists_total m L C : lists_ok m L C -> Z.of_nat (length (concat (L <$> seqZ 0 BUFFER_TYPE_NUM))) = Z.of_nat (size m).
Proof.
  intros Hl. assert (forall n t, NoDup (concat (L <$> seqZ t n)) /\ (forall id, id ∈ concat (L <$> seqZ t n) <-> exists b, m !! id = Some b /\ t <= ty b < t + n)) as HN.
  { intros n. destruct (Z.le_gt_cases n 0) as [Hn|Hn].
    { intros t. rewrite seqZ_nil by done. split; [constructor|]. intros id. rewrite elem_of_nil. split; [done|]. intros (b & _ & ?). lia. }
    pattern n. apply Zlt_lower_bound_ind with (z := 0); [|lia]. clear n Hn. intros n IH Hn t.
    destruct (decide (n = 0)) as [->|Hn0].
    { rewrite seqZ_nil by done. split; [constructor|]. intros id. rewrite elem_of_nil. split; [done|]. intros (b & _ & ?). lia. }
    destruct (IH (Z.pred n) ltac:(lia) (Z.succ t)) as [H1 H2]. rewrite seqZ_cons by lia. cbn [fmap list_fmap concat]. split.
    - apply NoDup_app. split; [apply Hl|]. split; [|done]. intros id (b & Hb & Ht)%(li_in _ _ _ Hl) (b' & Hb' & ?)%H2.
      assert (b' = b) as -> by congruence. lia.
    - intros id. rewrite elem_of_app, (li_in _ _ _ Hl), H2. split.
      + intros [(b & Hb & Ht)|(b & Hb & Ht)]; exists b; (split; [done|lia]).
      + intros (b & Hb & Ht). destruct (decide (ty b = t)); [left|right]; exists b; (split; [done|lia]). }
  destruct (HN BUFFER_TYPE_NUM 0) as [H1 H2]. rewrite <- (size_list_to_set (C := gset Z) _ H1), <- size_dom. do 2 f_equal.
  apply leibniz_equiv. intros id. rewrite elem_of_list_to_set, H2, elem_of_dom. split; [intros (b & ? & _); by exists b|].
  intros [b Hb]. exists b. split; [done|]. apply (li_type _ _ _ Hl id b Hb).
Qed.

End shape.

Section hash.
Context {V : Type} (ty no : V -> Z).
Implicit Types (m : gmap Z V) (Bk : Z -> list Z) (b : V).

Record hash_ok m Bk : Prop := {
  ha_nodup : forall h, NoDup (Bk h);
  ha_dom : forall h id, id ∈ Bk h -> is_Some (m !! id);
  ha_once : forall h h' id, id ∈ Bk h -> id ∈ Bk h' -> h = h';
  ha_all : forall id, is_Some (m !! id) -> exists h, id ∈ Bk h;
  ha_key : forall h id b, id ∈ Bk h -> h <> HASH_NUM -> m !! id = Some b -> no b mod HASH_NUM = h;
  ha_uniq : forall h id id' b b', h <> HASH_NUM -> id ∈ Bk h -> id' ∈ Bk h -> m !! id = Some b -> m !! id' = Some b' ->
    no b = no b' -> id = id';
  ha_unused : forall id b, id ∈ Bk HASH_NUM -> m !! id = Some b -> ty b = BUFFER_TYPE_UNUSED }.

(** An object changes but keeps its number. *)
Lemma hash_same m Bk id b b' : hash_ok m Bk -> m !! id = Some b -> no b' = no b ->
  (id ∈ Bk HASH_NUM -> ty b' = BUFFER_TYPE_UNUSED) -> hash_ok (<[ id := b' ]> m) Bk.
Proof.
  intros [H1 H2 H3 H4 H5 H6 H7] Hb Hn Hu. split; try done.
  - intros h x Hx. rewrite lookup_insert_is_Some'. right. by eapply H2.
  - intros x Hx. apply lookup_insert_is_Some' in Hx as [<-|Hx]; apply H4; [by eexists|done].
  - intros h x bx Hx Hh [[<- <-]|[_ Hbx]]%lookup_insert_Some; [rewrite Hn; by eapply H5|by eapply H5].
  - intros h x y bx b_y Hh Hx Hy [[<- <-]|[_ Hbx]]%lookup_insert_Some [[<- <-]|[_ Hby]]%lookup_insert_Some; rewrite ?Hn; try done; by eapply H6.
  - intros x bx Hx [[<- <-]|[_ Hbx]]%lookup_insert_Some; [by apply Hu|by eapply H7].
Qed.

(** An object gets a new number and moves to its bucket. *)
Lemma hash_rekey m Bk Bk' id b b' key : hash_ok m Bk -> m !! id = Some b -> no b' = key ->
  (forall x bx, x ∈ Bk (key mod HASH_NUM) -> m !! x = Some bx -> x = id \/ no bx <> key) ->
  (forall h, Bk' h = if h =? key mod HASH_NUM then id :: without id (Bk h) else without id (Bk h)) ->
  hash_ok (<[ id := b' ]> m) Bk'.
Proof.
  intros [H1 H2 H3 H4 H5 H6 H7] Hb Hk Hno HB.
  assert (key mod HASH_NUM <> HASH_NUM) as Hkh by (unfold HASH_NUM; dmlia).
  assert (forall h x, x ∈ Bk' h <-> (x <> id /\ x ∈ Bk h) \/ (x = id /\ h = key mod HASH_NUM)) as Hin.
  { intros h x. rewrite HB. destruct (Z.eqb_spec h (key mod HASH_NUM)) as [->|]; rewrite ?elem_of_cons, elem_without; naive_solver. }
  split.
  - intros h. rewrite HB. case_match; [|by apply without_nodup]. apply NoDup_cons. split; [|by apply without_nodup].
    rewrite elem_without. tauto.
  - intros h x [[_ Hx]|[-> ->]]%Hin; rewrite lookup_insert_is_Some'; [right; by eapply H2|by left].
  - intros h h' x [[Hne Hx]|[-> ->]]%Hin [[? Hx']|[? ->]]%Hin; try done. by eapply H3.
  - intros x Hx. destruct (decide (x = id)) as [->|Hne]; [exists (key mod HASH_NUM); apply Hin; by right|].
    rewrite lookup_insert_ne in Hx by done. destruct (H4 x Hx) as [h Hh]. exists h. apply Hin. by left.
  - intros h x bx [[Hne Hx]|[-> ->]]%Hin Hh; [rewrite lookup_insert_ne by done; by apply H5|].
    rewrite lookup_insert_eq. intros [= <-]. by rewrite Hk.
  - intros h x y bx b_y Hh [[Hx Hxi]|[-> ->]]%Hin [[Hy Hyi]|[-> Hy]]%Hin; rewrite ?lookup_insert_eq, ?lookup_insert_ne by done; try done.
    + by eapply H6.
    + intros Hbx [= <-] E. subst h. destruct (Hno x bx Hxi Hbx); congruence.
    + intros [= <-] Hby E. destruct (Hno y b_y Hyi Hby); congruence.
  - intros x bx [[Hne Hx]|[_ ?]]%Hin; [rewrite lookup_insert_ne by done; by apply H7|done].
Qed.

End hash.


#[global] Arguments li_nodup {V ty} m L C _ _.
#[global] Arguments li_in {V ty} m L C _ _ _.
#[global] Arguments li_type {V ty} m L C _ _ _ _.
#[global] Arguments li_count {V ty} m L C _ _.
#[global] Arguments li_size {V ty} m L C _.
#[global] Arguments li_length {V ty} m L C t _.
#[global] Arguments lists_total {V ty} m L C _.
#[global] Arguments lists_relocate {V ty} m L C L' C' id b b' _ _ _ _ _ _.
#[global] Arguments lists_moved {V ty} m L C L' C' id b b' tail _ _ _ _ _.
#[global] Arguments lists_same {V ty} m L C id b b' _ _ _.
#[global] Arguments ha_nodup {V ty no} m Bk _ _.
#[global] Arguments ha_dom {V ty no} m Bk _ _ _ _.
#[global] Arguments ha_once {V ty no} m Bk _ _ _ _ _ _.
#[global] Arguments ha_all {V ty no} m Bk _ _ _.
#[global] Arguments ha_key {V ty no} m Bk _ _ _ _ _ _ _.
#[global] Arguments ha_uniq {V ty no} m Bk _ _ _ _ _ _ _ _ _ _ _ _.
#[global] Arguments ha_unused {V ty no} m Bk _ _ _ _ _.
#[global] Arguments hash_same {V ty no} m Bk id b b' _ _ _ _.
#[global] Arguments hash_rekey {V ty no} m Bk Bk' id b b' key _ _ _ _ _.

End CacheLists.

(** ** The buffer cache: invariants and the abstract block store

    [lists_ok] and [hash_ok] of [CacheLists] for buffers, their types and their
    keys.  [store]: what the cache stands for,
    a block per key, a copy on the device, the buffers in use and the dirty
    ones; [rep] ties it to a state. *)
Import Layout BufferCache CacheLists.

Module BufferSpec.

Notation lists_ok := (CacheLists.lists_ok bc_list_type).
Notation hash_ok := (CacheLists.hash_ok bc_list_type bc_bno).

(** ** The abstract store *)

(** A buffer in use: its contents, if they are determined, and whether the
    holder has changed them. *)
Record hold := mk_hold { h_buf : option (list Z); h_mod : bool }.

Record store := mk_store {
  ab_now : Z -> list Z;
  ab_dev : Z -> list Z;
  ab_held : gmap Z hold;
  ab_dirty : gset Z }.

Section rep.
Context (pbn : Z -> Z -> Z) (ok : Z -> Prop).
Implicit Types (s : bm) (a : store) (b : nvfuse_buffer_cache).

(** The block of a key *)
Definition place (k : Z) : Z := pbn (k / 2 ^ 32) (k mod 2 ^ 32).

Definition at_key s (k id : Z) b : Prop :=
  bm_bcs s !! id = Some b /\ id ∈ bucket s (k mod HASH_NUM) /\ bc_bno b = k.

(** What a buffer that is free of use looks like *)
Definition idle b : Prop := bc_ref b = 0 /\ bc_locked b = false.
Definition blank b : Prop := idle b /\ bc_dirty b = false /\ bc_load b = false /\ bc_pno b = 0.

Definition obj_rep a (k : Z) b : Prop :=
  (bc_list_type b = BUFFER_TYPE_UNUSED /\ blank b /\ ab_held a !! k = None /\ k ∉ ab_dirty a) \/
  (bc_list_type b = BUFFER_TYPE_CLEAN /\ idle b /\ bc_dirty b = false /\ bc_pno b = place k /\
     (bc_load b = true -> bc_buf b = ab_now a k) /\ ab_held a !! k = None /\ k ∉ ab_dirty a) \/
  (bc_list_type b = BUFFER_TYPE_DIRTY /\ idle b /\ bc_dirty b = true /\ bc_load b = true /\ bc_pno b = place k /\
     bc_buf b = ab_now a k /\ ab_held a !! k = None /\ k ∈ ab_dirty a) \/
  (bc_list_type b = BUFFER_TYPE_REF /\ bc_ref b = 1 /\ bc_locked b = true /\ bc_pno b = place k /\
     exists h, ab_held a !! k = Some h /\ (bc_dirty b = true <-> k ∈ ab_dirty a) /\
       (forall c, h_buf h = Some c -> bc_buf b = c) /\
       (h_mod h = false -> bc_load b = true -> bc_buf b = ab_now a k) /\
       (h_mod h = false -> bc_dirty b = true -> bc_load b = true)).

Record rep s a : Prop := {
  re_lock : bm_lock s = false;
  re_lists : lists_ok (bm_bcs s) (lst s) (count s);
  re_hash : hash_ok (bm_bcs s) (bucket s);
  re_obj : forall k id b, at_key s k id b -> ok k /\ obj_rep a k b;
  re_none : forall k, (forall id b, ~ at_key s k id b) -> ab_held a !! k = None /\ k ∉ ab_dirty a;
  re_free : forall id b, bm_bcs s !! id = Some b -> id ∈ bucket s HASH_NUM -> blank b;
  re_buf : forall id b, bm_bcs s !! id = Some b -> length (bc_buf b) = Z.to_nat CLUSTER_SIZE /\ bc_bh_count b = 0 /\ bc_flush b = false;
  re_dev : forall k, ok k -> ab_dev a k = block s (place k);
  re_block : forall p, length (block s p) = Z.to_nat CLUSTER_SIZE;
  re_clean : forall k, ok k -> k ∉ ab_dirty a -> ab_now a k = ab_dev a k;
  re_hold : forall k h c, ab_held a !! k = Some h -> h_buf h = Some c ->
    length c = Z.to_nat CLUSTER_SIZE /\ (h_mod h = false -> c = ab_now a k);
  re_size : bm_cache_size s = Z.of_nat (size (bm_bcs s));
  re_next : forall id, is_Some (bm_bcs s !! id) -> id < bm_next s }.

End rep.
End BufferSpec.

(** ** The buffer cache: rules for objects, locks and lists *)
Import Layout BufferCache CacheLists BufferSpec.

Module BufferRules.

(** The projections of an explicit state *)
Ltac bcbn := cbn [bm_lock bm_bcs bm_list bm_hash bm_list_count bm_hash_count bm_cache_size bm_cache_ref bm_cache_hit bm_bh_free
  bm_bc_free bm_next bm_dev set_bm_lock set_bcs set_list set_hash set_list_count set_hash_count set_cache_size count_ref set_bh_free
  set_bc_free set_next set_dev].

Section rules.
Implicit Types (s : bm) (b : nvfuse_buffer_cache).

Lemma wp_obj id b (Q : nvfuse_buffer_cache -> bm -> Prop) s : bm_bcs s !! id = Some b -> Q b s -> wp (get_obj id) Q s.
Proof. intros Hb HQ. unfold wp, get_obj. by rewrite Hb. Qed.

Lemma wp_upd_obj id b f (Q : unit -> bm -> Prop) s :
  bm_bcs s !! id = Some b -> Q tt (set_bcs (<[ id := f b ]> (bm_bcs s)) s) -> wp (upd_obj id f) Q s.
Proof. intros Hb HQ. unfold upd_obj. wp_step. eapply wp_obj; [done|]. by wp_steps. Qed.

Lemma wp_bm_lock (Q : unit -> bm -> Prop) s : bm_lock s = false -> Q tt (set_bm_lock true s) -> wp bm_spin_lock Q s.
Proof. intros Hl HQ. unfold bm_spin_lock. wp_steps. apply wp_assert; [by rewrite Hl|]. by wp_steps. Qed.

Lemma bm_lock_stuck s : bm_lock s = true -> bm_spin_lock s = None.
Proof. intros Hl. unfold bm_spin_lock, mget, mbind, M_bind, massert. by rewrite Hl. Qed.

Lemma wp_bc_lock id b (Q : unit -> bm -> Prop) s : bm_bcs s !! id = Some b -> bc_locked b = false ->
  Q tt (set_bcs (<[ id := set_lock true b ]> (bm_bcs s)) s) -> wp (bc_spin_lock id) Q s.
Proof.
  intros Hb Hl HQ. unfold bc_spin_lock. wp_step. eapply wp_obj; [done|]. wp_step. apply wp_assert; [by rewrite Hl|].
  by eapply wp_upd_obj.
Qed.

Lemma bc_lock_stuck id b s : bm_bcs s !! id = Some b -> bc_locked b = true -> bc_spin_lock id s = None.
Proof. intros Hb Hl. unfold bc_spin_lock, mbind, M_bind, get_obj, mlift, massert. by rewrite Hb, Hl. Qed.

Lemma wp_bc_unlock id b (Q : unit -> bm -> Prop) s : bm_bcs s !! id = Some b ->
  Q tt (set_bcs (<[ id := set_lock false b ]> (bm_bcs s)) s) -> wp (bc_spin_unlock id) Q s.
Proof. apply wp_upd_obj. Qed.

(** ** Moves between lists *)

Lemma lst_set s v t : lst (set_list v s) t = default [] (v !! t). Proof. done. Qed.
Lemma count_set s v t : count (set_list_count v s) t = default 0 (v !! t). Proof. done. Qed.

(** What moving a buffer between lists leaves alone *)
Record moved (id : Z) (b : nvfuse_buffer_cache) s s' : Prop := {
  mv_bcs : bm_bcs s' = <[ id := b ]> (bm_bcs s);
  mv_lists : lists_ok (bm_bcs s') (lst s') (count s');
  mv_lock : bm_lock s' = bm_lock s;
  mv_hash : bm_hash s' = bm_hash s;
  mv_size : bm_cache_size s' = bm_cache_size s;
  mv_bh : bm_bh_free s' = bm_bh_free s;
  mv_bc : bm_bc_free s' = bm_bc_free s;
  mv_next : bm_next s' = bm_next s;
  mv_dev : bm_dev s' = bm_dev s }.

Lemma count_small s m t d : lists_ok m (lst s) (count s) -> -1 <= d <= 1 -> s32 (count s t + d) = count s t + d.
Proof.
  intros Hl Hd. apply s32_small. pose proof (li_length _ _ _ t Hl). rewrite (li_count _ _ _ Hl). pose proof (li_size _ _ _ Hl). lia.
Qed.

(** The lists and counters after an entry went from list [t] to list [t']. *)
Lemma relocate_lists s s' id b b' (tail : bool) : lists_ok (bm_bcs s) (lst s) (count s) -> bm_bcs s !! id = Some b ->
  0 <= bc_list_type b' < BUFFER_TYPE_NUM -> bm_bcs s' = <[ id := b' ]> (bm_bcs s) ->
  (forall t, lst s' t = if t =? bc_list_type b' then (if tail then without id (lst s t) ++ [id] else id :: without id (lst s t)) else without id (lst s t)) ->
  (forall t, count s' t = count s t - (if t =? bc_list_type b then 1 else 0) + (if t =? bc_list_type b' then 1 else 0)) ->
  lists_ok (bm_bcs s') (lst s') (count s').
Proof.
  intros Hl Hb Ht Eb El Ec. rewrite Eb. by eapply lists_moved.
Qed.

Lemma wp_move id t (tail : bool) b (Q : unit -> bm -> Prop) s :
  lists_ok (bm_bcs s) (lst s) (count s) -> bm_bcs s !! id = Some b -> 0 <= t < BUFFER_TYPE_NUM ->
  (forall s', moved id (set_type t b) s s' -> Q tt s') -> wp (nvfuse_move_buffer_list_nolock id t tail) Q s.
Proof.
  intros Hl Hb Ht HQ. unfold nvfuse_move_buffer_list_nolock. wp_step. eapply wp_obj; [done|].
  destruct (Z.eqb_spec (bc_list_type b) t) as [<-|Hne].
  { wp_step. assert (set_type (bc_list_type b) b = b) as E by (by destruct b). apply HQ. rewrite E. split; rewrite ?insert_id; done. }
  pose proof (li_type _ _ _ Hl _ _ Hb) as Hbt. unfold list_del, count_add, list_add. wp_steps.
  apply wp_assert; [apply Z.ltb_lt; lia|]. wp_step. eapply wp_upd_obj; [bcbn; exact Hb|]. bcbn. wp_steps. apply HQ.
  split; try done. eapply (relocate_lists s _ id b (set_type t b) tail); try done.
  - intros t'. cbn [bc_list_type set_type]. unfold lst at 1. bcbn. destruct (Z.eqb_spec t' t) as [->|Ht'].
    + rewrite lookup_insert_eq. cbn [default Datatypes.id]. unfold lst. bcbn. rewrite lookup_fmap. by destruct (bm_list s !! t), tail.
    + rewrite lookup_insert_ne by done. unfold lst. rewrite lookup_fmap. by destruct (bm_list s !! t').
  - intros t'. cbn [bc_list_type set_type]. unfold count at 1. bcbn. destruct (Z.eqb_spec t' t) as [->|Ht'].
    + rewrite lookup_insert_eq. cbn [default Datatypes.id]. unfold count. bcbn. rewrite lookup_insert_ne by done. fold (count s t).
      rewrite (count_small s (bm_bcs s)) by (done || lia). rewrite (proj2 (Z.eqb_neq t _)) by congruence. lia.
    + rewrite lookup_insert_ne by done. destruct (Z.eqb_spec t' (bc_list_type b)) as [->|Hb'].
      * rewrite lookup_insert_eq. cbn [default Datatypes.id]. unfold count. bcbn. fold (count s (bc_list_type b)). rewrite (count_small s (bm_bcs s)) by (done || lia). lia.
      * rewrite lookup_insert_ne by done. fold (count s t'). lia.
Qed.

Lemma wp_move_locked id t (tail : bool) b (Q : unit -> bm -> Prop) s :
  bm_lock s = false -> lists_ok (bm_bcs s) (lst s) (count s) -> bm_bcs s !! id = Some b -> 0 <= t < BUFFER_TYPE_NUM ->
  (forall s', moved id (set_type t b) s s' -> Q tt s') -> wp (nvfuse_move_buffer_list id t tail) Q s.
Proof.
  intros Hk Hl Hb Ht HQ. unfold nvfuse_move_buffer_list. wp_step. apply wp_bm_lock; [done|]. wp_step.
  eapply wp_move; [exact Hl|exact Hb|done|]. intros s' [M1 M2 M3 M4 M5 M6 M7 M8 M9]. unfold bm_spin_unlock. wp_steps. apply HQ.
  split; try done.
Qed.

(** ** Steps on one object *)

Definition put (id : Z) (b : nvfuse_buffer_cache) s : bm := set_bcs (<[ id := b ]> (bm_bcs s)) s.

Lemma put_id id b s : bm_bcs s !! id = Some b -> put id b s = s.
Proof. intros Hb. unfold put. rewrite insert_id by done. by destruct s. Qed.

Lemma put_put id b b' s : put id b' (put id b s) = put id b' s.
Proof. unfold put. bcbn. rewrite insert_insert_eq. done. Qed.

Lemma wp_put_obj id b (Q : nvfuse_buffer_cache -> bm -> Prop) s : Q b (put id b s) -> wp (get_obj id) Q (put id b s).
Proof. intros HQ. eapply wp_obj; [|exact HQ]. apply lookup_insert_eq. Qed.

Lemma wp_put_upd id b f (Q : unit -> bm -> Prop) s : Q tt (put id (f b) s) -> wp (upd_obj id f) Q (put id b s).
Proof. intros HQ. eapply wp_upd_obj; [apply lookup_insert_eq|]. fold (put id (f b) (put id b s)). by rewrite put_put. Qed.

Lemma wp_put_lock id b (Q : unit -> bm -> Prop) s : bc_locked b = false -> Q tt (put id (set_lock true b) s) -> wp (bc_spin_lock id) Q (put id b s).
Proof. intros Hl HQ. eapply wp_bc_lock; [apply lookup_insert_eq|done|]. fold (put id (set_lock true b) (put id b s)). by rewrite put_put. Qed.

Lemma wp_put_move id t (tail : bool) b0 b (Q : unit -> bm -> Prop) s :
  lists_ok (bm_bcs s) (lst s) (count s) -> bm_bcs s !! id = Some b0 -> bc_list_type b = bc_list_type b0 -> 0 <= t < BUFFER_TYPE_NUM ->
  (forall s', moved id (set_type t b) s s' -> Q tt s') -> wp (nvfuse_move_buffer_list_nolock id t tail) Q (put id b s).
Proof.
  intros Hl Hb Htb Ht HQ. eapply wp_move; [|apply lookup_insert_eq|done|].
  - apply (lists_same _ _ _ id b0 b); done.
  - intros s' [M1 M2 M3 M4 M5 M6 M7 M8 M9]. apply HQ. split; try done. rewrite M1. unfold put. bcbn. by rewrite insert_insert_eq.
Qed.

Lemma wp_put_move_locked id t (tail : bool) b0 b (Q : unit -> bm -> Prop) s :
  bm_lock s = false -> lists_ok (bm_bcs s) (lst s) (count s) -> bm_bcs s !! id = Some b0 -> bc_list_type b = bc_list_type b0 ->
  0 <= t < BUFFER_TYPE_NUM -> (forall s', moved id (set_type t b) s s' -> Q tt s') -> wp (nvfuse_move_buffer_list id t tail) Q (put id b s).
Proof.
  intros Hk Hl Hb Htb Ht HQ. eapply wp_move_locked; [done| |apply lookup_insert_eq|done|].
  - apply (lists_same _ _ _ id b0 b); done.
  - intros s' [M1 M2 M3 M4 M5 M6 M7 M8 M9]. apply HQ. split; try done. rewrite M1. unfold put. bcbn. by rewrite insert_insert_eq.
Qed.

(** ** Replacement *)

(** The state after a victim was taken out *)
Definition detached (id : Z) b s : bm :=
  let t := bc_list_type b in
  let h := if t =? BUFFER_TYPE_UNUSED then HASH_NUM else bc_bno b mod HASH_NUM in
  set_hash_count (<[ h := s32 (hash_count s h + -1) ]> (bm_hash_count s))
    (set_list_count (<[ t := s32 (count s t + -1) ]> (bm_list_count s))
       (set_hash (without id <$> bm_hash s) (set_list (without id <$> bm_list s) s))).

Lemma last_rev {X} (l : list X) x : last l = Some x -> exists l', rev l = x :: l'.
Proof. intros (l' & ->)%last_Some. exists (rev l'). by rewrite rev_app_distr. Qed.

(** The victim is the last of the unused buffers, or else of the clean ones. *)
Lemma replace_wp (Q : Z -> bm -> Prop) s :
  lists_ok (bm_bcs s) (lst s) (count s) ->
  (forall id b, bm_bcs s !! id = Some b -> bc_list_type b = BUFFER_TYPE_UNUSED \/ bc_list_type b = BUFFER_TYPE_CLEAN ->
     bc_ref b = 0 /\ bc_bh_count b = 0) ->
  count s BUFFER_TYPE_UNUSED <> 0 \/ count s BUFFER_TYPE_CLEAN <> 0 ->
  (forall id b, bm_bcs s !! id = Some b ->
     bc_list_type b = (if count s BUFFER_TYPE_UNUSED =? 0 then BUFFER_TYPE_CLEAN else BUFFER_TYPE_UNUSED) ->
     last (lst s (bc_list_type b)) = Some id -> Q id (detached id b s)) ->
  wp nvfuse_replace_buffer_cache Q s.
Proof.
  intros Hl Hfree Hc HQ. set (t := if count s BUFFER_TYPE_UNUSED =? 0 then BUFFER_TYPE_CLEAN else BUFFER_TYPE_UNUSED) in HQ.
  assert (count s t <> 0) as Ht by (unfold t; zbool; lia).
  assert (exists id, last (lst s t) = Some id) as [id Hid].
  { rewrite (li_count _ _ _ Hl) in Ht. destruct (last (lst s t)) as [id|] eqn:E; [by exists id|]. apply last_None in E. by rewrite E in Ht. }
  assert (id ∈ lst s t) as Hin by (apply last_Some in Hid as [l' ->]; set_solver).
  apply (li_in _ _ _ Hl) in Hin as (b & Hb & Hbt).
  destruct (Hfree id b Hb) as [Hr Hn]; [unfold t in Hbt; case_match; tauto|].
  assert (forall (X : Z -> bm -> Prop), X t s -> wp (if negb (count s BUFFER_TYPE_UNUSED =? 0) then mret BUFFER_TYPE_UNUSED
     else if negb (count s BUFFER_TYPE_CLEAN =? 0) then mret BUFFER_TYPE_CLEAN
     else nvfuse_check_flush_dirty true;; mret BUFFER_TYPE_DIRTY) X s) as Hsel.
  { intros X HX. unfold t in HX, Ht. destruct (count s BUFFER_TYPE_UNUSED =? 0); cbn [negb]; [|done].
    rewrite (proj2 (Z.eqb_neq _ 0)) by done. done. }
  unfold nvfuse_replace_buffer_cache. wp_steps. apply Hsel. wp_steps. apply wp_assert; [by apply negb_true_iff, Z.eqb_neq|].
  destruct (last_rev _ _ Hid) as [l' El]. rewrite El. cbn [victim_scan]. wp_step. wp_step. eapply wp_obj; [exact Hb|].
  rewrite Hr, Hn. cbn [andb Z.eqb]. unfold list_del, hlist_del, count_add, hash_count_add. wp_steps.
  eapply wp_obj; [exact Hb|]. wp_steps. rewrite <- Hbt. apply HQ; [done|done|by rewrite Hbt].
Qed.

(** ** Lookup *)

Lemma hash_scan_wp l key (Q : option Z -> bm -> Prop) s :
  (forall id, id ∈ l -> is_Some (bm_bcs s !! id)) ->
  (forall id b, id ∈ l -> bm_bcs s !! id = Some b -> bc_bno b = key -> Q (Some id) s) ->
  ((forall id b, id ∈ l -> bm_bcs s !! id = Some b -> bc_bno b <> key) -> Q None s) ->
  wp (hash_scan l key) Q s.
Proof.
  induction l as [|id l IH]; intros Hd Hf Hn; cbn [hash_scan].
  { wp_step. apply Hn. by intros id b ?%elem_of_nil. }
  destruct (Hd id) as [b Hb]; [apply elem_of_cons; by left|]. wp_step. eapply wp_obj; [exact Hb|].
  destruct (Z.eqb_spec (bc_bno b) key) as [E|E]; [wp_step; eapply Hf; [apply elem_of_cons; by left|done..]|].
  apply IH.
  - intros x Hx. apply Hd, elem_of_cons. by right.
  - intros x bx Hx. apply Hf, elem_of_cons. by right.
  - intros Hno. apply Hn. intros x bx [->|Hx]%elem_of_cons; [congruence|by apply Hno].
Qed.

Lemma wp_hash_lookup key (Q : option Z -> bm -> Prop) s : hash_ok (bm_bcs s) (bucket s) ->
  (forall id b, at_key s key id b -> Q (Some id) s) -> ((forall id b, ~ at_key s key id b) -> Q None s) ->
  wp (nvfuse_hash_lookup key) Q s.
Proof.
  intros Hh Hf Hn. unfold nvfuse_hash_lookup. wp_steps. apply hash_scan_wp.
  - intros id. by apply Hh.
  - intros id b Hi Hb Hk. by apply (Hf id b).
  - intros Hno. apply Hn. intros id b (Hb & Hi & Hk). by apply (Hno id b).
Qed.

(** ** The buffer of a key *)

Lemma mod_hash k : k mod HASH_NUM <> HASH_NUM.
Proof. unfold HASH_NUM. dmlia. Qed.

Lemma at_key_bucket s k id b : hash_ok (bm_bcs s) (bucket s) -> at_key s k id b -> id ∉ bucket s HASH_NUM.
Proof. intros Hh (_ & Hi & _) Hu. apply (mod_hash k). by eapply (ha_once _ _ Hh). Qed.

Lemma at_key_fun s k id id' b b' : hash_ok (bm_bcs s) (bucket s) -> at_key s k id b -> at_key s k id' b' -> id = id' /\ b = b'.
Proof.
  intros Hh (Hb & Hi & Hn) (Hb' & Hi' & Hn'). assert (id = id') as ->.
  { eapply (ha_uniq _ _ Hh); [apply (mod_hash k)|done..|congruence]. }
  split; [done|congruence].
Qed.

Lemma at_key_dec s k : hash_ok (bm_bcs s) (bucket s) -> (exists id b, at_key s k id b) \/ (forall id b, ~ at_key s k id b).
Proof.
  intros Hh. set (P := fun id => match bm_bcs s !! id with Some b => bc_bno b = k | None => False end).
  assert (forall id, Decision (P id)) as HP by (intros id; unfold P; destruct (bm_bcs s !! id); apply _).
  destruct (decide (Exists P (bucket s (k mod HASH_NUM)))) as [He|Hn].
  - apply Exists_exists in He as (id & Hi & Hp). left. unfold P in Hp. destruct (bm_bcs s !! id) as [b|] eqn:Hb; [|done].
    by exists id, b.
  - right. intros id b (Hb & Hi & Hk). apply Hn, Exists_exists. exists id. split; [done|]. unfold P. by rewrite Hb.
Qed.

(** Buffers in use keep their names. *)
Definition stable s s' : Prop := forall k id b, at_key s k id b -> bc_list_type b = BUFFER_TYPE_REF -> exists b', at_key s' k id b'.

Lemma stable_in_place s s' id b b' : bm_bcs s !! id = Some b -> bm_bcs s' = <[ id := b' ]> (bm_bcs s) -> bm_hash s' = bm_hash s ->
  bc_bno b' = bc_bno b -> stable s s'.
Proof.
  intros Hb Eb Eh Hn k x bx (Hx & Hi & Hk) _. assert (bucket s' = bucket s) as EB by (unfold bucket; by rewrite Eh).
  destruct (decide (x = id)) as [->|Hne].
  - exists b'. split; [by rewrite Eb, lookup_insert_eq|]. rewrite EB. split; [done|congruence].
  - exists bx. split; [by rewrite Eb, lookup_insert_ne by done|]. by rewrite EB.
Qed.

End rules.
End BufferRules.
