(* ===== verification/BufferFind.v ===== *)
(** * The buffer cache: finding a buffer

    [BufferOps] has the steps on one buffer, [BufferFind] lookup and replacement. *)
From S2P Require Import Prelude Layout BufferCache BufferRules.
Import Layout BufferCache CacheLists BufferSpec BufferRules.

(** ** The buffer cache: one buffer at a time *)
Module BufferOps.

Section ops.
Context (pbn : Z -> Z -> Z) (ok : Z -> Prop).
Notation rep := (rep pbn ok).
Notation obj_rep := (obj_rep pbn).
Notation place := (place pbn).
Implicit Types (s : bm) (a : store) (b : nvfuse_buffer_cache).

(** ** A step that changes the buffer of one key *)

Record same_but a a' (k : Z) : Prop := {
  sb_now : forall k', k' <> k -> ab_now a' k' = ab_now a k';
  sb_dev : forall k', ab_dev a' k' = ab_dev a k';
  sb_held : forall k', k' <> k -> ab_held a' !! k' = ab_held a !! k';
  sb_dirty : forall k', k' <> k -> k' ∈ ab_dirty a' <-> k' ∈ ab_dirty a }.

Lemma obj_rep_eq a a' k k' b : same_but a a' k -> k' <> k -> obj_rep a k' b -> obj_rep a' k' b.
Proof.
  intros [H1 H2 H3 H4] Hk. unfold BufferSpec.obj_rep. rewrite (H1 k'), (H3 k') by done. by setoid_rewrite (H4 k' Hk).
Qed.

(** What the manager keeps besides its lists and its table *)
Record kept s s' : Prop := {
  kp_size : bm_cache_size s' = bm_cache_size s;
  kp_bh : bm_bh_free s' = bm_bh_free s;
  kp_bc : bm_bc_free s' = bm_bc_free s;
  kp_next : bm_next s' = bm_next s;
  kp_dev : bm_dev s' = bm_dev s }.

Definition plain b : Prop := length (bc_buf b) = Z.to_nat CLUSTER_SIZE /\ bc_bh_count b = 0 /\ bc_flush b = false.

Lemma rep_step s s' a a' k id b b' :
  rep s a -> bm_bcs s !! id = Some b -> bm_bcs s' = <[ id := b' ]> (bm_bcs s) -> bm_lock s' = false -> kept s s' ->
  lists_ok (bm_bcs s') (lst s') (count s') -> hash_ok (bm_bcs s') (bucket s') ->
  (forall k' id' b0, at_key s' k' id' b0 <-> (id' = id /\ k' = k /\ b0 = b') \/ (id' <> id /\ at_key s k' id' b0)) ->
  (forall id', id' ∈ bucket s' HASH_NUM -> id' <> id /\ id' ∈ bucket s HASH_NUM) ->
  (forall k0, at_key s k0 id b -> k0 = k \/ (ab_held a !! k0 = None /\ k0 ∉ ab_dirty a)) ->
  same_but a a' k -> ok k -> obj_rep a' k b' -> plain b' ->
  (k ∉ ab_dirty a' -> ab_now a' k = ab_dev a k) ->
  (forall h c, ab_held a' !! k = Some h -> h_buf h = Some c -> length c = Z.to_nat CLUSTER_SIZE /\ (h_mod h = false -> c = ab_now a' k)) ->
  rep s' a'.
Proof.
  intros R Hb Eb Elock [E1 E2 E3 E4 E5] Hl Hh Hk Hu Hold Sb Hok Hob Hpl Hcl Hhd.
  pose proof Sb as [S1 S2 S3 S4]. destruct R as [R1 R2 R3 R4 R5 R6 R7 R8 R9 R10 R11 R12 R13].
  split; try done.
  - intros k' id' b0 [(-> & -> & ->)|[Hne Hat]]%Hk; [done|]. destruct (R4 k' id' b0 Hat) as [? ?]. split; [done|].
    destruct (decide (k' = k)) as [->|]; [|by eapply obj_rep_eq].
    exfalso. assert (at_key s' k id b') as (Hb1 & Hi1 & Hn1) by (apply Hk; by left).
    assert (at_key s' k id' b0) as (Hb2 & Hi2 & Hn2) by (apply Hk; by right).
    apply Hne. eapply (ha_uniq _ _ Hh); [|exact Hi2|exact Hi1|exact Hb2|exact Hb1|congruence]. unfold HASH_NUM. dmlia.
  - intros k' Hno. destruct (decide (k' = k)) as [->|Hne]; [exfalso; apply (Hno id b'), Hk; by left|].
    rewrite S3, S4 by done. destruct (decide (id ∈ bucket s (k' mod HASH_NUM) /\ bc_bno b = k')) as [[Hi Hn]|Hna].
    + by destruct (Hold k') as [?|?].
    + apply R5. intros id' b0 Hat. destruct (decide (id' = id)) as [->|].
      * destruct Hat as (Hb0 & Hat). assert (b0 = b) as -> by congruence. done.
      * apply (Hno id' b0), Hk. by right.
  - intros id' b0 Hb0 [Hne Hi]%Hu. rewrite Eb, lookup_insert_ne in Hb0 by done. by apply (R6 id').
  - intros id' b0. rewrite Eb. intros [[<- <-]|[_ ?]]%lookup_insert_Some; [done|by eapply R7].
  - intros k' Hk'. rewrite S2, R8 by done. unfold block. by rewrite E5.
  - intros p. unfold block. rewrite E5. apply R9.
  - intros k' Hk' Hd. destruct (decide (k' = k)) as [->|Hne]; [rewrite S2; by apply Hcl|].
    rewrite S1, S2 by done. apply R10; [done|]. by rewrite <- S4.
  - intros k' h c. destruct (decide (k' = k)) as [->|Hne]; [apply Hhd|]. rewrite S3, S1 by done. apply R11.
  - rewrite E1, Eb, map_size_insert_Some by eauto. done.
  - intros id'. rewrite Eb, E4, lookup_insert_is_Some'. intros [<-|]; apply R13; [by eexists|done].
Qed.

(** The object of a key changes in place. *)
Lemma rep_in_place s s' a a' k id b b' :
  rep s a -> at_key s k id b -> bm_bcs s' = <[ id := b' ]> (bm_bcs s) -> bm_hash s' = bm_hash s -> bm_lock s' = false -> kept s s' ->
  lists_ok (bm_bcs s') (lst s') (count s') -> bc_bno b' = k -> same_but a a' k -> obj_rep a' k b' -> plain b' ->
  (k ∉ ab_dirty a' -> ab_now a' k = ab_dev a k) ->
  (forall h c, ab_held a' !! k = Some h -> h_buf h = Some c -> length c = Z.to_nat CLUSTER_SIZE /\ (h_mod h = false -> c = ab_now a' k)) ->
  rep s' a'.
Proof.
  intros R Hat Eb Eh Elock Hk Hl Hn Sb Hob Hpl Hcl Hhd. pose proof (re_hash _ _ _ _ R) as Hh.
  pose proof (at_key_bucket s k id b Hh Hat) as Hnu. pose proof Hat as (Hb & Hi & Hbn).
  assert (bucket s' = bucket s) as EB by (unfold bucket; by rewrite Eh).
  apply (rep_step s s' a a' k id b b'); try done.
  - rewrite Eb, EB. apply (hash_same _ _ id b b'); [done..|congruence|done].
  - intros k' id' b0. unfold at_key at 1. rewrite Eb, EB. split.
    + intros ([[<- <-]|[Hne Hb0]]%lookup_insert_Some & Hi0 & Hn0); [left; split_and!; congruence|right; done].
    + intros [(-> & -> & ->)|(Hne & Hb0 & Hi0 & Hn0)]; [by rewrite lookup_insert_eq|by rewrite lookup_insert_ne by done].
  - intros id' Hi'. rewrite EB in Hi'. split; [congruence|done].
  - intros k0 (_ & _ & <-). left. congruence.
  - by eapply re_obj.
Qed.

(** ** Release *)

Definition fupd {X} (k : Z) (v : X) (f : Z -> X) : Z -> X := fun x => if x =? k then v else f x.
Lemma fupd_eq {X} k (v : X) f : fupd k v f k = v.
Proof. unfold fupd. by rewrite Z.eqb_refl. Qed.
Lemma fupd_ne {X} k k' (v : X) f : k' <> k -> fupd k v f k' = f k'.
Proof. intros. unfold fupd. by rewrite (proj2 (Z.eqb_neq k' k)). Qed.

(** What the block of a key holds when its buffer is released *)
Definition held_now a (k : Z) (dirty : bool) : list Z :=
  match ab_held a !! k with
  | Some (mk_hold (Some c) m) => if m || dirty then c else ab_now a k
  | _ => ab_now a k
  end.
Definition released a (k : Z) (dirty : bool) : store :=
  mk_store (fupd k (held_now a k dirty) (ab_now a)) (ab_dev a) (delete k (ab_held a))
    (if dirty then {[ k ]} ∪ ab_dirty a else ab_dirty a).

(** A buffer that was changed is released dirty, and then its contents are
    determined. *)
Definition may_release a (k : Z) (dirty : bool) : Prop := exists h, ab_held a !! k = Some h /\
  (h_mod h = true -> dirty = true \/ k ∈ ab_dirty a) /\ (h_mod h = true \/ dirty = true -> is_Some (h_buf h)).

Lemma released_same a k dirty : same_but a (released a k dirty) k.
Proof.
  split; cbn [ab_now ab_dev ab_held ab_dirty released]; [intros k' Hk; by apply fupd_ne|done|intros k' Hk; by rewrite lookup_delete_ne|].
  intros k' Hk. destruct dirty; [set_solver|done].
Qed.


Lemma held_ref s a k h : rep s a -> ab_held a !! k = Some h -> exists id b, at_key s k id b /\ bc_list_type b = BUFFER_TYPE_REF /\
  bc_ref b = 1 /\ bc_locked b = true /\ bc_pno b = place k /\ (bc_dirty b = true <-> k ∈ ab_dirty a) /\
  (forall c, h_buf h = Some c -> bc_buf b = c) /\ (h_mod h = false -> bc_load b = true -> bc_buf b = ab_now a k) /\
  (h_mod h = false -> bc_dirty b = true -> bc_load b = true).
Proof.
  intros R Hh. destruct (at_key_dec s k (re_hash _ _ _ _ R)) as [(id & b & Hat)|Hno].
  - exists id, b. split; [done|]. destruct (re_obj _ _ _ _ R _ _ _ Hat) as [_ Ho].
    destruct Ho as [(_ & _ & Ho & _)|[(_ & _ & _ & _ & _ & Ho & _)|[(_ & _ & _ & _ & _ & _ & Ho & _)|(Ht & Hr & Hl & Hp & h' & Ho & Hrest)]]];
      [congruence..|]. assert (h' = h) as -> by congruence. done.
  - destruct (re_none _ _ _ _ R k Hno). congruence.
Qed.

Lemma release_bc_wp s a k id b (tail dirty : bool) (Q : unit -> bm -> Prop) :
  rep s a -> at_key s k id b -> may_release a k dirty ->
  (forall s', rep s' (released a k dirty) -> kept s s' -> stable s s' -> Q tt s') -> wp (nvfuse_release_bc id tail dirty) Q s.
Proof.
  intros R Hat (h & Hh & Hm1 & Hm2) HQ. destruct (held_ref s a k h R Hh) as (id' & b0 & Hat0 & Ht & Hr & Hl & Hp & Hd & Hb1 & Hb2 & Hb3).
  destruct (at_key_fun s k id id' b b0 (re_hash _ _ _ _ R) Hat Hat0) as [<- <-]. clear Hat0. pose proof Hat as (Hb & Hi & Hk).
  pose proof (re_buf _ _ _ _ R _ _ Hb) as Hpl.
  assert (forall d, ab_now (released a k dirty) k = held_now a k dirty /\ (h_mod h = false -> dirty = false -> held_now a k dirty = ab_now a k) /\
    (d = bc_buf b -> (h_mod h = true \/ dirty = true) -> held_now a k dirty = d)) as Hnow.
  { intros d. split; [apply fupd_eq|]. unfold held_now. rewrite Hh. destruct h as [[c|] m]; cbn [h_buf h_mod] in *.
    - split; [by intros -> ->|]. intros -> [-> | ->]; rewrite ?orb_true_r; symmetry; by apply Hb1.
    - split; [done|]. intros -> Hx. by destruct (Hm2 Hx). }
  destruct (Hnow (bc_buf b)) as (Hn1 & Hn2 & Hn3). clear Hnow. specialize (Hn3 eq_refl).
  unfold nvfuse_release_bc, nvfuse_dec_bc_ref. rewrite <- (put_id id b s) by done. wp_step. wp_step. apply wp_put_upd.
  wp_step. apply wp_put_obj. rewrite Hr. apply wp_assert; [done|]. wp_step. apply wp_put_obj.
  change (s32 (1 - 1)) with 0. cbn [bc_dirty set_ref]. unfold bc_spin_unlock.
  pose proof (re_lists _ _ _ _ R) as Hlists. pose proof (re_lock _ _ _ _ R) as Hlock.
  assert (k ∉ ab_dirty (released a k dirty) -> dirty = false /\ k ∉ ab_dirty a) as Hnd.
  { cbn. destruct dirty; [set_solver|done]. }
  destruct (dirty || bc_dirty b) eqn:Hdd.
  - assert (k ∈ ab_dirty (released a k dirty)) as Hin.
    { cbn. destruct dirty; [set_solver|]. cbn in Hdd. by apply Hd. }
    wp_step. apply wp_put_upd. wp_step. apply wp_put_upd. eapply wp_put_move_locked; [done|done|exact Hb|done|done|].
    intros s' [M1 M2 M3 M4 M5 M6 M7 M8 M9]. apply HQ; [|done|by eapply stable_in_place].
    eapply (rep_in_place s s' a (released a k dirty) k id b); try done; [by rewrite M3|apply released_same| |].
    + right. right. left. split_and!; try done; [|apply lookup_delete_eq].
      change (bc_buf b = ab_now (released a k dirty) k). rewrite Hn1. destruct (h_mod h) eqn:Em; [symmetry; apply Hn3; by left|].
      destruct dirty; [symmetry; apply Hn3; by right|]. cbn in Hdd. rewrite Hn2 by done. apply Hb2; [done|]. by apply Hb3.
    + intros h' c. cbn. rewrite lookup_delete_eq. done.
  - apply orb_false_iff in Hdd as [-> Hbd]. assert (k ∉ ab_dirty a) as Hnin by (rewrite <- Hd, Hbd; done).
    assert (h_mod h = false) as Hm. { destruct (h_mod h); [|done]. by destruct Hm1. }
    wp_step. apply wp_put_upd. wp_step. apply wp_put_upd. wp_step. apply wp_put_obj. wp_step. apply wp_assert; [done|].
    eapply wp_put_move_locked; [done|done|exact Hb|done|done|].
    intros s' [M1 M2 M3 M4 M5 M6 M7 M8 M9]. apply HQ; [|done|by eapply stable_in_place].
    eapply (rep_in_place s s' a (released a k false) k id b); try done; [by rewrite M3|apply released_same| | |].
    + right. left. split_and!; try done; [|apply lookup_delete_eq]. intros Hload.
      change (bc_buf b = ab_now (released a k false) k). rewrite Hn1, Hn2 by done. by apply Hb2.
    + intros _. rewrite Hn1, Hn2 by done. apply (re_clean _ _ _ _ R); [|done]. by eapply re_obj.
    + intros h' c. cbn. rewrite lookup_delete_eq. done.
Qed.

End ops.
End BufferOps.

(** ** The buffer cache: finding and taking a buffer *)
Import Layout BufferCache CacheLists BufferSpec BufferRules BufferOps.

Module BufferFind.

Section find.
Implicit Types (s : bm) (a : store) (b : nvfuse_buffer_cache).

(** The buffer of [k] was taken: it is the one that was there, or a victim. *)
Definition hit_buf b : nvfuse_buffer_cache := set_type BUFFER_TYPE_REF (set_ref 1 (set_lock true b)).
Definition miss_buf (k : Z) b : nvfuse_buffer_cache := mk_bc BUFFER_TYPE_REF k true false false (bc_flush b) 1 0 0 zero_buf.
Record found s s' (k id : Z) b b' : Prop := {
  fd_old : bm_bcs s !! id = Some b;
  fd_bcs : bm_bcs s' = <[ id := b' ]> (bm_bcs s);
  fd_lock : bm_lock s' = false;
  fd_kept : kept s s';
  fd_lists : lists_ok (bm_bcs s') (lst s') (count s');
  fd_hash : hash_ok (bm_bcs s') (bucket s');
  fd_at : forall k' id' b0, at_key s' k' id' b0 <-> (id' = id /\ k' = k /\ b0 = b') \/ (id' <> id /\ at_key s k' id' b0);
  fd_unused : forall id', id' ∈ bucket s' HASH_NUM -> id' <> id /\ id' ∈ bucket s HASH_NUM;
  fd_from : (at_key s k id b /\ b' = hit_buf b) \/
    ((forall id0 b0, ~ at_key s k id0 b0) /\ (bc_list_type b = BUFFER_TYPE_UNUSED \/ bc_list_type b = BUFFER_TYPE_CLEAN) /\ b' = miss_buf k b) }.

(** A hit moves the buffer to the front of its list. *)
Lemma hit_wp id lblock b (Q : unit -> bm -> Prop) s :
  lists_ok (bm_bcs s) (lst s) (count s) -> bm_bcs s !! id = Some b -> bc_lbno b = lblock ->
  (forall s', moved id b s s' -> Q tt s') -> wp (cache_hit id lblock) Q s.
Proof.
  intros Hl Hb Hlb HQ. unfold cache_hit. wp_step. eapply wp_obj; [exact Hb|]. wp_step. apply wp_assert; [by apply Z.eqb_eq|].
  unfold list_del, count_add, list_add. wp_steps. apply HQ. set (t := bc_list_type b).
  assert (bm_bcs s = <[ id := b ]> (bm_bcs s)) as Eb by (by rewrite insert_id).
  split; try done. eapply (relocate_lists s _ id b b false); try done; [by eapply li_type| |].
  - intros t'. fold t. unfold lst at 1. bcbn. destruct (Z.eqb_spec t' t) as [->|Ht'].
    + rewrite lookup_insert_eq. cbn [default Datatypes.id]. unfold lst. bcbn. rewrite lookup_fmap. by destruct (bm_list s !! t).
    + rewrite lookup_insert_ne by done. unfold lst. rewrite lookup_fmap. by destruct (bm_list s !! t').
  - intros t'. fold t. unfold count at 1. bcbn. destruct (Z.eqb_spec t' t) as [->|Ht'].
    + rewrite lookup_insert_eq. cbn [default Datatypes.id]. unfold count. bcbn. rewrite lookup_insert_eq. cbn [default Datatypes.id].
      fold (count s t). rewrite (count_small s (bm_bcs s) t (-1)) by (done || lia).
      replace (count s t + -1 + 1) with (count s t + 0) by lia. rewrite (count_small s (bm_bcs s)) by (done || lia). lia.
    + rewrite lookup_insert_ne by done. unfold count. bcbn. rewrite lookup_insert_ne by done. lia.
Qed.


(** The last part of nvfuse_find_bc: lock, reference, list of buffers in use *)
Lemma take_wp id b (Q : Z -> bm -> Prop) s :
  lists_ok (bm_bcs s) (lst s) (count s) -> bm_bcs s !! id = Some b -> bc_locked b = false -> bc_ref b = 0 ->
  (forall s', moved id (hit_buf b) s s' -> Q id (set_bm_lock false s')) ->
  wp (bc_spin_lock id;; nvfuse_inc_bc_ref id;; bc ← get_obj id;
      (if negb (bc_ref bc =? 0) && negb (bc_list_type bc =? BUFFER_TYPE_REF)
       then nvfuse_move_buffer_list_nolock id BUFFER_TYPE_REF false else mret tt);; bm_spin_unlock;; mret id) Q s.
Proof.
  intros Hl Hb Hk Hr HQ. rewrite <- (put_id id b s) by done. unfold nvfuse_inc_bc_ref. wp_step. apply wp_put_lock; [done|].
  wp_step. wp_step. apply wp_put_upd. wp_step. apply wp_put_obj. cbn [bc_ref set_ref set_lock]. rewrite Hr. apply wp_assert; [done|].
  wp_step. apply wp_put_obj. cbn [bc_ref set_ref set_lock bc_list_type]. change (s32 (0 + 1) =? 0) with false. change (s32 (0 + 1)) with 1.
  cbn [negb andb]. wp_step. unfold bm_spin_unlock. destruct (Z.eqb_spec (bc_list_type b) BUFFER_TYPE_REF) as [E|E]; cbn [negb].
  - wp_steps. apply HQ. assert (hit_buf b = set_ref 1 (set_lock true b)) as -> by (unfold hit_buf; rewrite <- E; by destruct b).
    split; try done. by apply (lists_same _ _ _ id b).
  - eapply wp_put_move; [exact Hl|exact Hb|done|done|]. intros s' Hm. wp_steps. by apply HQ.
Qed.

Lemma find_hit_wp s k lblock id b (Q : Z -> bm -> Prop) :
  lists_ok (bm_bcs s) (lst s) (count s) -> hash_ok (bm_bcs s) (bucket s) -> at_key s k id b ->
  k mod 2 ^ 32 = lblock -> idle b -> bm_lock s = false ->
  (forall s', found s s' k id b (hit_buf b) -> Q id s') -> wp (nvfuse_find_bc k lblock) Q s.
Proof.
  intros Hl Hh Hat Hlb [Hr Hk] Hlock HQ. pose proof Hat as (Hb & Hi & Hn). pose proof (at_key_bucket s k id b Hh Hat) as Hnu.
  unfold nvfuse_find_bc. wp_step. apply wp_bm_lock; [done|]. wp_steps.
  apply wp_hash_lookup; [exact Hh| |intros Hno; by destruct (Hno id b)].
  intros id' b' Hat'. destruct (at_key_fun s k id id' b b' Hh Hat Hat') as [<- <-]. clear Hat'.
  wp_steps. eapply hit_wp; [exact Hl|exact Hb|unfold bc_lbno; by rewrite Hn|].
  intros s1 [M1 M2 M3 M4 M5 M6 M7 M8 M9]. wp_step. eapply (take_wp id b); [done|by rewrite M1, lookup_insert_eq|done..|].
  intros s2 [N1 N2 N3 N4 N5 N6 N7 N8 N9]. apply HQ.
  assert (bm_bcs s2 = <[ id := hit_buf b ]> (bm_bcs s)) as E2 by (rewrite N1, M1; by rewrite insert_insert_eq).
  assert (bucket (set_bm_lock false s2) = bucket s) as EB by (unfold bucket; bcbn; by rewrite N4, M4).
  split; try done.
  - split; bcbn; by etrans.
  - bcbn. rewrite E2, EB. apply (hash_same _ _ id b); done.
  - intros k' id' b0. unfold at_key at 1. rewrite EB. bcbn. rewrite E2. split.
    + intros ([[<- <-]|[Hne Hb0]]%lookup_insert_Some & Hi0 & Hn0); [left; split_and!; [done|by rewrite <- Hn0|done]|right; done].
    + intros [(-> & -> & ->)|(Hne & Hb0 & Hi0 & Hn0)]; [by rewrite lookup_insert_eq|by rewrite lookup_insert_ne by done].
  - intros id'. rewrite EB. intros Hi'. split; [congruence|done].
  - by left.
Qed.

Lemma find_miss_wp s k lblock (Q : Z -> bm -> Prop) :
  lists_ok (bm_bcs s) (lst s) (count s) -> hash_ok (bm_bcs s) (bucket s) -> (forall id b, ~ at_key s k id b) -> bm_lock s = false ->
  (forall id b, bm_bcs s !! id = Some b -> bc_list_type b = BUFFER_TYPE_UNUSED \/ bc_list_type b = BUFFER_TYPE_CLEAN ->
     bc_ref b = 0 /\ bc_bh_count b = 0) ->
  count s BUFFER_TYPE_UNUSED <> 0 \/ count s BUFFER_TYPE_CLEAN <> 0 ->
  (forall s' id b, found s s' k id b (miss_buf k b) -> Q id s') -> wp (nvfuse_find_bc k lblock) Q s.
Proof.
  intros Hl Hh Hno Hlock Hfree Hc HQ. unfold nvfuse_find_bc. wp_step. apply wp_bm_lock; [done|]. wp_steps.
  apply wp_hash_lookup; [exact Hh|intros id b Hat; by destruct (Hno id b)|]. intros _.
  wp_step. unfold cache_miss. wp_step. set (s0 := count_ref false _).
  apply (replace_wp _ s0); [done..|]. intros id b Hb Hbt Hlast.
  assert (bc_list_type b = BUFFER_TYPE_UNUSED \/ bc_list_type b = BUFFER_TYPE_CLEAN) as Hbt' by (case_match; tauto). set (s1 := detached id b s0).
  assert (bm_bcs s1 !! id = Some b) as Hb1 by done. rewrite <- (put_id id b s1) by done.
  unfold nvfuse_init_bc. wp_step. apply wp_put_upd. unfold hlist_add_head, hash_count_add, list_add, count_add. wp_steps.
  eapply wp_upd_obj; [unfold put; bcbn; apply lookup_insert_eq|]. wp_step. unfold put. bcbn. rewrite insert_insert_eq.
  set (x := set_bh_count 0 _). set (s2 := set_bcs _ _).
  assert (bm_bcs s2 = <[ id := x ]> (bm_bcs s)) as E2 by done.
  assert (hit_buf x = miss_buf k b) as Ex by done.
  assert (forall h, bucket s2 h = if h =? k mod HASH_NUM then id :: without id (bucket s h) else without id (bucket s h)) as EB.
  { intros h. unfold bucket at 1, s2, s1, detached, s0. bcbn. destruct (Z.eqb_spec h (k mod HASH_NUM)) as [->|Hne].
    - rewrite lookup_insert_eq. cbn [default Datatypes.id]. unfold bucket. bcbn. rewrite lookup_fmap. by destruct (bm_hash s !! _).
    - rewrite lookup_insert_ne by done. rewrite lookup_fmap. unfold bucket. by destruct (bm_hash s !! h). }
  assert (lists_ok (bm_bcs s2) (lst s2) (count s2)) as Hl2.
  { eapply (relocate_lists s s2 id b x false); try done.
    - intros t. unfold lst at 1, s2, s1, detached, s0. bcbn. change (bc_list_type x) with BUFFER_TYPE_REF.
      destruct (Z.eqb_spec t BUFFER_TYPE_REF) as [->|Hne].
      + rewrite lookup_insert_eq. cbn [default Datatypes.id]. unfold lst. bcbn. rewrite lookup_fmap. by destruct (bm_list s !! _).
      + rewrite lookup_insert_ne by done. rewrite lookup_fmap. unfold lst. by destruct (bm_list s !! t).
    - intros t. unfold count at 1, s2, s1, detached, s0. bcbn. change (bc_list_type x) with BUFFER_TYPE_REF.
      assert (BUFFER_TYPE_REF <> bc_list_type b) by (destruct Hbt' as [-> | ->]; done).
      destruct (Z.eqb_spec t BUFFER_TYPE_REF) as [->|Hne].
      + rewrite lookup_insert_eq. cbn [default Datatypes.id]. unfold count. bcbn. rewrite lookup_insert_ne by done.
        fold (count s BUFFER_TYPE_REF). rewrite (count_small s (bm_bcs s)) by (done || lia). rewrite (proj2 (Z.eqb_neq _ _)) by done. lia.
      + rewrite lookup_insert_ne by done. destruct (Z.eqb_spec t (bc_list_type b)) as [->|Hne'].
        * rewrite lookup_insert_eq. cbn [default Datatypes.id]. change (count (count_ref false (set_bm_lock true s)) (bc_list_type b)) with (count s (bc_list_type b)). rewrite (count_small s (bm_bcs s)) by (done || lia). lia.
        * rewrite lookup_insert_ne by done. fold (count s t). lia. }
  assert (kept s s2) as Hk2 by done.
  assert (bc_list_type x = BUFFER_TYPE_REF /\ bc_locked x = false /\ bc_ref x = 0 /\ bc_bno x = k) as (Hx1 & Hx2 & Hx3 & Hx4) by done.
  clearbody s2 x. clear s1 Hb1.
  assert (hash_ok (bm_bcs s2) (bucket s2)) as Hh2.
  { rewrite E2. apply (hash_rekey (bm_bcs s) (bucket s) _ id b x k); try done.
    intros y b_y Hy Hby. right. intros Hk. by apply (Hno y b_y). }
  apply (take_wp id x); [done|by rewrite E2, lookup_insert_eq|done|done|]. rewrite Ex.
  intros s3 [N1 N2 N3 N4 N5 N6 N7 N8 N9]. apply (HQ _ id b).
  assert (bm_bcs s3 = <[ id := miss_buf k b ]> (bm_bcs s)) as E3 by (rewrite N1, E2; by rewrite insert_insert_eq).
  assert (bucket (set_bm_lock false s3) = bucket s2) as EB3 by (unfold bucket; bcbn; by rewrite N4).
  assert (forall y, id <> y -> forall h, y ∈ bucket s2 h <-> y ∈ bucket s h) as Hother.
  { intros y Hy h. rewrite EB. destruct (h =? k mod HASH_NUM); rewrite ?elem_of_cons, elem_without; naive_solver. }
  split; try done.
  - destruct Hk2. split; bcbn; congruence.
  - bcbn. rewrite E3, EB3. replace (<[ id := miss_buf k b ]> (bm_bcs s)) with (<[ id := miss_buf k b ]> (bm_bcs s2))
      by (rewrite E2; by rewrite insert_insert_eq).
    apply (hash_same _ _ id x); [done|by rewrite E2, lookup_insert_eq|done|]. rewrite EB. rewrite (proj2 (Z.eqb_neq _ _)) by (by apply not_eq_sym, mod_hash).
    rewrite elem_without. tauto.
  - intros k' id' b0. unfold at_key at 1. rewrite EB3. bcbn. rewrite E3. split.
    + intros ([[<- <-]|[Hne Hb0]]%lookup_insert_Some & Hi0 & Hn0); [left; by rewrite <- Hn0|right; split; [done|]].
      split; [done|]. split; [by apply Hother|done].
    + intros [(-> & -> & ->)|(Hne & Hb0 & Hi0 & Hn0)].
      * rewrite lookup_insert_eq, EB, Z.eqb_refl. split; [done|]. split; [apply elem_of_cons; by left|done].
      * rewrite lookup_insert_ne by done. split; [done|]. split; [by apply Hother|done].
  - intros id'. rewrite EB3, EB. rewrite (proj2 (Z.eqb_neq _ _)) by (by apply not_eq_sym, mod_hash). by rewrite elem_without.
  - right. done.
Qed.

End find.
End BufferFind.
