(* ===== verification/BufferUse.v ===== *)
(** * The buffer cache: using a block

    [BufferGet] has the operations on a block, [BufferUse] buffers in use and
    dropped blocks. *)
From S2P Require Import Prelude Layout BufferCache BufferRules BufferFind.
Import Layout BufferCache CacheLists BufferSpec BufferRules BufferOps BufferFind.

(** ** The buffer cache: the operations on a block *)
Module BufferGet.

Section get.
Context (pbn : Z -> Z -> Z) (ok : Z -> Prop).
Notation rep := (rep pbn ok).
Notation obj_rep := (obj_rep pbn).
Notation place := (place pbn).
Implicit Types (s : bm) (a : store) (b : nvfuse_buffer_cache).

(** ** Room *)

Definition busy a : gset Z := dom (ab_held a) ∪ ab_dirty a.

Lemma rep_at_key s a id b : rep s a -> bm_bcs s !! id = Some b -> id ∉ bucket s HASH_NUM -> at_key s (bc_bno b) id b.
Proof.
  intros R Hb Hu. split; [done|]. split; [|done]. pose proof (re_hash _ _ _ _ R) as Hh.
  destruct (ha_all _ _ Hh id) as [h Hi]; [by exists b|]. rewrite (ha_key _ _ Hh h id b); [done..|congruence|done].
Qed.

Lemma unused_or_clean s a id b : rep s a -> bm_bcs s !! id = Some b ->
  bc_list_type b = BUFFER_TYPE_UNUSED \/ bc_list_type b = BUFFER_TYPE_CLEAN -> bc_ref b = 0 /\ bc_bh_count b = 0.
Proof.
  intros R Hb Ht. split; [|by apply (re_buf _ _ _ _ R id b Hb)].
  destruct (decide (id ∈ bucket s HASH_NUM)) as [Hu|Hu]; [by apply (re_free _ _ _ _ R id b Hb Hu)|].
  destruct (re_obj _ _ _ _ R _ _ _ (rep_at_key s a id b R Hb Hu)) as [_ Ho].
  destruct Ho as [(_ & [[? _] _] & _)|[(_ & [? _] & _)|[(E & _)|(E & _)]]]; [done|done|rewrite E in Ht; by destruct Ht..].
Qed.

(** A buffer that is neither unused nor clean belongs to a busy key. *)
Lemma busy_key s a id b : rep s a -> bm_bcs s !! id = Some b ->
  bc_list_type b <> BUFFER_TYPE_UNUSED -> bc_list_type b <> BUFFER_TYPE_CLEAN -> at_key s (bc_bno b) id b /\ bc_bno b ∈ busy a.
Proof.
  intros R Hb H1 H2. assert (id ∉ bucket s HASH_NUM) as Hu.
  { intros Hi. by apply H1, (ha_unused _ _ (re_hash _ _ _ _ R) id b). }
  pose proof (rep_at_key s a id b R Hb Hu) as Hat. split; [done|]. destruct (re_obj _ _ _ _ R _ _ _ Hat) as [_ Ho]. unfold busy.
  destruct Ho as [(? & _)|[(? & _)|[(_ & _ & _ & _ & _ & _ & _ & Hd)|(_ & _ & _ & _ & h & Hh & _)]]]; [done..|set_solver|].
  apply elem_of_union_l, elem_of_dom. by exists h.
Qed.

Lemma room s a : rep s a -> Z.of_nat (size (busy a)) < bm_cache_size s ->
  count s BUFFER_TYPE_UNUSED <> 0 \/ count s BUFFER_TYPE_CLEAN <> 0.
Proof.
  intros R Hsz. destruct (decide (count s BUFFER_TYPE_UNUSED = 0)) as [E1|]; [|by left].
  destruct (decide (count s BUFFER_TYPE_CLEAN = 0)) as [E2|]; [|by right]. exfalso.
  pose proof (re_lists _ _ _ _ R) as Hl. rewrite (li_count _ _ _ Hl) in E1, E2.
  assert (forall id b t, bm_bcs s !! id = Some b -> Z.of_nat (length (lst s t)) = 0 -> bc_list_type b <> t) as Hne.
  { intros id b t Hb Ht Hbt. assert (id ∈ lst s t) as Hin by (apply Hl; by exists b). destruct (lst s t); [by apply elem_of_nil in Hin|done]. }
  set (keys := (fun p => bc_bno p.2) <$> map_to_list (bm_bcs s)).
  assert (NoDup keys) as Hnd.
  { apply NoDup_fmap_2_strong; [|apply NoDup_map_to_list]. intros [x bx] [y b_y] Hx%elem_of_map_to_list Hy%elem_of_map_to_list E. cbn in *.
    destruct (busy_key s a x bx R Hx) as [Hax _]; [by eapply Hne|by eapply Hne|].
    destruct (busy_key s a y b_y R Hy) as [Hay _]; [by eapply Hne|by eapply Hne|].
    rewrite <- E in Hay. destruct (at_key_fun _ _ _ _ _ _ (re_hash _ _ _ _ R) Hax Hay) as [-> ->]. done. }
  assert (size (list_to_set (C := gset Z) keys) <= size (busy a))%nat as Hle.
  { apply subseteq_size. intros k. rewrite elem_of_list_to_set. intros ([x bx] & -> & Hx%elem_of_map_to_list)%list_elem_of_fmap. cbn.
    apply (busy_key s a x bx R Hx); by eapply Hne. }
  rewrite size_list_to_set in Hle by done. unfold keys in Hle. rewrite length_fmap, length_map_to_list in Hle.
  rewrite (re_size _ _ _ _ R) in Hsz. lia.
Qed.

(** ** Taking a buffer *)

(** What a buffer that was found holds *)
Record usable a (k : Z) b : Prop := {
  us_type : bc_list_type b = BUFFER_TYPE_REF /\ bc_ref b = 1 /\ bc_locked b = true /\ bc_bno b = k;
  us_pno : bc_pno b = 0 \/ bc_pno b = place k;
  us_dirty : bc_dirty b = true <-> k ∈ ab_dirty a;
  us_load : bc_load b = true -> bc_buf b = ab_now a k;
  us_dirty_load : bc_dirty b = true -> bc_load b = true;
  us_plain : plain b }.

Lemma found_usable s s' a k id b b' : rep s a -> ab_held a !! k = None -> found s s' k id b b' -> usable a k b'.
Proof.
  intros R Hh F. pose proof (re_buf _ _ _ _ R id b (fd_old _ _ _ _ _ _ F)) as (Hb1 & Hb2 & Hb3).
  destruct (fd_from _ _ _ _ _ _ F) as [[Hat ->]|(Hno & Ht & ->)].
  - destruct (re_obj _ _ _ _ R _ _ _ Hat) as [_ Ho]. destruct Hat as (_ & _ & Hk).
    assert (bc_list_type (hit_buf b) = BUFFER_TYPE_REF /\ bc_ref (hit_buf b) = 1 /\ bc_locked (hit_buf b) = true /\ bc_bno (hit_buf b) = k) as Ht by done.
    destruct Ho as [(_ & (_ & Hd & Hl & Hp) & _ & Hn)|[(_ & _ & Hd & Hp & Hl & _ & Hn)|[(_ & _ & Hd & Hl & Hp & Hbuf & _ & Hn)|(_ & _ & _ & _ & h & Hx & _)]]].
    + split; cbn; rewrite ?Hd, ?Hl; try done; by left.
    + split; cbn; rewrite ?Hd; try done. by right.
    + split; cbn; rewrite ?Hd, ?Hl; try done. by right.
    + congruence.
  - destruct (re_none _ _ _ _ R k Hno) as [_ Hn]. split; try done. by left.
Qed.

Lemma find_wp s a k lblock (Q : Z -> bm -> Prop) :
  rep s a -> ok k -> k mod 2 ^ 32 = lblock -> ab_held a !! k = None -> k ∈ ab_dirty a \/ Z.of_nat (size (busy a)) < bm_cache_size s ->
  (forall s' id b b', found s s' k id b b' -> usable a k b' -> Q id s') -> wp (nvfuse_find_bc k lblock) Q s.
Proof.
  intros R Hok Hlb Hh Hroom HQ. pose proof (re_lists _ _ _ _ R) as Hl. pose proof (re_hash _ _ _ _ R) as Hha.
  destruct (at_key_dec s k Hha) as [(id & b & Hat)|Hno].
  - eapply find_hit_wp; [done|done|exact Hat|done| |apply (re_lock _ _ _ _ R)|].
    + destruct (re_obj _ _ _ _ R _ _ _ Hat) as [_ Ho].
      destruct Ho as [(_ & [? _] & _)|[(_ & ? & _)|[(_ & ? & _)|(_ & _ & _ & _ & h & Hx & _)]]]; [done..|congruence].
    + intros s' F. eapply HQ; [exact F|]. by eapply found_usable.
  - apply find_miss_wp; [done|done|done|apply (re_lock _ _ _ _ R)| | |].
    + intros id b Hb Ht. by apply (unused_or_clean s a id).
    + destruct (re_none _ _ _ _ R k Hno) as [_ Hn]. destruct Hroom as [|Hroom]; [done|]. by apply (room s a).
    + intros s' id b F. eapply HQ; [exact F|]. by eapply found_usable.
Qed.

(** The abstract state with the buffer of [k] in use *)
Definition hold_key a (k : Z) (h : hold) : store := mk_store (ab_now a) (ab_dev a) (<[ k := h ]> (ab_held a)) (ab_dirty a).
Definition taken (k : Z) (sync : bool) a : store := hold_key a k (mk_hold (if sync then Some (ab_now a k) else None) false).

Lemma hold_key_same a k h : same_but a (hold_key a k h) k.
Proof. split; try done. intros k' Hk. cbn. by rewrite lookup_insert_ne. Qed.

Definition key (ino lb : Z) : Z := ino * 2 ^ 32 + lb.
Lemma make_key ino lb : 0 <= ino < 2 ^ 32 -> 0 <= lb < 2 ^ 32 ->
  nvfuse_make_pbno_key ino lb = key ino lb /\ key ino lb / 2 ^ 32 = ino /\ key ino lb mod 2 ^ 32 = lb.
Proof.
  intros Hi Hl. unfold nvfuse_make_pbno_key, key. rewrite Z.shiftl_mul_pow2 by lia. rewrite u64_small by lia.
  split; [done|]. rewrite Z.div_add_l, (Z.div_small lb) by lia. split; [lia|]. by rewrite Z.add_comm, Z.mod_add, Z.mod_small by lia.
Qed.

(** The buffer that was found gets its number and contents. *)
Lemma found_rep s s1 a k id b0 b b2 (sync : bool) : rep s a -> ok k -> ab_held a !! k = None ->
  found s s1 k id b0 b -> usable a k b -> plain b2 ->
  bc_list_type b2 = bc_list_type b -> bc_bno b2 = bc_bno b -> bc_ref b2 = bc_ref b -> bc_locked b2 = bc_locked b -> bc_dirty b2 = bc_dirty b ->
  bc_pno b2 = place k -> (sync = true -> bc_load b2 = true) -> (bc_load b = true -> bc_load b2 = true) ->
  (bc_load b2 = true -> bc_buf b2 = ab_now a k) ->
  rep (put id b2 s1) (taken k sync a) /\ at_key (put id b2 s1) k id b2 /\ kept s (put id b2 s1) /\ stable s (put id b2 s1).
Proof.
  intros R Hok Hh F [(Ut & Ur & Ul & Uk) U2 U3 U4 U5 U6] Hpl E1 E2 E3 E4 E5 E6 Hs Hll Hlb.
  pose proof F as [F0 F1 F2 F3 F4 F5 F6 F7 F8]. assert (bm_bcs s1 !! id = Some b) as Hb1 by (by rewrite F1, lookup_insert_eq).
  assert (forall k' id' x, at_key (put id b2 s1) k' id' x <-> (id' = id /\ k' = k /\ x = b2) \/ (id' <> id /\ at_key s k' id' x)) as Hat.
  { intros k' id' x. assert (at_key s1 k id b) as (_ & Hi & _) by (apply F6; by left).
    unfold at_key at 1, put. bcbn. change (bucket _ (k' mod HASH_NUM)) with (bucket s1 (k' mod HASH_NUM)). split.
    - intros ([[<- <-]|[Hne Hx]]%lookup_insert_Some & Hi' & Hn); [left; split_and!; congruence|].
      destruct (proj1 (F6 k' id' x)) as [(-> & _ & _)|?]; [done..|by right].
    - intros [(-> & -> & ->)|[Hne Hx]].
      + split; [apply lookup_insert_eq|]. split; [exact Hi|congruence].
      + assert (at_key s1 k' id' x) as (Hx1 & Hx2 & Hx3) by (apply F6; by right). split; [|done].
        unfold put. bcbn. by rewrite lookup_insert_ne. }
  assert (kept s (put id b2 s1)) as Hk by (destruct F3; by split).
  split; [|split; [apply Hat; by left|split; [done|]]]; cycle 1.
  { intros k0 x bx Hx Ht. destruct (decide (x = id)) as [->|Hne]; [|exists bx; apply Hat; by right].
    exists b2. apply Hat. left. split; [done|]. split; [|done]. destruct F8 as [[(_ & _ & Hk0) _]|(_ & Hbt & _)].
    - destruct Hx as (Hx1 & _ & <-). congruence.
    - destruct Hx as (Hx1 & _). assert (bx = b0) as -> by congruence. rewrite Ht in Hbt. by destruct Hbt. }
  eapply (rep_step pbn ok s _ a (taken k sync a) k id b0 b2); try done.
  - unfold put. bcbn. by rewrite F1, insert_insert_eq.
  - by apply (lists_same _ _ _ id b).
  - apply (hash_same _ _ id b); [done..|]. intros Hu. by apply F7 in Hu as [? _].
  - intros k0 Hat0. destruct F8 as [[(_ & _ & Hk0) _]|(Hno & Ht & _)].
    + left. destruct Hat0 as (_ & _ & <-). done.
    + right. destruct (re_obj _ _ _ _ R _ _ _ Hat0) as [_ Ho].
      destruct Ho as [(_ & _ & ? & ?)|[(_ & _ & _ & _ & _ & ? & ?)|[(E & _)|(E & _)]]]; [done..| |]; rewrite E in Ht; by destruct Ht.
  - apply hold_key_same.
  - right. right. right. rewrite E1, E3, E4, E5. split_and!; try done. eexists. split; [apply lookup_insert_eq|]. cbn [h_buf h_mod].
    split; [done|]. split; [|split]; [|by intros _|intros _ Hd; apply Hll, U5, Hd].
    intros c. destruct sync; [|done]. intros [= <-]. by apply Hlb, Hs.
  - intros Hn. apply (re_clean _ _ _ _ R); done.
  - intros h c. cbn. rewrite lookup_insert_eq. intros [= <-]. cbn. destruct sync; [|done]. intros [= <-]. split; [|done].
    destruct Hpl as [<- _]. f_equal. symmetry. by apply Hlb, Hs.
Qed.

Lemma get_bc_wp s a ino lb (sync : bool) (Q : Z -> bm -> Prop) :
  rep s a -> 0 <= ino < 2 ^ 32 -> 0 <= lb < 2 ^ 32 -> ok (key ino lb) -> pbn ino lb <> 0 ->
  ab_held a !! key ino lb = None -> key ino lb ∈ ab_dirty a \/ Z.of_nat (size (busy a)) < bm_cache_size s ->
  (forall id b s', rep s' (taken (key ino lb) sync a) -> at_key s' (key ino lb) id b -> kept s s' -> stable s s' -> Q id s') ->
  wp (nvfuse_get_bc pbn ino lb sync) Q s.
Proof.
  intros R Hino Hlb Hok Hp Hh Hroom HQ. destruct (make_key ino lb Hino Hlb) as (Ek & Ei & El). set (k := key ino lb) in *.
  assert (place k = pbn ino lb) as Epl by (unfold BufferSpec.place; by rewrite Ei, El).
  unfold nvfuse_get_bc. rewrite Ek. wp_step. apply (find_wp s a k lb); [done..|]. intros s1 id b0 b F [U1 U2 U3 U4 U5 U6].
  destruct U1 as (Ut & Ur & Ul & Uk). pose proof F as [F0 F1 F2 F3 F4 F5 F6 F7 F8].
  assert (s1 = put id b s1) as -> by (rewrite put_id; [done|by rewrite F1, lookup_insert_eq]).
  wp_step. apply wp_put_obj. wp_step.
  assert (wp (if bc_pno b =? 0 then massert (negb (pbn ino lb =? 0));; upd_obj id (set_pno (pbn ino lb)) else mret tt)
            (fun _ s => s = put id (set_pno (place k) b) s1) (put id b s1)) as Hpno.
  { destruct (Z.eqb_spec (bc_pno b) 0) as [E|E].
    - wp_step. apply wp_assert; [by apply negb_true_iff, Z.eqb_neq|]. apply wp_put_upd. by rewrite Epl.
    - destruct U2 as [?|E']; [done|]. wp_step. assert (set_pno (place k) b = b) as -> by (rewrite <- E'; by destruct b). done. }
  eapply wp_mono; [exact Hpno|]. clear Hpno. intros [] s2 ->. set (b1 := set_pno (place k) b).
  assert (block s1 (place k) = ab_dev a k) as Hblk.
  { rewrite (re_dev _ _ _ _ R) by done. unfold block. by rewrite (kp_dev _ _ F3). }
  set (b2 := if sync && negb (bc_load b1) then set_load true (set_buf (ab_dev a k) b1) else b1).
  wp_step. apply wp_put_obj. wp_step. wp_step.
  assert (wp (if sync && negb (bc_load b1) then upd_obj id (fun b => set_load true (set_buf (block (put id b1 s1) (bc_pno b)) b)) else mret tt)
            (fun _ s => s = put id b2 s1) (put id b1 s1)) as Hload.
  { unfold b2. destruct (sync && negb (bc_load b1)); [|by wp_step]. apply wp_put_upd.
    change (block (put id b1 s1) (bc_pno b1)) with (block s1 (place k)). by rewrite Hblk. }
  wp_step. eapply wp_mono; [exact Hload|]. clear Hload. intros [] s2 ->.
  assert (bc_bno b2 = k /\ bc_ref b2 = 1 /\ bc_pno b2 = place k) as (En & Er & Epn) by (unfold b2; by destruct (sync && negb (bc_load b1))).
  wp_step. apply wp_put_obj. wp_step. apply wp_assert; [apply Z.eqb_eq; unfold bc_ino; by rewrite En|].
  wp_step. apply wp_assert; [apply Z.eqb_eq; unfold bc_lbno; by rewrite En|]. wp_step. apply wp_assert; [by rewrite Er|].
  wp_step. apply wp_assert; [rewrite Epn, Epl; by apply negb_true_iff, Z.eqb_neq|]. wp_step.
  assert (length (ab_dev a k) = Z.to_nat CLUSTER_SIZE) as Hdl by (rewrite (re_dev _ _ _ _ R) by done; apply (re_block _ _ _ _ R)).
  assert (bc_load b2 = true -> bc_buf b2 = ab_now a k) as Hbuf.
  { unfold b2. destruct (sync && negb (bc_load b1)) eqn:E; [|by apply U4]. intros _. cbn. symmetry. apply (re_clean _ _ _ _ R); [done|].
    rewrite <- U3. intros Hd%U5. apply andb_true_iff in E as [_ E]. cbn in E. by rewrite Hd in E. }
  edestruct (found_rep s s1 a k id b0 b b2 sync) as (R2 & Hat2 & Hk2 & Hst);
    [exact R|done|done|exact F|by split|..]; [..|by eapply HQ]; try done; unfold b2.
  - destruct U6 as (? & ? & ?). by destruct (sync && negb (bc_load b1)).
  - by destruct (sync && negb (bc_load b1)).
  - by destruct (sync && negb (bc_load b1)).
  - by destruct (sync && negb (bc_load b1)).
  - by destruct (sync && negb (bc_load b1)).
  - by destruct (sync && negb (bc_load b1)).
  - intros ->. cbn [andb]. by destruct (bc_load b1) eqn:E.
  - intros E. cbn. rewrite E. by rewrite andb_false_r.
Qed.

End get.
End BufferGet.

(** ** The buffer cache: buffers in use, dropped blocks *)
Import Layout BufferCache CacheLists BufferSpec BufferRules BufferOps BufferFind BufferGet.

Module BufferUse.

(** Stores that agree block by block *)
#[export] Instance store_equiv : Equiv store := fun a a' =>
  (forall k, ab_now a k = ab_now a' k) /\ (forall k, ab_dev a k = ab_dev a' k) /\ ab_held a = ab_held a' /\
  (forall k, k ∈ ab_dirty a <-> k ∈ ab_dirty a').
#[export] Instance store_equivalence : Equivalence (≡@{store}).
Proof.
  split.
  - intros a. by repeat split.
  - intros a a' (H1 & H2 & H3 & H4). split; [by intros; rewrite H1|]. split; [by intros; rewrite H2|]. split; [done|]. intros k. by rewrite H4.
  - intros a1 a2 a3 (H1 & H2 & H3 & H4) (J1 & J2 & J3 & J4).
    split; [congruence|]. split; [congruence|]. split; [congruence|]. intros k. by rewrite H4.
Qed.

(** ** The operations of the store *)

Definition changed (k : Z) (c : option (list Z)) (a : store) : store := hold_key a k (mk_hold c true).
Definition marked (k : Z) (c : option (list Z)) (a : store) : store :=
  mk_store (ab_now a) (ab_dev a) (<[ k := mk_hold c true ]> (ab_held a)) ({[ k ]} ∪ ab_dirty a).
Definition dropped (k : Z) (a : store) : store :=
  mk_store (fupd k (ab_dev a k) (ab_now a)) (ab_dev a) (ab_held a) (ab_dirty a ∖ {[ k ]}).

(** The contents of a buffer in use *)
Definition bh_read (bh : nvfuse_buffer_head) : BM (list Z) := b ← get_obj (bh_bc bh); mret (bc_buf b).
Definition bh_write (bh : nvfuse_buffer_head) (f : list Z -> list Z) : BM unit := upd_obj (bh_bc bh) (fun b => set_buf (f (bc_buf b)) b).

Section use.
Context (pbn : Z -> Z -> Z) (ok : Z -> Prop).
Notation rep := (rep pbn ok).
Notation obj_rep := (obj_rep pbn).
Notation place := (place pbn).
Implicit Types (s : bm) (a : store) (b : nvfuse_buffer_cache).

#[export] Instance rep_proper s : Proper ((≡) ==> iff) (rep s).
Proof.
  assert (forall a a', a ≡ a' -> rep s a -> rep s a') as Hp.
  { intros a a' (E1 & E2 & E3 & E4) [R1 R2 R3 R4 R5 R6 R7 R8 R9 R10 R11 R12 R13]. split; try done.
    - intros k id b Hat. destruct (R4 k id b Hat) as [? Ho]. split; [done|]. unfold BufferSpec.obj_rep in *.
      rewrite <- E3, <- !E1. by setoid_rewrite <- (E4 k).
    - intros k Hk. rewrite <- E3, <- E4. by apply R5.
    - intros k Hk. rewrite <- E2. by apply R8.
    - intros k Hk Hd. rewrite <- E1, <- E2. apply R10; [done|]. by rewrite E4.
    - intros k h c. rewrite <- E3, <- E1. apply R11. }
  intros a a' E. split; [by apply Hp|apply Hp; by symmetry].
Qed.

(** ** Buffers in use *)

Lemma held_at s a k id b h : rep s a -> at_key s k id b -> ab_held a !! k = Some h ->
  bc_list_type b = BUFFER_TYPE_REF /\ bc_ref b = 1 /\ bc_locked b = true /\ bc_pno b = place k /\ (bc_dirty b = true <-> k ∈ ab_dirty a) /\
  (forall c, h_buf h = Some c -> bc_buf b = c) /\ (h_mod h = false -> bc_load b = true -> bc_buf b = ab_now a k) /\
  (h_mod h = false -> bc_dirty b = true -> bc_load b = true).
Proof.
  intros R Hat Hh. destruct (held_ref pbn ok s a k h R Hh) as (id' & b' & Hat' & Hrest).
  by destruct (at_key_fun s k id id' b b' (re_hash _ _ _ _ R) Hat Hat') as [<- <-].
Qed.

(** The holder changes the contents, and may mark the buffer dirty. *)
Lemma use_rep s a k id b h c (l : list Z) (mark : bool) :
  rep s a -> at_key s k id b -> ab_held a !! k = Some h -> length l = Z.to_nat CLUSTER_SIZE -> (forall c', c = Some c' -> l = c') ->
  rep (put id (set_dirty (mark || bc_dirty b) (set_buf l b)) s) (if mark then marked k c a else changed k c a).
Proof.
  intros R Hat Hh Hl Hc. destruct (held_at s a k id b h R Hat Hh) as (H1 & H2 & H3 & H4 & H5 & H6 & H7 & H8).
  pose proof Hat as (Hb & Hi & Hn). pose proof (re_buf _ _ _ _ R id b Hb) as (P1 & P2 & P3).
  assert (ok k) as Hok by (by eapply re_obj). set (a' := if mark then _ else _). set (b' := set_dirty _ _).
  assert (ab_held a' = <[ k := mk_hold c true ]> (ab_held a)) as Eh by (unfold a'; by destruct mark).
  assert (ab_now a' = ab_now a) as En by (unfold a'; by destruct mark).
  assert (bc_dirty b' = true <-> k ∈ ab_dirty a') as Hd.
  { unfold a', b'. destruct mark; cbn; [set_solver|by rewrite H5]. }
  eapply (rep_in_place pbn ok s _ a a' k id b b'); try done.
  - by apply (re_lock _ _ _ _ R).
  - apply (lists_same _ _ _ id b); [by apply (re_lists _ _ _ _ R)|done..].
  - unfold a'. destruct mark; [|apply hold_key_same]. split; try done; cbn.
    + intros k' Hk. by rewrite lookup_insert_ne.
    + intros k' Hk. set_solver.
  - right. right. right. split_and!; try done. exists (mk_hold c true). rewrite Eh, lookup_insert_eq. split; [done|]. split; [done|].
    split; [|done]. intros c' Hc'. by apply Hc.
  - intros Hni. rewrite En. apply (re_clean _ _ _ _ R); [done|]. revert Hni. unfold a'. destruct mark; cbn; [set_solver|done].
  - intros h' c'. rewrite Eh, lookup_insert_eq. intros [= <-]. cbn. intros E. split; [|done]. by rewrite <- (Hc c').
Qed.

(** ** Dropping a block *)

Lemma drop_wp s a k (Q : unit -> bm -> Prop) : rep s a -> ok k -> ab_held a !! k = None ->
  (forall s', rep s' (dropped k a) -> kept s s' -> stable s s' -> Q tt s') -> wp (nvfuse_move_bc_to_unused_list k) Q s.
Proof.
  intros R Hok Hh HQ. pose proof (re_lock _ _ _ _ R) as Hlock. pose proof (re_lists _ _ _ _ R) as Hl.
  unfold nvfuse_move_bc_to_unused_list. wp_step. apply wp_bm_lock; [done|]. wp_step.
  apply wp_hash_lookup; [apply (re_hash _ _ _ _ R)| |].
  - intros id b Hat. change (at_key s k id b) in Hat. pose proof Hat as (Hb & Hi & Hn).
    assert (bc_locked b = false) as Hbl.
    { destruct (re_obj _ _ _ _ R _ _ _ Hat) as [_ Ho].
      destruct Ho as [(_ & [[_ ?] _] & _)|[(_ & [_ ?] & _)|[(_ & [_ ?] & _)|(_ & _ & _ & _ & h & Hx & _)]]]; [done..|congruence]. }
    pose proof (re_buf _ _ _ _ R id b Hb) as (P1 & P2 & P3).
    rewrite <- (put_id id b (set_bm_lock true s)) by done. wp_step. wp_step. apply wp_put_lock; [done|].
    wp_step. apply wp_put_upd. wp_step. apply wp_put_upd. eapply wp_put_move; [exact Hl|exact Hb|done|done|].
    intros s' [M1 M2 M3 M4 M5 M6 M7 M8 M9]. unfold bm_spin_unlock. wp_step. apply HQ; [|done|by eapply stable_in_place].
    eapply (rep_in_place pbn ok s _ a (dropped k a) k id b); try done.
    + split; try done; cbn.
      * intros k' Hk. by apply fupd_ne.
      * intros k' Hk. set_solver.
    + left. split; [done|]. split; [done|]. split; [done|]. cbn. set_solver.
    + intros _. cbn. by rewrite fupd_eq.
    + intros h c. cbn. congruence.
  - intros Hno. wp_step. wp_step. unfold bm_spin_unlock. wp_step. destruct (re_none _ _ _ _ R k) as [_ Hd]; [exact Hno|].
    assert (set_bm_lock false (set_bm_lock true s) = s) as -> by (destruct s; cbn in *; by rewrite Hlock).
    assert (dropped k a ≡ a) as Heq; [|apply HQ; [by rewrite Heq|done|intros k' id b Hat _; by exists b]]. split; [|split; [|split]]; try done; cbn.
    + intros k'. unfold fupd. destruct (Z.eqb_spec k' k) as [->|]; [|done]. symmetry. by apply (re_clean _ _ _ _ R).
    + intros k'. set_solver.
Qed.

End use.
End BufferUse.
