(* ===== verification/BufferFlush.v ===== *)
(** * The buffer cache: writing out *)
From S2P Require Import Prelude Layout BufferCache BufferRules BufferFind BufferUse.
Import Layout BufferCache CacheLists BufferSpec BufferRules BufferOps BufferFind BufferGet BufferUse.

Module BufferFlush.

(** ** Changes of many objects *)

Fixpoint map_all {V} (f : V -> V) (l : list Z) (m : gmap Z V) : gmap Z V :=
  match l with [] => m | id :: l => map_all f l (alter f id m) end.

Lemma map_all_lookup {V} (f : V -> V) l : forall m id, NoDup l ->
  map_all f l m !! id = if decide (id ∈ l) then f <$> m !! id else m !! id.
Proof.
  induction l as [|x l IH]; intros m id Hnd; cbn [map_all]; [done|]. apply NoDup_cons in Hnd as [Hx Hl]. rewrite IH by done.
  destruct (decide (id = x)) as [->|Hne].
  - rewrite decide_False by done. rewrite decide_True by (apply elem_of_cons; by left). by rewrite lookup_alter_eq.
  - rewrite lookup_alter_ne by done. destruct (decide (id ∈ l)) as [Hi|Hi].
    + by rewrite decide_True by (apply elem_of_cons; by right).
    + rewrite decide_False; [done|]. by intros [?|?]%elem_of_cons.
Qed.

Lemma map_all_size {V} (f : V -> V) l : forall m : gmap Z V, size (map_all f l m) = size m.
Proof.
  induction l as [|x l IH]; intros m; cbn [map_all]; [done|]. rewrite IH, <- !size_dom. f_equal. apply leibniz_equiv, dom_alter.
Qed.

Lemma alter_put id b f s : bm_bcs s !! id = Some b -> bm_bcs (put id (f b) s) = alter f id (bm_bcs s).
Proof.
  intros Hb. apply map_eq. intros x. unfold put. bcbn. destruct (decide (id = x)) as [<-|].
  - by rewrite lookup_insert_eq, lookup_alter_eq, Hb.
  - by rewrite lookup_insert_ne, lookup_alter_ne.
Qed.

(** The jobs as writes *)
Lemma write_lookup jobs : forall (d : gmap Z (list Z)) p, NoDup (jobs.*1) ->
  (forall c, (p, c) ∈ jobs -> foldl (fun d j => <[ j.1 := j.2 ]> d) d jobs !! p = Some c) /\
  ((forall c, (p, c) ∉ jobs) -> foldl (fun d j => <[ j.1 := j.2 ]> d) d jobs !! p = d !! p).
Proof.
  induction jobs as [|[q c] jobs IH]; intros d p Hnd; cbn [foldl]; [split; [by intros c ?%elem_of_nil|done]|].
  cbn in Hnd. apply NoDup_cons in Hnd as [Hq Hnd]. destruct (IH (<[ q := c ]> d) p Hnd) as [H1 H2]. cbn [Datatypes.fst snd].
  assert (forall c', (q, c') ∉ jobs) as Hno by (intros c' Hin; apply Hq, list_elem_of_fmap; by exists (q, c')).
  split.
  - intros c' [[= -> ->]|Hin]%elem_of_cons; [|by apply H1]. rewrite H2 by done. apply lookup_insert_eq.
  - intros Hn. rewrite H2; [|intros c' Hin; apply (Hn c'), elem_of_cons; by right].
    apply lookup_insert_ne. intros ->. apply (Hn c), elem_of_cons. by left.
Qed.

Definition to_flush b : nvfuse_buffer_cache := set_type BUFFER_TYPE_FLUSHING (set_flush true b).
Definition flushed_buf b : nvfuse_buffer_cache := set_type BUFFER_TYPE_CLEAN (set_flush false (set_dirty false b)).

(** What a loop over a list leaves alone *)
Record swept (f : nvfuse_buffer_cache -> nvfuse_buffer_cache) (l : list Z) s s' : Prop := {
  sw_bcs : bm_bcs s' = map_all f l (bm_bcs s);
  sw_lists : lists_ok (bm_bcs s') (lst s') (count s');
  sw_lock : bm_lock s' = bm_lock s;
  sw_hash : bm_hash s' = bm_hash s;
  sw_kept : kept s s' }.

Lemma swept_nil f s : lists_ok (bm_bcs s) (lst s) (count s) -> swept f [] s s.
Proof. by split. Qed.

Lemma swept_cons f id b l s s1 s2 : bm_bcs s !! id = Some b -> moved id (f b) s s1 -> swept f l s1 s2 -> swept f (id :: l) s s2.
Proof.
  intros Hb [M1 M2 M3 M4 M5 M6 M7 M8 M9] [W1 W2 W3 W4 [K1 K2 K3 K4 K5]]. split; try congruence; [|by split; congruence].
  rewrite W1. cbn [map_all]. by rewrite <- (alter_put id b f s), M1.
Qed.

Section loops.
Implicit Types (s : bm) (b : nvfuse_buffer_cache).

Definition dirty_at s id : Prop := exists b, bm_bcs s !! id = Some b /\ bc_locked b = false /\ bc_dirty b = true.

Lemma collect_dirty_wp l : forall s n (Q : Z -> bm -> Prop), NoDup l -> lists_ok (bm_bcs s) (lst s) (count s) ->
  (forall id, id ∈ l -> dirty_at s id) -> 0 <= n < AIO_MAX_QDEPTH ->
  (forall s' d, d `prefix_of` l -> (l <> [] -> d <> []) -> n + Z.of_nat (length d) <= AIO_MAX_QDEPTH -> swept to_flush d s s' ->
     Q (n + Z.of_nat (length d)) s') -> wp (collect_dirty l n) Q s.
Proof.
  induction l as [|id l IH]; intros s n Q Hnd Hl Hd Hn HQ; cbn [collect_dirty].
  { wp_step. specialize (HQ s []). cbn in HQ. rewrite Z.add_0_r in HQ. apply HQ; [done|done|lia|by apply swept_nil]. }
  apply NoDup_cons in Hnd as [Hid Hnd]. destruct (Hd id) as (b & Hb & Hbl & Hbd); [apply elem_of_cons; by left|].
  rewrite <- (put_id id b s) by done. wp_step. apply wp_put_lock; [done|]. wp_step. apply wp_put_obj. wp_step.
  apply wp_assert; [done|]. wp_step. apply wp_put_upd. wp_step. eapply wp_put_move; [exact Hl|exact Hb|done|done|].
  intros s1 M1. assert (s1 = put id (set_type BUFFER_TYPE_FLUSHING (set_flush true (set_lock true b))) s1) as E1.
  { symmetry. apply put_id. by rewrite (mv_bcs _ _ _ _ M1), lookup_insert_eq. }
  rewrite E1. unfold bc_spin_unlock. wp_step. apply wp_put_upd.
  assert (set_lock false (set_type BUFFER_TYPE_FLUSHING (set_flush true (set_lock true b))) = to_flush b) as Eb by (destruct b; cbn in *; by subst).
  rewrite Eb. set (s2 := put id (to_flush b) s1).
  assert (moved id (to_flush b) s s2) as M2.
  { destruct M1 as [M1 M2 M3 M4 M5 M6 M7 M8 M9]. unfold s2. split; try done; [unfold put; bcbn; by rewrite M1, insert_insert_eq|].
    eapply lists_same; [exact M2|by rewrite M1, lookup_insert_eq|done]. }
  assert (forall x, x ∈ l -> dirty_at s2 x) as Hd2.
  { intros x Hx. destruct (Hd x) as (bx & Hbx & ?); [apply elem_of_cons; by right|]. exists bx.
    rewrite (mv_bcs _ _ _ _ M2), lookup_insert_ne by congruence. done. }
  destruct (Z.leb_spec AIO_MAX_QDEPTH (n + 1)) as [Hfull|Hmore].
  - wp_step. specialize (HQ s2 [id]). cbn in HQ. apply HQ; [by apply prefix_cons, prefix_nil|done|lia|].
    eapply swept_cons; [exact Hb|exact M2|]. apply swept_nil, (mv_lists _ _ _ _ M2).
  - apply IH; [done|apply (mv_lists _ _ _ _ M2)|done|lia|].
    intros s' d Hp Hne Hle W. specialize (HQ s' (id :: d)). cbn [length] in HQ.
    replace (n + 1 + Z.of_nat (length d)) with (n + Z.of_nat (S (length d))) by lia.
    apply HQ; [by apply prefix_cons|done|lia|]. by eapply swept_cons.
Qed.

Lemma finish_wp l : forall s (Q : unit -> bm -> Prop), NoDup l -> lists_ok (bm_bcs s) (lst s) (count s) ->
  (forall id, id ∈ l -> dirty_at s id) -> (forall s', swept flushed_buf l s s' -> Q tt s') -> wp (finish_flush l) Q s.
Proof.
  induction l as [|id l IH]; intros s Q Hnd Hl Hd HQ; cbn [finish_flush].
  { wp_step. apply HQ. by apply swept_nil. }
  apply NoDup_cons in Hnd as [Hid Hnd]. destruct (Hd id) as (b & Hb & Hbl & Hbd); [apply elem_of_cons; by left|].
  rewrite <- (put_id id b s) by done. wp_step. apply wp_put_lock; [done|]. wp_step. apply wp_put_obj. wp_step.
  apply wp_assert; [done|]. wp_step. apply wp_put_upd. wp_step. eapply wp_put_move; [exact Hl|exact Hb|done|done|].
  intros s1 M1. set (b1 := set_type _ _) in M1.
  assert (s1 = put id b1 s1) as E1 by (symmetry; apply put_id; by rewrite (mv_bcs _ _ _ _ M1), lookup_insert_eq).
  rewrite E1. unfold bc_spin_unlock. wp_step. apply wp_put_upd.
  assert (set_lock false b1 = flushed_buf b) as Eb by (destruct b; cbn in *; by subst).
  rewrite Eb. set (s2 := put id (flushed_buf b) s1).
  assert (moved id (flushed_buf b) s s2) as M2.
  { destruct M1 as [M1 M2 M3 M4 M5 M6 M7 M8 M9]. unfold s2. split; try done; [unfold put; bcbn; by rewrite M1, insert_insert_eq|].
    eapply lists_same; [exact M2|by rewrite M1, lookup_insert_eq|done]. }
  apply IH; [done|apply (mv_lists _ _ _ _ M2)| |].
  - intros x Hx. destruct (Hd x) as (bx & Hbx & ?); [apply elem_of_cons; by right|]. exists bx.
    rewrite (mv_bcs _ _ _ _ M2), lookup_insert_ne by congruence. done.
  - intros s' W. apply HQ. by eapply swept_cons.
Qed.

(** A job for each buffer; the buffers stay as they are. *)
Lemma collect_jobs_wp l : forall s (Q : list (Z * list Z) -> bm -> Prop),
  (forall id, id ∈ l -> exists b, bm_bcs s !! id = Some b /\ bc_locked b = false /\ bc_dirty b = true /\ bc_flush b = true) ->
  (forall jobs, Forall2 (fun id j => exists b, bm_bcs s !! id = Some b /\ j = (bc_pno b, bc_buf b)) l jobs -> Q jobs s) ->
  wp (collect_jobs l) Q s.
Proof.
  induction l as [|id l IH]; intros s Q Hd HQ; cbn [collect_jobs]; [wp_step; by apply HQ|].
  destruct (Hd id) as (b & Hb & Hbl & Hbd & Hbf); [apply elem_of_cons; by left|].
  rewrite <- (put_id id b s) by done. unfold bc_spin_unlock. wp_step. apply wp_put_lock; [done|]. wp_step. apply wp_put_obj.
  wp_step. apply wp_assert; [done|]. wp_step. apply wp_assert; [done|]. wp_step. apply wp_put_upd.
  assert (set_lock false (set_lock true b) = b) as -> by (destruct b; cbn in *; by subst). rewrite put_id by done.
  wp_step. apply IH; [intros x Hx; apply Hd, elem_of_cons; by right|]. intros jobs Hj. wp_step. apply HQ.
  constructor; [by exists b|done].
Qed.

End loops.
Definition flushed (X : gset Z) (a : store) : store :=
  mk_store (ab_now a) (fun k => if bool_decide (k ∈ X) then ab_now a k else ab_dev a k) (ab_held a) (ab_dirty a ∖ X).
Definition to_write (a : store) : gset Z := ab_dirty a ∖ dom (ab_held a).

Record kept_dev s s' : Prop := {
  kd_size : bm_cache_size s' = bm_cache_size s;
  kd_bh : bm_bh_free s' = bm_bh_free s;
  kd_bc : bm_bc_free s' = bm_bc_free s;
  kd_next : bm_next s' = bm_next s;
  kd_ref : forall k id b, at_key s k id b -> bc_list_type b = BUFFER_TYPE_REF -> at_key s' k id b }.

Section flush.
Context (pbn : Z -> Z -> Z) (ok : Z -> Prop).
Notation rep := (rep pbn ok).
Notation obj_rep := (obj_rep pbn).
Notation place := (place pbn).
Hypothesis pbn_inj : forall k k', ok k -> ok k' -> place k = place k' -> k = k'.
Implicit Types (s : bm) (a : store) (b : nvfuse_buffer_cache).

Lemma obj_types s a id b : rep s a -> bm_bcs s !! id = Some b -> bc_list_type b <> BUFFER_TYPE_FLUSHING /\
  (bc_list_type b = BUFFER_TYPE_DIRTY -> at_key s (bc_bno b) id b /\ idle b /\ bc_dirty b = true /\ bc_load b = true /\
     bc_pno b = place (bc_bno b) /\ bc_buf b = ab_now a (bc_bno b) /\ ab_held a !! bc_bno b = None /\ bc_bno b ∈ ab_dirty a).
Proof.
  intros R Hb. destruct (decide (id ∈ bucket s HASH_NUM)) as [Hu|Hu].
  - rewrite (ha_unused _ _ (re_hash _ _ _ _ R) id b Hu Hb). done.
  - pose proof (rep_at_key pbn ok s a id b R Hb Hu) as Hat. destruct (re_obj _ _ _ _ R _ _ _ Hat) as [_ Ho].
    destruct Ho as [(E & _)|[(E & _)|[(E & H1 & H2 & H3 & H4 & H5 & H6 & H7)|(E & _)]]]; rewrite E; try done; by split_and!.
Qed.

(** The result of a round: the buffers [d] were written and are clean. *)
Lemma round_rep s s' a (d : list Z) : rep s a -> NoDup d -> (forall id, id ∈ d -> id ∈ lst s BUFFER_TYPE_DIRTY) ->
  (forall id, bm_bcs s' !! id = (fun b => if decide (id ∈ d) then set_type BUFFER_TYPE_CLEAN (set_dirty false b) else b) <$> bm_bcs s !! id) ->
  size (bm_bcs s') = size (bm_bcs s) ->
  bm_hash s' = bm_hash s -> bm_lock s' = false -> kept_dev s s' -> lists_ok (bm_bcs s') (lst s') (count s') ->
  (forall id b, id ∈ d -> bm_bcs s !! id = Some b -> block s' (bc_pno b) = bc_buf b) ->
  (forall p, (forall id b, id ∈ d -> bm_bcs s !! id = Some b -> bc_pno b <> p) -> block s' p = block s p) ->
  exists X, X ⊆ to_write a /\ rep s' (flushed X a).
Proof.
  intros R Hnd Hd Eb Esz Eh Elock [E1 E2 E3 E4 _] Hl Hw1 Hw2.
  set (keyof := fun id => default 0 (bc_bno <$> bm_bcs s !! id)).
  set (X := list_to_set (C := gset Z) (keyof <$> d)).
  pose proof R as [R1 R2 R3 R4 R5 R6 R7 R8 R9 R10 R11 R12 R13].
  assert (bucket s' = bucket s) as EB by (unfold bucket; by rewrite Eh).
  assert (forall id, id ∈ d -> exists b, bm_bcs s !! id = Some b /\ bc_list_type b = BUFFER_TYPE_DIRTY) as Hdb by (intros id Hi; by apply R2, Hd).
  assert (forall k, k ∈ X <-> exists id b, id ∈ d /\ bm_bcs s !! id = Some b /\ bc_bno b = k) as HX.
  { intros k. unfold X. rewrite elem_of_list_to_set, list_elem_of_fmap. split.
    - intros (id & -> & Hi). destruct (Hdb id Hi) as (b & Hb & _). exists id, b. unfold keyof. by rewrite Hb.
    - intros (id & b & Hi & Hb & <-). exists id. unfold keyof. by rewrite Hb. }
  assert (forall k id b, at_key s k id b -> k ∈ X <-> id ∈ d) as HX'.
  { intros k id b Hat. rewrite HX. pose proof Hat as (Hb & _ & Hk). split; [|intros Hi; by exists id, b].
    intros (id' & b' & Hi & Hb' & Hk'). destruct (Hdb id' Hi) as (b'' & Hb'' & Ht). assert (b'' = b') as -> by congruence.
    destruct (obj_types s a id' b' R Hb') as [_ Hx]. destruct (Hx Ht) as [Hat' _]. rewrite Hk' in Hat'.
    by destruct (at_key_fun _ _ _ _ _ _ R3 Hat Hat') as [-> _]. }
  exists X. split.
  { intros k (id & b & Hi & Hb & <-)%HX. destruct (Hdb id Hi) as (b' & Hb' & Ht). assert (b' = b) as -> by congruence.
    destruct (obj_types s a id b R Hb) as [_ Hx]. destruct (Hx Ht) as (_ & _ & _ & _ & _ & _ & Hh & Hk).
    apply elem_of_difference. split; [done|]. by apply not_elem_of_dom. }
  assert (forall k id b', at_key s' k id b' -> exists b, at_key s k id b /\ b' = if decide (id ∈ d) then set_type BUFFER_TYPE_CLEAN (set_dirty false b) else b) as Hat'.
  { intros k id b' (Hb' & Hi & Hk). rewrite Eb in Hb'. destruct (bm_bcs s !! id) as [b|] eqn:Hb; [|done]. injection Hb' as <-.
    exists b. split; [|done]. rewrite EB in Hi. split; [done|]. split; [done|]. by destruct (decide (id ∈ d)). }
  assert (forall k, k ∈ X -> ok k /\ ab_now a k = block s' (place k) /\ k ∈ ab_dirty a /\ ab_held a !! k = None) as HXw.
  { intros k (id & b & Hi & Hb & <-)%HX. destruct (Hdb id Hi) as (b' & Hb' & Ht). assert (b' = b) as -> by congruence.
    destruct (obj_types s a id b R Hb) as [_ Hx]. destruct (Hx Ht) as (Hat & _ & _ & _ & Hp & Hbuf & Hh & Hk).
    split; [by eapply R4|]. rewrite <- Hp, <- Hbuf, (Hw1 id b) by done. done. }
  assert (forall k, ok k -> k ∉ X -> block s' (place k) = block s (place k)) as HXo.
  { intros k Hk Hni. apply Hw2. intros id b Hi Hb Hp. destruct (Hdb id Hi) as (b' & Hb' & Ht). assert (b' = b) as -> by congruence.
    destruct (obj_types s a id b R Hb) as [_ Hx]. destruct (Hx Ht) as (Hat & _ & _ & _ & Hp' & _). rewrite Hp' in Hp.
    apply pbn_inj in Hp; [|by eapply R4|done]. apply Hni, HX. by exists id, b. }
  split; try done.
  - rewrite EB. destruct R3 as [H1 H2 H3 H4 H5 H6 H7].
    assert (forall x bx, bm_bcs s' !! x = Some bx -> exists b, bm_bcs s !! x = Some b /\ bc_bno bx = bc_bno b /\
      (bc_list_type b = BUFFER_TYPE_UNUSED -> bc_list_type bx = BUFFER_TYPE_UNUSED)) as Hold.
    { intros x bx. rewrite Eb. destruct (bm_bcs s !! x) as [b|] eqn:Hb; [|done]. intros [= <-]. exists b. split; [done|].
      destruct (decide (x ∈ d)) as [Hx|]; [|done]. split; [done|]. intros Ht. destruct (Hdb x Hx) as (b' & Hb' & Ht').
      assert (b' = b) as -> by congruence. by rewrite Ht in Ht'. }
    assert (forall x, is_Some (bm_bcs s' !! x) <-> is_Some (bm_bcs s !! x)) as Hdom by (intros x; rewrite Eb; apply fmap_is_Some).
    split; try done.
    + intros h id Hi. apply Hdom. by eapply H2.
    + intros id Hi%Hdom. by apply H4.
    + intros h id bx Hi Hh (b & Hb & -> & _)%Hold. by eapply H5.
    + intros h id id' bx bx' Hh Hi Hi' (b & Hb & -> & _)%Hold (b' & Hb' & -> & _)%Hold. by eapply H6.
    + intros id bx Hi (b & Hb & _ & Ht)%Hold. by eapply Ht, H7.
  - intros k id b' Hk. destruct (Hat' k id b' Hk) as (b & Hat & ->). destruct (R4 k id b Hat) as [Hok Ho]. split; [done|].
    pose proof (HX' k id b Hat) as Hx. destruct (decide (id ∈ d)) as [Hi|Hi].
    + destruct Hat as (Hb & _ & Hn). destruct (Hdb id Hi) as (b0 & Hb0 & Ht). assert (b0 = b) as -> by congruence.
      destruct (obj_types s a id b R Hb) as [_ Hy]. destruct (Hy Ht) as (_ & [I1 I2] & _ & _ & Hp & Hbuf & Hh & _). rewrite Hn in *.
      right. left. split_and!; try done. cbn. apply not_elem_of_difference. right. by apply Hx.
    + assert (k ∈ ab_dirty (flushed X a) <-> k ∈ ab_dirty a) as Hdd.
      { cbn. rewrite elem_of_difference, Hx. tauto. }
      unfold BufferSpec.obj_rep in *. setoid_rewrite Hdd. exact Ho.
  - intros k Hno. destruct (R5 k) as [Hh Hn].
    + intros id b Hat. apply (Hno id (if decide (id ∈ d) then set_type BUFFER_TYPE_CLEAN (set_dirty false b) else b)).
      destruct Hat as (Hb & Hi & Hk). split; [by rewrite Eb, Hb|]. rewrite EB. split; [done|]. by destruct (decide (id ∈ d)).
    + split; [done|]. cbn. set_solver.
  - intros id b'. rewrite Eb, EB. destruct (bm_bcs s !! id) as [b|] eqn:Hb; [|done]. intros [= <-] Hi.
    destruct (decide (id ∈ d)) as [Hx|]; [|by apply (R6 id)].
    destruct (Hdb id Hx) as (b0 & Hb0 & Ht). assert (b0 = b) as -> by congruence.
    pose proof (ha_unused _ _ R3 id b Hi Hb) as Hu. by rewrite Ht in Hu.
  - intros id b'. rewrite Eb. destruct (bm_bcs s !! id) as [b|] eqn:Hb; [|done]. intros [= <-].
    destruct (R7 id b Hb) as (? & ? & ?). by destruct (decide (id ∈ d)).
  - intros k Hk. cbn. case_bool_decide as Hx; [by apply HXw|]. rewrite HXo by done. by apply R8.
  - intros p. set (P := fun id => match bm_bcs s !! id with Some b => bc_pno b = p | None => False end).
    assert (forall id, Decision (P id)) as HP by (intros id; unfold P; destruct (bm_bcs s !! id); apply _).
    destruct (decide (Exists P d)) as [He|Hn].
    + apply Exists_exists in He as (id & Hi & Hp). unfold P in Hp. destruct (bm_bcs s !! id) as [b|] eqn:Hb; [|done]. subst p.
      rewrite (Hw1 id b) by done. by apply (R7 id b).
    + rewrite Hw2; [apply R9|]. intros id b Hi Hb Hp. apply Hn, Exists_exists. exists id. split; [done|]. unfold P. by rewrite Hb.
  - intros k Hk. cbn. intros Hn. case_bool_decide as Hx; [done|]. apply R10; [done|]. intros Hin. apply Hn. by apply elem_of_difference.
  - by rewrite E1, Esz.
  - intros id. rewrite Eb, E4. intros Hi%fmap_is_Some. by apply R13.
Qed.

Lemma round_wp s a (Q : unit -> bm -> Prop) : rep s a -> count s BUFFER_TYPE_DIRTY <> 0 ->
  (forall s' X, X ⊆ to_write a -> rep s' (flushed X a) -> kept_dev s s' ->
     (length (lst s' BUFFER_TYPE_DIRTY) < length (lst s BUFFER_TYPE_DIRTY))%nat -> Q tt s') ->
  wp flush_round Q s.
Proof.
  intros R Hc HQ. pose proof R as [R1 R2 R3 R4 R5 R6 R7 R8 R9 R10 R11 R12 R13].
  set (D := lst s BUFFER_TYPE_DIRTY).
  assert (D <> []) as HD. { intros E. apply Hc. rewrite (li_count _ _ _ R2). fold D. by rewrite E. }
  assert (forall id, id ∈ D -> exists b, bm_bcs s !! id = Some b /\ bc_list_type b = BUFFER_TYPE_DIRTY /\ bc_locked b = false /\ bc_dirty b = true /\
    bc_flush b = false /\ bc_pno b = place (bc_bno b) /\ at_key s (bc_bno b) id b) as HDb.
  { intros id Hi. apply R2 in Hi as (b & Hb & Ht). exists b. destruct (obj_types s a id b R Hb) as [_ Hx].
    destruct (Hx Ht) as (Hat & [_ ?] & ? & _ & ? & _). destruct (R7 id b Hb) as (_ & _ & ?). done. }
  unfold flush_round. wp_step. apply wp_bm_lock; [done|]. wp_step. wp_step. wp_step.
  change (lst (set_bm_lock true s) BUFFER_TYPE_DIRTY) with D.
  apply collect_dirty_wp; [apply R2|done| |done|].
  { intros id Hi. destruct (HDb id Hi) as (b & Hb & _ & ? & ? & _). by exists b. }
  intros s1 d Hpre Hne Hle W1. rewrite Z.add_0_l in *. assert (d <> []) as Hdne by auto. clear Hne.
  assert (forall id, id ∈ d -> id ∈ D) as HdD by (intros id Hi; destruct Hpre as [r ->]; apply elem_of_app; by left).
  assert (NoDup d) as Hnd. { destruct Hpre as [r Er]. pose proof (li_nodup _ _ _ R2 BUFFER_TYPE_DIRTY) as Hn. fold D in Hn. rewrite Er in Hn. by apply NoDup_app in Hn as [? _]. }
  destruct W1 as [W1 W2 W3 W4 [K1 K2 K3 K4 K5]]. cbn in W1, K1, K2, K3, K4, K5, W4.
  unfold bm_spin_unlock. wp_step. wp_step. unfold nvfuse_sync_dirty_data. wp_step. wp_step. apply wp_assert; [apply Z.leb_le; lia|].
  wp_step. apply wp_bm_lock; [done|]. wp_step. wp_step.
  set (s2 := set_bm_lock true (set_bm_lock false s1)). change (lst s2 BUFFER_TYPE_FLUSHING) with (lst s1 BUFFER_TYPE_FLUSHING).
  set (F := lst s1 BUFFER_TYPE_FLUSHING).
  assert (forall id, bm_bcs s1 !! id = (fun b => if decide (id ∈ d) then to_flush b else b) <$> bm_bcs s !! id) as Hs1.
  { intros id. rewrite W1, map_all_lookup by done. destruct (decide (id ∈ d)); [done|]. by destruct (bm_bcs s !! id). }
  assert (forall id, id ∈ F <-> id ∈ d) as HF.
  { intros id. unfold F. rewrite (li_in _ _ _ W2). split.
    - intros (b1 & Hb1 & Ht). rewrite Hs1 in Hb1. destruct (bm_bcs s !! id) as [b|] eqn:Hb; [|done]. injection Hb1 as <-.
      destruct (decide (id ∈ d)); [done|]. by destruct (obj_types s a id b R Hb).
    - intros Hi. destruct (HDb id (HdD id Hi)) as (b & Hb & _). exists (to_flush b). rewrite Hs1, Hb. cbn. by rewrite decide_True. }
  assert (F ≡ₚ d) as HFd by (apply NoDup_Permutation; [apply W2|done|done]).
  assert (forall id, id ∈ F -> exists b, bm_bcs s !! id = Some b /\ bm_bcs s1 !! id = Some (to_flush b) /\ bc_locked b = false /\ bc_dirty b = true /\
    bc_flush b = false /\ bc_pno b = place (bc_bno b) /\ at_key s (bc_bno b) id b) as HFb.
  { intros id Hi%HF. destruct (HDb id (HdD id Hi)) as (b & Hb & _ & Hx). exists b. split; [done|]. rewrite Hs1, Hb. cbn. by rewrite decide_True by done. }
  wp_step. apply collect_jobs_wp.
  { intros id Hi. destruct (HFb id Hi) as (b & _ & Hb1 & ? & ? & ? & _). by exists (to_flush b). }
  intros jobs Hj. change (bm_bcs s2) with (bm_bcs s1) in Hj. wp_step. apply wp_assert.
  { apply Z.eqb_eq. rewrite <- (Forall2_length _ _ _ Hj), (Permutation_length HFd). done. }
  wp_steps. unfold bm_spin_unlock. wp_steps. apply wp_assert; [by destruct d|]. unfold write_jobs. wp_step.
  set (s3 := set_dev _ _). wp_step. apply wp_bm_lock; [done|]. wp_step. wp_step. wp_step.
  change (lst (set_bm_lock true s3) BUFFER_TYPE_FLUSHING) with F.
  apply finish_wp; [apply W2|exact W2| |].
  { intros id Hi. destruct (HFb id Hi) as (b & _ & Hb1 & ? & ? & _). by exists (to_flush b). }
  intros s4 [V1 V2 V3 V4 [L1 L2 L3 L4 L5]]. wp_step. cbn in V1, V4, L1, L2, L3, L4, L5.
  assert (forall id, bm_bcs s4 !! id = (fun b => if decide (id ∈ d) then set_type BUFFER_TYPE_CLEAN (set_dirty false b) else b) <$> bm_bcs s !! id) as Hs4.
  { intros id. rewrite V1, map_all_lookup by apply W2. rewrite Hs1. destruct (bm_bcs s !! id) as [b|] eqn:Hb; [|by case_decide].
    cbn. destruct (decide (id ∈ d)) as [Hi|Hi].
    - rewrite decide_True by (by apply HF). f_equal. destruct (HDb id (HdD id Hi)) as (b' & Hb' & _ & _ & _ & Hfl & _).
      assert (b' = b) as -> by congruence. unfold flushed_buf, to_flush. destruct b; cbn in *. by subst.
    - by rewrite decide_False by (by rewrite HF). }
  assert (forall p c, (p, c) ∈ jobs <-> exists id b, id ∈ d /\ bm_bcs s !! id = Some b /\ p = bc_pno b /\ c = bc_buf b) as Hjobs.
  { intros p c. split.
    - intros Hin. apply list_elem_of_lookup in Hin as [n Hn]. destruct (Forall2_lookup_r _ _ _ _ _ Hj Hn) as (id & Hid & b1 & Hb1 & [= -> ->]).
      apply list_elem_of_lookup_2 in Hid. destruct (HFb id Hid) as (b & Hb & Hb' & _). exists id, b. split; [by apply HF|]. split; [done|].
      assert (b1 = to_flush b) as -> by congruence. done.
    - intros (id & b & Hi & Hb & -> & ->). apply HF in Hi. pose proof Hi as [n Hn]%list_elem_of_lookup.
      destruct (Forall2_lookup_l _ _ _ _ _ Hj Hn) as (j & Hjn & b1 & Hb1 & ->). destruct (HFb id Hi) as (b' & Hb' & Hb'' & _).
      assert (b1 = to_flush b) as -> by congruence. by apply list_elem_of_lookup_2 in Hjn. }
  assert (NoDup jobs.*1) as Hjn.
  { apply NoDup_alt. intros i j p Hi Hj'. rewrite !list_lookup_fmap in *. destruct (jobs !! i) as [[p1 c1]|] eqn:E1; [|done]. destruct (jobs !! j) as [[p2 c2]|] eqn:E2; [|done].
    injection Hi as ->. injection Hj' as ->. destruct (Forall2_lookup_r _ _ _ _ _ Hj E1) as (id1 & Hid1 & b1 & Hb1 & [= Ep1 _]).
    destruct (Forall2_lookup_r _ _ _ _ _ Hj E2) as (id2 & Hid2 & b2 & Hb2 & [= Ep2 _]).
    destruct (HFb id1) as (b1' & _ & Hb1' & _ & _ & _ & P1 & A1); [by eapply list_elem_of_lookup_2|].
    destruct (HFb id2) as (b2' & _ & Hb2' & _ & _ & _ & P2 & A2); [by eapply list_elem_of_lookup_2|].
    assert (b1 = to_flush b1') as -> by congruence. assert (b2 = to_flush b2') as -> by congruence. cbn in Ep1, Ep2.
    assert (bc_bno b1' = bc_bno b2') as Eq by (apply pbn_inj; [by eapply R4|by eapply R4|congruence]). rewrite <- Eq in A2.
    destruct (at_key_fun _ _ _ _ _ _ R3 A1 A2) as [-> _]. eapply NoDup_lookup; [apply (li_nodup _ _ _ W2)|exact Hid1|exact Hid2]. }
  assert (forall p, block s4 p = default zero_buf (foldl (fun d j => <[ j.1 := j.2 ]> d) (bm_dev s) jobs !! p)) as Hblk.
  { intros p. unfold block. rewrite L5. by rewrite <- K5. }
  assert (kept_dev s (set_bm_lock false s4)) as Hkd.
  { split; cbn; [congruence..|]. intros k id b (Hb & Hi & Hk) Ht. split; [|split; [|done]].
    - cbn. rewrite Hs4, Hb. cbn. destruct (decide (id ∈ d)) as [Hid|]; [|done]. apply HdD, R2 in Hid as (b' & Hb' & Ht').
      assert (b' = b) as -> by congruence. by rewrite Ht in Ht'.
    - unfold bucket. cbn. by rewrite V4, W4. }
  destruct (round_rep s (set_bm_lock false s4) a d) as (X & HX & RX); try done.
  - cbn. by rewrite V1, map_all_size, W1, map_all_size.
  - cbn. by rewrite V4, W4.
  - intros id b Hi Hb. change (block (set_bm_lock false s4) (bc_pno b)) with (block s4 (bc_pno b)). rewrite Hblk.
    rewrite (proj1 (write_lookup jobs (bm_dev s) (bc_pno b) Hjn) (bc_buf b)); [done|]. apply Hjobs. by exists id, b.
  - intros p Hp. change (block (set_bm_lock false s4) p) with (block s4 p). rewrite Hblk.
    rewrite (proj2 (write_lookup jobs (bm_dev s) p Hjn)); [done|]. intros c (id & b & Hi & Hb & -> & _)%Hjobs. by apply (Hp id b).
  - apply (HQ _ X); [done|done|done|].
    change (lst (set_bm_lock false s4) BUFFER_TYPE_DIRTY) with (lst s4 BUFFER_TYPE_DIRTY).
    assert (d ++ lst s4 BUFFER_TYPE_DIRTY ⊆+ D) as Hsub.
    { apply NoDup_submseteq.
      - apply NoDup_app. split; [done|]. split; [|apply V2]. intros id Hi (b4 & Hb4 & Ht)%V2. rewrite Hs4 in Hb4.
        destruct (bm_bcs s !! id) as [b|]; [|done]. cbn in Hb4. rewrite decide_True in Hb4 by done. by injection Hb4 as <-.
      - intros id [Hi|Hi]%elem_of_app; [by apply HdD|]. apply V2 in Hi as (b4 & Hb4 & Ht). rewrite Hs4 in Hb4. apply R2.
        destruct (bm_bcs s !! id) as [b|] eqn:Hb; [|done]. cbn in Hb4. destruct (decide (id ∈ d)) as [Hi|Hi]; injection Hb4 as <-; [done|by exists b]. }
    apply submseteq_length in Hsub. rewrite length_app in Hsub.
    assert (length d <> 0)%nat by (by destruct d). fold D. lia.
Qed.

(** ** The loop *)

Lemma flushed_all a a' X Y : a' = flushed X a -> Y ⊆ to_write a' -> X ⊆ to_write a -> flushed Y a' ≡ flushed (X ∪ Y) a /\ X ∪ Y ⊆ to_write a.
Proof.
  intros -> HY HX. split; [|unfold to_write, flushed in *; cbn in *; set_solver].
  split; [done|]. split; [|split; [done|]].
  - intros k. cbn. repeat case_bool_decide; try done; set_solver.
  - intros k. cbn. set_solver.
Qed.

Lemma kept_dev_trans s1 s2 s3 : kept_dev s1 s2 -> kept_dev s2 s3 -> kept_dev s1 s3.
Proof. intros [] []. split; [congruence..|]. auto. Qed.

Lemma flush_loop_wp fuel : forall s a (Q : unit -> bm -> Prop), rep s a -> (length (lst s BUFFER_TYPE_DIRTY) < fuel)%nat ->
  (forall s' X, X ⊆ to_write a -> rep s' (flushed X a) -> kept_dev s s' -> count s' BUFFER_TYPE_DIRTY = 0 -> Q tt s') ->
  wp (flush_loop fuel) Q s.
Proof.
  induction fuel as [|fuel IH]; intros s a Q R Hf HQ; [lia|]. cbn [flush_loop]. wp_step. wp_step.
  destruct (Z.eqb_spec (count s BUFFER_TYPE_DIRTY) 0) as [E|E].
  - wp_step. apply (HQ s ∅); [set_solver| |done|done]. assert (flushed ∅ a ≡ a) as ->; [|done].
    split; [done|]. split; [|split; [done|]]; intros k; cbn; [by rewrite bool_decide_false by set_solver|set_solver].
  - wp_step. eapply round_wp; [exact R|done|]. intros s1 X HX R1 K1 Hlen. eapply IH; [exact R1|lia|].
    intros s2 Y HY R2 K2 Hc. destruct (flushed_all a (flushed X a) X Y eq_refl HY HX) as [Heq Hsub].
    apply (HQ s2 (X ∪ Y)); [done|by rewrite <- Heq|by eapply kept_dev_trans|done].
Qed.

(** After a flush the device has what the cache held, except for buffers that
    are in use. *)
Lemma flush_wp s a (Q : unit -> bm -> Prop) : rep s a ->
  (forall s', rep s' (flushed (to_write a) a) -> kept_dev s s' -> Q tt s') -> wp nvfuse_flush_dirty_data Q s.
Proof.
  intros R HQ. unfold nvfuse_flush_dirty_data. wp_step. wp_step. eapply flush_loop_wp; [exact R|lia|].
  intros s' X HX R' K Hc. apply HQ; [|done]. assert (flushed (to_write a) a ≡ flushed X a) as ->; [|done].
  assert (to_write a ⊆ X) as Hall.
  { intros k Hk. destruct (decide (k ∈ X)) as [|Hni]; [done|]. exfalso. unfold to_write in Hk. apply elem_of_difference in Hk as [Hd Hh].
    apply not_elem_of_dom in Hh. assert (k ∈ ab_dirty (flushed X a)) as Hd' by (cbn; set_solver).
    destruct (at_key_dec s' k (re_hash _ _ _ _ R')) as [(id & b & Hat)|Hno].
    - destruct (re_obj _ _ _ _ R' _ _ _ Hat) as [_ Ho].
      destruct Ho as [(_ & _ & _ & ?)|[(_ & _ & _ & _ & _ & _ & ?)|[(Ht & _)|(_ & _ & _ & _ & h & Hx & _)]]]; [done..| |by cbn in Hx; congruence].
      pose proof (re_lists _ _ _ _ R') as Hl. rewrite (li_count _ _ _ Hl) in Hc.
      assert (id ∈ lst s' BUFFER_TYPE_DIRTY) as Hin by (apply Hl; exists b; split; [apply Hat|done]).
      destruct (lst s' BUFFER_TYPE_DIRTY); [by apply elem_of_nil in Hin|done].
    - by destruct (re_none _ _ _ _ R' k Hno). }
  split; [done|]. split; [|split; [done|]]; intros k; cbn; [|set_solver].
  repeat case_bool_decide; try done; set_solver.
Qed.

Lemma check_flush_wp s a (force : bool) (Q : unit -> bm -> Prop) : rep s a ->
  (forall s' X, X = ∅ \/ X = to_write a -> rep s' (flushed X a) -> kept_dev s s' -> Q tt s') -> wp (nvfuse_check_flush_dirty force) Q s.
Proof.
  intros R HQ. assert (flushed ∅ a ≡ a) as H0.
  { split; [done|]. split; [|split; [done|]]; intros k; cbn; [by rewrite bool_decide_false by set_solver|set_solver]. }
  assert (Q tt s) as Hs by (apply (HQ s ∅); [by left|by rewrite H0|done]).
  unfold nvfuse_check_flush_dirty. wp_step. wp_step. case_match; [by wp_step|]. case_match; [by wp_step|].
  eapply flush_wp; [exact R|]. intros s' R' K. apply (HQ s' (to_write a)); [by right|done|done].
Qed.

End flush.
End BufferFlush.
