(* ===== verification/BufferShrink.v ===== *)
(** * The buffer cache: its size

    [BufferInit]: start and growth; [BufferShrink]: giving buffers back. *)
From S2P Require Import Prelude Layout BufferCache BufferRules BufferFind BufferUse.
Import Layout BufferCache CacheLists BufferSpec BufferRules BufferOps BufferFind BufferGet.

(** ** The buffer cache: start and growth *)
Module BufferInit.

(** Nothing in use, nothing dirty *)
Definition fresh_store (pbn : Z -> Z -> Z) (s : bm) : store :=
  mk_store (fun k => block s (place pbn k)) (fun k => block s (place pbn k)) ∅ ∅.

Section init.
Context (pbn : Z -> Z -> Z) (ok : Z -> Prop).
Notation rep := (rep pbn ok).
Implicit Types (s : bm) (a : store) (b : nvfuse_buffer_cache).

Lemma lst_empty s t : bm_list s = ∅ -> lst s t = [].
Proof. intros E. unfold lst. by rewrite E, lookup_empty. Qed.

Lemma init_rep dev : (forall p c, dev !! p = Some c -> length c = Z.to_nat CLUSTER_SIZE) -> rep (init_state dev) (fresh_store pbn (init_state dev)).
Proof.
  intros Hdev. assert (forall t, lst (init_state dev) t = []) as El by (intros; by apply lst_empty).
  assert (forall h, bucket (init_state dev) h = []) as Eb by (intros; unfold bucket; cbn; by rewrite lookup_empty).
  assert (forall id, bm_bcs (init_state dev) !! id = None) as En by (intros; apply lookup_empty).
  assert (forall k id b, ~ at_key (init_state dev) k id b) as Ek by (intros k id b (Hb & _); by rewrite En in Hb).
  assert (forall h id, id ∉ bucket (init_state dev) h) as Ei by (intros h id; rewrite Eb; apply not_elem_of_nil).
  split; [done| | | |done| | |done| |done|done|done|].
  - split; [intros t; rewrite El; constructor| | |intros t; by rewrite El|done].
    + intros t id. rewrite El. split; [by intros ?%elem_of_nil|]. intros (b & Hb & _). by rewrite En in Hb.
    + intros id b Hb. by rewrite En in Hb.
  - split; [intros h; rewrite Eb; constructor|intros ?? Hi; by apply Ei in Hi|intros ??? Hi; by apply Ei in Hi| |intros ??? Hi; by apply Ei in Hi| |intros ?? Hi; by apply Ei in Hi].
    + intros id Hid. rewrite En in Hid. by destruct Hid.
    + intros ????? _ Hi. by apply Ei in Hi.
  - intros k id b Hat. by destruct (Ek k id b).
  - intros id b Hb. by rewrite En in Hb.
  - intros id b Hb. by rewrite En in Hb.
  - intros p. unfold block. cbn. destruct (dev !! p) as [c|] eqn:E; [by eapply Hdev|by apply length_replicate].
  - intros id Hid. rewrite En in Hid. by destruct Hid.
Qed.

Definition new_bc : nvfuse_buffer_cache := mk_bc 0 0 false false false false 0 0 0 zero_buf.

(** The state after one more buffer was made *)
Definition grown s : bm :=
  let id := bm_next s in
  set_cache_size (s32 (bm_cache_size s + 1))
    (set_list_count (<[ BUFFER_TYPE_UNUSED := s32 (count s BUFFER_TYPE_UNUSED + 1) ]> (bm_list_count s))
      (set_hash_count (<[ HASH_NUM := s32 (hash_count s HASH_NUM + 1) ]> (bm_hash_count s))
        (set_hash (<[ HASH_NUM := id :: bucket s HASH_NUM ]> (bm_hash s))
          (set_list (<[ BUFFER_TYPE_UNUSED := id :: lst s BUFFER_TYPE_UNUSED ]> (bm_list s))
            (set_next (id + 1) (set_bc_free (bm_bc_free s - 1) (set_bcs (<[ id := new_bc ]> (bm_bcs s)) s))))))).

Lemma grown_rep s a : rep s a -> Z.of_nat (size (bm_bcs s)) + 1 < 2 ^ 31 - 1 -> rep (grown s) a /\ bm_cache_size (grown s) = bm_cache_size s + 1.
Proof.
  intros R Hsz. pose proof R as [R1 R2 R3 R4 R5 R6 R7 R8 R9 R10 R11 R12 R13]. set (id := bm_next s).
  assert (bm_bcs s !! id = None) as Hnew.
  { destruct (bm_bcs s !! id) eqn:E; [|done]. assert (id < bm_next s) by (apply R13; by eexists). unfold id in *. lia. }
  assert (forall t, lst (grown s) t = if t =? BUFFER_TYPE_UNUSED then id :: lst s t else lst s t) as El.
  { intros t. unfold lst at 1, grown. bcbn. destruct (Z.eqb_spec t BUFFER_TYPE_UNUSED) as [->|Hne].
    - by rewrite lookup_insert_eq.
    - by rewrite lookup_insert_ne. }
  assert (forall h, bucket (grown s) h = if h =? HASH_NUM then id :: bucket s h else bucket s h) as Eb.
  { intros h. unfold bucket at 1, grown. bcbn. destruct (Z.eqb_spec h HASH_NUM) as [->|Hne].
    - by rewrite lookup_insert_eq.
    - by rewrite lookup_insert_ne. }
  assert (forall t, count (grown s) t = if t =? BUFFER_TYPE_UNUSED then count s t + 1 else count s t) as Ec.
  { intros t. unfold count at 1, grown. bcbn. destruct (Z.eqb_spec t BUFFER_TYPE_UNUSED) as [->|Hne].
    - rewrite lookup_insert_eq. cbn [default Datatypes.id]. apply (count_small s (bm_bcs s)); [done|lia].
    - by rewrite lookup_insert_ne. }
  assert (forall t, id ∉ lst s t) as Hnl by (intros t (b & Hb & _)%R2; congruence).
  assert (forall h, id ∉ bucket s h) as Hnb by (intros h Hi; apply (ha_dom _ _ R3) in Hi as [b Hb]; congruence).
  assert (bm_bcs (grown s) = <[ id := new_bc ]> (bm_bcs s)) as Ebc by done.
  assert (forall k x bx, at_key (grown s) k x bx <-> at_key s k x bx) as Hat.
  { intros k x bx. unfold at_key. rewrite Ebc, Eb. rewrite (proj2 (Z.eqb_neq _ _)) by apply mod_hash. split.
    - intros ([[<- _]|[_ Hx]]%lookup_insert_Some & Hi & Hk); [by apply Hnb in Hi|done].
    - intros (Hx & Hi & Hk). split; [|done]. rewrite lookup_insert_ne; [done|]. intros <-. congruence. }
  split; cycle 1.
  { unfold grown. bcbn. apply s32_small. rewrite R12. lia. }
  split; try done.
  - rewrite Ebc. split.
    + intros t. rewrite El. case_match; [|apply R2]. apply NoDup_cons. split; [apply Hnl|apply R2].
    + intros t x. rewrite El. destruct (Z.eqb_spec t BUFFER_TYPE_UNUSED) as [->|Hne]; rewrite ?elem_of_cons, (li_in _ _ _ R2).
      * split; [intros [->|(b & Hb & Ht)]|].
        -- exists new_bc. by rewrite lookup_insert_eq.
        -- exists b. rewrite lookup_insert_ne by congruence. done.
        -- intros (b & [[<- _]|[_ Hb]]%lookup_insert_Some & Ht); [by left|right; by exists b].
      * split; [intros (b & Hb & Ht); exists b; by rewrite lookup_insert_ne by congruence|].
        intros (b & [[<- <-]|[_ Hb]]%lookup_insert_Some & Ht); [by destruct Hne|by exists b].
    + intros x b [[<- <-]|[_ Hb]]%lookup_insert_Some; [done|by eapply R2].
    + intros t. rewrite Ec, El, (li_count _ _ _ R2). case_match; cbn [length]; lia.
    + rewrite map_size_insert_None by done. lia.
  - rewrite Ebc. destruct R3 as [H1 H2 H3 H4 H5 H6 H7].
    assert (forall h x, x ∈ bucket (grown s) h <-> x ∈ bucket s h \/ (h = HASH_NUM /\ x = id)) as Hin.
    { intros h x. rewrite Eb. destruct (Z.eqb_spec h HASH_NUM); rewrite ?elem_of_cons; naive_solver. }
    split.
    + intros h. rewrite Eb. case_match; [|apply H1]. apply NoDup_cons. split; [apply Hnb|apply H1].
    + intros h x [Hi|[_ ->]]%Hin; rewrite lookup_insert_is_Some'; [right; by eapply H2|by left].
    + intros h h' x [Hi|[-> ->]]%Hin [Hi'|[-> ?]]%Hin; [by eapply H3|subst; by apply Hnb in Hi|by apply Hnb in Hi'|done].
    + intros x [<-|Hx]%lookup_insert_is_Some'; [exists HASH_NUM; apply Hin; by right|].
      destruct (H4 x Hx) as [h Hh]. exists h. apply Hin. by left.
    + intros h x b [Hi|[-> _]]%Hin Hh; [|done]. intros [[<- _]|[_ Hb]]%lookup_insert_Some; [by apply Hnb in Hi|by eapply H5].
    + intros h x y b b' Hh [Hi|[? _]]%Hin [Hi'|[? _]]%Hin; try done.
      intros [[<- _]|[_ Hb]]%lookup_insert_Some [[<- _]|[_ Hb']]%lookup_insert_Some; try done; [by apply Hnb in Hi|by apply Hnb in Hi'|by eapply H6].
    + intros x b [Hi|[_ ->]]%Hin; [|rewrite lookup_insert_eq; by intros [= <-]].
      intros [[<- _]|[_ Hb]]%lookup_insert_Some; [by apply Hnb in Hi|by eapply H7].
  - intros k x bx Hx%Hat. by eapply R4.
  - intros k Hno. apply R5. intros x bx Hx. by apply (Hno x bx), Hat.
  - intros x b. rewrite Ebc, Eb, Z.eqb_refl. intros [[<- <-]|[Hne Hb]]%lookup_insert_Some; [done|].
    intros [->|Hi]%elem_of_cons; [done|by apply (R6 x)].
  - intros x b. rewrite Ebc. intros [[<- <-]|[Hne Hb]]%lookup_insert_Some; [|by eapply R7].
    split; [apply length_replicate|done].
  - rewrite Ebc, map_size_insert_None by done. unfold grown. bcbn. rewrite s32_small by (rewrite R12; lia). rewrite R12. lia.
  - intros x. rewrite Ebc. change (bm_next (grown s)) with (id + 1). intros [<-|Hx]%lookup_insert_is_Some'; [lia|].
    apply R13 in Hx. unfold id. lia.
Qed.

(** Growing stops when there are no more buffers. *)
Record more (n : Z) s s' a : Prop := {
  mo_rep : rep s' a;
  mo_size : bm_cache_size s' = bm_cache_size s + n;
  mo_bc : bm_bc_free s' = bm_bc_free s - n;
  mo_bh : bm_bh_free s' = bm_bh_free s;
  mo_dev : bm_dev s' = bm_dev s;
  mo_at : stable s s' }.

Lemma grown_more s a : rep s a -> bm_cache_size s + 1 < 2 ^ 31 - 1 -> more 1 s (grown s) a.
Proof.
  intros R Hsz. rewrite (re_size _ _ _ _ R) in Hsz. destruct (grown_rep s a R Hsz) as [Rg Eg]. split; try done.
  intros k x bx (Hx & Hi & Hk) _. exists bx. split; [|split; [|done]].
  - unfold grown. bcbn. rewrite lookup_insert_ne; [done|]. assert (x < bm_next s) by (apply (re_next _ _ _ _ R); by eexists). lia.
  - unfold bucket, grown. bcbn. by rewrite lookup_insert_ne by (symmetry; apply mod_hash).
Qed.

Lemma more_trans n m s1 s2 s3 a : more n s1 s2 a -> more m s2 s3 a ->
  (forall k id b b', at_key s1 k id b -> at_key s2 k id b' -> bc_list_type b = BUFFER_TYPE_REF -> bc_list_type b' = BUFFER_TYPE_REF) ->
  more (n + m) s1 s3 a.
Proof.
  intros [A1 A2 A3 A4 A5 A6] [B1 B2 B3 B4 B5 B6] Hr. split; [done|lia|lia|congruence|congruence|].
  intros k id b Hat Ht. destruct (A6 k id b Hat Ht) as [b' Hat']. eapply B6; [exact Hat'|by eapply Hr].
Qed.

Lemma add_loop_wp n : forall s a (Q : Z -> bm -> Prop), rep s a -> 0 <= bm_bc_free s ->
  bm_cache_size s + Z.of_nat n < 2 ^ 31 - 1 ->
  (forall s' r m, 0 <= m <= bm_bc_free s -> (r = 0 /\ m = Z.of_nat n \/ r = -1 /\ m = bm_bc_free s /\ m < Z.of_nat n) -> more m s s' a -> Q r s') ->
  wp (add_loop n) Q s.
Proof.
  induction n as [|n IH]; intros s a Q R Hf Hsz HQ; cbn [add_loop].
  { wp_step. apply (HQ s 0 0); [lia|by left|]. split; try lia; try done. intros k id b Hat _. by exists b. }
  rewrite Nat2Z.inj_succ in *. unfold nvfuse_alloc_bc. wp_step. wp_step. wp_step.
  destruct (Z.eqb_spec (bm_bc_free s) 0) as [E0|E0].
  { wp_step. wp_step. apply (HQ s (-1) 0); [lia|right; lia|]. split; try lia; try done. intros k id b Hat _. by exists b. }
  unfold list_add, hlist_add_head, hash_count_add, count_add. wp_steps.
  pose proof (re_size _ _ _ _ R) as Es. pose proof (grown_more s a R) as Hg. specialize (Hg ltac:(lia)).
  match goal with |- wp _ _ ?x => change x with (grown s) end. eapply IH; [apply Hg|rewrite (mo_bc _ _ _ _ Hg); lia|rewrite (mo_size _ _ _ _ Hg); lia|].
  intros s' r m Hm Hr Hmo. rewrite (mo_bc _ _ _ _ Hg) in Hm. apply (HQ s' r (1 + m)); [lia| |].
  - rewrite (mo_bc _ _ _ _ Hg) in Hr. lia.
  - eapply more_trans; [exact Hg|exact Hmo|]. intros k id b b' (Hb & Hi & _) (Hb' & _).
    change (bm_bcs (grown s)) with (<[ bm_next s := new_bc ]> (bm_bcs s)) in Hb'.
    rewrite lookup_insert_ne in Hb'; [congruence|]. assert (id < bm_next s) by (apply (re_next _ _ _ _ R); by eexists). lia.
Qed.

Lemma add_wp nr s a (Q : Z -> bm -> Prop) : rep s a -> 0 <= bm_bc_free s -> 0 < nr -> bm_cache_size s + nr < 2 ^ 31 - 1 ->
  (forall s' r m, 0 <= m <= bm_bc_free s -> (r = 0 /\ m = nr \/ r = -1 /\ m = bm_bc_free s /\ m < nr) -> more m s s' a -> Q r s') ->
  wp (nvfuse_add_buffer_cache nr) Q s.
Proof.
  intros R Hf Hn Hsz HQ. unfold nvfuse_add_buffer_cache. wp_step. apply wp_assert; [by apply Z.ltb_lt|].
  eapply add_loop_wp; [exact R|done|lia|]. intros s' r m Hm Hr. apply HQ; [done|]. by rewrite Z2Nat.id in Hr by lia.
Qed.

Lemma init_loop_wp n : forall s a (Q : unit -> bm -> Prop), rep s a -> Z.of_nat n <= bm_bc_free s ->
  bm_cache_size s + Z.of_nat n < 2 ^ 31 - 1 ->
  (forall s', rep s' a -> bm_cache_size s' = bm_cache_size s + Z.of_nat n -> bm_bc_free s' = bm_bc_free s - Z.of_nat n ->
     bm_bh_free s' = bm_bh_free s -> bm_dev s' = bm_dev s -> Q tt s') -> wp (init_loop n) Q s.
Proof.
  induction n as [|n IH]; intros s a Q R Hf Hsz HQ; cbn [init_loop]; [wp_step; apply HQ; (done || lia)|].
  rewrite Nat2Z.inj_succ in *. wp_step. eapply add_wp; [exact R|lia|done|lia|]. intros s1 r m Hm Hr [M1 M2 M3 M4 M5 _].
  assert (r = 0 /\ m = 1) as [-> ->] by lia. cbn [Z.ltb Z.compare]. eapply IH; [exact M1|lia|lia|].
  intros s' R' E1 E2 E3 E4. apply HQ; [done|lia|lia|congruence|congruence].
Qed.

(** The cache after its start holds nothing and has its size. *)
Lemma init_wp buffer_size total s (Q : Z -> bm -> Prop) :
  (forall p c, bm_dev s !! p = Some c -> length c = Z.to_nat CLUSTER_SIZE) ->
  0 < buffer_size_in_4k buffer_size total <= NVFUSE_BC_MEMPOOL_TOTAL_SIZE ->
  (forall s', rep s' (fresh_store pbn s) -> bm_cache_size s' = buffer_size_in_4k buffer_size total ->
     bm_bc_free s' = NVFUSE_BC_MEMPOOL_TOTAL_SIZE - buffer_size_in_4k buffer_size total ->
     bm_bh_free s' = NVFUSE_BH_MEMPOOL_TOTAL_SIZE -> bm_dev s' = bm_dev s -> Q 0 s') ->
  wp (nvfuse_init_buffer_cache buffer_size total) Q s.
Proof.
  intros Hdev Hn HQ. unfold nvfuse_init_buffer_cache, NVFUSE_BC_MEMPOOL_TOTAL_SIZE in *. wp_step. wp_step. wp_step.
  apply wp_assert; [apply negb_true_iff, Z.eqb_neq; lia|]. wp_step. eapply init_loop_wp; [apply init_rep; exact Hdev| | |].
  - cbn. unfold NVFUSE_BC_MEMPOOL_TOTAL_SIZE. lia.
  - cbn. lia.
  - intros s' R E1 E2 E3 E4. wp_step. cbn in E1, E2. apply HQ; [exact R| | |done|done]; [lia|].
    unfold NVFUSE_BC_MEMPOOL_TOTAL_SIZE in E2. lia.
Qed.

End init.
End BufferInit.

(** ** The buffer cache: giving buffers back *)
Import Layout BufferCache CacheLists BufferSpec BufferRules BufferOps BufferFind BufferGet BufferInit.

Module BufferShrink.

(** The state without an unused buffer *)
Definition shrunk (id : Z) (s : bm) : bm :=
  set_cache_size (s32 (bm_cache_size s - 1))
    (set_list_count (<[ BUFFER_TYPE_UNUSED := s32 (count s BUFFER_TYPE_UNUSED + -1) ]> (bm_list_count s))
      (set_hash_count (<[ HASH_NUM := s32 (hash_count s HASH_NUM + -1) ]> (bm_hash_count s))
        (set_bc_free (bm_bc_free s + 1) (set_bcs (delete id (bm_bcs s))
          (set_hash (without id <$> bm_hash s) (set_list (without id <$> bm_list s) s)))))).

Section shrink.
Context (pbn : Z -> Z -> Z) (ok : Z -> Prop).
Notation rep := (rep pbn ok).
Implicit Types (s : bm) (a : store) (b : nvfuse_buffer_cache).

Lemma unused_blank s a id b : rep s a -> bm_bcs s !! id = Some b -> bc_list_type b = BUFFER_TYPE_UNUSED -> blank b.
Proof.
  intros R Hb Ht. destruct (decide (id ∈ bucket s HASH_NUM)) as [Hu|Hu]; [by apply (re_free _ _ _ _ R id b Hb Hu)|].
  destruct (re_obj _ _ _ _ R _ _ _ (rep_at_key pbn ok s a id b R Hb Hu)) as [_ Ho].
  destruct Ho as [(_ & ? & _)|[(E & _)|[(E & _)|(E & _)]]]; [done|rewrite E in Ht; done..].
Qed.

Lemma lst_without (m : gmap Z (list Z)) id t : default [] ((without id <$> m) !! t) = without id (default [] (m !! t)).
Proof. rewrite lookup_fmap. by destruct (m !! t). Qed.

Lemma shrunk_rep s a id b : rep s a -> bm_bcs s !! id = Some b -> bc_list_type b = BUFFER_TYPE_UNUSED ->
  rep (shrunk id s) a /\ bm_cache_size (shrunk id s) = bm_cache_size s - 1.
Proof.
  intros R Hb Ht. pose proof R as [R1 R2 R3 R4 R5 R6 R7 R8 R9 R10 R11 R12 R13].
  assert (bm_bcs (shrunk id s) = delete id (bm_bcs s)) as Ebc by done.
  assert (forall t, lst (shrunk id s) t = without id (lst s t)) as El by (intros; apply lst_without).
  assert (forall h, bucket (shrunk id s) h = without id (bucket s h)) as Eb by (intros; apply lst_without).
  assert (forall t, count (shrunk id s) t = if t =? BUFFER_TYPE_UNUSED then count s t - 1 else count s t) as Ec.
  { intros t. unfold count at 1, shrunk. bcbn. destruct (Z.eqb_spec t BUFFER_TYPE_UNUSED) as [->|Hne].
    - rewrite lookup_insert_eq. cbn [default Datatypes.id]. apply (count_small s (bm_bcs s)); [done|lia].
    - by rewrite lookup_insert_ne. }
  assert (forall k x bx, at_key (shrunk id s) k x bx <-> x <> id /\ at_key s k x bx) as Hat.
  { intros k x bx. unfold at_key. rewrite Ebc, Eb, lookup_delete_Some, elem_without. naive_solver. }
  assert (bm_cache_size (shrunk id s) = bm_cache_size s - 1) as Esz.
  { unfold shrunk. bcbn. apply s32_small. pose proof (li_size _ _ _ R2). assert (size (bm_bcs s) <> 0%nat); [|rewrite R12; lia].
    rewrite map_size_ne_0_lookup. exists id. by eexists. }
  split; [|done]. split; [done| | | | | | |done|done|done|done| |].
  - rewrite Ebc. split.
    + intros t. rewrite El. apply without_nodup, R2.
    + intros t x. rewrite El, elem_without, (li_in _ _ _ R2). setoid_rewrite lookup_delete_Some. naive_solver.
    + intros x bx [_ Hx]%lookup_delete_Some. by eapply R2.
    + intros t. rewrite Ec, El, (li_count _ _ _ R2). destruct (Z.eqb_spec t BUFFER_TYPE_UNUSED) as [->|Hne].
      * rewrite length_without; [done|apply R2|]. apply R2. by exists b.
      * rewrite without_notin; [done|]. intros (b' & Hb' & ?)%(li_in _ _ _ R2). congruence.
    + rewrite map_size_delete_Some by eauto. pose proof (li_size _ _ _ R2). lia.
  - rewrite Ebc. destruct R3 as [H1 H2 H3 H4 H5 H6 H7].
    assert (forall h x, x ∈ bucket (shrunk id s) h <-> x <> id /\ x ∈ bucket s h) as Hin by (intros; rewrite Eb; apply elem_without).
    split.
    + intros h. rewrite Eb. by apply without_nodup.
    + intros h x [Hne Hi]%Hin. rewrite lookup_delete_ne by done. by eapply H2.
    + intros h h' x [_ Hi]%Hin [_ Hi']%Hin. by eapply H3.
    + intros x [bx [Hne Hx]%lookup_delete_Some]. destruct (H4 x) as [h Hh]; [by eexists|]. exists h. apply Hin. split; [congruence|done].
    + intros h x bx [_ Hi]%Hin Hh [_ Hx]%lookup_delete_Some. by eapply H5.
    + intros h x y bx b_y Hh [_ Hi]%Hin [_ Hi']%Hin [_ Hx]%lookup_delete_Some [_ Hy]%lookup_delete_Some. by eapply H6.
    + intros x bx [_ Hi]%Hin [_ Hx]%lookup_delete_Some. by eapply H7.
  - intros k x bx [_ Hx]%Hat. by eapply R4.
  - intros k Hno. destruct (at_key_dec s k R3) as [(x & bx & Hx)|Hx]; [|by apply R5].
    destruct (decide (x = id)) as [->|Hne]; [|exfalso; by apply (Hno x bx), Hat].
    destruct (R4 _ _ _ Hx) as [_ Ho]. destruct Hx as [Hx _]. assert (bx = b) as -> by congruence.
    destruct Ho as [(_ & _ & ? & ?)|[(E & _)|[(E & _)|(E & _)]]]; [done|rewrite E in Ht; done..].
  - intros x bx. rewrite Ebc, Eb, elem_without. intros [_ Hx]%lookup_delete_Some [_ Hi]. by apply (R6 x).
  - intros x bx. rewrite Ebc. intros [_ Hx]%lookup_delete_Some. by eapply R7.
  - rewrite Esz, Ebc, map_size_delete_Some by eauto. rewrite R12. assert (size (bm_bcs s) <> 0%nat); [|lia].
    rewrite map_size_ne_0_lookup. exists id. by eexists.
  - intros x. rewrite Ebc. intros [bx [_ Hx]%lookup_delete_Some]. apply R13. by eexists.
Qed.

(** What giving [n] buffers back changes *)
Record less (n : Z) s s' a : Prop := {
  le_rep : rep s' a;
  le_size : bm_cache_size s' = bm_cache_size s - n;
  le_bc : bm_bc_free s' = bm_bc_free s + n;
  le_bh : bm_bh_free s' = bm_bh_free s;
  le_dev : bm_dev s' = bm_dev s;
  le_at : forall k id b, at_key s k id b -> bc_list_type b = BUFFER_TYPE_REF -> at_key s' k id b }.

Lemma remove_loop_wp l : forall s n a (Q : unit -> bm -> Prop), rep (set_bm_lock false s) a -> bm_lock s = true -> NoDup l ->
  (forall id, id ∈ l -> exists b, bm_bcs s !! id = Some b /\ bc_list_type b = BUFFER_TYPE_UNUSED) -> 0 < n <= Z.of_nat (length l) ->
  (forall s', bm_lock s' = true -> less n (set_bm_lock false s) (set_bm_lock false s') a -> Q tt s') -> wp (remove_loop l n) Q s.
Proof.
  induction l as [|id l IH]; intros s n a Q R Hk Hnd Hl Hn HQ; cbn [remove_loop length] in *; [lia|].
  apply NoDup_cons in Hnd as [Hid Hnd]. destruct (Hl id) as (b & Hb & Ht); [apply elem_of_cons; by left|].
  destruct (unused_blank _ a id b R Hb Ht) as ((Hr & Hbl) & Hd & _). destruct (re_buf _ _ _ _ R id b Hb) as (_ & Hbh & _).
  destruct (shrunk_rep _ a id b R Hb Ht) as [R' Esz].
  wp_step. eapply wp_bc_lock; [exact Hb|done|]. wp_step. eapply wp_obj; [bcbn; apply lookup_insert_eq|].
  wp_step. apply wp_assert; [by apply Z.eqb_eq|]. wp_step. apply wp_assert; [cbn; by rewrite Hd|]. unfold list_del, hlist_del. wp_steps.
  eapply wp_bc_unlock; [bcbn; apply lookup_insert_eq|]. unfold hash_count_add, count_add. wp_steps.
  assert (delete id (<[ id := set_lock false (set_lock true b) ]> (<[ id := set_lock true b ]> (bm_bcs s))) = delete id (bm_bcs s)) as Ed
    by (by rewrite insert_insert_eq, delete_insert_eq).
  match goal with |- wp _ _ ?x => assert (x = set_bm_lock true (shrunk id (set_bm_lock false s))) as -> end.
  { unfold shrunk. bcbn. unfold count, hash_count. bcbn. rewrite Ed. destruct s; cbn in *. by subst. }
  set (s2 := set_bm_lock true (shrunk id (set_bm_lock false s))).
  assert (set_bm_lock false s2 = shrunk id (set_bm_lock false s)) as E2 by done.
  assert (forall x, x <> id -> bm_bcs s2 !! x = bm_bcs s !! x) as Hs2.
  { intros x Hx. change (delete id (bm_bcs s) !! x = bm_bcs s !! x). by rewrite lookup_delete_ne. }
  assert (less 1 (set_bm_lock false s) (set_bm_lock false s2) a) as L1.
  { split; [done|exact Esz|done|done|done|]. intros k x bx (Hx & Hi & Hk') Htx.
    assert (x <> id) as Hne by (intros ->; cbn in Hx; rewrite Hb in Hx; injection Hx as <-; by rewrite Ht in Htx).
    split; [change (bm_bcs s2 !! x = Some bx); by rewrite Hs2|]. split; [|done].
    change (x ∈ default [] ((without id <$> bm_hash s) !! (k mod HASH_NUM))). rewrite lst_without. by apply elem_without. }
  destruct (Z.eqb_spec (n - 1) 0) as [E|E].
  { wp_step. assert (n = 1) as -> by lia. by apply HQ. }
  eapply IH; [exact R'|done|done| |lia|].
  - intros x Hx. rewrite Hs2 by congruence. apply Hl, elem_of_cons. by right.
  - intros s' Hk' L2. apply HQ; [done|]. destruct L1 as [A1 A2 A3 A4 A5 A6], L2 as [B1 B2 B3 B4 B5 B6].
    split; [done|lia|lia|congruence|congruence|]. intros k x bx Hx Htx. by apply B6, Htx; apply A6.
Qed.

(** Giving buffers back succeeds only when that many are unused, and changes
    nothing else. *)
Lemma give_back_wp nr s a (Q : Z -> bm -> Prop) : rep s a -> 0 < nr ->
  (forall s' r, (r = 0 /\ nr <= count s BUFFER_TYPE_UNUSED /\ less nr s s' a /\ NVFUSE_INITIAL_BUFFER_SIZE_DATA <= bm_cache_size s') \/ (r = -1 /\ s' = s) -> Q r s') ->
  wp (nvfuse_remove_buffer_cache nr) Q s.
Proof.
  intros R Hn HQ. unfold nvfuse_remove_buffer_cache. wp_step. apply wp_assert; [by apply Z.ltb_lt|]. wp_step. wp_step.
  destruct (Z.ltb_spec (bm_cache_size s - nr) NVFUSE_INITIAL_BUFFER_SIZE_DATA) as [Hs|Hs]; [wp_step; apply HQ; by right|].
  destruct (Z.ltb_spec (count s BUFFER_TYPE_UNUSED) nr) as [Hc|Hc]; [wp_step; apply HQ; by right|].
  pose proof (re_lock _ _ _ _ R) as Hlk. pose proof (re_lists _ _ _ _ R) as Hl.
  assert (set_bm_lock false (set_bm_lock true s) = s) as Es by (destruct s; cbn in *; by rewrite Hlk).
  wp_step. apply wp_bm_lock; [done|]. wp_steps. eapply remove_loop_wp; [by rewrite Es|done|apply Hl| | |].
  - intros id. change (lst (set_bm_lock true s) BUFFER_TYPE_UNUSED) with (lst s BUFFER_TYPE_UNUSED). by intros ?%Hl.
  - change (lst (set_bm_lock true s) BUFFER_TYPE_UNUSED) with (lst s BUFFER_TYPE_UNUSED). rewrite (li_count _ _ _ Hl) in Hc. lia.
  - rewrite Es. intros s' Hk' L. unfold bm_spin_unlock. wp_steps. apply HQ. left. split_and!; try done. rewrite (le_size _ _ _ _ L). lia.
Qed.


(** ** The end *)

(** The state while the lists below [t] are empty *)
Record ending (t r n : Z) s : Prop := {
  en_in : forall t' id, t <= t' -> id ∈ lst s t' <-> exists b, bm_bcs s !! id = Some b /\ bc_list_type b = t';
  en_nodup : forall t', NoDup (lst s t');
  en_type : forall id b, bm_bcs s !! id = Some b -> t <= bc_list_type b < BUFFER_TYPE_NUM /\ bc_bh_count b = 0 /\ bc_dirty b = false;
  en_size : bm_cache_size s = n;
  en_count : r + Z.of_nat (size (bm_bcs s)) = n }.

Lemma deinit_list_wp l : forall s t r n (Q : Z -> bm -> Prop), ending t r n s -> (forall id, id ∈ lst s t <-> id ∈ l) -> NoDup l ->
  (forall s' r', ending (t + 1) r' n s' -> Q r' s') -> wp (deinit_list l r) Q s.
Proof.
  induction l as [|id l IH]; intros s t r n Q [E1 E2 E3 E4 E5] Hl Hnd HQ; cbn [deinit_list].
  - wp_step. apply HQ. split; try done; [intros t' id Ht; apply E1; lia|]. intros id b Hb. destruct (E3 id b Hb) as [H1 H2].
    split; [|done]. assert (bc_list_type b <> t); [|lia]. intros Ht. assert (id ∈ lst s t) as Hi by (apply E1; [lia|by exists b]).
    apply Hl in Hi. by apply elem_of_nil in Hi.
  - apply NoDup_cons in Hnd as [Hid Hnd]. assert (id ∈ lst s t) as Hi by (apply Hl, elem_of_cons; by left).
    pose proof Hi as Hi'. apply E1 in Hi' as (b & Hb & Ht); [|lia]. destruct (E3 id b Hb) as (H1 & H2 & H3).
    wp_step. eapply wp_obj; [exact Hb|]. wp_step. apply wp_assert; [by apply Z.eqb_eq|]. wp_step. apply wp_assert; [by rewrite H3|].
    unfold list_del. wp_steps. match goal with |- wp _ _ ?x => set (s2 := x) end.
    assert (forall t', lst s2 t' = without id (lst s t')) as El by (intros; apply lst_without).
    eapply (IH s2 t); [|intros x; rewrite El, elem_without, Hl, elem_of_cons; naive_solver|done|exact HQ].
    assert (bm_bcs s2 = delete id (bm_bcs s)) as Es by done. split; try done.
    + intros t' x Ht'. rewrite El, elem_without, E1, Es by done. setoid_rewrite lookup_delete_Some. naive_solver.
    + intros t'. rewrite El. by apply without_nodup.
    + intros x bx. rewrite Es. intros [_ Hx]%lookup_delete_Some. by eapply E3.
    + rewrite Es, map_size_delete_Some by eauto. assert (size (bm_bcs s) <> 0%nat); [|lia]. rewrite map_size_ne_0_lookup. exists id. by eexists.
Qed.

Lemma deinit_types_wp k : forall s t r n (Q : Z -> bm -> Prop), ending t r n s -> t + Z.of_nat k = BUFFER_TYPE_NUM ->
  (forall s' r', ending BUFFER_TYPE_NUM r' n s' -> Q r' s') -> wp (deinit_types k t r) Q s.
Proof.
  induction k as [|k IH]; intros s t r n Q E Hk HQ; cbn [deinit_types].
  - wp_step. apply HQ. assert (t = BUFFER_TYPE_NUM) as <- by lia. done.
  - wp_step. wp_step. wp_step. eapply deinit_list_wp; [exact E|done|apply E|]. intros s' r' E'. eapply IH; [exact E'|lia|done].
Qed.

(** Without dirty buffers every buffer goes back to its pool. *)
Lemma deinit_wp s a (Q : unit -> bm -> Prop) : rep s a -> ab_dirty a = ∅ ->
  (forall s', bm_bcs s' = ∅ -> Q tt s') -> wp nvfuse_deinit_buffer_cache Q s.
Proof.
  intros R Hd HQ. unfold nvfuse_deinit_buffer_cache. wp_step. eapply (deinit_types_wp _ _ _ _ (bm_cache_size s)); [|done|].
  - pose proof (re_lists _ _ _ _ R) as Hl. split.
    + intros t' id _. apply Hl.
    + apply Hl.
    + intros id b Hb. split; [by apply (li_type _ _ _ Hl id)|]. split; [by apply (re_buf _ _ _ _ R id b Hb)|].
      destruct (decide (id ∈ bucket s HASH_NUM)) as [Hu|Hu]; [by apply (re_free _ _ _ _ R id b Hb Hu)|].
      destruct (re_obj _ _ _ _ R _ _ _ (rep_at_key pbn ok s a id b R Hb Hu)) as [_ Ho].
      destruct Ho as [(_ & (_ & ? & _) & _)|[(_ & _ & ? & _)|[(_ & _ & _ & _ & _ & _ & _ & Hi)|(_ & _ & _ & _ & h & _ & Hx & _)]]];
        [done|done|rewrite Hd in Hi; set_solver|]. destruct (bc_dirty b); [|done]. exfalso. rewrite Hd in Hx. set_solver.
    + done.
    + rewrite (re_size _ _ _ _ R). lia.
  - intros s' r' [_ _ E3 E4 E5]. assert (bm_bcs s' = ∅) as Hem.
    { apply map_empty. intros id. destruct (bm_bcs s' !! id) as [b|] eqn:Hb; [|done]. destruct (E3 id b Hb). lia. }
    wp_steps. apply wp_assert; [|by apply HQ]. apply Z.eqb_eq. rewrite Hem, map_size_empty in E5. lia.
Qed.

End shrink.
End BufferShrink.
