(* ===== verification/BufferClient.v ===== *)
(** * The buffer cache: what its clients see

    [cache]: the size of the cache, the free buffer heads and the [store].
    [pre] is what a client owes before an operation, [post] what the operation
    does; [client_step] runs the operation of the code.  [sees] is the run of a
    sequence of operations by [post], [safe] says that [pre] holds along every
    such run. *)
From S2P Require Import Prelude Layout BufferCache BufferRules BufferFind BufferUse BufferFlush BufferShrink.
Import Layout BufferCache CacheLists BufferSpec BufferRules BufferOps BufferFind BufferGet BufferUse BufferFlush BufferInit BufferShrink.

Module BufferClient.

Record cache := mk_cache { ca_size : Z; ca_heads : Z; ca_store : store }.

Inductive client_op :=
| OGet (ino lb : Z) (sync_read is_meta : bool)
| ONew (ino lb : Z) (is_meta : bool)
| ORead (k : Z)
| OWrite (k : Z) (f : list Z -> list Z)
| OFill (k : Z) (l : list Z)
| OMark (k : Z)
| ORelease (k : Z) (tail dirty : bool)
| ODrop (ino lb : Z)
| OFlush
| OCheck (force : bool)
| OAdd (nr : Z)
| ORemove (nr : Z).

(** What an operation returns *)
Inductive answer := ADone | ANone | AData (l : list Z) | ARet (r : Z).

Notation heads := (gmap Z nvfuse_buffer_head).

Section client.
Context (pbn : Z -> Z -> Z).

Definition held_head (H : heads) (k : Z) : BM nvfuse_buffer_head := mlift (H !! k).

(** An operation of the code; the client keeps its heads by key. *)
Definition client_step (op : client_op) (H : heads) : BM (answer * heads) :=
  match op with
  | OGet ino lb sync meta =>
      r ← nvfuse_get_bh pbn ino lb sync meta;
      match r with None => mret (ANone, H) | Some bh => mret (ADone, <[ key ino lb := bh ]> H) end
  | ONew ino lb meta =>
      r ← nvfuse_get_new_bh pbn ino lb meta;
      match r with None => mret (ANone, H) | Some bh => mret (ADone, <[ key ino lb := bh ]> H) end
  | ORead k => bh ← held_head H k; l ← bh_read bh; mret (AData l, H)
  | OWrite k f => bh ← held_head H k; bh_write bh f;; mret (ADone, H)
  | OFill k l => bh ← held_head H k; bh_write bh (fun _ => l);; mret (ADone, H)
  | OMark k => bh ← held_head H k; bh ← nvfuse_mark_dirty_bh bh; mret (ADone, <[ k := bh ]> H)
  | ORelease k tail dirty => nvfuse_release_bh (H !! k) tail dirty;; mret (ADone, delete k H)
  | ODrop ino lb => nvfuse_move_bc_to_unused_list (nvfuse_make_pbno_key ino lb);; mret (ADone, H)
  | OFlush => nvfuse_flush_dirty_data;; mret (ADone, H)
  | OCheck force => nvfuse_check_flush_dirty force;; mret (ADone, H)
  | OAdd nr => r ← nvfuse_add_buffer_cache nr; mret (ARet r, H)
  | ORemove nr => r ← nvfuse_remove_buffer_cache nr; mret (ARet r, H)
  end.

Fixpoint client_run (ops : list client_op) (H : heads) : BM (list answer * heads) :=
  match ops with
  | [] => mret ([], H)
  | op :: ops =>
      r ← client_step op H;
      rs ← client_run ops r.2;
      mret (r.1 :: rs.1, rs.2)
  end.

(** ** What the operations mean *)

Definition in_range (ino lb : Z) : Prop := 0 <= ino < 2 ^ 32 /\ 0 <= lb < 2 ^ 32.
Definition mapped (k : Z) : Prop := 0 <= k < 2 ^ 64 /\ place pbn k <> 0.

Definition with_store (f : store -> store) (c : cache) : cache := mk_cache (ca_size c) (ca_heads c) (f (ca_store c)).
Definition with_heads (d : Z) (f : store -> store) (c : cache) : cache := mk_cache (ca_size c) (ca_heads c + d) (f (ca_store c)).

(** There is a buffer for the key. *)
Definition has_room (c : cache) (k : Z) : Prop := k ∈ ab_dirty (ca_store c) \/ Z.of_nat (size (busy (ca_store c))) < ca_size c.
(** The contents of the buffer in use of [k] and what they become *)
Definition contents (c : cache) (k : Z) : option (list Z) := ab_held (ca_store c) !! k ≫= h_buf.

Definition is_held (c : cache) (k : Z) : Prop := is_Some (ab_held (ca_store c) !! k).
Definition may_get (c : cache) (ino lb : Z) : Prop :=
  in_range ino lb /\ pbn ino lb <> 0 /\ ab_held (ca_store c) !! key ino lb = None /\ has_room c (key ino lb).

Definition pre (op : client_op) (c : cache) : Prop :=
  match op with
  | OGet ino lb _ _ | ONew ino lb _ => ca_heads c = 0 \/ may_get c ino lb
  | ORead k | OMark k => is_held c k
  | OWrite k f => is_held c k /\ (forall l, length l = Z.to_nat CLUSTER_SIZE -> length (f l) = Z.to_nat CLUSTER_SIZE)
  | OFill k l => is_held c k /\ length l = Z.to_nat CLUSTER_SIZE
  | ORelease k _ dirty => may_release (ca_store c) k dirty
  | ODrop ino lb => in_range ino lb /\ pbn ino lb <> 0 /\ ab_held (ca_store c) !! key ino lb = None
  | OFlush | OCheck _ => True
  | OAdd nr => 0 < nr /\ ca_size c + nr < 2 ^ 31 - 1
  | ORemove nr => 0 < nr
  end.

Inductive post (c : cache) : client_op -> answer -> cache -> Prop :=
| p_get_none ino lb sync meta : ca_heads c = 0 -> post c (OGet ino lb sync meta) ANone c
| p_get ino lb sync meta : ca_heads c <> 0 -> post c (OGet ino lb sync meta) ADone (with_heads (-1) (taken (key ino lb) sync) c)
| p_new_none ino lb meta : ca_heads c = 0 -> post c (ONew ino lb meta) ANone c
| p_new ino lb meta : ca_heads c <> 0 ->
    post c (ONew ino lb meta) ADone (with_heads (-1) (fun a => marked (key ino lb) (Some zero_buf) (taken (key ino lb) false a)) c)
| p_read k l : (forall l', contents c k = Some l' -> l = l') -> length l = Z.to_nat CLUSTER_SIZE -> post c (ORead k) (AData l) c
| p_write k f : post c (OWrite k f) ADone (with_store (changed k (f <$> contents c k)) c)
| p_fill k l : post c (OFill k l) ADone (with_store (changed k (Some l)) c)
| p_mark k : post c (OMark k) ADone (with_store (marked k (contents c k)) c)
| p_release k tail dirty : post c (ORelease k tail dirty) ADone (with_heads 1 (fun a => released a k dirty) c)
| p_drop ino lb : post c (ODrop ino lb) ADone (with_store (dropped (key ino lb)) c)
| p_flush : post c OFlush ADone (with_store (fun a => flushed (to_write a) a) c)
| p_check force X : X = ∅ \/ X = to_write (ca_store c) -> post c (OCheck force) ADone (with_store (flushed X) c)
| p_add nr r m : 0 <= m <= nr -> (r = 0 <-> m = nr) -> post c (OAdd nr) (ARet r) (mk_cache (ca_size c + m) (ca_heads c) (ca_store c))
| p_remove nr : NVFUSE_INITIAL_BUFFER_SIZE_DATA <= ca_size c - nr ->
    post c (ORemove nr) (ARet 0) (mk_cache (ca_size c - nr) (ca_heads c) (ca_store c))
| p_remove_fail nr : post c (ORemove nr) (ARet (-1)) c.

Inductive sees (c : cache) : list client_op -> list answer -> cache -> Prop :=
| sees_nil : sees c [] [] c
| sees_cons op ops r rs c1 c2 : post c op r c1 -> sees c1 ops rs c2 -> sees c (op :: ops) (r :: rs) c2.

Fixpoint safe (ops : list client_op) (c : cache) : Prop :=
  match ops with
  | [] => True
  | op :: ops => pre op c /\ forall r c', post c op r c' -> safe ops c'
  end.

(** ** The operations of the code do that *)

Hypothesis pbn_inj : forall k k', mapped k -> mapped k' -> place pbn k = place pbn k' -> k = k'.
Notation rep := (rep pbn mapped).
Implicit Types (s : bm) (a : store) (c : cache).

(** A client that keeps the heads of the buffers in use *)
Record serves s c (H : heads) : Prop := {
  sv_rep : rep s (ca_store c);
  sv_size : bm_cache_size s = ca_size c;
  sv_heads : bm_bh_free s = ca_heads c;
  sv_bc : 0 <= bm_bc_free s;
  sv_dom : dom H = dom (ab_held (ca_store c));
  sv_at : forall k bh, H !! k = Some bh -> exists b, at_key s k (bh_bc bh) b }.

Lemma key_mapped ino lb : in_range ino lb -> pbn ino lb <> 0 -> nvfuse_make_pbno_key ino lb = key ino lb /\ mapped (key ino lb).
Proof.
  intros [Hi Hl] Hp. destruct (make_key ino lb Hi Hl) as (E & E1 & E2). split; [done|]. split; [unfold key; lia|].
  unfold place. by rewrite E1, E2.
Qed.

Lemma head_at s c H k : serves s c H -> is_held c k -> exists bh b h, H !! k = Some bh /\ at_key s k (bh_bc bh) b /\
  ab_held (ca_store c) !! k = Some h /\ bc_list_type b = BUFFER_TYPE_REF /\ bc_locked b = true /\ bm_bcs s !! bh_bc bh = Some b /\
  (forall l, contents c k = Some l -> bc_buf b = l) /\ length (bc_buf b) = Z.to_nat CLUSTER_SIZE.
Proof.
  intros [V1 V2 V3 V4 V5 V6] Hk. pose proof Hk as [h Hh]. apply elem_of_dom in Hk. rewrite <- V5 in Hk. apply elem_of_dom in Hk as [bh Hbh].
  destruct (V6 k bh Hbh) as [b Hat]. exists bh, b, h. destruct (held_at pbn mapped s _ k _ b h V1 Hat Hh) as (H1 & H2 & H3 & H4 & H5 & H6 & _).
  split_and!; try done; [apply Hat| |].
  - intros l. unfold contents. rewrite Hh. apply H6.
  - apply (re_buf _ _ _ _ V1 (bh_bc bh)), Hat.
Qed.

(** Buffers in use stay where they are. *)
Lemma heads_stable s s' c H : serves s c H -> stable s s' -> forall k bh, H !! k = Some bh -> exists b, at_key s' k (bh_bc bh) b.
Proof.
  intros V St k bh Hbh. assert (is_held c k) as Hk.
  { apply elem_of_dom. rewrite <- (sv_dom _ _ _ V). apply elem_of_dom. by exists bh. }
  destruct (head_at s c H k V Hk) as (bh' & b & h & Hb' & Hat & _ & Ht & _). assert (bh' = bh) as -> by congruence. by eapply St.
Qed.

Lemma kept_stable s s' : kept_dev s s' -> stable s s'.
Proof. intros [_ _ _ _ Hr] k id b Hat Ht. exists b. by apply Hr. Qed.

(** The buffers in use stay the same. *)
Lemma serves_same s s' c c' H : serves s c H -> rep s' (ca_store c') -> bm_cache_size s' = ca_size c' -> bm_bh_free s' = ca_heads c' ->
  0 <= bm_bc_free s' -> dom (ab_held (ca_store c')) = dom (ab_held (ca_store c)) -> stable s s' -> serves s' c' H.
Proof.
  intros V R E1 E2 E3 Ed St. split; try done; [rewrite Ed; apply V|]. by apply (heads_stable s s' c).
Qed.

(** *** Taking a buffer *)

Lemma rep_bh_free s a v : rep s a -> rep (set_bh_free v s) a.
Proof. intros []. by split. Qed.

Lemma get_bh_wp s c H ino lb (sync meta : bool) (Q : option nvfuse_buffer_head -> bm -> Prop) : serves s c H ->
  ca_heads c <> 0 -> may_get c ino lb ->
  (forall s' bh b, serves s' (with_heads (-1) (taken (key ino lb) sync) c) (<[ key ino lb := bh ]> H) ->
     at_key s' (key ino lb) (bh_bc bh) b -> Q (Some bh) s') -> wp (nvfuse_get_bh pbn ino lb sync meta) Q s.
Proof.
  intros V Hh (Hr & Hp & Hn & Hroom) HQ. destruct (key_mapped ino lb Hr Hp) as [_ Hm]. destruct Hr as [Hi Hl].
  unfold nvfuse_get_bh, nvfuse_alloc_buffer_head. wp_step. wp_step. wp_step.
  rewrite (proj2 (Z.eqb_neq _ _)) by (rewrite (sv_heads _ _ _ V); done). wp_steps. cbn [negb]. wp_step.
  eapply (get_bc_wp pbn mapped _ (ca_store c)); [apply rep_bh_free, V|done..| |].
  { destruct Hroom as [?|?]; [by left|right]. change (bm_cache_size (set_bh_free _ s)) with (bm_cache_size s). by rewrite (sv_size _ _ _ V). }
  intros id b s' R Hat K St. wp_steps. apply (HQ s' _ b); [|exact Hat]. destruct K as [K1 K2 K3 K4 K5]. split.
  - exact R.
  - rewrite K1. apply V.
  - rewrite K2. cbn. rewrite (sv_heads _ _ _ V). lia.
  - rewrite K3. apply V.
  - change (dom (<[ key ino lb := mk_bh id meta false ]> H) = dom (<[ key ino lb := mk_hold (if sync then Some (ab_now (ca_store c) (key ino lb)) else None) false ]> (ab_held (ca_store c)))).
    by rewrite !dom_insert_L, (sv_dom _ _ _ V).
  - intros k bh [[<- <-]|[_ Hbh]]%lookup_insert_Some; [by exists b|]. eapply (heads_stable s s' c H); [done| |done].
    intros k' id' b' Hat'. apply (St k' id' b'). exact Hat'.
Qed.

Lemma get_none s c H ino lb (sync meta : bool) (Q : option nvfuse_buffer_head -> bm -> Prop) : serves s c H ->
  ca_heads c = 0 -> Q None s -> wp (nvfuse_get_bh pbn ino lb sync meta) Q s.
Proof.
  intros V Hh HQ. unfold nvfuse_get_bh, nvfuse_alloc_buffer_head. wp_step. wp_step. wp_step.
  rewrite (proj2 (Z.eqb_eq _ _)) by (rewrite (sv_heads _ _ _ V); done). by wp_steps.
Qed.

(** *** Using it *)

Lemma use_serves s c H k bh b h v (l : list Z) (mark : bool) : serves s c H -> H !! k = Some bh -> at_key s k (bh_bc bh) b ->
  ab_held (ca_store c) !! k = Some h -> length l = Z.to_nat CLUSTER_SIZE -> (forall l', v = Some l' -> l = l') ->
  serves (put (bh_bc bh) (set_dirty (mark || bc_dirty b) (set_buf l b)) s) (with_store (fun a => if mark then marked k v a else changed k v a) c) H.
Proof.
  intros V Hbh Hat Hh Hl Hv. eapply (serves_same s); [exact V| |apply V|apply V|apply V| |].
  - cbn. by eapply use_rep; [apply V|..].
  - assert (k ∈ dom (ab_held (ca_store c))) by (apply elem_of_dom; by eexists). destruct mark; cbn; rewrite dom_insert_L; set_solver.
  - destruct Hat as (Hb & Hi & Hn). eapply stable_in_place; [exact Hb|done|done|done].
Qed.

Lemma serves_head s c H k bh bh' : serves s c H -> H !! k = Some bh -> bh_bc bh' = bh_bc bh -> serves s c (<[ k := bh' ]> H).
Proof.
  intros [V1 V2 V3 V4 V5 V6] Hbh E. split; try done.
  - rewrite dom_insert_L, <- V5. assert (k ∈ dom H) by (apply elem_of_dom; by eexists). set_solver.
  - intros k' bh0 [[<- <-]|[_ ?]]%lookup_insert_Some; [rewrite E|]; by apply V6.
Qed.

Lemma mark_wp s c H k bh b h (Q : nvfuse_buffer_head -> bm -> Prop) : serves s c H -> H !! k = Some bh -> at_key s k (bh_bc bh) b ->
  ab_held (ca_store c) !! k = Some h ->
  (forall s' bh', serves s' (with_store (marked k (contents c k)) c) (<[ k := bh' ]> H) -> Q bh' s') -> wp (nvfuse_mark_dirty_bh bh) Q s.
Proof.
  intros V Hbh Hat Hh HQ. destruct (held_at pbn mapped s _ k _ b h (sv_rep _ _ _ V) Hat Hh) as (H1 & H2 & H3 & H4 & H5 & H6 & _).
  pose proof Hat as (Hb & _). unfold nvfuse_mark_dirty_bh. wp_step. eapply wp_obj; [exact Hb|]. wp_step. apply wp_assert; [done|].
  wp_step. eapply wp_upd_obj; [exact Hb|]. wp_steps. apply HQ. apply (serves_head _ _ _ k bh); [|done|done].
  assert (set_dirty true b = set_dirty (true || bc_dirty b) (set_buf (bc_buf b) b)) as -> by (by destruct b).
  apply (use_serves s c H k bh b h (contents c k) (bc_buf b) true); try done; [apply (re_buf _ _ _ _ (sv_rep _ _ _ V) _ _ Hb)|].
  intros l'. unfold contents. rewrite Hh. apply H6.
Qed.

(** *** Every operation *)

Notation served c op := (fun x s' => exists c', post c op x.1 c' /\ serves s' c' x.2).

Lemma get_serves s c H ino lb (sync meta : bool) : serves s c H -> pre (OGet ino lb sync meta) c ->
  wp (client_step (OGet ino lb sync meta) H) (served c (OGet ino lb sync meta)) s.
Proof.
  intros V Hpre. cbn [client_step]. wp_step. destruct (decide (ca_heads c = 0)) as [E|E].
  - eapply get_none; [exact V|done|]. wp_step. exists c. split; [by constructor|done].
  - destruct Hpre as [?|Hget]; [done|]. eapply get_bh_wp; [exact V|done|done|]. intros s' bh b V' _. wp_step.
    eexists. split; [by constructor|exact V'].
Qed.

Lemma new_serves s c H ino lb (meta : bool) : serves s c H -> pre (ONew ino lb meta) c ->
  wp (client_step (ONew ino lb meta) H) (served c (ONew ino lb meta)) s.
Proof.
  intros V Hpre. cbn [client_step]. unfold nvfuse_get_new_bh. wp_step. wp_step. destruct (decide (ca_heads c = 0)) as [E|E].
  - eapply get_none; [exact V|done|]. wp_steps. exists c. split; [by constructor|done].
  - destruct Hpre as [?|Hget]; [done|]. eapply get_bh_wp; [exact V|done|done|]. intros s' bh b V' Hat. set (k := key ino lb) in *.
    assert (<[ k := bh ]> H !! k = Some bh) as Hbh by apply lookup_insert_eq.
    set (c1 := with_heads (-1) (taken k false) c) in *.
    assert (ab_held (ca_store c1) !! k = Some (mk_hold None false)) as Hh by apply lookup_insert_eq.
    destruct (held_at pbn mapped s' _ k _ b _ (sv_rep _ _ _ V') Hat Hh) as (H1 & H2 & H3 & H4 & H5 & H6 & _).
    assert (place pbn k <> 0) as Hpl by (by apply (re_obj _ _ _ _ (sv_rep _ _ _ V') _ _ _ Hat)).
    pose proof Hat as (Hb & _). wp_steps. eapply wp_obj; [exact Hb|]. rewrite H4, (proj2 (Z.eqb_neq _ _) Hpl). cbn [negb].
    wp_step. eapply wp_upd_obj; [exact Hb|].
    assert (serves (put (bh_bc bh) (set_buf zero_buf b) s') (with_store (changed k (Some zero_buf)) c1) (<[ k := bh ]> H)) as V2.
    { assert (set_buf zero_buf b = set_dirty (false || bc_dirty b) (set_buf zero_buf b)) as -> by (by destruct b).
      apply (use_serves s' c1 _ k bh b (mk_hold None false) (Some zero_buf) zero_buf false); try done.
      by intros l' [= <-]. }
    wp_step. eapply (mark_wp _ _ _ k bh (set_buf zero_buf b) (mk_hold (Some zero_buf) true)); [exact V2|done| |apply lookup_insert_eq|].
    { destruct Hat as (_ & Hi & Hk). split; [apply lookup_insert_eq|]. split; done. }
    intros s2 bh' V3. wp_steps. eexists. split; [by constructor|]. rewrite insert_insert_eq in V3. fold k.
    assert (contents (with_store (changed k (Some zero_buf)) c1) k = Some zero_buf) as Ec.
    { unfold contents. cbn. by rewrite lookup_insert_eq. }
    rewrite Ec in V3. destruct V3 as [A1 A2 A3 A4 A5 A6]. split; try done; cbn in A5 |- *.
    + eapply rep_proper; [|exact A1]. split; [done|]. split; [done|]. split; [|done]. cbn. by rewrite !insert_insert_eq.
    + rewrite A5, !dom_insert_L. set_solver.
Qed.

Lemma release_bh_wp s c H k bh bh' (tail dirty : bool) (Q : unit -> bm -> Prop) : serves s c H -> H !! k = Some bh' -> bh_bc bh' = bh_bc bh ->
  may_release (ca_store c) k dirty ->
  (forall s', serves s' (with_heads 1 (fun a => released a k dirty) c) (delete k H) -> Q tt s') -> wp (nvfuse_release_bh (Some bh) tail dirty) Q s.
Proof.
  intros V Hbh Ebh Hr HQ. assert (is_held c k) as Hk by (destruct Hr as (h & Hh & _); by exists h).
  destruct (head_at s c H k V Hk) as (bh0 & b & h & Hbh0 & Hat & _). assert (bh0 = bh') as -> by congruence. unfold nvfuse_release_bh.
  rewrite Ebh in Hat. wp_step. eapply release_bc_wp; [apply V|exact Hat|done|]. intros s' R [K1 K2 K3 K4 K5] St. unfold nvfuse_free_buffer_head. wp_steps.
  apply HQ. split; cbn.
  - by apply rep_bh_free.
  - rewrite K1. apply V.
  - rewrite K2, (sv_heads _ _ _ V). lia.
  - rewrite K3. apply V.
  - by rewrite !dom_delete_L, (sv_dom _ _ _ V).
  - intros k' bh1 [_ Hbh1]%lookup_delete_Some. by apply (heads_stable s s' c H V St).
Qed.

Lemma release_serves s c H k (tail dirty : bool) : serves s c H -> may_release (ca_store c) k dirty ->
  wp (client_step (ORelease k tail dirty) H) (served c (ORelease k tail dirty)) s.
Proof.
  intros V Hr. assert (is_held c k) as Hk by (destruct Hr as (h & Hh & _); by exists h).
  destruct (head_at s c H k V Hk) as (bh & b & h & Hbh & Hat & _). cbn [client_step]. rewrite Hbh. wp_step.
  eapply release_bh_wp; [exact V|exact Hbh|done|done|]. intros s' V'. wp_step. eexists. split; [by constructor|exact V'].
Qed.

Lemma with_empty c : with_store (fun a => a) c = c.
Proof. by destruct c. Qed.

Lemma step_serves op s c H : serves s c H -> pre op c -> wp (client_step op H) (served c op) s.
Proof.
  intros V Hpre. destruct op as [ino lb sync meta|ino lb meta|k|k f|k l|k|k tail dirty|ino lb| |force|nr|nr];
    [by apply get_serves|by apply new_serves| | | | |by apply release_serves| | | | |]; cbn [client_step pre] in *.
  - destruct (head_at s c H k V Hpre) as (bh & b & h & Hbh & Hat & Hh & Ht & _ & Hb & Hc & Hl).
    unfold held_head, bh_read. wp_step. eapply wp_lift; [exact Hbh|]. wp_step. wp_step. eapply wp_obj; [exact Hb|]. wp_steps.
    exists c. split; [|done]. by constructor; [intros; apply Hc|].
  - destruct Hpre as [Hk Hf]. destruct (head_at s c H k V Hk) as (bh & b & h & Hbh & Hat & Hh & Ht & _ & Hb & Hc & Hl).
    unfold held_head, bh_write. wp_step. eapply wp_lift; [exact Hbh|]. wp_step. eapply wp_upd_obj; [exact Hb|]. wp_steps.
    eexists. split; [by constructor|]. assert (set_buf (f (bc_buf b)) b = set_dirty (false || bc_dirty b) (set_buf (f (bc_buf b)) b)) as -> by (by destruct b).
    apply (use_serves s c H k bh b h _ _ false); [done..|by apply Hf|]. intros l' E. destruct (contents c k) as [l0|]; [|done].
    injection E as <-. by rewrite (Hc l0).
  - destruct Hpre as [Hk Hf]. destruct (head_at s c H k V Hk) as (bh & b & h & Hbh & Hat & Hh & Ht & _ & Hb & Hc & Hl).
    unfold held_head, bh_write. wp_step. eapply wp_lift; [exact Hbh|]. wp_step. eapply wp_upd_obj; [exact Hb|]. wp_steps.
    eexists. split; [by constructor|]. assert (set_buf l b = set_dirty (false || bc_dirty b) (set_buf l b)) as -> by (by destruct b).
    apply (use_serves s c H k bh b h _ _ false); [done..|]. by intros l' [= <-].
  - destruct (head_at s c H k V Hpre) as (bh & b & h & Hbh & Hat & Hh & Ht & _ & Hb & Hc & Hl).
    unfold held_head. wp_step. eapply wp_lift; [exact Hbh|]. wp_step. eapply mark_wp; [exact V|done..|].
    intros s' bh' V'. wp_steps. eexists. split; [by constructor|exact V'].
  - destruct Hpre as (Hr & Hp & Hn). destruct (key_mapped ino lb Hr Hp) as [-> Hm]. wp_step. eapply drop_wp; [apply V|done|done|].
    intros s' R [K1 K2 K3 K4 K5] St. wp_steps. eexists. split; [by constructor|]. eapply serves_same; [exact V|exact R| | | |done|done]; [rewrite K1|rewrite K2|rewrite K3]; apply V.
  - wp_step. eapply (flush_wp pbn mapped pbn_inj); [apply V|]. intros s' R K. wp_steps. eexists. split; [by constructor|].
    eapply serves_same; [exact V|exact R| | | |done|by apply kept_stable]; destruct K as [K1 K2 K3 _ _]; rewrite ?K1, ?K2, ?K3; apply V.
  - wp_step. eapply (check_flush_wp pbn mapped pbn_inj); [apply V|]. intros s' X HX R K. wp_steps. eexists. split; [by constructor|].
    eapply serves_same; [exact V|exact R| | | |done|by apply kept_stable]; destruct K as [K1 K2 K3 _ _]; rewrite ?K1, ?K2, ?K3; apply V.
  - destruct Hpre as [Hn Hsz]. wp_step. eapply add_wp; [apply V|apply V|done|by rewrite (sv_size _ _ _ V)|].
    intros s' r m Hm Hr [M1 M2 M3 M4 M5 M6]. wp_steps. eexists. split; [constructor; [split; [apply Hm|lia]|lia]|].
    eapply serves_same; [exact V|exact M1|rewrite M2, (sv_size _ _ _ V); done|rewrite M4; apply V|lia|done|done].
  - wp_step. eapply give_back_wp; [apply V|done|]. intros s' r [(-> & _ & L & Hmin)|[-> ->]]; wp_steps.
    + destruct L as [L1 L2 L3 L4 L5 L6]. rewrite L2, (sv_size _ _ _ V) in Hmin. eexists. split; [by constructor|].
      eapply serves_same; [exact V|exact L1|rewrite L2, (sv_size _ _ _ V); done|rewrite L4; apply V| |done|].
      * rewrite L3. pose proof (sv_bc _ _ _ V). lia.
      * intros k id b Hat Ht. exists b. by apply L6.
    + exists c. split; [constructor|done].
Qed.

(** A safe sequence of operations runs to its end, and its answers are those of
    the store. *)
Lemma run_serves ops : forall s c H, serves s c H -> safe ops c ->
  wp (client_run ops H) (fun x s' => exists c', sees c ops x.1 c' /\ serves s' c' x.2) s.
Proof.
  induction ops as [|op ops IH]; intros s c H V Hs; cbn [client_run].
  - wp_step. exists c. split; [constructor|done].
  - destruct Hs as [Hpre Hs]. wp_step. eapply wp_mono; [by apply step_serves|]. intros [r H1] s1 (c1 & Hp & V1). cbn [Datatypes.fst snd] in *.
    wp_step. eapply wp_mono; [apply (IH s1 c1); [done|by eapply Hs]|]. intros [rs H2] s2 (c2 & Hrs & V2). wp_step. exists c2.
    split; [by econstructor|done].
Qed.

End client.
End BufferClient.
