(* ===== verification/BufferThms.v ===== *)
(** * The buffer cache: properties *)
From S2P Require Import Prelude Layout BufferCache BufferRules BufferFind BufferUse BufferFlush BufferShrink.
From S2P Require Import BufferClient.
Import Layout BufferCache CacheLists BufferSpec BufferRules BufferOps BufferFind BufferGet BufferUse BufferFlush BufferInit BufferShrink BufferClient.

Module BufferThms.

(** ** Runs that do not return *)

Lemma stuck_first {S A B} (m : M S A) (k : A -> M S B) s : m s = None -> (x ← m; k x) s = None.
Proof. unfold mbind, M_bind. by intros ->. Qed.

Section stuck.
Implicit Types s : bm.

Lemma forced_flush_stuck s : bm_lock s = true -> count s BUFFER_TYPE_DIRTY <> 0 -> nvfuse_check_flush_dirty true s = None.
Proof.
  intros Hk Hc. unfold nvfuse_check_flush_dirty. apply bind_aborts. wp_step. cbn [negb andb]. rewrite (proj2 (Z.eqb_neq _ _)) by done.
  unfold nvfuse_flush_dirty_data. apply bind_aborts. wp_step. cbn [flush_loop]. apply bind_aborts. wp_step.
  rewrite (proj2 (Z.eqb_neq _ _)) by done. apply stuck_first, stuck_first. by apply bm_lock_stuck.
Qed.

Lemma replace_stuck s : bm_lock s = true -> count s BUFFER_TYPE_UNUSED = 0 -> count s BUFFER_TYPE_CLEAN = 0 ->
  nvfuse_replace_buffer_cache s = None.
Proof.
  intros Hk Hu Hc. unfold nvfuse_replace_buffer_cache. apply bind_aborts. wp_step. rewrite Hu, Hc. cbn [negb Z.eqb].
  destruct (decide (count s BUFFER_TYPE_DIRTY = 0)) as [E|E]; [|by apply stuck_first, stuck_first, forced_flush_stuck].
  apply bind_aborts. wp_step. unfold nvfuse_check_flush_dirty. wp_step. wp_step. cbn [negb andb]. rewrite (proj2 (Z.eqb_eq _ _) E). wp_steps.
  apply bind_aborts. wp_step. apply stuck_first. unfold massert. by rewrite E.
Qed.

End stuck.

Section thms.
Context (pbn : Z -> Z -> Z).
Implicit Types (s : bm) (a : store) (c : cache) (H : heads).
Notation mapped := (mapped pbn).

(** Blocks of 4 KB *)
Definition full_blocks s : Prop := forall p l, bm_dev s !! p = Some l -> length l = Z.to_nat CLUSTER_SIZE.

(** The cache at its start, for its clients *)
Definition start_cache (n : Z) s : cache := mk_cache n NVFUSE_BH_MEMPOOL_TOTAL_SIZE (fresh_store pbn s).

(** The code from its start: the cache is made and used. *)
Definition cache_session (buffer_size total : Z) (ops : list client_op) : BM (list answer * heads) :=
  nvfuse_init_buffer_cache buffer_size total;; client_run pbn ops ∅.

Hypothesis pbn_inj : forall k k', mapped k -> mapped k' -> place pbn k = place pbn k' -> k = k'.

Lemma cache_session_wp buffer_size total ops s : full_blocks s ->
  0 < buffer_size_in_4k buffer_size total <= NVFUSE_BC_MEMPOOL_TOTAL_SIZE ->
  safe pbn ops (start_cache (buffer_size_in_4k buffer_size total) s) ->
  wp (cache_session buffer_size total ops) (fun x s' => exists c',
    sees (start_cache (buffer_size_in_4k buffer_size total) s) ops x.1 c' /\ serves pbn s' c' x.2) s.
Proof.
  intros Hd Hn Hs. unfold cache_session. wp_step. eapply (init_wp pbn mapped); [exact Hd|done|].
  intros s' R E1 E2 E3 E4. eapply (run_serves pbn pbn_inj); [|exact Hs]. split; try done. rewrite E2. lia.
Qed.

(** C3: The cache refines a store of blocks: from its start, every sequence of
    operations that a client may issue runs to its end, and what it returns is
    what the store returns. *)
Theorem cache_refines_store buffer_size total ops s : full_blocks s ->
  0 < buffer_size_in_4k buffer_size total <= NVFUSE_BC_MEMPOOL_TOTAL_SIZE ->
  safe pbn ops (start_cache (buffer_size_in_4k buffer_size total) s) ->
  exists rs H' s' c', cache_session buffer_size total ops s = Some ((rs, H'), s') /\
    sees (start_cache (buffer_size_in_4k buffer_size total) s) ops rs c' /\ rep pbn mapped s' (ca_store c').
Proof.
  intros Hd Hn Hs. destruct (wp_elim _ _ _ (cache_session_wp buffer_size total ops s Hd Hn Hs)) as ([rs H'] & s' & E & c' & Hsee & V).
  exists rs, H', s', c'. split; [done|]. split; [done|]. apply V.
Qed.

(** The shape of the manager: every buffer is in the list of its type and in one
    bucket, once; counters count; a key has one buffer; buffers are 4 KB. *)
Record well_formed s : Prop := {
  wf_lists : lists_ok (bm_bcs s) (lst s) (count s);
  wf_hash : hash_ok (bm_bcs s) (bucket s);
  wf_size : bm_cache_size s = Z.of_nat (size (bm_bcs s));
  wf_buf : forall id b, bm_bcs s !! id = Some b -> length (bc_buf b) = Z.to_nat CLUSTER_SIZE;
  wf_dirty : forall id b, bm_bcs s !! id = Some b -> bc_list_type b = BUFFER_TYPE_DIRTY -> bc_dirty b = true;
  wf_clean : forall id b, bm_bcs s !! id = Some b -> bc_list_type b = BUFFER_TYPE_CLEAN -> bc_dirty b = false;
  wf_ref : forall id b, bm_bcs s !! id = Some b -> bc_ref b = (if bc_list_type b =? BUFFER_TYPE_REF then 1 else 0) /\
    bc_locked b = (bc_list_type b =? BUFFER_TYPE_REF) /\ bc_list_type b <> BUFFER_TYPE_FLUSHING }.

Lemma rep_well_formed s a : rep pbn mapped s a -> well_formed s.
Proof.
  intros R. assert (forall id b, bm_bcs s !! id = Some b ->
    (bc_list_type b = BUFFER_TYPE_DIRTY -> bc_dirty b = true) /\ (bc_list_type b = BUFFER_TYPE_CLEAN -> bc_dirty b = false) /\
    bc_ref b = (if bc_list_type b =? BUFFER_TYPE_REF then 1 else 0) /\ bc_locked b = (bc_list_type b =? BUFFER_TYPE_REF) /\
    bc_list_type b <> BUFFER_TYPE_FLUSHING) as Ho.
  { intros id b Hb. destruct (decide (id ∈ bucket s HASH_NUM)) as [Hu|Hu].
    - destruct (re_free _ _ _ _ R id b Hb Hu) as ((? & ?) & ? & _). by rewrite (ha_unused _ _ (re_hash _ _ _ _ R) id b Hu Hb).
    - destruct (re_obj _ _ _ _ R _ _ _ (rep_at_key pbn mapped s a id b R Hb Hu)) as [_ Ho].
      destruct Ho as [(-> & ((? & ?) & ? & _) & _)|[(-> & (? & ?) & ? & _)|[(-> & (? & ?) & ? & _)|(-> & ? & ? & _)]]]; done. }
  split; try (intros id b Hb; by apply (Ho id b Hb)); try apply R.
Qed.

(** C12: Every state of the manager that a client reaches is well formed. *)
Theorem cache_well_formed buffer_size total ops s : full_blocks s ->
  0 < buffer_size_in_4k buffer_size total <= NVFUSE_BC_MEMPOOL_TOTAL_SIZE ->
  safe pbn ops (start_cache (buffer_size_in_4k buffer_size total) s) ->
  match cache_session buffer_size total ops s with Some (_, s') => well_formed s' | None => False end.
Proof.
  intros Hd Hn Hs. destruct (wp_elim _ _ _ (cache_session_wp buffer_size total ops s Hd Hn Hs)) as (x & s' & -> & c' & _ & V).
  eapply rep_well_formed, V.
Qed.

(** C13: A flush puts on the device what the cache holds, for every block that
    is not in use: afterwards nothing is dirty, and the device has the block. *)
Theorem flush_writes_back s c H : serves pbn s c H ->
  exists s', nvfuse_flush_dirty_data s = Some (tt, s') /\
    count s' BUFFER_TYPE_DIRTY = 0 /\
    (forall k, mapped k -> ab_held (ca_store c) !! k = None -> block s' (place pbn k) = ab_now (ca_store c) k) /\
    (forall k, mapped k -> is_Some (ab_held (ca_store c) !! k) -> block s' (place pbn k) = block s (place pbn k)).
Proof.
  intros V. set (a := ca_store c). destruct (wp_elim _ _ _ (flush_wp pbn mapped pbn_inj s a (fun _ s' => rep pbn mapped s' (flushed (to_write a) a)) (sv_rep _ _ _ _ V) (fun _ R _ => R))) as ([] & s' & E & R).
  exists s'. split; [done|].
  split; [|split].
  - pose proof (re_lists _ _ _ _ R) as Hl. rewrite (li_count _ _ _ Hl). destruct (lst s' BUFFER_TYPE_DIRTY) as [|id l] eqn:El; [done|].
    assert (id ∈ lst s' BUFFER_TYPE_DIRTY) as (b & Hb & Ht)%Hl by (rewrite El; apply elem_of_cons; by left).
    destruct (obj_types pbn mapped s' _ id b R Hb) as [_ Hd]. destruct (Hd Ht) as (_ & _ & _ & _ & _ & _ & Hh & Hd').
    cbn in Hh, Hd'. unfold to_write in Hd'. apply not_elem_of_dom in Hh. set_solver.
  - intros k Hk Hh. rewrite <- (re_dev _ _ _ _ R) by done. cbn. case_bool_decide as Hw; [done|].
    symmetry. apply (re_clean _ _ _ _ (sv_rep _ _ _ _ V)); [done|]. intros Hd. apply Hw. unfold to_write.
    apply not_elem_of_dom in Hh. set_solver.
  - intros k Hk Hh. rewrite <- (re_dev _ _ _ _ R) by done. cbn. rewrite bool_decide_false; [apply (re_dev _ _ _ _ (sv_rep _ _ _ _ V) k Hk)|].
    unfold to_write. apply elem_of_dom in Hh. set_solver.
Qed.

(** The victim is the least recently used buffer: the last of the unused
    ones, or without any the last of the clean ones; a buffer that is in use or
    dirty is never taken. *)
Theorem replace_takes_lru s a : rep pbn mapped s a -> count s BUFFER_TYPE_UNUSED <> 0 \/ count s BUFFER_TYPE_CLEAN <> 0 ->
  exists id s', nvfuse_replace_buffer_cache s = Some (id, s') /\
    last (lst s (if count s BUFFER_TYPE_UNUSED =? 0 then BUFFER_TYPE_CLEAN else BUFFER_TYPE_UNUSED)) = Some id /\
    (forall k b, at_key s k id b -> ab_held a !! k = None /\ k ∉ ab_dirty a) /\
    (forall t, lst s' t = without id (lst s t)) /\ bm_dev s' = bm_dev s.
Proof.
  intros R Hc. set (t := if count s BUFFER_TYPE_UNUSED =? 0 then BUFFER_TYPE_CLEAN else BUFFER_TYPE_UNUSED). set (P := fun (id : Z) s' => last (lst s t) = Some id /\
    (forall k b, at_key s k id b -> ab_held a !! k = None /\ k ∉ ab_dirty a) /\ (forall t, lst s' t = without id (lst s t)) /\ bm_dev s' = bm_dev s).
  assert (wp nvfuse_replace_buffer_cache P s) as W; [|destruct (wp_elim _ _ _ W) as (id & s' & E & HP); by exists id, s'].
  apply replace_wp; [apply R|intros id b Hb Ht; by apply (unused_or_clean pbn mapped s a id)|done|].
  intros id b Hb Ht Hlast. fold t in Ht. split; [by rewrite <- Ht|]. split; [|split; [|done]].
  - intros k b' Hat. destruct (re_obj _ _ _ _ R _ _ _ Hat) as [_ Ho]. destruct Hat as (Hb' & _).
    assert (b' = b) as -> by congruence. assert (bc_list_type b = BUFFER_TYPE_UNUSED \/ bc_list_type b = BUFFER_TYPE_CLEAN) as Hbt.
    { rewrite Ht. unfold t. case_match; tauto. }
    destruct Ho as [(_ & _ & ? & ?)|[(_ & _ & _ & _ & _ & ? & ?)|[(E & _)|(E & _)]]]; [done|done|rewrite E in Hbt; by destruct Hbt..].
  - intros t'. unfold detached, lst. bcbn. by apply lst_without.
Qed.

(** When every buffer is in use or dirty, a block that is not in the cache
    cannot be had: nvfuse_find_bc does not return, since the forced flush takes
    the lock that is already held (and would leave no dirty buffer to take). *)
Theorem find_full_hangs s a k lblock : rep pbn mapped s a -> (forall id b, ~ at_key s k id b) ->
  count s BUFFER_TYPE_UNUSED = 0 -> count s BUFFER_TYPE_CLEAN = 0 -> nvfuse_find_bc k lblock s = None.
Proof.
  intros R Hno Hu Hc. unfold nvfuse_find_bc. apply bind_aborts. apply wp_bm_lock; [apply R|]. apply bind_aborts. wp_step.
  apply bind_aborts. apply wp_hash_lookup; [apply R|intros id b Hat; by destruct (Hno id b)|intros _].
  apply stuck_first, stuck_first. by apply replace_stuck.
Qed.

(** A block that is in use cannot be had a second time: the caller spins on
    the lock of its buffer. *)
Theorem get_held_hangs s a ino lb (sync : bool) : rep pbn mapped s a -> 0 <= ino < 2 ^ 32 -> 0 <= lb < 2 ^ 32 ->
  is_Some (ab_held a !! key ino lb) -> nvfuse_get_bc pbn ino lb sync s = None.
Proof.
  intros R Hi Hl [h Hh]. destruct (make_key ino lb Hi Hl) as (Ek & _ & El).
  destruct (held_ref pbn mapped s a _ h R Hh) as (id & b & Hat & Ht & Hr & Hk & _). pose proof Hat as (Hb & _ & Hn).
  unfold nvfuse_get_bc. rewrite Ek. apply stuck_first. unfold nvfuse_find_bc. apply bind_aborts. apply wp_bm_lock; [apply R|].
  apply bind_aborts. wp_step. apply bind_aborts. apply wp_hash_lookup; [apply R| |intros Hno; by destruct (Hno id b)].
  intros id' b' Hat'. destruct (at_key_fun s _ id id' b b' (re_hash _ _ _ _ R) Hat Hat') as [<- <-]. clear Hat'.
  apply bind_aborts. wp_step. eapply (hit_wp id lb b); [apply R|exact Hb|unfold bc_lbno; by rewrite Hn|].
  intros s1 M1. wp_step. apply stuck_first. eapply bc_lock_stuck; [|exact Hk]. by rewrite (mv_bcs _ _ _ _ M1), lookup_insert_eq.
Qed.

(** After a flush with no buffer in use the cache can be given up: the
    flush and nvfuse_deinit_buffer_cache return, and no buffer is left. *)
Theorem flush_deinit s c : serves pbn s c ∅ ->
  exists s', (nvfuse_flush_dirty_data;; nvfuse_deinit_buffer_cache) s = Some (tt, s') /\ bm_bcs s' = ∅.
Proof.
  intros V. assert (wp (nvfuse_flush_dirty_data;; nvfuse_deinit_buffer_cache) (fun _ s' => bm_bcs s' = ∅) s) as W.
  - wp_step. eapply (flush_wp pbn mapped pbn_inj); [apply V|]. intros s' R _. eapply deinit_wp; [exact R| |done].
    assert (dom (ab_held (ca_store c)) = ∅) as Hd by (by rewrite <- (sv_dom _ _ _ _ V), dom_empty_L).
    cbn. unfold to_write. rewrite Hd. set_solver.
  - by destruct (wp_elim _ _ _ W) as ([] & s' & E & HP); exists s'.
Qed.

End thms.
(** ** Examples *)

(** Blocks one after the other *)
Definition demo_pbn (ino lb : Z) : Z := ino * 2 ^ 32 + lb + 1.

Lemma demo_inj k k' : mapped demo_pbn k -> mapped demo_pbn k' -> place demo_pbn k = place demo_pbn k' -> k = k'.
Proof. intros [? _] [? _]. unfold place, demo_pbn. dmlia. Qed.

Definition demo_dev : bm := init_state ∅.

Lemma demo_full : full_blocks demo_dev.
Proof. intros p l Hl. cbn in Hl. by rewrite lookup_empty in Hl. Qed.

(** A block is written, released, flushed and read again. *)
Definition demo_key : Z := key 5 0.
Definition demo_block : list Z := replicate (Z.to_nat CLUSTER_SIZE) 7.
Definition demo_ops : list client_op :=
  [OGet 5 0 true false; OFill demo_key demo_block; OMark demo_key; ORelease demo_key false true; OFlush; OGet 5 0 true false; ORead demo_key].

Lemma demo_safe n s : 1 <= n -> safe demo_pbn demo_ops (start_cache demo_pbn n s).
Proof.
  intros Hn. assert (forall c, ca_size c = n -> ab_held (ca_store c) = ∅ -> ab_dirty (ca_store c) ⊆ {[ demo_key ]} -> may_get demo_pbn c 5 0) as Hget.
  { intros c Hsz Hh Hd. split; [by split|]. split; [done|]. split; [by rewrite Hh, lookup_empty|].
    destruct (decide (demo_key ∈ ab_dirty (ca_store c))) as [|Hni]; [by left|right]. unfold busy. rewrite Hh, Hsz.
    assert (ab_dirty (ca_store c) = ∅) as ->.
    { apply elem_of_equiv_empty_L. intros k Hk. pose proof (Hd k Hk) as ->%elem_of_singleton. by apply Hni. }
    rewrite dom_empty_L, union_empty_l_L, size_empty. lia. }
  unfold demo_ops. cbn [safe]. split; [right; apply Hget; [done|done|set_solver]|]. intros r1 c1 P1. inversion P1; subst; [done|].
  split; [split; [by eexists|by apply length_replicate]|]. intros r2 c2 P2. inversion P2; subst. fold demo_key.
  split; [by eexists|]. intros r3 c3 P3. inversion P3; subst. set (c2' := with_store (changed _ _) _) in *.
  assert (contents c2' demo_key = Some demo_block) as Ec by (unfold contents; cbn; by rewrite lookup_insert_eq).
  split; [eexists; split; [apply lookup_insert_eq|]; rewrite Ec; cbn; split; [by left|by eexists]|].
  intros r4 c4 P4. inversion P4; subst. split; [done|]. intros r5 c5 P5. inversion P5; subst.
  split; [|intros r6 c6 P6; inversion P6; subst; [done|split; [by eexists|done]]].
  right. apply Hget; [done| |]; cbn.
  - by rewrite !insert_insert_eq, delete_insert_eq, delete_empty.
  - intros k [Hk _]%elem_of_difference. rewrite !elem_of_union, elem_of_empty, elem_of_singleton in Hk. apply elem_of_singleton. by destruct Hk as [?|[?|?]].
Qed.

Example cache_refines_store_ex : exists rs H' s' c', cache_session demo_pbn 1 0 demo_ops demo_dev = Some ((rs, H'), s') /\
  sees (start_cache demo_pbn 256 demo_dev) demo_ops rs c' /\ rep demo_pbn (mapped demo_pbn) s' (ca_store c').
Proof. apply (cache_refines_store demo_pbn demo_inj 1 0 demo_ops demo_dev demo_full); [done|by apply demo_safe]. Defined.

Example cache_well_formed_ex : match cache_session demo_pbn 1 0 demo_ops demo_dev with Some (_, s') => well_formed s' | None => False end.
Proof. apply (cache_well_formed demo_pbn demo_inj 1 0 demo_ops demo_dev demo_full); [done|by apply demo_safe]. Defined.

(** A cache of one buffer, which is in use *)
Definition one_buffer : bm := grown demo_dev.
Definition one_cache : cache := start_cache demo_pbn 1 demo_dev.
Definition one_get : client_op := OGet 5 0 true false.
Definition one_used : bm := match client_step demo_pbn one_get ∅ one_buffer with Some (_, s) => s | None => one_buffer end.

(** The run itself in a cache of one buffer: the block that was written is read. *)
Example demo_answers : (fun x => x.1.1) <$> client_run demo_pbn demo_ops ∅ one_buffer =
  Some [ADone; ADone; ADone; ADone; ADone; ADone; AData demo_block].
Proof. by vm_compute. Qed.

Lemma one_serves : serves demo_pbn one_buffer one_cache ∅.
Proof.
  destruct (grown_rep demo_pbn (mapped demo_pbn) demo_dev (fresh_store demo_pbn demo_dev)) as [R _]; [by apply init_rep|done|].
  by split.
Qed.

Lemma one_used_serves : exists H, serves demo_pbn one_used (with_heads (-1) (taken demo_key true) one_cache) H.
Proof.
  assert (pre demo_pbn one_get one_cache) as Hpre.
  { right. split; [by split|]. split; [done|]. split; [by apply lookup_empty|]. right. by vm_compute. }
  pose proof (step_serves demo_pbn demo_inj one_get one_buffer one_cache ∅ one_serves Hpre) as W. unfold wp in W. unfold one_used.
  destruct (client_step demo_pbn one_get ∅ one_buffer) as [[[r H] s]|]; [|done]. destruct W as (c' & P & V). exists H.
  inversion P; subst; [done|exact V].
Qed.

Lemma one_used_rep : rep demo_pbn (mapped demo_pbn) one_used (taken demo_key true (fresh_store demo_pbn demo_dev)).
Proof. destruct one_used_serves as [H V]. apply (sv_rep _ _ _ _ V). Qed.

Example flush_writes_back_ex : exists s', nvfuse_flush_dirty_data one_buffer = Some (tt, s') /\ count s' BUFFER_TYPE_DIRTY = 0 /\
    (forall k, mapped demo_pbn k -> ab_held (ca_store one_cache) !! k = None -> block s' (place demo_pbn k) = ab_now (ca_store one_cache) k) /\
    (forall k, mapped demo_pbn k -> is_Some (ab_held (ca_store one_cache) !! k) -> block s' (place demo_pbn k) = block one_buffer (place demo_pbn k)).
Proof. apply (flush_writes_back demo_pbn demo_inj one_buffer one_cache ∅ one_serves). Defined.

Example replace_takes_lru_ex : exists id s', nvfuse_replace_buffer_cache one_buffer = Some (id, s') /\
    last (lst one_buffer (if count one_buffer BUFFER_TYPE_UNUSED =? 0 then BUFFER_TYPE_CLEAN else BUFFER_TYPE_UNUSED)) = Some id /\
    (forall k b, at_key one_buffer k id b -> ab_held (ca_store one_cache) !! k = None /\ k ∉ ab_dirty (ca_store one_cache)) /\
    (forall t, lst s' t = without id (lst one_buffer t)) /\ bm_dev s' = bm_dev one_buffer.
Proof. apply (replace_takes_lru demo_pbn _ _ (sv_rep _ _ _ _ one_serves)). left. by vm_compute. Defined.

Example find_full_hangs_ex : nvfuse_find_bc (key 6 0) 0 one_used = None.
Proof.
  apply (find_full_hangs demo_pbn one_used _ _ 0 one_used_rep); [|by vm_compute..].
  intros id b (Hb & Hi & Hk). revert Hi. assert (bucket one_used (key 6 0 mod HASH_NUM) = []) as -> by (by vm_compute). by intros ?%elem_of_nil.
Defined.

Example get_held_hangs_ex : nvfuse_get_bc demo_pbn 5 0 true one_used = None.
Proof. apply (get_held_hangs demo_pbn one_used _ 5 0 true one_used_rep); [done|done|]. eexists. apply lookup_insert_eq. Defined.

Example flush_deinit_ex : exists s', (nvfuse_flush_dirty_data;; nvfuse_deinit_buffer_cache) one_buffer = Some (tt, s') /\ bm_bcs s' = ∅.
Proof. apply (flush_deinit demo_pbn demo_inj one_buffer one_cache one_serves). Defined.

End BufferThms.
