(* ===== verification/Reactor.v ===== *)
(** * The reactor: rings of I/O requests (nvfuse_reactor.c)

    A task has two rings, one of submitted and one of completed requests.  The
    threads of the file system put requests into the first and wait at the
    second; the reactor thread takes requests out and gives them to the block
    device, whose completions call back into the second ring.  The mutexes of the
    rings make a put or a get one step.

    Objects of the two pools are named by numbers; an object keeps its contents
    while it lies in its pool.  The block device is a parameter: [bdev_rc] is the
    code of spdk_bdev_readv, spdk_bdev_writev and spdk_bdev_flush, [bdev_io] the
    effect of a request on a world [W] (memory and device) and its success, both
    at its completion. *)
From S2P Require Import Prelude Layout Arr.
Import Arr.

Module Reactor.

(** ** Constants *)
Definition REACTOR_LCORE : Z := 0.
Definition REACTOR_MAX_REQUEST : Z := 1024.
Definition NV_BLOCK_SIZE : Z := Layout.CLUSTER_SIZE.
(** enum spdk_bdev_io_type *)
Definition SPDK_BDEV_IO_TYPE_READ : Z := 1.
Definition SPDK_BDEV_IO_TYPE_WRITE : Z := 2.
Definition SPDK_BDEV_IO_TYPE_FLUSH : Z := 4.

(** ** Data *)

(** struct io_job: [j_buf] is the base of its one iovec. *)
Record io_job := mk_job {
  j_offset : Z;
  j_bytes : Z;
  j_type : Z;
  j_buf : Z;
  j_iovcnt : Z;
  j_ret : Z;
  j_task : Z;
  j_complete : Z;
  j_tag1 : Z }.

Definition set_ret (v : Z) (j : io_job) := mk_job (j_offset j) (j_bytes j) (j_type j) (j_buf j) (j_iovcnt j) v (j_task j) (j_complete j) (j_tag1 j).
Definition set_task (v : Z) (j : io_job) := mk_job (j_offset j) (j_bytes j) (j_type j) (j_buf j) (j_iovcnt j) (j_ret j) v (j_complete j) (j_tag1 j).
Definition set_complete (v : Z) (j : io_job) := mk_job (j_offset j) (j_bytes j) (j_type j) (j_buf j) (j_iovcnt j) (j_ret j) (j_task j) v (j_tag1 j).

(** One of the two rings of a task: the array, head and tail. *)
Record ring := mk_ring { slots : list (option Z); head : Z; tail : Z }.

(** struct reactor_task *)
Record reactor_task := mk_task { qdepth : Z; sq : ring; cq : ring }.

(** struct io_target with its pools, io_job_mempool of the superblock, the events on their way to the reactor, the
    requests at the device and the world. *)
Record rst {W : Type} := mk_rst {
  r_tasks : gmap Z reactor_task;
  r_jobs : gmap Z io_job;
  task_pool : list Z;
  req_pool : list Z;
  job_pool : list Z;
  lcore : Z;
  io_completed : Z;
  current_queue_depth : Z;
  is_draining : bool;
  r_events : list Z;
  r_inflight : list Z;
  r_world : W }.
Arguments rst : clear implicits.

(** ** Rings *)

(** src/nvfuse_reactor.c: reactor_sq_is_empty, reactor_cq_is_empty *)
Definition ring_is_empty (r : ring) : bool := head r =? tail r.
(** src/nvfuse_reactor.c: reactor_sq_is_full, reactor_cq_is_full *)
Definition ring_is_full (d : Z) (r : ring) : bool :=
  if tail r <=? head r then (head r - tail r) =? d - 1 else head r + 1 =? tail r.
(** src/nvfuse_reactor.c: reactor_sq_size *)
Definition ring_size (d : Z) (r : ring) : Z :=
  if tail r <=? head r then head r - tail r else d - tail r + head r.

(** The body of the put functions: [None] is an access outside the array, the
    inner [None] the error of a full ring. *)
Definition ring_put (d : Z) (req : Z) (r : ring) : option (option ring) :=
  if ring_is_full d r then Some None
  else
    a ← aset (slots r) (head r) (Some req);
    Some (Some (mk_ring a (Z.rem (head r + 1) d) (tail r))).
(** The body of the get functions *)
Definition ring_get (d : Z) (r : ring) : option (option Z * ring) :=
  req ← aget (slots r) (tail r);
  a ← aset (slots r) (tail r) None;
  Some (req, mk_ring a (head r) (Z.rem (tail r + 1) d)).

Section ops.
Context {W : Type} (bdev_rc : io_job -> W -> Z) (bdev_io : io_job -> W -> bool * W).
Notation RM := (M (rst W)).
Implicit Types s : rst W.

Definition set_tasks v s : rst W := mk_rst W v (r_jobs s) (task_pool s) (req_pool s) (job_pool s) (lcore s) (io_completed s) (current_queue_depth s) (is_draining s) (r_events s) (r_inflight s) (r_world s).
Definition set_jobs v s : rst W := mk_rst W (r_tasks s) v (task_pool s) (req_pool s) (job_pool s) (lcore s) (io_completed s) (current_queue_depth s) (is_draining s) (r_events s) (r_inflight s) (r_world s).
Definition set_task_pool v s : rst W := mk_rst W (r_tasks s) (r_jobs s) v (req_pool s) (job_pool s) (lcore s) (io_completed s) (current_queue_depth s) (is_draining s) (r_events s) (r_inflight s) (r_world s).
Definition set_req_pool v s : rst W := mk_rst W (r_tasks s) (r_jobs s) (task_pool s) v (job_pool s) (lcore s) (io_completed s) (current_queue_depth s) (is_draining s) (r_events s) (r_inflight s) (r_world s).
Definition set_job_pool v s : rst W := mk_rst W (r_tasks s) (r_jobs s) (task_pool s) (req_pool s) v (lcore s) (io_completed s) (current_queue_depth s) (is_draining s) (r_events s) (r_inflight s) (r_world s).
Definition count_io s : rst W := mk_rst W (r_tasks s) (r_jobs s) (task_pool s) (req_pool s) (job_pool s) (lcore s) (s32 (io_completed s + 1)) (s32 (current_queue_depth s - 1)) (is_draining s) (r_events s) (r_inflight s) (r_world s).
Definition set_events v s : rst W := mk_rst W (r_tasks s) (r_jobs s) (task_pool s) (req_pool s) (job_pool s) (lcore s) (io_completed s) (current_queue_depth s) (is_draining s) v (r_inflight s) (r_world s).
Definition set_inflight v s : rst W := mk_rst W (r_tasks s) (r_jobs s) (task_pool s) (req_pool s) (job_pool s) (lcore s) (io_completed s) (current_queue_depth s) (is_draining s) (r_events s) v (r_world s).
Definition set_world v s : rst W := mk_rst W (r_tasks s) (r_jobs s) (task_pool s) (req_pool s) (job_pool s) (lcore s) (io_completed s) (current_queue_depth s) (is_draining s) (r_events s) (r_inflight s) v.

Definition get_task (t : Z) : RM reactor_task := fun s => mlift (r_tasks s !! t) s.
Definition put_task (t : Z) (v : reactor_task) : RM unit := mmodify (fun s => set_tasks (<[ t := v ]> (r_tasks s)) s).
Definition get_job (j : Z) : RM io_job := fun s => mlift (r_jobs s !! j) s.
Definition upd_job (j : Z) (f : io_job -> io_job) : RM unit :=
  v ← get_job j; mmodify (fun s => set_jobs (<[ j := f v ]> (r_jobs s)) s).

(** src/nvfuse_reactor.c: reactor_sq_get_req: NULL when the ring is empty *)
Definition reactor_sq_get_req (t : Z) : RM (option Z) :=
  task ← get_task t;
  if ring_is_empty (sq task) then mret None
  else
    '(req, r) ← mlift (ring_get (qdepth task) (sq task));
    put_task t (mk_task (qdepth task) r (cq task));;
    mret req.

(** src/nvfuse_reactor.c: reactor_sq_put_req *)
Definition reactor_sq_put_req (t req : Z) : RM Z :=
  task ← get_task t;
  r ← mlift (ring_put (qdepth task) req (sq task));
  match r with
  | None => mret (-1)
  | Some r => put_task t (mk_task (qdepth task) r (cq task));; mret 0
  end.

(** src/nvfuse_reactor.c: reactor_cq_put_req *)
Definition reactor_cq_put_req (t req : Z) : RM Z :=
  task ← get_task t;
  r ← mlift (ring_put (qdepth task) req (cq task));
  match r with
  | None => mret (-1)
  | Some r => put_task t (mk_task (qdepth task) (sq task) r);; mret 0
  end.

(** src/nvfuse_reactor.c: reactor_bio_cb; a failed request calls abort.  The
    result of the put is not looked at. *)
Definition reactor_bio_cb (success : bool) (req : Z) : RM unit :=
  j ← get_job req;
  massert success;;
  upd_job req (set_ret 0);;
  mmodify count_io;;
  reactor_cq_put_req (j_task j) req;;
  mret tt.

(** ** Tasks and requests *)

(** The first [n] slots of an array are cleared. *)
Definition clear_slots (n : Z) (a : list (option Z)) : option (list (option Z)) := afill a 0 n None.

(** src/nvfuse_reactor.c: reactor_alloc_task: NULL when the depth is too large;
    an empty pool calls abort. *)
Definition reactor_alloc_task (depth : Z) : RM (option Z) :=
  if REACTOR_MAX_REQUEST <? depth + 1 then mret None
  else
    s ← mget;
    match task_pool s with
    | [] => mabort
    | t :: pool =>
        mmodify (set_task_pool pool);;
        task ← get_task t;
        a ← mlift (clear_slots (Z.max 0 depth) (slots (sq task)));
        b ← mlift (clear_slots (Z.max 0 depth) (slots (cq task)));
        put_task t (mk_task (depth + 1) (mk_ring a 0 0) (mk_ring b 0 0));;
        mret (Some t)
    end.

(** src/nvfuse_reactor.c: reactor_free_task *)
Definition reactor_free_task (t : Z) : RM unit := mmodify (fun s => set_task_pool (t :: task_pool s) s).

(** src/nvfuse_reactor.c: reactor_make_single_req *)
Definition reactor_make_single_req (offset bytes buf type : Z) : RM Z :=
  s ← mget;
  match req_pool s with
  | [] => mabort
  | r :: pool =>
      mmodify (set_req_pool pool);;
      upd_job r (fun j => mk_job offset bytes type buf 1 (j_ret j) (j_task j) (j_complete j) (j_tag1 j));;
      mret r
  end.

(** src/nvfuse_reactor.c: reactor_free_reqs *)
Definition reactor_free_reqs (reqs : list Z) : RM unit := mmodify (fun s => set_req_pool (reqs ++ req_pool s) s).

(** src/nvfuse_reactor.c: reactor_submit_reqs: -1 when the ring is full, after
    the requests before; otherwise an event for the reactor. *)
Fixpoint put_reqs (t : Z) (reqs : list Z) : RM Z :=
  match reqs with
  | [] => mret 0
  | req :: reqs =>
      upd_job req (set_task t);;
      r ← reactor_sq_put_req t req;
      if r <? 0 then mret (-1) else put_reqs t reqs
  end.
Definition reactor_submit_reqs (t : Z) (reqs : list Z) : RM Z :=
  r ← put_reqs t reqs;
  if r <? 0 then mret (-1)
  else
    s ← mget;
    massert (lcore s =? REACTOR_LCORE);;
    mmodify (fun s => set_events (r_events s ++ [t]) s);;
    mret 0.

(** ** The reactor and the device *)

(** src/nvfuse_reactor.c: reactor_submit_on_core: its loop; a request that the
    device refuses ends in an assertion. *)
Definition submit_one (req : Z) : RM unit :=
  j ← get_job req;
  massert (negb (j_iovcnt j =? 0));;
  massert ((j_type j =? SPDK_BDEV_IO_TYPE_READ) || (j_type j =? SPDK_BDEV_IO_TYPE_WRITE) || (j_type j =? SPDK_BDEV_IO_TYPE_FLUSH));;
  s ← mget;
  massert (bdev_rc j (r_world s) =? 0);;
  mmodify (fun s => set_inflight (r_inflight s ++ [req]) s).
Fixpoint submit_loop (fuel : nat) (t : Z) : RM unit :=
  match fuel with
  | O => mabort
  | S fuel =>
      r ← reactor_sq_get_req t;
      match r with None => mret tt | Some req => submit_one req;; submit_loop fuel t end
  end.
Definition reactor_submit_on_core (t : Z) : RM unit := submit_loop (Z.to_nat REACTOR_MAX_REQUEST) t.

(** The reactor runs its next event. *)
Definition run_event : RM unit :=
  s ← mget;
  match r_events s with
  | [] => mabort
  | t :: ev => mmodify (set_events ev);; reactor_submit_on_core t
  end.

(** The device completes request [i] of those it has. *)
Definition complete (i : nat) : RM unit :=
  s ← mget;
  req ← mlift (r_inflight s !! i);
  mmodify (fun s => set_inflight (delete i (r_inflight s)) s);;
  j ← get_job req;
  let r := bdev_io j (r_world s) in
  mmodify (set_world r.2);;
  reactor_bio_cb r.1 req.

(** ** Waiting *)

(** [pick] chooses the request that the device completes next. *)
Context (pick : list Z -> nat).

(** What goes on while a thread waits: the reactor has an event, or the device
    completes a request.  With neither the thread waits for ever. *)
Definition others_step : RM unit :=
  s ← mget;
  if bool_decide (r_events s = []) then complete (pick (r_inflight s)) else run_event.

(** src/nvfuse_reactor.c: reactor_cq_size *)
Definition reactor_cq_size (t : Z) : RM Z :=
  task ← get_task t;
  let size := ring_size (qdepth task) (cq task) in
  massert (0 <=? size);;
  mret size.

(** [while (reactor_cq_size (task) < min_reqs) pthread_cond_wait]: an event brings
    less than REACTOR_MAX_REQUEST requests to the device. *)
Fixpoint cq_wait (fuel : nat) (t min_reqs : Z) : RM unit :=
  size ← reactor_cq_size t;
  if size <? min_reqs then
    match fuel with O => mabort | S fuel => others_step;; cq_wait fuel t min_reqs end
  else mret tt.
Definition wait_fuel s : nat := (length (r_inflight s) + Z.to_nat REACTOR_MAX_REQUEST * length (r_events s))%nat.

Fixpoint cq_take (n : nat) (t : Z) : RM (list (option Z)) :=
  match n with
  | O => mret []
  | S n =>
      task ← get_task t;
      '(req, r) ← mlift (ring_get (qdepth task) (cq task));
      put_task t (mk_task (qdepth task) (sq task) r);;
      rest ← cq_take n t;
      mret (req :: rest)
  end.

(** src/nvfuse_reactor.c: reactor_cq_get_reqs: the requests written to [reqs] *)
Definition reactor_cq_get_reqs (t min_reqs max_reqs : Z) : RM (list (option Z)) :=
  if min_reqs =? 0 then mret []
  else
    task ← get_task t;
    massert (negb (qdepth task <? max_reqs));;
    s ← mget;
    cq_wait (wait_fuel s) t min_reqs;;
    n ← reactor_cq_size t;
    cq_take (Z.to_nat (if max_reqs <? n then max_reqs else n)) t.

(** ** Synchronous requests *)

(** [while (ptr < count) ptr += reactor_cq_get_reqs (task, &reqs[ptr], 1, count - ptr);]
    A call brings a request, so that [count] calls are enough. *)
Fixpoint get_all (fuel : nat) (t ptr count : Z) : RM (list (option Z)) :=
  if ptr <? count then
    match fuel with
    | O => mabort
    | S fuel =>
        reqs ← reactor_cq_get_reqs t 1 (count - ptr);
        rest ← get_all fuel t (ptr + Z.of_nat (length reqs)) count;
        mret (reqs ++ rest)
    end
  else mret [].

(** A NULL task or request is dereferenced. *)
Definition reactor_sync (offset bytes buf type : Z) : RM Z :=
  t ← reactor_alloc_task 1;
  t ← mlift t;
  req ← reactor_make_single_req offset bytes buf type;
  reactor_submit_reqs t [req];;
  reqs ← get_all 1 t 0 1;
  req ← mlift (List.hd None reqs);
  j ← get_job req;
  reactor_free_reqs [req];;
  reactor_free_task t;;
  mret (j_ret j).

(** src/nvfuse_reactor.c: reactor_sync_read_blk, reactor_sync_write_blk,
    reactor_sync_flush *)
Definition reactor_sync_read_blk (block count buf : Z) : RM Z :=
  reactor_sync (block * NV_BLOCK_SIZE) (s32 (count * NV_BLOCK_SIZE)) buf SPDK_BDEV_IO_TYPE_READ.
Definition reactor_sync_write_blk (block count buf : Z) : RM Z :=
  reactor_sync (block * NV_BLOCK_SIZE) (s32 (count * NV_BLOCK_SIZE)) buf SPDK_BDEV_IO_TYPE_WRITE.
Definition reactor_sync_flush : RM Z := reactor_sync 0 4096 0 SPDK_BDEV_IO_TYPE_FLUSH.

(** ** Many requests at once (nvfuse_core.c) *)

(** src/nvfuse_core.c: nvfuse_make_jobs: [numjobs] requests of the pool, or an
    assertion; nvfuse_release_jobs *)
Definition AIO_MAX_QDEPTH : Z := 512.
Definition nvfuse_make_jobs (numjobs : Z) : RM (list Z) :=
  massert (numjobs <=? AIO_MAX_QDEPTH);;
  s ← mget;
  massert (numjobs <=? Z.of_nat (length (job_pool s)));;
  mmodify (fun s => set_job_pool (drop (Z.to_nat numjobs) (job_pool s)) s);;
  mret (take (Z.to_nat numjobs) (job_pool s)).
Definition nvfuse_release_jobs (jobs : list Z) : RM unit := mmodify (fun s => set_job_pool (jobs ++ job_pool s) s).

(** src/nvfuse_core.c: nvfuse_wait_aio_completion *)
Definition nvfuse_wait_aio_completion (t job_cnt : Z) : RM (list (option Z)) := get_all (Z.to_nat job_cnt) t 0 job_cnt.

(** The part of nvfuse_sync_dirty_data (nvfuse_core.c) that writes: a request for
    every pair of a block and a buffer. *)
Fixpoint fill_jobs (jobs : list Z) (l : list (Z * Z)) : RM unit :=
  match jobs, l with
  | j :: jobs, (pno, buf) :: l =>
      upd_job j (fun v => mk_job (pno * Layout.CLUSTER_SIZE) Layout.CLUSTER_SIZE SPDK_BDEV_IO_TYPE_WRITE buf 1 0 (j_task v) 0 (j_tag1 v));;
      fill_jobs jobs l
  | _, _ => mret tt
  end.
Definition sync_write_jobs (l : list (Z * Z)) : RM unit :=
  let n := Z.of_nat (length l) in
  jobs ← nvfuse_make_jobs n;
  fill_jobs jobs l;;
  t ← reactor_alloc_task n;
  t ← mlift t;
  massert (negb (n =? 0));;
  reactor_submit_reqs t jobs;;
  done ← nvfuse_wait_aio_completion t n;
  done ← mlift (mapM id done);
  nvfuse_release_jobs done;;
  reactor_free_task t.

End ops.
End Reactor.
