(* ===== verification/ReactorSpec.v ===== *)
(** * The reactor: rings as queues, the invariant of requests in flight

    [ring_rep d r l]: the ring [r] of a task of depth [d] holds the requests [l],
    the oldest first, at most [d - 1]. *)
From S2P Require Import Prelude Layout Arr Reactor.
Import Arr Reactor.

Module ReactorSpec.

Definition len {X} (l : list X) : Z := Z.of_nat (length l).

(** Position [k] of a ring that was counted on past its end. *)
Definition idx (d k : Z) : Z := if k <? d then k else k - d.

Record ring_rep (d : Z) (r : ring) (l : list Z) : Prop := {
  rr_slots : d <= len (slots r);
  rr_tail : 0 <= tail r < d;
  rr_head : head r = idx d (tail r + len l);
  rr_len : len l <= d - 1;
  rr_at : forall i x, l !! i = Some x -> slots r !! Z.to_nat (idx d (tail r + Z.of_nat i)) = Some (Some x) }.

Lemma rem_idx d k : 0 <= k < 2 * d -> Z.rem k d = idx d k.
Proof.
  intros Hk. unfold idx. destruct (Z.ltb_spec k d); [apply Z.rem_small; lia|].
  rewrite Z.rem_mod_nonneg by lia. symmetry. apply (Z.mod_unique _ _ 1); lia.
Qed.

Section ring.
Context d r l (R : ring_rep d r l).

Lemma ring_empty : ring_is_empty r = bool_decide (l = []).
Proof.
  destruct R as [? ? Hh Hl _]. unfold ring_is_empty, idx, len in *. rewrite Hh. destruct l as [|x l']; simpl length in *; case_bool_decide; try done; zbool.
Qed.

Lemma ring_full : ring_is_full d r = (len l =? d - 1).
Proof. destruct R as [? ? Hh Hl _]. unfold ring_is_full, idx in *. rewrite Hh. assert (0 <= len l) by (unfold len; lia). zbool. Qed.

Lemma ring_size_len : ring_size d r = len l.
Proof. destruct R as [? ? Hh Hl _]. unfold ring_size, idx in *. rewrite Hh. assert (0 <= len l) by (unfold len; lia). zbool. Qed.

(** A put is at the end of the queue, as long as there is room. *)
Lemma ring_put_full x : len l = d - 1 -> ring_put d x r = Some None.
Proof. intros Hl. unfold ring_put. by rewrite ring_full, (proj2 (Z.eqb_eq _ _)) by done. Qed.

Lemma ring_put_room x : len l < d - 1 -> exists r', ring_put d x r = Some (Some r') /\ ring_rep d r' (l ++ [x]).
Proof.
  intros Hl. unfold ring_put. rewrite ring_full, (proj2 (Z.eqb_neq _ _)) by lia. destruct R as [Hs Ht Hh Hlen Hat].
  assert (0 <= len l) by (unfold len; lia). assert (0 <= head r < d) as Hhr by (rewrite Hh; unfold idx; zbool; lia).
  unfold aset. rewrite (proj2 (Z.leb_le 0 (head r))), (proj2 (Z.ltb_lt (head r) _)) by (unfold len in *; lia). cbn [andb mbind option_bind].
  eexists. split; [done|]. assert (len (l ++ [x]) = len l + 1) as Hlx by (unfold len; rewrite length_app; simpl length; lia).
  split; cbn [slots head tail].
  - unfold len. rewrite length_insert. apply Hs.
  - done.
  - rewrite rem_idx by lia. rewrite Hh, Hlx. unfold idx. zbool.
  - lia.
  - intros i y Hi. destruct (decide (i < length l)%nat) as [Hil|Hil].
    + rewrite lookup_app_l in Hi by done. rewrite list_lookup_insert_ne; [by apply Hat|].
      rewrite Hh. unfold idx, len in *. zbool.
    + assert (i = length l) as -> by (apply lookup_lt_Some in Hi; rewrite length_app in Hi; simpl in Hi; lia).
      rewrite lookup_app_r, Nat.sub_diag in Hi by lia. injection Hi as <-. fold (len l). rewrite <- Hh.
      apply list_lookup_insert_eq. unfold len in Hs. lia.
Qed.
End ring.

(** A get takes the oldest. *)
Lemma ring_get_cons d r x l : ring_rep d r (x :: l) -> exists r', ring_get d r = Some (Some x, r') /\ ring_rep d r' l.
Proof.
  intros [Hs Ht Hh Hlen Hat]. unfold ring_get. pose proof (Hat 0%nat x eq_refl) as H0.
  assert (idx d (tail r + Z.of_nat 0) = tail r) as E0 by (unfold idx; zbool). rewrite E0 in H0.
  unfold aget. rewrite (proj2 (Z.leb_le 0 (tail r))) by lia. rewrite H0. cbn [mbind option_bind].
  unfold aset. rewrite (proj2 (Z.leb_le 0 (tail r))), (proj2 (Z.ltb_lt (tail r) _)) by (unfold len in *; lia). cbn [andb mbind option_bind].
  eexists. split; [done|]. assert (len (x :: l) = len l + 1) as Hlx by (unfold len; simpl length; lia). assert (0 <= len l) by (unfold len; lia).
  rewrite Hlx in *. split; cbn [slots head tail].
  - unfold len. rewrite length_insert. apply Hs.
  - rewrite rem_idx by lia. unfold idx. zbool; lia.
  - rewrite rem_idx by lia. rewrite Hh. unfold idx. zbool.
  - lia.
  - intros i y Hi. pose proof (Hat (S i) y Hi) as Hi'. apply lookup_lt_Some in Hi. rewrite rem_idx by lia.
    rewrite list_lookup_insert_ne.
    + rewrite <- Hi'. do 2 f_equal. rewrite Nat2Z.inj_succ. unfold idx, len in *. destruct (Z.ltb_spec (tail r + 1) d); zbool.
    + unfold idx, len in *. destruct (Z.ltb_spec (tail r + 1) d); zbool.
Qed.

Lemma ring_new d a : 1 <= d <= len a -> ring_rep d (mk_ring a 0 0) [].
Proof.
  intros Hd. split; cbn [slots head tail]; unfold len, idx in *; cbn [length]; [lia|lia|zbool|lia|].
  intros i x Hi. by rewrite lookup_nil in Hi.
Qed.

(** ** The abstract reactor *)

Section refine.
Context {W : Type} (bdev_rc : io_job -> W -> Z) (bdev_io : io_job -> W -> bool * W).

(** Per task its depth and two queues, the requests at the device with their
    tasks, the requests as they were submitted, the world. *)
Record areactor := mk_a {
  a_depth : gmap Z Z;
  a_sq : gmap Z (list Z);
  a_cq : gmap Z (list Z);
  a_fl : list (Z * Z);
  a_job : gmap Z io_job;
  a_world : W }.
Implicit Types (A : areactor) (s : rst W) (t req n : Z).

Definition queue (m : gmap Z (list Z)) t : list Z := default [] (m !! t).
Definition at_device A t : list (Z * Z) := filter (fun p => p.2 = t) (a_fl A).
(** The requests of a task that are somewhere between submission and collection. *)
Definition load A t : Z := len (queue (a_sq A) t) + len (at_device A t) + len (queue (a_cq A) t).

Definition job_ok (j : io_job) : Prop :=
  j_iovcnt j <> 0 /\ (j_type j = SPDK_BDEV_IO_TYPE_READ \/ j_type j = SPDK_BDEV_IO_TYPE_WRITE \/ j_type j = SPDK_BDEV_IO_TYPE_FLUSH).

(** The steps of the threads, in any order: a thread submits a request or
    collects completed ones, the reactor takes a request to the device, the
    device completes one. *)
Inductive action := Put (t req : Z) (j : io_job) | Take (t : Z) | Complete (i : nat) | Get (t : Z) (n : nat).

Definition a_step A (c : action) : areactor :=
  match c with
  | Put t req j => mk_a (a_depth A) (<[ t := queue (a_sq A) t ++ [req] ]> (a_sq A)) (a_cq A) (a_fl A) (<[ req := set_task t j ]> (a_job A)) (a_world A)
  | Take t =>
      mk_a (a_depth A) (<[ t := drop 1 (queue (a_sq A) t) ]> (a_sq A)) (a_cq A)
        (a_fl A ++ ((fun x => (x, t)) <$> take 1 (queue (a_sq A) t))) (a_job A) (a_world A)
  | Complete i =>
      match a_fl A !! i with
      | Some (x, t) =>
          mk_a (a_depth A) (a_sq A) (<[ t := queue (a_cq A) t ++ [x] ]> (a_cq A)) (delete i (a_fl A)) (a_job A)
            (default (a_world A) ((fun j => (bdev_io j (a_world A)).2) <$> a_job A !! x))
      | None => A
      end
  | Get t n => mk_a (a_depth A) (a_sq A) (<[ t := drop n (queue (a_cq A) t) ]> (a_cq A)) (a_fl A) (a_job A) (a_world A)
  end.

(** A thread has at most as many requests under way as the task was made for,
    and submits none that is still under way. *)
Definition allowed A (c : action) : Prop :=
  match c with
  | Put t req j =>
      job_ok j /\ (exists d, a_depth A !! t = Some d /\ load A t < d - 1) /\
      (forall t', req ∉ queue (a_sq A) t' /\ req ∉ queue (a_cq A) t') /\ req ∉ (a_fl A).*1
  | Take t => queue (a_sq A) t <> []
  | Complete i => (i < length (a_fl A))%nat
  | Get t n => is_Some (a_depth A !! t) /\ (n <= length (queue (a_cq A) t))%nat
  end.

(** The code of a step; the answer are the requests collected. *)
Definition act (c : action) : M (rst W) (list (option Z)) :=
  match c with
  | Put t req j =>
      mmodify (fun s => set_jobs (<[ req := set_task t j ]> (r_jobs s)) s);; r ← reactor_sq_put_req t req; massert (r =? 0);; mret []
  | Take t =>
      r ← reactor_sq_get_req t;
      match r with Some req => submit_one bdev_rc req;; mret [] | None => mret [] end
  | Complete i => complete bdev_io i;; mret []
  | Get t n => cq_take n t
  end.
Definition answer A (c : action) : list (option Z) := match c with Get t n => Some <$> take n (queue (a_cq A) t) | _ => [] end.

(** What ties a state to an abstract one. *)
Record rep s A : Prop := {
  rp_task : forall t d, a_depth A !! t = Some d -> exists task, r_tasks s !! t = Some task /\ qdepth task = d /\
    ring_rep d (sq task) (queue (a_sq A) t) /\ ring_rep d (cq task) (queue (a_cq A) t);
  rp_load : forall t d, a_depth A !! t = Some d -> load A t <= d - 1;
  rp_fl : r_inflight s = (a_fl A).*1;
  rp_sq_job : forall t x, x ∈ queue (a_sq A) t -> is_Some (a_depth A !! t) /\
    exists j, a_job A !! x = Some j /\ r_jobs s !! x = Some j /\ j_task j = t /\ job_ok j;
  rp_fl_job : forall t x, (x, t) ∈ a_fl A -> is_Some (a_depth A !! t) /\
    exists j, a_job A !! x = Some j /\ r_jobs s !! x = Some j /\ j_task j = t /\ job_ok j;
  rp_once : NoDup (a_fl A).*1 /\ forall t, NoDup (queue (a_sq A) t);
  rp_apart : forall t x, x ∈ queue (a_sq A) t -> x ∉ (a_fl A).*1;
  rp_world : r_world s = a_world A;
  rp_depth : forall t d, a_depth A !! t = Some d -> d <= REACTOR_MAX_REQUEST;
  rp_cq_job : forall t x, x ∈ queue (a_cq A) t -> exists j, a_job A !! x = Some j /\ r_jobs s !! x = Some (set_ret 0 j) /\ j_task j = t /\
    x ∉ (a_fl A).*1 /\ forall t', x ∉ queue (a_sq A) t' }.

(** ** Rules *)

Lemma wp_get_task t v (Q : reactor_task -> rst W -> Prop) s : r_tasks s !! t = Some v -> Q v s -> wp (get_task t) Q s.
Proof. intros E HQ. unfold wp, get_task. by rewrite E. Qed.
Lemma wp_get_job x v (Q : io_job -> rst W -> Prop) s : r_jobs s !! x = Some v -> Q v s -> wp (get_job x) Q s.
Proof. intros E HQ. unfold wp, get_job. by rewrite E. Qed.
Lemma wp_put_task t v (Q : unit -> rst W -> Prop) s : Q tt (set_tasks (<[ t := v ]> (r_tasks s)) s) -> wp (put_task t v) Q s.
Proof. done. Qed.
Lemma wp_upd_job x v f (Q : unit -> rst W -> Prop) s :
  r_jobs s !! x = Some v -> Q tt (set_jobs (<[ x := f v ]> (r_jobs s)) s) -> wp (upd_job x f) Q s.
Proof. intros E HQ. unfold upd_job. wp_step. by eapply wp_get_job. Qed.

(** ** Queues of a map *)

Lemma queue_eq m t (l : list Z) : queue (<[ t := l ]> m) t = l.
Proof. unfold queue. by rewrite lookup_insert_eq. Qed.
Lemma queue_ne m t t' (l : list Z) : t <> t' -> queue (<[ t := l ]> m) t' = queue m t'.
Proof. intros. unfold queue. by rewrite lookup_insert_ne. Qed.

Lemma qlen_app {X} (l1 l2 : list X) : len (l1 ++ l2) = len l1 + len l2.
Proof. unfold len. rewrite length_app. lia. Qed.
Lemma len_cons {X} (x : X) l : len (x :: l) = len l + 1.
Proof. unfold len. simpl length. lia. Qed.
Lemma len_nonneg {X} (l : list X) : 0 <= len l.
Proof. unfold len. lia. Qed.

Lemma at_device_app A1 A2 t p : a_fl A2 = a_fl A1 ++ [p] ->
  len (at_device A2 t) = len (at_device A1 t) + (if decide (p.2 = t) then 1 else 0).
Proof.
  intros E. unfold at_device. rewrite E, filter_app, qlen_app, filter_cons, filter_nil. by case_decide.
Qed.

Lemma at_device_delete A1 A2 t i p : a_fl A1 !! i = Some p -> a_fl A2 = delete i (a_fl A1) ->
  len (at_device A1 t) = len (at_device A2 t) + (if decide (p.2 = t) then 1 else 0).
Proof.
  intros Hi E. unfold at_device, len. rewrite E. pose proof (delete_Permutation _ _ _ Hi) as Hp.
  rewrite Hp at 1. rewrite filter_cons. case_decide; simpl length; lia.
Qed.

(** ** The simulation *)

Context (rc_ok : forall j w, bdev_rc j w = 0) (io_ok : forall j w, (bdev_io j w).1 = true).

Lemma put_sim s A t req j : rep s A -> allowed A (Put t req j) ->
  wp (act (Put t req j)) (fun r s' => r = [] /\ rep s' (a_step A (Put t req j))) s.
Proof.
  intros [R1 R2 R3 R4 R5 [R6 R6'] R7 R8 R9 R10] (Hj & (d & Hd & Hload) & Hsq & Hfl). destruct (R1 _ _ Hd) as (v & Hv & Hq & Rs & Rc).
  cbn [act]. wp_step. wp_step. wp_step. unfold reactor_sq_put_req. wp_step. eapply wp_get_task; [exact Hv|]. rewrite Hq. wp_step.
  destruct (ring_put_room d (sq v) _ Rs req) as (r' & Er & Rr').
  { pose proof (len_nonneg (at_device A t)). pose proof (len_nonneg (queue (a_cq A) t)). unfold load in Hload. lia. }
  eapply wp_lift; [exact Er|]. cbn beta iota. wp_step. apply wp_put_task. wp_step. wp_step. apply wp_assert; [done|]. wp_step. split; [done|].
  split; cbn [a_step a_depth a_sq a_cq a_fl a_job a_world set_tasks set_jobs r_tasks r_jobs r_inflight r_world].
  - intros t' d' Hd'. destruct (decide (t = t')) as [<-|Ht].
    + rewrite lookup_insert_eq, queue_eq. assert (d' = d) as -> by congruence. eexists. split_and!; [done|done|exact Rr'|exact Rc].
    + rewrite lookup_insert_ne, queue_ne by done. by apply R1.
  - intros t' d' Hd'. pose proof (R2 _ _ Hd') as Hl. unfold load in *. cbn [a_sq a_cq a_fl]. fold (at_device A t').
    change (at_device _ t') with (at_device A t'). destruct (decide (t = t')) as [<-|Ht].
    + rewrite queue_eq, qlen_app. change (len [req]) with 1. assert (d' = d) as -> by congruence. lia.
    + by rewrite queue_ne by done.
  - done.
  - intros t' x Hx. destruct (decide (t = t')) as [<-|Ht].
    + rewrite queue_eq in Hx. apply elem_of_app in Hx as [Hx|Hx%list_elem_of_singleton].
      * assert (req <> x) by (intros ->; by apply (proj1 (Hsq t))). rewrite !lookup_insert_ne by done. by apply R4.
      * subst x. rewrite !lookup_insert_eq. split; [by eexists|]. eexists. split_and!; try done; apply Hj.
    + rewrite queue_ne in Hx by done. assert (req <> x) by (intros ->; by apply (proj1 (Hsq t'))). rewrite !lookup_insert_ne by done. by apply R4.
  - intros t' x Hx. assert (req <> x) by (intros ->; apply Hfl; by apply (list_elem_of_fmap_2 fst) in Hx). rewrite !lookup_insert_ne by done. by apply R5.
  - split; [done|]. intros t'. destruct (decide (t = t')) as [<-|Ht]; [|by rewrite queue_ne].
    rewrite queue_eq. apply NoDup_app. split_and!; [done| |apply NoDup_singleton]. intros x Hx ->%list_elem_of_singleton. by apply (proj1 (Hsq t)).
  - intros t' x Hx. destruct (decide (t = t')) as [<-|Ht]; [|rewrite queue_ne in Hx by done; by apply (R7 t')].
    rewrite queue_eq in Hx. apply elem_of_app in Hx as [Hx| ->%list_elem_of_singleton]; [by apply (R7 t)|done].
  - done.
  - done.
  - intros t' x Hx. assert (req <> x) as Hrx by (intros ->; by apply (proj2 (Hsq t'))). rewrite !lookup_insert_ne by done.
    destruct (R10 _ _ Hx) as (j' & H1 & H2 & H2t & H3 & H4). exists j'. split_and!; try done. intros t2.
    destruct (decide (t = t2)) as [<-|Ht]; [|by rewrite queue_ne]. rewrite queue_eq. intros [Hin|Hin%list_elem_of_singleton]%elem_of_app; [by apply (H4 t)|by apply Hrx].
Qed.

Lemma submit_one_wp x j (Q : unit -> rst W -> Prop) s :
  r_jobs s !! x = Some j -> job_ok j -> Q tt (set_inflight (r_inflight s ++ [x]) s) -> wp (submit_one bdev_rc x) Q s.
Proof.
  intros Hj [Hv Ht] HQ. unfold submit_one. wp_step. eapply wp_get_job; [exact Hj|]. wp_step. apply wp_assert; [lia|].
  wp_step. apply wp_assert; [destruct Ht as [->|[->| ->]]; done|]. wp_steps. apply wp_assert; [by rewrite rc_ok|]. exact HQ.
Qed.

Lemma take_rule s A t x l : rep s A -> queue (a_sq A) t = x :: l ->
  wp (reactor_sq_get_req t) (fun r s1 => r = Some x /\ wp (submit_one bdev_rc x) (fun _ s2 =>
    rep s2 (a_step A (Take t)) /\ r_events s2 = r_events s /\ r_inflight s2 = r_inflight s ++ [x]) s1) s.
Proof.
  intros [R1 R2 R3 R4 R5 [R6 R6'] R7 R8 R9 R10] Hq.
  destruct (R4 t x) as [[d Hd] (j & Ha & Hj & Hjt & Hok)]; [rewrite Hq; apply elem_of_cons; by left|].
  destruct (R1 _ _ Hd) as (v & Hv & Hqd & Rs & Rc). rewrite Hq in Rs. destruct (ring_get_cons _ _ _ _ Rs) as (r' & Er & Rr').
  unfold reactor_sq_get_req. wp_step. eapply wp_get_task; [exact Hv|]. rewrite Hqd.
  rewrite (ring_empty _ _ _ Rs), bool_decide_false by done. wp_step. eapply wp_lift; [exact Er|]. cbn beta iota.
  wp_step. apply wp_put_task. wp_step. split; [done|]. eapply submit_one_wp; [exact Hj|exact Hok|]. split; [|done].
  split; cbn [a_step a_depth a_sq a_cq a_fl a_job a_world set_tasks set_inflight r_tasks r_jobs r_inflight r_world]; rewrite ?Hq; cbn [take drop]; rewrite ?drop_0, ?firstn_O.
  - intros t' d' Hd'. destruct (decide (t = t')) as [<-|Ht].
    + rewrite lookup_insert_eq, queue_eq. assert (d' = d) as -> by congruence. eexists. split_and!; [done|done|exact Rr'|exact Rc].
    + rewrite lookup_insert_ne, queue_ne by done. by apply R1.
  - intros t' d' Hd'. pose proof (R2 _ _ Hd') as Hl. unfold load in *. cbn [a_sq a_cq a_fl].
    rewrite (at_device_app A _ t' (x, t)) by done. cbn [snd]. destruct (decide (t = t')) as [<-|Ht].
    + rewrite queue_eq. rewrite Hq in Hl. rewrite len_cons in Hl. lia.
    + rewrite queue_ne by done. lia.
  - by rewrite fmap_app, R3.
  - intros t' y Hy. destruct (decide (t = t')) as [<-|Ht].
    + rewrite queue_eq in Hy. apply R4. rewrite Hq. apply elem_of_cons. by right.
    + rewrite queue_ne in Hy by done. by apply R4.
  - intros t' y Hy. apply elem_of_app in Hy as [Hy|Hy]; [by apply R5|]. apply list_elem_of_singleton in Hy as [= -> ->].
    split; [by eexists|]. by eexists.
  - split.
    + rewrite fmap_app. apply NoDup_app. split_and!; [done| |apply NoDup_singleton].
      intros y Hy ->%list_elem_of_singleton. by apply (R7 t x); [rewrite Hq; apply elem_of_cons; left|].
    + intros t'. destruct (decide (t = t')) as [<-|Ht]; [|by rewrite queue_ne].
      rewrite queue_eq. specialize (R6' t). rewrite Hq in R6'. by apply NoDup_cons in R6' as [_ ?].
  - intros t' y Hy. rewrite fmap_app, not_elem_of_app. assert (y <> x /\ y ∈ queue (a_sq A) t') as [Hyx Hy'].
    { destruct (decide (t = t')) as [<-|Ht].
      - rewrite queue_eq in Hy. pose proof (R6' t) as Hnd. rewrite Hq in Hnd. apply NoDup_cons in Hnd as [Hx _].
        split; [by intros ->|]. rewrite Hq. apply elem_of_cons. by right.
      - rewrite queue_ne in Hy by done. split; [|done]. intros ->.
        destruct (R4 _ _ Hy) as (_ & j' & _ & Hj' & Hjt' & _). rewrite Hj in Hj'. congruence. }
    split; [by apply (R7 t')|]. cbn. by intros ?%list_elem_of_singleton.
  - done.
  - done.
  - intros t' y Hy. destruct (R10 _ _ Hy) as (j' & H1 & H2 & H2t & H3 & H4). exists j'. split_and!; try done.
    + rewrite fmap_app, not_elem_of_app. split; [done|]. cbn. intros ->%list_elem_of_singleton. apply (H4 t). rewrite Hq. apply elem_of_cons. by left.
    + intros t2 Hin. destruct (decide (t = t2)) as [<-|Ht]; [rewrite queue_eq in Hin|rewrite queue_ne in Hin by done; by apply (H4 t2)].
      apply (H4 t). rewrite Hq. apply elem_of_cons. by right.
Qed.

Lemma take_sim s A t : rep s A -> allowed A (Take t) ->
  wp (act (Take t)) (fun r s' => r = [] /\ rep s' (a_step A (Take t))) s.
Proof.
  intros R Hne. cbn [allowed] in Hne. destruct (queue (a_sq A) t) as [|x l] eqn:Hq; [done|]. cbn [act]. wp_step.
  eapply wp_mono; [by eapply take_rule|]. intros r s1 [-> Hw]. wp_step. eapply wp_mono; [exact Hw|]. intros _ s2 (R' & _). by wp_step.
Qed.

Lemma delete_fmap {X Y} (f : X -> Y) (l : list X) i : f <$> delete i l = delete i (f <$> l).
Proof. revert i. induction l as [|x l IH]; intros [|i]; [done..|]. cbn. by rewrite IH. Qed.

Lemma NoDup_delete {X} (l : list X) i x : NoDup l -> l !! i = Some x -> x ∉ delete i l /\ NoDup (delete i l).
Proof. intros Hnd Hi. rewrite (delete_Permutation _ _ _ Hi) in Hnd. by apply NoDup_cons in Hnd. Qed.

Lemma elem_of_delete {X} (l : list X) i y : y ∈ delete i l -> y ∈ l.
Proof.
  revert i. induction l as [|x l IH]; intros [|i]; cbn; [done..| |]; rewrite ?elem_of_cons; [by right|].
  intros [->|Hy]; [by left|]. right. by eapply IH.
Qed.

Lemma complete_rule s A i : rep s A -> allowed A (Complete i) ->
  wp (complete bdev_io i) (fun _ s' => rep s' (a_step A (Complete i)) /\ r_events s' = r_events s /\ r_inflight s' = delete i (r_inflight s)) s.
Proof.
  intros [R1 R2 R3 R4 R5 [R6 R6'] R7 R8 R9 R10] Hi. cbn [allowed] in Hi. apply lookup_lt_is_Some in Hi as [[x t] Hi].
  assert ((a_fl A).*1 !! i = Some x) as Hix by (by rewrite list_lookup_fmap, Hi).
  destruct (R5 t x) as [[d Hd] (j & Ha & Hj & Hjt & Hok)]; [by eapply list_elem_of_lookup_2|].
  destruct (R1 _ _ Hd) as (v & Hv & Hqd & Rs & Rc).
  assert (forall t', len (at_device A t') = len (filter (fun p => p.2 = t') (delete i (a_fl A))) + (if decide (t = t') then 1 else 0)) as Hdev.
  { intros t'. unfold at_device, len. pose proof (delete_Permutation _ _ _ Hi) as Hp. rewrite Hp at 1. rewrite filter_cons. cbn [snd].
    case_decide; simpl length; lia. }
  destruct (ring_put_room d (cq v) _ Rc x) as (r' & Er & Rr').
  { pose proof (R2 _ _ Hd) as Hl. unfold load in Hl. rewrite Hdev, decide_True in Hl by done.
    pose proof (len_nonneg (queue (a_sq A) t)). pose proof (len_nonneg (filter (fun p => p.2 = t) (delete i (a_fl A)))). lia. }
  destruct (NoDup_delete _ _ _ R6 Hix) as [Hout Hnd]. rewrite <- delete_fmap in Hout, Hnd.
  cbn [a_step]. rewrite Hi, Ha. cbn [fmap option_fmap option_map default]. unfold complete. wp_steps.
  eapply wp_lift; [rewrite R3; exact Hix|]. wp_steps. eapply wp_get_job; [exact Hj|]. cbv zeta. wp_steps.
  unfold reactor_bio_cb. wp_step. eapply wp_get_job; [exact Hj|]. wp_step. apply wp_assert; [apply io_ok|]. wp_step.
  eapply wp_upd_job; [exact Hj|]. wp_steps. unfold reactor_cq_put_req. wp_step. rewrite Hjt. eapply wp_get_task; [exact Hv|].
  rewrite Hqd. wp_step. eapply wp_lift; [exact Er|]. cbn beta iota. wp_step. apply wp_put_task. wp_steps. split; [|done].
  split; cbn [a_depth a_sq a_cq a_fl a_job a_world set_tasks set_jobs set_inflight set_world count_io r_tasks r_jobs r_inflight r_world].
  - intros t' d' Hd'. destruct (decide (t = t')) as [<-|Ht].
    + rewrite lookup_insert_eq, queue_eq. assert (d' = d) as -> by congruence. eexists. split_and!; [done|done|exact Rs|exact Rr'].
    + rewrite lookup_insert_ne, queue_ne by done. by apply R1.
  - intros t' d' Hd'. pose proof (R2 _ _ Hd') as Hl. unfold load in *. rewrite Hdev in Hl. unfold at_device. cbn [a_sq a_cq a_fl].
    destruct (decide (t = t')) as [<-|Ht]; [rewrite queue_eq, qlen_app; change (len [x]) with 1|rewrite queue_ne by done]; lia.
  - by rewrite R3, delete_fmap.
  - intros t' y Hy. assert (x <> y) as Hxy. { intros ->. apply (R7 _ _ Hy). by eapply list_elem_of_lookup_2. }
    rewrite lookup_insert_ne by done. by apply R4.
  - intros t' y Hy. assert (x <> y) as Hxy. { intros ->. apply Hout. by apply (list_elem_of_fmap_2 fst) in Hy. }
    rewrite lookup_insert_ne by done. apply R5. by eapply elem_of_delete.
  - done.
  - intros t' y Hy Hin. apply (R7 _ _ Hy). apply list_elem_of_fmap in Hin as (p & -> & Hp). apply list_elem_of_fmap_2. by eapply elem_of_delete.
  - by rewrite R8.
  - done.
  - assert (forall t', x ∉ queue (a_sq A) t') as Hxs by (intros t' Hin; apply (R7 _ _ Hin); by eapply list_elem_of_lookup_2).
    assert (forall y, y ∉ (a_fl A).*1 -> y ∉ (delete i (a_fl A)).*1) as Hdel.
    { intros y Hy Hin. apply Hy. apply list_elem_of_fmap in Hin as (p & -> & Hp). apply list_elem_of_fmap_2. by eapply elem_of_delete. }
    intros t' y Hy. destruct (decide (y = x)) as [->|Hyx].
    { exists j. rewrite lookup_insert_eq. split_and!; try done.
      destruct (decide (t = t')) as [<-|Ht]; [done|]. rewrite queue_ne in Hy by done. destruct (R10 _ _ Hy) as (_ & _ & _ & _ & Hno & _).
      destruct Hno. by eapply list_elem_of_lookup_2. }
    rewrite lookup_insert_ne by done. assert (y ∈ queue (a_cq A) t') as Hy'.
    { destruct (decide (t = t')) as [<-|Ht]; [|by rewrite queue_ne in Hy]. rewrite queue_eq in Hy.
      apply elem_of_app in Hy as [Hy|Hy%list_elem_of_singleton]; done. }
    destruct (R10 _ _ Hy') as (j' & H1 & H2 & H2t & H3 & H4). exists j'. split_and!; auto.
Qed.

Lemma complete_sim s A i : rep s A -> allowed A (Complete i) ->
  wp (act (Complete i)) (fun r s' => r = [] /\ rep s' (a_step A (Complete i))) s.
Proof.
  intros R Hi. cbn [act]. wp_step. eapply wp_mono; [by apply complete_rule|]. intros _ s' (R' & _). by wp_step.
Qed.

Lemma get_sim s A t (n : nat) : rep s A -> allowed A (Get t n) ->
  wp (act (Get t n)) (fun r s' => r = answer A (Get t n) /\ rep s' (a_step A (Get t n))) s.
Proof.
  cbn [act answer allowed]. revert s A. induction n as [|n IH]; intros s A R [Hd Hn]; cbn [cq_take].
  - wp_step. split; [done|]. destruct R as [R1 R2 R3 R4 R5 R6 R7 R8 R9 R10]. cbn [a_step]. rewrite drop_0. split; try done.
    + intros t' d' Hd'. cbn [a_sq a_cq a_depth] in *. destruct (decide (t = t')) as [<-|Ht]; [rewrite queue_eq|rewrite queue_ne by done]; by apply R1.
    + intros t' d' Hd'. unfold load, at_device. cbn [a_sq a_cq a_fl a_depth] in *.
      destruct (decide (t = t')) as [<-|Ht]; [rewrite queue_eq|rewrite queue_ne by done]; by apply R2.
    + intros t' x. cbn [a_cq a_fl a_sq a_job]. destruct (decide (t = t')) as [<-|Ht]; [rewrite queue_eq|rewrite queue_ne by done]; by apply R10.
  - destruct (queue (a_cq A) t) as [|x l] eqn:Hq; simpl length in Hn; [lia|]. destruct Hd as [d Hd].
    pose proof R as [R1 R2 R3 R4 R5 R6 R7 R8 R9 R10]. destruct (R1 _ _ Hd) as (v & Hv & Hqd & Rs & Rc). rewrite Hq in Rc.
    destruct (ring_get_cons _ _ _ _ Rc) as (r' & Er & Rr'). wp_step. eapply wp_get_task; [exact Hv|]. rewrite Hqd. wp_step.
    eapply wp_lift; [exact Er|]. cbn beta iota. wp_step. apply wp_put_task. wp_step.
    set (A1 := mk_a (a_depth A) (a_sq A) (<[ t := l ]> (a_cq A)) (a_fl A) (a_job A) (a_world A)).
    eapply wp_mono; [apply (IH _ A1)|].
    + unfold A1. split; cbn [a_depth a_sq a_cq a_fl a_job a_world set_tasks r_tasks r_jobs r_inflight r_world]; try done.
      * intros t' d' Hd'. destruct (decide (t = t')) as [<-|Ht].
        -- rewrite lookup_insert_eq, queue_eq. assert (d' = d) as -> by congruence. eexists. split_and!; [done|done|exact Rs|exact Rr'].
        -- rewrite lookup_insert_ne, queue_ne by done. by apply R1.
      * intros t' d' Hd'. pose proof (R2 _ _ Hd') as Hl. unfold load, at_device in *. cbn [a_sq a_cq a_fl].
        destruct (decide (t = t')) as [<-|Ht]; [|by rewrite queue_ne].
        rewrite queue_eq. rewrite Hq, len_cons in Hl. lia.
      * intros t' y Hy. apply (R10 t'). destruct (decide (t = t')) as [<-|Ht]; [|by rewrite queue_ne in Hy].
        rewrite queue_eq in Hy. rewrite Hq. apply elem_of_cons. by right.
    + unfold A1. cbn [a_depth a_cq]. rewrite queue_eq. split; [by eexists|lia].
    + intros rest s' [-> R']. wp_step. cbn [answer] in *. unfold A1 in *. cbn [a_cq a_step a_depth a_sq a_fl a_job a_world] in *.
      rewrite ?queue_eq in *. rewrite Hq. cbn [take drop fmap list_fmap]. split; [done|]. by rewrite insert_insert_eq in R'.
Qed.

(** Every step of every thread does what it does to the queues, whatever the
    order. *)
Lemma act_sim s A c : rep s A -> allowed A c ->
  wp (act c) (fun r s' => r = answer A c /\ rep s' (a_step A c)) s.
Proof. destruct c; [by apply put_sim|by apply take_sim|by apply complete_sim|by apply get_sim]. Qed.

End refine.
End ReactorSpec.
