(* ===== verification/ReactorRun.v ===== *)
(** * The reactor: waiting threads are served

    [moved A xs A']: from [A] to [A'] the reactor and the device brought the
    requests [xs] to completion, in this order, and nothing was submitted or
    collected. *)
From S2P Require Import Prelude Layout Arr Reactor ReactorSpec.
Import Arr Reactor ReactorSpec.

Module ReactorRun.

Section run.
Context {W : Type} (bdev_rc : io_job -> W -> Z) (bdev_io : io_job -> W -> bool * W) (pick : list Z -> nat).
Context (rc_ok : forall j w, bdev_rc j w = 0) (io_ok : forall j w, (bdev_io j w).1 = true).
Context (pick_ok : forall l, l <> [] -> (pick l < length l)%nat).
Implicit Types (A : areactor (W := W)) (s : rst W) (t x : Z) (xs : list (Z * Z)).

Notation areactor := (areactor (W := W)).
Notation a_step := (a_step bdev_io).
Notation act := (act bdev_rc bdev_io).

(** The requests with task [t] of a list. *)
Definition of_task t xs : list Z := (filter (fun p => p.2 = t) xs).*1.
(** What lies before the device or in it. *)
Definition pending A t : list Z := queue (a_sq A) t ++ of_task t (a_fl A).
(** Everything of a task that was not collected. *)
Definition content A t : list Z := pending A t ++ queue (a_cq A) t.
(** The effect of requests on the world, one after the other *)
Definition effect A (w : W) xs : W := foldl (fun w p => default w ((fun j => (bdev_io j w).2) <$> a_job A !! p.1)) w xs.

Record moved A xs A' : Prop := {
  mv_depth : a_depth A' = a_depth A;
  mv_job : a_job A' = a_job A;
  mv_pending : forall t, pending A t ≡ₚ of_task t xs ++ pending A' t;
  mv_cq : forall t, queue (a_cq A') t = queue (a_cq A) t ++ of_task t xs;
  mv_world : a_world A' = effect A (a_world A) xs }.

Lemma of_task_app t xs ys : of_task t (xs ++ ys) = of_task t xs ++ of_task t ys.
Proof. unfold of_task. by rewrite filter_app, fmap_app. Qed.

Lemma moved_refl A : moved A [] A.
Proof. split; try done. intros t. by rewrite app_nil_r. Qed.

Lemma effect_app A w xs ys : effect A w (xs ++ ys) = effect A (effect A w xs) ys.
Proof. apply foldl_app. Qed.

Lemma moved_trans A1 xs A2 ys A3 : moved A1 xs A2 -> moved A2 ys A3 -> moved A1 (xs ++ ys) A3.
Proof.
  intros [D1 J1 P1 C1 W1] [D2 J2 P2 C2 W2]. split; [congruence|congruence| | |].
  - intros t. by rewrite of_task_app, <- app_assoc, <- P2.
  - intros t. by rewrite C2, C1, of_task_app, app_assoc.
  - rewrite W2, W1, effect_app. unfold effect. by rewrite J1.
Qed.

Lemma moved_content A xs A' t : moved A xs A' -> content A t ≡ₚ content A' t.
Proof. intros [_ _ P C _]. unfold content. rewrite P, C. solve_Permutation. Qed.

Lemma load_content A t : load A t = len (content A t).
Proof. unfold load, content, pending, of_task, at_device. rewrite !qlen_app. unfold len. rewrite length_fmap. lia. Qed.

Lemma moved_load A xs A' t : moved A xs A' -> load A' t = load A t.
Proof. intros M. rewrite !load_content. unfold len. by rewrite (moved_content _ _ _ t M). Qed.

Lemma of_task_cons t x t' xs : of_task t ((x, t') :: xs) = if decide (t' = t) then x :: of_task t xs else of_task t xs.
Proof. unfold of_task. rewrite filter_cons. cbn [snd]. by case_decide. Qed.
Lemma of_task_nil t : of_task t [] = [].
Proof. done. Qed.

Lemma moved_take A t : queue (a_sq A) t <> [] -> moved A [] (a_step A (Take t)).
Proof.
  intros Hne. split; try done; cbn [ReactorSpec.a_step a_sq a_cq a_fl a_job a_depth a_world].
  - intros t'. unfold pending. cbn [a_sq a_fl]. rewrite of_task_nil, of_task_app. cbn [app].
    destruct (queue (a_sq A) t) as [|x l] eqn:Hq; [done|]. cbn [take drop fmap list_fmap]. rewrite of_task_cons, of_task_nil.
    case_decide as Ht.
    + subst t'. rewrite queue_eq, drop_0, Hq. cbn. solve_Permutation.
    + by rewrite queue_ne, app_nil_r by done.
  - intros t'. by rewrite of_task_nil, app_nil_r.
Qed.

Lemma moved_complete A i x t : a_fl A !! i = Some (x, t) -> moved A [(x, t)] (a_step A (Complete i)).
Proof.
  intros Hi. cbn [ReactorSpec.a_step]. rewrite Hi. split; try done; cbn [a_sq a_cq a_fl a_job a_depth a_world].
  - intros t'. unfold pending. cbn [a_sq a_fl].
    assert (of_task t' (a_fl A) ≡ₚ of_task t' [(x, t)] ++ of_task t' (delete i (a_fl A))) as ->; [|solve_Permutation].
    rewrite <- of_task_app. unfold of_task. by rewrite (delete_Permutation _ _ _ Hi) at 1.
  - intros t'. rewrite of_task_cons, of_task_nil. case_decide as Ht.
    + subst t'. by rewrite queue_eq.
    + by rewrite queue_ne, app_nil_r by done.
Qed.

(** ** Events *)

(** Every task with submitted requests has an event on its way. *)
Definition promised s A : Prop :=
  (forall t, queue (a_sq A) t <> [] -> t ∈ r_events s) /\ (forall t, t ∈ r_events s -> is_Some (a_depth A !! t)).

Definition ready s A : Prop := rep s A /\ promised s A.

(** The reactor empties the ring of a task. *)
Lemma submit_loop_wp n : forall s A t, rep s A -> is_Some (a_depth A !! t) -> (length (queue (a_sq A) t) < n)%nat ->
  wp (submit_loop bdev_rc n t) (fun _ s' => exists A', rep s' A' /\ moved A [] A' /\ queue (a_sq A') t = [] /\
    (forall t', t' <> t -> queue (a_sq A') t' = queue (a_sq A) t') /\
    r_events s' = r_events s /\ (length (r_inflight s') = length (r_inflight s) + length (queue (a_sq A) t))%nat) s.
Proof.
  induction n as [|n IH]; intros s A t R Hd Hn; [lia|]. cbn [submit_loop]. destruct (queue (a_sq A) t) as [|x l] eqn:Hq.
  - destruct Hd as [d Hd]. destruct (rp_task _ _ R _ _ Hd) as (v & Hv & Hqd & Rs & _). wp_step. unfold reactor_sq_get_req.
    wp_step. eapply wp_get_task; [exact Hv|]. rewrite (ring_empty _ _ _ Rs), Hq. wp_steps. exists A. split_and!; try done; try apply moved_refl; simpl; lia.
  - simpl length in Hn. wp_step. eapply wp_mono; [by eapply take_rule|]. intros r s1 [-> Hw]. wp_step. eapply wp_mono; [exact Hw|].
    intros _ s2 (R2 & Ev & Fl). set (A1 := a_step A (Take t)) in *.
    assert (queue (a_sq A1) t = l) as Hl by (unfold A1; cbn; by rewrite Hq, queue_eq).
    eapply wp_mono; [apply (IH s2 A1 t R2 Hd); rewrite Hl; lia|].
    intros _ s3 (A3 & R3 & M3 & H3 & Ho & Ev3 & Fl3). exists A3. split_and!; try done.
    + apply (moved_trans A [] A1 [] A3); [|done]. apply moved_take. by rewrite Hq.
    + intros t' Ht. rewrite Ho by done. unfold A1. cbn. by rewrite queue_ne.
    + congruence.
    + rewrite Fl3, Fl, length_app, Hl. simpl. lia.
Qed.

(** ** What goes on while a thread waits *)

(** A bound for the steps until nothing is under way. *)
Definition work s : nat := wait_fuel s.

Lemma run_event_wp s A : ready s A -> r_events s <> [] ->
  wp (run_event bdev_rc) (fun _ s' => exists A', ready s' A' /\ moved A [] A' /\ (work s' < work s)%nat) s.
Proof.
  intros [R [P1 P2]] Hev. unfold run_event. wp_step. wp_step. destruct (r_events s) as [|t ev] eqn:Ee; [done|]. wp_step. wp_step.
  destruct (P2 t) as [d Hd]; [rewrite ?Ee; apply elem_of_cons; by left|]. pose proof (rp_load _ _ R _ _ Hd) as Hload. pose proof (rp_depth _ _ R _ _ Hd) as Hmax.
  assert (length (queue (a_sq A) t) < Z.to_nat REACTOR_MAX_REQUEST)%nat as Hlen.
  { unfold load in Hload. pose proof (len_nonneg (at_device A t)). pose proof (len_nonneg (queue (a_cq A) t)). unfold len in *. unfold REACTOR_MAX_REQUEST in *. lia. }
  unfold reactor_submit_on_core. eapply wp_mono; [apply (submit_loop_wp _ (set_events ev s) A t)|].
  - destruct R. split; done.
  - by eexists.
  - exact Hlen.
  - intros _ s' (A' & R' & M & Hq & Ho & Ev & Fl). exists A'. split; [|split; [done|]].
    + split; [done|]. cbn [set_events r_events] in Ev. split.
      * intros t' Hne. rewrite Ev. destruct (decide (t' = t)) as [->|Ht]; [done|]. rewrite Ho in Hne by done.
        apply P1 in Hne. rewrite ?Ee in Hne. by apply elem_of_cons in Hne as [?|?].
      * intros t' Hin. rewrite (mv_depth _ _ _ M). apply P2. rewrite ?Ee. apply elem_of_cons. right. by rewrite <- Ev.
    + unfold work, wait_fuel. rewrite Fl, Ev. cbn [set_events r_events r_inflight]. rewrite ?Ee. cbn [length]. lia.
Qed.

Lemma complete_wp s A i : ready s A -> (i < length (r_inflight s))%nat ->
  wp (complete bdev_io i) (fun _ s' => exists A' p, ready s' A' /\ moved A [p] A' /\ (work s' < work s)%nat) s.
Proof.
  intros [R [P1 P2]] Hi. assert (i < length (a_fl A))%nat as Hi' by (rewrite (rp_fl _ _ R), length_fmap in Hi; done).
  apply lookup_lt_is_Some in Hi' as Hp. destruct Hp as [[x t] Hp].
  eapply wp_mono; [by apply complete_rule|]. intros _ s' (R' & Ev & Fl). pose proof (moved_complete A i x t Hp) as M.
  eexists _, (x, t). split; [|split; [exact M|]].
  - split; [done|]. split.
    + intros t' Hne. rewrite Ev. apply P1. cbn [ReactorSpec.a_step] in Hne. by rewrite Hp in Hne.
    + intros t' Hin. rewrite (mv_depth _ _ _ M). apply P2. by rewrite <- Ev.
  - unfold work, wait_fuel. rewrite Fl, Ev. apply lookup_lt_is_Some in Hi as [y Hy].
    pose proof (delete_Permutation _ _ _ Hy) as Hperm. apply Permutation_length in Hperm. simpl length in Hperm. lia.
Qed.

Lemma busy s A t : ready s A -> pending A t <> [] -> r_events s <> [] \/ r_inflight s <> [].
Proof.
  intros [R [P1 _]] Ht. destruct (r_events s) as [|e ev] eqn:He; [right|by left].
  rewrite (rp_fl _ _ R). intros E. apply fmap_nil_inv in E. apply Ht. unfold pending. rewrite E.
  destruct (queue (a_sq A) t) eqn:Hq; [done|]. exfalso. assert (t ∈ r_events s) as Hin by (rewrite ?He; apply P1; by rewrite Hq).
  rewrite ?He in Hin. by apply not_elem_of_nil in Hin.
Qed.

Lemma others_step_wp s A t : ready s A -> pending A t <> [] ->
  wp (others_step bdev_rc bdev_io pick) (fun _ s' => exists A' xs, ready s' A' /\ moved A xs A' /\ (work s' < work s)%nat) s.
Proof.
  intros Rd Ht. unfold others_step. wp_step. wp_step. destruct (busy s A t Rd Ht) as [He|Hf]; case_bool_decide as He'; try done.
  - eapply wp_mono; [by apply run_event_wp|]. intros _ s' (A' & ? & ? & ?). by exists A', [].
  - eapply wp_mono; [apply complete_wp; [done|by apply pick_ok]|]. intros _ s' (A' & p & ? & ? & ?). by exists A', [p].
  - eapply wp_mono; [by apply run_event_wp|]. intros _ s' (A' & ? & ? & ?). by exists A', [].
Qed.

Lemma cq_size_wp s A t d (Q : Z -> rst W -> Prop) :
  rep s A -> a_depth A !! t = Some d -> Q (len (queue (a_cq A) t)) s -> wp (reactor_cq_size t) Q s.
Proof.
  intros R Hd HQ. destruct (rp_task _ _ R _ _ Hd) as (v & Hv & Hqd & _ & Rc). unfold reactor_cq_size. wp_step.
  eapply wp_get_task; [exact Hv|]. rewrite Hqd, (ring_size_len _ _ _ Rc). cbv zeta. wp_step.
  apply wp_assert; [apply Z.leb_le, len_nonneg|]. by wp_step.
Qed.

Lemma load_pending A t : load A t = len (pending A t) + len (queue (a_cq A) t).
Proof. by rewrite load_content, <- qlen_app. Qed.

(** A thread that has [min] requests under way gets them. *)
Lemma cq_wait_wp n : forall s A t d min, ready s A -> a_depth A !! t = Some d -> min <= load A t -> (work s <= n)%nat ->
  wp (cq_wait bdev_rc bdev_io pick n t min) (fun _ s' => exists A' xs, ready s' A' /\ moved A xs A' /\ min <= len (queue (a_cq A') t)) s.
Proof.
  induction n as [|n IH]; intros s A t d min Rd Hd Hmin Hn; cbn [cq_wait]; wp_step; (eapply cq_size_wp; [apply Rd|exact Hd|]).
  all: destruct (Z.ltb_spec (len (queue (a_cq A) t)) min) as [Hlt|Hge]; [|wp_step; exists A, []; split_and!; [done|apply moved_refl|done]].
  all: assert (pending A t <> []) as Hp by (intros E; rewrite load_pending, E in Hmin; change (len (@nil Z)) with 0 in Hmin; lia).
  - exfalso. unfold work, wait_fuel, REACTOR_MAX_REQUEST in Hn.
    destruct (busy s A t Rd Hp) as [He|Hf]; [destruct (r_events s)|destruct (r_inflight s)]; try done; simpl length in Hn; lia.
  - wp_step. eapply wp_mono; [by eapply others_step_wp|]. intros _ s1 (A1 & xs & Rd1 & M1 & Hw).
    eapply wp_mono; [apply (IH s1 A1 t d min Rd1)|].
    + by rewrite (mv_depth _ _ _ M1).
    + by rewrite (moved_load _ _ _ _ M1).
    + lia.
    + intros _ s2 (A2 & ys & Rd2 & M2 & Hc). exists A2, (xs ++ ys). split_and!; [done|by eapply moved_trans|done].
Qed.

(** Collecting leaves events and the device alone. *)
Lemma cq_take_frame n t : forall s r s', cq_take n t s = Some (r, s') ->
  r_events s' = r_events s /\ r_inflight s' = r_inflight s /\ r_jobs s' = r_jobs s /\ task_pool s' = task_pool s /\
  req_pool s' = req_pool s /\ job_pool s' = job_pool s.
Proof.
  induction n as [|n IH]; intros s r s'; cbn [cq_take]; [intros [= _ <-]; done|].
  unfold mbind, M_bind, get_task, mlift. destruct (r_tasks s !! t) as [v|]; [|done]. destruct (ring_get _ _) as [[req rg]|]; [|done].
  cbn. destruct (cq_take n t _) as [[rest s2]|] eqn:E; [|done]. intros [= _ <-]. apply IH in E. done.
Qed.

Lemma cq_take_wp s A t (n : nat) : ready s A -> is_Some (a_depth A !! t) -> (n <= length (queue (a_cq A) t))%nat ->
  wp (cq_take n t) (fun r s' => r = Some <$> take n (queue (a_cq A) t) /\ ready s' (a_step A (Get t n)) /\ r_jobs s' = r_jobs s) s.
Proof.
  intros [R [P1 P2]] Hd Hn. destruct (wp_elim _ _ _ (get_sim bdev_rc bdev_io s A t n R (conj Hd Hn))) as (r & s' & E & Hr & R').
  eapply wp_run; [exact E|]. split; [exact Hr|]. apply cq_take_frame in E as (Ev & _ & Ej & _). split; [|done]. split; [done|].
  split; intros t'; rewrite Ev; [apply P1|apply P2].
Qed.

(** ** Collections

    [gone t A xs ys A']: the requests [xs] were brought to completion and the
    task [t] collected [ys]. *)
Record gone t A xs (ys : list Z) A' : Prop := {
  go_depth : a_depth A' = a_depth A;
  go_job : a_job A' = a_job A;
  go_pending : forall t', pending A t' ≡ₚ of_task t' xs ++ pending A' t';
  go_cq : queue (a_cq A) t ++ of_task t xs = ys ++ queue (a_cq A') t;
  go_others : forall t', t' <> t -> queue (a_cq A') t' = queue (a_cq A) t' ++ of_task t' xs;
  go_world : a_world A' = effect A (a_world A) xs }.

Lemma gone_refl t A : gone t A [] [] A.
Proof. split; try done; intros; by rewrite of_task_nil, app_nil_r. Qed.

Lemma gone_trans t A1 xs ys A2 xs' ys' A3 : gone t A1 xs ys A2 -> gone t A2 xs' ys' A3 -> gone t A1 (xs ++ xs') (ys ++ ys') A3.
Proof.
  intros [D1 J1 P1 C1 O1 W1] [D2 J2 P2 C2 O2 W2]. split; [congruence|congruence| | | |].
  - intros t'. by rewrite of_task_app, <- app_assoc, <- P2.
  - by rewrite of_task_app, app_assoc, C1, <- !app_assoc, C2.
  - intros t' Ht. by rewrite O2, O1, of_task_app, app_assoc.
  - rewrite W2, W1, effect_app. unfold effect. by rewrite J1.
Qed.

Lemma moved_get t A xs A' n : moved A xs A' -> gone t A xs (take n (queue (a_cq A') t)) (a_step A' (Get t n)).
Proof.
  intros [D J P C Wd]. split; try done; cbn [ReactorSpec.a_step a_cq].
  - by rewrite queue_eq, take_drop, C.
  - intros t' Ht. by rewrite queue_ne, C.
Qed.

(** Nothing is lost and nothing collected twice. *)
Lemma gone_content t A xs ys A' : gone t A xs ys A' -> content A t ≡ₚ ys ++ content A' t.
Proof.
  intros [_ _ P C _ _]. unfold content. rewrite P. transitivity (pending A' t ++ (queue (a_cq A) t ++ of_task t xs)); [solve_Permutation|].
  rewrite C. solve_Permutation.
Qed.
Lemma gone_other t A xs ys A' t' : gone t A xs ys A' -> t' <> t -> content A t' ≡ₚ content A' t'.
Proof. intros [_ _ P _ O _] Ht. unfold content. rewrite O, P by done. solve_Permutation. Qed.

Lemma cq_get_reqs_wp s A t d lo hi : ready s A -> a_depth A !! t = Some d -> 0 < lo <= hi -> lo <= load A t -> hi <= d ->
  wp (reactor_cq_get_reqs bdev_rc bdev_io pick t lo hi) (fun r s' => exists A' xs ys, ready s' A' /\ gone t A xs ys A' /\
      r = Some <$> ys /\ lo <= len ys <= hi /\ (forall x, x ∈ ys -> exists j, a_job A !! x = Some j /\ r_jobs s' !! x = Some (set_ret 0 j))) s.
Proof.
  intros Rd Hd Hlo Hload Hhi. unfold reactor_cq_get_reqs. rewrite (proj2 (Z.eqb_neq lo 0)) by lia.
  destruct (rp_task _ _ (proj1 Rd) _ _ Hd) as (v & Hv & Hqd & _ & _).
  wp_step. eapply wp_get_task; [exact Hv|]. wp_step. apply wp_assert; [rewrite Hqd; lia|]. wp_steps.
  eapply wp_mono; [by eapply (cq_wait_wp (work s))|]. intros _ s1 (A1 & ws & Rd1 & M1 & Hc).
  assert (a_depth A1 !! t = Some d) as Hd1 by (by rewrite (mv_depth _ _ _ M1)).
  wp_step. eapply cq_size_wp; [apply Rd1|exact Hd1|]. set (C := queue (a_cq A1) t) in *.
  set (n := Z.to_nat (if hi <? len C then hi else len C)).
  assert (n <= length C)%nat as Hn by (unfold n, len in *; zbool).
  eapply wp_mono; [by apply (cq_take_wp s1 A1 t n Rd1)|]. fold C. intros r s2 (-> & Rd2 & Ej).
  exists (a_step A1 (Get t n)), ws, (take n C). split_and!; [done|by apply moved_get|done|..].
  1,2: unfold len; rewrite length_take; unfold n, len in *; zbool.
  intros x Hx. assert (x ∈ C) as HxC by (rewrite <- (take_drop n C); apply elem_of_app; by left).
  destruct (rp_cq_job _ _ (proj1 Rd1) t x HxC) as (j & Ha & Hj & _). exists j. rewrite Ej. split; [|done]. by rewrite <- (mv_job _ _ _ M1).
Qed.

(** The loop that collects all of a task's requests ends, with each of them. *)
Lemma get_all_wp n : forall s A t d ptr count, ready s A -> a_depth A !! t = Some d -> 0 <= ptr -> count <= d -> count - ptr <= load A t -> count - ptr <= Z.of_nat n ->
  wp (get_all bdev_rc bdev_io pick n t ptr count) (fun r s' => exists A' xs ys, ready s' A' /\ gone t A xs ys A' /\
      r = Some <$> ys /\ len ys = Z.max 0 (count - ptr)) s.
Proof.
  induction n as [|n IH]; intros s A t d ptr count Rd Hd Hp Hc Hl Hn; cbn [get_all]; destruct (Z.ltb_spec ptr count) as [Hlt|Hge]; try lia.
  1,3: wp_step; exists A, [], []; split_and!; [done|apply gone_refl|done|unfold len; simpl length; lia].
  wp_step. eapply wp_mono; [eapply (cq_get_reqs_wp s A t d 1 (count - ptr)); try done; lia|]. intros r s1 (A1 & xs & ys & Rd1 & G1 & -> & Hy & _).
  wp_step. rewrite length_fmap. fold (len ys). pose proof (gone_content _ _ _ _ _ G1) as Hcon.
  assert (load A1 t = load A t - len ys) as Hl1 by (rewrite !load_content; unfold len; rewrite Hcon, length_app; lia).
  eapply wp_mono; [apply (IH s1 A1 t d (ptr + len ys) count Rd1); try lia; by rewrite (go_depth _ _ _ _ _ G1)|].
  intros r s2 (A2 & xs2 & ys2 & Rd2 & G2 & -> & Hy2). wp_step. exists A2, (xs ++ xs2), (ys ++ ys2). split_and!; [done|by eapply gone_trans| |].
  - by rewrite fmap_app.
  - rewrite qlen_app. lia.
Qed.

End run.
End ReactorRun.

(** * What waiting leaves alone: the pools, the size of the rings, the requests *)
Module ReactorKept.
Import ReactorRun.

Record same_size (a b : reactor_task) : Prop := {
  ss_sq : length (slots (sq a)) = length (slots (sq b));
  ss_cq : length (slots (cq a)) = length (slots (cq b)) }.

Record kept {W} (s s' : rst W) : Prop := {
  k_tasks : task_pool s' = task_pool s;
  k_reqs : req_pool s' = req_pool s;
  k_jobs : job_pool s' = job_pool s;
  k_lcore : lcore s' = lcore s;
  k_job : forall x, is_Some (r_jobs s !! x) -> is_Some (r_jobs s' !! x);
  k_size : forall t v, r_tasks s !! t = Some v -> exists v', r_tasks s' !! t = Some v' /\ same_size v v' }.

Definition keeps {W A} (m : M (rst W) A) : Prop := forall s r s', m s = Some (r, s') -> kept s s'.

Section kept.
Context {W : Type} (bdev_rc : io_job -> W -> Z) (bdev_io : io_job -> W -> bool * W) (pick : list Z -> nat).
Implicit Types s : rst W.

#[export] Instance kept_po : PreOrder (@kept W).
Proof.
  split.
  - intros s. split; try done. intros t v H. exists v. by split.
  - intros s1 s2 s3 [H1 H2 H3 H4 H5 H6] [K1 K2 K3 K4 K5 K6]. split; try congruence; [by auto|].
    intros t v Hv. destruct (H6 _ _ Hv) as (v1 & Hv1 & [? ?]). destruct (K6 _ _ Hv1) as (v2 & ? & [? ?]). exists v2. split; [done|]. split; congruence.
Qed.

Lemma keeps_bind {X Y} (m : M (rst W) X) (k : X -> M (rst W) Y) : keeps m -> (forall x, keeps (k x)) -> keeps (m ≫= k).
Proof.
  intros Hm Hk s r s'. unfold mbind, M_bind. destruct (m s) as [[x s1]|] eqn:E; [|done]. intros H.
  transitivity s1; [by eapply Hm|by eapply Hk].
Qed.
Lemma keeps_ret {X} (x : X) : keeps (W := W) (mret x).
Proof. by intros s r s' [= _ <-]. Qed.
Lemma keeps_get : keeps (W := W) mget.
Proof. by intros s r s' [= _ <-]. Qed.
Lemma keeps_lift {X} (o : option X) : keeps (W := W) (mlift o).
Proof. intros s r s'. unfold mlift. destruct o; [|done]. by intros [= _ <-]. Qed.
Lemma keeps_assert b : keeps (W := W) (massert b).
Proof. intros s r s'. unfold massert. destruct b; [|done]. by intros [= _ <-]. Qed.
Lemma keeps_abort {X} : keeps (W := W) (A := X) mabort.
Proof. by intros s r s'. Qed.
Lemma kept_same s s' :
  r_tasks s' = r_tasks s -> r_jobs s' = r_jobs s -> task_pool s' = task_pool s -> req_pool s' = req_pool s ->
  job_pool s' = job_pool s -> lcore s' = lcore s -> kept s s'.
Proof. intros Ht Hj. split; try done; [by rewrite Hj|]. intros t v Hv. exists v. rewrite Ht. by split. Qed.
Lemma keeps_modify f : (forall s, kept s (f s)) -> keeps (W := W) (mmodify f).
Proof. intros Hf s r s' [= _ <-]. apply Hf. Qed.
Lemma keeps_job x : keeps (W := W) (get_job x).
Proof. intros s r s'. unfold get_job, mlift. destruct (r_jobs s !! x); [|done]. by intros [= _ <-]. Qed.
Lemma keeps_upd x f : keeps (W := W) (upd_job x f).
Proof.
  unfold upd_job. apply keeps_bind; [apply keeps_job|]. intros v. apply keeps_modify. intros s. split; try done.
  - intros y Hy. cbn. destruct (decide (x = y)) as [<-|]; [rewrite lookup_insert_eq; by eexists|by rewrite lookup_insert_ne].
  - intros t w H. exists w. by split.
Qed.

Lemma keeps_get_task t : keeps (W := W) (get_task t).
Proof. intros s r s'. unfold get_task, mlift. destruct (r_tasks s !! t); [|done]. by intros [= _ <-]. Qed.
(** A task is replaced by one with rings of the same size. *)
Lemma keeps_task {X} t (k : reactor_task -> M (rst W) X) :
  (forall s v r s', r_tasks s !! t = Some v -> k v s = Some (r, s') -> kept s s') -> keeps (v ← get_task t; k v).
Proof.
  intros Hk s r s'. unfold mbind, M_bind, get_task, mlift. destruct (r_tasks s !! t) as [v|] eqn:E; [|done]. by apply Hk.
Qed.

Lemma kept_put t v v' s : r_tasks s !! t = Some v -> same_size v v' -> kept s (set_tasks (<[ t := v' ]> (r_tasks s)) s).
Proof.
  intros Hv Hs. split; try done. intros t' w Hw. cbn. destruct (decide (t = t')) as [<-|Ht].
  - rewrite lookup_insert_eq. exists v'. split; [done|]. congruence.
  - rewrite lookup_insert_ne by done. by exists w.
Qed.

Lemma ring_put_size d x r r' : ring_put d x r = Some (Some r') -> length (slots r') = length (slots r).
Proof.
  unfold ring_put. destruct (ring_is_full d r); [done|]. destruct (aset _ _ _) as [a|] eqn:E; [|done].
  intros [= <-]. by eapply length_aset.
Qed.
Lemma ring_get_size d x r r' : ring_get d r = Some (x, r') -> length (slots r') = length (slots r).
Proof.
  unfold ring_get. destruct (aget _ _) as [y|]; [|done]. cbn. destruct (aset _ _ _) as [a|] eqn:E; [|done].
  intros [= _ <-]. by eapply length_aset.
Qed.

Lemma keeps_sq_get t : keeps (W := W) (reactor_sq_get_req t).
Proof.
  apply keeps_task. intros s v r s' Hv. destruct (ring_is_empty (sq v)); [by intros [= _ <-]|].
  unfold mbind, M_bind, mlift, put_task. destruct (ring_get _ _) as [[x rg]|] eqn:E; [|done]. intros [= _ <-].
  eapply kept_put; [exact Hv|]. split; [|done]. symmetry. by eapply ring_get_size.
Qed.
Lemma keeps_sq_put t x : keeps (W := W) (reactor_sq_put_req t x).
Proof.
  apply keeps_task. intros s v r s' Hv. unfold mbind, M_bind, mlift, put_task. destruct (ring_put _ _ _) as [[rg|]|] eqn:E; [|by intros [= _ <-]|done].
  intros [= _ <-]. eapply kept_put; [exact Hv|]. split; [|done]. symmetry. by eapply ring_put_size.
Qed.
Lemma keeps_cq_put t x : keeps (W := W) (reactor_cq_put_req t x).
Proof.
  apply keeps_task. intros s v r s' Hv. unfold mbind, M_bind, mlift, put_task. destruct (ring_put _ _ _) as [[rg|]|] eqn:E; [|by intros [= _ <-]|done].
  intros [= _ <-]. eapply kept_put; [exact Hv|]. split; [done|]. symmetry. by eapply ring_put_size.
Qed.

Lemma keeps_take n t : keeps (W := W) (cq_take n t).
Proof.
  induction n as [|n IH]; [apply keeps_ret|]. cbn [cq_take]. apply keeps_task. intros s v r s' Hv.
  unfold mbind at 1, M_bind at 1, mlift. destruct (ring_get _ _) as [[x rg]|] eqn:E; [|done]. intros H.
  transitivity (set_tasks (<[ t := mk_task (qdepth v) (sq v) rg ]> (r_tasks s)) s).
  - eapply kept_put; [exact Hv|]. split; [done|]. symmetry. by eapply ring_get_size.
  - revert H. unfold mbind at 1, M_bind at 1, put_task. cbn. apply keeps_bind; [exact IH|]. intros. apply keeps_ret.
Qed.

End kept.

(** One step of the argument that a program keeps what it does not own *)
Ltac keeps_step :=
  lazymatch goal with
  | |- keeps (mret _) => apply keeps_ret
  | |- keeps mget => apply keeps_get
  | |- keeps (mlift _) => apply keeps_lift
  | |- keeps (massert _) => apply keeps_assert
  | |- keeps mabort => apply keeps_abort
  | |- keeps (get_task _) => apply keeps_get_task
  | |- keeps (get_job _) => apply keeps_job
  | |- keeps (upd_job _ _) => apply keeps_upd
  | |- keeps (reactor_sq_get_req _) => apply keeps_sq_get
  | |- keeps (reactor_sq_put_req _ _) => apply keeps_sq_put
  | |- keeps (reactor_cq_put_req _ _) => apply keeps_cq_put
  | |- keeps (cq_take _ _) => apply keeps_take
  | |- keeps (mmodify _) => apply keeps_modify; intros; by apply kept_same
  | |- keeps (mbind _ _) => apply keeps_bind; [|intros]
  | |- keeps (match ?x with _ => _ end) => destruct x
  | |- keeps _ => solve [assumption | eauto with keeps]
  end.
Ltac keeps_go := repeat keeps_step.

Create HintDb keeps.

Section programs.
Context {W : Type} (bdev_rc : io_job -> W -> Z) (bdev_io : io_job -> W -> bool * W) (pick : list Z -> nat).

Lemma keeps_submit_one x : keeps (submit_one bdev_rc x).
Proof. unfold submit_one. keeps_go. Qed.
#[local] Hint Resolve keeps_submit_one : keeps.
Lemma keeps_submit_loop n t : keeps (submit_loop bdev_rc n t).
Proof. induction n as [|n IH]; cbn [submit_loop]; keeps_go. Qed.
#[local] Hint Resolve keeps_submit_loop : keeps.
Lemma keeps_run_event : keeps (run_event bdev_rc).
Proof. unfold run_event, reactor_submit_on_core. keeps_go. Qed.
Lemma keeps_complete i : keeps (complete bdev_io i).
Proof. unfold complete, reactor_bio_cb. keeps_go. Qed.
#[local] Hint Resolve keeps_run_event keeps_complete : keeps.
Lemma keeps_others_step : keeps (others_step bdev_rc bdev_io pick).
Proof. unfold others_step. keeps_go. Qed.
#[local] Hint Resolve keeps_others_step : keeps.
Lemma keeps_cq_size t : keeps (W := W) (reactor_cq_size t).
Proof. unfold reactor_cq_size. cbv zeta. keeps_go. Qed.
#[local] Hint Resolve keeps_cq_size : keeps.
Lemma keeps_cq_wait n : forall t m, keeps (cq_wait bdev_rc bdev_io pick n t m).
Proof. induction n as [|n IH]; intros t m; cbn [cq_wait]; keeps_go; apply IH. Qed.
#[local] Hint Resolve keeps_cq_wait : keeps.
Lemma keeps_cq_get_reqs t lo hi : keeps (reactor_cq_get_reqs bdev_rc bdev_io pick t lo hi).
Proof. unfold reactor_cq_get_reqs. keeps_go. Qed.
#[local] Hint Resolve keeps_cq_get_reqs : keeps.
Lemma keeps_get_all n : forall t p c, keeps (get_all bdev_rc bdev_io pick n t p c).
Proof. induction n as [|n IH]; intros t p c; cbn [get_all]; keeps_go; apply IH. Qed.
Lemma keeps_put_reqs t reqs : keeps (W := W) (put_reqs t reqs).
Proof. induction reqs as [|x l IH]; cbn [put_reqs]; keeps_go. Qed.
#[local] Hint Resolve keeps_put_reqs : keeps.
Lemma keeps_submit_reqs t reqs : keeps (W := W) (reactor_submit_reqs t reqs).
Proof. unfold reactor_submit_reqs. keeps_go. Qed.
Lemma keeps_fill_jobs l : forall jobs, keeps (W := W) (fill_jobs jobs l).
Proof. induction l as [|[p b] l IH]; intros [|j jobs]; cbn [fill_jobs]; keeps_go; apply IH. Qed.
End programs.

End ReactorKept.

(** * The reactor: the calls of the file system

    [sound s A]: the state [s] between two calls; pooled tasks and requests are
    not under way. *)
Module ReactorCalls.
Import ReactorRun ReactorKept.

Section calls.
Context {W : Type} (bdev_rc : io_job -> W -> Z) (bdev_io : io_job -> W -> bool * W) (pick : list Z -> nat).
Context (rc_ok : forall j w, bdev_rc j w = 0) (io_ok : forall j w, (bdev_io j w).1 = true).
Context (pick_ok : forall l, l <> [] -> (pick l < length l)%nat).
Implicit Types (A : areactor (W := W)) (s : rst W) (t x : Z) (xs : list (Z * Z)).

Notation effect := (effect bdev_io).
Notation gone := (gone bdev_io).

(** A request that no thread waits for *)
Definition away A x : Prop := forall t, x ∉ content A t.

Record sound s A : Prop := {
  so_ready : ready s A;
  so_lcore : lcore s = REACTOR_LCORE;
  so_task : forall t, t ∈ task_pool s -> content A t = [] /\ exists v, r_tasks s !! t = Some v /\
    REACTOR_MAX_REQUEST <= len (slots (sq v)) /\ REACTOR_MAX_REQUEST <= len (slots (cq v));
  so_req : forall x, x ∈ req_pool s ++ job_pool s -> is_Some (r_jobs s !! x) /\ away A x;
  so_once : NoDup (job_pool s) }.

Lemma wp_keeps {X} (m : M (rst W) X) (Q : X -> rst W -> Prop) s : keeps m -> wp m Q s -> wp m (fun r s' => Q r s' /\ kept s s') s.
Proof. intros Hk Hw. destruct (wp_elim _ _ _ Hw) as (r & s' & E & HQ). eapply wp_run; [exact E|]. split; [done|]. by eapply Hk. Qed.

(** ** Parts of a state that matter *)

Lemma rep_ext s s' A : rep s A -> r_tasks s' = r_tasks s -> r_jobs s' = r_jobs s -> r_inflight s' = r_inflight s -> r_world s' = r_world s -> rep s' A.
Proof.
  intros [R1 R2 R3 R4 R5 R6 R7 R8 R9 R10] Et Ej Ef Ew.
  split; rewrite ?Et, ?Ej, ?Ef, ?Ew; done.
Qed.

Lemma ready_ext s s' A : ready s A -> r_tasks s' = r_tasks s -> r_jobs s' = r_jobs s -> r_inflight s' = r_inflight s -> r_world s' = r_world s ->
  r_events s' = r_events s -> ready s' A.
Proof. intros [R P] Et Ej Ef Ew Ee. split; [by eapply rep_ext|]. unfold promised. by rewrite Ee. Qed.

Lemma away_sq A x t : away A x -> x ∉ queue (a_sq A) t.
Proof. intros Ha Hx. apply (Ha t). unfold content, pending. rewrite !elem_of_app. by left; left. Qed.
Lemma away_cq A x t : away A x -> x ∉ queue (a_cq A) t.
Proof. intros Ha Hx. apply (Ha t). unfold content. rewrite elem_of_app. by right. Qed.
Lemma away_fl A x : away A x -> x ∉ (a_fl A).*1.
Proof.
  intros Ha ([y t] & -> & Hp)%list_elem_of_fmap. apply (Ha t). unfold content, pending. rewrite !elem_of_app. left. right.
  unfold of_task. apply list_elem_of_fmap. exists (y, t). split; [done|]. by apply list_elem_of_filter.
Qed.
Lemma away_intro A x : (forall t, x ∉ queue (a_sq A) t) -> x ∉ (a_fl A).*1 -> (forall t, x ∉ queue (a_cq A) t) -> away A x.
Proof.
  intros Hs Hf Hc t. unfold content, pending. rewrite !elem_of_app. intros [[H|H]|H]; [by apply (Hs t)| |by apply (Hc t)].
  apply Hf. unfold of_task in H. apply list_elem_of_fmap in H as (p & -> & Hp). apply list_elem_of_filter in Hp as [_ Hp]. by apply list_elem_of_fmap_2.
Qed.

(** A request of a pool is rewritten. *)
Lemma ready_job s A x j : ready s A -> away A x -> ready (set_jobs (<[ x := j ]> (r_jobs s)) s) A.
Proof.
  intros [[R1 R2 R3 R4 R5 R6 R7 R8 R9 R10] P] Ha. split; [|done].
  assert (forall t y, y ∈ queue (a_sq A) t -> x <> y) as Hs by (intros t y Hy ->; by apply (away_sq A y t)).
  assert (forall t y, y ∈ queue (a_cq A) t -> x <> y) as Hc by (intros t y Hy ->; by apply (away_cq A y t)).
  assert (forall t y, (y, t) ∈ a_fl A -> x <> y) as Hf by (intros t y Hy ->; apply (away_fl A y Ha); by apply (list_elem_of_fmap_2 fst) in Hy).
  split; try done; cbn [set_jobs r_jobs].
  - intros t y Hy. rewrite lookup_insert_ne by eauto. by apply R4.
  - intros t y Hy. rewrite lookup_insert_ne by eauto. by apply R5.
  - intros t y Hy. rewrite lookup_insert_ne by eauto. by apply (R10 t).
Qed.

Lemma content_nil A t : content A t = [] -> queue (a_sq A) t = [] /\ of_task t (a_fl A) = [] /\ queue (a_cq A) t = [].
Proof. unfold content, pending. intros [[? ?]%app_nil ?]%app_nil. done. Qed.

(** ** A task of the pool *)

Definition reset A t (d : Z) : areactor := mk_a (<[ t := d ]> (a_depth A)) (a_sq A) (a_cq A) (a_fl A) (a_job A) (a_world A).

Lemma afill_size {X} (a : list X) n v : 0 <= n <= len a -> exists b, afill a 0 n v = Some b /\ length b = length a.
Proof.
  intros Hn. unfold afill, len in *. rewrite (proj2 (Z.leb_le 0 0)), (proj2 (Z.leb_le 0 n)), (proj2 (Z.leb_le (0 + n) _)) by lia.
  eexists. split; [done|]. rewrite !length_app, length_take, length_replicate, length_drop. lia.
Qed.

Lemma ready_reset s A t d v : ready s A -> content A t = [] -> 1 <= d <= REACTOR_MAX_REQUEST ->
  qdepth v = d -> ring_rep d (sq v) [] -> ring_rep d (cq v) [] ->
  ready (set_tasks (<[ t := v ]> (r_tasks s)) s) (reset A t d).
Proof.
  intros [[R1 R2 R3 R4 R5 R6 R7 R8 R9 R10] [P1 P2]] Hc Hd Hq Rs Rc. pose proof (load_content A t) as Hl. rewrite Hc in Hl. apply content_nil in Hc as (Hsq & _ & Hcq).
  assert (forall t', is_Some (a_depth A !! t') -> is_Some (<[ t := d ]> (a_depth A) !! t')) as Hsome.
  { intros t' H. destruct (decide (t = t')) as [<-|]; [rewrite lookup_insert_eq; by eexists|by rewrite lookup_insert_ne]. }
  split; [split|split]; cbn [reset a_depth a_sq a_cq a_fl a_job a_world set_tasks r_tasks r_jobs r_inflight r_world r_events]; try done; unfold load, at_device in *; cbn [reset a_sq a_cq a_fl] in *.
  - intros t' d' Hd'. destruct (decide (t = t')) as [<-|Ht].
    + rewrite lookup_insert_eq in Hd'. rewrite lookup_insert_eq. injection Hd' as <-. exists v. by rewrite Hsq, Hcq.
    + rewrite lookup_insert_ne in Hd' by done. rewrite lookup_insert_ne by done. by apply R1.
  - intros t' d' Hd'. destruct (decide (t = t')) as [<-|Ht].
    + rewrite lookup_insert_eq in Hd'. injection Hd' as <-. rewrite Hl. change (len (@nil Z)) with 0. lia.
    + rewrite lookup_insert_ne in Hd' by done. by apply R2.
  - intros t' x Hx. destruct (R4 _ _ Hx) as [? ?]. auto.
  - intros t' x Hx. destruct (R5 _ _ Hx) as [? ?]. auto.
  - intros t' d' Hd'. destruct (decide (t = t')) as [<-|Ht].
    + rewrite lookup_insert_eq in Hd'. injection Hd' as <-. lia.
    + rewrite lookup_insert_ne in Hd' by done. by apply (R9 t').
  - intros t' Hin. auto.
Qed.

Lemma alloc_task_wp s A t tp n : sound s A -> task_pool s = t :: tp -> 1 <= n -> n + 1 <= REACTOR_MAX_REQUEST ->
  wp (reactor_alloc_task n) (fun r s' => r = Some t /\ ready s' (reset A t (n + 1)) /\ kept (set_task_pool tp s) s' /\ r_jobs s' = r_jobs s) s.
Proof.
  intros So Hp Hn Hm. unfold reactor_alloc_task. rewrite (proj2 (Z.ltb_ge REACTOR_MAX_REQUEST (n + 1))) by lia. wp_step. wp_step. rewrite Hp.
  destruct (so_task _ _ So t) as (Hc & v & Hv & Hs & Hq); [rewrite Hp; apply elem_of_cons; by left|].
  wp_step. wp_step. wp_step. eapply wp_get_task; [exact Hv|]. rewrite (Z.max_r 0 n) by lia.
  destruct (afill_size (slots (sq v)) n None) as (a & Ea & La); [lia|]. destruct (afill_size (slots (cq v)) n None) as (b & Eb & Lb); [lia|].
  wp_step. eapply wp_lift; [exact Ea|]. wp_step. eapply wp_lift; [exact Eb|]. wp_step. apply wp_put_task. wp_step. split; [done|].
  set (v' := mk_task (n + 1) (mk_ring a 0 0) (mk_ring b 0 0)). split; [|split; [|done]].
  - eapply (ready_ext (set_tasks (<[ t := v' ]> (r_tasks s)) s)); try done. apply ready_reset; try done; [apply So|lia|..].
    1,2: apply ring_new; unfold len in *; lia.
  - apply (kept_put _ v); [done|]. by split.
Qed.

(** ** Submission *)

Record submitted t A (reqs : list Z) (jobs : gmap Z io_job) A' : Prop := {
  su_depth : a_depth A' = a_depth A;
  su_sq : queue (a_sq A') t = queue (a_sq A) t ++ reqs;
  su_others : forall t', t' <> t -> queue (a_sq A') t' = queue (a_sq A) t';
  su_cq : a_cq A' = a_cq A;
  su_fl : a_fl A' = a_fl A;
  su_world : a_world A' = a_world A;
  su_job : forall x j, x ∈ reqs -> jobs !! x = Some j -> a_job A' !! x = Some (set_task t j);
  su_frame : forall x, x ∉ reqs -> a_job A' !! x = a_job A !! x }.

Lemma put_rule s A t x j : rep s A -> allowed A (Put t x j) -> r_jobs s !! x = Some j ->
  wp (upd_job x (set_task t);; reactor_sq_put_req t x) (fun r s' => r = 0 /\ rep s' (a_step bdev_io A (Put t x j)) /\ r_events s' = r_events s /\
    (forall y, y <> x -> r_jobs s' !! y = r_jobs s !! y)) s.
Proof.
  intros R Hal Hj. pose proof (put_sim bdev_rc bdev_io s A t x j R Hal) as Hw.
  wp_step. eapply wp_upd_job; [exact Hj|]. cbn beta. cbn [act] in Hw.
  destruct (wp_elim _ _ _ Hw) as (r & s' & E & _ & R').
  unfold mbind at 1, M_bind at 1, mmodify in E. set (s1 := set_jobs _ s) in *.
  unfold mbind at 1, M_bind at 1 in E. destruct (reactor_sq_put_req t x s1) as [[r1 s2]|] eqn:Ep; [|done].
  unfold mbind, M_bind, massert in E. destruct (Z.eqb_spec r1 0) as [->|]; [|done]. injection E as _ ->.
  eapply wp_run; [exact Ep|]. split; [done|]. split; [done|].
  revert Ep. unfold reactor_sq_put_req, mbind, M_bind, get_task, mlift, put_task. destruct (r_tasks s1 !! t); [|done].
  destruct (ring_put _ _ _) as [[?|]|]; [| |done]; intros [= <-]; subst s1; (split; [done|]); intros y Hy; cbn; by rewrite lookup_insert_ne.
Qed.

Lemma put_reqs_wp reqs : forall s A t d, rep s A -> a_depth A !! t = Some d -> load A t + len reqs <= d - 1 -> NoDup reqs ->
  (forall x, x ∈ reqs -> away A x /\ exists j, r_jobs s !! x = Some j /\ job_ok j) ->
  wp (put_reqs t reqs) (fun r s' => r = 0 /\ exists A', rep s' A' /\ submitted t A reqs (r_jobs s) A' /\ r_events s' = r_events s) s.
Proof.
  induction reqs as [|x reqs IH]; intros s A t d R Hd Hl Hnd Hreq; cbn [put_reqs].
  - wp_step. split; [done|]. exists A. split; [done|]. split; [|done]. split; try done; [by rewrite app_nil_r|]. intros x j Hx. by apply not_elem_of_nil in Hx.
  - destruct (Hreq x) as (Ha & j & Hj & Hok); [apply elem_of_cons; by left|]. rewrite len_cons in Hl. apply NoDup_cons in Hnd as [Hx Hnd].
    assert (allowed A (Put t x j)) as Hal.
    { split; [done|]. split; [exists d; split; [done|]; pose proof (len_nonneg reqs); lia|]. split; [|by apply away_fl].
      intros t'. split; [by apply away_sq|by apply away_cq]. }
    pose proof (put_rule s A t x j R Hal Hj) as Hw. destruct (wp_elim _ _ _ Hw) as (r & s1 & E & -> & R1 & Ev & Hjs). clear Hw.
    set (A1 := a_step bdev_io A (Put t x j)) in *. unfold mbind at 1, M_bind at 1 in E.
    wp_step. destruct (upd_job x (set_task t) s) as [[[] s0]|] eqn:E0; [|done]. eapply wp_run; [exact E0|]. cbn beta.
    wp_step. eapply wp_run; [exact E|]. cbn beta. change (0 <? 0) with false. cbn iota.
    eapply wp_mono; [apply (IH s1 A1 t d R1 Hd)|].
    + unfold A1, load, at_device in *. cbn [a_step a_sq a_cq a_fl] in *. rewrite queue_eq, qlen_app. change (len [x]) with 1. lia.
    + done.
    + intros y Hy. assert (y <> x) as Hyx by (by intros ->). destruct (Hreq y) as (Hay & jy & Hjy & Hoky); [apply elem_of_cons; by right|].
      split; [|exists jy; by rewrite Hjs]. apply away_intro; unfold A1; cbn [a_step a_sq a_cq a_fl].
      * intros t'. destruct (decide (t = t')) as [<-|Ht]; [rewrite queue_eq, elem_of_app|rewrite queue_ne by done; by apply away_sq].
        intros [H|H%list_elem_of_singleton]; [by apply (away_sq A y t)|done].
      * by apply away_fl.
      * intros t'. by apply away_cq.
    + intros r2 s2 (-> & A2 & R2 & [S1 S2 S3 S4 S5 S6 S7 S8] & Ev2). split; [done|]. exists A2. split; [done|]. split; [|congruence].
      unfold A1 in *. cbn [a_step a_sq a_cq a_fl a_depth a_world] in *. split; try done.
      * rewrite S2, queue_eq, <- app_assoc. done.
      * intros t' Ht. by rewrite S3, queue_ne by done.
      * intros y jy Hy Hjy. destruct (decide (y = x)) as [->|Hyx].
        -- rewrite S8 by done. rewrite Hj in Hjy. injection Hjy as <-. apply lookup_insert_eq.
        -- apply elem_of_cons in Hy as [?|Hy]; [done|]. apply S7; [done|]. by rewrite Hjs.
      * intros y [Hyx Hy]%not_elem_of_cons. rewrite S8 by done. by apply lookup_insert_ne.
Qed.

(** The event that follows keeps the promise. *)
Lemma submit_reqs_wp reqs s A t d : ready s A -> lcore s = REACTOR_LCORE -> a_depth A !! t = Some d -> load A t + len reqs <= d - 1 -> NoDup reqs ->
  (forall x, x ∈ reqs -> away A x /\ exists j, r_jobs s !! x = Some j /\ job_ok j) ->
  wp (reactor_submit_reqs t reqs) (fun r s' => (r = 0 /\ exists A', ready s' A' /\ submitted t A reqs (r_jobs s) A') /\ kept s s') s.
Proof.
  intros [R [P1 P2]] Hc Hd Hl Hnd Hreq. apply wp_keeps; [apply keeps_submit_reqs|]. unfold reactor_submit_reqs.
  wp_step. eapply wp_mono; [apply wp_keeps; [apply keeps_put_reqs|by eapply put_reqs_wp]|]. intros r s1 [(-> & A1 & R1 & S & Ev) K]. change (0 <? 0) with false. cbn iota.
  wp_step. wp_step. wp_step. apply wp_assert; [rewrite (k_lcore _ _ K), Hc; done|]. wp_steps. split; [done|]. exists A1. split; [|done]. split.
  - by eapply rep_ext.
  - split; cbn [set_events r_events]; intros t' Ht; rewrite ?elem_of_app, ?Ev in *.
    + destruct (decide (t' = t)) as [->|Hne]; [right; by apply list_elem_of_singleton|]. left. apply P1. by rewrite <- (su_others _ _ _ _ _ S).
    + rewrite (su_depth _ _ _ _ _ S). destruct Ht as [Ht| ->%list_elem_of_singleton]; [by apply P2|by eexists].
Qed.
(** ** From submission to collection

    A task of the pool that submits [reqs] and collects as many gets exactly
    these; the others keep theirs. *)
Record round t A (reqs : list Z) xs (ys : list Z) A' : Prop := {
  ro_ys : ys ≡ₚ reqs;
  ro_xs : of_task t xs ≡ₚ reqs;
  ro_content : forall t', content A' t' ≡ₚ content A t';
  ro_other : forall t', t' <> t -> pending A t' ≡ₚ of_task t' xs ++ pending A' t';
  ro_world : a_world A' = effect A' (a_world A) xs }.

Lemma effect_job A A' w xs : a_job A' = a_job A -> effect A' w xs = effect A w xs.
Proof. intros E. unfold ReactorRun.effect. by rewrite E. Qed.

Lemma round_intro t A d reqs jobs A1 xs ys A2 : content A t = [] -> submitted t (reset A t d) reqs jobs A1 -> gone t A1 xs ys A2 -> len ys = len reqs ->
  round t A reqs xs ys A2.
Proof.
  intros Hc [_ Sq So Sc Sf Sw _ _] G Hlen. pose proof (content_nil _ _ Hc) as (Hq & Hf & Hcq). cbn [reset a_sq a_cq a_fl a_world] in *.
  assert (pending A1 t = reqs) as Hp1 by (unfold pending; by rewrite Sq, Sf, Hq, Hf, app_nil_r).
  assert (content A1 t = reqs) as Hc1 by (unfold content; by rewrite Hp1, Sc, Hcq, app_nil_r).
  assert (forall t', t' <> t -> pending A1 t' = pending A t') as Hpo by (intros t' Ht; unfold pending; by rewrite So, Sf).
  pose proof (gone_content _ _ _ _ _ _ G) as Hg. rewrite Hc1 in Hg.
  assert (content A2 t = []) as Hc2.
  { apply nil_length_inv. apply Permutation_length in Hg. rewrite length_app in Hg. unfold len in Hlen. lia. }
  assert (pending A2 t = []) as Hp2 by (unfold content in Hc2; by apply app_nil in Hc2 as [? _]).
  split.
  - by rewrite Hg, Hc2, app_nil_r.
  - rewrite <- Hp1. rewrite (go_pending _ _ _ _ _ _ G t), Hp2. by rewrite app_nil_r.
  - intros t'. destruct (decide (t' = t)) as [->|Ht]; [by rewrite Hc2, Hc|]. rewrite <- (gone_other _ _ _ _ _ _ _ G Ht).
    unfold content. by rewrite Hpo, Sc.
  - intros t' Ht. by rewrite <- Hpo, (go_pending _ _ _ _ _ _ G).
  - rewrite (effect_job A1) by apply (go_job _ _ _ _ _ _ G). by rewrite (go_world _ _ _ _ _ _ G), Sw.
Qed.

Lemma away_perm A A' x : (forall t, content A' t ≡ₚ content A t) -> away A x -> away A' x.
Proof. intros H Ha t. by rewrite H. Qed.

Lemma sound_again s A s' A' : sound s A -> kept s s' -> ready s' A' -> (forall t, content A' t ≡ₚ content A t) -> sound s' A'.
Proof.
  intros [_ Hl Ht Hr Ho] [K1 K2 K3 K4 K5 K6] Rd Hc. split; [done|congruence| | |congruence].
  - intros t Hin. rewrite K1 in Hin. destruct (Ht t Hin) as (Hn & v & Hv & Hs & Hq). split.
    + pose proof (Hc t) as Hp. rewrite Hn in Hp. by apply Permutation_nil_r in Hp.
    + destruct (K6 _ _ Hv) as (v' & Hv' & [E1 E2]). exists v'. unfold len in *. rewrite <- E1, <- E2. done.
  - intros x Hin. rewrite K2, K3 in Hin. destruct (Hr x Hin) as [? ?]. split; [by apply K5|by eapply away_perm].
Qed.

Lemma submitted_load t A d reqs jobs A' : content A t = [] -> submitted t (reset A t d) reqs jobs A' ->
  a_depth A' !! t = Some d /\ load A' t = len reqs.
Proof.
  intros Hc [Sd Sq _ Sc Sf _ _ _]. cbn [reset a_depth a_sq a_cq a_fl] in *. pose proof (content_nil _ _ Hc) as (Hq & Hf & Hcq). split; [rewrite Sd; apply lookup_insert_eq|].
  rewrite load_content. unfold content, pending. by rewrite Sq, Sc, Sf, Hq, Hf, Hcq, !app_nil_r.
Qed.

(** ** Synchronous requests *)

Lemma get_one_wp s A t d : ready s A -> a_depth A !! t = Some d -> 1 <= d -> 1 <= load A t ->
  wp (get_all bdev_rc bdev_io pick 1 t 0 1) (fun r s' => exists A' xs y, ready s' A' /\ gone t A xs [y] A' /\ r = [Some y] /\
      exists j, a_job A !! y = Some j /\ r_jobs s' !! y = Some (set_ret 0 j)) s.
Proof.
  intros Rd Hd Hd1 Hl. cbn [get_all]. change (0 <? 1) with true. cbn iota.
  wp_step. eapply wp_mono; [eapply (cq_get_reqs_wp bdev_rc bdev_io pick rc_ok io_ok pick_ok s A t d 1 1); try done; lia|].
  intros r s1 (A1 & xs & ys & Rd1 & G1 & -> & Hy & Hjs). destruct ys as [|y [|y' ys]]; unfold len in Hy; cbn [length] in Hy; try lia.
  wp_step. cbn [length fmap list_fmap]. change (0 + Z.of_nat 1 <? 1) with false. cbn iota. wp_step. wp_step.
  exists A1, xs, y. split_and!; try done. apply Hjs. by apply list_elem_of_singleton.
Qed.

Definition io_type (ty : Z) : Prop := ty = SPDK_BDEV_IO_TYPE_READ \/ ty = SPDK_BDEV_IO_TYPE_WRITE \/ ty = SPDK_BDEV_IO_TYPE_FLUSH.

Lemma reset_away A t d x : away A x -> away (reset A t d) x.
Proof. done. Qed.

(** A task and a request are drawn from their pools and come back. *)
Lemma kept_drawn s s1 tp rp x j : kept (set_task_pool tp s) s1 ->
  kept (set_task_pool tp (set_req_pool rp s)) (set_jobs (<[ x := j ]> (r_jobs s1)) (set_req_pool rp s1)).
Proof.
  intros [K1 K2 K3 K4 K5 K6]. split; try done. intros y Hy. cbn. destruct (decide (x = y)) as [<-|]; [rewrite lookup_insert_eq; by eexists|].
  rewrite lookup_insert_ne by done. by apply K5.
Qed.
Lemma kept_refill s s' t tp x rp : task_pool s = t :: tp -> req_pool s = x :: rp -> kept (set_task_pool tp (set_req_pool rp s)) s' ->
  kept s (set_task_pool (t :: task_pool (set_req_pool ([x] ++ req_pool s') s')) (set_req_pool ([x] ++ req_pool s') s')).
Proof. intros Ht Hr [K1 K2 K3 K4 K5 K6]. cbn in *. split; try done; cbn; congruence. Qed.

Lemma sync_call_wp s A t tp x rp off n buf ty : sound s A -> task_pool s = t :: tp -> req_pool s = x :: rp -> io_type ty ->
  wp (reactor_sync bdev_rc bdev_io pick off n buf ty) (fun r s' => r = 0 /\ kept s s' /\ exists A' xs j, sound s' A' /\ round t A [x] xs [x] A' /\
    a_job A' !! x = Some j /\ j_offset j = off /\ j_bytes j = n /\ j_buf j = buf /\ j_type j = ty /\ j_iovcnt j = 1) s.
Proof.
  intros So Ht Hr Hty. unfold reactor_sync. wp_step.
  eapply wp_mono; [eapply (alloc_task_wp s A t tp 1 So Ht); unfold REACTOR_MAX_REQUEST; lia|]. intros r s1 (-> & Rd1 & K1 & Ej1).
  wp_step. eapply wp_lift; [done|]. destruct (so_req _ _ So x) as [[j0 Hj0] Hax]; [rewrite Hr; apply elem_of_cons; by left|].
  destruct (so_task _ _ So t) as (Hc & _); [rewrite Ht; apply elem_of_cons; by left|].
  wp_step. unfold reactor_make_single_req. wp_steps. rewrite (k_reqs _ _ K1). cbn [set_task_pool req_pool]. rewrite Hr. wp_steps.
  eapply wp_upd_job; [cbn [set_req_pool r_jobs]; rewrite Ej1; exact Hj0|]. wp_steps.
  set (j := mk_job off n ty buf 1 _ _ _ _). set (s2 := set_jobs _ _).
  assert (ready s2 (reset A t (1 + 1))) as Rd2 by (unfold s2; apply ready_job; [|done]; by eapply ready_ext).
  assert (r_jobs s2 !! x = Some j) as Hj2 by (unfold s2; cbn; apply lookup_insert_eq).
  eapply wp_mono; [apply (submit_reqs_wp [x] s2 (reset A t (1 + 1)) t (1 + 1) Rd2)|].
  { unfold s2. cbn. rewrite (k_lcore _ _ K1). apply (so_lcore _ _ So). }
  { apply lookup_insert_eq. }
  { rewrite load_content. change (content (reset A t (1 + 1)) t) with (content A t). rewrite Hc. done. }
  { apply NoDup_singleton. }
  { intros y ->%list_elem_of_singleton. split; [done|]. exists j. split; [done|]. by split. }
  intros r s3 [(-> & A3 & Rd3 & Su) K3]. cbn beta.
  pose proof (su_job _ _ _ _ _ Su x j ltac:(apply list_elem_of_singleton; done) Hj2) as Hj3.
  destruct (submitted_load _ _ _ _ _ _ Hc Su) as [Hd3 Hl3]. change (len [x]) with 1 in Hl3.
  wp_step. eapply wp_mono; [apply wp_keeps; [apply keeps_get_all|]; eapply (get_one_wp s3 A3 t); try done; lia|].
  intros r s4 [(A4 & xs & y & Rd4 & G & -> & (j4 & Hj4 & Hjs4)) K4].
  pose proof (round_intro t A _ [x] _ A3 xs [y] A4 Hc Su G eq_refl) as Ro.
  assert (y = x) as -> by (pose proof (ro_ys _ _ _ _ _ _ Ro) as H; by apply Permutation_singleton_inj in H).
  wp_step. eapply wp_lift; [done|]. wp_step. eapply wp_get_job; [exact Hjs4|]. unfold reactor_free_reqs, reactor_free_task. wp_steps. split; [done|].
  assert (kept s (set_task_pool (t :: task_pool (set_req_pool ([x] ++ req_pool s4) s4)) (set_req_pool ([x] ++ req_pool s4) s4))) as K.
  { apply (kept_refill s s4 t tp x rp Ht Hr). transitivity s2; [exact (kept_drawn s s1 tp rp x j K1)|]. by transitivity s3. }
  split; [exact K|]. exists A4, xs, (set_task t j). split_and!; try done.
  - eapply sound_again; [exact So|exact K| |apply (ro_content _ _ _ _ _ _ Ro)]. by eapply ready_ext.
  - by rewrite (go_job _ _ _ _ _ _ G).
Qed.
(** ** Many writes at once *)

Definition write_of (j : io_job) (pno buf : Z) : Prop :=
  j_offset j = pno * Layout.CLUSTER_SIZE /\ j_bytes j = Layout.CLUSTER_SIZE /\ j_type j = SPDK_BDEV_IO_TYPE_WRITE /\ j_buf j = buf /\ j_iovcnt j = 1.
(** Each request of [jobs] is the write of the pair at its position. *)
Definition writes_of (m : gmap Z io_job) (jobs : list Z) (l : list (Z * Z)) : Prop :=
  Forall2 (fun x p => exists j, m !! x = Some j /\ write_of j p.1 p.2) jobs l.

Lemma fill_jobs_wp l : forall jobs s A, ready s A -> length jobs = length l -> NoDup jobs -> (forall x, x ∈ jobs -> is_Some (r_jobs s !! x) /\ away A x) ->
  wp (fill_jobs jobs l) (fun _ s' => ready s' A /\ writes_of (r_jobs s') jobs l /\ (forall y, y ∉ jobs -> r_jobs s' !! y = r_jobs s !! y)) s.
Proof.
  induction l as [|[p b] l IH]; intros [|x jobs] s A Rd Hlen Hnd Hj; try done; cbn [fill_jobs].
  - wp_step. split_and!; [done|by constructor|done].
  - apply NoDup_cons in Hnd as [Hx Hnd]. destruct (Hj x) as [[j Hjx] Ha]; [apply elem_of_cons; by left|].
    wp_step. eapply wp_upd_job; [exact Hjx|]. cbn beta. set (j' := mk_job _ _ _ _ _ _ _ _ _). set (s1 := set_jobs _ s).
    eapply wp_mono; [apply (IH jobs s1 A); [by apply ready_job|by injection Hlen|done|]|].
    + intros y Hy. assert (x <> y) by (by intros ->). unfold s1. cbn. rewrite lookup_insert_ne by done. apply Hj, elem_of_cons. by right.
    + intros _ s2 (Rd2 & Hw & Hk). split; [done|]. split.
      * constructor; [|done]. exists j'. rewrite Hk by done. split; [apply lookup_insert_eq|]. by unfold write_of.
      * intros y [Hyx Hy]%not_elem_of_cons. rewrite Hk by done. unfold s1. cbn. by rewrite lookup_insert_ne.
Qed.

Lemma writes_elem m jobs l x : writes_of m jobs l -> x ∈ jobs -> exists j p, m !! x = Some j /\ p ∈ l /\ write_of j p.1 p.2.
Proof.
  intros H Hx. apply list_elem_of_lookup in Hx as [i Hi]. destruct (Forall2_lookup_l _ _ _ _ _ H Hi) as (p & Hp & j & Hj & Hw).
  exists j, p. split_and!; [done|by eapply list_elem_of_lookup_2|done|..]; apply Hw.
Qed.
Lemma write_of_task t j p b : write_of j p b -> write_of (set_task t j) p b.
Proof. done. Qed.
Lemma write_job_ok j p b : write_of j p b -> job_ok j.
Proof. intros (_ & _ & Ht & _ & Hi). split; [lia|]. right; left. done. Qed.

Lemma sound_pool s A jp : sound s A -> (forall x, x ∈ jp -> x ∈ job_pool s) -> NoDup jp -> sound (set_job_pool jp s) A.
Proof.
  intros [Rd Hl Ht Hr Ho] Hp Hnd. split; cbn [set_job_pool task_pool req_pool job_pool r_jobs r_tasks lcore]; try done.
  - by eapply ready_ext.
  - intros x Hx. apply Hr. apply elem_of_app in Hx as [?|?]; apply elem_of_app; auto.
Qed.

Lemma kept_refill_jobs s s2 s5 t tp dr jp : task_pool s = t :: tp -> kept (set_job_pool dr s) s2 -> kept (set_task_pool tp s2) s5 ->
  kept (set_job_pool jp s) (set_task_pool (t :: task_pool (set_job_pool jp s5)) (set_job_pool jp s5)).
Proof.
  intros Ht [K1 K2 K3 K4 K5 K6] [L1 L2 L3 L4 L5 L6]. cbn in *. split; try done; cbn; try congruence; [by auto|].
  intros u v Hv. destruct (K6 _ _ Hv) as (v1 & Hv1 & [? ?]). destruct (L6 _ _ Hv1) as (v2 & ? & [? ?]). exists v2. split; [done|]. split; congruence.
Qed.

Lemma writes_submitted t A d jobs l m A' : writes_of m jobs l -> submitted t (reset A t d) jobs m A' -> writes_of (a_job A') jobs l.
Proof.
  intros Hw Su. apply Forall2_same_length_lookup. split; [by eapply Forall2_length|]. intros i x p Hx Hp.
  destruct (Forall2_lookup_lr _ _ _ _ _ _ Hw Hx Hp) as (j & Hj & Hj'). exists (set_task t j). split; [|done].
  eapply su_job; [done| |done]. by eapply list_elem_of_lookup_2.
Qed.

Lemma mapM_some (l : list Z) : mapM id (Some <$> l) = Some l.
Proof. induction l as [|x l IH]; [done|]. cbn. by rewrite IH. Qed.

Lemma sync_write_wp s A t tp l : sound s A -> task_pool s = t :: tp -> 1 <= len l <= AIO_MAX_QDEPTH -> len l <= len (job_pool s) ->
  wp (sync_write_jobs bdev_rc bdev_io pick l) (fun _ s' => task_pool s' = task_pool s /\ req_pool s' = req_pool s /\ job_pool s' ≡ₚ job_pool s /\
    exists A' xs ys jobs, sound s' A' /\ round t A jobs xs ys A' /\ writes_of (a_job A') jobs l) s.
Proof.
  intros So Ht Hn Hp. unfold sync_write_jobs, nvfuse_make_jobs, nvfuse_wait_aio_completion. fold (len l). cbv zeta. set (n := len l) in *. set (jobs := take (Z.to_nat n) (job_pool s)).
  assert (length jobs = length l) as Hlj by (unfold jobs, n, len in *; rewrite length_take; lia).
  assert (jobs ++ drop (Z.to_nat n) (job_pool s) = job_pool s) as Hsplit by apply take_drop.
  assert (NoDup jobs) as Hnd by (pose proof (so_once _ _ So) as Hnd; rewrite <- Hsplit in Hnd; by apply NoDup_app in Hnd as [? _]).
  assert (forall x, x ∈ jobs -> is_Some (r_jobs s !! x) /\ away A x) as Haw.
  { intros x Hx. apply (so_req _ _ So). rewrite <- Hsplit, !elem_of_app. by right; left. }
  wp_step. wp_step. apply wp_assert; [lia|]. wp_steps. apply wp_assert; [unfold len in *; lia|]. wp_steps. fold jobs.
  set (s1 := set_job_pool _ s). assert (ready s1 A) as Rd1 by (eapply ready_ext; [apply (so_ready _ _ So)|done..]).
  eapply wp_mono; [apply wp_keeps; [apply keeps_fill_jobs|]; by apply (fill_jobs_wp l jobs s1 A)|]. intros _ s2 [(Rd2 & Hw & Hk) K2].
  assert (sound s2 A) as So2.
  { apply (sound_again s1 A); [|done..]. apply sound_pool; [done| |].
    - intros x Hx. rewrite <- Hsplit. apply elem_of_app. by right.
    - pose proof (so_once _ _ So) as Hd. rewrite <- Hsplit in Hd. by apply NoDup_app in Hd as (_ & _ & ?). }
  assert (task_pool s2 = t :: tp) as Ht2 by (rewrite (k_tasks _ _ K2); exact Ht).
  destruct (so_task _ _ So t) as (Hc & _); [rewrite Ht; apply elem_of_cons; by left|].
  wp_step. eapply wp_mono; [apply (alloc_task_wp s2 A t tp n So2 Ht2); unfold AIO_MAX_QDEPTH, REACTOR_MAX_REQUEST in *; lia|].
  intros r s3 (-> & Rd3 & K3 & Ej3). wp_step. eapply wp_lift; [done|]. wp_step. apply wp_assert; [lia|].
  wp_step. eapply wp_mono; [apply (submit_reqs_wp jobs s3 (reset A t (n + 1)) t (n + 1) Rd3)|].
  { rewrite (k_lcore _ _ K3). apply (so_lcore _ _ So2). }
  { apply lookup_insert_eq. }
  { rewrite load_content. change (content (reset A t (n + 1)) t) with (content A t). rewrite Hc. unfold n, len. rewrite Hlj. simpl length. lia. }
  { done. }
  { intros x Hx. split; [by apply Haw|]. rewrite Ej3. destruct (writes_elem _ _ _ _ Hw Hx) as (j & p & Hj & _ & Hwj). exists j. split; [done|]. by eapply write_job_ok. }
  intros r s4 [(-> & A4 & Rd4 & Su) K4]. rewrite Ej3 in Su.
  destruct (submitted_load _ _ _ _ _ _ Hc Su) as [Hd4 Hl4]. assert (len jobs = n) as Hlj' by (unfold n, len; by rewrite Hlj). rewrite Hlj' in Hl4.
  wp_step. eapply wp_mono; [apply wp_keeps; [apply keeps_get_all|]; apply (get_all_wp bdev_rc bdev_io pick rc_ok io_ok pick_ok (Z.to_nat n) s4 A4 t (n + 1) 0 n); try done; lia|].
  intros r s5 [(A5 & xs & ys & Rd5 & G & -> & Hys) K5].
  pose proof (round_intro t A _ jobs _ A4 xs ys A5 Hc Su G ltac:(unfold n, len in *; rewrite Hlj; lia)) as Ro.
  wp_step. eapply wp_lift; [apply mapM_some|]. unfold nvfuse_release_jobs, reactor_free_task. wp_steps. cbn [set_job_pool task_pool req_pool job_pool].
  assert (kept (set_task_pool tp s2) s5) as K25 by (transitivity s3; [done|by transitivity s4]).
  assert (ys ++ job_pool s5 ≡ₚ job_pool s) as Hjp.
  { rewrite (k_jobs _ _ K25). cbn. rewrite (k_jobs _ _ K2). cbn. by rewrite (ro_ys _ _ _ _ _ _ Ro), Hsplit. }
  pose proof (k_tasks _ _ K25) as Etp. pose proof (k_reqs _ _ K25) as Erp. pose proof (k_reqs _ _ K2) as Erp2. cbn in Etp, Erp, Erp2.
  split_and!; [cbn; congruence|cbn; congruence|done|].
  exists A5, xs, ys, jobs. split; [|split; [done|]].
  - eapply (sound_again (set_job_pool (ys ++ job_pool s5) s) A).
    + apply sound_pool; [done|intros x; by rewrite Hjp|]. rewrite Hjp. apply So.
    + by eapply kept_refill_jobs.
    + by eapply ready_ext.
    + apply (ro_content _ _ _ _ _ _ Ro).
  - rewrite (go_job _ _ _ _ _ _ G). by eapply writes_submitted.
Qed.
End calls.
End ReactorCalls.
