(* ===== verification/ReactorThms.v ===== *)
(** * The reactor: theorems

    Rings as queues in any order of the threads' steps, one synchronous request,
    many writes at once, and a completion that finds its ring full. *)
From S2P Require Import Prelude Layout Arr BufferCache Reactor ReactorSpec ReactorRun.
Import Arr Reactor ReactorSpec ReactorRun ReactorKept ReactorCalls.

Module ReactorThms.

(** ** Schedules *)

Section schedule.
Context {W : Type} (bdev_rc : io_job -> W -> Z) (bdev_io : io_job -> W -> bool * W).
Implicit Types (A : areactor (W := W)) (s : rst W) (c : action) (cs : list action) (t x : Z).
Notation a_step := (a_step bdev_io).

Fixpoint acts cs : M (rst W) (list (list (option Z))) :=
  match cs with [] => mret [] | c :: cs => r ← act bdev_rc bdev_io c; rs ← acts cs; mret (r :: rs) end.
Definition a_run A cs : areactor := foldl a_step A cs.
Fixpoint all_allowed A cs : Prop := match cs with [] => True | c :: cs => allowed A c /\ all_allowed (a_step A c) cs end.
Fixpoint answers A cs : list (list (option Z)) := match cs with [] => [] | c :: cs => answer A c :: answers (a_step A c) cs end.
(** What a task submits, and what it collects *)
Definition puts t cs : list Z := cs ≫= fun c => match c with Put t' x _ => if decide (t' = t) then [x] else [] | _ => [] end.
Fixpoint gets t cs (rs : list (list (option Z))) : list (option Z) :=
  match cs, rs with
  | c :: cs, r :: rs => (match c with Get t' _ => if decide (t' = t) then r else [] | _ => [] end) ++ gets t cs rs
  | _, _ => []
  end.

Lemma step_content A c t : allowed A c ->
  Some <$> (puts t [c] ++ content A t) ≡ₚ gets t [c] [answer A c] ++ (Some <$> content (a_step A c) t).
Proof.
  unfold puts. cbn [mbind list_bind gets app]. rewrite !app_nil_r. destruct c as [t' x j|t'|i|t' n]; cbn [allowed answer app].
  - intros _. apply fmap_Permutation. unfold content, pending. cbn [ReactorSpec.a_step a_sq a_fl a_cq]. case_decide as Ht.
    + subst t'. rewrite queue_eq. solve_Permutation.
    + by rewrite queue_ne.
  - intros Hq. apply fmap_Permutation. by eapply moved_content, moved_take.
  - intros Hi. apply lookup_lt_is_Some in Hi as [[y u] Hi]. apply fmap_Permutation. by eapply moved_content, moved_complete.
  - intros [_ Hn]. unfold content, pending. cbn [ReactorSpec.a_step a_sq a_fl a_cq]. case_decide as Ht.
    + subst t'. rewrite queue_eq. rewrite <- fmap_app. apply fmap_Permutation. rewrite <- (take_drop n (queue (a_cq A) t)) at 1. solve_Permutation.
    + by rewrite queue_ne.
Qed.

Context (rc_ok : forall j w, bdev_rc j w = 0) (io_ok : forall j w, (bdev_io j w).1 = true).

Lemma acts_wp cs : forall s A, rep s A -> all_allowed A cs ->
  wp (acts cs) (fun rs s' => rs = answers A cs /\ rep s' (a_run A cs)) s.
Proof.
  induction cs as [|c cs IH]; intros s A R Hal; cbn [acts].
  - by wp_step.
  - destruct Hal as [Hc Hcs]. wp_step. eapply wp_mono; [by apply act_sim|]. intros r s1 [-> R1].
    wp_step. eapply wp_mono; [by apply (IH s1 (a_step A c))|]. intros rs s2 [-> R2]. by wp_step.
Qed.

Lemma run_content cs : forall A t, all_allowed A cs ->
  Some <$> (puts t cs ++ content A t) ≡ₚ gets t cs (answers A cs) ++ (Some <$> content (a_run A cs) t).
Proof.
  induction cs as [|c cs IH]; intros A t Hal; [done|]. destruct Hal as [Hc Hcs].
  pose proof (step_content A c t Hc) as H1. pose proof (IH _ t Hcs) as H2. cbn [answers gets a_run foldl]. fold (a_run (a_step A c) cs).
  assert (puts t (c :: cs) = puts t [c] ++ puts t cs) as -> by (unfold puts; cbn; by rewrite app_nil_r).
  cbn [gets] in H1. rewrite app_nil_r in H1. set (X := match c with Get _ _ => _ | _ => _ end) in *.
  rewrite !fmap_app in *. rewrite <- (app_assoc X), <- H2. transitivity (Some <$> puts t cs ++ (puts t [c] ++ content A t)).
  - rewrite !fmap_app. solve_Permutation.
  - rewrite !fmap_app, H1. solve_Permutation.
Qed.

(** C4: Whatever the order in which threads submit and collect, the reactor takes
    requests over and the device completes them, as long as no task has more
    requests under way than it was made for, the rings of the code behave as
    queues: no step fails or blocks, collections give the oldest completed
    requests, and the requests a task was given are, each once, those it
    collected and those still under way. *)
Theorem rings_refine_queues s A cs t : rep s A -> all_allowed A cs ->
  wp (acts cs) (fun rs s' => rs = answers A cs /\ rep s' (a_run A cs) /\
    Some <$> (puts t cs ++ content A t) ≡ₚ gets t cs rs ++ (Some <$> content (a_run A cs) t)) s.
Proof.
  intros R Hal. eapply wp_mono; [by apply acts_wp|]. intros rs s' [-> R']. split_and!; [done|done|by apply run_content].
Qed.

End schedule.

(** ** One request *)

Section calls.
Context {W : Type} (bdev_rc : io_job -> W -> Z) (bdev_io : io_job -> W -> bool * W) (pick : list Z -> nat).
Context (rc_ok : forall j w, bdev_rc j w = 0) (io_ok : forall j w, (bdev_io j w).1 = true).
Context (pick_ok : forall l, l <> [] -> (pick l < length l)%nat).

(** C7: A synchronous read or write returns 0 whichever request the device
    completes next: the request is carried out exactly once, pools come back as
    they were, and the other tasks have the same requests under way or
    collected as before. *)
Theorem sync_io_once s A t tp x rp block count buf (write : bool) : sound s A -> task_pool s = t :: tp -> req_pool s = x :: rp ->
  wp (if write then reactor_sync_write_blk bdev_rc bdev_io pick block count buf else reactor_sync_read_blk bdev_rc bdev_io pick block count buf) (fun r s' =>
    r = 0 /\ task_pool s' = task_pool s /\ req_pool s' = req_pool s /\
    exists A' xs j, sound s' A' /\ of_task t xs = [x] /\ r_world s' = effect bdev_io A' (r_world s) xs /\ a_job A' !! x = Some j /\
      j_offset j = block * NV_BLOCK_SIZE /\ j_bytes j = s32 (count * NV_BLOCK_SIZE) /\ j_buf j = buf /\
      j_type j = (if write then SPDK_BDEV_IO_TYPE_WRITE else SPDK_BDEV_IO_TYPE_READ) /\
      (forall t', content A' t' ≡ₚ content A t') /\ (forall t', t' <> t -> pending A t' ≡ₚ of_task t' xs ++ pending A' t')) s.
Proof.
  intros So Ht Hr. assert (forall ty, io_type ty -> wp (reactor_sync bdev_rc bdev_io pick (block * NV_BLOCK_SIZE) (s32 (count * NV_BLOCK_SIZE)) buf ty) (fun r s' =>
    r = 0 /\ task_pool s' = task_pool s /\ req_pool s' = req_pool s /\
    exists A' xs j, sound s' A' /\ of_task t xs = [x] /\ r_world s' = effect bdev_io A' (r_world s) xs /\ a_job A' !! x = Some j /\
      j_offset j = block * NV_BLOCK_SIZE /\ j_bytes j = s32 (count * NV_BLOCK_SIZE) /\ j_buf j = buf /\ j_type j = ty /\
      (forall t', content A' t' ≡ₚ content A t') /\ (forall t', t' <> t -> pending A t' ≡ₚ of_task t' xs ++ pending A' t')) s) as H; [|by destruct write; apply H; unfold io_type; auto].
  intros ty Hty. eapply wp_mono; [by eapply (sync_call_wp bdev_rc bdev_io pick rc_ok io_ok pick_ok s A t tp x rp)|].
  intros r s' (-> & K & A' & xs & j & So' & Ro & Hj & Ho & Hb & Hbuf & Hty' & _). split_and!; [done|apply K|apply K|].
  exists A', xs, j. split_and!; try done.
  - pose proof (ro_xs _ _ _ _ _ _ _ Ro) as H. by apply Permutation_singleton_r in H.
  - rewrite (rp_world _ _ (proj1 (so_ready _ _ So'))), (rp_world _ _ (proj1 (so_ready _ _ So))). apply (ro_world _ _ _ _ _ _ _ Ro).
  - apply (ro_content _ _ _ _ _ _ _ Ro).
  - apply (ro_other _ _ _ _ _ _ _ Ro).
Qed.
End calls.

(** ** Many writes *)

Section disk.
(** Memory and device as maps from addresses to blocks *)
Notation W := (gmap Z (list Z) * gmap Z (list Z))%type.
Context (bdev_rc : io_job -> W -> Z) (bdev_io : io_job -> W -> bool * W) (pick : list Z -> nat).
Context (rc_ok : forall j w, bdev_rc j w = 0) (io_ok : forall j w, (bdev_io j w).1 = true).
Context (pick_ok : forall l, l <> [] -> (pick l < length l)%nat).
Context (io_write : forall j p b (mem dev : gmap Z (list Z)) d, write_of j p b -> mem !! b = Some d -> (bdev_io j (mem, dev)).2 = (mem, <[ p := d ]> dev)).
Implicit Types (A : areactor (W := W)) (mem dev : gmap Z (list Z)).

Definition stored dev (cs : list (Z * list Z)) : gmap Z (list Z) := foldl (fun d c => <[ c.1 := c.2 ]> d) dev cs.

Lemma stored_perm cs cs' : cs ≡ₚ cs' -> NoDup cs.*1 -> forall dev, stored dev cs = stored dev cs'.
Proof.
  induction 1 as [|c cs cs' _ IH|c c' cs|cs cs' cs'' H IH _ IH']; intros Hnd dev; cbn in *.
  - done.
  - apply NoDup_cons in Hnd as [_ Hnd]. by apply IH.
  - apply NoDup_cons in Hnd as [Hn _]. rewrite insert_insert_ne; [done|]. intros E. apply Hn. rewrite E. apply elem_of_cons. by left.
  - rewrite IH by done. apply IH'. by rewrite <- H.
Qed.

(** A request is the write of a block with these contents. *)
Definition writes A mem (x : Z) (c : Z * list Z) : Prop := exists j b, a_job A !! x = Some j /\ write_of j c.1 b /\ mem !! b = Some c.2.

Lemma effect_writes A mem xs cs : Forall2 (writes A mem) xs.*1 cs -> forall dev, effect bdev_io A (mem, dev) xs = (mem, stored dev cs).
Proof.
  revert cs. induction xs as [|[x t] xs IH]; intros [|c cs] H dev; cbn in H; try (by inversion H).
  apply Forall2_cons in H as [(j & b & Hj & Hw & Hb) H]. cbn. rewrite Hj. cbn. rewrite (io_write _ _ _ _ _ _ Hw Hb). by apply IH.
Qed.

Lemma of_task_all t (xs : list (Z * Z)) : (forall t', t' <> t -> of_task t' xs = []) -> xs.*1 = of_task t xs.
Proof.
  induction xs as [|[x u] xs IH]; intros H; [done|]. rewrite of_task_cons. cbn. case_decide as Hu.
  - f_equal. apply IH. intros t' Ht. specialize (H t' Ht). rewrite of_task_cons, decide_False in H by congruence. done.
  - specialize (H u Hu). by rewrite of_task_cons, decide_True in H by done.
Qed.

(** The contents of the buffers to write *)
Definition contents mem (l : list (Z * Z)) : list (Z * list Z) := (fun p => (p.1, default [] (mem !! p.2))) <$> l.

Lemma writes_contents A mem jobs l : writes_of (a_job A) jobs l -> Forall (fun p => is_Some (mem !! p.2)) l -> Forall2 (writes A mem) jobs (contents mem l).
Proof.
  intros H Hm. apply Forall2_fmap_r. apply Forall2_same_length_lookup. split; [by eapply Forall2_length|]. intros i x p Hx Hp.
  destruct (Forall2_lookup_lr _ _ _ _ _ _ H Hx Hp) as (j & Hj & Hw). destruct (Forall_lookup_1 _ _ _ _ Hm Hp) as [d Hd].
  exists j, p.2. by rewrite Hd.
Qed.

(** C8: Writing many blocks at once is writing them one after the other, which
    is how the buffer cache sees it: with no other requests under way, for
    distinct blocks, and whatever the order in which the device completes them,
    the write returns with each buffer stored in its block. *)
Theorem many_writes_in_order s A t tp l bm : sound s A -> (forall u, content A u = []) -> task_pool s = t :: tp ->
  1 <= len l <= AIO_MAX_QDEPTH -> len l <= len (job_pool s) -> NoDup l.*1 -> Forall (fun p => is_Some ((r_world s).1 !! p.2)) l ->
  BufferCache.bm_dev bm = (r_world s).2 ->
  wp (sync_write_jobs bdev_rc bdev_io pick l) (fun _ s' => exists A', sound s' A' /\ (forall u, content A' u = []) /\
    job_pool s' ≡ₚ job_pool s /\ task_pool s' = task_pool s /\ (r_world s').1 = (r_world s).1 /\
    BufferCache.write_jobs (contents (r_world s).1 l) bm = Some (tt, BufferCache.set_dev (r_world s').2 bm)) s.
Proof.
  intros So Hq Ht Hn Hp Hnd Hm Hb. eapply wp_mono; [by apply (sync_write_wp bdev_rc bdev_io pick rc_ok io_ok pick_ok s A t tp l)|].
  intros _ s' (Etp & _ & Ejp & A' & xs & ys & jobs & So' & Ro & Hw).
  assert (forall u, content A' u = []) as Hq' by (intros u; apply Permutation_nil_r; by rewrite <- (Hq u), <- (ro_content _ _ _ _ _ _ _ Ro u)).
  assert (xs.*1 ≡ₚ jobs) as Hxs.
  { rewrite (of_task_all t xs); [apply (ro_xs _ _ _ _ _ _ _ Ro)|]. intros u Hu. pose proof (ro_other _ _ _ _ _ _ _ Ro u Hu) as H.
    unfold pending in H. destruct (content_nil _ _ (Hq u)) as (Hs & Hf & _). rewrite Hs, Hf in H. cbn [app] in H.
    by apply Permutation_nil, app_nil in H as [H _]. }
  set (mem := (r_world s).1) in *. pose proof (writes_contents A' mem jobs l Hw Hm) as Hc.
  destruct (Permutation_Forall2 (Permutation_sym Hxs) Hc) as (cs & Hcs & Hw').
  assert (r_world s' = (mem, stored (r_world s).2 (contents mem l))) as Ew.
  { rewrite (rp_world _ _ (proj1 (so_ready _ _ So'))), (ro_world _ _ _ _ _ _ _ Ro), <- (rp_world _ _ (proj1 (so_ready _ _ So))).
    rewrite (surjective_pairing (r_world s)). rewrite (effect_writes A' _ xs cs Hw'). f_equal. symmetry. apply stored_perm; [done|].
    unfold contents. by rewrite <- list_fmap_compose. }
  exists A'. rewrite Ew. split_and!; try done. unfold BufferCache.write_jobs, mmodify. by rewrite Hb.
Qed.
End disk.

(** ** A completion that finds its ring full *)

Section lost.
Context {W : Type} (bdev_rc : io_job -> W -> Z) (bdev_io : io_job -> W -> bool * W) (pick : list Z -> nat).
Implicit Types s : rst W.

(** With nothing under way a thread that waits for more waits for ever. *)
Lemma idle_waits s t v l m n : r_inflight s = [] -> r_events s = [] -> r_tasks s !! t = Some v -> ring_rep (qdepth v) (cq v) l -> len l < m ->
  cq_wait bdev_rc bdev_io pick n t m s = None.
Proof.
  intros Hf He Hv R Hm. assert (reactor_cq_size t s = Some (len l, s)) as Es.
  { unfold reactor_cq_size, mbind, M_bind, get_task, mlift, massert. rewrite Hv, (ring_size_len _ _ _ R).
    by rewrite (proj2 (Z.leb_le 0 (len l))) by apply len_nonneg. }
  destruct n as [|n]; cbn [cq_wait]; unfold mbind at 1, M_bind at 1; rewrite Es, (proj2 (Z.ltb_lt _ _)) by done; [done|].
  unfold others_step, mbind, M_bind, mget. rewrite He, bool_decide_true by done. unfold complete, mbind, M_bind, mget, mlift. by rewrite Hf, lookup_nil.
Qed.

(** C38: A task is given more requests than it was made for when its first ones
    have left the submission ring.  The completion of a request that finds the
    other ring full is dropped without an error: the request is in no ring any
    more, and a thread that waits for all of them never ends. *)
Theorem full_ring_loses_request s x j v l : r_inflight s = [x] -> r_events s = [] -> r_jobs s !! x = Some j -> r_tasks s !! j_task j = Some v ->
  ring_rep (qdepth v) (cq v) l -> len l = qdepth v - 1 -> (bdev_io j (r_world s)).1 = true ->
  exists s', complete bdev_io 0 s = Some (tt, s') /\ r_tasks s' = r_tasks s /\ r_inflight s' = [] /\ r_events s' = [] /\
    forall n, cq_wait bdev_rc bdev_io pick n (j_task j) (qdepth v) s' = None.
Proof.
  intros Hf He Hj Hv R Hl Hio. 
  enough (wp (complete bdev_io 0) (fun _ s' => r_tasks s' = r_tasks s /\ r_inflight s' = [] /\ r_events s' = []) s) as Hw.
  { destruct (wp_elim _ _ _ Hw) as ([] & s' & E & Et & Ef & Ee). exists s'. split_and!; try done. intros n.
    apply (idle_waits s' _ v l); [done|done|by rewrite Et|done|lia]. }
  unfold complete. wp_steps. eapply wp_lift; [by rewrite Hf|]. wp_steps.
  eapply wp_get_job; [exact Hj|]. cbv zeta. wp_steps. unfold reactor_bio_cb. wp_step. eapply wp_get_job; [exact Hj|].
  wp_step. apply wp_assert; [exact Hio|]. wp_step. eapply wp_upd_job; [exact Hj|]. wp_steps. unfold reactor_cq_put_req.
  wp_step. eapply wp_get_task; [exact Hv|]. wp_step. eapply wp_lift; [by apply (ring_put_full _ _ _ R)|]. cbn beta iota. wp_steps.
  by rewrite Hf.
Qed.
End lost.

(** ** Concrete instances

    A device that keeps blocks in a map and completes the newest request first *)
Definition disk : Type := gmap Z (list Z) * gmap Z (list Z).
Definition disk_rc (j : io_job) (w : disk) : Z := 0.
Definition disk_io (j : io_job) (w : disk) : bool * disk :=
  let b := j_offset j / Layout.CLUSTER_SIZE in
  if j_type j =? SPDK_BDEV_IO_TYPE_WRITE then (true, (w.1, match w.1 !! j_buf j with Some d => <[ b := d ]> w.2 | None => w.2 end))
  else if j_type j =? SPDK_BDEV_IO_TYPE_READ then (true, (<[ j_buf j := default [] (w.2 !! b) ]> w.1, w.2))
  else (true, w).
Definition newest (l : list Z) : nat := (length l - 1)%nat.

Lemma disk_io_ok j w : (disk_io j w).1 = true.
Proof. unfold disk_io. destruct (_ =? _); [done|]. by destruct (_ =? _). Qed.
Lemma newest_ok l : l <> [] -> (newest l < length l)%nat.
Proof. unfold newest. destruct l; simpl; [done|lia]. Qed.
Lemma disk_io_write j p b (mem dev : gmap Z (list Z)) d : write_of j p b -> mem !! b = Some d -> (disk_io j (mem, dev)).2 = (mem, <[ p := d ]> dev).
Proof.
  intros (Ho & _ & Ht & Hb & _) Hd. unfold disk_io. rewrite Ht, Ho, Hb. cbn [fst snd]. rewrite Hd. cbn. by rewrite Z.div_mul.
Qed.

Definition blank : io_job := mk_job 0 0 0 0 0 0 0 0 0.
Definition empty_ring : ring := mk_ring (replicate (Z.to_nat REACTOR_MAX_REQUEST) None) 0 0.
Definition start : rst disk :=
  mk_rst disk {[ 1 := mk_task 0 empty_ring empty_ring ]} {[ 11 := blank; 12 := blank; 13 := blank ]} [1] [11] [12; 13] 0 0 0 false [] []
    ({[ 100 := [7]; 101 := [8] ]}, ∅).
Definition astart : areactor (W := disk) := mk_a ∅ ∅ ∅ [] ∅ (r_world start).

Lemma astart_content t : content astart t = [].
Proof. done. Qed.
Lemma start_sound : sound start astart.
Proof.
  split.
  - split; [split|split]; try done; cbn; try (by intros ? ? ?%not_elem_of_nil).
    + split; [constructor|]. intros t. constructor.
    + by intros t ?%not_elem_of_nil.
  - done.
  - intros t ->%list_elem_of_singleton. split; [done|]. eexists. split; [apply lookup_insert_eq|]. split; by vm_compute.
  - intros x Hx. split; [|by intros t ?%not_elem_of_nil].
    assert (x = 11 \/ x = 12 \/ x = 13) as [->|[->| ->]] by (cbn in Hx; set_solver); apply (bool_decide_unpack _); by vm_compute.
  - apply (bool_decide_unpack _). by vm_compute.
Qed.

Lemma sync_io_once_witness : exists s', reactor_sync_write_blk disk_rc disk_io newest 5 1 100 start = Some (0, s').
Proof.
  destruct (wp_elim _ _ _ (sync_io_once disk_rc disk_io newest (fun _ _ => eq_refl) disk_io_ok newest_ok start astart 1 [] 11 [] 5 1 100 true start_sound eq_refl eq_refl))
    as (r & s' & E & Hr & _). exists s'. rewrite <- Hr. exact E.
Defined.

Lemma many_writes_in_order_witness : exists s', sync_write_jobs disk_rc disk_io newest [(5, 100); (6, 101)] start = Some (tt, s') /\ (r_world s').1 = (r_world start).1.
Proof.
  assert (Forall (fun p : Z * Z => is_Some ((r_world start).1 !! p.2)) [(5, 100); (6, 101)]) as Hm by (apply (bool_decide_unpack _); by vm_compute).
  assert (NoDup [(5, 100); (6, 101)].*1) as Hnd by (apply (bool_decide_unpack _); by vm_compute).
  set (bm := BufferCache.init_state ∅).
  destruct (wp_elim _ _ _ (many_writes_in_order disk_rc disk_io newest (fun _ _ => eq_refl) disk_io_ok newest_ok disk_io_write start astart 1 [] [(5, 100); (6, 101)] bm
    start_sound astart_content eq_refl ltac:(by vm_compute) ltac:(by vm_compute) Hnd Hm eq_refl)) as ([] & s' & E & A' & _ & _ & _ & _ & Ew & _).
  exists s'. split; [exact E|exact Ew].
Defined.

(** A task of three slots, and a schedule in which the second request is
    completed first *)
Definition task3 : reactor_task := mk_task 3 empty_ring empty_ring.
Definition some_write : io_job := mk_job 4096 4096 SPDK_BDEV_IO_TYPE_WRITE 100 1 0 0 0 0.
Definition schedule : list action := [Put 1 12 some_write; Take 1; Put 1 13 some_write; Take 1; Complete 1; Get 1 1; Complete 0; Get 1 1].

Lemma queue_away (m : gmap Z (list Z)) x : map_Forall (fun _ l => x ∉ l) m -> forall t, x ∉ queue m t.
Proof.
  intros H t Hx. unfold queue in Hx. destruct (m !! t) as [l|] eqn:E; [by apply (map_Forall_lookup_1 _ _ _ _ H E)|by apply not_elem_of_nil in Hx].
Qed.
Lemma allowed_intro A t d x j (Q : Prop) : job_ok j -> a_depth A !! t = Some d -> load A t < d - 1 ->
  map_Forall (fun _ l => x ∉ l) (a_sq A) -> map_Forall (fun _ l => x ∉ l) (a_cq A) -> x ∉ (a_fl (W := disk) A).*1 -> Q -> allowed A (Put t x j) /\ Q.
Proof.
  intros Hj Hd Hl Hs Hc Hf HQ. split; [|done]. split; [done|]. split; [by exists d|]. split; [|done]. intros t'. by split; apply queue_away.
Qed.

Lemma rings_refine_queues_witness :
  exists rs s', acts disk_rc disk_io schedule (set_tasks (<[ 1 := task3 ]> (r_tasks start)) start) = Some (rs, s') /\
    rs = [[]; []; []; []; []; [Some 13]; []; [Some 12]].
Proof.
  assert (rep (set_tasks (<[ 1 := task3 ]> (r_tasks start)) start) (reset astart 1 3)) as R.
  { apply ready_reset; try done; [apply start_sound|apply ring_new; unfold len; by rewrite length_replicate..]. }
  assert (all_allowed disk_io (reset astart 1 3) schedule) as Hal.
  { unfold schedule. cbn [all_allowed]. repeat first
      [ exact I
      | apply (allowed_intro _ _ 3); [split; [done|by right; left]|done|done|apply (bool_decide_unpack _); by vm_compute..|]
      | split; [cbn [allowed]; try split; apply (bool_decide_unpack _); by vm_compute|] ]. }
  destruct (wp_elim _ _ _ (rings_refine_queues disk_rc disk_io (fun _ _ => eq_refl) disk_io_ok _ _ schedule 1 R Hal)) as (rs & s' & E & Hrs & _).
  exists rs, s'. split; [exact E|]. rewrite Hrs. by vm_compute.
Defined.

(** A task made for one request gets a second one after the first has left the
    submission ring; both submissions succeed. *)
Definition overrun : M (rst disk) (Z * Z) :=
  fill_jobs [12; 13] [(5, 100); (6, 101)];;
  reactor_alloc_task 1;;
  r1 ← reactor_submit_reqs 1 [12];
  run_event disk_rc;;
  r2 ← reactor_submit_reqs 1 [13];
  run_event disk_rc;;
  complete disk_io 0;;
  mret (r1, r2).
Definition overrun_state : rst disk := default start (snd <$> overrun start).

Lemma full_ring_loses_request_witness : overrun start = Some ((0, 0), overrun_state) /\
  exists s', complete disk_io 0 overrun_state = Some (tt, s') /\ r_inflight s' = [] /\ forall n, cq_wait disk_rc disk_io newest n 1 2 s' = None.
Proof.
  split; [by vm_compute|].
  set (j := default blank (r_jobs overrun_state !! 13)). set (v := default task3 (r_tasks overrun_state !! 1)).
  assert (ring_rep (qdepth v) (cq v) [12]) as R.
  { split; try by vm_compute. intros [|[|i]] x [= <-]. by vm_compute. }
  assert (j_task j = 1) as Ej by (by vm_compute). assert (qdepth v = 2) as Eq by (by vm_compute).
  assert (r_inflight overrun_state = [13]) as Hf by (by vm_compute). assert (r_events overrun_state = []) as He by (by vm_compute).
  assert (r_jobs overrun_state !! 13 = Some j) as Hj by (by vm_compute). assert (r_tasks overrun_state !! j_task j = Some v) as Hv by (by vm_compute).
  destruct (full_ring_loses_request disk_rc disk_io newest overrun_state 13 j v [12] Hf He Hj Hv R ltac:(by rewrite Eq) (disk_io_ok _ _))
    as (s' & E & _ & Hf' & _ & Hw).
  rewrite Ej, Eq in Hw. exists s'. split; [exact E|]. split; [exact Hf'|exact Hw].
Defined.

End ReactorThms.
