(* ===== verification/Aio.v ===== *)
(** * Asynchronous I/O (nvfuse_aio.c)

    An asynchronous request is split into device requests, one per run of blocks
    of its file; it moves to the completion queue of its [aio_queue] with the
    last of them.  The file calls are an interface, [AioFile], which the file API
    implements; device requests go through the reactor. *)
From S2P Require Import Prelude Layout Arr Reactor ReactorSpec ReactorRun ReactorThms Dir DirEntry File FileIO FileOps FileRules.
Import Arr Reactor.

Module Aio.

Notation CLUSTER_SIZE := Layout.CLUSTER_SIZE.
Notation NVFUSE_SIZE_TO_BLK := Dir.NVFUSE_SIZE_TO_BLK.
Definition READ : Z := 1.
Definition NVFUSE_MAX_AIO_DEPTH : Z := 1024.
Definition NVFUSE_MAX_AIO_COMPLETION : Z := 1.
Definition NVFUSE_SUBMISSION_QUEUE : Z := 1.
Definition NVFUSE_COMPLETION_QUEUE : Z := 2.

(** struct nvfuse_aio_req: [q_jobs] is bio_job_count; the callback, the owner and
    the time stamps are left out. *)
Record aio_req := mk_areq {
  q_fid : Z;
  q_opcode : Z;
  q_buf : Z;
  q_offset : Z;
  q_bytes : Z;
  q_error : Z;
  q_status : Z;
  q_jobs : Z }.
Definition set_error (v : Z) (a : aio_req) := mk_areq (q_fid a) (q_opcode a) (q_buf a) (q_offset a) (q_bytes a) v (q_status a) (q_jobs a).
Definition set_status (v : Z) (a : aio_req) := mk_areq (q_fid a) (q_opcode a) (q_buf a) (q_offset a) (q_bytes a) (q_error a) v (q_jobs a).
Definition set_q_jobs (v : Z) (a : aio_req) := mk_areq (q_fid a) (q_opcode a) (q_buf a) (q_offset a) (q_bytes a) (q_error a) (q_status a) v.

(** struct nvfuse_aio_queue without its statistics *)
Record aio_queue := mk_aioq {
  asq_head : list Z;
  asq_cur_depth : Z;
  asq_max_depth : Z;
  acq_head : list Z;
  acq_cur_depth : Z;
  acq_max_depth : Z;
  max_completions : Z;
  total_bio_job_count : Z;
  aio_task : option Z }.
Definition set_asq (l : list Z) (n : Z) (q : aio_queue) := mk_aioq l n (asq_max_depth q) (acq_head q) (acq_cur_depth q) (acq_max_depth q) (max_completions q) (total_bio_job_count q) (aio_task q).
Definition set_acq (l : list Z) (n : Z) (q : aio_queue) := mk_aioq (asq_head q) (asq_cur_depth q) (asq_max_depth q) l n (acq_max_depth q) (max_completions q) (total_bio_job_count q) (aio_task q).
Definition set_total (v : Z) (q : aio_queue) := mk_aioq (asq_head q) (asq_cur_depth q) (asq_max_depth q) (acq_head q) (acq_cur_depth q) (acq_max_depth q) (max_completions q) v (aio_task q).

(** What asynchronous requests use of files: nvfuse_is_directio,
    nvfuse_readfile_aio_directio, nvfuse_writefile_directio_prepare (descriptor,
    count, offset) and nvfuse_fgetblk, whose result is the block and
    [*num_alloc]. *)
Class AioFile (F : Type) := {
  af_is_directio : Z -> M F Z;
  af_read : Z -> Z -> Z -> M F Z;
  af_write : Z -> Z -> Z -> M F Z;
  af_fgetblk : Z -> Z -> Z -> M F (Z * Z) }.

#[export] Instance file_aio {A I} `{Dir.Store A} `{Dir.Index A I} `{File.DataStore A} : AioFile (File.fst A I) := {|
  af_is_directio := File.nvfuse_is_directio;
  af_read := FileIO.nvfuse_readfile_aio_directio;
  af_write := FileIO.nvfuse_writefile_directio_prepare;
  af_fgetblk := FileOps.nvfuse_fgetblk |}.

(** The queue with its requests, the files and the reactor; [s_called] are the
    requests whose callback was called. *)
Record ast {F W : Type} := mk_ast {
  s_file : F;
  s_reactor : rst W;
  s_q : aio_queue;
  s_reqs : gmap Z aio_req;
  s_called : list Z }.
Arguments ast : clear implicits.

Section ops.
Context {F W : Type} `{AioFile F} (bdev_rc : io_job -> W -> Z) (bdev_io : io_job -> W -> bool * W) (pick : list Z -> nat).
Notation AM := (M (ast F W)).
Implicit Types s : ast F W.

Definition set_q q s : ast F W := mk_ast F W (s_file s) (s_reactor s) q (s_reqs s) (s_called s).
Definition set_reqs v s : ast F W := mk_ast F W (s_file s) (s_reactor s) (s_q s) v (s_called s).
Definition on_file {X} (m : M F X) : AM X := fun s =>
  match m (s_file s) with Some (x, f) => Some (x, mk_ast F W f (s_reactor s) (s_q s) (s_reqs s) (s_called s)) | None => None end.
Definition on_reactor {X} (m : M (rst W) X) : AM X := fun s =>
  match m (s_reactor s) with Some (x, r) => Some (x, mk_ast F W (s_file s) r (s_q s) (s_reqs s) (s_called s)) | None => None end.
Definition get_q : AM aio_queue := mgets s_q.
Definition upd_q (f : aio_queue -> aio_queue) : AM unit := mmodify (fun s => set_q (f (s_q s)) s).
Definition get_areq (a : Z) : AM aio_req := fun s => mlift (s_reqs s !! a) s.
Definition upd_areq (a : Z) (f : aio_req -> aio_req) : AM unit :=
  v ← get_areq a; mmodify (fun s => set_reqs (<[ a := f v ]> (s_reqs s)) s).

(** ** Queues *)

(** src/nvfuse_aio.c: nvfuse_aio_queue_init; a task that could not be had is not
    noticed. *)
Definition nvfuse_aio_queue_init (max_depth : Z) : AM Z :=
  let depth := if NVFUSE_MAX_AIO_DEPTH <? max_depth then NVFUSE_MAX_AIO_DEPTH else max_depth in
  t ← on_reactor (reactor_alloc_task (depth * 2));
  upd_q (fun _ => mk_aioq [] 0 depth [] 0 depth NVFUSE_MAX_AIO_COMPLETION 0 t);;
  mret 0.

(** src/nvfuse_aio.c: nvfuse_aio_queue_enqueue *)
Definition nvfuse_aio_queue_enqueue (areq qtype : Z) : AM Z :=
  upd_areq areq (set_status qtype);;
  q ← get_q;
  if qtype =? NVFUSE_SUBMISSION_QUEUE then
    if asq_cur_depth q =? asq_max_depth q then mret (-1)
    else upd_q (fun q => set_asq (asq_head q ++ [areq]) (asq_cur_depth q + 1) q);; mret 0
  else if qtype =? NVFUSE_COMPLETION_QUEUE then
    if acq_cur_depth q =? acq_max_depth q then mret (-1)
    else upd_q (fun q => set_acq (acq_head q ++ [areq]) (acq_cur_depth q + 1) q);; mret 0
  else mret (-1).

(** list_del of a request that is in the list *)
Definition list_del (areq : Z) (l : list Z) : list Z := filter (fun x => x <> areq) l.

(** src/nvfuse_aio.c: nvfuse_aio_queue_dequeue *)
Definition nvfuse_aio_queue_dequeue (areq qtype : Z) : AM Z :=
  q ← get_q;
  if qtype =? NVFUSE_SUBMISSION_QUEUE then
    massert (bool_decide (areq ∈ asq_head q));;
    upd_q (fun q => set_asq (list_del areq (asq_head q)) (asq_cur_depth q - 1) q);;
    massert (0 <=? asq_cur_depth q - 1);;
    mret 0
  else if qtype =? NVFUSE_COMPLETION_QUEUE then
    massert (bool_decide (areq ∈ acq_head q));;
    upd_q (fun q => set_acq (list_del areq (acq_head q)) (acq_cur_depth q - 1) q);;
    massert (0 <=? acq_cur_depth q - 1);;
    mret 0
  else mret (-1).

(** src/nvfuse_aio.c: nvfuse_aio_queue_move *)
Definition nvfuse_aio_queue_move (areq qtype : Z) : AM Z :=
  a ← get_areq areq;
  res ← nvfuse_aio_queue_dequeue areq (q_status a);
  if negb (res =? 0) then mret res else nvfuse_aio_queue_enqueue areq qtype.

(** src/nvfuse_aio.c: nvfuse_aio_gen_dev_cpls: the result of the queue is not
    looked at. *)
Definition nvfuse_aio_gen_dev_cpls (areq : Z) : AM unit :=
  nvfuse_aio_queue_enqueue areq NVFUSE_COMPLETION_QUEUE;; mret tt.

(** ** Submission *)

(** The loop of nvfuse_aio_gen_dev_reqs: [None] is a block that is not there.
    Every round fills a job and there is none behind the last, so that their
    number bounds the rounds. *)
Fixpoint gen_jobs (fuel : nat) (areq : Z) (a : aio_req) (jobs : list Z) (start length count job_count : Z) : AM (option (Z * Z)) :=
  match fuel with
  | O => mabort
  | S fuel =>
      if length =? 0 then mret (Some (count, job_count))
      else
        let lblk := s32 (Z.quot start CLUSTER_SIZE) in
        let max_blocks := s32 (Z.quot length CLUSTER_SIZE) in
        '(pblk, num_alloc) ← on_file (af_fgetblk (q_fid a) lblk max_blocks);
        if pblk <? 0 then mret None
        else
          job ← mlift (aget jobs job_count);
          on_reactor (upd_job job (fun j =>
            mk_job (pblk * CLUSTER_SIZE) (s32 (num_alloc * CLUSTER_SIZE))
              (if q_opcode a =? READ then SPDK_BDEV_IO_TYPE_READ else SPDK_BDEV_IO_TYPE_WRITE)
              (q_buf a + count * CLUSTER_SIZE) 1 0 (j_task j) 0 areq));;
          gen_jobs fuel areq a jobs (start + u32 (num_alloc * CLUSTER_SIZE)) (length - u32 (num_alloc * CLUSTER_SIZE))
            (s32 (count + num_alloc)) (job_count + 1)
  end.

(** src/nvfuse_aio.c: nvfuse_aio_gen_dev_reqs; a NULL task is dereferenced. *)
Definition nvfuse_aio_gen_dev_reqs (areq : Z) : AM Z :=
  a ← get_areq areq;
  massert (negb (q_jobs a =? 0));;
  jobs ← on_reactor (nvfuse_make_jobs (q_jobs a));
  r ← gen_jobs (S (S (length jobs))) areq a jobs (q_offset a) (q_bytes a) 0 0;
  match r with
  | None => mret (-1)
  | Some (count, job_count) =>
      (if job_count <? q_jobs a then on_reactor (nvfuse_release_jobs (drop (Z.to_nat job_count) jobs)) else mret tt);;
      massert (job_count <=? count);;
      massert (count =? q_jobs a);;
      q ← get_q;
      t ← mlift (aio_task q);
      res ← on_reactor (reactor_submit_reqs t (take (Z.to_nat job_count) jobs));
      if res <? 0 then mret (-1)
      else
        upd_q (fun q => set_total (total_bio_job_count q + job_count) q);;
        upd_areq areq (set_q_jobs job_count);;
        mret 0
  end.

(** The loop of nvfuse_aio_queue_submission *)
Fixpoint submit_queue (l : list Z) : AM Z :=
  match l with
  | [] => mret 0
  | areq :: l =>
      a ← get_areq areq;
      d ← on_file (af_is_directio (q_fid a));
      massert (negb (d =? 0));;
      upd_areq areq (set_q_jobs (NVFUSE_SIZE_TO_BLK (q_bytes a)));;
      res ← nvfuse_aio_gen_dev_reqs areq;
      if res <? 0 then mret (-1)
      else nvfuse_aio_queue_dequeue areq NVFUSE_SUBMISSION_QUEUE;; submit_queue l
  end.

(** src/nvfuse_aio.c: nvfuse_aio_queue_submission *)
Definition nvfuse_aio_queue_submission (areq : Z) : AM Z :=
  a ← get_areq areq;
  d ← on_file (af_is_directio (q_fid a));
  massert (negb (d =? 0));;
  bytes ← (if q_opcode a =? READ then on_file (af_read (q_fid a) (s32 (q_bytes a)) (q_offset a))
           else on_file (af_write (q_fid a) (u32 (q_bytes a)) (q_offset a)));
  if u32 bytes =? q_bytes a then
    nvfuse_aio_queue_enqueue areq NVFUSE_SUBMISSION_QUEUE;;
    q ← get_q;
    submit_queue (asq_head q)
  else mret (-1).

(** ** Completion *)

(** A completed job is counted; with the last one of a request the request is
    complete. *)
Fixpoint complete_jobs (jobs : list Z) : AM unit :=
  match jobs with
  | [] => mret tt
  | job :: jobs =>
      on_reactor (upd_job job (set_complete 1));;
      j ← on_reactor (get_job job);
      let areq := j_tag1 j in
      upd_areq areq (fun a => set_q_jobs (q_jobs a - 1) a);;
      (if negb (j_ret j =? 0) then upd_areq areq (set_error (-1)) else mret tt);;
      a ← get_areq areq;
      (if q_jobs a =? 0 then
         d ← on_file (af_is_directio (q_fid a));
         massert (negb (d =? 0));;
         nvfuse_aio_gen_dev_cpls areq
       else mret tt);;
      complete_jobs jobs
  end.

(** src/nvfuse_aio.c: nvfuse_aio_wait_dev_cpls, with the array of AIO_MAX_QDEPTH
    jobs *)
Definition nvfuse_aio_wait_dev_cpls (min_nr nr : Z) : AM Z :=
  q ← get_q;
  t ← mlift (aio_task q);
  jobs ← on_reactor (reactor_cq_get_reqs bdev_rc bdev_io pick t min_nr nr);
  jobs ← mlift (mapM id jobs);
  let cc := Z.of_nat (length jobs) in
  massert (cc <=? AIO_MAX_QDEPTH);;
  upd_q (fun q => set_total (total_bio_job_count q - cc) q);;
  complete_jobs jobs;;
  on_reactor (nvfuse_release_jobs jobs);;
  mret cc.

(** [while (aioq->acq_cur_depth < aioq->max_completions)]: a round waits for all
    jobs under way; when there are none left it returns at once, and the loop
    never ends. *)
Fixpoint wait_completions (fuel : nat) : AM unit :=
  q ← get_q;
  if acq_cur_depth q <? max_completions q then
    match fuel with
    | O => mabort
    | S fuel => nvfuse_aio_wait_dev_cpls (total_bio_job_count q) (total_bio_job_count q);; wait_completions fuel
    end
  else mret tt.

(** Takes a request out of the completion queue. *)
Definition take_completion (areq : Z) : AM unit :=
  a ← get_areq areq;
  massert (q_jobs a =? 0);;
  nvfuse_aio_queue_dequeue areq (q_status a);;
  mret tt.
Fixpoint call_back (l : list Z) : AM unit :=
  match l with
  | [] => mret tt
  | areq :: l =>
      take_completion areq;;
      mmodify (fun s => mk_ast F W (s_file s) (s_reactor s) (s_q s) (s_reqs s) (s_called s ++ [areq]));;
      call_back l
  end.

(** src/nvfuse_aio.c: nvfuse_aio_queue_completion *)
Definition nvfuse_aio_queue_completion : AM Z :=
  wait_completions 1;;
  q ← get_q;
  call_back (acq_head q);;
  mret 0.

(** src/nvfuse_aio.c: nvfuse_io_submit: the result is that of the last request. *)
Fixpoint io_submit_loop (l : list Z) (ret : Z) : AM Z :=
  match l with
  | [] => mret ret
  | areq :: l => ret ← nvfuse_aio_queue_submission areq; io_submit_loop l ret
  end.
Definition nvfuse_io_submit (l : list Z) : AM Z := io_submit_loop l 0.

(** src/nvfuse_aio.c: nvfuse_io_getevents: the requests that are written to
    [list] *)
Fixpoint getevents_loop (l : list Z) (nr idx : Z) : AM (list Z) :=
  match l with
  | [] => mret []
  | areq :: l =>
      take_completion areq;;
      if idx + 1 =? nr then mret [areq] else rest ← getevents_loop l nr (idx + 1); mret (areq :: rest)
  end.
Definition nvfuse_io_getevents (min_nr nr : Z) : AM (list Z) :=
  nvfuse_aio_wait_dev_cpls min_nr nr;;
  q ← get_q;
  getevents_loop (acq_head q) nr 0.

End ops.
End Aio.

(** * Rules *)
Module AioSpec.
Import ReactorSpec ReactorRun ReactorKept ReactorCalls Aio.

Section spec.
Context {F W : Type} `{AioFile F} (bdev_rc : io_job -> W -> Z) (bdev_io : io_job -> W -> bool * W) (pick : list Z -> nat).
Context (rc_ok : forall j w, bdev_rc j w = 0) (io_ok : forall j w, (bdev_io j w).1 = true).
Context (pick_ok : forall l, l <> [] -> (pick l < length l)%nat).
Implicit Types (s : ast F W) (A : areactor (W := W)) (r : rst W) (f : F) (t x id : Z).

Definition put_file f s : ast F W := mk_ast F W f (s_reactor s) (s_q s) (s_reqs s) (s_called s).
Definition put_reactor r s : ast F W := mk_ast F W (s_file s) r (s_q s) (s_reqs s) (s_called s).
Definition put_called l s : ast F W := mk_ast F W (s_file s) (s_reactor s) (s_q s) (s_reqs s) l.

Lemma wp_on_file {X} (m : M F X) (Q : X -> ast F W -> Prop) s : wp m (fun y f => Q y (put_file f s)) (s_file s) -> wp (on_file m) Q s.
Proof. unfold wp, on_file. by destruct (m (s_file s)) as [[x f]|]. Qed.
Lemma wp_on_reactor {X} (m : M (rst W) X) (Q : X -> ast F W -> Prop) s : wp m (fun y r => Q y (put_reactor r s)) (s_reactor s) -> wp (on_reactor m) Q s.
Proof. unfold wp, on_reactor. by destruct (m (s_reactor s)) as [[x r]|]. Qed.
Lemma wp_get_areq id a (Q : aio_req -> ast F W -> Prop) s : s_reqs s !! id = Some a -> Q a s -> wp (get_areq id) Q s.
Proof. intros E HQ. unfold wp, get_areq. by rewrite E. Qed.
Lemma wp_upd_areq id a g (Q : unit -> ast F W -> Prop) s :
  s_reqs s !! id = Some a -> Q tt (set_reqs (<[ id := g a ]> (s_reqs s)) s) -> wp (upd_areq id g) Q s.
Proof. intros E HQ. unfold upd_areq. wp_step. by eapply wp_get_areq. Qed.
Lemma wp_get_q (Q : aio_queue -> ast F W -> Prop) s : Q (s_q s) s -> wp get_q Q s.
Proof. done. Qed.

(** ** Requests under way *)

(** The requests that the jobs of the task [t] belong to *)
Definition tags A (xs : list Z) : list Z := omap (fun x => j_tag1 <$> a_job A !! x) xs.
Definition count id (l : list Z) : Z := Z.of_nat (length (filter (fun i => i = id) l)).

Lemma count_cons id i l : count id (i :: l) = (if decide (i = id) then 1 else 0) + count id l.
Proof. unfold count. rewrite filter_cons. case_decide; simpl length; lia. Qed.
Lemma count_nonneg id l : 0 <= count id l.
Proof. unfold count. lia. Qed.
Lemma count_zero id l : count id l = 0 <-> id ∉ l.
Proof.
  unfold count. split.
  - intros Hc Hin. assert (id ∈ filter (fun i => i = id) l) as Hf by (by apply list_elem_of_filter). destruct (filter _ l); [by apply not_elem_of_nil in Hf|simpl in Hc; lia].
  - intros Hn. destruct (filter (fun i => i = id) l) as [|y l'] eqn:E; [done|]. exfalso. apply Hn.
    assert (y ∈ filter (fun i => i = id) l) as Hy by (rewrite E; apply elem_of_cons; by left). apply list_elem_of_filter in Hy as [-> Hy]. done.
Qed.
Lemma count_perm id l l' : l ≡ₚ l' -> count id l = count id l'.
Proof. intros P. unfold count. by rewrite P. Qed.

(** ** The file calls

    [af_file f fid m n]: the descriptor [fid] is open for direct I/O on a file
    whose [n] blocks lie at [m]. *)
Class AioFileLaws := {
  af_file : F -> Z -> (Z -> Z) -> Z -> Prop;
  al_directio f fid m n : af_file f fid m n ->
    wp (af_is_directio fid) (fun d f' => d <> 0 /\ forall fid' m' n', af_file f fid' m' n' -> af_file f' fid' m' n') f;
  al_read f fid m n off count : af_file f fid m n -> 0 <= off -> 0 < count < 2 ^ 31 -> off + count <= n * CLUSTER_SIZE -> count mod CLUSTER_SIZE = 0 ->
    wp (af_read fid count off) (fun c f' => c = count /\ forall fid' m' n', af_file f fid' m' n' -> af_file f' fid' m' n') f;
  al_write f fid m n off count : af_file f fid m n -> 0 <= off -> 0 < count < 2 ^ 31 -> off + count <= n * CLUSTER_SIZE -> count mod CLUSTER_SIZE = 0 ->
    wp (af_write fid count off) (fun c f' => c = count /\ forall fid' m' n', af_file f fid' m' n' -> af_file f' fid' m' n') f;
  al_fgetblk f fid m n lb max : af_file f fid m n -> 0 <= lb -> 1 <= max -> lb + max <= n ->
    wp (af_fgetblk fid lb max) (fun (pk : Z * Z) f' => 0 <= pk.1 /\ 1 <= pk.2 <= max /\ (forall i, 0 <= i < pk.2 -> m (lb + i) = pk.1 + i) /\
      forall fid' m' n', af_file f fid' m' n' -> af_file f' fid' m' n') f }.
Context `{AioFileLaws}.

Definition files_kept f f' : Prop := forall fid m n, af_file f fid m n -> af_file f' fid m n.
Definition opened f fid : Prop := exists m n, af_file f fid m n.
Lemma opened_kept f f' fid : files_kept f f' -> opened f fid -> opened f' fid.
Proof. intros K (m & n & Hf). exists m, n. by apply K. Qed.
Lemma files_kept_trans f1 f2 f3 : files_kept f1 f2 -> files_kept f2 f3 -> files_kept f1 f3.
Proof. intros K1 K2 fid m n Hf. by apply K2, K1. Qed.

(** The queue between two calls: [t] is its task; the completion queue is empty,
    and a request counts its jobs that are under way. *)
Record aio_ok s A t : Prop := {
  ao_ready : ready (s_reactor s) A;
  ao_lcore : lcore (s_reactor s) = REACTOR_LCORE;
  ao_task : aio_task (s_q s) = Some t;
  ao_depth : is_Some (a_depth A !! t);
  ao_queues : asq_head (s_q s) = [] /\ asq_cur_depth (s_q s) = 0 /\ acq_head (s_q s) = [] /\ acq_cur_depth (s_q s) = 0;
  ao_max : max_completions (s_q s) = NVFUSE_MAX_AIO_COMPLETION /\ 0 < asq_max_depth (s_q s);
  ao_total : total_bio_job_count (s_q s) = load A t;
  ao_tag : forall x, x ∈ content A t -> is_Some (a_job A !! x);
  ao_req : forall id, id ∈ tags A (content A t) -> exists a, s_reqs s !! id = Some a /\ q_jobs a = count id (tags A (content A t)) /\ opened (s_file s) (q_fid a);
  ao_once : NoDup (content A t ++ job_pool (s_reactor s));
  ao_pool : forall x, x ∈ job_pool (s_reactor s) -> is_Some (r_jobs (s_reactor s) !! x) /\ away A x;
  ao_room : Z.of_nat (size (list_to_set (tags A (content A t)) : gset Z)) <= acq_max_depth (s_q s) }.

(** ** Counting completed jobs *)

(** The reactor changed in jobs [ys] only, which nobody waits for. *)
Definition jobs_changed (ys : list Z) r r' : Prop :=
  kept r r' /\ forall A, ready r A -> (forall x, x ∈ ys -> away A x) -> ready r' A.

Lemma jobs_changed_cons x ys r1 r2 r3 : jobs_changed (x :: ys) r1 r2 -> jobs_changed ys r2 r3 -> jobs_changed (x :: ys) r1 r3.
Proof.
  intros [K1 R1] [K2 R2]. split; [by transitivity r2|]. intros A Rd Haw. apply R2; [by apply R1|]. intros y Hy. apply Haw, elem_of_cons. by right.
Qed.

Lemma enqueue_completion_wp id a (Q : unit -> ast F W -> Prop) s : s_reqs s !! id = Some a -> acq_cur_depth (s_q s) < acq_max_depth (s_q s) ->
  Q tt (set_q (set_acq (acq_head (s_q s) ++ [id]) (acq_cur_depth (s_q s) + 1) (s_q s)) (set_reqs (<[ id := set_status NVFUSE_COMPLETION_QUEUE a ]> (s_reqs s)) s)) ->
  wp (nvfuse_aio_gen_dev_cpls id) Q s.
Proof.
  intros Ha Hd HQ. unfold nvfuse_aio_gen_dev_cpls, nvfuse_aio_queue_enqueue. wp_step. wp_step. eapply wp_upd_areq; [exact Ha|].
  wp_step. apply wp_get_q. cbn [set_reqs s_q]. change (NVFUSE_COMPLETION_QUEUE =? NVFUSE_SUBMISSION_QUEUE) with false.
  change (NVFUSE_COMPLETION_QUEUE =? NVFUSE_COMPLETION_QUEUE) with true. cbn iota. rewrite (proj2 (Z.eqb_neq _ _)) by lia. wp_steps. exact HQ.
Qed.

Definition distinct (l : list Z) : Z := Z.of_nat (size (list_to_set l : gset Z)).
Lemma distinct_cons_in id l : id ∈ l -> distinct (id :: l) = distinct l.
Proof. intros Hin. unfold distinct. do 2 f_equal. set_solver. Qed.
Lemma distinct_cons_new id l : id ∉ l -> distinct (id :: l) = 1 + distinct l.
Proof. intros Hn. unfold distinct. cbn [list_to_set]. rewrite size_union by set_solver. rewrite size_singleton. lia. Qed.

Record counted (T : Z -> Z) ys (L : list Z) s : Prop := {
  ct_job : forall x, x ∈ ys -> exists j, r_jobs (s_reactor s) !! x = Some j /\ j_ret j = 0 /\ j_tag1 j = T x;
  ct_req : forall id, id ∈ T <$> ys -> exists a, s_reqs s !! id = Some a /\ q_jobs a = count id (T <$> ys) /\ opened (s_file s) (q_fid a);
  ct_acq : acq_head (s_q s) = L /\ acq_cur_depth (s_q s) = len L;
  ct_new : forall id, id ∈ L -> id ∉ T <$> ys;
  ct_room : len L + distinct (T <$> ys) <= acq_max_depth (s_q s) }.

Lemma complete_jobs_wp T ys : forall L s, counted T ys L s -> NoDup L ->
  wp (complete_jobs ys) (fun _ s' => exists L', s_q s' = set_acq (L ++ L') (len (L ++ L')) (s_q s) /\ NoDup (L ++ L') /\
    (forall id, id ∈ L' <-> id ∈ T <$> ys) /\ (forall id, id ∈ L' -> exists a, s_reqs s' !! id = Some a /\ q_jobs a = 0 /\ q_status a = NVFUSE_COMPLETION_QUEUE) /\
    (forall id, id ∉ T <$> ys -> s_reqs s' !! id = s_reqs s !! id) /\ s_called s' = s_called s /\ files_kept (s_file s) (s_file s') /\
    jobs_changed ys (s_reactor s) (s_reactor s')) s.
Proof.
  induction ys as [|x ys IH]; intros L s [C1 C2 [C3 C3'] C4 C5] Hnd; cbn [complete_jobs].
  - wp_step. exists []. rewrite app_nil_r. split_and!; try done.
    + destruct (s_q s). cbn in *. by subst.
    + intros id Hid. by apply not_elem_of_nil in Hid.
    + by intros fid m n Hf.
  - destruct (C1 x) as (j & Hj & Hr & Ht); [apply elem_of_cons; by left|]. destruct (C2 (T x)) as (a & Ha & Hc & Ho); [apply elem_of_cons; by left|].
    wp_step. apply wp_on_reactor. eapply wp_upd_job; [exact Hj|]. wp_step. apply wp_on_reactor.
    eapply wp_get_job; [cbn; apply lookup_insert_eq|]. cbv zeta. cbn [set_complete j_tag1 j_ret]. rewrite Ht, Hr.
    wp_step. eapply wp_upd_areq; [exact Ha|]. cbn beta. change (negb (0 =? 0)) with false. cbn iota. wp_step. wp_step. wp_step.
    eapply wp_get_areq; [apply lookup_insert_eq|]. cbn [set_q_jobs q_jobs]. cbn [fmap list_fmap] in *. rewrite count_cons, decide_True in Hc by done.
    set (s1 := set_reqs _ _).
    assert (jobs_changed (x :: ys) (s_reactor s) (s_reactor s1)) as J1.
    { split.
      - pose proof (keeps_upd (W := W) x (set_complete 1)) as Hk. eapply Hk. unfold upd_job, mbind, M_bind, get_job, mlift. rewrite Hj. done.
      - intros A Rd Haw. apply ready_job; [done|]. apply Haw, elem_of_cons. by left. }
    assert (forall y, y ∈ ys -> exists j, r_jobs (s_reactor s1) !! y = Some j /\ j_ret j = 0 /\ j_tag1 j = T y) as D1.
    { intros y Hy. cbn. destruct (decide (x = y)) as [<-|Hxy]; [rewrite lookup_insert_eq; by exists (set_complete 1 j)|].
      rewrite lookup_insert_ne by done. apply C1, elem_of_cons. by right. }
    destruct (Z.eqb_spec (q_jobs a - 1) 0) as [Hz|Hz].
    + assert (T x ∉ T <$> ys) as Hnew by (apply count_zero; lia). destruct Ho as (m & n & Hf).
      wp_step. wp_step. apply wp_on_file. eapply wp_mono; [by apply (al_directio _ _ m n)|]. intros d f' [Hd Kf]. cbn beta.
      wp_step. apply wp_assert; [lia|]. rewrite distinct_cons_new in C5 by done. pose proof (Nat2Z.is_nonneg (size (list_to_set (T <$> ys) : gset Z))) as Hsz.
      eapply enqueue_completion_wp; [apply lookup_insert_eq|cbn; rewrite C3'; unfold distinct in C5; lia|]. cbn [put_file s_q s_reqs set_reqs].
      set (s2 := set_q _ _). eapply wp_mono; [apply (IH (L ++ [T x]) s2)|].
      * split.
        -- exact D1.
        -- intros id Hid. assert (T x <> id) as Hne by (by intros <-). destruct (C2 id) as (a' & Ha' & Hc' & Ho'); [apply elem_of_cons; by right|].
           exists a'. cbn. rewrite !lookup_insert_ne by done. split; [done|]. rewrite Hc', count_cons, decide_False by done. split; [lia|]. by eapply opened_kept.
        -- cbn. rewrite C3, C3'. unfold len. rewrite length_app. simpl length. split; [done|lia].
        -- intros id [Hid| ->%list_elem_of_singleton]%elem_of_app; [|done]. intros Hid'. apply (C4 id Hid). apply elem_of_cons. by right.
        -- cbn. rewrite qlen_app. change (len [T x]) with 1. lia.
      * apply NoDup_app. split_and!; [done| |apply NoDup_singleton]. intros id Hid ->%list_elem_of_singleton. apply (C4 _ Hid), elem_of_cons. by left.
      * intros _ s' (L' & Eq & Hnd' & HL & Hst & Hk & Ec & Kf' & J'). exists (T x :: L'). rewrite <- app_assoc in *. cbn [app] in *.
        split_and!; [|done| | | |done| |].
        -- rewrite Eq. cbn. by destruct (s_q s).
        -- intros id. by rewrite !elem_of_cons, HL.
        -- intros id [->|Hid]%elem_of_cons; [|by apply Hst]. rewrite Hk by done. cbn. rewrite lookup_insert_eq. eexists. split; [done|]. cbn. split; [lia|done].
        -- intros id [Hne Hid]%not_elem_of_cons. rewrite Hk by done. cbn. by rewrite !lookup_insert_ne by done.
        -- by eapply files_kept_trans.
        -- by apply (jobs_changed_cons x ys _ (s_reactor s1)).
    + assert (T x ∈ T <$> ys) as Hold by (apply dec_stable; intros Hn; apply count_zero in Hn; lia).
      wp_step. wp_step. eapply wp_mono; [apply (IH L s1)|].
      * split.
        -- exact D1.
        -- intros id Hid. cbn. destruct (decide (T x = id)) as [<-|Hne].
           ++ rewrite lookup_insert_eq. eexists. split; [done|]. cbn. split; [lia|done].
           ++ rewrite lookup_insert_ne by done. destruct (C2 id) as (a' & Ha' & Hc' & Ho'); [apply elem_of_cons; by right|].
              exists a'. split; [done|]. rewrite Hc', count_cons, decide_False by done. split; [lia|done].
        -- done.
        -- intros id Hid Hid'. apply (C4 id Hid), elem_of_cons. by right.
        -- by rewrite distinct_cons_in in C5.
      * done.
      * intros _ s' (L' & Eq & Hnd' & HL & Hst & Hk & Ec & Kf' & J'). exists L'. split_and!; try done.
        -- intros id. rewrite elem_of_cons, HL. split; [by right|]. by intros [->|?].
        -- intros id [Hne Hid]%not_elem_of_cons. rewrite Hk by done. cbn. by rewrite lookup_insert_ne by done.
        -- by apply (jobs_changed_cons x ys _ (s_reactor s1)).
Qed.

(** ** Waiting for all that is under way *)

Definition tag_of A x : Z := default 0 (j_tag1 <$> a_job A !! x).
Lemma tags_fmap A xs : (forall x, x ∈ xs -> is_Some (a_job A !! x)) -> tags A xs = tag_of A <$> xs.
Proof.
  induction xs as [|x xs IH]; intros Hx; [done|]. destruct (Hx x) as [j Hj]; [apply elem_of_cons; by left|].
  unfold tags, tag_of in *. cbn. rewrite Hj. cbn. f_equal. apply IH. intros y Hy. apply Hx, elem_of_cons. by right.
Qed.

Lemma tags_perm A xs ys : xs ≡ₚ ys -> tags A xs ≡ₚ tags A ys.
Proof. intros P. unfold tags. by rewrite P. Qed.

(** A job is under way for one task only. *)
Lemma content_task r A t x : rep r A -> x ∈ content A t -> is_Some (r_jobs r !! x) /\ exists j, a_job A !! x = Some j /\ j_task j = t.
Proof.
  intros R Hx. unfold content, pending in Hx. rewrite !elem_of_app in Hx. destruct Hx as [[Hx|Hx]|Hx].
  - destruct (rp_sq_job _ _ R _ _ Hx) as [_ (j & ? & ? & ? & _)]. split; by eexists.
  - unfold of_task in Hx. apply list_elem_of_fmap in Hx as ([y u] & -> & Hp). apply list_elem_of_filter in Hp as [<- Hp].
    destruct (rp_fl_job _ _ R _ _ Hp) as [_ (j & ? & ? & ? & _)]. split; by eexists.
  - destruct (rp_cq_job _ _ R _ _ Hx) as (j & ? & ? & ? & _). split; by eexists.
Qed.

Lemma wait_all_wp s A t : aio_ok s A t -> 0 < load A t <= AIO_MAX_QDEPTH ->
  wp (nvfuse_aio_wait_dev_cpls bdev_rc bdev_io pick (load A t) (load A t)) (fun _ s' => exists A' L,
    ready (s_reactor s') A' /\ lcore (s_reactor s') = REACTOR_LCORE /\ content A' t = [] /\ (forall u, u <> t -> content A' u ≡ₚ content A u) /\
    a_depth A' = a_depth A /\ s_q s' = set_acq L (len L) (set_total 0 (s_q s)) /\ NoDup L /\
    (forall id, id ∈ L <-> id ∈ tags A (content A t)) /\ (forall id, id ∈ L -> exists a, s_reqs s' !! id = Some a /\ q_jobs a = 0 /\ q_status a = NVFUSE_COMPLETION_QUEUE) /\
    s_called s' = s_called s /\ job_pool (s_reactor s') ≡ₚ content A t ++ job_pool (s_reactor s) /\
    (forall x, x ∈ job_pool (s_reactor s') -> is_Some (r_jobs (s_reactor s') !! x) /\ away A' x)) s.
Proof.
  intros [Rd Hlc Ht [d Hd] (Q1 & Q2 & Q3 & Q4) [Qm Qx] Htot Htag Hreq Honce Hpool Hroom] Hl. unfold nvfuse_aio_wait_dev_cpls.
  wp_step. apply wp_get_q. wp_step. eapply wp_lift; [exact Ht|]. wp_step. apply wp_on_reactor.
  pose proof (rp_load _ _ (proj1 Rd) _ _ Hd) as Hld.
  eapply wp_mono; [apply wp_keeps; [apply keeps_cq_get_reqs|]; eapply (cq_get_reqs_wp bdev_rc bdev_io pick rc_ok io_ok pick_ok _ A t d (load A t) (load A t)); try done; lia|].
  intros r0 r1 [(A1 & xs & ys & Rd1 & G & -> & Hy & Hjs) K]. cbn beta.
  pose proof (gone_content _ _ _ _ _ _ G) as Hg.
  assert (content A1 t = []) as Hc1.
  { apply nil_length_inv. apply Permutation_length in Hg. rewrite length_app in Hg. rewrite load_content in Hy. unfold len in Hy. lia. }
  rewrite Hc1, app_nil_r in Hg. wp_step. eapply wp_lift; [apply mapM_some|]. fold (len ys). cbv zeta.
  wp_step. apply wp_assert; [lia|]. wp_step. unfold upd_q. wp_step. wp_step.
  assert (tags A (content A t) ≡ₚ tag_of A <$> ys) as Htags.
  { rewrite (tags_perm A _ _ Hg). rewrite tags_fmap; [done|]. intros x Hx. apply Htag. by rewrite Hg. }
  assert (forall x, x ∈ ys -> away A1 x) as Haw.
  { intros x Hx u Hxu. destruct (decide (u = t)) as [->|Hu]; [rewrite Hc1 in Hxu; by apply not_elem_of_nil in Hxu|].
    rewrite <- (gone_other _ _ _ _ _ _ _ G Hu) in Hxu. rewrite <- Hg in Hx.
    destruct (content_task _ _ _ _ (proj1 Rd) Hx) as (_ & j & Hj & Hjt). destruct (content_task _ _ _ _ (proj1 Rd) Hxu) as (_ & j' & Hj' & Hjt'). congruence. }
  set (s1 := set_q _ _). eapply wp_mono; [apply (complete_jobs_wp (tag_of A) ys [] s1)|].
  { split; cbn [s1 set_q put_reactor s_reactor s_reqs s_q s_file].
    - intros x Hx. destruct (Hjs x Hx) as (j & Hj & Hj'). exists (set_ret 0 j). split; [done|]. split; [done|]. unfold tag_of. by rewrite Hj.
    - intros id Hid. rewrite <- Htags in Hid. destruct (Hreq id Hid) as (a & ? & Hc & ?). exists a. split_and!; try done. by rewrite Hc, (count_perm _ _ _ Htags).
    - cbn. by rewrite Q3, Q4.
    - intros id Hid. by apply not_elem_of_nil in Hid.
    - cbn. unfold distinct. change (len (@nil Z)) with 0. rewrite <- Htags. lia. }
  { constructor. }
  intros _ s2 (L & Eq & Hnd & HL & Hst & _ & Ec & Kf & [K2 J2]). cbn [app] in *. wp_step. apply wp_on_reactor. unfold nvfuse_release_jobs. wp_step. wp_step.
  cbn [s1 put_reactor set_q s_reactor s_q s_called s_reqs s_file set_job_pool job_pool lcore] in *.
  exists A1, L. split_and!; try done.
  - eapply ready_ext; [apply (J2 A1 Rd1 Haw)|done..].
  - rewrite (k_lcore _ _ K2), (k_lcore _ _ K). done.
  - intros u Hu. symmetry. by apply (gone_other _ _ _ _ _ _ _ G).
  - apply (go_depth _ _ _ _ _ _ G).
  - rewrite Eq. do 2 f_equal. rewrite Htot. lia.
  - intros id. by rewrite HL, Htags.
  - rewrite (k_jobs _ _ K2), (k_jobs _ _ K), Hg. done.
  - intros x Hx. rewrite (k_jobs _ _ K2), (k_jobs _ _ K) in Hx. apply elem_of_app in Hx as [Hx|Hx].
    + split; [|by apply Haw]. apply (k_job _ _ K2), (k_job _ _ K). apply (content_task _ A t); [apply Rd|]. by rewrite Hg.
    + destruct (Hpool x Hx) as [Hsome Hax]. split; [by apply (k_job _ _ K2), (k_job _ _ K)|]. intros u.
      destruct (decide (u = t)) as [->|Hu]; [rewrite Hc1; apply not_elem_of_nil|]. rewrite <- (gone_other _ _ _ _ _ _ _ G Hu). apply Hax.
Qed.

(** ** Callbacks *)

Lemma take_completion_wp id a l (Q : unit -> ast F W -> Prop) s : s_reqs s !! id = Some a -> q_jobs a = 0 -> q_status a = NVFUSE_COMPLETION_QUEUE ->
  acq_head (s_q s) = id :: l -> acq_cur_depth (s_q s) = len (id :: l) -> NoDup (id :: l) ->
  Q tt (set_q (set_acq l (len l) (s_q s)) s) -> wp (take_completion id) Q s.
Proof.
  intros Ha Hj Hs Hl Hn [Hnd _]%NoDup_cons HQ. unfold take_completion, nvfuse_aio_queue_dequeue. wp_step. eapply wp_get_areq; [exact Ha|].
  wp_step. apply wp_assert; [by rewrite Hj|]. rewrite Hs. wp_step. wp_step. apply wp_get_q.
  change (NVFUSE_COMPLETION_QUEUE =? NVFUSE_SUBMISSION_QUEUE) with false. change (NVFUSE_COMPLETION_QUEUE =? NVFUSE_COMPLETION_QUEUE) with true. cbn iota.
  wp_step. apply wp_assert; [apply bool_decide_true; rewrite Hl; apply elem_of_cons; by left|]. unfold upd_q. wp_steps.
  assert (list_del id (acq_head (s_q s)) = l) as Hdel.
  { unfold list_del. rewrite Hl, filter_cons, decide_False by (intros Hne; by apply Hne).
    clear -Hnd. induction l as [|y l IH]; [done|]. apply not_elem_of_cons in Hnd as [? ?]. rewrite filter_cons, decide_True by congruence. by rewrite IH. }
  rewrite len_cons in Hn. pose proof (len_nonneg l). apply wp_assert; [lia|]. wp_steps. rewrite Hdel, Hn. by replace (len l + 1 - 1) with (len l) by lia.
Qed.

Lemma call_back_wp l : forall s, acq_head (s_q s) = l -> acq_cur_depth (s_q s) = len l -> NoDup l ->
  (forall id, id ∈ l -> exists a, s_reqs s !! id = Some a /\ q_jobs a = 0 /\ q_status a = NVFUSE_COMPLETION_QUEUE) ->
  wp (call_back l) (fun _ s' => s' = put_called (s_called s ++ l) (set_q (set_acq [] 0 (s_q s)) s)) s.
Proof.
  induction l as [|id l IH]; intros s Hl Hn Hnd Hst; cbn [call_back].
  - wp_step. rewrite app_nil_r. destruct s as [? ? q ? ?]. cbn in *. destruct q. cbn in *. by subst.
  - destruct (Hst id) as (a & Ha & Hj & Hs); [apply elem_of_cons; by left|]. wp_step. eapply take_completion_wp; try done. wp_step. wp_step.
    eapply wp_mono; [apply IH|].
    + done.
    + done.
    + by apply NoDup_cons in Hnd as [_ ?].
    + intros id' Hid'. apply Hst, elem_of_cons. by right.
    + intros _ s' ->. unfold put_called, set_q. cbn. by rewrite <- app_assoc.
Qed.

Lemma completion_wp s A t : aio_ok s A t -> 0 < total_bio_job_count (s_q s) <= AIO_MAX_QDEPTH ->
  wp (nvfuse_aio_queue_completion bdev_rc bdev_io pick) (fun c s' => c = 0 /\ exists A' done, aio_ok s' A' t /\ content A' t = [] /\
    (forall u, u <> t -> content A' u ≡ₚ content A u) /\ s_called s' = s_called s ++ done /\ NoDup done /\
    (forall id, id ∈ done <-> id ∈ tags A (content A t)) /\ job_pool (s_reactor s') ≡ₚ content A t ++ job_pool (s_reactor s)) s.
Proof.
  intros Ok Hl. pose proof Ok as [Rd Hlc Ht [d Hd] (Q1 & Q2 & Q3 & Q4) [Qm Qx] Htot Htag Hreq Honce Hpool Hroom].
  unfold nvfuse_aio_queue_completion. cbn [wait_completions]. wp_step. wp_step. apply wp_get_q. rewrite Q4, Qm. change (0 <? NVFUSE_MAX_AIO_COMPLETION) with true. cbn iota.
  rewrite Htot in Hl |- *. wp_step. eapply wp_mono; [by apply (wait_all_wp s A t)|].
  intros _ s1 (A1 & L & Rd1 & Hlc1 & Hc1 & Ho1 & Hd1 & Eq & Hnd & HL & Hst & Ec & Hp & Haw1).
  assert (0 < len L) as HLn.
  { destruct L as [|id L]; [|rewrite len_cons; pose proof (len_nonneg L); lia]. exfalso. rewrite load_content in Hl.
    destruct (content A t) as [|x c] eqn:E; [unfold len in Hl; simpl in Hl; lia|]. destruct (Htag x) as [j Hj]; [apply elem_of_cons; by left|].
    apply (not_elem_of_nil (j_tag1 j)). apply HL. unfold tags. cbn. rewrite Hj. cbn. apply elem_of_cons. by left. }
  wp_step. apply wp_get_q. rewrite Eq. cbn [set_acq acq_cur_depth max_completions set_total]. rewrite Qm, (proj2 (Z.ltb_ge _ _)) by (unfold NVFUSE_MAX_AIO_COMPLETION; lia).
  wp_step. wp_step. apply wp_get_q. rewrite Eq. cbn [set_acq acq_head]. wp_step. eapply wp_mono; [apply (call_back_wp L s1); try done; by rewrite Eq|].
  intros _ s2 ->. wp_step. split; [done|]. exists A1, L. unfold put_called, set_q. cbn [s_reactor s_q s_called s_reqs s_file]. rewrite Eq, Ec. split_and!; try done.
  split; cbn [s_reactor s_q s_called s_reqs s_file set_acq set_total aio_task asq_head asq_cur_depth acq_head acq_cur_depth max_completions asq_max_depth acq_max_depth total_bio_job_count]; try done.
  - exists d. by rewrite Hd1.
  - rewrite load_content, Hc1. done.
  - intros x Hx. rewrite Hc1 in Hx. by apply not_elem_of_nil in Hx.
  - intros id Hid. rewrite Hc1 in Hid. by apply not_elem_of_nil in Hid.
  - rewrite Hc1, Hp. exact Honce.
  - rewrite Hc1. cbn. pose proof (Nat2Z.is_nonneg (size (list_to_set (tags A (content A t)) : gset Z))). rewrite size_empty. lia.
Qed.

(** ** Splitting a request *)

(** The pairs of a device block and a memory address that a job moves *)
Definition moves (j : io_job) : list (Z * Z) :=
  (fun i => (j_offset j / CLUSTER_SIZE + i, j_buf j + i * CLUSTER_SIZE)) <$> seqZ 0 (j_bytes j / CLUSTER_SIZE).
(** Those of blocks [lb], ... of a file that lies at [m] *)
Definition file_moves (m : Z -> Z) (lb buf n : Z) : list (Z * Z) := (fun i => (m (lb + i), buf + i * CLUSTER_SIZE)) <$> seqZ 0 n.

Lemma file_moves_app m lb buf c k p : 0 <= c -> 0 <= k -> (forall i, 0 <= i < k -> m (lb + c + i) = p + i) ->
  file_moves m lb buf (c + k) = file_moves m lb buf c ++ ((fun i => (p + i, buf + c * CLUSTER_SIZE + i * CLUSTER_SIZE)) <$> seqZ 0 k).
Proof.
  intros Hc Hk Hm. unfold file_moves. rewrite seqZ_app by lia. rewrite fmap_app. f_equal.
  rewrite <- (Z.add_0_r (0 + c)), <- fmap_add_seqZ, <- list_fmap_compose. apply list_fmap_ext. intros j i Hi.
  apply lookup_seqZ in Hi as [-> Hj]. cbn. f_equal; [rewrite <- Hm by lia; f_equal; lia|lia].
Qed.

Definition io_kind (a : aio_req) : Z := if q_opcode a =? READ then SPDK_BDEV_IO_TYPE_READ else SPDK_BDEV_IO_TYPE_WRITE.
(** A job of the request [id] *)
Definition job_of (id : Z) (a : aio_req) (j : io_job) : Prop := j_type j = io_kind a /\ j_tag1 j = id /\ j_iovcnt j = 1.
Definition jobs_of r id a (xs : list Z) (js : list io_job) : Prop := Forall2 (fun x j => r_jobs r !! x = Some j /\ job_of id a j) xs js.

Lemma job_of_ok id a j : job_of id a j -> job_ok j.
Proof. intros (Ht & _ & Hv). split; [lia|]. rewrite Ht. unfold io_kind. destruct (_ =? _); auto. Qed.

Lemma jobs_of_but r r' x j1 id a xs js : jobs_of r id a xs js -> x ∉ xs -> r_jobs r' = <[ x := j1 ]> (r_jobs r) -> jobs_of r' id a xs js.
Proof.
  intros Hf Hx E. induction Hf as [|y j xs js [Hy Hj] _ IH]; [constructor|]. apply not_elem_of_cons in Hx as [Hne Hx].
  constructor; [|by apply IH]. rewrite E, lookup_insert_ne by done. done.
Qed.

(** One round: the run of [k] blocks from [p] becomes job [x]. *)
Lemma job_moves m lb buf c n p k ty (j : io_job) id : 0 <= c -> 1 <= k <= n - c -> n <= AIO_MAX_QDEPTH -> (forall i, 0 <= i < k -> m (lb + c + i) = p + i) ->
  file_moves m lb buf (c + k) = file_moves m lb buf c ++
    moves (mk_job (p * CLUSTER_SIZE) (s32 (k * CLUSTER_SIZE)) ty (buf + c * CLUSTER_SIZE) 1 0 (j_task j) 0 id).
Proof.
  intros Hc Hk Hn Hm. unfold AIO_MAX_QDEPTH in Hn. rewrite (file_moves_app m lb buf c k p) by (done || lia). f_equal. unfold moves. cbn [j_offset j_buf j_bytes].
  unfold CLUSTER_SIZE. rewrite s32_small by lia. rewrite !Z.div_mul by done. done.
Qed.

Definition req_ok (a : aio_req) (l0 n : Z) : Prop := q_offset a = l0 * CLUSTER_SIZE /\ q_bytes a = n * CLUSTER_SIZE /\ 0 <= l0 /\ 1 <= n <= AIO_MAX_QDEPTH.

Lemma gen_jobs_wp fuel : forall s A id a m nb l0 n jobs c jc js, ready (s_reactor s) A -> af_file (s_file s) (q_fid a) m nb -> req_ok a l0 n -> l0 + n <= nb < 2 ^ 31 ->
  NoDup jobs -> len jobs = n -> (forall x, x ∈ jobs -> is_Some (r_jobs (s_reactor s) !! x) /\ away A x) ->
  0 <= jc <= c -> c <= n -> jobs_of (s_reactor s) id a (take (Z.to_nat jc) jobs) js -> concat (moves <$> js) = file_moves m l0 (q_buf a) c ->
  n - c < Z.of_nat fuel ->
  wp (gen_jobs fuel id a jobs ((l0 + c) * CLUSTER_SIZE) ((n - c) * CLUSTER_SIZE) c jc) (fun o s' => exists jc' js', o = Some (n, jc') /\ 0 <= jc' <= n /\
    jobs_of (s_reactor s') id a (take (Z.to_nat jc') jobs) js' /\ concat (moves <$> js') = file_moves m l0 (q_buf a) n /\
    ready (s_reactor s') A /\ kept (s_reactor s) (s_reactor s') /\ files_kept (s_file s) (s_file s') /\
    s_q s' = s_q s /\ s_reqs s' = s_reqs s /\ s_called s' = s_called s) s.
Proof.
  induction fuel as [|fuel IH]; intros s A id a m nb l0 n jobs c jc js Rd Hf Hq Hnb Hnd Hlen Hpool Hjc Hc Hjs Hmv Hfuel; [lia|].
  pose proof Hq as (_ & _ & Hl0 & Hn). unfold AIO_MAX_QDEPTH in Hn. cbn [gen_jobs]. destruct (Z.eqb_spec ((n - c) * CLUSTER_SIZE) 0) as [Hz|Hz].
  - assert (c = n) as -> by (unfold CLUSTER_SIZE in Hz; lia). wp_step. exists jc, js. split_and!; try done; try lia. by intros fid m' n' ?.
  - assert (c < n) as Hcn by (unfold CLUSTER_SIZE in Hz; lia). cbv zeta.
    rewrite !Z.quot_mul, (s32_small (l0 + c)), (s32_small (n - c)) by (unfold CLUSTER_SIZE; lia).
    wp_step. apply wp_on_file. eapply wp_mono; [apply (al_fgetblk _ _ m nb); [exact Hf|lia..]|]. intros [p k] f1 (Hp & Hk & Hm & Kf). cbn [fst snd] in *. cbn beta iota.
    rewrite (proj2 (Z.ltb_ge p 0)) by lia. assert (is_Some (jobs !! Z.to_nat jc)) as [x Hx] by (apply lookup_lt_is_Some; unfold len in Hlen; lia).
    wp_step. eapply wp_lift; [unfold aget; rewrite (proj2 (Z.leb_le 0 jc)) by lia; exact Hx|].
    destruct (Hpool x) as [[j0 Hj0] Hax]; [by eapply list_elem_of_lookup_2|].
    wp_step. apply wp_on_reactor. eapply wp_upd_job; [exact Hj0|]. cbn beta.
    set (j1 := mk_job _ _ _ _ _ _ _ _ _). set (s1 := put_reactor _ _).
    rewrite (u32_small (k * CLUSTER_SIZE)), (s32_small (c + k)) by (unfold CLUSTER_SIZE; lia).
    replace ((l0 + c) * CLUSTER_SIZE + k * CLUSTER_SIZE) with ((l0 + (c + k)) * CLUSTER_SIZE) by lia.
    replace ((n - c) * CLUSTER_SIZE - k * CLUSTER_SIZE) with ((n - (c + k)) * CLUSTER_SIZE) by lia.
    assert (kept (s_reactor s) (s_reactor s1)) as K1.
    { eapply (keeps_upd x (fun _ => j1)). unfold upd_job, mbind, M_bind, get_job, mlift. cbn. by rewrite Hj0. }
    assert (take (Z.to_nat (jc + 1)) jobs = take (Z.to_nat jc) jobs ++ [x]) as Htake.
    { rewrite Z2Nat.inj_add by lia. rewrite Nat.add_1_r. by apply take_S_r. }
    assert (x ∉ take (Z.to_nat jc) jobs) as Hnew.
    { pose proof Hnd as Hd. rewrite <- (take_drop (S (Z.to_nat jc)) jobs), (take_S_r _ _ _ Hx) in Hd. apply NoDup_app in Hd as [Hd _].
      apply NoDup_app in Hd as (_ & Hd & _). intros Hin. apply (Hd x Hin). by apply list_elem_of_singleton. }
    eapply wp_mono; [apply (IH s1 A id a m nb l0 n jobs (c + k) (jc + 1) (js ++ [j1])); try done; try lia|].
    + apply ready_job; [done|exact Hax].
    + by apply Kf.
    + intros y Hy. destruct (Hpool y Hy) as [Hs Ha]. split; [by apply (k_job _ _ K1)|done].
    + rewrite Htake. apply Forall2_app.
      * by apply (jobs_of_but (s_reactor s) _ x j1).
      * constructor; [|constructor]. split; [apply lookup_insert_eq|]. by split.
    + rewrite fmap_app, concat_app, Hmv. cbn. rewrite app_nil_r. symmetry. apply (job_moves m l0 (q_buf a) c n p k _ j0 id); try done; unfold AIO_MAX_QDEPTH; lia.
    + intros o s2 (jc' & js' & -> & Hjc' & Hjs' & Hmv' & Rd2 & K2 & Kf2 & E1 & E2 & E3). exists jc', js'. split_and!; try done; try lia.
      * by transitivity (s_reactor s1).
      * by eapply files_kept_trans.
Qed.

(** The jobs that were not needed go back. *)
Lemma release_rest_wp (b : bool) l (Q : unit -> ast F W -> Prop) s : (b = false -> l = []) ->
  Q tt (put_reactor (set_job_pool (l ++ job_pool (s_reactor s)) (s_reactor s)) s) ->
  wp (if b then on_reactor (nvfuse_release_jobs l) else mret tt) Q s.
Proof.
  intros Hb HQ. destruct b; [by apply wp_on_reactor|]. wp_step. rewrite Hb in HQ by done. cbn in HQ.
  destruct s as [? [] ? ? ?]. exact HQ.
Qed.

Definition jobs_in A id a (xs : list Z) (js : list io_job) : Prop := Forall2 (fun x j => a_job A !! x = Some j /\ job_of id a j) xs js.

Lemma jobs_submitted r t A id a xs js A' : jobs_of r id a xs js -> submitted t A xs (r_jobs r) A' ->
  exists js', jobs_in A' id a xs js' /\ moves <$> js' = moves <$> js.
Proof.
  intros Hf Su. exists (set_task t <$> js). split; [|by rewrite <- list_fmap_compose].
  pose proof (su_job _ _ _ _ _ Su) as Hsu. clear Su. induction Hf as [|x j xs js [Hx Hj] _ IH]; constructor.
  - split; [|done]. apply Hsu; [apply elem_of_cons; by left|done].
  - apply IH. intros y jy Hy. apply Hsu, elem_of_cons. by right.
Qed.

Lemma gen_dev_reqs_wp s A t d id a m nb l0 n : ready (s_reactor s) A -> lcore (s_reactor s) = REACTOR_LCORE -> aio_task (s_q s) = Some t -> a_depth A !! t = Some d ->
  load A t + n <= d - 1 -> s_reqs s !! id = Some a -> q_jobs a = n -> req_ok a l0 n -> af_file (s_file s) (q_fid a) m nb -> l0 + n <= nb < 2 ^ 31 ->
  n <= len (job_pool (s_reactor s)) -> NoDup (job_pool (s_reactor s)) -> (forall x, x ∈ job_pool (s_reactor s) -> is_Some (r_jobs (s_reactor s) !! x) /\ away A x) ->
  wp (nvfuse_aio_gen_dev_reqs id) (fun c s' => c = 0 /\ exists A' xs js jobs, ready (s_reactor s') A' /\ lcore (s_reactor s') = REACTOR_LCORE /\ submitted t A xs jobs A' /\
    jobs_in A' id a xs js /\ concat (moves <$> js) = file_moves m l0 (q_buf a) n /\ len xs <= n /\ xs ++ job_pool (s_reactor s') ≡ₚ job_pool (s_reactor s) /\
    (forall x, x ∈ job_pool (s_reactor s) -> is_Some (r_jobs (s_reactor s') !! x)) /\ s_q s' = set_total (total_bio_job_count (s_q s) + len xs) (s_q s) /\
    s_reqs s' = <[ id := set_q_jobs (len xs) a ]> (s_reqs s) /\ s_called s' = s_called s /\ files_kept (s_file s) (s_file s')) s.
Proof.
  intros Rd Hlc Ht Hd Hload Ha Hqj Hq Hf Hnb Hn Hnd Hpool. pose proof Hq as (Hoff & Hby & Hl0 & Hn1). unfold nvfuse_aio_gen_dev_reqs.
  set (pool := job_pool (s_reactor s)) in *. set (jobs := take (Z.to_nat n) pool). assert (jobs ++ drop (Z.to_nat n) pool = pool) as Hsplit by apply take_drop.
  assert (len jobs = n) as Hlj by (unfold jobs, len in *; rewrite length_take; lia).
  assert (NoDup jobs) as Hndj by (rewrite <- Hsplit in Hnd; by apply NoDup_app in Hnd as [? _]).
  wp_step. eapply wp_get_areq; [exact Ha|]. wp_step. apply wp_assert; [rewrite Hqj; lia|]. wp_step. apply wp_on_reactor. unfold nvfuse_make_jobs. rewrite Hqj.
  wp_step. apply wp_assert; [lia|]. wp_steps. fold pool. apply wp_assert; [unfold len in Hn; lia|]. wp_steps. fold jobs.
  set (s1 := put_reactor _ s). rewrite Hoff, Hby. replace (l0 * CLUSTER_SIZE) with ((l0 + 0) * CLUSTER_SIZE) by lia. replace (n * CLUSTER_SIZE) with ((n - 0) * CLUSTER_SIZE) by lia.
  eapply wp_mono; [apply (gen_jobs_wp _ s1 A id a m nb l0 n jobs 0 0 []); try done; try lia|].
  { by eapply ready_ext. }
  { intros x Hx. apply Hpool. rewrite <- Hsplit. apply elem_of_app. by left. }
  { constructor. }
  { unfold len in Hlj. lia. }
  intros o s2 (jc & js & -> & Hjc & Hjs & Hmv & Rd2 & K2 & Kf & E1 & E2 & E3). set (xs := take (Z.to_nat jc) jobs) in *.
  assert (len xs = jc) as Hlx by (unfold xs, len in *; rewrite length_take; lia).
  wp_step. apply release_rest_wp; [intros Hlt%Z.ltb_ge; rewrite drop_ge; [done|unfold len in Hlj; lia]|]. wp_step. apply wp_assert; [lia|].
  wp_step. apply wp_assert; [lia|]. wp_step. apply wp_get_q. cbn [put_reactor s_q]. rewrite E1. wp_step. eapply wp_lift; [exact Ht|]. wp_step. apply wp_on_reactor.
  fold xs. set (s3 := put_reactor _ s2).
  assert (jobs ≡ₚ xs ++ drop (Z.to_nat jc) jobs) as Hjx by (unfold xs; by rewrite take_drop).
  assert (forall x, x ∈ xs -> x ∈ pool) as Hxp by (intros x Hx; rewrite <- Hsplit, Hjx, !elem_of_app; by left; left).
  eapply wp_mono; [apply (submit_reqs_wp bdev_rc bdev_io xs (s_reactor s3) A t d)|].
  { by eapply ready_ext. }
  { cbn. rewrite (k_lcore _ _ K2). exact Hlc. }
  { done. }
  { lia. }
  { rewrite Hjx in Hndj. by apply NoDup_app in Hndj as [? _]. }
  { intros x Hx. split; [by apply Hpool, Hxp|]. apply list_elem_of_lookup in Hx as [i Hi]. destruct (Forall2_lookup_l _ _ _ _ _ Hjs Hi) as (j & Hj & Hjx' & Hjo).
    exists j. split; [exact Hjx'|by eapply job_of_ok]. }
  intros c0 r4 [(-> & A' & Rd4 & Su) K4]. cbn beta. change (0 <? 0) with false. cbn iota. unfold upd_q. wp_step. wp_step. wp_step.
  eapply wp_upd_areq; [cbn; rewrite E2; exact Ha|]. wp_step. split; [done|].
  destruct (jobs_submitted _ _ _ _ _ _ _ _ Hjs Su) as (js' & Hjs' & Hmv').
  exists A', xs, js', (r_jobs (s_reactor s3)). unfold s3 in *. cbn [set_reqs set_q put_reactor s_reactor s_q s_reqs s_called s_file]. rewrite Hlx, E1, E2.
  pose proof (k_jobs _ _ K4) as Ej4. pose proof (k_jobs _ _ K2) as Ej2. unfold s1 in Ej2. cbn in Ej4, Ej2. split_and!; try done.
  - rewrite (k_lcore _ _ K4). cbn. rewrite (k_lcore _ _ K2). exact Hlc.
  - by rewrite Hmv'.
  - lia.
  - rewrite Ej4, Ej2, app_assoc, <- Hjx. fold pool. by rewrite Hsplit.
  - intros x Hx. apply (k_job _ _ K4), (k_job _ _ K2). apply Hpool, Hx.
Qed.

(** ** The queue after a submission *)

Lemma submitted_content t A xs jobs A' u : submitted t A xs jobs A' -> content A' u ≡ₚ content A u ++ (if decide (u = t) then xs else []).
Proof.
  intros [_ Sq So Sc Sf _ _ _]. unfold content, pending. rewrite Sc, Sf. case_decide as Hu; [subst u; rewrite Sq; solve_Permutation|rewrite So by done; by rewrite app_nil_r].
Qed.

Lemma tags_ext A A' l : (forall x, x ∈ l -> a_job A' !! x = a_job A !! x) -> tags A' l = tags A l.
Proof.
  unfold tags. induction l as [|x l IH]; intros Hx; [done|]. cbn. rewrite Hx by (apply elem_of_cons; by left).
  rewrite IH; [done|]. intros y Hy. apply Hx, elem_of_cons. by right.
Qed.

Lemma submitted_tags t A xs jobs A' id a js : submitted t A xs jobs A' -> jobs_in A' id a xs js -> (forall x, x ∈ xs -> x ∉ content A t) ->
  tags A' (content A' t) ≡ₚ tags A (content A t) ++ replicate (length xs) id.
Proof.
  intros Su Hjs Hn. pose proof (submitted_content t A xs jobs A' t Su) as Hc. rewrite decide_True in Hc by done. rewrite (tags_perm A' _ _ Hc).
  assert (tags A' (content A t) = tags A (content A t)) as E1.
  { apply tags_ext. intros x Hx. rewrite (su_frame _ _ _ _ _ Su); [done|]. intros Hin. by apply (Hn x). }
  assert (tags A' xs = replicate (length xs) id) as E2.
  { clear -Hjs. unfold tags. induction Hjs as [|x j xs js [Hx (_ & Ht & _)] _ IH]; [done|]. cbn. rewrite Hx. cbn. rewrite Ht. f_equal. exact IH. }
  unfold tags in *. rewrite omap_app. by rewrite E1, E2.
Qed.

Lemma count_app id l l' : count id (l ++ l') = count id l + count id l'.
Proof. unfold count. rewrite filter_app, length_app. lia. Qed.
Lemma count_replicate id id' n : count id (replicate n id') = if decide (id' = id) then Z.of_nat n else 0.
Proof. induction n as [|n IH]; [by case_decide|]. cbn [replicate]. rewrite count_cons, IH. case_decide; lia. Qed.

Lemma aio_ok_submitted s A t A' xs js jobs id a s' : aio_ok s A t -> submitted t A xs jobs A' -> jobs_in A' id a xs js ->
  ready (s_reactor s') A' -> lcore (s_reactor s') = REACTOR_LCORE -> xs ++ job_pool (s_reactor s') ≡ₚ job_pool (s_reactor s) ->
  (forall x, x ∈ job_pool (s_reactor s) -> is_Some (r_jobs (s_reactor s') !! x)) -> s_q s' = set_total (total_bio_job_count (s_q s) + len xs) (s_q s) ->
  s_reqs s' !! id = Some a -> q_jobs a = len xs -> opened (s_file s') (q_fid a) -> (forall i, i <> id -> s_reqs s' !! i = s_reqs s !! i) -> files_kept (s_file s) (s_file s') ->
  id ∉ tags A (content A t) -> distinct (tags A (content A t)) + 1 <= acq_max_depth (s_q s) -> aio_ok s' A' t.
Proof.
  intros [Rd Hlc Ht Hd Hq Qm Htot Htag Hreq Honce Hpool Hroom] Su Hjs Rd' Hlc' Hp' Hs' Eq Ha Hqj Ho Hk Kf Hid Hr.
  assert (forall x, x ∈ xs -> x ∈ job_pool (s_reactor s)) as Hxp by (intros x Hx; rewrite <- Hp'; apply elem_of_app; by left).
  assert (forall x, x ∈ xs -> x ∉ content A t) as Hnew by (intros x Hx; apply (Hpool x), Hxp, Hx).
  pose proof (submitted_tags _ _ _ _ _ _ _ _ Su Hjs Hnew) as Htags. pose proof (submitted_content t A xs jobs A' t Su) as Hc. rewrite decide_True in Hc by done.
  split; try done.
  - by rewrite Eq.
  - by rewrite (su_depth _ _ _ _ _ Su).
  - by rewrite Eq.
  - by rewrite Eq.
  - rewrite Eq. cbn. rewrite Htot, !load_content. unfold len. rewrite Hc, length_app. lia.
  - intros x Hx. rewrite Hc in Hx. apply elem_of_app in Hx as [Hx|Hx].
    + rewrite (su_frame _ _ _ _ _ Su) by (intros Hin; by apply (Hnew x)). by apply Htag.
    + apply list_elem_of_lookup in Hx as [i Hi]. destruct (Forall2_lookup_l _ _ _ _ _ Hjs Hi) as (j & _ & Hj & _). by exists j.
  - intros i Hi. rewrite Htags in Hi. rewrite (count_perm _ _ _ Htags), count_app, count_replicate. destruct (decide (i = id)) as [->|Hne].
    + exists a. split_and!; [done| |done]. rewrite decide_True by done. rewrite (proj2 (count_zero id _) Hid). unfold len in Hqj. lia.
    + apply elem_of_app in Hi as [Hi|Hi]; [|by apply elem_of_replicate in Hi as [-> _]]. destruct (Hreq i Hi) as (b & Hb & Hbj & Hbo). exists b. rewrite Hk by done.
      split_and!; [done| |by eapply opened_kept]. rewrite decide_False by done. lia.
  - rewrite Hc, <- app_assoc, Hp'. done.
  - intros x Hx. assert (x ∈ job_pool (s_reactor s)) as Hxo by (rewrite <- Hp'; apply elem_of_app; by right). split; [by apply Hs'|].
    intros u Hxu. rewrite (submitted_content t A xs jobs A' u Su) in Hxu. apply elem_of_app in Hxu as [Hxu|Hxu]; [by apply (proj2 (Hpool x Hxo) u)|].
    case_decide; [|by apply not_elem_of_nil in Hxu]. pose proof Honce as Hnd. rewrite <- Hp' in Hnd. apply NoDup_app in Hnd as (_ & _ & Hnd). apply NoDup_app in Hnd as (_ & Hnd & _).
    by apply (Hnd x).
  - rewrite Htags, Eq. cbn. unfold distinct in Hr. rewrite list_to_set_app_L. pose proof (size_union_alt (list_to_set (tags A (content A t)) : gset Z) (list_to_set (replicate (length xs) id))) as Hsz.
    assert (size (list_to_set (replicate (length xs) id) ∖ list_to_set (tags A (content A t)) : gset Z) <= 1)%nat; [|lia].
    rewrite <- (size_singleton (C := gset Z) id). apply subseteq_size. intros i Hi. apply elem_of_difference in Hi as [Hi _]. apply elem_of_list_to_set, elem_of_replicate in Hi as [-> _]. set_solver.
Qed.

(** ** The submission of a request *)

(** A request [a] for [n] blocks from [l0] of an open file that lies at [m]; the
    queue has room for it and the pool the jobs. *)
Record can_submit s A t id (a : aio_req) (m : Z -> Z) (nb l0 n : Z) : Prop := {
  cs_req : s_reqs s !! id = Some a /\ req_ok a l0 n;
  cs_new : id ∉ tags A (content A t);
  cs_file : af_file (s_file s) (q_fid a) m nb /\ l0 + n <= nb < 2 ^ 31;
  cs_ring : exists d, a_depth A !! t = Some d /\ load A t + n <= d - 1;
  cs_jobs : n <= len (job_pool (s_reactor s));
  cs_room : distinct (tags A (content A t)) + 1 <= acq_max_depth (s_q s) }.

(** The file call that opens a submission *)
Lemma aio_prepare_wp s a m nb l0 n : af_file (s_file s) (q_fid a) m nb -> req_ok a l0 n -> l0 + n <= nb ->
  wp (if q_opcode a =? READ then on_file (af_read (q_fid a) (s32 (q_bytes a)) (q_offset a)) else on_file (af_write (q_fid a) (u32 (q_bytes a)) (q_offset a)))
    (fun c s' => u32 c = q_bytes a /\ exists f', s' = put_file f' s /\ files_kept (s_file s) f') s.
Proof.
  intros Hf (Hoff & Hby & Hl0 & Hn) Hnb. unfold AIO_MAX_QDEPTH in Hn. assert (0 < q_bytes a < 2 ^ 31) as Hb by (rewrite Hby; unfold CLUSTER_SIZE; lia).
  assert (q_bytes a mod CLUSTER_SIZE = 0) as Hm by (rewrite Hby; by apply Z.mod_mul). assert (q_offset a + q_bytes a <= nb * CLUSTER_SIZE) as He by (rewrite Hby, Hoff; unfold CLUSTER_SIZE; lia).
  assert (0 <= q_offset a) as Ho by (rewrite Hoff; unfold CLUSTER_SIZE; lia).
  destruct (q_opcode a =? READ); apply wp_on_file.
  - rewrite s32_small by lia. eapply wp_mono; [by apply (al_read _ _ m nb)|]. intros c f' [-> K]. split; [apply u32_small; lia|]. by exists f'.
  - rewrite u32_small by lia. eapply wp_mono; [by apply (al_write _ _ m nb)|]. intros c f' [-> K]. split; [apply u32_small; lia|]. by exists f'.
Qed.

Lemma jobs_some A id a xs js m lb buf n : jobs_in A id a xs js -> concat (moves <$> js) = file_moves m lb buf n -> 1 <= n -> 1 <= len xs.
Proof.
  intros Hf Hm Hn. destruct Hf as [|x j xs js _ _]; [|rewrite len_cons; pose proof (len_nonneg xs); lia].
  apply (f_equal length) in Hm. unfold file_moves in Hm. rewrite length_fmap, length_seqZ in Hm. simpl in Hm. lia.
Qed.

Lemma submission_wp s A t id a m nb l0 n : aio_ok s A t -> can_submit s A t id a m nb l0 n ->
  wp (nvfuse_aio_queue_submission id) (fun c s' => c = 0 /\ exists A' xs js, aio_ok s' A' t /\
    (forall u, content A' u ≡ₚ content A u ++ (if decide (u = t) then xs else [])) /\ jobs_in A' id a xs js /\ concat (moves <$> js) = file_moves m l0 (q_buf a) n /\
    tags A' (content A' t) ≡ₚ tags A (content A t) ++ replicate (length xs) id /\
    s_called s' = s_called s /\ xs ++ job_pool (s_reactor s') ≡ₚ job_pool (s_reactor s) /\ 1 <= len xs <= n /\
    s_q s' = set_total (total_bio_job_count (s_q s) + len xs) (s_q s) /\ (forall i, i <> id -> s_reqs s' !! i = s_reqs s !! i) /\
    files_kept (s_file s) (s_file s') /\ a_depth A' = a_depth A) s.
Proof.
  intros Ok [[Ha Hq] Hnew [Hf Hnb] (d & Hd & Hload) Hn Hroom]. pose proof Ok as [Rd Hlc Ht _ (Q1 & Q2 & Q3 & Q4) [Qm Qx] Htot Htag Hreq Honce Hpool _].
  unfold nvfuse_aio_queue_submission. wp_step. eapply wp_get_areq; [exact Ha|].
  wp_step. apply wp_on_file. eapply wp_mono; [by apply (al_directio _ _ m nb)|]. intros dd f1 [Hdd K1]. cbn beta. wp_step. apply wp_assert; [lia|].
  wp_step. eapply wp_mono; [apply (aio_prepare_wp _ a m nb l0 n); [by apply K1|done|lia]|]. intros c s2 (Hc & f2 & -> & K2). rewrite Hc, Z.eqb_refl. cbn [put_file s_file] in K2.
  wp_step. unfold nvfuse_aio_queue_enqueue. wp_step. eapply wp_upd_areq; [exact Ha|]. wp_step. apply wp_get_q. cbn [set_reqs put_file s_q].
  change (NVFUSE_SUBMISSION_QUEUE =? NVFUSE_SUBMISSION_QUEUE) with true. cbn iota. rewrite Q2, (proj2 (Z.eqb_neq 0 _)) by lia. unfold upd_q. wp_steps. apply wp_get_q.
  cbn [set_q set_reqs put_file s_q set_asq asq_head]. rewrite Q1. cbn [app submit_queue]. wp_step. eapply wp_get_areq; [apply lookup_insert_eq|].
  set (a1 := set_status _ a). wp_step. apply wp_on_file. eapply wp_mono; [apply (al_directio _ _ m nb); by apply K2, K1|]. intros d3 f3 [Hd3 K3]. cbn beta. wp_step. apply wp_assert; [lia|].
  wp_step. eapply wp_upd_areq; [apply lookup_insert_eq|]. pose proof Hq as (_ & Hby & _ & Hn1). unfold AIO_MAX_QDEPTH in Hn1.
  assert (NVFUSE_SIZE_TO_BLK (q_bytes a1) = n) as Hblk.
  { cbn. rewrite Hby. unfold Dir.NVFUSE_SIZE_TO_BLK. rewrite Z.shiftr_div_pow2 by lia. change (2 ^ 12) with CLUSTER_SIZE. rewrite Z.div_mul by done. apply s32_small. lia. }
  rewrite Hblk. set (a2 := set_q_jobs n a1). set (s3 := set_reqs _ _). cbn beta.
  wp_step. eapply wp_mono; [apply (gen_dev_reqs_wp s3 A t d id a2 m nb l0 n); try done|].
  { apply lookup_insert_eq. }
  { by apply K3, K2, K1. }
  { unfold s3. cbn. by apply NoDup_app in Honce as (_ & _ & ?). }
  intros c4 s4 (-> & A' & xs & js & jobs & Rd4 & Hlc4 & Su & Hjs & Hmv & Hxn & Hp & Hs & Eq & Er & Ec & K4). change (0 <? 0) with false. cbn iota.
  wp_step. unfold nvfuse_aio_queue_dequeue. wp_step. apply wp_get_q. change (NVFUSE_SUBMISSION_QUEUE =? NVFUSE_SUBMISSION_QUEUE) with true. cbn iota.
  assert (asq_head (s_q s4) = [id]) as E1 by (by rewrite Eq). assert (asq_cur_depth (s_q s4) = 1) as E2 by (rewrite Eq; unfold s3; cbn; by rewrite ?Q2).
  wp_step. apply wp_assert; [apply bool_decide_true; rewrite E1; by apply list_elem_of_singleton|]. unfold upd_q. wp_steps. apply wp_assert; [by rewrite E2|]. wp_steps.
  split; [done|]. exists A', xs, js. set (s5 := set_q _ s4).
  assert (s_q s5 = set_total (total_bio_job_count (s_q s) + len xs) (s_q s)) as E5.
  { unfold s5. cbn [set_q s_q]. rewrite E1, E2. unfold list_del. rewrite filter_cons, decide_False, filter_nil by (intros Hne; by apply Hne).
    rewrite Eq. unfold s3. cbn. destruct (s_q s). cbn in *. by subst. }
  assert (forall x, x ∈ xs -> x ∉ content A t) as Hfresh by (intros x Hx; apply (Hpool x); change (job_pool (s_reactor s)) with (job_pool (s_reactor s3)); rewrite <- Hp; apply elem_of_app; by left).
  assert (forall i, i <> id -> s_reqs s5 !! i = s_reqs s !! i) as Hk5.
  { intros i Hi. unfold s5. cbn. rewrite Er, lookup_insert_ne by done. unfold s3. cbn. by rewrite !lookup_insert_ne by done. }
  assert (files_kept (s_file s) (s_file s5)) as Kf by (eapply files_kept_trans; [exact K1|]; eapply files_kept_trans; [exact K2|]; by eapply files_kept_trans).
  split_and!; try done.
  - apply (aio_ok_submitted s A t A' xs js jobs id (set_q_jobs (len xs) a2)); try done.
    + unfold s5. cbn. rewrite Er. apply lookup_insert_eq.
    + exists m, nb. by apply Kf.
  - intros u. by eapply submitted_content.
  - by eapply submitted_tags.
  - eapply (jobs_some A' id a2 xs js m l0 (q_buf a) n); try done; lia.
  - apply (su_depth _ _ _ _ _ Su).
Qed.

(** ** Batches *)

Definition blocks_of (a : aio_req) : Z := q_bytes a / CLUSTER_SIZE.
(** A request for whole blocks of an open file *)
Definition valid s id : Prop := exists a m nb l0, s_reqs s !! id = Some a /\ req_ok a l0 (blocks_of a) /\ af_file (s_file s) (q_fid a) m nb /\ l0 + blocks_of a <= nb < 2 ^ 31.
(** The blocks of a list of requests *)
Definition need s (ids : list Z) : Z := foldr (fun id acc => default 0 (blocks_of <$> s_reqs s !! id) + acc) 0 ids.

Lemma valid_kept s s' id : s_reqs s' !! id = s_reqs s !! id -> files_kept (s_file s) (s_file s') -> valid s id -> valid s' id.
Proof. intros E K (a & m & nb & l0 & Ha & Hq & Hf & Hn). exists a, m, nb, l0. rewrite E. split_and!; try done; [by apply K|lia..]. Qed.
Lemma need_ext s s' ids : (forall id, id ∈ ids -> s_reqs s' !! id = s_reqs s !! id) -> need s' ids = need s ids.
Proof.
  induction ids as [|id ids IH]; intros E; [done|]. cbn. rewrite E by (apply elem_of_cons; by left). f_equal. apply IH. intros i Hi. apply E, elem_of_cons. by right.
Qed.

Lemma distinct_sub l l' n : (forall x, x ∈ l -> x ∈ l' \/ x = n) -> distinct l <= distinct l' + 1.
Proof.
  intros Hx. unfold distinct. assert (size (list_to_set l : gset Z) <= size ({[ n ]} ∪ list_to_set l' : gset Z))%nat as H1.
  { apply subseteq_size. intros x Hin. apply elem_of_list_to_set in Hin. apply Hx in Hin as [?| ->]; set_solver. }
  pose proof (size_union_alt ({[ n ]} : gset Z) (list_to_set l')) as H2. rewrite size_singleton in H2.
  assert (size (list_to_set l' ∖ {[ n ]} : gset Z) <= size (list_to_set l' : gset Z))%nat by (apply subseteq_size; set_solver). lia.
Qed.

Lemma io_submit_wp ids : forall s A t d ret, aio_ok s A t -> NoDup ids -> (forall id, id ∈ ids -> valid s id /\ id ∉ tags A (content A t)) ->
  a_depth A !! t = Some d -> load A t + need s ids <= d - 1 -> need s ids <= len (job_pool (s_reactor s)) ->
  distinct (tags A (content A t)) + len ids <= acq_max_depth (s_q s) ->
  wp (io_submit_loop ids ret) (fun c s' => c = match ids with [] => ret | _ => 0 end /\ exists A', aio_ok s' A' t /\
    (forall id, id ∈ tags A' (content A' t) <-> id ∈ tags A (content A t) \/ id ∈ ids) /\ load A' t <= load A t + need s ids /\
    (forall u, u <> t -> content A' u ≡ₚ content A u) /\ s_called s' = s_called s /\
    content A' t ++ job_pool (s_reactor s') ≡ₚ content A t ++ job_pool (s_reactor s)) s.
Proof.
  induction ids as [|id ids IH]; intros s A t d ret Ok Hnd Hv Hd Hl Hp Hr; cbn [io_submit_loop].
  - wp_step. split; [done|]. exists A. split_and!; try done; [|cbn; lia]. intros id. rewrite elem_of_nil. tauto.
  - apply NoDup_cons in Hnd as [Hid Hnd]. destruct (Hv id) as [(a & m & nb & l0 & Ha & Hq & Hf & Hnb) Hnew]; [apply elem_of_cons; by left|].
    rewrite len_cons in Hr. pose proof (len_nonneg ids). cbn [need foldr] in Hl, Hp. fold (need s ids) in Hl, Hp. rewrite Ha in Hl, Hp. cbn in Hl, Hp.
    assert (0 <= need s ids) as Hn0.
    { clear -Hv. induction ids as [|i ids IH]; [done|]. cbn. destruct (Hv i) as [(a & _ & _ & l0 & Ha & (_ & _ & _ & Hn) & _) _]; [apply elem_of_cons; right; apply elem_of_cons; by left|].
      rewrite Ha. cbn. assert (0 <= need s ids); [|unfold need in *; lia]. apply IH. intros j [->|Hj]%elem_of_cons; apply Hv; rewrite !elem_of_cons; auto. }
    wp_step. eapply wp_mono; [eapply (submission_wp s A t id a m nb l0 (blocks_of a) Ok); split; try done; try lia; by exists d; split; [|lia]|].
    intros c s1 (-> & A1 & xs & js & Ok1 & Hc1 & _ & _ & Ht1 & Ec1 & Hp1 & [Hx1 Hx] & Eq1 & Hk1 & Kf1 & Ed1). pose proof (Hc1 t) as Hct. rewrite decide_True in Hct by done.
    assert (forall i, i ∈ tags A1 (content A1 t) <-> i ∈ tags A (content A t) \/ i = id) as Htags.
    { intros i. rewrite Ht1, elem_of_app. split; [intros [?|Hi]; [by left|right; by apply elem_of_replicate in Hi as [? _]]|]. intros [?| ->]; [by left|].
      right. apply elem_of_replicate. split; [done|]. unfold len in Hx1. lia. }
    assert (load A1 t = load A t + len xs) as Hl1 by (rewrite !load_content; unfold len; rewrite Hct, length_app; lia).
    eapply wp_mono; [apply (IH s1 A1 t d 0 Ok1 Hnd)|].
    + intros i Hi. assert (i <> id) as Hne by (by intros ->). destruct (Hv i) as [Hvi Hni]; [apply elem_of_cons; by right|]. split; [by eapply valid_kept; [apply Hk1|..]|].
      rewrite Htags. intros [?|?]; done.
    + by rewrite Ed1.
    + rewrite (need_ext s s1); [lia|]. intros i Hi. apply Hk1. by intros ->.
    + rewrite (need_ext s s1); [|intros i Hi; apply Hk1; by intros ->]. apply Permutation_length in Hp1. rewrite length_app in Hp1. unfold len in *. lia.
    + rewrite Eq1. cbn. pose proof (distinct_sub (tags A1 (content A1 t)) (tags A (content A t)) id ltac:(intros i; apply Htags)). lia.
    + intros c s2 (-> & A2 & Ok2 & Ht2 & Hl2 & Ho2 & Ec2 & Hp2). split; [by destruct ids|]. exists A2. split_and!; try done.
      * intros i. rewrite Ht2, Htags, elem_of_cons. tauto.
      * cbn [need foldr]. fold (need s ids). rewrite Ha. cbn. rewrite (need_ext s s1) in Hl2 by (intros i Hi; apply Hk1; by intros ->). lia.
      * intros u Hu. rewrite Ho2 by done. pose proof (Hc1 u) as H'. by rewrite decide_False, app_nil_r in H' by done.
      * congruence.
      * rewrite Hp2, Hct, <- app_assoc, Hp1. done.
Qed.

(** A batch and its completion: nothing is left under way, and each request of
    the batch was called back once. *)
Lemma batch_wp s A t d ids : aio_ok s A t -> content A t = [] -> a_depth A !! t = Some d -> ids <> [] -> NoDup ids -> (forall id, id ∈ ids -> valid s id) ->
  need s ids <= d - 1 -> need s ids <= AIO_MAX_QDEPTH -> need s ids <= len (job_pool (s_reactor s)) -> len ids <= acq_max_depth (s_q s) ->
  wp (c ← nvfuse_io_submit ids; c' ← nvfuse_aio_queue_completion bdev_rc bdev_io pick; mret (c, c')) (fun cs s' => cs = (0, 0) /\ exists A' done, aio_ok s' A' t /\
    (forall u, content A' u ≡ₚ content A u) /\ s_called s' = s_called s ++ done /\ done ≡ₚ ids /\ job_pool (s_reactor s') ≡ₚ job_pool (s_reactor s)) s.
Proof.
  intros Ok Hc Hd Hne Hnd Hv Hl1 Hl2 Hl3 Hl4. unfold nvfuse_io_submit. assert (load A t = 0) as Hl0 by (by rewrite load_content, Hc).
  wp_step. eapply wp_mono; [apply (io_submit_wp ids s A t d 0 Ok Hnd)|]; try done; try lia.
  { intros id Hid. split; [by apply Hv|]. rewrite Hc. apply not_elem_of_nil. }
  { rewrite Hc. unfold tags, distinct. cbn [omap list_omap list_to_set]. rewrite size_empty. lia. }
  intros c s1 (-> & A1 & Ok1 & Ht1 & Hn1 & Ho1 & Ec1 & Hp1). rewrite Hc in Hp1, Ht1. cbn [app] in Hp1.
  assert (0 < load A1 t) as Hpos.
  { destruct ids as [|id ids]; [done|]. assert (id ∈ tags A1 (content A1 t)) as Hin by (apply Ht1; right; apply elem_of_cons; by left).
    rewrite load_content. destruct (content A1 t); [by apply not_elem_of_nil in Hin|]. rewrite len_cons. pose proof (len_nonneg l). lia. }
  wp_step. eapply wp_mono; [apply (completion_wp s1 A1 t Ok1); rewrite (ao_total _ _ _ Ok1); lia|].
  intros c2 s2 (-> & A2 & done & Ok2 & Hc2 & Ho2 & Ec2 & Hnd2 & Hd2 & Hp2). wp_step. split; [by destruct ids|]. exists A2, done. split_and!; try done.
  - intros u. destruct (decide (u = t)) as [->|Hu]; [by rewrite Hc2, Hc|]. by rewrite Ho2, Ho1.
  - by rewrite Ec2, Ec1.
  - apply NoDup_Permutation; [done|done|]. intros id. rewrite Hd2, Ht1. split; [intros [H'|?]; [by apply not_elem_of_nil in H'|done]|by right].
  - by rewrite Hp2.
Qed.

(** The start of a queue *)
Lemma reset_content A t d u : content (reset A t d) u = content A u.
Proof. done. Qed.
Lemma aio_init_wp s A t tp max : sound (s_reactor s) A -> task_pool (s_reactor s) = t :: tp -> 1 <= max -> max * 2 + 1 <= REACTOR_MAX_REQUEST ->
  wp (nvfuse_aio_queue_init max) (fun c s' => c = 0 /\ aio_ok s' (reset A t (max * 2 + 1)) t /\ content A t = [] /\ acq_max_depth (s_q s') = max /\
    s_reqs s' = s_reqs s /\ s_file s' = s_file s /\ s_called s' = s_called s /\ job_pool (s_reactor s') = job_pool (s_reactor s)) s.
Proof.
  intros So Ht H1 H2. destruct (so_task _ _ So t) as (Hc & _); [rewrite Ht; apply elem_of_cons; by left|]. unfold nvfuse_aio_queue_init. unfold REACTOR_MAX_REQUEST in H2.
  rewrite (proj2 (Z.ltb_ge NVFUSE_MAX_AIO_DEPTH max)) by (unfold NVFUSE_MAX_AIO_DEPTH; lia). cbv zeta. wp_step. apply wp_on_reactor.
  eapply wp_mono; [apply (alloc_task_wp _ A t tp (max * 2) So Ht); unfold REACTOR_MAX_REQUEST; lia|]. intros o r1 (-> & Rd & K & Ej). unfold upd_q. wp_steps.
  split; [done|]. cbn [set_q put_reactor s_reactor s_q s_reqs s_file s_called acq_max_depth]. pose proof (k_jobs _ _ K) as Ejp. cbn in Ejp.
  split_and!; try done. split; cbn [set_q put_reactor s_reactor s_q s_reqs s_file s_called aio_task asq_head asq_cur_depth acq_head acq_cur_depth max_completions asq_max_depth acq_max_depth total_bio_job_count]; try done.
  - rewrite (k_lcore _ _ K). apply (so_lcore _ _ So).
  - eexists. apply lookup_insert_eq.
  - split; [done|lia].
  - rewrite load_content. by rewrite reset_content, Hc.
  - intros x Hx. rewrite reset_content, Hc in Hx. by apply not_elem_of_nil in Hx.
  - intros id Hid. rewrite reset_content, Hc in Hid. by apply not_elem_of_nil in Hid.
  - rewrite reset_content, Hc, Ejp. apply (so_once _ _ So).
  - intros x Hx. rewrite Ejp in Hx. rewrite Ej. apply (so_req _ _ So). apply elem_of_app. by right.
  - rewrite reset_content, Hc. cbn. rewrite size_empty. lia.
Qed.

End spec.
End AioSpec.

(** * The file API keeps the promises *)
Module AioFiles.
Import Layout Dir DirSpec DirIndex DirEntry File FileIO FileOps FileSpec FileRules AioSpec Aio.

Section files.
Context {A I : Type} `{Store A} `{Index A I} `{DataStore A}.
Implicit Types (s : File.fst A I) (fid : Z).

(** The descriptor [fid] is open with O_DIRECT on a file of at least [n] blocks
    that is not in use and whose runs of blocks are found at [m]. *)
Record open_at (d : dst A I) (t : nvfuse_file_table) (m : Z -> Z) (n : Z) : Prop := {
  oa_flags : has_flag (ft_flags t) O_DIRECT = true;
  oa_ino : ROOT_INO <= ft_ino t;
  oa_free : ft_ino t ∉ d_locked d;
  oa_inode : exists i, st_inode (d_store d) (ft_ino t) = Some i /\ i_ino i = ft_ino t /\ n * CLUSTER_SIZE <= i_size i;
  oa_run : forall lb max, 0 <= lb -> 1 <= max -> lb + max <= n -> wp (ds_get_block (ft_ino t) lb max false) (fun r a =>
    a = d_store d /\ 0 <= r.1.1 /\ 1 <= r.1.2 <= max /\ 0 <= r.2 < 2 ^ 31 /\ forall k, 0 <= k < r.1.2 -> m (lb + k) = r.2 + k) (d_store d) }.
Definition file_at s fid m n : Prop := exists t, ft_at s fid t /\ open_at (f_dir s) t m n.

(** Steps that keep the directory part and, of the table, the files and flags *)
Definition same_files s s' : Prop := f_dir s' = f_dir s /\ forall fid t, ft_at s fid t -> exists t', ft_at s' fid t' /\ ft_ino t' = ft_ino t /\ ft_flags t' = ft_flags t.
Lemma same_files_at s s' fid m n : same_files s s' -> file_at s fid m n -> file_at s' fid m n.
Proof.
  intros [Ed Ht] (t & Hat & [O1 O2 O3 O4 O5]). destruct (Ht fid t Hat) as (t' & Hat' & Ei & Ef). exists t'. split; [done|]. rewrite Ed. split; by rewrite ?Ei, ?Ef.
Qed.

Lemma same_files_upd s s' fid t t' : f_dir s' = f_dir s -> f_table s' = <[Z.to_nat fid := t']> (f_table s) -> ft_at s fid t -> ft_ino t' = ft_ino t -> ft_flags t' = ft_flags t -> same_files s s'.
Proof.
  intros Ed Et [Hf Ht] Ei Ef. split; [done|]. intros u w [Hu Hw]. unfold ft_at. rewrite Et. destruct (decide (Z.to_nat fid = Z.to_nat u)) as [E|E].
  - exists t'. assert (w = t) as -> by (rewrite E in Ht; congruence). split; [|done]. split; [done|]. rewrite E. apply list_lookup_insert_eq. by eapply lookup_lt_Some.
  - exists w. split; [|done]. split; [done|]. by rewrite list_lookup_insert_ne.
Qed.

Lemma lock_unlock (d : dst A I) ino : ino ∉ d_locked d ->
  set_locked (({[ ino ]} ∪ d_locked d) ∖ {[ ino ]}) (set_locked ({[ ino ]} ∪ d_locked d) d) = d.
Proof. intros Hn. destruct d as [a l h b ix now]. unfold set_locked. cbn in *. f_equal. apply set_eq. intros x. set_solver. Qed.

Lemma file_directio fid m n s : file_at s fid m n -> wp (nvfuse_is_directio fid) (fun d s' => d <> 0 /\ same_files s s') s.
Proof.
  intros (t & Ht & O). unfold nvfuse_is_directio. wp_step. eapply wp_get_ft; [done|]. wp_step. rewrite (oa_flags _ _ _ _ O). split; [done|].
  split; [done|]. intros u w Hw. by exists w.
Qed.

Lemma grow_size_same t : ft_ino (grow_size t) = ft_ino t /\ ft_flags (grow_size t) = ft_flags t.
Proof. unfold grow_size. by destruct (_ <? _). Qed.

(** A transfer inside the file moves the offset of the descriptor. *)
Lemma file_read fid m n off count s : file_at s fid m n -> 0 <= off -> 0 < count < 2 ^ 31 -> off + count <= n * CLUSTER_SIZE -> count mod CLUSTER_SIZE = 0 ->
  wp (nvfuse_readfile_aio_directio fid count off) (fun c s' => c = count /\ same_files s s') s.
Proof.
  intros (t & Ht & [O1 O2 O3 (i & Hi & Hin & Hsz) O5]) Ho Hc He Hm. unfold nvfuse_readfile_aio_directio, nvfuse_readfile_directio_core.
  wp_step. eapply wp_get_ft; [done|]. wp_step. eapply wp_upd_ft; [done|]. rewrite Z.rem_mod_nonneg, Hm by (unfold CLUSTER_SIZE; lia). cbn [negb Z.eqb]. cbn iota.
  wp_step. eapply wp_lock_inode; [done..|]. wp_step. eapply wp_inode_of; [exact Hi|]. rewrite (proj2 (Z.ltb_ge _ _)) by lia.
  pose proof (ft_at_insert s fid t (set_rwoffset off t) Ht) as Ht1. wp_step. eapply wp_upd_ft; [exact Ht1|]. wp_step. apply wp_unlock_inode; [fcbn; set_solver|]. wp_step. split; [done|].
  eapply (same_files_upd s _ fid t); [by apply lock_unlock|fcbn; by rewrite list_insert_insert_eq|done|by rewrite (proj1 (grow_size_same _))|by rewrite (proj2 (grow_size_same _))].
Qed.

Lemma file_write fid m n off count s : file_at s fid m n -> 0 <= off -> 0 < count < 2 ^ 31 -> off + count <= n * CLUSTER_SIZE -> count mod CLUSTER_SIZE = 0 ->
  wp (nvfuse_writefile_directio_prepare fid count off) (fun c s' => c = count /\ same_files s s') s.
Proof.
  intros (t & Ht & [O1 O2 O3 (i & Hi & Hin & Hsz) O5]) Ho Hc He Hm. unfold nvfuse_writefile_directio_prepare, nvfuse_writefile_directio_core.
  wp_step. eapply wp_get_ft; [done|]. wp_step. eapply wp_upd_ft; [done|]. rewrite Hm. cbn [negb Z.eqb]. cbv zeta.
  wp_step. eapply wp_lock_inode; [done..|]. wp_step. eapply wp_inode_of; [exact Hi|]. rewrite (proj2 (Z.leb_gt _ _)), andb_false_r by lia. wp_steps. cbn [negb].
  pose proof (ft_at_insert s fid t (set_rwoffset off t) Ht) as Ht1. wp_step. apply wp_unlock_inode; [fcbn; set_solver|]. wp_step. eapply wp_upd_ft; [exact Ht1|]. wp_step.
  split; [apply s32_small; lia|].
  eapply (same_files_upd s _ fid t); [by apply lock_unlock|fcbn; by rewrite list_insert_insert_eq|done|by rewrite (proj1 (grow_size_same _))|by rewrite (proj2 (grow_size_same _))].
Qed.

Lemma file_fgetblk fid m n lb max s : file_at s fid m n -> 0 <= lb -> 1 <= max -> lb + max <= n ->
  wp (nvfuse_fgetblk fid lb max) (fun r s' => 0 <= r.1 /\ 1 <= r.2 <= max /\ (forall k, 0 <= k < r.2 -> m (lb + k) = r.1 + k) /\ same_files s s') s.
Proof.
  intros (t & Ht & [O1 O2 O3 (i & Hi & Hin & Hsz) O5]) Hlb Hmax Hn. unfold nvfuse_fgetblk. wp_step. eapply wp_get_ft; [done|].
  wp_step. apply wp_on_dir. eapply wp_read_inode; [done..|]. cbn [negb]. wp_step. apply wp_on_dir, wp_on_store. fcbn.
  eapply wp_mono; [by apply (O5 lb max)|]. intros [[ret num] blk] a (-> & Hr & Hk & Hb & Hm). cbn [Datatypes.fst Datatypes.snd] in *. cbn beta iota. rewrite (proj2 (Z.ltb_ge ret 0)) by lia.
  wp_step. apply wp_unlock_inode; [fcbn; set_solver|]. wp_step. cbn [Datatypes.fst Datatypes.snd]. rewrite s32_small by lia. split_and!; try done; try lia.
  split; [|intros u w Hw; by exists w].
  etransitivity; [|by apply (lock_unlock (f_dir s) (ft_ino t))]. by destruct s as [[] ? ? ?].
Qed.

#[export] Instance file_aio_laws : AioFileLaws (F := File.fst A I).
Proof.
  refine {| af_file := file_at |}.
  - intros f fid m n Hf. eapply wp_mono; [by eapply file_directio|]. intros d f' [Hd Hs]. split; [done|]. intros. by eapply same_files_at.
  - intros f fid m n off count Hf. intros. eapply wp_mono; [by eapply file_read|]. intros c f' [Hd Hs]. split; [done|]. intros. by eapply same_files_at.
  - intros f fid m n off count Hf. intros. eapply wp_mono; [by eapply file_write|]. intros c f' [Hd Hs]. split; [done|]. intros. by eapply same_files_at.
  - intros f fid m n lb max Hf. intros. eapply wp_mono; [by eapply file_fgetblk|]. intros c f' (Hc1 & Hc2 & Hc3 & Hs). split_and!; try done; try lia. intros. by eapply same_files_at.
Qed.

End files.
End AioFiles.

(** * Theorems *)
Module AioThms.
Import ReactorSpec ReactorRun ReactorKept ReactorCalls Aio AioSpec.

Section theorems.
Context {F W : Type} `{AioFile F} (bdev_rc : io_job -> W -> Z) (bdev_io : io_job -> W -> bool * W) (pick : list Z -> nat).
Context (rc_ok : forall j w, bdev_rc j w = 0) (io_ok : forall j w, (bdev_io j w).1 = true).
Context (pick_ok : forall l, l <> [] -> (pick l < length l)%nat).
Context {L : AioFileLaws (F := F)}.
Implicit Types (s : ast F W) (A : areactor (W := W)).

(** C9: The submission of an asynchronous request for [n] blocks of an open file
    succeeds.  Its jobs move every block of the request exactly once, in order,
    between the place of the block on the device and its part of the buffer; what
    was under way still is, and the jobs come out of the pool. *)
Theorem submission_moves_blocks s A t id a m nb l0 n : aio_ok s A t -> can_submit s A t id a m nb l0 n ->
  wp (nvfuse_aio_queue_submission id) (fun c s' => c = 0 /\ exists A' xs js, aio_ok s' A' t /\ jobs_in A' id a xs js /\
    concat (moves <$> js) = file_moves m l0 (q_buf a) n /\ content A' t ≡ₚ content A t ++ xs /\
    (forall u, u <> t -> content A' u ≡ₚ content A u) /\ xs ++ job_pool (s_reactor s') ≡ₚ job_pool (s_reactor s)) s.
Proof.
  intros Ok Hs. eapply wp_mono; [by apply (submission_wp bdev_rc bdev_io pick rc_ok io_ok pick_ok s A t id a m nb l0 n)|].
  intros c s' (-> & A' & xs & js & Ok' & Hc & Hjs & Hm & _ & _ & Hp & _). split; [done|]. exists A', xs, js. split_and!; try done.
  - pose proof (Hc t) as H1. by rewrite decide_True in H1.
  - intros u Hu. pose proof (Hc u) as H1. by rewrite decide_False, app_nil_r in H1.
Qed.

(** C6: A new queue serves a batch of requests: all of them are submitted, and
    when nvfuse_aio_queue_completion returns, the callback of each was called
    exactly once, nothing is under way and the jobs are back in their pool, in
    whatever order the device completes them and whatever else it does. *)
Theorem aio_batch_completes s A t tp max ids : sound (s_reactor s) A -> task_pool (s_reactor s) = t :: tp -> 1 <= max -> max * 2 + 1 <= REACTOR_MAX_REQUEST ->
  ids <> [] -> NoDup ids -> (forall id, id ∈ ids -> valid s id) -> len ids <= max ->
  need s ids <= max * 2 -> need s ids <= AIO_MAX_QDEPTH -> need s ids <= len (job_pool (s_reactor s)) ->
  wp (nvfuse_aio_queue_init max;; c ← nvfuse_io_submit ids; c' ← nvfuse_aio_queue_completion bdev_rc bdev_io pick; mret (c, c')) (fun cs s' =>
    cs = (0, 0) /\ exists done, done ≡ₚ ids /\ s_called s' = s_called s ++ done /\ job_pool (s_reactor s') ≡ₚ job_pool (s_reactor s) /\
    exists A', aio_ok s' A' t /\ forall u, content A' u ≡ₚ content A u) s.
Proof.
  intros So Ht H1 H2 Hne Hnd Hv Hl Hn1 Hn2 Hn3. wp_step. eapply wp_mono; [by apply (aio_init_wp s A t tp max)|].
  intros c s1 (-> & Ok & Hc & Em & Er & Ef & Ec & Ep). assert (need s1 ids = need s ids) as En by (apply need_ext; intros; by rewrite Er).
  eapply wp_mono; [apply (batch_wp bdev_rc bdev_io pick rc_ok io_ok pick_ok s1 (reset A t (max * 2 + 1)) t (max * 2 + 1) ids Ok); try done; try lia|].
  - apply lookup_insert_eq.
  - intros id Hid. destruct (Hv id Hid) as (a & m & nb & l0 & ? & ? & ? & ?). exists a, m, nb, l0. by rewrite Er, Ef.
  - by rewrite En, Ep.
  - intros cs s2 (-> & A2 & done & Ok2 & Hc2 & Ec2 & Hd & Hp). split; [done|]. exists done. split_and!; [done|by rewrite Ec2, Ec|by rewrite Hp, Ep|]. by exists A2.
Qed.


End theorems.
(** ** A concrete queue

    Every descriptor is an open file whose block [lb] lies at [1000 + lb]; a
    lookup returns at most two blocks. *)
Section demo.
Import ReactorThms.

#[local] Instance demo_file : AioFile unit := {|
  af_is_directio := fun _ => mret 1;
  af_read := fun _ count _ => mret count;
  af_write := fun _ count _ => mret count;
  af_fgetblk := fun _ lb max => mret (1000 + lb, Z.min 2 max) |}.
#[local] Program Instance demo_laws : AioFileLaws (F := unit) := {| af_file := fun _ _ m n => forall lb, m lb = 1000 + lb |}.
Next Obligation. intros; by split. Qed.
Next Obligation. intros; by split. Qed.
Next Obligation. intros; by split. Qed.
Next Obligation. intros f fid m n lb max Hm Hl H1 Hn. unfold wp. cbn. split_and!; try done; try lia. intros k Hk. rewrite Hm. lia. Qed.

(** Two requests, a read of three blocks and a write of one *)
Definition read3 : aio_req := mk_areq 4 READ 8192 (2 * 4096) (3 * 4096) 0 0 0.
Definition write1 : aio_req := mk_areq 5 0 65536 0 4096 0 0 0.
Definition no_queue : aio_queue := mk_aioq [] 0 0 [] 0 0 0 0 None.
Definition pool6 : list Z := [12; 13; 14; 15; 16; 17].
Definition demo_reactor : rst disk :=
  mk_rst disk {[ 1 := mk_task 0 empty_ring empty_ring ]} (list_to_map ((fun x => (x, blank)) <$> 11 :: pool6)) [1] [11] pool6 0 0 0 false [] [] (∅, ∅).
Definition demo : ast unit disk := mk_ast unit disk tt demo_reactor no_queue {[ 1 := read3; 2 := write1 ]} [].
Definition ademo : areactor (W := disk) := mk_a ∅ ∅ ∅ [] ∅ (∅, ∅).

Lemma demo_sound : sound demo_reactor ademo.
Proof.
  split.
  - split; [split|split]; try done; cbn; try (intros ? ? Hin; by apply not_elem_of_nil in Hin).
    + split; [constructor|]. intros t. constructor.
    + intros t Hin. by apply not_elem_of_nil in Hin.
  - done.
  - intros t ->%list_elem_of_singleton. split; [done|]. eexists. split; [apply lookup_insert_eq|]. split; by vm_compute.
  - intros x Hx. split; [|intros t Hin; by apply not_elem_of_nil in Hin].
    assert (Forall (fun x => is_Some (r_jobs demo_reactor !! x)) (req_pool demo_reactor ++ job_pool demo_reactor)) as Hall by (apply (bool_decide_unpack _); by vm_compute).
    by apply (proj1 (Forall_forall _ _) Hall).
  - apply (bool_decide_unpack _). by vm_compute.
Qed.

Lemma demo_valid id : id ∈ [1; 2] -> valid demo id.
Proof.
  intros Hid. assert (id = 1 \/ id = 2) as [-> | ->] by set_solver.
  - exists read3, (fun lb => 1000 + lb), 100, 2. split_and!; try done.
  - exists write1, (fun lb => 1000 + lb), 100, 0. split_and!; try done.
Qed.

Lemma aio_batch_completes_witness : exists s', (nvfuse_aio_queue_init 4;; c ← nvfuse_io_submit [1; 2]; c' ← nvfuse_aio_queue_completion disk_rc disk_io newest; mret (c, c')) demo = Some ((0, 0), s') /\
  exists done, done ≡ₚ [1; 2] /\ s_called s' = done.
Proof.
  assert (NoDup [1; 2]) as Hnd by (apply (bool_decide_unpack _); by vm_compute).
  destruct (wp_elim _ _ _ (aio_batch_completes disk_rc disk_io newest (fun _ _ => eq_refl) disk_io_ok newest_ok demo ademo 1 [] 4 [1; 2] demo_sound eq_refl
    ltac:(lia) ltac:(by vm_compute) ltac:(discriminate) Hnd demo_valid ltac:(by vm_compute) ltac:(by vm_compute) ltac:(by vm_compute) ltac:(by vm_compute)))
    as (cs & s' & E & Hcs & done & Hd & Hc & _).
  exists s'. split; [rewrite <- Hcs; exact E|]. exists done. split; [exact Hd|exact Hc].
Defined.


(** The state after nvfuse_aio_queue_init *)
Definition demo_queue : ast unit disk := default demo (snd <$> nvfuse_aio_queue_init 4 demo).
Lemma submission_moves_blocks_witness : exists s' js, nvfuse_aio_queue_submission 1 demo_queue = Some (0, s') /\
  concat (moves <$> js) = [(1002, 8192); (1003, 12288); (1004, 16384)].
Proof.
  assert (aio_ok demo_queue (reset ademo 1 (4 * 2 + 1)) 1) as Ok.
  { destruct (wp_elim _ _ _ (aio_init_wp demo ademo 1 [] 4 demo_sound eq_refl ltac:(lia) ltac:(by vm_compute))) as (c & s' & E & _ & Ok & _).
    unfold demo_queue. rewrite E. exact Ok. }
  assert (can_submit demo_queue (reset ademo 1 (4 * 2 + 1)) 1 1 read3 (fun lb => 1000 + lb) 100 2 3) as Hs.
  { split; [split; [by vm_compute|done]|apply not_elem_of_nil|done|exists 9; split; [apply lookup_insert_eq|by vm_compute]|by vm_compute|by vm_compute]. }
  destruct (wp_elim _ _ _ (submission_moves_blocks disk_rc disk_io newest (fun _ _ => eq_refl) disk_io_ok newest_ok demo_queue _ 1 1 read3 _ 100 2 3 Ok Hs))
    as (c & s' & E & Hc & A' & xs & js & _ & _ & Hm & _).
  exists s', js. split; [rewrite <- Hc; exact E|]. rewrite Hm. by vm_compute.
Defined.
End demo.

End AioThms.
