(* ===== verification/InodeCache.v ===== *)
(** * The cache of inode contexts (nvfuse_inode_cache.c, nvfuse_core.c)

    Contexts are objects named by a number, in the lists and buckets of their
    manager, as the buffers in [BufferCache].  The inode of a context is the
    contents of its buffer: reading an inode takes its block of the inode table
    from the buffer cache and keeps the buffer head in the context.

    spdk_dma_malloc does not initialise the memory of the contexts: [mem] is what
    it holds.  NVFUSE_KEEP_DIRTY_BH_IN_ICTX is not defined, so that the lists of
    dirty buffer heads of a context are never used; their counters are. *)
From Stdlib Require Import String.
From S2P Require Import Prelude Layout BufferCache.
Import Layout BufferCache.

Module InodeCache.

Definition INODE_STATE_NEW : Z := 0.
Definition INODE_STATE_CLEAN : Z := 1.
Definition INODE_STATE_DIRTY : Z := 2.
Definition INODE_STATE_SYNC : Z := 3.
Definition INODE_STATE_LOCK : Z := 4.
Definition BUFFER_STATUS_DIRTY : Z := 2.
Definition NVFUSE_ICTXC_SIZE : Z := 32 * 1024.
Definition ITABLE_INO : Z := 5.
Definition INODE_ENTRY_NUM : Z := 1.
Definition ROOT_INO : Z := 2.

(** struct nvfuse_inode_ctx without its links; [ictx_inode] and [ictx_bh] are
    set together. *)
Record nvfuse_inode_ctx := mk_ictx {
  ictx_lock : bool;
  ictx_ino : Z;
  ictx_bh : option nvfuse_buffer_head;
  ictx_meta_dirty_count : Z;
  ictx_data_dirty_count : Z;
  ictx_type : Z;
  ictx_status : Z;
  ictx_ref : Z }.

Definition set_ictx_lock v (c : nvfuse_inode_ctx) := mk_ictx v (ictx_ino c) (ictx_bh c) (ictx_meta_dirty_count c)
  (ictx_data_dirty_count c) (ictx_type c) (ictx_status c) (ictx_ref c).
Definition set_ictx_ino v (c : nvfuse_inode_ctx) := mk_ictx (ictx_lock c) v (ictx_bh c) (ictx_meta_dirty_count c)
  (ictx_data_dirty_count c) (ictx_type c) (ictx_status c) (ictx_ref c).
Definition set_ictx_bh v (c : nvfuse_inode_ctx) := mk_ictx (ictx_lock c) (ictx_ino c) v (ictx_meta_dirty_count c)
  (ictx_data_dirty_count c) (ictx_type c) (ictx_status c) (ictx_ref c).
Definition set_ictx_type v (c : nvfuse_inode_ctx) := mk_ictx (ictx_lock c) (ictx_ino c) (ictx_bh c) (ictx_meta_dirty_count c)
  (ictx_data_dirty_count c) v (ictx_status c) (ictx_ref c).
Definition set_ictx_status v (c : nvfuse_inode_ctx) := mk_ictx (ictx_lock c) (ictx_ino c) (ictx_bh c) (ictx_meta_dirty_count c)
  (ictx_data_dirty_count c) (ictx_type c) v (ictx_ref c).
Definition set_ictx_ref v (c : nvfuse_inode_ctx) := mk_ictx (ictx_lock c) (ictx_ino c) (ictx_bh c) (ictx_meta_dirty_count c)
  (ictx_data_dirty_count c) (ictx_type c) (ictx_status c) v.
Definition set_state (i : Z) (c : nvfuse_inode_ctx) := set_ictx_status (Z.setbit (ictx_status c) i) c.
Definition clear_state (i : Z) (c : nvfuse_inode_ctx) := set_ictx_status (Z.clearbit (ictx_status c) i) c.

(** struct nvfuse_ictx_manager with its contexts, and the buffer cache *)
Record sys := mk_sys {
  ictxc_lock : bool;
  ictxs : gmap Z nvfuse_inode_ctx;
  ictxc_list : gmap Z (list Z);
  ictxc_hash : gmap Z (list Z);
  ictxc_list_count : gmap Z Z;
  ictxc_hash_count : gmap Z Z;
  sys_bm : bm }.

Definition set_ic_lock v (s : sys) := mk_sys v (ictxs s) (ictxc_list s) (ictxc_hash s) (ictxc_list_count s) (ictxc_hash_count s) (sys_bm s).
Definition set_ictxs v (s : sys) := mk_sys (ictxc_lock s) v (ictxc_list s) (ictxc_hash s) (ictxc_list_count s) (ictxc_hash_count s) (sys_bm s).
Definition set_ic_list v (s : sys) := mk_sys (ictxc_lock s) (ictxs s) v (ictxc_hash s) (ictxc_list_count s) (ictxc_hash_count s) (sys_bm s).
Definition set_ic_hash v (s : sys) := mk_sys (ictxc_lock s) (ictxs s) (ictxc_list s) v (ictxc_list_count s) (ictxc_hash_count s) (sys_bm s).
Definition set_ic_count v (s : sys) := mk_sys (ictxc_lock s) (ictxs s) (ictxc_list s) (ictxc_hash s) v (ictxc_hash_count s) (sys_bm s).
Definition set_ic_hash_count v (s : sys) := mk_sys (ictxc_lock s) (ictxs s) (ictxc_list s) (ictxc_hash s) (ictxc_list_count s) v (sys_bm s).
Definition set_bm v (s : sys) := mk_sys (ictxc_lock s) (ictxs s) (ictxc_list s) (ictxc_hash s) (ictxc_list_count s) (ictxc_hash_count s) v.

Notation IM := (M sys).

(** An operation of the buffer cache *)
Definition on_bm {A} (m : BM A) : IM A := fun s =>
  match m (sys_bm s) with Some (a, b) => Some (a, set_bm b s) | None => None end.

Definition ilst (s : sys) (t : Z) : list Z := default [] (ictxc_list s !! t).
Definition ibucket (s : sys) (h : Z) : list Z := default [] (ictxc_hash s !! h).
Definition icount (s : sys) (t : Z) : Z := default 0 (ictxc_list_count s !! t).
Definition ihash_count (s : sys) (h : Z) : Z := default 0 (ictxc_hash_count s !! h).

Definition get_ctx (id : Z) : IM nvfuse_inode_ctx := fun s => mlift (ictxs s !! id) s.
Definition upd_ctx (id : Z) (f : nvfuse_inode_ctx -> nvfuse_inode_ctx) : IM unit :=
  c ← get_ctx id; mmodify (fun s => set_ictxs (<[ id := f c ]> (ictxs s)) s).

Definition ic_spin_lock : IM unit := s ← mget; massert (negb (ictxc_lock s));; mput (set_ic_lock true s).
Definition ic_spin_unlock : IM unit := mmodify (set_ic_lock false).
Definition ctx_spin_lock (id : Z) : IM unit := c ← get_ctx id; massert (negb (ictx_lock c));; upd_ctx id (set_ictx_lock true).
Definition ctx_spin_unlock (id : Z) : IM unit := upd_ctx id (set_ictx_lock false).

Definition ilist_del (id : Z) : IM unit := mmodify (fun s => set_ic_list (without id <$> ictxc_list s) s).
Definition ihlist_del (id : Z) : IM unit := mmodify (fun s => set_ic_hash (without id <$> ictxc_hash s) s).
Definition ilist_add (id t : Z) : IM unit := mmodify (fun s => set_ic_list (<[ t := id :: ilst s t ]> (ictxc_list s)) s).
Definition ihlist_add_head (id h : Z) : IM unit := mmodify (fun s => set_ic_hash (<[ h := id :: ibucket s h ]> (ictxc_hash s)) s).
Definition icount_add (t d : Z) : IM unit := mmodify (fun s => set_ic_count (<[ t := s32 (icount s t + d) ]> (ictxc_list_count s)) s).
Definition ihash_count_add (h d : Z) : IM unit :=
  mmodify (fun s => set_ic_hash_count (<[ h := s32 (ihash_count s h + d) ]> (ictxc_hash_count s)) s).

(** src/nvfuse_inode_cache.c: nvfuse_ictx_hash_lookup *)
Fixpoint ictx_scan (l : list Z) (ino : Z) : IM (option Z) :=
  match l with
  | [] => mret None
  | id :: l => c ← get_ctx id; if ictx_ino c =? ino then mret (Some id) else ictx_scan l ino
  end.
Definition nvfuse_ictx_hash_lookup (ino : Z) : IM (option Z) := s ← mget; ictx_scan (ibucket s (ino mod HASH_NUM)) ino.

(** The search for a victim takes the lock of every context it looks at; the
    lock of the victim stays taken.  Without one the code sleeps for ever. *)
Fixpoint ictx_victim (l : list Z) : IM Z :=
  match l with
  | [] => mabort
  | id :: l =>
      ctx_spin_lock id;;
      c ← get_ctx id;
      if (ictx_ref c =? 0) && (ictx_data_dirty_count c =? 0) && (ictx_meta_dirty_count c =? 0) then mret id
      else ctx_spin_unlock id;; ictx_victim l
  end.

(** src/nvfuse_inode_cache.c: nvfuse_replace_ictx *)
Definition nvfuse_replace_ictx : IM Z :=
  s ← mget;
  massert (ictxc_lock s);;
  type ←
    (if negb (icount s BUFFER_TYPE_UNUSED =? 0) then mret BUFFER_TYPE_UNUSED
     else if negb (icount s BUFFER_TYPE_CLEAN =? 0) then mret BUFFER_TYPE_CLEAN
     else on_bm (nvfuse_check_flush_dirty true);; mret BUFFER_TYPE_DIRTY);
  s ← mget;
  massert (negb (icount s type =? 0));;
  id ← ictx_victim (rev (ilst s type));
  ilist_del id;;
  ihlist_del id;;
  icount_add type (-1);;
  c ← get_ctx id;
  ihash_count_add (if type =? BUFFER_TYPE_UNUSED then HASH_NUM else ictx_ino c mod HASH_NUM) (-1);;
  ctx_spin_unlock id;;
  mret id.

(** src/nvfuse_inode_cache.c: nvfuse_init_ictx *)
Definition nvfuse_init_ictx (id ino : Z) : IM unit :=
  upd_ctx id (fun _ => mk_ictx false ino None 0 0 0 INODE_STATE_NEW 0).

(** src/nvfuse_inode_cache.c: nvfuse_alloc_ictx *)
Definition nvfuse_alloc_ictx : IM Z :=
  ic_spin_lock;;
  id ← nvfuse_replace_ictx;
  ic_spin_unlock;;
  nvfuse_init_ictx id 0;;
  mret id.

(** src/nvfuse_inode_cache.c: nvfuse_insert_ictx; its last test never holds,
    since the type is REF. *)
Definition nvfuse_insert_ictx (id : Z) : IM unit :=
  c ← get_ctx id;
  let ino := ictx_ino c in
  ihlist_add_head id (ino mod HASH_NUM);;
  ihash_count_add (ino mod HASH_NUM) 1;;
  ilist_add id BUFFER_TYPE_REF;;
  icount_add BUFFER_TYPE_REF 1;;
  upd_ctx id (set_ictx_type BUFFER_TYPE_REF).

(** src/nvfuse_inode_cache.c: nvfuse_get_ictx *)
Definition nvfuse_get_ictx (ino : Z) : IM Z :=
  ic_spin_lock;;
  r ← nvfuse_ictx_hash_lookup ino;
  id ← match r with
       | Some id => mret id
       | None =>
           id ← nvfuse_replace_ictx;
           nvfuse_init_ictx id ino;;
           c ← get_ctx id;
           massert (ictx_ino c =? ino);;
           nvfuse_insert_ictx id;;
           mret id
       end;
  c ← get_ctx id;
  ilist_del id;;
  ilist_add id (ictx_type c);;
  massert (negb ((ictx_type c =? BUFFER_TYPE_CLEAN) &&
                 (negb (ictx_data_dirty_count c =? 0) || negb (ictx_meta_dirty_count c =? 0))));;
  ctx_spin_lock id;;
  upd_ctx id (set_state INODE_STATE_LOCK);;
  ic_spin_unlock;;
  mret id.

(** src/nvfuse_inode_cache.c: nvfuse_move_ictx_list; the count of the bucket that
    the context leaves is not decremented. *)
Definition nvfuse_move_ictx_list (id desired_type : Z) : IM unit :=
  ic_spin_lock;;
  c ← get_ctx id;
  ilist_del id;;
  icount_add (ictx_type c) (-1);;
  upd_ctx id (set_ictx_type desired_type);;
  ilist_add id desired_type;;
  icount_add desired_type 1;;
  ihlist_del id;;
  (let h := if desired_type =? BUFFER_TYPE_UNUSED then HASH_NUM else ictx_ino c mod HASH_NUM in
   ihlist_add_head id h;; ihash_count_add h 1);;
  ic_spin_unlock.

(** src/nvfuse_inode_cache.c: nvfuse_release_ictx *)
Definition nvfuse_release_ictx (id : Z) : IM unit :=
  c ← get_ctx id;
  massert ((ictx_data_dirty_count c =? 0) && (ictx_meta_dirty_count c =? 0));;
  upd_ctx id (set_state INODE_STATE_CLEAN);;
  upd_ctx id (fun c => set_ictx_ref (s32 (ictx_ref c - 1)) (set_ictx_bh None c));;
  c ← get_ctx id;
  massert (0 <=? ictx_ref c);;
  nvfuse_move_ictx_list id BUFFER_TYPE_CLEAN;;
  upd_ctx id (clear_state INODE_STATE_LOCK);;
  ctx_spin_unlock id.

(** src/nvfuse_inode_cache.c: nvfuse_init_ictx_cache, on memory that holds [mem] *)
Fixpoint init_ictx_loop (mem : Z -> nvfuse_inode_ctx) (n : nat) (i : Z) : IM unit :=
  match n with
  | O => mret tt
  | S n =>
      mmodify (fun s => set_ictxs (<[ i := mem i ]> (ictxs s)) s);;
      ilist_add i BUFFER_TYPE_UNUSED;;
      ihlist_add_head i HASH_NUM;;
      ihash_count_add HASH_NUM 1;;
      icount_add BUFFER_TYPE_UNUSED 1;;
      init_ictx_loop mem n (i + 1)
  end.
Definition empty_sys (b : bm) : sys := mk_sys false ∅ ∅ ∅ ∅ ∅ b.
Definition nvfuse_init_ictx_cache (mem : Z -> nvfuse_inode_ctx) : IM Z :=
  mmodify (fun s => empty_sys (sys_bm s));;
  init_ictx_loop mem (Z.to_nat NVFUSE_ICTXC_SIZE) 0;;
  mret 0.

(** src/nvfuse_inode_cache.c: nvfuse_deinit_ictx_cache *)
Fixpoint deinit_ictx_list (l : list Z) (removed_count : Z) : IM Z :=
  match l with
  | [] => mret removed_count
  | id :: l => ilist_del id;; deinit_ictx_list l (removed_count + 1)
  end.
Fixpoint deinit_ictx_types (n : nat) (type removed_count : Z) : IM Z :=
  match n with
  | O => mret removed_count
  | S n => s ← mget; r ← deinit_ictx_list (ilst s type) removed_count; deinit_ictx_types n (type + 1) r
  end.
Definition nvfuse_deinit_ictx_cache : IM unit :=
  removed_count ← deinit_ictx_types (Z.to_nat BUFFER_TYPE_NUM) BUFFER_TYPE_UNUSED 0;
  massert (removed_count =? NVFUSE_ICTXC_SIZE).

(** src/nvfuse_inode_cache.c: nvfuse_decode_ictx_status *)
Definition nvfuse_decode_ictx_status (status : Z) : string :=
  let flag i name := if negb (Z.land status (Z.shiftl 1 i) =? 0) then name else EmptyString in
  String.concat EmptyString
    [flag INODE_STATE_NEW "NEW "%string; flag INODE_STATE_CLEAN "CLEAN "%string; flag INODE_STATE_DIRTY "DIRTY "%string;
     flag INODE_STATE_SYNC "SYNC "%string; flag INODE_STATE_LOCK "LOCK "%string].

Section read.
Context (pbn : Z -> Z -> Z).

(** The number at the start of an inode *)
Definition i_ino_at (l : list Z) : Z :=
  nth 0 l 0 + nth 1 l 0 * 2 ^ 8 + nth 2 l 0 * 2 ^ 16 + nth 3 l 0 * 2 ^ 24.

(** src/nvfuse_core.c: nvfuse_read_inode; without a buffer head it returns NULL,
    with the context locked. *)
Definition nvfuse_read_inode (ictx_given : option Z) (ino : Z) : IM (option Z) :=
  if ino <? ROOT_INO then mret None
  else
    id ← match ictx_given with
         | None => nvfuse_get_ictx ino
         | Some id => upd_ctx id (set_ictx_ino ino);; mret id
         end;
    c ← get_ctx id;
    massert (ictx_lock c);;
    massert (Z.testbit (ictx_status c) INODE_STATE_LOCK);;
    massert (ictx_ino c =? ino);;
    bh ← on_bm (nvfuse_get_bh pbn ITABLE_INO (ino / INODE_ENTRY_NUM) true true);
    match bh with
    | None => mret None
    | Some bh =>
        b ← on_bm (get_obj (bh_bc bh));
        massert (i_ino_at (bc_buf b) =? ino);;
        upd_ctx id (fun c => set_ictx_ref (s32 (ictx_ref c + 1)) (set_ictx_bh (Some bh) c));;
        mret (Some id)
    end.

End read.

(** src/nvfuse_core.c: nvfuse_mark_inode_dirty sets the bit of a buffer status in
    the status of the context. *)
Definition nvfuse_mark_inode_dirty (id : Z) : IM unit := upd_ctx id (set_state BUFFER_STATUS_DIRTY).
(** src/nvfuse_core.c: nvfuse_inode_has_dirty *)
Definition nvfuse_inode_has_dirty (c : nvfuse_inode_ctx) : Z := s32 (ictx_data_dirty_count c + ictx_meta_dirty_count c).

(** src/nvfuse_core.c: nvfuse_release_inode *)
Definition nvfuse_release_inode (ictx : option Z) (dirty : bool) : IM unit :=
  match ictx with
  | None => mret tt
  | Some id =>
      c ← get_ctx id;
      (match ictx_bh c with
       | Some bh => on_bm (nvfuse_release_bh (Some (mk_bh (bh_bc bh) true (bh_dirty bh))) false dirty)
       | None => mret tt
       end);;
      nvfuse_release_ictx id
  end.

(** Making an inode, as in nvfuse_createfile and nvfuse_mkdir: a context, locked
    and dirty; the inode that [alloc], nvfuse_alloc_new_inode, gives; the inode is
    read and the context inserted without the lock of the manager. *)
Definition create_ictx (pbn : Z -> Z -> Z) (alloc : BM Z) : IM (option Z) :=
  id ← nvfuse_alloc_ictx;
  ctx_spin_lock id;;
  upd_ctx id (set_state INODE_STATE_LOCK);;
  upd_ctx id (set_state INODE_STATE_DIRTY);;
  ino ← on_bm alloc;
  r ← nvfuse_read_inode pbn (Some id) ino;
  match r with
  | None => mret None
  | Some id => nvfuse_insert_ictx id;; mret (Some id)
  end.

End InodeCache.
