(* ===== verification/IctxRules.v ===== *)
(** * The cache of inode contexts: invariant and rules

    [IctxSpec] has the invariant and the abstract cache, [IctxRules] lookup,
    replacement and the taking of a context. *)
From S2P Require Import Prelude Layout BufferCache BufferRules InodeCache.
Import Layout BufferCache CacheLists InodeCache.

(** ** The cache of inode contexts: invariant and the abstract cache

    [icache]: the number of unused contexts, the inodes of the clean contexts
    and of those taken on a miss, the most recently used first, and the inodes
    in use.  [irep] ties it to the manager. *)
Module IctxSpec.

Notation ilists_ok := (CacheLists.lists_ok ictx_type).
Notation ihash_ok := (CacheLists.hash_ok ictx_type ictx_ino).

Record icache := mk_icache { ic_free : Z; ic_clean : list Z; ic_ref : list Z; ic_held : gset Z }.

(** Operations of the abstract cache *)
Definition drop_ino (x : Z) (a : icache) : icache := mk_icache (ic_free a) (without x (ic_clean a)) (without x (ic_ref a)) (ic_held a).
Definition push_clean (x : Z) (a : icache) : icache := mk_icache (ic_free a) (x :: ic_clean a) (ic_ref a) (ic_held a).
Definition push_ref (x : Z) (a : icache) : icache := mk_icache (ic_free a) (ic_clean a) (x :: ic_ref a) (ic_held a).
Definition take_free (a : icache) : icache := mk_icache (ic_free a - 1) (ic_clean a) (ic_ref a) (ic_held a).
Definition hold_ino (x : Z) (a : icache) : icache := mk_icache (ic_free a) (ic_clean a) (ic_ref a) ({[ x ]} ∪ ic_held a).
Definition unhold (x : Z) (a : icache) : icache := mk_icache (ic_free a) (ic_clean a) (ic_ref a) (ic_held a ∖ {[ x ]}).

Definition ino_of (s : sys) (id : Z) : Z := match ictxs s !! id with Some c => ictx_ino c | None => 0 end.

(** The context of an inode *)
Definition at_ino (s : sys) (ino id : Z) (c : nvfuse_inode_ctx) : Prop :=
  ictxs s !! id = Some c /\ id ∈ ibucket s (ino mod HASH_NUM) /\ ictx_ino c = ino.

(** A context that is cached *)
Definition ctx_ok (a : icache) (c : nvfuse_inode_ctx) : Prop :=
  ictx_data_dirty_count c = 0 /\ ictx_meta_dirty_count c = 0 /\
  ((ictx_type c = BUFFER_TYPE_UNUSED /\ ictx_lock c = false /\ ictx_ref c = 0) \/
   ((ictx_type c = BUFFER_TYPE_CLEAN \/ (ictx_type c = BUFFER_TYPE_REF /\ ictx_ino c ∈ ic_held a)) /\
    (if decide (ictx_ino c ∈ ic_held a)
     then ictx_lock c = true /\ ictx_ref c = 1 /\ Z.testbit (ictx_status c) INODE_STATE_LOCK = true
     else ictx_lock c = false /\ ictx_ref c = 0))).

Record irep (s : sys) (a : icache) : Prop := {
  ir_lock : ictxc_lock s = false;
  ir_lists : ilists_ok (ictxs s) (ilst s) (icount s);
  ir_hash : ihash_ok (ictxs s) (ibucket s);
  ir_free : icount s BUFFER_TYPE_UNUSED = ic_free a;
  ir_clean : ino_of s <$> ilst s BUFFER_TYPE_CLEAN = ic_clean a;
  ir_ref : ino_of s <$> ilst s BUFFER_TYPE_REF = ic_ref a;
  ir_unused : forall id c, ictxs s !! id = Some c -> ictx_type c = BUFFER_TYPE_UNUSED -> id ∈ ibucket s HASH_NUM;
  ir_ctx : forall id c, ictxs s !! id = Some c -> ctx_ok a c;
  ir_held : forall ino, ino ∈ ic_held a -> ino ∈ ic_clean a \/ ino ∈ ic_ref a }.

(** ** The context of an inode *)

Section rep.
Implicit Types (s : sys) (a : icache) (c : nvfuse_inode_ctx).

Lemma hash_lt ino : ino mod HASH_NUM <> HASH_NUM.
Proof. unfold HASH_NUM. dmlia. Qed.

Lemma at_ino_fun s ino id id' c c' : ihash_ok (ictxs s) (ibucket s) -> at_ino s ino id c -> at_ino s ino id' c' -> id = id' /\ c = c'.
Proof.
  intros Hh (Hb & Hi & Hn) (Hb' & Hi' & Hn'). assert (id = id') as ->.
  { eapply (ha_uniq _ _ Hh); [apply (hash_lt ino)|done..|congruence]. }
  split; [done|congruence].
Qed.

(** A context that is not unused has an inode. *)
Lemma cached_at s a id c : irep s a -> ictxs s !! id = Some c -> ictx_type c <> BUFFER_TYPE_UNUSED -> at_ino s (ictx_ino c) id c.
Proof.
  intros R Hc Ht. split; [done|]. split; [|done]. pose proof (ir_hash _ _ R) as Hh.
  destruct (ha_all _ _ Hh id) as [h Hi]; [by exists c|].
  assert (h <> HASH_NUM) as Hne by (intros ->; by apply Ht, (ha_unused _ _ Hh id)).
  by rewrite (ha_key _ _ Hh h id c).
Qed.

Lemma at_cached s ino id c : ihash_ok (ictxs s) (ibucket s) -> (forall id c, ictxs s !! id = Some c -> ictx_type c = BUFFER_TYPE_UNUSED -> id ∈ ibucket s HASH_NUM) ->
  at_ino s ino id c -> ictx_type c <> BUFFER_TYPE_UNUSED.
Proof.
  intros Hh Hu (Hc & Hi & _) Ht. apply (hash_lt ino). eapply (ha_once _ _ Hh); [exact Hi|]. by eapply Hu.
Qed.

Lemma in_list s a t ino : irep s a -> t = BUFFER_TYPE_CLEAN \/ t = BUFFER_TYPE_REF ->
  ino ∈ ino_of s <$> ilst s t <-> exists id c, at_ino s ino id c /\ ictx_type c = t.
Proof.
  intros R Ht. rewrite list_elem_of_fmap. split.
  - intros (id & -> & (c & Hc & Hct)%(li_in _ _ _ (ir_lists _ _ R))). exists id, c. split; [|done].
    unfold ino_of. rewrite Hc. apply (cached_at s a); [done..|]. rewrite Hct. by destruct Ht as [->| ->].
  - intros (id & c & (Hc & Hi & Hn) & Hct). exists id. unfold ino_of. rewrite Hc. split; [done|].
    apply (ir_lists _ _ R). by exists c.
Qed.

Lemma in_cache s a ino : irep s a -> (ino ∈ ic_clean a \/ ino ∈ ic_ref a) <-> exists id c, at_ino s ino id c.
Proof.
  intros R. rewrite <- (ir_clean _ _ R), <- (ir_ref _ _ R), !(in_list s a) by (done || tauto). split.
  - intros [(id & c & ? & _)|(id & c & ? & _)]; by exists id, c.
  - intros (id & c & Hat). pose proof Hat as (Hc & _). destruct (ir_ctx _ _ R id c Hc) as (_ & _ & [(Ht & _)|([Ht|[Ht _]] & _)]).
    + exfalso. by apply (at_cached s ino id c (ir_hash _ _ R) (ir_unused _ _ R) Hat).
    + left. by exists id, c.
    + right. by exists id, c.
Qed.

(** ** One context moves *)

Lemma names_without s s' id x l : (forall y, y ∈ l -> y <> id -> ino_of s' y = ino_of s y) ->
  (forall y, y ∈ l -> y <> id -> ino_of s y <> x) -> (id ∈ l -> ino_of s id = x) ->
  ino_of s' <$> without id l = without x (ino_of s <$> l).
Proof.
  induction l as [|y l IH]; intros He Hx Hid; [done|]. unfold without in *. cbn [fmap list_fmap].
  destruct (decide (y = id)) as [->|Hne].
  - rewrite filter_cons_False by tauto. rewrite filter_cons_False by (rewrite Hid; [tauto|apply elem_of_cons; by left]).
    apply IH; intros; [apply He|eapply Hx|apply Hid]; try done; apply elem_of_cons; by right.
  - rewrite filter_cons_True by done. rewrite filter_cons_True by (apply Hx; [apply elem_of_cons; by left|done]). cbn [fmap list_fmap].
    f_equal; [apply He; [apply elem_of_cons; by left|done]|].
    apply IH; intros; [apply He|eapply Hx|apply Hid]; try done; apply elem_of_cons; by right.
Qed.

Lemma names_same s s' id l : (forall y, y <> id -> ino_of s' y = ino_of s y) -> id ∉ l -> ino_of s' <$> without id l = ino_of s <$> l.
Proof.
  intros He Hid. rewrite without_notin by done. apply list_fmap_ext. intros i y Hy. apply He. intros ->.
  by apply Hid, (list_elem_of_lookup_2 _ i).
Qed.

(** The abstract cache without the context [c] *)
Definition leave c a : icache := if ictx_type c =? BUFFER_TYPE_UNUSED then take_free a else drop_ino (ictx_ino c) a.
Definition enter c a : icache := if ictx_type c =? BUFFER_TYPE_CLEAN then push_clean (ictx_ino c) a else push_ref (ictx_ino c) a.
Definition set_held h a : icache := mk_icache (ic_free a) (ic_clean a) (ic_ref a) h.

Lemma irep_change s s' a id c c' h :
  irep s a -> ictxs s !! id = Some c -> ictxs s' = <[ id := c' ]> (ictxs s) -> ictxc_lock s' = false ->
  ictx_type c' = BUFFER_TYPE_CLEAN \/ ictx_type c' = BUFFER_TYPE_REF ->
  (forall t, ilst s' t = if t =? ictx_type c' then id :: without id (ilst s t) else without id (ilst s t)) ->
  (forall t, icount s' t = icount s t - (if t =? ictx_type c then 1 else 0) + (if t =? ictx_type c' then 1 else 0)) ->
  ihash_ok (ictxs s') (ibucket s') -> (forall x, x <> id -> x ∈ ibucket s HASH_NUM -> x ∈ ibucket s' HASH_NUM) ->
  (forall x cx, x <> id -> ictxs s !! x = Some cx -> ictx_type cx <> BUFFER_TYPE_UNUSED -> ictx_ino cx ∈ h <-> ictx_ino cx ∈ ic_held a) ->
  (forall ino, ino ∈ h -> ino = ictx_ino c' \/ (ino ∈ ic_held a /\ (ictx_type c = BUFFER_TYPE_UNUSED \/ ino <> ictx_ino c))) ->
  ctx_ok (set_held h a) c' -> irep s' (set_held h (enter c' (leave c a))).
Proof.
  intros R Hc Es Elock Ht' El Ec Hh Hu HhA HhB Hok. pose proof (ir_lists _ _ R) as Hl.
  assert (forall y, y <> id -> ino_of s' y = ino_of s y) as Hino.
  { intros y Hy. unfold ino_of. by rewrite Es, lookup_insert_ne. }
  assert (ino_of s' id = ictx_ino c') as Hino' by (unfold ino_of; by rewrite Es, lookup_insert_eq).
  assert (forall t, t = BUFFER_TYPE_CLEAN \/ t = BUFFER_TYPE_REF ->
    ino_of s' <$> without id (ilst s t) = if ictx_type c =? BUFFER_TYPE_UNUSED then ino_of s <$> ilst s t else without (ictx_ino c) (ino_of s <$> ilst s t)) as Hwo.
  { intros t Ht. destruct (Z.eqb_spec (ictx_type c) BUFFER_TYPE_UNUSED) as [E|E].
    - apply names_same; [done|]. intros (c0 & Hc0 & Ht0)%Hl. assert (c0 = c) as -> by congruence. rewrite E in Ht0. by destruct Ht as [->| ->].
    - apply (names_without s s' id); [intros; by apply Hino| |intros _; unfold ino_of; by rewrite Hc].
      intros y (cy & Hy & Hty)%Hl Hne. unfold ino_of. rewrite Hy. intros En. apply Hne.
      assert (at_ino s (ictx_ino c) id c) as A1 by (by apply (cached_at s a)).
      assert (at_ino s (ictx_ino cy) y cy) as A2 by (apply (cached_at s a); [done..|rewrite Hty; by destruct Ht as [->| ->]]).
      rewrite En in A2. symmetry. by apply (at_ino_fun s _ _ _ _ _ (ir_hash _ _ R) A1 A2). }
  assert (0 <= ictx_type c' < BUFFER_TYPE_NUM) as Hrange by (unfold BUFFER_TYPE_NUM; destruct Ht' as [->| ->]; by split).
  assert (ictx_type c' <> BUFFER_TYPE_UNUSED) as Hne' by (destruct Ht' as [->| ->]; done).
  split; try done.
  - rewrite Es. eapply (lists_moved (ictxs s) (ilst s) (icount s) (ilst s') (icount s') id c c' false); try done.
  - rewrite Ec, (ir_free _ _ R), (proj2 (Z.eqb_neq BUFFER_TYPE_UNUSED (ictx_type c'))) by congruence. rewrite Z.eqb_sym.
    unfold leave, enter. destruct (ictx_type c =? BUFFER_TYPE_UNUSED), (ictx_type c' =? BUFFER_TYPE_CLEAN); cbn; lia.
  - rewrite El. unfold leave, enter. rewrite Z.eqb_sym. destruct (ictx_type c' =? BUFFER_TYPE_CLEAN); cbn [fmap list_fmap];
      rewrite ?Hino', Hwo by (by left); rewrite (ir_clean _ _ R); destruct (ictx_type c =? BUFFER_TYPE_UNUSED); done.
  - rewrite El. unfold leave, enter. rewrite Z.eqb_sym.
    assert ((ictx_type c' =? BUFFER_TYPE_REF) = negb (ictx_type c' =? BUFFER_TYPE_CLEAN)) as -> by (destruct Ht' as [->| ->]; done).
    destruct (ictx_type c' =? BUFFER_TYPE_CLEAN); cbn [fmap list_fmap negb];
      rewrite ?Hino', Hwo by (by right); rewrite (ir_ref _ _ R); destruct (ictx_type c =? BUFFER_TYPE_UNUSED); done.
  - intros x cx. rewrite Es. intros [[<- <-]|[Hne Hx]]%lookup_insert_Some; [done|]. intros Ht. apply Hu; [done|]. by apply (ir_unused _ _ R x cx).
  - intros x cx. rewrite Es. intros [[<- <-]|[Hne Hx]]%lookup_insert_Some; [done|].
    destruct (ir_ctx _ _ R x cx Hx) as (H1 & H2 & H3). split; [done|]. split; [done|]. destruct H3 as [H3|[H3 H4]]; [by left|right].
    assert (ictx_type cx <> BUFFER_TYPE_UNUSED) as Hnu by (destruct H3 as [->|[-> _]]; done).
    pose proof (HhA x cx (not_eq_sym Hne) Hx Hnu) as Hiff. cbn [set_held ic_held]. split; [by rewrite Hiff|].
    destruct (decide (ictx_ino cx ∈ ic_held a)) as [Hi|Hi]; [by rewrite decide_True by tauto|by rewrite decide_False by tauto].
  - cbn [set_held ic_held]. intros ino Hi. assert (forall b, ic_clean (set_held h b) = ic_clean b /\ ic_ref (set_held h b) = ic_ref b) as Hset by done.
    destruct (Hset (enter c' (leave c a))) as [-> ->]. destruct (HhB ino Hi) as [->|[Hold Hne]].
    + unfold enter. destruct (ictx_type c' =? BUFFER_TYPE_CLEAN); cbn; rewrite !elem_of_cons; tauto.
    + assert (ino ∈ ic_clean (leave c a) \/ ino ∈ ic_ref (leave c a)) as Hin.
      { unfold leave. destruct (Z.eqb_spec (ictx_type c) BUFFER_TYPE_UNUSED); [by apply (ir_held _ _ R)|].
        destruct Hne as [?|Hne]; [done|]. cbn. rewrite !elem_without. destruct (ir_held _ _ R ino Hold); tauto. }
      unfold enter. destruct (ictx_type c' =? BUFFER_TYPE_CLEAN); cbn; rewrite !elem_of_cons; tauto.
Qed.

(** A context changes in place. *)
Lemma irep_same s s' a id c c' : irep s a -> ictxs s !! id = Some c -> ictxs s' = <[ id := c' ]> (ictxs s) ->
  ictxc_lock s' = false -> ictxc_list s' = ictxc_list s -> ictxc_hash s' = ictxc_hash s -> ictxc_list_count s' = ictxc_list_count s ->
  ictx_type c' = ictx_type c -> ictx_ino c' = ictx_ino c -> ctx_ok a c' -> irep s' a.
Proof.
  intros [R1 R2 R3 R4 R5 R6 R7 R8 R9] Hc Es Elock El Eh Ec Ht Hn Hok.
  assert (ilst s' = ilst s) as EL by (unfold ilst; by rewrite El). assert (ibucket s' = ibucket s) as EB by (unfold ibucket; by rewrite Eh).
  assert (icount s' = icount s) as EC by (unfold icount; by rewrite Ec).
  assert (forall y, ino_of s' y = ino_of s y) as Hino.
  { intros y. unfold ino_of. rewrite Es. destruct (decide (y = id)) as [->|]; [by rewrite lookup_insert_eq, Hc|by rewrite lookup_insert_ne]. }
  split; try done.
  - rewrite Es, EL, EC. by apply (lists_same _ _ _ id c).
  - rewrite Es, EB. apply (hash_same _ _ id c); [done..|]. intros Hu. rewrite Ht. by apply (ha_unused _ _ R3 id).
  - by rewrite EC.
  - rewrite EL, <- R5. apply list_fmap_ext. by intros.
  - rewrite EL, <- R6. apply list_fmap_ext. by intros.
  - intros x cx. rewrite Es, EB. intros [[<- <-]|[_ Hx]]%lookup_insert_Some; [rewrite Ht; by apply R7|by apply R7].
  - intros x cx. rewrite Es. intros [[<- <-]|[_ Hx]]%lookup_insert_Some; [done|by apply (R8 x)].
Qed.

End rep.
End IctxSpec.

(** ** The cache of inode contexts: lookup, replacement, taking a context *)
Import Layout BufferCache CacheLists InodeCache IctxSpec.

Module IctxRules.

(** The projections of an explicit state *)
Ltac icbn := cbn [ictxc_lock ictxs ictxc_list ictxc_hash ictxc_list_count ictxc_hash_count sys_bm set_ic_lock set_ictxs set_ic_list
  set_ic_hash set_ic_count set_ic_hash_count set_bm].

(** Lists and buckets are in order. *)
Definition irep_lists (s : sys) : Prop := ilists_ok (ictxs s) (ilst s) (icount s) /\ ihash_ok (ictxs s) (ibucket s).

Section rules.
Implicit Types (s : sys) (a : icache) (c : nvfuse_inode_ctx).

Lemma wp_ctx id c (Q : nvfuse_inode_ctx -> sys -> Prop) s : ictxs s !! id = Some c -> Q c s -> wp (get_ctx id) Q s.
Proof. intros Hc HQ. unfold wp, get_ctx. by rewrite Hc. Qed.

Lemma wp_upd_ctx id c f (Q : unit -> sys -> Prop) s :
  ictxs s !! id = Some c -> Q tt (set_ictxs (<[ id := f c ]> (ictxs s)) s) -> wp (upd_ctx id f) Q s.
Proof. intros Hc HQ. unfold upd_ctx. wp_step. eapply wp_ctx; [done|]. by wp_steps. Qed.

Lemma wp_ic_lock (Q : unit -> sys -> Prop) s : ictxc_lock s = false -> Q tt (set_ic_lock true s) -> wp ic_spin_lock Q s.
Proof. intros Hl HQ. unfold ic_spin_lock. wp_steps. apply wp_assert; [by rewrite Hl|]. by wp_steps. Qed.

Lemma wp_ctx_lock id c (Q : unit -> sys -> Prop) s : ictxs s !! id = Some c -> ictx_lock c = false ->
  Q tt (set_ictxs (<[ id := set_ictx_lock true c ]> (ictxs s)) s) -> wp (ctx_spin_lock id) Q s.
Proof.
  intros Hc Hl HQ. unfold ctx_spin_lock. wp_step. eapply wp_ctx; [done|]. wp_step. apply wp_assert; [by rewrite Hl|].
  by eapply wp_upd_ctx.
Qed.

Lemma ctx_lock_stuck id c s : ictxs s !! id = Some c -> ictx_lock c = true -> ctx_spin_lock id s = None.
Proof. intros Hc Hl. unfold ctx_spin_lock, mbind, M_bind, get_ctx, mlift, massert. by rewrite Hc, Hl. Qed.

Lemma wp_on_bm {A} (m : BM A) (Q : A -> sys -> Prop) s : wp m (fun x b => Q x (set_bm b s)) (sys_bm s) -> wp (on_bm m) Q s.
Proof. unfold wp, on_bm. by destruct (m (sys_bm s)) as [[x b]|]. Qed.

(** ** Explicit objects *)

Definition iput id c s : sys := set_ictxs (<[ id := c ]> (ictxs s)) s.

Lemma iput_id id c s : ictxs s !! id = Some c -> iput id c s = s.
Proof. intros Hc. unfold iput. rewrite insert_id by done. by destruct s. Qed.

Lemma iput_iput id c c' s : iput id c' (iput id c s) = iput id c' s.
Proof. unfold iput. icbn. by rewrite insert_insert_eq. Qed.

Lemma wp_iput_ctx id c (Q : nvfuse_inode_ctx -> sys -> Prop) s : Q c (iput id c s) -> wp (get_ctx id) Q (iput id c s).
Proof. intros HQ. eapply wp_ctx; [|done]. apply lookup_insert_eq. Qed.

Lemma wp_iput_upd id c f (Q : unit -> sys -> Prop) s : Q tt (iput id (f c) s) -> wp (upd_ctx id f) Q (iput id c s).
Proof.
  intros HQ. eapply wp_upd_ctx; [apply lookup_insert_eq|]. change (set_ictxs _ _) with (iput id (f c) (iput id c s)). by rewrite iput_iput.
Qed.

Lemma wp_iput_lock id c (Q : unit -> sys -> Prop) s : ictx_lock c = false -> Q tt (iput id (set_ictx_lock true c) s) ->
  wp (ctx_spin_lock id) Q (iput id c s).
Proof.
  intros Hl HQ. eapply wp_ctx_lock; [apply lookup_insert_eq|done|]. change (set_ictxs _ _) with (iput id (set_ictx_lock true c) (iput id c s)).
  by rewrite iput_iput.
Qed.

(** ** Lookup *)

Lemma ictx_scan_wp l ino (Q : option Z -> sys -> Prop) s :
  (forall id, id ∈ l -> is_Some (ictxs s !! id)) ->
  (forall id c, id ∈ l -> ictxs s !! id = Some c -> ictx_ino c = ino -> Q (Some id) s) ->
  ((forall id c, id ∈ l -> ictxs s !! id = Some c -> ictx_ino c <> ino) -> Q None s) ->
  wp (ictx_scan l ino) Q s.
Proof.
  induction l as [|id l IH]; intros Hd Hf Hn; cbn [ictx_scan].
  { wp_step. apply Hn. by intros id c ?%elem_of_nil. }
  destruct (Hd id) as [c Hc]; [apply elem_of_cons; by left|]. wp_step. eapply wp_ctx; [exact Hc|].
  destruct (Z.eqb_spec (ictx_ino c) ino) as [E|E]; [wp_step; eapply Hf; [apply elem_of_cons; by left|done..]|].
  apply IH.
  - intros x Hx. apply Hd, elem_of_cons. by right.
  - intros x cx Hx. apply Hf, elem_of_cons. by right.
  - intros Hno. apply Hn. intros x cx [->|Hx]%elem_of_cons; [congruence|by apply Hno].
Qed.

Lemma wp_ictx_lookup ino (Q : option Z -> sys -> Prop) s : ihash_ok (ictxs s) (ibucket s) ->
  (forall id c, at_ino s ino id c -> Q (Some id) s) -> ((forall id c, ~ at_ino s ino id c) -> Q None s) ->
  wp (nvfuse_ictx_hash_lookup ino) Q s.
Proof.
  intros Hh Hf Hn. unfold nvfuse_ictx_hash_lookup. wp_steps. apply ictx_scan_wp.
  - intros id. by apply Hh.
  - intros id c Hi Hb Hk. by apply (Hf id c).
  - intros Hno. apply Hn. intros id c (Hb & Hi & Hk). by apply (Hno id c).
Qed.

(** ** Replacement *)

(** The state after the victim left its list and its bucket *)
Definition idetached (id : Z) c s : sys :=
  let t := ictx_type c in
  let h := if t =? BUFFER_TYPE_UNUSED then HASH_NUM else ictx_ino c mod HASH_NUM in
  set_ic_hash_count (<[ h := s32 (ihash_count s h + -1) ]> (ictxc_hash_count s))
    (set_ic_count (<[ t := s32 (icount s t + -1) ]> (ictxc_list_count s))
       (set_ic_hash (without id <$> ictxc_hash s) (set_ic_list (without id <$> ictxc_list s) s))).

Definition victim_type s : Z := if icount s BUFFER_TYPE_UNUSED =? 0 then BUFFER_TYPE_CLEAN else BUFFER_TYPE_UNUSED.

Lemma replace_ictx_wp (Q : Z -> sys -> Prop) s id c : ictxc_lock s = true ->
  (icount s BUFFER_TYPE_UNUSED <> 0 \/ icount s BUFFER_TYPE_CLEAN <> 0) ->
  last (ilst s (victim_type s)) = Some id -> ictxs s !! id = Some c -> ictx_type c = victim_type s ->
  ictx_lock c = false -> ictx_ref c = 0 -> ictx_data_dirty_count c = 0 -> ictx_meta_dirty_count c = 0 ->
  Q id (idetached id c s) -> wp nvfuse_replace_ictx Q s.
Proof.
  intros Hk Hc Hlast Hid Ht Hl Hr Hd Hm HQ.
  assert (icount s (victim_type s) <> 0) as Hcv by (unfold victim_type; zbool; lia).
  assert (forall (X : Z -> sys -> Prop), X (victim_type s) s -> wp (if negb (icount s BUFFER_TYPE_UNUSED =? 0) then mret BUFFER_TYPE_UNUSED
     else if negb (icount s BUFFER_TYPE_CLEAN =? 0) then mret BUFFER_TYPE_CLEAN
     else on_bm (nvfuse_check_flush_dirty true);; mret BUFFER_TYPE_DIRTY) X s) as Hsel.
  { intros X HX. unfold victim_type in HX, Hcv. destruct (icount s BUFFER_TYPE_UNUSED =? 0); cbn [negb]; [|done].
    rewrite (proj2 (Z.eqb_neq _ 0)) by done. done. }
  unfold nvfuse_replace_ictx. wp_steps. apply wp_assert; [done|]. wp_step. apply Hsel. wp_steps.
  apply wp_assert; [by apply negb_true_iff, Z.eqb_neq|]. wp_step.
  apply last_Some in Hlast as (l' & El). rewrite El, rev_app_distr. cbn [rev app ictx_victim].
  rewrite <- (iput_id id c s) by done. wp_step. apply wp_iput_lock; [done|]. wp_step. apply wp_iput_ctx. cbn [ictx_ref ictx_data_dirty_count ictx_meta_dirty_count set_ictx_lock].
  rewrite Hr, Hd, Hm. cbn [Z.eqb andb]. unfold ilist_del, ihlist_del, icount_add, ihash_count_add. wp_steps.
  eapply wp_ctx; [icbn; apply lookup_insert_eq|]. wp_steps. eapply wp_upd_ctx; [icbn; apply lookup_insert_eq|]. wp_steps.
  match goal with |- Q id ?x => assert (x = idetached id c s) as ->; [|done] end.
  unfold idetached, iput. rewrite Ht. icbn. unfold icount, ihash_count. icbn. f_equal. rewrite !insert_insert_eq.
  destruct s; cbn in *. f_equal. rewrite insert_id; [done|]. rewrite Hid. by destruct c; cbn in *; subst.
Qed.

(** ** Taking a context *)

(** A context goes to the front of a list, in a bucket of its inode. *)
Record shifted s s' (id : Z) c c' : Prop := {
  sh_old : ictxs s !! id = Some c;
  sh_new : ictxs s' = <[ id := c' ]> (ictxs s);
  sh_list : forall t, ilst s' t = if t =? ictx_type c' then id :: without id (ilst s t) else without id (ilst s t);
  sh_count : forall t, icount s' t = icount s t - (if t =? ictx_type c then 1 else 0) + (if t =? ictx_type c' then 1 else 0);
  sh_hash : ihash_ok (ictxs s') (ibucket s');
  sh_unused : forall x, x <> id -> x ∈ ibucket s HASH_NUM -> x ∈ ibucket s' HASH_NUM;
  sh_bm : sys_bm s' = sys_bm s }.

Definition hit_ctx c : nvfuse_inode_ctx := set_state INODE_STATE_LOCK (set_ictx_lock true c).
Definition new_ctx (ino status : Z) : nvfuse_inode_ctx := mk_ictx true ino None 0 0 BUFFER_TYPE_REF status 0.

(** The victim of a miss *)
Definition victim s (id : Z) c : Prop := last (ilst s (victim_type s)) = Some id /\ ictxs s !! id = Some c /\ ictx_type c = victim_type s /\
  ictx_lock c = false /\ ictx_ref c = 0 /\ ictx_data_dirty_count c = 0 /\ ictx_meta_dirty_count c = 0.

Lemma icount_small s t d : ilists_ok (ictxs s) (ilst s) (icount s) -> -1 <= d <= 1 -> s32 (icount s t + d) = icount s t + d.
Proof.
  intros Hl Hd. apply s32_small. pose proof (li_length _ _ _ t Hl). rewrite (li_count _ _ _ Hl). pose proof (li_size _ _ _ Hl). lia.
Qed.

Lemma default_without (m : gmap Z (list Z)) id t : default [] ((without id <$> m) !! t) = without id (default [] (m !! t)).
Proof. rewrite lookup_fmap. by destruct (m !! t). Qed.

Lemma default_insert {A} (m : gmap Z A) k v d t : default d (<[ k := v ]> m !! t) = if t =? k then v else default d (m !! t).
Proof. destruct (Z.eqb_spec t k) as [->|]; [by rewrite lookup_insert_eq|by rewrite lookup_insert_ne]. Qed.

Lemma without_again id l : without id (without id l) = without id l.
Proof. apply without_notin. rewrite elem_without. tauto. Qed.

Lemma without_cons id l : without id (id :: l) = without id l.
Proof. unfold without. rewrite filter_cons_False; [done|tauto]. Qed.

(** The context of a miss: detached, initialised and inserted *)
Lemma fresh_shifted s s' id c c' ino : irep_lists s -> ictxs s !! id = Some c -> ictx_type c' = BUFFER_TYPE_REF -> ictx_ino c' = ino ->
  ictx_type c = BUFFER_TYPE_UNUSED \/ ictx_type c = BUFFER_TYPE_CLEAN ->
  (forall x cx, ~ at_ino s ino x cx) ->
  ictxs s' = <[ id := c' ]> (ictxs s) ->
  (forall t, ilst s' t = if t =? BUFFER_TYPE_REF then id :: without id (ilst s t) else without id (ilst s t)) ->
  (forall h, ibucket s' h = if h =? ino mod HASH_NUM then id :: without id (ibucket s h) else without id (ibucket s h)) ->
  (forall t, icount s' t = if t =? BUFFER_TYPE_REF then s32 (icount s t + 1) else if t =? ictx_type c then s32 (icount s t + -1) else icount s t) ->
  sys_bm s' = sys_bm s -> shifted s s' id c c'.
Proof.
  intros [Hl Hh] Hc Ht' Hn Ht Hno Es El Eb Ec Ebm. split; try done.
  - intros t. by rewrite El, Ht'.
  - intros t. rewrite Ec, Ht'. destruct (Z.eqb_spec t BUFFER_TYPE_REF) as [->|Hne].
    + rewrite icount_small by (done || lia). destruct Ht as [->| ->]; cbn; lia.
    + destruct (Z.eqb_spec t (ictx_type c)); [rewrite icount_small by (done || lia); lia|lia].
  - rewrite Es. apply (hash_rekey (ictxs s) (ibucket s) (ibucket s') id c c' ino); try done.
    intros x cx Hx Hcx. destruct (decide (x = id)) as [|]; [by left|right]. intros En. by apply (Hno x cx).
  - intros x Hx Hi. rewrite Eb, (proj2 (Z.eqb_neq _ _)) by (apply not_eq_sym, hash_lt). by apply elem_without.
Qed.

Lemma get_hit_wp s id c ino (Q : Z -> sys -> Prop) : irep_lists s -> ictxc_lock s = false -> at_ino s ino id c ->
  ictx_type c <> BUFFER_TYPE_UNUSED -> ictx_lock c = false -> ictx_data_dirty_count c = 0 -> ictx_meta_dirty_count c = 0 ->
  (forall s', shifted s s' id c (hit_ctx c) -> ictxc_lock s' = false -> Q id s') -> wp (nvfuse_get_ictx ino) Q s.
Proof.
  intros [Hl Hh] Hk Hat Ht Hcl Hd Hm HQ. pose proof Hat as (Hc & Hi & Hn). unfold nvfuse_get_ictx. wp_step. apply wp_ic_lock; [done|].
  wp_step. apply wp_ictx_lookup; [exact Hh| |intros Hno; by destruct (Hno id c)].
  intros id' c' Hat'. destruct (at_ino_fun s ino id id' c c' Hh Hat Hat') as [<- <-]. clear Hat'. wp_steps.
  eapply wp_ctx; [exact Hc|]. unfold ilist_del, ilist_add. wp_steps. rewrite Hd, Hm. cbn [Z.eqb negb orb]. rewrite andb_false_r.
  apply wp_assert; [done|]. wp_step. match goal with |- wp _ _ ?x => rewrite <- (iput_id id c x) by done end.
  apply wp_iput_lock; [done|]. wp_step. apply wp_iput_upd. unfold ic_spin_unlock. wp_steps. apply HQ; [|done].
  split; try done.
  - intros t. change (ictx_type (hit_ctx c)) with (ictx_type c). unfold ilst, iput. icbn. rewrite !default_insert. unfold ilst. icbn.
    rewrite !default_without. by destruct (Z.eqb_spec t (ictx_type c)) as [->|].
  - intros t. change (ictx_type (hit_ctx c)) with (ictx_type c). change (icount _ t) with (icount s t). lia.
  - apply (hash_same _ _ id c); [done..|]. intros Hu. exfalso. apply Ht. by apply (ha_unused _ _ Hh id).
Qed.

Lemma get_miss_wp s id c ino (Q : Z -> sys -> Prop) : irep_lists s -> ictxc_lock s = false -> (forall x cx, ~ at_ino s ino x cx) ->
  (icount s BUFFER_TYPE_UNUSED <> 0 \/ icount s BUFFER_TYPE_CLEAN <> 0) -> victim s id c ->
  (forall s', shifted s s' id c (new_ctx ino (Z.setbit INODE_STATE_NEW INODE_STATE_LOCK)) -> ictxc_lock s' = false -> Q id s') ->
  wp (nvfuse_get_ictx ino) Q s.
Proof.
  intros Hls Hk Hno Hcnt (V1 & V2 & V3 & V4 & V5 & V6 & V7) HQ. pose proof Hls as [Hl Hh]. unfold nvfuse_get_ictx. wp_step. apply wp_ic_lock; [done|].
  wp_step. apply wp_ictx_lookup; [exact Hh|intros id' c' Hat; by destruct (Hno id' c')|]. intros _. wp_step. wp_step.
  eapply (replace_ictx_wp _ _ id c); try done. unfold nvfuse_init_ictx. wp_step. eapply wp_upd_ctx; [exact V2|]. wp_step.
  eapply wp_ctx; [apply lookup_insert_eq|]. wp_step. apply wp_assert; [by apply Z.eqb_eq|]. unfold nvfuse_insert_ictx.
  wp_step. wp_step. eapply wp_ctx; [apply lookup_insert_eq|]. cbn [ictx_ino].
  unfold ihlist_add_head, ihash_count_add, ilist_add, icount_add, ilist_del. wp_steps. eapply wp_upd_ctx; [icbn; apply lookup_insert_eq|]. wp_steps.
  eapply wp_ctx; [icbn; apply lookup_insert_eq|]. cbn [ictx_type set_ictx_type ictx_data_dirty_count ictx_meta_dirty_count Z.eqb negb orb]. wp_steps.
  rewrite andb_false_r. apply wp_assert; [done|]. wp_step. eapply wp_ctx_lock; [icbn; apply lookup_insert_eq|done|]. wp_step.
  eapply wp_upd_ctx; [icbn; apply lookup_insert_eq|]. unfold ic_spin_unlock. wp_steps. apply HQ; [|done].
  assert (ictx_type c = BUFFER_TYPE_UNUSED \/ ictx_type c = BUFFER_TYPE_CLEAN) as Hct by (rewrite V3; unfold victim_type; case_match; tauto).
  apply (fresh_shifted _ _ _ _ _ ino); [done|done|done|done|done|done| | | | |reflexivity].
  - icbn. by rewrite !insert_insert_eq.
  - intros t. unfold ilst at 1. icbn. rewrite default_insert. destruct (Z.eqb_spec t BUFFER_TYPE_REF) as [->|Hne].
    + f_equal. unfold ilst, idetached. icbn. rewrite default_without, default_insert, Z.eqb_refl, without_cons. unfold ilst. icbn. rewrite default_without. apply without_again.
    + rewrite default_without, default_insert, (proj2 (Z.eqb_neq _ _)) by done. unfold idetached. icbn. rewrite default_without. apply without_again.
  - intros h. unfold ibucket at 1. icbn. rewrite default_insert. unfold ibucket, idetached. icbn. rewrite !default_without.
    by destruct (Z.eqb_spec h (ino mod HASH_NUM)) as [->|].
  - intros t. unfold icount at 1. icbn. rewrite default_insert. destruct (Z.eqb_spec t BUFFER_TYPE_REF) as [->|Hne].
    + unfold icount. icbn. unfold idetached. icbn. rewrite default_insert. rewrite (proj2 (Z.eqb_neq _ _)); [done|]. by destruct Hct as [->| ->].
    + unfold idetached. icbn. rewrite default_insert. by destruct (Z.eqb_spec t (ictx_type c)) as [->|].
Qed.

Lemma move_ictx_wp s id c (Q : unit -> sys -> Prop) : irep_lists s -> ictxc_lock s = false -> at_ino s (ictx_ino c) id c ->
  (forall s', shifted s s' id c (set_ictx_type BUFFER_TYPE_CLEAN c) -> ictxc_lock s' = false -> Q tt s') ->
  wp (nvfuse_move_ictx_list id BUFFER_TYPE_CLEAN) Q s.
Proof.
  intros [Hl Hh] Hk Hat HQ. pose proof Hat as (Hc & Hi & _). unfold nvfuse_move_ictx_list. wp_step. apply wp_ic_lock; [done|]. wp_step.
  eapply wp_ctx; [exact Hc|]. unfold ilist_del, icount_add. wp_steps. eapply wp_upd_ctx; [icbn; exact Hc|].
  unfold ilist_add, icount_add, ihlist_del, ihlist_add_head, ihash_count_add, ic_spin_unlock. wp_steps. apply HQ; [|done].
  set (c' := set_ictx_type BUFFER_TYPE_CLEAN c). change (BUFFER_TYPE_CLEAN =? BUFFER_TYPE_UNUSED) with false. cbn [set_ictx_type].
  split; [done|done| | | |..|done].
  - intros t. change (ictx_type c') with BUFFER_TYPE_CLEAN. unfold ilst. icbn. rewrite default_insert. unfold ilst. icbn. rewrite !default_without.
    by destruct (Z.eqb_spec t BUFFER_TYPE_CLEAN) as [->|].
  - intros t. change (ictx_type c') with BUFFER_TYPE_CLEAN. unfold icount. icbn. rewrite default_insert. unfold icount. icbn. rewrite !default_insert.
    fold (icount s t) (icount s BUFFER_TYPE_CLEAN) (icount s (ictx_type c)).
    destruct (Z.eqb_spec t BUFFER_TYPE_CLEAN) as [->|Hne].
    + rewrite Z.eqb_sym. destruct (Z.eqb_spec (ictx_type c) BUFFER_TYPE_CLEAN) as [->|].
      * rewrite (icount_small s _ (-1)) by (done || lia). replace (icount s BUFFER_TYPE_CLEAN + -1 + 1) with (icount s BUFFER_TYPE_CLEAN + 0) by lia.
        rewrite icount_small by (done || lia). lia.
      * rewrite icount_small by (done || lia). lia.
    + destruct (Z.eqb_spec t (ictx_type c)) as [->|]; [rewrite icount_small by (done || lia); lia|lia].
  - eapply (hash_rekey (ictxs s) (ibucket s) _ id c c' (ictx_ino c)); [done|done|done| |].
    + intros x cx Hx Hcx. destruct (decide (x = id)) as [|Hne]; [by left|right]. intros En. apply Hne.
      assert (at_ino s (ictx_ino c) x cx) as Hax by done. by destruct (at_ino_fun s _ x id cx c Hh Hax Hat).
    + intros h. unfold ibucket. icbn. rewrite default_insert. unfold ibucket. icbn. rewrite !default_without.
      by destruct (Z.eqb_spec h (ictx_ino c mod HASH_NUM)) as [->|].
  - intros x Hx Hu. unfold ibucket. icbn. rewrite default_insert, (proj2 (Z.eqb_neq _ _)) by (apply not_eq_sym, hash_lt).
    rewrite default_without. by apply elem_without.
Qed.

End rules.
End IctxRules.
