(* ===== verification/IctxClient.v ===== *)
(** * Inodes: the two caches together

    [IctxOps] has the operations on both caches, [IctxClient] sequences of them. *)
From S2P Require Import Prelude Layout BufferCache BufferRules BufferFind BufferUse BufferFlush BufferShrink.
From S2P Require Import BufferClient InodeCache IctxRules.
Import Layout BufferCache CacheLists BufferSpec BufferRules BufferOps BufferFind BufferGet BufferUse BufferFlush BufferInit
  BufferShrink BufferClient InodeCache IctxSpec IctxRules.

(** ** Inodes: the two caches together

    [isys]: the abstract cache of contexts and the abstract buffer cache.
    Reading an inode takes a context and the block of the inode, releasing it
    gives both back. *)
Module IctxOps.

Definition iblock (ino : Z) : Z := key ITABLE_INO ino.

(** What taking a context does to the abstract cache *)
Definition hit (ino : Z) (a : icache) : icache := hold_ino ino (push_clean ino (drop_ino ino a)).
Definition miss (ino : Z) (a : icache) : icache :=
  hold_ino ino (push_ref ino (if ic_free a =? 0 then match last (ic_clean a) with Some v => drop_ino v a | None => a end else take_free a)).
Definition read_ino (ino : Z) (a : icache) : icache := if decide (ino ∈ ic_clean a) then hit ino a else miss ino a.
Definition release_ino (ino : Z) (a : icache) : icache := unhold ino (push_clean ino (drop_ino ino a)).

(** There is a context: the inode is cached, or one is unused, or the least
    recently used clean one is not in use. *)
Definition has_victim (a : icache) : Prop := ic_free a <> 0 \/ exists v, last (ic_clean a) = Some v /\ v ∉ ic_held a.

Section ops.
Context (pbn : Z -> Z -> Z).
Notation serves := (serves pbn).
Notation mapped := (mapped pbn).
Implicit Types (s : sys) (a : icache) (c : nvfuse_inode_ctx) (b : cache) (H : heads).

(** The contexts in use, which [X] names, hold the buffer heads of their inodes. *)
Definition heads_ok s a (X : gmap Z Z) H : Prop := forall ino, ino ∈ ic_held a -> exists id c bh bh', X !! ino = Some id /\ at_ino s ino id c /\ ictx_bh c = Some bh /\
  H !! iblock ino = Some bh' /\ bh_bc bh' = bh_bc bh.

Record isrep s a b (X : gmap Z Z) H : Prop := {
  is_ictx : irep s a;
  is_bm : serves (sys_bm s) b H;
  is_heads : heads_ok s a X H;
  is_range : forall ino, ino ∈ ic_held a -> 0 <= ino < 2 ^ 32 }.

Lemma iblock_inj i j : 0 <= i < 2 ^ 32 -> 0 <= j < 2 ^ 32 -> iblock i = iblock j -> i = j.
Proof. unfold iblock, key. lia. Qed.

(** The buffer cache moves on under the contexts. *)
Lemma isrep_bm s a b X H b' H' m : isrep s a b X H -> serves m b' H' ->
  (forall ino bh, ino ∈ ic_held a -> H !! iblock ino = Some bh -> exists bh', H' !! iblock ino = Some bh' /\ bh_bc bh' = bh_bc bh) ->
  isrep (set_bm m s) a b' X H'.
Proof.
  intros [R1 R2 R3 R4] V Hh. split; [by destruct R1|done| |done].
  intros ino Hi. destruct (R3 ino Hi) as (id & c & bh & bh' & HX & Hat & Hb & Hh1 & E). destruct (Hh ino bh' Hi Hh1) as (bh2 & H2 & E2).
  exists id, c, bh, bh2. split_and!; try done. congruence.
Qed.

(** ** Taking a context *)

Lemma is_lists s a : irep s a -> irep_lists s.
Proof. intros R. split; apply R. Qed.

(** Where the context for an inode comes from *)
Definition source s (ino id : Z) c c' : Prop := ictx_ino c' = ino /\
  ((at_ino s ino id c /\ ictx_type c = BUFFER_TYPE_CLEAN /\ ictx_type c' = BUFFER_TYPE_CLEAN) \/
   ((forall x cx, ~ at_ino s ino x cx) /\ victim s id c /\ ictx_type c' = BUFFER_TYPE_REF)).

Definition in_use c : Prop := ictx_data_dirty_count c = 0 /\ ictx_meta_dirty_count c = 0 /\ ictx_lock c = true /\ ictx_ref c = 1 /\
  Z.testbit (ictx_status c) INODE_STATE_LOCK = true.

Lemma victim_free s a id c : irep s a -> victim s id c -> (ictx_type c = BUFFER_TYPE_UNUSED /\ ic_free a <> 0) \/
  (ictx_type c = BUFFER_TYPE_CLEAN /\ ic_free a = 0 /\ last (ic_clean a) = Some (ictx_ino c) /\ ictx_ino c ∉ ic_held a).
Proof.
  intros R (V1 & V2 & V3 & V4 & _). unfold victim_type in *. rewrite (ir_free _ _ R) in *. destruct (Z.eqb_spec (ic_free a) 0) as [E|E]; [right|by left].
  split; [done|]. split; [done|]. split.
  - rewrite <- (ir_clean _ _ R), fmap_last, V1. cbn. unfold ino_of. by rewrite V2.
  - intros Hi. destruct (ir_ctx _ _ R id c V2) as (_ & _ & [(Ht & _)|(_ & Hd)]); [by rewrite Ht in V3|].
    rewrite decide_True in Hd by done. destruct Hd. congruence.
Qed.

Lemma take_irep s s' a id c c' ino : irep s a -> shifted s s' id c c' -> ictxc_lock s' = false -> ino ∉ ic_held a ->
  source s ino id c c' -> in_use c' -> irep s' (read_ino ino a) /\
  (forall x cx, at_ino s x id cx -> x ∉ ic_held a \/ x = ino).
Proof.
  intros R [S1 S2 S3 S4 S5 S6 S7] Hk Hni [Hn Hsrc] (U1 & U2 & U3 & U4 & U5).
  assert (ctx_ok (set_held ({[ ino ]} ∪ ic_held a) a) c') as Hok.
  { split; [done|]. split; [done|]. right. cbn [set_held ic_held]. rewrite Hn, decide_True by set_solver. split; [|done].
    destruct Hsrc as [(_ & _ & ?)|(_ & _ & ?)]; [by left|right; split; [done|set_solver]]. }
  assert (ictx_type c' = BUFFER_TYPE_CLEAN \/ ictx_type c' = BUFFER_TYPE_REF) as Ht' by (destruct Hsrc as [(_ & _ & ?)|(_ & _ & ?)]; tauto).
  destruct Hsrc as [(Hat & Ht & Htc)|(Hno & Hv & Htc)].
  - pose proof Hat as (Hc & Hi & Hnc). assert (ino ∈ ic_clean a) as Hin.
    { rewrite <- (ir_clean _ _ R), (in_list s a) by (done || by left). by exists id, c. }
    split.
    + unfold read_ino. rewrite decide_True by done.
      assert (hit ino a = set_held ({[ ino ]} ∪ ic_held a) (enter c' (leave c a))) as ->.
      { unfold leave, enter, hit. by rewrite Ht, Htc, Hn, Hnc. }
      eapply irep_change; try done.
      * intros x cx Hx Hcx Hu. assert (ictx_ino cx <> ino) as Hne; [|set_solver]. intros E. apply Hx.
        pose proof (cached_at s a x cx R Hcx Hu) as Hax. rewrite E in Hax. by destruct (at_ino_fun s ino x id cx c (ir_hash _ _ R) Hax Hat).
      * intros x Hx. rewrite Hn, Hnc. destruct (decide (x = ino)) as [->|Hne]; [by left|right]. split; [set_solver|by right].
    + intros x cx (Hcx & _ & Hnx). right. congruence.
  - assert (ino ∉ ic_clean a) as Hin.
    { rewrite <- (ir_clean _ _ R), (in_list s a) by (done || by left). intros (x & cx & Hx & _). by apply (Hno x cx). }
    pose proof Hv as (_ & Hc & _). pose proof (victim_free s a id c R Hv) as Hvf. split.
    + unfold read_ino. rewrite decide_False by done.
      assert (miss ino a = set_held ({[ ino ]} ∪ ic_held a) (enter c' (leave c a))) as ->.
      { unfold leave, enter, miss. rewrite Htc, Hn. destruct Hvf as [(-> & Hf)|(-> & -> & -> & _)]; cbn [Z.eqb]; [|done].
        by rewrite (proj2 (Z.eqb_neq (ic_free a) 0)). }
      eapply irep_change; try done.
      * intros x cx Hx Hcx Hu. assert (ictx_ino cx <> ino) as Hne; [|set_solver]. intros E. apply (Hno x cx).
        pose proof (cached_at s a x cx R Hcx Hu) as Hax. by rewrite E in Hax.
      * intros x Hx. rewrite Hn. destruct (decide (x = ino)) as [->|Hne]; [by left|right]. assert (x ∈ ic_held a) as Hxh by set_solver.
        split; [done|]. destruct Hvf as [(? & _)|(_ & _ & _ & Hvh)]; [by left|right]. congruence.
    + intros x cx Hat. left. pose proof Hat as (Hcx & Hi & Hnx). assert (cx = c) as -> by congruence.
      destruct Hvf as [(Ht & _)|(_ & _ & _ & Hvh)]; [|by rewrite <- Hnx].
      exfalso. by apply (at_cached s x id c (ir_hash _ _ R) (ir_unused _ _ R) Hat).
Qed.

(** The contexts of other inodes stay where they are. *)
Lemma at_ino_keep s s' a a' x id id' c : irep s a -> irep s' a' -> (forall y, y <> id -> ictxs s' !! y = ictxs s !! y) ->
  id' <> id -> at_ino s x id' c -> at_ino s' x id' c.
Proof.
  intros R R' Hkeep Hne Hat. pose proof Hat as (Hc & Hi & Hn). rewrite <- Hn. eapply cached_at; [exact R'|by rewrite Hkeep|].
  by apply (at_cached s x id' c (ir_hash _ _ R) (ir_unused _ _ R)).
Qed.

Lemma at_ino_new s s' a' id c ino : irep s' a' -> ictxs s' = <[ id := c ]> (ictxs s) -> ictx_type c <> BUFFER_TYPE_UNUSED -> ictx_ino c = ino ->
  at_ino s' ino id c.
Proof. intros R' E Ht <-. eapply cached_at; [exact R'| |done]. by rewrite E, lookup_insert_eq. Qed.

Lemma held_read ino a : ic_held (read_ino ino a) = {[ ino ]} ∪ ic_held a.
Proof. unfold read_ino, hit, miss. by repeat case_match. Qed.

Lemma take_heads s s' a id c c' ino X H bh : irep s a -> irep s' (read_ino ino a) -> heads_ok s a X H ->
  ictxs s' = <[ id := c' ]> (ictxs s) -> (forall x cx, at_ino s x id cx -> x ∉ ic_held a \/ x = ino) -> ino ∉ ic_held a ->
  ictx_type c' <> BUFFER_TYPE_UNUSED -> ictx_ino c' = ino -> ictx_bh c' = Some bh ->
  (forall x, x ∈ ic_held a -> iblock x <> iblock ino) ->
  heads_ok s' (read_ino ino a) (<[ ino := id ]> X) (<[ iblock ino := bh ]> H).
Proof.
  intros R R' Hh Es Hold Hni Ht Hn Hb Hinj x. rewrite held_read, elem_of_union, elem_of_singleton. intros [->|Hx].
  - exists id, c', bh, bh. split_and!; try done; [apply lookup_insert_eq|by eapply at_ino_new|apply lookup_insert_eq].
  - destruct (Hh x Hx) as (id1 & c1 & b1 & b1' & HX & Hat & Hb1 & HH & E). exists id1, c1, b1, b1'.
    assert (id1 <> id) as Hne by (intros ->; destruct (Hold x c1 Hat); congruence).
    split_and!; try done; [rewrite lookup_insert_ne; [done|congruence]| |by rewrite lookup_insert_ne by (by apply not_eq_sym, Hinj)].
    eapply (at_ino_keep s s' a _ x id id1); try done. intros y Hy. by rewrite Es, lookup_insert_ne.
Qed.

(** ** Reading an inode *)

Record can_read a b ino : Prop := {
  cr_range : ROOT_INO <= ino < 2 ^ 32;
  cr_free : ino ∉ ic_held a;
  cr_ctx : ino ∈ ic_clean a \/ has_victim a;
  cr_heads : ca_heads b <> 0;
  cr_get : may_get pbn b ITABLE_INO ino;
  cr_ino : i_ino_at (ab_now (ca_store b) (iblock ino)) = ino }.

Definition read_block ino b : cache := with_heads (-1) (taken (iblock ino) true) b.

Lemma has_victim_at s a : irep s a -> has_victim a -> (icount s BUFFER_TYPE_UNUSED <> 0 \/ icount s BUFFER_TYPE_CLEAN <> 0) /\
  exists id c, victim s id c.
Proof.
  intros R Hv. pose proof (ir_lists _ _ R) as Hl. unfold has_victim in Hv. rewrite <- (ir_free _ _ R) in Hv.
  assert (forall id, last (ilst s (victim_type s)) = Some id -> exists c, ictxs s !! id = Some c /\ ictx_type c = victim_type s) as Hlast.
  { intros id Hid. assert (id ∈ ilst s (victim_type s)) as (c & Hc & Ht)%Hl by (apply last_Some in Hid as [l' ->]; set_solver). by exists c. }
  unfold victim. destruct (decide (icount s BUFFER_TYPE_UNUSED = 0)) as [E|E].
  - assert (victim_type s = BUFFER_TYPE_CLEAN) as Evt by (unfold victim_type; by rewrite E). destruct Hv as [?|(v & Hv & Hvh)]; [done|].
    rewrite <- (ir_clean _ _ R), fmap_last in Hv. destruct (last (ilst s BUFFER_TYPE_CLEAN)) as [id|] eqn:Hid; [|done]. injection Hv as Ev.
    rewrite Evt in *. destruct (Hlast id Hid) as (c & Hc & Ht). split; [|exists id, c].
    + right. rewrite (li_count _ _ _ Hl). destruct (ilst s BUFFER_TYPE_CLEAN); [done|cbn; lia].
    + assert (ictx_ino c = v) as Ecv by (unfold ino_of in Ev; by rewrite Hc in Ev).
      destruct (ir_ctx _ _ R id c Hc) as (H1 & H2 & [(Ht2 & _)|(_ & Hd)]); [by rewrite Ht in Ht2|].
      rewrite decide_False in Hd by (by rewrite Ecv). by destruct Hd.
  - assert (victim_type s = BUFFER_TYPE_UNUSED) as Evt by (unfold victim_type; by rewrite (proj2 (Z.eqb_neq _ _) E)).
    split; [by left|]. rewrite Evt in *. pose proof E as E'. rewrite (li_count _ _ _ Hl) in E'.
    destruct (last (ilst s BUFFER_TYPE_UNUSED)) as [id|] eqn:Hid; [|apply last_None in Hid; by rewrite Hid in E'].
    destruct (Hlast id eq_refl) as (c & Hc & Ht). exists id, c.
    destruct (ir_ctx _ _ R id c Hc) as (H1 & H2 & [(_ & ? & ?)|([Ht2|[Ht2 _]] & _)]); [done|by rewrite Ht in Ht2..].
Qed.

Lemma not_held_at s a ino : irep s a -> ino ∉ ic_held a -> ino ∉ ic_clean a -> forall x cx, ~ at_ino s ino x cx.
Proof.
  intros R Hh Hc x cx Hat. destruct (proj2 (in_cache s a ino R)) as [?|Hr]; [by exists x, cx|done|].
  rewrite <- (ir_ref _ _ R), (in_list s a) in Hr by (done || by right). destruct Hr as (id & c & (Hcc & _ & Hn) & Ht).
  destruct (ir_ctx _ _ R id c Hcc) as (_ & _ & [(Ht2 & _)|([Ht2|[_ Hi]] & _)]); [by rewrite Ht in Ht2..|]. by rewrite Hn in Hi.
Qed.

Lemma get_ictx_wp s a ino (Q : Z -> sys -> Prop) : irep s a -> ino ∉ ic_held a -> ino ∈ ic_clean a \/ has_victim a ->
  (forall s' id c c', shifted s s' id c c' -> ictxc_lock s' = false -> source s ino id c c' -> ictx_data_dirty_count c' = 0 ->
     ictx_meta_dirty_count c' = 0 -> ictx_lock c' = true -> ictx_ref c' = 0 -> Z.testbit (ictx_status c') INODE_STATE_LOCK = true -> Q id s') ->
  wp (nvfuse_get_ictx ino) Q s.
Proof.
  intros R Hh Hv HQ. destruct (decide (ino ∈ ic_clean a)) as [Hin|Hin].
  - pose proof Hin as Hin'. rewrite <- (ir_clean _ _ R), (in_list s a) in Hin' by (done || by left). destruct Hin' as (id & c & Hat & Ht).
    pose proof Hat as (Hc & _ & Hn). destruct (ir_ctx _ _ R id c Hc) as (H1 & H2 & [(Ht2 & _)|(_ & Hd)]); [by rewrite Ht in Ht2|].
    rewrite decide_False in Hd by (by rewrite Hn). destruct Hd as [Hlk Hrf].
    eapply (get_hit_wp s id c ino); [by eapply is_lists|apply R|done|by rewrite Ht|done|done|done|]. intros s' Sh Hk.
    apply (HQ s' id c (hit_ctx c)); try done; [split; [done|by left]|]. by apply Z.setbit_eq.
  - destruct Hv as [?|Hv]; [done|]. destruct (has_victim_at s a R Hv) as (Hcnt & id & c & V).
    eapply (get_miss_wp s id c ino); [by eapply is_lists|apply R|by eapply not_held_at|done|done|]. intros s' Sh Hk.
    eapply (HQ s' id c); try done. split; [done|]. right. split; [by eapply not_held_at|]. by split.
Qed.

Lemma read_inode_wp s a b X H ino (Q : option Z -> sys -> Prop) : isrep s a b X H -> can_read a b ino ->
  (forall s' id bh, isrep s' (read_ino ino a) (read_block ino b) (<[ ino := id ]> X) (<[ iblock ino := bh ]> H) ->
     (exists c, at_ino s' ino id c /\ ictx_bh c = Some bh) -> Q (Some id) s') -> wp (nvfuse_read_inode pbn None ino) Q s.
Proof.
  intros [R V Hh Hr] [C1 C2 C3 C4 C5 C6] HQ. unfold nvfuse_read_inode. rewrite (proj2 (Z.ltb_ge _ _)) by lia. wp_step.
  eapply get_ictx_wp; [exact R|done|done|]. intros s1 id c c1 Sh Hk Hsrc G1 G2 G3 G4 G5. pose proof Sh as [S1 S2 S3 S4 S5 S6 S7].
  assert (ictxs s1 !! id = Some c1) as Hc1 by (by rewrite S2, lookup_insert_eq). pose proof Hsrc as [Hn1 Hty].
  wp_step. eapply wp_ctx; [exact Hc1|]. wp_step. apply wp_assert; [done|]. wp_step. apply wp_assert; [done|]. wp_step.
  apply wp_assert; [by apply Z.eqb_eq|]. wp_step. apply wp_on_bm. replace (ino / INODE_ENTRY_NUM) with ino by (unfold INODE_ENTRY_NUM; by rewrite Z.div_1_r).
  rewrite S7. eapply (get_bh_wp pbn); [exact V|done|done|]. fold (iblock ino) (read_block ino b). intros m bh buf V' Hat.
  wp_step. apply wp_on_bm. eapply wp_obj; [apply Hat|].
  assert (bc_buf buf = ab_now (ca_store b) (iblock ino)) as Ebuf.
  { destruct (held_at pbn mapped m _ (iblock ino) (bh_bc bh) buf (mk_hold (Some (ab_now (ca_store b) (iblock ino))) false) (sv_rep _ _ _ _ V') Hat)
      as (_ & _ & _ & _ & _ & Hb & _); [apply lookup_insert_eq|]. by apply Hb. }
  wp_step. apply wp_assert; [apply Z.eqb_eq; by rewrite Ebuf|]. wp_step. eapply wp_upd_ctx; [exact Hc1|]. wp_step.
  rewrite G4. change (s32 (0 + 1)) with 1. set (c2 := set_ictx_ref 1 (set_ictx_bh (Some bh) c1)).
  match goal with |- Q (Some id) ?x => set (s2 := x) end.
  assert (shifted s (set_bm (sys_bm s) s2) id c c2) as Sh2.
  { split; try done; [change (<[ id := c2 ]> (ictxs s1) = <[ id := c2 ]> (ictxs s)); by rewrite S2, insert_insert_eq|].
    change (ihash_ok (<[ id := c2 ]> (ictxs s1)) (ibucket s1)). apply (hash_same _ _ id c1); [done..|]. intros Hu. by apply (ha_unused _ _ S5 id c1). }
  assert (source s ino id c c2) as Hsrc2 by (by split).
  destruct (take_irep s _ a id c c2 ino R Sh2 Hk C2 Hsrc2) as [R2 Hold]; [done|].
  assert (ictxs s2 = <[ id := c2 ]> (ictxs s)) as Es2 by (change (<[ id := c2 ]> (ictxs s1) = <[ id := c2 ]> (ictxs s)); by rewrite S2, insert_insert_eq).
  assert (ictx_type c2 <> BUFFER_TYPE_UNUSED) as Ht2 by (change (ictx_type c2) with (ictx_type c1); destruct Hty as [(_ & _ & ->)|(_ & _ & ->)]; done).
  assert (irep s2 (read_ino ino a)) as R3 by (by destruct R2).
  apply (HQ s2 id bh); [|exists c2; split; [by eapply (at_ino_new s)|done]]. split.
  - done.
  - exact V'.
  - eapply (take_heads s s2 a id c c2 ino); try done. intros x Hx E. apply C2.
    assert (x = ino) as <-; [|done]. apply iblock_inj; [by apply Hr|unfold ROOT_INO in C1; lia|done].
  - intros x. rewrite held_read, elem_of_union, elem_of_singleton. intros [->|?]; [unfold ROOT_INO in C1; lia|by apply Hr].
Qed.

(** ** Releasing an inode *)

Definition release_block ino (dirty : bool) b : cache := with_heads 1 (fun x => released x (iblock ino) dirty) b.

Lemma held_ctx s a ino id c : irep s a -> at_ino s ino id c -> ino ∈ ic_held a -> ictx_data_dirty_count c = 0 /\ ictx_meta_dirty_count c = 0 /\
  ictx_type c <> BUFFER_TYPE_UNUSED /\ ictx_lock c = true /\ ictx_ref c = 1.
Proof.
  intros R Hat Hh. pose proof Hat as (Hc & _ & Hn). pose proof (at_cached s ino id c (ir_hash _ _ R) (ir_unused _ _ R) Hat) as Ht.
  destruct (ir_ctx _ _ R id c Hc) as (H1 & H2 & [(? & _)|(_ & Hd)]); [done|]. rewrite decide_True in Hd by (by rewrite Hn). by destruct Hd as (? & ? & _).
Qed.

Lemma release_irep s s' a id c c' ino : irep s a -> at_ino s ino id c -> ino ∈ ic_held a -> shifted s s' id c c' -> ictxc_lock s' = false ->
  ictx_type c' = BUFFER_TYPE_CLEAN -> ictx_ino c' = ino -> ictx_lock c' = false -> ictx_ref c' = 0 -> ictx_data_dirty_count c' = 0 ->
  ictx_meta_dirty_count c' = 0 -> irep s' (release_ino ino a).
Proof.
  intros R Hat Hi [S1 S2 S3 S4 S5 S6 S7] Hk Ht' Hn' Hl' Hr' Hd' Hm'. destruct (held_ctx s a ino id c R Hat Hi) as (_ & _ & Ht & _).
  pose proof Hat as (Hc & _ & Hn).
  assert (release_ino ino a = set_held (ic_held a ∖ {[ ino ]}) (enter c' (leave c a))) as ->.
  { unfold leave, enter, release_ino. rewrite Ht', Hn', Hn. by rewrite (proj2 (Z.eqb_neq _ _) Ht). }
  eapply irep_change; try done; [by left| | |].
  - intros x cx Hx Hcx Hu. assert (ictx_ino cx <> ino) as Hne; [|set_solver]. intros E. apply Hx.
    pose proof (cached_at s a x cx R Hcx Hu) as Hax. rewrite E in Hax. by destruct (at_ino_fun s ino x id cx c (ir_hash _ _ R) Hax Hat).
  - intros x Hx. right. rewrite Hn. split; [set_solver|right; set_solver].
  - split; [done|]. split; [done|]. right. split; [by left|]. cbn [set_held ic_held]. rewrite Hn', decide_False by set_solver. done.
Qed.

Lemma release_heads s s' a id c c' ino X H : irep s a -> irep s' (release_ino ino a) -> heads_ok s a X H -> at_ino s ino id c ->
  ictxs s' = <[ id := c' ]> (ictxs s) -> (forall x, x ∈ ic_held a -> iblock x = iblock ino -> x = ino) ->
  heads_ok s' (release_ino ino a) (delete ino X) (delete (iblock ino) H).
Proof.
  intros R R' Hh Hat Es Hinj x. cbn. intros [Hx Hne]%elem_of_difference. rewrite elem_of_singleton in Hne.
  destruct (Hh x Hx) as (id1 & c1 & b1 & b1' & HX & Hat1 & Hb1 & HH & E). exists id1, c1, b1, b1'.
  assert (id1 <> id) as Hid. { intros ->. destruct Hat as (Hc & _ & Hn), Hat1 as (Hc1 & _ & Hn1). congruence. }
  split_and!; try done; [by rewrite lookup_delete_ne by congruence| |rewrite lookup_delete_ne; [done|]; intros Ei; by apply Hne, Hinj].
  eapply (at_ino_keep s s' a _ x id id1); try done. intros y Hy. by rewrite Es, lookup_insert_ne.
Qed.

Lemma shifted_change s1 s2 s2' id c0 c c' f : irep_lists s1 -> ictxs s1 = <[ id := c ]> (ictxs s2) -> ictxs s2 !! id = Some c0 ->
  ilst s1 = ilst s2 -> icount s1 = icount s2 -> ibucket s1 = ibucket s2 -> sys_bm s1 = sys_bm s2 -> ictx_type c0 = ictx_type c ->
  shifted s1 s2' id c c' -> ictx_type (f c') = ictx_type c' -> ictx_ino (f c') = ictx_ino c' -> ictx_type c' <> BUFFER_TYPE_UNUSED ->
  shifted s2 (iput id (f c') s2') id c0 (f c').
Proof.
  intros Hls E1 Hc0 El Ec Eb Em Et [S1 S2 S3 S4 S5 S6 S7] Hf1 Hf2 Hu.
  split; [done| | | | | |by rewrite <- Em].
  - unfold iput. icbn. by rewrite S2, E1, !insert_insert_eq.
  - intros t. rewrite Hf1, <- El. apply S3.
  - intros t. rewrite Hf1, Et, <- Ec. apply S4.
  - unfold iput. icbn. change (ibucket _) with (ibucket s2'). apply (hash_same _ _ id c'); [done|by rewrite S2, lookup_insert_eq|done|].
    intros Hi. exfalso. apply Hu. eapply (ha_unused _ _ S5); [exact Hi|]. by rewrite S2, lookup_insert_eq.
  - intros x. rewrite <- Eb. apply S6.
Qed.

Lemma release_ictx_wp s a ino id c (Q : unit -> sys -> Prop) : irep s a -> at_ino s ino id c -> ino ∈ ic_held a ->
  (forall s' c', irep s' (release_ino ino a) -> ictxs s' = <[ id := c' ]> (ictxs s) -> sys_bm s' = sys_bm s -> Q tt s') ->
  wp (nvfuse_release_ictx id) Q s.
Proof.
  intros R Hat Hh HQ. destruct (held_ctx s a ino id c R Hat Hh) as (H1 & H2 & H3 & H4 & H5). pose proof Hat as (Hc & Hi & Hn).
  pose proof (is_lists s a R) as [Hl Hha]. unfold nvfuse_release_ictx. rewrite <- (iput_id id c s) by done.
  wp_step. apply wp_iput_ctx. rewrite H1, H2. wp_step. apply wp_assert; [done|]. wp_step. apply wp_iput_upd. wp_step. apply wp_iput_upd.
  wp_step. apply wp_iput_ctx. change (ictx_ref (set_state INODE_STATE_CLEAN c)) with (ictx_ref c). rewrite H5. change (s32 (1 - 1)) with 0.
  wp_step. apply wp_assert; [done|]. wp_step. set (c1 := set_ictx_ref 0 (set_ictx_bh None (set_state INODE_STATE_CLEAN c))).
  assert (irep_lists (iput id c1 s)) as Hls.
  { split; [by apply (lists_same (ictxs s) _ _ id c)|]. apply (hash_same _ _ id c); [done..|]. intros Hu. by apply (ha_unused _ _ Hha id c). }
  apply (move_ictx_wp (iput id c1 s) id c1); [done|apply R|split; [apply lookup_insert_eq|]; by rewrite <- Hn in Hi|].
  intros s2 Sh Hk. pose proof Sh as [S1 S2 S3 S4 S5 S6 S7]. set (c2 := set_ictx_type BUFFER_TYPE_CLEAN c1) in *.
  rewrite <- (iput_id id c2 s2) by (by rewrite S2, lookup_insert_eq). unfold ctx_spin_unlock. wp_step. apply wp_iput_upd. apply wp_iput_upd.
  set (f := fun x => set_ictx_lock false (clear_state INODE_STATE_LOCK x)).
  assert (shifted s (iput id (f c2) s2) id c (f c2)) as Sh2 by (eapply (shifted_change (iput id c1 s) s s2 id c c1 c2 f); try done).
  apply (HQ _ (f c2)); [|apply Sh2|apply Sh2]. by apply (release_irep s _ a id c (f c2) ino).
Qed.

Lemma release_inode_wp s a b X H ino id c (dirty : bool) (Q : unit -> sys -> Prop) : isrep s a b X H -> at_ino s ino id c -> ino ∈ ic_held a ->
  may_release (ca_store b) (iblock ino) dirty ->
  (forall s', isrep s' (release_ino ino a) (release_block ino dirty b) (delete ino X) (delete (iblock ino) H) -> Q tt s') ->
  wp (nvfuse_release_inode (Some id) dirty) Q s.
Proof.
  intros [R V Hh Hr] Hat Hi Hm HQ. destruct (Hh ino Hi) as (id' & c' & bh & bh' & HX & Hat' & Hbh & HH & Ebh).
  destruct (at_ino_fun s ino id id' c c' (ir_hash _ _ R) Hat Hat') as [<- <-]. clear Hat'.
  unfold nvfuse_release_inode. wp_step. eapply wp_ctx; [apply Hat|]. rewrite Hbh. wp_step. apply wp_on_bm.
  eapply (release_bh_wp pbn); [exact V|exact HH|exact Ebh|done|]. intros m V'.
  assert (irep (set_bm m s) a) as Rm by (by destruct R).
  eapply (release_ictx_wp (set_bm m s) a ino id c); [done|exact Hat|done|]. intros s' c' R' Es Eb. apply HQ. split.
  - done.
  - by rewrite Eb.
  - eapply (release_heads (set_bm m s) s' a id c c' ino X H); try done. intros x Hx E. by apply iblock_inj; [apply Hr|apply Hr|].
  - intros x. cbn. intros [? _]%elem_of_difference. by apply Hr.
Qed.

(** ** Making an inode *)

Record can_make b ino : Prop := {
  cm_range : ROOT_INO <= ino < 2 ^ 32;
  cm_heads : ca_heads b <> 0;
  cm_get : may_get pbn b ITABLE_INO ino;
  cm_ino : i_ino_at (ab_now (ca_store b) (iblock ino)) = ino }.

Definition made_ctx ino bh : nvfuse_inode_ctx :=
  set_ictx_type BUFFER_TYPE_REF (set_ictx_ref 1 (set_ictx_bh (Some bh) (set_ictx_ino ino
    (set_state INODE_STATE_DIRTY (set_state INODE_STATE_LOCK (mk_ictx true 0 None 0 0 0 INODE_STATE_NEW 0)))))).

(** The victim becomes the context of the inode, whether or not there is one
    already. *)
Lemma create_raw s a alloc id c (Q : option Z -> sys -> Prop) : irep s a ->
  (icount s BUFFER_TYPE_UNUSED <> 0 \/ icount s BUFFER_TYPE_CLEAN <> 0) -> victim s id c ->
  wp alloc (fun ino m => exists b H, serves m b H /\ can_make b ino /\
    (forall s' m' bh, serves m' (read_block ino b) (<[ iblock ino := bh ]> H) -> ictxc_lock s' = false -> sys_bm s' = m' ->
      ictxs s' = <[ id := made_ctx ino bh ]> (ictxs s) ->
      (forall t, ilst s' t = if t =? BUFFER_TYPE_REF then id :: without id (ilst s t) else without id (ilst s t)) ->
      (forall h, ibucket s' h = if h =? ino mod HASH_NUM then id :: without id (ibucket s h) else without id (ibucket s h)) ->
      (forall t, icount s' t = if t =? BUFFER_TYPE_REF then s32 (icount s t + 1) else if t =? ictx_type c then s32 (icount s t + -1) else icount s t) ->
      Q (Some id) s')) (sys_bm s) ->
  wp (create_ictx pbn alloc) Q s.
Proof.
  intros R Hcnt (V1 & V2 & V3 & V4 & V5 & V6 & V7) HA. pose proof (ir_lock _ _ R) as Hk.
  assert (ictx_type c <> BUFFER_TYPE_REF) as Hct by (rewrite V3; unfold victim_type; by case_match).
  unfold create_ictx, nvfuse_alloc_ictx. wp_step. wp_step. apply wp_ic_lock; [done|]. wp_step.
  eapply (replace_ictx_wp _ _ id c); try done. unfold ic_spin_unlock, nvfuse_init_ictx. wp_steps. eapply wp_upd_ctx; [exact V2|]. wp_steps.
  eapply wp_ctx_lock; [apply lookup_insert_eq|done|]. wp_step. eapply wp_upd_ctx; [apply lookup_insert_eq|]. wp_step.
  eapply wp_upd_ctx; [apply lookup_insert_eq|]. wp_step. apply wp_on_bm. icbn. eapply wp_mono; [exact HA|]. clear HA.
  intros ino m (b' & H' & V & [C1 C2 C3 C4] & HQ). wp_step. unfold nvfuse_read_inode. rewrite (proj2 (Z.ltb_ge _ _)) by lia.
  wp_step. wp_step. eapply wp_upd_ctx; [apply lookup_insert_eq|]. wp_steps. eapply wp_ctx; [apply lookup_insert_eq|].
  wp_step. apply wp_assert; [done|]. wp_step. apply wp_assert; [done|]. wp_step. apply wp_assert; [by apply Z.eqb_eq|].
  wp_step. apply wp_on_bm. replace (ino / INODE_ENTRY_NUM) with ino by (unfold INODE_ENTRY_NUM; by rewrite Z.div_1_r). icbn.
  eapply (get_bh_wp pbn); [exact V|done|done|]. fold (iblock ino) (read_block ino b'). intros m' bh buf V' Hat.
  wp_step. apply wp_on_bm. icbn. eapply wp_obj; [apply Hat|].
  assert (bc_buf buf = ab_now (ca_store b') (iblock ino)) as Ebuf.
  { destruct (held_at pbn mapped m' _ (iblock ino) (bh_bc bh) buf (mk_hold (Some (ab_now (ca_store b') (iblock ino))) false) (sv_rep _ _ _ _ V') Hat)
      as (_ & _ & _ & _ & _ & Hb & _); [apply lookup_insert_eq|]. by apply Hb. }
  wp_step. apply wp_assert; [apply Z.eqb_eq; by rewrite Ebuf|]. wp_step. eapply wp_upd_ctx; [icbn; apply lookup_insert_eq|]. wp_step.
  wp_step. unfold nvfuse_insert_ictx. wp_step. eapply wp_ctx; [apply lookup_insert_eq|]. cbn [ictx_ino set_ictx_ref set_ictx_bh set_ictx_ino].
  unfold ihlist_add_head, ihash_count_add, ilist_add, icount_add. wp_steps. eapply wp_upd_ctx; [icbn; apply lookup_insert_eq|]. wp_steps.
  apply (HQ _ m' bh V'); [done|done| | | |].
  - icbn. by rewrite !insert_insert_eq.
  - intros t. unfold ilst, idetached. icbn. rewrite default_insert. unfold ilst. icbn. rewrite !default_without. by destruct (Z.eqb_spec t BUFFER_TYPE_REF) as [->|].
  - intros h. unfold ibucket, idetached. icbn. rewrite default_insert. unfold ibucket. icbn. rewrite !default_without.
    by destruct (Z.eqb_spec h (ino mod HASH_NUM)) as [->|].
  - intros t. unfold icount, idetached. icbn. rewrite default_insert. unfold icount. icbn. rewrite !default_insert. fold (icount s BUFFER_TYPE_REF).
    destruct (Z.eqb_spec t BUFFER_TYPE_REF) as [->|]; [by rewrite (proj2 (Z.eqb_neq _ _)) by congruence|].
    by destruct (Z.eqb_spec t (ictx_type c)) as [->|].
Qed.

Lemma create_ictx_wp s a b X H alloc (Q : option Z -> sys -> Prop) : isrep s a b X H -> has_victim a ->
  wp alloc (fun ino m => exists b' H', serves m b' H' /\ can_make b' ino /\ ino ∉ ic_held a /\ ino ∉ ic_clean a /\
    (forall x bh, x ∈ ic_held a -> H !! iblock x = Some bh -> exists bh', H' !! iblock x = Some bh' /\ bh_bc bh' = bh_bc bh) /\
    (forall s' id bh, isrep s' (read_ino ino a) (read_block ino b') (<[ ino := id ]> X) (<[ iblock ino := bh ]> H') ->
      (exists c, at_ino s' ino id c /\ ictx_bh c = Some bh) -> Q (Some id) s')) (sys_bm s) ->
  wp (create_ictx pbn alloc) Q s.
Proof.
  intros IR Hv HA. pose proof IR as [R V Hh Hr]. destruct (has_victim_at s a R Hv) as (Hcnt & id & c & Hvic).
  eapply (create_raw s a alloc id c); [done|done|exact Hvic|].
  eapply wp_mono; [exact HA|]. intros ino m (b' & H' & V1 & Hmk & Hni & Hnc & Hkeep & HQ). exists b', H'. split; [done|]. split; [done|].
  intros s' m' bh V2 Hk <- Es El Eb Ec.
  assert (forall x cx, ~ at_ino s ino x cx) as Hno by (by apply (not_held_at s a)).
  assert (ictx_type c = BUFFER_TYPE_UNUSED \/ ictx_type c = BUFFER_TYPE_CLEAN) as Hct.
  { destruct Hvic as (_ & _ & -> & _). unfold victim_type. case_match; tauto. }
  assert (shifted s (set_bm (sys_bm s) s') id c (made_ctx ino bh)) as Sh.
  { apply (fresh_shifted s _ id c (made_ctx ino bh) ino); try done; try (by eapply is_lists); by destruct Hvic as (_ & ? & _). }
  destruct (take_irep s _ a id c (made_ctx ino bh) ino R Sh Hk Hni) as [R2 Hold]; [split; [done|by right]|by split|].
  assert (irep s' (read_ino ino a)) as R3 by (by destruct R2). destruct (isrep_bm s a b X H b' H' m IR V1 Hkeep) as [_ _ Hh' _].
  apply (HQ s' id bh); [split|].
  - done.
  - done.
  - eapply (take_heads (set_bm m s) s' a id c (made_ctx ino bh) ino); try done; [by destruct R|].
    intros x Hx E. apply Hni. assert (x = ino) as <-; [|done]. apply iblock_inj; [by apply Hr| |done].
    pose proof (cm_range _ _ Hmk). unfold ROOT_INO in *. lia.
  - intros x. rewrite held_read, elem_of_union, elem_of_singleton. pose proof (cm_range _ _ Hmk). unfold ROOT_INO in *. intros [->|?]; [lia|by apply Hr].
  - exists (made_ctx ino bh). split; [by eapply (at_ino_new s)|done].
Qed.

(** A number that is used again while its old context is still cached gets a
    second context. *)
Lemma create_twice s a b X H alloc ino : isrep s a b X H -> has_victim a -> ino ∈ ic_clean a -> ino ∉ ic_held a ->
  (ic_free a <> 0 \/ last (ic_clean a) <> Some ino) ->
  wp alloc (fun i m => i = ino /\ exists b' H', serves m b' H' /\ can_make b' ino) (sys_bm s) ->
  wp (create_ictx pbn alloc) (fun r s' => exists id id' c c', r = Some id /\ id <> id' /\ at_ino s' ino id c /\ at_ino s' ino id' c' /\
    ictx_lock c = true /\ ictx_lock c' = false /\ ictx_type c' = BUFFER_TYPE_CLEAN) s.
Proof.
  intros IR Hv Hin Hnh Hl HA. pose proof IR as [R V Hh Hr]. destruct (has_victim_at s a R Hv) as (Hcnt & id & c & Hvic).
  pose proof Hin as Hin'. rewrite <- (ir_clean _ _ R), (in_list s a) in Hin' by (done || by left). destruct Hin' as (id' & c' & Hat & Ht).
  assert (id <> id') as Hne.
  { intros <-. pose proof Hat as (Hc' & _ & Hn). pose proof Hvic as (_ & V2 & V3 & _). assert (c' = c) as -> by congruence.
    destruct (victim_free s a id c R Hvic) as [(Hu & _)|(_ & E & El & _)]; [by rewrite Ht in Hu|].
    destruct Hl as [?|Hl]; [done|]. apply Hl. by rewrite El, Hn. }
  eapply (create_raw s a alloc id c); [done|done|exact Hvic|]. eapply wp_mono; [exact HA|]. intros i m (-> & b' & H' & V1 & Hmk).
  exists b', H'. split; [done|]. split; [done|]. intros s' m' bh V2 Hk Em Es El Eb Ec.
  exists id, id', (made_ctx ino bh), c'. pose proof Hat as (Hc' & Hi' & Hn').
  assert (ictx_lock c' = false) as Hlk.
  { destruct (ir_ctx _ _ R id' c' Hc') as (_ & _ & [(Ht2 & _)|(_ & Hd)]); [by rewrite Ht in Ht2|].
    rewrite decide_False in Hd by (by rewrite Hn'). by destruct Hd. }
  split; [done|]. split; [done|]. split; [|split; [|done]].
  - split; [rewrite Es; apply lookup_insert_eq|]. split; [|done]. rewrite Eb, Z.eqb_refl. apply elem_of_cons. by left.
  - split; [by rewrite Es, lookup_insert_ne|]. split; [|done]. rewrite Eb, Z.eqb_refl. apply elem_of_cons. right. by apply elem_without.
Qed.

End ops.
End IctxOps.

(** ** Inodes: sequences of operations on the two caches *)
Import Layout BufferCache CacheLists BufferSpec BufferRules BufferOps BufferFind BufferGet BufferUse BufferFlush BufferInit
  BufferShrink BufferClient InodeCache IctxSpec IctxRules IctxOps.

Module IctxClient.

Inductive sys_op :=
| SRead (ino : Z)
| SRelease (ino : Z) (dirty : bool)
| SBuf (op : client_op).

Section client.
Context (pbn : Z -> Z -> Z).

(** An operation of the code; the client keeps the contexts by inode and the
    heads by key. *)
Definition sys_step (op : sys_op) (X : gmap Z Z) (H : heads) : IM (answer * (gmap Z Z * heads)) :=
  match op with
  | SRead ino =>
      r ← nvfuse_read_inode pbn None ino;
      match r with
      | None => mret (ANone, (X, H))
      | Some id =>
          c ← get_ctx id;
          bh ← mlift (ictx_bh c);
          mret (ADone, (<[ ino := id ]> X, <[ iblock ino := bh ]> H))
      end
  | SRelease ino dirty => nvfuse_release_inode (X !! ino) dirty;; mret (ADone, (delete ino X, delete (iblock ino) H))
  | SBuf op => r ← on_bm (client_step pbn op H); mret (r.1, (X, r.2))
  end.

Fixpoint sys_run (ops : list sys_op) (X : gmap Z Z) (H : heads) : IM (list answer * (gmap Z Z * heads)) :=
  match ops with
  | [] => mret ([], (X, H))
  | op :: ops =>
      r ← sys_step op X H;
      rs ← sys_run ops r.2.1 r.2.2;
      mret (r.1 :: rs.1, rs.2)
  end.

(** ** What the operations mean *)

Record asys := mk_asys { as_ictx : icache; as_bm : cache }.

(** A buffer that is given back is not that of an inode in use. *)
Definition not_inode (a : icache) (op : client_op) : Prop :=
  match op with ORelease k _ _ => forall ino, ino ∈ ic_held a -> k <> iblock ino | _ => True end.

Definition spre (op : sys_op) (x : asys) : Prop :=
  match op with
  | SRead ino => can_read pbn (as_ictx x) (as_bm x) ino
  | SRelease ino dirty => ino ∈ ic_held (as_ictx x) /\ may_release (ca_store (as_bm x)) (iblock ino) dirty
  | SBuf op => pre pbn op (as_bm x) /\ not_inode (as_ictx x) op
  end.

Inductive spost (x : asys) : sys_op -> answer -> asys -> Prop :=
| q_read ino : spost x (SRead ino) ADone (mk_asys (read_ino ino (as_ictx x)) (read_block ino (as_bm x)))
| q_release ino dirty : spost x (SRelease ino dirty) ADone (mk_asys (release_ino ino (as_ictx x)) (release_block ino dirty (as_bm x)))
| q_buf op r b' : post (as_bm x) op r b' -> spost x (SBuf op) r (mk_asys (as_ictx x) b').

Inductive ssees (x : asys) : list sys_op -> list answer -> asys -> Prop :=
| ssees_nil : ssees x [] [] x
| ssees_cons op ops r rs x1 x2 : spost x op r x1 -> ssees x1 ops rs x2 -> ssees x (op :: ops) (r :: rs) x2.

Fixpoint ssafe (ops : list sys_op) (x : asys) : Prop :=
  match ops with
  | [] => True
  | op :: ops => spre op x /\ forall r x', spost x op r x' -> ssafe ops x'
  end.

(** ** The operations of the code do that *)

Hypothesis pbn_inj : forall k k', mapped pbn k -> mapped pbn k' -> place pbn k = place pbn k' -> k = k'.
Implicit Types (s : sys) (x : asys) (X : gmap Z Z) (H : heads).

(** The heads of the blocks in use stay when another buffer is used. *)
Lemma step_keeps op (m : bm) b H r H' m' : serves pbn m b H -> client_step pbn op H m = Some ((r, H'), m') ->
  forall k bh, H !! k = Some bh -> (forall k' t d, op = ORelease k' t d -> k <> k') ->
  (forall ino lb sy me, op = OGet ino lb sy me -> r = ADone -> key ino lb <> k) -> (forall ino lb me, op = ONew ino lb me -> r = ADone -> key ino lb <> k) ->
  exists bh', H' !! k = Some bh' /\ bh_bc bh' = bh_bc bh.
Proof.
  intros V Hrun k bh Hbh Hr Hg Hn. destruct op as [ino lb sy me|ino lb me|k0|k0 f|k0 l|k0|k0 tail dirty|ino lb| |force|nr|nr];
    unfold client_step, held_head, mbind, M_bind, mret, M_ret, mlift in Hrun; repeat case_match; simplify_eq; try (by exists bh).
  - exists bh. split; [|done]. rewrite lookup_insert_ne; [done|]. by eapply Hg.
  - exists bh. split; [|done]. rewrite lookup_insert_ne; [done|]. by eapply Hn.
  - match goal with E : nvfuse_mark_dirty_bh ?h ?m = Some (?h', _) |- _ => assert (bh_bc h' = bh_bc h) as Eb by
      (unfold nvfuse_mark_dirty_bh, mbind, M_bind, mret, M_ret in E; repeat case_match; by simplify_eq) end.
    destruct (decide (k0 = k)) as [->|]; [|exists bh; by rewrite lookup_insert_ne]. rewrite lookup_insert_eq. eexists. split; [done|]. congruence.
  - exists bh. split; [|done]. rewrite lookup_delete_ne; [done|]. by eapply not_eq_sym, Hr.
Qed.

Lemma sys_step_wp op s x X H : isrep pbn s (as_ictx x) (as_bm x) X H -> spre op x ->
  wp (sys_step op X H) (fun y s' => exists x', spost x op y.1 x' /\ isrep pbn s' (as_ictx x') (as_bm x') y.2.1 y.2.2) s.
Proof.
  intros R Hpre. destruct op as [ino|ino dirty|op]; cbn [sys_step spre] in *.
  - wp_step. eapply (read_inode_wp pbn); [exact R|done|]. intros s' id bh R' (c & (Hc & _) & Hb). wp_step. eapply wp_ctx; [exact Hc|].
    wp_step. eapply wp_lift; [exact Hb|]. wp_step. eexists. split; [by constructor|exact R'].
  - destruct Hpre as [Hi Hm]. destruct (is_heads _ _ _ _ _ _ R ino Hi) as (id & c & bh & bh' & HX & Hat & _). rewrite HX.
    wp_step. eapply (release_inode_wp pbn); [exact R|exact Hat|done|done|]. intros s' R'. wp_step. eexists. split; [by constructor|exact R'].
  - destruct Hpre as [Hp Hni]. pose proof R as [R1 R2 R3 R4]. wp_step. apply wp_on_bm.
    pose proof (step_serves pbn pbn_inj op _ _ _ R2 Hp) as W. unfold wp in W |- *.
    destruct (client_step pbn op H (sys_bm s)) as [[[r H'] m']|] eqn:E; [|done]. destruct W as (b' & Hpost & V').
    eexists. split; [by constructor|]. eapply (isrep_bm pbn); [exact R|exact V'|]. intros ino bh Hi Hbh.
    assert (is_Some (ab_held (ca_store (as_bm x)) !! iblock ino)) as Hhd.
    { apply elem_of_dom. rewrite <- (sv_dom _ _ _ _ R2). apply elem_of_dom. by exists bh. }
    eapply (step_keeps op); [exact R2|exact E|exact Hbh| | |].
    + intros k t d ->. cbn in Hni. by apply not_eq_sym, Hni.
    + intros i lb sy me -> -> Ek. inversion Hpost; subst. destruct Hp as [?|(_ & _ & Hno & _)]; [done|]. rewrite Ek in Hno. rewrite Hno in Hhd. by destruct Hhd.
    + intros i lb me -> -> Ek. inversion Hpost; subst. destruct Hp as [?|(_ & _ & Hno & _)]; [done|]. rewrite Ek in Hno. rewrite Hno in Hhd. by destruct Hhd.
Qed.

Lemma sys_run_wp ops : forall s x X H, isrep pbn s (as_ictx x) (as_bm x) X H -> ssafe ops x ->
  wp (sys_run ops X H) (fun y s' => exists x', ssees x ops y.1 x' /\ isrep pbn s' (as_ictx x') (as_bm x') y.2.1 y.2.2) s.
Proof.
  induction ops as [|op ops IH]; intros s x X H R Hs; cbn [sys_run].
  - wp_step. exists x. split; [constructor|done].
  - destruct Hs as [Hpre Hs]. wp_step. eapply wp_mono; [by apply sys_step_wp|]. intros [r [X1 H1]] s1 (x1 & Hp & R1). cbn [Datatypes.fst snd] in *.
    wp_step. eapply wp_mono; [apply (IH s1 x1); [done|by eapply Hs]|]. intros [rs [X2 H2]] s2 (x2 & Hrs & R2). wp_step. exists x2.
    split; [by econstructor|done].
Qed.

End client.
End IctxClient.
