(* ===== verification/IctxThms.v ===== *)
(** * The cache of inode contexts: properties *)
From S2P Require Import Prelude Layout BufferCache BufferRules BufferFind BufferUse BufferFlush BufferShrink.
From S2P Require Import BufferClient BufferThms InodeCache IctxRules IctxClient.
Import Layout BufferCache CacheLists BufferSpec BufferRules BufferOps BufferFind BufferGet BufferUse BufferFlush BufferInit
  BufferShrink BufferClient BufferThms InodeCache IctxSpec IctxRules IctxOps IctxClient.

Module IctxThms.

#[local] Opaque seqZ NVFUSE_ICTXC_SIZE.

(** ** The start *)

(** The manager with the first [i] contexts on memory [mem] *)
Record filled (mem : Z -> nvfuse_inode_ctx) (i : Z) (b : bm) (s : sys) : Prop := {
  fi_lock : ictxc_lock s = false;
  fi_ctx : forall id, ictxs s !! id = if decide (0 <= id < i) then Some (mem id) else None;
  fi_size : Z.of_nat (size (ictxs s)) = i;
  fi_list : forall t, ilst s t = if t =? BUFFER_TYPE_UNUSED then reverse (seqZ 0 i) else [];
  fi_hash : forall h, ibucket s h = if h =? HASH_NUM then reverse (seqZ 0 i) else [];
  fi_count : forall t, icount s t = if t =? BUFFER_TYPE_UNUSED then i else 0;
  fi_bm : sys_bm s = b }.

Lemma init_ictx_loop_wp mem n : forall i b s (Q : unit -> sys -> Prop), filled mem i b s -> 0 <= i -> i + Z.of_nat n < 2 ^ 31 - 1 ->
  (forall s', filled mem (i + Z.of_nat n) b s' -> Q tt s') -> wp (init_ictx_loop mem n i) Q s.
Proof.
  induction n as [|n IH]; intros i b s Q F Hi Hn HQ; cbn [init_ictx_loop].
  { wp_step. apply HQ. by rewrite Z.add_0_r. }
  unfold ilist_add, ihlist_add_head, ihash_count_add, icount_add. wp_steps. eapply (IH (i + 1) b); [|lia|lia|intros s' F'; apply HQ].
  - pose proof F as [F1 F2 F3 F4 F5 F6 F7].
    assert (reverse (seqZ 0 (i + 1)) = i :: reverse (seqZ 0 i)) as Eseq.
    { rewrite seqZ_app by lia. rewrite reverse_app. by rewrite Z.add_0_l. }
    split; icbn.
    + done.
    + intros id. destruct (decide (id = i)) as [->|Hne].
      * rewrite lookup_insert_eq, decide_True by lia. done.
      * rewrite lookup_insert_ne, F2 by done. destruct (decide (0 <= id < i)); [by rewrite decide_True by lia|by rewrite decide_False by lia].
    + rewrite map_size_insert_None by (rewrite F2, decide_False by lia; done). lia.
    + intros t. unfold ilst. icbn. rewrite default_insert. fold (ilst s t). rewrite F4. unfold ilst. icbn. fold (ilst s BUFFER_TYPE_UNUSED). rewrite F4, Eseq.
      by destruct (Z.eqb_spec t BUFFER_TYPE_UNUSED).
    + intros h. unfold ibucket. icbn. rewrite default_insert. fold (ibucket s h). rewrite F5. unfold ibucket. icbn. fold (ibucket s HASH_NUM). rewrite F5, Eseq.
      by destruct (Z.eqb_spec h HASH_NUM).
    + intros t. unfold icount. icbn. rewrite default_insert. fold (icount s t). rewrite F6. unfold icount. icbn. fold (icount s BUFFER_TYPE_UNUSED). rewrite F6.
      cbn [Z.eqb]. rewrite s32_small by (cbn; lia). by destruct (Z.eqb_spec t BUFFER_TYPE_UNUSED).
    + done.
  - replace (i + Z.of_nat (S n)) with (i + 1 + Z.of_nat n) by lia. done.
Qed.

Lemma init_ictx_wp mem s (Q : Z -> sys -> Prop) : (forall s', filled mem NVFUSE_ICTXC_SIZE (sys_bm s) s' -> Q 0 s') -> wp (nvfuse_init_ictx_cache mem) Q s.
Proof.
  intros HQ. unfold nvfuse_init_ictx_cache. wp_step. wp_step. wp_step.
  apply (init_ictx_loop_wp mem _ 0 (sys_bm s)).
  - split; try done.
    + intros id. rewrite decide_False by lia. apply lookup_empty.
    + intros t. by case_match.
    + intros h. by case_match.
    + intros t. unfold icount. cbn. rewrite lookup_empty. by case_match.
  - lia.
  - change NVFUSE_ICTXC_SIZE with 32768; lia.
  - intros s' F. wp_step. apply HQ. rewrite Z2Nat.id in F by (change NVFUSE_ICTXC_SIZE with 32768; lia). exact F.
Qed.

Lemma init_ictx_filled mem s : exists s', nvfuse_init_ictx_cache mem s = Some (0, s') /\ filled mem NVFUSE_ICTXC_SIZE (sys_bm s) s'.
Proof.
  assert (wp (nvfuse_init_ictx_cache mem) (fun r s' => r = 0 /\ filled mem NVFUSE_ICTXC_SIZE (sys_bm s) s') s) as W by (apply init_ictx_wp; by intros s' F).
  destruct (wp_elim _ _ _ W) as (r & s' & E & -> & F). exists s'. split; [exact E|exact F].
Qed.

(** Memory that holds zeros *)
Definition cleared (n : Z) (mem : Z -> nvfuse_inode_ctx) : Prop := forall i, 0 <= i < n ->
  ictx_type (mem i) = BUFFER_TYPE_UNUSED /\ ictx_lock (mem i) = false /\ ictx_ref (mem i) = 0 /\
  ictx_data_dirty_count (mem i) = 0 /\ ictx_meta_dirty_count (mem i) = 0.

Definition start_ictx (n : Z) : icache := mk_icache n [] [] ∅.

Lemma filled_irep n mem b s : 0 <= n < 2 ^ 31 - 1 -> cleared n mem -> filled mem n b s -> irep s (start_ictx n).
Proof.
  intros Hn Hm [F1 F2 F3 F4 F5 F6 F7].
  assert (forall id c, ictxs s !! id = Some c -> 0 <= id < n /\ c = mem id) as Hc.
  { intros id c. rewrite F2. case_decide; [|done]. by intros [= <-]. }
  assert (forall id, id ∈ reverse (seqZ 0 n) <-> 0 <= id < n) as Hin.
  { intros id. rewrite elem_of_reverse, elem_of_seqZ. lia. }
  assert (NoDup (reverse (seqZ 0 n))) as Hnd by (rewrite reverse_Permutation; apply NoDup_seqZ).
  assert (forall h id, id ∈ ibucket s h <-> h = HASH_NUM /\ 0 <= id < n) as Hb.
  { intros h id. rewrite F5. destruct (Z.eqb_spec h HASH_NUM); [rewrite Hin; tauto|]. rewrite elem_of_nil. tauto. }
  split; [done| | | | | | | |intros ino Hi; by apply elem_of_empty in Hi].
  - split.
    + intros t. rewrite F4. case_match; [done|constructor].
    + intros t id. rewrite F4. destruct (Z.eqb_spec t BUFFER_TYPE_UNUSED) as [->|Hne].
      * rewrite Hin. split; [|intros (c & Hcc & _); by apply (Hc id c)]. intros Hi. exists (mem id). rewrite F2, decide_True by done.
        split; [done|]. by apply Hm.
      * rewrite elem_of_nil. split; [done|]. intros (c & Hcc & Ht). apply Hne. rewrite <- Ht. destruct (Hc id c Hcc) as [Hi ->]. by apply Hm.
    + intros id c Hcc. destruct (Hc id c Hcc) as [Hi ->]. rewrite (proj1 (Hm id Hi)). by split.
    + intros t. rewrite F6, F4. case_match; [|done]. rewrite length_reverse, length_seqZ. lia.
    + rewrite F3. lia.
  - split.
    + intros h. rewrite F5. case_match; [done|constructor].
    + intros h id [_ Hi]%Hb. rewrite F2, decide_True by done. by eexists.
    + intros h h' id [-> _]%Hb [-> _]%Hb. done.
    + intros id [c Hcc]. exists HASH_NUM. apply Hb. split; [done|]. by apply (Hc id c).
    + intros h id c [-> _]%Hb Hne. done.
    + intros h id id' c c' Hne [-> _]%Hb. done.
    + intros id c [_ Hi]%Hb Hcc. destruct (Hc id c Hcc) as [_ ->]. by apply Hm.
  - by rewrite F6.
  - rewrite F4. done.
  - rewrite F4. done.
  - intros id c Hcc Ht. apply Hb. split; [done|]. by apply (Hc id c).
  - intros id c Hcc. destruct (Hc id c Hcc) as [Hi ->]. destruct (Hm id Hi) as (H1 & H2 & H3 & H4 & H5). split; [done|]. split; [done|]. by left.
Qed.

(** ** The end *)

Lemma deinit_ictx_list_wp l : forall s r (Q : Z -> sys -> Prop),
  (forall s', (forall t, (forall id, id ∈ l -> id ∉ ilst s t) -> ilst s' t = ilst s t) -> Q (r + Z.of_nat (length l)) s') ->
  wp (deinit_ictx_list l r) Q s.
Proof.
  induction l as [|id l IH]; intros s r Q HQ; cbn [deinit_ictx_list].
  - wp_step. replace r with (r + Z.of_nat 0) by lia. by apply HQ.
  - unfold ilist_del. wp_steps. apply IH. intros s' Hs'. replace (r + 1 + Z.of_nat (length l)) with (r + Z.of_nat (length (id :: l))) by (cbn; lia).
    apply HQ. intros t Ht. assert (ilst (set_ic_list (without id <$> ictxc_list s) s) t = ilst s t) as E.
    { unfold ilst. icbn. rewrite default_without. apply without_notin. apply Ht, elem_of_cons. by left. }
    rewrite Hs', E; [done|]. intros x Hx. rewrite E. apply Ht, elem_of_cons. by right.
Qed.

Lemma deinit_ictx_types_wp k : forall (L : Z -> list Z) s t r (Q : Z -> sys -> Prop),
  (forall t' id t'', id ∈ L t' -> id ∈ L t'' -> t' = t'') -> (forall t', t <= t' -> ilst s t' = L t') ->
  (forall s', Q (r + Z.of_nat (length (concat (L <$> seqZ t (Z.of_nat k))))) s') -> wp (deinit_ictx_types k t r) Q s.
Proof.
  induction k as [|k IH]; intros L s t r Q Hd HL HQ; cbn [deinit_ictx_types].
  - wp_step. replace r with (r + Z.of_nat 0) by lia. apply HQ.
  - wp_step. wp_step. wp_step. apply deinit_ictx_list_wp. intros s' Hs'. apply (IH L); [done| |].
    + intros t' Ht'. rewrite Hs', HL; [done|lia|]. intros id Hi Hi'. rewrite HL in Hi, Hi' by lia. assert (t = t') by (by eapply Hd). lia.
    + intros s2. rewrite HL by lia. rewrite <- Z.add_assoc, <- Nat2Z.inj_add, <- length_app.
      specialize (HQ s2). rewrite Nat2Z.inj_succ, seqZ_cons in HQ by lia. cbn [fmap list_fmap concat] in HQ.
      by rewrite Z.pred_succ in HQ.
Qed.

Lemma deinit_ictx_wp s a (Q : unit -> sys -> Prop) : irep s a -> Z.of_nat (size (ictxs s)) = NVFUSE_ICTXC_SIZE ->
  (forall s', Q tt s') -> wp nvfuse_deinit_ictx_cache Q s.
Proof.
  intros R Hsz HQ. pose proof (ir_lists _ _ R) as Hl. unfold nvfuse_deinit_ictx_cache. wp_step. apply (deinit_ictx_types_wp _ (ilst s)).
  - intros t id t' (c & Hc & <-)%Hl (c' & Hc' & <-)%Hl. congruence.
  - done.
  - intros s'. apply wp_assert; [|done]. apply Z.eqb_eq. rewrite <- Hsz, Z2Nat.id by (unfold BUFFER_TYPE_NUM; lia).
    change BUFFER_TYPE_UNUSED with 0. rewrite Z.add_0_l. by rewrite (lists_total _ _ _ Hl).
Qed.

Section thms.
Context (pbn : Z -> Z -> Z).
Implicit Types (s : sys) (a : icache).

(** Both caches from their start, as nvfuse_mount makes them *)
Definition sys_session (mem : Z -> nvfuse_inode_ctx) (buffer_size total : Z) (ops : list sys_op) : IM (list answer * (gmap Z Z * heads)) :=
  on_bm (nvfuse_init_buffer_cache buffer_size total);;
  nvfuse_init_ictx_cache mem;;
  sys_run pbn ops ∅ ∅.

Definition start_sys (k n : Z) (b : bm) : asys := mk_asys (start_ictx k) (start_cache pbn n b).


(** A context that is in use is never a victim, but the search stops at it: when
    no context is unused and the least recently used clean one is in use,
    reading an inode that is not cached spins on its lock. *)
Theorem held_victim_hangs s a ino v : irep s a -> ino ∉ ic_held a -> ino ∉ ic_clean a -> ic_free a = 0 ->
  last (ic_clean a) = Some v -> v ∈ ic_held a -> nvfuse_get_ictx ino s = None.
Proof.
  intros R Hh Hc Hf Hv Hvh. rewrite <- (ir_clean _ _ R), fmap_last in Hv. destruct (last (ilst s BUFFER_TYPE_CLEAN)) as [id|] eqn:Hid; [|done].
  injection Hv as Ev. pose proof (ir_lists _ _ R) as Hl.
  assert (id ∈ ilst s BUFFER_TYPE_CLEAN) as Hin by (apply last_Some in Hid as [l' ->]; set_solver). pose proof Hin as (c & Hcc & Ht)%Hl.
  assert (ictx_ino c = v) as Ecv by (unfold ino_of in Ev; by rewrite Hcc in Ev).
  assert (ictx_lock c = true) as Hlk.
  { destruct (ir_ctx _ _ R id c Hcc) as (_ & _ & [(Ht2 & _)|(_ & Hd)]); [by rewrite Ht in Ht2|]. rewrite decide_True in Hd by (by rewrite Ecv). by destruct Hd. }
  assert (icount s BUFFER_TYPE_CLEAN <> 0) as Hcnt.
  { rewrite (li_count _ _ _ Hl). destruct (ilst s BUFFER_TYPE_CLEAN); [done|cbn; lia]. }
  unfold nvfuse_get_ictx. apply bind_aborts. apply wp_ic_lock; [apply R|]. apply bind_aborts.
  apply wp_ictx_lookup; [apply R|intros id' c' Hat; by destruct (not_held_at s a ino R Hh Hc id' c')|intros _].
  apply stuck_first, stuck_first. unfold nvfuse_replace_ictx. apply bind_aborts. wp_step. apply bind_aborts. apply wp_assert; [done|].
  apply bind_aborts. change (icount (set_ic_lock true s)) with (icount s). rewrite (ir_free _ _ R), Hf. cbn [Z.eqb negb].
  rewrite (proj2 (Z.eqb_neq _ 0)) by done. cbn [negb]. wp_step. apply bind_aborts. wp_step. apply bind_aborts.
  change (icount (set_ic_lock true s)) with (icount s). apply wp_assert; [by apply negb_true_iff, Z.eqb_neq|]. apply stuck_first.
  change (ilst (set_ic_lock true s) BUFFER_TYPE_CLEAN) with (ilst s BUFFER_TYPE_CLEAN). destruct (last_rev _ _ Hid) as [l' ->]. cbn [ictx_victim].
  apply stuck_first. by apply (ctx_lock_stuck id c).
Qed.

(** The contexts are not cleared when their memory is taken: if the first one
    does not happen to hold an open lock, the first inode cannot be read. *)
Theorem uncleared_ictx_hangs mem ino s : ictx_lock (mem 0) = true -> ROOT_INO <= ino ->
  (nvfuse_init_ictx_cache mem;; nvfuse_read_inode pbn None ino) s = None.
Proof.
  intros Hlk Hino. apply bind_aborts. apply init_ictx_wp. intros s' [F1 F2 F3 F4 F5 F6 F7]. unfold nvfuse_read_inode.
  rewrite (proj2 (Z.ltb_ge _ _)) by done. apply stuck_first. unfold nvfuse_get_ictx. apply bind_aborts. apply wp_ic_lock; [done|]. apply bind_aborts.
  unfold nvfuse_ictx_hash_lookup. wp_step. wp_step. change (ibucket (set_ic_lock true s')) with (ibucket s'). rewrite F5.
  rewrite (proj2 (Z.eqb_neq _ _)) by apply hash_lt. cbn [ictx_scan]. wp_step. apply stuck_first, stuck_first.
  assert (exists l', reverse (seqZ 0 NVFUSE_ICTXC_SIZE) = l' ++ [0]) as [l' El].
  { rewrite seqZ_cons by (change NVFUSE_ICTXC_SIZE with 32768; lia). rewrite reverse_cons. by eexists. }
  unfold nvfuse_replace_ictx. apply bind_aborts. wp_step. apply bind_aborts. apply wp_assert; [done|]. apply bind_aborts.
  change (icount (set_ic_lock true s')) with (icount s'). rewrite F6. change (negb ((if BUFFER_TYPE_UNUSED =? BUFFER_TYPE_UNUSED then NVFUSE_ICTXC_SIZE else 0) =? 0)) with true.
  cbn [negb]. wp_step. apply bind_aborts. wp_step. apply bind_aborts. change (icount (set_ic_lock true s')) with (icount s'). rewrite F6. apply wp_assert; [done|].
  apply stuck_first. change (ilst (set_ic_lock true s')) with (ilst s'). rewrite F4, Z.eqb_refl, El, rev_app_distr. cbn [rev app ictx_victim].
  apply stuck_first. apply (ctx_lock_stuck 0 (mem 0)); [|done]. change (ictxs (set_ic_lock true s')) with (ictxs s'). rewrite F2.
  by rewrite decide_True by (change NVFUSE_ICTXC_SIZE with 32768; lia).
Qed.

(** A number that is used again while a context of its old inode is cached gets
    a second one: making the inode succeeds, and both contexts are found under
    the number, the new one locked and the old one not. *)
Theorem recycled_ino_two_contexts s a b X H alloc ino : isrep pbn s a b X H -> has_victim a -> ino ∈ ic_clean a -> ino ∉ ic_held a ->
  (ic_free a <> 0 \/ last (ic_clean a) <> Some ino) ->
  wp alloc (fun i m => i = ino /\ exists b' H', serves pbn m b' H' /\ can_make pbn b' ino) (sys_bm s) ->
  exists id s' id' c c', create_ictx pbn alloc s = Some (Some id, s') /\ id <> id' /\ at_ino s' ino id c /\ at_ino s' ino id' c' /\
    ictx_lock c = true /\ ictx_lock c' = false.
Proof.
  intros R Hv Hin Hnh Hl HA. destruct (wp_elim _ _ _ (create_twice pbn s a b X H alloc ino R Hv Hin Hnh Hl HA))
    as (r & s' & E & id & id' & c & c' & -> & Hne & H1 & H2 & H3 & H4 & _). by exists id, s', id', c, c'.
Qed.

(** The contexts are given back whole. *)
Theorem ictx_deinit_returns s a : irep s a -> Z.of_nat (size (ictxs s)) = NVFUSE_ICTXC_SIZE ->
  exists s', nvfuse_deinit_ictx_cache s = Some (tt, s').
Proof.
  intros R Hsz. destruct (wp_elim _ _ _ (deinit_ictx_wp s a (fun _ _ => True) R Hsz (fun _ => I))) as ([] & s' & E & _). by exists s'.
Qed.

End thms.

(** ** Examples *)

(** The inode table of [demo_pbn] with one inode on the device *)
Definition demo_inode : list Z := 2 :: replicate 4095 0.
Definition demo_itable : bm := init_state {[ demo_pbn ITABLE_INO 2 := demo_inode ]}.
Definition zero_mem (_ : Z) : nvfuse_inode_ctx := mk_ictx false 0 None 0 0 0 0 0.

Lemma itable_full : full_blocks demo_itable.
Proof.
  intros p l Hl. change (bm_dev demo_itable) with ({[ demo_pbn ITABLE_INO 2 := demo_inode ]} : gmap Z (list Z)) in Hl.
  by apply lookup_singleton_Some in Hl as [<- <-].
Qed.

Lemma zero_cleared n : cleared n zero_mem.
Proof. by intros i _. Qed.

Definition demo_sys_ops : list sys_op := [SRead 2; SRelease 2 false; SRead 2].

Lemma itable_get c : 1 <= ca_size c -> ab_held (ca_store c) = ∅ -> ab_dirty (ca_store c) = ∅ -> may_get demo_pbn c ITABLE_INO 2.
Proof.
  intros Hsz Hh Hd. split; [by split|]. split; [done|]. split; [by rewrite Hh, lookup_empty|]. right. unfold busy.
  rewrite Hh, Hd, dom_empty_L, union_empty_l_L, size_empty. lia.
Qed.

Lemma itable_ino : i_ino_at (ab_now (fresh_store demo_pbn demo_itable) (iblock 2)) = 2.
Proof. by vm_compute. Qed.

(** The inode is read, released and read again, with one context or more. *)
Definition read_once (k n : Z) : asys :=
  mk_asys (read_ino 2 (start_ictx k)) (read_block 2 (start_cache demo_pbn n demo_itable)).
Definition read_released (k n : Z) : asys := mk_asys (release_ino 2 (as_ictx (read_once k n))) (release_block 2 false (as_bm (read_once k n))).

Lemma once_ictx k n : k <> 0 -> as_ictx (read_once k n) = mk_icache (k - 1) [] [2] {[ 2 ]}.
Proof.
  intros Hk. unfold read_once, read_ino, miss. cbn [as_ictx start_ictx ic_clean ic_free]. rewrite decide_False by apply not_elem_of_nil.
  rewrite (proj2 (Z.eqb_neq k 0)) by done.
  unfold hold_ino, push_ref, take_free. cbn [ic_free ic_clean ic_ref ic_held start_ictx]. by rewrite union_empty_r_L.
Qed.

Lemma released_ictx k n : k <> 0 -> as_ictx (read_released k n) = mk_icache (k - 1) [2] [] ∅.
Proof. intros Hk. unfold read_released. cbn [as_ictx]. rewrite once_ictx by done.
  unfold release_ino, unhold, push_clean, drop_ino. cbn [ic_free ic_clean ic_ref ic_held]. by rewrite difference_diag_L. Qed.

Lemma released_bm k n : ab_held (ca_store (as_bm (read_released k n))) = ∅ /\ ab_dirty (ca_store (as_bm (read_released k n))) = ∅ /\
  ab_now (ca_store (as_bm (read_released k n))) (iblock 2) = ab_now (fresh_store demo_pbn demo_itable) (iblock 2).
Proof.
  split; [cbn; by rewrite delete_insert_eq, delete_empty|]. split; [done|].
  unfold read_released, release_block. cbn [as_bm ca_store with_heads ab_now released]. rewrite fupd_eq. unfold held_now. cbn. by rewrite lookup_insert_eq.
Qed.

Lemma demo_sys_safe k n : k <> 0 -> 1 <= n -> ssafe demo_pbn demo_sys_ops (mk_asys (start_ictx k) (start_cache demo_pbn n demo_itable)).
Proof.
  intros Hk Hn1. unfold demo_sys_ops. cbn [ssafe]. split.
  { split; [done|apply not_elem_of_empty|right; by left|done|by apply itable_get|exact itable_ino]. }
  intros r1 x1 P1. assert (x1 = read_once k n) as -> by (by inversion P1). clear P1. cbn [spre]. split.
  { rewrite once_ictx by done. split; [cbn [ic_held]; by apply elem_of_singleton|]. eexists. split; [apply lookup_insert_eq|]. split; [done|by intros [?|?]]. }
  intros r2 x2 P2. assert (x2 = read_released k n) as -> by (by inversion P2). clear P2. cbn [spre]. split; [|done].
  destruct (released_bm k n) as (E1 & E2 & E3). split; [done|rewrite released_ictx by done; apply not_elem_of_empty| |done|by apply itable_get|].
  - left. rewrite released_ictx by done. apply elem_of_cons. by left.
  - rewrite E3. exact itable_ino.
Qed.


(** Few contexts, [k] of them, and one buffer *)
Definition few (k : nat) : sys := match init_ictx_loop zero_mem k 0 (empty_sys (grown demo_itable)) with
  Some (_, s) => s | None => empty_sys demo_itable end.
Definition after (ops : list sys_op) (s : sys) : sys := match sys_run demo_pbn ops ∅ ∅ s with Some (_, s) => s | None => s end.

Lemma few_isrep k : Z.of_nat k < 2 ^ 31 - 1 -> isrep demo_pbn (few k) (start_ictx (Z.of_nat k)) (start_cache demo_pbn 1 demo_itable) ∅ ∅.
Proof.
  intros Hk. destruct (grown_rep demo_pbn (mapped demo_pbn) demo_itable (fresh_store demo_pbn demo_itable)) as [R _]; [by apply init_rep, itable_full|done|].
  assert (serves demo_pbn (grown demo_itable) (start_cache demo_pbn 1 demo_itable) ∅) as V by (by split).
  unfold few. generalize dependent (grown demo_itable). intros m R V.
  assert (wp (init_ictx_loop zero_mem k 0) (fun _ s => filled zero_mem (Z.of_nat k) m s) (empty_sys m)) as W2.
  { apply (init_ictx_loop_wp zero_mem k 0 m); [|lia|lia|by intros s' F]. split; try done.
    - intros id. rewrite decide_False by lia. apply lookup_empty.
    - intros t. by case_match.
    - intros h. by case_match.
    - intros t. unfold icount. cbn. rewrite lookup_empty. by case_match. }
  unfold wp in W2. destruct (init_ictx_loop zero_mem k 0 (empty_sys m)) as [[[] s]|]; [|done]. split.
  - eapply filled_irep; [|apply zero_cleared|exact W2]. lia.
  - by rewrite (fi_bm _ _ _ _ W2).
  - intros ino Hi. by apply elem_of_empty in Hi.
  - intros ino Hi. by apply elem_of_empty in Hi.
Qed.

Lemma after_isrep ops k : Z.of_nat k < 2 ^ 31 - 1 -> ssafe demo_pbn ops (mk_asys (start_ictx (Z.of_nat k)) (start_cache demo_pbn 1 demo_itable)) ->
  exists x X H rs, ssees (mk_asys (start_ictx (Z.of_nat k)) (start_cache demo_pbn 1 demo_itable)) ops rs x /\
    isrep demo_pbn (after ops (few k)) (as_ictx x) (as_bm x) X H.
Proof.
  intros Hk Hs. pose proof (sys_run_wp demo_pbn demo_inj ops (few k) (mk_asys _ _) _ _ (few_isrep k Hk) Hs) as W. unfold wp in W. unfold after.
  destruct (sys_run demo_pbn ops ∅ ∅ (few k)) as [[[rs [X H]] s']|]; [|done]. destruct W as (x & Hx & R). by exists x, X, H, rs.
Qed.

(** One context: inode 2 is in use for the second time. *)
Lemma one_ctx : exists a, irep (after demo_sys_ops (few 1)) a /\ a = mk_icache 0 [2] [] {[ 2 ]}.
Proof.
  destruct (after_isrep demo_sys_ops 1) as (x & X & H & rs & Hsee & R); [done|by apply demo_sys_safe|].
  exists (as_ictx x). split; [apply R|]. inversion Hsee as [|? ? ? ? x1 ? P1 S1]; subst.
  assert (x1 = read_once 1 1) as -> by (by inversion P1). inversion S1 as [|? ? ? ? x2 ? P2 S2]; subst.
  assert (x2 = read_released 1 1) as -> by (by inversion P2). inversion S2 as [|? ? ? ? x3 ? P3 S3]; subst. inversion S3; subst.
  inversion P3; subst. cbn [as_ictx]. rewrite released_ictx by done. unfold read_ino. cbn [ic_clean]. rewrite decide_True by (apply elem_of_cons; by left).
  unfold hit, hold_ino, push_clean, drop_ino. cbn [ic_free ic_clean ic_ref ic_held]. by rewrite union_empty_r_L.
Qed.

Example held_victim_hangs_ex : nvfuse_get_ictx 3 (after demo_sys_ops (few 1)) = None.
Proof.
  destruct one_ctx as (a & R & ->).
  apply (held_victim_hangs demo_pbn _ (mk_icache 0 [2] [] {[ 2 ]}) 3 2 R); cbn [ic_held ic_clean ic_free].
  - by intros ?%elem_of_singleton.
  - by intros ?%list_elem_of_singleton.
  - done.
  - done.
  - by apply elem_of_singleton.
Defined.

Example uncleared_ictx_hangs_ex : (nvfuse_init_ictx_cache (fun _ => mk_ictx true 0 None 0 0 0 0 0);; nvfuse_read_inode demo_pbn None 2) (empty_sys demo_itable) = None.
Proof. by apply (uncleared_ictx_hangs demo_pbn (fun _ => mk_ictx true 0 None 0 0 0 0 0) 2 (empty_sys demo_itable)). Defined.

(** Two contexts: inode 2 was read and released, and its number is used again. *)
Definition demo_once : list sys_op := [SRead 2; SRelease 2 false].

Lemma two_ctx : exists X H, isrep demo_pbn (after demo_once (few 2)) (mk_icache 1 [2] [] ∅) (as_bm (read_released 2 1)) X H.
Proof.
  pose proof (demo_sys_safe 2 1 ltac:(done) ltac:(done)) as Hs. unfold demo_sys_ops in Hs. cbn [ssafe] in Hs.
  destruct (after_isrep demo_once 2) as (x & X & H & rs & Hsee & R); [done| |].
  { unfold demo_once. cbn [ssafe]. split; [apply Hs|]. intros r x P. split; [by apply (proj2 Hs r x P)|done]. }
  exists X, H. inversion Hsee as [|? ? ? ? x1 ? P1 S1]; subst. assert (x1 = read_once 2 1) as -> by (by inversion P1).
  inversion S1 as [|? ? ? ? x2 ? P2 S2]; subst. assert (x2 = read_released 2 1) as -> by (by inversion P2). inversion S2; subst.
  rewrite released_ictx in R by done. exact R.
Qed.

Example recycled_ino_ex : exists id s' id' c c', create_ictx demo_pbn (mret 2) (after demo_once (few 2)) = Some (Some id, s') /\ id <> id' /\
  at_ino s' 2 id c /\ at_ino s' 2 id' c' /\ ictx_lock c = true /\ ictx_lock c' = false.
Proof.
  destruct two_ctx as (X & H & R). apply (recycled_ino_two_contexts demo_pbn _ _ _ X H (mret 2) 2 R).
  - left. done.
  - by apply elem_of_cons; left.
  - apply not_elem_of_empty.
  - by left.
  - split; [done|]. exists (as_bm (read_released 2 1)), H. split; [apply R|]. destruct (released_bm 2 1) as (E1 & E2 & E3).
    split; [done|done|by apply itable_get|]. rewrite E3. exact itable_ino.
Defined.

Example ictx_deinit_ex : exists s s', nvfuse_init_ictx_cache zero_mem (empty_sys demo_itable) = Some (0, s) /\ nvfuse_deinit_ictx_cache s = Some (tt, s').
Proof.
  destruct (init_ictx_filled zero_mem (empty_sys demo_itable)) as (s & E & F).
  destruct (ictx_deinit_returns s (start_ictx NVFUSE_ICTXC_SIZE)) as [s' E']; [|apply F|exists s, s'; split; [exact E|exact E']].
  apply (filled_irep _ zero_mem demo_itable); [change NVFUSE_ICTXC_SIZE with 32768; lia|exact (zero_cleared _)|exact F].
Defined.

End IctxThms.
