(* ===== verification/ControlPlane.v ===== *)
(** * The control plane

    src/nvfuse_control_plane.c: the table of registered applications, the
    table of containers (block groups) with their owners and reservation
    locks, the buffer quota, and the two alternating log files each table is
    stored in.

    The tables are the byte buffers of the program: [struct app_manage_node]
    has 40 bytes (list head 0, channel_id 16, name 20, root_bg_id 36) and
    [struct container_reservation] 12 (owner_core_id 0, status 4, ref_count 8).
    A null or released table is [None]; using one, and any access outside a
    table, ends the run ([None] of the monad), as does a failed assertion and
    a loop that never ends.

    The control plane is a client of the file API (src/nvfuse_api.c, and the
    allocation of aligned buffers from DPDK): the class [FileApi] has the
    operations it calls, on the file system state and a world [W] of their own. *)
From stdpp Require Import strings pretty.
From S2P Require Import Prelude Layout Mem BgList Alloc.

#[local] Open Scope Z_scope.

Module ControlPlane.
Export Alloc Mem.

(** ** Constants *)

Definition SPDK_NUM_CORES : Z := 16.
Definition LOG_CHUNK_SIZE : Z := 4096.
Definition NAME_SIZE : Z := 16.
Definition DIV_UP (x y : Z) : Z := (x + y - 1) / y * y.

Definition APP_UNREGISTER_WITHOUT_DESTROYING_CONTAINERS : Z := 0.
Definition APP_UNREGISTER_WITH_DESTROYING_CONTAINERS : Z := 1.
Definition CONTAINER_NEW_ALLOC : Z := 0.
Definition CONTAINER_ALLOCATED_ALLOC : Z := 1.
Definition UNLOCKED : Z := 0.
Definition ACQUIRED : Z := 1.
Definition WRITE_LOCKED : Z := 2.
Definition READ_LOCKED : Z := 3.
Definition UNLOCK : Z := 0.
Definition RESV_READ_LOCK : Z := 1.
Definition RESV_WRITE_LOCK : Z := 2.
Definition O_RDONLY : Z := 0.
Definition O_RDWR : Z := 2.
Definition O_CREAT : Z := 0x40.

Definition SIZEOF_APP_NODE : Z := 40.
Definition APP_CHANNEL_ID : Z := 16.
Definition APP_NAME : Z := 20.
Definition APP_ROOT_BG : Z := 36.
Definition SIZEOF_RESERVATION : Z := 12.
Definition CR_OWNER : Z := 0.
Definition CR_STATUS : Z := 4.
Definition CR_REF : Z := 8.

(** ** struct control_plane_context

    [app_base] is the address of the application table, which the list heads
    in it contain.  The scratch buffers for names are not state. *)
Record cp_ctx := mk_cp {
  app_manage_table : option (list Z); app_base : Z; app_table_size : Z; app_valid_count : Z;
  app_table_generation : Z; app_table_cur_log_file : Z; app_table_max_log_file : Z;
  reservation_table : option (list Z); reservation_table_size : Z;
  nr_containers : Z; free_containers : Z; last_alloc_container_id : Z;
  container_generation : Z; container_cur_log_file : Z; container_max_log_file : Z;
  total_buffer_size : Z; curr_buffer_size : Z }.

Definition set_app_table (t : option (list Z)) (c : cp_ctx) : cp_ctx :=
  mk_cp t (app_base c) (app_table_size c) (app_valid_count c) (app_table_generation c) (app_table_cur_log_file c)
    (app_table_max_log_file c) (reservation_table c) (reservation_table_size c) (nr_containers c) (free_containers c)
    (last_alloc_container_id c) (container_generation c) (container_cur_log_file c) (container_max_log_file c)
    (total_buffer_size c) (curr_buffer_size c).
Definition set_app_log (gen cur : Z) (c : cp_ctx) : cp_ctx :=
  mk_cp (app_manage_table c) (app_base c) (app_table_size c) (app_valid_count c) gen cur
    (app_table_max_log_file c) (reservation_table c) (reservation_table_size c) (nr_containers c) (free_containers c)
    (last_alloc_container_id c) (container_generation c) (container_cur_log_file c) (container_max_log_file c)
    (total_buffer_size c) (curr_buffer_size c).
Definition set_resv_table (t : option (list Z)) (c : cp_ctx) : cp_ctx :=
  mk_cp (app_manage_table c) (app_base c) (app_table_size c) (app_valid_count c) (app_table_generation c)
    (app_table_cur_log_file c) (app_table_max_log_file c) t (reservation_table_size c) (nr_containers c)
    (free_containers c) (last_alloc_container_id c) (container_generation c) (container_cur_log_file c)
    (container_max_log_file c) (total_buffer_size c) (curr_buffer_size c).
Definition set_resv_log (gen cur : Z) (c : cp_ctx) : cp_ctx :=
  mk_cp (app_manage_table c) (app_base c) (app_table_size c) (app_valid_count c) (app_table_generation c)
    (app_table_cur_log_file c) (app_table_max_log_file c) (reservation_table c) (reservation_table_size c)
    (nr_containers c) (free_containers c) (last_alloc_container_id c) gen cur (container_max_log_file c)
    (total_buffer_size c) (curr_buffer_size c).
Definition set_free_containers (n : Z) (c : cp_ctx) : cp_ctx :=
  mk_cp (app_manage_table c) (app_base c) (app_table_size c) (app_valid_count c) (app_table_generation c)
    (app_table_cur_log_file c) (app_table_max_log_file c) (reservation_table c) (reservation_table_size c)
    (nr_containers c) n (last_alloc_container_id c) (container_generation c) (container_cur_log_file c)
    (container_max_log_file c) (total_buffer_size c) (curr_buffer_size c).
Definition set_last_alloc (n : Z) (c : cp_ctx) : cp_ctx :=
  mk_cp (app_manage_table c) (app_base c) (app_table_size c) (app_valid_count c) (app_table_generation c)
    (app_table_cur_log_file c) (app_table_max_log_file c) (reservation_table c) (reservation_table_size c)
    (nr_containers c) (free_containers c) n (container_generation c) (container_cur_log_file c)
    (container_max_log_file c) (total_buffer_size c) (curr_buffer_size c).
Definition set_buffers (total curr : Z) (c : cp_ctx) : cp_ctx :=
  mk_cp (app_manage_table c) (app_base c) (app_table_size c) (app_valid_count c) (app_table_generation c)
    (app_table_cur_log_file c) (app_table_max_log_file c) (reservation_table c) (reservation_table_size c)
    (nr_containers c) (free_containers c) (last_alloc_container_id c) (container_generation c)
    (container_cur_log_file c) (container_max_log_file c) total curr.

(** ** The file API the control plane calls

    [fa_alloc n] is the address and the content of a new buffer, if there is
    one; [fa_read fd n off] the return value and the new content of the
    destination; the other operations have the return value of the API
    function of the same name. *)
Class FileApi (W : Type) := {
  fa_alloc : Z -> fs * W -> option (Z * list Z) * (fs * W);
  fa_malloc : fs * W -> bool * (fs * W);
  fa_open : list Z -> Z -> fs * W -> Z * (fs * W);
  fa_read : Z -> Z -> Z -> fs * W -> Z * list Z * (fs * W);
  fa_write : Z -> list Z -> Z -> fs * W -> Z * (fs * W);
  fa_close : Z -> fs * W -> fs * W;
  fa_check_flush_dirty : Z -> fs * W -> fs * W;
  fa_getattr : list Z -> fs * W -> Z * (fs * W);
  fa_mkdir : list Z -> Z -> fs * W -> Z * (fs * W);
  fa_rmdir : list Z -> fs * W -> Z * (fs * W);
  (* return value, last component of the path, inode of the parent *)
  fa_path_resolve : list Z -> fs * W -> Z * list Z * Z * (fs * W);
  (* return value, inode of the entry *)
  fa_lookup : list Z -> Z -> fs * W -> Z * Z * (fs * W) }.

Record nvh (W : Type) := mk_nvh { nv_cp : cp_ctx; nv_fs : fs; nv_w : W }.
Arguments mk_nvh {W}. Arguments nv_cp {W}. Arguments nv_fs {W}. Arguments nv_w {W}.

(** ** Names *)

Definition str (s : string) : list Z := (fun a => Z.of_nat (Ascii.nat_of_ascii a)) <$> String.list_ascii_of_string s.

Definition get_container_name (name : list Z) : list Z := str "container_" ++ name.
Definition get_container_log_name (log_number : Z) : list Z :=
  str "container_table_" ++ str (pretty log_number) ++ str ".file".
Definition get_app_table_log_name (log_number : Z) : list Z :=
  str "app_table_" ++ str (pretty log_number) ++ str ".file".

Section Ops.
Context {W : Type} `{FileApi W}.
Notation CM := (M (nvh W)).

Definition cp_get {A} (f : cp_ctx -> A) : CM A := mgets (fun s => f (nv_cp s)).
Definition cp_mod (f : cp_ctx -> cp_ctx) : CM unit := mmodify (fun s => mk_nvh (f (nv_cp s)) (nv_fs s) (nv_w s)).
Definition fs_mod (f : fs -> fs) : CM unit := mmodify (fun s => mk_nvh (nv_cp s) (f (nv_fs s)) (nv_w s)).
Definition fs_run {A} (m : M fs A) : CM A := fun s =>
  match m (nv_fs s) with Some (a, f) => Some (a, mk_nvh (nv_cp s) f (nv_w s)) | None => None end.

(** A call of the file API. *)
Definition api {A} (f : fs * W -> A * (fs * W)) : CM A := fun s =>
  let '(a, (f', w')) := f (nv_fs s, nv_w s) in Some (a, mk_nvh (nv_cp s) f' w').
Definition api_ (f : fs * W -> fs * W) : CM unit := api (fun x => (tt, f x)).

(** Fields of the tables. *)
Definition app_mem : CM (list Z) := t ← cp_get app_manage_table; mlift t.
Definition app_put (m : option (list Z)) : CM unit := t ← mlift m; cp_mod (set_app_table (Some t)).
Definition resv_mem : CM (list Z) := t ← cp_get reservation_table; mlift t.
Definition resv_put (m : option (list Z)) : CM unit := t ← mlift m; cp_mod (set_resv_table (Some t)).

Definition resv_get (container_id field : Z) : CM Z :=
  t ← resv_mem; mlift (rd32 t (container_id * SIZEOF_RESERVATION + field)).
Definition resv_set (container_id field v : Z) : CM unit :=
  t ← resv_mem; resv_put (wr32 t (container_id * SIZEOF_RESERVATION + field) v).

(** ** The application table: set-up *)

(** INIT_LIST_HEAD: both pointers of node [i] point to the node. *)
Definition init_node (base : Z) (t : option (list Z)) (i : Z) : option (list Z) :=
  t ← t;
  t ← wr64 t (i * SIZEOF_APP_NODE) (base + i * SIZEOF_APP_NODE);
  t ← wr64 t (i * SIZEOF_APP_NODE + 8) (base + i * SIZEOF_APP_NODE);
  wr32 t (i * SIZEOF_APP_NODE + APP_CHANNEL_ID) (-1).

Definition nvfuse_app_manage_table_init : CM Z :=
  let size := DIV_UP (SIZEOF_APP_NODE * SPDK_NUM_CORES) CLUSTER_SIZE in
  b ← api (fa_alloc size);
  match b with
  | None =>
      cp_mod (fun c => mk_cp None (app_base c) size 0 1 0 2 (reservation_table c) (reservation_table_size c)
        (nr_containers c) (free_containers c) (last_alloc_container_id c) (container_generation c)
        (container_cur_log_file c) (container_max_log_file c) (total_buffer_size c) (curr_buffer_size c));;
      mret (-1)
  | Some (base, _) =>
      let t := repeat 0 (Z.to_nat size) in
      t ← mlift (foldl (init_node base) (Some t) (range 0 SPDK_NUM_CORES));
      cp_mod (fun c => mk_cp (Some t) base size 0 1 0 2 (reservation_table c) (reservation_table_size c)
        (nr_containers c) (free_containers c) (last_alloc_container_id c) (container_generation c)
        (container_cur_log_file c) (container_max_log_file c) (total_buffer_size c) (curr_buffer_size c));;
      mret 0
  end.

(** ** Logs

    Both tables are logged by the same code with other fields: [which] selects
    the table. *)
Inductive which := APP | CONTAINER.

Definition log_name (k : which) (n : Z) : list Z :=
  match k with APP => get_app_table_log_name n | CONTAINER => get_container_log_name n end.
Definition tab_mem (k : which) : CM (list Z) := match k with APP => app_mem | CONTAINER => resv_mem end.
Definition tab_put (k : which) : option (list Z) -> CM unit := match k with APP => app_put | CONTAINER => resv_put end.
Definition tab_size (k : which) : cp_ctx -> Z := match k with APP => app_table_size | CONTAINER => reservation_table_size end.
Definition tab_gen (k : which) : cp_ctx -> Z := match k with APP => app_table_generation | CONTAINER => container_generation end.
Definition tab_cur (k : which) : cp_ctx -> Z := match k with APP => app_table_cur_log_file | CONTAINER => container_cur_log_file end.
Definition tab_max (k : which) : cp_ctx -> Z := match k with APP => app_table_max_log_file | CONTAINER => container_max_log_file end.
Definition set_log (k : which) (gen cur : Z) (c : cp_ctx) : cp_ctx :=
  match k with APP => set_app_log gen cur c | CONTAINER => set_resv_log gen cur c end.

(** The while loop of a store; the result is [ret] and whether the loop ended
    without an error. *)
Fixpoint store_loop (fuel : nat) (k : which) (fd size : Z) (buf : list Z) (offset ret : Z) : CM (Z * bool) :=
  if offset <? size + LOG_CHUNK_SIZE then
    match fuel with
    | O => mabort
    | S fuel =>
        buf ← (if offset =? 0 then
                 g ← cp_get (tab_gen k); c ← cp_get (tab_cur k);
                 cp_mod (set_log k (s64 (g + 1)) c);;
                 mlift (wr64 buf 0 g)
               else
                 t ← tab_mem k;
                 mlift (rd t (offset - LOG_CHUNK_SIZE) LOG_CHUNK_SIZE));
        ret ← api (fa_write fd buf offset);
        if negb (ret =? LOG_CHUNK_SIZE) then mret (-1, false)
        else store_loop fuel k fd size buf (offset + LOG_CHUNK_SIZE) ret
    end
  else mret (ret, true).

(** Enough iterations for a table of [size] bytes. *)
Definition log_fuel (size : Z) : nat := Z.to_nat (size / LOG_CHUNK_SIZE + 2).

Definition store_table (k : which) : CM Z :=
  size ← cp_get (tab_size k);
  b ← api (fa_alloc LOG_CHUNK_SIZE);
  match b with
  | None => mret (-1)
  | Some (_, buf) =>
      cur ← cp_get (tab_cur k);
      max ← cp_get (tab_max k);
      let filename := log_name k cur in
      massert (negb (max =? 0));;
      g ← cp_get (tab_gen k);
      cp_mod (set_log k g (Z.rem (cur + 1) max));;
      fd ← api (fa_open filename (Z.lor O_RDWR O_CREAT));
      if fd <? 0 then mret (-1)
      else
        '(ret, ok) ← store_loop (log_fuel size) k fd size buf 0 0;
        if negb ok then mret ret
        else
          api_ (fa_check_flush_dirty 0);;
          api_ (fa_close fd);;
          mret ret
  end.

Definition nvfuse_store_app_table : CM Z := store_table APP.
Definition nvfuse_store_container_table : CM Z := store_table CONTAINER.

(** The scan for the log with the highest generation: [None] is the jump to
    RET after a short read, otherwise the log and its generation. *)
Fixpoint scan_logs (k : which) (logs : list Z) (latest max_generation : Z) : CM (option (Z * Z)) :=
  match logs with
  | [] => mret (Some (latest, max_generation))
  | curr_log :: logs =>
      fd ← api (fa_open (log_name k curr_log) O_RDONLY);
      if fd <? 0 then scan_logs k logs latest max_generation
      else
        '(ret, buf) ← api (fa_read fd LOG_CHUNK_SIZE 0);
        if negb (ret =? LOG_CHUNK_SIZE) then mret None
        else
          g ← mlift (rd64 buf 0);
          api_ (fa_close fd);;
          if max_generation <? g then scan_logs k logs curr_log g
          else scan_logs k logs latest max_generation
  end.

Fixpoint load_loop (fuel : nat) (k : which) (fd size offset : Z) : CM bool :=
  if offset <? size + LOG_CHUNK_SIZE then
    match fuel with
    | O => mabort
    | S fuel =>
        '(ret, buf) ← api (fa_read fd LOG_CHUNK_SIZE offset);
        if negb (ret =? LOG_CHUNK_SIZE) then mret false
        else
          (if offset =? 0 then
             g ← mlift (rd64 buf 0);
             c ← cp_get (tab_cur k);
             cp_mod (set_log k (s64 (g + 1)) c)
           else
             t ← tab_mem k;
             tab_put k (wr t (offset - LOG_CHUNK_SIZE) buf));;
          load_loop fuel k fd size (offset + LOG_CHUNK_SIZE)
    end
  else mret true.

Definition load_table (k : which) : CM Z :=
  b ← api (fa_alloc LOG_CHUNK_SIZE);
  match b with
  | None => mret 0
  | Some _ =>
      max ← cp_get (tab_max k);
      r ← scan_logs k (range 0 max) 0 0;
      match r with
      | None => mret 0
      | Some (latest_log_file, _) =>
          if latest_log_file =? 0 then mret 0
          else
            size ← cp_get (tab_size k);
            fd ← api (fa_open (log_name k latest_log_file) O_RDWR);
            if fd <? 0 then mret 0
            else
              ok ← load_loop (log_fuel size) k fd size 0;
              if ok : bool then api_ (fa_close fd);; mret 0 else mret 0
      end
  end.

Definition nvfuse_load_app_table : CM Z := load_table APP.
Definition nvfuse_load_container_table : CM Z := load_table CONTAINER.

Definition nvfuse_app_manage_table_deinit : CM unit :=
  nvfuse_store_app_table;; cp_mod (set_app_table None).

(** ** Containers *)

Definition nvfuse_control_plane_container_table_init (num_containers : Z) : CM Z :=
  let size := DIV_UP (SIZEOF_RESERVATION * num_containers) CLUSTER_SIZE in
  b ← api (fa_alloc size);
  let set (t : option (list Z)) (free : Z) := cp_mod (fun c =>
    mk_cp (app_manage_table c) (app_base c) (app_table_size c) (app_valid_count c) (app_table_generation c)
      (app_table_cur_log_file c) (app_table_max_log_file c) t size num_containers free 0 1 0 2
      (total_buffer_size c) (curr_buffer_size c)) in
  match b with
  | None => set None num_containers;; mret (-1)
  | Some _ =>
      set (Some (repeat 0 (Z.to_nat size))) num_containers;;
      resv_set 0 CR_OWNER (-1);;
      cp_mod (fun c => set_free_containers (s32 (free_containers c - 1)) c);;
      t ← resv_mem;
      free ← cp_get free_containers;
      owners ← mlift (mapM (fun i => rd32 t (i * SIZEOF_RESERVATION + CR_OWNER)) (range 0 num_containers));
      massert (free =? Zcount (fun o => o =? 0) owners);;
      mret 0
  end.

(** [while (owner != want || status != UNLOCKED) id = (id + 1) % nr]: after
    [nr] rounds every container was looked at, so that running out of [fuel]
    is a loop without end. *)
Fixpoint search_loop (fuel : nat) (want nr container_id : Z) : CM Z :=
  o ← resv_get container_id CR_OWNER;
  st ← resv_get container_id CR_STATUS;
  if (negb (o =? want)) || (negb (st =? UNLOCKED)) then
    match fuel with
    | O => mabort
    | S fuel => search_loop fuel want nr (Z.rem (container_id + 1) nr)
    end
  else mret container_id.

(** The same loop with the counter of tries: [None] when it reached zero. *)
Fixpoint try_loop (max_try_count : nat) (want nr container_id : Z) : CM (option Z) :=
  o ← resv_get container_id CR_OWNER;
  st ← resv_get container_id CR_STATUS;
  if (negb (o =? want)) || (negb (st =? UNLOCKED)) then
    match max_try_count with
    | O => mabort
    | S O => mret None
    | S n => try_loop n want nr (Z.rem (container_id + 1) nr)
    end
  else mret (Some container_id).

Definition nvfuse_control_plane_container_alloc (core_id type status : Z) : CM Z :=
  massert (negb (core_id =? 0));;
  nr ← cp_get nr_containers;
  last ← cp_get last_alloc_container_id;
  free ← cp_get free_containers;
  if type =? CONTAINER_NEW_ALLOC then
    if free =? 0 then mret 0
    else
      massert (0 <? nr);;
      container_id ← search_loop (Z.to_nat nr) 0 nr (Z.rem (last + 1) nr);
      massert (negb (container_id =? 0));;
      resv_set container_id CR_OWNER core_id;;
      resv_set container_id CR_STATUS status;;
      resv_set container_id CR_REF 0;;
      cp_mod (fun c => set_free_containers (s32 (free_containers c - 1)) c);;
      cp_mod (set_last_alloc container_id);;
      nvfuse_store_container_table;;
      mret container_id
  else
    massert (0 <? nr);;
    r ← try_loop (Z.to_nat nr) core_id nr (Z.rem (last + 1) nr);
    match r with
    | None => mret 0
    | Some container_id =>
        massert (negb (container_id =? 0));;
        resv_set container_id CR_STATUS status;;
        resv_set container_id CR_REF 0;;
        cp_mod (set_last_alloc container_id);;
        nvfuse_store_container_table;;
        mret container_id
    end.

Definition nvfuse_control_plane_container_release (core_id container_id : Z) : CM Z :=
  o ← resv_get container_id CR_OWNER;
  if negb (o =? core_id) then mret (-1)
  else
    r ← resv_get container_id CR_REF;
    if negb (r =? 0) then mret (-1)
    else
      resv_set container_id CR_OWNER 0;;
      resv_set container_id CR_STATUS UNLOCKED;;
      resv_set container_id CR_REF 0;;
      cp_mod (fun c => set_free_containers (s32 (free_containers c + 1)) c);;
      nvfuse_store_container_table;;
      mret 0.

Fixpoint release_loop (ids : list Z) (core_id : Z) (clear_owner : bool) : CM Z :=
  match ids with
  | [] => mret 0
  | container_id :: ids =>
      o ← resv_get container_id CR_OWNER;
      if negb (o =? core_id) then release_loop ids core_id clear_owner
      else
        r ← resv_get container_id CR_REF;
        if negb (r =? 0) then mret (-1)
        else
          (if clear_owner then resv_set container_id CR_OWNER 0 else mret tt);;
          resv_set container_id CR_STATUS UNLOCKED;;
          resv_set container_id CR_REF 0;;
          (if clear_owner then cp_mod (fun c => set_free_containers (s32 (free_containers c + 1)) c) else mret tt);;
          release_loop ids core_id clear_owner
  end.

Definition nvfuse_control_plane_container_release_by_coreid (core_id clear_owner : Z) : CM Z :=
  nr ← cp_get nr_containers;
  release_loop (range 1 nr) core_id (negb (clear_owner =? 0)).

(** ** Reservation locks *)

Definition nvfuse_control_plane_reservation_acquire (container_id type : Z) : CM Z :=
  if type =? RESV_WRITE_LOCK then
    st ← resv_get container_id CR_STATUS;
    if st =? UNLOCK then
      resv_set container_id CR_STATUS WRITE_LOCKED;;
      r ← resv_get container_id CR_REF;
      resv_set container_id CR_REF (s32 (r + 1));;
      mret 0
    else mret (-1)
  else if type =? RESV_READ_LOCK then
    st ← resv_get container_id CR_STATUS;
    if (st =? READ_LOCKED) || (st =? UNLOCKED) then
      resv_set container_id CR_STATUS READ_LOCKED;;
      r ← resv_get container_id CR_REF;
      resv_set container_id CR_REF (s32 (r + 1));;
      mret 0
    else mret (-1)
  else mret (-1).

Definition nvfuse_control_plane_reservation_release (container_id : Z) : CM Z :=
  st ← resv_get container_id CR_STATUS;
  if st =? WRITE_LOCKED then
    resv_set container_id CR_STATUS UNLOCKED;;
    r ← resv_get container_id CR_REF;
    resv_set container_id CR_REF (s32 (r - 1));;
    r ← resv_get container_id CR_REF;
    massert (r =? 0);;
    mret 0
  else if st =? READ_LOCKED then
    r ← resv_get container_id CR_REF;
    resv_set container_id CR_REF (s32 (r - 1));;
    r ← resv_get container_id CR_REF;
    (if r =? 0 then resv_set container_id CR_STATUS UNLOCKED else mret tt);;
    mret 0
  else mret (-1).

(** ** Buffer quota *)

Definition nvfuse_control_plane_buffer_init (size : Z) : CM Z :=
  if size =? 0 then mret (-1)
  else cp_mod (set_buffers size size);; mret 0.

Definition nvfuse_control_plane_buffer_alloc (size : Z) : CM Z :=
  curr ← cp_get curr_buffer_size;
  if curr <? size then mret 0
  else
    cp_mod (fun c => set_buffers (total_buffer_size c) (s32 (curr_buffer_size c - size)) c);;
    massert (negb (size =? 0));;
    mret size.

Definition nvfuse_control_plane_buffer_free (size : Z) : CM Z :=
  curr ← cp_get curr_buffer_size;
  total ← cp_get total_buffer_size;
  if (size =? 0) || (total <? s32 (curr + size)) then mret (-1)
  else
    cp_mod (fun c => set_buffers (total_buffer_size c) (s32 (curr_buffer_size c + size)) c);;
    massert (s32 (curr + size) <=? total);;
    mret 0.

Definition nvfuse_control_plane_health_check (core_id : Z) : CM Z := mret 0.

(** ** Registration of applications *)

(** The offset of a node in the table. *)
Definition nvfuse_get_app_node_by_coreid (core_id : Z) : Z := core_id * SIZEOF_APP_NODE.

Definition nvfuse_app_manage_table_add (channel_id : Z) (name : list Z) : CM Z :=
  if (channel_id =? 0) || (SPDK_NUM_CORES <=? channel_id) then mret (-1)
  else
    let node := nvfuse_get_app_node_by_coreid channel_id in
    t ← app_mem; app_put (wr32 t (node + APP_CHANNEL_ID) channel_id);;
    t ← app_mem; app_put (wr t (node + APP_NAME) (name ++ [0]));;
    let dir_name := get_container_name name in
    res ← api (fa_getattr dir_name);
    if negb (res =? 0) then
      root ← nvfuse_control_plane_container_alloc channel_id CONTAINER_NEW_ALLOC UNLOCKED;
      t ← app_mem; app_put (wr32 t (node + APP_ROOT_BG) root);;
      fs_mod (fun f => set_sb (sb_set_last_ino (root * sb_no_of_inodes_per_bg (fs_sb f)) (fs_sb f)) f);;
      res ← api (fa_mkdir dir_name 420);
      if res <? 0 then mret res
      else
        fs_mod (fun f => set_sb (sb_set_last_ino 0 (fs_sb f)) f);;
        mret 0
    else mret 0.

(** The loop that resets descriptor and bitmaps of the containers of a core. *)
Fixpoint destroy_loop (ids : list Z) (core_id : Z) : CM unit :=
  match ids with
  | [] => mret tt
  | container_id :: ids =>
      o ← resv_get container_id CR_OWNER;
      if negb (o =? core_id) then destroy_loop ids core_id
      else
        bd ← fs_run (get_bd container_id);
        sb ← mgets (fun s => fs_sb (nv_fs s));
        let bd := nvfuse_make_bg_descriptor bd container_id
                    (u32 (container_id * sb_no_of_blocks_per_bg sb)) (sb_no_of_blocks_per_bg sb) in
        fs_mod (fun f => mark_dirty BD_INO container_id (set_bd container_id bd f));;
        fs_run (get_dbitmap container_id);;
        fs_mod (fun f => mark_dirty DBITMAP_INO container_id
          (set_dbitmap container_id (repeat 0 (Z.to_nat CLUSTER_SIZE)) f));;
        fs_run (get_ibitmap container_id);;
        fs_mod (fun f => mark_dirty IBITMAP_INO container_id
          (set_ibitmap container_id (repeat 0 (Z.to_nat CLUSTER_SIZE)) f));;
        api_ (fa_check_flush_dirty 0);;
        destroy_loop ids core_id
  end.

Definition nvfuse_destroy_containers_for_app_unregistration (core_id : Z) : CM Z :=
  t ← app_mem;
  name ← mlift (rd t (nvfuse_get_app_node_by_coreid core_id + APP_NAME)
                  (Z.of_nat (length t) - (nvfuse_get_app_node_by_coreid core_id + APP_NAME)));
  let dir_name := get_container_name (cstr name) in
  res ← api (fa_rmdir dir_name);
  if res <? 0 then mret res
  else
    nr ← cp_get nr_containers;
    destroy_loop (range 0 nr) core_id;;
    api_ (fa_check_flush_dirty 1);;
    mret 0.

Definition nvfuse_app_manage_table_remove (core_id destroy_containers : Z) : CM Z :=
  if (core_id =? 0) || (SPDK_NUM_CORES <=? core_id) then mret (-1)
  else
    let node := nvfuse_get_app_node_by_coreid core_id in
    t ← app_mem;
    ch ← mlift (rd32 t (node + APP_CHANNEL_ID));
    if negb (ch =? core_id) then mret (-1)
    else
      (if destroy_containers =? APP_UNREGISTER_WITH_DESTROYING_CONTAINERS then
         nvfuse_destroy_containers_for_app_unregistration core_id;;
         nvfuse_control_plane_container_release_by_coreid core_id 1;;
         t ← app_mem; app_put (wr32 t (node + APP_CHANNEL_ID) (-1));;
         t ← app_mem; app_put (wr t (node + APP_NAME) (repeat 0 (Z.to_nat NAME_SIZE)));;
         t ← app_mem; app_put (wr32 t (node + APP_ROOT_BG) 0)
       else
         nvfuse_control_plane_container_release_by_coreid core_id 0;;
         mret tt);;
      nvfuse_store_container_table;;
      nvfuse_store_app_table;;
      mret 0.

(** ** Copy of the superblock into a message

    [struct nvfuse_superblock_common] has 112 bytes; the bytes between its
    fields are shown as zero. *)
Definition common_bytes (sb : nvfuse_superblock) : list Z :=
  le_bytes 4 (sb_signature sb) ++ repeat 0 4 ++ le_bytes 8 (sb_no_of_sectors sb) ++ le_bytes 8 (sb_no_of_blocks sb) ++
  le_bytes 8 (sb_no_of_used_blocks sb) ++ le_bytes 4 (sb_no_of_inodes_per_bg sb) ++
  le_bytes 4 (sb_no_of_blocks_per_bg sb) ++ le_bytes 4 (sb_root_ino sb) ++ le_bytes 4 (sb_free_inodes sb) ++
  le_bytes 8 (sb_free_blocks sb) ++ le_bytes 4 (sb_bg_num sb) ++ le_bytes 4 (sb_state sb) ++
  le_bytes 4 (sb_max_file_num sb) ++ le_bytes 4 (sb_max_dir_num sb) ++ le_bytes 4 (sb_max_inode_num sb) ++
  repeat 0 4 ++ le_bytes 4 (asb_root_bg_id (asb sb)) ++ le_bytes 4 (asb_free_inodes (asb sb)) ++
  le_bytes 8 (asb_free_blocks (asb sb)) ++ le_bytes 8 (asb_no_of_used_blocks (asb sb)) ++
  le_bytes 4 (asb_core_id (asb sb)) ++ repeat 0 4.

(** Offset of superblock_common in struct superblock_copy_cpl, and of the
    fields that are replaced, in superblock_common. *)
Definition CPL_COMMON : Z := 16.
Definition COMMON_ROOT_INO : Z := 40.
Definition COMMON_ASB : Z := 80.

Definition nvfuse_superblock_copy (appname msg : list Z) : CM (Z * list Z) :=
  let path := get_container_name appname in
  '(res, filename, par) ← api (fa_path_resolve path);
  if res <? 0 then mret (-1, msg)
  else
    '(res, d_ino) ← api (fa_lookup filename par);
    if res <? 0 then mret (-1, msg)
    else
      sb ← mgets (fun s => fs_sb (nv_fs s));
      msg ← mlift (wr msg CPL_COMMON (common_bytes sb));
      msg ← mlift (wr32 msg (CPL_COMMON + COMMON_ROOT_INO) d_ino);
      massert (negb (sb_no_of_inodes_per_bg sb =? 0));;
      msg ← mlift (wr32 msg (CPL_COMMON + COMMON_ASB) (d_ino / sb_no_of_inodes_per_bg sb));
      msg ← mlift (wr32 msg (CPL_COMMON + COMMON_ASB + 4) 0);
      msg ← mlift (wr64 msg (CPL_COMMON + COMMON_ASB + 8) 0);
      msg ← mlift (wr64 msg (CPL_COMMON + COMMON_ASB + 16) 0);
      mret (0, msg).

(** ** Start and end of the control plane *)

Definition nvfuse_control_plane_container_table_deinit : CM unit :=
  nvfuse_store_container_table;; cp_mod (set_resv_table None).

(** [nr_buffers] is the field sb_control_plane_buffer_size of the superblock.
    The fields of the new context are set before they are read. *)
Definition nvfuse_control_plane_init (nr_buffers : Z) : CM Z :=
  ok ← api fa_malloc;
  if negb ok then mret (-1)
  else
    nr_bgs ← mgets (fun s => sb_bg_num (fs_sb (nv_fs s)));
    nvfuse_app_manage_table_init;;
    nvfuse_control_plane_buffer_init nr_buffers;;
    nvfuse_control_plane_container_table_init nr_bgs.

Definition nvfuse_control_plane_exit : CM unit :=
  nvfuse_control_plane_container_table_deinit;;
  nvfuse_app_manage_table_deinit.

End Ops.

End ControlPlane.
