(* ===== verification/Ipc.v ===== *)
(** * Messages between applications and the control plane

    The message constructors of src/nvfuse_ipc_ring.c and the dispatcher
    [primary_poll_core] of examples/control_plane_proc/control_plane_proc.c.
    A message is the element of the message pool: NVFUSE_IPC_MSG_SIZE bytes,
    which requests and completions use with different structures.  The rings
    and the pool (DPDK) carry messages; they are not part of this file. *)
From stdpp Require Import strings.
From S2P Require Import Prelude Layout Mem BgList Alloc ControlPlane.

#[local] Open Scope Z_scope.

Module Ipc.
Export ControlPlane.

Definition NVFUSE_IPC_MSG_SIZE : Z := 128.

Definition APP_REGISTER_REQ : Z := 1.
Definition APP_REGISTER_CPL : Z := 2.
Definition APP_UNREGISTER_REQ : Z := 3.
Definition APP_UNREGISTER_CPL : Z := 4.
Definition SUPERBLOCK_COPY_REQ : Z := 5.
Definition SUPERBLOCK_COPY_CPL : Z := 6.
Definition BUFFER_ALLOC_REQ : Z := 7.
Definition BUFFER_ALLOC_CPL : Z := 8.
Definition BUFFER_FREE_REQ : Z := 9.
Definition BUFFER_FREE_CPL : Z := 10.
Definition CONTAINER_ALLOC_REQ : Z := 11.
Definition CONTAINER_ALLOC_CPL : Z := 12.
Definition CONTAINER_RELEASE_REQ : Z := 13.
Definition CONTAINER_RELEASE_CPL : Z := 14.
Definition CONTAINER_RESERVATION_ACQUIRE_REQ : Z := 15.
Definition CONTAINER_RESERVATION_ACQUIRE_CPL : Z := 16.
Definition CONTAINER_RESERVATION_RELEASE_REQ : Z := 17.
Definition CONTAINER_RESERVATION_RELEASE_CPL : Z := 18.
Definition HEALTH_CHECK_REQ : Z := 19.
Definition HEALTH_CHECK_CPL : Z := 20.
Definition UNKOWN_CPL : Z := 21.

Definition nvfuse_ipc_opcode_decode (opcode : Z) : string :=
  if opcode =? APP_REGISTER_REQ then "APP_REGISTER_REQ"
  else if opcode =? APP_REGISTER_CPL then "APP_REGISTER_CPL"
  else if opcode =? APP_UNREGISTER_REQ then "APP_UNREGISTER_REQ"
  else if opcode =? APP_UNREGISTER_CPL then "APP_UNREGISTER_CPL"
  else if opcode =? SUPERBLOCK_COPY_REQ then "SUPERBLOCK_COPY_REQ"
  else if opcode =? SUPERBLOCK_COPY_CPL then "SUPERBLOCK_COPY_CPL"
  else if opcode =? BUFFER_ALLOC_REQ then "BUFFER_ALLOC_REQ"
  else if opcode =? BUFFER_ALLOC_CPL then "BUFFER_ALLOC_CPL"
  else if opcode =? BUFFER_FREE_REQ then "BUFFER_FREE_REQ"
  else if opcode =? BUFFER_FREE_CPL then "BUFFER_FREE_CPL"
  else if opcode =? CONTAINER_ALLOC_REQ then "CONTAINER_ALLOC_REQ"
  else if opcode =? CONTAINER_ALLOC_CPL then "CONTAINER_ALLOC_CPL"
  else if opcode =? CONTAINER_RELEASE_REQ then "CONTAINER_RELEASE_REQ"
  else if opcode =? CONTAINER_RELEASE_CPL then "CONTAINER_RELEASE_CPL"
  else if opcode =? CONTAINER_RESERVATION_ACQUIRE_REQ then "CONTAINER_RESERVATION_ACQUIRE_REQ"
  else if opcode =? CONTAINER_RESERVATION_ACQUIRE_CPL then "CONTAINER_RESERVATION_ACQUIRE_CPL"
  else if opcode =? CONTAINER_RESERVATION_RELEASE_REQ then "CONTAINER_RESERVATION_RELEASE_REQ"
  else if opcode =? CONTAINER_RESERVATION_RELEASE_CPL then "CONTAINER_RESERVATION_RELEASE_CPL"
  else if opcode =? HEALTH_CHECK_REQ then "HEALTH_CHECK_REQ"
  else if opcode =? HEALTH_CHECK_CPL then "HEALTH_CHECK_CPL"
  else "UNKOWN_OPCODE".

(** ** Fields

    Offsets of the members; [ret], [name] and the first member of every
    request are at the same place. *)
Definition MSG_OPCODE : Z := 0.
Definition MSG_CHAN : Z := 4.
Definition MSG_ARG : Z := 8.
Definition MSG_ARG2 : Z := 12.
Definition MSG_RET : Z := 8.

(** ** Constructors

    Every constructor writes the opcode, the completions also the return value
    and the channel (read back from the same place), and clears two tags,
    whose offset depends on the structure. *)
Definition make_req (opcode tags : Z) (msg : list Z) : option (list Z) :=
  msg ← wr32 msg MSG_OPCODE opcode;
  msg ← wr32 msg tags 0;
  wr32 msg (tags + 4) 0.

Definition make_cpl (opcode tags : Z) (msg : list Z) (ret : Z) : option (list Z) :=
  msg ← wr32 msg MSG_OPCODE opcode;
  c ← rd32 msg MSG_CHAN;
  msg ← wr32 msg MSG_CHAN c;
  msg ← wr32 msg MSG_RET ret;
  msg ← wr32 msg tags 0;
  wr32 msg (tags + 4) 0.

Definition nvfuse_make_app_register_req := make_req APP_REGISTER_REQ 40.
Definition nvfuse_make_app_register_cpl := make_cpl APP_REGISTER_CPL 12.
Definition nvfuse_make_health_check_req := make_req HEALTH_CHECK_REQ 8.
Definition nvfuse_make_health_check_cpl := make_cpl HEALTH_CHECK_CPL 12.
Definition nvfuse_make_unkown_cpl := make_cpl UNKOWN_CPL 12.
Definition nvfuse_make_app_unregister_req := make_req APP_UNREGISTER_REQ 12.
Definition nvfuse_make_app_unregister_cpl := make_cpl APP_UNREGISTER_CPL 12.
Definition nvfuse_make_superblock_copy_req := make_req SUPERBLOCK_COPY_REQ 40.
Definition nvfuse_make_superblock_copy_cpl := make_cpl SUPERBLOCK_COPY_CPL 128.
Definition nvfuse_make_buffer_alloc_req := make_req BUFFER_ALLOC_REQ 12.
Definition nvfuse_make_buffer_alloc_cpl := make_cpl BUFFER_ALLOC_CPL 16.
Definition nvfuse_make_buffer_free_req := make_req BUFFER_FREE_REQ 12.
Definition nvfuse_make_buffer_free_cpl := make_cpl BUFFER_FREE_CPL 12.
Definition nvfuse_make_container_alloc_req := make_req CONTAINER_ALLOC_REQ 12.
Definition nvfuse_make_container_alloc_cpl := make_cpl CONTAINER_ALLOC_CPL 12.
Definition nvfuse_make_container_release_req := make_req CONTAINER_RELEASE_REQ 12.
Definition nvfuse_make_container_release_cpl := make_cpl CONTAINER_RELEASE_CPL 12.
Definition nvfuse_make_container_reservation_acquire_req := make_req CONTAINER_RESERVATION_ACQUIRE_REQ 16.
Definition nvfuse_make_container_reservation_acquire_cpl := make_cpl CONTAINER_RESERVATION_ACQUIRE_CPL 12.
Definition nvfuse_make_container_reservation_release_req := make_req CONTAINER_RESERVATION_RELEASE_REQ 12.
Definition nvfuse_make_container_reservation_release_cpl := make_cpl CONTAINER_RESERVATION_ACQUIRE_CPL 12.

(** The request of nvfuse_send_msg_to_primary_core, before it is sent; an
    invalid opcode leaves the message as it is. *)
Definition request_of (opcode : Z) (msg : list Z) : option (list Z) :=
  if opcode =? APP_REGISTER_REQ then nvfuse_make_app_register_req msg
  else if opcode =? APP_UNREGISTER_REQ then nvfuse_make_app_unregister_req msg
  else if opcode =? SUPERBLOCK_COPY_REQ then nvfuse_make_superblock_copy_req msg
  else if opcode =? BUFFER_ALLOC_REQ then nvfuse_make_buffer_alloc_req msg
  else if opcode =? BUFFER_FREE_REQ then nvfuse_make_buffer_free_req msg
  else if opcode =? CONTAINER_ALLOC_REQ then nvfuse_make_container_alloc_req msg
  else if opcode =? CONTAINER_RELEASE_REQ then nvfuse_make_container_release_req msg
  else if opcode =? CONTAINER_RESERVATION_ACQUIRE_REQ then nvfuse_make_container_reservation_acquire_req msg
  else if opcode =? CONTAINER_RESERVATION_RELEASE_REQ then nvfuse_make_container_reservation_release_req msg
  else if opcode =? HEALTH_CHECK_REQ then nvfuse_make_health_check_req msg
  else Some msg.

(** ** The dispatcher *)

Section Poll.
Context {W : Type} `{FileApi W}.
Notation CM := (M (nvh W)).

Definition arg (msg : list Z) (off : Z) : CM Z := mlift (rd32 msg off).

(** The completion is left in the message. *)
Definition primary_poll_core (msg : list Z) : CM (list Z) :=
  opcode ← arg msg MSG_OPCODE;
  chan_id ← arg msg MSG_CHAN;
  if opcode =? APP_REGISTER_REQ then
    name ← mlift (rd msg MSG_ARG (NVFUSE_IPC_MSG_SIZE - MSG_ARG));
    ret ← nvfuse_app_manage_table_add chan_id (cstr name);
    mlift (nvfuse_make_app_register_cpl msg ret)
  else if opcode =? APP_UNREGISTER_REQ then
    destroy_containers ← arg msg MSG_ARG;
    ret ← nvfuse_app_manage_table_remove chan_id destroy_containers;
    mlift (nvfuse_make_app_unregister_cpl msg ret)
  else if opcode =? SUPERBLOCK_COPY_REQ then
    name ← mlift (rd msg MSG_ARG (NVFUSE_IPC_MSG_SIZE - MSG_ARG));
    '(ret, msg) ← nvfuse_superblock_copy (cstr name) msg;
    mlift (nvfuse_make_superblock_copy_cpl msg ret)
  else if opcode =? BUFFER_ALLOC_REQ then
    buffer_size ← arg msg MSG_ARG;
    ret ← nvfuse_control_plane_buffer_alloc buffer_size;
    mlift (nvfuse_make_buffer_alloc_cpl msg ret)
  else if opcode =? BUFFER_FREE_REQ then
    buffer_size ← arg msg MSG_ARG;
    ret ← nvfuse_control_plane_buffer_free buffer_size;
    mlift (nvfuse_make_buffer_free_cpl msg ret)
  else if opcode =? CONTAINER_ALLOC_REQ then
    type ← arg msg MSG_ARG;
    ret ← nvfuse_control_plane_container_alloc chan_id type ACQUIRED;
    mlift (nvfuse_make_container_alloc_cpl msg ret)
  else if opcode =? CONTAINER_RELEASE_REQ then
    container_id ← arg msg MSG_ARG;
    ret ← nvfuse_control_plane_container_release chan_id container_id;
    mlift (nvfuse_make_container_release_cpl msg ret)
  else if opcode =? CONTAINER_RESERVATION_ACQUIRE_REQ then
    container_id ← arg msg MSG_ARG;
    reservation_type ← arg msg MSG_ARG2;
    ret ← nvfuse_control_plane_reservation_acquire container_id reservation_type;
    mlift (nvfuse_make_container_reservation_acquire_cpl msg ret)
  else if opcode =? CONTAINER_RESERVATION_RELEASE_REQ then
    container_id ← arg msg MSG_ARG;
    ret ← nvfuse_control_plane_reservation_release container_id;
    mlift (nvfuse_make_container_reservation_release_cpl msg ret)
  else if opcode =? HEALTH_CHECK_REQ then
    ret ← nvfuse_control_plane_health_check chan_id;
    mlift (nvfuse_make_health_check_cpl msg ret)
  else mlift (nvfuse_make_unkown_cpl msg (-1)).

End Poll.

End Ipc.
