(* ===== verification/ControlPlaneSpec.v ===== *)
(** * Container table: abstraction, invariant and rules

    [entry] reads the byte table as records; [cp_inv] is the invariant of the
    container table (the reserved container 0, the counter of free containers,
    the agreement of lock status and reference count).  The rules reduce the
    operations on the bytes to operations on the records. *)
From S2P Require Import Prelude Layout Mem BgList Alloc ControlPlane Ipc.

Module ControlPlaneSpec.
Import Ipc.

(** ** Partial correctness: [wlp m Q s] holds when every return of [m] from
    [s] satisfies [Q]. *)
Definition wlp {S A} (m : M S A) (Q : A -> S -> Prop) (s : S) : Prop :=
  match m s with Some (a, s') => Q a s' | None => True end.

Section wlp_rules.
Context {S A B : Type}.

Lemma wlp_ret (a : A) (Q : A -> S -> Prop) s : Q a s -> wlp (mret a) Q s.
Proof. done. Qed.
Lemma wlp_bind (m : M S A) (k : A -> M S B) Q s : wlp m (fun a s' => wlp (k a) Q s') s -> wlp (m ≫= k) Q s.
Proof. unfold wlp, mbind, M_bind. by destruct (m s) as [[??]|]. Qed.
Lemma wlp_gets (f : S -> A) (Q : A -> S -> Prop) s : Q (f s) s -> wlp (mgets f) Q s.
Proof. done. Qed.
Lemma wlp_modify (f : S -> S) (Q : unit -> S -> Prop) s : Q tt (f s) -> wlp (mmodify f) Q s.
Proof. done. Qed.
Lemma wlp_assert b (Q : unit -> S -> Prop) s : (b = true -> Q tt s) -> wlp (massert b) Q s.
Proof. unfold wlp, massert. destruct b; auto. Qed.
Lemma wlp_lift (o : option A) (Q : A -> S -> Prop) s : (forall a, o = Some a -> Q a s) -> wlp (mlift o) Q s.
Proof. unfold wlp, mlift. destruct o; auto. Qed.
Lemma wlp_mono (m : M S A) (Q Q' : A -> S -> Prop) s : wlp m Q s -> (forall a s', Q a s' -> Q' a s') -> wlp m Q' s.
Proof. unfold wlp. destruct (m s) as [[??]|]; eauto. Qed.
Lemma wlp_elim (m : M S A) Q s a s' : wlp m Q s -> m s = Some (a, s') -> Q a s'.
Proof. unfold wlp. intros H E. by rewrite E in H. Qed.
Lemma wp_wlp (m : M S A) Q s : wp m Q s -> wlp m Q s.
Proof. intros Hw. unfold wlp. apply wp_elim in Hw as (a & s1 & -> & HQ). done. Qed.

End wlp_rules.

(** ** The records of the table *)

Record reservation := mk_cr { owner_core_id : Z; status : Z; ref_count : Z }.

Definition entry (t : list Z) (i : Z) : reservation :=
  let f o := default 0 (rd32 t (i * SIZEOF_RESERVATION + o)) in
  mk_cr (f CR_OWNER) (f CR_STATUS) (f CR_REF).

#[global] Arguments entry : simpl never.

Definition field (f : Z) (r : reservation) : Z :=
  if f =? CR_OWNER then owner_core_id r else if f =? CR_STATUS then status r else ref_count r.
Definition set_field (f v : Z) (r : reservation) : reservation :=
  if f =? CR_OWNER then mk_cr v (status r) (ref_count r)
  else if f =? CR_STATUS then mk_cr (owner_core_id r) v (ref_count r)
  else mk_cr (owner_core_id r) (status r) v.

Definition is_field (f : Z) : Prop := f = CR_OWNER \/ f = CR_STATUS \/ f = CR_REF.
Lemma owner_is_field : is_field CR_OWNER. Proof. by left. Qed.
Lemma status_is_field : is_field CR_STATUS. Proof. by right; left. Qed.
Lemma ref_is_field : is_field CR_REF. Proof. by right; right. Qed.
#[export] Hint Resolve owner_is_field status_is_field ref_is_field : nvf.

(** Entry [i] is inside a table of [length t] bytes. *)
Definition inside (t : list Z) (i : Z) : Prop := 0 <= i /\ i * 12 + 12 <= Z.of_nat (length t).

Lemma rd32_entry t i f : inside t i -> is_field f ->
  rd32 t (i * SIZEOF_RESERVATION + f) = Some (field f (entry t i)) /\ is_s32 (field f (entry t i)).
Proof.
  intros [Hi Hl] Hf.
  destruct (rd32_Some t (i * SIZEOF_RESERVATION + f)) as (v & Hv & Hs);
    [destruct Hf as [->|[->| ->]]; unfold SIZEOF_RESERVATION, CR_OWNER, CR_STATUS, CR_REF; lia..|].
  unfold entry, field. destruct Hf as [->|[->| ->]]; cbn; unfold SIZEOF_RESERVATION in *; rewrite Hv; done.
Qed.

(** A write changes one field of one entry. *)
Definition updated (t t' : list Z) (i : Z) (r : reservation) : Prop :=
  length t' = length t /\ forall j, entry t' j = if j =? i then r else entry t j.

Lemma wr32_updated t i f v t' : is_field f -> is_s32 v -> wr32 t (i * SIZEOF_RESERVATION + f) v = Some t' ->
  updated t t' i (set_field f v (entry t i)).
Proof.
  intros Hf Hv Hw. split; [by eapply wr32_length|]. intros j.
  assert (forall g, is_field g -> j <> i \/ g <> f ->
    rd32 t' (j * SIZEOF_RESERVATION + g) = rd32 t (j * SIZEOF_RESERVATION + g)) as Hne.
  { intros g Hg Hd. eapply rd32_wr32_ne; [done|].
    unfold SIZEOF_RESERVATION, is_field, CR_OWNER, CR_STATUS, CR_REF in *. lia. }
  pose proof (rd32_wr32_eq _ _ _ _ Hw Hv) as Heq.
  destruct (Z.eqb_spec j i) as [->|Hji].
  - unfold entry, set_field. destruct Hf as [->|[->| ->]]; cbn -[rd32];
      rewrite Heq, !Hne by (auto with nvf; unfold CR_OWNER, CR_STATUS, CR_REF; lia); done.
  - unfold entry. rewrite !Hne by auto with nvf. done.
Qed.

Lemma updated_trans t t1 t2 i r1 r2 : updated t t1 i r1 -> updated t1 t2 i r2 -> updated t t2 i r2.
Proof.
  intros [L1 E1] [L2 E2]. split; [congruence|]. intros j. rewrite E2. destruct (j =? i) eqn:Ej; [done|]. by rewrite E1, Ej.
Qed.

Lemma updated_eq t t' i r : updated t t' i r -> entry t' i = r.
Proof. intros [_ E]. by rewrite E, Z.eqb_refl. Qed.

Lemma updated_ne t t' i r j : updated t t' i r -> j <> i -> entry t' j = entry t j.
Proof. intros [_ E] Hj. by rewrite E, (proj2 (Z.eqb_neq j i)). Qed.

Lemma updated_inside t t' i r j : updated t t' i r -> inside t j -> inside t' j.
Proof. intros [L _]. unfold inside. by rewrite L. Qed.

(** ** The invariant *)

Definition lock_ok (r : reservation) : Prop :=
  (status r = UNLOCKED /\ ref_count r = 0) \/ (status r = ACQUIRED /\ ref_count r = 0) \/
  (status r = WRITE_LOCKED /\ ref_count r = 1) \/ (status r = READ_LOCKED /\ 1 <= ref_count r).

Definition count_free (t : list Z) (nr : Z) : Z := Zcount (fun i => owner_core_id (entry t i) =? 0) (range 0 nr).

Record table_ok (c : cp_ctx) (t : list Z) : Prop := {
  tk_tab : reservation_table c = Some t;
  tk_nr : 1 <= nr_containers c < 2 ^ 31;
  tk_len : Z.of_nat (length t) = reservation_table_size c;
  tk_size : reservation_table_size c = DIV_UP (12 * nr_containers c) 4096;
  tk_zero : owner_core_id (entry t 0) = -1;
  tk_lock : forall i, 0 <= i < nr_containers c -> lock_ok (entry t i);
  tk_pad : forall i, nr_containers c <= i -> owner_core_id (entry t i) = 0;
  tk_free : free_containers c = count_free t (nr_containers c);
  tk_last : 0 <= last_alloc_container_id c < nr_containers c;
  tk_log : container_max_log_file c = 2 }.

Definition cp_inv (c : cp_ctx) : Prop := exists t, table_ok c t.

Lemma div_up_ge n : 0 <= n -> n <= DIV_UP n 4096.
Proof. intros. unfold DIV_UP. dmlia. Qed.

Lemma inside_table c t i : table_ok c t -> 0 <= i < nr_containers c -> inside t i.
Proof.
  intros Hk Hi. split; [lia|]. rewrite (tk_len c t Hk), (tk_size c t Hk).
  pose proof (div_up_ge (12 * nr_containers c)). lia.
Qed.

(** The counter after one owner changed. *)
Lemma count_free_update t t' nr i r : 0 <= i < nr -> updated t t' i r ->
  count_free t' nr = count_free t nr - (if owner_core_id (entry t i) =? 0 then 1 else 0)
                                     + (if owner_core_id r =? 0 then 1 else 0).
Proof.
  intros Hi Hu. unfold count_free, Zcount.
  rewrite (Zsum_update (fun j => if owner_core_id (entry t j) =? 0 then 1 else 0) _ (range 0 nr) i).
  - by rewrite (updated_eq _ _ _ _ Hu).
  - apply NoDup_range.
  - by apply elem_of_range.
  - intros j Hj. by rewrite (updated_ne _ _ _ _ j Hu).
Qed.

Lemma count_free_bounds t nr : 0 <= nr -> 0 <= count_free t nr <= nr.
Proof.
  intros Hn. unfold count_free. pose proof (Zcount_bounds (fun i => owner_core_id (entry t i) =? 0) (range 0 nr)).
  pose proof (length_range 0 nr). lia.
Qed.

(** The invariant after one entry changed. *)
Lemma table_ok_update c c' t t' i r :
  table_ok c t -> updated t t' i r -> 0 <= i < nr_containers c -> (i = 0 -> owner_core_id r = -1) -> lock_ok r ->
  reservation_table c' = Some t' -> nr_containers c' = nr_containers c ->
  reservation_table_size c' = reservation_table_size c -> container_max_log_file c' = container_max_log_file c ->
  0 <= last_alloc_container_id c' < nr_containers c ->
  free_containers c' = free_containers c - (if owner_core_id (entry t i) =? 0 then 1 else 0)
                                         + (if owner_core_id r =? 0 then 1 else 0) ->
  table_ok c' t'.
Proof.
  intros Hk Hu Hi H0 Hl Ht Hnr Hsz Hmx Hla Hfr. destruct Hk as [K1 K2 K3 K4 K5 K6 K7 K8 K9 K10].
  split; rewrite ?Hnr, ?Hsz, ?Hmx; try done.
  - destruct Hu as [-> _]. done.
  - destruct (Z.eq_dec i 0) as [->|]; [rewrite (updated_eq _ _ _ _ Hu); auto|by rewrite (updated_ne _ _ _ _ 0 Hu) by done].
  - intros j Hj. destruct (Z.eq_dec j i) as [->|]; [by rewrite (updated_eq _ _ _ _ Hu)|rewrite (updated_ne _ _ _ _ j Hu); auto].
  - intros j Hj. rewrite (updated_ne _ _ _ _ j Hu) by lia. auto.
  - rewrite (count_free_update t t' _ i r), Hfr, K8; done.
Qed.

(** ** Rules for the operations on the handle *)

Class FileApiLaws (W : Type) `{FileApi W} := {
  fa_alloc_length n x a b y : fa_alloc n x = (Some (a, b), y) -> length b = Z.to_nat n }.

(** One rule of the partial calculus. *)
Ltac wlp_step :=
  lazymatch goal with
  | |- wlp (mbind _ _) _ _ => apply wlp_bind
  | |- wlp (mret _) _ _ => apply wlp_ret
  | |- wlp (mgets _) _ _ => apply wlp_gets
  | |- wlp (cp_get _) _ _ => apply wlp_gets
  | |- wlp (mmodify _) _ _ => apply wlp_modify
  | |- wlp (cp_mod _) _ _ => apply wlp_modify
  | |- wlp (fs_mod _) _ _ => apply wlp_modify
  | |- wlp (massert _) _ _ => apply wlp_assert; intros ?
  | |- wlp (mlift _) _ _ => apply wlp_lift; intros ? ?
  | |- wlp mabort _ _ => exact I
  end.
Ltac wlp_steps := repeat (wlp_step; cbn beta).

Section Rules.
Context {W : Type} `{!FileApi W}.
Implicit Types s : nvh W.

Definition with_cp (c : cp_ctx) s : nvh W := mk_nvh c (nv_fs s) (nv_w s).

Lemma wlp_api {A} (f : fs * W -> A * (fs * W)) (Q : A -> nvh W -> Prop) s :
  (forall a f' w', f (nv_fs s, nv_w s) = (a, (f', w')) -> Q a (mk_nvh (nv_cp s) f' w')) -> wlp (api f) Q s.
Proof. intros HQ. unfold wlp, api. destruct (f (nv_fs s, nv_w s)) as [a [f' w']] eqn:E. by apply HQ. Qed.

Lemma wp_api {A} (f : fs * W -> A * (fs * W)) (Q : A -> nvh W -> Prop) s :
  (forall a f' w', f (nv_fs s, nv_w s) = (a, (f', w')) -> Q a (mk_nvh (nv_cp s) f' w')) -> wp (api f) Q s.
Proof. intros HQ. unfold wp, api. destruct (f (nv_fs s, nv_w s)) as [a [f' w']] eqn:E. by apply HQ. Qed.

(** What storing a table changes in the context: the fields of its log. *)
Definition log_frame (k : which) (c c' : cp_ctx) : Prop := exists g cur, c' = set_log k g cur c.

Lemma log_frame_refl k c : log_frame k c c.
Proof. exists (tab_gen k c), (tab_cur k c). by destruct k, c. Qed.
Lemma log_frame_trans k c1 c2 c3 : log_frame k c1 c2 -> log_frame k c2 c3 -> log_frame k c1 c3.
Proof. intros (g & x & ->) (g' & x' & ->). exists g', x'. by destruct k, c1. Qed.
Lemma log_frame_set k g cur c : log_frame k c (set_log k g cur c).
Proof. by exists g, cur. Qed.

Lemma store_loop_frame k fuel : forall fd size buf offset ret s,
  wlp (store_loop fuel k fd size buf offset ret) (fun _ s' => log_frame k (nv_cp s) (nv_cp s')) s.
Proof.
  induction fuel as [|fuel IH]; intros fd size buf offset ret s; cbn [store_loop];
    (destruct (offset <? size + LOG_CHUNK_SIZE); [|apply log_frame_refl]); [done|].
  wlp_step. assert (forall b s1, log_frame k (nv_cp s) (nv_cp s1) ->
    wlp (api (fa_write fd b offset) ≫= fun ret0 => if negb (ret0 =? LOG_CHUNK_SIZE) then mret (-1, false)
         else store_loop fuel k fd size b (offset + LOG_CHUNK_SIZE) ret0)
      (fun _ s' => log_frame k (nv_cp s) (nv_cp s')) s1) as Hk.
  { intros b s1 Hf. wlp_step. apply wlp_api. intros r f' w' _. destruct (negb _); [done|].
    eapply wlp_mono; [apply IH|]. intros ? s2 Hs2. by eapply log_frame_trans. }
  destruct (offset =? 0).
  - do 7 wlp_step. apply Hk. apply log_frame_set.
  - wlp_step. destruct k; unfold tab_mem, app_mem, resv_mem; do 4 wlp_step; apply Hk; apply log_frame_refl.
Qed.

Lemma store_table_frame k s : wlp (store_table k) (fun _ s' => log_frame k (nv_cp s) (nv_cp s')) s.
Proof.
  unfold store_table. wlp_step. wlp_step. wlp_step. apply wlp_api. intros b f' w' _.
  destruct b as [[a buf]|]; [|apply log_frame_refl]. wlp_steps. apply wlp_api. intros fd f1 w1 _.
  destruct (fd <? 0); [wlp_steps; apply log_frame_set|]. wlp_step. eapply wlp_mono; [apply store_loop_frame|].
  intros [ret ok] s1 Hf. cbn [nv_cp] in Hf. pose proof (log_frame_trans _ _ _ _ (log_frame_set k _ _ (nv_cp s)) Hf) as Hf'.
  destruct (negb ok); [by wlp_steps|]. wlp_step. apply wlp_api. intros [] f2 w2 _. wlp_step. apply wlp_api. intros [] f3 w3 _.
  done.
Qed.

(** Storing ends, whatever the file API answers. *)
Context `{!FileApiLaws W}.

Definition tab_bytes (k : which) : cp_ctx -> option (list Z) :=
  match k with APP => app_manage_table | CONTAINER => reservation_table end.

Lemma tab_mem_run k s t : tab_bytes k (nv_cp s) = Some t -> tab_mem k s = Some (t, s).
Proof. destruct k; simpl; intros E; unfold app_mem, resv_mem, mbind, M_bind, cp_get, mgets, mlift; by rewrite E. Qed.

Lemma tab_bytes_frame k c c' : log_frame k c c' -> tab_bytes k c' = tab_bytes k c.
Proof. intros (g & x & ->). by destruct k. Qed.
Lemma tab_size_frame k c c' : log_frame k c c' -> tab_size k c' = tab_size k c.
Proof. intros (g & x & ->). by destruct k. Qed.

Lemma store_loop_total k fuel q : forall fd buf j ret s t,
  tab_bytes k (nv_cp s) = Some t -> Z.of_nat (length t) = 4096 * q -> 0 <= j ->
  length buf = 4096%nat -> q + 1 - j <= Z.of_nat fuel ->
  wp (store_loop fuel k fd (4096 * q) buf (4096 * j) ret) (fun _ _ => True) s.
Proof.
  induction fuel as [|fuel IH]; intros fd buf j ret s t Ht Hlen Hj Hb Hf; cbn [store_loop]; unfold LOG_CHUNK_SIZE.
  - rewrite (proj2 (Z.ltb_ge _ _)) by lia. done.
  - destruct (Z.ltb_spec (4096 * j) (4096 * q + 4096)); [|done]. apply wp_bind.
    assert (forall b s1, tab_bytes k (nv_cp s1) = Some t -> length b = 4096%nat ->
      wp (api (fa_write fd b (4096 * j)) ≫= fun ret0 => if negb (ret0 =? 4096) then mret (-1, false)
         else store_loop fuel k fd (4096 * q) b (4096 * j + 4096) ret0) (fun _ _ => True) s1) as Hk.
    { intros b s1 Hs1 Hlb. apply wp_bind, wp_api. intros r f' w' _. destruct (negb _); [done|].
      replace (4096 * j + 4096) with (4096 * (j + 1)) by lia. apply (IH fd b (j + 1) r _ t); try done; lia. }
    destruct (Z.eqb_spec (4096 * j) 0).
    + do 2 (apply wp_bind, wp_gets). apply wp_bind, wp_modify.
      destruct (wr_Some buf 0 (le_bytes 8 (tab_gen k (nv_cp s)))) as (b & Hwb); [done|rewrite length_le_bytes; lia|].
      apply (wp_lift _ b); [done|]. apply Hk; [by destruct k|]. rewrite (wr_length _ _ _ _ Hwb). done.
    + apply wp_bind. apply (wp_run _ _ _ t s); [by apply tab_mem_run|].
      rewrite rd_Some by lia. apply (wp_lift _ _ _ _ eq_refl). apply Hk; [done|].
      rewrite length_take, length_drop. lia.
Qed.

Lemma store_table_total k s t q : tab_bytes k (nv_cp s) = Some t -> Z.of_nat (length t) = 4096 * q -> 0 <= q ->
  tab_size k (nv_cp s) = 4096 * q -> tab_max k (nv_cp s) <> 0 -> wp (store_table k) (fun _ _ => True) s.
Proof.
  intros Ht Hlen Hq Hs Hm. unfold store_table. apply wp_bind, wp_gets. apply wp_bind, wp_api.
  intros b f' w' Ha. destruct b as [[a buf]|]; [|done].
  do 2 (apply wp_bind, wp_gets). apply wp_bind, wp_assert; [by apply negb_true_iff, Z.eqb_neq|].
  apply wp_bind, wp_gets. apply wp_bind, wp_modify. apply wp_bind, wp_api. intros fd f1 w1 _.
  destruct (fd <? 0); [done|]. apply wp_bind. rewrite Hs.
  eapply wp_mono; [apply (store_loop_total k (log_fuel (4096 * q)) q fd buf 0 0 _ t)|].
  - by destruct k.
  - done.
  - done.
  - by rewrite (fa_alloc_length _ _ _ _ _ Ha).
  - unfold log_fuel, LOG_CHUNK_SIZE. rewrite Z.mul_comm, Z.div_mul by lia. lia.
  - intros [r ok] s1 ?. destruct (negb ok); [done|]. apply wp_bind, wp_api. intros [] ? ? _. apply wp_bind, wp_api. by intros [] ? ? _.
Qed.

End Rules.

End ControlPlaneSpec.
