(* ===== verification/ControlPlaneOps.v ===== *)
(** * Container operations against the record view of the table

    Total rules ([wp]) and partial rules ([wlp]) for reading and writing the
    table, and the specification of allocation, release and the reservation
    locks. *)
From S2P Require Import Prelude Layout Mem BgList Alloc ControlPlane Ipc ControlPlaneSpec.

Module ControlPlaneOps.
Export Ipc ControlPlaneSpec.

Section Ops.
Context {W : Type} `{!FileApi W}.
Implicit Types s : nvh W.
Notation CM := (M (nvh W)).

Definition tab (s : nvh W) : option (list Z) := reservation_table (nv_cp s).
Definition with_tab (t : list Z) s : nvh W := with_cp (set_resv_table (Some t) (nv_cp s)) s.

Lemma tab_with_tab t s : tab (with_tab t s) = Some t.
Proof. done. Qed.

Lemma wp_resv_get i f (Q : Z -> nvh W -> Prop) s t :
  tab s = Some t -> inside t i -> is_field f -> Q (field f (entry t i)) s -> wp (resv_get i f) Q s.
Proof.
  intros Ht Hi Hf HQ. unfold resv_get, resv_mem. apply wp_bind, wp_bind, wp_gets. unfold tab in Ht. rewrite Ht.
  apply (wp_lift _ t); [done|]. by apply (wp_lift _ (field f (entry t i))); [apply rd32_entry|].
Qed.

Lemma wlp_resv_get i f (Q : Z -> nvh W -> Prop) s t :
  tab s = Some t -> is_field f -> (0 <= i -> Q (field f (entry t i)) s) -> wlp (resv_get i f) Q s.
Proof.
  intros Ht Hf HQ. unfold resv_get, resv_mem. apply wlp_bind, wlp_bind, wlp_gets. unfold tab in Ht. rewrite Ht.
  apply wlp_lift. intros ? [= <-]. apply wlp_lift. intros v Hv.
  assert (0 <= i) as Hi.
  { unfold rd32, rd in Hv. destruct (in_obj t _ 4) eqn:E; [|done]. apply in_obj_true in E as (E & _).
    unfold SIZEOF_RESERVATION, is_field, CR_OWNER, CR_STATUS, CR_REF in *. lia. }
  assert (field f (entry t i) = v) as <-; [|auto].
  unfold field, entry. destruct Hf as [->|[->| ->]]; cbn -[rd32]; by rewrite Hv.
Qed.

#[local] Opaque entry.

Lemma resv_put_eq (m : option (list Z)) s :
  resv_put m s = match m with Some t' => Some (tt, with_tab t' s) | None => None end.
Proof. destruct m; done. Qed.

Lemma wp_resv_set i f v (Q : unit -> nvh W -> Prop) s t :
  tab s = Some t -> inside t i -> is_field f -> is_s32 v ->
  (forall t', updated t t' i (set_field f v (entry t i)) -> Q tt (with_tab t' s)) -> wp (resv_set i f v) Q s.
Proof.
  intros Ht Hi Hf Hv HQ. unfold resv_set, resv_mem. apply wp_bind, wp_bind, wp_gets. unfold tab in Ht. rewrite Ht.
  apply (wp_lift _ t); [done|].
  destruct (wr32_Some t (i * SIZEOF_RESERVATION + f) v) as (t' & Hw);
    [destruct Hi, Hf as [->|[->| ->]]; unfold SIZEOF_RESERVATION, CR_OWNER, CR_STATUS, CR_REF; lia..|].
  eapply wp_run; [by rewrite resv_put_eq, Hw|]. apply HQ. by apply wr32_updated.
Qed.

Lemma wlp_resv_set i f v (Q : unit -> nvh W -> Prop) s t :
  tab s = Some t -> is_field f -> is_s32 v ->
  (forall t', updated t t' i (set_field f v (entry t i)) -> Q tt (with_tab t' s)) -> wlp (resv_set i f v) Q s.
Proof.
  intros Ht Hf Hv HQ. unfold resv_set, resv_mem. apply wlp_bind, wlp_bind, wlp_gets. unfold tab in Ht. rewrite Ht.
  apply wlp_lift. intros ? [= <-]. unfold wlp. rewrite resv_put_eq.
  destruct (wr32 t _ v) as [t'|] eqn:E; [|done]. apply HQ. by apply wr32_updated.
Qed.

(** The three assignments of an allocation or a release. *)
Lemma wp_set3 i o st r (Q : unit -> nvh W -> Prop) s t :
  tab s = Some t -> inside t i -> is_s32 o -> is_s32 st -> is_s32 r ->
  (forall t', updated t t' i (mk_cr o st r) -> Q tt (with_tab t' s)) ->
  wp (resv_set i CR_OWNER o;; resv_set i CR_STATUS st;; resv_set i CR_REF r) Q s.
Proof.
  intros Ht Hi Ho Hst Hr HQ. apply wp_bind. eapply wp_resv_set; eauto with nvf. intros t1 H1.
  apply wp_bind. eapply wp_resv_set; [apply tab_with_tab|by eapply updated_inside|auto with nvf|done|]. intros t2 H2.
  eapply wp_resv_set; [apply tab_with_tab| |auto with nvf|done|].
  { eapply updated_inside; [exact H2|]. by eapply updated_inside. }
  intros t3 H3. pose proof (updated_trans _ _ _ _ _ _ (updated_trans _ _ _ _ _ _ H1 H2) H3) as H4.
  rewrite (updated_eq _ _ _ _ (updated_trans _ _ _ _ _ _ H1 H2)), (updated_eq _ _ _ _ H1) in H4.
  apply (HQ t3). exact H4.
Qed.

Lemma wp_set2 i st r (Q : unit -> nvh W -> Prop) s t :
  tab s = Some t -> inside t i -> is_s32 st -> is_s32 r ->
  (forall t', updated t t' i (mk_cr (owner_core_id (entry t i)) st r) -> Q tt (with_tab t' s)) ->
  wp (resv_set i CR_STATUS st;; resv_set i CR_REF r) Q s.
Proof.
  intros Ht Hi Hst Hr HQ. apply wp_bind. eapply wp_resv_set; eauto with nvf. intros t1 H1.
  eapply wp_resv_set; [apply tab_with_tab|by eapply updated_inside|auto with nvf|done|]. intros t2 H2.
  pose proof (updated_trans _ _ _ _ _ _ H1 H2) as H3. rewrite (updated_eq _ _ _ _ H1) in H3.
  apply (HQ t2). exact H3.
Qed.

(** Associativity, to use the rules for groups of assignments. *)
Lemma bind_assoc {A B C} (m : CM A) (k : A -> CM B) (l : B -> CM C) s :
  ((m ≫= k) ≫= l) s = (m ≫= fun a => k a ≫= l) s.
Proof. unfold mbind, M_bind. by destruct (m s) as [[? ?]|]. Qed.

Lemma wp_assoc3 {A B C D} (m1 : CM A) (m2 : CM B) (m3 : CM C) (k : CM D) Q s :
  wp (m1;; m2;; m3) (fun _ s' => wp k Q s') s -> wp (m1;; m2;; m3;; k) Q s.
Proof.
  unfold wp, mbind, M_bind. destruct (m1 s) as [[? s1]|]; [|done]. destruct (m2 s1) as [[? s2]|]; [|done].
  by destruct (m3 s2) as [[? s3]|].
Qed.

Lemma wp_assoc2 {A B D} (m1 : CM A) (m2 : CM B) (k : CM D) Q s :
  wp (m1;; m2) (fun _ s' => wp k Q s') s -> wp (m1;; m2;; k) Q s.
Proof. unfold wp, mbind, M_bind. destruct (m1 s) as [[? s1]|]; [|done]. by destruct (m2 s1) as [[? s2]|]. Qed.

(** ** The cyclic search *)

Definition matches (t : list Z) (want i : Z) : bool :=
  (owner_core_id (entry t i) =? want) && (status (entry t i) =? UNLOCKED).

(** Distance from [a] to [b] going up modulo [nr]. *)
Definition dist (nr a b : Z) : Z := (b - a) mod nr.

Lemma search_step_eq t want i : (negb (owner_core_id (entry t i) =? want)) || (negb (status (entry t i) =? UNLOCKED)) = negb (matches t want i).
Proof. unfold matches. by rewrite negb_andb. Qed.

Lemma rem_next nr i : 0 <= i < nr -> 0 <= Z.rem (i + 1) nr < nr /\ Z.rem (i + 1) nr = (i + 1) mod nr.
Proof. intros Hi. rewrite Z.rem_mod_nonneg by lia. split; [apply Z.mod_pos_bound; lia|done]. Qed.

Lemma dist_next nr i b : 0 <= i < nr -> 0 <= b < nr -> b <> i -> dist nr i b = dist nr ((i + 1) mod nr) b + 1.
Proof.
  intros Hi Hb Hne. unfold dist. destruct (Z.eq_dec (i + 1) nr) as [E|E].
  - rewrite E, Z.mod_same by lia. rewrite <- (Z.mod_add (b - i) 1 nr) by lia.
    rewrite !Z.mod_small by lia. lia.
  - rewrite (Z.mod_small (i + 1)) by lia. destruct (Z.lt_ge_cases b i).
    + rewrite <- (Z.mod_add (b - i) 1 nr), <- (Z.mod_add (b - (i + 1)) 1 nr) by lia. rewrite !Z.mod_small by lia. lia.
    + rewrite !Z.mod_small by lia. lia.
Qed.

Lemma dist_bounds nr a b : 0 < nr -> 0 <= dist nr a b < nr.
Proof. intros. apply Z.mod_pos_bound. lia. Qed.

Lemma dist_zero nr a b : 0 <= a < nr -> 0 <= b < nr -> dist nr a b = 0 -> a = b.
Proof.
  unfold dist. intros Ha Hb Hd. destruct (Z.lt_ge_cases b a).
  - rewrite <- (Z.mod_add (b - a) 1 nr) in Hd by lia. rewrite Z.mod_small in Hd; lia.
  - rewrite Z.mod_small in Hd; lia.
Qed.

(** The result: the first match from [start] on. *)
Definition first_match (t : list Z) (want nr start i : Z) : Prop :=
  0 <= i < nr /\ matches t want i = true /\
  forall j, 0 <= j < nr -> dist nr start j < dist nr start i -> matches t want j = false.

Lemma first_match_step t want nr start i : 0 <= start < nr -> matches t want start = false ->
  first_match t want nr ((start + 1) mod nr) i -> first_match t want nr start i.
Proof.
  intros Hs Hm (Hi & Hmi & Hall). split; [done|]. split; [done|]. intros j Hj Hd.
  destruct (Z.eq_dec j start) as [->|Hne]; [done|]. apply Hall; [done|].
  destruct (Z.eq_dec i start) as [->|Hne']; [congruence|].
  rewrite (dist_next nr start j), (dist_next nr start i) in Hd by done. lia.
Qed.

Lemma first_match_here t want nr start : 0 <= start < nr -> matches t want start = true -> first_match t want nr start start.
Proof.
  intros Hs Hm. split; [done|]. split; [done|]. intros j Hj Hd. exfalso.
  assert (dist nr start start = 0) by (unfold dist; rewrite Z.sub_diag; by apply Z.mod_0_l; lia).
  pose proof (dist_bounds nr start j). lia.
Qed.

Context (t : list Z) (nr : Z) (Hnr : 1 <= nr) (Hin : forall i, 0 <= i < nr -> inside t i).

Lemma search_found want fuel : forall start s (Q : Z -> nvh W -> Prop), tab s = Some t -> 0 <= start < nr ->
  (exists b, 0 <= b < nr /\ matches t want b = true /\ dist nr start b <= Z.of_nat fuel) ->
  (forall i, first_match t want nr start i -> Q i s) -> wp (search_loop fuel want nr start) Q s.
Proof.
  induction fuel as [|fuel IH]; intros start s Q Ht Hs (b & Hb & Hm & Hd) HQ; cbn [search_loop];
    apply wp_bind; (eapply wp_resv_get; eauto with nvf); apply wp_bind; (eapply wp_resv_get; eauto with nvf);
    cbn [field]; change (field CR_OWNER (entry t start)) with (owner_core_id (entry t start));
    change (field CR_STATUS (entry t start)) with (status (entry t start)); rewrite search_step_eq;
    destruct (matches t want start) eqn:E; cbn [negb]; try (apply wp_ret, HQ, first_match_here; done).
  - exfalso. assert (start = b) as ->; [|congruence]. apply (dist_zero nr); try done.
    pose proof (dist_bounds nr start b). lia.
  - destruct (rem_next nr start Hs) as [Hr1 Hr2]. rewrite Hr2. apply IH; [done|lia| |].
    + exists b. split; [done|]. split; [done|]. rewrite (dist_next nr start b) in Hd by (done || congruence). lia.
    + intros i Hi. apply HQ. by apply first_match_step.
Qed.

(** Without a match the loop does not end. *)
Lemma search_diverges want fuel : (forall i, 0 <= i < nr -> matches t want i = false) ->
  forall start s, tab s = Some t -> 0 <= start < nr -> search_loop fuel want nr start s = None.
Proof.
  intros Hno. induction fuel as [|fuel IH]; intros start s Ht Hs;
    (destruct (search_loop _ _ _ _ _) as [[a s']|] eqn:E; [|done]); exfalso; revert E; cbn [search_loop];
    intros E; (eapply wlp_elim in E; [exact E|]); apply wlp_bind; (eapply wlp_resv_get; eauto with nvf); intros _;
    apply wlp_bind; (eapply wlp_resv_get; eauto with nvf); intros _;
    change (field CR_OWNER (entry t start)) with (owner_core_id (entry t start));
    change (field CR_STATUS (entry t start)) with (status (entry t start)); rewrite search_step_eq, Hno by done; cbn [negb].
  - done.
  - destruct (rem_next nr start Hs) as [Hr1 Hr2]. unfold wlp. rewrite IH; [done..|lia].
Qed.

(** The bounded search of a core's own containers. *)
Lemma try_loop_run want n : forall start s (Q : option Z -> nvh W -> Prop), tab s = Some t -> 0 <= start < nr ->
  (1 <= n)%nat -> Z.of_nat n <= nr ->
  (forall i, first_match t want nr start i -> Q (Some i) s) ->
  ((forall j, 0 <= j < nr -> dist nr start j < Z.of_nat n -> matches t want j = false) -> Q None s) ->
  wp (try_loop n want nr start) Q s.
Proof.
  induction n as [|n IH]; intros start s Q Ht Hs Hn1 Hn HQ HN; [lia|]. cbn [try_loop].
  apply wp_bind; (eapply wp_resv_get; eauto with nvf); apply wp_bind; (eapply wp_resv_get; eauto with nvf).
  change (field CR_OWNER (entry t start)) with (owner_core_id (entry t start)).
  change (field CR_STATUS (entry t start)) with (status (entry t start)). rewrite search_step_eq.
  destruct (matches t want start) eqn:E; cbn [negb]; [apply wp_ret, HQ, first_match_here; done|].
  destruct (rem_next nr start Hs) as [Hr1 Hr2].
  destruct n as [|n].
  - apply wp_ret, HN. intros j Hj Hd. assert (start = j) as <-; [|done]. apply (dist_zero nr); try done.
    pose proof (dist_bounds nr start j). lia.
  - rewrite Hr2 in *. apply IH; [done|lia|lia|lia| |].
    + intros i Hi. apply HQ. by apply first_match_step.
    + intros Hall. apply HN. intros j Hj Hd. destruct (Z.eq_dec j start) as [->|Hne]; [done|]. apply Hall; [done|].
      rewrite (dist_next nr start j) in Hd by done. lia.
Qed.

End Ops.

(** ** Allocation and release *)

Section Containers.
Context {W : Type} `{!FileApi W} `{!FileApiLaws W}.
Implicit Types s : nvh W.
Notation CM := (M (nvh W)).

Lemma table_ok_frame k c c' t : log_frame k c c' -> table_ok c t -> table_ok c' t.
Proof. intros (g & x & ->) [K1 K2 K3 K4 K5 K6 K7 K8 K9 K10]. destruct k; by split. Qed.

Lemma wp_store_containers (Q : Z -> nvh W -> Prop) s t : table_ok (nv_cp s) t ->
  (forall r s', log_frame CONTAINER (nv_cp s) (nv_cp s') -> Q r s') -> wp nvfuse_store_container_table Q s.
Proof.
  intros Hk HQ. destruct Hk as [K1 K2 K3 K4 K5 K6 K7 K8 K9 K10].
  assert (reservation_table_size (nv_cp s) = 4096 * ((12 * nr_containers (nv_cp s) + 4096 - 1) / 4096)) as Es
    by (rewrite K4; unfold DIV_UP; lia).
  destruct (wp_elim _ _ _ (store_table_total CONTAINER s t ((12 * nr_containers (nv_cp s) + 4096 - 1) / 4096) K1
    ltac:(lia) ltac:(apply Z.div_pos; lia) Es ltac:(simpl; lia))) as (r & s' & Hr & _).
  eapply wp_run; [exact Hr|]. apply HQ. exact (wlp_elim _ _ _ _ _ (store_table_frame CONTAINER s) Hr).
Qed.

Definition is_status (st : Z) : Prop := st = UNLOCKED \/ st = ACQUIRED.

Lemma is_s32_status st : is_status st -> is_s32 st.
Proof. intros [->| ->]; unfold is_s32, UNLOCKED, ACQUIRED; lia. Qed.
Lemma is_s32_0 : is_s32 0.
Proof. unfold is_s32. lia. Qed.
Hint Resolve is_s32_status is_s32_0 : nvf.

Lemma lock_ok_fresh o st : is_status st -> lock_ok (mk_cr o st 0).
Proof. intros [->| ->]; [by left|by right; left]. Qed.

Lemma matches_spec t want i : matches t want i = true <-> owner_core_id (entry t i) = want /\ status (entry t i) = UNLOCKED.
Proof. unfold matches. by rewrite andb_true_iff, !Z.eqb_eq. Qed.

(** What an allocation of container [i] does to the context. *)
Record allocated (c c' : cp_ctx) (t : list Z) (i : Z) (r : reservation) (d : Z) : Prop := {
  al_range : 1 <= i < nr_containers c;
  al_table : exists t', updated t t' i r /\ table_ok c' t';
  al_free : free_containers c' = free_containers c - d;
  al_last : last_alloc_container_id c' = i;
  al_nr : nr_containers c' = nr_containers c }.

Lemma start_range c t : table_ok c t ->
  0 <= Z.rem (last_alloc_container_id c + 1) (nr_containers c) < nr_containers c.
Proof. intros [K1 K2 K3 K4 K5 K6 K7 K8 K9 K10]. apply rem_next. lia. Qed.

Lemma alloc_new_run core st s t :
  table_ok (nv_cp s) t -> core <> 0 -> is_s32 core -> is_status st ->
  (exists b, 0 <= b < nr_containers (nv_cp s) /\ matches t 0 b = true) ->
  wp (nvfuse_control_plane_container_alloc core CONTAINER_NEW_ALLOC st) (fun i s' =>
    first_match t 0 (nr_containers (nv_cp s)) (Z.rem (last_alloc_container_id (nv_cp s) + 1) (nr_containers (nv_cp s))) i /\
    allocated (nv_cp s) (nv_cp s') t i (mk_cr core st 0) 1) s.
Proof.
  intros Hk Hc Hs32 Hst (b & Hb & Hm). pose proof Hk as [K1 K2 K3 K4 K5 K6 K7 K8 K9 K10].
  pose proof (start_range _ _ Hk) as Hs0.
  assert (forall i, 0 <= i < nr_containers (nv_cp s) -> inside t i) as Hin by (intros i Hi; by apply (inside_table (nv_cp s))).
  unfold nvfuse_control_plane_container_alloc. apply wp_bind, wp_assert; [by apply negb_true_iff, Z.eqb_neq|].
  do 3 (apply wp_bind, wp_gets). change (CONTAINER_NEW_ALLOC =? CONTAINER_NEW_ALLOC) with true. cbv iota.
  assert (1 <= free_containers (nv_cp s)) as Hf.
  { rewrite K8. apply (Zcount_pos _ _ b); [by apply elem_of_range|]. apply Z.eqb_eq. by apply matches_spec in Hm as [? _]. }
  rewrite (proj2 (Z.eqb_neq _ 0)) by lia. apply wp_bind, wp_assert; [apply Z.ltb_lt; lia|].
  apply wp_bind. eapply (search_found t (nr_containers (nv_cp s)) ltac:(lia) Hin); [exact K1|done| |].
  { exists b. split; [done|]. split; [done|]. pose proof (dist_bounds (nr_containers (nv_cp s))
      (Z.rem (last_alloc_container_id (nv_cp s) + 1) (nr_containers (nv_cp s))) b). lia. }
  intros i Hfm. pose proof Hfm as (Hi & Hmi & _). apply matches_spec in Hmi as [Hoi Hsi].
  assert (i <> 0) as Hi0 by congruence.
  apply wp_bind, wp_assert; [by apply negb_true_iff, Z.eqb_neq|].
  apply wp_assoc3. apply (wp_set3 _ _ _ _ _ s t K1 (Hin i Hi)); auto with nvf. intros t' Hu.
  apply wp_bind, wp_modify. apply wp_bind, wp_modify. apply wp_bind.
  pose proof (count_free_bounds t (nr_containers (nv_cp s)) ltac:(lia)) as Hcb.
  match goal with |- wp _ _ ?s1 => assert (table_ok (nv_cp s1) t') as Hk' end.
  { apply (table_ok_update (nv_cp s) _ t t' i (mk_cr core st 0)); try done; [by apply lock_ok_fresh|].
    rewrite Hoi. simpl. rewrite (proj2 (Z.eqb_neq core 0)) by done. rewrite s32_small by lia. simpl. lia. }
  apply (wp_store_containers _ _ t' Hk'). intros r s' Hfr. apply wp_ret. split; [done|].
  pose proof (table_ok_frame _ _ _ _ Hfr Hk') as Hk2. destruct Hfr as (g & x & E).
  split; [lia|by exists t'|rewrite E; simpl; rewrite s32_small; lia|by rewrite E..].
Qed.

Lemma alloc_own_run core type st s t :
  table_ok (nv_cp s) t -> core <> 0 -> core <> -1 -> is_status st -> type <> CONTAINER_NEW_ALLOC ->
  wp (nvfuse_control_plane_container_alloc core type st) (fun i s' =>
    (i = 0 /\ s' = s /\ forall j, 0 <= j < nr_containers (nv_cp s) -> matches t core j = false) \/
    (first_match t core (nr_containers (nv_cp s)) (Z.rem (last_alloc_container_id (nv_cp s) + 1) (nr_containers (nv_cp s))) i /\
     allocated (nv_cp s) (nv_cp s') t i (mk_cr core st 0) 0)) s.
Proof.
  intros Hk Hc Hc1 Hst Hty. pose proof Hk as [K1 K2 K3 K4 K5 K6 K7 K8 K9 K10]. pose proof (start_range _ _ Hk) as Hs0.
  assert (forall i, 0 <= i < nr_containers (nv_cp s) -> inside t i) as Hin by (intros i Hi; by apply (inside_table (nv_cp s))).
  unfold nvfuse_control_plane_container_alloc. apply wp_bind, wp_assert; [by apply negb_true_iff, Z.eqb_neq|].
  do 3 (apply wp_bind, wp_gets). rewrite (proj2 (Z.eqb_neq type _) Hty).
  apply wp_bind, wp_assert; [apply Z.ltb_lt; lia|]. apply wp_bind.
  eapply (try_loop_run t (nr_containers (nv_cp s)) ltac:(lia) Hin); [exact K1|done|lia|lia| |].
  2:{ intros Hno. left. split; [done|]. split; [done|]. intros j Hj. apply Hno; [done|].
      pose proof (dist_bounds (nr_containers (nv_cp s)) (Z.rem (last_alloc_container_id (nv_cp s) + 1) (nr_containers (nv_cp s))) j). lia. }
  intros i Hfm. pose proof Hfm as (Hi & Hmi & _). apply matches_spec in Hmi as [Hoi Hsi].
  assert (i <> 0) as Hi0 by congruence. apply wp_bind, wp_assert; [by apply negb_true_iff, Z.eqb_neq|].
  apply wp_assoc2. apply (wp_set2 _ _ _ _ s t K1 (Hin i Hi)); auto with nvf. rewrite Hoi. intros t' Hu.
  apply wp_bind, wp_modify. apply wp_bind.
  match goal with |- wp _ _ ?s1 => assert (table_ok (nv_cp s1) t') as Hk' end.
  { apply (table_ok_update (nv_cp s) _ t t' i (mk_cr core st 0)); try done; [by apply lock_ok_fresh|].
    rewrite Hoi. simpl. destruct (core =? 0); lia. }
  apply (wp_store_containers _ _ t' Hk'). intros r s' Hfr. apply wp_ret. right. split; [done|].
  pose proof (table_ok_frame _ _ _ _ Hfr Hk') as Hk2. destruct Hfr as (g & x & E).
  split; [lia|by exists t'|rewrite E; simpl; lia|by rewrite E..].
Qed.

Lemma release_run core i s t :
  table_ok (nv_cp s) t -> 0 <= i < nr_containers (nv_cp s) -> core <> -1 -> core <> 0 ->
  wp (nvfuse_control_plane_container_release core i) (fun r s' =>
    if (owner_core_id (entry t i) =? core) && (ref_count (entry t i) =? 0)
    then r = 0 /\ free_containers (nv_cp s') = free_containers (nv_cp s) + 1 /\
         nr_containers (nv_cp s') = nr_containers (nv_cp s) /\ exists t', updated t t' i (mk_cr 0 UNLOCKED 0) /\ table_ok (nv_cp s') t'
    else r = -1 /\ s' = s) s.
Proof.
  intros Hk Hi Hc1 Hc. pose proof Hk as [K1 K2 K3 K4 K5 K6 K7 K8 K9 K10].
  pose proof (inside_table _ _ i Hk Hi) as Hin. unfold nvfuse_control_plane_container_release.
  apply wp_bind. eapply wp_resv_get; eauto with nvf.
  change (field CR_OWNER (entry t i)) with (owner_core_id (entry t i)).
  destruct (Z.eqb_spec (owner_core_id (entry t i)) core) as [Ho|Ho]; cbn [negb andb]; [|by apply wp_ret].
  apply wp_bind. eapply wp_resv_get; eauto with nvf. change (field CR_REF (entry t i)) with (ref_count (entry t i)).
  destruct (Z.eqb_spec (ref_count (entry t i)) 0) as [Hr|Hr]; cbn [negb]; [|by apply wp_ret].
  apply wp_assoc3. apply (wp_set3 _ _ _ _ _ s t K1 Hin); try apply is_s32_0. intros t' Hu.
  apply wp_bind, wp_modify. apply wp_bind.
  assert (free_containers (nv_cp s) + 1 = count_free t' (nr_containers (nv_cp s))) as Hcf.
  { rewrite (count_free_update _ _ _ _ _ Hi Hu), <- K8, Ho, (proj2 (Z.eqb_neq core 0)) by done. simpl. lia. }
  pose proof (count_free_bounds t' (nr_containers (nv_cp s)) ltac:(lia)) as Hcb.
  match goal with |- wp _ _ ?s1 => assert (table_ok (nv_cp s1) t') as Hk' end.
  { apply (table_ok_update (nv_cp s) _ t t' i (mk_cr 0 UNLOCKED 0)); try done; [congruence|by left|].
    rewrite Ho. simpl. rewrite (proj2 (Z.eqb_neq core 0)) by done.
    pose proof (count_free_bounds t (nr_containers (nv_cp s)) ltac:(lia)). rewrite s32_small by lia. lia. }
  apply (wp_store_containers _ _ t' Hk'). intros r s' Hfr. apply wp_ret. split; [done|].
  pose proof (table_ok_frame _ _ _ _ Hfr Hk') as Hk2. destruct Hfr as (g & x & E).
  split; [|split; [by rewrite E|by exists t']]. rewrite E. simpl. pose proof (count_free_bounds t (nr_containers (nv_cp s)) ltac:(lia)).
  rewrite s32_small; lia.
Qed.

(** ** Reservation locks *)

(** The lock of a container, seen as a readers-writer lock. *)
Inductive lock := LFree | LAcquired | LWriter | LReaders (n : Z).

Definition abs_lock (r : reservation) : lock :=
  if status r =? UNLOCKED then LFree else if status r =? ACQUIRED then LAcquired
  else if status r =? WRITE_LOCKED then LWriter else LReaders (ref_count r).

Definition lock_acquire (type : Z) (l : lock) : option lock :=
  if type =? RESV_WRITE_LOCK then match l with LFree => Some LWriter | _ => None end
  else if type =? RESV_READ_LOCK then
    match l with LFree => Some (LReaders 1) | LReaders n => Some (LReaders (n + 1)) | _ => None end
  else None.

Definition lock_release (l : lock) : option lock :=
  match l with
  | LWriter => Some LFree
  | LReaders n => Some (if n =? 1 then LFree else LReaders (n - 1))
  | _ => None
  end.

(** The result of a lock operation that takes entry [i] to the abstract lock [l]. *)
Definition lock_result (s : nvh W) (t : list Z) (i : Z) (l : option lock) (r : Z) (s' : nvh W) : Prop :=
  match l with
  | None => r = -1 /\ s' = s
  | Some l => r = 0 /\ exists t' e, updated t t' i e /\ owner_core_id e = owner_core_id (entry t i) /\ lock_ok e /\
                abs_lock e = l /\ s' = with_tab t' s
  end.

Lemma lock_done (s : nvh W) t i l r t' e :
  updated t t' i e -> owner_core_id e = owner_core_id (entry t i) -> lock_ok e -> abs_lock e = l -> r = 0 ->
  lock_result s t i (Some l) r (with_tab t' s).
Proof. intros. split; [done|]. by exists t', e. Qed.

(** Setting the status and then the count of an entry, in either order. *)
Lemma wp_status_ref i st f (Q : Z -> nvh W -> Prop) s t :
  tab s = Some t -> inside t i -> is_s32 st -> is_s32 (f (ref_count (entry t i))) ->
  (forall t', updated t t' i (mk_cr (owner_core_id (entry t i)) st (f (ref_count (entry t i)))) -> Q 0 (with_tab t' s)) ->
  wp (resv_set i CR_STATUS st;; r ← resv_get i CR_REF; resv_set i CR_REF (f r);; mret 0) Q s.
Proof.
  intros Ht Hi Hst Hf HQ. apply wp_bind. eapply wp_resv_set; eauto with nvf. intros t1 H1.
  assert (inside t1 i) as Hi1 by (by eapply updated_inside).
  apply wp_bind. eapply wp_resv_get; [apply tab_with_tab|done|auto with nvf|].
  rewrite (updated_eq _ _ _ _ H1). change (field CR_REF (set_field CR_STATUS st (entry t i))) with (ref_count (entry t i)).
  apply wp_bind. eapply wp_resv_set; [apply tab_with_tab|done|auto with nvf|done|]. intros t2 H2.
  pose proof (updated_trans _ _ _ _ _ _ H1 H2) as H3. rewrite (updated_eq _ _ _ _ H1) in H3. apply wp_ret, (HQ t2), H3.
Qed.

(** The cases of the lock invariant, as hypotheses about the entry. *)
Lemma lock_ok_cases r : lock_ok r ->
  (status r = 0 /\ ref_count r = 0 /\ abs_lock r = LFree) \/ (status r = 1 /\ ref_count r = 0 /\ abs_lock r = LAcquired) \/
  (status r = 2 /\ ref_count r = 1 /\ abs_lock r = LWriter) \/
  (status r = 3 /\ 1 <= ref_count r /\ abs_lock r = LReaders (ref_count r)).
Proof.
  unfold abs_lock. intros [[E ?]|[[E ?]|[[E ?]|[E ?]]]]; rewrite E;
    [left|right; left|right; right; left|right; right; right]; done.
Qed.

Lemma acquire_run i type s t : table_ok (nv_cp s) t -> 0 <= i < nr_containers (nv_cp s) ->
  ref_count (entry t i) < 2 ^ 31 - 1 ->
  wp (nvfuse_control_plane_reservation_acquire i type) (lock_result s t i (lock_acquire type (abs_lock (entry t i)))) s.
Proof.
  intros Hk Hi Hmax. pose proof (tk_tab _ _ Hk) as Ht. pose proof (inside_table _ _ i Hk Hi) as Hin.
  pose proof (lock_ok_cases _ (tk_lock _ _ Hk i Hi)) as Hc.
  unfold nvfuse_control_plane_reservation_acquire, lock_acquire.
  destruct (type =? RESV_WRITE_LOCK); [|destruct (type =? RESV_READ_LOCK); [|by apply wp_ret]];
    (apply wp_bind; eapply wp_resv_get; eauto with nvf);
    change (field CR_STATUS (entry t i)) with (status (entry t i));
    destruct Hc as [(Hs & Hr & ->)|[(Hs & Hr & ->)|[(Hs & Hr & ->)|(Hs & Hr & ->)]]]; rewrite Hs;
    cbn [Z.eqb Pos.eqb orb UNLOCK UNLOCKED READ_LOCKED]; try (by apply wp_ret).
  - apply (wp_status_ref i WRITE_LOCKED (fun r => s32 (r + 1)) _ s t Ht Hin);
      [unfold is_s32, WRITE_LOCKED; lia|apply s32_range|]. rewrite Hr. intros t' Hu.
    eapply lock_done; [exact Hu|done| |done|done]. by right; right; left.
  - apply (wp_status_ref i READ_LOCKED (fun r => s32 (r + 1)) _ s t Ht Hin);
      [unfold is_s32, READ_LOCKED; lia|apply s32_range|]. rewrite Hr. intros t' Hu.
    eapply lock_done; [exact Hu|done| |done|done]. by right; right; right.
  - apply (wp_status_ref i READ_LOCKED (fun r => s32 (r + 1)) _ s t Ht Hin);
      [unfold is_s32, READ_LOCKED; lia|apply s32_range|]. rewrite s32_small by lia. intros t' Hu.
    eapply lock_done; [exact Hu|done| |done|done]. right; right; right.
    change (READ_LOCKED = READ_LOCKED /\ 1 <= ref_count (entry t i) + 1). split; [done|lia].
Qed.

Lemma release_lock_run i s t : table_ok (nv_cp s) t -> 0 <= i < nr_containers (nv_cp s) ->
  ref_count (entry t i) < 2 ^ 31 ->
  wp (nvfuse_control_plane_reservation_release i) (lock_result s t i (lock_release (abs_lock (entry t i)))) s.
Proof.
  intros Hk Hi Hmax. pose proof (tk_tab _ _ Hk) as Ht. pose proof (inside_table _ _ i Hk Hi) as Hin.
  pose proof (lock_ok_cases _ (tk_lock _ _ Hk i Hi)) as Hc.
  unfold nvfuse_control_plane_reservation_release, lock_release.
  apply wp_bind; eapply wp_resv_get; eauto with nvf.
  change (field CR_STATUS (entry t i)) with (status (entry t i)).
  destruct Hc as [(Hs & Hr & ->)|[(Hs & Hr & ->)|[(Hs & Hr & ->)|(Hs & Hr & ->)]]]; rewrite Hs; cbn [Z.eqb];
    try (by apply wp_ret).
  - change (2 =? WRITE_LOCKED) with true. cbv iota.
    apply wp_bind. eapply wp_resv_set; eauto with nvf. intros t1 H1.
    assert (inside t1 i) as Hi1 by (by eapply updated_inside).
    apply wp_bind. eapply wp_resv_get; [apply tab_with_tab|done|auto with nvf|].
    rewrite (updated_eq _ _ _ _ H1). change (field CR_REF (set_field CR_STATUS UNLOCKED (entry t i))) with (ref_count (entry t i)).
    rewrite Hr. apply wp_bind. eapply wp_resv_set; [apply tab_with_tab|done|auto with nvf|apply s32_range|]. intros t2 H2.
    pose proof (updated_trans _ _ _ _ _ _ H1 H2) as H3. rewrite (updated_eq _ _ _ _ H1) in H3.
    apply wp_bind. eapply wp_resv_get; [apply tab_with_tab|by eapply updated_inside|auto with nvf|].
    rewrite (updated_eq _ _ _ _ H3). apply wp_bind, wp_assert; [done|]. apply wp_ret.
    apply (lock_done s t i LFree 0 t2 _ H3); try done. by left.
  - change (3 =? WRITE_LOCKED) with false. change (3 =? READ_LOCKED) with true. cbv iota.
    apply wp_bind. eapply wp_resv_get; eauto with nvf. change (field CR_REF (entry t i)) with (ref_count (entry t i)).
    apply wp_bind. apply (wp_resv_set _ _ _ _ s t Ht Hin); [auto with nvf|apply s32_range|]. intros t1 H1.
    assert (inside t1 i) as Hi1 by (by eapply updated_inside).
    apply wp_bind. eapply wp_resv_get; [apply tab_with_tab|done|auto with nvf|].
    pose proof (updated_eq _ _ _ _ H1) as E1. rewrite E1. rewrite s32_small in * by lia.
    change (field CR_REF (set_field CR_REF (ref_count (entry t i) - 1) (entry t i))) with (ref_count (entry t i) - 1).
    destruct (Z.eqb_spec (ref_count (entry t i)) 1) as [E|E].
    + rewrite (proj2 (Z.eqb_eq _ 0)) by lia. apply wp_bind.
      eapply wp_resv_set; [apply tab_with_tab|done|auto with nvf|auto with nvf|]. intros t2 H2.
      pose proof (updated_trans _ _ _ _ _ _ H1 H2) as H3. rewrite E1 in H3. apply wp_ret.
      apply (lock_done s t i LFree 0 t2 _ H3); try done. left. split; [done|]. change (ref_count (entry t i) - 1 = 0). lia.
    + rewrite (proj2 (Z.eqb_neq _ 0)) by lia. apply wp_bind, wp_ret, wp_ret.
      eapply (lock_done s t i _ 0 t1 _ H1); [done| | |done].
      * right; right; right. change (status (entry t i) = READ_LOCKED /\ 1 <= ref_count (entry t i) - 1). rewrite Hs. split; [done|lia].
      * unfold abs_lock. change (status (set_field CR_REF (ref_count (entry t i) - 1) (entry t i))) with (status (entry t i)).
        by rewrite Hs.
Qed.

End Containers.

End ControlPlaneOps.
