(* ===== verification/ControlPlaneInv.v ===== *)
(** * The control plane: the invariant under every message, the logs

    [ControlPlaneInv]: every message keeps the invariant of the container table;
    [ControlPlaneLog]: the log files of the tables. *)
From S2P Require Import Prelude Layout Mem BgList Alloc ControlPlane Ipc ControlPlaneSpec ControlPlaneOps.

(** ** The invariant of the container table under every message

    Each operation of the control plane keeps [cp_inv]; so does the dispatcher
    for every message of a registered channel. *)
Module ControlPlaneInv.
Import ControlPlaneOps.
#[local] Opaque entry.

Section Inv.
Context {W : Type} `{!FileApi W} `{!FileApiLaws W}.
Implicit Types s : nvh W.
Notation CM := (M (nvh W)).

(** What every operation keeps. *)
Definition keeps (c c' : cp_ctx) : Prop := cp_inv c' /\ nr_containers c' = nr_containers c.

Lemma keeps_refl c t : table_ok c t -> keeps c c.
Proof. intros H. split; [by exists t|done]. Qed.
Lemma keeps_trans c1 c2 c3 : keeps c1 c2 -> keeps c2 c3 -> keeps c1 c3.
Proof. intros [_ E1] [H E2]. split; [done|congruence]. Qed.

Lemma keeps_frame k c c' t : table_ok c t -> log_frame k c c' -> keeps c c'.
Proof. intros Hk Hf. split; [exists t; by eapply table_ok_frame|]. destruct Hf as (g & x & ->). by destruct k. Qed.

Lemma table_ok_app c t m : table_ok c t -> table_ok (set_app_table m c) t.
Proof. intros [K1 K2 K3 K4 K5 K6 K7 K8 K9 K10]. by split. Qed.

(** ** Release of all containers of a core *)

Definition freed (core : Z) (clear : bool) : reservation := mk_cr (if clear then 0 else core) UNLOCKED 0.

Record released (core : Z) (clear : bool) (ids : list Z) (c c' : cp_ctx) (t : list Z) (r : Z) : Prop := {
  rl_nr : nr_containers c' = nr_containers c;
  rl_ret : r = 0 \/ r = -1;
  rl_table : exists t', table_ok c' t' /\
    (forall j, j ∉ ids \/ owner_core_id (entry t j) <> core -> entry t' j = entry t j) /\
    (forall j, entry t' j = entry t j \/ entry t' j = freed core clear) /\
    (r = 0 -> forall j, j ∈ ids -> owner_core_id (entry t j) = core -> entry t' j = freed core clear) }.

Lemma released_nil core clear c t r : table_ok c t -> r = 0 \/ r = -1 -> released core clear [] c c t r.
Proof.
  intros Hk Hr. split; [done|done|]. exists t. split; [done|]. split; [done|]. split; [by left|].
  intros _ j Hj. by apply not_elem_of_nil in Hj.
Qed.

(** One container of the loop, then the rest. *)
Lemma released_cons core clear i ids c c1 c' t t1 r :
  released core clear ids c1 c' t1 r -> nr_containers c1 = nr_containers c -> i ∉ ids ->
  updated t t1 i (freed core clear) -> owner_core_id (entry t i) = core -> released core clear (i :: ids) c c' t r.
Proof.
  intros [R1 R2 (t' & R3 & R4 & R5 & R6)] Hnr Hni Hu Ho. split; [congruence|done|]. exists t'. split; [done|].
  assert (forall j, j <> i -> entry t1 j = entry t j) as Hne by (intros j; by apply updated_ne with (1 := Hu)).
  pose proof (updated_eq _ _ _ _ Hu) as He. split; [|split].
  - intros j Hj. assert (j <> i) as Hji.
    { intros ->. destruct Hj as [Hj|Hj]; [|done]. apply Hj, elem_of_cons. by left. }
    rewrite R4; [by apply Hne|]. destruct Hj as [Hj|Hj]; [left|right; by rewrite Hne].
    intros Hin. apply Hj, elem_of_cons. by right.
  - intros j. destruct (Z.eq_dec j i) as [->|Hji]; [|by rewrite <- (Hne j)].
    right. destruct (R5 i) as [E|E]; [by rewrite E|done].
  - intros Hr j [->|Hj]%elem_of_cons Hoj.
    + rewrite R4; [done|]. by left.
    + destruct (Z.eq_dec j i) as [->|Hji]; [done|]. apply R6; [done..|by rewrite Hne].
Qed.

Lemma released_skip core clear i ids c c' t r :
  released core clear ids c c' t r -> owner_core_id (entry t i) <> core -> released core clear (i :: ids) c c' t r.
Proof.
  intros [R1 R2 (t' & R3 & R4 & R5 & R6)] Ho. split; [done|done|]. exists t'. split; [done|]. split; [|split; [done|]].
  - intros j [Hj|Hj]; apply R4; [left|by right]. intros Hin. apply Hj, elem_of_cons. by right.
  - intros Hr j [->|Hj]%elem_of_cons Hoj; [done|]. by apply R6.
Qed.

Lemma released_stop core clear ids c t : table_ok c t -> released core clear ids c c t (-1).
Proof. intros Hk. split; [done|by right|]. exists t. split; [done|]. split; [done|]. split; [by left|done]. Qed.

Lemma release_loop_run core clear ids : core <> 0 -> is_s32 core -> forall s t,
  table_ok (nv_cp s) t -> (forall i, i ∈ ids -> 1 <= i < nr_containers (nv_cp s)) -> NoDup ids ->
  wp (release_loop ids core clear) (fun r s' => released core clear ids (nv_cp s) (nv_cp s') t r) s.
Proof.
  intros Hc Hs32. induction ids as [|i ids IH]; intros s t Hk Hids Hnd; cbn [release_loop].
  { apply wp_ret, released_nil; auto. }
  apply NoDup_cons in Hnd as [Hni Hnd]. pose proof (tk_tab _ _ Hk) as Ht.
  assert (1 <= i < nr_containers (nv_cp s)) as Hi by (apply Hids, elem_of_cons; by left).
  assert (forall j, j ∈ ids -> 1 <= j < nr_containers (nv_cp s)) as Hids' by (intros j Hj; apply Hids, elem_of_cons; by right).
  pose proof (inside_table _ _ i Hk ltac:(lia)) as Hin.
  apply wp_bind, (wp_resv_get _ _ _ s t Ht Hin); [auto with nvf|].
  change (field CR_OWNER (entry t i)) with (owner_core_id (entry t i)).
  destruct (Z.eqb_spec (owner_core_id (entry t i)) core) as [Ho|Ho]; cbn [negb].
  2:{ eapply wp_mono; [by apply (IH s t)|]. intros r s' Hr. by apply released_skip. }
  apply wp_bind, (wp_resv_get _ _ _ s t Ht Hin); [auto with nvf|].
  destruct (Z.eqb_spec (field CR_REF (entry t i)) 0) as [Hr|Hr]; cbn [negb]; [|by apply wp_ret, released_stop].
  pose proof (count_free_bounds t (nr_containers (nv_cp s)) ltac:(lia)) as Hcb. pose proof (tk_free _ _ Hk) as Hfr.
  pose proof (tk_last _ _ Hk) as Hla. pose proof (tk_nr _ _ Hk) as Hnr.
  destruct clear; cbn [negb].
  - apply wp_assoc3, (wp_set3 _ _ _ _ _ s t Ht Hin); try apply is_s32_0. intros t1 Hu.
    apply wp_bind, wp_modify.
    assert (free_containers (nv_cp s) + 1 = count_free t1 (nr_containers (nv_cp s))) as Hcf.
    { rewrite (count_free_update t t1 (nr_containers (nv_cp s)) i _ ltac:(lia) Hu), <- Hfr, Ho, (proj2 (Z.eqb_neq core 0)) by done. simpl. lia. }
    pose proof (count_free_bounds t1 (nr_containers (nv_cp s)) ltac:(lia)) as Hcb1.
    eapply wp_mono; [apply (IH _ t1); [|done..]|].
    + apply (table_ok_update (nv_cp s) _ t t1 i (mk_cr 0 UNLOCKED 0)); try done; [lia|intros; lia|by left|].
      rewrite Ho. simpl. rewrite (proj2 (Z.eqb_neq core 0)) by done. rewrite s32_small by lia. lia.
    + intros r s' Hrel. eapply released_cons; [exact Hrel|done|done|exact Hu|done].
  - apply wp_bind, wp_ret. apply wp_assoc2, (wp_set2 _ _ _ _ s t Ht Hin); try apply is_s32_0. rewrite Ho. intros t1 Hu.
    apply wp_bind, wp_ret. eapply wp_mono; [apply (IH _ t1); [|done..]|].
    + apply (table_ok_update (nv_cp s) _ t t1 i (mk_cr core UNLOCKED 0)); try done; [lia|intros; lia|by left|].
      rewrite Ho. simpl. lia.
    + intros r s' Hrel. eapply released_cons; [exact Hrel|done|done|exact Hu|done].
Qed.

Lemma release_by_coreid_run core clear s t : core <> 0 -> is_s32 core -> table_ok (nv_cp s) t ->
  wp (nvfuse_control_plane_container_release_by_coreid core clear)
     (fun r s' => released core (negb (clear =? 0)) (range 1 (nr_containers (nv_cp s))) (nv_cp s) (nv_cp s') t r) s.
Proof.
  intros Hc Hs Hk. unfold nvfuse_control_plane_container_release_by_coreid. apply wp_bind, wp_gets.
  apply release_loop_run; try done; [|apply NoDup_range]. intros i Hi%elem_of_range. done.
Qed.

(** ** Partial rules: every return keeps the invariant *)

Lemma released_keeps core clear ids c c' t r : released core clear ids c c' t r -> keeps c c'.
Proof. intros [R1 _ (t' & R3 & _)]. split; [by exists t'|done]. Qed.

Lemma allocated_keeps c c' t i r d : allocated c c' t i r d -> keeps c c'.
Proof. intros [_ (t' & _ & Hk) _ _ Hn]. split; [by exists t'|done]. Qed.

Lemma wlp_alloc core type st s t : table_ok (nv_cp s) t -> 1 <= core < 16 -> is_status st ->
  wlp (nvfuse_control_plane_container_alloc core type st) (fun _ s' => keeps (nv_cp s) (nv_cp s')) s.
Proof.
  intros Hk Hc Hst. destruct (Z.eq_dec type CONTAINER_NEW_ALLOC) as [->|Hty].
  2:{ apply wp_wlp. eapply wp_mono; [apply (alloc_own_run core type st s t); (done || lia)|].
      intros i s' [(_ & -> & _)|[_ Ha]]; [by eapply keeps_refl|by eapply allocated_keeps]. }
  destruct (existsb (matches t 0) (range 0 (nr_containers (nv_cp s)))) eqn:Ex.
  { apply existsb_exists in Ex as (b & Hb & Hm). apply list_elem_of_In, elem_of_range in Hb.
    apply wp_wlp. eapply wp_mono; [apply (alloc_new_run core st s t); [done|lia|unfold is_s32; lia|done|eauto]|].
    intros i s' [_ Ha]. by eapply allocated_keeps. }
  assert (forall i, 0 <= i < nr_containers (nv_cp s) -> matches t 0 i = false) as Hno.
  { intros i Hi. destruct (matches t 0 i) eqn:E; [|done]. assert (existsb (matches t 0) (range 0 (nr_containers (nv_cp s))) = true); [|congruence].
    apply existsb_exists. exists i. split; [|done]. by apply list_elem_of_In, elem_of_range. }
  unfold nvfuse_control_plane_container_alloc. wlp_step. wlp_step. do 6 wlp_step.
  change (CONTAINER_NEW_ALLOC =? CONTAINER_NEW_ALLOC) with true. cbv iota.
  destruct (free_containers (nv_cp s) =? 0); [by eapply keeps_refl|]. wlp_step. wlp_step. wlp_step.
  unfold wlp at 1. rewrite (search_diverges t (nr_containers (nv_cp s)) 0 _ Hno); [done|apply Hk|by eapply start_range].
Qed.

(** Writes to the padding behind the last container. *)
Lemma wlp_set_pad i f v s t : table_ok (nv_cp s) t -> nr_containers (nv_cp s) <= i -> f = CR_STATUS \/ f = CR_REF -> is_s32 v ->
  wlp (resv_set i f v) (fun _ s' => keeps (nv_cp s) (nv_cp s')) s.
Proof.
  intros Hk Hi Hf Hv. pose proof Hk as [K1 K2 K3 K4 K5 K6 K7 K8 K9 K10].
  apply (wlp_resv_set _ _ _ _ s t K1); [by right|done|]. intros t' Hu. split; [|done]. exists t'.
  assert (forall j, owner_core_id (entry t' j) = owner_core_id (entry t j)) as Ho.
  { intros j. destruct (Z.eq_dec j i) as [->|]; [|by rewrite (updated_ne _ _ _ _ j Hu)].
    rewrite (updated_eq _ _ _ _ Hu). by destruct Hf as [->| ->]. }
  split; try done.
  - destruct Hu as [-> _]. done.
  - by rewrite Ho.
  - intros j Hj. rewrite (updated_ne _ _ _ _ j Hu) by (simpl in Hj; lia). auto.
  - intros j Hj. rewrite Ho. auto.
  - simpl. rewrite K8. unfold count_free. apply Zcount_ext. intros j _. by rewrite Ho.
Qed.

Lemma lock_result_keeps s t i l r s' : table_ok (nv_cp s) t -> 0 <= i < nr_containers (nv_cp s) ->
  lock_result s t i l r s' -> keeps (nv_cp s) (nv_cp s').
Proof.
  intros Hk Hi. destruct l as [l|]; [|intros [_ ->]; by eapply keeps_refl].
  intros (_ & t' & e & Hu & Ho & Hl & _ & ->). split; [|done]. exists t'.
  apply (table_ok_update (nv_cp s) _ t t' i e); try done.
  - intros ->. rewrite Ho. apply Hk.
  - apply Hk.
  - rewrite Ho. simpl. lia.
Qed.

(** No reservation counter is at its maximum. *)
Definition unsaturated s : Prop :=
  forall t i, tab s = Some t -> 0 <= i < nr_containers (nv_cp s) -> ref_count (entry t i) < 2 ^ 31 - 1.

(** A sequence of such writes and reads. *)
Lemma wlp_keeps_bind {A B} (m : CM A) (k : A -> CM B) s :
  wlp m (fun _ s' => keeps (nv_cp s) (nv_cp s')) s ->
  (forall a s1 t1, table_ok (nv_cp s1) t1 -> nr_containers (nv_cp s1) = nr_containers (nv_cp s) ->
    wlp (k a) (fun _ s' => keeps (nv_cp s1) (nv_cp s')) s1) ->
  wlp (m ≫= k) (fun _ s' => keeps (nv_cp s) (nv_cp s')) s.
Proof.
  intros Hm Hkk. apply wlp_bind. eapply wlp_mono; [exact Hm|]. intros a s1 [(t1 & Hk1) Hn].
  eapply wlp_mono; [by apply (Hkk a s1 t1)|]. intros b s2 H2. eapply keeps_trans; [|exact H2]. split; [by exists t1|done].
Qed.

Lemma wlp_get_keeps {B} i f (k : Z -> CM B) s t : table_ok (nv_cp s) t -> is_field f ->
  (forall v, 0 <= i -> wlp (k v) (fun _ s' => keeps (nv_cp s) (nv_cp s')) s) ->
  wlp (resv_get i f ≫= k) (fun _ s' => keeps (nv_cp s) (nv_cp s')) s.
Proof. intros Hk Hf Hkk. apply wlp_bind, (wlp_resv_get _ _ _ s t (tk_tab _ _ Hk) Hf). auto. Qed.

Lemma wlp_ret_keeps {A} (a : A) s t : table_ok (nv_cp s) t -> wlp (mret a) (fun _ s' => keeps (nv_cp s) (nv_cp s')) s.
Proof. intros Hk. apply wlp_ret. by eapply keeps_refl. Qed.

(** The tail of the lock operations on a container behind the table. *)
Ltac pad_step Hi :=
  match goal with
  | Hk : table_ok (nv_cp ?s) _ |- wlp (resv_get _ _ ≫= _) _ ?s =>
      eapply (wlp_get_keeps _ _ _ _ _ Hk); [auto with nvf|]; intros ? _
  | Hk : table_ok (nv_cp ?s) _ |- wlp (resv_set _ _ _ ≫= _) _ ?s =>
      eapply wlp_keeps_bind; [eapply (wlp_set_pad _ _ _ _ _ Hk); [lia|by (left + right)|]|]; [..|intros ? ? ? ? ?]
  | Hk : table_ok (nv_cp ?s) _ |- wlp (mret _) _ ?s => by eapply wlp_ret_keeps
  end.

Lemma wlp_acquire i type s t : table_ok (nv_cp s) t -> unsaturated s ->
  wlp (nvfuse_control_plane_reservation_acquire i type) (fun _ s' => keeps (nv_cp s) (nv_cp s')) s.
Proof.
  intros Hk Hu. destruct (Z.lt_ge_cases i (nr_containers (nv_cp s))) as [Hlt|Hge].
  - destruct (Z.lt_ge_cases i 0) as [Hneg|Hpos].
    + unfold nvfuse_control_plane_reservation_acquire.
      repeat case_match; try (by eapply wlp_ret_keeps); eapply wlp_get_keeps; eauto with nvf; intros; lia.
    + apply wp_wlp. eapply wp_mono; [apply (acquire_run i type s t); [done|done|by apply Hu; [apply Hk|]]|].
      intros r s' Hr. by eapply lock_result_keeps.
  - unfold nvfuse_control_plane_reservation_acquire.
    assert (is_s32 WRITE_LOCKED /\ is_s32 READ_LOCKED) as [Hw Hrd] by (unfold is_s32, WRITE_LOCKED, READ_LOCKED; lia).
    repeat (case_match || pad_step Hge); try done; try apply s32_range.
Qed.

Lemma wlp_release_lock i s t : table_ok (nv_cp s) t -> unsaturated s ->
  wlp (nvfuse_control_plane_reservation_release i) (fun _ s' => keeps (nv_cp s) (nv_cp s')) s.
Proof.
  intros Hk Hu. destruct (Z.lt_ge_cases i (nr_containers (nv_cp s))) as [Hlt|Hge].
  - destruct (Z.lt_ge_cases i 0) as [Hneg|Hpos].
    + unfold nvfuse_control_plane_reservation_release. eapply wlp_get_keeps; eauto with nvf; intros; lia.
    + apply wp_wlp. eapply wp_mono; [apply (release_lock_run i s t); [done|done|]|].
      * pose proof (Hu t i (tk_tab _ _ Hk) ltac:(lia)). lia.
      * intros r s' Hr. by eapply lock_result_keeps.
  - unfold nvfuse_control_plane_reservation_release. pad_step Hge. case_match; [|case_match; [|by pad_step Hge]].
    + repeat pad_step Hge; try apply is_s32_0; try apply s32_range.
      apply wlp_bind, wlp_assert. intros _. by pad_step Hge.
    + repeat pad_step Hge; try apply s32_range.
      case_match.
      * pad_step Hge; [apply is_s32_0|]. by pad_step Hge.
      * apply wlp_bind, wlp_ret. by pad_step Hge.
Qed.

Lemma wlp_release core i s t : table_ok (nv_cp s) t -> 1 <= core < 16 ->
  wlp (nvfuse_control_plane_container_release core i) (fun _ s' => keeps (nv_cp s) (nv_cp s')) s.
Proof.
  intros Hk Hc. destruct (Z.lt_ge_cases i (nr_containers (nv_cp s))) as [Hlt|Hge];
    [destruct (Z.lt_ge_cases i 0) as [Hneg|Hpos]|].
  - unfold nvfuse_control_plane_container_release. eapply wlp_get_keeps; eauto with nvf. intros; lia.
  - apply wp_wlp. eapply wp_mono; [apply (release_run core i s t); (done || lia)|]. intros r s'. cbv beta.
    destruct (_ && _); [|intros [_ ->]; by eapply keeps_refl]. intros (_ & _ & Hn & t' & _ & Hk').
    split; [by exists t'|done].
  - unfold nvfuse_control_plane_container_release. apply wlp_bind, (wlp_resv_get _ _ _ s t (tk_tab _ _ Hk)); [auto with nvf|].
    intros _. change (field CR_OWNER (entry t i)) with (owner_core_id (entry t i)). rewrite (tk_pad _ _ Hk i Hge).
    rewrite (proj2 (Z.eqb_neq 0 core)) by lia. by eapply wlp_ret_keeps.
Qed.

(** ** Operations that do not touch the container table *)

Lemma wlp_api_keeps {A B} (f : fs * W -> A * (fs * W)) (k : A -> CM B) s t : table_ok (nv_cp s) t ->
  (forall a s1, nv_cp s1 = nv_cp s -> wlp (k a) (fun _ s' => keeps (nv_cp s) (nv_cp s')) s1) ->
  wlp (api f ≫= k) (fun _ s' => keeps (nv_cp s) (nv_cp s')) s.
Proof. intros Hk Hkk. apply wlp_bind, wlp_api. intros a f' w' _. by apply Hkk. Qed.

Lemma wlp_app_put (m : option (list Z)) s t : table_ok (nv_cp s) t ->
  wlp (app_put m) (fun _ s' => keeps (nv_cp s) (nv_cp s')) s.
Proof.
  intros Hk. unfold app_put. wlp_steps. split; [|done]. exists t. by apply table_ok_app.
Qed.

Lemma wlp_app_mem {B} (k : list Z -> CM B) Q s : (forall m, wlp (k m) Q s) -> wlp (app_mem ≫= k) Q s.
Proof. intros Hk. apply wlp_bind. unfold app_mem. do 3 wlp_step. apply Hk. Qed.

Lemma wlp_store k s t : table_ok (nv_cp s) t -> wlp (store_table k) (fun _ s' => keeps (nv_cp s) (nv_cp s')) s.
Proof. intros Hk. eapply wlp_mono; [apply store_table_frame|]. intros r s' Hf. exact (keeps_frame k _ _ t Hk Hf). Qed.

Lemma wlp_destroy_loop ids core : forall s, wlp (destroy_loop ids core) (fun _ s' => nv_cp s' = nv_cp s) s.
Proof.
  induction ids as [|i ids IH]; intros s; cbn [destroy_loop]; [done|].
  assert (forall {A} (m : M fs A) (Q : A -> nvh W -> Prop) s0,
    (forall a f, Q a (mk_nvh (nv_cp s0) f (nv_w s0))) -> wlp (fs_run m) Q s0) as Hfs.
  { intros A m Q s0 HQ. unfold wlp, fs_run. destruct (m (nv_fs s0)) as [[a f]|]; auto. }
  apply wlp_bind. unfold resv_get, resv_mem. do 5 wlp_step. destruct (negb _); [apply IH|].
  apply wlp_bind, Hfs. intros bd f. do 4 wlp_step. apply wlp_bind, Hfs. intros db f1. do 2 wlp_step.
  apply wlp_bind, Hfs. intros ib f2. do 2 wlp_step. apply wlp_bind, wlp_api. intros [] f3 w3 _.
  eapply wlp_mono; [apply IH|]. intros ? s' E. exact E.
Qed.

Lemma wlp_destroy core s t : table_ok (nv_cp s) t ->
  wlp (nvfuse_destroy_containers_for_app_unregistration core) (fun _ s' => keeps (nv_cp s) (nv_cp s')) s.
Proof.
  intros Hk. unfold nvfuse_destroy_containers_for_app_unregistration. apply wlp_app_mem. intros m.
  do 2 wlp_step. eapply wlp_api_keeps; [done|]. intros r s1 E1. destruct (r <? 0); [wlp_step; rewrite E1; by eapply keeps_refl|].
  do 2 wlp_step. wlp_step. eapply wlp_mono; [apply wlp_destroy_loop|]. intros [] s2 E2.
  apply wlp_bind, wlp_api. intros [] f w _. wlp_step. cbn [nv_cp]. rewrite E2, E1. by eapply keeps_refl.
Qed.

Lemma wlp_add chan name s t : table_ok (nv_cp s) t -> 1 <= chan ->
  wlp (nvfuse_app_manage_table_add chan name) (fun _ s' => keeps (nv_cp s) (nv_cp s')) s.
Proof.
  intros Hk Hc. unfold nvfuse_app_manage_table_add. destruct (_ || _) eqn:E; [by eapply wlp_ret_keeps|].
  apply orb_false_iff in E as [_ E]. apply Z.leb_gt in E. unfold SPDK_NUM_CORES in E.
  apply wlp_app_mem. intros m. eapply wlp_keeps_bind; [by eapply wlp_app_put|]. intros _ s1 t1 Hk1 _.
  apply wlp_app_mem. intros m1. eapply wlp_keeps_bind; [by eapply wlp_app_put|]. intros _ s2 t2 Hk2 _.
  eapply wlp_api_keeps; [done|]. intros r s3 E3. rewrite <- E3 in *. destruct (negb _); [|by eapply wlp_ret_keeps].
  eapply wlp_keeps_bind; [eapply wlp_alloc; [done|lia|by left]|]. intros root s4 t4 Hk4 _.
  apply wlp_app_mem. intros m4. eapply wlp_keeps_bind; [by eapply wlp_app_put|]. intros _ s5 t5 Hk5 _.
  do 2 wlp_step. apply wlp_bind, wlp_api. intros r1 f6 w6 _. destruct (r1 <? 0); wlp_steps; by eapply keeps_refl.
Qed.

Lemma wlp_remove core d s t : table_ok (nv_cp s) t -> 1 <= core ->
  wlp (nvfuse_app_manage_table_remove core d) (fun _ s' => keeps (nv_cp s) (nv_cp s')) s.
Proof.
  intros Hk Hc. unfold nvfuse_app_manage_table_remove. destruct (_ || _) eqn:E; [by eapply wlp_ret_keeps|].
  apply orb_false_iff in E as [_ E]. apply Z.leb_gt in E. unfold SPDK_NUM_CORES in E.
  assert (is_s32 core) as Hs by (unfold is_s32; lia).
  assert (forall clear s0 t0, table_ok (nv_cp s0) t0 ->
    wlp (nvfuse_control_plane_container_release_by_coreid core clear) (fun _ s' => keeps (nv_cp s0) (nv_cp s')) s0) as Hrel.
  { intros clear s0 t0 Hk0. apply wp_wlp. eapply wp_mono; [apply (release_by_coreid_run core clear s0 t0); (done || lia)|].
    intros r s' Hr. exact (released_keeps _ _ _ _ _ _ _ Hr). }
  apply wlp_app_mem. intros m. do 2 wlp_step. destruct (negb _); [by eapply wlp_ret_keeps|].
  eapply wlp_keeps_bind; [|intros _ s1 t1 Hk1 _].
  - destruct (d =? _).
    + eapply wlp_keeps_bind; [by eapply wlp_destroy|]. intros _ s1 t1 Hk1 _.
      eapply wlp_keeps_bind; [by eapply Hrel|]. intros _ s2 t2 Hk2 _.
      apply wlp_app_mem. intros m2. eapply wlp_keeps_bind; [by eapply wlp_app_put|]. intros _ s3 t3 Hk3 _.
      apply wlp_app_mem. intros m3. eapply wlp_keeps_bind; [by eapply wlp_app_put|]. intros _ s4 t4 Hk4 _.
      apply wlp_app_mem. intros m4. by eapply wlp_app_put.
    + eapply wlp_keeps_bind; [by eapply Hrel|]. intros _ s1 t1 Hk1 _. by eapply wlp_ret_keeps.
  - eapply wlp_keeps_bind; [by eapply wlp_store|]. intros _ s2 t2 Hk2 _.
    eapply wlp_keeps_bind; [by eapply wlp_store|]. intros _ s3 t3 Hk3 _. by eapply wlp_ret_keeps.
Qed.

Lemma table_ok_buffers c t a b : table_ok c t -> table_ok (set_buffers a b c) t.
Proof. intros [K1 K2 K3 K4 K5 K6 K7 K8 K9 K10]. by split. Qed.

Lemma wlp_buffer_alloc size s t : table_ok (nv_cp s) t ->
  wlp (nvfuse_control_plane_buffer_alloc size) (fun _ s' => keeps (nv_cp s) (nv_cp s')) s.
Proof.
  intros Hk. unfold nvfuse_control_plane_buffer_alloc. do 2 wlp_step. destruct (_ <? _); [by eapply wlp_ret_keeps|].
  wlp_steps. split; [|done]. exists t. by apply table_ok_buffers.
Qed.

Lemma wlp_buffer_free size s t : table_ok (nv_cp s) t ->
  wlp (nvfuse_control_plane_buffer_free size) (fun _ s' => keeps (nv_cp s) (nv_cp s')) s.
Proof.
  intros Hk. unfold nvfuse_control_plane_buffer_free. do 4 wlp_step. destruct (_ || _); [by eapply wlp_ret_keeps|].
  wlp_steps. split; [|done]. exists t. by apply table_ok_buffers.
Qed.

Lemma wlp_superblock_copy name msg s t : table_ok (nv_cp s) t ->
  wlp (nvfuse_superblock_copy name msg) (fun _ s' => keeps (nv_cp s) (nv_cp s')) s.
Proof.
  intros Hk. unfold nvfuse_superblock_copy. eapply wlp_api_keeps; [done|]. intros [[r fn] par] s1 E1. rewrite <- E1 in *.
  destruct (r <? 0); [by eapply wlp_ret_keeps|]. eapply wlp_api_keeps; [done|]. intros [r1 d] s2 E2. rewrite <- E2 in *.
  destruct (r1 <? 0); [by eapply wlp_ret_keeps|]. wlp_steps. by eapply keeps_refl.
Qed.

(** ** The dispatcher *)

Lemma wlp_reply (m : CM Z) (r : Z -> option (list Z)) s :
  wlp m (fun _ s' => keeps (nv_cp s) (nv_cp s')) s ->
  wlp (m ≫= fun ret => mlift (r ret)) (fun _ s' => keeps (nv_cp s) (nv_cp s')) s.
Proof.
  intros Hm. eapply wlp_keeps_bind; [done|]. intros ret s1 t1 Hk1 _. wlp_step. by eapply keeps_refl.
Qed.

Lemma wlp_poll msg s t chan : table_ok (nv_cp s) t -> rd32 msg MSG_CHAN = Some chan -> 1 <= chan < 16 -> unsaturated s ->
  wlp (primary_poll_core msg) (fun _ s' => keeps (nv_cp s) (nv_cp s')) s.
Proof.
  intros Hk Hch Hc Hu. unfold primary_poll_core, arg. do 3 wlp_step. rewrite Hch. apply wlp_lift. intros ? [= <-].
  destruct (_ =? APP_REGISTER_REQ); [do 2 wlp_step; apply wlp_reply; eapply wlp_add; (done || lia)|].
  destruct (_ =? APP_UNREGISTER_REQ); [do 2 wlp_step; apply wlp_reply; eapply wlp_remove; (done || lia)|].
  destruct (_ =? SUPERBLOCK_COPY_REQ).
  { do 2 wlp_step. eapply wlp_keeps_bind; [by eapply wlp_superblock_copy|]. intros [r m] s1 t1 Hk1 _. wlp_step. by eapply keeps_refl. }
  destruct (_ =? BUFFER_ALLOC_REQ); [do 2 wlp_step; apply wlp_reply; by eapply wlp_buffer_alloc|].
  destruct (_ =? BUFFER_FREE_REQ); [do 2 wlp_step; apply wlp_reply; by eapply wlp_buffer_free|].
  destruct (_ =? CONTAINER_ALLOC_REQ); [do 2 wlp_step; apply wlp_reply; eapply wlp_alloc; [done|done|by right]|].
  destruct (_ =? CONTAINER_RELEASE_REQ); [do 2 wlp_step; apply wlp_reply; by eapply wlp_release|].
  destruct (_ =? CONTAINER_RESERVATION_ACQUIRE_REQ); [do 4 wlp_step; apply wlp_reply; by eapply wlp_acquire|].
  destruct (_ =? CONTAINER_RESERVATION_RELEASE_REQ); [do 2 wlp_step; apply wlp_reply; by eapply wlp_release_lock|].
  destruct (_ =? HEALTH_CHECK_REQ); [apply wlp_reply; by eapply wlp_ret_keeps|].
  wlp_step. by eapply keeps_refl.
Qed.

End Inv.

End ControlPlaneInv.

(** ** The logs of the control plane tables

    What [store_table] leaves in a log file and what [load_table] makes of the
    log files, against the contract of a file store. *)
Module ControlPlaneLog.
Export ControlPlane ControlPlaneSpec.

(** The contract: named files with contents, descriptors, and enough memory
    and descriptors for the calls. *)
Class FileStore (W : Type) `{!FileApi W} := {
  st_file : fs * W -> list Z -> option (list Z);
  st_fd : fs * W -> Z -> option (list Z);
  st_alloc n x : 0 <= n -> exists a b x', fa_alloc n x = (Some (a, b), x') /\ length b = Z.to_nat n /\
    (forall m, st_file x' m = st_file x m);
  st_open n fl x : is_Some (st_file x n) \/ Z.land fl O_CREAT <> 0 ->
    exists fd x', fa_open n fl x = (fd, x') /\ 0 <= fd /\ st_fd x' fd = Some n /\
      st_file x' n = Some (default [] (st_file x n)) /\ (forall m, m <> n -> st_file x' m = st_file x m);
  st_open_missing n fl x : st_file x n = None -> Z.land fl O_CREAT = 0 ->
    exists fd x', fa_open n fl x = (fd, x') /\ fd < 0 /\ (forall m, st_file x' m = st_file x m);
  st_write n fd b off c x : st_fd x fd = Some n -> st_file x n = Some c -> 0 <= off <= Z.of_nat (length c) ->
    exists x', fa_write fd b off x = (Z.of_nat (length b), x') /\
      st_file x' n = Some (take (Z.to_nat off) c ++ b ++ drop (Z.to_nat off + length b) c) /\
      (forall m, m <> n -> st_file x' m = st_file x m) /\ (forall d, st_fd x' d = st_fd x d);
  st_read n fd cnt off c x : st_fd x fd = Some n -> st_file x n = Some c ->
    0 <= cnt -> 0 <= off -> off + cnt <= Z.of_nat (length c) ->
    exists x', fa_read fd cnt off x = (cnt, take (Z.to_nat cnt) (drop (Z.to_nat off) c), x') /\
      (forall m, st_file x' m = st_file x m) /\ (forall d, st_fd x' d = st_fd x d);
  st_close fd x m : st_file (fa_close fd x) m = st_file x m;
  st_flush f x m : st_file (fa_check_flush_dirty f x) m = st_file x m }.

Section Logs.
Context {W : Type} `{!FileApi W} `{!FileStore W}.
Implicit Types s : nvh W.
Notation CM := (M (nvh W)).

Definition world s : fs * W := (nv_fs s, nv_w s).

(** Log [n] of table [k] has generation [g] and content [t]. *)
Definition log_holds (x : fs * W) (k : which) (n g : Z) (t : list Z) : Prop :=
  exists h rest, st_file x (log_name k n) = Some (h ++ t ++ rest) /\ length h = 4096%nat /\ rd64 h 0 = Some g.

Lemma wp_api_run {A} (f : fs * W -> A * (fs * W)) (Q : A -> nvh W -> Prop) s a x' :
  f (world s) = (a, x') -> (forall f' w', x' = (f', w') -> Q a (mk_nvh (nv_cp s) f' w')) -> wp (api f) Q s.
Proof. intros E HQ. apply wp_api. intros a1 f' w' E1. unfold world in E. rewrite E in E1. injection E1 as <- ->. by apply HQ. Qed.

Lemma take_chunk (t : list Z) a b : (take a t ++ take b (drop a t)) = take (a + b) t.
Proof. by rewrite take_take_drop. Qed.

(** ** Store *)

Lemma store_loop_log k q t n fuel : forall fd buf j ret s h rest g,
  tab_bytes k (nv_cp s) = Some t -> Z.of_nat (length t) = 4096 * q -> 1 <= j <= q + 1 -> q + 1 - j <= Z.of_nat fuel ->
  length buf = 4096%nat -> ret = 4096 -> st_fd (world s) fd = Some n ->
  st_file (world s) n = Some (h ++ take (Z.to_nat (4096 * (j - 1))) t ++ rest) -> length h = 4096%nat -> rd64 h 0 = Some g ->
  wp (store_loop fuel k fd (4096 * q) buf (4096 * j) ret) (fun r s' => r = (4096, true) /\ nv_cp s' = nv_cp s /\
    (exists rest', st_file (world s') n = Some (h ++ t ++ rest')) /\
    (forall m, m <> n -> st_file (world s') m = st_file (world s) m)) s.
Proof.
  induction fuel as [|fuel IH]; intros fd buf j ret s h rest g Ht Hlen Hj Hf Hb Hret Hfd Hfile Hh Hg; cbn [store_loop];
    unfold LOG_CHUNK_SIZE; destruct (Z.ltb_spec (4096 * j) (4096 * q + 4096)) as [Hlt|Hge]; try lia.
  - apply wp_ret. split; [by subst|]. split; [done|]. split; [|done]. exists rest. rewrite Hfile. do 3 f_equal. rewrite take_ge; [done|lia].
  - rewrite (proj2 (Z.eqb_neq (4096 * j) 0)) by lia. apply wp_bind, wp_bind.
    apply (wp_run _ _ _ t s); [by apply tab_mem_run|]. rewrite rd_Some by lia. apply (wp_lift _ _ _ _ eq_refl).
    set (b := take (Z.to_nat 4096) (drop (Z.to_nat (4096 * j - 4096)) t)).
    assert (length b = 4096%nat) as Hlb by (unfold b; rewrite length_take, length_drop; lia).
    assert (length (take (Z.to_nat (4096 * (j - 1))) t) = Z.to_nat (4096 * (j - 1))) as Hlt' by (rewrite length_take; lia).
    destruct (st_write n fd b (4096 * j) _ (world s) Hfd Hfile) as (x' & Hw & Hc & Hoth & Hfds).
    { rewrite !length_app. lia. }
    apply wp_bind, (wp_api_run _ _ _ _ x' Hw). intros f' w' ->. rewrite Hlb. cbn [negb].
    change (negb (Z.of_nat 4096 =? 4096)) with false. cbv iota.
    replace (4096 * j + 4096) with (4096 * (j + 1)) by lia. eapply wp_mono.
    { eapply (IH fd b (j + 1) _ _ h); try done; try lia; [cbn; by rewrite Hfds|]. cbn [world nv_fs nv_w]. unfold world. cbn [nv_fs nv_w].
      rewrite Hc. f_equal. rewrite app_assoc, (app_assoc h).
      rewrite take_app_length' by (rewrite length_app; lia). rewrite <- app_assoc, <- (app_assoc h). f_equal. rewrite app_assoc. f_equal.
      unfold b. replace (Z.to_nat (4096 * j - 4096)) with (Z.to_nat (4096 * (j - 1))) by lia. rewrite take_chunk. f_equal. lia. }
    intros r s' (Hr & Hcp & Hex & Ho). split; [done|]. split; [done|]. split; [done|]. intros m Hm. rewrite Ho by done. by apply Hoth.
  - apply wp_ret. split; [by subst|]. split; [done|]. split; [|done]. exists rest. rewrite Hfile. do 3 f_equal. rewrite take_ge; [done|lia].
Qed.

(** The first chunk, with the generation, and then the table. *)
Lemma store_first k q t n fd buf s c g :
  tab_bytes k (nv_cp s) = Some t -> Z.of_nat (length t) = 4096 * q -> 0 <= q ->
  length buf = 4096%nat -> st_fd (world s) fd = Some n -> st_file (world s) n = Some c ->
  tab_gen k (nv_cp s) = g -> - 2 ^ 63 <= g < 2 ^ 63 ->
  wp (store_loop (log_fuel (4096 * q)) k fd (4096 * q) buf 0 0) (fun r s' => r = (4096, true) /\
    nv_cp s' = set_log k (s64 (g + 1)) (tab_cur k (nv_cp s)) (nv_cp s) /\
    (exists h rest, st_file (world s') n = Some (h ++ t ++ rest) /\ length h = 4096%nat /\ rd64 h 0 = Some g) /\
    (forall m, m <> n -> st_file (world s') m = st_file (world s) m)) s.
Proof.
  intros Ht Hlen Hq Hb Hfd Hfile Hg Hgr. unfold log_fuel, LOG_CHUNK_SIZE. rewrite (Z.mul_comm 4096 q), Z.div_mul, (Z.mul_comm q 4096) by lia.
  replace (Z.to_nat (q + 2)) with (S (Z.to_nat (q + 1))) by lia. cbn [store_loop]. unfold LOG_CHUNK_SIZE.
  rewrite (proj2 (Z.ltb_lt 0 _)) by lia. change (0 =? 0) with true. cbv iota.
  apply wp_bind. do 2 (apply wp_bind, wp_gets). apply wp_bind, wp_modify. rewrite Hg.
  destruct (wr_Some buf 0 (le_bytes 8 g)) as (h & Hw); [done|rewrite length_le_bytes; lia|].
  apply (wp_lift _ h); [done|]. assert (length h = 4096%nat) as Hlh by (by rewrite (wr_length _ _ _ _ Hw)).
  destruct (st_write n fd h 0 c (world s) Hfd Hfile) as (x' & Hx & Hc & Hoth & Hfds); [lia|].
  apply wp_bind. eapply (wp_api_run _ _ _ _ x'); [exact Hx|]. intros f' w' ->. rewrite Hlh.
  change (negb (Z.of_nat 4096 =? 4096)) with false. cbv iota. change (0 + 4096) with (4096 * 1).
  eapply wp_mono.
  { eapply (store_loop_log k q t n _ fd h 1 _ _ h (drop (Z.to_nat 0 + length h) c) g).
    - by destruct k.
    - done.
    - lia.
    - lia.
    - done.
    - done.
    - unfold world. cbn. by rewrite Hfds.
    - unfold world. cbn [nv_fs nv_w]. rewrite Hc. done.
    - done.
    - by eapply rd64_wr64_eq. }
  intros r s' (Hr & Hcp & (rest & Hex) & Ho). split; [done|]. split; [done|]. split.
  - exists h, rest. split; [done|]. split; [done|]. by eapply rd64_wr64_eq.
  - intros m Hm. rewrite Ho by done. by apply Hoth.
Qed.

Lemma tab_frame k g c x : tab_bytes k (set_log k g c x) = tab_bytes k x /\ tab_size k (set_log k g c x) = tab_size k x /\
  tab_gen k (set_log k g c x) = g /\ tab_cur k (set_log k g c x) = c /\ tab_max k (set_log k g c x) = tab_max k x.
Proof. by destruct k. Qed.

Lemma set_log_twice k g c g' c' x : set_log k g' c' (set_log k g c x) = set_log k g' c' x.
Proof. by destruct k. Qed.

Lemma store_table_log k s t q :
  tab_bytes k (nv_cp s) = Some t -> Z.of_nat (length t) = 4096 * q -> 0 <= q -> tab_size k (nv_cp s) = 4096 * q ->
  tab_max k (nv_cp s) <> 0 -> - 2 ^ 63 <= tab_gen k (nv_cp s) < 2 ^ 63 ->
  wp (store_table k) (fun r s' => r = 4096 /\
    nv_cp s' = set_log k (s64 (tab_gen k (nv_cp s) + 1)) (Z.rem (tab_cur k (nv_cp s) + 1) (tab_max k (nv_cp s))) (nv_cp s) /\
    log_holds (world s') k (tab_cur k (nv_cp s)) (tab_gen k (nv_cp s)) t /\
    (forall m, m <> log_name k (tab_cur k (nv_cp s)) -> st_file (world s') m = st_file (world s) m)) s.
Proof.
  intros Ht Hlen Hq Hs Hm Hg. unfold store_table. apply wp_bind, wp_gets.
  destruct (st_alloc LOG_CHUNK_SIZE (world s)) as (a & buf & x1 & Ha & Hlb & Hx1); [done|].
  apply wp_bind, (wp_api_run _ _ _ _ x1 Ha). intros f1 w1 ->. cbn [nv_cp].
  do 2 (apply wp_bind, wp_gets). apply wp_bind, wp_assert; [by apply negb_true_iff, Z.eqb_neq|].
  apply wp_bind, wp_gets. apply wp_bind, wp_modify. cbn [nv_cp nv_fs nv_w].
  set (n := log_name k (tab_cur k (nv_cp s))).
  destruct (st_open n (Z.lor O_RDWR O_CREAT) (f1, w1)) as (fd & x2 & Ho & Hfd & Hfdn & Hfn & Hx2); [by right|].
  apply wp_bind. eapply (wp_api_run _ _ _ _ x2); [exact Ho|]. intros f2 w2 ->. rewrite (proj2 (Z.ltb_ge fd 0)) by done.
  apply wp_bind. rewrite Hs. cbn [nv_cp].
  set (c1 := set_log k (tab_gen k (nv_cp s)) (Z.rem (tab_cur k (nv_cp s) + 1) (tab_max k (nv_cp s))) (nv_cp s)).
  destruct (tab_frame k (tab_gen k (nv_cp s)) (Z.rem (tab_cur k (nv_cp s) + 1) (tab_max k (nv_cp s))) (nv_cp s)) as (F1 & F2 & F3 & F4 & F5).
  eapply wp_mono; [eapply (store_first k q t n fd buf (mk_nvh c1 f2 w2)); [by rewrite <- Ht|done|done|by rewrite Hlb|done|done|exact F3|done]|].
  intros r s' (-> & Hcp & Hex & Hoth). cbn [negb]. apply wp_bind, wp_api. intros [] f3 w3 E3. injection E3 as E3.
  apply wp_bind, wp_api. intros [] f4 w4 E4. injection E4 as E4. apply wp_ret. cbn [nv_cp].
  assert (forall m, st_file (f4, w4) m = st_file (world s') m) as Hw.
  { intros m. rewrite <- E4. cbn [nv_fs nv_w]. rewrite st_close, <- E3, st_flush. done. }
  split; [done|]. split; [|split].
  - rewrite Hcp. cbn [nv_cp]. unfold c1. by rewrite F4, set_log_twice.
  - destruct Hex as (h & rest & H1 & H2 & H3). exists h, rest. split; [|done]. unfold world. cbn [nv_fs nv_w]. by rewrite Hw.
  - intros m Hne. unfold world at 1. cbn [nv_fs nv_w]. rewrite Hw, Hoth by done. unfold world at 1. cbn [nv_fs nv_w].
    rewrite Hx2 by done. by rewrite Hx1.
Qed.

(** ** Load *)

Lemma log_read x k n g t fd off cnt : log_holds x k n g t -> st_fd x fd = Some (log_name k n) ->
  0 <= cnt -> 0 <= off -> off + cnt <= 4096 + Z.of_nat (length t) ->
  exists b x', fa_read fd cnt off x = (cnt, b, x') /\
    (forall m, st_file x' m = st_file x m) /\ (forall d, st_fd x' d = st_fd x d) /\
    (off = 0 -> cnt = 4096 -> rd64 b 0 = Some g) /\
    (4096 <= off -> b = take (Z.to_nat cnt) (drop (Z.to_nat (off - 4096)) t)).
Proof.
  intros (h & rest & Hf & Hh & Hg) Hfd Hc Ho Hle.
  destruct (st_read (log_name k n) fd cnt off _ x Hfd Hf Hc Ho) as (x' & Hr & H1 & H2); [rewrite !length_app; lia|].
  eexists _, x'. split; [exact Hr|]. split; [done|]. split; [done|]. split.
  - intros -> ->. change (Z.to_nat 0) with 0%nat. rewrite drop_0, take_app_length' by (rewrite Hh; done). done.
  - intros Hge. replace (Z.to_nat off) with (length h + Z.to_nat (off - 4096))%nat by lia.
    rewrite drop_app_add, drop_app_le by lia. rewrite take_app_le; [done|]. rewrite length_drop. lia.
Qed.

(** A log file that is absent, or holds a generation and a table. *)
Definition log_state (x : fs * W) (k : which) (n : Z) (o : option (Z * list Z)) : Prop :=
  match o with Some (g, t) => log_holds x k n g t | None => st_file x (log_name k n) = None end.

Definition same_files (x x' : fs * W) : Prop := forall m, st_file x' m = st_file x m.

Lemma log_state_same x x' k n o : same_files x x' -> log_state x k n o -> log_state x' k n o.
Proof. intros Hs. unfold log_state, log_holds. destruct o as [[g t]|]; by rewrite Hs. Qed.

Definition scan_pick (n : Z) (o : option (Z * list Z)) (best : Z * Z) : Z * Z :=
  match o with Some (g, _) => if snd best <? g then (n, g) else best | None => best end.

Lemma scan_step k n o logs latest mg (Q : option (Z * Z) -> nvh W -> Prop) s :
  log_state (world s) k n o ->
  (forall s1, same_files (world s) (world s1) -> nv_cp s1 = nv_cp s ->
    wp (scan_logs k logs (fst (scan_pick n o (latest, mg))) (snd (scan_pick n o (latest, mg)))) Q s1) ->
  wp (scan_logs k (n :: logs) latest mg) Q s.
Proof.
  intros Hst Hrest. cbn [scan_logs]. apply wp_bind. destruct o as [[g t]|].
  - pose proof Hst as (h & rest & Hf & Hh & Hg).
    destruct (st_open (log_name k n) O_RDONLY (world s)) as (fd & x1 & Ho & Hfd & Hfdn & Hfn & Hx1); [left; eauto|].
    apply (wp_api_run _ _ _ _ x1 Ho). intros f1 w1 ->. rewrite (proj2 (Z.ltb_ge fd 0)) by done.
    assert (same_files (world s) (f1, w1)) as Hs1.
    { intros m. destruct (decide (m = log_name k n)) as [->|]; [by rewrite Hfn, Hf|by apply Hx1]. }
    destruct (log_read (f1, w1) k n g t fd 0 4096) as (b & x2 & Hr & Hx2 & _ & Hb & _);
      [by apply (log_state_same (world s) (f1, w1) k n (Some (g, t)))|done|lia..|].
    apply wp_bind. eapply (wp_api_run _ _ _ _ x2); [exact Hr|]. intros f2 w2 ->.
    change (negb (4096 =? LOG_CHUNK_SIZE)) with false. cbv iota. apply wp_bind, (wp_lift _ g); [by apply Hb|].
    apply wp_bind, wp_api. intros [] f3 w3 E3. injection E3 as E3.
    assert (same_files (world s) (f3, w3)) as Hs3.
    { intros m. rewrite <- E3. cbn [nv_fs nv_w]. rewrite st_close, Hx2. apply Hs1. }
    pose proof (Hrest (mk_nvh (nv_cp s) f3 w3) Hs3 eq_refl) as Hk. cbn [scan_pick snd] in Hk. by destruct (mg <? g).
  - destruct (st_open_missing (log_name k n) O_RDONLY (world s)) as (fd & x1 & Ho & Hfd & Hx1); [done|done|].
    apply (wp_api_run _ _ _ _ x1 Ho). intros f1 w1 ->. rewrite (proj2 (Z.ltb_lt fd 0)) by done. by apply Hrest.
Qed.

(** The copy of a log into the table. *)
Lemma load_loop_run k q t n g fuel : forall fd j s told,
  Z.of_nat (length t) = 4096 * q -> length told = length t ->
  tab_bytes k (nv_cp s) = Some (take (Z.to_nat (4096 * (j - 1))) t ++ drop (Z.to_nat (4096 * (j - 1))) told) ->
  1 <= j <= q + 1 -> q + 1 - j <= Z.of_nat fuel ->
  st_fd (world s) fd = Some (log_name k n) -> log_holds (world s) k n g t ->
  wp (load_loop fuel k fd (4096 * q) (4096 * j)) (fun r s' => r = true /\ tab_bytes k (nv_cp s') = Some t /\
    tab_gen k (nv_cp s') = tab_gen k (nv_cp s)) s.
Proof.
  induction fuel as [|fuel IH]; intros fd j s told Hlen Hlt Ht Hj Hf Hfd Hlog; cbn [load_loop];
    unfold LOG_CHUNK_SIZE; destruct (Z.ltb_spec (4096 * j) (4096 * q + 4096)) as [Hl|Hg]; try lia.
  1,3: (apply wp_ret; split; [done|]; split; [|done]; rewrite Ht, take_ge, drop_ge, app_nil_r by lia; done).
  destruct (log_read (world s) k n g t fd (4096 * j) 4096 Hlog Hfd) as (b & x1 & Hr & Hx1 & Hfd1 & _ & Hb); [lia..|].
  specialize (Hb ltac:(lia)). apply wp_bind, (wp_api_run _ _ _ _ x1 Hr). intros f1 w1 ->.
  change (negb (4096 =? 4096)) with false. cbv iota. rewrite (proj2 (Z.eqb_neq (4096 * j) 0)) by lia.
  apply wp_bind, wp_bind. eapply wp_run; [by apply tab_mem_run|].
  set (a := Z.to_nat (4096 * (j - 1))) in *.
  assert (length (take a t) = a) as Hla by (rewrite length_take; lia).
  assert (length b = 4096%nat) as Hlb by (rewrite Hb, length_take, length_drop; lia).
  assert (wr (take a t ++ drop a told) (4096 * j - 4096) b = Some (take (a + 4096) t ++ drop (a + 4096) told)) as Hw.
  { unfold wr. rewrite (proj2 (in_obj_true _ _ _)) by (rewrite length_app, length_drop; lia). f_equal.
    replace (Z.to_nat (4096 * j - 4096)) with a by lia. rewrite take_app_length' by done. rewrite Hlb.
    replace (drop (a + 4096) (take a t ++ drop a told)) with (drop (a + 4096) told).
    2:{ rewrite <- Hla at 2. rewrite drop_app_add, drop_drop. done. }
    rewrite Hb, app_assoc. replace (Z.to_nat (4096 * j - 4096)) with a by lia. by rewrite take_chunk. }
  assert (tab_put k (wr (take a t ++ drop a told) (4096 * j - 4096) b) (mk_nvh (nv_cp s) f1 w1) =
    Some (tt, mk_nvh (match k with APP => set_app_table (Some (take (a + 4096) t ++ drop (a + 4096) told)) (nv_cp s)
                      | CONTAINER => set_resv_table (Some (take (a + 4096) t ++ drop (a + 4096) told)) (nv_cp s) end) f1 w1)) as Hp
    by (rewrite Hw; by destruct k).
  eapply wp_run; [exact Hp|]. replace (4096 * j + 4096) with (4096 * (j + 1)) by lia. eapply wp_mono.
  - eapply (IH fd (j + 1) _ told); [done|done| |lia|lia|unfold world; cbn [nv_fs nv_w]; by rewrite Hfd1|].
    + replace (Z.to_nat (4096 * (j + 1 - 1))) with (a + 4096)%nat by lia. by destruct k.
    + apply (log_state_same (world s) _ k n (Some (g, t))); [|done]. exact Hx1.
  - intros r s' (H1 & H2 & H3). split; [done|]. split; [done|]. rewrite H3. by destruct k.
Qed.

(** The first chunk of a log, and then the table. *)
Lemma load_first k q t n g fd s told :
  Z.of_nat (length t) = 4096 * q -> length told = length t -> tab_bytes k (nv_cp s) = Some told -> 0 <= q ->
  st_fd (world s) fd = Some (log_name k n) -> log_holds (world s) k n g t ->
  wp (load_loop (log_fuel (4096 * q)) k fd (4096 * q) 0) (fun r s' => r = true /\ tab_bytes k (nv_cp s') = Some t /\
    tab_gen k (nv_cp s') = s64 (g + 1)) s.
Proof.
  intros Hlen Hlt Ht Hq Hfd Hlog. unfold log_fuel, LOG_CHUNK_SIZE. rewrite (Z.mul_comm 4096 q), Z.div_mul, (Z.mul_comm q 4096) by lia.
  replace (Z.to_nat (q + 2)) with (S (Z.to_nat (q + 1))) by lia. cbn [load_loop]. unfold LOG_CHUNK_SIZE.
  rewrite (proj2 (Z.ltb_lt 0 _)) by lia. change (0 =? 0) with true. cbv iota.
  destruct (log_read (world s) k n g t fd 0 4096 Hlog Hfd) as (b & x1 & Hr & Hx1 & Hfd1 & Hb & _); [lia..|].
  apply wp_bind, (wp_api_run _ _ _ _ x1 Hr). intros f1 w1 ->. change (negb (4096 =? 4096)) with false. cbv iota.
  apply wp_bind, wp_bind, (wp_lift _ g); [by apply Hb|]. apply wp_bind, wp_gets, wp_modify. change (0 + 4096) with (4096 * 1).
  eapply wp_mono.
  - eapply (load_loop_run k q t n g _ fd 1 _ told); [done|done| |lia|lia|unfold world; cbn [nv_fs nv_w]; by rewrite Hfd1|].
    + cbn [nv_cp]. destruct k; exact Ht.
    + apply (log_state_same (world s) _ k n (Some (g, t))); [|done]. exact Hx1.
  - intros r s' (H1 & H2 & H3). split; [done|]. split; [done|]. rewrite H3. by destruct k.
Qed.

(** The log that is picked among the two. *)
Definition picked (o0 o1 : option (Z * list Z)) : Z := fst (scan_pick 1 o1 (scan_pick 0 o0 (0, 0))).

Lemma scan_both k s o0 o1 (Q : option (Z * Z) -> nvh W -> Prop) :
  log_state (world s) k 0 o0 -> log_state (world s) k 1 o1 ->
  (forall s1 mg, same_files (world s) (world s1) -> nv_cp s1 = nv_cp s -> Q (Some (picked o0 o1, mg)) s1) ->
  wp (scan_logs k (range 0 2) 0 0) Q s.
Proof.
  intros H0 H1 HQ. change (range 0 2) with ([0; 1] : list Z). eapply scan_step; [exact H0|]. intros s1 Hs1 E1.
  eapply scan_step; [by eapply log_state_same|]. intros s2 Hs2 E2. cbn [scan_logs].
  rewrite <- (surjective_pairing (scan_pick 0 o0 (0, 0))). apply wp_ret, HQ; [|congruence]. intros m. rewrite Hs2. apply Hs1.
Qed.

Lemma load_table_ignores k s o0 o1 :
  tab_max k (nv_cp s) = 2 -> log_state (world s) k 0 o0 -> log_state (world s) k 1 o1 -> picked o0 o1 = 0 ->
  wp (load_table k) (fun r s' => r = 0 /\ nv_cp s' = nv_cp s) s.
Proof.
  intros Hm H0 H1 Hp. unfold load_table. destruct (st_alloc LOG_CHUNK_SIZE (world s)) as (a & b & x1 & Ha & _ & Hx1); [done|].
  apply wp_bind, (wp_api_run _ _ _ _ x1 Ha). intros f1 w1 ->. apply wp_bind, wp_gets. cbn [nv_cp]. rewrite Hm. apply wp_bind.
  eapply (scan_both k _ o0 o1); [by eapply (log_state_same (world s))..|]. intros s1 mg _ E1. rewrite Hp. by apply wp_ret.
Qed.

Lemma load_table_recovers k s o0 g t q told :
  tab_max k (nv_cp s) = 2 -> log_state (world s) k 0 o0 -> log_holds (world s) k 1 g t -> picked o0 (Some (g, t)) = 1 ->
  0 <= q -> Z.of_nat (length t) = 4096 * q -> tab_size k (nv_cp s) = 4096 * q ->
  tab_bytes k (nv_cp s) = Some told -> length told = length t ->
  wp (load_table k) (fun r s' => r = 0 /\ tab_bytes k (nv_cp s') = Some t /\ tab_gen k (nv_cp s') = s64 (g + 1)) s.
Proof.
  intros Hm H0 H1 Hp Hq Hlen Hsz Ht Hlt. unfold load_table.
  destruct (st_alloc LOG_CHUNK_SIZE (world s)) as (a & b & x1 & Ha & _ & Hx1); [done|].
  apply wp_bind, (wp_api_run _ _ _ _ x1 Ha). intros f1 w1 ->. apply wp_bind, wp_gets. cbn [nv_cp]. rewrite Hm. apply wp_bind.
  eapply (scan_both k _ o0 (Some (g, t))); [by eapply (log_state_same (world s))..|]. intros s1 mg Hs1 E1. rewrite Hp.
  change (1 =? 0) with false. cbv iota. apply wp_bind, wp_gets. rewrite E1. cbn [nv_cp]. rewrite Hsz.
  assert (log_holds (world s1) k 1 g t) as Hl1.
  { apply (log_state_same (world s) _ k 1 (Some (g, t))); [|done]. intros m. rewrite Hs1. apply Hx1. }
  destruct (st_open (log_name k 1) O_RDWR (world s1)) as (fd & x2 & Ho & Hfd & Hfdn & Hfn & Hx2).
  { destruct Hl1 as (h & rest & Hf & _). left. eauto. }
  apply wp_bind, (wp_api_run _ _ _ _ x2 Ho). intros f2 w2 ->. rewrite (proj2 (Z.ltb_ge fd 0)) by done. apply wp_bind.
  eapply wp_mono; [apply (load_first k q t 1 g fd _ told); [done|done|cbn [nv_cp]; by rewrite E1|done|done|]|].
  - apply (log_state_same (world s1) _ k 1 (Some (g, t))); [|done]. intros m.
    destruct (decide (m = log_name k 1)) as [->|]; [|by apply Hx2].
    destruct Hl1 as (h & rest & Hf & _). unfold world at 1. cbn [nv_fs nv_w]. rewrite Hfn. by rewrite Hf.
  - intros r s' (-> & Hb' & Hg'). apply wp_bind, wp_api. intros [] f3 w3 _. by apply wp_ret.
Qed.

End Logs.

End ControlPlaneLog.
