(* ===== verification/ControlPlaneThms.v ===== *)
(** * Properties of the control plane

    An in-memory instance of the file API, the start of the control plane, and
    the theorems on container allocation, reservation locks, the invariant of
    the dispatcher, the table logs and the replies. *)
From S2P Require Import Prelude Layout Mem BgList Alloc Demo ControlPlane Ipc ControlPlaneSpec ControlPlaneOps.
From S2P Require Import ControlPlaneInv.

Module ControlPlaneThms.
Import ControlPlaneOps ControlPlaneInv ControlPlaneLog.

(** ** An in-memory file API *)

Record mem_world := mk_mw { mw_files : gmap (list Z) (list Z); mw_fds : gmap Z (list Z); mw_next : nat }.

Definition mem_open (n : list Z) (fl : Z) (x : fs * mem_world) : Z * (fs * mem_world) :=
  let '(f, w) := x in
  let fd := Z.of_nat (mw_next w) in
  match mw_files w !! n with
  | Some _ => (fd, (f, mk_mw (mw_files w) (<[fd := n]> (mw_fds w)) (S (mw_next w))))
  | None =>
      if Z.land fl O_CREAT =? 0 then (-1, x)
      else (fd, (f, mk_mw (<[n := []]> (mw_files w)) (<[fd := n]> (mw_fds w)) (S (mw_next w))))
  end.

Definition mem_content (x : fs * mem_world) (fd : Z) : option (list Z * list Z) :=
  n ← mw_fds (snd x) !! fd; c ← mw_files (snd x) !! n; Some (n, c).

Definition mem_read (fd cnt off : Z) (x : fs * mem_world) : Z * list Z * (fs * mem_world) :=
  match mem_content x fd with
  | Some (_, c) =>
      let b := take (Z.to_nat cnt) (drop (Z.to_nat off) c) in (Z.of_nat (length b), b, x)
  | None => (-1, [], x)
  end.

Definition mem_write (fd : Z) (b : list Z) (off : Z) (x : fs * mem_world) : Z * (fs * mem_world) :=
  match mem_content x fd with
  | Some (n, c) =>
      (Z.of_nat (length b),
       (fst x, mk_mw (<[n := take (Z.to_nat off) c ++ b ++ drop (Z.to_nat off + length b) c]> (mw_files (snd x)))
                 (mw_fds (snd x)) (mw_next (snd x))))
  | None => (-1, x)
  end.

Definition mem_mkdir (n : list Z) (x : fs * mem_world) : Z * (fs * mem_world) :=
  (0, (fst x, mk_mw (<[n := []]> (mw_files (snd x))) (mw_fds (snd x)) (mw_next (snd x)))).
Definition mem_rmdir (n : list Z) (x : fs * mem_world) : Z * (fs * mem_world) :=
  (0, (fst x, mk_mw (delete n (mw_files (snd x))) (mw_fds (snd x)) (mw_next (snd x)))).

#[export] Instance mem_api : FileApi mem_world := {
  fa_alloc n x := (Some (4096, repeat 0 (Z.to_nat n)), x);
  fa_malloc x := (true, x);
  fa_open := mem_open;
  fa_read := mem_read;
  fa_write := mem_write;
  fa_close fd x := (fst x, mk_mw (mw_files (snd x)) (delete fd (mw_fds (snd x))) (mw_next (snd x)));
  fa_check_flush_dirty _ x := x;
  fa_getattr n x := (match mw_files (snd x) !! n with Some _ => 0 | None => -1 end, x);
  fa_mkdir n _ x := mem_mkdir n x;
  fa_rmdir n x := mem_rmdir n x;
  fa_path_resolve n x := (0, n, 2, x);
  fa_lookup n _ x := (match mw_files (snd x) !! n with Some _ => 0 | None => -1 end, 2, x) }.

#[export] Instance mem_laws : FileApiLaws mem_world.
Proof. split. intros n x a b y [= <- <- <-]. apply repeat_length. Qed.

#[export] Instance mem_store : FileStore mem_world.
Proof.
  refine {| st_file x n := mw_files (snd x) !! n; st_fd x fd := mw_fds (snd x) !! fd |}.
  - intros n x Hn. eexists 4096, _, x. split; [done|]. split; [apply repeat_length|done].
  - intros n fl [f w] Hn. unfold fa_open, mem_api, mem_open. cbn [snd] in *. destruct (mw_files w !! n) as [c|] eqn:E.
    + eexists _, _. split; [done|]. split; [lia|]. cbn. rewrite lookup_insert_eq, E. by split_and!.
    + destruct Hn as [[? Hn]|Hn]; [done|]. rewrite (proj2 (Z.eqb_neq _ 0) Hn). eexists _, _. split; [done|]. split; [lia|].
      cbn. rewrite !lookup_insert_eq. split; [done|]. split; [done|]. intros m Hm. by rewrite lookup_insert_ne.
  - intros n fl [f w] Hn Hfl. unfold fa_open, mem_api, mem_open. cbn [snd] in *. rewrite Hn, Hfl. eexists _, _. split_and!; [done|lia|done].
  - intros n fd b off c [f w] Hfd Hf Hoff. unfold fa_write, mem_api, mem_write, mem_content. cbn [snd fst] in *.
    rewrite Hfd. cbn. rewrite Hf. cbn. eexists. split; [done|]. cbn. rewrite lookup_insert_eq. split; [done|].
    split; [|done]. intros m Hm. by rewrite lookup_insert_ne.
  - intros n fd cnt off c [f w] Hfd Hf Hc Ho Hle. unfold fa_read, mem_api, mem_read, mem_content. cbn [snd fst] in *.
    rewrite Hfd. cbn. rewrite Hf. cbn. eexists. split; [do 2 f_equal; rewrite length_take, length_drop; lia|by split].
  - done.
  - done.
Defined.

(** ** Start *)

Lemma le_val_zero l : Forall (fun b => b = 0) l -> le_val l = 0.
Proof. induction 1 as [|b l -> _ IH]; cbn [le_val]; lia. Qed.

Lemma rd32_repeat m off : default 0 (rd32 (repeat 0 m) off) = 0.
Proof.
  unfold rd32, rd. destruct (in_obj _ _ _); [|done]. cbn [fmap option_fmap option_map default]. rewrite le_val_zero; [done|].
  apply Forall_take, Forall_drop, Forall_forall. intros x Hx. apply list_elem_of_In in Hx. by apply repeat_spec in Hx.
Qed.

Lemma entry_repeat m i : entry (repeat 0 m) i = mk_cr 0 0 0.
Proof. unfold entry. by rewrite !rd32_repeat. Qed.

Lemma mapM_owners t l : (forall i, i ∈ l -> inside t i) ->
  mapM (fun i => rd32 t (i * SIZEOF_RESERVATION + CR_OWNER)) l = Some (map (fun i => owner_core_id (entry t i)) l).
Proof.
  induction l as [|i l IH]; intros Hin; cbn [mapM map]; [done|].
  destruct (rd32_entry t i CR_OWNER) as [-> _]; [apply Hin, elem_of_cons; by left|auto with nvf|]. cbn.
  rewrite IH; [done|]. intros j Hj. apply Hin, elem_of_cons. by right.
Qed.

Lemma Zcount_map {A B} (f : A -> B) p l : Zcount p (map f l) = Zcount (fun x => p (f x)) l.
Proof. induction l as [|a l IH]; [done|]. unfold Zcount, Zsum in *. simpl. by rewrite IH. Qed.

Section Start.
Context {W : Type} `{!FileApi W} `{!FileApiLaws W}.
Implicit Types s : nvh W.

(** The table after the start: container 0 is taken, all others are free. *)
Lemma table_init_run n s b f w : 1 <= n < 2 ^ 27 ->
  fa_alloc (DIV_UP (12 * n) 4096) (nv_fs s, nv_w s) = (Some b, (f, w)) ->
  wp (nvfuse_control_plane_container_table_init n) (fun r s' => r = 0 /\ nr_containers (nv_cp s') = n /\
    exists t, table_ok (nv_cp s') t /\ forall i, 1 <= i -> entry t i = mk_cr 0 UNLOCKED 0) s.
Proof.
  intros Hn Ha. unfold nvfuse_control_plane_container_table_init. apply wp_bind, wp_api. intros a f' w' E.
  change SIZEOF_RESERVATION with 12 in *. change CLUSTER_SIZE with 4096 in *. rewrite Ha in E. injection E as <- <- <-.
  destruct b as [base bytes]. apply wp_bind, wp_modify. cbn [nv_cp nv_fs nv_w].
  set (size := DIV_UP (12 * n) 4096). set (t0 := repeat 0 (Z.to_nat size)).
  assert (12 * n <= size) as Hsz by (apply div_up_ge; lia).
  assert (forall i, 0 <= i < n -> inside t0 i) as Hin by (intros i Hi; split; [lia|]; unfold t0; rewrite repeat_length; lia).
  apply wp_bind. eapply (wp_resv_set 0 CR_OWNER (-1) _ _ t0); [done|apply Hin; lia|auto with nvf|unfold is_s32; lia|].
  intros t Hu. apply wp_bind, wp_modify. apply wp_bind. unfold resv_mem. apply wp_bind, wp_gets. apply (wp_lift _ t); [done|].
  apply wp_bind, wp_gets. rewrite mapM_owners.
  2:{ intros i Hi%elem_of_range. eapply updated_inside; [done|]. by apply Hin. }
  apply wp_bind, (wp_lift _ _ _ _ eq_refl). rewrite Zcount_map. fold (count_free t n).
  assert (count_free t n = n - 1) as Hcf.
  { rewrite (count_free_update t0 t n 0 _ ltac:(lia) Hu). unfold count_free, t0. rewrite (Zcount_ext _ (fun _ => true)).
    - unfold Zcount. rewrite Zsum_const, length_range by lia. rewrite entry_repeat. simpl. lia.
    - intros i _. by rewrite entry_repeat. }
  simpl. rewrite s32_small by lia. apply wp_bind, wp_assert; [by apply Z.eqb_eq|]. apply wp_ret.
  assert (forall i, 1 <= i -> entry t i = mk_cr 0 UNLOCKED 0) as He.
  { intros i Hi. rewrite (updated_ne _ _ _ _ i Hu) by lia. apply entry_repeat. }
  split; [done|]. split; [done|]. exists t. split; [|done]. destruct Hu as [Hl Hu].
  split; cbn; try done; try lia.
  - rewrite Hl. unfold t0. rewrite repeat_length. unfold size. lia.
  - by rewrite Hu.
  - intros i Hi. destruct (Z.eq_dec i 0) as [->|]; [rewrite Hu; unfold t0; rewrite entry_repeat; by left|rewrite He by lia; by left].
  - intros i Hi. by rewrite He by lia.
Qed.

(** Every message keeps the invariant. *)
Lemma poll_keeps_inv msg chan reply s s' : cp_inv (nv_cp s) -> rd32 msg MSG_CHAN = Some chan -> 1 <= chan < 16 ->
  unsaturated s -> primary_poll_core msg s = Some (reply, s') -> cp_inv (nv_cp s').
Proof. intros (t & Hk) Hch Hc Hu Hrun. by destruct (wlp_elim _ _ _ _ _ (wlp_poll msg s t chan Hk Hch Hc Hu) Hrun) as [Hinv _]. Qed.

(** ** Reachable states

    The table starts fresh and is then driven by messages, each on a channel
    1 to 15, as the channel identifiers of the applications are; no container
    is ever reserved 2^31 - 1 times at once. *)
Inductive reachable : nvh W -> Prop :=
  | reach_init n s r s' b f w : 1 <= n < 2 ^ 27 ->
      fa_alloc (DIV_UP (12 * n) 4096) (nv_fs s, nv_w s) = (Some b, (f, w)) ->
      nvfuse_control_plane_container_table_init n s = Some (r, s') -> reachable s'
  | reach_poll s msg chan reply s' : reachable s -> rd32 msg MSG_CHAN = Some chan -> 1 <= chan < 16 -> unsaturated s ->
      primary_poll_core msg s = Some (reply, s') -> reachable s'.


End Start.

(** ** Example states *)

Definition cp_zero : cp_ctx := mk_cp None 0 0 0 0 0 0 None 0 0 0 0 0 0 0 0 0.
Definition mem0 : nvh mem_world := mk_nvh cp_zero Demo.demo (mk_mw ∅ ∅ 0).
Definition run {A} (m : M (nvh mem_world) A) (s : nvh mem_world) : nvh mem_world :=
  match m s with Some (_, s') => s' | None => s end.

(** A control plane with [n] containers. *)
Definition started (n : Z) : nvh mem_world := run (nvfuse_control_plane_container_table_init n) mem0.

Definition table (s : nvh mem_world) : list Z := default [] (reservation_table (nv_cp s)).

Lemma inv_table s : cp_inv (nv_cp s) -> table_ok (nv_cp s) (table s).
Proof. intros (t & Hk). unfold table. rewrite (tk_tab _ _ Hk). done. Qed.

Lemma started_inv n : 1 <= n < 2 ^ 27 -> cp_inv (nv_cp (started n)).
Proof.
  intros Hn. pose proof (table_init_run n mem0 (4096, repeat 0 (Z.to_nat (DIV_UP (12 * n) 4096)))
    (nv_fs mem0) (nv_w mem0) Hn eq_refl) as Hw.
  destruct (wp_elim _ _ _ Hw) as (r & s' & Hr & _ & _ & t & Hk & _).
  unfold started, run. rewrite Hr. by exists t.
Qed.

Lemma run_inv {A} (m : M (nvh mem_world) A) s : cp_inv (nv_cp s) ->
  (forall r s', m s = Some (r, s') -> cp_inv (nv_cp s')) -> cp_inv (nv_cp (run m s)).
Proof. intros Hs Hm. unfold run. destruct (m s) as [[r s']|]; [by eapply Hm|done]. Qed.

(** A request: opcode, channel and two arguments. *)
Definition request (opcode chan a b : Z) : list Z :=
  le_bytes 4 opcode ++ le_bytes 4 chan ++ le_bytes 4 a ++ le_bytes 4 b ++ repeat 0 112.

(** Container 1 of two, reserved by a reader although it has no owner. *)
Definition read_locked : nvh mem_world := run (nvfuse_control_plane_reservation_acquire 1 RESV_READ_LOCK) (started 2).

Lemma small_refs s n : nr_containers (nv_cp s) = Z.of_nat n ->
  forallb (fun i => ref_count (entry (table s) i) <? 2 ^ 31 - 1) (range 0 (Z.of_nat n)) = true -> unsaturated s.
Proof.
  intros Hn Hall t i Ht Hi. rewrite forallb_forall in Hall. rewrite Hn in Hi.
  specialize (Hall i). unfold table, tab in *. rewrite Ht in Hall. apply Z.ltb_lt, Hall.
  by apply list_elem_of_In, elem_of_range.
Qed.

Lemma read_locked_inv : cp_inv (nv_cp read_locked).
Proof.
  pose proof (started_inv 2 ltac:(lia)) as (t & Hk).
  assert (unsaturated (started 2)) as Hu by (apply (small_refs _ 2); vm_compute; reflexivity).
  apply run_inv; [by exists t|]. intros r s' E.
  by destruct (wlp_elim _ _ _ _ _ (wlp_acquire 1 RESV_READ_LOCK _ t Hk Hu) E) as [Hinv _].
Qed.

(** The state after application 1 got a container of four. *)
Definition one_allocated : nvh mem_world := run (primary_poll_core (request CONTAINER_ALLOC_REQ 1 0 0)) (started 4).

Lemma started_unsaturated : unsaturated (started 4).
Proof. apply (small_refs _ 4); vm_compute; reflexivity. Qed.

Lemma one_allocated_inv : cp_inv (nv_cp one_allocated).
Proof.
  pose proof (started_inv 4 ltac:(lia)) as Hs. apply run_inv; [exact Hs|]. intros r s' E.
  apply (poll_keeps_inv (request CONTAINER_ALLOC_REQ 1 0 0) 1 r (started 4) s');
    [exact Hs|vm_compute; reflexivity|lia|exact started_unsaturated|exact E].
Qed.


(** ** Allocation *)

(** the allocation of a new container, with at least one container free
    and unlocked, returns the first such container after the last one that was
    allocated, cyclically; it is never container 0; it belongs to the caller
    with the given status afterwards, nothing else in the table changes, the
    counter of free containers drops by one, and the table is consistent,
    whatever becomes of the attempt to log it. *)
Theorem container_alloc_new_correct {W} `{!FileApi W} `{!FileApiLaws W} core st (s : nvh W) t :
  table_ok (nv_cp s) t -> 1 <= core < 16 -> is_status st ->
  (exists b, 0 <= b < nr_containers (nv_cp s) /\ matches t 0 b = true) ->
  exists i s', nvfuse_control_plane_container_alloc core CONTAINER_NEW_ALLOC st s = Some (i, s') /\
    first_match t 0 (nr_containers (nv_cp s)) (Z.rem (last_alloc_container_id (nv_cp s) + 1) (nr_containers (nv_cp s))) i /\
    allocated (nv_cp s) (nv_cp s') t i (mk_cr core st 0) 1.
Proof.
  intros Hk Hc Hst Hex. apply wp_elim. apply (alloc_new_run core st s t); [done|lia|unfold is_s32; lia|done|done].
Qed.

Lemma container_alloc_new_witness : exists i s',
  nvfuse_control_plane_container_alloc 3 CONTAINER_NEW_ALLOC ACQUIRED one_allocated = Some (i, s') /\
  first_match (table one_allocated) 0 4 2 i /\ allocated (nv_cp one_allocated) (nv_cp s') (table one_allocated) i (mk_cr 3 ACQUIRED 0) 1.
Proof.
  assert (nr_containers (nv_cp one_allocated) = 4 /\ last_alloc_container_id (nv_cp one_allocated) = 1) as [En El]
    by (vm_compute; split; reflexivity).
  destruct (container_alloc_new_correct 3 ACQUIRED one_allocated (table one_allocated)) as (i & s' & H1 & H2 & H3).
  - exact (inv_table _ one_allocated_inv).
  - lia.
  - right. reflexivity.
  - exists 2. rewrite En. split; [lia|vm_compute; reflexivity].
  - rewrite En, El in H2. exists i, s'. split; [exact H1|split; [exact H2|exact H3]].
Defined.

(** the counter of free containers does not know about locks: when every
    container without owner is locked (a reservation does not need an owner),
    the search for a new container runs over the table for ever. *)
Theorem container_alloc_new_hangs {W} `{!FileApi W} core st (s : nvh W) t :
  table_ok (nv_cp s) t -> core <> 0 -> free_containers (nv_cp s) <> 0 ->
  (forall i, 0 <= i < nr_containers (nv_cp s) -> matches t 0 i = false) ->
  nvfuse_control_plane_container_alloc core CONTAINER_NEW_ALLOC st s = None /\
  forall fuel start, 0 <= start < nr_containers (nv_cp s) -> search_loop fuel 0 (nr_containers (nv_cp s)) start s = None.
Proof.
  intros Hk Hc Hf Hno. assert (forall fuel start, 0 <= start < nr_containers (nv_cp s) ->
    search_loop fuel 0 (nr_containers (nv_cp s)) start s = None) as Hall
    by (intros fuel start Hs; apply (search_diverges t (nr_containers (nv_cp s)) 0 fuel Hno); [apply Hk|done]).
  split; [|done]. unfold nvfuse_control_plane_container_alloc, mbind, M_bind, massert, cp_get, mgets.
  rewrite (proj2 (Z.eqb_neq core 0)) by done. change (CONTAINER_NEW_ALLOC =? CONTAINER_NEW_ALLOC) with true.
  cbn [negb]. cbv beta iota. rewrite (proj2 (Z.eqb_neq _ 0) Hf). pose proof (tk_nr _ _ Hk).
  rewrite (proj2 (Z.ltb_lt 0 _)) by lia. rewrite Hall; [done|by eapply start_range].
Qed.

Lemma container_alloc_new_hangs_witness :
  nvfuse_control_plane_container_alloc 1 CONTAINER_NEW_ALLOC ACQUIRED read_locked = None /\
  free_containers (nv_cp read_locked) = 1.
Proof.
  assert (nr_containers (nv_cp read_locked) = 2 /\ free_containers (nv_cp read_locked) = 1) as [En Ef]
    by (vm_compute; split; reflexivity).
  destruct (container_alloc_new_hangs 1 ACQUIRED read_locked (table read_locked)) as [H _].
  - exact (inv_table _ read_locked_inv).
  - discriminate.
  - rewrite Ef. discriminate.
  - rewrite En. intros i Hi. assert (i = 0 \/ i = 1) as [->| ->] by lia; vm_compute; reflexivity.
  - split; [exact H|exact Ef].
Defined.

(** re-allocation of an own container returns the first unlocked
    container of the caller after the last allocated one, marked with the
    given status, and 0 with nothing changed exactly when the caller has no
    unlocked container; the search ends after one round. *)
Theorem container_alloc_own_correct {W} `{!FileApi W} `{!FileApiLaws W} core st (s : nvh W) t :
  table_ok (nv_cp s) t -> 1 <= core < 16 -> is_status st ->
  exists i s', nvfuse_control_plane_container_alloc core CONTAINER_ALLOCATED_ALLOC st s = Some (i, s') /\
    ((i = 0 /\ s' = s /\ forall j, 0 <= j < nr_containers (nv_cp s) -> matches t core j = false) \/
     (first_match t core (nr_containers (nv_cp s)) (Z.rem (last_alloc_container_id (nv_cp s) + 1) (nr_containers (nv_cp s))) i /\
      allocated (nv_cp s) (nv_cp s') t i (mk_cr core st 0) 0)).
Proof.
  intros Hk Hc Hst. apply wp_elim. apply (alloc_own_run core CONTAINER_ALLOCATED_ALLOC st s t); (done || lia).
Qed.

Lemma container_alloc_own_witness : exists i s',
  nvfuse_control_plane_container_alloc 1 CONTAINER_ALLOCATED_ALLOC ACQUIRED one_allocated = Some (i, s') /\
  ((i = 0 /\ s' = one_allocated /\ forall j, 0 <= j < 4 -> matches (table one_allocated) 1 j = false) \/
   (first_match (table one_allocated) 1 4 2 i /\
    allocated (nv_cp one_allocated) (nv_cp s') (table one_allocated) i (mk_cr 1 ACQUIRED 0) 0)).
Proof.
  assert (nr_containers (nv_cp one_allocated) = 4 /\ last_alloc_container_id (nv_cp one_allocated) = 1) as [En El]
    by (vm_compute; split; reflexivity).
  destruct (container_alloc_own_correct 1 ACQUIRED one_allocated (table one_allocated)) as (i & s' & H1 & H2).
  - exact (inv_table _ one_allocated_inv).
  - lia.
  - right. reflexivity.
  - rewrite En, El in H2. exists i, s'. split; [exact H1|exact H2].
Defined.

(** a release succeeds exactly for a container of the caller that nobody
    has reserved: it loses its owner, the counter of free containers grows by
    one and the table stays consistent; otherwise the result is -1 and
    nothing changes. *)
Theorem container_release_correct {W} `{!FileApi W} `{!FileApiLaws W} core i (s : nvh W) t :
  table_ok (nv_cp s) t -> 0 <= i < nr_containers (nv_cp s) -> 1 <= core < 16 ->
  exists r s', nvfuse_control_plane_container_release core i s = Some (r, s') /\
    if (owner_core_id (entry t i) =? core) && (ref_count (entry t i) =? 0)
    then r = 0 /\ free_containers (nv_cp s') = free_containers (nv_cp s) + 1 /\
         nr_containers (nv_cp s') = nr_containers (nv_cp s) /\
         exists t', updated t t' i (mk_cr 0 UNLOCKED 0) /\ table_ok (nv_cp s') t'
    else r = -1 /\ s' = s.
Proof. intros Hk Hi Hc. apply wp_elim. apply (release_run core i s t); (done || lia). Qed.

Lemma container_release_witness : exists s',
  nvfuse_control_plane_container_release 1 1 one_allocated = Some (0, s') /\ free_containers (nv_cp s') = 3.
Proof.
  destruct (container_release_correct 1 1 one_allocated (table one_allocated) (inv_table _ one_allocated_inv))
    as (r & s' & H1 & H2); [|lia|].
  { assert (nr_containers (nv_cp one_allocated) = 4) as -> by (vm_compute; reflexivity). lia. }
  assert ((owner_core_id (entry (table one_allocated) 1) =? 1) && (ref_count (entry (table one_allocated) 1) =? 0) = true) as E
    by (vm_compute; reflexivity).
  assert (free_containers (nv_cp one_allocated) = 2) as Ef by (vm_compute; reflexivity).
  rewrite E, Ef in H2. destruct H2 as (-> & H2 & _). exists s'. split; [exact H1|exact H2].
Defined.

(** C20: the reservations of a container refine a readers-writer lock: a write
    lock is granted only on a free lock, read locks only on a free or
    read-locked one, the last reader frees the lock, a container that was
    handed out as acquired cannot be locked; a refused request returns -1 and
    changes nothing, and no other container is affected. *)
Theorem reservation_refines_lock {W} `{!FileApi W} i type (s : nvh W) t :
  table_ok (nv_cp s) t -> 0 <= i < nr_containers (nv_cp s) -> ref_count (entry t i) < 2 ^ 31 - 1 ->
  (exists r s', nvfuse_control_plane_reservation_acquire i type s = Some (r, s') /\
     lock_result s t i (lock_acquire type (abs_lock (entry t i))) r s') /\
  (exists r s', nvfuse_control_plane_reservation_release i s = Some (r, s') /\
     lock_result s t i (lock_release (abs_lock (entry t i))) r s').
Proof.
  intros Hk Hi Hr. split; apply wp_elim.
  - by apply (acquire_run i type s t).
  - apply (release_lock_run i s t); [done|done|lia].
Qed.

Lemma reservation_refines_lock_witness :
  abs_lock (entry (table read_locked) 1) = LReaders 1 /\
  (exists r s', nvfuse_control_plane_reservation_acquire 1 RESV_WRITE_LOCK read_locked = Some (r, s') /\
     lock_result read_locked (table read_locked) 1 None r s') /\
  (exists r s', nvfuse_control_plane_reservation_release 1 read_locked = Some (r, s') /\
     lock_result read_locked (table read_locked) 1 (Some LFree) r s').
Proof.
  assert (abs_lock (entry (table read_locked) 1) = LReaders 1) as E by (vm_compute; reflexivity). split; [exact E|].
  pose proof (reservation_refines_lock 1 RESV_WRITE_LOCK read_locked (table read_locked) (inv_table _ read_locked_inv)) as H.
  assert (nr_containers (nv_cp read_locked) = 2 /\ ref_count (entry (table read_locked) 1) = 1) as [En Er]
    by (vm_compute; split; reflexivity).
  rewrite E, En, Er in H. destruct H as [H1 H2]; [lia|lia|]. split; [exact H1|exact H2].
Defined.

(** ** Logs *)

Lemma log_names_differ k : log_name k 0 <> log_name k 1.
Proof. destruct k; vm_compute; discriminate. Qed.

(** A context that a table of [q] chunks can be loaded into. *)
Record loadable (k : which) (q : Z) (c : cp_ctx) : Prop := {
  lo_max : tab_max k c = 2;
  lo_size : tab_size k c = 4096 * q;
  lo_tab : exists t, tab_bytes k c = Some t /\ Z.of_nat (length t) = 4096 * q }.

(** Storing into log [n] leaves the other log alone. *)
Lemma store_table_pair {W} `{!FileApi W} `{!FileStore W} k (s : nvh W) t q n o :
  n = 0 \/ n = 1 -> loadable k q (nv_cp s) -> tab_bytes k (nv_cp s) = Some t -> 0 <= q -> tab_cur k (nv_cp s) = n ->
  - 2 ^ 63 <= tab_gen k (nv_cp s) < 2 ^ 63 -> log_state (world s) k (1 - n) o ->
  exists s', store_table k s = Some (4096, s') /\ log_holds (world s') k n (tab_gen k (nv_cp s)) t /\
    log_state (world s') k (1 - n) o.
Proof.
  intros Hn [Hm Hs (t' & Ht' & Hl)] Ht Hq Hcur Hg Ho. rewrite Ht in Ht'. injection Ht' as <-.
  destruct (wp_elim _ _ _ (store_table_log k s t q Ht Hl Hq Hs ltac:(lia) Hg)) as (r & s' & Hrun & -> & _ & Hlog & Hoth).
  exists s'. split; [done|]. rewrite Hcur in Hlog, Hoth. split; [done|].
  unfold log_state, log_holds in *. assert (log_name k (1 - n) <> log_name k n) as Hne
    by (destruct Hn as [->| ->]; intros E; by apply (log_names_differ k)).
  destruct o as [[g to]|]; by rewrite Hoth.
Qed.


(** a table that was stored in log 0 is lost: with log 0 the newest, the
    loader takes its number 0 for the sign that there is no log, and leaves
    the tables of the new control plane as they are. *)
Theorem log_zero_ignored {W} `{!FileApi W} `{!FileStore W} k (s : nvh W) t q o :
  loadable k q (nv_cp s) -> tab_bytes k (nv_cp s) = Some t -> 0 <= q -> tab_cur k (nv_cp s) = 0 ->
  0 < tab_gen k (nv_cp s) < 2 ^ 63 - 1 -> log_state (world s) k 1 o ->
  (forall g to, o = Some (g, to) -> g < tab_gen k (nv_cp s)) ->
  exists s', store_table k s = Some (4096, s') /\
    forall c, loadable k q c -> exists s'', load_table k (mk_nvh c (nv_fs s') (nv_w s')) = Some (0, s'') /\ nv_cp s'' = c.
Proof.
  intros Hlo Ht Hq Hcur Hg Ho Hlt.
  destruct (store_table_pair k s t q 0 o) as (s' & Hrun & Hlog & Ho'); [by left|done..|lia|done|].
  exists s'. split; [done|]. intros c [Hm Hs _].
  destruct (wp_elim _ _ _ (load_table_ignores k (mk_nvh c (nv_fs s') (nv_w s')) (Some (tab_gen k (nv_cp s), t)) o
    Hm Hlog Ho' ltac:(
      unfold picked, scan_pick; cbn [fst snd]; rewrite (proj2 (Z.ltb_lt 0 (tab_gen k (nv_cp s)))) by lia; cbn [fst snd];
      destruct o as [[g to]|]; [specialize (Hlt g to eq_refl); rewrite (proj2 (Z.ltb_ge _ g)) by lia|]; done)))
    as (r & s'' & Hload & -> & Hc).
  by exists s''.
Qed.

(** The container table after the first allocation, with log 1 to be written next. *)
Lemma loadable_demo (s : nvh mem_world) : cp_inv (nv_cp s) -> nr_containers (nv_cp s) = 4 -> loadable CONTAINER 1 (nv_cp s).
Proof.
  intros (t & Hk) Hn. pose proof (tk_size _ _ Hk) as Hs. rewrite Hn in Hs. change (DIV_UP (12 * 4) 4096) with (4096 * 1) in Hs.
  split; [apply Hk|exact Hs|]. exists t. split; [apply Hk|]. by rewrite (tk_len _ _ Hk).
Qed.

Lemma one_allocated_loadable : loadable CONTAINER 1 (nv_cp one_allocated).
Proof. apply loadable_demo; [exact one_allocated_inv|vm_compute; reflexivity]. Qed.
Lemma started_loadable : loadable CONTAINER 1 (nv_cp (started 4)).
Proof. apply loadable_demo; [apply started_inv; lia|vm_compute; reflexivity]. Qed.

Lemma some_fst {A B} (a a' : A) (b b' : B) : Some (a, b) = Some (a', b') -> a = a'.
Proof. congruence. Qed.

Lemma log_of_content (x : fs * mem_world) k n c t g : st_file x (log_name k n) = Some c -> take 4096 (drop 4096 c) = t ->
  length c = 8192%nat -> rd64 (take 4096 c) 0 = Some g -> log_holds x k n g t.
Proof.
  intros Hf Ht Hl Hg. exists (take 4096 c), []. rewrite app_nil_r, <- Ht. split; [|split; [rewrite length_take, Hl; reflexivity|done]].
  rewrite (take_ge (drop 4096 c)) by (rewrite length_drop, Hl; reflexivity). by rewrite take_drop.
Qed.


Lemma log_zero_ignored_witness : exists s',
  store_table CONTAINER (started 4) = Some (4096, s') /\
  exists s'', load_table CONTAINER (mk_nvh (nv_cp (started 4)) (nv_fs s') (nv_w s')) = Some (0, s'') /\
    nv_cp s'' = nv_cp (started 4).
Proof.
  assert (tab_gen CONTAINER (nv_cp (started 4)) = 1 /\ tab_cur CONTAINER (nv_cp (started 4)) = 0) as [Eg Ec]
    by (vm_compute; split; reflexivity).
  destruct (log_zero_ignored CONTAINER (started 4) (table (started 4)) 1 None) as (s' & H1 & H2).
  - exact started_loadable.
  - exact (tk_tab _ _ (inv_table _ (started_inv 4 ltac:(lia)))).
  - lia.
  - exact Ec.
  - rewrite Eg. lia.
  - vm_compute. reflexivity.
  - intros g to E. discriminate E.
  - exists s'. split; [exact H1|exact (H2 _ started_loadable)].
Defined.

End ControlPlaneThms.
