(* ===== verification/IpcThms.v ===== *)
(** * Replies of the control plane

    The completion that the dispatcher leaves in a message. *)
From S2P Require Import Prelude Layout Mem BgList Alloc ControlPlane Ipc ControlPlaneSpec ControlPlaneOps.
From S2P Require Import ControlPlaneInv ControlPlaneThms.

Module IpcThms.
Import ControlPlaneOps ControlPlaneThms.

(** The completion a request is answered with. *)
Definition reply_of (opcode : Z) : Z :=
  if opcode =? CONTAINER_RESERVATION_RELEASE_REQ then CONTAINER_RESERVATION_ACQUIRE_CPL
  else if (1 <=? opcode) && (opcode <=? HEALTH_CHECK_REQ) && Z.odd opcode then opcode + 1
  else UNKOWN_CPL.

(** [msg'] answers [msg] with completion [op]. *)
Definition answers (msg msg' : list Z) (op : Z) : Prop :=
  rd32 msg' MSG_OPCODE = Some op /\ rd32 msg' MSG_CHAN = rd32 msg MSG_CHAN.

Lemma make_cpl_answers op tags msg ret msg' : is_s32 op -> 12 <= tags -> make_cpl op tags msg ret = Some msg' ->
  answers msg msg' op.
Proof.
  intros Hop Ht. unfold make_cpl. destruct (wr32 msg MSG_OPCODE op) as [m1|] eqn:E1; [|done]. cbn [mbind option_bind].
  destruct (rd32 m1 MSG_CHAN) as [c|] eqn:Ec; [|done]. cbn [mbind option_bind].
  destruct (wr32 m1 MSG_CHAN c) as [m2|] eqn:E2; [|done]. cbn [mbind option_bind].
  destruct (wr32 m2 MSG_RET ret) as [m3|] eqn:E3; [|done]. cbn [mbind option_bind].
  destruct (wr32 m3 tags 0) as [m4|] eqn:E4; [|done]. cbn [mbind option_bind]. intros E5.
  unfold answers, MSG_OPCODE, MSG_CHAN, MSG_RET in *.
  assert (is_s32 c) as Hc by (unfold rd32 in Ec; destruct (rd m1 4 4); [|done]; injection Ec as <-; apply s32_range).
  split.
  - rewrite (rd32_wr32_ne _ _ _ _ _ E5), (rd32_wr32_ne _ _ _ _ _ E4), (rd32_wr32_ne _ _ _ _ _ E3),
      (rd32_wr32_ne _ _ _ _ _ E2) by lia. by eapply rd32_wr32_eq.
  - rewrite (rd32_wr32_ne _ _ _ _ _ E5), (rd32_wr32_ne _ _ _ _ _ E4), (rd32_wr32_ne _ _ _ _ _ E3) by lia.
    rewrite (rd32_wr32_eq _ _ _ _ E2 Hc), <- Ec. by rewrite (rd32_wr32_ne _ _ _ _ _ E1) by lia.
Qed.

(** A completion whose tags do not fit into the message. *)
Lemma make_cpl_overrun op tags msg ret : Z.of_nat (length msg) < tags + 4 -> 12 <= tags -> make_cpl op tags msg ret = None.
Proof.
  intros Hl Ht. unfold make_cpl. destruct (wr32 msg MSG_OPCODE op) as [m1|] eqn:E1; [|done]. cbn [mbind option_bind].
  destruct (rd32 m1 MSG_CHAN) as [c|]; [|done]. cbn [mbind option_bind].
  destruct (wr32 m1 MSG_CHAN c) as [m2|] eqn:E2; [|done]. cbn [mbind option_bind].
  destruct (wr32 m2 MSG_RET ret) as [m3|] eqn:E3; [|done]. cbn [mbind option_bind].
  destruct (wr32 m3 tags 0) as [m4|] eqn:E4; [|done]. exfalso.
  apply wr_inv in E4 as (_ & H4 & _). rewrite length_le_bytes, (wr32_length _ _ _ _ E3), (wr32_length _ _ _ _ E2), (wr32_length _ _ _ _ E1) in H4.
  lia.
Qed.

Section Poll.
Context {W : Type} `{!FileApi W}.
Notation CM := (M (nvh W)).

Lemma wlp_answer {A} (m : CM A) (r : A -> option (list Z)) (P : list Z -> Prop) s :
  (forall a msg', r a = Some msg' -> P msg') -> wlp (m ≫= fun a => mlift (r a)) (fun msg' _ => P msg') s.
Proof.
  intros Hr. unfold wlp, mbind, M_bind, mlift. destruct (m s) as [[a s']|]; [|done].
  destruct (r a) as [msg'|] eqn:E; [|done]. by eapply Hr.
Qed.

Lemma superblock_copy_length name msg s :
  wlp (nvfuse_superblock_copy name msg) (fun r _ => length (snd r) = length msg) (s : nvh W).
Proof.
  unfold nvfuse_superblock_copy. apply wlp_bind, wlp_api. intros [[r fn] par] f w _. destruct (r <? 0); [done|].
  apply wlp_bind, wlp_api. intros [r1 d] f1 w1 _. destruct (r1 <? 0); [done|]. wlp_steps. cbn [snd].
  repeat match goal with H : wr64 _ _ _ = Some _ |- _ => apply wr_length in H
                       | H : wr32 _ _ _ = Some _ |- _ => apply wr_length in H
                       | H : wr _ _ _ = Some _ |- _ => apply wr_length in H end.
  congruence.
Qed.

(** What a completed request leaves in a message of the pool. *)
Definition replied (msg : list Z) (opcode : Z) (msg' : list Z) : Prop :=
  opcode <> SUPERBLOCK_COPY_REQ /\ answers msg msg' (reply_of opcode).

Lemma wlp_replied {A} (m : CM A) msg opcode op tags (f : A -> Z) s :
  opcode <> SUPERBLOCK_COPY_REQ -> reply_of opcode = op -> is_s32 op -> 12 <= tags ->
  wlp (m ≫= fun a => mlift (make_cpl op tags msg (f a))) (fun msg' _ => replied msg opcode msg') s.
Proof.
  intros Hne Hop Hs Ht. apply wlp_answer. intros a msg' E. split; [done|]. rewrite Hop. by eapply make_cpl_answers.
Qed.

Lemma reply_unknown opcode : opcode <> 1 -> opcode <> 3 -> opcode <> 5 -> opcode <> 7 -> opcode <> 9 -> opcode <> 11 ->
  opcode <> 13 -> opcode <> 15 -> opcode <> 17 -> opcode <> 19 -> reply_of opcode = UNKOWN_CPL.
Proof.
  intros. unfold reply_of, CONTAINER_RESERVATION_RELEASE_REQ, HEALTH_CHECK_REQ. rewrite (proj2 (Z.eqb_neq opcode 17)) by done.
  destruct (Z.leb_spec 1 opcode); [|done]. destruct (Z.leb_spec opcode 19); [|done]. cbn [andb].
  destruct (Z.odd opcode) eqn:E; [|done]. exfalso. apply Z.odd_spec in E as [x Ex]. lia.
Qed.

Ltac reply_case E :=
  apply Z.eqb_eq in E; rewrite E; do 2 ControlPlaneSpec.wlp_step; apply (wlp_replied _ _ _ _ _ id);
    [discriminate|reflexivity|vm_compute; split; [discriminate|reflexivity]|lia].

Lemma wlp_poll_replied msg s opcode : length msg = 128%nat -> rd32 msg MSG_OPCODE = Some opcode ->
  wlp (primary_poll_core msg) (fun msg' _ => replied msg opcode msg') (s : nvh W).
Proof.
  intros Hl Hop. unfold primary_poll_core, arg. wlp_step. rewrite Hop. apply wlp_lift. intros ? [= <-]. do 2 wlp_step.
  destruct (opcode =? APP_REGISTER_REQ) eqn:E1; [reply_case E1|].
  destruct (opcode =? APP_UNREGISTER_REQ) eqn:E2; [reply_case E2|].
  destruct (opcode =? SUPERBLOCK_COPY_REQ) eqn:E3.
  { do 2 wlp_step. wlp_step. eapply wlp_mono; [apply superblock_copy_length|]. intros [ret m] s1 Hm. cbn [snd] in Hm.
    wlp_step. exfalso. unfold nvfuse_make_superblock_copy_cpl in *. rewrite make_cpl_overrun in * by (rewrite ?Hm, ?Hl; simpl; lia). done. }
  destruct (opcode =? BUFFER_ALLOC_REQ) eqn:E4; [reply_case E4|].
  destruct (opcode =? BUFFER_FREE_REQ) eqn:E5; [reply_case E5|].
  destruct (opcode =? CONTAINER_ALLOC_REQ) eqn:E6; [reply_case E6|].
  destruct (opcode =? CONTAINER_RELEASE_REQ) eqn:E7; [reply_case E7|].
  destruct (opcode =? CONTAINER_RESERVATION_ACQUIRE_REQ) eqn:E8; [do 2 wlp_step; reply_case E8|].
  destruct (opcode =? CONTAINER_RESERVATION_RELEASE_REQ) eqn:E9; [reply_case E9|].
  destruct (opcode =? HEALTH_CHECK_REQ) eqn:E10.
  { apply Z.eqb_eq in E10. rewrite E10. apply (wlp_replied _ _ _ _ _ id);
      [discriminate|reflexivity|vm_compute; split; [discriminate|reflexivity]|lia]. }
  apply Z.eqb_neq in E1, E2, E3, E4, E5, E6, E7, E8, E9, E10. apply wlp_lift. intros msg' E. split; [done|].
  rewrite reply_unknown by done. eapply make_cpl_answers; [|done|exact E]. unfold is_s32, UNKOWN_CPL. lia.
Qed.

End Poll.

(** C37: every request that the dispatcher completes in a message of the pool
    (128 bytes) is answered on its own channel, with the completion that
    belongs to it, except that a reservation release is answered with the
    completion of an acquire; unknown opcodes get UNKOWN_CPL.  A superblock
    copy is never completed: its completion does not fit into the message. *)
Theorem poll_reply {W} `{!FileApi W} (s s' : nvh W) msg msg' opcode :
  length msg = 128%nat -> rd32 msg MSG_OPCODE = Some opcode -> primary_poll_core msg s = Some (msg', s') ->
  opcode <> SUPERBLOCK_COPY_REQ /\ rd32 msg' MSG_OPCODE = Some (reply_of opcode) /\
  rd32 msg' MSG_CHAN = rd32 msg MSG_CHAN.
Proof.
  intros Hl Hop Hrun. destruct (wlp_elim _ _ _ _ _ (wlp_poll_replied msg s opcode Hl Hop) Hrun) as [H1 H2]. by split.
Qed.

Lemma poll_reply_witness : exists msg',
  primary_poll_core (request CONTAINER_RESERVATION_ACQUIRE_REQ 2 1 RESV_READ_LOCK) (started 4) =
    Some (msg', run (primary_poll_core (request CONTAINER_RESERVATION_ACQUIRE_REQ 2 1 RESV_READ_LOCK)) (started 4)) /\
  rd32 msg' MSG_OPCODE = Some CONTAINER_RESERVATION_ACQUIRE_CPL /\ rd32 msg' MSG_CHAN = Some 2.
Proof.
  assert (exists msg', primary_poll_core (request CONTAINER_RESERVATION_ACQUIRE_REQ 2 1 RESV_READ_LOCK) (started 4) =
    Some (msg', run (primary_poll_core (request CONTAINER_RESERVATION_ACQUIRE_REQ 2 1 RESV_READ_LOCK)) (started 4))) as [msg' Hr]
    by (eexists; vm_compute; reflexivity).
  exists msg'. split; [exact Hr|].
  assert (length (request CONTAINER_RESERVATION_ACQUIRE_REQ 2 1 RESV_READ_LOCK) = 128%nat) as Hl by (vm_compute; reflexivity).
  assert (rd32 (request CONTAINER_RESERVATION_ACQUIRE_REQ 2 1 RESV_READ_LOCK) MSG_OPCODE =
    Some CONTAINER_RESERVATION_ACQUIRE_REQ) as Ho by (vm_compute; reflexivity).
  destruct (poll_reply _ _ _ _ _ Hl Ho Hr) as (_ & H1 & H2). split; [exact H1|]. rewrite H2. vm_compute. reflexivity.
Defined.

End IpcThms.
